(* ===== verification/_CoqProject ===== *)
-Q . S2P
Prelude.v
ZenErr.v
Ttl.v
Monad.v
Model.v
Runtime.v
DmnModel.v
Storage.v
InMemory.v
Locks.v
TimerManager.v
TimerStop.v
World.v
Conditions.v
Dmn.v
Instances.v
Tasks.v
Events.v
Gateways.v
SubProcess.v
Engine.v
Api.v
Frames.v
System.v
LockDiscipline.v
Runs.v
Example.v
Identity.v
GatewayProps.v
CancelProps.v
JobProps.v
LockProps.v
StorageProps.v
DmnProps.v
Utf8.v
ClusterState.v
Json.v
Snapshot.v
Fsm.v
ClusterStore.v
ClusterProps.v
ClusterQueries.v
Zenflake.v
Controller.v
ControllerProps.v
JobServer.v
JobServerProps.v
Sql.v
Pages.v
PartitionDB.v
PartitionWrite.v
PersistenceProps.v
ReadBack.v
FlushRefinement.v
StorageReads.v
Messages.v
MessageProps.v
JobClient.v
JobManager.v
JobClientProps.v
Commands.v
CommandProps.v
EngineCommands.v
Reads.v
RestReads.v
ReadsProps.v
Create.v
Decisions.v
CreateProps.v
EngineCreate.v
RunnerPool.v
Migrations.v
Bootstrap.v
Driver.v
RqLite.v
PartitionNode.v
References.v
Handover.v
Exporter.v
Lifecycle.v
