(* ===== verification/Prelude.v ===== *)
(** * Verification of the zenbpm process engine and its cluster

    zenbpm executes BPMN processes and DMN decisions on a cluster.  A process
    instance lives in one partition; a partition is a replicated SQLite database
    (rqlite) whose leader runs an engine; the nodes of the cluster agree on the
    partitions through a raft group of their own.  This library translates the
    program from src/ into Rocq and proves what makes its parts correct, and
    where a part does not do what it means to, what it does instead.

    ** How the parts interact

    A request of a client arrives at the REST or the gRPC server of a node
    (internal/rest, internal/grpc).  The node (internal/cluster/node.go) finds the
    partition of the key or of the correlation key in the cluster state
    (internal/cluster/state) and calls the cluster server of the leader, or for a
    read of a follower (internal/cluster/server).  The handler runs the operation
    on the engine of the partition (pkg/bpmn, pkg/dmn), or a query on its
    database.  The engine reads through the storage interface (pkg/storage) and
    writes through batches; the storage of a partition
    (internal/cluster/partition/partition_persistence.go) turns these into SQL
    statements (internal/sql), the one in memory (pkg/storage/inmemory) into
    updates of maps.  Jobs go from the engine's database over the job server of
    the leader to the job clients of all nodes (internal/cluster/jobmanager).
    The controller (internal/cluster/controller) makes the leader create
    partitions and each node start the partition nodes it was assigned
    (internal/cluster/partition/partition.go); it is told of changes by the state
    machine that applies the committed commands (internal/cluster/store).

    ** How the code is modelled

    - A Go function that reads or changes state is a program of the monad [ST] of
      Monad.v: it returns a value or an error, panics, waits for ever ([Block]) or
      runs out of fuel ([NoFuel]), with the state at that point.  The state of the
      engine is [World], that of the storage the class parameter of Storage.v, that of
      the raft store [Store], of a controller [ControllerWorld], of a job server
      [jobServer], of a job client [jobClient], of a partition's database [DB], of the
      cluster as clients see it the record of the file that models the calls.
    - An [error] of Go keeps the sentinels the code tests for and otherwise the format
      string with the errors it wraps; the values printed into a message are not kept.
    - Integers are [Z] with their wrap-around written where the code can reach it
      ([wrap32], [wrap64], [wrapu32], [u64]); floating point numbers are SpecFloat.
      Strings are sequences of bytes; UTF-8 is decoded where the code ranges over runes.
    - Go maps are finite maps; the order of ranging over a map is an arbitrary
      enumeration given to the definition, and the theorems hold for every one.
    - The storage in memory hands out the pointers it keeps: instances are pointers into
      a heap of objects, so that what a caller changes in an instance it changes in the
      storage.  The partition nodes of a process share one configuration object
      (PartitionNode.v).  Elsewhere records are passed as values because no two holders
      of a pointer change the same object.
    - Goroutines are modelled where they share state without a common lock: locks of
      instances (Locks.v), job clients (JobClient.v), script runners (RunnerPool.v), the
      timers while they are stopped (TimerStop.v), the observer of a partition
      (PartitionNode.v), the fan-out of a read (Reads.v).  There an operation is split at
      its accesses to shared state and steps interleave.
      The engine's own goroutines (continuations after a flush, timers) are steps of
      System.v that run one after another: the code holds the lock of the instance.

    ** The files

    Foundations:
    - Prelude.v: errors, results, integers, strings, lists, the tactics used everywhere.
    - Monad.v: the monad, loops, and the two styles of reasoning: [pres] (a relation
      between the states before and after) and [triple] (postconditions of the value and
      of the error); [Closed], for properties that the control structure keeps.
    - ZenErr.v: internal/cluster/zenerr.  Ttl.v: internal/cluster/types/ttl.go.
    - Utf8.v, Json.v: what the standard library does with strings and JSON.
    - Zenflake.v: pkg/zenflake, the layout of keys.

    The engine (pkg/bpmn, pkg/dmn):
    - Model.v, Runtime.v, DmnModel.v: the parsed models and the runtime records.
      References.v: the resolution of the references of a decoded process (helper.go).
    - Storage.v: the storage interface as a class, the statements of a batch as data, and
      the contract as laws; InMemory.v: the implementation in memory.
    - Locks.v: running_instances_cache.go.  TimerManager.v, TimerStop.v: timer_manager.go.
    - World.v: the state of the engine and the batch (engine_batch.go, engine.go).
    - Conditions.v, Dmn.v, Instances.v, Tasks.v, Events.v, Gateways.v, SubProcess.v,
      Engine.v: the handlers, by the files of pkg/bpmn and pkg/dmn named in each.
    - Api.v: the public operations (engine_api.go, jobs_api.go, events_api.go,
      timer_api.go, incident_api.go, xml_loader.go).
    - Frames.v: classes of relations that the engine keeps, by what they ask of the
      primitives ([PrimFrame], [CoreFrame], [EngineFrame]), and that its operations keep
      them; System.v, LockDiscipline.v: two such relations, the engine as a system of
      steps; Runs.v: the tactics that go through a run.
    - Handover.v: what a flow node does with its token, and a run with all the tokens it
      moves.
    - Exporter.v: exporter.go and pkg/bpmn/exporter.
    - GatewayProps.v, CancelProps.v, JobProps.v, LockProps.v, StorageProps.v, DmnProps.v,
      Identity.v: the theorems.  Example.v: a process and an environment to evaluate.

    The cluster (internal/cluster):
    - ClusterState.v (state/state.go), Fsm.v (store/fsm.go), Snapshot.v
      (store/snapshot.go), ClusterStore.v (store/store.go, store_helper.go);
      ClusterProps.v, ClusterQueries.v: their theorems.
    - Bootstrap.v: join.go, bootstrap.go and the handlers they call.
    - Lifecycle.v: opening, closing and waiting of the raft store; starting and stopping a
      node; the options of the engines; the profiling server; the jobs of a node; the
      handlers of the servers that belong nowhere else.
    - Controller.v, ControllerProps.v: controller/controller.go.
    - RqLite.v: the configuration of the rqlite stores and of a node (internal/config,
      partition/config.go), the listeners and dialers of internal/cluster/network.
    - PartitionNode.v: partition/partition.go with the callbacks of the controller.
    - JobServer.v, JobServerProps.v: jobmanager/server.go.  JobClient.v, JobManager.v,
      JobClientProps.v: jobmanager/client.go, manager.go, client/client_manager.go and the
      streams of internal/grpc/server.go.
    - Messages.v, MessageProps.v: messages across partitions.
    - Commands.v, CommandProps.v, EngineCommands.v: commands from REST to the engine.
    - Reads.v, RestReads.v, ReadsProps.v: reads from REST to the database.
    - Create.v, Decisions.v, CreateProps.v, EngineCreate.v: new instances, DMN resources
      and decisions.

    The database of a partition (internal/sql, internal/cluster/partition):
    - Sql.v, Pages.v: tables, statements and queries.
    - Migrations.v: sql/migrations.go and partition/migrations.go.
    - Driver.v: sql/driver.go and the parameters of a statement.
    - PartitionDB.v, PartitionWrite.v: partition_persistence.go.
    - PersistenceProps.v, ReadBack.v: their theorems.  FlushRefinement.v, StorageReads.v:
      the tables refine the abstract tables of Storage.v, in writing and in reading.

    Scripts: RunnerPool.v, pkg/script/pool.go.

    ** What the theorems show

    - The engine: which flows an exclusive, a parallel and an inclusive gateway take;
      cancelling an instance leaves nothing waiting when the queries of what waits are
      answered, and everything when the first of them is not; the failure of a job, an
      idempotent completion; a run hands over every running token; exporters are told of what is
      saved and what ends, and change nothing; instance objects keep their identity; every
      operation releases the locks it took, but for the trigger of a timer, which keeps
      the one of the instance when it fails after taking it; under any interleaving one
      goroutine holds the lock of an instance; the rules of a decision table that match and
      the output of its hit policy, both told from the document and the values of its
      expressions; the end of an acyclic evaluation.
    - The storage: the storage in memory implements the contract of the interface for
      every order of its maps; so does the batch of the persistent storage over tables
      that hold the contract's records, and its list queries of a running instance, but
      for the incidents, which come without their times and token; the
      statements of a request keep the tables of a partition well formed; a flush is all
      or nothing; a cleanup deletes what is finished with
      all its rows; what is saved is read back, through the driver too; one active
      subscription per pointer; migrations run once and in order.
    - The cluster: replicas keep an invariant and never panic on a committed entry;
      snapshots are restored; a single node reaches the desired partitions and then
      rests; a message reaches the subscription of its key when the node it arrives at has
      the partition of the key in its replica of the state; a cluster is
      formed once; booting ends; a store can be opened again after it was closed; a command
      runs on the engine of its partition and its caller sees the documented code; a
      deployment reaches every partition; an instance lives in the partition of its key;
      the pages of a partition list every instance once where no two are equal in the
      order asked for, and may repeat one where two are; jobs are out once and reach the client they are for.
    - Departures: stop of the timer manager may wait for ever; a partition never hears of
      its raft group; stopping a partition removes the id of another one; a store whose
      close failed panics at the next; evaluated decisions over REST share one output; an
      incoming id that names a flow node makes the loader panic; and theorems next to the
      ones above on pages that wrap, repeated history, reads that need an engine, a
      deadlock of the job client, and a waiter the pool forgets.

    ** Fuel and bounds

    [RunProcessInstance] and the operations that continue an instance take fuel: a process
    may loop for ever, so the theorems about their results speak of runs that return, and
    [NoFuel] is an outcome of its own that no theorem takes for a success.  The recursion
    over required decisions is bounded by the number of decisions when they are acyclic
    (DmnProps.acyclic_decision_evaluation_ends), over called instances that are cancelled by
    the depth given.  ParseTTL needs no more rounds than the string has bytes
    (Ttl.parse_terms_fuel); the loop over the rows of a query no more than the rows and one
    (Driver.stored_rows_are_read_back); Boot returns with the first event that ends it
    (Bootstrap.boot_ends).  Everything else is structurally recursive.

    ** Assumptions

    Code that is not in the repository is a parameter, and what is assumed of it a named
    hypothesis or a class of laws: the FEEL and script interpreters, time.Now, MD5 and the
    random ids ([Env] of World.v); the storage of an engine ([Storage] and its laws);
    the snowflake generator (its documented layout); the raft library ([Raft],
    [RaftObservers]); the polls and targets of rqlite's rsync ([Rsync]); gRPC and dialling
    ([Rpc], [Dial]); rqlite ([Database] with the
    failing queries, [RqEnv], [MigrationStore]); SQLite's order of a scan, the order in
    which tied rows reach a sort (any, and another one for every page) and LIKE
    ([TableScan], [SqlLike]); encoding/json of dynamic values; strconv.ParseFloat,
    FormatFloat and Unquote; the file system.  The interfaces inside the program are
    classes too, and the implementations of this development are shown to satisfy them:
    Storage by InMemory.v, EngineApi by EngineCommands.v and CreationApi by EngineCreate.v.

    ** Not modelled

    XML decoding (the models start from the decoded elements; the engine's from the
    resolved ones, References.v from the structures before); generated code (protobuf, gRPC,
    OpenAPI, sqlc's preparation of queries) beyond the messages and queries the code uses;
    the parsing of configuration files; logging, metrics and tracing, which do not change the state of a component; what files
    and connections answer when they are opened and closed; the interpreters behind the
    script runners; the multiplexer of connections; the generated clients of pkg/zenclient,
    the command in cmd/ and the test programs.

    ** What is left

    As theorems: that a running token that was handed over is processed or fails (the
    progress of an instance over all its goroutines), that the engine saves a stored record
    again only with the fields its upsert does not set unchanged (the hypothesis
    [keep_identity] of FlushRefinement.v), and the queries by key and of due timers against
    the contract. *)
From stdpp Require Export base numbers gmap strings list fin_maps sorting.
From Stdlib Require Export ZArith Lia.

#[global] Set Default Goal Selector "!".

(** ** Scopes *)

Declare Scope zen_scope.
Delimit Scope zen_scope with zen.

(** ** Tactics of the development *)

Create HintDb zen discriminated.

(** Case analysis on the first [match] or [if] of the goal, keeping the
    equation. *)
Ltac case_goal :=
  match goal with
  | |- context [match ?x with _ => _ end] => destruct x eqn:?
  end.

(** The same for a hypothesis. *)
Ltac case_hyp H :=
  match type of H with
  | context [match ?x with _ => _ end] => destruct x eqn:?
  end.

(** Turn boolean tests into propositions, in hypotheses and goal. *)
Ltac propify :=
  repeat match goal with
  | H : (_ && _)%bool = true |- _ => apply andb_true_iff in H as [??]
  | H : (_ || _)%bool = false |- _ => apply orb_false_iff in H as [??]
  | H : negb _ = true |- _ => apply negb_true_iff in H
  | H : negb _ = false |- _ => apply negb_false_iff in H
  | H : bool_decide _ = true |- _ => apply bool_decide_eq_true in H
  | H : bool_decide _ = false |- _ => apply bool_decide_eq_false in H
  | H : (_ =? _)%Z = true |- _ => apply Z.eqb_eq in H
  | H : (_ =? _)%Z = false |- _ => apply Z.eqb_neq in H
  | H : (_ <? _)%Z = true |- _ => apply Z.ltb_lt in H
  | H : (_ <? _)%Z = false |- _ => apply Z.ltb_ge in H
  | H : (_ <=? _)%Z = true |- _ => apply Z.leb_le in H
  | H : (_ <=? _)%Z = false |- _ => apply Z.leb_gt in H
  | H : (_ =? _)%nat = true |- _ => apply Nat.eqb_eq in H
  | H : (_ =? _)%nat = false |- _ => apply Nat.eqb_neq in H
  | H : (_ =? _)%string = true |- _ => apply String.eqb_eq in H
  | H : (_ =? _)%string = false |- _ => apply String.eqb_neq in H
  end.

(** ** Errors of the Go code

    An [error] keeps the sentinel errors the code tests with [errors.Is] and,
    for every other error, the format string it is built from with the errors
    it wraps ([%w] and [errors.Join]).  The values printed into the message are
    not kept.  A [ZenError] of internal/cluster/zenerr carries a code; it has no
    Unwrap method, so [errors.Is] does not look into it. *)
Inductive error :=
| ErrNotFound
| ErrUniqueConstraint
| ErrNoRows
| InvalidStateError
| ErrNotOpen
| ErrNotLeader
| ErrNodeNotFound
| ZenError (code : Z) (err : error)
| Errorf (fmt : string) (wrapped : list error).

Notation "'err!' s" := (Errorf s%string []) (at level 10, s at level 9).
Notation "'errw!' s es" := (Errorf s%string es) (at level 10, s at level 9, es at level 9).

(** [errors.Join(e1, e2)]. *)
Definition errors_Join (e1 e2 : error) : error := Errorf "errors.Join" [e1; e2].

(** [errors.Join(acc, err)] where [acc] starts as nil. *)
Definition join_opt (acc : option error) (e : error) : option error :=
  match acc with
  | None => Some (Errorf "errors.Join" [e])
  | Some a => Some (errors_Join a e)
  end.

(** [errors.Is] for a sentinel: the error itself or one it wraps. *)
Fixpoint errors_Is (sentinel : error → bool) (e : error) {struct e} : bool :=
  sentinel e ||
  match e with
  | Errorf _ es =>
      (fix go (l : list error) : bool :=
         match l with [] => false | x :: l' => errors_Is sentinel x || go l' end) es
  | _ => false
  end.

Definition is_ErrNotFound (e : error) : bool :=
  match e with ErrNotFound => true | _ => false end.
Definition is_ErrNoRows (e : error) : bool :=
  match e with ErrNoRows => true | _ => false end.

(** ** The result of a Go function returning a value and an error *)
Inductive result (A : Type) :=
| Good (a : A)
| Bad (e : error).
Arguments Good {A} a.
Arguments Bad {A} e.

#[export] Instance result_ret : MRet result := @Good.
#[export] Instance result_bind : MBind result := λ A B f r,
  match r with Good a => f a | Bad e => Bad e end.
#[export] Instance result_fmap : FMap result := λ A B f r,
  match r with Good a => Good (f a) | Bad e => Bad e end.

Definition is_Good {A} (r : result A) : bool :=
  match r with Good _ => true | Bad _ => false end.

(** Runs a fallible function over a list, stopping at the first error. *)
Fixpoint result_map {A B} (f : A → result B) (l : list A) : result (list B) :=
  match l with
  | [] => Good []
  | x :: l' => y ← f x; ys ← result_map f l'; Good (y :: ys)
  end.

Lemma result_map_length {A B} (f : A → result B) l ys :
  result_map f l = Good ys → length ys = length l.
Proof.
  revert ys. induction l as [|x l IH]; intros ys H; simpl in H; [by inv H|].
  destruct (f x); simpl in H; [|done].
  destruct (result_map f l) as [zs|] eqn:E; simpl in H; [|done].
  inv H. simpl. by rewrite (IH zs).
Qed.

(** ** Option and list lemmas *)

Lemma filter_none {A} (P : A → Prop) {HP : ∀ x, Decision (P x)} (l : list A) :
  (∀ x, x ∈ l → ¬ P x) → filter P l = [].
Proof.
  intros H. induction l as [|x l IH]; [done|].
  rewrite filter_cons. rewrite decide_False; [|apply H; left].
  apply IH. intros y Hy. apply H. by right.
Qed.

Lemma filter_all {A} (P : A → Prop) {HP : ∀ x, Decision (P x)} (l : list A) :
  (∀ x, x ∈ l → P x) → filter P l = l.
Proof.
  intros H. induction l as [|x l IH]; [done|].
  rewrite filter_cons. rewrite decide_True; [|apply H; left].
  f_equal. apply IH. intros y Hy. apply H. by right.
Qed.

Lemma Forall_filter_1 {A} (P Q : A → Prop) {HP : ∀ x, Decision (P x)} (l : list A) :
  Forall Q l → Forall Q (filter P l).
Proof.
  rewrite !Forall_forall. intros Hf x Hx. apply Hf. by apply list_elem_of_filter in Hx as [_ ?].
Qed.

(** ** strings.Split, for a separator of one character *)

Fixpoint Split (sep : Ascii.ascii) (s : string) : list string :=
  match s with
  | EmptyString => [EmptyString]
  | String c s' =>
      if Ascii.eqb c sep then EmptyString :: Split sep s'
      else match Split sep s' with
           | x :: l => String c x :: l
           | [] => [String c EmptyString]
           end
  end.

(** A string without the separator. *)
Definition lacks (sep : Ascii.ascii) (s : string) : Prop := Split sep s = [s].

Lemma Split_cons sep c s :
  Split sep (String c s) =
  if Ascii.eqb c sep then EmptyString :: Split sep s
  else match Split sep s with x :: l => String c x :: l | [] => [String c EmptyString] end.
Proof. reflexivity. Qed.

Lemma Split_not_nil sep s : Split sep s ≠ [].
Proof. destruct s as [|c s]; [done|]. rewrite Split_cons. destruct (Ascii.eqb c sep); [done|]. by destruct (Split sep s). Qed.

Lemma Split_app sep (x s : string) :
  lacks sep x → Split sep (String.append x (String sep s)) = x :: Split sep s.
Proof.
  unfold lacks. induction x as [|c x IH].
  - intros _. change (String.append "" (String sep s)) with (String sep s). by rewrite Split_cons, Ascii.eqb_refl.
  - change (String.append (String c x) (String sep s)) with (String c (String.append x (String sep s))).
    rewrite !Split_cons. destruct (Ascii.eqb c sep); [intros [=]|]. intros Hx.
    assert (Hl : Split sep x = [x]).
    { pose proof (Split_not_nil sep x). destruct (Split sep x) as [|y l]; [done|]. by injection Hx as -> ->. }
    by rewrite (IH Hl).
Qed.

Lemma Split_concat sep (l : list string) :
  l ≠ [] → Forall (lacks sep) l → Split sep (String.concat (String sep EmptyString) l) = l.
Proof.
  intros Hne Hl. induction Hl as [|x l Hx Hl IH]; [done|]. destruct l as [|y l]; [done|].
  change (String.concat (String sep EmptyString) (x :: y :: l))
    with (String.append x (String sep (String.concat (String sep EmptyString) (y :: l)))).
  by rewrite (Split_app _ _ _ Hx), IH.
Qed.

(** ** Machine integers: the wrap-around of int32 and int64 *)

Definition wrap32 (z : Z) : Z := ((z + 2 ^ 31) mod 2 ^ 32 - 2 ^ 31)%Z.
Definition wrap64 (z : Z) : Z := ((z + 2 ^ 63) mod 2 ^ 64 - 2 ^ 63)%Z.

Lemma wrap64_small z : (- 2 ^ 63 ≤ z < 2 ^ 63)%Z → wrap64 z = z.
Proof. intros Hz. unfold wrap64. rewrite Z.mod_small; lia. Qed.

(** Values of a map, as a list. *)
Definition map_values {A} (m : gmap Z A) : list A := (map_to_list m).*2.

Lemma elem_of_map_values {A} (m : gmap Z A) (x : A) :
  x ∈ map_values m ↔ ∃ k, m !! k = Some x.
Proof.
  unfold map_values. rewrite list_elem_of_fmap. split.
  - intros ([k y] & -> & H%elem_of_map_to_list). eauto.
  - intros (k & H%elem_of_map_to_list). by exists (k, x).
Qed.
