(* ===== verification/ZenErr.v ===== *)
(** The errors of the cluster API (internal/cluster/zenerr/errors.go): an error
    with a code, and its form in a response of the cluster protocol, which keeps
    the code and the text.  The text of an error is the format string of its
    outermost call: the values and the texts printed into it are not kept. *)
From S2P Require Import Prelude.

Definition NoErrorCode : Z := 0.
Definition TechnicalErrorCode : Z := 1.
Definition ClusterErrorCode : Z := 2.
Definition NotFoundCode : Z := 3.
Definition BadRequestCode : Z := 4.
Definition ConflictCode : Z := 5.

Definition ToString (code : Z) : string :=
  (if (code =? NoErrorCode)%Z then ""
   else if (code =? TechnicalErrorCode)%Z then "TECHNICAL_ERROR"
   else if (code =? ClusterErrorCode)%Z then "CLUSTER_ERROR"
   else if (code =? NotFoundCode)%Z then "NOT_FOUND"
   else if (code =? BadRequestCode)%Z then "BAD_REQUEST"
   else if (code =? ConflictCode)%Z then "CONFLICT"
   else "UNKNOWN_ERROR")%string.

Definition TechnicalError (err : error) : error := ZenError TechnicalErrorCode err.
Definition ClusterError (err : error) : error := ZenError ClusterErrorCode err.
Definition NotFound (err : error) : error := ZenError NotFoundCode err.
Definition BadRequest (err : error) : error := ZenError BadRequestCode err.
Definition Conflict (err : error) : error := ZenError ConflictCode err.

(** The method Error. *)
Fixpoint Error (e : error) : string :=
  match e with
  | ErrNotFound => "ErrNotFound"
  | ErrUniqueConstraint => "ErrUniqueConstraint"
  | ErrNoRows => "No result row"
  | InvalidStateError => "InvalidStateError"
  | ErrNotOpen => "store not open"
  | ErrNotLeader => "not leader"
  | ErrNodeNotFound => "node not found"
  | ZenError _ err => Error err
  | Errorf fmt _ => fmt
  end.

(** The error of a response: proto.ErrorResult. *)
Record ErrorResult := { er_Code : option Z; er_Message : option string }.

Definition ToProtoError (code : Z) (err : error) : ErrorResult :=
  {| er_Code := Some code; er_Message := Some (Error err) |}.

Definition ToZenError (protoError : ErrorResult) (err : error) : error :=
  let resErr :=
    match protoError.(er_Message) with
    | Some message => errors_Join err (Errorf message [])
    | None => Errorf "errors.Join" [err]
    end in
  ZenError (default TechnicalErrorCode protoError.(er_Code)) resErr.

(** The code a caller of the API sees. *)
Definition code_of (e : error) : Z :=
  match e with ZenError code _ => code | _ => NoErrorCode end.

(** The code survives the way through a response, the wrapped errors do not. *)
Lemma ToZenError_code code err e : code_of (ToZenError (ToProtoError code err) e) = code.
Proof. done. Qed.
