(* ===== verification/Ttl.v ===== *)
(** Durations of the history of instances (internal/cluster/types/ttl.go):
    ParseTTL, with its unsigned 64-bit arithmetic and the binary64 arithmetic
    of the fractions, and what it computes for durations without a fraction.

    A string is a sequence of bytes; the loops over it are recursions.  Each
    round of the outer loop consumes at least one byte, so the length of the
    string is enough fuel ([parse_terms_fuel]). *)
From Stdlib Require Import Ascii SpecFloat.
From S2P Require Import Prelude.

#[local] Open Scope string_scope.
#[local] Open Scope Z_scope.

(** ** Machine arithmetic *)

Definition u64 (z : Z) : Z := z mod 2 ^ 64.

Lemma u64_small z : 0 ≤ z < 2 ^ 64 → u64 z = z.
Proof. intros. by apply Z.mod_small. Qed.

Lemma u64_range z : 0 ≤ u64 z < 2 ^ 64.
Proof. by apply Z.mod_pos_bound. Qed.

(** float64, with the rounding of IEEE 754. *)
Definition float64 (z : Z) : spec_float := binary_normalize 53 1024 z 0 false.
Definition float64_mul : spec_float → spec_float → spec_float := SFmul 53 1024.
Definition float64_div : spec_float → spec_float → spec_float := SFdiv 53 1024.

(** [uint64(x)] truncates; outside of the range, and for what is not a number,
    Go does not specify the value. *)
Definition uint64_of (x : spec_float) : Z :=
  match x with
  | S754_finite false m e => u64 (if 0 <=? e then Z.pos m * 2 ^ e else Z.pos m / 2 ^ (- e))
  | _ => 0
  end.

(** ** The units *)

Definition Nanosecond : Z := 1.
Definition Microsecond : Z := 1000 * Nanosecond.
Definition Millisecond : Z := 1000 * Microsecond.
Definition Second : Z := 1000 * Millisecond.
Definition Minute : Z := 60 * Second.
Definition Hour : Z := 60 * Minute.
Definition Day : Z := 24 * Hour.
Definition Week : Z := 7 * Day.
Definition Month : Z := 30 * Day.
Definition Year : Z := 365 * Day.

(** The two spellings of the microsecond are U+00B5 and U+03BC. *)
Definition unitMap : list (string * Z) :=
  [("ns", Nanosecond); ("us", Microsecond); ("µs", Microsecond); ("μs", Microsecond);
   ("ms", Millisecond); ("s", Second); ("m", Minute); ("h", Hour); ("d", Day); ("w", Week);
   ("M", Month); ("Y", Year)].

Definition unit_of (u : string) : option Z := snd <$> List.find (λ p, (p.1 =? u)%string) unitMap.

(** ** Scanning *)

Definition code (c : ascii) : Z := Z.of_nat (nat_of_ascii c).
Definition is_digit (c : ascii) : bool := ((48 <=? code c) && (code c <=? 57))%bool.
Definition is_dot (c : ascii) : bool := (code c =? 46).

Definition errLeadingInt : error := err! "time: bad [0-9]*".

Fixpoint leadingInt (x : Z) (s : string) : result (Z * string) :=
  match s with
  | String c s' =>
      if is_digit c then
        if 2 ^ 63 / 10 <? x then Bad errLeadingInt
        else
          let x := u64 (u64 (x * 10 + code c) - 48) in
          if 2 ^ 63 <? x then Bad errLeadingInt else leadingInt x s'
      else Good (x, s)
  | EmptyString => Good (x, s)
  end.

Fixpoint leadingFraction (x : Z) (scale : spec_float) (overflow : bool) (s : string)
    : Z * spec_float * string :=
  match s with
  | String c s' =>
      if is_digit c then
        if overflow then leadingFraction x scale true s'
        else if (2 ^ 63 - 1) / 10 <? x then leadingFraction x scale true s'
        else
          let y := u64 (u64 (x * 10 + code c) - 48) in
          if 2 ^ 63 <? y then leadingFraction x scale true s'
          else leadingFraction y (float64_mul scale (float64 10)) false s'
      else (x, scale, s)
  | EmptyString => (x, scale, s)
  end.

(** The unit: everything up to a period or a digit. *)
Fixpoint leadingUnit (s : string) : string * string :=
  match s with
  | String c s' =>
      if (is_dot c || is_digit c)%bool then (EmptyString, s)
      else let '(u, rem) := leadingUnit s' in (String c u, rem)
  | EmptyString => (EmptyString, s)
  end.

Definition invalid_TTL : error := err! "time: invalid TTL %q".

(** One round of the loop: a number with a unit, and what is left. *)
Definition parse_term (s : string) : result (Z * string) :=
  match s with
  | EmptyString => Bad invalid_TTL
  | String c _ =>
      if negb (is_dot c || is_digit c) then Bad invalid_TTL
      else
        match leadingInt 0 s with
        | Bad _ => Bad invalid_TTL
        | Good (v, s1) =>
            let pre := negb (String.length s =? String.length s1)%nat in
            let '(f, scale, post, s2) :=
              match s1 with
              | String d s' =>
                  if is_dot d then
                    let '(f, scale, s2) := leadingFraction 0 (float64 1) false s' in
                    (f, scale, negb (String.length s' =? String.length s2)%nat, s2)
                  else (0, float64 1, false, s1)
              | EmptyString => (0, float64 1, false, s1)
              end in
            if (negb pre && negb post)%bool then Bad invalid_TTL
            else
              let '(u, s3) := leadingUnit s2 in
              if (u =? "")%string then Bad (err! "time: missing unit in TTL %q")
              else
                match unit_of u with
                | None => Bad (err! "time: unknown unit %q in TTL %q")
                | Some unit =>
                    if 2 ^ 63 / unit <? v then Bad invalid_TTL
                    else
                      let v := u64 (v * unit) in
                      if 0 <? f then
                        let v := u64 (v + uint64_of (float64_mul (float64 f) (float64_div (float64 unit) scale))) in
                        if 2 ^ 63 <? v then Bad invalid_TTL else Good (v, s3)
                      else Good (v, s3)
                end
        end
  end.

Fixpoint parse_terms (fuel : nat) (ttl : Z) (s : string) : result Z :=
  match s, fuel with
  | EmptyString, _ => Good ttl
  | _, O => Bad invalid_TTL
  | _, S fuel =>
      match parse_term s with
      | Bad e => Bad e
      | Good (v, s') =>
          let ttl := u64 (ttl + v) in
          if 2 ^ 63 <? ttl then Bad invalid_TTL else parse_terms fuel ttl s'
      end
  end.

(** [TTL(-ttl)] negates in uint64 and converts to int64. *)
Definition ParseTTL (s : string) : result Z :=
  let '(neg, s) :=
    match s with
    | String c s' => if ((code c =? 45) || (code c =? 43))%bool then ((code c =? 45), s') else (false, s)
    | EmptyString => (false, s)
    end in
  if (s =? "0")%string then Good 0
  else if (s =? "")%string then Bad invalid_TTL
  else
    match parse_terms (String.length s) 0 s with
    | Bad e => Bad e
    | Good ttl =>
        if neg then Good (wrap64 (u64 (- ttl)))
        else if 2 ^ 63 - 1 <? ttl then Bad invalid_TTL else Good (wrap64 ttl)
    end.

(** The three decoders: from an attribute, from JSON ([Unquote] of the
    standard library's strconv) and from text. *)
Definition TTL_UnmarshalXMLAttr (value : string) : result Z :=
  match ParseTTL value with
  | Good ttl => Good ttl | Bad e => Bad (errw! "failed to parse TTL string: %w" [e])
  end.
Definition TTL_UnmarshalJSON (Unquote : string → result string) (s : string) : result Z :=
  match Unquote s with
  | Bad e => Bad (errw! "failed to unquote TTL string: %w" [e])
  | Good str =>
      match ParseTTL str with
      | Good ttl => Good ttl | Bad e => Bad (errw! "failed to parse TTL string: %w" [e])
      end
  end.
Definition TTL_UnmarshalText (s : string) : result Z :=
  match ParseTTL s with
  | Good ttl => Good ttl | Bad e => Bad (errw! "failed to parse TTL string: %w" [e])
  end.

Example one_and_a_half_hours : ParseTTL "1.5h" = Good (90 * Minute).
Proof. vm_compute. reflexivity. Qed.
Example a_year_and_a_day : ParseTTL "-1Y1d" = Good (- 366 * Day).
Proof. vm_compute. reflexivity. Qed.
Example a_third_of_a_year : ParseTTL "0.333333333Y" = Good 10511999989488000.
Proof. vm_compute. reflexivity. Qed.
Example no_unit : is_Good (ParseTTL "12") = false.
Proof. vm_compute. reflexivity. Qed.

(** ** What is computed for durations without a fraction *)

Fixpoint all_digits (s : string) : bool :=
  match s with EmptyString => true | String c s' => (is_digit c && all_digits s')%bool end.

(** The number that a sequence of digits continues [x] to. *)
Fixpoint digits_value (x : Z) (d : string) : Z :=
  match d with EmptyString => x | String c d' => digits_value (x * 10 + (code c - 48)) d' end.

(** A number and a unit. *)
Definition term : Type := string * string.
Definition term_value (t : term) : Z := digits_value 0 t.1 * default 0 (unit_of t.2).
Definition whole_term (t : term) : Prop :=
  t.1 ≠ "" ∧ all_digits t.1 = true ∧ is_Some (unit_of t.2).
Definition text_of (ts : list term) : string := foldr (λ t s, t.1 +:+ t.2 +:+ s) "" ts.
Definition total (ts : list term) : Z := foldr (λ t z, term_value t + z) 0 ts.

Definition starts_with_digit (s : string) : bool :=
  match s with String c _ => is_digit c | EmptyString => false end.

Lemma is_digit_code c : is_digit c = true → 48 ≤ code c ≤ 57.
Proof. unfold is_digit. intros. propify. lia. Qed.

Lemma digits_value_ge x d : 0 ≤ x → all_digits d = true → x ≤ digits_value x d.
Proof.
  revert x. induction d as [|c d IH]; intros x Hx Hd; simpl in *; [lia|].
  apply andb_true_iff in Hd as [Hc%is_digit_code Hd]. specialize (IH (x * 10 + (code c - 48))).
  etransitivity; [|apply IH; [lia|done]]. lia.
Qed.

Lemma leadingInt_digits d rest x :
  0 ≤ x ≤ 2 ^ 63 → all_digits d = true → starts_with_digit rest = false →
  leadingInt x (d +:+ rest) =
    if digits_value x d <=? 2 ^ 63 then Good (digits_value x d, rest) else Bad errLeadingInt.
Proof.
  revert x. induction d as [|c d IH]; intros x Hx Hd Hr; simpl in *.
  - rewrite (proj2 (Z.leb_le _ _)) by lia. destruct rest as [|c rest]; simpl in *; [done|by rewrite Hr].
  - apply andb_true_iff in Hd as [Hc Hd]. rewrite Hc. apply is_digit_code in Hc.
    pose proof (digits_value_ge (x * 10 + (code c - 48)) d) as Hge.
    change (2 ^ 63 / 10) with 922337203685477580.
    destruct (Z.ltb_spec 922337203685477580 x) as [H|H].
    { rewrite (proj2 (Z.leb_gt _ _)); [done|]. specialize (Hge ltac:(lia) Hd). lia. }
    rewrite (u64_small (x * 10 + code c)) by lia. rewrite u64_small by lia.
    replace (x * 10 + code c - 48) with (x * 10 + (code c - 48)) by lia.
    destruct (Z.ltb_spec (2 ^ 63) (x * 10 + (code c - 48))) as [H'|H'].
    { rewrite (proj2 (Z.leb_gt _ _)); [done|]. specialize (Hge ltac:(lia) Hd). lia. }
    apply IH; [lia|done|done].
Qed.

(** The units start like no number, and end before one. *)
Definition unit_text (u : string) : bool :=
  match u with
  | EmptyString => false
  | String _ _ => forallb (λ c, negb (is_dot c || is_digit c)) (String.list_ascii_of_string u)
  end.

Lemma unit_of_text u k : unit_of u = Some k → unit_text u = true ∧ 0 < k.
Proof.
  unfold unit_of. rewrite fmap_Some. intros ([u' k'] & [Hin He]%List.find_some & ->).
  simpl in He. apply String.eqb_eq in He as <-. simpl in Hin.
  repeat (destruct Hin as [[= <- <-]|Hin]; [split; [reflexivity|by vm_compute]|]). done.
Qed.

Definition number_or_end (s : string) : bool :=
  match s with String c _ => is_digit c | EmptyString => true end.

Lemma leadingUnit_text u rest :
  unit_text u = true → number_or_end rest = true → leadingUnit (u +:+ rest) = (u, rest).
Proof.
  intros Hu Hr. destruct u as [|c u]; [done|]. unfold unit_text in Hu.
  revert Hu. generalize (String c u). clear c u. induction s as [|c s IH]; simpl; intros Hu.
  - destruct rest as [|c rest]; simpl in *; [done|]. by rewrite Hr, orb_true_r.
  - apply andb_true_iff in Hu as [Hc%negb_true_iff Hu]. by rewrite Hc, (IH Hu).
Qed.

Lemma string_length_app s t : String.length (s +:+ t) = (String.length s + String.length t)%nat.
Proof. induction s as [|c s IH]; simpl; [done|]. by rewrite IH. Qed.

Lemma parse_whole_term t rest :
  whole_term t → number_or_end rest = true →
  parse_term (t.1 +:+ t.2 +:+ rest) =
    if term_value t <=? 2 ^ 63 then Good (term_value t, rest) else Bad invalid_TTL.
Proof.
  destruct t as [d u]. intros (Hne & Hd & [k Hk]) Hr. simpl in *.
  destruct (unit_of_text u k Hk) as [Hu Hpos].
  assert (Hstart : starts_with_digit (u +:+ rest) = false).
  { destruct u as [|c u]; [done|]. unfold unit_text in Hu. simpl in Hu.
    apply andb_true_iff in Hu as [Hc%negb_true_iff _]. by apply orb_false_iff in Hc as [_ ?]. }
  unfold term_value. simpl. rewrite Hk. simpl.
  destruct d as [|c d]; [done|]. unfold parse_term.
  change (String c d +:+ u +:+ rest) with (String c (d +:+ u +:+ rest)).
  pose proof (leadingInt_digits (String c d) (u +:+ rest) 0 ltac:(lia) Hd Hstart) as Hint.
  change (String c d +:+ u +:+ rest) with (String c (d +:+ u +:+ rest)) in Hint. rewrite Hint.
  pose proof (digits_value_ge 0 (String c d) ltac:(lia) Hd) as Hpos'.
  assert (Hc : is_digit c = true) by (simpl in Hd; by apply andb_true_iff in Hd as [? _]).
  rewrite Hc, orb_true_r. cbn [negb]. set (v := digits_value 0 (String c d)) in *.
  destruct (Z.leb_spec v (2 ^ 63)) as [Hv|Hv].
  2:{ rewrite (proj2 (Z.leb_gt _ _)); [done|]. nia. }
  replace (String.length (String c (d +:+ u +:+ rest)) =? String.length (u +:+ rest))%nat with false.
  2:{ symmetry. apply Nat.eqb_neq. cbn [String.length]. rewrite string_length_app. lia. }
  cbn [negb andb].
  destruct (u +:+ rest) as [|c' s'] eqn:Es.
  { destruct u; done. }
  assert (Hnd : is_dot c' = false).
  { destruct u as [|c'' u]; [done|]. injection Es as -> _. unfold unit_text in Hu. simpl in Hu.
    apply andb_true_iff in Hu as [Hx%negb_true_iff _]. by apply orb_false_iff in Hx as [? _]. }
  rewrite Hnd, <- Es, (leadingUnit_text u rest Hu Hr).
  destruct (String.eqb_spec u "") as [->|_]; [done|]. rewrite Hk.
  destruct (Z.ltb_spec (2 ^ 63 / k) v) as [H|H].
  - rewrite (proj2 (Z.leb_gt _ _)); [done|].
    pose proof (Z.mul_succ_div_gt (2 ^ 63) k Hpos). nia.
  - pose proof (Z.mul_div_le (2 ^ 63) k Hpos).
    rewrite (proj2 (Z.leb_le _ _)) by nia. cbn [Z.ltb Z.compare]. by rewrite u64_small by nia.
Qed.

Lemma total_nonneg ts : Forall whole_term ts → 0 ≤ total ts.
Proof.
  induction 1 as [|[d u] ts (_ & Hd & [k Hk]) _ IH]; simpl; [lia|].
  unfold term_value. simpl in *. rewrite Hk. simpl. pose proof (digits_value_ge 0 d ltac:(lia) Hd).
  pose proof (proj2 (unit_of_text _ _ Hk)). nia.
Qed.

Lemma term_value_nonneg t : whole_term t → 0 ≤ term_value t.
Proof. intros Ht. pose proof (total_nonneg [t] (Forall_cons_2 _ _ _ Ht (Forall_nil_2 _))). simpl in *. lia. Qed.

Lemma text_of_start ts : Forall whole_term ts → number_or_end (text_of ts) = true.
Proof.
  destruct 1 as [|[[|c d] u] ts (Hne & Hd & _) _]; simpl in *; [done|done|].
  by apply andb_true_iff in Hd as [? _].
Qed.

(** The loop adds the terms; a sum above 2^63 stops it. *)
Lemma parse_terms_text fuel ttl ts :
  Forall whole_term ts → (length ts ≤ fuel)%nat → 0 ≤ ttl ≤ 2 ^ 63 → ttl + total ts < 2 ^ 64 →
  parse_terms fuel ttl (text_of ts) =
    if ttl + total ts <=? 2 ^ 63 then Good (ttl + total ts) else Bad invalid_TTL.
Proof.
  intros Hts. revert fuel ttl. induction Hts as [|t ts Ht Hts IH]; intros fuel ttl Hf Httl Hlt; simpl in *.
  - rewrite Z.add_0_r. rewrite (proj2 (Z.leb_le _ _)) by lia. by destruct fuel.
  - destruct fuel as [|fuel]; [lia|]. pose proof (term_value_nonneg t Ht) as Hv.
    pose proof (total_nonneg ts Hts) as Htot. pose proof (text_of_start ts Hts) as Hs.
    pose proof (parse_whole_term t (text_of ts) Ht Hs) as Hp.
    destruct (t.1 +:+ t.2 +:+ text_of ts) as [|c s] eqn:E.
    { destruct Ht as (Hne & _). by destruct t as [[|c d] u]. }
    cbn [parse_terms]. rewrite Hp.
    destruct (Z.leb_spec (term_value t) (2 ^ 63)) as [Hle|Hle].
    2:{ rewrite (proj2 (Z.leb_gt _ _)) by lia. done. }
    rewrite u64_small by lia. destruct (Z.ltb_spec (2 ^ 63) (ttl + term_value t)) as [H|H].
    { rewrite (proj2 (Z.leb_gt _ _)) by lia. done. }
    rewrite IH by lia. by rewrite Z.add_assoc.
Qed.

(** More fuel than the length of the string changes nothing. *)
Lemma leadingInt_length x s v s' :
  leadingInt x s = Good (v, s') → (String.length s' ≤ String.length s)%nat.
Proof.
  revert x. induction s as [|c s IH]; intros x E; simpl in *; [by simplify_eq|].
  repeat case_match; simplify_eq/=; [|lia]. apply IH in E. lia.
Qed.
Lemma leadingFraction_length x scale o s f sc s' :
  leadingFraction x scale o s = (f, sc, s') → (String.length s' ≤ String.length s)%nat.
Proof.
  revert x scale o. induction s as [|c s IH]; intros x scale o E; simpl in *; [by simplify_eq|].
  repeat case_match; simplify_eq/=; try lia; apply IH in E; lia.
Qed.
Lemma leadingUnit_length s u s' :
  leadingUnit s = (u, s') → (String.length u + String.length s' = String.length s)%nat.
Proof.
  revert u. induction s as [|c s IH]; intros u E; simpl in *; [by simplify_eq|].
  repeat case_match; simplify_eq/=; [lia|]. by rewrite (IH _ eq_refl).
Qed.

Lemma parse_term_length s v s' :
  parse_term s = Good (v, s') → (String.length s' < String.length s)%nat.
Proof.
  unfold parse_term. destruct s as [|c s]; [done|]. destruct (negb _); [done|].
  destruct (leadingInt 0 (String c s)) as [[v1 s1]|] eqn:E1; [|done]. apply leadingInt_length in E1.
  intros E. destruct (match s1 with EmptyString => _ | String d s' => _ end) as [[[f sc] post] s2] eqn:E2.
  assert (H2 : (String.length s2 ≤ String.length s1)%nat).
  { destruct s1 as [|d s1]; [by simplify_eq/=|]. destruct (is_dot d); [|by simplify_eq/=].
    destruct (leadingFraction _ _ _ _) as [[f' sc'] s2'] eqn:E3. simplify_eq.
    apply leadingFraction_length in E3. simpl. lia. }
  destruct (negb _ && negb _)%bool; [done|]. destruct (leadingUnit s2) as [u s3] eqn:E3.
  apply leadingUnit_length in E3. destruct (String.eqb_spec u ""); [done|].
  assert (0 < String.length u)%nat by (destruct u; simpl; [done|lia]).
  destruct (unit_of u); [|done]. repeat case_match; simplify_eq/=; lia.
Qed.

Lemma parse_terms_fuel n m ttl s :
  (String.length s ≤ n)%nat → (String.length s ≤ m)%nat → parse_terms n ttl s = parse_terms m ttl s.
Proof.
  revert m ttl s. induction n as [|n IH]; intros m ttl s Hn Hm.
  - destruct s; [by destruct m|simpl in Hn; lia].
  - destruct s as [|c s]; [by destruct m|]. destruct m as [|m]; [simpl in Hm; lia|].
    cbn [parse_terms]. destruct (parse_term (String c s)) as [[v s']|] eqn:E; [|done].
    apply parse_term_length in E. destruct (2 ^ 63 <? _); [done|]. apply IH; lia.
Qed.

Lemma text_of_length ts : Forall whole_term ts → (length ts ≤ String.length (text_of ts))%nat.
Proof.
  induction 1 as [|[d u] ts (Hne & _) _ IH]; simpl in *; [lia|]. rewrite !string_length_app.
  destruct d; simpl; [done|lia].
Qed.

Lemma ParseTTL_signed neg s :
  ParseTTL (if neg : bool then String "-" s else String "+" s) =
    if (s =? "0")%string then Good 0
    else if (s =? "")%string then Bad invalid_TTL
    else match parse_terms (String.length s) 0 s with
         | Bad e => Bad e
         | Good ttl => if neg then Good (wrap64 (u64 (- ttl)))
                       else if 2 ^ 63 - 1 <? ttl then Bad invalid_TTL else Good (wrap64 ttl)
         end.
Proof. by destruct neg. Qed.

Lemma ParseTTL_unsigned s :
  starts_with_digit s = true → ParseTTL s = ParseTTL (String "+" s).
Proof.
  destruct s as [|c s]; [done|]. intros Hc%is_digit_code. unfold ParseTTL at 1.
  rewrite (proj2 (Z.eqb_neq (code c) 45)), (proj2 (Z.eqb_neq (code c) 43)) by lia. done.
Qed.

(** C40: ParseTTL computes the sum of the terms of a duration without a
    fraction, with its sign, exactly when it is in the range of int64, and
    answers an error otherwise; nothing wraps as long as the sum is below
    2^64. *)
Theorem ParseTTL_whole_terms ts :
  Forall whole_term ts → ts ≠ [] → total ts < 2 ^ 64 →
  ParseTTL (text_of ts) = (if total ts <? 2 ^ 63 then Good (total ts) else Bad invalid_TTL) ∧
  ParseTTL (String "+" (text_of ts)) = ParseTTL (text_of ts) ∧
  ParseTTL (String "-" (text_of ts)) = (if total ts <=? 2 ^ 63 then Good (- total ts) else Bad invalid_TTL).
Proof.
  intros Hts Hne Hlt. pose proof (total_nonneg ts Hts) as Hpos.
  pose proof (parse_terms_text (String.length (text_of ts)) 0 ts Hts (text_of_length ts Hts)
                ltac:(lia) ltac:(lia)) as Hp.
  assert (Hd : starts_with_digit (text_of ts) = true).
  { destruct Hts as [|[[|c d] u] ts (Hne' & Hd & _) _]; simpl in *; [done|done|].
    by apply andb_true_iff in Hd as [? _]. }
  assert (H0 : (text_of ts =? "0")%string = false).
  { destruct Hts as [|[d u] ts (Hne' & _ & [k Hk]) _]; [done|]. apply String.eqb_neq. simpl in *.
    intros E. apply (f_equal String.length) in E. rewrite !string_length_app in E. simpl in E.
    apply unit_of_text in Hk as [Hu _]. destruct d, u; simpl in *; try done; lia. }
  assert (H1 : (text_of ts =? "")%string = false) by (by destruct (text_of ts)).
  pose proof (ParseTTL_signed true (text_of ts)) as Hm. pose proof (ParseTTL_signed false (text_of ts)) as Hs.
  rewrite H0, H1, Hp, Z.add_0_l in Hm, Hs. cbv beta iota in Hm, Hs.
  rewrite (ParseTTL_unsigned _ Hd), Hs, Hm.
  split_and!; [|done|]; destruct (Z.leb_spec (total ts) (2 ^ 63)).
  - destruct (Z.ltb_spec (2 ^ 63 - 1) (total ts)); destruct (Z.ltb_spec (total ts) (2 ^ 63)); try lia; [done|].
    f_equal. apply wrap64_small. lia.
  - destruct (Z.ltb_spec (total ts) (2 ^ 63)); [lia|done].
  - f_equal. unfold u64, wrap64. destruct (decide (total ts = 0)) as [->|]; [done|].
    rewrite <- (Z.mod_unique (- total ts) (2 ^ 64) (-1) (2 ^ 64 - total ts)) by lia.
    rewrite <- (Z.mod_unique (2 ^ 64 - total ts + 2 ^ 63) (2 ^ 64) 1 (2 ^ 63 - total ts)); lia.
  - done.
Qed.

Lemma ParseTTL_whole_terms_witness :
  Forall whole_term [("1", "Y"); ("06", "h")] ∧ ParseTTL "-1Y06h" = Good (- (Year + 6 * Hour)).
Proof.
  assert (H : Forall whole_term [("1", "Y"); ("06", "h")]).
  { repeat constructor; try done; by eexists. }
  split; [done|]. refine (proj2 (proj2 (ParseTTL_whole_terms [("1", "Y"); ("06", "h")] H _ _))); done.
Defined.

(** Two terms of 2^63 ns each wrap to zero, and no error is answered. *)
Lemma ParseTTL_sum_wraps : ParseTTL "9223372036854775808ns9223372036854775808ns" = Good 0.
Proof. vm_compute. reflexivity. Qed.

(** The value is always one of int64; for a negative duration the bound is
    kept because no sum above 2^63 gets through. *)
Lemma ParseTTL_range s t : ParseTTL s = Good t → - 2 ^ 63 ≤ t < 2 ^ 63.
Proof.
  assert (Hw : ∀ z, - 2 ^ 63 ≤ wrap64 z < 2 ^ 63).
  { intros z. unfold wrap64. pose proof (Z.mod_pos_bound (z + 2 ^ 63) (2 ^ 64)). lia. }
  unfold ParseTTL. intros E. repeat case_match; simplify_eq/=; try lia; apply Hw.
Qed.
