(* ===== verification/Monad.v ===== *)
(** The monad the stateful Go code is written in: explicit state passing with
    the outcomes a Go call can have, the loops the code uses, and two ways to
    reason about a program: [pres] (a relation between the states before and
    after a call that returns, with a value or an error) and [triple] (postconditions of the returned
    value and of the returned error).  Every stateful component of the development is an [ST] program. *)
From S2P Require Import Prelude.

(** How a call ends: it returns a value, it returns an error, it panics, it
    waits for a mutex that nothing in the modelled run releases, or the fuel
    of a modelled loop is exhausted. *)
Inductive outcome (A : Type) :=
| Ret (a : A)
| Err (e : error)
| Panic (msg : string)
| Block
| NoFuel.
Arguments Ret {A} a.
Arguments Err {A} e.
Arguments Panic {A} msg.
Arguments Block {A}.
Arguments NoFuel {A}.

Definition ST (S A : Type) : Type := S → outcome A * S.

Section ops.
Context {S : Type}.

#[export] Instance ST_ret : MRet (ST S) := λ A a s, (Ret a, s).
#[export] Instance ST_bind : MBind (ST S) := λ A B f m s,
  match m s with
  | (Ret a, s') => f a s'
  | (Err e, s') => (Err e, s')
  | (Panic p, s') => (Panic p, s')
  | (Block, s') => (Block, s')
  | (NoFuel, s') => (NoFuel, s')
  end.

Definition throw {A} (e : error) : ST S A := λ s, (Err e, s).
Definition panic {A} (msg : string) : ST S A := λ s, (Panic msg, s).
Definition block {A} : ST S A := λ s, (Block, s).
Definition nofuel {A} : ST S A := λ s, (NoFuel, s).
Definition get : ST S S := λ s, (Ret s, s).
Definition gets {A} (f : S → A) : ST S A := λ s, (Ret (f s), s).
Definition modify (f : S → S) : ST S unit := λ s, (Ret tt, f s).

(** A Go call [v, err := f(...)] followed by [if err != nil { return err }]. *)
Definition of_result {A} (r : result A) : ST S A :=
  match r with Good a => mret a | Bad e => throw e end.

Definition wrap_result {A} (w : error → error) (r : result A) : ST S A :=
  match r with Good a => mret a | Bad e => throw (w e) end.

(** A dereference of a possibly nil pointer. *)
Definition deref {A} (o : option A) : ST S A :=
  match o with Some a => mret a | None => panic "nil pointer dereference" end.

(** The call seen by a caller that inspects the error itself. *)
Definition attempt {A} (m : ST S A) : ST S (result A) := λ s,
  match m s with
  | (Ret a, s') => (Ret (Good a), s')
  | (Err e, s') => (Ret (Bad e), s')
  | (Panic p, s') => (Panic p, s')
  | (Block, s') => (Block, s')
  | (NoFuel, s') => (NoFuel, s')
  end.

(** [return fmt.Errorf("...: %w", err)]. *)
Definition wrap {A} (w : error → error) (m : ST S A) : ST S A :=
  r ← attempt m; wrap_result w r.

(** [defer func() { if retErr != nil { h() } }()]. *)
Definition on_error {A} (m : ST S A) (h : ST S unit) : ST S A :=
  r ← attempt m;
  match r with
  | Good a => mret a
  | Bad e => h ;; throw e
  end.

(** [defer h()]: run on return, with or without an error. *)
Definition deferred {A} (m : ST S A) (h : ST S unit) : ST S A :=
  r ← attempt m; h ;; of_result r.

(** [for _, x := range l { f(x) }]: an error of the body returns. *)
Fixpoint for_each {A} (l : list A) (f : A → ST S unit) : ST S unit :=
  match l with
  | [] => mret tt
  | x :: l' => f x ;; for_each l' f
  end.

(** The same loop, building a slice with one element per iteration. *)
Fixpoint for_map {A B} (l : list A) (f : A → ST S B) : ST S (list B) :=
  match l with
  | [] => mret []
  | x :: l' => y ← f x; ys ← for_map l' f; mret (y :: ys)
  end.

(** The same loop, updating a local variable. *)
Fixpoint for_fold {A B} (l : list A) (b : B) (f : B → A → ST S B) : ST S B :=
  match l with
  | [] => mret b
  | x :: l' => b' ← f b x; for_fold l' b' f
  end.
End ops.

(** Runs a program of a component on the part of the state it owns. *)
Definition zoom {S T A} (gt : S → T) (st : T → S → S) (m : ST T A) : ST S A :=
  λ s, let '(o, t) := m (gt s) in (o, st t s).

(** ** Relations between the states before and after *)

(** The call returned, with or without an error. *)
Definition returns {A} (o : outcome A) : Prop :=
  match o with Ret _ | Err _ => True | _ => False end.

Section frames.
Context {S : Type} (R : S → S → Prop) `{!PreOrder R}.

Definition pres {A} (m : ST S A) : Prop :=
  ∀ s, match m s with (Ret _, s') | (Err _, s') => R s s' | _ => True end.

Lemma pres_returns {A} (m : ST S A) s o s' : pres m → m s = (o, s') → returns o → R s s'.
Proof. intros Hm E Ho. specialize (Hm s). rewrite E in Hm. by destruct o. Qed.

Lemma pres_ret {A} (a : A) : pres (mret a).
Proof. intros s. simpl. reflexivity. Qed.
Lemma pres_throw {A} e : pres (throw e : ST S A).
Proof. intros s. simpl. reflexivity. Qed.
Lemma pres_panic {A} p : pres (panic p : ST S A).
Proof. done. Qed.
Lemma pres_block {A} : pres (block : ST S A).
Proof. done. Qed.
Lemma pres_nofuel {A} : pres (nofuel : ST S A).
Proof. done. Qed.
Lemma pres_get : pres get.
Proof. intros s. simpl. reflexivity. Qed.
Lemma pres_gets {A} (f : S → A) : pres (gets f).
Proof. intros s. simpl. reflexivity. Qed.
Lemma pres_modify (f : S → S) : (∀ s, R s (f s)) → pres (modify f).
Proof. intros H s. simpl. apply H. Qed.

(** The second program may use what is known of the value it gets. *)
Lemma pres_bind_post {A B} (Q : A → Prop) (m : ST S A) (f : A → ST S B) :
  pres m → (∀ s a s', m s = (Ret a, s') → Q a) → (∀ a, Q a → pres (f a)) → pres (m ≫= f).
Proof.
  intros Hm HQ Hf s. unfold mbind, ST_bind. specialize (Hm s). specialize (HQ s).
  destruct (m s) as [[a|e|p| |] s'] eqn:E; try done.
  specialize (Hf a (HQ _ _ eq_refl) s').
  destruct (f a s') as [[] s'']; try done; by etrans.
Qed.

Lemma pres_bind {A B} (m : ST S A) (f : A → ST S B) :
  pres m → (∀ a, pres (f a)) → pres (m ≫= f).
Proof. intros Hm Hf. by apply (pres_bind_post (λ _, True)). Qed.

Lemma pres_attempt {A} (m : ST S A) : pres m → pres (attempt m).
Proof.
  intros Hm s. unfold attempt. specialize (Hm s).
  by destruct (m s) as [[a|e|p| |] s'].
Qed.

Lemma pres_of_result {A} (r : result A) : pres (of_result r).
Proof. destruct r; [apply pres_ret|apply pres_throw]. Qed.
Lemma pres_wrap_result {A} w (r : result A) : pres (wrap_result w r).
Proof. destruct r; [apply pres_ret|apply pres_throw]. Qed.
Lemma pres_deref {A} (o : option A) : pres (deref o).
Proof. destruct o; [apply pres_ret|apply pres_panic]. Qed.

Lemma pres_wrap {A} w (m : ST S A) : pres m → pres (wrap w m).
Proof.
  intros Hm. apply pres_bind; [by apply pres_attempt|].
  intros r. apply pres_wrap_result.
Qed.

Lemma pres_on_error {A} (m : ST S A) h : pres m → pres h → pres (on_error m h).
Proof.
  intros Hm Hh. apply pres_bind; [by apply pres_attempt|].
  intros [a|e]; [apply pres_ret|]. apply pres_bind; [done|].
  intros _. apply pres_throw.
Qed.

Lemma pres_deferred {A} (m : ST S A) h : pres m → pres h → pres (deferred m h).
Proof.
  intros Hm Hh. apply pres_bind; [by apply pres_attempt|].
  intros r. apply pres_bind; [done|]. intros _. apply pres_of_result.
Qed.

Lemma pres_for_each {A} (l : list A) f : (∀ x, pres (f x)) → pres (for_each l f).
Proof.
  intros Hf. induction l as [|x l IH]; simpl; [apply pres_ret|].
  apply pres_bind; [apply Hf|done].
Qed.

Lemma pres_for_map {A B} (l : list A) (f : A → ST S B) :
  (∀ x, pres (f x)) → pres (for_map l f).
Proof.
  intros Hf. induction l as [|x l IH]; simpl; [apply pres_ret|].
  apply pres_bind; [apply Hf|]. intros y.
  apply pres_bind; [done|]. intros ys. apply pres_ret.
Qed.

Lemma pres_for_fold {A B} (l : list A) (b : B) f :
  (∀ b x, pres (f b x)) → pres (for_fold l b f).
Proof.
  intros Hf. revert b. induction l as [|x l IH]; intros b; simpl; [apply pres_ret|].
  apply pres_bind; [apply Hf|]. intros b'. apply IH.
Qed.
End frames.

(** ** Postconditions of a call

    [triple P m Q E]: from a state with [P] a returned value has [Q] and a
    returned error has [E].  The other outcomes are not constrained. *)

Definition triple {S A} (P : S → Prop) (m : ST S A) (Q : A → S → Prop)
    (E : error → S → Prop) : Prop :=
  ∀ s, P s →
    match m s with
    | (Ret a, s') => Q a s'
    | (Err e, s') => E e s'
    | _ => True
    end.

Lemma bind_Ret {S A B} (m : ST S A) (f : A → ST S B) s b s' :
  (m ≫= f) s = (Ret b, s') → ∃ a s1, m s = (Ret a, s1) ∧ f a s1 = (Ret b, s').
Proof.
  unfold mbind, ST_bind. destruct (m s) as [[a|e|p| |] s1] eqn:E; intros H; try done.
  by exists a, s1.
Qed.

Lemma bind_step {S A B} (m : ST S A) (f : A → ST S B) s a s1 :
  m s = (Ret a, s1) → (m ≫= f) s = f a s1.
Proof. intros H. unfold mbind, ST_bind. by rewrite H. Qed.

Lemma wrap_run {S A} w (m : ST S A) s a s' :
  m s = (Ret a, s') → wrap w m s = (Ret a, s').
Proof. intros E. unfold wrap, mbind, ST_bind, attempt. by rewrite E. Qed.

Lemma attempt_run {S A} (m : ST S A) s a s' :
  m s = (Ret a, s') → attempt m s = (Ret (Good a), s').
Proof. intros E. unfold attempt. by rewrite E. Qed.

Lemma attempt_Ret_Good {S A} (m : ST S A) s a s' :
  attempt m s = (Ret (Good a), s') → m s = (Ret a, s').
Proof.
  unfold attempt. destruct (m s) as [[]?]; intros H; simplify_eq. done.
Qed.

Lemma attempt_Ret_Bad {S A} (m : ST S A) s e s' :
  attempt m s = (Ret (Bad e), s') → m s = (Err e, s').
Proof.
  unfold attempt. destruct (m s) as [[]?]; intros H; simplify_eq. done.
Qed.

Lemma wrap_Ret {S A} w (m : ST S A) s a s' :
  wrap w m s = (Ret a, s') → m s = (Ret a, s').
Proof.
  unfold wrap, mbind, ST_bind, attempt. destruct (m s) as [[]?]; simpl; intros H; simplify_eq.
  unfold mret, ST_ret in H. by simplify_eq.
Qed.

Section triple_rules.
Context {S : Type}.
Implicit Types P : S → Prop.

Lemma triple_conseq {A} P P' (m : ST S A) Q Q' E E' :
  triple P m Q E → (∀ s, P' s → P s) → (∀ a s, Q a s → Q' a s) →
  (∀ e s, E e s → E' e s) → triple P' m Q' E'.
Proof.
  intros H HP HQ HE s Hs. specialize (H s (HP s Hs)). destruct (m s) as [[]?]; auto.
Qed.

Lemma triple_pure {A} P (m : ST S A) Q E (φ : Prop) :
  (φ → triple P m Q E) → triple (λ s, φ ∧ P s) m Q E.
Proof. intros H s [Hφ Hs]. by apply H. Qed.

Lemma triple_bind {A B} P (m : ST S A) Q (f : A → ST S B) T E :
  triple P m Q E → (∀ a, triple (Q a) (f a) T E) → triple P (m ≫= f) T E.
Proof.
  intros Hm Hf s Hs. unfold mbind, ST_bind. specialize (Hm s Hs).
  destruct (m s) as [[a|e|p| |] s1]; try done. by apply Hf.
Qed.

Lemma triple_ret {A} P (a : A) (Q : A → S → Prop) E :
  (∀ s, P s → Q a s) → triple P (mret a) Q E.
Proof. intros H s Hs. by apply H. Qed.

Lemma triple_throw {A} P e (Q : A → S → Prop) (E : error → S → Prop) :
  (∀ s, P s → E e s) → triple P (throw e) Q E.
Proof. intros H s Hs. by apply H. Qed.
Lemma triple_panic {A} P e (Q : A → S → Prop) E : triple P (panic e) Q E.
Proof. by intros s _. Qed.
Lemma triple_nofuel {A} P (Q : A → S → Prop) E : triple P nofuel Q E.
Proof. by intros s _. Qed.

Lemma triple_deref {A} P (o : option A) (Q : A → S → Prop) E :
  (∀ a s, P s → o = Some a → Q a s) → triple P (deref o) Q E.
Proof. intros H s Hs. destruct o; simpl; [by apply H|done]. Qed.

Lemma triple_of_result {A} P (r : result A) (Q : A → S → Prop) (E : error → S → Prop) :
  (∀ s, P s → match r with Good a => Q a s | Bad e => E e s end) → triple P (of_result r) Q E.
Proof. intros H s Hs. specialize (H s Hs). by destruct r. Qed.

Lemma triple_attempt {A} P (m : ST S A) (Q : result A → S → Prop) (E : error → S → Prop) :
  triple P m (λ a, Q (Good a)) (λ e, Q (Bad e)) → triple P (attempt m) Q E.
Proof.
  intros H s Hs. specialize (H s Hs). unfold attempt. destruct (m s) as [[]?]; done.
Qed.

Lemma triple_wrap {A} P w (m : ST S A) Q (E : error → S → Prop) :
  triple P m Q (λ e, E (w e)) → triple P (wrap w m) Q E.
Proof.
  intros H s Hs. specialize (H s Hs). unfold wrap, mbind, ST_bind, attempt.
  destruct (m s) as [[]?]; done.
Qed.

Lemma triple_on_error {A} P (m : ST S A) h Q (E E' : error → S → Prop) :
  triple P m Q E → (∀ e, triple (E e) h (λ _, E' e) E') → triple P (on_error m h) Q E'.
Proof.
  intros H Hh s Hs. specialize (H s Hs). unfold on_error, mbind, ST_bind, attempt.
  destruct (m s) as [[a|e|p| |] s1]; try done. specialize (Hh e s1 H).
  destruct (h s1) as [[]?]; done.
Qed.

Lemma triple_deferred {A} P (m : ST S A) h (Q : A → S → Prop) (E E' : error → S → Prop)
    (Q' : A → S → Prop) :
  triple P m Q E → (∀ a, triple (Q a) h (λ _, Q' a) E') →
  (∀ e, triple (E e) h (λ _, E' e) E') → triple P (deferred m h) Q' E'.
Proof.
  intros H Ha He s Hs. specialize (H s Hs). unfold deferred, mbind, ST_bind, attempt.
  destruct (m s) as [[a|e|p| |] s1]; try done.
  - specialize (Ha a s1 H). destruct (h s1) as [[]?]; done.
  - specialize (He e s1 H). destruct (h s1) as [[]?]; done.
Qed.

Lemma triple_for_each {A} (I : S → Prop) (l : list A) (f : A → ST S unit) E :
  (∀ x, x ∈ l → triple I (f x) (λ _, I) E) → triple I (for_each l f) (λ _, I) E.
Proof.
  induction l as [|x l IH]; intros H; simpl; [by apply triple_ret|].
  eapply triple_bind; [apply H; left|]. intros []. apply IH.
  intros y Hy. apply H. by right.
Qed.

(** A frame as a triple. *)
Lemma triple_pres {A} R (P : S → Prop) (m : ST S A) :
  pres R m → (∀ s s', P s → R s s' → P s') → triple P m (λ _, P) (λ _, P).
Proof.
  intros Hm HR s Hs. specialize (Hm s). destruct (m s) as [[]?]; eauto.
Qed.
End triple_rules.

(** ** Calls that return no error *)

Section no_err.
Context {S : Type}.

Definition no_err {A} (m : ST S A) : Prop :=
  ∀ s, match m s with (Err _, _) => False | _ => True end.

Lemma no_err_ret {A} (a : A) : no_err (mret a).
Proof. done. Qed.
Lemma no_err_gets {A} (f : S → A) : no_err (gets f).
Proof. done. Qed.
Lemma no_err_modify f : no_err (modify f).
Proof. done. Qed.
Lemma no_err_attempt {A} (m : ST S A) : no_err (attempt m).
Proof. intros s. unfold attempt. by destruct (m s) as [[]?]. Qed.
Lemma no_err_deref {A} (o : option A) : no_err (deref o).
Proof. by destruct o. Qed.
Lemma no_err_bind {A B} (m : ST S A) (f : A → ST S B) :
  no_err m → (∀ a, no_err (f a)) → no_err (m ≫= f).
Proof.
  intros Hm Hf s. specialize (Hm s). unfold mbind, ST_bind.
  destruct (m s) as [[a|e|p| |] s']; try done. apply Hf.
Qed.
Lemma no_err_for_each {A} (l : list A) f : (∀ x, no_err (f x)) → no_err (for_each l f).
Proof.
  intros Hf. induction l as [|x l IH]; simpl; [apply no_err_ret|].
  by apply no_err_bind; [apply Hf|].
Qed.

Lemma triple_no_err {A} P (m : ST S A) Q E E' :
  no_err m → triple P m Q E → triple P m Q E'.
Proof.
  intros Hn Hm s Hs. specialize (Hn s). specialize (Hm s Hs). by destruct (m s) as [[]?].
Qed.
End no_err.

Ltac no_err_step :=
  lazymatch goal with
  | |- no_err (mret _) => apply no_err_ret
  | |- no_err (gets _) => apply no_err_gets
  | |- no_err (modify _) => apply no_err_modify
  | |- no_err (attempt _) => apply no_err_attempt
  | |- no_err (deref _) => apply no_err_deref
  | |- no_err (_ ≫= _) => apply no_err_bind; [|intros ?]
  | |- no_err (for_each _ _) => apply no_err_for_each; intros ?
  | |- no_err (match ?x with _ => _ end) => destruct x
  | |- no_err (let _ := _ in _) => cbv zeta
  end.

(** The structural rules of [pres], for [eauto with frame] style proofs: one
    call of [frame_step] goes through one construct of a program. *)
Ltac frame_step :=
  lazymatch goal with
  | |- pres _ (mret _) => apply pres_ret; apply _
  | |- pres _ (throw _) => apply pres_throw; apply _
  | |- pres _ (panic _) => apply pres_panic; apply _
  | |- pres _ block => apply pres_block; apply _
  | |- pres _ nofuel => apply pres_nofuel; apply _
  | |- pres _ get => apply pres_get; apply _
  | |- pres _ (gets _) => apply pres_gets; apply _
  | |- pres _ (of_result _) => apply pres_of_result; apply _
  | |- pres _ (wrap_result _ _) => apply pres_wrap_result; apply _
  | |- pres _ (deref _) => apply pres_deref; apply _
  | |- pres _ (_ ≫= _) => apply pres_bind; [apply _| |intros ?]
  | |- pres _ (attempt _) => apply pres_attempt
  | |- pres _ (wrap _ _) => apply pres_wrap; [apply _|]
  | |- pres _ (on_error _ _) => apply pres_on_error; [apply _| |]
  | |- pres _ (deferred _ _) => apply pres_deferred; [apply _| |]
  | |- pres _ (for_each _ _) => apply pres_for_each; [apply _|intros ?]
  | |- pres _ (for_map _ _) => apply pres_for_map; [apply _|intros ?]
  | |- pres _ (for_fold _ _ _) => apply pres_for_fold; [apply _|intros ??]
  | |- pres _ (match ?x with _ => _ end) => destruct x
  | |- pres _ (let _ := _ in _) => cbv zeta
  end.

(** ** Properties of programs that the control structure keeps

    A property that holds of the basic programs, of a sequence when it holds of
    its parts and of a call whose error is inspected, holds of every program
    built from programs with the property. *)

Class Closed {S} (Φ : ∀ A, ST S A → Prop) : Prop := {
  closed_ret {A} (a : A) : Φ A (mret a);
  closed_throw {A} e : Φ A (throw e);
  closed_panic {A} msg : Φ A (panic msg);
  closed_bind {A B} (m : ST S A) (f : A → ST S B) : Φ A m → (∀ a, Φ B (f a)) → Φ B (m ≫= f);
  closed_attempt {A} (m : ST S A) : Φ A m → Φ (result A) (attempt m) }.

Section closed.
Context {S : Type} (Φ : ∀ A, ST S A → Prop) `{!Closed Φ}.

Lemma closed_of_result {A} (r : result A) : Φ A (of_result r).
Proof. destruct r; [apply closed_ret|apply closed_throw]. Qed.
Lemma closed_wrap_result {A} w (r : result A) : Φ A (wrap_result w r).
Proof. destruct r; [apply closed_ret|apply closed_throw]. Qed.
Lemma closed_deref {A} (o : option A) : Φ A (deref o).
Proof. destruct o; [apply closed_ret|apply closed_panic]. Qed.
Lemma closed_wrap {A} w (m : ST S A) : Φ A m → Φ A (wrap w m).
Proof. intros Hm. apply closed_bind; [by apply closed_attempt|]. intros r. apply closed_wrap_result. Qed.
Lemma closed_for_map {A B} (l : list A) (f : A → ST S B) :
  (∀ x, Φ B (f x)) → Φ (list B) (for_map l f).
Proof.
  intros Hf. induction l as [|x l IH]; simpl; [apply closed_ret|].
  apply closed_bind; [apply Hf|]. intros y. apply closed_bind; [done|]. intros ys. apply closed_ret.
Qed.
Lemma closed_for_fold {A B} (l : list A) (b : B) f :
  (∀ b x, Φ B (f b x)) → Φ B (for_fold l b f).
Proof.
  intros Hf. revert b. induction l as [|x l IH]; intros b; simpl; [apply closed_ret|].
  apply closed_bind; [apply Hf|]. intros b'. apply IH.
Qed.
End closed.

(** One construct of a program, for a property [Φ]. *)
Ltac closed_step :=
  lazymatch goal with
  | |- ?Φ _ (mret _) => apply closed_ret
  | |- ?Φ _ (throw _) => apply closed_throw
  | |- ?Φ _ (panic _) => apply closed_panic
  | |- ?Φ _ (of_result _) => apply closed_of_result; apply _
  | |- ?Φ _ (wrap_result _ _) => apply closed_wrap_result; apply _
  | |- ?Φ _ (deref _) => apply closed_deref; apply _
  | |- ?Φ _ (_ ≫= _) => apply closed_bind; [|intros ?]
  | |- ?Φ _ (attempt _) => apply closed_attempt
  | |- ?Φ _ (wrap _ _) => apply closed_wrap; [apply _|]
  | |- ?Φ _ (for_map _ _) => apply closed_for_map; [apply _|intros ?]
  | |- ?Φ _ (for_fold _ _ _) => apply closed_for_fold; [apply _|intros ??]
  | |- ?Φ _ (match ?x with _ => _ end) => destruct x
  | |- ?Φ _ (let _ := _ in _) => cbv zeta
  end.

#[export] Instance pres_closed {S} (R : S → S → Prop) `{!PreOrder R} : Closed (λ A, @pres S R A).
Proof.
  split; intros; [by apply pres_ret, _|by apply pres_throw, _|by apply pres_panic
    |by apply pres_bind|by apply pres_attempt].
Qed.

(** The fuel of the modelled loops is enough. *)
Definition enough_fuel {S A} (m : ST S A) : Prop := ∀ s, (m s).1 ≠ NoFuel.

#[export] Instance enough_fuel_closed {S} : Closed (λ A, @enough_fuel S A).
Proof.
  split; try done.
  - intros A B m f Hm Hf s. specialize (Hm s). unfold mbind, ST_bind.
    destruct (m s) as [[a|e|p| |] s']; try done. apply Hf.
  - intros A m Hm s. specialize (Hm s). unfold attempt. by destruct (m s) as [[]?].
Qed.
