(* ===== verification/Model.v ===== *)
(** The parsed BPMN model (pkg/bpmn/model/bpmn20 and .../extensions): the
    elements the engine executes, the conversions its UnmarshalXML methods
    make after decoding, and the lookups by id.  A flow node carries the
    sequence flows its associations were resolved to; a sequence flow names
    its source and target, which [GetTargetRef] looks up among the flow nodes
    of the whole definition (the code stores the resolved pointer).
    [ConditionExpression] is the text GetConditionExpression returns (HTML
    entities and surrounding spaces removed). *)
From S2P Require Import Prelude.

(** ** Elements *)

Record TIoMapping := { Source : string; Target : string }.

Record TSequenceFlow := {
  sf_Id : string;
  sf_Name : string;
  SourceRefId : string;
  TargetRefId : string;
  ConditionExpression : string }.

Record TFlowNode := {
  fn_Id : string;
  fn_Name : string;
  IncomingAssociations : list TSequenceFlow;
  OutgoingAssociations : list TSequenceFlow }.

Record TMessageEventDefinition := { med_Id : option string; MessageRef : string }.
Record TTimerEventDefinition := { ted_Id : string; TimeDuration : string }.
Record TLinkEventDefinition := { led_Id : string; led_Name : string }.
Record TTerminateEventDefinition := { trd_Id : option string }.

Inductive EventDefinition :=
| MessageEvent (d : TMessageEventDefinition)
| TimerEvent (d : TTimerEventDefinition)
| LinkEvent (d : TLinkEventDefinition)
| TerminateEvent (d : TTerminateEventDefinition).

Record TStartEvent := { se_node : TFlowNode }.

Record TEndEvent := {
  ee_node : TFlowNode;
  EvenDefinitions : list EventDefinition;
  ee_TaskType : string;
  ee_Input : list TIoMapping;
  ee_Output : list TIoMapping }.

Record TIntermediateCatchEvent := {
  ice_node : TFlowNode;
  ice_EventDefinition : option EventDefinition;
  ice_Input : list TIoMapping;
  ice_Output : list TIoMapping }.

Record TIntermediateThrowEvent := {
  ite_node : TFlowNode;
  ite_EventDefinition : option EventDefinition;
  ite_TaskType : string;
  ite_Input : list TIoMapping;
  ite_Output : list TIoMapping }.

Record TBoundaryEvent := {
  be_node : TFlowNode;
  be_EventDefinition : option EventDefinition;
  AttachedToRef : string;
  CancellActivity : bool;
  be_Output : list TIoMapping }.

Record TLoopCharacteristics := {
  InputCollectionExpression : string;
  OutputCollectionName : string;
  InputElementName : string;
  OutputElementExpression : string }.

Record TMultiInstance := { IsSequential : bool; LoopCharacteristics : TLoopCharacteristics }.

Record TActivity := {
  act_node : TFlowNode;
  act_MultiInstance : option TMultiInstance;
  act_Input : list TIoMapping;
  act_Output : list TIoMapping }.

Record TServiceTask := { st_activity : TActivity; st_TaskType : string }.
Record TSendTask := { snd_activity : TActivity; snd_TaskType : string }.
Record TUserTask := { ut_activity : TActivity; Assignee : string; CandidateGroups : list string }.

Record TCalledDecision := {
  DecisionId : string; ResultVariable : string; BindingType : string; VersionTag : string }.

Inductive TBusinessRuleTaskImplementation :=
| TBusinessRuleTaskLocal (CalledDecision : TCalledDecision)
| TBusinessRuleTaskExternal (TaskType : string).

Record TBusinessRuleTask := {
  brt_activity : TActivity;
  Implementation : option TBusinessRuleTaskImplementation }.

Record TCallActivity := { ca_activity : TActivity; CalledProcessId : string }.

Record TParallelGateway := { pg_node : TFlowNode }.
Record TExclusiveGateway := { eg_node : TFlowNode; eg_DefaultFlow : option TSequenceFlow }.
Record TInclusiveGateway := { ig_node : TFlowNode; ig_DefaultFlow : option TSequenceFlow }.
Record TEventBasedGateway := { ebg_node : TFlowNode }.

Inductive TProcess := MkProcess {
  p_Id : string;
  StartEvents : list TStartEvent;
  EndEvents : list TEndEvent;
  ServiceTasks : list TServiceTask;
  UserTasks : list TUserTask;
  BusinessRuleTasks : list TBusinessRuleTask;
  SendTasks : list TSendTask;
  ParallelGateways : list TParallelGateway;
  ExclusiveGateways : list TExclusiveGateway;
  EventBasedGateways : list TEventBasedGateway;
  InclusiveGateways : list TInclusiveGateway;
  IntermediateCatchEvents : list TIntermediateCatchEvent;
  IntermediateThrowEvents : list TIntermediateThrowEvent;
  CallActivities : list TCallActivity;
  BoundaryEvents : list TBoundaryEvent;
  SubProcesses : list TSubProcess }
with TSubProcess := MkSubProcess {
  sp_activity : TActivity;
  sp_process : TProcess }.

Record TMessage := { msg_Id : string; msg_Name : string; msg_CorrelationKey : string }.

Record TDefinitions := { Process : TProcess; Messages : list TMessage }.

(** The FlowNode interface: the concrete types the engine switches on. *)
Inductive FlowNode :=
| StartEvent (e : TStartEvent)
| EndEvent (e : TEndEvent)
| ServiceTask (e : TServiceTask)
| UserTask (e : TUserTask)
| BusinessRuleTask (e : TBusinessRuleTask)
| SendTask (e : TSendTask)
| ParallelGateway (e : TParallelGateway)
| ExclusiveGateway (e : TExclusiveGateway)
| EventBasedGateway (e : TEventBasedGateway)
| InclusiveGateway (e : TInclusiveGateway)
| IntermediateCatchEvent (e : TIntermediateCatchEvent)
| IntermediateThrowEvent (e : TIntermediateThrowEvent)
| CallActivity (e : TCallActivity)
| BoundaryEvent (e : TBoundaryEvent)
| SubProcess (e : TSubProcess).

(** The InternalTask interface. *)
Inductive InternalTask :=
| IT_Service (e : TServiceTask)
| IT_User (e : TUserTask)
| IT_BusinessRule (e : TBusinessRuleTask)
| IT_Send (e : TSendTask)
| IT_Throw (e : TIntermediateThrowEvent)
| IT_End (e : TEndEvent).

Definition InternalTask_FlowNode (t : InternalTask) : FlowNode :=
  match t with
  | IT_Service e => ServiceTask e
  | IT_User e => UserTask e
  | IT_BusinessRule e => BusinessRuleTask e
  | IT_Send e => SendTask e
  | IT_Throw e => IntermediateThrowEvent e
  | IT_End e => EndEvent e
  end.

(** The TActivity embedded in an element, for the types that have one. *)
Definition activity_of (n : FlowNode) : option TActivity :=
  match n with
  | ServiceTask e => Some e.(st_activity)
  | UserTask e => Some e.(ut_activity)
  | BusinessRuleTask e => Some e.(brt_activity)
  | SendTask e => Some e.(snd_activity)
  | CallActivity e => Some e.(ca_activity)
  | SubProcess e => Some e.(sp_activity)
  | _ => None
  end.

Definition node_of (n : FlowNode) : TFlowNode :=
  match n with
  | StartEvent e => e.(se_node)
  | EndEvent e => e.(ee_node)
  | ServiceTask e => e.(st_activity).(act_node)
  | UserTask e => e.(ut_activity).(act_node)
  | BusinessRuleTask e => e.(brt_activity).(act_node)
  | SendTask e => e.(snd_activity).(act_node)
  | ParallelGateway e => e.(pg_node)
  | ExclusiveGateway e => e.(eg_node)
  | EventBasedGateway e => e.(ebg_node)
  | InclusiveGateway e => e.(ig_node)
  | IntermediateCatchEvent e => e.(ice_node)
  | IntermediateThrowEvent e => e.(ite_node)
  | CallActivity e => e.(ca_activity).(act_node)
  | BoundaryEvent e => e.(be_node)
  | SubProcess e => e.(sp_activity).(act_node)
  end.

(** A sub process has its id from the embedded TProcess. *)
Definition GetId (n : FlowNode) : string :=
  match n with
  | SubProcess e => e.(sp_process).(p_Id)
  | _ => (node_of n).(fn_Id)
  end.

Definition GetIncomingAssociation (n : FlowNode) : list TSequenceFlow :=
  (node_of n).(IncomingAssociations).
Definition GetOutgoingAssociation (n : FlowNode) : list TSequenceFlow :=
  (node_of n).(OutgoingAssociations).

Inductive ElementType :=
| ElementTypeStartEvent | ElementTypeEndEvent | ElementTypeServiceTask | ElementTypeUserTask
| ElementBusinessRuleTask | ElementTypeParallelGateway | ElementTypeExclusiveGateway
| ElementTypeEventBasedGateway | ElementTypeInclusiveGateway
| ElementTypeIntermediateCatchEvent | ElementTypeIntermediateThrowEvent
| ElementTypeBoundaryEvent | ElementTypeSequenceFlow.

#[export] Instance ElementType_eq_dec : EqDecision ElementType.
Proof. solve_decision. Defined.

(** TSendTask answers SERVICE_TASK; TCallActivity and TSubProcess inherit
    TFlowElement's answer, SEQUENCE_FLOW. *)
Definition GetType (n : FlowNode) : ElementType :=
  match n with
  | StartEvent _ => ElementTypeStartEvent
  | EndEvent _ => ElementTypeEndEvent
  | ServiceTask _ => ElementTypeServiceTask
  | UserTask _ => ElementTypeUserTask
  | BusinessRuleTask _ => ElementBusinessRuleTask
  | SendTask _ => ElementTypeServiceTask
  | ParallelGateway _ => ElementTypeParallelGateway
  | ExclusiveGateway _ => ElementTypeExclusiveGateway
  | EventBasedGateway _ => ElementTypeEventBasedGateway
  | InclusiveGateway _ => ElementTypeInclusiveGateway
  | IntermediateCatchEvent _ => ElementTypeIntermediateCatchEvent
  | IntermediateThrowEvent _ => ElementTypeIntermediateThrowEvent
  | CallActivity _ => ElementTypeSequenceFlow
  | BoundaryEvent _ => ElementTypeBoundaryEvent
  | SubProcess _ => ElementTypeSequenceFlow
  end.

Definition GetMultiInstance (a : TActivity) : option TMultiInstance := a.(act_MultiInstance).

(** GetTaskType of a business rule task is a type assertion on the external
    implementation; [None] is the panic when it fails. *)
Definition GetTaskType (t : InternalTask) : option string :=
  match t with
  | IT_Service e => Some e.(st_TaskType)
  | IT_User _ => Some "user-task-type"%string
  | IT_BusinessRule e =>
      match e.(Implementation) with
      | Some (TBusinessRuleTaskExternal ty) => Some ty
      | _ => None
      end
  | IT_Send e => Some e.(snd_TaskType)
  | IT_Throw e => Some e.(ite_TaskType)
  | IT_End e => Some e.(ee_TaskType)
  end.

Definition GetInputMapping (t : InternalTask) : list TIoMapping :=
  match t with
  | IT_Service e => e.(st_activity).(act_Input)
  | IT_User e => e.(ut_activity).(act_Input)
  | IT_BusinessRule e => e.(brt_activity).(act_Input)
  | IT_Send e => e.(snd_activity).(act_Input)
  | IT_Throw e => e.(ite_Input)
  | IT_End e => e.(ee_Input)
  end.

Definition GetOutputMapping (t : InternalTask) : list TIoMapping :=
  match t with
  | IT_Service e => e.(st_activity).(act_Output)
  | IT_User e => e.(ut_activity).(act_Output)
  | IT_BusinessRule e => e.(brt_activity).(act_Output)
  | IT_Send e => e.(snd_activity).(act_Output)
  | IT_Throw e => e.(ite_Output)
  | IT_End e => e.(ee_Output)
  end.

(** ** Lookups by id *)

(** [for _, e := range l { if e.GetId() == id { return &e } }] *)
Fixpoint first_with {A} (get : A → string) (id : string) (l : list A) : option A :=
  match l with
  | [] => None
  | x :: l' => if (get x =? id)%string then Some x else first_with get id l'
  end.

Fixpoint first_some {A B} (f : A → option B) (l : list A) : option B :=
  match l with
  | [] => None
  | x :: l' => match f x with Some y => Some y | None => first_some f l' end
  end.

Definition orelse {A} (o1 o2 : option A) : option A :=
  match o1 with Some x => Some x | None => o2 end.
Notation "o1 <or> o2" := (orelse o1 o2) (at level 60, right associativity) : zen_scope.
Local Open Scope zen_scope.

Definition act_Id (a : TActivity) : string := a.(act_node).(fn_Id).

(** The lookup among the elements of one container, in the order of the code. *)
Definition GetOwnFlowNodeById (p : TProcess) (id : string) : option FlowNode :=
  (StartEvent <$> first_with (λ e, e.(se_node).(fn_Id)) id p.(StartEvents))
  <or> (EndEvent <$> first_with (λ e, e.(ee_node).(fn_Id)) id p.(EndEvents))
  <or> (ServiceTask <$> first_with (λ e, act_Id e.(st_activity)) id p.(ServiceTasks))
  <or> (UserTask <$> first_with (λ e, act_Id e.(ut_activity)) id p.(UserTasks))
  <or> (BusinessRuleTask <$> first_with (λ e, act_Id e.(brt_activity)) id p.(BusinessRuleTasks))
  <or> (SendTask <$> first_with (λ e, act_Id e.(snd_activity)) id p.(SendTasks))
  <or> (ParallelGateway <$> first_with (λ e, e.(pg_node).(fn_Id)) id p.(ParallelGateways))
  <or> (ExclusiveGateway <$> first_with (λ e, e.(eg_node).(fn_Id)) id p.(ExclusiveGateways))
  <or> (EventBasedGateway <$> first_with (λ e, e.(ebg_node).(fn_Id)) id p.(EventBasedGateways))
  <or> (InclusiveGateway <$> first_with (λ e, e.(ig_node).(fn_Id)) id p.(InclusiveGateways))
  <or> (IntermediateCatchEvent <$>
          first_with (λ e, e.(ice_node).(fn_Id)) id p.(IntermediateCatchEvents))
  <or> (IntermediateThrowEvent <$>
          first_with (λ e, e.(ite_node).(fn_Id)) id p.(IntermediateThrowEvents))
  <or> (CallActivity <$> first_with (λ e, act_Id e.(ca_activity)) id p.(CallActivities))
  <or> (SubProcess <$> first_with (λ e, e.(sp_process).(p_Id)) id p.(SubProcesses)).

Fixpoint GetFlowNodeById (p : TProcess) (id : string) {struct p} : option FlowNode :=
  GetOwnFlowNodeById p id
  <or> first_some (λ s, GetFlowNodeById s.(sp_process) id) p.(SubProcesses).

Fixpoint GetInternalTaskById (p : TProcess) (id : string) {struct p} : option InternalTask :=
  (IT_Service <$> first_with (λ e, act_Id e.(st_activity)) id p.(ServiceTasks))
  <or> (IT_User <$> first_with (λ e, act_Id e.(ut_activity)) id p.(UserTasks))
  <or> (IT_BusinessRule <$> first_with (λ e, act_Id e.(brt_activity)) id p.(BusinessRuleTasks))
  <or> (IT_Send <$> first_with (λ e, act_Id e.(snd_activity)) id p.(SendTasks))
  <or> (IT_Throw <$> first_with (λ e, e.(ite_node).(fn_Id)) id p.(IntermediateThrowEvents))
  <or> (IT_End <$> first_with (λ e, e.(ee_node).(fn_Id)) id p.(EndEvents))
  <or> first_some (λ s, GetInternalTaskById s.(sp_process) id) p.(SubProcesses).

(** The boundary events attached to an activity: those of the container, or,
    when it has none, those of the first sub process that has some. *)
Fixpoint FindBoundaryEventsForActivity (p : TProcess) (activityId : string) {struct p}
    : list TBoundaryEvent :=
  match List.filter (λ be, (be.(AttachedToRef) =? activityId)%string) p.(BoundaryEvents) with
  | _ :: _ as res => res
  | [] =>
      default [] (first_some (λ s,
        match FindBoundaryEventsForActivity s.(sp_process) activityId with
        | [] => None
        | res => Some res
        end) p.(SubProcesses))
  end.

Definition GetMessageByRef (d : TDefinitions) (ref : string) : result TMessage :=
  match first_with msg_Id ref d.(Messages) with
  | Some m => Good m
  | None => Bad (err! "failed to find message among process messages")
  end.

(** The flow nodes a sequence flow can point to: boundary events too. *)
Fixpoint find_target (p : TProcess) (id : string) {struct p} : option FlowNode :=
  GetOwnFlowNodeById p id
  <or> (BoundaryEvent <$> first_with (λ e, e.(be_node).(fn_Id)) id p.(BoundaryEvents))
  <or> first_some (λ s, find_target s.(sp_process) id) p.(SubProcesses).

(** An empty id is not resolved: the reference stays nil. *)
Definition GetTargetRef (d : TDefinitions) (f : TSequenceFlow) : option FlowNode :=
  if (f.(TargetRefId) =? "")%string then None else find_target d.(Process) f.(TargetRefId).

(** ** UnmarshalXML: from the decoded temporary structure to the element *)

Record eventXml := {
  x_node : TFlowNode;
  x_message : TMessageEventDefinition;
  x_timer : TTimerEventDefinition;
  x_link : TLinkEventDefinition;
  x_terminate : TTerminateEventDefinition;
  x_TaskType : string;
  x_Input : list TIoMapping;
  x_Output : list TIoMapping;
  x_AttachedToRef : string;
  x_CancellActivity : bool }.

(** The switch shared by the catch and throw events. *)
Definition event_switch (x : eventXml) : option EventDefinition :=
  match x.(x_message).(med_Id) with
  | Some _ => Some (MessageEvent x.(x_message))
  | None =>
      if negb (x.(x_timer).(ted_Id) =? "")%string then Some (TimerEvent x.(x_timer))
      else if negb (x.(x_link).(led_Id) =? "")%string then Some (LinkEvent x.(x_link))
      else None
  end.

Definition EndEvent_UnmarshalXML (x : eventXml) : TEndEvent :=
  let terminate := match x.(x_terminate).(trd_Id) with
                   | Some _ => [TerminateEvent x.(x_terminate)] | None => [] end in
  match x.(x_message).(med_Id) with
  | Some _ =>
      {| ee_node := x.(x_node);
         EvenDefinitions := terminate ++ [MessageEvent x.(x_message)];
         ee_TaskType := x.(x_TaskType);
         ee_Input := x.(x_Input);
         ee_Output := x.(x_Output) |}
  | None =>
      {| ee_node := x.(x_node); EvenDefinitions := terminate; ee_TaskType := "";
         ee_Input := []; ee_Output := [] |}
  end.

(** [Input] is not copied from the decoded structure. *)
Definition IntermediateCatchEvent_UnmarshalXML (x : eventXml) : TIntermediateCatchEvent :=
  {| ice_node := x.(x_node); ice_EventDefinition := event_switch x;
     ice_Input := []; ice_Output := x.(x_Output) |}.

Definition IntermediateThrowEvent_UnmarshalXML (x : eventXml) : TIntermediateThrowEvent :=
  {| ite_node := x.(x_node); ite_EventDefinition := event_switch x;
     ite_TaskType := x.(x_TaskType); ite_Input := []; ite_Output := x.(x_Output) |}.

Definition BoundaryEvent_UnmarshalXML (x : eventXml) : TBoundaryEvent :=
  {| be_node := x.(x_node);
     be_EventDefinition :=
       match x.(x_message).(med_Id) with
       | Some _ => Some (MessageEvent x.(x_message))
       | None => if negb (x.(x_timer).(ted_Id) =? "")%string
                 then Some (TimerEvent x.(x_timer)) else None
       end;
     AttachedToRef := x.(x_AttachedToRef);
     CancellActivity := x.(x_CancellActivity);
     be_Output := x.(x_Output) |}.
