(* ===== verification/Runtime.v ===== *)
(** The runtime data of the engine (pkg/bpmn/runtime): dynamic values, the
    variable holder, the states, and the records the storage keeps.  Each
    record field carries a short prefix of its record; the state constants of
    the code are the constructors of [ActivityState], [TimerState] and
    [TokenState], each with the zero value Go gives an unset field.
    A time is a number of nanoseconds since the Unix epoch. *)
From S2P Require Import Prelude Model.

(** ** Values of process variables *)

(** What an [interface{}] holds in the engine: values of the FEEL runtime, of
    decoded JSON and of Go callers ([int], [int64] and [float64] are distinct
    dynamic types; a float is its bit pattern; [VException] is a
    goja.Exception with its text).  A Go map is its entries in key order. *)
Inductive value :=
| VNil
| VBool (b : bool)
| VString (s : string)
| VInt (z : Z)
| VInt64 (z : Z)
| VFloat (bits : Z)
| VTime (t : Z)
| VException (text : string)
| VList (l : list value)
| VMap (m : list (string * value)).

Abbreviation vars := (gmap string value).

(** The comparison [out == true] of an interface with a bool. *)
Definition is_true_value (v : value) : bool :=
  match v with VBool true => true | _ => false end.

(** The type assertion [v.(string)]. *)
Definition as_string (v : value) : option string :=
  match v with VString s => Some s | _ => None end.

(** The type assertion [v.([]interface{})]. *)
Definition as_slice (v : value) : option (list value) :=
  match v with VList l => Some l | _ => None end.

(** ** VariableHolder

    A holder is its local variables and, when it has a parent, the parent's
    local variables; an operation that writes to the parent returns the
    parent's new variables. *)

Definition NewVariableHolder (parent : option vars) (localVariables : option vars) : vars :=
  match localVariables with
  | Some l => l
  | None => default ∅ parent
  end.

Definition GetLocalVariable (vh : vars) (key : string) : value := default VNil (vh !! key).
Definition SetLocalVariable (key : string) (val : value) (vh : vars) : vars := <[key := val]> vh.
Definition DeleteLocalVariable (key : string) (vh : vars) : vars := delete key vh.
Definition SetLocalVariables (variables : vars) (vh : vars) : vars := variables ∪ vh.
Definition mergeLocalVariablesWithOutputVariables (localVariables outputVariables : vars) : vars :=
  outputVariables ∪ localVariables.
Definition PropagateVariable (key : string) (val : value) (parent : vars) : vars :=
  SetLocalVariable key val parent.

Section mappings.
Context (evaluateExpression : string → vars → result value).

(** [EvaluateAndSetMappingsToLocalVariables]: every source expression is
    evaluated in the parent's scope, the target is set locally.  The
    mappings before a failing one stay set. *)
Fixpoint set_mappings (parent : vars) (mappings : list TIoMapping) (local : vars)
    : vars * result unit :=
  match mappings with
  | [] => (local, Good tt)
  | m :: ms =>
      match evaluateExpression m.(Source) parent with
      | Bad e => (local, Bad e)
      | Good v => set_mappings parent ms (SetLocalVariable m.(Target) v local)
      end
  end.

Definition EvaluateAndSetMappingsToLocalVariables
    (parent : option vars) (local : vars) (mappings : list TIoMapping) : vars * result unit :=
  match parent with
  | None => (local, Good tt)
  | Some p => set_mappings p mappings local
  end.

(** The loop of [PropagateOutputVariablesToParent]: expressions are evaluated
    in the merged scope, targets are set in the parent and in the result. *)
Fixpoint propagate_mappings (scope : vars) (mappings : list TIoMapping) (acc parent : vars)
    : vars * result vars :=
  match mappings with
  | [] => (parent, Good acc)
  | m :: ms =>
      match evaluateExpression m.(Source) scope with
      | Bad e => (parent, Bad e)
      | Good v => propagate_mappings scope ms
                    (SetLocalVariable m.(Target) v acc) (SetLocalVariable m.(Target) v parent)
      end
  end.

(** Returns the parent's variables after the call, and the output map (nil is
    the empty map) or the error.  Without mappings all outputs are copied. *)
Definition PropagateOutputVariablesToParent
    (parent local : vars) (mappings : list TIoMapping) (outputVariables : vars)
    : vars * result vars :=
  match mappings with
  | [] => (SetLocalVariables outputVariables parent, Good outputVariables)
  | _ => propagate_mappings
           (mergeLocalVariablesWithOutputVariables local outputVariables) mappings ∅ parent
  end.

Lemma propagate_mappings_app scope ms1 ms2 acc parent :
  propagate_mappings scope (ms1 ++ ms2) acc parent =
  match propagate_mappings scope ms1 acc parent with
  | (p, Good a) => propagate_mappings scope ms2 a p
  | r => r
  end.
Proof.
  revert acc parent. induction ms1 as [|m ms1 IH]; intros acc parent; simpl; [done|].
  by destruct (evaluateExpression (Source m) scope).
Qed.

(** Only targets of the mappings change in the parent. *)
Lemma propagate_mappings_other scope ms acc parent k :
  (∀ m, m ∈ ms → m.(Target) ≠ k) →
  (propagate_mappings scope ms acc parent).1 !! k = parent !! k.
Proof.
  revert acc parent. induction ms as [|m ms IH]; intros acc parent Hk; simpl; [done|].
  destruct (evaluateExpression (Source m) scope); simpl; [|done].
  rewrite IH; [|intros m' Hm'; apply Hk; by right].
  apply lookup_insert_ne. apply Hk. left.
Qed.

(** A successful propagation adds to the parent exactly what it adds to the
    returned map. *)
Lemma propagate_mappings_result scope ms acc parent p a :
  propagate_mappings scope ms acc parent = (p, Good a) →
  ∃ d, a = d ∪ acc ∧ p = d ∪ parent.
Proof.
  intros H. revert acc parent H.
  induction ms as [|m ms IH]; intros acc parent H; simpl in H.
  { simplify_eq. exists ∅. by rewrite !(left_id_L ∅ (∪)). }
  destruct (evaluateExpression (Source m) scope) as [v|]; [|done].
  apply IH in H as (d & -> & ->). unfold SetLocalVariable.
  exists (d ∪ {[m.(Target) := v]}).
  rewrite !insert_union_singleton_l. by rewrite !(assoc_L (∪)).
Qed.

Lemma set_mappings_length_Good parent ms local l :
  set_mappings parent ms local = (l, Good tt) →
  ∀ m, m ∈ ms → is_Some (l !! m.(Target)).
Proof.
  assert (Hmono : ∀ ms local l r k, set_mappings parent ms local = (l, r) →
    is_Some (local !! k) → is_Some (l !! k)).
  { clear. induction ms as [|m ms IH]; intros local l r k H Hk; simpl in H; [by simplify_eq|].
    destruct (evaluateExpression (Source m) parent); [|by simplify_eq].
    eapply IH; [exact H|]. unfold SetLocalVariable.
    destruct (decide (m.(Target) = k)) as [->|]; simplify_map_eq; eauto. }
  revert local. induction ms as [|m ms IH]; intros local H m' Hm'; simpl in H.
  { by apply not_elem_of_nil in Hm'. }
  destruct (evaluateExpression (Source m) parent) as [v|]; [|done].
  apply elem_of_cons in Hm' as [->|Hm']; [|by eapply IH].
  eapply Hmono; [exact H|]. unfold SetLocalVariable. simplify_map_eq. eauto.
Qed.
End mappings.

(** ** States *)

Inductive ActivityState :=
| ActivityStateZero
| ActivityStateActive | ActivityStateCompensated | ActivityStateCompensating
| ActivityStateCompleted | ActivityStateCompleting | ActivityStateFailed
| ActivityStateFailing | ActivityStateReady | ActivityStateTerminated
| ActivityStateTerminating | ActivityStateWithdrawn.

#[export] Instance ActivityState_eq_dec : EqDecision ActivityState.
Proof. solve_decision. Defined.

Inductive TimerState := TimerStateZero | TimerStateCreated | TimerStateTriggered | TimerStateCancelled.

#[export] Instance TimerState_eq_dec : EqDecision TimerState.
Proof. solve_decision. Defined.

Inductive TokenState :=
| TokenStateZero
| TokenStateRunning | TokenStateWaiting | TokenStateCompleted | TokenStateCanceled
| TokenStateFailed.

#[export] Instance TokenState_eq_dec : EqDecision TokenState.
Proof. solve_decision. Defined.

(** Go's zero time, 1 January of year 1. *)
Definition zero_time : Z := (-62135596800 * 1000000000)%Z.

(** [t.Truncate(time.Millisecond)] rounds down from the zero time. *)
Definition Truncate_ms (t : Z) : Z := ((t - zero_time) / 1000000 * 1000000 + zero_time)%Z.

(** ** Records of the storage *)

Record ExecutionToken := {
  tok_Key : Z;
  tok_ElementInstanceKey : Z;
  tok_ElementId : string;
  tok_ProcessInstanceKey : Z;
  tok_State : TokenState;
  tok_CreatedAt : Z }.

#[export] Instance ExecutionToken_eq_dec : EqDecision ExecutionToken.
Proof. solve_decision. Defined.

Definition zero_token : ExecutionToken :=
  {| tok_Key := 0; tok_ElementInstanceKey := 0; tok_ElementId := "";
     tok_ProcessInstanceKey := 0; tok_State := TokenStateZero; tok_CreatedAt := zero_time |}.

Definition with_TokenState (s : TokenState) (t : ExecutionToken) : ExecutionToken :=
  {| tok_Key := t.(tok_Key); tok_ElementInstanceKey := t.(tok_ElementInstanceKey);
     tok_ElementId := t.(tok_ElementId); tok_ProcessInstanceKey := t.(tok_ProcessInstanceKey);
     tok_State := s; tok_CreatedAt := t.(tok_CreatedAt) |}.

(** The assignments of [ElementId] and [ElementInstanceKey]. *)
Definition with_Element (id : string) (eik : Z) (t : ExecutionToken) : ExecutionToken :=
  {| tok_Key := t.(tok_Key); tok_ElementInstanceKey := eik;
     tok_ElementId := id; tok_ProcessInstanceKey := t.(tok_ProcessInstanceKey);
     tok_State := t.(tok_State); tok_CreatedAt := t.(tok_CreatedAt) |}.

Record ProcessDefinition := {
  pd_BpmnProcessId : string;
  pd_Version : Z;
  pd_Key : Z;
  pd_Definitions : TDefinitions;
  pd_BpmnData : string;
  pd_BpmnProcessName : string;
  pd_BpmnChecksum : list Z }.

(** The implementations of the ProcessInstance interface, with the fields each
    adds to ProcessInstanceData. *)
Inductive InstanceKind :=
| DefaultProcessInstance
| SubProcessInstance (ParentProcessExecutionToken : ExecutionToken)
    (ParentProcessTargetElementInstanceKey : Z) (ParentProcessTargetElementId : string)
| CallActivityInstance (ParentProcessExecutionToken : ExecutionToken)
    (ParentProcessTargetElementInstanceKey : Z)
| MultiInstanceInstance (ParentProcessExecutionToken : ExecutionToken)
    (ParentProcessTargetElementInstanceKey : Z) (ParentProcessTargetElementId : string).

Inductive ProcessType :=
| ProcessTypeDefault | ProcessTypeSubProcess | ProcessTypeCallActivity | ProcessTypeMultiInstance.

#[export] Instance ProcessType_eq_dec : EqDecision ProcessType.
Proof. solve_decision. Defined.

Record ProcessInstance := {
  pi_Kind : InstanceKind;
  pi_Definition : ProcessDefinition;
  pi_Key : Z;
  pi_BusinessKey : option string;
  pi_VariableHolder : vars;
  pi_CreatedAt : Z;
  pi_State : ActivityState }.

Definition Type_ (i : ProcessInstance) : ProcessType :=
  match i.(pi_Kind) with
  | DefaultProcessInstance => ProcessTypeDefault
  | SubProcessInstance _ _ _ => ProcessTypeSubProcess
  | CallActivityInstance _ _ => ProcessTypeCallActivity
  | MultiInstanceInstance _ _ _ => ProcessTypeMultiInstance
  end.

Definition ParentProcessExecutionToken (i : ProcessInstance) : option ExecutionToken :=
  match i.(pi_Kind) with
  | DefaultProcessInstance => None
  | SubProcessInstance t _ _ | CallActivityInstance t _ | MultiInstanceInstance t _ _ => Some t
  end.

Definition GetParentProcessInstanceKey (i : ProcessInstance) : option Z :=
  tok_ProcessInstanceKey <$> ParentProcessExecutionToken i.

Definition with_State (s : ActivityState) (i : ProcessInstance) : ProcessInstance :=
  {| pi_Kind := i.(pi_Kind); pi_Definition := i.(pi_Definition); pi_Key := i.(pi_Key);
     pi_BusinessKey := i.(pi_BusinessKey); pi_VariableHolder := i.(pi_VariableHolder);
     pi_CreatedAt := i.(pi_CreatedAt); pi_State := s |}.

Definition with_Variables (v : vars) (i : ProcessInstance) : ProcessInstance :=
  {| pi_Kind := i.(pi_Kind); pi_Definition := i.(pi_Definition); pi_Key := i.(pi_Key);
     pi_BusinessKey := i.(pi_BusinessKey); pi_VariableHolder := v;
     pi_CreatedAt := i.(pi_CreatedAt); pi_State := i.(pi_State) |}.

(** The assignment of [ParentProcessExecutionToken]. *)
Definition with_ParentToken (t : ExecutionToken) (i : ProcessInstance) : ProcessInstance :=
  {| pi_Kind :=
       match i.(pi_Kind) with
       | DefaultProcessInstance => DefaultProcessInstance
       | SubProcessInstance _ k e => SubProcessInstance t k e
       | CallActivityInstance _ k => CallActivityInstance t k
       | MultiInstanceInstance _ k e => MultiInstanceInstance t k e
       end;
     pi_Definition := i.(pi_Definition); pi_Key := i.(pi_Key);
     pi_BusinessKey := i.(pi_BusinessKey); pi_VariableHolder := i.(pi_VariableHolder);
     pi_CreatedAt := i.(pi_CreatedAt); pi_State := i.(pi_State) |}.

Record MessageSubscription := {
  ms_Key : Z;
  ms_ElementId : string;
  ms_ProcessDefinitionKey : Z;
  ms_ProcessInstanceKey : Z;
  ms_Name : string;
  ms_CorrelationKey : string;
  ms_State : ActivityState;
  ms_CreatedAt : Z;
  ms_Token : ExecutionToken }.

Definition with_SubscriptionState (s : ActivityState) (m : MessageSubscription) : MessageSubscription :=
  {| ms_Key := m.(ms_Key); ms_ElementId := m.(ms_ElementId);
     ms_ProcessDefinitionKey := m.(ms_ProcessDefinitionKey);
     ms_ProcessInstanceKey := m.(ms_ProcessInstanceKey); ms_Name := m.(ms_Name);
     ms_CorrelationKey := m.(ms_CorrelationKey); ms_State := s;
     ms_CreatedAt := m.(ms_CreatedAt); ms_Token := m.(ms_Token) |}.

(** Neither the correlation key nor the token is compared. *)
Definition MessageSubscription_EqualTo (m m2 : MessageSubscription) : bool :=
  (m.(ms_ElementId) =? m2.(ms_ElementId))%string &&
  (m.(ms_Key) =? m2.(ms_Key))%Z &&
  (m.(ms_ProcessDefinitionKey) =? m2.(ms_ProcessDefinitionKey))%Z &&
  (m.(ms_ProcessInstanceKey) =? m2.(ms_ProcessInstanceKey))%Z &&
  (m.(ms_Name) =? m2.(ms_Name))%string &&
  bool_decide (m.(ms_State) = m2.(ms_State)) &&
  (Truncate_ms m.(ms_CreatedAt) =? Truncate_ms m2.(ms_CreatedAt))%Z.

Record Timer := {
  tm_ElementId : string;
  tm_Key : Z;
  tm_ElementInstanceKey : Z;
  tm_ProcessDefinitionKey : Z;
  tm_ProcessInstanceKey : Z;
  tm_TimerState : TimerState;
  tm_CreatedAt : Z;
  tm_DueAt : Z;
  tm_Duration : Z;
  tm_Token : ExecutionToken }.

#[export] Instance Timer_eq_dec : EqDecision Timer.
Proof. solve_decision. Defined.

Definition with_TimerState (s : TimerState) (t : Timer) : Timer :=
  {| tm_ElementId := t.(tm_ElementId); tm_Key := t.(tm_Key);
     tm_ElementInstanceKey := t.(tm_ElementInstanceKey);
     tm_ProcessDefinitionKey := t.(tm_ProcessDefinitionKey);
     tm_ProcessInstanceKey := t.(tm_ProcessInstanceKey); tm_TimerState := s;
     tm_CreatedAt := t.(tm_CreatedAt); tm_DueAt := t.(tm_DueAt);
     tm_Duration := t.(tm_Duration); tm_Token := t.(tm_Token) |}.

Definition Timer_EqualTo (t t2 : Timer) : bool :=
  (t.(tm_Key) =? t2.(tm_Key))%Z &&
  (t.(tm_ElementId) =? t2.(tm_ElementId))%string &&
  (t.(tm_ProcessDefinitionKey) =? t2.(tm_ProcessDefinitionKey))%Z &&
  bool_decide (t.(tm_TimerState) = t2.(tm_TimerState)) &&
  (Truncate_ms t.(tm_CreatedAt) =? Truncate_ms t2.(tm_CreatedAt))%Z &&
  (Truncate_ms t.(tm_DueAt) =? Truncate_ms t2.(tm_DueAt))%Z &&
  (t.(tm_Duration) =? t2.(tm_Duration))%Z &&
  bool_decide (t.(tm_Token) = t2.(tm_Token)).

(** [None] is the panic of the missing mapping. *)
Definition Timer_GetState (t : Timer) : option ActivityState :=
  match t.(tm_TimerState) with
  | TimerStateCreated => Some ActivityStateActive
  | TimerStateTriggered => Some ActivityStateCompleted
  | TimerStateCancelled => Some ActivityStateWithdrawn
  | TimerStateZero => None
  end.

Record Job := {
  job_ElementId : string;
  job_ElementInstanceKey : Z;
  job_ProcessInstanceKey : Z;
  job_Key : Z;
  job_State : ActivityState;
  job_Type : string;
  job_Variables : vars;
  job_CreatedAt : Z;
  job_Token : ExecutionToken;
  job_Assignee : option string }.

Definition with_Job (s : ActivityState) (t : ExecutionToken) (a : option string) (j : Job) : Job :=
  {| job_ElementId := j.(job_ElementId); job_ElementInstanceKey := j.(job_ElementInstanceKey);
     job_ProcessInstanceKey := j.(job_ProcessInstanceKey); job_Key := j.(job_Key);
     job_State := s; job_Type := j.(job_Type); job_Variables := j.(job_Variables);
     job_CreatedAt := j.(job_CreatedAt); job_Token := t; job_Assignee := a |}.
Definition with_JobState (s : ActivityState) (j : Job) : Job :=
  with_Job s j.(job_Token) j.(job_Assignee) j.
Definition with_JobToken (t : ExecutionToken) (j : Job) : Job :=
  with_Job j.(job_State) t j.(job_Assignee) j.
Definition with_Assignee (a : option string) (j : Job) : Job :=
  with_Job j.(job_State) j.(job_Token) a j.

Record FlowElementInstance := {
  fe_Key : Z;
  fe_ProcessInstanceKey : Z;
  fe_ElementId : string;
  fe_CreatedAt : Z;
  fe_ExecutionTokenKey : Z;
  fe_InputVariables : vars;
  fe_OutputVariables : vars }.

(** The value with only the key and the outputs set that
    UpdateOutputFlowElementInstance is called with. *)
Definition fe_output (key : Z) (out : vars) : FlowElementInstance :=
  {| fe_Key := key; fe_ProcessInstanceKey := 0; fe_ElementId := ""; fe_CreatedAt := zero_time;
     fe_ExecutionTokenKey := 0; fe_InputVariables := ∅; fe_OutputVariables := out |}.

Definition with_OutputVariables (out : vars) (f : FlowElementInstance) : FlowElementInstance :=
  {| fe_Key := f.(fe_Key); fe_ProcessInstanceKey := f.(fe_ProcessInstanceKey);
     fe_ElementId := f.(fe_ElementId); fe_CreatedAt := f.(fe_CreatedAt);
     fe_ExecutionTokenKey := f.(fe_ExecutionTokenKey);
     fe_InputVariables := f.(fe_InputVariables); fe_OutputVariables := out |}.

(** [Message] keeps the error whose text the code stores. *)
Record Incident := {
  inc_Key : Z;
  inc_ElementInstanceKey : Z;
  inc_ElementId : string;
  inc_ProcessInstanceKey : Z;
  inc_Message : error;
  inc_CreatedAt : Z;
  inc_ResolvedAt : option Z;
  inc_Token : ExecutionToken }.

Definition with_Incident (resolved : option Z) (t : ExecutionToken) (i : Incident) : Incident :=
  {| inc_Key := i.(inc_Key); inc_ElementInstanceKey := i.(inc_ElementInstanceKey);
     inc_ElementId := i.(inc_ElementId); inc_ProcessInstanceKey := i.(inc_ProcessInstanceKey);
     inc_Message := i.(inc_Message); inc_CreatedAt := i.(inc_CreatedAt);
     inc_ResolvedAt := resolved; inc_Token := t |}.
Definition with_ResolvedAt (t : Z) (i : Incident) : Incident :=
  with_Incident (Some t) i.(inc_Token) i.
Definition with_IncidentToken (t : ExecutionToken) (i : Incident) : Incident :=
  with_Incident i.(inc_ResolvedAt) t i.
