(* ===== verification/DmnModel.v ===== *)
(** The parsed DMN model (pkg/dmn/model/dmn) and the records the DMN engine
    keeps in the storage (pkg/dmn/runtime). *)
From S2P Require Import Prelude Model Runtime.

(** ** Parsed documents *)

Record TInputData := { ind_Id : string; ind_Name : string }.

Record TVariable := { var_Id : string; var_Name : string; var_TypeRef : string }.

Inductive HitPolicy :=
| HitPolicyCollect | HitPolicyFirst | HitPolicyPriority | HitPolicyAny
| HitPolicyRuleOrder | HitPolicyOutputOrder
| HitPolicyOther (text : string).

Inductive HitPolicyAggregation :=
| HitPolicyAggregationSum | HitPolicyAggregationMin | HitPolicyAggregationMax
| HitPolicyAggregationCount
| HitPolicyAggregationOther (text : string).

Record TInput := { in_Id : string; in_Label : string; in_Expression : string }.
Record TOutput := { out_Id : string; out_Label : string; out_Name : string; out_TypeRef : string }.
Record TRule := { rule_Id : string; InputEntry : list string; OutputEntry : list string }.

Record TDecisionTable := {
  dt_Id : string;
  dt_HitPolicy : HitPolicy;
  dt_HitPolicyAggregation : HitPolicyAggregation;
  dt_Inputs : list TInput;
  dt_Outputs : list TOutput;
  dt_Rules : list TRule }.

Record TLiteralExpression := { le_Id : string; le_ExpressionLanguage : string; le_Text : string }.

Inductive TContext := MkContext (ContextEntries : list TContextEntry)
with TContextEntry := MkContextEntry
  (ce_DecisionTable : option TDecisionTable)
  (ce_Variable : option TVariable)
  (ce_LiteralExpression : option TLiteralExpression)
  (ce_Context : option TContext).

(** A requirement with neither reference keeps a nil resource. *)
Inductive TRequiredResource :=
| TRequiredDecision (Href : string)
| TRequiredInput (Href : string)
| NoResource.

Record TInformationRequirement := { ir_Id : string; RequiredResource : TRequiredResource }.

Record TDecision := {
  dec_Id : string;
  dec_Name : string;
  dec_DecisionTable : option TDecisionTable;
  dec_Variable : option TVariable;
  dec_LiteralExpression : option TLiteralExpression;
  dec_Context : option TContext;
  dec_VersionTag : string;
  InformationRequirement : list TInformationRequirement }.

Record DmnTDefinitions := {
  dd_Id : string;
  dd_Name : string;
  Decisions : list TDecision;
  InputData : list TInputData }.

(** The switch of TInformationRequirement.UnmarshalXML on the decoded parts. *)
Definition TInformationRequirement_UnmarshalXML (id requiredDecision requiredInput : string)
    : TInformationRequirement :=
  {| ir_Id := id;
     RequiredResource :=
       if negb (requiredDecision =? "")%string then TRequiredDecision requiredDecision
       else if negb (requiredInput =? "")%string then TRequiredInput requiredInput
       else NoResource |}.

(** ** Records of the storage *)

Record DmnResourceDefinition := {
  drd_Version : Z;
  drd_Key : Z;
  drd_Id : string;
  drd_Definitions : DmnTDefinitions;
  drd_DmnData : string;
  drd_DmnDefinitionName : string;
  drd_DmnChecksum : list Z }.

Record DecisionDefinition := {
  dcd_Version : Z;
  dcd_Key : Z;
  dcd_Id : string;
  dcd_VersionTag : string;
  dcd_DmnResourceDefinitionId : string;
  dcd_DmnResourceDefinitionKey : Z }.

Record DecisionInstance := {
  dci_Key : Z;
  dci_ElementInstanceKey : Z;
  dci_ElementId : string;
  dci_ProcessInstanceKey : Z;
  dci_ExecutionTokenKey : Z;
  dci_DecisionId : string;
  dci_CreatedAt : Z;
  dci_OutputVariables : string;
  dci_EvaluatedDecisions : string;
  dci_DmnResourceDefinitionKey : Z;
  dci_DecisionDefinitionKey : Z }.

(** ** Results of an evaluation *)

Record EvaluatedOutput := {
  eo_OutputId : string; eo_OutputName : string; eo_OutputJsonName : string; OutputValue : value }.

Record EvaluatedRule := {
  RuleId : string; RuleIndex : Z; EvaluatedOutputs : list EvaluatedOutput }.

Record EvaluatedInput := {
  ei_InputId : string; ei_InputName : string; ei_InputExpression : string; InputValue : value }.

Inductive EvaluatedDecisionType := DecisionTable | LiteralExpression | Context_.

(** [DecisionOutput] is a Go map; nil is the empty map. *)
Record EvaluatedDecisionResult := {
  edr_DecisionId : string;
  edr_DecisionName : string;
  edr_DecisionType : EvaluatedDecisionType;
  edr_DecisionDefinitionVersion : Z;
  edr_DecisionDefinitionKey : Z;
  edr_DmnResourceDefinitionId : string;
  edr_MatchedRules : list EvaluatedRule;
  edr_DecisionOutput : vars;
  edr_EvaluatedInputs : list EvaluatedInput }.

Record EvaluatedDRDResult := {
  EvaluatedDecisions : list EvaluatedDecisionResult;
  DecisionOutput : value;
  DecisionInstanceKey : Z }.
