(* ===== verification/Storage.v ===== *)
(** The storage interface the engines are written against
    (pkg/storage/storage.go): the readers, the statements a writer or a batch
    runs, and the contract an implementation promises, stated on an abstract
    view of its tables.

    The engine holds process instances by pointer, so a reader of instances
    works on the heap of instance objects: an implementation may hand out the
    pointer it keeps, or a new object. *)
From S2P Require Import Prelude Monad Model Runtime DmnModel.

(** ** The heap of process instances *)

Abbreviation loc := positive (only parsing).

Record Heap := { h_objects : gmap loc ProcessInstance; h_next : loc }.

Definition empty_heap : Heap := {| h_objects := ∅; h_next := 1%positive |}.

Definition heap_alloc (i : ProcessInstance) (h : Heap) : loc * Heap :=
  (h.(h_next), {| h_objects := <[h.(h_next) := i]> h.(h_objects); h_next := Pos.succ h.(h_next) |}).

Definition heap_set (p : loc) (i : ProcessInstance) (h : Heap) : Heap :=
  {| h_objects := <[p := i]> h.(h_objects); h_next := h.(h_next) |}.

(** ** Statements

    A statement of a batch.  The one that saves a process instance has the
    pointer it was given and the object as it was when the method was called:
    an implementation keeps the pointer or writes the object out. *)
Inductive Stmt :=
| StSaveProcessDefinition (d : ProcessDefinition)
| StSaveProcessInstance (p : loc) (i : ProcessInstance)
| StSaveTimer (t : Timer)
| StSaveJob (j : Job)
| StSaveMessageSubscription (m : MessageSubscription)
| StSaveToken (t : ExecutionToken)
| StSaveFlowElementInstance (f : FlowElementInstance)
| StUpdateOutputFlowElementInstance (f : FlowElementInstance)
| StSaveIncident (i : Incident).

(** ** The readers and writers *)

Class Storage (S : Type) := {
  FindLatestProcessDefinitionById : S → string → result ProcessDefinition;
  FindProcessDefinitionByKey : S → Z → result ProcessDefinition;
  FindProcessDefinitionsById : S → string → result (list ProcessDefinition);
  FindProcessInstanceByKey : S → Z → ST Heap loc;
  FindProcessInstancesByParentExecutionTokenKey : S → Z → ST Heap (list loc);
  RefreshProcessInstance : S → loc → ST Heap unit;
  GetTimer : S → Z → result Timer;
  FindTimersTo : S → Z → result (list Timer);
  FindProcessInstanceTimers : S → Z → TimerState → result (list Timer);
  FindTokenActiveTimerSubscriptions : S → Z → result (list Timer);
  FindPendingProcessInstanceJobs : S → Z → result (list Job);
  GetJobsInStateByTokenKey : S → Z → list ActivityState → result (list Job);
  FindJobByJobKey : S → Z → result Job;
  FindActiveJobsByType : S → string → result (list Job);
  FindMessageSubscriptionById : S → Z → ActivityState → result MessageSubscription;
  FindActiveMessageSubscriptionKey : S → string → string → result Z;
  FindProcessInstanceMessageSubscriptions : S → Z → ActivityState → result (list MessageSubscription);
  FindTokenMessageSubscriptions : S → Z → ActivityState → result (list MessageSubscription);
  GetRunningTokens : S → result (list ExecutionToken);
  GetActiveTokensForProcessInstance : S → Z → result (list ExecutionToken);
  GetCompletedTokensForProcessInstance : S → Z → result (list ExecutionToken);
  GetAllTokensForProcessInstance : S → Z → result (list ExecutionToken);
  GetTokenByKey : S → Z → result ExecutionToken;
  GetFlowElementInstanceCountByProcessInstanceKey : S → Z → result Z;
  GetFlowElementInstancesByProcessInstanceKey : S → Z → bool → result (list FlowElementInstance);
  GetFlowElementInstanceByKey : S → Z → result FlowElementInstance;
  FindIncidentByKey : S → Z → result Incident;
  FindIncidentsByProcessInstanceKey : S → Z → result (list Incident);
  FindIncidentsByExecutionTokenKey : S → Z → result (list Incident);
  (** Adding a statement to a batch may fail, when the record cannot be encoded. *)
  prepare : Stmt → result unit;
  (** A writer of the storage itself runs one statement at once. *)
  exec : Stmt → ST S unit;
  (** Flush of a batch that holds the statements. *)
  flush : list Stmt → ST S unit }.

(** The part of the interface the DMN engine uses. *)
Class DecisionStorage (S : Type) := {
  GetLatestDecisionDefinitionById : S → string → result DecisionDefinition;
  GetDecisionDefinitionsById : S → string → result (list DecisionDefinition);
  GetLatestDecisionDefinitionByIdAndVersionTag : S → string → string → result DecisionDefinition;
  GetLatestDecisionDefinitionByIdAndDmnResourceDefinitionId :
    S → string → string → result DecisionDefinition;
  GetDecisionDefinitionByIdAndDmnResourceDefinitionKey : S → string → Z → result DecisionDefinition;
  FindLatestDmnResourceDefinitionById : S → string → result DmnResourceDefinition;
  FindDmnResourceDefinitionByKey : S → Z → result DmnResourceDefinition;
  FindDmnResourceDefinitionsById : S → string → result (list DmnResourceDefinition);
  FindDecisionInstanceByKey : S → Z → result DecisionInstance;
  SaveDecisionDefinition : DecisionDefinition → ST S unit;
  SaveDmnResourceDefinition : DmnResourceDefinition → ST S unit;
  SaveDecisionInstance : DecisionInstance → ST S unit }.

(** ** The abstract tables *)

Record Tables := {
  t_Definitions : gmap Z ProcessDefinition;
  t_Timers : gmap Z Timer;
  t_Jobs : gmap Z Job;
  t_Subscriptions : gmap Z MessageSubscription;
  t_Tokens : gmap Z ExecutionToken;
  t_Elements : gmap Z FlowElementInstance;
  t_Incidents : gmap Z Incident }.

Definition upd_Definitions f t := {| t_Definitions := f t.(t_Definitions); t_Timers := t.(t_Timers);
  t_Jobs := t.(t_Jobs); t_Subscriptions := t.(t_Subscriptions); t_Tokens := t.(t_Tokens);
  t_Elements := t.(t_Elements); t_Incidents := t.(t_Incidents) |}.
Definition upd_Timers f t := {| t_Definitions := t.(t_Definitions); t_Timers := f t.(t_Timers);
  t_Jobs := t.(t_Jobs); t_Subscriptions := t.(t_Subscriptions); t_Tokens := t.(t_Tokens);
  t_Elements := t.(t_Elements); t_Incidents := t.(t_Incidents) |}.
Definition upd_Jobs f t := {| t_Definitions := t.(t_Definitions); t_Timers := t.(t_Timers);
  t_Jobs := f t.(t_Jobs); t_Subscriptions := t.(t_Subscriptions); t_Tokens := t.(t_Tokens);
  t_Elements := t.(t_Elements); t_Incidents := t.(t_Incidents) |}.
Definition upd_Subscriptions f t := {| t_Definitions := t.(t_Definitions); t_Timers := t.(t_Timers);
  t_Jobs := t.(t_Jobs); t_Subscriptions := f t.(t_Subscriptions); t_Tokens := t.(t_Tokens);
  t_Elements := t.(t_Elements); t_Incidents := t.(t_Incidents) |}.
Definition upd_Tokens f t := {| t_Definitions := t.(t_Definitions); t_Timers := t.(t_Timers);
  t_Jobs := t.(t_Jobs); t_Subscriptions := t.(t_Subscriptions); t_Tokens := f t.(t_Tokens);
  t_Elements := t.(t_Elements); t_Incidents := t.(t_Incidents) |}.
Definition upd_Elements f t := {| t_Definitions := t.(t_Definitions); t_Timers := t.(t_Timers);
  t_Jobs := t.(t_Jobs); t_Subscriptions := t.(t_Subscriptions); t_Tokens := t.(t_Tokens);
  t_Elements := f t.(t_Elements); t_Incidents := t.(t_Incidents) |}.
Definition upd_Incidents f t := {| t_Definitions := t.(t_Definitions); t_Timers := t.(t_Timers);
  t_Jobs := t.(t_Jobs); t_Subscriptions := t.(t_Subscriptions); t_Tokens := t.(t_Tokens);
  t_Elements := t.(t_Elements); t_Incidents := f t.(t_Incidents) |}.

Definition zero_element : FlowElementInstance :=
  {| fe_Key := 0; fe_ProcessInstanceKey := 0; fe_ElementId := ""; fe_CreatedAt := zero_time;
     fe_ExecutionTokenKey := 0; fe_InputVariables := ∅; fe_OutputVariables := ∅ |}.

(** What a successful statement means: an upsert by key.  (The process
    instances are not part of these tables: see [StorageLaws].) *)
Definition apply_stmt (s : Stmt) (t : Tables) : Tables :=
  match s with
  | StSaveProcessDefinition d => upd_Definitions (insert d.(pd_Key) d) t
  | StSaveProcessInstance _ _ => t
  | StSaveTimer x => upd_Timers (insert x.(tm_Key) x) t
  | StSaveJob x => upd_Jobs (insert x.(job_Key) x) t
  | StSaveMessageSubscription x => upd_Subscriptions (insert x.(ms_Key) x) t
  | StSaveToken x => upd_Tokens (insert x.(tok_Key) x) t
  | StSaveFlowElementInstance x => upd_Elements (insert x.(fe_Key) x) t
  | StUpdateOutputFlowElementInstance x =>
      upd_Elements (λ m, insert x.(fe_Key)
        (with_OutputVariables x.(fe_OutputVariables) (default zero_element (m !! x.(fe_Key)))) m) t
  | StSaveIncident x => upd_Incidents (insert x.(inc_Key) x) t
  end.

Fixpoint apply_stmts (l : list Stmt) (t : Tables) : Tables :=
  match l with
  | [] => t
  | s :: l' => apply_stmts l' (apply_stmt s t)
  end.

Lemma apply_stmts_app l1 l2 t : apply_stmts (l1 ++ l2) t = apply_stmts l2 (apply_stmts l1 t).
Proof. revert t. induction l1 as [|s l1 IH]; intros t; simpl; [done|]. apply IH. Qed.

(** One table: [row] is the row a statement writes to it. *)
Section table.
Context {A : Type} (table : Tables → gmap Z A) (row : Stmt → option (Z * A)).
Context (Hrow : ∀ s t, table (apply_stmt s t) =
  match row s with Some (k, x) => <[k := x]> (table t) | None => table t end).

(** A row after the statements was written by one of them, or was there
    before and none of them wrote its key. *)
Lemma table_after l t k x :
  table (apply_stmts l t) !! k = Some x →
  (∃ s, s ∈ l ∧ row s = Some (k, x)) ∨
  (table t !! k = Some x ∧ ∀ s y, s ∈ l → row s ≠ Some (k, y)).
Proof.
  revert t. induction l as [|s l IH]; intros t Hx; simpl in Hx.
  { right. split; [done|]. intros s y Hs. by apply not_elem_of_nil in Hs. }
  apply IH in Hx as [(s' & Hs' & Hr)|[Hx Hl]].
  { left. exists s'. split; [by right|done]. }
  rewrite Hrow in Hx. destruct (row s) as [[j y]|] eqn:Er.
  - destruct (decide (j = k)) as [->|Hne].
    + rewrite lookup_insert_eq in Hx. simplify_eq. left. exists s. split; [left|done].
    + rewrite lookup_insert_ne in Hx by done. right. split; [done|].
      intros s' z [->|Hs']%elem_of_cons; [congruence|by apply Hl].
  - right. split; [done|]. intros s' z [->|Hs']%elem_of_cons; [congruence|by apply Hl].
Qed.
End table.

Definition subscription_row (s : Stmt) : option (Z * MessageSubscription) :=
  match s with StSaveMessageSubscription m => Some (m.(ms_Key), m) | _ => None end.
Definition timer_row (s : Stmt) : option (Z * Timer) :=
  match s with StSaveTimer t => Some (t.(tm_Key), t) | _ => None end.
Definition job_row (s : Stmt) : option (Z * Job) :=
  match s with StSaveJob j => Some (j.(job_Key), j) | _ => None end.
Definition token_row (s : Stmt) : option (Z * ExecutionToken) :=
  match s with StSaveToken t => Some (t.(tok_Key), t) | _ => None end.
Definition incident_row (s : Stmt) : option (Z * Incident) :=
  match s with StSaveIncident i => Some (i.(inc_Key), i) | _ => None end.

Definition subscription_after := table_after t_Subscriptions subscription_row ltac:(by intros []).
Definition timer_after := table_after t_Timers timer_row ltac:(by intros []).
Definition job_after := table_after t_Jobs job_row ltac:(by intros []).
Definition token_after := table_after t_Tokens token_row ltac:(by intros []).
Definition incident_after := table_after t_Incidents incident_row ltac:(by intros []).

(** Every row is stored under its own key. *)
Record tables_keyed (t : Tables) : Prop := {
  keyed_subscription k m : t.(t_Subscriptions) !! k = Some m → m.(ms_Key) = k;
  keyed_timer k x : t.(t_Timers) !! k = Some x → x.(tm_Key) = k;
  keyed_job k j : t.(t_Jobs) !! k = Some j → j.(job_Key) = k;
  keyed_token k x : t.(t_Tokens) !! k = Some x → x.(tok_Key) = k }.

Lemma tables_keyed_apply s t : tables_keyed t → tables_keyed (apply_stmt s t).
Proof.
  intros [H1 H2 H3 H4]. destruct s; split; simpl; intros k x Hx; eauto;
    apply lookup_insert_Some in Hx as [[<- <-]|[_ Hx]]; eauto.
Qed.

(** ** The contract *)

Definition pending_job (j : Job) : Prop :=
  j.(job_State) = ActivityStateActive ∨ j.(job_State) = ActivityStateCompleting ∨
  j.(job_State) = ActivityStateFailed.

Definition active_token (t : ExecutionToken) : Prop :=
  t.(tok_State) = TokenStateWaiting ∨ t.(tok_State) = TokenStateFailed ∨
  t.(tok_State) = TokenStateRunning.

#[export] Instance pending_job_dec j : Decision (pending_job j).
Proof. unfold pending_job. apply _. Defined.
#[export] Instance active_token_dec t : Decision (active_token t).
Proof. unfold active_token. apply _. Defined.

(** A list query that answers returns the matching rows, each once, in some
    order. *)
Definition rows_of {A} (m : gmap Z A) (P : A → Prop) {HP : ∀ x, Decision (P x)}
    (r : result (list A)) : Prop :=
  ∀ l, r = Good l → l ≡ₚ filter P (map_values m).

(** A query by key that answers returns the row, and answers nothing for a
    missing one: "methods that are expected to return exactly one match must
    return ErrNotFound when the result does not exist". *)
Definition row_of {A} (m : gmap Z A) (k : Z) (r : result A) : Prop :=
  match r with
  | Good x => m !! k = Some x
  | Bad e => is_ErrNotFound e = true → m !! k = None
  end.

(** The last statement of a batch that saves the process instance [k]. *)
Fixpoint last_saved (k : Z) (l : list Stmt) : option (loc * ProcessInstance) :=
  match l with
  | [] => None
  | s :: l' =>
      match last_saved k l', s with
      | Some r, _ => Some r
      | None, StSaveProcessInstance p i => if (i.(pi_Key) =? k)%Z then Some (p, i) else None
      | None, _ => None
      end
  end.

Lemma last_saved_snoc l p i : last_saved i.(pi_Key) (l ++ [StSaveProcessInstance p i]) = Some (p, i).
Proof.
  induction l as [|s l IH]; simpl; [by rewrite Z.eqb_refl|]. by rewrite IH.
Qed.

(** [view] and [instance_row] are the abstraction function of the
    implementation: its tables, and the process instance a key denotes. *)
Class StorageLaws (S : Type) `{Storage S} (view : S → Tables)
    (instance_row : S → Heap → Z → option ProcessInstance) : Prop := {
  law_FindProcessInstanceByKey : ∀ s k h p h',
    FindProcessInstanceByKey s k h = (Ret p, h') →
    h'.(h_objects) !! p = instance_row s h k;
  law_FindJobByJobKey : ∀ s k, row_of (view s).(t_Jobs) k (FindJobByJobKey s k);
  law_GetTimer : ∀ s k, row_of (view s).(t_Timers) k (GetTimer s k);
  law_GetTokenByKey : ∀ s k, row_of (view s).(t_Tokens) k (GetTokenByKey s k);
  law_FindIncidentByKey : ∀ s k, row_of (view s).(t_Incidents) k (FindIncidentByKey s k);
  law_GetFlowElementInstanceByKey : ∀ s k,
    row_of (view s).(t_Elements) k (GetFlowElementInstanceByKey s k);
  law_FindProcessDefinitionByKey : ∀ s k,
    row_of (view s).(t_Definitions) k (FindProcessDefinitionByKey s k);
  law_FindMessageSubscriptionById : ∀ s k st m,
    FindMessageSubscriptionById s k st = Good m →
    (view s).(t_Subscriptions) !! k = Some m ∧ m.(ms_State) = st;
  law_FindActiveMessageSubscriptionKey : ∀ s name ck k,
    FindActiveMessageSubscriptionKey s name ck = Good k →
    ∃ k' m, (view s).(t_Subscriptions) !! k' = Some m ∧ m.(ms_Key) = k ∧
      m.(ms_State) = ActivityStateActive ∧ m.(ms_Name) = name ∧ m.(ms_CorrelationKey) = ck;
  law_FindTimersTo : ∀ s e, rows_of (view s).(t_Timers)
    (λ t, (t.(tm_DueAt) ≤ e)%Z ∧ t.(tm_TimerState) = TimerStateCreated) (FindTimersTo s e);
  law_FindProcessInstanceTimers : ∀ s k st, rows_of (view s).(t_Timers)
    (λ t, t.(tm_ProcessInstanceKey) = k ∧ t.(tm_TimerState) = st) (FindProcessInstanceTimers s k st);
  law_FindTokenActiveTimerSubscriptions : ∀ s k, rows_of (view s).(t_Timers)
    (λ t, t.(tm_TimerState) = TimerStateCreated ∧ t.(tm_Token).(tok_Key) = k)
    (FindTokenActiveTimerSubscriptions s k);
  law_FindPendingProcessInstanceJobs : ∀ s k, rows_of (view s).(t_Jobs)
    (λ j, j.(job_ProcessInstanceKey) = k ∧ pending_job j) (FindPendingProcessInstanceJobs s k);
  law_FindActiveJobsByType : ∀ s ty, rows_of (view s).(t_Jobs)
    (λ j, j.(job_Type) = ty ∧ j.(job_State) = ActivityStateActive) (FindActiveJobsByType s ty);
  law_FindProcessInstanceMessageSubscriptions : ∀ s k st, rows_of (view s).(t_Subscriptions)
    (λ m, m.(ms_ProcessInstanceKey) = k ∧ m.(ms_State) = st)
    (FindProcessInstanceMessageSubscriptions s k st);
  law_FindTokenMessageSubscriptions : ∀ s k st, rows_of (view s).(t_Subscriptions)
    (λ m, m.(ms_Token).(tok_Key) = k ∧ m.(ms_State) = st) (FindTokenMessageSubscriptions s k st);
  law_GetRunningTokens : ∀ s, rows_of (view s).(t_Tokens)
    (λ t, t.(tok_State) = TokenStateRunning) (GetRunningTokens s);
  law_GetActiveTokensForProcessInstance : ∀ s k, rows_of (view s).(t_Tokens)
    (λ t, t.(tok_ProcessInstanceKey) = k ∧ active_token t) (GetActiveTokensForProcessInstance s k);
  law_GetCompletedTokensForProcessInstance : ∀ s k, rows_of (view s).(t_Tokens)
    (λ t, t.(tok_ProcessInstanceKey) = k ∧ t.(tok_State) = TokenStateCompleted)
    (GetCompletedTokensForProcessInstance s k);
  law_GetAllTokensForProcessInstance : ∀ s k, rows_of (view s).(t_Tokens)
    (λ t, t.(tok_ProcessInstanceKey) = k) (GetAllTokensForProcessInstance s k);
  law_FindIncidentsByProcessInstanceKey : ∀ s k, rows_of (view s).(t_Incidents)
    (λ i, i.(inc_ProcessInstanceKey) = k) (FindIncidentsByProcessInstanceKey s k);
  law_FindIncidentsByExecutionTokenKey : ∀ s k, rows_of (view s).(t_Incidents)
    (λ i, i.(inc_Token).(tok_Key) = k) (FindIncidentsByExecutionTokenKey s k);

  (** A batch whose Flush returns no error has run all its statements, in
      order; the row of a saved instance is the object it was saved from. *)
  law_flush : ∀ l s s', flush l s = (Ret tt, s') → view s' = apply_stmts l (view s);
  law_flush_instance : ∀ l s s' h p i,
    flush l s = (Ret tt, s') →
    last_saved i.(pi_Key) l = Some (p, i) →
    h.(h_objects) !! p = Some i →
    instance_row s' h i.(pi_Key) = Some i }.

(** The queries that cancelling needs answer, and every record can be encoded. *)
Class StorageAnswers (S : Type) `{Storage S} : Prop := {
  answers_subscriptions s k st : is_Good (FindProcessInstanceMessageSubscriptions s k st) = true;
  answers_timers s k st : is_Good (FindProcessInstanceTimers s k st) = true;
  answers_jobs s k : is_Good (FindPendingProcessInstanceJobs s k) = true;
  answers_incidents s k : is_Good (FindIncidentsByProcessInstanceKey s k) = true;
  prepare_total s : prepare s = Good tt }.

(** *** The heap

    A storage hands out instance objects, new or its own, and refreshes the
    object it is given; it never changes what an object is. *)

Definition same_identity (i i' : ProcessInstance) : Prop :=
  i'.(pi_Key) = i.(pi_Key) ∧ i'.(pi_Definition) = i.(pi_Definition) ∧
  i'.(pi_BusinessKey) = i.(pi_BusinessKey) ∧ i'.(pi_CreatedAt) = i.(pi_CreatedAt) ∧
  Type_ i' = Type_ i.

#[export] Instance same_identity_preorder : PreOrder same_identity.
Proof.
  split; [by intros i|]. intros i j k (?&?&?&?&?) (?&?&?&?&?).
  repeat split; congruence.
Qed.

Definition heap_wf (h : Heap) : Prop :=
  ∀ p, is_Some (h.(h_objects) !! p) → (p < h.(h_next))%positive.

(** Objects stay, with their identity; new ones are allocated. *)
Definition heap_ext (h h' : Heap) : Prop :=
  heap_wf h → heap_wf h' ∧
  ∀ p i, h.(h_objects) !! p = Some i →
    ∃ i', h'.(h_objects) !! p = Some i' ∧ same_identity i i'.

#[export] Instance heap_ext_preorder : PreOrder heap_ext.
Proof.
  split.
  - intros h Hh. split; [done|]. intros p i Hi. exists i. by split.
  - intros h1 h2 h3 H12 H23 H1. destruct (H12 H1) as [H2 E12], (H23 H2) as [H3 E23].
    split; [done|]. intros p i Hi. destruct (E12 p i Hi) as (j & Hj & Hij).
    destruct (E23 p j Hj) as (k & Hk & Hjk). exists k. split; [done|]. by etrans.
Qed.

Lemma heap_alloc_ext i h : heap_ext h (heap_alloc i h).2.
Proof.
  intros Hh. split; simpl.
  - intros p [x Hp]. simpl in *. apply lookup_insert_Some in Hp as [[<- _]|[_ Hp]]; [lia|].
    assert (p < h_next h)%positive by (apply Hh; eauto). lia.
  - intros p j Hj. exists j. split; [|done]. rewrite lookup_insert_ne; [done|].
    intros <-. assert (h_next h < h_next h)%positive by (apply Hh; eauto). lia.
Qed.

(** Nothing is allocated. *)
Definition heap_keeps (h h' : Heap) : Prop :=
  (heap_wf h → heap_wf h') ∧
  ∀ p i, h.(h_objects) !! p = Some i →
    ∃ i', h'.(h_objects) !! p = Some i' ∧ same_identity i i'.

Lemma heap_keeps_ext h h' : heap_keeps h h' → heap_ext h h'.
Proof. intros [Hw Hk] Hh. split; [by apply Hw|done]. Qed.

#[export] Instance heap_keeps_refl : Reflexive heap_keeps.
Proof. intros h. split; [done|]. intros p i Hi. by exists i. Qed.

Lemma heap_set_keeps p i i' h :
  h.(h_objects) !! p = Some i → same_identity i i' → heap_keeps h (heap_set p i' h).
Proof.
  intros Hi Hs. split; simpl.
  - intros Hh q [x Hq]. simpl in Hq. apply Hh. apply lookup_insert_Some in Hq as [[<- _]|[_ Hq]]; eauto.
  - intros q j Hj. destruct (decide (p = q)) as [<-|Hne].
    + exists i'. rewrite lookup_insert_eq. split; [done|]. congruence.
    + exists j. by rewrite lookup_insert_ne.
Qed.

Class HeapLaws (S : Type) `{Storage S} : Prop := {
  heap_FindProcessInstanceByKey s k : pres heap_ext (FindProcessInstanceByKey s k);
  heap_FindCalled s k : pres heap_ext (FindProcessInstancesByParentExecutionTokenKey s k);
  heap_Refresh s p : pres heap_keeps (RefreshProcessInstance s p) }.

(** What a batch should do when a statement fails: leave the storage alone. *)
Definition atomic_flush (S : Type) `{Storage S} : Prop :=
  ∀ l (s s' : S) e, flush l s = (Err e, s') → s' = s.
