(* ===== verification/InMemory.v ===== *)
(** The in-memory storage (pkg/storage/inmemory/in_memory_repository.go): a
    struct of Go maps, the queries as loops over them, and the batch.  It keeps
    process instances by pointer.  The order in which Go ranges over a map is
    not specified: every query is written over [range], an arbitrary
    enumeration of a map's entries.  [mem_laws] shows that the storage
    implements the contract of Storage.v for every such order. *)
From S2P Require Import Prelude Monad Model Runtime DmnModel Storage.

Record InMemory := {
  DmnResourceDefinitions : gmap Z DmnResourceDefinition;
  DecisionDefinitions : gmap Z DecisionDefinition;
  DecisionInstances : gmap Z DecisionInstance;
  ProcessInstances : gmap Z loc;
  mem_tables : Tables }.

Abbreviation ProcessDefinitions m := (m.(mem_tables).(t_Definitions)).
Abbreviation MessageSubscriptions m := (m.(mem_tables).(t_Subscriptions)).
Abbreviation Timers m := (m.(mem_tables).(t_Timers)).
Abbreviation Jobs m := (m.(mem_tables).(t_Jobs)).
Abbreviation ExecutionTokens m := (m.(mem_tables).(t_Tokens)).
Abbreviation FlowElementInstances m := (m.(mem_tables).(t_Elements)).
Abbreviation Incidents m := (m.(mem_tables).(t_Incidents)).

Definition empty_tables : Tables :=
  {| t_Definitions := ∅; t_Timers := ∅; t_Jobs := ∅; t_Subscriptions := ∅; t_Tokens := ∅;
     t_Elements := ∅; t_Incidents := ∅ |}.

Definition NewStorage : InMemory :=
  {| DmnResourceDefinitions := ∅; DecisionDefinitions := ∅; DecisionInstances := ∅;
     ProcessInstances := ∅; mem_tables := empty_tables |}.

Definition set_tables (f : Tables → Tables) (m : InMemory) : InMemory :=
  {| DmnResourceDefinitions := m.(DmnResourceDefinitions);
     DecisionDefinitions := m.(DecisionDefinitions); DecisionInstances := m.(DecisionInstances);
     ProcessInstances := m.(ProcessInstances); mem_tables := f m.(mem_tables) |}.

Definition set_instance (k : Z) (p : loc) (m : InMemory) : InMemory :=
  {| DmnResourceDefinitions := m.(DmnResourceDefinitions);
     DecisionDefinitions := m.(DecisionDefinitions); DecisionInstances := m.(DecisionInstances);
     ProcessInstances := <[k := p]> m.(ProcessInstances); mem_tables := m.(mem_tables) |}.

(** [slices.SortFunc(res, func(a, b) int { return int(a.Version - b.Version) })].
    The order of equal versions is not specified by the library. *)
Definition leq_by {A} (cmp : A → A → Z) (a b : A) : Prop := (cmp a b ≤ 0)%Z.
#[export] Instance leq_by_dec {A} (cmp : A → A → Z) : RelDecision (leq_by cmp).
Proof. intros a b. unfold leq_by. apply _. Defined.
Definition sort_by {A} (cmp : A → A → Z) (l : list A) : list A := merge_sort (leq_by cmp) l.

Definition cmp_process (a b : ProcessDefinition) : Z := wrap32 (a.(pd_Version) - b.(pd_Version)).
Definition cmp_decision (a b : DecisionDefinition) : Z := wrap64 (a.(dcd_Version) - b.(dcd_Version)).
Definition cmp_resource (a b : DmnResourceDefinition) : Z := wrap64 (a.(drd_Version) - b.(drd_Version)).

Section in_memory.
Context (iter : ∀ A, gmap Z A → list (Z * A)).
Context (iter_perm : ∀ A (m : gmap Z A), iter A m ≡ₚ map_to_list m).

(** [for _, x := range m] *)
Definition range {A} (m : gmap Z A) : list A := (iter A m).*2.

Definition first_or_NotFound {A} (l : list A) : result A :=
  match l with x :: _ => Good x | [] => Bad ErrNotFound end.

Definition lookup_or_NotFound {A} (m : gmap Z A) (k : Z) : result A :=
  match m !! k with Some x => Good x | None => Bad ErrNotFound end.

(** *** Decisions *)

Definition mem_GetLatestDecisionDefinitionById (m : InMemory) (decisionId : string) :=
  first_or_NotFound (sort_by cmp_decision
    (filter (λ d, d.(dcd_Id) = decisionId) (range m.(DecisionDefinitions)))).

Definition mem_GetDecisionDefinitionsById (m : InMemory) (decisionId : string) :=
  Good (filter (λ d, d.(dcd_Id) = decisionId) (range m.(DecisionDefinitions))).

Definition mem_GetLatestDecisionDefinitionByIdAndVersionTag
    (m : InMemory) (decisionId versionTag : string) :=
  first_or_NotFound (sort_by cmp_decision
    (filter (λ d, d.(dcd_Id) = decisionId ∧ d.(dcd_VersionTag) = versionTag)
       (range m.(DecisionDefinitions)))).

Definition mem_GetLatestDecisionDefinitionByIdAndDmnResourceDefinitionId
    (m : InMemory) (decisionId dmnResourceDefinitionId : string) :=
  first_or_NotFound (sort_by cmp_decision
    (filter (λ d, d.(dcd_Id) = decisionId ∧
                  d.(dcd_DmnResourceDefinitionId) = dmnResourceDefinitionId)
       (range m.(DecisionDefinitions)))).

Definition mem_GetDecisionDefinitionByIdAndDmnResourceDefinitionKey
    (m : InMemory) (decisionId : string) (key : Z) :=
  first_or_NotFound (filter (λ d, d.(dcd_Id) = decisionId ∧ d.(dcd_DmnResourceDefinitionKey) = key)
    (range m.(DecisionDefinitions))).

Definition mem_FindDecisionInstanceByKey (m : InMemory) (key : Z) :=
  first_or_NotFound (filter (λ d, key = d.(dci_Key)) (range m.(DecisionInstances))).

Definition mem_FindLatestDmnResourceDefinitionById (m : InMemory) (id : string) :=
  first_or_NotFound (sort_by cmp_resource
    (filter (λ d, d.(drd_Id) = id) (range m.(DmnResourceDefinitions)))).

Definition mem_FindDmnResourceDefinitionByKey (m : InMemory) (key : Z) :=
  lookup_or_NotFound m.(DmnResourceDefinitions) key.

Definition mem_FindDmnResourceDefinitionsById (m : InMemory) (id : string) :=
  Good (sort_by cmp_resource (filter (λ d, d.(drd_Id) = id) (range m.(DmnResourceDefinitions)))).

Definition mem_SaveDecisionDefinition (d : DecisionDefinition) : ST InMemory unit :=
  modify (λ m, {| DmnResourceDefinitions := m.(DmnResourceDefinitions);
    DecisionDefinitions := <[d.(dcd_Key) := d]> m.(DecisionDefinitions);
    DecisionInstances := m.(DecisionInstances);
    ProcessInstances := m.(ProcessInstances); mem_tables := m.(mem_tables) |}).

Definition mem_SaveDmnResourceDefinition (d : DmnResourceDefinition) : ST InMemory unit :=
  modify (λ m, {| DmnResourceDefinitions := <[d.(drd_Key) := d]> m.(DmnResourceDefinitions);
    DecisionDefinitions := m.(DecisionDefinitions); DecisionInstances := m.(DecisionInstances);
    ProcessInstances := m.(ProcessInstances); mem_tables := m.(mem_tables) |}).

Definition mem_SaveDecisionInstance (d : DecisionInstance) : ST InMemory unit :=
  modify (λ m, {| DmnResourceDefinitions := m.(DmnResourceDefinitions);
    DecisionDefinitions := m.(DecisionDefinitions);
    DecisionInstances := <[d.(dci_Key) := d]> m.(DecisionInstances);
    ProcessInstances := m.(ProcessInstances); mem_tables := m.(mem_tables) |}).

(** *** Process definitions *)

(** The loop keeps a candidate [res] and the flag [found]. *)
Definition latest_step (processDefinitionId : string) (acc : option ProcessDefinition)
    (def : ProcessDefinition) : option ProcessDefinition :=
  if negb (def.(pd_BpmnProcessId) =? processDefinitionId)%string then acc
  else match acc with
       | Some res =>
           if negb (res.(pd_Version) =? 0)%Z && (def.(pd_Version) <? res.(pd_Version))%Z
           then acc else Some def
       | None => Some def
       end.

Definition mem_FindLatestProcessDefinitionById (m : InMemory) (processDefinitionId : string)
    : result ProcessDefinition :=
  match foldl (latest_step processDefinitionId) None (range (ProcessDefinitions m)) with
  | Some res => Good res
  | None => Bad ErrNotFound
  end.

Definition mem_FindProcessDefinitionByKey (m : InMemory) (key : Z) :=
  lookup_or_NotFound (ProcessDefinitions m) key.

Definition mem_FindProcessDefinitionsById (m : InMemory) (processId : string) :=
  Good (sort_by cmp_process
    (filter (λ d, d.(pd_BpmnProcessId) = processId) (range (ProcessDefinitions m)))).

(** *** Process instances: pointers into the heap *)

Definition load (p : loc) : ST Heap ProcessInstance :=
  h ← get; deref (h.(h_objects) !! p).
Definition store (p : loc) (i : ProcessInstance) : ST Heap unit := modify (heap_set p i).

Definition mem_RefreshProcessInstance (m : InMemory) (p : loc) : ST Heap unit :=
  processInstance ← load p;
  match m.(ProcessInstances) !! processInstance.(pi_Key) with
  | None => throw ErrNotFound
  | Some q =>
      dbInstance ← load q;
      let refreshed := with_Variables dbInstance.(pi_VariableHolder)
                         (with_State dbInstance.(pi_State) processInstance) in
      match dbInstance.(pi_Kind), processInstance.(pi_Kind) with
      | DefaultProcessInstance, _ => store p refreshed
      | MultiInstanceInstance _ _ _, MultiInstanceInstance t _ _
      | SubProcessInstance _ _ _, SubProcessInstance t _ _
      | CallActivityInstance _ _, CallActivityInstance t _ =>
          let parentToken := default zero_token (ExecutionTokens m !! t.(tok_Key)) in
          store p (with_ParentToken parentToken refreshed)
      | MultiInstanceInstance _ _ _, _ =>
          throw (err! "processInstance is not a MultiInstanceInstance")
      | SubProcessInstance _ _ _, _ =>
          throw (err! "processInstance is not a SubProcessInstance")
      | CallActivityInstance _ _, _ =>
          throw (err! "processInstance is not a CallActivityInstance")
      end
  end.

Definition mem_FindProcessInstanceByKey (m : InMemory) (key : Z) : ST Heap loc :=
  of_result (lookup_or_NotFound m.(ProcessInstances) key).

Definition has_parent_token (key : Z) (i : ProcessInstance) : bool :=
  match ParentProcessExecutionToken i with
  | Some t => (t.(tok_Key) =? key)%Z
  | None => false
  end.

Definition mem_FindProcessInstancesByParentExecutionTokenKey (m : InMemory) (key : Z)
    : ST Heap (list loc) :=
  for_fold (range m.(ProcessInstances)) [] (λ res p,
    i ← load p;
    mret (if has_parent_token key i then res ++ [p] else res)).

(** *** Timers, jobs, subscriptions, incidents, tokens *)

Definition mem_GetTimer (m : InMemory) (key : Z) := lookup_or_NotFound (Timers m) key.

Definition mem_FindTokenActiveTimerSubscriptions (m : InMemory) (tokenKey : Z) :=
  Good (filter (λ t, t.(tm_TimerState) = TimerStateCreated ∧ t.(tm_Token).(tok_Key) = tokenKey)
    (range (Timers m))).

Definition mem_FindProcessInstanceTimers (m : InMemory) (key : Z) (state : TimerState) :=
  Good (filter (λ t, t.(tm_ProcessInstanceKey) = key ∧ t.(tm_TimerState) = state)
    (range (Timers m))).

Definition mem_FindTimersTo (m : InMemory) (end_ : Z) :=
  Good (filter (λ t, (t.(tm_DueAt) ≤ end_)%Z ∧ t.(tm_TimerState) = TimerStateCreated)
    (range (Timers m))).

Definition mem_FindActiveJobsByType (m : InMemory) (jobType : string) :=
  Good (filter (λ j, j.(job_Type) = jobType ∧ j.(job_State) = ActivityStateActive)
    (range (Jobs m))).

Definition mem_FindJobByJobKey (m : InMemory) (key : Z) := lookup_or_NotFound (Jobs m) key.

(** A job is listed once for every element of [states] it is in. *)
Definition mem_GetJobsInStateByTokenKey (m : InMemory) (tokenKey : Z) (states : list ActivityState)
    : result (list Job) :=
  Good (filter (λ j, j.(job_Token).(tok_Key) = tokenKey) (range (Jobs m)) ≫= λ j,
    (λ _, j) <$> filter (λ s, j.(job_State) = s) states).

Definition mem_FindPendingProcessInstanceJobs (m : InMemory) (key : Z) :=
  Good (filter (λ j, j.(job_ProcessInstanceKey) = key ∧ pending_job j) (range (Jobs m))).

Definition mem_FindMessageSubscriptionById (m : InMemory) (key : Z) (state : ActivityState)
    : result MessageSubscription :=
  match MessageSubscriptions m !! key with
  | None => Bad ErrNotFound
  | Some res => if decide (res.(ms_State) = state) then Good res else Bad ErrNotFound
  end.

Definition mem_FindTokenMessageSubscriptions (m : InMemory) (tokenKey : Z) (state : ActivityState) :=
  Good (filter (λ s, s.(ms_Token).(tok_Key) = tokenKey ∧ s.(ms_State) = state)
    (range (MessageSubscriptions m))).

Definition mem_FindProcessInstanceMessageSubscriptions
    (m : InMemory) (key : Z) (state : ActivityState) :=
  Good (filter (λ s, s.(ms_ProcessInstanceKey) = key ∧ s.(ms_State) = state)
    (range (MessageSubscriptions m))).

Definition mem_FindActiveMessageSubscriptionKey (m : InMemory) (name correlationKey : string)
    : result Z :=
  ms_Key <$> first_or_NotFound
    (filter (λ s, s.(ms_State) = ActivityStateActive ∧ s.(ms_Name) = name ∧
                  s.(ms_CorrelationKey) = correlationKey) (range (MessageSubscriptions m))).

Definition mem_FindIncidentsByExecutionTokenKey (m : InMemory) (key : Z) :=
  Good (filter (λ i, i.(inc_Token).(tok_Key) = key) (range (Incidents m))).
Definition mem_FindIncidentByKey (m : InMemory) (key : Z) := lookup_or_NotFound (Incidents m) key.
Definition mem_FindIncidentsByProcessInstanceKey (m : InMemory) (key : Z) :=
  Good (filter (λ i, i.(inc_ProcessInstanceKey) = key) (range (Incidents m))).

Definition mem_GetCompletedTokensForProcessInstance (m : InMemory) (key : Z) :=
  Good (filter (λ t, t.(tok_ProcessInstanceKey) = key ∧ t.(tok_State) = TokenStateCompleted)
    (range (ExecutionTokens m))).
Definition mem_GetTokenByKey (m : InMemory) (key : Z) := lookup_or_NotFound (ExecutionTokens m) key.
Definition mem_GetActiveTokensForProcessInstance (m : InMemory) (key : Z) :=
  Good (filter (λ t, t.(tok_ProcessInstanceKey) = key ∧ active_token t)
    (range (ExecutionTokens m))).
Definition mem_GetAllTokensForProcessInstance (m : InMemory) (key : Z) :=
  Good (filter (λ t, t.(tok_ProcessInstanceKey) = key) (range (ExecutionTokens m))).
Definition mem_GetRunningTokens (m : InMemory) :=
  Good (filter (λ t, t.(tok_State) = TokenStateRunning) (range (ExecutionTokens m))).

(** *** Flow element instances *)

Definition elements_of (m : InMemory) (key : Z) : list FlowElementInstance :=
  filter (λ f, f.(fe_ProcessInstanceKey) = key) (range (FlowElementInstances m)).

Definition mem_GetFlowElementInstanceCountByProcessInstanceKey (m : InMemory) (key : Z) : result Z :=
  Good (Z.of_nat (length (elements_of m key))).

(** Ordered by creation time the code sorts the latest first. *)
Definition mem_GetFlowElementInstancesByProcessInstanceKey
    (m : InMemory) (key : Z) (orderByTimeCreated : bool) : result (list FlowElementInstance) :=
  Good (if orderByTimeCreated
        then sort_by (λ a b, b.(fe_CreatedAt) - a.(fe_CreatedAt))%Z (elements_of m key)
        else elements_of m key).

Definition mem_GetFlowElementInstancesByTokenKey (m : InMemory) (token : ExecutionToken) :=
  Good (filter (λ f, f.(fe_ExecutionTokenKey) = token.(tok_Key)) (range (FlowElementInstances m))).

Definition mem_GetFlowElementInstanceByKey (m : InMemory) (key : Z) :=
  lookup_or_NotFound (FlowElementInstances m) key.

(** *** Writers and the batch *)

(** The loop of SaveMessageSubscription: it stops at the subscription's own
    row, and an active row of the same name and correlation key met before
    that is a conflict. *)
Fixpoint subscription_conflict (subscription : MessageSubscription)
    (l : list MessageSubscription) : bool :=
  match l with
  | [] => false
  | message :: l' =>
      if (subscription.(ms_Key) =? message.(ms_Key))%Z then false
      else if bool_decide (message.(ms_State) = ActivityStateActive) &&
              (message.(ms_Name) =? subscription.(ms_Name))%string &&
              (message.(ms_CorrelationKey) =? subscription.(ms_CorrelationKey))%string
           then true
           else subscription_conflict subscription l'
  end.

Definition mem_SaveMessageSubscription (s : MessageSubscription) : ST InMemory unit :=
  m ← get;
  if subscription_conflict s (range (MessageSubscriptions m))
  then throw (err! "active message with the same correlationKey and name already exists")
  else modify (set_tables (apply_stmt (StSaveMessageSubscription s))).

Definition mem_exec (s : Stmt) : ST InMemory unit :=
  match s with
  | StSaveProcessInstance p i => modify (set_instance i.(pi_Key) p)
  | StSaveMessageSubscription m => mem_SaveMessageSubscription m
  | _ => modify (set_tables (apply_stmt s))
  end.

(** Every statement is run, the errors are joined.  On an error the code
    restores its copy of the storage into the batch only, so the writes of
    the other statements stay. *)
Fixpoint run_stmts (l : list Stmt) (joinErr : option error) : ST InMemory (option error) :=
  match l with
  | [] => mret joinErr
  | s :: l' =>
      r ← attempt (mem_exec s);
      match r with
      | Good _ => run_stmts l' joinErr
      | Bad e => run_stmts l' (join_opt joinErr e)
      end
  end.

Definition mem_Flush (l : list Stmt) : ST InMemory unit :=
  joinErr ← run_stmts l None;
  match joinErr with
  | None => mret tt
  | Some e => throw e
  end.

#[local] Instance InMemory_Storage : Storage InMemory := {|
  FindLatestProcessDefinitionById := mem_FindLatestProcessDefinitionById;
  FindProcessDefinitionByKey := mem_FindProcessDefinitionByKey;
  FindProcessDefinitionsById := mem_FindProcessDefinitionsById;
  FindProcessInstanceByKey := mem_FindProcessInstanceByKey;
  FindProcessInstancesByParentExecutionTokenKey := mem_FindProcessInstancesByParentExecutionTokenKey;
  RefreshProcessInstance := mem_RefreshProcessInstance;
  GetTimer := mem_GetTimer;
  FindTimersTo := mem_FindTimersTo;
  FindProcessInstanceTimers := mem_FindProcessInstanceTimers;
  FindTokenActiveTimerSubscriptions := mem_FindTokenActiveTimerSubscriptions;
  FindPendingProcessInstanceJobs := mem_FindPendingProcessInstanceJobs;
  GetJobsInStateByTokenKey := mem_GetJobsInStateByTokenKey;
  FindJobByJobKey := mem_FindJobByJobKey;
  FindActiveJobsByType := mem_FindActiveJobsByType;
  FindMessageSubscriptionById := mem_FindMessageSubscriptionById;
  FindActiveMessageSubscriptionKey := mem_FindActiveMessageSubscriptionKey;
  FindProcessInstanceMessageSubscriptions := mem_FindProcessInstanceMessageSubscriptions;
  FindTokenMessageSubscriptions := mem_FindTokenMessageSubscriptions;
  GetRunningTokens := mem_GetRunningTokens;
  GetActiveTokensForProcessInstance := mem_GetActiveTokensForProcessInstance;
  GetCompletedTokensForProcessInstance := mem_GetCompletedTokensForProcessInstance;
  GetAllTokensForProcessInstance := mem_GetAllTokensForProcessInstance;
  GetTokenByKey := mem_GetTokenByKey;
  GetFlowElementInstanceCountByProcessInstanceKey :=
    mem_GetFlowElementInstanceCountByProcessInstanceKey;
  GetFlowElementInstancesByProcessInstanceKey := mem_GetFlowElementInstancesByProcessInstanceKey;
  GetFlowElementInstanceByKey := mem_GetFlowElementInstanceByKey;
  FindIncidentByKey := mem_FindIncidentByKey;
  FindIncidentsByProcessInstanceKey := mem_FindIncidentsByProcessInstanceKey;
  FindIncidentsByExecutionTokenKey := mem_FindIncidentsByExecutionTokenKey;
  prepare := λ _, Good tt;
  exec := mem_exec;
  flush := mem_Flush |}.

#[local] Instance InMemory_DecisionStorage : DecisionStorage InMemory := {|
  GetLatestDecisionDefinitionById := mem_GetLatestDecisionDefinitionById;
  GetDecisionDefinitionsById := mem_GetDecisionDefinitionsById;
  GetLatestDecisionDefinitionByIdAndVersionTag := mem_GetLatestDecisionDefinitionByIdAndVersionTag;
  GetLatestDecisionDefinitionByIdAndDmnResourceDefinitionId :=
    mem_GetLatestDecisionDefinitionByIdAndDmnResourceDefinitionId;
  GetDecisionDefinitionByIdAndDmnResourceDefinitionKey :=
    mem_GetDecisionDefinitionByIdAndDmnResourceDefinitionKey;
  FindLatestDmnResourceDefinitionById := mem_FindLatestDmnResourceDefinitionById;
  FindDmnResourceDefinitionByKey := mem_FindDmnResourceDefinitionByKey;
  FindDmnResourceDefinitionsById := mem_FindDmnResourceDefinitionsById;
  FindDecisionInstanceByKey := mem_FindDecisionInstanceByKey;
  SaveDecisionDefinition := mem_SaveDecisionDefinition;
  SaveDmnResourceDefinition := mem_SaveDmnResourceDefinition;
  SaveDecisionInstance := mem_SaveDecisionInstance |}.

(** ** The storage implements the contract *)

Definition mem_instance_row (m : InMemory) (h : Heap) (k : Z) : option ProcessInstance :=
  p ← m.(ProcessInstances) !! k; h.(h_objects) !! p.

Lemma range_perm {A} (m : gmap Z A) : range m ≡ₚ map_values m.
Proof. unfold range, map_values. by rewrite iter_perm. Qed.

Lemma elem_of_range {A} (m : gmap Z A) x : x ∈ range m ↔ ∃ k, m !! k = Some x.
Proof. rewrite range_perm. apply elem_of_map_values. Qed.

Lemma rows_of_range {A} (m : gmap Z A) (P : A → Prop) {HP : ∀ x, Decision (P x)} :
  rows_of m P (Good (filter P (range m))).
Proof. intros l E. injection E as <-. by rewrite range_perm. Qed.

Lemma row_of_lookup {A} (m : gmap Z A) k : row_of m k (lookup_or_NotFound m k).
Proof. unfold row_of, lookup_or_NotFound. by destruct (m !! k). Qed.

(** Running a statement either fails without effect, or updates the tables
    as [apply_stmt] says. *)
Lemma mem_exec_cases s m :
  (∃ m', mem_exec s m = (Ret tt, m') ∧ m'.(mem_tables) = apply_stmt s m.(mem_tables)) ∨
  (∃ e, mem_exec s m = (Err e, m)).
Proof.
  destruct s; simpl; try (left; by eexists).
  unfold mem_SaveMessageSubscription, mbind, ST_bind, get. simpl.
  destruct (subscription_conflict _ _); [right|left]; by eexists.
Qed.

Lemma run_stmts_err l m o m' e :
  run_stmts l (Some e) m = (Ret o, m') → is_Some o.
Proof.
  revert m e. induction l as [|s l IH]; intros m e H; simpl in H.
  { unfold mret, ST_ret in H. simplify_eq. eauto. }
  unfold mbind, ST_bind, attempt in H.
  destruct (mem_exec_cases s m) as [(m1 & E & _)|[e1 E]]; rewrite E in H; by apply IH in H.
Qed.

Lemma run_stmts_ok l m m' :
  run_stmts l None m = (Ret None, m') → m'.(mem_tables) = apply_stmts l m.(mem_tables).
Proof.
  revert m. induction l as [|s l IH]; intros m H; simpl in H.
  { unfold mret, ST_ret in H. by simplify_eq. }
  unfold mbind, ST_bind, attempt in H.
  destruct (mem_exec_cases s m) as [(m1 & E & Hv)|[e1 E]]; rewrite E in H.
  - apply IH in H. simpl. by rewrite H, Hv.
  - apply run_stmts_err in H as [? H]. done.
Qed.

Lemma mem_exec_instances s m m' :
  mem_exec s m = (Ret tt, m') →
  m'.(ProcessInstances) =
    match s with
    | StSaveProcessInstance p i => <[i.(pi_Key) := p]> m.(ProcessInstances)
    | _ => m.(ProcessInstances)
    end.
Proof.
  destruct s; simpl; intros H; try by (unfold modify in H; simplify_eq).
  unfold mem_SaveMessageSubscription, mbind, ST_bind, get in H. simpl in H.
  destruct (subscription_conflict _ _); [done|]. unfold modify in H. by simplify_eq.
Qed.

Lemma run_stmts_instances l m m' k :
  run_stmts l None m = (Ret None, m') →
  m'.(ProcessInstances) !! k =
    match last_saved k l with Some (p, _) => Some p | None => m.(ProcessInstances) !! k end.
Proof.
  revert m. induction l as [|s l IH]; intros m H; simpl in H.
  { unfold mret, ST_ret in H. by simplify_eq. }
  unfold mbind, ST_bind, attempt in H.
  destruct (mem_exec_cases s m) as [(m1 & E & _)|[e1 E]]; rewrite E in H.
  - apply IH in H. rewrite H. simpl. destruct (last_saved k l) as [[]|]; [done|].
    apply mem_exec_instances in E. rewrite E. destruct s; try done.
    destruct (pi_Key i =? k)%Z eqn:Ek; propify; simplify_map_eq; done.
  - apply run_stmts_err in H as [? H]. done.
Qed.

Lemma mem_Flush_Ret l m m' :
  mem_Flush l m = (Ret tt, m') → run_stmts l None m = (Ret None, m').
Proof.
  intros ([e|] & m1 & E1 & E2)%bind_Ret; [done|].
  unfold mret, ST_ret in E2. by simplify_eq.
Qed.

Lemma mem_laws : StorageLaws InMemory mem_tables mem_instance_row.
Proof.
  split; intros; try apply rows_of_range; try apply row_of_lookup.
  - simpl in *. unfold mem_FindProcessInstanceByKey, lookup_or_NotFound, mem_instance_row in *.
    destruct (ProcessInstances s !! k) as [q|]; [|done].
    unfold of_result, mret, ST_ret in *. by simplify_eq.
  - simpl in *. unfold mem_FindMessageSubscriptionById in *.
    destruct (_ !! k) as [m'|] eqn:E; [|done]. case_decide; [|done]. by simplify_eq.
  - simpl in *. unfold mem_FindActiveMessageSubscriptionKey, first_or_NotFound in *.
    destruct (filter _ _) as [|m l] eqn:E; [done|]. unfold fmap, result_fmap in *. simplify_eq.
    assert (Hm : m ∈ m :: l) by left. rewrite <-E in Hm.
    apply list_elem_of_filter in Hm as [(?&?&?) [k' Hk]%elem_of_range].
    by exists k', m.
  - simpl in *. by apply run_stmts_ok, mem_Flush_Ret.
  - simpl in *. unfold mem_instance_row.
    erewrite run_stmts_instances by (by apply mem_Flush_Ret).
    match goal with H : last_saved _ _ = _ |- _ => rewrite H end. done.
Qed.

Lemma load_ext p : pres heap_ext (load p).
Proof. unfold load. repeat frame_step. Qed.

Lemma mem_RefreshProcessInstance_ext m p : pres heap_keeps (mem_RefreshProcessInstance m p).
Proof.
  intros h. unfold mem_RefreshProcessInstance, load, mbind, ST_bind, get.
  destruct (h_objects h !! p) as [i|] eqn:Ei; simpl; [|done].
  destruct (ProcessInstances m !! pi_Key i) as [q|]; simpl; [|reflexivity].
  destruct (h_objects h !! q) as [d|] eqn:Ed; simpl; [|done].
  assert (Hst : ∀ i', same_identity i i' → heap_keeps h (heap_set p i' h))
    by (intros i' Hs; by eapply heap_set_keeps).
  destruct (pi_Kind d), (pi_Kind i) eqn:Ek; simpl; try reflexivity;
    apply Hst; repeat split; unfold Type_; simpl; by rewrite Ek.
Qed.

Lemma mem_heap_laws : HeapLaws InMemory.
Proof.
  split; intros; simpl.
  - apply pres_of_result, _.
  - unfold mem_FindProcessInstancesByParentExecutionTokenKey.
    repeat frame_step. apply load_ext.
  - apply mem_RefreshProcessInstance_ext.
Qed.

Lemma mem_answers : StorageAnswers InMemory.
Proof. by split. Qed.
End in_memory.
