(* ===== verification/Locks.v ===== *)
(** The lock of a process instance (pkg/bpmn/running_instances_cache.go): a map
    from instance keys to reference counted mutexes.  The operations are given
    twice: as calls of a sequential run, which the engine's definitions use,
    and as the atomic steps of concurrent goroutines, for which mutual
    exclusion is proved. *)
From S2P Require Import Prelude Monad.

Record RunningInstance := { mu_locked : bool; waiters : Z }.

(** The RunningInstance objects are shared by pointer: a goroutine keeps the
    pointer it found while the map may change. *)
Record RunningInstancesCache := {
  processInstances : gmap Z positive;
  objects : gmap positive RunningInstance;
  next_object : positive }.

Definition newRunningInstanceCache : RunningInstancesCache :=
  {| processInstances := ∅; objects := ∅; next_object := 1 |}.

(** ** The operations *)

Definition set_object (p : positive) (ri : RunningInstance) (c : RunningInstancesCache) :=
  {| processInstances := c.(processInstances); objects := <[p := ri]> c.(objects);
     next_object := c.(next_object) |}.

(** The section of lockInstance and tryLockInstance under [c.mu]: find or
    create the entry and count the caller as a waiter. *)
Definition enter (instanceKey : Z) (c : RunningInstancesCache) : positive * RunningInstancesCache :=
  match c.(processInstances) !! instanceKey with
  | Some p =>
      let ri := default {| mu_locked := false; waiters := 0 |} (c.(objects) !! p) in
      (p, set_object p {| mu_locked := ri.(mu_locked); waiters := ri.(waiters) + 1 |} c)
  | None =>
      let p := c.(next_object) in
      (p, {| processInstances := <[instanceKey := p]> c.(processInstances);
             objects := <[p := {| mu_locked := false; waiters := 1 |}]> c.(objects);
             next_object := Pos.succ p |})
  end.

Definition locked (p : positive) (c : RunningInstancesCache) : bool :=
  match c.(objects) !! p with Some ri => ri.(mu_locked) | None => false end.

Definition set_locked (b : bool) (p : positive) (c : RunningInstancesCache) : RunningInstancesCache :=
  match c.(objects) !! p with
  | Some ri => set_object p {| mu_locked := b; waiters := ri.(waiters) |} c
  | None => c
  end.

Definition enter_section (instanceKey : Z) : ST RunningInstancesCache positive :=
  λ c, let '(p, c') := enter instanceKey c in (Ret p, c').

Definition lockInstance (instanceKey : Z) : ST RunningInstancesCache unit :=
  p ← enter_section instanceKey;
  l ← gets (locked p);
  if (l : bool) then block else modify (set_locked true p).

(** Six attempts to lock; in a sequential run the outcome of the first one
    decides.  On failure the caller stays counted as a waiter. *)
Definition tryLockInstance (instanceKey : Z) : ST RunningInstancesCache unit :=
  p ← enter_section instanceKey;
  l ← gets (locked p);
  if (l : bool) then throw (err! "tried locking process instance %d, failed after 6 attemps")
  else modify (set_locked true p).

(** The end of unlockInstance: [ri.waiters--] and the removal of the entry. *)
Definition leave (instanceKey : Z) (p : positive) (c : RunningInstancesCache)
    : RunningInstancesCache :=
  match c.(objects) !! p with
  | None => c
  | Some ri =>
      let w := (ri.(waiters) - 1)%Z in
      let c' := set_object p {| mu_locked := ri.(mu_locked); waiters := w |} c in
      if (w =? 0)%Z
      then {| processInstances := delete instanceKey c'.(processInstances);
              objects := c'.(objects); next_object := c'.(next_object) |}
      else c'
  end.

Definition unlockInstance (instanceKey : Z) : ST RunningInstancesCache unit :=
  m ← gets processInstances;
  p ← deref (m !! instanceKey);
  l ← gets (locked p);
  if negb l then panic "sync: unlock of unlocked mutex"
  else modify (set_locked false p) ;; modify (leave instanceKey p).

(** ** What a sequential run sees: the set of held keys *)

Definition held (c : RunningInstancesCache) (k : Z) : bool :=
  match c.(processInstances) !! k with Some p => locked p c | None => false end.

(** Every entry points to its own object. *)
Record cache_wf (c : RunningInstancesCache) : Prop := {
  wf_object : ∀ k p, c.(processInstances) !! k = Some p → is_Some (c.(objects) !! p);
  wf_fresh : ∀ p, is_Some (c.(objects) !! p) → (p < c.(next_object))%positive;
  wf_inj : ∀ k k' p, c.(processInstances) !! k = Some p → c.(processInstances) !! k' = Some p → k = k' }.

Lemma cache_wf_new : cache_wf newRunningInstanceCache.
Proof. split; simpl; [done| |done]. intros p [? H]. by simplify_map_eq. Qed.

Lemma set_object_wf p ri c :
  cache_wf c → is_Some (c.(objects) !! p) → cache_wf (set_object p ri c).
Proof.
  intros [H1 H2 H3] Hp. split; simpl; [|intros q Hq|done].
  - intros k q Hk. destruct (decide (p = q)) as [->|]; simplify_map_eq; eauto.
  - destruct (decide (p = q)) as [->|]; simplify_map_eq; eauto.
Qed.

Lemma set_locked_wf b p c : cache_wf c → cache_wf (set_locked b p c).
Proof.
  intros Hc. unfold set_locked. destruct (c.(objects) !! p) eqn:E; [|done].
  apply set_object_wf; eauto.
Qed.

Lemma enter_wf k c p c' :
  cache_wf c → enter k c = (p, c') →
  cache_wf c' ∧ c'.(processInstances) !! k = Some p ∧ (∀ j, held c' j = held c j).
Proof.
  intros Hc. pose proof Hc as [H1 H2 H3]. unfold enter.
  destruct (c.(processInstances) !! k) as [q|] eqn:E; intros Heq; simplify_eq.
  - destruct (H1 _ _ E) as [ri Hri]. rewrite Hri. simpl. split_and!.
    + apply set_object_wf; eauto.
    + done.
    + intros j. unfold held, locked. simpl. destruct (_ !! j) as [q|]; [|done].
      destruct (decide (p = q)) as [->|]; simplify_map_eq; by rewrite ?Hri.
  - assert (Hf : c.(objects) !! c.(next_object) = None).
    { apply eq_None_not_Some. intros Hs%H2. lia. }
    split_and!.
    + split; simpl.
      * intros j q Hj. apply lookup_insert_Some in Hj as [[<- <-]|[? Hj]]; simplify_map_eq; eauto.
        destruct (H1 _ _ Hj) as [? Hq]. destruct (decide (q = c.(next_object))) as [->|];
          simplify_map_eq; eauto.
      * intros q [x Hq]. apply lookup_insert_Some in Hq as [[<- _]|[_ Hq]]; [lia|].
        assert (q < c.(next_object))%positive by (apply H2; eauto). lia.
      * intros j j' q Hj Hj'.
        assert (Hold : ∀ i q, c.(processInstances) !! i = Some q → q ≠ c.(next_object)).
        { intros i q' Hi ->. apply H1 in Hi as [? Hi]. congruence. }
        apply lookup_insert_Some in Hj as [[? ?]|[? Hj]];
          apply lookup_insert_Some in Hj' as [[? ?]|[? Hj']]; subst; try done.
        -- by apply Hold in Hj'.
        -- by apply Hold in Hj.
        -- by eapply H3.
    + simpl. by simplify_map_eq.
    + intros j. unfold held, locked. simpl.
      destruct (decide (j = k)) as [->|]; simplify_map_eq; [by rewrite ?E|].
      destruct (_ !! j) as [q|] eqn:Ej; [|done].
      destruct (decide (c.(next_object) = q)) as [<-|]; simplify_map_eq; [|done].
      destruct (H1 _ _ Ej). congruence.
Qed.

Lemma held_set_locked b k p c j :
  cache_wf c → c.(processInstances) !! k = Some p →
  held (set_locked b p c) j = if (j =? k)%Z then b else held c j.
Proof.
  intros [H1 H2 H3] Hk. destruct (H1 _ _ Hk) as [ri Hri].
  unfold set_locked, held, locked. rewrite Hri. simpl.
  destruct (j =? k)%Z eqn:E; propify; [subst; rewrite Hk; by simplify_map_eq|].
  destruct (_ !! j) as [q|] eqn:Ej; [|done].
  destruct (decide (p = q)) as [->|]; simplify_map_eq; [|done].
  exfalso. apply E. by eapply H3.
Qed.

Lemma set_locked_instances b p c : processInstances (set_locked b p c) = processInstances c.
Proof. unfold set_locked. by destruct (objects c !! p). Qed.

Lemma leave_wf k p c :
  cache_wf c → c.(processInstances) !! k = Some p → locked p c = false →
  cache_wf (leave k p c) ∧ (∀ j, held (leave k p c) j = held c j).
Proof.
  intros Hc Hk Hl. pose proof Hc as [H1 H2 H3].
  destruct (H1 _ _ Hk) as [ri Hri]. unfold leave. rewrite Hri.
  set (c' := set_object p _ c).
  assert (Hc' : cache_wf c') by (apply set_object_wf; eauto).
  assert (Hh : ∀ j, held c' j = held c j).
  { intros j. unfold held, locked, c'. simpl. destruct (_ !! j) as [q|]; [|done].
    destruct (decide (p = q)) as [->|]; simplify_map_eq; by rewrite ?Hri. }
  destruct (_ =? 0)%Z; [|by split].
  split.
  - destruct Hc' as [G1 G2 G3]. split; [|done|]; simpl.
    + intros j q [_ Hj]%lookup_delete_Some. by eapply G1.
    + intros j j' q [_ Hj]%lookup_delete_Some [_ Hj']%lookup_delete_Some. by eapply G3.
  - intros j. rewrite <-Hh. unfold held at 1. simpl.
    destruct (decide (j = k)) as [->|]; simplify_map_eq; [|done].
    rewrite Hh. unfold held. by rewrite Hk.
Qed.

(** [c'] is [c] with the key [k] held, or released. *)
Definition held_update (c c' : RunningInstancesCache) (k : Z) (b : bool) : Prop :=
  cache_wf c' ∧ ∀ j, held c' j = if (j =? k)%Z then b else held c j.
Definition held_same (c c' : RunningInstancesCache) : Prop :=
  cache_wf c' ∧ ∀ j, held c' j = held c j.

Lemma lockInstance_spec k c :
  cache_wf c →
  if held c k
  then ∃ c', lockInstance k c = (Block, c') ∧ held_same c c'
  else ∃ c', lockInstance k c = (Ret tt, c') ∧ held_update c c' k true.
Proof.
  intros Hc. unfold lockInstance, mbind, ST_bind, enter_section.
  destruct (enter k c) as [p c1] eqn:E. apply enter_wf in E as (Hc1 & Hk & Hh); [|done].
  unfold gets, modify, block. simpl.
  assert (Hl : locked p c1 = held c k) by (rewrite <-Hh; unfold held; by rewrite Hk).
  rewrite Hl. destruct (held c k); eexists; (split; [done|]); split; try done.
  - by apply set_locked_wf.
  - intros j. erewrite held_set_locked by done. by rewrite Hh.
Qed.

Lemma tryLockInstance_spec k c :
  cache_wf c →
  if held c k
  then ∃ e c', tryLockInstance k c = (Err e, c') ∧ held_same c c'
  else ∃ c', tryLockInstance k c = (Ret tt, c') ∧ held_update c c' k true.
Proof.
  intros Hc. unfold tryLockInstance, mbind, ST_bind, enter_section.
  destruct (enter k c) as [p c1] eqn:E. apply enter_wf in E as (Hc1 & Hk & Hh); [|done].
  unfold gets, modify, throw. simpl.
  assert (Hl : locked p c1 = held c k) by (rewrite <-Hh; unfold held; by rewrite Hk).
  rewrite Hl. destruct (held c k); [do 2 eexists|eexists]; (split; [done|]); split; try done.
  - by apply set_locked_wf.
  - intros j. erewrite held_set_locked by done. by rewrite Hh.
Qed.

Lemma unlockInstance_spec k c :
  cache_wf c →
  if held c k
  then ∃ c', unlockInstance k c = (Ret tt, c') ∧ held_update c c' k false
  else ∃ msg, unlockInstance k c = (Panic msg, c).
Proof.
  intros Hc. unfold unlockInstance, mbind, ST_bind, gets, modify, deref, held. simpl.
  destruct (processInstances c !! k) as [p|] eqn:Hk; simpl; [|by eexists].
  destruct (locked p c) eqn:Hl; simpl; [|by eexists].
  eexists. split; [done|].
  assert (Hw : cache_wf (set_locked false p c)) by by apply set_locked_wf.
  assert (Hk' : processInstances (set_locked false p c) !! k = Some p)
    by by rewrite set_locked_instances.
  assert (Hl' : locked p (set_locked false p c) = false).
  { pose proof (held_set_locked false k p c k Hc Hk) as Hq.
    rewrite Z.eqb_refl in Hq. unfold held in Hq. by rewrite Hk' in Hq. }
  destruct (leave_wf k p _ Hw Hk' Hl') as [H1 H2]. split; [done|].
  intros j. rewrite H2. by erewrite held_set_locked by done.
Qed.

(** ** Concurrent goroutines

    A goroutine is idle, waits for the mutex of the object it found, holds it,
    or is between [ri.mu.Unlock()] and the end of unlockInstance, where it holds
    [c.mu].  The sections under [c.mu] are atomic steps. *)
Module Concurrent.
Inductive pc :=
| Idle
| Waiting (k : Z) (p : positive)
| Holding (k : Z) (p : positive)
| Unlocking (k : Z) (p : positive).

Definition in_section (x : pc) : Prop := match x with Unlocking _ _ => True | _ => False end.
#[local] Instance in_section_dec x : Decision (in_section x).
Proof. destruct x; simpl; apply _. Defined.

(** The goroutine keeps a pointer for the key. *)
Definition refers (k : Z) (x : pc) : Prop :=
  match x with
  | Idle => False
  | Waiting k' _ | Holding k' _ | Unlocking k' _ => k' = k
  end.
#[local] Instance refers_dec k x : Decision (refers k x).
Proof. destruct x; simpl; apply _. Defined.

Definition pointer (x : pc) : option positive :=
  match x with
  | Idle => None
  | Waiting _ p | Holding _ p | Unlocking _ p => Some p
  end.

Definition refs (k : Z) (pcs : list pc) : nat := length (filter (refers k) pcs).

Definition state : Type := RunningInstancesCache * list pc.

Definition c_mu_free (pcs : list pc) : Prop := ∀ t x, pcs !! t = Some x → ¬ in_section x.

Inductive step : state → state → Prop :=
| step_enter c pcs t k p c' :
    pcs !! t = Some Idle → c_mu_free pcs → enter k c = (p, c') →
    step (c, pcs) (c', <[t := Waiting k p]> pcs)
| step_lock c pcs t k p :
    pcs !! t = Some (Waiting k p) → locked p c = false →
    step (c, pcs) (set_locked true p c, <[t := Holding k p]> pcs)
| step_give_up c pcs t k p :
    pcs !! t = Some (Waiting k p) →
    step (c, pcs) (c, <[t := Idle]> pcs)
| step_unlock c pcs t k p q :
    pcs !! t = Some (Holding k p) → c_mu_free pcs →
    c.(processInstances) !! k = Some q → locked q c = true →
    step (c, pcs) (set_locked false q c, <[t := Unlocking k q]> pcs)
| step_leave c pcs t k q :
    pcs !! t = Some (Unlocking k q) →
    step (c, pcs) (leave k q c, <[t := Idle]> pcs).

Definition init (n : nat) : state := (newRunningInstanceCache, replicate n Idle).

(** The invariant: a kept pointer is the one of the map, the counter of an
    entry is at least the number of goroutines that keep it, and a mutex is
    locked exactly when one goroutine holds it. *)
Record inv_state (s : state) : Prop := {
  i_wf : cache_wf s.1;
  i_ptr : ∀ t x k p, s.2 !! t = Some x → refers k x → pointer x = Some p →
    s.1.(processInstances) !! k = Some p;
  i_count : ∀ k p ri, s.1.(processInstances) !! k = Some p → s.1.(objects) !! p = Some ri →
    (Z.of_nat (refs k s.2) ≤ ri.(waiters))%Z;
  i_locked : ∀ t k p, s.2 !! t = Some (Holding k p) → locked p s.1 = true;
  i_unique : ∀ t t' k k' p, s.2 !! t = Some (Holding k p) → s.2 !! t' = Some (Holding k' p) →
    t = t' }.

Definition count1 (k : Z) (x : pc) : nat := if decide (refers k x) then 1 else 0.

Lemma refs_insert k pcs t x y :
  pcs !! t = Some x → refs k (<[t := y]> pcs) + count1 k x = refs k pcs + count1 k y.
Proof.
  intros H. unfold refs, count1.
  assert (t < length pcs) by (by eapply lookup_lt_Some).
  rewrite insert_take_drop by done.
  rewrite <-(take_drop_middle pcs t x H) at 3.
  rewrite !filter_app, !filter_cons, !length_app.
  repeat case_decide; simpl; lia.
Qed.

Lemma refs_zero k pcs t x : refs k pcs = 0 → pcs !! t = Some x → ¬ refers k x.
Proof.
  intros H Ht Hr. unfold refs in H. apply length_zero_iff_nil in H.
  assert (Hx : x ∈ filter (refers k) pcs)
    by (apply list_elem_of_filter; split; [done|by eapply list_elem_of_lookup_2]).
  rewrite H in Hx. by apply not_elem_of_nil in Hx.
Qed.

Lemma refs_no_one k pcs : (∀ t x, pcs !! t = Some x → ¬ refers k x) → refs k pcs = 0.
Proof.
  intros H. unfold refs. rewrite filter_none; [done|].
  intros x [t Ht]%list_elem_of_lookup_1. by eapply H.
Qed.

Lemma enter_facts k c p c' :
  cache_wf c → enter k c = (p, c') →
  c'.(processInstances) !! k = Some p ∧
  (∀ j q, c.(processInstances) !! j = Some q → c'.(processInstances) !! j = Some q) ∧
  (∀ q, locked q c' = locked q c) ∧
  (∀ j q ri', c'.(processInstances) !! j = Some q → c'.(objects) !! q = Some ri' →
     (c.(processInstances) !! j = None ∧ j = k ∧ ri'.(waiters) = 1%Z) ∨
     ∃ ri, c.(processInstances) !! j = Some q ∧ c.(objects) !! q = Some ri ∧
           ri'.(waiters) = (ri.(waiters) + if (j =? k)%Z then 1 else 0)%Z).
Proof.
  intros Hc Heq. pose proof Hc as [H1 H2 H3]. unfold enter in Heq.
  destruct (c.(processInstances) !! k) as [q0|] eqn:E; simplify_eq; simpl.
  - destruct (H1 _ _ E) as [ri0 Hri0]. rewrite Hri0. simpl. split_and!; [done|done| |].
    + intros q. unfold locked. simpl.
      destruct (decide (p = q)) as [->|]; simplify_map_eq; done.
    + intros j q ri' Hj Hq. right. destruct (decide (p = q)) as [->|Hne]; simplify_map_eq.
      * exists ri0. assert (j = k) as -> by (by eapply H3). by rewrite Z.eqb_refl.
      * exists ri'. destruct (j =? k)%Z eqn:Ejk; propify; [congruence|].
        split_and!; [done|done|lia].
  - assert (Hf : c.(objects) !! c.(next_object) = None).
    { apply eq_None_not_Some. intros Hs%H2. lia. }
    split_and!; [by simplify_map_eq| | |].
    + intros j q Hj. assert (j ≠ k) by congruence. by simplify_map_eq.
    + intros q. unfold locked. simpl.
      destruct (decide (c.(next_object) = q)) as [<-|]; simplify_map_eq; by rewrite ?Hf.
    + intros j q ri' Hj Hq. apply lookup_insert_Some in Hj as [[<- <-]|[? Hj]].
      * left. simplify_map_eq. done.
      * right. destruct (H1 _ _ Hj) as [x Hx].
        assert (c.(next_object) ≠ q) by congruence. simplify_map_eq.
        exists ri'. destruct (j =? k)%Z eqn:Ejk; propify; [congruence|].
        split_and!; [done|done|lia].
Qed.

Lemma set_locked_waiters b p c q ri' :
  (set_locked b p c).(objects) !! q = Some ri' →
  ∃ ri, c.(objects) !! q = Some ri ∧ ri'.(waiters) = ri.(waiters).
Proof.
  unfold set_locked. destruct (c.(objects) !! p) as [ri|] eqn:E; simpl; [|by eauto].
  destruct (decide (p = q)) as [->|]; intros; simplify_map_eq; eauto.
Qed.

Lemma locked_set_locked b p c q :
  is_Some (c.(objects) !! p) →
  locked q (set_locked b p c) = if decide (p = q) then b else locked q c.
Proof.
  intros [ri Hri]. unfold locked, set_locked. rewrite Hri. simpl.
  case_decide; simplify_map_eq; done.
Qed.

(** Looking up a goroutine after one goroutine moved. *)
Lemma pcs_insert (pcs : list pc) t y t' x :
  <[t := y]> pcs !! t' = Some x → (t' = t ∧ x = y) ∨ (t' ≠ t ∧ pcs !! t' = Some x).
Proof.
  intros [(-> & -> & _)|[? ?]]%list_lookup_insert_Some; [by left|right].
  split; [congruence|done].
Qed.

Lemma inv_enter c pcs t k p c' :
  inv_state (c, pcs) → pcs !! t = Some Idle → enter k c = (p, c') →
  inv_state (c', <[t := Waiting k p]> pcs).
Proof.
  intros [Hwf Hptr Hcnt Hlk Huq] Ht He; simpl in *.
  destruct (enter_facts k c p c' Hwf He) as (F1 & F2 & F3 & F4).
  apply enter_wf in He as (Hwf' & _); [|done].
  split; simpl; [done| | | |].
  - intros t' x k' q [[-> ->]|[_ Hx]]%pcs_insert Hr Hp; simpl in *; simplify_eq; [done|eauto].
  - intros j q ri' Hj Hq. pose proof (refs_insert j pcs t _ (Waiting k p) Ht) as Hi.
    unfold count1 in Hi. simpl in Hi.
    destruct (F4 _ _ _ Hj Hq) as [(Hn & -> & ->)|(ri & Hj' & Hq' & ->)].
    + rewrite (refs_no_one k pcs) in Hi; [case_decide; lia|].
      intros t' x Hx Hr. assert (∃ q', pointer x = Some q') as [q' Hq'] by (destruct x; [done|eauto..]).
      by rewrite (Hptr _ _ _ _ Hx Hr Hq') in Hn.
    + specialize (Hcnt _ _ _ Hj' Hq').
      destruct (decide (k = j)), (j =? k)%Z eqn:Ejk; propify; subst; simpl in *; try done; lia.
  - intros t' k' q [[-> ?]|[_ Hx]]%pcs_insert; [done|]. rewrite F3. eauto.
  - intros t1 t2 k1 k2 q [[-> ?]|[_ Hx]]%pcs_insert [[-> ?]|[_ Hy]]%pcs_insert; try done. eauto.
Qed.

Lemma inv_lock c pcs t k p :
  inv_state (c, pcs) → pcs !! t = Some (Waiting k p) → locked p c = false →
  inv_state (set_locked true p c, <[t := Holding k p]> pcs).
Proof.
  intros [Hwf Hptr Hcnt Hlk Huq] Ht Hl; simpl in *.
  assert (Hk : c.(processInstances) !! k = Some p) by (by eapply Hptr).
  pose proof (wf_object _ Hwf _ _ Hk) as Ho.
  split; simpl; [by apply set_locked_wf| | | |].
  - intros t' x k' q [[-> ->]|[_ Hx]]%pcs_insert Hr Hp; rewrite set_locked_instances;
      simpl in *; simplify_eq; eauto.
  - intros j q ri' Hj (ri & Hq & ->)%set_locked_waiters. rewrite set_locked_instances in Hj.
    pose proof (refs_insert j pcs t _ (Holding k p) Ht) as Hi. unfold count1 in Hi. simpl in Hi.
    specialize (Hcnt _ _ _ Hj Hq). lia.
  - intros t' k' q [[-> ?]|[_ Hx]]%pcs_insert; rewrite locked_set_locked by done;
      case_decide; simplify_eq; eauto.
  - intros t1 t2 k1 k2 q [[-> ?]|[_ Hx]]%pcs_insert [[-> ?]|[_ Hy]]%pcs_insert; simplify_eq; eauto.
    + apply Hlk in Hy. congruence.
    + apply Hlk in Hx. congruence.
Qed.

Lemma inv_give_up c pcs t k p :
  inv_state (c, pcs) → pcs !! t = Some (Waiting k p) → inv_state (c, <[t := Idle]> pcs).
Proof.
  intros [Hwf Hptr Hcnt Hlk Huq] Ht; simpl in *. split; simpl; [done| | | |].
  - intros t' x k' q [[-> ->]|[_ Hx]]%pcs_insert; [done|eauto].
  - intros j q ri Hj Hq. specialize (Hcnt _ _ _ Hj Hq).
    pose proof (refs_insert j pcs t _ Idle Ht) as Hi. unfold count1 in Hi. simpl in Hi.
    repeat case_decide; try done; lia.
  - intros t' k' q [[-> ?]|[_ Hx]]%pcs_insert; [done|eauto].
  - intros t1 t2 k1 k2 q [[-> ?]|[_ Hx]]%pcs_insert [[-> ?]|[_ Hy]]%pcs_insert; try done. eauto.
Qed.

Lemma inv_unlock c pcs t k p q :
  inv_state (c, pcs) → pcs !! t = Some (Holding k p) →
  c.(processInstances) !! k = Some q →
  inv_state (set_locked false q c, <[t := Unlocking k q]> pcs).
Proof.
  intros [Hwf Hptr Hcnt Hlk Huq] Ht Hk; simpl in *.
  assert (p = q) as -> by (pose proof (Hptr _ _ _ p Ht eq_refl eq_refl); congruence).
  pose proof (wf_object _ Hwf _ _ Hk) as Ho.
  split; simpl; [by apply set_locked_wf| | | |].
  - intros t' x k' q' [[-> ->]|[_ Hx]]%pcs_insert Hr Hp; rewrite set_locked_instances;
      simpl in *; simplify_eq; eauto.
  - intros j q' ri' Hj (ri & Hq & ->)%set_locked_waiters. rewrite set_locked_instances in Hj.
    pose proof (refs_insert j pcs t _ (Unlocking k q) Ht) as Hi. unfold count1 in Hi. simpl in Hi.
    specialize (Hcnt _ _ _ Hj Hq). lia.
  - intros t' k' q' [[-> ?]|[Hne Hx]]%pcs_insert; [done|].
    rewrite locked_set_locked by done. case_decide; [subst|eauto].
    exfalso. apply Hne. by eapply Huq.
  - intros t1 t2 k1 k2 q' [[-> ?]|[_ Hx]]%pcs_insert [[-> ?]|[_ Hy]]%pcs_insert; try done. eauto.
Qed.

Lemma locked_leave k p c q : locked q (leave k p c) = locked q c.
Proof.
  unfold leave. destruct (c.(objects) !! p) as [ri|] eqn:E; [|done].
  unfold locked. destruct (_ =? 0)%Z; simpl;
    (destruct (decide (p = q)) as [->|]; simplify_map_eq; by rewrite ?E).
Qed.

Lemma leave_instances k p c j q :
  (leave k p c).(processInstances) !! j = Some q → c.(processInstances) !! j = Some q.
Proof.
  unfold leave. destruct (c.(objects) !! p) as [ri|]; [|done].
  destruct (_ =? 0)%Z; simpl; [|done]. by intros [_ ?]%lookup_delete_Some.
Qed.

Lemma leave_cache_wf k p c : cache_wf c → cache_wf (leave k p c).
Proof.
  intros Hc. unfold leave. destruct (c.(objects) !! p) as [ri|] eqn:E; [|done].
  assert (Hc' : ∀ ri, cache_wf (set_object p ri c)) by (intros; apply set_object_wf; eauto).
  destruct (_ =? 0)%Z; [|done].
  destruct (Hc' {| mu_locked := mu_locked ri; waiters := waiters ri - 1 |}) as [G1 G2 G3].
  split; [|done|]; simpl.
  - intros j q [_ Hj]%lookup_delete_Some. by eapply G1.
  - intros j j' q [_ Hj]%lookup_delete_Some [_ Hj']%lookup_delete_Some. by eapply G3.
Qed.

Lemma inv_leave c pcs t k q :
  inv_state (c, pcs) → pcs !! t = Some (Unlocking k q) →
  inv_state (leave k q c, <[t := Idle]> pcs).
Proof.
  intros [Hwf Hptr Hcnt Hlk Huq] Ht; simpl in *.
  assert (Hk : c.(processInstances) !! k = Some q) by (by eapply Hptr).
  destruct (wf_object _ Hwf _ _ Hk) as [ri Hri].
  pose proof (Hcnt _ _ _ Hk Hri) as Hck.
  assert (Hi : ∀ j, refs j (<[t := Idle]> pcs) + (if decide (k = j) then 1 else 0) = refs j pcs).
  { intros j. pose proof (refs_insert j pcs t _ Idle Ht) as Hi. unfold count1 in Hi.
    simpl in Hi. lia. }
  split; simpl; [by apply leave_cache_wf| | | |].
  - intros t' x k' q' [[-> ->]|[Hne Hx]]%pcs_insert Hr Hp; [done|].
    pose proof (Hptr _ _ _ _ Hx Hr Hp) as Hk'. unfold leave. rewrite Hri.
    destruct (_ =? 0)%Z eqn:Hw; simpl; [|done]. propify.
    apply lookup_delete_Some. split; [intros <-|done].
    assert (Hx' : <[t := Idle]> pcs !! t' = Some x) by by rewrite list_lookup_insert_ne.
    eapply refs_zero; [|exact Hx'|exact Hr].
    specialize (Hi k). rewrite decide_True in Hi by done. lia.
  - intros j q' ri' Hj Hq. pose proof (leave_instances _ _ _ _ _ Hj) as Hj'.
    specialize (Hi j).
    unfold leave in Hq. rewrite Hri in Hq.
    assert (Hq2 : <[q := {| mu_locked := mu_locked ri; waiters := waiters ri - 1 |}]> (objects c)
                  !! q' = Some ri') by (by destruct (_ =? 0)%Z in Hq).
    apply lookup_insert_Some in Hq2 as [[<- <-]|[Hne Hq2]].
    + assert (j = k) as -> by (by eapply wf_inj).
      rewrite decide_True in Hi by done. simpl. lia.
    + pose proof (Hcnt _ _ _ Hj' Hq2). case_decide; lia.
  - intros t' k' q' [[-> ?]|[_ Hx]]%pcs_insert; [done|]. rewrite locked_leave. eauto.
  - intros t1 t2 k1 k2 q' [[-> ?]|[_ Hx]]%pcs_insert [[-> ?]|[_ Hy]]%pcs_insert; try done. eauto.
Qed.

Lemma inv_step s s' : step s s' → inv_state s → inv_state s'.
Proof.
  destruct 1; intros Hi; eauto using inv_enter, inv_lock, inv_give_up, inv_unlock, inv_leave.
Qed.

Lemma inv_init n : inv_state (init n).
Proof.
  assert (Hi : ∀ t x, replicate n Idle !! t = Some x → x = Idle)
    by (intros t x [-> _]%lookup_replicate; done).
  split; simpl; [apply cache_wf_new| |done| |]; intros *.
  - intros Hx%Hi. by subst.
  - by intros Hx%Hi.
  - by intros Hx%Hi.
Qed.

Definition reachable (n : nat) (s : state) : Prop := rtc step (init n) s.

Lemma reachable_inv n s : reachable n s → inv_state s.
Proof.
  unfold reachable. remember (init n) as s0 eqn:E. intros H. 
  assert (H0 : inv_state s0) by (subst; apply inv_init). clear E.
  induction H as [|x y z Hs _ IH]; [done|]. apply IH. by eapply inv_step.
Qed.

(** C33: in every reachable state of any number of goroutines that lock, try to
    lock and unlock instances through the cache, at most one goroutine holds
    the lock of an instance, even though goroutines keep pointers to mutexes
    while entries are created and removed. *)
Theorem mutual_exclusion n c pcs t t' k p q :
  reachable n (c, pcs) →
  pcs !! t = Some (Holding k p) → pcs !! t' = Some (Holding k q) → t = t'.
Proof.
  intros Hr Ht Ht'. apply reachable_inv in Hr as [_ Hptr _ _ Huq]; simpl in *.
  assert (p = q) as ->.
  { pose proof (Hptr _ _ _ p Ht eq_refl eq_refl). 
    pose proof (Hptr _ _ _ q Ht' eq_refl eq_refl). congruence. }
  by eapply Huq.
Qed.

(** A goroutine that holds an instance can always run unlockInstance: the
    entry it looks up again is present, is the mutex it locked, and is locked,
    so neither the nil dereference nor the fatal unlock of an unlocked mutex
    happens. *)
Theorem unlock_never_panics n c pcs t k p :
  reachable n (c, pcs) → pcs !! t = Some (Holding k p) →
  c.(processInstances) !! k = Some p ∧ ∃ c', unlockInstance k c = (Ret tt, c').
Proof.
  intros Hr Ht. apply reachable_inv in Hr as [Hwf Hptr _ Hlk _]; simpl in *.
  pose proof (Hptr _ _ _ p Ht eq_refl eq_refl) as Hk. split; [done|].
  pose proof (unlockInstance_spec k c Hwf) as Hs. unfold held in Hs.
  rewrite Hk, (Hlk _ _ _ Ht) in Hs. destruct Hs as (c' & E & _). eauto.
Qed.

Definition one_holds : state :=
  (set_locked true 1%positive (enter 7 newRunningInstanceCache).2, [Holding 7 1; Idle]).

Lemma one_holds_reachable : reachable 2 one_holds.
Proof.
  eapply rtc_l; [eapply (step_enter _ _ 0 7 1); [reflexivity| |reflexivity]|].
  { intros [|[|t]] x Hx; simpl in Hx; simplify_eq; intros []. }
  eapply rtc_l; [eapply (step_lock _ _ 0 7 1); reflexivity|]. apply rtc_refl.
Qed.

Lemma mutual_exclusion_witness : 0 = 0.
Proof.
  apply (mutual_exclusion 2 one_holds.1 one_holds.2 0 0 7 1 1);
    [apply one_holds_reachable|reflexivity|reflexivity].
Defined.

Lemma unlock_never_panics_witness :
  one_holds.1.(processInstances) !! 7%Z = Some 1%positive ∧
  ∃ c', unlockInstance 7 one_holds.1 = (Ret tt, c').
Proof.
  apply (unlock_never_panics 2 one_holds.1 one_holds.2 0 7 1);
    [apply one_holds_reachable|reflexivity].
Defined.
End Concurrent.

(** A goroutine that gives up in tryLockInstance stays counted: after the
    holder unlocks, the entry is still in the map with one waiter that does not
    exist, so it is never removed. *)
Theorem failed_try_leaks_entry k :
  let c := (tryLockInstance k (lockInstance k newRunningInstanceCache).2).2 in
  ∃ c', unlockInstance k c = (Ret tt, c') ∧
    ∃ p, c'.(processInstances) !! k = Some p ∧
      c'.(objects) !! p = Some {| mu_locked := false; waiters := 1 |}.
Proof.
  unfold tryLockInstance, lockInstance, unlockInstance, mbind, ST_bind, enter_section, enter,
    gets, modify, throw, deref, locked, set_locked, leave, set_object.
  simpl. repeat (simplify_map_eq; simpl). eexists. split; [done|].
  exists 1%positive. simpl. by simplify_map_eq.
Qed.
