(* ===== verification/TimerManager.v ===== *)
(** The timer manager (pkg/bpmn/timer_manager.go): the timers that wait in
    memory, each with a goroutine and a context that cancels it, the polling
    loop, and the firing of a timer. *)
From S2P Require Import Prelude Monad Model Runtime.

(** A waiting timer and the identity of its context. *)
Record waitingTimer := { wt_ctx : nat; wt_timer : Timer }.

(** The goroutine of a waiting timer: it waits for its time, was cancelled, or
    has sent the timer. *)
Inductive waiter_state := Pending | Cancelled | Sent.

#[export] Instance waiter_state_eq_dec : EqDecision waiter_state.
Proof. solve_decision. Defined.

(** [tmgr_goroutines] lists the goroutines by context identity;
    [tmgr_processed] is the log of the calls of processTimerFunc. *)
Record timerManager := {
  tmgr_pollTimerDelay : Z;
  tmgr_nextPoll : Z;
  tmgr_waitingTimers : list waitingTimer;
  tmgr_goroutines : list (Timer * waiter_state);
  tmgr_processed : list Timer }.

Definition newTimerManager (pollTimerDelay : Z) : timerManager :=
  {| tmgr_pollTimerDelay := pollTimerDelay; tmgr_nextPoll := zero_time;
     tmgr_waitingTimers := []; tmgr_goroutines := []; tmgr_processed := [] |}.

Definition set_waiting (w : list waitingTimer) (g : list (Timer * waiter_state)) (tm : timerManager) :=
  {| tmgr_pollTimerDelay := tm.(tmgr_pollTimerDelay); tmgr_nextPoll := tm.(tmgr_nextPoll);
     tmgr_waitingTimers := w; tmgr_goroutines := g; tmgr_processed := tm.(tmgr_processed) |}.

Definition set_nextPoll (t : Z) (tm : timerManager) :=
  {| tmgr_pollTimerDelay := tm.(tmgr_pollTimerDelay); tmgr_nextPoll := t;
     tmgr_waitingTimers := tm.(tmgr_waitingTimers); tmgr_goroutines := tm.(tmgr_goroutines);
     tmgr_processed := tm.(tmgr_processed) |}.

Definition start (now : Z) (tm : timerManager) : timerManager :=
  set_nextPoll (now + tm.(tmgr_pollTimerDelay)) tm.

Definition has_key (key : Z) (wt : waitingTimer) : bool := (wt.(wt_timer).(tm_Key) =? key)%Z.

(** A timer that is already waiting is not added again. *)
Definition addWaitingTimer (tft : Timer) (tm : timerManager) : timerManager :=
  if existsb (has_key tft.(tm_Key)) tm.(tmgr_waitingTimers) then tm
  else set_waiting
         (tm.(tmgr_waitingTimers) ++ [{| wt_ctx := length tm.(tmgr_goroutines); wt_timer := tft |}])
         (tm.(tmgr_goroutines) ++ [(tft, Pending)]) tm.

(** Only timers due in the current polling cycle are kept in memory. *)
Definition registerTimer (timer : Timer) (tm : timerManager) : timerManager :=
  if (tm.(tmgr_nextPoll) <? timer.(tm_DueAt))%Z then tm else addWaitingTimer timer tm.

(** The cancel function of a waiting timer's context. *)
Definition cancel (g : list (Timer * waiter_state)) (wt : waitingTimer) : list (Timer * waiter_state) :=
  alter (λ x : Timer * waiter_state,
           match x.2 with Pending => (x.1, Cancelled) | _ => x end) wt.(wt_ctx) g.

(** The function given to DeleteFunc is called on every waiting timer, and
    cancels it before it compares the keys. *)
Definition removeTimer (timer : Timer) (tm : timerManager) : timerManager :=
  if existsb (has_key timer.(tm_Key)) tm.(tmgr_waitingTimers)
  then set_waiting
         (filter (λ wt, has_key timer.(tm_Key) wt = false) tm.(tmgr_waitingTimers))
         (foldl cancel tm.(tmgr_goroutines) tm.(tmgr_waitingTimers)) tm
  else tm.

(** The first waiting timer with the key is removed after it was processed. *)
Fixpoint remove_first (key : Z) (l : list waitingTimer) : list waitingTimer :=
  match l with
  | [] => []
  | wt :: l' => if has_key key wt then l' else wt :: remove_first key l'
  end.

(** The tick of the polling loop with the timers the storage returned. *)
Definition poll (now : Z) (toFireTimers : result (list Timer)) (tm : timerManager) : timerManager :=
  match toFireTimers with
  | Bad _ => tm
  | Good l => set_nextPoll (now + tm.(tmgr_pollTimerDelay)) (foldl (flip addWaitingTimer) tm l)
  end.

(** A goroutine whose timer is due sends it and the loop processes it. *)
Definition fire (now : Z) (ctx : nat) (tm : timerManager) : option timerManager :=
  match tm.(tmgr_goroutines) !! ctx with
  | Some (t, Pending) =>
      if (now <? t.(tm_DueAt))%Z then None
      else Some {| tmgr_pollTimerDelay := tm.(tmgr_pollTimerDelay);
                   tmgr_nextPoll := tm.(tmgr_nextPoll);
                   tmgr_waitingTimers := remove_first t.(tm_Key) tm.(tmgr_waitingTimers);
                   tmgr_goroutines := <[ctx := (t, Sent)]> tm.(tmgr_goroutines);
                   tmgr_processed := tm.(tmgr_processed) ++ [t] |}
  | _ => None
  end.

(** The steps of a running manager. *)
Inductive tm_step : timerManager → timerManager → Prop :=
| tm_register t tm : tm_step tm (registerTimer t tm)
| tm_remove t tm : tm_step tm (removeTimer t tm)
| tm_poll now l tm : tm_step tm (poll now l tm)
| tm_fire now ctx tm tm' : fire now ctx tm = Some tm' → tm_step tm tm'.

(** ** Invariant: one waiting entry per timer key, each with its own goroutine *)

Definition waiting_keys (tm : timerManager) : list Z :=
  (λ wt, wt.(wt_timer).(tm_Key)) <$> tm.(tmgr_waitingTimers).

Record tm_inv (tm : timerManager) : Prop := {
  tm_nodup : NoDup (waiting_keys tm);
  tm_ctx : ∀ wt, wt ∈ tm.(tmgr_waitingTimers) →
    ∃ s, tm.(tmgr_goroutines) !! wt.(wt_ctx) = Some (wt.(wt_timer), s) ∧ s ≠ Sent }.

Lemma existsb_has_key key l :
  existsb (has_key key) l = true ↔ key ∈ (λ wt, wt.(wt_timer).(tm_Key)) <$> l.
Proof.
  rewrite existsb_exists, list_elem_of_fmap. split.
  - intros (wt & Hwt%list_elem_of_In & Hk). unfold has_key in Hk. propify. eauto.
  - intros (wt & -> & Hwt). exists wt. split; [by apply list_elem_of_In|].
    unfold has_key. apply Z.eqb_refl.
Qed.

Lemma addWaitingTimer_inv t tm : tm_inv tm → tm_inv (addWaitingTimer t tm).
Proof.
  intros [Hn Hc]. unfold addWaitingTimer.
  destruct (existsb _ _) eqn:E; [done|].
  assert (Hk : tm_Key t ∉ waiting_keys tm).
  { intros Hin. apply existsb_has_key in Hin. unfold waiting_keys in *. congruence. }
  split; unfold waiting_keys; simpl.
  - rewrite fmap_app. apply NoDup_app. split_and!; [done| |by apply NoDup_singleton].
    intros k Hk1 Hk2%list_elem_of_singleton. by subst.
  - intros wt [Hwt|Hwt%list_elem_of_singleton]%elem_of_app.
    + destruct (Hc wt Hwt) as (s & Hs & ?). exists s. split; [|done].
      by apply lookup_app_l_Some.
    + subst. simpl. exists Pending. split; [|done].
      by rewrite lookup_app_r, Nat.sub_diag by lia.
Qed.

Lemma foldl_cancel_lookup l g i t s :
  g !! i = Some (t, s) → ∃ s', foldl cancel g l !! i = Some (t, s') ∧
    (s ≠ Sent → s' ≠ Sent) ∧ (s ≠ Pending → s' = s) ∧
    ((∃ wt, wt ∈ l ∧ wt.(wt_ctx) = i) → s' ≠ Pending).
Proof.
  revert g s. induction l as [|wt l IH]; intros g s H; simpl.
  { exists s. split_and!; [done..|]. by intros (wt & Hwt%not_elem_of_nil & _). }
  destruct (decide (wt.(wt_ctx) = i)) as [Heq|Hne].
  - assert (H' : cancel g wt !! i =
      Some (t, match s with Pending => Cancelled | _ => s end)).
    { unfold cancel. rewrite Heq, list_lookup_alter_eq, H. by destruct s. }
    destruct (IH _ _ H') as (s' & Hs' & P1 & P2 & P3). exists s'.
    assert (Hs : s' = match s with Pending => Cancelled | _ => s end) by (apply P2; by destruct s).
    subst s'. split_and!; [done|by destruct s..].
  - assert (H' : cancel g wt !! i = Some (t, s)).
    { unfold cancel. by rewrite list_lookup_alter_ne by done. }
    destruct (IH _ _ H') as (s' & Hs' & P1 & P2 & P3). exists s'. split_and!; [done..|].
    intros (wt' & [->|Hwt']%elem_of_cons & Hi); [done|eauto].
Qed.

Lemma removeTimer_inv t tm : tm_inv tm → tm_inv (removeTimer t tm).
Proof.
  intros [Hn Hc]. unfold removeTimer. destruct (existsb _ _) eqn:E; [|done].
  split; unfold waiting_keys; simpl.
  - eapply sublist_NoDup; [exact Hn|]. apply fmap_sublist, sublist_filter.
  - intros wt [_ Hwt]%list_elem_of_filter.
    destruct (Hc wt Hwt) as (s & Hs & Hne).
    destruct (foldl_cancel_lookup (tmgr_waitingTimers tm) _ _ _ _ Hs) as (s' & ? & ? & _).
    eauto.
Qed.

Lemma remove_first_sublist key l : remove_first key l `sublist_of` l.
Proof.
  induction l as [|wt l IH]; simpl; [done|].
  destruct (has_key key wt); [by apply sublist_cons|by apply sublist_skip].
Qed.

Lemma remove_first_gone key l wt :
  NoDup ((λ w, w.(wt_timer).(tm_Key)) <$> l) → wt ∈ remove_first key l →
  wt ∈ l ∧ wt.(wt_timer).(tm_Key) ≠ key.
Proof.
  induction l as [|w l IH]; simpl; intros Hn Hwt; [by apply not_elem_of_nil in Hwt|].
  apply NoDup_cons in Hn as [Hw Hn].
  destruct (has_key key w) eqn:E; unfold has_key in E; propify.
  - split; [by right|]. intros Hk. apply Hw. rewrite E. apply list_elem_of_fmap. by exists wt.
  - apply elem_of_cons in Hwt as [->|Hwt]; [split; [by left|done]|].
    destruct (IH Hn Hwt). split; [by right|done].
Qed.

Lemma poll_inv now l tm : tm_inv tm → tm_inv (poll now l tm).
Proof.
  intros H. unfold poll. destruct l as [l|]; [|done].
  assert (Hf : tm_inv (foldl (flip addWaitingTimer) tm l)).
  { revert tm H. induction l as [|t l IH]; intros tm H; simpl; [done|].
    by apply IH, addWaitingTimer_inv. }
  destruct Hf as [H1 H2]. by split.
Qed.

Lemma fire_inv now ctx tm tm' : tm_inv tm → fire now ctx tm = Some tm' → tm_inv tm'.
Proof.
  intros [Hn Hc] H. unfold fire in H.
  destruct (tmgr_goroutines tm !! ctx) as [[t [| |]]|] eqn:Eg; try done.
  destruct (now <? tm_DueAt t)%Z; [done|]. simplify_eq. split; unfold waiting_keys; simpl.
  - eapply sublist_NoDup; [exact Hn|]. apply fmap_sublist, remove_first_sublist.
  - intros wt Hwt. apply remove_first_gone in Hwt as [Hwt Hk]; [|done].
    destruct (Hc wt Hwt) as (s & Hs & Hne). exists s. split; [|done].
    rewrite list_lookup_insert_ne; [done|]. intros ->. rewrite Eg in Hs. by simplify_eq.
Qed.

Lemma tm_step_inv tm tm' : tm_step tm tm' → tm_inv tm → tm_inv tm'.
Proof.
  destruct 1 as [t tm|t tm|now l tm|now ctx tm tm' H]; intros Hi.
  - unfold registerTimer. destruct (_ <? _)%Z; [done|by apply addWaitingTimer_inv].
  - by apply removeTimer_inv.
  - by apply poll_inv.
  - by eapply fire_inv.
Qed.

Definition tm_reachable (delay now : Z) (tm : timerManager) : Prop :=
  rtc tm_step (start now (newTimerManager delay)) tm.

Lemma tm_reachable_inv delay now tm : tm_reachable delay now tm → tm_inv tm.
Proof.
  unfold tm_reachable. remember (start now (newTimerManager delay)) as s eqn:E. intros H.
  assert (H0 : tm_inv s).
  { subst. split; simpl; [constructor|]. intros wt Hwt. by apply not_elem_of_nil in Hwt. }
  clear E. induction H as [|x y z Hs _ IH]; [done|]. apply IH. by eapply tm_step_inv.
Qed.

(** ** Properties *)

(** In every reachable state of the timer manager the waiting timers have
    different keys: registering a timer again, or receiving it again from the
    storage on a poll, does not make it wait twice. *)
Theorem waiting_timers_unique delay now tm :
  tm_reachable delay now tm → NoDup (waiting_keys tm).
Proof. intros H. apply (tm_nodup _ (tm_reachable_inv _ _ _ H)). Qed.

(** Removing a timer that is waiting stops every other waiting timer as
    well: after the call none of the timers that still wait has a pending
    goroutine, so none of them can fire, and registering or polling one of them
    again is ignored because it is still in the list. *)
Theorem removeTimer_cancels_all delay now tm t wt :
  tm_reachable delay now tm →
  t.(tm_Key) ∈ waiting_keys tm →
  wt ∈ (removeTimer t tm).(tmgr_waitingTimers) →
  (∀ later, fire later wt.(wt_ctx) (removeTimer t tm) = None) ∧
  addWaitingTimer wt.(wt_timer) (removeTimer t tm) = removeTimer t tm.
Proof.
  intros Hr Hk Hwt. apply tm_reachable_inv in Hr as Hi. destruct Hi as [_ Hc].
  apply existsb_has_key in Hk. unfold removeTimer in *. rewrite Hk in *. simpl in *.
  pose proof Hwt as [_ Hin]%list_elem_of_filter.
  destruct (Hc wt Hin) as (s & Hs & Hne). split.
  - intros later. unfold fire. simpl.
    destruct (foldl_cancel_lookup (tmgr_waitingTimers tm) _ _ _ _ Hs) as (s' & -> & P1 & _ & P3).
    destruct s'; [|done|done]. exfalso. apply P3; [by exists wt|done].
  - unfold addWaitingTimer. simpl. 
    assert (He : existsb (has_key (tm_Key (wt_timer wt)))
      (filter (λ w, has_key (tm_Key t) w = false) (tmgr_waitingTimers tm)) = true).
    { apply existsb_has_key, list_elem_of_fmap. by exists wt. }
    by rewrite He.
Qed.

(** A timer that is due fires once: firing appends it to the processed
    timers, takes its key out of the waiting list, and its goroutine cannot
    fire again. *)
Theorem fire_once delay now tm later ctx tm' :
  tm_reachable delay now tm → fire later ctx tm = Some tm' →
  ∃ t, tm'.(tmgr_processed) = (tm.(tmgr_processed) ++ [t]) ∧ (t.(tm_DueAt) ≤ later)%Z ∧
       (t.(tm_Key) ∉ waiting_keys tm') ∧ (∀ l, fire l ctx tm' = None).
Proof.
  intros Hr H. apply tm_reachable_inv in Hr as [Hn Hc]. unfold fire in H.
  destruct (tmgr_goroutines tm !! ctx) as [[t [| |]]|] eqn:Eg; try done.
  destruct (later <? tm_DueAt t)%Z eqn:El; [done|]. simplify_eq. propify.
  exists t. simpl. split_and!; [done|done| |].
  - unfold waiting_keys. simpl. intros (wt & Hk & Hwt)%list_elem_of_fmap.
    apply remove_first_gone in Hwt as [_ Hne]; [|done]. congruence.
  - intros l. unfold fire. simpl.
    rewrite list_lookup_insert_eq by (by eapply lookup_lt_Some). done.
Qed.

Definition sample_timer (k : Z) : Timer :=
  {| tm_ElementId := "t"; tm_Key := k; tm_ElementInstanceKey := 0; tm_ProcessDefinitionKey := 0;
     tm_ProcessInstanceKey := 0; tm_TimerState := TimerStateCreated; tm_CreatedAt := 0;
     tm_DueAt := 5; tm_Duration := 5; tm_Token := zero_token |}.

Definition two_waiting : timerManager :=
  registerTimer (sample_timer 2) (registerTimer (sample_timer 1) (start 0 (newTimerManager 10))).

Lemma two_waiting_reachable : tm_reachable 10 0 two_waiting.
Proof.
  eapply rtc_l; [apply (tm_register (sample_timer 1))|].
  eapply rtc_l; [apply (tm_register (sample_timer 2))|]. apply rtc_refl.
Qed.

Lemma waiting_timers_unique_witness : NoDup [1%Z; 2%Z].
Proof. apply (waiting_timers_unique 10 0 two_waiting). apply two_waiting_reachable. Defined.

Lemma removeTimer_cancels_all_witness :
  (∀ later, fire later 1 (removeTimer (sample_timer 1) two_waiting) = None) ∧
  addWaitingTimer (sample_timer 2) (removeTimer (sample_timer 1) two_waiting) =
    removeTimer (sample_timer 1) two_waiting.
Proof.
  apply (removeTimer_cancels_all 10 0 two_waiting (sample_timer 1)
           {| wt_ctx := 1; wt_timer := sample_timer 2 |}).
  - apply two_waiting_reachable.
  - vm_compute. left.
  - vm_compute. left.
Defined.

Definition one_fired : timerManager :=
  match fire 7 0 two_waiting with Some tm => tm | None => two_waiting end.

Lemma fire_once_witness :
  ∃ t, one_fired.(tmgr_processed) = ([] ++ [t]) ∧ (t.(tm_DueAt) ≤ 7)%Z ∧
       (t.(tm_Key) ∉ waiting_keys one_fired) ∧ (∀ l, fire l 0 one_fired = None).
Proof. apply (fire_once 10 0 two_waiting 7 0); [apply two_waiting_reachable|reflexivity]. Defined.
