(* ===== verification/TimerStop.v ===== *)
(** Stopping the timer manager (pkg/bpmn/timer_manager.go): the loop, the
    goroutines of the waiting timers and stop() side by side.  [fire] of
    TimerManager.v is split where a goroutine has to wait: it first chooses to
    send its timer, then the loop has to receive it. *)
From S2P Require Import Prelude Monad Model Runtime TimerManager.

(** How far stop() is. *)
Inductive stop_state := NotStopped | WaitsForTimers | Stopped.

#[export] Instance stop_state_eq_dec : EqDecision stop_state.
Proof. solve_decision. Defined.

(** [run_sending]: the goroutines that took the case of their timer and are
    sending it on the channel, which has no buffer; nothing takes them out of the
    send but the loop.  [run_loop]: the loop has not returned. *)
Record running := {
  run_tm : timerManager;
  run_sending : gset nat;
  run_loop : bool;
  run_ctxDone : bool;
  run_stop : stop_state;
  run_panicked : bool }.

Definition run_start (delay now : Z) : running :=
  {| run_tm := start now (newTimerManager delay); run_sending := ∅; run_loop := true;
     run_ctxDone := false; run_stop := NotStopped; run_panicked := false |}.

Definition with_tm (tm : timerManager) (r : running) : running :=
  {| run_tm := tm; run_sending := r.(run_sending); run_loop := r.(run_loop);
     run_ctxDone := r.(run_ctxDone); run_stop := r.(run_stop); run_panicked := r.(run_panicked) |}.
Definition with_sending (s : gset nat) (r : running) : running :=
  {| run_tm := r.(run_tm); run_sending := s; run_loop := r.(run_loop);
     run_ctxDone := r.(run_ctxDone); run_stop := r.(run_stop); run_panicked := r.(run_panicked) |}.
Definition loop_returns (r : running) : running :=
  {| run_tm := r.(run_tm); run_sending := r.(run_sending); run_loop := false;
     run_ctxDone := r.(run_ctxDone); run_stop := r.(run_stop); run_panicked := r.(run_panicked) |}.

Definition set_goroutine (i : nat) (t : Timer) (s : waiter_state) (r : running) : running :=
  with_tm (set_waiting r.(run_tm).(tmgr_waitingTimers) (<[i := (t, s)]> r.(run_tm).(tmgr_goroutines)) r.(run_tm)) r.

(** Goroutine [i] waits for its time. *)
Definition waits (i : nat) (t : Timer) (r : running) : Prop :=
  r.(run_tm).(tmgr_goroutines) !! i = Some (t, Pending) ∧ i ∉ r.(run_sending).

(** The case of the timer. *)
Definition goroutine_due (now : Z) (i : nat) (r : running) : option running :=
  match r.(run_tm).(tmgr_goroutines) !! i with
  | Some (t, Pending) =>
      if (bool_decide (i ∈ r.(run_sending)) || (now <? t.(tm_DueAt))%Z)%bool then None
      else Some (with_sending ({[i]} ∪ r.(run_sending)) r)
  | _ => None
  end.

(** The case of the manager's context. *)
Definition goroutine_gives_up (i : nat) (r : running) : option running :=
  match r.(run_tm).(tmgr_goroutines) !! i with
  | Some (t, Pending) =>
      if (bool_decide (i ∈ r.(run_sending)) || negb r.(run_ctxDone))%bool then None
      else Some (set_goroutine i t Cancelled r)
  | _ => None
  end.

(** The loop receives the timer: key 0 is taken for a closed channel. *)
Definition loop_receives (i : nat) (r : running) : option running :=
  if (r.(run_loop) && bool_decide (i ∈ r.(run_sending)))%bool then
    match r.(run_tm).(tmgr_goroutines) !! i with
    | Some (t, _) =>
        let sent := set_goroutine i t Sent (with_sending (r.(run_sending) ∖ {[i]}) r) in
        if (t.(tm_Key) =? 0)%Z then Some (loop_returns sent)
        else Some (with_tm
          {| tmgr_pollTimerDelay := r.(run_tm).(tmgr_pollTimerDelay);
             tmgr_nextPoll := r.(run_tm).(tmgr_nextPoll);
             tmgr_waitingTimers := remove_first t.(tm_Key) r.(run_tm).(tmgr_waitingTimers);
             tmgr_goroutines := sent.(run_tm).(tmgr_goroutines);
             tmgr_processed := r.(run_tm).(tmgr_processed) ++ [t] |} sent)
    | None => None
    end
  else None.

Definition loop_quits (r : running) : option running :=
  if (r.(run_loop) && r.(run_ctxDone))%bool then Some (loop_returns r) else None.

(** stop(): the context is cancelled ... *)
Definition stop_cancels (r : running) : option running :=
  match r.(run_stop) with
  | NotStopped => Some {| run_tm := r.(run_tm); run_sending := r.(run_sending); run_loop := r.(run_loop);
      run_ctxDone := true; run_stop := WaitsForTimers; run_panicked := r.(run_panicked) |}
  | _ => None
  end.

(** ... and the channel closed when no goroutine is left. *)
Definition all_done (r : running) : Prop :=
  r.(run_sending) = ∅ ∧ Forall (λ g : Timer * waiter_state, g.2 ≠ Pending) r.(run_tm).(tmgr_goroutines).
#[export] Instance all_done_dec r : Decision (all_done r).
Proof. unfold all_done. apply _. Defined.

Definition stop_closes (r : running) : option running :=
  match r.(run_stop) with
  | WaitsForTimers =>
      if bool_decide (all_done r) then
        Some {| run_tm := r.(run_tm); run_sending := r.(run_sending); run_loop := r.(run_loop);
          run_ctxDone := r.(run_ctxDone); run_stop := Stopped; run_panicked := r.(run_panicked) |}
      else None
  | _ => None
  end.

(** A send on the closed channel. *)
Definition send_panics (i : nat) (r : running) : option running :=
  match r.(run_stop) with
  | Stopped =>
      if bool_decide (i ∈ r.(run_sending)) then
        Some {| run_tm := r.(run_tm); run_sending := r.(run_sending); run_loop := r.(run_loop);
          run_ctxDone := r.(run_ctxDone); run_stop := r.(run_stop); run_panicked := true |}
      else None
  | _ => None
  end.

(** The engine registers and removes timers at any time, after stop() too. *)
Inductive run_step : running → running → Prop :=
| run_register t r : run_step r (with_tm (registerTimer t r.(run_tm)) r)
| run_remove t r : run_step r (with_tm (removeTimer t r.(run_tm)) r)
| run_tick now l r : r.(run_loop) = true → run_step r (with_tm (poll now l r.(run_tm)) r)
| run_due now i r r' : goroutine_due now i r = Some r' → run_step r r'
| run_give_up i r r' : goroutine_gives_up i r = Some r' → run_step r r'
| run_receive i r r' : loop_receives i r = Some r' → run_step r r'
| run_quit r r' : loop_quits r = Some r' → run_step r r'
| run_cancel r r' : stop_cancels r = Some r' → run_step r r'
| run_close r r' : stop_closes r = Some r' → run_step r r'
| run_panic i r r' : send_panics i r = Some r' → run_step r r'.

(** ** Invariant *)

Ltac step_cases H :=
  repeat match type of H with
  | context [match ?x with _ => _ end] => destruct x eqn:?
  | context [if ?x then _ else _] => destruct x eqn:?
  end; simplify_eq/=; propify.

Definition goroutine_count (r : running) : nat := length r.(run_tm).(tmgr_goroutines).

(** A goroutine that sends was started; stop() begins with the context; nothing
    panics before the channel is closed. *)
Record run_inv (r : running) : Prop := {
  run_started i : i ∈ r.(run_sending) → i < goroutine_count r;
  run_ctx : r.(run_stop) ≠ NotStopped → r.(run_ctxDone) = true;
  run_quiet : r.(run_stop) ≠ Stopped → r.(run_panicked) = false }.

Lemma addWaitingTimer_grows t tm :
  length tm.(tmgr_goroutines) ≤ length (addWaitingTimer t tm).(tmgr_goroutines).
Proof. unfold addWaitingTimer. case_match; simpl; rewrite ?length_app; lia. Qed.
Lemma registerTimer_grows t tm :
  length tm.(tmgr_goroutines) ≤ length (registerTimer t tm).(tmgr_goroutines).
Proof. unfold registerTimer. case_match; [done|]. apply addWaitingTimer_grows. Qed.
Lemma poll_grows now l tm : length tm.(tmgr_goroutines) ≤ length (poll now l tm).(tmgr_goroutines).
Proof.
  unfold poll. destruct l as [l|]; [|done]. simpl. revert tm.
  induction l as [|t l IH]; intros tm; simpl; [done|]. etrans; [|apply IH]. apply addWaitingTimer_grows.
Qed.
Lemma foldl_cancel_length l g : length (foldl cancel g l) = length g.
Proof. revert g. induction l as [|wt l IH]; intros g; simpl; [done|]. rewrite IH. apply length_alter. Qed.
Lemma removeTimer_length t tm :
  length (removeTimer t tm).(tmgr_goroutines) = length tm.(tmgr_goroutines).
Proof. unfold removeTimer. case_match; [apply foldl_cancel_length|done]. Qed.

Lemma run_inv_tm tm r :
  goroutine_count r ≤ length tm.(tmgr_goroutines) → run_inv r → run_inv (with_tm tm r).
Proof. intros Hle [H1 H2 H3]. split; [|done|done]. intros i Hi. specialize (H1 i Hi). unfold goroutine_count in *. simpl. lia. Qed.

Lemma run_step_inv r r' : run_step r r' → run_inv r → run_inv r'.
Proof.
  intros Hs Hr. pose proof Hr as [H1 H2 H3].
  destruct Hs as [t r|t r|now l r E|now i r r' E|i r r' E|i r r' E|r r' E|r r' E|r r' E|i r r' E].
  - apply run_inv_tm; [apply registerTimer_grows|done].
  - apply run_inv_tm; [by rewrite removeTimer_length|done].
  - apply run_inv_tm; [apply poll_grows|done].
  - unfold goroutine_due in E. step_cases E. split; [|done|done]. simpl.
    intros j [->%elem_of_singleton|Hj]%elem_of_union; [by eapply lookup_lt_Some|by apply H1].
  - unfold goroutine_gives_up in E. step_cases E. split; [|done|done]. unfold goroutine_count. simpl.
    rewrite length_insert. apply H1.
  - unfold loop_receives in E. step_cases E; (split; [|done|done]); unfold goroutine_count; simpl;
      rewrite length_insert; intros j Hj; apply H1; set_solver.
  - unfold loop_quits in E. step_cases E. by split.
  - unfold stop_cancels in E. step_cases E. split; [done|done|]. intros _. by apply H3.
  - unfold stop_closes in E. step_cases E. split; [done| |done]. intros _. by apply H2.
  - unfold send_panics in E. step_cases E. split; [done| |done]. intros _. by apply H2.
Qed.

Definition run_reachable (delay now : Z) : running → Prop := rtc run_step (run_start delay now).

Lemma run_reachable_inv delay now r : run_reachable delay now r → run_inv r.
Proof.
  unfold run_reachable. intros H. assert (H0 : run_inv (run_start delay now)) by (split; [set_solver|done|done]).
  revert H0. induction H as [|x y z Hs _ IH]; [done|]. intros Hx. by eapply IH, run_step_inv.
Qed.

(** ** stop() may wait for ever *)

(** The loop has returned while goroutine [i] is sending. *)
Definition stuck (i : nat) (r : running) : Prop :=
  i ∈ r.(run_sending) ∧ r.(run_loop) = false ∧ r.(run_stop) = WaitsForTimers.

Lemma stuck_send_step i r r' : run_step r r' → stuck i r → stuck i r'.
Proof.
  intros Hs (Hi & Hl & Hst).
  destruct Hs as [t r|t r|now l r E|now j r r' E|j r r' E|j r r' E|r r' E|r r' E|r r' E|j r r' E];
    try by split_and!.
  - unfold goroutine_due in E. step_cases E. split_and!; simpl; try done. set_solver.
  - unfold goroutine_gives_up in E. step_cases E. by split_and!.
  - unfold loop_receives in E. by rewrite Hl in E.
  - unfold loop_quits in E. by rewrite Hl in E.
  - unfold stop_cancels in E. by rewrite Hst in E.
  - unfold stop_closes in E. step_cases E.
    match goal with H : all_done _ |- _ => destruct H as [He _] end. set_solver.
  - unfold send_panics in E. by rewrite Hst in E.
Qed.

Lemma stuck_send_steps i r r' : rtc run_step r r' → stuck i r → stuck i r'.
Proof. induction 1 as [|x y z Hs _ IH]; [done|]. intros Hx. by eapply IH, stuck_send_step. Qed.

(** When stop is called while a timer that fired is handed to the loop, the loop
    may take the end of the context instead and return; then stop never does:
    the goroutine sends on a channel that nothing receives from, and stop waits
    for it whatever happens. *)
Theorem stop_may_wait_for_ever delay now r i :
  run_reachable delay now r → r.(run_stop) = WaitsForTimers → r.(run_loop) = true → i ∈ r.(run_sending) →
  ∃ r1, run_step r r1 ∧ ∀ r2, rtc run_step r1 r2 → r2.(run_stop) = WaitsForTimers ∧ i ∈ r2.(run_sending).
Proof.
  intros Hr Hst Hl Hi. apply run_reachable_inv in Hr as [_ Hctx _].
  exists (loop_returns r). split.
  - apply run_quit. unfold loop_quits. by rewrite Hl, Hctx by (by rewrite Hst).
  - intros r2 Hs. assert (H2 : stuck i r2) by (eapply stuck_send_steps; [exact Hs|by split_and!]).
    by destruct H2 as (? & _ & ?).
Qed.

(** ** stop() can return as long as the loop receives *)

Definition keys_not_zero (r : running) : Prop :=
  Forall (λ g : Timer * waiter_state, g.1.(tm_Key) ≠ 0%Z) r.(run_tm).(tmgr_goroutines).

Definition stopping (r : running) : Prop :=
  run_inv r ∧ r.(run_stop) = WaitsForTimers ∧ r.(run_loop) = true ∧ keys_not_zero r.

Lemma receive_one r i :
  stopping r → i ∈ r.(run_sending) →
  ∃ r', run_step r r' ∧ stopping r' ∧ r'.(run_sending) = r.(run_sending) ∖ {[i]}.
Proof.
  intros (Hinv & Hst & Hl & Hk) Hi.
  destruct (lookup_lt_is_Some_2 r.(run_tm).(tmgr_goroutines) i) as [[t s] Hg]; [by apply Hinv|].
  assert (Ht : t.(tm_Key) ≠ 0%Z) by (apply (Forall_lookup_1 _ _ _ _ Hk Hg)).
  assert (E : ∃ r', loop_receives i r = Some r' ∧ r'.(run_sending) = r.(run_sending) ∖ {[i]} ∧
    r'.(run_stop) = r.(run_stop) ∧ r'.(run_loop) = r.(run_loop) ∧
    r'.(run_tm).(tmgr_goroutines) = <[i := (t, Sent)]> r.(run_tm).(tmgr_goroutines)).
  { unfold loop_receives. rewrite Hl, bool_decide_true by done. simpl. rewrite Hg.
    rewrite (proj2 (Z.eqb_neq _ _) Ht). eexists. split; [reflexivity|]. by split_and!. }
  destruct E as (r' & E & Es & Est & El & Eg). assert (Hs : run_step r r') by by eapply run_receive.
  exists r'. split; [done|]. split; [|done]. split_and!; [by eapply run_step_inv|congruence..|].
  unfold keys_not_zero. rewrite Eg. by apply Forall_insert.
Qed.

Lemma receive_all r : stopping r → ∃ r', rtc run_step r r' ∧ stopping r' ∧ r'.(run_sending) = ∅.
Proof.
  remember (size r.(run_sending)) as n eqn:En. revert r En.
  induction n as [n IH] using lt_wf_ind. intros r -> Hr.
  destruct (set_choose_or_empty r.(run_sending)) as [[i Hi]|He].
  - destruct (receive_one r i Hr Hi) as (r1 & Hs & Hr1 & E1).
    destruct (IH (size r1.(run_sending))) with (r := r1) as (r' & Hs' & Hr'); try done.
    + rewrite E1. apply subset_size. set_solver.
    + exists r'. split; [by eapply rtc_l|done].
  - exists r. split; [done|]. split; [done|]. by apply leibniz_equiv.
Qed.

Definition is_pending (g : Timer * waiter_state) : bool := bool_decide (g.2 = Pending).

Lemma give_up_one r i t :
  stopping r → r.(run_sending) = ∅ → r.(run_tm).(tmgr_goroutines) !! i = Some (t, Pending) →
  ∃ r', run_step r r' ∧ stopping r' ∧ r'.(run_sending) = ∅ ∧
    r'.(run_tm).(tmgr_goroutines) = <[i := (t, Cancelled)]> r.(run_tm).(tmgr_goroutines).
Proof.
  intros (Hinv & Hst & Hl & Hk) He Hg. exists (set_goroutine i t Cancelled r).
  assert (Hs : run_step r (set_goroutine i t Cancelled r)).
  { apply (run_give_up i). unfold goroutine_gives_up. rewrite Hg, He, bool_decide_false by set_solver.
    by rewrite (run_ctx _ Hinv) by (by rewrite Hst). }
  split; [exact Hs|]. split; [|done]. split_and!; [by eapply run_step_inv|done|done|].
  unfold keys_not_zero. simpl. apply Forall_insert; [done|]. apply (Forall_lookup_1 _ _ _ _ Hk Hg).
Qed.

(** The goroutines from [i] on still wait: each gives up in turn. *)
Lemma give_up_all r i :
  stopping r → r.(run_sending) = ∅ →
  Forall (λ g : Timer * waiter_state, g.2 ≠ Pending) (take i r.(run_tm).(tmgr_goroutines)) →
  ∃ r', rtc run_step r r' ∧ stopping r' ∧ all_done r'.
Proof.
  remember (goroutine_count r - i) as n eqn:En. revert r i En.
  induction n as [|n IH]; intros r i En Hr He Hdone; unfold goroutine_count in En.
  { exists r. split_and!; [done..|]. by rewrite take_ge in Hdone by lia. }
  destruct (lookup_lt_is_Some_2 r.(run_tm).(tmgr_goroutines) i) as [[t s] Hg]; [lia|].
  destruct (decide (s = Pending)) as [->|Hs].
  - destruct (give_up_one r i t Hr He Hg) as (r1 & H1 & Hr1 & He1 & Eg).
    destruct (IH r1 (Datatypes.S i)) as (r' & H' & Hr'); try done.
    + unfold goroutine_count. rewrite Eg, length_insert. lia.
    + rewrite Eg. erewrite take_S_r by (apply list_lookup_insert_eq; by eapply lookup_lt_Some).
      rewrite take_insert_ge by done. apply Forall_app. split; [done|]. by constructor.
    + exists r'. split; [by eapply rtc_l|done].
  - destruct (IH r (Datatypes.S i)) as (r' & H' & Hr'); try done.
    + unfold goroutine_count. lia.
    + erewrite take_S_r by exact Hg. apply Forall_app. split; [done|]. by constructor.
    + by exists r'.
Qed.

(** As long as the loop has not returned, stop can: the loop receives the timers
    that are being sent, the goroutines that wait see the end of the context, and
    the channel is closed. *)
Theorem stop_can_return delay now r :
  run_reachable delay now r → r.(run_stop) = WaitsForTimers → r.(run_loop) = true → keys_not_zero r →
  ∃ r', rtc run_step r r' ∧ r'.(run_stop) = Stopped ∧ r'.(run_panicked) = false.
Proof.
  intros Hr%run_reachable_inv Hst Hl Hk.
  destruct (receive_all r) as (r1 & H1 & Hr1 & He); [by split_and!|].
  destruct (give_up_all r1 0 Hr1 He) as (r2 & H2 & (Hinv & Hst2 & _) & Hd); [done|].
  eexists. split; [|split].
  - etrans; [exact H1|]. etrans; [exact H2|]. apply rtc_once, run_close.
    unfold stop_closes. rewrite Hst2, bool_decide_true by done. reflexivity.
  - done.
  - simpl. apply Hinv. by rewrite Hst2.
Qed.

(** ** A timer that comes too late *)

(** A timer that is registered after stop has returned may be sent on the closed
    channel, which panics, when it is due. *)
Theorem late_timer_may_panic delay now r t later :
  run_reachable delay now r → r.(run_stop) = Stopped →
  (t.(tm_DueAt) ≤ r.(run_tm).(tmgr_nextPoll))%Z → t.(tm_Key) ∉ waiting_keys r.(run_tm) →
  (t.(tm_DueAt) ≤ later)%Z →
  ∃ r', rtc run_step (with_tm (registerTimer t r.(run_tm)) r) r' ∧ r'.(run_panicked) = true.
Proof.
  intros Hr Hst Hpoll Hk Hdue. apply run_reachable_inv in Hr as [Hstarted _ _].
  set (i := goroutine_count r). set (r1 := with_tm (registerTimer t r.(run_tm)) r).
  assert (Hg : r1.(run_tm).(tmgr_goroutines) !! i = Some (t, Pending)).
  { simpl. unfold registerTimer. rewrite (proj2 (Z.ltb_ge _ _)) by done. unfold addWaitingTimer.
    destruct (existsb _ _) eqn:E; [by apply existsb_has_key in E|]. simpl.
    rewrite lookup_app_r by done. by rewrite Nat.sub_diag. }
  assert (Hi : i ∉ r.(run_sending)) by (intros Hi%Hstarted; unfold i in *; lia).
  set (r2 := with_sending ({[i]} ∪ r.(run_sending)) r1).
  eexists. split.
  - eapply rtc_l; [apply (run_due later i r1 r2)|eapply rtc_l; [apply (run_panic i r2)|apply rtc_refl]].
    + unfold goroutine_due. rewrite Hg, bool_decide_false by done. by rewrite (proj2 (Z.ltb_ge _ _)).
    + unfold send_panics. simpl. rewrite Hst, bool_decide_true by set_solver. reflexivity.
  - done.
Qed.

(** ** Concrete runs *)

Definition then_ (f : running → option running) (r : running) : running := default r (f r).

(** A timer that is due is being sent when stop is called. *)
Definition registered (t : Timer) (r : running) : running := with_tm (registerTimer t r.(run_tm)) r.
Definition being_sent : running :=
  then_ (goroutine_due 7 0) (registered (sample_timer 1) (run_start 10 0)).
Definition being_stopped : running := then_ stop_cancels being_sent.

Lemma being_stopped_reachable : run_reachable 10 0 being_stopped.
Proof.
  eapply rtc_l; [apply (run_register (sample_timer 1))|].
  eapply rtc_l; [apply (run_due 7 0 _ being_sent); reflexivity|].
  apply rtc_once, run_cancel. reflexivity.
Qed.

Lemma stop_may_wait_for_ever_witness :
  ∃ r1, run_step being_stopped r1 ∧
    ∀ r2, rtc run_step r1 r2 → r2.(run_stop) = WaitsForTimers ∧ 0 ∈ r2.(run_sending).
Proof.
  apply (stop_may_wait_for_ever 10 0 being_stopped 0 being_stopped_reachable eq_refl eq_refl).
  apply elem_of_union. left. by apply elem_of_singleton.
Defined.

Lemma stop_can_return_witness :
  ∃ r', rtc run_step being_stopped r' ∧ r'.(run_stop) = Stopped ∧ r'.(run_panicked) = false.
Proof.
  apply (stop_can_return 10 0 being_stopped being_stopped_reachable eq_refl eq_refl).
  by repeat constructor.
Defined.

(** Stopped without timers. *)
Definition stopped_idle : running := then_ stop_closes (then_ stop_cancels (run_start 10 0)).

Lemma stopped_idle_reachable : run_reachable 10 0 stopped_idle.
Proof.
  eapply rtc_l; [apply (run_cancel _ (then_ stop_cancels (run_start 10 0))); reflexivity|].
  apply rtc_once, run_close. vm_compute. reflexivity.
Qed.

Lemma late_timer_may_panic_witness :
  ∃ r', rtc run_step (with_tm (registerTimer (sample_timer 1) stopped_idle.(run_tm)) stopped_idle) r' ∧
    r'.(run_panicked) = true.
Proof.
  apply (late_timer_may_panic 10 0 stopped_idle (sample_timer 1) 7 stopped_idle_reachable eq_refl).
  - vm_compute. discriminate.
  - vm_compute. apply not_elem_of_nil.
  - vm_compute. discriminate.
Defined.
