(* ===== verification/World.v ===== *)
(** The state the engine's operations run in and the primitives they are
    written with: the storage, the heap of instance objects, the key generator
    and the clock, the locks of running instances, the timer manager, the task
    handlers, the goroutines started; the batch of statements with the locks it
    collected (pkg/bpmn/engine_batch.go); and the code outside the repository
    the engine calls, as the fields of [Env]. *)
From Stdlib Require Import Ascii.
From S2P Require Import Prelude Monad Model Runtime DmnModel Storage Locks TimerManager.

#[local] Open Scope string_scope.

(** ** Strings: the functions of package strings the code uses *)

Definition is_space (c : Ascii.ascii) : bool :=
  let n := Ascii.nat_of_ascii c in
  (n =? 9)%nat || (n =? 10)%nat || (n =? 11)%nat || (n =? 12)%nat || (n =? 13)%nat || (n =? 32)%nat.

Fixpoint trim_left (s : string) : string :=
  match s with
  | String c s' => if is_space c then trim_left s' else s
  | EmptyString => EmptyString
  end.

Fixpoint trim_right (s : string) : string :=
  match s with
  | EmptyString => EmptyString
  | String c s' =>
      match trim_right s' with
      | EmptyString => if is_space c then EmptyString else String c EmptyString
      | t => String c t
      end
  end.

(** [strings.TrimSpace], for the ASCII white space. *)
Definition TrimSpace (s : string) : string := trim_right (trim_left s).

(** [strings.HasPrefix(s, "=")] *)
Definition HasEqPrefix (s : string) : bool :=
  match s with String "="%char _ => true | _ => false end.

(** [strings.TrimPrefix(s, p)] for a prefix of one character. *)
Definition TrimPrefix1 (p : Ascii.ascii) (s : string) : string :=
  match s with
  | String c s' => if Ascii.eqb c p then s' else s
  | EmptyString => s
  end.

(** ** Code outside the repository

    [feel_Evaluate] and [feel_UnaryTest] are the FEEL interpreter (feelin in a
    goja runtime); [GenerateId] is the n-th key the storage's generator hands
    out and [clock] the n-th reading of the clock; durations are those of the
    senseyeio/duration package; [Sprint_value] is fmt's %v of a value that is
    not a string and [json_Marshal] the text of encoding/json. *)
Class Env := {
  feel_Evaluate : string → vars → result value;
  feel_UnaryTest : string → vars → result bool;
  GenerateId : nat → Z;
  clock : nat → Z;
  Duration : Type;
  ParseISO8601 : string → result Duration;
  Shift : Duration → Z → Z;
  Duration_TS : Duration → Z;
  Sprint_value : value → string;
  json_Marshal : value → result string;
  json_MarshalDecisions : list EvaluatedDecisionResult → result string }.

(** ** Task handlers (pkg/bpmn/jobs_activated.go) *)

Record ActivatedJob := {
  aj_processInstance : ProcessInstance;
  aj_key : Z;
  aj_processInstanceKey : Z;
  aj_bpmnProcessId : string;
  aj_processDefinitionVersion : Z;
  aj_processDefinitionKey : Z;
  aj_elementId : string;
  aj_createdAt : Z;
  aj_localVariables : vars }.

(** What a handler does to the job it is called with, in order. *)
Inductive HandlerCall :=
| CallFail (reason : string)
| CallComplete
| CallSetOutputVariable (key : string) (val : value).

Inductive taskHandlerType :=
| taskHandlerForId | taskHandlerForType | taskHandlerForAssignee | taskHandlerForCandidateGroups.

#[export] Instance taskHandlerType_eq_dec : EqDecision taskHandlerType.
Proof. solve_decision. Defined.

(** A registered handler; [th_ref] is its identity (the pointer RemoveHandler
    compares). *)
Record taskHandler := {
  th_ref : nat;
  th_handlerType : taskHandlerType;
  th_matches : InternalTask → bool;
  th_handler : ActivatedJob → list HandlerCall }.

(** ** The world *)

(** A goroutine that runs a process instance with some tokens. *)
Record RunAction := { ra_instance : loc; ra_tokens : list ExecutionToken }.

Record World (S : Type) := {
  w_store : S;
  w_heap : Heap;
  w_seq : nat;
  w_tick : nat;
  w_locks : RunningInstancesCache;
  w_timerManager : option timerManager;
  w_handlers : list taskHandler;
  w_spawned : list RunAction }.
Arguments w_store {S}.
Arguments w_heap {S}.
Arguments w_seq {S}.
Arguments w_tick {S}.
Arguments w_locks {S}.
Arguments w_timerManager {S}.
Arguments w_handlers {S}.
Arguments w_spawned {S}.

(** The programs of the engine. *)
Abbreviation EM S := (ST (World S)).

Section world.
Context {S : Type}.

Definition w_set_store (s : S) (w : World S) : World S :=
  {| w_store := s; w_heap := w.(w_heap); w_seq := w.(w_seq); w_tick := w.(w_tick);
     w_locks := w.(w_locks); w_timerManager := w.(w_timerManager);
     w_handlers := w.(w_handlers); w_spawned := w.(w_spawned) |}.
Definition w_set_heap (h : Heap) (w : World S) : World S :=
  {| w_store := w.(w_store); w_heap := h; w_seq := w.(w_seq); w_tick := w.(w_tick);
     w_locks := w.(w_locks); w_timerManager := w.(w_timerManager);
     w_handlers := w.(w_handlers); w_spawned := w.(w_spawned) |}.
Definition w_set_seq (n : nat) (w : World S) : World S :=
  {| w_store := w.(w_store); w_heap := w.(w_heap); w_seq := n; w_tick := w.(w_tick);
     w_locks := w.(w_locks); w_timerManager := w.(w_timerManager);
     w_handlers := w.(w_handlers); w_spawned := w.(w_spawned) |}.
Definition w_set_tick (n : nat) (w : World S) : World S :=
  {| w_store := w.(w_store); w_heap := w.(w_heap); w_seq := w.(w_seq); w_tick := n;
     w_locks := w.(w_locks); w_timerManager := w.(w_timerManager);
     w_handlers := w.(w_handlers); w_spawned := w.(w_spawned) |}.
Definition w_set_locks (c : RunningInstancesCache) (w : World S) : World S :=
  {| w_store := w.(w_store); w_heap := w.(w_heap); w_seq := w.(w_seq); w_tick := w.(w_tick);
     w_locks := c; w_timerManager := w.(w_timerManager);
     w_handlers := w.(w_handlers); w_spawned := w.(w_spawned) |}.
Definition w_set_timerManager (t : option timerManager) (w : World S) : World S :=
  {| w_store := w.(w_store); w_heap := w.(w_heap); w_seq := w.(w_seq); w_tick := w.(w_tick);
     w_locks := w.(w_locks); w_timerManager := t;
     w_handlers := w.(w_handlers); w_spawned := w.(w_spawned) |}.
Definition w_set_handlers (l : list taskHandler) (w : World S) : World S :=
  {| w_store := w.(w_store); w_heap := w.(w_heap); w_seq := w.(w_seq); w_tick := w.(w_tick);
     w_locks := w.(w_locks); w_timerManager := w.(w_timerManager);
     w_handlers := l; w_spawned := w.(w_spawned) |}.
Definition w_set_spawned (l : list RunAction) (w : World S) : World S :=
  {| w_store := w.(w_store); w_heap := w.(w_heap); w_seq := w.(w_seq); w_tick := w.(w_tick);
     w_locks := w.(w_locks); w_timerManager := w.(w_timerManager);
     w_handlers := w.(w_handlers); w_spawned := l |}.

(** A program of a part of the world. *)
Definition on_store {A} : ST S A → EM S A := zoom w_store w_set_store.
Definition on_locks {A} : ST RunningInstancesCache A → EM S A := zoom w_locks w_set_locks.
Definition on_heap {A} (m : S → ST Heap A) : EM S A :=
  λ w, let '(o, h) := m w.(w_store) w.(w_heap) in (o, w_set_heap h w).

Definition generateKey `{Env} : EM S Z :=
  λ w, (Ret (GenerateId w.(w_seq)), w_set_seq (Datatypes.S w.(w_seq)) w).
Definition now `{Env} : EM S Z :=
  λ w, (Ret (clock w.(w_tick)), w_set_tick (Datatypes.S w.(w_tick)) w).

(** A reader of the storage. *)
Definition query {A} (q : S → result A) : EM S A := λ w, of_result (q w.(w_store)) w.

(** The object a process instance pointer points to, and its fields. *)
Definition load_instance (p : loc) : EM S ProcessInstance :=
  λ w, deref (w.(w_heap).(h_objects) !! p) w.
Definition update_instance (p : loc) (f : ProcessInstance → ProcessInstance) : EM S unit :=
  i ← load_instance p;
  modify (λ w, w_set_heap (heap_set p (f i) w.(w_heap)) w).
Definition set_State (p : loc) (s : ActivityState) : EM S unit := update_instance p (with_State s).
Definition set_Variables (p : loc) (v : vars) : EM S unit := update_instance p (with_Variables v).
Definition new_instance (i : ProcessInstance) : EM S loc :=
  λ w, let '(p, h) := heap_alloc i w.(w_heap) in (Ret p, w_set_heap h w).

(** [go func() { engine.RunProcessInstance(...) }()] *)
Definition spawn (a : RunAction) : EM S unit := modify (λ w, w_set_spawned (w.(w_spawned) ++ [a]) w).

Definition on_timerManager (f : timerManager → timerManager) : EM S unit :=
  λ w, match w.(w_timerManager) with
       | Some t => (Ret tt, w_set_timerManager (Some (f t)) w)
       | None => (Panic "nil pointer dereference", w)
       end.
End world.

(** ** EngineBatch (pkg/bpmn/engine_batch.go) *)

Record EngineBatch (S : Type) := {
  b_stmts : list Stmt;
  touchedInstances : list Z;
  preFlushActions : list (EM S unit);
  postFlushActions : list RunAction }.
Arguments b_stmts {S}.
Arguments touchedInstances {S}.
Arguments preFlushActions {S}.
Arguments postFlushActions {S}.

(** A program that is given a batch: it runs on the batch and the world. *)
Abbreviation BM S := (ST (EngineBatch S * World S)).

Section batch.
Context {S : Type} `{Storage S}.

Definition empty_batch (touched : list Z) : EngineBatch S :=
  {| b_stmts := []; touchedInstances := touched; preFlushActions := []; postFlushActions := [] |}.

Definition lift {A} (m : EM S A) : BM S A := zoom snd (λ w bw, (bw.1, w)) m.

(** Runs the body of a function that has created a batch. *)
Definition with_batch {A} (b : EngineBatch S) (body : BM S A) : EM S A :=
  λ w, let '(o, (_, w')) := body (b, w) in (o, w').

Definition lock (k : Z) : EM S unit := on_locks (lockInstance k).
Definition tryLock (k : Z) : EM S unit := on_locks (tryLockInstance k).
Definition unlock (k : Z) : EM S unit := on_locks (unlockInstance k).

Definition refresh (p : loc) : EM S unit := on_heap (λ s, RefreshProcessInstance s p).

Definition NewEngineBatch (instance : loc) : EM S (EngineBatch S) :=
  i ← load_instance instance;
  lock i.(pi_Key) ;;
  r ← attempt (refresh instance);
  match r with
  | Bad e => unlock i.(pi_Key) ;; throw (errw! "failed refresh process instance %d: %w" [e])
  | Good _ =>
      i ← load_instance instance;
      match i.(pi_State) with
      | ActivityStateCompleted | ActivityStateTerminated =>
          unlock i.(pi_Key) ;; throw (err! "process instance %d is already completed")
      | _ => mret (empty_batch [i.(pi_Key)])
      end
  end.

Definition NewEngineBatchClean : EngineBatch S := empty_batch [].

Definition touch (k : Z) : BM S unit :=
  modify (λ bw, ({| b_stmts := bw.1.(b_stmts);
                    touchedInstances := bw.1.(touchedInstances) ++ [k];
                    preFlushActions := bw.1.(preFlushActions);
                    postFlushActions := bw.1.(postFlushActions) |}, bw.2)).

Definition AddParentLockedInstance (parentInstance : loc) : BM S unit :=
  i ← lift (load_instance parentInstance);
  wrap (λ e, errw! "failed locking parent instance %d: %w" [e]) (lift (tryLock i.(pi_Key))) ;;
  r ← attempt (lift (refresh parentInstance));
  match r with
  | Bad e =>
      lift (unlock i.(pi_Key)) ;; throw (errw! "failed to find process instance %d: %w" [e])
  | Good _ => touch i.(pi_Key)
  end.

Definition AddLockedInstance (instance : loc) : BM S unit :=
  i ← lift (load_instance instance);
  lift (lock i.(pi_Key)) ;;
  r ← attempt (lift (refresh instance));
  match r with
  | Bad e =>
      lift (unlock i.(pi_Key)) ;; throw (errw! "failed to find process instance %d: %w" [e])
  | Good _ => touch i.(pi_Key)
  end.

Definition get_batch : BM S (EngineBatch S) := gets fst.
Definition set_batch (b : EngineBatch S) : BM S unit := modify (λ bw, (b, bw.2)).

(** The deferred function of Flush: locks are released, and the post-flush
    actions run when there was no error; then the batch is emptied. *)
Definition Flush_deferred (r : result unit) : BM S unit :=
  b ← get_batch;
  for_each b.(touchedInstances) (λ k, lift (unlock k)) ;;
  match r with
  | Good _ => for_each b.(postFlushActions) (λ a, lift (spawn a))
  | Bad _ => mret tt
  end ;;
  set_batch (empty_batch []).

Definition Flush : BM S unit :=
  b ← get_batch;
  r ← attempt (
    for_each b.(preFlushActions) (λ action,
      wrap (λ e, errw! "failed pre-flush action %s: %w" [e]) (lift action)) ;;
    lift (on_store (flush b.(b_stmts))));
  Flush_deferred r ;;
  of_result r.

Definition Clear : BM S unit :=
  b ← get_batch;
  for_each b.(touchedInstances) (λ k, lift (unlock k)) ;;
  set_batch (empty_batch []).

(** Flush of the storage batch alone, where the code uses one directly. *)
Definition StorageBatch_Flush : BM S unit :=
  b ← get_batch;
  lift (on_store (flush b.(b_stmts))).

(** The save methods of the batch: a statement that cannot be encoded is not
    added. *)
Definition add_stmt (s : Stmt) : BM S unit :=
  match prepare s with
  | Bad e => throw e
  | Good _ =>
      modify (λ bw, ({| b_stmts := bw.1.(b_stmts) ++ [s];
                        touchedInstances := bw.1.(touchedInstances);
                        preFlushActions := bw.1.(preFlushActions);
                        postFlushActions := bw.1.(postFlushActions) |}, bw.2))
  end.

Definition SaveProcessInstance (p : loc) : BM S unit :=
  i ← lift (load_instance p); add_stmt (StSaveProcessInstance p i).
Definition SaveTimer (t : Timer) : BM S unit := add_stmt (StSaveTimer t).
Definition SaveJob (j : Job) : BM S unit := add_stmt (StSaveJob j).
Definition SaveMessageSubscription (m : MessageSubscription) : BM S unit :=
  add_stmt (StSaveMessageSubscription m).
Definition SaveToken (t : ExecutionToken) : BM S unit := add_stmt (StSaveToken t).
Definition SaveFlowElementInstance (f : FlowElementInstance) : BM S unit :=
  add_stmt (StSaveFlowElementInstance f).
Definition UpdateOutputFlowElementInstance (f : FlowElementInstance) : BM S unit :=
  add_stmt (StUpdateOutputFlowElementInstance f).
Definition SaveIncident (i : Incident) : BM S unit := add_stmt (StSaveIncident i).

(** A call whose error the code drops. *)
Definition ignore_error {X} (m : ST X unit) : ST X unit :=
  r ← attempt m; match r with Good _ | Bad _ => mret tt end.

Definition AddPreFlushAction (f : EM S unit) : BM S unit :=
  modify (λ bw, ({| b_stmts := bw.1.(b_stmts); touchedInstances := bw.1.(touchedInstances);
                    preFlushActions := bw.1.(preFlushActions) ++ [f];
                    postFlushActions := bw.1.(postFlushActions) |}, bw.2)).

Definition AddPostFlushAction (a : RunAction) : BM S unit :=
  modify (λ bw, ({| b_stmts := bw.1.(b_stmts); touchedInstances := bw.1.(touchedInstances);
                    preFlushActions := bw.1.(preFlushActions);
                    postFlushActions := bw.1.(postFlushActions) ++ [a] |}, bw.2)).

(** A new storage batch and no actions; the locks stay with the batch. *)
Definition reset_batch : BM S unit :=
  modify (λ bw, ({| b_stmts := []; touchedInstances := bw.1.(touchedInstances);
                    preFlushActions := []; postFlushActions := [] |}, bw.2)).

(** createNewIncidentFromToken (incident_api.go) *)
Definition createNewIncidentFromToken `{Env} (err : error) (token : ExecutionToken)
    : EM S Incident :=
  key ← generateKey;
  t ← now;
  mret {| inc_Key := key; inc_ElementInstanceKey := token.(tok_ElementInstanceKey);
          inc_ElementId := token.(tok_ElementId);
          inc_ProcessInstanceKey := token.(tok_ProcessInstanceKey);
          inc_Message := err; inc_CreatedAt := t; inc_ResolvedAt := None; inc_Token := token |}.

Definition WriteTokenIncident `{Env} (token : ExecutionToken) (instance : loc) (err : error)
    : BM S unit :=
  reset_batch ;;
  let token := with_TokenState TokenStateFailed token in
  lift (set_State instance ActivityStateFailed) ;;
  ignore_error (SaveToken token) ;;
  ignore_error (SaveProcessInstance instance) ;;
  incident ← lift (createNewIncidentFromToken err token);
  ignore_error (SaveIncident incident).

Definition WriteMessageIncident (message : MessageSubscription) (instance : loc) : BM S unit :=
  reset_batch ;;
  ignore_error (SaveMessageSubscription message) ;;
  ignore_error (SaveProcessInstance instance).
End batch.
