(* ===== verification/Conditions.v ===== *)
(** Expressions and the conditions of outgoing sequence flows
    (pkg/bpmn/expressions.go and conditions.go). *)
From Stdlib Require Import Ascii.
From S2P Require Import Prelude Monad Model Runtime DmnModel Storage Locks TimerManager World.

#[local] Open Scope string_scope.

Section conditions.
Context `{Env}.

(** Text that does not start with [=] after trimming is a string constant. *)
Definition evaluateExpression (expression : string) (variableContext : vars) : result value :=
  let expression := TrimSpace expression in
  if negb (HasEqPrefix expression) then Good (VString expression)
  else match feel_Evaluate (TrimPrefix1 "="%char expression) variableContext with
       | Bad e => Bad (errw! "failed to evaluate expression %s with variables %s : %w" [e])
       | Good res => Good res
       end.

(** The loop of exclusivelyFilterByConditionExpression: it stops at the first
    flow whose condition is true. *)
Fixpoint exclusive_loop (single : bool) (flows : list TSequenceFlow) (variableContext : vars)
    (ret : list TSequenceFlow) : result (list TSequenceFlow) :=
  match flows with
  | [] => Good ret
  | flow :: flows' =>
      let expression := flow.(ConditionExpression) in
      if negb (expression =? "") then
        match evaluateExpression expression variableContext with
        | Bad _ => Bad (err! "Error evaluating expression in flow element id='%s' name='%s'")
        | Good out =>
            if is_true_value out then Good (ret ++ [flow])%list
            else exclusive_loop single flows' variableContext ret
        end
      else exclusive_loop single flows' variableContext (if single then ret ++ [flow] else ret)%list
  end.

Definition exclusivelyFilterByConditionExpression (flows : list TSequenceFlow)
    (defaultFlow : option TSequenceFlow) (variableContext : vars) : result (list TSequenceFlow) :=
  match exclusive_loop (length flows =? 1)%nat flows variableContext [] with
  | Bad e => Bad e
  | Good [] =>
      match defaultFlow with
      | None => Bad (err! "No default flow, nor matching expressions found, for flow elements: %s")
      | Some d => Good [d]
      end
  | Good ret => Good ret
  end.

(** The loop of inclusivelyFilterByConditionExpression evaluates every
    condition. *)
Fixpoint inclusive_loop (single : bool) (flows : list TSequenceFlow) (variableContext : vars)
    (ret : list TSequenceFlow) : result (list TSequenceFlow) :=
  match flows with
  | [] => Good ret
  | flow :: flows' =>
      let expression := flow.(ConditionExpression) in
      if negb (expression =? "") then
        match evaluateExpression expression variableContext with
        | Bad _ => Bad (err! "Error evaluating expression in flow element id='%s' name='%s'")
        | Good out =>
            inclusive_loop single flows' variableContext
              (if is_true_value out then ret ++ [flow] else ret)%list
        end
      else inclusive_loop single flows' variableContext (if single then ret ++ [flow] else ret)%list
  end.

(** Without a default flow the message names the source of the first flow: a
    gateway without outgoing flows panics there. *)
Definition inclusivelyFilterByConditionExpression {X} (flows : list TSequenceFlow)
    (defaultFlow : option TSequenceFlow) (variableContext : vars) : ST X (list TSequenceFlow) :=
  match inclusive_loop (length flows =? 1)%nat flows variableContext [] with
  | Bad e => throw e
  | Good [] =>
      match defaultFlow with
      | None =>
          match flows with
          | [] => panic "index out of range"
          | f :: _ =>
              if (f.(SourceRefId) =? "") then panic "nil pointer dereference"
              else throw (err! "No default flow, nor matching expressions found for gateway: %s")
          end
      | Some d => mret [d]
      end
  | Good ret => mret ret
  end.

(** ** What the filters compute *)

(** The condition of a flow, evaluated: whether the flow is taken. *)
Definition condition (single : bool) (variableContext : vars) (flow : TSequenceFlow) : result bool :=
  if (flow.(ConditionExpression) =? "") then Good single
  else is_true_value <$> evaluateExpression flow.(ConditionExpression) variableContext.

Definition taken (single : bool) (variableContext : vars) (flow : TSequenceFlow) : bool :=
  match condition single variableContext flow with Good b => b | Bad _ => false end.

Definition fails (single : bool) (variableContext : vars) (flow : TSequenceFlow) : bool :=
  negb (is_Good (condition single variableContext flow)).

Lemma inclusive_loop_spec single flows variableContext ret :
  match inclusive_loop single flows variableContext ret with
  | Good l => l = (ret ++ filter (λ f, taken single variableContext f = true) flows)%list ∧
              ∀ f, f ∈ flows → fails single variableContext f = false
  | Bad _ => ∃ f, f ∈ flows ∧ fails single variableContext f = true
  end.
Proof.
  revert ret. induction flows as [|f flows IH]; intros ret; simpl.
  { split; [by rewrite app_nil_r|]. intros f Hf. by apply not_elem_of_nil in Hf. }
  assert (Hcase : match condition single variableContext f with
    | Good b => inclusive_loop single (f :: flows) variableContext ret =
                inclusive_loop single flows variableContext (if b then ret ++ [f] else ret)%list
    | Bad _ => ∃ e, inclusive_loop single (f :: flows) variableContext ret = Bad e
    end).
  { unfold condition. simpl. destruct (_ =? _)%string; simpl; [done|].
    destruct (evaluateExpression _ _); simpl; eauto. }
  simpl in Hcase. destruct (condition single variableContext f) as [b|e] eqn:Ec.
  - rewrite Hcase. specialize (IH (if b then ret ++ [f] else ret)%list).
    destruct (inclusive_loop single flows variableContext _) as [l|e].
    + destruct IH as [-> Hf]. rewrite filter_cons.
      assert (Ht : taken single variableContext f = b) by (unfold taken; by rewrite Ec). split.
      * destruct b; [rewrite decide_True by done|by rewrite decide_False by congruence].
        by rewrite <-(assoc_L (++)).
      * intros g [->|Hg]%elem_of_cons; [unfold fails; by rewrite Ec|by apply Hf].
    + destruct IH as (g & Hg & ?). exists g. split; [by right|done].
  - destruct Hcase as [e' ->]. exists f. split; [left|]. unfold fails. by rewrite Ec.
Qed.

Lemma exclusive_loop_spec single flows variableContext :
  match exclusive_loop single flows variableContext [] with
  | Good [] => ∀ f, f ∈ flows → condition single variableContext f = Good false
  | Good [f] => ∃ l1 l2, flows = (l1 ++ f :: l2)%list ∧
      taken single variableContext f = true ∧
      ∀ g, g ∈ l1 → condition single variableContext g = Good false
  | Good _ => False
  | Bad _ => ∃ l1 f l2, flows = (l1 ++ f :: l2)%list ∧
      fails single variableContext f = true ∧
      ∀ g, g ∈ l1 → condition single variableContext g = Good false
  end ∨ (single = true ∧ length flows ≠ 1).
Proof.
  destruct (decide (single = true ∧ length flows ≠ 1)) as [|Hs]; [by right|left].
  assert (Hs' : single = true → length flows = 1).
  { intros ->. destruct (decide (length flows = 1)); [done|]. exfalso. by apply Hs. }
  clear Hs. destruct single.
  { specialize (Hs' eq_refl). destruct flows as [|f [|]]; try done. clear Hs'. simpl.
    destruct (_ =? _)%string eqn:Ee; simpl.
    { exists [], []. split_and!; [done| |by intros g ?%not_elem_of_nil].
      unfold taken, condition. by rewrite Ee. }
    destruct (evaluateExpression _ _) as [v|e] eqn:Ev.
    - destruct (is_true_value v) eqn:Et.
      + exists [], []. split_and!; [done| |by intros g ?%not_elem_of_nil].
        unfold taken, condition. by rewrite Ee, Ev.
      + intros g ->%list_elem_of_singleton. unfold condition. rewrite Ee, Ev. simpl. by rewrite Et.
    - exists [], f, []. split_and!; [done| |by intros g ?%not_elem_of_nil].
      unfold fails, condition. by rewrite Ee, Ev. }
  clear Hs'. induction flows as [|f flows IH]; simpl.
  { by intros f ?%not_elem_of_nil. }
  assert (Hskip : condition false variableContext f = Good false →
    match exclusive_loop false flows variableContext [] with
    | Good [] => ∀ g, g ∈ f :: flows → condition false variableContext g = Good false
    | Good [g] => ∃ l1 l2, f :: flows = (l1 ++ g :: l2)%list ∧
        taken false variableContext g = true ∧
        ∀ h, h ∈ l1 → condition false variableContext h = Good false
    | Good _ => False
    | Bad _ => ∃ l1 g l2, f :: flows = (l1 ++ g :: l2)%list ∧
        fails false variableContext g = true ∧
        ∀ h, h ∈ l1 → condition false variableContext h = Good false
    end).
  { intros Hc. destruct (exclusive_loop false flows variableContext []) as [[|g []]|e].
    - intros g [->|Hg]%elem_of_cons; [done|by apply IH].
    - destruct IH as (l1 & l2 & -> & Ht & Hl). exists (f :: l1), l2. split_and!; [done..|].
      intros h [->|Hh]%elem_of_cons; [done|by apply Hl].
    - done.
    - destruct IH as (l1 & g & l2 & -> & Ht & Hl). exists (f :: l1), g, l2. split_and!; [done..|].
      intros h [->|Hh]%elem_of_cons; [done|by apply Hl]. }
  destruct (_ =? _)%string eqn:Ee; simpl.
  { apply Hskip. unfold condition. by rewrite Ee. }
  destruct (evaluateExpression _ _) as [v|e] eqn:Ev.
  - destruct (is_true_value v) eqn:Et.
    + exists [], flows. split_and!; [done| |by intros g ?%not_elem_of_nil].
      unfold taken, condition. rewrite Ee, Ev. by simpl.
    + apply Hskip. unfold condition. rewrite Ee, Ev. simpl. by rewrite Et.
  - exists [], f, flows. split_and!; [done| |by intros g ?%not_elem_of_nil].
    unfold fails, condition. by rewrite Ee, Ev.
Qed.
End conditions.
