(* ===== verification/Dmn.v ===== *)
(** The DMN engine (pkg/dmn): deployment of decisions with their versions, the
    lookup of a decision, the evaluation of decision tables, literal
    expressions and contexts, and the hit policies. *)
From Stdlib Require Import Ascii.
From S2P Require Import Prelude Monad Model Runtime DmnModel Storage Locks TimerManager World.

#[local] Open Scope string_scope.

(** A Go map as a value: the entries in key order. *)
Definition key_le (a b : string * value) : Prop := Is_true (String.leb a.1 b.1).
#[export] Instance key_le_dec : RelDecision key_le.
Proof. intros a b. unfold key_le. apply _. Defined.
Definition map_value (m : vars) : value := VMap (merge_sort key_le (map_to_list m)).

(** ** Hit policies (dmn_hit_policy_evaluator.go) *)

Definition outputs_map (l : list EvaluatedOutput) : vars :=
  foldl (λ m o, <[o.(eo_OutputJsonName) := o.(OutputValue)]> m) ∅ l.

(** One unnamed output column: the value itself is the result of a rule. *)
Definition single_unnamed (decisionTable : TDecisionTable) : bool :=
  match decisionTable.(dt_Outputs) with [o] => (o.(out_Name) =? "") | _ => false end.

Section hit_policy.
Context {X : Type}.

Definition first_output (rule : EvaluatedRule) : ST X value :=
  match rule.(EvaluatedOutputs) with
  | o :: _ => mret o.(OutputValue)
  | [] => panic "index out of range"
  end.

Definition rule_output (decisionTable : TDecisionTable) (rule : EvaluatedRule) : ST X value :=
  if single_unnamed decisionTable then first_output rule
  else mret (map_value (outputs_map rule.(EvaluatedOutputs))).

Definition evaluateCollectOutput (decisionTable : TDecisionTable) (decisionId : string)
    (matchedRules : list EvaluatedRule) : ST X vars :=
  resultList ← for_map matchedRules (rule_output decisionTable);
  mret ({[decisionId := VList resultList]} : vars).

Definition evaluateFirstRuleOutput (decisionTable : TDecisionTable) (decisionId : string)
    (matchedRules : list EvaluatedRule) : ST X vars :=
  match matchedRules with
  | [] => mret ({[decisionId := VNil]} : vars)
  | rule :: _ => v ← rule_output decisionTable rule; mret ({[decisionId := v]} : vars)
  end.

(** nil, the empty map, for more than one matched rule. *)
Definition evaluateUniqueOutput (decisionTable : TDecisionTable) (decisionId : string)
    (matchedRules : list EvaluatedRule) : ST X vars :=
  if (1 <? length matchedRules)%nat then mret ∅
  else evaluateFirstRuleOutput decisionTable decisionId matchedRules.

Definition EvaluateHitPolicyOutput (decisionTable : TDecisionTable) (decisionId : string)
    (hitPolicy : HitPolicy) (hitPolicyAggregation : HitPolicyAggregation)
    (matchedRules : list EvaluatedRule) : ST X vars :=
  match hitPolicy with
  | HitPolicyCollect =>
      match hitPolicyAggregation with
      | HitPolicyAggregationSum | HitPolicyAggregationMin | HitPolicyAggregationMax
      | HitPolicyAggregationCount => panic "Not implemented"
      | HitPolicyAggregationOther _ => evaluateCollectOutput decisionTable decisionId matchedRules
      end
  | HitPolicyFirst | HitPolicyPriority | HitPolicyAny | HitPolicyRuleOrder
  | HitPolicyOutputOrder => evaluateFirstRuleOutput decisionTable decisionId matchedRules
  | HitPolicyOther _ => evaluateUniqueOutput decisionTable decisionId matchedRules
  end.
End hit_policy.

Fixpoint isUnique_loop (seen : list string) (l : list TOutput) : bool :=
  match l with
  | [] => true
  | s :: l' =>
      if existsb (String.eqb s.(out_Name)) seen then false
      else isUnique_loop (s.(out_Name) :: seen) l'
  end.
Definition isUnique (l : list TOutput) : bool := isUnique_loop [] l.

Definition findDecisionDefinition (dmnDefinition : DmnResourceDefinition) (decisionId : string)
    : option TDecision :=
  List.find (λ d, (d.(dec_Id) =? decisionId)) dmnDefinition.(drd_Definitions).(Decisions).

(** ** Evaluation (dmn_engine.go) *)

Section evaluation.
Context `{Env} {X : Type}.

(** All cells of a rule must match, from left to right; an empty cell is "-".
    A rule with more cells than inputs panics. *)
Fixpoint match_cells (evaluatedInputs : list EvaluatedInput) (cells : list string)
    (localVariableContext : vars) {struct cells} : ST X bool :=
  match cells with
  | [] => mret true
  | cell :: cells' =>
      match evaluatedInputs with
      | [] => panic "index out of range"
      | input :: inputs' =>
          m ← wrap_result (λ _, err! "error while evaluating cell match:  %s %s ,%v")
            (feel_UnaryTest (if (cell =? "") then "-" else cell)
               (<["?" := input.(InputValue)]> localVariableContext));
          if (m : bool) then match_cells inputs' cells' localVariableContext else mret false
      end
  end.

(** The output cells, one for every output column. *)
Fixpoint evaluate_outputs (outputs : list TOutput) (cells : list string)
    (localVariableContext : vars) : ST X (list EvaluatedOutput) :=
  match outputs with
  | [] => mret []
  | output :: outputs' =>
      match cells with
      | [] => panic "index out of range"
      | cell :: cells' =>
          v ← wrap_result (λ _, err! "error while evaluating output %s with variables %s: %v")
            (feel_Evaluate cell localVariableContext);
          rest ← evaluate_outputs outputs' cells' localVariableContext;
          mret ({| eo_OutputId := output.(out_Id); eo_OutputName := output.(out_Name);
                   eo_OutputJsonName := output.(out_Name); OutputValue := v |} :: rest)
      end
  end.

Fixpoint evaluate_rules (decisionTable : TDecisionTable) (evaluatedInputs : list EvaluatedInput)
    (localVariableContext : vars) (ruleIndex : Z) (rules : list TRule) : ST X (list EvaluatedRule) :=
  match rules with
  | [] => mret []
  | rule :: rules' =>
      allColumnsMatch ← match_cells evaluatedInputs rule.(InputEntry) localVariableContext;
      if (allColumnsMatch : bool) then
        outs ← evaluate_outputs decisionTable.(dt_Outputs) rule.(OutputEntry) localVariableContext;
        let matched := {| RuleId := rule.(rule_Id); RuleIndex := ruleIndex + 1;
                          EvaluatedOutputs := outs |} in
        match decisionTable.(dt_HitPolicy) with
        | HitPolicyFirst => mret [matched]
        | _ =>
            rest ← evaluate_rules decisionTable evaluatedInputs localVariableContext
                     (ruleIndex + 1) rules';
            mret (matched :: rest)
        end
      else evaluate_rules decisionTable evaluatedInputs localVariableContext (ruleIndex + 1) rules'
  end.

Definition evaluate_inputs (inputs : list TInput) (localVariableContext : vars)
    : ST X (list EvaluatedInput) :=
  for_map inputs (λ input,
    v ← wrap_result (λ _, err! "error while evaluating epression %s with variables %s: %v")
      (feel_Evaluate input.(in_Expression) localVariableContext);
    mret {| ei_InputId := input.(in_Id); ei_InputName := input.(in_Label);
            ei_InputExpression := input.(in_Expression); InputValue := v |}).

Definition evaluateDecisionTable (decisionTable : TDecisionTable) (decisionId : string)
    (localVariableContext : vars) : ST X (vars * list EvaluatedRule * list EvaluatedInput) :=
  if (1 <? length decisionTable.(dt_Outputs))%nat && negb (isUnique decisionTable.(dt_Outputs))
  then throw (err! "decision table contains more than one output and all of them have to have unique names, decision id %s")
  else
    evaluatedInputs ← evaluate_inputs decisionTable.(dt_Inputs) localVariableContext;
    matchedRules ← evaluate_rules decisionTable evaluatedInputs localVariableContext 0
      decisionTable.(dt_Rules);
    output ← EvaluateHitPolicyOutput decisionTable decisionId decisionTable.(dt_HitPolicy)
      decisionTable.(dt_HitPolicyAggregation) matchedRules;
    mret (output, matchedRules, evaluatedInputs).

(** The value a literal expression's result is stored as, by the type of its
    variable; [None] when it cannot be cast. *)
Definition cast_value (typeRef : string) (v : value) : option value :=
  if (typeRef =? "string") then match v with VString _ => Some v | _ => None end
  else if (typeRef =? "boolean") then match v with VBool _ | VNil => Some v | _ => None end
  else if (typeRef =? "integer") then match v with VInt _ => Some v | _ => None end
  else if (typeRef =? "long") then match v with VInt64 _ => Some v | _ => None end
  else if (typeRef =? "double") then match v with VFloat _ => Some v | _ => None end
  else if (typeRef =? "date") then match v with VTime _ => Some v | _ => None end
  else if (typeRef =? "number") then
    match v with VFloat _ | VInt64 _ | VNil => Some v | _ => None end
  else Some v.

Definition evaluateLiteralExpression (literalExpression : TLiteralExpression)
    (variable : option TVariable) (decisionId : string) (localVariableContext : vars)
    : ST X vars :=
  resultValue ←
    (if (literalExpression.(le_ExpressionLanguage) =? "feel") ||
        (literalExpression.(le_ExpressionLanguage) =? "")
     then wrap_result (λ e, errw! "failed to evaluated expression %s with variables %s: %w" [e])
            (feel_Evaluate literalExpression.(le_Text) localVariableContext)
     else throw (err! "unsupported literal expression language %s on decision with Id %s"));
  match resultValue with
  | VException text => throw (Errorf text [])
  | _ =>
      variable ← deref variable;
      match cast_value variable.(var_TypeRef) resultValue with
      | Some v => mret ({[variable.(var_Name) := v]} : vars)
      | None => throw (err! "literal expression result value %x cannot be cast to %s on decision with Id %s")
      end
  end.

(** The variable of a last entry without one. *)
Definition result_variable (resultVariableName : string) : TVariable :=
  {| var_Id := resultVariableName; var_Name := resultVariableName; var_TypeRef := "" |}.

(** The entries of a context in order, each seeing the outputs of those
    before; a last entry without a variable is the result. *)
Section context.
Context (evaluateContext : TContext → string → vars → ST X vars).

Definition evaluate_entry (table : option TDecisionTable) (literal : option TLiteralExpression)
    (context : option TContext) (local : vars) (name : ST X string) (var : option TVariable)
    : ST X vars :=
  match table, literal, context with
  | Some t, _, _ =>
      n ← name;
      r ← evaluateDecisionTable t n local;
      mret r.1.1
  | None, Some e, _ =>
      n ← name;
      evaluateLiteralExpression e var n local
  | None, None, Some c =>
      n ← name;
      evaluateContext c n local
  | None, None, None => mret ∅
  end.

Fixpoint context_loop (resultVariableName : string) (l : list TContextEntry)
    (local outputs : vars) {struct l} : ST X vars :=
  match l with
  | [] => mret ({[resultVariableName := map_value outputs]} : vars)
  | MkContextEntry table variable literal context :: l' =>
      let evaluate := evaluate_entry table literal context local in
      match l', variable with
      | [], None => evaluate (mret resultVariableName) (Some (result_variable resultVariableName))
      | _, _ =>
          output ← evaluate (v ← deref variable; mret v.(var_Name)) variable;
          context_loop resultVariableName l' (output ∪ local) (output ∪ outputs)
      end
  end.
End context.

Fixpoint evaluateContext (decisionContext : TContext) (resultVariableName : string)
    (inputVariables : vars) {struct decisionContext} : ST X vars :=
  match decisionContext with
  | MkContext entries =>
      context_loop evaluateContext resultVariableName entries inputVariables ∅
  end.

Definition decision_name (d : TDecision) : string :=
  if negb (d.(dec_Name) =? "") then d.(dec_Name) else d.(dec_Id).

(** The decision logic itself: a table, a literal expression or a context. *)
Definition evaluate_logic (d : TDecision) (localVariableContext : vars)
    : ST X (EvaluatedDecisionType * vars * list EvaluatedRule * list EvaluatedInput) :=
  match d.(dec_DecisionTable), d.(dec_LiteralExpression), d.(dec_Context) with
  | Some t, _, _ =>
      r ← evaluateDecisionTable t (decision_name d) localVariableContext;
      mret (DecisionTable, r.1.1, r.1.2, r.2)
  | None, Some e, _ =>
      output ← evaluateLiteralExpression e d.(dec_Variable) (decision_name d) localVariableContext;
      mret (LiteralExpression, output, [], [])
  | None, None, Some c =>
      output ← evaluateContext c (decision_name d) localVariableContext;
      mret (Context_, output, [], [])
  | None, None, None => throw (err! "decision type unsupported on decision id %s")
  end.

(** A required input must be among the variables when the document declares
    input data of that id. *)
Definition required_input_missing (inputs : list TInputData) (id : string) (variables : vars) : bool :=
  existsb (λ input, (input.(ind_Id) =? id) &&
    match variables !! input.(ind_Name) with Some _ => false | None => true end) inputs.

(** The required decisions are evaluated first, each with the input variables
    only; nothing stops a cycle of requirements, [fuel] bounds the depth. *)
Fixpoint evaluateDecision (fuel : nat) (dmnResourceDefinition : DmnResourceDefinition)
    (decisionId : string) (inputVariableContext : vars)
    : ST X (EvaluatedDecisionResult * list EvaluatedDecisionResult) :=
  match fuel with
  | O => nofuel
  | Datatypes.S fuel =>
      match findDecisionDefinition dmnResourceDefinition decisionId with
      | None => throw (err! "Decision ID [%v] doesnt exist.")
      | Some foundDecision =>
          r ← for_fold foundDecision.(InformationRequirement) (inputVariableContext, [])
            (λ acc requirement,
               match requirement.(RequiredResource) with
               | TRequiredDecision Href =>
                   r ← evaluateDecision fuel dmnResourceDefinition
                         (TrimPrefix1 "#"%char Href) inputVariableContext;
                   mret (r.1.(edr_DecisionOutput) ∪ acc.1, (acc.2 ++ r.1 :: r.2)%list)
               | TRequiredInput Href =>
                   if required_input_missing
                        dmnResourceDefinition.(drd_Definitions).(InputData)
                        (TrimPrefix1 "#"%char Href) inputVariableContext
                   then throw (err! "required input missing for %s")
                   else mret acc
               | NoResource => panic "unsupported TInformationRequirement %+v"
               end);
          l ← evaluate_logic foundDecision r.1;
          mret ({| edr_DecisionId := foundDecision.(dec_Id);
                   edr_DecisionName := foundDecision.(dec_Name);
                   edr_DecisionType := l.1.1.1;
                   edr_DecisionDefinitionVersion := dmnResourceDefinition.(drd_Version);
                   edr_DecisionDefinitionKey := dmnResourceDefinition.(drd_Key);
                   edr_DmnResourceDefinitionId := dmnResourceDefinition.(drd_Id);
                   edr_MatchedRules := l.1.2; edr_DecisionOutput := l.1.1.2;
                   edr_EvaluatedInputs := l.2 |}, r.2)
      end
  end.

(** The loop [for _, value := range result.DecisionOutput { out = value }]. *)
Definition decision_output (m : vars) : value :=
  foldl (λ _ kv, kv.2) VNil (map_to_list m).
End evaluation.

(** ** The engine *)

Section dmn_engine.
Context {S : Type} `{DecisionStorage S} `{Env}.

Definition evaluateDRD (fuel : nat) (dmnResourceDefinition : DmnResourceDefinition)
    (decisionDefinition : DecisionDefinition) (inputVariableContext : vars)
    : EM S EvaluatedDRDResult :=
  r ← wrap (λ e, errw! "failed to evaluate DecisionDefinition %s in DmnResourceDefinition %s:%d: %w" [e])
    (evaluateDecision fuel dmnResourceDefinition decisionDefinition.(dcd_Id) inputVariableContext);
  let evaluatedDecisions := (r.1 :: r.2)%list in
  let decisionOutput := decision_output r.1.(edr_DecisionOutput) in
  outputVariables ← wrap_result
    (λ e, errw! "failed to marshal business rule output variables: %w" [e])
    (json_Marshal decisionOutput);
  evaluatedDecisionsJson ← wrap_result
    (λ e, errw! "failed to marshal business rule evaluated decisions: %w" [e])
    (json_MarshalDecisions evaluatedDecisions);
  decisionInstanceKey ← generateKey;
  t ← now;
  wrap (λ e, errw! "failed to save business rule: %w" [e])
    (on_store (SaveDecisionInstance
       {| dci_Key := decisionInstanceKey; dci_ElementInstanceKey := 0; dci_ElementId := "";
          dci_ProcessInstanceKey := 0; dci_ExecutionTokenKey := 0; dci_DecisionId := decisionDefinition.(dcd_Id);
          dci_CreatedAt := t; dci_OutputVariables := outputVariables;
          dci_EvaluatedDecisions := evaluatedDecisionsJson;
          dci_DmnResourceDefinitionKey := dmnResourceDefinition.(drd_Key);
          dci_DecisionDefinitionKey := decisionDefinition.(dcd_Key) |})) ;;
  mret {| EvaluatedDecisions := evaluatedDecisions; DecisionOutput := decisionOutput;
          DecisionInstanceKey := decisionInstanceKey |}.

(** The binding types of a called decision. *)
Definition find_decision (bindingType decisionId versionTag : string) : EM S DecisionDefinition :=
  if (bindingType =? "") || (bindingType =? "latest") then
    match Split "."%char decisionId with
    | [id] =>
        wrap (λ e, errw! "failed to find decisionDefinition %s : %w" [e])
          (query (λ s, GetLatestDecisionDefinitionById s id))
    | [dmnResourceDefinitionId; id] =>
        wrap (λ e, errw! "failed to find decisionDefinition %s stored in dmnResourceDefinition %s : %w" [e])
          (query (λ s, GetLatestDecisionDefinitionByIdAndDmnResourceDefinitionId s id
                         dmnResourceDefinitionId))
    | _ => throw (err! "failed to process decisionDefinition %s : DecisionId has wrong format")
    end
  else if (bindingType =? "deployment") then
    throw (err! "failed to process decisionDefinition %s : bindingType deployment unsupported")
  else if (bindingType =? "versionTag") then
    wrap (λ e, errw! "failed to find decisionDefinition %s with versionTag %s : %w" [e])
      (query (λ s, GetLatestDecisionDefinitionByIdAndVersionTag s decisionId versionTag))
  else throw (err! "failed to process Decision %s: BindingType %s unsupported").

Definition FindAndEvaluateDRD (fuel : nat) (bindingType decisionId versionTag : string)
    (inputVariableContext : vars) : EM S EvaluatedDRDResult :=
  decisionDefinition ← find_decision bindingType decisionId versionTag;
  dmnResourceDefinition ←
    wrap (λ e, errw! "failed to find dmnResourceDefinition %s:%d containing decisionDefinition %s : %w" [e])
      (query (λ s, FindDmnResourceDefinitionByKey s
                     decisionDefinition.(dcd_DmnResourceDefinitionKey)));
  evaluateDRD fuel dmnResourceDefinition decisionDefinition inputVariableContext.

(** The row with the highest version, the first of equal ones. *)
Definition latest_by {A} (version : A → Z) (x : A) (l : list A) : A :=
  foldl (λ latest y, if (version latest <? version y)%Z then y else latest) x l.

(** A decision of a new version of a document takes the next version of the
    decisions with its id.  The code tests whether the document existed, and
    then reads the first of those decisions: for a decision that is new in a
    later version of its document that is an index out of range. *)
Definition save_decision (existing : list DmnResourceDefinition)
    (decisionDefinition : DecisionDefinition) : EM S DecisionDefinition :=
  decisionDefinitions ←
    wrap (λ e, errw! "failed to save decisionDefinition in dmn resource definition %s by id %s: %w" [e])
      (query (λ s, GetDecisionDefinitionsById s decisionDefinition.(dcd_Id)));
  version ←
    match existing with
    | [] => mret decisionDefinition.(dcd_Version)
    | _ =>
        match decisionDefinitions with
        | [] => panic "index out of range [0] with length 0"
        | d :: l => mret (wrap64 ((latest_by dcd_Version d (d :: l)).(dcd_Version) + 1))
        end
    end;
  let decisionDefinition :=
    {| dcd_Version := version; dcd_Key := decisionDefinition.(dcd_Key);
       dcd_Id := decisionDefinition.(dcd_Id); dcd_VersionTag := decisionDefinition.(dcd_VersionTag);
       dcd_DmnResourceDefinitionId := decisionDefinition.(dcd_DmnResourceDefinitionId);
       dcd_DmnResourceDefinitionKey := decisionDefinition.(dcd_DmnResourceDefinitionKey) |} in
  wrap (λ e, errw! "failed to save decisionDefinition in decisionDefinition definition %s by id %s: %w" [e])
    (on_store (SaveDecisionDefinition decisionDefinition)) ;;
  mret decisionDefinition.

Definition with_drd_Version (v : Z) (d : DmnResourceDefinition) : DmnResourceDefinition :=
  {| drd_Version := v; drd_Key := d.(drd_Key); drd_Id := d.(drd_Id);
     drd_Definitions := d.(drd_Definitions); drd_DmnData := d.(drd_DmnData);
     drd_DmnDefinitionName := d.(drd_DmnDefinitionName); drd_DmnChecksum := d.(drd_DmnChecksum) |}.

Definition save_resource (existing : list DmnResourceDefinition)
    (dmnResourceDefinition : DmnResourceDefinition) (decisionDefinitions : list DecisionDefinition)
    : EM S (DmnResourceDefinition * list DecisionDefinition) :=
  wrap (λ e, errw! "failed to save decisionDefinition definition by id %s: %w" [e])
    (on_store (SaveDmnResourceDefinition dmnResourceDefinition)) ;;
  resultDecisions ← for_map decisionDefinitions (save_decision existing);
  mret (dmnResourceDefinition, resultDecisions).

(** The same document again returns the stored one. *)
Definition saveDmnResourceDefinition (dmnResourceDefinition : DmnResourceDefinition)
    (decisionDefinitions : list DecisionDefinition)
    : EM S (DmnResourceDefinition * list DecisionDefinition) :=
  existing ←
    wrap (λ e, errw! "failed to saveDmnResourceDefinition dmnResourceDefinition by id %s: %w" [e])
      (query (λ s, FindDmnResourceDefinitionsById s dmnResourceDefinition.(drd_Id)));
  match existing with
  | [] => save_resource existing dmnResourceDefinition decisionDefinitions
  | d :: l =>
      let latest := latest_by drd_Version d (d :: l) in
      if bool_decide (latest.(drd_DmnChecksum) = dmnResourceDefinition.(drd_DmnChecksum))
      then mret (latest, [])
      else save_resource existing
             (with_drd_Version (wrap64 (latest.(drd_Version) + 1)) dmnResourceDefinition)
             decisionDefinitions
  end.

(** The checksum is given: MD5 is not modelled. *)
Definition DeployDmnResourceDefinition (definition : DmnTDefinitions) (xmlData : string)
    (md5sum : list Z) (key : Z) : EM S (DmnResourceDefinition * list DecisionDefinition) :=
  let dmnResourceDefinition :=
    {| drd_Version := 1; drd_Key := key; drd_Id := definition.(dd_Id);
       drd_Definitions := definition; drd_DmnData := xmlData;
       drd_DmnDefinitionName := definition.(dd_Name); drd_DmnChecksum := md5sum |} in
  decisionDefinitions ← for_map definition.(Decisions) (λ d,
    k ← generateKey;
    mret {| dcd_Version := 1; dcd_Key := k; dcd_Id := d.(dec_Id);
            dcd_VersionTag := d.(dec_VersionTag);
            dcd_DmnResourceDefinitionId := definition.(dd_Id);
            dcd_DmnResourceDefinitionKey := key |});
  saveDmnResourceDefinition dmnResourceDefinition decisionDefinitions.
End dmn_engine.
