(* ===== verification/Instances.v ===== *)
(** Tokens and instances (pkg/bpmn/engine.go and, for the multi instance
    variants, sub_process.go): creating an instance with its first tokens,
    moving a token along the outgoing flows of an element, and cancelling an
    instance with everything that waits in it and the instances it called. *)
From S2P Require Import Prelude Monad Model Runtime DmnModel Storage Locks TimerManager World.
From S2P Require Import Conditions.

Definition mk_element (key pik : Z) (id : string) (created tokenKey : Z) (inputs outputs : vars)
    : FlowElementInstance :=
  {| fe_Key := key; fe_ProcessInstanceKey := pik; fe_ElementId := id; fe_CreatedAt := created;
     fe_ExecutionTokenKey := tokenKey; fe_InputVariables := inputs; fe_OutputVariables := outputs |}.

Definition defs_of (i : ProcessInstance) : TDefinitions := i.(pi_Definition).(pd_Definitions).
Definition process_of (i : ProcessInstance) : TProcess := (defs_of i).(Process).

(** elementActivity (activity.go) *)
Record elementActivity := {
  ea_key : Z; ea_state : ActivityState; ea_element : FlowNode }.

Section instances.
Context {S : Type} `{Storage S} `{Env}.

(** A token literal of the code: two keys are generated; CreatedAt is left
    zero. *)
Definition new_token (elementId : string) (processInstanceKey : Z) (state : TokenState)
    : EM S ExecutionToken :=
  key ← generateKey;
  eik ← generateKey;
  mret {| tok_Key := key; tok_ElementInstanceKey := eik; tok_ElementId := elementId;
          tok_ProcessInstanceKey := processInstanceKey; tok_State := state;
          tok_CreatedAt := zero_time |}.

(** The history entry of a sequence flow; its error is dropped. *)
Definition save_flow (i : ProcessInstance) (flow : TSequenceFlow) (tokenKey : Z) : BM S unit :=
  key ← lift generateKey;
  t ← lift now;
  ignore_error (SaveFlowElementInstance
    (mk_element key i.(pi_Key) flow.(sf_Id) t tokenKey ∅ ∅)).

Definition target_id (i : ProcessInstance) (flow : TSequenceFlow) : BM S string :=
  n ← deref (GetTargetRef (defs_of i) flow);
  mret (GetId n).

(** ** Creating instances *)

Definition startExecutionTokens (startingElementIds : list string) (processInstance : loc)
    : BM S (list ExecutionToken) :=
  i ← lift (load_instance processInstance);
  for_map startingElementIds (λ elementId,
    flowNode ← deref (GetFlowNodeById (process_of i) elementId);
    key ← lift generateKey;
    eik ← lift generateKey;
    t ← lift now;
    let executionToken :=
      {| tok_Key := key; tok_ElementInstanceKey := eik; tok_ElementId := GetId flowNode;
         tok_ProcessInstanceKey := i.(pi_Key); tok_State := TokenStateRunning;
         tok_CreatedAt := t |} in
    wrap (λ e, errw! "failed to start execution token starting at %s for process instance %d: %w" [e])
      (SaveToken executionToken) ;;
    mret executionToken).

(** The instance the code allocates before createInstance fills it in. *)
Definition fresh_instance (kind : InstanceKind) (process : ProcessDefinition)
    (variableHolder : vars) : EM S loc :=
  key ← generateKey;
  t ← now;
  new_instance {| pi_Kind := kind; pi_Definition := process; pi_Key := key;
                  pi_BusinessKey := None; pi_VariableHolder := variableHolder;
                  pi_CreatedAt := t; pi_State := ActivityStateReady |}.

(** The loop that starts a token on each starting element. *)
Definition starting_tokens (processInstanceKey : Z) (ids : list string)
    : BM S (list ExecutionToken) :=
  for_map ids (λ id,
    token ← lift (new_token id processInstanceKey TokenStateRunning);
    ignore_error (SaveToken token) ;;
    mret token).

Definition createInstance (process : ProcessDefinition) (variableHolder : vars)
    (kind : InstanceKind) : BM S (loc * list ExecutionToken) :=
  instance ← lift (fresh_instance kind process variableHolder);
  i ← lift (load_instance instance);
  wrap (λ e, errw! "failed to save changes to process instance %d: %w" [e])
    (SaveProcessInstance instance) ;;
  executionTokens ← starting_tokens i.(pi_Key)
    ((λ e, GetId (StartEvent e)) <$> process.(pd_Definitions).(Process).(StartEvents));
  mret (instance, executionTokens).

Definition createInstanceWithStartingElements (processDefinition : ProcessDefinition)
    (startingFlowNodes : list FlowNode) (variableHolder : vars) (kind : InstanceKind)
    : BM S (loc * list ExecutionToken) :=
  instance ← lift (fresh_instance kind processDefinition variableHolder);
  i ← lift (load_instance instance);
  wrap (λ e, errw! "failed to save changes to process instance %d: %w" [e])
    (SaveProcessInstance instance) ;;
  executionTokens ← starting_tokens i.(pi_Key) (GetId <$> startingFlowNodes);
  mret (instance, executionTokens).

(** The element a token stands on.  In a sub process instance it is looked up
    inside the sub process element. *)
Definition getExecutionTokenActivity (instance : loc) (token : ExecutionToken)
    : EM S elementActivity :=
  i ← load_instance instance;
  currentFlowNode ←
    match i.(pi_Kind) with
    | DefaultProcessInstance | CallActivityInstance _ _ | MultiInstanceInstance _ _ _ =>
        mret (GetFlowNodeById (process_of i) token.(tok_ElementId))
    | SubProcessInstance _ _ parentId =>
        match GetFlowNodeById (process_of i) parentId with
        | Some (SubProcess s) => mret (GetFlowNodeById s.(sp_process) token.(tok_ElementId))
        | _ => panic "interface conversion: FlowNode is not *bpmn20.TSubProcess"
        end
    end;
  match currentFlowNode with
  | None =>
      throw (err! "failed to find flow node %s for execution token in process definition")
  | Some n =>
      key ← generateKey;
      mret {| ea_key := key; ea_state := ActivityStateReady; ea_element := n |}
  end.

(** ** Moving a token *)

(** The iterations of the transition loop after the first one. *)
Definition transition_rest (i : ProcessInstance) (flows : list TSequenceFlow)
    : BM S (list ExecutionToken) :=
  for_map flows (λ flow,
    key ← lift generateKey;
    eik ← lift generateKey;
    id ← target_id i flow;
    save_flow i flow key ;;
    mret {| tok_Key := key; tok_ElementInstanceKey := eik; tok_ElementId := id;
            tok_ProcessInstanceKey := i.(pi_Key); tok_State := TokenStateRunning;
            tok_CreatedAt := zero_time |}).

(** The current token moves to the target of the first outgoing flow, the
    other flows get new tokens; an end event completes the token. *)
Definition handleDefaultElementTransition (instance : loc) (element : FlowNode)
    (currentToken : ExecutionToken) : BM S (list ExecutionToken) :=
  i ← lift (load_instance instance);
  match GetOutgoingAssociation element with
  | [] =>
      if bool_decide (GetType element = ElementTypeEndEvent)
      then mret [with_TokenState TokenStateCompleted currentToken]
      else throw (err! "flow node %s of type %s does not have outgoing associations but is not an end event")
  | flow :: rest =>
      id ← target_id i flow;
      eik ← lift generateKey;
      let first := with_TokenState TokenStateRunning (with_Element id eik currentToken) in
      save_flow i flow first.(tok_Key) ;;
      others ← transition_rest i rest;
      mret (first :: others)
  end.

Definition handleMultiInstanceElementTransition (instance : loc) (element : FlowNode)
    (currentToken : ExecutionToken) : BM S (list ExecutionToken) :=
  i ← lift (load_instance instance);
  match activity_of element ≫= act_MultiInstance with
  | None => throw (err! "failed to handle multi instance transition")
  | Some multiInstance =>
      let elementInstanceKey :=
        match i.(pi_Kind) with MultiInstanceInstance _ k _ => k | _ => 0%Z end in
      multiInstanceElementInstance ←
        lift (query (λ s, GetFlowElementInstanceByKey s elementInstanceKey));
      match multiInstanceElementInstance.(fe_InputVariables)
              !! multiInstance.(LoopCharacteristics).(InputElementName) ≫= as_slice with
      | None => throw (err! "failed to handle multi instance transition")
      | Some multiInstanceCollection =>
          let again :=
            eik ← lift generateKey;
            mret [with_TokenState TokenStateRunning
                    (with_Element currentToken.(tok_ElementId) eik currentToken)] in
          if multiInstance.(IsSequential) then again
          else
            tokens ← lift (query (λ s, GetCompletedTokensForProcessInstance s i.(pi_Key)));
            if (Z.of_nat (length (tokens : list ExecutionToken)) =?
                Z.of_nat (length multiInstanceCollection) - 1)%Z
            then again
            else mret [with_TokenState TokenStateCompleted currentToken]
      end
  end.

Definition handleElementTransition (instance : loc) (element : FlowNode)
    (currentToken : ExecutionToken) : BM S (list ExecutionToken) :=
  i ← lift (load_instance instance);
  match i.(pi_Kind) with
  | DefaultProcessInstance | SubProcessInstance _ _ _ | CallActivityInstance _ _ =>
      handleDefaultElementTransition instance element currentToken
  | MultiInstanceInstance _ _ _ =>
      handleMultiInstanceElementTransition instance element currentToken
  end.

(** ** Cancelling *)

Definition cancel_subscriptions (w : error → error)
    (q : S → result (list MessageSubscription)) : BM S unit :=
  subscriptions ← wrap w (lift (query q));
  for_each subscriptions (λ sub,
    wrap (λ e, errw! "failed to save changes to message subscription %d: %w" [e])
      (SaveMessageSubscription (with_SubscriptionState ActivityStateTerminated sub))).

Definition cancel_timers (w : error → error) (q : S → result (list Timer)) : BM S unit :=
  timers ← wrap w (lift (query q));
  for_each timers (λ timer,
    wrap (λ e, errw! "failed to save changes to timer %d: %w" [e])
      (SaveTimer (with_TimerState TimerStateCancelled timer))).

Definition cancel_jobs (w : error → error) (q : S → result (list Job)) : BM S unit :=
  jobs ← wrap w (lift (query q));
  for_each jobs (λ job,
    wrap (λ e, errw! "failed to save changes to job %d: %w" [e])
      (SaveJob (with_JobState ActivityStateTerminated job))).

Definition resolve_incidents (w : error → error) (q : S → result (list Incident)) : BM S unit :=
  incidents ← wrap w (lift (query q));
  for_each incidents (λ incident,
    t ← lift now;
    wrap (λ e, errw! "failed to save changes to incident %d: %w" [e])
      (SaveIncident (with_ResolvedAt t incident))).

Definition called_processes (tokenKey : Z) : BM S (list loc) :=
  wrap (λ e, errw! "failed to find called process for token %d: %w" [e])
    (lift (on_heap (λ s, FindProcessInstancesByParentExecutionTokenKey s tokenKey))).

(** The subscriptions, timers, jobs and incidents of an instance. *)
Definition cancel_waiting (key : Z) : BM S unit :=
  cancel_subscriptions (λ e, errw! "failed to find message subscriptions for instance %d: %w" [e])
    (λ s, FindProcessInstanceMessageSubscriptions s key ActivityStateActive) ;;
  cancel_timers (λ e, errw! "failed to find timers for instance %d: %w" [e])
    (λ s, FindProcessInstanceTimers s key TimerStateCreated) ;;
  cancel_jobs (λ e, errw! "failed to find jobs for instance %d: %w" [e])
    (λ s, FindPendingProcessInstanceJobs s key) ;;
  resolve_incidents (λ e, errw! "failed to find incidents for instance %d: %w" [e])
    (λ s, FindIncidentsByProcessInstanceKey s key).

(** One active token of handleProcessInstanceInnerCancel, given the function
    that cancels a called instance. *)
Definition cancel_token (cancel_called : loc → BM S unit) (omitTokenKeys : list Z)
    (terminatedTokens : list ExecutionToken) (token : ExecutionToken)
    : BM S (list ExecutionToken) :=
  calledProcesses ← called_processes token.(tok_Key);
  for_each calledProcesses (λ calledProcess,
    wrap (λ e, errw! "failed to cancel called process for token %d: %w" [e])
      (cancel_called calledProcess)) ;;
  if bool_decide (token.(tok_Key) ∈ omitTokenKeys) then mret terminatedTokens
  else
    let token := with_TokenState TokenStateCanceled token in
    wrap (λ e, errw! "failed to save changes to token %d: %w" [e]) (SaveToken token) ;;
    mret (terminatedTokens ++ [token])%list.

Definition inner_cancel (cancel_called : loc → BM S unit) (instance : loc)
    (omitTokenKeys : list Z) : BM S (list ExecutionToken) :=
  i ← lift (load_instance instance);
  cancel_waiting i.(pi_Key) ;;
  tokens ← wrap (λ e, errw! "failed to find tokens for instance %d: %w" [e])
    (lift (query (λ s, GetActiveTokensForProcessInstance s i.(pi_Key))));
  for_fold tokens [] (cancel_token cancel_called omitTokenKeys).

(** The error of the inner cancellation is dropped. *)
Definition cancel_with (cancel_called : loc → BM S unit) (instance : loc) : BM S unit :=
  r ← attempt (inner_cancel cancel_called instance []);
  match r with Good _ | Bad _ => mret tt end ;;
  lift (set_State instance ActivityStateTerminated) ;;
  wrap (λ e, errw! "failed to save changes to process instance %d: %w" [e])
    (SaveProcessInstance instance).

(** The recursion goes down the tree of called instances: [fuel] bounds its
    depth. *)
Fixpoint cancelSubProcessInstance (fuel : nat) (instance : loc) : BM S unit :=
  match fuel with
  | O => nofuel
  | Datatypes.S fuel =>
      AddLockedInstance instance ;;
      i ← lift (load_instance instance);
      match i.(pi_State) with
      | ActivityStateCompleted | ActivityStateTerminated => mret tt
      | _ => cancel_with (cancelSubProcessInstance fuel) instance
      end
  end.

Definition handleProcessInstanceInnerCancel (fuel : nat) (instance : loc)
    (omitTokenKeys : list Z) : BM S (list ExecutionToken) :=
  inner_cancel (cancelSubProcessInstance fuel) instance omitTokenKeys.

Definition cancelInstance (fuel : nat) (instance : loc) : BM S unit :=
  cancel_with (cancelSubProcessInstance fuel) instance.

(** One pair of the nested loops of terminateExecutionTokens: the token is
    cancelled when the key is its element instance, and otherwise appended to
    the tokens left, once for every key. *)
Definition terminate_step (fuel : nat) (acc : ExecutionToken * list ExecutionToken)
    (elementInstanceKey : Z) : BM S (ExecutionToken * list ExecutionToken) :=
  let '(activeToken, activeTokensLeft) := acc in
  if (activeToken.(tok_ElementInstanceKey) =? elementInstanceKey)%Z then
    let key := activeToken.(tok_Key) in
    cancel_subscriptions
      (λ e, errw! "failed to find message subscriptions for execution token %d: %w" [e])
      (λ s, FindTokenMessageSubscriptions s key ActivityStateActive) ;;
    cancel_timers (λ e, errw! "failed to find timers for execution token %d: %w" [e])
      (λ s, FindTokenActiveTimerSubscriptions s key) ;;
    cancel_jobs (λ e, errw! "failed to find jobs for execution token %d: %w" [e])
      (λ s, GetJobsInStateByTokenKey s key
              [ActivityStateActive; ActivityStateCompleting; ActivityStateFailed]) ;;
    resolve_incidents (λ e, errw! "failed to find incidents for execution token %d: %w" [e])
      (λ s, FindIncidentsByExecutionTokenKey s key) ;;
    calledProcesses ← called_processes key;
    for_each calledProcesses (λ calledProcess,
      wrap (λ e, errw! "failed to cancel called process for token %d: %w" [e])
        (cancelInstance fuel calledProcess)) ;;
    let activeToken := with_TokenState TokenStateCanceled activeToken in
    wrap (λ e, errw! "failed to terminate execution activeToken %d: %w" [e])
      (SaveToken activeToken) ;;
    mret (activeToken, activeTokensLeft)
  else mret (activeToken, (activeTokensLeft ++ [activeToken])%list).

Definition terminateExecutionTokens (fuel : nat) (elementInstanceKeysToTerminate : list Z)
    (processInstanceKey : Z) : BM S (list ExecutionToken) :=
  activeTokens ← wrap (λ e, errw! "failed to find tokens for instance %d: %w" [e])
    (lift (query (λ s, GetActiveTokensForProcessInstance s processInstanceKey)));
  for_fold activeTokens [] (λ activeTokensLeft activeToken,
    r ← for_fold elementInstanceKeysToTerminate (activeToken, activeTokensLeft)
          (terminate_step fuel);
    mret (snd r)).
End instances.
