(* ===== verification/Tasks.v ===== *)
(** Tasks (pkg/bpmn/jobs.go, task_handler.go and usertasks.go): the job of a
    task, the search for a registered handler, and the handler's outcome. *)
From S2P Require Import Prelude Monad Model Runtime DmnModel Storage Locks TimerManager World.
From S2P Require Import Conditions Instances.

#[local] Open Scope string_scope.

(** ** Handlers *)

(** The matchers of the handler commands. *)
Definition Id_matcher (id : string) (element : InternalTask) : bool :=
  (GetId (InternalTask_FlowNode element) =? id).

(** GetTaskType panics for a business rule task that is not external; such an
    element is never compared because its job is not created. *)
Definition Type_matcher (taskType : string) (element : InternalTask) : bool :=
  match GetTaskType element with Some t => (t =? taskType) | None => false end.

Definition Assignee_matcher (assignee : string) (element : InternalTask) : bool :=
  match element with IT_User u => (u.(Assignee) =? assignee) | _ => false end.

Definition CandidateGroups_matcher (groups : list string) (element : InternalTask) : bool :=
  match element with
  | IT_User u => existsb (λ group, existsb (String.eqb group) u.(CandidateGroups)) groups
  | _ => false
  end.

(** The handler types searched for an element, in order. *)
Definition searchOrder (element : InternalTask) : list taskHandlerType :=
  let ty := GetType (InternalTask_FlowNode element) in
  ([taskHandlerForId] ++
   (if bool_decide (ty = ElementTypeServiceTask) then [taskHandlerForType] else []) ++
   (if bool_decide (ty = ElementBusinessRuleTask) then [taskHandlerForType] else []) ++
   (if bool_decide (ty = ElementTypeUserTask)
    then [taskHandlerForAssignee; taskHandlerForCandidateGroups] else []))%list.

Definition findTaskHandler (taskHandlers : list taskHandler) (element : InternalTask)
    : option (ActivatedJob → list HandlerCall) :=
  first_some (λ handlerType,
    th_handler <$> List.find (λ handler,
      bool_decide (handler.(th_handlerType) = handlerType) && handler.(th_matches) element)
      taskHandlers) (searchOrder element).

(** ** The effect of a handler on its job *)

Record handler_outcome := {
  ho_state : ActivityState;
  ho_failReason : string;
  ho_outputVariables : vars }.

Definition handler_call (o : handler_outcome) (c : HandlerCall) : handler_outcome :=
  match c with
  | CallFail reason =>
      {| ho_state := ActivityStateFailing; ho_failReason := reason;
         ho_outputVariables := o.(ho_outputVariables) |}
  | CallComplete =>
      {| ho_state := ActivityStateCompleting; ho_failReason := o.(ho_failReason);
         ho_outputVariables := o.(ho_outputVariables) |}
  | CallSetOutputVariable k v =>
      {| ho_state := o.(ho_state); ho_failReason := o.(ho_failReason);
         ho_outputVariables := <[k := v]> o.(ho_outputVariables) |}
  end.

Definition run_handler (state : ActivityState) (calls : list HandlerCall) : handler_outcome :=
  foldl handler_call {| ho_state := state; ho_failReason := ""; ho_outputVariables := ∅ |} calls.

Section tasks.
Context {S : Type} `{Storage S} `{Env}.

Definition NewTaskHandler (ref : nat) (ty : taskHandlerType) (matches : InternalTask → bool)
    (f : ActivatedJob → list HandlerCall) : EM S unit :=
  modify (λ w, w_set_handlers (w.(w_handlers) ++
    [{| th_ref := ref; th_handlerType := ty; th_matches := matches; th_handler := f |}])%list w).

(** The first handler with the identity is deleted. *)
Fixpoint remove_handler (ref : nat) (l : list taskHandler) : list taskHandler :=
  match l with
  | [] => []
  | h :: l' => if (h.(th_ref) =? ref)%nat then l' else h :: remove_handler ref l'
  end.
Definition RemoveHandler (ref : nat) : EM S unit :=
  modify (λ w, w_set_handlers (remove_handler ref w.(w_handlers)) w).

(** The assignee of a user task is an expression; a value that is not a
    string is printed. *)
Definition job_assignee (element : InternalTask) (local : vars) : result (option string) :=
  match element with
  | IT_User u =>
      match evaluateExpression u.(Assignee) local with
      | Bad e => Bad (errw! "failed to create job: %w" [e])
      | Good v => Good (Some (match as_string v with Some s => s | None => Sprint_value v end))
      end
  | _ => Good None
  end.

(** The outputs of a completed handler go to the instance's variables
    according to the output mappings. *)
Definition propagate_to_instance (instance : loc) (local : vars) (mappings : list TIoMapping)
    (outputVariables : vars) : EM S (result vars) :=
  i ← load_instance instance;
  let '(parent, r) := PropagateOutputVariablesToParent evaluateExpression
                        i.(pi_VariableHolder) local mappings outputVariables in
  set_Variables instance parent ;;
  mret r.

(** The part of createInternalTask after the handler ran: the final state of
    the job, and the error to return. *)
Definition finish_handler (instance : loc) (element : InternalTask) (currentToken : ExecutionToken)
    (local : vars) (job : Job) (o : handler_outcome) : BM S ActivityState :=
  match o.(ho_state) with
  | ActivityStateFailing => throw (err! "failing internal job with message: %s")
  | ActivityStateCompleting =>
      r ← lift (propagate_to_instance instance local (GetOutputMapping element)
                  o.(ho_outputVariables));
      match r with
      | Bad _ =>
          ignore_error (SaveJob (with_JobState ActivityStateFailed job)) ;;
          throw (err! "failing internal job with message: %s")
      | Good output =>
          ignore_error (UpdateOutputFlowElementInstance
            (fe_output currentToken.(tok_ElementInstanceKey) output)) ;;
          ignore_error (SaveJob (with_JobState ActivityStateCompleted job)) ;;
          mret ActivityStateCompleted
      end
  | s => mret s
  end.

(** The result is the state of the job; an error is returned with the state
    Failed, which the callers do not look at. *)
Definition createInternalTask (instance : loc) (element : InternalTask)
    (currentToken : ExecutionToken) : BM S ActivityState :=
  i ← lift (load_instance instance);
  let jobVarHolder := NewVariableHolder (Some i.(pi_VariableHolder)) None in
  let '(local, r) := EvaluateAndSetMappingsToLocalVariables evaluateExpression
                       (Some i.(pi_VariableHolder)) jobVarHolder (GetInputMapping element) in
  wrap_result (λ e, errw! "failed to evaluate input variables: %w" [e]) r ;;
  jobKey ← lift generateKey;
  taskType ← deref (GetTaskType element);
  createdAt ← lift now;
  assignee ← of_result (job_assignee element local);
  let job := {| job_ElementId := currentToken.(tok_ElementId);
                job_ElementInstanceKey := currentToken.(tok_ElementInstanceKey);
                job_ProcessInstanceKey := currentToken.(tok_ProcessInstanceKey);
                job_Key := jobKey; job_State := ActivityStateActive; job_Type := taskType;
                job_Variables := local; job_CreatedAt := createdAt;
                job_Token := currentToken; job_Assignee := assignee |} in
  wrap (λ e, errw! "failed to create job: %w" [e]) (SaveJob job) ;;
  t ← lift now;
  SaveFlowElementInstance (mk_element currentToken.(tok_ElementInstanceKey) i.(pi_Key)
    (GetId (InternalTask_FlowNode element)) t currentToken.(tok_Key) local ∅) ;;
  handlers ← lift (gets w_handlers);
  match findTaskHandler handlers element with
  | None => mret ActivityStateActive
  | Some handler =>
      ajKey ← lift generateKey;
      let o := run_handler ActivityStateActive (handler
        {| aj_processInstance := i; aj_key := ajKey; aj_processInstanceKey := i.(pi_Key);
           aj_bpmnProcessId := i.(pi_Definition).(pd_BpmnProcessId);
           aj_processDefinitionVersion := i.(pi_Definition).(pd_Version);
           aj_processDefinitionKey := i.(pi_Definition).(pd_Key);
           aj_elementId := job.(job_ElementId); aj_createdAt := job.(job_CreatedAt);
           aj_localVariables := local |}) in
      finish_handler instance element currentToken local job o
  end.

Definition createUserTask (instance : loc) (element : InternalTask)
    (currentToken : ExecutionToken) : BM S ActivityState :=
  createInternalTask instance element currentToken.
End tasks.
