(* ===== verification/Events.v ===== *)
(** Events (pkg/bpmn/events.go, timer.go and links.go): message and timer
    subscriptions, the boundary events of an activity, the events that leave an
    event based gateway, and link events. *)
From S2P Require Import Prelude Monad Model Runtime DmnModel Storage Locks TimerManager World.
From S2P Require Import Conditions Instances Tasks.

#[local] Open Scope string_scope.

Section events.
Context {S : Type} `{Storage S} `{Env}.

(** ** Messages *)

Definition createMessageSubscription (i : ProcessInstance) (messageDef : TMessageEventDefinition)
    (element : FlowNode) (token : ExecutionToken) : EM S MessageSubscription :=
  message ← wrap_result (λ e, errw! "failed to create message subscription: %w" [e])
    (GetMessageByRef (defs_of i) messageDef.(MessageRef));
  correlationKey ←
    (if HasEqPrefix message.(msg_CorrelationKey) then
       v ← wrap_result
         (λ e, errw! "failed to evaluate correlation key in message subscription: %w" [e])
         (evaluateExpression message.(msg_CorrelationKey) i.(pi_VariableHolder));
       match as_string v with
       | Some ck => mret ck
       | None => throw (err! "result of correlation key evaluation is not a string: %w")
       end
     else mret message.(msg_CorrelationKey));
  key ← generateKey;
  t ← now;
  mret {| ms_Key := key; ms_ElementId := GetId element;
          ms_ProcessDefinitionKey := i.(pi_Definition).(pd_Key);
          ms_ProcessInstanceKey := i.(pi_Key); ms_Name := message.(msg_Name);
          ms_CorrelationKey := correlationKey; ms_State := ActivityStateActive;
          ms_CreatedAt := t; ms_Token := token |}.

(** The subscription keeps the token as it arrives; the returned one waits. *)
Definition createMessageCatchEvent (instance : loc) (messageDef : TMessageEventDefinition)
    (element : FlowNode) (token : ExecutionToken) : BM S ExecutionToken :=
  i ← lift (load_instance instance);
  ms ← wrap (λ e, errw! "failed to create message subscription: %w" [e])
    (lift (createMessageSubscription i messageDef element token));
  wrap (λ e, errw! "failed to save new message subscription %+v: %w" [e])
    (SaveMessageSubscription ms) ;;
  mret (with_TokenState TokenStateWaiting token).

(** The message's variables, mapped by the listener's outputs into the
    variables of the instance; the error value is the mapping's. *)
Definition propagate_message (instance : loc) (mappings : list TIoMapping) (variables : vars)
    : EM S (result vars) :=
  i ← load_instance instance;
  propagate_to_instance instance (NewVariableHolder (Some i.(pi_VariableHolder)) None)
    mappings variables.

Definition publishMessageOnListener (listener : TIntermediateCatchEvent)
    (message : MessageSubscription) (instance : loc) (variables : vars)
    : BM S (list ExecutionToken) :=
  SaveMessageSubscription (with_SubscriptionState ActivityStateCompleted message) ;;
  r ← lift (propagate_message instance listener.(ice_Output) variables);
  wrap_result (λ e, errw! "failed to propagate variables to process instance %d: %w" [e]) r ;;
  wrap (λ e, errw! "failed to save process instance %d: %w" [e]) (SaveProcessInstance instance) ;;
  wrap (λ e, errw! "failed to process MessageSubscription flow transition %s: %w" [e])
    (handleElementTransition instance (IntermediateCatchEvent listener) message.(ms_Token)).

Definition cancelBoundarySubscriptions (token : ExecutionToken) : BM S unit :=
  cancel_subscriptions (λ e, errw! "failed to find message subscriptions for instance %d: %w" [e])
    (λ s, FindTokenMessageSubscriptions s token.(tok_Key) ActivityStateActive) ;;
  cancel_timers (λ e, errw! "failed to find timers for instance %d: %w" [e])
    (λ s, FindTokenActiveTimerSubscriptions s token.(tok_Key)).

(** The active jobs of a token, terminated by an interrupting event. *)
Definition terminate_token_jobs (token : ExecutionToken) : BM S unit :=
  cancel_jobs (λ e, errw! "failed to find job for token %d: %w" [e])
    (λ s, GetJobsInStateByTokenKey s token.(tok_Key) [ActivityStateActive]).

(** An interrupting boundary message: the jobs and called instances of the
    activity and its other subscriptions are cancelled. *)
Definition interrupt_by_message (fuel : nat) (token : ExecutionToken) : BM S unit :=
  terminate_token_jobs token ;;
  childInstances ← attempt (lift (on_heap (λ s,
    FindProcessInstancesByParentExecutionTokenKey s token.(tok_Key))));
  match childInstances with
  | Bad e =>
      if errors_Is is_ErrNotFound e then mret tt
      else throw (errw! "failed to find child instances for token %d: %w" [e])
  | Good l =>
      for_each l (λ chi,
        wrap (λ e, errw! "failed to cancel child instance for token %d: %w" [e])
          (cancelSubProcessInstance fuel chi))
  end ;;
  wrap (λ e, errw! "failed to cancel boundary subscriptions: %w" [e])
    (cancelBoundarySubscriptions token).

(** A non-interrupting boundary message: the subscription is created again
    and a new token leaves the activity. *)
Definition fork_by_message (instance : loc) (listener : TBoundaryEvent) (token : ExecutionToken)
    : BM S ExecutionToken :=
  i ← lift (load_instance instance);
  messageDef ←
    match listener.(be_EventDefinition) with
    | Some (MessageEvent d) => mret d
    | _ => panic "interface conversion: EventDefinition is not bpmn20.TMessageEventDefinition"
    end;
  element ← deref (GetFlowNodeById (process_of i) token.(tok_ElementId));
  wrap (λ e, errw! "failed to recreate message subscription: %w" [e])
    (createMessageCatchEvent instance messageDef element token) ;;
  token ← lift (new_token listener.(be_node).(fn_Id) i.(pi_Key) TokenStateRunning);
  SaveToken token ;;
  mret token.

Definition publishMessageOnBoundaryListener (fuel : nat) (listener : TBoundaryEvent)
    (message : MessageSubscription) (instance : loc) (variables : vars)
    : BM S (list ExecutionToken) :=
  i ← lift (load_instance instance);
  wrap (λ e, errw! "failed to save message subscription %s on instance %d: %w" [e])
    (SaveMessageSubscription (with_SubscriptionState ActivityStateCompleted message)) ;;
  r ← lift (propagate_message instance listener.(be_Output) variables);
  outputVariables ←
    wrap_result (λ e, errw! "failed to propagate variables to process instance %d: %w" [e]) r;
  wrap (λ e, errw! "failed to save changes to process instance %d: %w" [e])
    (SaveProcessInstance instance) ;;
  token ←
    (if listener.(CancellActivity)
     then interrupt_by_message fuel message.(ms_Token) ;; mret message.(ms_Token)
     else fork_by_message instance listener message.(ms_Token));
  key ← lift generateKey;
  t ← lift now;
  SaveFlowElementInstance (mk_element key i.(pi_Key) listener.(be_node).(fn_Id) t
    token.(tok_Key) ∅ outputVariables) ;;
  wrap (λ e, errw! "failed to process MessageSubscription flow transition %s: %w" [e])
    (handleElementTransition instance (BoundaryEvent listener) token).

(** The first boundary message event of the activity whose message has the
    subscription's name. *)
Fixpoint find_message_listener (defs : TDefinitions) (name : string) (l : list TBoundaryEvent)
    : result (option TBoundaryEvent) :=
  match l with
  | [] => Good None
  | be :: l' =>
      match be.(be_EventDefinition) with
      | Some (MessageEvent d) =>
          match GetMessageByRef defs d.(MessageRef) with
          | Bad e => Bad (errw! "failed to find message %s: %w" [e])
          | Good m =>
              if (m.(msg_Name) =? name) then Good (Some be)
              else find_message_listener defs name l'
          end
      | _ => find_message_listener defs name l'
      end
  end.

Definition handleBoundaryMessage (fuel : nat) (message : MessageSubscription) (instance : loc)
    (variables : vars) : BM S (list ExecutionToken) :=
  i ← lift (load_instance instance);
  listener ← of_result (find_message_listener (defs_of i) message.(ms_Name)
    (FindBoundaryEventsForActivity (process_of i) message.(ms_Token).(tok_ElementId)));
  match listener with
  | None => throw (err! "failed to find boundary event for message subscription %s")
  | Some be =>
      wrap (λ e, errors_Join (err! "failed to publish message %s to listener in instance %d. ") e)
        (publishMessageOnBoundaryListener fuel be message instance variables)
  end.

(** ** Timers *)

Definition findDurationValue (timerDef : TTimerEventDefinition) : result Duration :=
  if (TrimSpace timerDef.(TimeDuration) =? "")
  then Bad (err! "Can't find 'timeDuration' value for INTERMEDIATE_CATCH_EVENT with id=%s")
  else ParseISO8601 timerDef.(TimeDuration).

Definition createTimer (instance : loc) (timerDef : TTimerEventDefinition) (element : FlowNode)
    (token : ExecutionToken) : BM S Timer :=
  i ← lift (load_instance instance);
  durationVal ← wrap_result
    (λ _, err! "Error parsing 'timeDuration' value from Activity with ID=%s. Error:%s")
    (findDurationValue timerDef);
  t0 ← lift now;
  key ← lift generateKey;
  let t := {| tm_ElementId := GetId element; tm_Key := key;
              tm_ElementInstanceKey := token.(tok_ElementInstanceKey);
              tm_ProcessDefinitionKey := i.(pi_Definition).(pd_Key);
              tm_ProcessInstanceKey := i.(pi_Key); tm_TimerState := TimerStateCreated;
              tm_CreatedAt := t0; tm_DueAt := Shift durationVal t0;
              tm_Duration := (Duration_TS durationVal * 1000000000)%Z; tm_Token := token |} in
  wrap (λ e, errw! "failed to save timer: %w" [e]) (SaveTimer t) ;;
  lift (on_timerManager (registerTimer t)) ;;
  mret t.

Definition createTimerCatchEvent (instance : loc) (timerDef : TTimerEventDefinition)
    (element : FlowNode) (currentToken : ExecutionToken) : BM S ExecutionToken :=
  wrap (λ e, errw! "failed to create timer %+v: %w" [e])
    (createTimer instance timerDef element currentToken) ;;
  mret (with_TokenState TokenStateWaiting currentToken).

(** The first boundary timer of the activity among those of the process
    itself. *)
Definition find_timer_listener (p : TProcess) (activityId : string) : option TBoundaryEvent :=
  List.find (λ be, (be.(AttachedToRef) =? activityId) &&
    match be.(be_EventDefinition) with Some (TimerEvent _) => true | _ => false end)
    p.(BoundaryEvents).

Definition interrupt_by_timer (fuel : nat) (token : ExecutionToken) : BM S unit :=
  terminate_token_jobs token ;;
  cancelBoundarySubscriptions token ;;
  calledProcesses ← wrap (λ e, errw! "failed to find called processes for token %d: %w" [e])
    (lift (on_heap (λ s, FindProcessInstancesByParentExecutionTokenKey s token.(tok_Key))));
  for_each calledProcesses (cancelSubProcessInstance fuel).

(** A boundary timer that does not interrupt creates its timer again, and
    then moves the activity's own token. *)
Definition handleBoundaryTimer (fuel : nat) (timer : Timer) (instance : loc)
    (token : ExecutionToken) : BM S (list ExecutionToken) :=
  i ← lift (load_instance instance);
  match find_timer_listener (process_of i) timer.(tm_Token).(tok_ElementId) with
  | None => throw (err! "failed to find boundary event for timer %s")
  | Some listener =>
      ignore_error (SaveTimer (with_TimerState TimerStateTriggered timer)) ;;
      (if listener.(CancellActivity) then interrupt_by_timer fuel token
       else
         timerDef ←
           match listener.(be_EventDefinition) with
           | Some (TimerEvent d) => mret d
           | _ => panic "interface conversion: EventDefinition is not bpmn20.TTimerEventDefinition"
           end;
         element ← deref (GetFlowNodeById (process_of i) token.(tok_ElementId));
         wrap (λ e, errw! "failed to recreate message subscription: %w" [e])
           (createTimerCatchEvent instance timerDef element token) ;;
         mret tt) ;;
      wrap (λ e, errw! "failed to handle boundary timer transition %+v: %w" [e])
        (handleElementTransition instance (BoundaryEvent listener) timer.(tm_Token))
  end.

(** Message and timer events of the boundary of an activity that waits.  A
    boundary event of another kind panics. *)
Definition createBoundaryEventSubscriptions (currentToken : ExecutionToken) (instance : loc)
    (element : FlowNode) : BM S unit :=
  i ← lift (load_instance instance);
  for_each (FindBoundaryEventsForActivity (process_of i) (GetId element)) (λ be,
    match be.(be_EventDefinition) with
    | Some (MessageEvent d) => createMessageCatchEvent instance d element currentToken ;; mret tt
    | Some (TimerEvent d) => createTimerCatchEvent instance d element currentToken ;; mret tt
    | _ => panic "unsupported BoundaryEvent %+v"
    end).

(** ** Event based gateways *)

(** GatewayEvent: a message subscription or a timer. *)
Inductive GatewayEvent :=
| MessageGatewayEvent (m : MessageSubscription)
| TimerGatewayEvent (t : Timer).

Definition event_GetId (e : GatewayEvent) : string :=
  match e with MessageGatewayEvent m => m.(ms_ElementId) | TimerGatewayEvent t => t.(tm_ElementId) end.
Definition event_GetKey (e : GatewayEvent) : Z :=
  match e with MessageGatewayEvent m => m.(ms_Key) | TimerGatewayEvent t => t.(tm_Key) end.

(** The last outgoing flow whose target has the event's id and is a message
    or timer catch event. *)
Definition find_gateway_target (i : ProcessInstance) (id : string) (outgoing : list TSequenceFlow)
    : BM S (option TIntermediateCatchEvent) :=
  for_fold outgoing None (λ catchEvent flow,
    n ← deref (GetTargetRef (defs_of i) flow);
    if negb (GetId n =? id) then mret catchEvent
    else match n with
         | IntermediateCatchEvent e =>
             match e.(ice_EventDefinition) with
             | Some (MessageEvent _) | Some (TimerEvent _) => mret (Some e)
             | _ => mret catchEvent
             end
         | _ => panic "interface conversion: FlowNode is not *bpmn20.TIntermediateCatchEvent"
         end).

Definition consume_gateway_event (event : GatewayEvent) (catchEvent : TIntermediateCatchEvent)
    (instance : loc) (variables : vars) : BM S ExecutionToken :=
  match catchEvent.(ice_EventDefinition), event with
  | Some (MessageEvent _), MessageGatewayEvent message =>
      wrap (λ e, errw! "failed to save changes to message subscription %d: %w" [e])
        (SaveMessageSubscription (with_SubscriptionState ActivityStateCompleted message)) ;;
      r ← lift (propagate_message instance catchEvent.(ice_Output) variables);
      of_result r ;;
      wrap (λ e, errw! "failed to save changes to process instance %d: %w" [e])
        (SaveProcessInstance instance) ;;
      mret message.(ms_Token)
  | Some (TimerEvent _), TimerGatewayEvent timer =>
      SaveTimer (with_TimerState TimerStateTriggered timer) ;;
      mret timer.(tm_Token)
  | _, _ => panic "interface conversion: GatewayEvent"
  end.

(** The other subscriptions of the gateway's token. *)
Definition cancel_other_events (event : GatewayEvent) (token : ExecutionToken) : BM S unit :=
  msubs ← wrap (λ _, err! "failed to find message subscriptions to cancel for token %+v")
    (lift (query (λ s, FindTokenMessageSubscriptions s token.(tok_Key) ActivityStateActive)));
  for_each msubs (λ sub,
    if (event_GetKey event =? sub.(ms_Key))%Z then mret tt
    else SaveMessageSubscription (with_SubscriptionState ActivityStateTerminated sub)) ;;
  tsubs ← wrap (λ _, err! "failed to find timer subscriptions to cancel for token %+v")
    (lift (query (λ s, FindTokenActiveTimerSubscriptions s token.(tok_Key))));
  for_each tsubs (λ sub,
    if (event_GetKey event =? sub.(tm_Key))%Z then mret tt
    else
      let sub := with_TimerState TimerStateCancelled sub in
      lift (on_timerManager (removeTimer sub)) ;;
      SaveTimer sub).

Definition publishEventOnEventGateway (gateway : TEventBasedGateway) (event : GatewayEvent)
    (instance : loc) (variables : vars) : BM S (list ExecutionToken) :=
  i ← lift (load_instance instance);
  target ← find_gateway_target i (event_GetId event) gateway.(ebg_node).(OutgoingAssociations);
  match target with
  | None => mret []
  | Some catchEvent =>
      token ← consume_gateway_event event catchEvent instance variables;
      cancel_other_events event token ;;
      wrap (λ e, errw! "failed to process gateway event flow transition %s: %w" [e])
        (handleElementTransition instance (IntermediateCatchEvent catchEvent) token)
  end.

(** ** Intermediate events *)

Definition createIntermediateCatchEvent (instance : loc) (ice : TIntermediateCatchEvent)
    (currentToken : ExecutionToken) : BM S (list ExecutionToken) :=
  match ice.(ice_EventDefinition) with
  | Some (MessageEvent d) =>
      token ← createMessageCatchEvent instance d (IntermediateCatchEvent ice) currentToken;
      mret [token]
  | Some (TimerEvent d) =>
      token ← createTimerCatchEvent instance d (IntermediateCatchEvent ice) currentToken;
      mret [token]
  | Some (LinkEvent _) =>
      handleElementTransition instance (IntermediateCatchEvent ice) currentToken
  | _ => panic "unsupported IntermediateCatchEvent %+v"
  end.

(** The search for the catch event of a link: the type assertion panics on a
    catch event that is not a link and comes before the target. *)
Fixpoint find_link_target (linkName : string) (l : list TIntermediateCatchEvent)
    : BM S (option TIntermediateCatchEvent) :=
  match l with
  | [] => mret None
  | ice :: l' =>
      match ice.(ice_EventDefinition) with
      | Some (LinkEvent link) =>
          if (link.(led_Name) =? linkName) then mret (Some ice) else find_link_target linkName l'
      | _ => panic "interface conversion: EventDefinition is not bpmn20.TLinkEventDefinition"
      end
  end.

Definition propagate_link (instance : loc) (mappings : list TIoMapping) : BM S unit :=
  r ← lift (propagate_message instance mappings ∅);
  wrap_result (λ _, err! "Can't evaluate expression in element id=%s name=%s") r ;;
  mret tt.

Definition handleIntermediateThrowLinkEvent (instance : loc) (ite : TIntermediateThrowEvent)
    (linkDef : TLinkEventDefinition) (currentToken : ExecutionToken) : BM S ExecutionToken :=
  i ← lift (load_instance instance);
  propagate_link instance ite.(ite_Output) ;;
  if (TrimSpace linkDef.(led_Name) =? "")
  then throw (err! "missing link name in link intermediate throw event element id=%s name=%s")
  else
    target ← find_link_target linkDef.(led_Name) (process_of i).(IntermediateCatchEvents);
    match target with
    | None => throw (err! "failed to find link %v target in process instance %d")
    | Some ice =>
        propagate_link instance ice.(ice_Output) ;;
        eik ← lift generateKey;
        mret (with_TokenState TokenStateRunning
                (with_Element ice.(ice_node).(fn_Id) eik currentToken))
    end.

Definition handleIntermediateThrowEvent (instance : loc) (ite : TIntermediateThrowEvent)
    (currentToken : ExecutionToken) : BM S (list ExecutionToken) :=
  match ite.(ite_EventDefinition) with
  | Some (MessageEvent _) =>
      activityResult ← wrap (λ e, errw! "failed to process MessageThrowEvent %d: %w" [e])
        (createInternalTask instance (IT_Throw ite) currentToken);
      match activityResult with
      | ActivityStateActive => mret [with_TokenState TokenStateWaiting currentToken]
      | ActivityStateCompleted =>
          wrap (λ e, errw! "failed to process MessageThrowEvent flow transition %d: %w" [e])
            (handleElementTransition instance (IntermediateThrowEvent ite) currentToken)
      | _ => throw (err! "unexpected activity state in handling MessageThrowEvent %s")
      end
  | Some (LinkEvent d) =>
      token ← wrap (λ e, errw! "failed to handle IntermediateThrowLinkEvent: %w" [e])
        (handleIntermediateThrowLinkEvent instance ite d currentToken);
      mret [token]
  | None => throw (err! "unsupported element: intermediateThrowEvent '%s' has no event definition (none intermediate throw event is not supported)")
  | Some _ => throw (err! "[invariant check] unhandled type for IntermediateThrowEvent EventDefinition: %T")
  end.
End events.
