(* ===== verification/Gateways.v ===== *)
(** Gateways and end events (pkg/bpmn/engine.go). *)
From S2P Require Import Prelude Monad Model Runtime DmnModel Storage Locks TimerManager World.
From S2P Require Import Conditions Instances Tasks Events.

#[local] Open Scope string_scope.

Section gateways.
Context {S : Type} `{Storage S} `{Env}.

(** A new running token and the history entry for every flow. *)
Definition fork (i : ProcessInstance) (flows : list TSequenceFlow) : BM S (list ExecutionToken) :=
  for_map flows (λ flow,
    key ← lift generateKey;
    eik ← lift generateKey;
    id ← target_id i flow;
    let newToken := {| tok_Key := key; tok_ElementInstanceKey := eik; tok_ElementId := id;
                       tok_ProcessInstanceKey := i.(pi_Key); tok_State := TokenStateRunning;
                       tok_CreatedAt := zero_time |} in
    save_flow i flow newToken.(tok_Key) ;;
    mret newToken).

(** The gateway fires when one token fewer than it has incoming flows is
    already completed at the element. *)
Definition handleParallelGateway (instance : loc) (element : TParallelGateway)
    (currentToken : ExecutionToken) : BM S (list ExecutionToken) :=
  i ← lift (load_instance instance);
  let incoming := element.(pg_node).(IncomingAssociations) in
  instanceTokens ← wrap (λ e, errw! "failed to get current tokens for process instance: %w" [e])
    (lift (query (λ s, GetAllTokensForProcessInstance s i.(pi_Key))));
  let gatewayTokens :=
    filter (λ t, t.(tok_ElementId) = currentToken.(tok_ElementId)) instanceTokens in
  let completedGatewayTokens := filter (λ t, t.(tok_State) = TokenStateCompleted) gatewayTokens in
  let currentToken := with_TokenState TokenStateCompleted currentToken in
  if negb (Z.of_nat (length completedGatewayTokens) =? Z.of_nat (length incoming) - 1)%Z
  then mret [currentToken]
  else
    newTokens ← fork i element.(pg_node).(OutgoingAssociations);
    mret (currentToken :: newTokens).

(** The exclusive gateway moves the token to the target of the chosen flow. *)
Definition handleExclusiveGateway (instance : loc) (element : TExclusiveGateway)
    (currentToken : ExecutionToken) : BM S (list ExecutionToken) :=
  i ← lift (load_instance instance);
  match exclusivelyFilterByConditionExpression element.(eg_node).(OutgoingAssociations)
          element.(eg_DefaultFlow) i.(pi_VariableHolder) with
  | Bad e =>
      lift (set_State instance ActivityStateFailed) ;;
      throw (errw! "failed to filter outgoing associations from ExclusiveGateway: %w" [e])
  | Good [] => mret [currentToken]
  | Good (flow :: _) =>
      save_flow i flow currentToken.(tok_Key) ;;
      id ← target_id i flow;
      eik ← lift generateKey;
      mret [with_Element id eik currentToken]
  end.

Definition handleInclusiveGateway (instance : loc) (element : TInclusiveGateway)
    (currentToken : ExecutionToken) : BM S (list ExecutionToken) :=
  i ← lift (load_instance instance);
  r ← attempt (inclusivelyFilterByConditionExpression element.(ig_node).(OutgoingAssociations)
                 element.(ig_DefaultFlow) i.(pi_VariableHolder));
  match r with
  | Bad e =>
      lift (set_State instance ActivityStateFailed) ;;
      throw (errw! "failed to filter outgoing associations from InclusiveGateway: %w" [e])
  | Good activatedFlows =>
      newTokens ← fork i activatedFlows;
      mret (with_TokenState TokenStateCompleted currentToken :: newTokens)
  end.

(** Every outgoing flow of an event based gateway leads to a catch event that
    subscribes with one common new token; the token appears once per
    subscription in the result. *)
Definition handleEventBasedGateway (instance : loc) (element : TEventBasedGateway)
    (currentToken : ExecutionToken) : BM S (list ExecutionToken) :=
  i ← lift (load_instance instance);
  gatewayToken ← lift (new_token element.(ebg_node).(fn_Id) i.(pi_Key) TokenStateWaiting);
  for_fold element.(ebg_node).(OutgoingAssociations)
    [with_TokenState TokenStateCompleted currentToken] (λ resTokens flow,
      match GetTargetRef (defs_of i) flow with
      | Some (IntermediateCatchEvent targetElem) =>
          tokens ← wrap (λ e, errw! "failed to handle IntermediateCatchEvent: %w" [e])
            (createIntermediateCatchEvent instance targetElem gatewayToken);
          mret (resTokens ++ tokens)%list
      | _ => panic "[invariant check] unsupported element: id=%s, type=%s"
      end).

(** ** End events *)

(** The error of the cancellation is dropped. *)
Definition handleTerminateEndEvent (fuel : nat) (instance : loc) (currentToken : ExecutionToken)
    : BM S (list ExecutionToken) :=
  r ← attempt (handleProcessInstanceInnerCancel fuel instance [currentToken.(tok_Key)]);
  lift (set_State instance ActivityStateCompleted) ;;
  mret (match r with Good tokens => tokens | Bad _ => [] end ++ [currentToken])%list.

(** The instance completes when nothing else is active in it: no active or
    ready subscription, no pending job (other than the completing one) and at
    most one active token. *)
Definition nothing_else_active (instanceKey : Z) (onJobCompletion : bool) : BM S bool :=
  activeSubs ← wrap (λ e, errors_Join (err! "failed to load active subscriptions") e)
    (lift (query (λ s, FindProcessInstanceMessageSubscriptions s instanceKey ActivityStateActive)));
  readySubs ← wrap (λ e, errors_Join (err! "failed to load ready subscriptions") e)
    (lift (query (λ s, FindProcessInstanceMessageSubscriptions s instanceKey ActivityStateReady)));
  jobs ← wrap (λ e, errors_Join (err! "failed to load pending process instance jobs for key: %d") e)
    (lift (query (λ s, FindPendingProcessInstanceJobs s instanceKey)));
  tokens ← wrap (λ e, errors_Join (err! "failed to load active tokens for key: %d") e)
    (lift (query (λ s, GetActiveTokensForProcessInstance s instanceKey)));
  mret ((length (activeSubs : list MessageSubscription) =? 0)%nat &&
        (length (readySubs : list MessageSubscription) =? 0)%nat &&
        (if onJobCompletion then (length (jobs : list Job) <=? 1)%nat
         else (length (jobs : list Job) =? 0)%nat) &&
        (length (tokens : list ExecutionToken) <=? 1)%nat).

Definition handlePlainEndEvent (instance : loc) (onJobCompletion : bool) : BM S unit :=
  i ← lift (load_instance instance);
  b ← nothing_else_active i.(pi_Key) onJobCompletion;
  if (b : bool) then lift (set_State instance ActivityStateCompleted) else mret tt.

Definition handleMessageEndEvent (instance : loc) (endEvent : TEndEvent)
    (currentToken : ExecutionToken) : BM S (list ExecutionToken) :=
  activityResult ← wrap (λ e, errw! "failed to process MessageEndEvent %d: %w" [e])
    (createInternalTask instance (IT_End endEvent) currentToken);
  match activityResult with
  | ActivityStateActive => mret [with_TokenState TokenStateWaiting currentToken]
  | ActivityStateCompleted =>
      wrap (λ e, errw! "failed to process MessageEndEvent flow transition %d: %w" [e])
        (handleElementTransition instance (EndEvent endEvent) currentToken)
  | _ => throw (err! "unexpected activity state '%s' when handling MessageEndEvent for currentToken.ElementInstanceKey=%d")
  end.

(** The loop over the event definitions: the current token stays completed
    after a terminate definition. *)
Definition end_event_step (fuel : nat) (instance : loc) (endEvent : TEndEvent)
    (acc : ExecutionToken * list ExecutionToken) (d : EventDefinition)
    : BM S (ExecutionToken * list ExecutionToken) :=
  let '(currentToken, updatedTokens) := acc in
  match d with
  | TerminateEvent _ =>
      let currentToken := with_TokenState TokenStateCompleted currentToken in
      tokens ← wrap (λ e, errw! "failed to process terminateEndEvent: %w" [e])
        (handleTerminateEndEvent fuel instance currentToken);
      mret (currentToken, (updatedTokens ++ tokens)%list)
  | MessageEvent _ =>
      tokens ← wrap (λ e, errw! "failed to process messageEndEvent: %w" [e])
        (handleMessageEndEvent instance endEvent currentToken);
      mret (currentToken, (updatedTokens ++ tokens)%list)
  | _ => throw (err! "unsupported end event definition %T")
  end.

Definition handleEndEvent (fuel : nat) (instance : loc) (endEvent : TEndEvent)
    (currentToken : ExecutionToken) : BM S (list ExecutionToken) :=
  match endEvent.(EvenDefinitions) with
  | [] =>
      wrap (λ e, errw! "failed to process EndEvent: %w" [e]) (handlePlainEndEvent instance false) ;;
      mret [with_TokenState TokenStateCompleted currentToken]
  | defs =>
      r ← for_fold defs (currentToken, []) (end_event_step fuel instance endEvent);
      mret (snd r)
  end.

(** On the completion of the job of a message end event: the tokens of the
    job are completed. *)
Definition handleExternalEndEventContinuation (instance : loc) (endEvent : TEndEvent)
    (jobToken : ExecutionToken) (tokens : list ExecutionToken) : BM S (list ExecutionToken) :=
  if existsb (λ d, match d with MessageEvent _ => true | _ => false end)
       endEvent.(EvenDefinitions)
  then
    wrap (λ e, errw! "failed to handle plain EndEvent: %w" [e]) (handlePlainEndEvent instance true) ;;
    mret ((λ t, if (t.(tok_Key) =? jobToken.(tok_Key))%Z
                then with_TokenState TokenStateCompleted t else t) <$> tokens)
  else mret tokens.
End gateways.
