(* ===== verification/SubProcess.v ===== *)
(** Called instances (pkg/bpmn/sub_process.go): call activities, embedded sub
    processes, multi instance activities, and the continuation of the parent
    when an instance completes. *)
From S2P Require Import Prelude Monad Model Runtime DmnModel Storage Locks TimerManager World.
From S2P Require Import Conditions Instances Tasks Events Gateways.

#[local] Open Scope string_scope.

Section sub_process.
Context {S : Type} `{Storage S} `{Env}.

(** The variables a called instance starts with: only the mapped inputs. *)
Definition called_variables (i : ProcessInstance) (mappings : list TIoMapping)
    : vars * result unit :=
  EvaluateAndSetMappingsToLocalVariables evaluateExpression
    (Some i.(pi_VariableHolder)) (NewVariableHolder (Some i.(pi_VariableHolder)) (Some ∅)) mappings.

Definition save_called_element (i : ProcessInstance) (element : FlowNode)
    (currentToken : ExecutionToken) (inputs : vars) : BM S unit :=
  t ← lift now;
  ignore_error (SaveFlowElementInstance
    (mk_element currentToken.(tok_ElementInstanceKey) i.(pi_Key) (GetId element) t
       currentToken.(tok_Key) inputs ∅)).

Definition createCallActivity (instance : loc) (element : TCallActivity)
    (currentToken : ExecutionToken) : BM S ActivityState :=
  i ← lift (load_instance instance);
  let '(local, r) := called_variables i element.(ca_activity).(act_Input) in
  wrap_result (λ e, errw! "failed to evaluate local variables for call activity: %w" [e]) r ;;
  save_called_element i (CallActivity element) currentToken local ;;
  processDefinition ← wrap
    (λ e, errors_Join (err! "no process with id=%s was found (prior loaded into the engine)") e)
    (lift (query (λ s, FindLatestProcessDefinitionById s element.(CalledProcessId))));
  r ← createInstance processDefinition local
    (CallActivityInstance currentToken currentToken.(tok_ElementInstanceKey));
  AddPostFlushAction {| ra_instance := fst r; ra_tokens := snd r |} ;;
  mret ActivityStateActive.

Definition createSubProcess (instance : loc) (element : TSubProcess)
    (currentToken : ExecutionToken) : BM S ActivityState :=
  i ← lift (load_instance instance);
  let '(local, r) := called_variables i element.(sp_activity).(act_Input) in
  match r with
  | Bad e =>
      lift (set_State instance ActivityStateFailed) ;;
      throw (errw! "failed to evaluate local variables for sub process: %w" [e])
  | Good _ =>
      save_called_element i (SubProcess element) currentToken local ;;
      r ← createInstanceWithStartingElements i.(pi_Definition)
        (StartEvent <$> element.(sp_process).(StartEvents)) local
        (SubProcessInstance currentToken currentToken.(tok_ElementInstanceKey)
           element.(sp_process).(p_Id));
      AddPostFlushAction {| ra_instance := fst r; ra_tokens := snd r |} ;;
      mret ActivityStateActive
  end.

(** ** Multi instance activities *)

(** The evaluated input collection: nil counts as the empty one. *)
Definition input_collection (expression : string) (scope : vars) : result (list value) :=
  match evaluateExpression expression scope with
  | Bad e => Bad (errw! "failed to evaluate inputCollection expression %T: %w" [e])
  | Good VNil => Good []
  | Good (VList l) => Good l
  | Good _ => Bad (err! "failed to evaluate inputCollection %T: %w")
  end.

(** The common part of startParallelMultiInstance and
    startSequentialMultiInstance; they differ in the number of tokens that
    start at once, and in whether the error of saving the element instance is
    returned. *)
Definition start_multi_instance (sequential : bool) (instance : loc) (element : FlowNode)
    (multiInstance : TMultiInstance) (currentToken : ExecutionToken) : BM S ActivityState :=
  let loop := multiInstance.(LoopCharacteristics) in
  i ← lift (load_instance instance);
  inputCollection ← of_result (input_collection loop.(InputCollectionExpression)
    (NewVariableHolder (Some i.(pi_VariableHolder)) None));
  t ← lift now;
  let save := SaveFlowElementInstance
    (mk_element currentToken.(tok_ElementInstanceKey) i.(pi_Key) (GetId element) t
       currentToken.(tok_Key) {[loop.(InputElementName) := VList inputCollection]} ∅) in
  (if sequential then ignore_error save else save) ;;
  match inputCollection with
  | [] =>
      lift (set_Variables instance
              (SetLocalVariable loop.(OutputCollectionName) (VList []) i.(pi_VariableHolder))) ;;
      mret ActivityStateCompleted
  | _ =>
      let startingFlowNodes :=
        if sequential then [element] else (λ _, element) <$> inputCollection in
      r ← createInstanceWithStartingElements i.(pi_Definition) startingFlowNodes
        (NewVariableHolder None (Some ∅))
        (MultiInstanceInstance currentToken currentToken.(tok_ElementInstanceKey) (GetId element));
      AddPostFlushAction {| ra_instance := fst r; ra_tokens := snd r |} ;;
      mret ActivityStateActive
  end.

Definition startParallelMultiInstance := start_multi_instance false.
Definition startSequentialMultiInstance := start_multi_instance true.

(** The token reaches the activity in the instance it belongs to: the multi
    instance is started. *)
Definition start_multi (instance : loc) (activity : elementActivity)
    (multiInstance : TMultiInstance) (currentToken : ExecutionToken)
    : BM S (list ExecutionToken) :=
  activityState ←
    (if multiInstance.(IsSequential)
     then startSequentialMultiInstance instance activity.(ea_element) multiInstance currentToken
     else startParallelMultiInstance instance activity.(ea_element) multiInstance currentToken);
  match activityState with
  | ActivityStateActive =>
      wrap (λ e, errw! "failed to process boundary events for %s %d: %w" [e])
        (createBoundaryEventSubscriptions currentToken instance activity.(ea_element)) ;;
      mret [with_TokenState TokenStateWaiting currentToken]
  | ActivityStateFailed => mret [with_TokenState TokenStateFailed currentToken]
  | ActivityStateCompleted =>
      wrap (λ e, errw! "failed to process %s flow transition %d: %w" [e])
        (handleElementTransition instance activity.(ea_element) currentToken)
  | _ => throw (err! "unsupported activity state: %s")
  end.

(** One iteration inside the multi instance, given the function that creates
    the task of the element: the number of element instances saved so far
    chooses the element of the collection. *)
Definition run_multi (create_activity : loc → FlowNode → ExecutionToken → BM S ActivityState)
    (instance : loc) (elementInstanceKey : Z) (activity : elementActivity)
    (multiInstance : TMultiInstance) (currentToken : ExecutionToken)
    : BM S (list ExecutionToken) :=
  let inputElement := multiInstance.(LoopCharacteristics).(InputElementName) in
  i ← lift (load_instance instance);
  parentElementInstance ← lift (query (λ s, GetFlowElementInstanceByKey s elementInstanceKey));
  match parentElementInstance.(fe_InputVariables) !! inputElement ≫= as_slice with
  | None => throw (err! "failed to handle multi instance activity activity input element")
  | Some inputCollection =>
      multiInstancesAlreadyStarted ←
        lift (query (λ s, GetFlowElementInstanceCountByProcessInstanceKey s i.(pi_Key)));
      if (multiInstancesAlreadyStarted =? Z.of_nat (length inputCollection))%Z then
        lift (set_State instance ActivityStateCompleted) ;;
        mret [with_TokenState TokenStateCompleted currentToken]
      else
        element ←
          (if (multiInstancesAlreadyStarted <? 0)%Z then panic "index out of range"
           else match inputCollection !! Z.to_nat multiInstancesAlreadyStarted with
                | Some v => mret v
                | None => panic "index out of range"
                end);
        lift (set_Variables instance (SetLocalVariable inputElement element i.(pi_VariableHolder))) ;;
        r ← attempt (create_activity instance activity.(ea_element) currentToken);
        match r with
        | Good ActivityStateActive => mret [with_TokenState TokenStateWaiting currentToken]
        | Good ActivityStateCompleted =>
            handleMultiInstanceElementTransition instance activity.(ea_element) currentToken
        | Bad e => throw (errw! "failed to process %s %d: %w" [e])
        | Good ActivityStateFailed => throw (err! "failed to process %s %d: %w")
        | Good _ => throw (err! "unsupported activity state: %s")
        end
  end.

Definition handleMultiInstanceActivity
    (create_activity : loc → FlowNode → ExecutionToken → BM S ActivityState)
    (instance : loc) (activity : elementActivity) (multiInstance : TMultiInstance)
    (currentToken : ExecutionToken) : BM S (list ExecutionToken) :=
  i ← lift (load_instance instance);
  match i.(pi_Kind) with
  | MultiInstanceInstance _ elementInstanceKey _ =>
      run_multi create_activity instance elementInstanceKey activity multiInstance currentToken
  | _ => start_multi instance activity multiInstance currentToken
  end.

(** ** The parent of a completed instance *)

(** The parent instance, locked, and its token if it still waits for this
    instance; [None] when there is nothing to continue. *)
Definition parent_setup (parentToken : ExecutionToken) (targetElementInstanceKey : Z)
    : BM S (loc * option ExecutionToken) :=
  parentInstance ← wrap (λ e, errw! "failed to find parent process instance %d: %w" [e])
    (lift (on_heap (λ s, FindProcessInstanceByKey s parentToken.(tok_ProcessInstanceKey))));
  AddParentLockedInstance parentInstance ;;
  parent ← lift (load_instance parentInstance);
  match parent.(pi_State) with
  | ActivityStateCompleted | ActivityStateTerminated => mret (parentInstance, None)
  | _ =>
      updatedParentToken ← wrap (λ e, errw! "failed to get token by key: %w" [e])
        (lift (query (λ s, GetTokenByKey s parentToken.(tok_Key))));
      if negb (updatedParentToken.(tok_ElementInstanceKey) =? targetElementInstanceKey)%Z
      then mret (parentInstance, None)
      else mret (parentInstance, Some updatedParentToken)
  end.

(** Cancels the boundary events, moves the parent's token, saves everything
    and starts the parent after the flush.  [save] says whether the error of
    saving the parent instance is returned. *)
Definition parent_continue (save : BM S unit → BM S unit) (parentInstance : loc)
    (parentElement : FlowNode) (updatedParentToken : ExecutionToken) (output : vars) : BM S unit :=
  r ← attempt (cancelBoundarySubscriptions updatedParentToken);
  match r with
  | Bad e =>
      Clear ;;
      throw (errw! "failed to cancel boundary subscriptions for parent process instance %d: %w" [e])
  | Good _ => mret tt
  end ;;
  tokens ← wrap (λ e, errw! "failed to handle simple trasition for parent instance  %d: %w" [e])
    (handleElementTransition parentInstance parentElement updatedParentToken);
  for_each tokens (λ tok, ignore_error (SaveToken tok)) ;;
  save (SaveProcessInstance parentInstance) ;;
  ignore_error (UpdateOutputFlowElementInstance
    (fe_output updatedParentToken.(tok_ElementInstanceKey) output)) ;;
  AddPostFlushAction {| ra_instance := parentInstance; ra_tokens := tokens |}.

Definition parent_outputs (instance parentInstance : loc) (mappings : list TIoMapping)
    : BM S vars :=
  i ← lift (load_instance instance);
  r ← lift (propagate_message parentInstance mappings i.(pi_VariableHolder));
  match r with
  | Bad e =>
      lift (set_State instance ActivityStateFailed) ;;
      throw (errw! "failed to propagate variables back to parent: %w" [e])
  | Good output => mret output
  end.

Definition handleParentProcessContinuationForSubProcess (instance : loc)
    (parentToken : ExecutionToken) (targetElementInstanceKey : Z) (targetElementId : string)
    : BM S unit :=
  r ← parent_setup parentToken targetElementInstanceKey;
  match r with
  | (_, None) => mret tt
  | (parentInstance, Some updatedParentToken) =>
      parent ← lift (load_instance parentInstance);
      match GetFlowNodeById (process_of parent) targetElementId with
      | Some (SubProcess parentElement) =>
          output ← parent_outputs instance parentInstance parentElement.(sp_activity).(act_Output);
          parent_continue (wrap (λ e, errw! "failed to save process instance %d: %w" [e]))
            parentInstance (SubProcess parentElement) updatedParentToken output
      | _ => throw (err! "failed to find flow node by id %s")
      end
  end.

Definition handleParentProcessContinuationForCallActivity (instance : loc)
    (parentToken : ExecutionToken) (targetElementInstanceKey : Z) : BM S unit :=
  r ← parent_setup parentToken targetElementInstanceKey;
  match r with
  | (_, None) => mret tt
  | (parentInstance, Some updatedParentToken) =>
      parent ← lift (load_instance parentInstance);
      match GetFlowNodeById (process_of parent) updatedParentToken.(tok_ElementId) with
      | Some (CallActivity parentElement) =>
          output ← parent_outputs instance parentInstance parentElement.(ca_activity).(act_Output);
          parent_continue ignore_error parentInstance (CallActivity parentElement)
            updatedParentToken output
      | _ => throw (err! "failed to find flow node by id %s")
      end
  end.

(** The outputs of the iterations, evaluated on each element instance. *)
Definition output_collection (expression : string) (l : list FlowElementInstance)
    : result (list value) :=
  result_map (λ f,
    match evaluateExpression expression f.(fe_OutputVariables) with
    | Bad e => Bad (errw! "failed to evaluate outputElementExpression on elementInstance %d for parent isntance %d: %w" [e])
    | Good v => Good v
    end) l.

Definition handleParentProcessContinuationForMultiInstance (instance : loc)
    (parentToken : ExecutionToken) (targetElementInstanceKey : Z) (targetElementId : string)
    : BM S unit :=
  r ← parent_setup parentToken targetElementInstanceKey;
  match r with
  | (_, None) => mret tt
  | (parentInstance, Some updatedParentToken) =>
      parent ← lift (load_instance parentInstance);
      i ← lift (load_instance instance);
      match GetFlowNodeById (process_of parent) targetElementId with
      | Some parentElement =>
          match activity_of parentElement ≫= act_MultiInstance with
          | None => throw (err! "failed to find flow node by id %s")
          | Some multiInstance =>
              let loop := multiInstance.(LoopCharacteristics) in
              elementInstances ← lift (query (λ s,
                GetFlowElementInstancesByProcessInstanceKey s i.(pi_Key) true));
              outputCollection ← of_result
                (output_collection loop.(OutputElementExpression) elementInstances);
              parent ← lift (load_instance parentInstance);
              lift (set_Variables parentInstance
                (SetLocalVariable loop.(OutputCollectionName) (VList outputCollection)
                   parent.(pi_VariableHolder))) ;;
              parent_continue ignore_error parentInstance parentElement updatedParentToken
                {[loop.(OutputCollectionName) := VList outputCollection]}
          end
      | None => throw (err! "failed to find flow node by id %s")
      end
  end.

Definition handleParentProcessContinuation (instance : loc) : BM S unit :=
  i ← lift (load_instance instance);
  match i.(pi_Kind) with
  | SubProcessInstance t k e => handleParentProcessContinuationForSubProcess instance t k e
  | CallActivityInstance t k => handleParentProcessContinuationForCallActivity instance t k
  | MultiInstanceInstance t k e => handleParentProcessContinuationForMultiInstance instance t k e
  | DefaultProcessInstance => mret tt
  end.
End sub_process.
