(* ===== verification/Engine.v ===== *)
(** Processing one flow node (pkg/bpmn/engine.go): business rule tasks,
    activities, and the dispatch on the kind of the element. *)
From S2P Require Import Prelude Monad Model Runtime DmnModel Storage Locks TimerManager World.
From S2P Require Import Conditions Dmn Instances Tasks Events Gateways SubProcess.

#[local] Open Scope string_scope.

Section engine.
Context {S : Type} `{Storage S} `{DecisionStorage S} `{Env}.

(** ** Business rule tasks *)

Definition business_rule_failed {A} (instance : loc) (e : error) : BM S A :=
  lift (set_State instance ActivityStateFailed) ;; throw e.

(** The result variable, or the outputs mapped from it, in the variables of
    the instance. *)
Definition business_rule_outputs (instance : loc) (activity : TActivity) (resultVariable : string)
    (local : vars) (output : value) (currentToken : ExecutionToken) : BM S ActivityState :=
  outputVariables ←
    match activity.(act_Output) with
    | [] =>
        i ← lift (load_instance instance);
        lift (set_Variables instance
                (PropagateVariable resultVariable output i.(pi_VariableHolder))) ;;
        mret ({[resultVariable := output]} : vars)
    | mappings =>
        r ← lift (propagate_to_instance instance local mappings {[resultVariable := output]});
        match r with
        | Bad e => business_rule_failed instance
            (errw! "failed to propagate variables back to parent for business rule %s : %w" [e])
        | Good output => mret output
        end
    end;
  ignore_error (UpdateOutputFlowElementInstance
    (fe_output currentToken.(tok_ElementInstanceKey) outputVariables)) ;;
  mret ActivityStateCompleted.

Definition handleLocalBusinessRuleTask (fuel : nat) (instance : loc) (element : TBusinessRuleTask)
    (decision : TCalledDecision) (currentToken : ExecutionToken) : BM S ActivityState :=
  i ← lift (load_instance instance);
  let '(local, r) := EvaluateAndSetMappingsToLocalVariables evaluateExpression
    (Some i.(pi_VariableHolder)) (NewVariableHolder (Some i.(pi_VariableHolder)) None)
    element.(brt_activity).(act_Input) in
  match r with
  | Bad e => business_rule_failed instance
      (errw! "failed to evaluate local variables for business rule %s: %w" [e])
  | Good _ =>
      save_called_element i (BusinessRuleTask element) currentToken local ;;
      r ← attempt (lift (FindAndEvaluateDRD fuel decision.(BindingType) decision.(DecisionId)
                           decision.(VersionTag) local));
      match r with
      | Bad e => business_rule_failed instance
          (errw! "failed to evaluate business rule %s: %w" [e])
      | Good result =>
          business_rule_outputs instance element.(brt_activity) decision.(ResultVariable) local
            result.(DecisionOutput) currentToken
      end
  end.

Definition createExternalBusinessRuleTask (instance : loc) (element : TBusinessRuleTask)
    (currentToken : ExecutionToken) : BM S ActivityState :=
  r ← attempt (createInternalTask instance (IT_BusinessRule element) currentToken);
  match r with
  | Bad e => business_rule_failed instance
      (errw! "failed to create internal task for business rule %s : %w" [e])
  | Good activityState => mret activityState
  end.

Definition createBusinessRuleTask (fuel : nat) (instance : loc) (element : TBusinessRuleTask)
    (currentToken : ExecutionToken) : BM S ActivityState :=
  match element.(Implementation) with
  | Some (TBusinessRuleTaskLocal decision) =>
      handleLocalBusinessRuleTask fuel instance element decision currentToken
  | Some (TBusinessRuleTaskExternal _) =>
      createExternalBusinessRuleTask instance element currentToken
  | None => throw (err! "unsupported BusinessRuleTask Implementation %s")
  end.

(** ** Activities *)

(** The switch over the activity types. *)
Definition create_activity (fuel : nat) (instance : loc) (element : FlowNode)
    (currentToken : ExecutionToken) : BM S ActivityState :=
  match element with
  | ServiceTask e => createInternalTask instance (IT_Service e) currentToken
  | SendTask e => createInternalTask instance (IT_Send e) currentToken
  | UserTask e => createUserTask instance (IT_User e) currentToken
  | CallActivity e => createCallActivity instance e currentToken
  | SubProcess e => createSubProcess instance e currentToken
  | BusinessRuleTask e => createBusinessRuleTask fuel instance e currentToken
  | _ => throw (err! "unsupported element type '%T' with id '%s': element is not supported by the engine")
  end.

(** An activity that waits gets its boundary subscriptions, a completed one
    is left, a failed one is an error. *)
Definition handleActivity (fuel : nat) (instance : loc) (activity : elementActivity)
    (currentToken : ExecutionToken) : BM S (list ExecutionToken) :=
  r ← attempt (create_activity fuel instance activity.(ea_element) currentToken);
  match r with
  | Bad e => throw (errw! "failed to process %s %d: %w" [e])
  | Good ActivityStateActive =>
      let currentToken := with_TokenState TokenStateWaiting currentToken in
      wrap (λ e, errw! "failed to process boundary events for %s %d: %w" [e])
        (createBoundaryEventSubscriptions currentToken instance activity.(ea_element)) ;;
      mret [currentToken]
  | Good ActivityStateCompleted =>
      wrap (λ e, errw! "failed to process %s flow transition %d: %w" [e])
        (handleElementTransition instance activity.(ea_element) currentToken)
  | Good ActivityStateFailed => throw (err! "failed to process %s %d: %w")
  | Good _ => throw (err! "unsupported activity state: %s")
  end.

Definition handle_activity_or_multi (fuel : nat) (instance : loc) (activity : elementActivity)
    (currentToken : ExecutionToken) : BM S (list ExecutionToken) :=
  match activity_of activity.(ea_element) ≫= act_MultiInstance with
  | Some multiInstance =>
      wrap (λ e, errw! "failed to process MultiInstance%d: %w" [e])
        (handleMultiInstanceActivity (create_activity fuel) instance activity multiInstance
           currentToken)
  | None => handleActivity fuel instance activity currentToken
  end.

(** ** processFlowNode *)

Definition processFlowNode (fuel : nat) (instance : loc) (activity : elementActivity)
    (currentToken : ExecutionToken) : BM S (list ExecutionToken) :=
  i ← lift (load_instance instance);
  t ← lift now;
  ignore_error (SaveFlowElementInstance
    (mk_element currentToken.(tok_ElementInstanceKey) i.(pi_Key)
       (GetId activity.(ea_element)) t currentToken.(tok_Key) ∅ ∅)) ;;
  match activity.(ea_element) with
  | StartEvent element =>
      wrap (λ e, errw! "failed to process StartEvent flow transition %d: %w" [e])
        (handleElementTransition instance (StartEvent element) currentToken)
  | EndEvent element =>
      wrap (λ e, errw! "failed to process EndEvent %d: %w" [e])
        (handleEndEvent fuel instance element currentToken)
  | ServiceTask _ | UserTask _ | CallActivity _ | BusinessRuleTask _ | SendTask _ | SubProcess _ =>
      handle_activity_or_multi fuel instance activity currentToken
  | IntermediateCatchEvent element =>
      wrap (λ e, errw! "failed to process IntermediateCatchEvent %d: %w" [e])
        (createIntermediateCatchEvent instance element currentToken)
  | IntermediateThrowEvent element =>
      wrap (λ e, errw! "failed to process IntermediateThrowEvent %d: %w" [e])
        (handleIntermediateThrowEvent instance element currentToken)
  | ExclusiveGateway element =>
      wrap (λ e, errw! "failed to process ExclusiveGateway %d: %w" [e])
        (handleExclusiveGateway instance element currentToken)
  | InclusiveGateway element =>
      wrap (λ e, errw! "failed to process InclusiveGateway %d: %w" [e])
        (handleInclusiveGateway instance element currentToken)
  | EventBasedGateway element =>
      wrap (λ e, errw! "failed to process EventBasedGateway %d: %w" [e])
        (handleEventBasedGateway instance element currentToken)
  | ParallelGateway element =>
      wrap (λ e, errw! "failed to process EventBasedGateway %d: %w" [e])
        (handleParallelGateway instance element currentToken)
  | BoundaryEvent _ => panic "[invariant check] unsupported element: id=%s, type=%s"
  end.
End engine.
