(* ===== verification/Api.v ===== *)
(** The public operations of the engine: engine_api.go, jobs_api.go,
    events_api.go, timer_api.go and incident_api.go of pkg/bpmn, and deploying
    a process (xml_loader.go).  [fuel] bounds the number of tokens a run
    processes, the depth of called instances that are cancelled and the depth
    of required decisions; the outcome [NoFuel] marks a run it was not enough
    for. *)
From S2P Require Import Prelude Monad Model Runtime DmnModel Storage Locks TimerManager World.
From S2P Require Import Conditions Dmn Instances Tasks Events Gateways SubProcess Engine.

#[local] Open Scope string_scope.

Section api.
Context {S : Type} `{Storage S} `{DecisionStorage S} `{Env}.

(** ** RunProcessInstance *)

(** After an error of a token: the incident is written and flushed.  Returns
    runErr with the errors joined to it. *)
Definition token_incident (runErr : option error) (err : error) (currentToken : ExecutionToken)
    (instance : loc) : BM S (option error) :=
  WriteTokenIncident currentToken instance err ;;
  r ← attempt Flush;
  let runErr := join_opt runErr err in
  mret (match r with Good _ => runErr | Bad incidentError => join_opt runErr incidentError end).

(** How an iteration of the main loop goes on: with the next token, or out of
    the loop; each carries runErr, and [Next] the tokens that still run. *)
Inductive iteration :=
| Next (runErr : option error) (newTokens : list ExecutionToken)
| Break (runErr : option error).

Definition is_running (t : ExecutionToken) : bool := bool_decide (t.(tok_State) = TokenStateRunning).

(** The flush at the end of an iteration; a failing one leaves an incident. *)
Definition flush_or_incident (runErr : option error) (currentToken : ExecutionToken)
    (instance : loc) : BM S (option error) :=
  r ← attempt Flush;
  match r with
  | Good _ => mret runErr
  | Bad err => token_incident runErr err currentToken instance
  end.

(** The completed instance continues its parent in the same batch. *)
Definition finish_instance (runErr : option error) (currentToken : ExecutionToken) (instance : loc)
    : BM S iteration :=
  i ← lift (load_instance instance);
  r ← attempt (if bool_decide (Type_ i = ProcessTypeDefault) then mret tt
               else handleParentProcessContinuation instance);
  match r with
  | Bad err =>
      runErr ← token_incident runErr err currentToken instance;
      mret (Break runErr)
  | Good _ =>
      runErr ← flush_or_incident runErr currentToken instance;
      mret (Break runErr)
  end.

(** One iteration for a running token, in a new batch. *)
Definition run_token (fuel : nat) (instance : loc) (runErr : option error)
    (currentToken : ExecutionToken) : BM S iteration :=
  r ← attempt (
    activity ← lift (getExecutionTokenActivity instance currentToken);
    processFlowNode fuel instance activity currentToken);
  match r with
  | Bad err =>
      runErr ← token_incident runErr err currentToken instance;
      mret (Next runErr [])
  | Good updatedTokens =>
      for_each updatedTokens (λ tok, ignore_error (SaveToken tok)) ;;
      match runErr with
      | Some _ => lift (set_State instance ActivityStateFailed)
      | None => mret tt
      end ;;
      r ← attempt (SaveProcessInstance instance);
      match r with
      | Bad err =>
          token_incident runErr err currentToken instance ;;
          throw (errw! "failed to save changes to process instance %d: %w" [err])
      | Good _ =>
          i ← lift (load_instance instance);
          if bool_decide (i.(pi_State) = ActivityStateCompleted)
          then finish_instance runErr currentToken instance
          else
            runErr ← flush_or_incident runErr currentToken instance;
            mret (Next runErr (List.filter is_running updatedTokens))
      end
  end.

(** The main loop: every token takes one unit of fuel. *)
Fixpoint main_loop (fuel : nat) (instance : loc) (runErr : option error)
    (runningExecutionTokens : list ExecutionToken) : EM S (option error) :=
  match runningExecutionTokens with
  | [] => mret runErr
  | currentToken :: rest =>
      match fuel with
      | O => nofuel
      | Datatypes.S fuel' =>
          if is_running currentToken then
            it ← with_batch NewEngineBatchClean (run_token fuel instance runErr currentToken);
            match it with
            | Next runErr newTokens => main_loop fuel' instance runErr (rest ++ newTokens)%list
            | Break runErr => mret runErr
            end
          else main_loop fuel' instance runErr rest
      end
  end.

(** The part of RunProcessInstance under the lock. *)
Definition run_locked (fuel : nat) (instance : loc) (executionTokens : list ExecutionToken)
    : EM S unit :=
  wrap (λ e, errw! "failed to refresh process instance %d: %w" [e]) (refresh instance) ;;
  i ← load_instance instance;
  match i.(pi_State) with
  | ActivityStateTerminated => throw (err! "process instance %d is terminated")
  | ActivityStateCompleted => throw (err! "process instance %d is completed")
  | _ =>
      set_State instance ActivityStateActive ;;
      i ← load_instance instance;
      wrap (λ e, errors_Join (err! "failed to save process instance %d status update") e)
        (on_store (exec (StSaveProcessInstance instance i))) ;;
      runErr ← main_loop fuel instance None executionTokens;
      match runErr with
      | Some e => throw (errors_Join (err! "failed to run process instance %d") e)
      | None => mret tt
      end
  end.

Definition RunProcessInstance (fuel : nat) (instance : loc) (executionTokens : list ExecutionToken)
    : EM S unit :=
  i ← load_instance instance;
  lock i.(pi_Key) ;;
  deferred (run_locked fuel instance executionTokens) (unlock i.(pi_Key)).

(** ** Creating, modifying and cancelling instances *)

(** [executionTokens] of a batch that is only flushed, then the run. *)
Definition start_and_run (fuel : nat) (create : BM S (loc * list ExecutionToken)) : EM S loc :=
  r ← with_batch NewEngineBatchClean (
    r ← create;
    wrap (λ e, errw! "failed to start process instance: %w" [e]) StorageBatch_Flush ;;
    mret r);
  wrap (λ e, errw! "failed to run process instance %d: %w" [e])
    (RunProcessInstance fuel (fst r) (snd r)) ;;
  mret (fst r).

(** The error of createInstance is dropped; the batch is flushed and the nil
    instance it returned is then dereferenced. *)
Definition create_default (process : ProcessDefinition) (variableContext : vars)
    : BM S (loc * list ExecutionToken) :=
  r ← attempt (createInstance process (NewVariableHolder None (Some variableContext))
                 DefaultProcessInstance);
  match r with
  | Good r => mret r
  | Bad _ =>
      wrap (λ e, errw! "failed to start process instance: %w" [e]) StorageBatch_Flush ;;
      panic "nil pointer dereference"
  end.

Definition CreateInstance (fuel : nat) (process : ProcessDefinition) (variableContext : vars)
    : EM S loc :=
  start_and_run fuel (create_default process variableContext).

Definition CreateInstanceById (fuel : nat) (processId : string) (variableContext : vars) : EM S loc :=
  processDefinition ← wrap
    (λ e, errors_Join (err! "no process definition with id=%s was found (prior loaded into the engine)") e)
    (query (λ s, FindLatestProcessDefinitionById s processId));
  wrap (λ e, errors_Join (err! "failed to create process instance: %s") e)
    (CreateInstance fuel processDefinition variableContext).

Definition CreateInstanceByKey (fuel : nat) (definitionKey : Z) (variableContext : vars) : EM S loc :=
  processDefinition ← wrap
    (λ e, errors_Join (err! "no process definition with key %d was found (prior loaded into the engine)") e)
    (query (λ s, FindProcessDefinitionByKey s definitionKey));
  wrap (λ e, errors_Join (err! "failed to create process instance with definition key: %d") e)
    (CreateInstance fuel processDefinition variableContext).

Definition starting_nodes (processDefinition : ProcessDefinition) (startingElementIds : list string)
    : result (list FlowNode) :=
  result_map (λ id,
    match GetFlowNodeById processDefinition.(pd_Definitions).(Process) id with
    | Some n => Good n
    | None => Bad (err! "could not find starting flow node with id %s in process definition %d")
    end) startingElementIds.

Definition create_on_elements (processDefinition : ProcessDefinition) (startingFlowNodes : list FlowNode)
    (variableContext : vars) : BM S (loc * list ExecutionToken) :=
  wrap (λ e, errw! "failed to create instance on elements: %w" [e])
    (createInstanceWithStartingElements processDefinition startingFlowNodes
       (NewVariableHolder None (Some variableContext)) DefaultProcessInstance).

Definition CreateInstanceWithStartingElements (fuel : nat) (processDefinitionKey : Z)
    (startingElementIds : list string) (variableContext : vars) : EM S loc :=
  processDefinition ← wrap
    (λ e, errors_Join (err! "no process definition with key %d was found (prior loaded into the engine)") e)
    (query (λ s, FindProcessDefinitionByKey s processDefinitionKey));
  startingFlowNodes ← of_result (starting_nodes processDefinition startingElementIds);
  start_and_run fuel (create_on_elements processDefinition startingFlowNodes variableContext).

(** The body of an operation that holds a batch: on an error the batch is
    cleared, which releases its locks. *)
Definition clearing {A} (b : EngineBatch S) (body : BM S A) : EM S A :=
  with_batch b (on_error body Clear).

Definition CancelInstanceByKey (fuel : nat) (instanceKey : Z) : EM S unit :=
  instance ← wrap (λ e, errw! "failed to find process instance %d: %w" [e])
    (on_heap (λ s, FindProcessInstanceByKey s instanceKey));
  i ← load_instance instance;
  if negb (bool_decide (Type_ i = ProcessTypeDefault))
  then throw (err! "cannot cancel process instance %d, it is not a root process")
  else match i.(pi_State) with
  | ActivityStateActive | ActivityStateFailed =>
      b ← wrap (λ e, errw! "failed to create engine batch: %w" [e]) (NewEngineBatch instance);
      clearing b (cancelInstance fuel instance ;; Flush)
  | _ => throw (errw! "cannot cancel process instance %d, it is not in correct state, expected=%v, actual=%v. %w" [InvalidStateError])
  end.

Definition ModifyInstance (fuel : nat) (processInstanceKey : Z)
    (elementInstanceIdsToTerminate : list Z) (elementIdsToStartInstance : list string)
    (variableContext : vars) : EM S (loc * list ExecutionToken) :=
  processInstance ← wrap (λ e, errw! "failed to find process instance %d: %w" [e])
    (on_heap (λ s, FindProcessInstanceByKey s processInstanceKey));
  b ← wrap (λ e, errw! "failed to create engine batch: %w" [e]) (NewEngineBatch processInstance);
  clearing b (
    activeTokensLeft ←
      match elementInstanceIdsToTerminate with
      | [] => mret []
      | ids => terminateExecutionTokens fuel ids processInstanceKey
      end;
    startedTokens ← startExecutionTokens elementIdsToStartInstance processInstance;
    let activeTokens := (activeTokensLeft ++ startedTokens)%list in
    i ← lift (load_instance processInstance);
    lift (set_Variables processInstance (SetLocalVariables variableContext i.(pi_VariableHolder))) ;;
    SaveProcessInstance processInstance ;;
    wrap (λ e, errw! "failed to modify process instance %d: %w" [e]) Flush ;;
    lift (RunProcessInstance fuel processInstance activeTokens) ;;
    mret (processInstance, activeTokens)).

(** The instance is found after its lock is taken. *)
Definition DeleteInstanceVariable (processInstanceKey : Z) (variable : string) : EM S loc :=
  lock processInstanceKey ;;
  deferred (
    processInstance ← wrap (λ e, errw! "failed to find process instance %d: %w" [e])
      (on_heap (λ s, FindProcessInstanceByKey s processInstanceKey));
    i ← load_instance processInstance;
    set_Variables processInstance (DeleteLocalVariable variable i.(pi_VariableHolder)) ;;
    with_batch NewEngineBatchClean (
      SaveProcessInstance processInstance ;;
      wrap (λ e, errw! "failed to delete variable for process instance %d: %w" [e])
        StorageBatch_Flush) ;;
    mret processInstance) (unlock processInstanceKey).

(** ** Jobs *)

Definition JobAssignByKey (jobKey : Z) (assignee : option string) : EM S unit :=
  job ← wrap (λ _, err! "failed to find job with key: %d") (query (λ s, FindJobByJobKey s jobKey));
  wrap (λ _, err! "failed to save job assignee for key: %d")
    (on_store (exec (StSaveJob (with_Assignee assignee job)))).

(** The job, read again once the instance is locked; a job that is over is an
    error. *)
Definition refresh_job (jobKey : Z) : EM S Job :=
  job ← wrap (λ _, err! "failed to find job with key: %d") (query (λ s, FindJobByJobKey s jobKey));
  match job.(job_State) with
  | ActivityStateCompleted => throw (err! "job already completed: %d")
  | ActivityStateTerminated => throw (err! "job already terminated: %d")
  | ActivityStateFailed => throw (err! "job already failed: %d")
  | _ => mret job
  end.

Definition lock_instance_of_job (job : Job) : EM S (loc * EngineBatch S) :=
  instance ← wrap (λ _, err! "failed to find process instance with key: %d")
    (on_heap (λ s, FindProcessInstanceByKey s job.(job_ProcessInstanceKey)));
  b ← wrap (λ _, err! "failed to create engine batch") (NewEngineBatch instance);
  mret (instance, b).

(** The part of JobFailByKey under the lock. *)
Definition fail_job (instance : loc) (jobKey : Z) (message : string) : BM S unit :=
  job ← lift (refresh_job jobKey);
  let job := with_JobToken (with_TokenState TokenStateFailed job.(job_Token))
               (with_JobState ActivityStateFailed job) in
  lift (set_State instance ActivityStateFailed) ;;
  SaveJob job ;;
  SaveToken job.(job_Token) ;;
  wrap (λ e, errw! "failed to save changes to process instance %d: %w" [e])
    (SaveProcessInstance instance) ;;
  incident ← lift (createNewIncidentFromToken (Errorf ("%s :" ++ message) []) job.(job_Token));
  SaveIncident incident ;;
  wrap (λ e, errw! "failed to fail job %+v: %w" [e]) Flush.

(** The message and the error code only enter the text of the incident. *)
Definition JobFailByKey (jobKey : Z) (message : string) (errorCode : option string)
    (variables : vars) : EM S unit :=
  job ← wrap (λ _, err! "failed to find job with key: %d") (query (λ s, FindJobByJobKey s jobKey));
  match job.(job_State) with
  | ActivityStateFailed => throw (err! "job %d is already failed")
  | _ =>
      ib ← lock_instance_of_job job;
      clearing (snd ib) (fail_job (fst ib) jobKey message)
  end.

(** The jobs of a type with the variables a worker gets; a job whose inputs
    cannot be evaluated is saved as failed. *)
Definition activate_job (job : Job) : EM S ActivatedJob :=
  processInstance ← wrap (λ e, errw! "failed to find process instance for job key: %d: %w" [e])
    (on_heap (λ s, FindProcessInstanceByKey s job.(job_ProcessInstanceKey)));
  i ← load_instance processInstance;
  match GetInternalTaskById (process_of i) job.(job_Token).(tok_ElementId) with
  | None => throw (Errorf "errors.Join" [err! "failed to find task element for job: %+v"])
  | Some task =>
      let '(local, r) := EvaluateAndSetMappingsToLocalVariables evaluateExpression
        (Some i.(pi_VariableHolder)) (NewVariableHolder (Some i.(pi_VariableHolder)) None)
        (GetInputMapping task) in
      match r with
      | Bad err =>
          wrap (λ perr, Errorf "errors.Join" [err! "failed to save failed job"; err; perr])
            (on_store (exec (StSaveJob (with_JobState ActivityStateFailed job)))) ;;
          throw (errw! "failed to evaluate variables: %w" [err])
      | Good _ =>
          mret {| aj_processInstance := i; aj_key := job.(job_Key);
                  aj_processInstanceKey := job.(job_ProcessInstanceKey); aj_bpmnProcessId := "";
                  aj_processDefinitionVersion := 0; aj_processDefinitionKey := 0;
                  aj_elementId := job.(job_ElementId); aj_createdAt := job.(job_CreatedAt);
                  aj_localVariables := local |}
      end
  end.

Definition ActivateJobs (jobType : string) : EM S (list ActivatedJob) :=
  jobs ← wrap (λ e, errors_Join (err! "failed to find active jobs by type") e)
    (query (λ s, FindActiveJobsByType s jobType));
  for_map jobs activate_job.

(** Completing the job: outputs, boundary subscriptions, the token, the job,
    and for a message end event the end of the instance.  Returns the tokens
    to run and whether the end event was handled.  The activity is looked up
    after the transition; its error is overwritten, a missing one panics. *)
Definition complete_job (instance : loc) (job : Job) (variables : vars)
    : BM S (list ExecutionToken * bool) :=
  i ← lift (load_instance instance);
  match GetInternalTaskById (process_of i) job.(job_Token).(tok_ElementId) with
  | None => throw (Errorf "errors.Join" [err! "failed to find task element for job: %+v"])
  | Some task =>
      r ← lift (propagate_message instance (GetOutputMapping task) variables);
      outputVariables ← wrap_result
        (λ _, Errorf "errors.Join" [err! "failed to map output variables for job: %+v"]) r;
      UpdateOutputFlowElementInstance
        (fe_output job.(job_Token).(tok_ElementInstanceKey) outputVariables) ;;
      wrap (λ e, errw! "failed to cancel boundary subscriptions for process instance %d: %w" [e])
        (cancelBoundarySubscriptions job.(job_Token)) ;;
      tokens ← wrap (λ e, errw! "failed to complete job %+v: %w" [e])
        (handleElementTransition instance (InternalTask_FlowNode task) job.(job_Token));
      ignore_error (SaveJob (with_JobState ActivityStateCompleted job)) ;;
      activity ← attempt (lift (getExecutionTokenActivity instance job.(job_Token)));
      match activity with
      | Bad _ => panic "nil pointer dereference"
      | Good activity =>
          match activity.(ea_element) with
          | EndEvent element =>
              tokens ← wrap (λ e, errw! "failed to handle message end event continuation %w" [e])
                (handleExternalEndEventContinuation instance element job.(job_Token) tokens);
              mret (tokens, true)
          | _ => mret (tokens, false)
          end
      end
  end.

(** Saving what complete_job did; a completed called instance continues its
    parent, any other instance runs on with the tokens. *)
Definition complete_locked (fuel : nat) (instance : loc) (jobKey : Z) (variables : vars)
    : BM S unit :=
  job ← lift (refresh_job jobKey);
  r ← complete_job instance job variables;
  let tokens := fst r in
  for_each tokens (λ token, ignore_error (SaveToken token)) ;;
  wrap (λ e, errw! "failed to save changes to process instance %d: %w" [e])
    (SaveProcessInstance instance) ;;
  i ← lift (load_instance instance);
  if bool_decide (i.(pi_State) = ActivityStateCompleted) &&
     negb (bool_decide (Type_ i = ProcessTypeDefault))
  then
    wrap (λ e, errw! "failed to handle parent process continuation for job %+v: %w" [e])
      (handleParentProcessContinuation instance) ;;
    wrap (λ e, errw! "failed to complete job %+v: %w" [e]) Flush
  else
    wrap (λ e, errw! "failed to complete job %+v: %w" [e]) Flush ;;
    if (snd r : bool) then mret tt
    else wrap (λ e, errw! "failed to run process instance %d: %w" [e])
           (lift (RunProcessInstance fuel instance tokens)).

Definition JobCompleteByKey (fuel : nat) (jobKey : Z) (variables : vars) : EM S unit :=
  job ← wrap (λ _, err! "failed to find job with key: %d") (query (λ s, FindJobByJobKey s jobKey));
  match job.(job_State) with
  | ActivityStateCompleted => mret tt
  | _ =>
      ib ← lock_instance_of_job job;
      clearing (snd ib) (complete_locked fuel (fst ib) jobKey variables)
  end.

(** ** Messages *)

Definition active_subscription (subscriptionKey : Z) : EM S MessageSubscription :=
  wrap (λ e, errors_Join (err! "failed to find active message subscription: %d") e)
    (query (λ s, FindMessageSubscriptionById s subscriptionKey ActivityStateActive)).

(** After a failed publication the subscription and the instance are saved as
    failed.  For a catch event the error of the publication is overwritten by
    the nil error of the flush. *)
Definition message_incident (message : MessageSubscription) (instance : loc)
    (flushed : error) : BM S unit :=
  lift (set_State instance ActivityStateFailed) ;;
  WriteMessageIncident (with_SubscriptionState ActivityStateFailed message) instance ;;
  wrap (λ e, errors_Join (err! "failed to flush and failed to publish message %s to listener in instance %d. ") e)
    Flush ;;
  throw flushed.

Definition flush_and_run (fuel : nat) (instance : loc) (tokens : list ExecutionToken) : BM S unit :=
  wrap (λ e, errw! "failed to flush publish message batch %+v: %w" [e]) Flush ;;
  lift (RunProcessInstance fuel instance tokens).

Definition publish_to_node (fuel : nat) (node : option FlowNode) (message : MessageSubscription)
    (instance : loc) (variables : vars) : BM S unit :=
  match node with
  | Some (EventBasedGateway nodeT) =>
      tokens ← wrap (λ e, errw! "failed to publishEventOnEventGateway %+v: %w" [e])
        (publishEventOnEventGateway nodeT (MessageGatewayEvent message) instance variables);
      flush_and_run fuel instance tokens
  | Some (IntermediateCatchEvent nodeT) =>
      r ← attempt (publishMessageOnListener nodeT message instance variables);
      match r with
      | Good tokens => flush_and_run fuel instance tokens
      | Bad _ => message_incident message instance
          (Errorf "errors.Join" [err! "failed to publish message %s to listener in instance %d. "])
      end
  | Some (ServiceTask _ | SendTask _ | UserTask _ | BusinessRuleTask _ | CallActivity _ | SubProcess _) =>
      r ← attempt (handleBoundaryMessage fuel message instance variables);
      match r with
      | Good tokens => flush_and_run fuel instance tokens
      | Bad err => message_incident message instance
          (errors_Join (err! "failed to publish message %s to task %d. ") err)
      end
  | _ => throw (err! "failed to publish message %s to instance %d. Unexpected node type %T")
  end.

Definition PublishMessage (fuel : nat) (subscriptionKey : Z) (variables : vars) : EM S unit :=
  message ← active_subscription subscriptionKey;
  instance ← wrap (λ e, errors_Join (err! "no process instance with key: %d") e)
    (on_heap (λ s, FindProcessInstanceByKey s message.(ms_ProcessInstanceKey)));
  b ← wrap (λ e, errw! "failed to create engine batch: %w" [e]) (NewEngineBatch instance);
  clearing b (
    message ← lift (active_subscription subscriptionKey);
    match message.(ms_State) with
    | ActivityStateCompleted =>
        throw (Errorf "errors.Join" [err! "message subscription already completed: %d"])
    | ActivityStateTerminated =>
        throw (Errorf "errors.Join" [err! "message subscription already terminated: %d"])
    | _ =>
        i ← lift (load_instance instance);
        publish_to_node fuel (GetFlowNodeById (process_of i) message.(ms_Token).(tok_ElementId))
          message instance variables
    end).

Definition PublishMessageByName (fuel : nat) (name correlationKey : string) (variables : vars)
    : EM S unit :=
  subscriptionKey ← wrap
    (λ e, errors_Join (err! "failed to find active message subscription: %s") e)
    (query (λ s, FindActiveMessageSubscriptionKey s name correlationKey));
  PublishMessage fuel subscriptionKey variables.

(** ** Timers *)

(** The switch over the node the timer's token stands on.  Only some of the
    error returns clear the batch: the others keep the instance locked. *)
Definition trigger_at_node (fuel : nat) (node : FlowNode) (timer : Timer) (instance : loc)
    : BM S (list ExecutionToken) :=
  match node with
  | EventBasedGateway nodeT =>
      tokens ← on_error
        (wrap (λ e, errw! "failed to handle timer event gateway transition %+v: %w" [e])
           (publishEventOnEventGateway nodeT (TimerGatewayEvent timer) instance ∅)) Clear;
      wrap (λ e, errw! "failed to flush trigger timer batch %+v: %w" [e]) Flush ;;
      mret tokens
  | IntermediateCatchEvent nodeT =>
      SaveTimer (with_TimerState TimerStateTriggered timer) ;;
      tokens ← on_error
        (wrap (λ e, errw! "failed to handle timer transition %+v: %w" [e])
           (handleElementTransition instance (IntermediateCatchEvent nodeT) timer.(tm_Token))) Clear;
      on_error (wrap (λ e, errw! "failed to flush trigger timer batch %+v: %w" [e]) Flush) Clear ;;
      mret tokens
  | ServiceTask _ | SendTask _ | UserTask _ | BusinessRuleTask _ | CallActivity _ | SubProcess _ =>
      tokens ← on_error
        (wrap (λ e, errw! "failed to handle timer transition %+v: %w" [e])
           (handleBoundaryTimer fuel timer instance timer.(tm_Token))) Clear;
      on_error (wrap (λ e, errw! "failed to flush trigger timer batch %+v: %w" [e]) Flush) Clear ;;
      mret tokens
  | _ => throw (err! "failed to trigger timer %+v to instance %d. Unexpected node type %T")
  end.

Definition TriggerTimer (fuel : nat) (timer : Timer) : EM S (loc * list ExecutionToken) :=
  instance ← wrap (λ e, errors_Join (err! "failed to find process instance with key: %d") e)
    (on_heap (λ s, FindProcessInstanceByKey s timer.(tm_ProcessInstanceKey)));
  i ← load_instance instance;
  tokenNode ← deref (GetFlowNodeById (process_of i) timer.(tm_Token).(tok_ElementId));
  if (GetId tokenNode =? "")
  then throw (Errorf "errors.Join" [err! "failed to find timer node with elementId: %s"])
  else
    b ← wrap (λ _, Errorf "errors.Join" [err! "failed to create batch for timer %d: %s"])
      (NewEngineBatch instance);
    with_batch b (
      timer ← wrap (λ _, err! "failed to find timer %d: %s")
        (lift (query (λ s, GetTimer s timer.(tm_Key))));
      match timer.(tm_TimerState) with
      | TimerStateTriggered => throw (err! "timer is already triggered: %d")
      | TimerStateCancelled => throw (err! "timer is already cancelled: %d")
      | _ =>
          tokens ← trigger_at_node fuel tokenNode timer instance;
          mret (instance, tokens)
      end).

(** The errors are only logged. *)
Definition ProcessTimer (fuel : nat) (timer : Timer) : EM S unit :=
  r ← attempt (TriggerTimer fuel timer);
  match r with
  | Bad _ => mret tt
  | Good (instance, tokens) =>
      r ← attempt (RunProcessInstance fuel instance tokens);
      match r with Good _ | Bad _ => mret tt end
  end.

(** ** Incidents *)

Definition find_incident (key : Z) : EM S Incident :=
  wrap (λ e, Errorf "%w: %w" [err! "failed to find incident with key %d"; e])
    (query (λ s, FindIncidentByKey s key)).

(** A job that waits for the token is active again and the token waits; with
    no job the token runs again. *)
Definition ResolveIncident (fuel : nat) (key : Z) : EM S unit :=
  incident ← find_incident key;
  match incident.(inc_ResolvedAt) with
  | Some _ => throw (err! "incident already resolved")
  | None =>
      instance ← wrap (λ e, Errorf "%w: %w" [err! "failed to find process instance with key %d"; e])
        (on_heap (λ s, FindProcessInstanceByKey s incident.(inc_ProcessInstanceKey)));
      b ← wrap (λ _, err! "failed to create engine batch") (NewEngineBatch instance);
      clearing b (
        incident ← lift (find_incident key);
        match incident.(inc_ResolvedAt) with
        | Some _ => throw (err! "incident with key %d was already resolved")
        | None =>
            jobs ← wrap (λ _, err! "failed to find jobs for token key: %d")
              (lift (query (λ s, FindPendingProcessInstanceJobs s incident.(inc_ProcessInstanceKey))));
            t ← lift now;
            SaveIncident (with_ResolvedAt t incident) ;;
            let key := incident.(inc_Token).(tok_Key) in
            token ←
              match List.find (λ j, (j.(job_Token).(tok_Key) =? key)%Z) jobs with
              | Some job =>
                  SaveJob (with_JobState ActivityStateActive job) ;;
                  mret (with_TokenState TokenStateWaiting incident.(inc_Token))
              | None => mret (with_TokenState TokenStateRunning incident.(inc_Token))
              end;
            SaveToken token ;;
            lift (set_State instance ActivityStateActive) ;;
            wrap (λ e, errw! "failed to save changes to process instance %d: %w" [e])
              (SaveProcessInstance instance) ;;
            wrap (λ _, err! "failed to complete incident with key: %d") Flush ;;
            lift (RunProcessInstance fuel instance [token])
        end)
  end.

(** ** Starting the engine and deploying a process *)

(** The running tokens grouped by instance, in the order the instances first
    appear (the code ranges over a map of them). *)
Fixpoint add_running (token : ExecutionToken) (l : list (Z * loc * list ExecutionToken))
    : option (list (Z * loc * list ExecutionToken)) :=
  match l with
  | [] => None
  | (k, p, toks) :: l' =>
      if (k =? token.(tok_ProcessInstanceKey))%Z then Some ((k, p, (toks ++ [token])%list) :: l')
      else cons (k, p, toks) <$> add_running token l'
  end.

Definition Start (fuel : nat) : EM S unit :=
  t ← now;
  modify (w_set_timerManager (Some (start t (newTimerManager 10000000000)))) ;;
  tokens ← wrap (λ e, errw! "failed to load running tokens: %w" [e]) (query GetRunningTokens);
  instancesToStart ← for_fold tokens [] (λ l token,
    match add_running token l with
    | Some l' => mret l'
    | None =>
        p ← wrap (λ e, errw! "failed to load instance %d for token %d: %w" [e])
          (on_heap (λ s, FindProcessInstanceByKey s token.(tok_ProcessInstanceKey)));
        mret (l ++ [(token.(tok_ProcessInstanceKey), p, [token])])%list
    end);
  for_each instancesToStart (λ x,
    ignore_error (RunProcessInstance fuel (snd (fst x)) (snd x))).

(** The XML parser and MD5 are not modelled: the parsed definitions and the
    checksum are given.  The latest stored version decides whether the
    document is new. *)
Definition load (xmlData : string) (md5sum : list Z) (processName : string)
    (definitions : TDefinitions) (key : Z) : EM S ProcessDefinition :=
  let processInfo version :=
    {| pd_BpmnProcessId := definitions.(Process).(p_Id); pd_Version := version; pd_Key := key;
       pd_Definitions := definitions; pd_BpmnData := xmlData; pd_BpmnProcessName := processName;
       pd_BpmnChecksum := md5sum |} in
  let save (d : ProcessDefinition) : EM S ProcessDefinition :=
    wrap (λ e, errw! "failed to save process definition: %w" [e])
      (on_store (exec (StSaveProcessDefinition d))) ;;
    mret d in
  processes ← wrap (λ e, errw! "failed to load processes by id %s: %w" [e])
    (query (λ s, FindProcessDefinitionsById s definitions.(Process).(p_Id)));
  match processes with
  | [] => save (processInfo 1%Z)
  | d :: l =>
      let latest := latest_by pd_Version d (d :: l) in
      if bool_decide (latest.(pd_BpmnChecksum) = md5sum) then mret latest
      else save (processInfo (wrap32 (latest.(pd_Version) + 1)))
  end.
End api.
