(* ===== verification/Frames.v ===== *)
(** Frames: what no operation of the engine changes.  A relation between the
    states before and after that the primitives of World.v respect is respected
    by every handler of the engine, whatever its outcome; the class
    [PrimFrame] lists the primitives, and the lemmas of this file go through
    the handlers once for all such relations.  [CoreFrame] is what the processing
    of a flow node asks for, [EngineFrame] what every operation asks for. *)
From S2P Require Import Prelude Monad Model Runtime DmnModel Storage Locks TimerManager World.
From S2P Require Import Conditions Dmn Instances Tasks Events Gateways SubProcess Engine.

Create HintDb frames discriminated.

(** ** The relation on worlds that a relation on batches and worlds induces *)

Section on_world.
Context {S : Type}.
Implicit Types R : EngineBatch S * World S → EngineBatch S * World S → Prop.

Definition on_world R : World S → World S → Prop := λ w w', ∀ b, R (b, w) (b, w').

#[export] Instance on_world_preorder R `{!PreOrder R} : PreOrder (on_world R).
Proof.
  split; [intros w b; reflexivity|]. intros w1 w2 w3 H1 H2 b. etrans; [apply H1|apply H2].
Qed.

Lemma pres_lift {A} R (m : EM S A) : pres (on_world R) m → pres R (lift m).
Proof.
  intros H [b w]. specialize (H w). unfold lift, zoom. simpl. by destruct (m w) as [[] w'].
Qed.

Lemma pres_query {A} R `{!PreOrder R} (q : S → result A) : pres (on_world R) (query q).
Proof. intros w. unfold query. destruct (q _); simpl; reflexivity. Qed.

Lemma pres_load_instance R `{!PreOrder R} p : pres (on_world R) (load_instance p).
Proof. intros w. unfold load_instance. destruct (_ !! p); simpl; [reflexivity|done]. Qed.
End on_world.

(** ** The DMN evaluation

    It runs on any state and leaves it alone: it has every property that the
    control structure keeps. *)

Section dmn.
Context `{Env} {X : Type} (Φ : ∀ A, ST X A → Prop) `{!Closed Φ}.

Lemma closed_EvaluateHitPolicyOutput t id p a l : Φ _ (EvaluateHitPolicyOutput t id p a l).
Proof.
  unfold EvaluateHitPolicyOutput, evaluateUniqueOutput, evaluateCollectOutput,
    evaluateFirstRuleOutput, rule_output, first_output.
  repeat closed_step.
Qed.
Lemma closed_match_cells l cells v : Φ _ (match_cells l cells v).
Proof. revert l. induction cells as [|c cells IH]; intros l; simpl; repeat closed_step; apply IH. Qed.
Lemma closed_evaluate_outputs l cells v : Φ _ (evaluate_outputs l cells v).
Proof. revert cells. induction l as [|o l IH]; intros cells; simpl; repeat closed_step; apply IH. Qed.
Lemma closed_evaluate_rules t l v i rules : Φ _ (evaluate_rules t l v i rules).
Proof.
  revert i. induction rules as [|r rules IH]; intros i; simpl; repeat closed_step;
    first [apply closed_match_cells|apply closed_evaluate_outputs|apply IH].
Qed.
Lemma closed_evaluateDecisionTable t id v : Φ _ (evaluateDecisionTable t id v).
Proof.
  unfold evaluateDecisionTable, evaluate_inputs. repeat closed_step;
    first [apply closed_evaluate_rules|apply closed_EvaluateHitPolicyOutput].
Qed.
Lemma closed_evaluateLiteralExpression e var id v : Φ _ (evaluateLiteralExpression e var id v).
Proof. unfold evaluateLiteralExpression. repeat closed_step. Qed.

Fixpoint closed_evaluateContext (c : TContext) n v {struct c} : Φ _ (evaluateContext c n v).
Proof.
  destruct c as [entries]. simpl. generalize (∅ : vars) as o. revert v.
  induction entries as [|[t var e c] l IH]; intros v o; cbn [context_loop]; [closed_step|].
  assert (Hev : ∀ name var', Φ _ name →
    Φ _ (evaluate_entry evaluateContext t e c v name var')).
  { intros name var' Hn. unfold evaluate_entry. destruct t, e, c; repeat closed_step; try done;
      first [apply closed_evaluateDecisionTable|apply closed_evaluateLiteralExpression
            |apply closed_evaluateContext]. }
  destruct l as [|x l], var as [var|]; cbv zeta; [| |closed_step; [apply Hev|apply IH]..].
  - closed_step; [apply Hev|apply IH]; repeat closed_step.
  - apply Hev. closed_step.
  - repeat closed_step.
  - repeat closed_step.
Qed.

Lemma closed_evaluate_logic d v : Φ _ (evaluate_logic d v).
Proof.
  unfold evaluate_logic. repeat closed_step;
    first [apply closed_evaluateDecisionTable|apply closed_evaluateLiteralExpression
          |apply closed_evaluateContext].
Qed.
End dmn.

Lemma pres_evaluateDecision `{Env} {X} (R : X → X → Prop) `{!PreOrder R} n d id v :
  pres R (evaluateDecision n d id v).
Proof.
  revert id v. induction n as [|n IH]; intros id v; simpl; repeat frame_step;
    first [apply IH|apply (closed_evaluate_logic (λ A, pres R))].
Qed.

(** ** The primitives *)

Class PrimFrame {S : Type} `{Storage S} `{Env}
    (R : EngineBatch S * World S → EngineBatch S * World S → Prop) : Prop := {
  frame_preorder :: PreOrder R;
  frame_generateKey : pres (on_world R) generateKey;
  frame_now : pres (on_world R) now;
  frame_set_State p s : pres (on_world R) (set_State p s);
  frame_set_Variables p v : pres (on_world R) (set_Variables p v);
  frame_new_instance i : pres (on_world R) (new_instance i);
  frame_find_called k :
    pres (on_world R) (on_heap (λ s, FindProcessInstancesByParentExecutionTokenKey s k));
  frame_find_instance k : pres (on_world R) (on_heap (λ s, FindProcessInstanceByKey s k));
  frame_timerManager f : pres (on_world R) (on_timerManager f);
  frame_AddPostFlushAction a : pres R (AddPostFlushAction a);
  frame_reset_batch : pres R reset_batch;
  frame_AddLockedInstance p : pres R (AddLockedInstance p);
  frame_AddParentLockedInstance p : pres R (AddParentLockedInstance p);
  frame_Clear : pres R Clear }.

(** A statement that saves a running token. *)
Definition saves_running (s : Stmt) : bool :=
  match s with
  | StSaveToken t => bool_decide (t.(tok_State) = TokenStateRunning)
  | _ => false
  end.

(** What processing a flow node needs: a token is saved as running only where
    an instance is created, and the post-flush action that runs the instance
    follows. *)
Class CoreFrame {S : Type} `{Storage S} `{Env}
    (R : EngineBatch S * World S → EngineBatch S * World S → Prop) : Prop := {
  core_prims :: PrimFrame R;
  core_add_stmt s : saves_running s = false → pres R (add_stmt s);
  core_start_process d v k (a : ActivityState) : pres R (
    r ← createInstance d v k;
    AddPostFlushAction {| ra_instance := fst r; ra_tokens := snd r |} ;; mret a);
  core_start_elements d l v k (a : ActivityState) : pres R (
    r ← createInstanceWithStartingElements d l v k;
    AddPostFlushAction {| ra_instance := fst r; ra_tokens := snd r |} ;; mret a) }.

(** Every operation: any statement may be added. *)
Class EngineFrame {S : Type} `{Storage S} `{Env}
    (R : EngineBatch S * World S → EngineBatch S * World S → Prop) : Prop := {
  engine_prims :: PrimFrame R;
  frame_add_stmt s : pres R (add_stmt s) }.

(** The decisions a business rule task evaluates are saved at once. *)
Class DecisionFrame {S : Type} `{DecisionStorage S}
    (R : EngineBatch S * World S → EngineBatch S * World S → Prop) : Prop := {
  frame_SaveDecisionInstance d : pres (on_world R) (on_store (SaveDecisionInstance d)) }.

#[export] Hint Extern 1 (pres _ (query _)) => apply pres_query; apply _ : frames.
#[export] Hint Extern 1 (pres _ (load_instance _)) => apply pres_load_instance; apply _ : frames.
#[export] Hint Extern 1 (saves_running _ = false) => reflexivity : frames.
#[export] Hint Resolve core_add_stmt core_start_process core_start_elements frame_generateKey frame_now frame_set_State
  frame_set_Variables frame_new_instance frame_find_called frame_find_instance frame_timerManager
  frame_add_stmt frame_AddPostFlushAction frame_reset_batch frame_AddLockedInstance
  frame_AddParentLockedInstance frame_Clear frame_SaveDecisionInstance : frames.

Ltac frames :=
  repeat (first
    [ solve [eauto 3 with frames]
    | apply pres_lift
    | frame_step ]).

Section prims.
Context {S : Type} `{Storage S} `{Env}.
Context (R : EngineBatch S * World S → EngineBatch S * World S → Prop) `{!PrimFrame R}.

Lemma pres_ignore_error (m : BM S unit) : pres R m → pres R (ignore_error m).
Proof. intros Hm. unfold ignore_error. frames. Qed.

Lemma pres_fresh_instance k d v : pres (on_world R) (fresh_instance k d v).
Proof. unfold fresh_instance. frames. Qed.
Lemma pres_new_token id k st : pres (on_world R) (new_token id k st).
Proof. unfold new_token. frames. Qed.
End prims.
#[export] Hint Resolve pres_ignore_error pres_fresh_instance pres_new_token : frames.
#[export] Hint Extern 5 (PrimFrame _) => apply _ : frames.

(** *** Creating an instance *)

Section creating.
Context {S : Type} `{Storage S} `{Env}.
Context (R : EngineBatch S * World S → EngineBatch S * World S → Prop) `{!EngineFrame R}.

Lemma pres_SaveToken t : pres R (SaveToken t).
Proof. apply frame_add_stmt. Qed.
#[local] Hint Resolve frame_add_stmt pres_SaveToken : frames.
Lemma pres_starting_tokens k ids : pres R (starting_tokens k ids).
Proof. unfold starting_tokens. frames. Qed.
#[local] Hint Resolve pres_starting_tokens : frames.
Lemma pres_createInstance d v k : pres R (createInstance d v k).
Proof. unfold createInstance, SaveProcessInstance. frames. Qed.
Lemma pres_createInstanceWithStartingElements d l v k :
  pres R (createInstanceWithStartingElements d l v k).
Proof. unfold createInstanceWithStartingElements, SaveProcessInstance. frames. Qed.
End creating.

#[export] Instance engine_core {S : Type} `{Storage S} `{Env} R `{!EngineFrame R} :
  CoreFrame (S:=S) R.
Proof.
  split; [apply _|intros; apply frame_add_stmt|..]; intros;
    (frame_step; [first [apply pres_createInstance|apply pres_createInstanceWithStartingElements]|]);
    frames.
Qed.
#[export] Hint Extern 5 (CoreFrame _) => apply _ : frames.

Section core.
Context {S : Type} `{Storage S} `{Env}.
Context (R : EngineBatch S * World S → EngineBatch S * World S → Prop) `{!CoreFrame R}.

Lemma pres_SaveProcessInstance p : pres R (SaveProcessInstance p).
Proof. unfold SaveProcessInstance. frames. Qed.
Lemma pres_SaveTimer t : pres R (SaveTimer t).
Proof. by apply core_add_stmt. Qed.
Lemma pres_SaveJob j : pres R (SaveJob j).
Proof. by apply core_add_stmt. Qed.
Lemma pres_SaveMessageSubscription m : pres R (SaveMessageSubscription m).
Proof. by apply core_add_stmt. Qed.
Lemma pres_SaveToken_still t :
  saves_running (StSaveToken t) = false → pres R (SaveToken t).
Proof. apply core_add_stmt. Qed.
Lemma pres_SaveFlowElementInstance f : pres R (SaveFlowElementInstance f).
Proof. by apply core_add_stmt. Qed.
Lemma pres_UpdateOutputFlowElementInstance f : pres R (UpdateOutputFlowElementInstance f).
Proof. by apply core_add_stmt. Qed.
Lemma pres_SaveIncident i : pres R (SaveIncident i).
Proof. by apply core_add_stmt. Qed.
#[local] Hint Resolve pres_SaveProcessInstance pres_SaveTimer pres_SaveJob
  pres_SaveMessageSubscription pres_SaveToken_still pres_SaveFlowElementInstance
  pres_UpdateOutputFlowElementInstance pres_SaveIncident : frames.

Lemma pres_createNewIncidentFromToken e t : pres (on_world R) (createNewIncidentFromToken e t).
Proof. unfold createNewIncidentFromToken. frames. Qed.
#[local] Hint Resolve pres_createNewIncidentFromToken : frames.

Lemma pres_WriteTokenIncident t p e : pres R (WriteTokenIncident t p e).
Proof. unfold WriteTokenIncident. frames. Qed.
Lemma pres_WriteMessageIncident m p : pres R (WriteMessageIncident m p).
Proof. unfold WriteMessageIncident. frames. Qed.

(** *** Instances.v *)

Lemma pres_target_id i f : pres R (target_id i f).
Proof. unfold target_id. frames. Qed.
Lemma pres_save_flow i f k : pres R (save_flow i f k).
Proof. unfold save_flow. frames. Qed.
#[local] Hint Resolve pres_new_token pres_target_id pres_save_flow : frames.

Lemma pres_getExecutionTokenActivity p t : pres (on_world R) (getExecutionTokenActivity p t).
Proof. unfold getExecutionTokenActivity. frames. Qed.

Lemma pres_transition_rest i l : pres R (transition_rest i l).
Proof. unfold transition_rest. frames. Qed.
#[local] Hint Resolve pres_transition_rest : frames.
Lemma pres_handleDefaultElementTransition p n t : pres R (handleDefaultElementTransition p n t).
Proof. unfold handleDefaultElementTransition. frames. Qed.
Lemma pres_handleMultiInstanceElementTransition p n t :
  pres R (handleMultiInstanceElementTransition p n t).
Proof. unfold handleMultiInstanceElementTransition. frames. Qed.
#[local] Hint Resolve pres_handleDefaultElementTransition
  pres_handleMultiInstanceElementTransition : frames.
Lemma pres_handleElementTransition p n t : pres R (handleElementTransition p n t).
Proof. unfold handleElementTransition. frames. Qed.

Lemma pres_cancel_subscriptions w q : pres R (cancel_subscriptions w q).
Proof. unfold cancel_subscriptions. frames. Qed.
Lemma pres_cancel_timers w q : pres R (cancel_timers w q).
Proof. unfold cancel_timers. frames. Qed.
Lemma pres_cancel_jobs w q : pres R (cancel_jobs w q).
Proof. unfold cancel_jobs. frames. Qed.
Lemma pres_resolve_incidents w q : pres R (resolve_incidents w q).
Proof. unfold resolve_incidents. frames. Qed.
Lemma pres_called_processes k : pres R (called_processes k).
Proof. unfold called_processes. frames. Qed.
#[local] Hint Resolve pres_cancel_subscriptions pres_cancel_timers pres_cancel_jobs
  pres_resolve_incidents pres_called_processes : frames.

Lemma pres_cancel_waiting k : pres R (cancel_waiting k).
Proof. unfold cancel_waiting. frames. Qed.
#[local] Hint Resolve pres_cancel_waiting : frames.
Lemma pres_inner_cancel f p l : (∀ q, pres R (f q)) → pres R (inner_cancel f p l).
Proof. intros Hf. unfold inner_cancel, cancel_token. frames. Qed.
#[local] Hint Resolve pres_inner_cancel : frames.
Lemma pres_cancel_with f p : (∀ q, pres R (f q)) → pres R (cancel_with f p).
Proof. intros Hf. unfold cancel_with. frames. Qed.
#[local] Hint Resolve pres_cancel_with : frames.
Lemma pres_cancelSubProcessInstance n p : pres R (cancelSubProcessInstance n p).
Proof. revert p. induction n as [|n IH]; intros p; simpl; frames. Qed.
#[local] Hint Resolve pres_cancelSubProcessInstance : frames.
Lemma pres_handleProcessInstanceInnerCancel n p l :
  pres R (handleProcessInstanceInnerCancel n p l).
Proof. unfold handleProcessInstanceInnerCancel. frames. Qed.
Lemma pres_cancelInstance n p : pres R (cancelInstance n p).
Proof. unfold cancelInstance. frames. Qed.
#[local] Hint Resolve pres_cancelInstance : frames.
Lemma pres_terminateExecutionTokens n l k : pres R (terminateExecutionTokens n l k).
Proof. unfold terminateExecutionTokens, terminate_step. frames. Qed.

(** *** Tasks.v *)

Lemma pres_propagate_to_instance p l ms o : pres (on_world R) (propagate_to_instance p l ms o).
Proof. unfold propagate_to_instance. frames. Qed.
#[local] Hint Resolve pres_propagate_to_instance : frames.
Lemma pres_finish_handler p e t l j o : pres R (finish_handler p e t l j o).
Proof. unfold finish_handler. frames. Qed.
#[local] Hint Resolve pres_finish_handler : frames.
Lemma pres_createInternalTask p e t : pres R (createInternalTask p e t).
Proof. unfold createInternalTask. frames. Qed.
#[local] Hint Resolve pres_createInternalTask : frames.

(** *** Events.v *)

Lemma pres_createMessageSubscription i d n t :
  pres (on_world R) (createMessageSubscription i d n t).
Proof. unfold createMessageSubscription. frames. Qed.
#[local] Hint Resolve pres_createMessageSubscription : frames.
Lemma pres_createMessageCatchEvent p d n t : pres R (createMessageCatchEvent p d n t).
Proof. unfold createMessageCatchEvent. frames. Qed.
Lemma pres_propagate_message p ms v : pres (on_world R) (propagate_message p ms v).
Proof. unfold propagate_message. frames. Qed.
#[local] Hint Resolve pres_createMessageCatchEvent pres_propagate_message
  pres_handleElementTransition : frames.
Lemma pres_publishMessageOnListener l m p v : pres R (publishMessageOnListener l m p v).
Proof. unfold publishMessageOnListener. frames. Qed.
Lemma pres_cancelBoundarySubscriptions t : pres R (cancelBoundarySubscriptions t).
Proof. unfold cancelBoundarySubscriptions. frames. Qed.
Lemma pres_terminate_token_jobs t : pres R (terminate_token_jobs t).
Proof. unfold terminate_token_jobs. frames. Qed.
#[local] Hint Resolve pres_publishMessageOnListener pres_cancelBoundarySubscriptions
  pres_terminate_token_jobs : frames.
Lemma pres_interrupt_by_message n t : pres R (interrupt_by_message n t).
Proof. unfold interrupt_by_message. frames. Qed.
#[local] Hint Resolve pres_interrupt_by_message : frames.
Lemma pres_createTimer p d n t : pres R (createTimer p d n t).
Proof. unfold createTimer. frames. Qed.
#[local] Hint Resolve pres_createTimer : frames.
Lemma pres_createTimerCatchEvent p d n t : pres R (createTimerCatchEvent p d n t).
Proof. unfold createTimerCatchEvent. frames. Qed.
Lemma pres_interrupt_by_timer n t : pres R (interrupt_by_timer n t).
Proof. unfold interrupt_by_timer. frames. Qed.
#[local] Hint Resolve pres_createTimerCatchEvent pres_interrupt_by_timer : frames.
Lemma pres_handleBoundaryTimer n tm p t : pres R (handleBoundaryTimer n tm p t).
Proof. unfold handleBoundaryTimer. frames. Qed.
Lemma pres_createBoundaryEventSubscriptions t p n :
  pres R (createBoundaryEventSubscriptions t p n).
Proof. unfold createBoundaryEventSubscriptions. frames. Qed.
#[local] Hint Resolve pres_createBoundaryEventSubscriptions : frames.

Lemma pres_find_gateway_target i id l : pres R (find_gateway_target i id l).
Proof. unfold find_gateway_target. frames. Qed.
Lemma pres_consume_gateway_event e c p v : pres R (consume_gateway_event e c p v).
Proof. unfold consume_gateway_event. frames. Qed.
Lemma pres_cancel_other_events e t : pres R (cancel_other_events e t).
Proof. unfold cancel_other_events. frames. Qed.
#[local] Hint Resolve pres_find_gateway_target pres_consume_gateway_event
  pres_cancel_other_events : frames.
Lemma pres_publishEventOnEventGateway g e p v : pres R (publishEventOnEventGateway g e p v).
Proof. unfold publishEventOnEventGateway. frames. Qed.

Lemma pres_createIntermediateCatchEvent p ice t : pres R (createIntermediateCatchEvent p ice t).
Proof. unfold createIntermediateCatchEvent. frames. Qed.
Lemma pres_find_link_target (n : string) l : pres R (find_link_target n l).
Proof. induction l as [|x l IH]; simpl; frames. Qed.
Lemma pres_propagate_link p ms : pres R (propagate_link p ms).
Proof. unfold propagate_link. frames. Qed.
#[local] Hint Resolve pres_createIntermediateCatchEvent pres_find_link_target
  pres_propagate_link : frames.
Lemma pres_handleIntermediateThrowEvent p ite t : pres R (handleIntermediateThrowEvent p ite t).
Proof. unfold handleIntermediateThrowEvent, handleIntermediateThrowLinkEvent. frames. Qed.
#[local] Hint Resolve pres_handleIntermediateThrowEvent : frames.

(** *** Gateways.v *)

Lemma pres_fork i l : pres R (fork i l).
Proof. unfold fork. frames. Qed.
#[local] Hint Resolve pres_fork : frames.
Lemma pres_handleParallelGateway p g t : pres R (handleParallelGateway p g t).
Proof. unfold handleParallelGateway. frames. Qed.
Lemma pres_handleExclusiveGateway p g t : pres R (handleExclusiveGateway p g t).
Proof. unfold handleExclusiveGateway. frames. Qed.
Lemma pres_inclusive_filter l d v :
  pres R (inclusivelyFilterByConditionExpression l d v).
Proof. unfold inclusivelyFilterByConditionExpression. frames. Qed.
#[local] Hint Resolve pres_inclusive_filter : frames.
Lemma pres_handleInclusiveGateway p g t : pres R (handleInclusiveGateway p g t).
Proof. unfold handleInclusiveGateway. frames. Qed.
Lemma pres_handleEventBasedGateway p g t : pres R (handleEventBasedGateway p g t).
Proof. unfold handleEventBasedGateway. frames. Qed.
#[local] Hint Resolve pres_handleParallelGateway pres_handleExclusiveGateway
  pres_handleInclusiveGateway pres_handleEventBasedGateway
  pres_handleProcessInstanceInnerCancel : frames.
Lemma pres_handleTerminateEndEvent n p t : pres R (handleTerminateEndEvent n p t).
Proof. unfold handleTerminateEndEvent. frames. Qed.
Lemma pres_handlePlainEndEvent p b : pres R (handlePlainEndEvent p b).
Proof. unfold handlePlainEndEvent, nothing_else_active. frames. Qed.
Lemma pres_handleMessageEndEvent p e t : pres R (handleMessageEndEvent p e t).
Proof. unfold handleMessageEndEvent. frames. Qed.
#[local] Hint Resolve pres_handleTerminateEndEvent pres_handlePlainEndEvent
  pres_handleMessageEndEvent : frames.
Lemma pres_handleEndEvent n p e t : pres R (handleEndEvent n p e t).
Proof. unfold handleEndEvent, end_event_step. frames. Qed.
Lemma pres_handleExternalEndEventContinuation p e t l :
  pres R (handleExternalEndEventContinuation p e t l).
Proof. unfold handleExternalEndEventContinuation. frames. Qed.
#[local] Hint Resolve pres_handleEndEvent : frames.

(** *** SubProcess.v *)

Lemma pres_save_called_element i n t v : pres R (save_called_element i n t v).
Proof. unfold save_called_element. frames. Qed.
#[local] Hint Resolve pres_save_called_element : frames.
Lemma pres_createCallActivity p e t : pres R (createCallActivity p e t).
Proof. unfold createCallActivity. frames. Qed.
Lemma pres_createSubProcess p e t : pres R (createSubProcess p e t).
Proof. unfold createSubProcess. frames. Qed.
Lemma pres_start_multi_instance b p n mi t : pres R (start_multi_instance b p n mi t).
Proof. unfold start_multi_instance. frames. Qed.
#[local] Hint Resolve pres_createCallActivity pres_createSubProcess
  pres_start_multi_instance : frames.
Lemma pres_start_multi p a mi t : pres R (start_multi p a mi t).
Proof. unfold start_multi, startSequentialMultiInstance, startParallelMultiInstance. frames. Qed.
Lemma pres_run_multi f p k a mi t : (∀ p n t, pres R (f p n t)) → pres R (run_multi f p k a mi t).
Proof. intros Hf. unfold run_multi. frames. Qed.
#[local] Hint Resolve pres_start_multi pres_run_multi : frames.
Lemma pres_handleMultiInstanceActivity f p a mi t :
  (∀ p n t, pres R (f p n t)) → pres R (handleMultiInstanceActivity f p a mi t).
Proof. intros Hf. unfold handleMultiInstanceActivity. frames. Qed.

Lemma pres_parent_setup t k : pres R (parent_setup t k).
Proof. unfold parent_setup. frames. Qed.
Lemma pres_parent_outputs p q ms : pres R (parent_outputs p q ms).
Proof. unfold parent_outputs. frames. Qed.
#[local] Hint Resolve pres_parent_setup pres_parent_outputs : frames.
#[local] Hint Resolve pres_handleMultiInstanceActivity : frames.

(** *** Engine.v *)

Context `{DecisionStorage S} `{!DecisionFrame R}.

Lemma pres_FindAndEvaluateDRD n ty id tag v :
  pres (on_world R) (FindAndEvaluateDRD n ty id tag v).
Proof.
  unfold FindAndEvaluateDRD, find_decision, evaluateDRD. frames; apply pres_evaluateDecision, _.
Qed.
#[local] Hint Resolve pres_FindAndEvaluateDRD : frames.
Lemma pres_create_activity n p e t : pres R (create_activity n p e t).
Proof.
  unfold create_activity, createUserTask, createBusinessRuleTask, createExternalBusinessRuleTask,
    handleLocalBusinessRuleTask, business_rule_outputs, business_rule_failed. frames.
Qed.
#[local] Hint Resolve pres_create_activity : frames.
Lemma pres_handle_activity_or_multi n p a t : pres R (handle_activity_or_multi n p a t).
Proof. unfold handle_activity_or_multi, handleActivity. frames. Qed.
#[local] Hint Resolve pres_handle_activity_or_multi : frames.

Lemma pres_processFlowNode n p a t : pres R (processFlowNode n p a t).
Proof. unfold processFlowNode. frames. Qed.
End core.

(** *** Where a running token is saved on its own *)

Section tokens.
Context {S : Type} `{Storage S} `{Env}.
Context (R : EngineBatch S * World S → EngineBatch S * World S → Prop) `{!EngineFrame R}.
#[local] Hint Resolve pres_SaveToken pres_new_token pres_createMessageCatchEvent
  pres_interrupt_by_message pres_handleElementTransition pres_propagate_message
  pres_SaveMessageSubscription pres_SaveProcessInstance pres_SaveFlowElementInstance
  pres_UpdateOutputFlowElementInstance pres_cancelBoundarySubscriptions pres_parent_setup
  pres_parent_outputs : frames.

Lemma pres_startExecutionTokens ids p : pres R (startExecutionTokens ids p).
Proof. unfold startExecutionTokens. frames. Qed.
Lemma pres_fork_by_message p l t : pres R (fork_by_message p l t).
Proof. unfold fork_by_message. frames. Qed.
#[local] Hint Resolve pres_fork_by_message : frames.
Lemma pres_publishMessageOnBoundaryListener n l m p v :
  pres R (publishMessageOnBoundaryListener n l m p v).
Proof. unfold publishMessageOnBoundaryListener. frames. Qed.
#[local] Hint Resolve pres_publishMessageOnBoundaryListener : frames.
Lemma pres_handleBoundaryMessage n m p v : pres R (handleBoundaryMessage n m p v).
Proof. unfold handleBoundaryMessage. frames. Qed.

Lemma pres_parent_continue sv p n t v :
  (∀ m, pres R m → pres R (sv m)) → pres R (parent_continue sv p n t v).
Proof. intros Hs. unfold parent_continue. frames. Qed.
#[local] Hint Extern 1 (pres _ (parent_continue _ _ _ _ _)) =>
  apply pres_parent_continue; intros ??; frames : frames.
Lemma pres_handleParentProcessContinuation p : pres R (handleParentProcessContinuation p).
Proof.
  unfold handleParentProcessContinuation, handleParentProcessContinuationForSubProcess,
    handleParentProcessContinuationForCallActivity,
    handleParentProcessContinuationForMultiInstance.
  frames.
Qed.
End tokens.
