(* ===== verification/System.v ===== *)
(** The engine as a system: its public operations, the steps it takes (an
    operation, a goroutine started by a flush, a timer that is due), and what
    every step keeps.  A relation between worlds that the primitives respect is
    respected by every operation ([WorldFrame]); the locks of instances need
    the finer argument of the section on locks. *)
From S2P Require Import Prelude Monad Model Runtime DmnModel Storage Locks TimerManager World.
From S2P Require Import Conditions Dmn Instances Tasks Events Gateways SubProcess Engine Api Frames.

(** ** Operations *)

Inductive Operation :=
| OpCreateInstanceById (processId : string) (variableContext : vars)
| OpCreateInstanceByKey (definitionKey : Z) (variableContext : vars)
| OpCreateInstanceWithStartingElements (definitionKey : Z) (ids : list string) (variableContext : vars)
| OpCancelInstanceByKey (instanceKey : Z)
| OpModifyInstance (instanceKey : Z) (terminate : list Z) (start : list string) (variableContext : vars)
| OpDeleteInstanceVariable (instanceKey : Z) (variable : string)
| OpJobAssignByKey (jobKey : Z) (assignee : option string)
| OpJobFailByKey (jobKey : Z) (message : string) (errorCode : option string) (variables : vars)
| OpJobCompleteByKey (jobKey : Z) (variables : vars)
| OpActivateJobs (jobType : string)
| OpPublishMessageByName (name correlationKey : string) (variables : vars)
| OpResolveIncident (key : Z).

Section system.
Context {S : Type} `{Storage S} `{DecisionStorage S} `{Env}.

Definition discard {X A} (m : ST X A) : ST X unit := m ;; mret tt.

Definition run_operation (fuel : nat) (op : Operation) : EM S unit :=
  match op with
  | OpCreateInstanceById id v => discard (CreateInstanceById fuel id v)
  | OpCreateInstanceByKey k v => discard (CreateInstanceByKey fuel k v)
  | OpCreateInstanceWithStartingElements k ids v =>
      discard (CreateInstanceWithStartingElements fuel k ids v)
  | OpCancelInstanceByKey k => CancelInstanceByKey fuel k
  | OpModifyInstance k t s v => discard (ModifyInstance fuel k t s v)
  | OpDeleteInstanceVariable k v => discard (DeleteInstanceVariable k v)
  | OpJobAssignByKey k a => JobAssignByKey k a
  | OpJobFailByKey k m c v => JobFailByKey k m c v
  | OpJobCompleteByKey k v => JobCompleteByKey fuel k v
  | OpActivateJobs ty => discard (ActivateJobs ty)
  | OpPublishMessageByName n c v => PublishMessageByName fuel n c v
  | OpResolveIncident k => ResolveIncident fuel k
  end.

(** The first goroutine a flush started runs its instance; its error is only
    logged. *)
Definition run_spawned (fuel : nat) : EM S unit :=
  l ← gets w_spawned;
  match l with
  | [] => mret tt
  | a :: l' =>
      modify (w_set_spawned l') ;;
      ignore_error (RunProcessInstance fuel a.(ra_instance) a.(ra_tokens))
  end.

(** The steps: a public operation that returns a value or an error; the first
    goroutine of those a flush started; a timer that is due, when triggering
    it succeeds.  (What a failing trigger leaves behind is the subject of
    [LockProps.late_timer_leaks_lock].) *)
Inductive step : World S → World S → Prop :=
| step_operation fuel op w o w' :
    run_operation fuel op w = (o, w') → returns o → step w w'
| step_spawned fuel w o w' :
    run_spawned fuel w = (o, w') → returns o → step w w'
| step_timer fuel t w r w1 o w' :
    TriggerTimer fuel t w = (Ret r, w1) →
    ignore_error (RunProcessInstance fuel r.1 r.2) w1 = (o, w') → returns o → step w w'.

Definition reachable : World S → World S → Prop := rtc step.
End system.

(** ** Relations every operation respects *)

Class WorldFrame {S : Type} `{Storage S} `{DecisionStorage S} `{Env}
    (RW : World S → World S → Prop) : Prop := {
  wf_preorder :: PreOrder RW;
  wf_generateKey : pres RW generateKey;
  wf_now : pres RW now;
  wf_set_State p s : pres RW (set_State p s);
  wf_set_Variables p v : pres RW (set_Variables p v);
  wf_new_instance i : pres RW (new_instance i);
  wf_find_called k : pres RW (on_heap (λ s, FindProcessInstancesByParentExecutionTokenKey s k));
  wf_find_instance k : pres RW (on_heap (λ s, FindProcessInstanceByKey s k));
  wf_refresh p : pres RW (refresh p);
  wf_timerManager f : pres RW (on_timerManager f);
  wf_on_locks {A} (m : ST RunningInstancesCache A) : pres RW (on_locks m);
  wf_exec s : pres RW (on_store (exec s));
  wf_flush l : pres RW (on_store (flush l));
  wf_SaveDecisionInstance d : pres RW (on_store (SaveDecisionInstance d));
  wf_set_spawned l w : RW w (w_set_spawned l w) }.

(** The relation on batches: no operation adds a pre-flush action. *)
Definition batch_rel {S} (RW : World S → World S → Prop)
    (x y : EngineBatch S * World S) : Prop :=
  x.1.(preFlushActions) = [] → RW x.2 y.2 ∧ y.1.(preFlushActions) = [].

#[export] Instance batch_rel_preorder {S} (RW : World S → World S → Prop) `{!PreOrder RW} :
  PreOrder (batch_rel RW).
Proof.
  split; [intros x Hx; by split|]. intros x y z H1 H2 Hx.
  destruct (H1 Hx) as [? Hy], (H2 Hy). split; [by etrans|done].
Qed.

Section world_frame.
Context {S : Type} `{Storage S} `{DecisionStorage S} `{Env}.
Context (RW : World S → World S → Prop) `{!WorldFrame RW}.

Lemma batch_rel_modify f :
  (∀ bw, (f bw).2 = bw.2 ∧ (bw.1.(preFlushActions) = [] → (f bw).1.(preFlushActions) = [])) →
  pres (batch_rel RW) (modify f).
Proof.
  intros Hf bw Hb. destruct (Hf bw) as [Hw Hp]. simpl. rewrite Hw.
  split; [reflexivity|by apply Hp].
Qed.

Lemma pres_on_world {A} (m : EM S A) : pres RW m → pres (on_world (batch_rel RW)) m.
Proof. intros Hm w. specialize (Hm w). by destruct (m w) as [[] w']; try intros b Hb. Qed.

Lemma pres_spawn a : pres RW (spawn a).
Proof. apply pres_modify. intros w. apply wf_set_spawned. Qed.
Lemma pres_query' {A} (q : S → result A) : pres RW (query q).
Proof. intros w. unfold query. destruct (q _); simpl; reflexivity. Qed.
Lemma pres_load_instance' p : pres RW (load_instance p).
Proof. intros w. unfold load_instance. destruct (_ !! p); simpl; [reflexivity|done]. Qed.
#[local] Hint Resolve pres_spawn pres_query' pres_load_instance' wf_generateKey wf_now wf_set_State
  wf_set_Variables wf_new_instance wf_find_called wf_find_instance wf_refresh wf_timerManager
  wf_on_locks wf_exec wf_flush wf_SaveDecisionInstance pres_on_world : frames.

Ltac wframes :=
  repeat (first
    [ solve [eauto 3 with frames]
    | apply pres_lift
    | frame_step ]).

Lemma pres_touch k : pres (batch_rel RW) (touch k).
Proof. by apply batch_rel_modify. Qed.
Lemma pres_set_batch l : pres (batch_rel RW) (set_batch (empty_batch l)).
Proof. by apply batch_rel_modify. Qed.
Lemma pres_get_batch : pres (batch_rel RW) get_batch.
Proof. apply pres_gets, _. Qed.
Lemma pres_add_stmt s : pres (batch_rel RW) (add_stmt s).
Proof. unfold add_stmt. destruct (prepare s); [by apply batch_rel_modify|frame_step]. Qed.
#[local] Hint Resolve pres_touch pres_set_batch pres_get_batch pres_add_stmt : frames.

#[export] Instance batch_rel_frame : EngineFrame (batch_rel RW).
Proof.
  split; [split|]; intros; eauto with frames; try apply _; try (by apply batch_rel_modify);
    unfold AddLockedInstance, AddParentLockedInstance, Clear, lock, unlock, tryLock; wframes.
Qed.

#[export] Instance batch_rel_decision : DecisionFrame (batch_rel RW).
Proof. split. eauto with frames. Qed.

Lemma pres_Flush : pres (batch_rel RW) Flush.
Proof.
  assert (Hm : ∀ l, pres (batch_rel RW) (
    r ← attempt (mret tt ;; lift (on_store (flush l))); Flush_deferred r ;; of_result r)).
  { intros l. unfold Flush_deferred, unlock. wframes. }
  intros [b w]. destruct (decide (length b.(preFlushActions) = 0)) as [Hb%nil_length_inv|Hb].
  - unfold Flush, get_batch. erewrite bind_step by done. simpl fst. rewrite Hb. apply Hm.
  - destruct (Flush (b, w)) as [[] [b' w']]; try done; intros Hp; simpl in Hp; by rewrite Hp in Hb.
Qed.
#[local] Hint Resolve pres_Flush : frames.
#[local] Hint Extern 5 (EngineFrame _) => apply _ : frames.
#[local] Hint Extern 5 (DecisionFrame _) => apply _ : frames.
Lemma pres_StorageBatch_Flush : pres (batch_rel RW) StorageBatch_Flush.
Proof. unfold StorageBatch_Flush. wframes. Qed.
#[local] Hint Resolve pres_StorageBatch_Flush pres_SaveProcessInstance pres_SaveToken pres_SaveJob
  pres_SaveTimer pres_SaveIncident pres_UpdateOutputFlowElementInstance pres_ignore_error
  frame_Clear : frames.

(** The body of a function with its own batch. *)
Lemma pres_with_batch {A} b (body : BM S A) :
  b.(preFlushActions) = [] → pres (batch_rel RW) body → pres RW (with_batch b body).
Proof.
  intros Hb Hm w. specialize (Hm (b, w)). unfold with_batch.
  destruct (body (b, w)) as [[] [b' w']]; try done; by apply (Hm Hb).
Qed.
Lemma pres_clearing {A} b (body : BM S A) :
  b.(preFlushActions) = [] → pres (batch_rel RW) body → pres RW (clearing b body).
Proof. intros Hb Hm. apply pres_with_batch; [done|]. wframes. Qed.

Lemma pres_NewEngineBatch p : pres RW (NewEngineBatch p).
Proof. unfold NewEngineBatch, lock, unlock. wframes. Qed.
Lemma NewEngineBatch_pre p w b w' :
  NewEngineBatch p w = (Ret b, w') → b.(preFlushActions) = [].
Proof.
  intros (i & w1 & _ & E1)%bind_Ret. apply bind_Ret in E1 as ([] & w2 & _ & E1).
  apply bind_Ret in E1 as ([[]|e] & w3 & _ & E1).
  - apply bind_Ret in E1 as (j & w4 & _ & E1).
    destruct (pi_State j); try (by apply bind_Ret in E1 as ([] & w5 & _ & E1));
      unfold mret, ST_ret in E1; by simplify_eq.
  - by apply bind_Ret in E1 as ([] & w5 & _ & E1).
Qed.
#[local] Hint Resolve pres_NewEngineBatch : frames.

Lemma pres_new_batch {A} w p (f : EngineBatch S → EM S A) :
  (∀ b, b.(preFlushActions) = [] → pres RW (f b)) → pres RW (wrap w (NewEngineBatch p) ≫= f).
Proof.
  intros Hf. apply (pres_bind_post _ (λ b, b.(preFlushActions) = [])); [wframes| |done].
  intros s b s' E%wrap_Ret. by eapply NewEngineBatch_pre.
Qed.

(** *** RunProcessInstance *)

#[local] Hint Resolve pres_WriteTokenIncident pres_WriteMessageIncident
  pres_handleParentProcessContinuation pres_getExecutionTokenActivity pres_processFlowNode : frames.

Lemma pres_token_incident r e t p : pres (batch_rel RW) (token_incident r e t p).
Proof. unfold token_incident. wframes. Qed.
#[local] Hint Resolve pres_token_incident : frames.
Lemma pres_flush_or_incident r t p : pres (batch_rel RW) (flush_or_incident r t p).
Proof. unfold flush_or_incident. wframes. Qed.
#[local] Hint Resolve pres_flush_or_incident : frames.
Lemma pres_finish_instance r t p : pres (batch_rel RW) (finish_instance r t p).
Proof. unfold finish_instance. wframes. Qed.
#[local] Hint Resolve pres_finish_instance : frames.
Lemma pres_run_token n p r t : pres (batch_rel RW) (run_token n p r t).
Proof. unfold run_token. wframes. Qed.
Lemma pres_main_loop n p r l : pres RW (main_loop n p r l).
Proof.
  revert r l. induction n as [|n IH]; intros r [|t l]; simpl; wframes.
  apply pres_with_batch; [done|apply pres_run_token].
Qed.
#[local] Hint Resolve pres_main_loop : frames.
Lemma pres_RunProcessInstance n p l : pres RW (RunProcessInstance n p l).
Proof. unfold RunProcessInstance, run_locked, lock, unlock. wframes. Qed.
#[local] Hint Resolve pres_RunProcessInstance : frames.

(** *** The operations *)

#[local] Hint Resolve pres_createInstance pres_createInstanceWithStartingElements : frames.
Lemma pres_start_and_run n c : pres (batch_rel RW) c → pres RW (start_and_run n c).
Proof. intros Hc. unfold start_and_run. wframes. apply pres_with_batch; [done|]. wframes. Qed.
Lemma pres_create_default d v : pres (batch_rel RW) (create_default d v).
Proof. unfold create_default. wframes. Qed.
Lemma pres_create_on_elements d l v : pres (batch_rel RW) (create_on_elements d l v).
Proof. unfold create_on_elements. wframes. Qed.
#[local] Hint Resolve pres_create_default pres_create_on_elements : frames.
Lemma pres_CreateInstance n d v : pres RW (CreateInstance n d v).
Proof. apply pres_start_and_run. wframes. Qed.
#[local] Hint Resolve pres_CreateInstance : frames.
Lemma pres_CreateInstanceWithStartingElements n k ids v :
  pres RW (CreateInstanceWithStartingElements n k ids v).
Proof. unfold CreateInstanceWithStartingElements. wframes. apply pres_start_and_run. wframes. Qed.

#[local] Hint Resolve pres_cancelInstance pres_terminateExecutionTokens pres_startExecutionTokens
  pres_createNewIncidentFromToken pres_propagate_message pres_cancelBoundarySubscriptions
  pres_handleElementTransition pres_handleExternalEndEventContinuation
  pres_publishMessageOnListener pres_handleBoundaryMessage pres_publishEventOnEventGateway
  pres_handleBoundaryTimer : frames.

Ltac operation :=
  repeat (first
    [ solve [eauto 3 with frames]
    | apply pres_new_batch; intros ??
    | apply pres_clearing; [done|]
    | apply pres_with_batch; [done|]
    | apply pres_lift
    | frame_step ]).

Lemma pres_CancelInstanceByKey n k : pres RW (CancelInstanceByKey n k).
Proof. unfold CancelInstanceByKey. operation. Qed.
Lemma pres_ModifyInstance n k t s v : pres RW (ModifyInstance n k t s v).
Proof. unfold ModifyInstance. operation. Qed.
Lemma pres_DeleteInstanceVariable k v : pres RW (DeleteInstanceVariable k v).
Proof. unfold DeleteInstanceVariable, lock, unlock. operation. Qed.
Lemma pres_JobAssignByKey k a : pres RW (JobAssignByKey k a).
Proof. unfold JobAssignByKey. operation. Qed.

Lemma pres_job_batch {A} j (f : loc * EngineBatch S → EM S A) :
  (∀ p b, b.(preFlushActions) = [] → pres RW (f (p, b))) →
  pres RW (lock_instance_of_job j ≫= f).
Proof.
  intros Hf. apply (pres_bind_post _ (λ pb, pb.2.(preFlushActions) = [])).
  - unfold lock_instance_of_job. operation.
  - intros w pb w' (p & w1 & _ & E)%bind_Ret.
    apply bind_Ret in E as (b & w2 & E%wrap_Ret & E'). unfold mret, ST_ret in E'.
    simplify_eq. simpl. by eapply NewEngineBatch_pre.
  - intros [p b] Hb. by apply Hf.
Qed.
Lemma pres_refresh_job k : pres RW (refresh_job k).
Proof. unfold refresh_job. operation. Qed.
#[local] Hint Resolve pres_refresh_job : frames.
Lemma pres_JobFailByKey k m c v : pres RW (JobFailByKey k m c v).
Proof.
  unfold JobFailByKey, fail_job. frame_step; [operation|]. frame_step;
    try (apply pres_job_batch; intros ???); cbv zeta; operation.
Qed.
Lemma pres_complete_job p j v : pres (batch_rel RW) (complete_job p j v).
Proof. unfold complete_job. operation. Qed.
#[local] Hint Resolve pres_complete_job : frames.
Lemma pres_JobCompleteByKey n k v : pres RW (JobCompleteByKey n k v).
Proof.
  unfold JobCompleteByKey, complete_locked. frame_step; [operation|]. frame_step;
    try (apply pres_job_batch; intros ???); cbv zeta; operation.
Qed.
Lemma pres_ActivateJobs ty : pres RW (ActivateJobs ty).
Proof. unfold ActivateJobs, activate_job. operation. Qed.

Lemma pres_message_incident m p e : pres (batch_rel RW) (message_incident m p e).
Proof. unfold message_incident. operation. Qed.
Lemma pres_flush_and_run n p l : pres (batch_rel RW) (flush_and_run n p l).
Proof. unfold flush_and_run. operation. Qed.
#[local] Hint Resolve pres_message_incident pres_flush_and_run : frames.
Lemma pres_publish_to_node n nd m p v : pres (batch_rel RW) (publish_to_node n nd m p v).
Proof. unfold publish_to_node. operation. Qed.
#[local] Hint Resolve pres_publish_to_node : frames.
Lemma pres_PublishMessageByName n nm ck v : pres RW (PublishMessageByName n nm ck v).
Proof. unfold PublishMessageByName, PublishMessage, active_subscription. operation. Qed.

Lemma pres_trigger_at_node n nd t p : pres (batch_rel RW) (trigger_at_node n nd t p).
Proof. unfold trigger_at_node. operation. Qed.
#[local] Hint Resolve pres_trigger_at_node : frames.
Lemma pres_TriggerTimer n t : pres RW (TriggerTimer n t).
Proof. unfold TriggerTimer. operation. Qed.
Lemma pres_ResolveIncident n k : pres RW (ResolveIncident n k).
Proof. unfold ResolveIncident, find_incident. operation. Qed.

#[local] Hint Resolve pres_CreateInstanceWithStartingElements pres_CancelInstanceByKey
  pres_ModifyInstance pres_DeleteInstanceVariable pres_JobAssignByKey pres_JobFailByKey
  pres_JobCompleteByKey pres_ActivateJobs pres_PublishMessageByName pres_ResolveIncident : frames.

Lemma pres_run_operation n op : pres RW (run_operation n op).
Proof.
  destruct op; unfold run_operation, discard, CreateInstanceById, CreateInstanceByKey; operation.
Qed.
Lemma pres_run_spawned n : pres RW (run_spawned n).
Proof.
  unfold run_spawned, ignore_error. operation. apply pres_modify. intros w. apply wf_set_spawned.
Qed.

Lemma step_rel w w' : step w w' → RW w w'.
Proof.
  destruct 1 as [n op w o w' E Ho|n w o w' E Ho|n t w r w1 o w' E E' Ho].
  - eapply pres_returns; [apply pres_run_operation|done..].
  - eapply pres_returns; [apply pres_run_spawned|done..].
  - etrans; (eapply pres_returns; [|eassumption|done]); [apply pres_TriggerTimer|].
    unfold ignore_error. wframes.
Qed.

Lemma reachable_rel w w' : reachable w w' → RW w w'.
Proof. induction 1 as [|x y z Hs _ IH]; [reflexivity|]. etrans; [by apply step_rel|done]. Qed.
End world_frame.
