(* ===== verification/LockDiscipline.v ===== *)
(** The locks of process instances: every operation of the engine that returns,
    with a value or an error, has released every lock it took, except the
    trigger of a timer, which keeps the lock of the timer's instance on some of
    its errors.  The argument
    follows the batch: it lists the instances it has locked, the handlers keep
    that list in step with the locks, and Flush and Clear release what it
    lists. *)
From S2P Require Import Prelude Monad Model Runtime DmnModel Storage Locks TimerManager World.
From S2P Require Import Conditions Dmn Instances Tasks Events Gateways SubProcess Engine Api Frames System.

(** The locks held in a world are those of [base]. *)
Definition holds {S} (base : Z → bool) (w : World S) : Prop :=
  cache_wf w.(w_locks) ∧ ∀ k, held w.(w_locks) k = base k.

Definition upd (k : Z) (b : bool) (base : Z → bool) : Z → bool :=
  λ j, if (j =? k)%Z then b else base j.

Definition with_touched (l : list Z) (base : Z → bool) : Z → bool :=
  λ k, base k || bool_decide (k ∈ l).

(** The locks held are those of [base], held before, and those the batch
    lists. *)
Record balanced {S} (base : Z → bool) (bw : EngineBatch S * World S) : Prop := {
  bal_pre : bw.1.(preFlushActions) = [];
  bal_nodup : NoDup bw.1.(touchedInstances);
  bal_new k : k ∈ bw.1.(touchedInstances) → base k = false;
  bal_holds : holds (with_touched bw.1.(touchedInstances) base) bw.2 }.

Definition released {S} (base : Z → bool) (bw : EngineBatch S * World S) : Prop :=
  balanced base bw ∧ bw.1.(touchedInstances) = [].

Definition lock_rel {S} (x y : EngineBatch S * World S) : Prop :=
  ∀ base, balanced base x → balanced base y.

#[export] Instance lock_rel_preorder {S} : PreOrder (@lock_rel S).
Proof. split; [by intros x base|]. intros x y z H1 H2 base Hx. by apply H2, H1. Qed.

(** A program that neither locks nor unlocks. *)
Definition no_lock {S A} (m : EM S A) : Prop := ∀ w, (m w).2.(w_locks) = w.(w_locks).

Lemma holds_ext {S} f g (w : World S) : (∀ k, f k = g k) → holds f w → holds g w.
Proof. intros Hfg [Hw Hh]. split; [done|]. intros k. by rewrite Hh. Qed.

(** ** Taking and releasing a lock *)

Section locks.
Context {S : Type}.
Implicit Types base : Z → bool.

Lemma triple_lock base k :
  triple (holds base) (lock (S:=S) k)
    (λ _ w, base k = false ∧ holds (upd k true base) w) (λ _ _, False).
Proof.
  intros w [Hw Hh]. unfold lock, on_locks, zoom.
  pose proof (lockInstance_spec k _ Hw) as Hs. rewrite Hh in Hs.
  destruct (base k) eqn:Ek; destruct Hs as (c' & -> & Hc); [done|].
  destruct Hc as [Hc1 Hc2]. split; [done|]. split; [done|]. intros j. simpl.
  rewrite Hc2. unfold upd. by rewrite Hh.
Qed.

Lemma triple_tryLock base k :
  triple (holds base) (tryLock (S:=S) k)
    (λ _ w, base k = false ∧ holds (upd k true base) w) (λ _, holds base).
Proof.
  intros w [Hw Hh]. unfold tryLock, on_locks, zoom.
  pose proof (tryLockInstance_spec k _ Hw) as Hs. rewrite Hh in Hs.
  destruct (base k) eqn:Ek.
  - destruct Hs as (e & c' & -> & Hc1 & Hc2). split; [done|]. intros j. simpl. by rewrite Hc2.
  - destruct Hs as (c' & -> & Hc1 & Hc2). split; [done|]. split; [done|]. intros j. simpl.
    rewrite Hc2. unfold upd. by rewrite Hh.
Qed.

Lemma triple_unlock base k :
  triple (holds base) (unlock (S:=S) k)
    (λ _, holds (upd k false base)) (λ _ _, False).
Proof.
  intros w [Hw Hh]. unfold unlock, on_locks, zoom.
  pose proof (unlockInstance_spec k _ Hw) as Hs. rewrite Hh in Hs.
  destruct (base k) eqn:Ek.
  - destruct Hs as (c' & -> & Hc1 & Hc2). split; [done|]. intros j. simpl.
    rewrite Hc2. unfold upd. by rewrite Hh.
  - by destruct Hs as (msg & ->).
Qed.

Lemma triple_no_lock {A} base (m : EM S A) :
  no_lock m → triple (holds base) m (λ _, holds base) (λ _, holds base).
Proof.
  intros Hm w Hw. specialize (Hm w). unfold holds in *.
  destruct (m w) as [[] w']; try done; simpl in Hm; by rewrite Hm.
Qed.

(** A program of the world under a batch. *)
Lemma triple_lift {A} b (m : EM S A) (P : World S → Prop) Q E :
  triple P m Q E →
  triple (λ bw, bw.1 = b ∧ P bw.2) (lift m) (λ a bw, bw.1 = b ∧ Q a bw.2)
    (λ e bw, bw.1 = b ∧ E e bw.2).
Proof.
  intros Hm [b' w] [<- HP]. specialize (Hm w HP). unfold lift, zoom. simpl in *.
  by destruct (m w) as [[] w'].
Qed.

Lemma pres_of_triple {A} (m : BM S A) :
  (∀ base, triple (balanced base) m (λ _, balanced base) (λ _, balanced base)) →
  pres lock_rel m.
Proof.
  intros Hm bw. pose proof (λ base, Hm base bw) as Hb.
  destruct (m bw) as [[] bw']; try done; intros base; apply Hb.
Qed.

Lemma triple_of_pres {A} base (m : BM S A) :
  pres lock_rel m → triple (balanced base) m (λ _, balanced base) (λ _, balanced base).
Proof. intros Hm. apply (triple_pres lock_rel); [done|]. intros x y Hx Hxy. by apply Hxy. Qed.

(** A batch and the locks it lists. *)
Lemma balanced_split base b (w : World S) :
  balanced base (b, w) ↔
  b.(preFlushActions) = [] ∧ NoDup b.(touchedInstances) ∧
  (∀ k, k ∈ b.(touchedInstances) → base k = false) ∧
  holds (with_touched b.(touchedInstances) base) w.
Proof. split; [by intros [? ? ? ?]|by intros (?&?&?&?)]. Qed.

(** A newly locked instance is added to the list. *)
Lemma with_touched_snoc base l k j :
  upd k true (with_touched l base) j = with_touched (l ++ [k]) base j.
Proof.
  unfold upd, with_touched. destruct (j =? k)%Z eqn:E; propify.
  - subst. rewrite (bool_decide_eq_true_2 (k ∈ _)); [by rewrite orb_true_r|].
    apply elem_of_app. right. by apply list_elem_of_singleton.
  - f_equal. apply bool_decide_ext. rewrite elem_of_app, list_elem_of_singleton. tauto.
Qed.

Lemma upd_restore base k j : base k = false → upd k false (upd k true base) j = base j.
Proof. unfold upd. destruct (j =? k)%Z eqn:E; propify; by subst. Qed.
End locks.

(** ** The batch *)

Section batch.
Context {S : Type} `{Storage S} `{DecisionStorage S} `{Env}.

Lemma no_lock_load p : no_lock (load_instance (S:=S) p).
Proof. intros w. unfold load_instance. by destruct (_ !! p). Qed.
Lemma no_lock_modify (f : World S → World S) :
  (∀ w, (f w).(w_locks) = w.(w_locks)) → no_lock (modify f).
Proof. intros Hf w. apply Hf. Qed.
Lemma no_lock_update_instance p f : no_lock (update_instance (S:=S) p f).
Proof.
  intros w. unfold update_instance, load_instance, mbind, ST_bind. by destruct (_ !! p).
Qed.
Lemma no_lock_on_heap {A} (m : S → ST Heap A) : no_lock (on_heap m).
Proof. intros w. unfold on_heap. by destruct (m _ _). Qed.
Lemma no_lock_on_store {A} (m : ST S A) : no_lock (on_store m).
Proof. intros w. unfold on_store, zoom. by destruct (m _). Qed.

Lemma no_lock_frame {A} (m : EM S A) : no_lock m → pres (on_world lock_rel) m.
Proof.
  intros Hm w. pose proof (λ f, triple_no_lock f m Hm w) as Ht.
  destruct (m w) as [[] w']; try done;
    intros b base (?&?&?&?)%balanced_split; apply balanced_split; split_and!; eauto.
Qed.

Lemma batch_frame f :
  (∀ bw : EngineBatch S * World S, (f bw).2 = bw.2 ∧
     (f bw).1.(touchedInstances) = bw.1.(touchedInstances) ∧
     (bw.1.(preFlushActions) = [] → (f bw).1.(preFlushActions) = [])) →
  pres lock_rel (modify f).
Proof.
  intros Hf bw base [H1' H2' H3' H4']. destruct (Hf bw) as (Hw & Ht & Hp).
  split; rewrite ?Hw, ?Ht; auto.
Qed.

(** Taking the lock [k] for the batch [b]. *)
Definition took base (b : EngineBatch S) (k : Z) (bw : EngineBatch S * World S) : Prop :=
  bw.1 = b ∧ with_touched b.(touchedInstances) base k = false ∧
  holds (upd k true (with_touched b.(touchedInstances) base)) bw.2.

Lemma triple_register base b k p w0 :
  balanced base (b, w0) →
  triple (took base b k)
    (r ← attempt (lift (refresh p));
     match r with
     | Bad e => lift (unlock k) ;; throw (errw! "failed to find process instance %d: %w" [e])
     | Good _ => touch k
     end) (λ _, balanced base) (λ _, balanced base).
Proof.
  intros (Hp & Hn & Hnew & _)%balanced_split.
  apply triple_conseq with (P := λ bw, with_touched b.(touchedInstances) base k = false ∧
    (bw.1 = b ∧ holds (upd k true (with_touched b.(touchedInstances) base)) bw.2))
    (Q := λ _, balanced base) (E := λ _, balanced base); [|by intros bw (?&?&?)|done..].
  apply triple_pure. intros Hk.
  eapply triple_bind with (Q := λ _ bw, bw.1 = b ∧
    holds (upd k true (with_touched b.(touchedInstances) base)) bw.2).
  - apply triple_attempt.
    eapply triple_conseq;
      [apply triple_lift, triple_no_lock, no_lock_on_heap|intros bw Hq; exact Hq|done|].
    intros e bw Hq. exact Hq.
  - intros [[]|e].
    + intros [b' w] [Hb Hw]; simpl in Hb; subst b'. simpl. apply orb_false_iff in Hk as [Hbk Hkt].
      apply bool_decide_eq_false in Hkt. apply balanced_split. split_and!; simpl.
      * done.
      * apply NoDup_app. split_and!; [done| |by apply NoDup_singleton].
        intros j Hj ->%list_elem_of_singleton. done.
      * intros j [Hj|Hj%list_elem_of_singleton]%elem_of_app; [by apply Hnew|by subst].
      * eapply holds_ext; [|exact Hw]. intros j. apply with_touched_snoc.
    + eapply triple_bind.
      { eapply triple_conseq; [apply triple_lift, triple_unlock|intros bw Hq; exact Hq
          |intros u bw Hq; exact Hq|by intros e' bw [_ []]]. }
      intros u.
      apply triple_throw. intros [b' w] [Hb Hw]; simpl in Hb; subst b'. simpl in Hw.
      apply balanced_split. split_and!; [done..|].
      eapply holds_ext; [|exact Hw]. intros j. by apply upd_restore.
Qed.

(** Both ways of adding an instance to the batch: [tk] locks it. *)
Lemma pres_add_locked p (tk : Z → BM S unit) :
  (∀ base b k, triple (λ bw, bw.1 = b ∧ holds (with_touched b.(touchedInstances) base) bw.2) (tk k)
    (λ _, took base b k)
    (λ _ bw, bw.1 = b ∧ holds (with_touched b.(touchedInstances) base) bw.2)) →
  pres lock_rel
    (i ← lift (load_instance p); tk i.(pi_Key) ;;
     r ← attempt (lift (refresh p));
     match r with
     | Bad e => lift (unlock i.(pi_Key)) ;;
                throw (errw! "failed to find process instance %d: %w" [e])
     | Good _ => touch i.(pi_Key)
     end).
Proof.
  intros Htk. apply pres_of_triple. intros base [b w] Hb.
  pose proof Hb as (Hp & Hn & Hnew & Hw)%balanced_split.
  match goal with |- match ?m ?x with _ => _ end =>
    enough (Ht : triple (λ bw, bw.1 = b ∧ holds (with_touched b.(touchedInstances) base) bw.2)
      m (λ _, balanced base) (λ _, balanced base)) by (by apply (Ht (b, w))) end.
  assert (Hback : ∀ bw, bw.1 = b ∧ holds (with_touched b.(touchedInstances) base) bw.2 →
    balanced base bw).
  { intros [b' w'] [Hb' Hw']; simpl in Hb'; subst b'. by apply balanced_split. }
  eapply triple_bind with
    (Q := λ _ bw, bw.1 = b ∧ holds (with_touched b.(touchedInstances) base) bw.2).
  { eapply triple_conseq; [apply triple_lift, triple_no_lock, no_lock_load|intros ? Hq; exact Hq|done|].
    intros e. apply Hback. }
  intros i. eapply triple_bind.
  - eapply triple_conseq; [apply Htk|intros ? Hq; exact Hq|intros ?? Hq; exact Hq|]. intros e. apply Hback.
  - intros []. by eapply triple_register.
Qed.

Lemma pres_lock_AddLockedInstance p : pres lock_rel (AddLockedInstance (S:=S) p).
Proof.
  unfold AddLockedInstance. apply (pres_add_locked p (λ k, lift (lock k))).
  intros base b k. eapply triple_conseq; [apply triple_lift, triple_lock|intros ? Hq; exact Hq| |by intros e bw [_ []]].
  by intros [] bw (?&?&?).
Qed.

Lemma pres_lock_AddParentLockedInstance p : pres lock_rel (AddParentLockedInstance (S:=S) p).
Proof.
  unfold AddParentLockedInstance.
  apply (pres_add_locked p (λ k, wrap (λ e, errw! "failed locking parent instance %d: %w" [e])
    (lift (tryLock k)))).
  intros base b k. apply triple_wrap.
  eapply triple_conseq; [apply triple_lift, triple_tryLock|intros ? Hq; exact Hq| |by intros e bw].
  by intros [] bw (?&?&?).
Qed.

(** Releasing everything the batch lists. *)
Lemma triple_unlock_all base b l :
  NoDup l → (∀ k, k ∈ l → base k = false) →
  triple (λ bw, bw.1 = b ∧ holds (with_touched l base) bw.2)
    (for_each l (λ k, lift (unlock (S:=S) k)))
    (λ _ bw, bw.1 = b ∧ holds base bw.2) (λ _ _, False).
Proof.
  induction l as [|k l IH]; intros Hn Hnew; simpl.
  { apply triple_ret. intros bw [? Hw]. split; [done|]. eapply holds_ext; [|exact Hw].
    intros j. unfold with_touched. rewrite bool_decide_eq_false_2 by apply not_elem_of_nil.
    by rewrite orb_false_r. }
  apply NoDup_cons in Hn as [Hk Hn].
  eapply triple_bind.
  - eapply triple_conseq; [apply triple_lift, triple_unlock|intros ? Hq; exact Hq|intros ?? Hq; exact Hq|by intros e bw [_ []]].
  - intros []. eapply triple_conseq; [apply IH| |done|done]; [done| |].
    { intros j Hj. apply Hnew. by right. }
    intros bw [? Hw]. split; [done|]. eapply holds_ext; [|exact Hw]. intros j. simpl.
    unfold upd, with_touched. destruct (j =? k)%Z eqn:E; propify.
    + subst. rewrite Hnew by left. by rewrite bool_decide_eq_false_2.
    + f_equal. apply bool_decide_ext. rewrite elem_of_cons. tauto.
Qed.

Lemma balanced_empty base (w : World S) :
  released base (empty_batch [], w) ↔ holds base w.
Proof.
  assert (Hext : ∀ k, with_touched [] base k = base k).
  { intros k. unfold with_touched. rewrite bool_decide_eq_false_2 by apply not_elem_of_nil.
    by rewrite orb_false_r. }
  split.
  - intros [(_&_&_&Hw)%balanced_split _]. by eapply holds_ext.
  - intros Hw. split; [|done]. apply balanced_split. split_and!; simpl; [done|constructor| |].
    + intros k Hk. by apply not_elem_of_nil in Hk.
    + eapply holds_ext; [|exact Hw]. intros k. by rewrite Hext.
Qed.

Lemma triple_Clear base :
  triple (balanced base) (Clear (S:=S)) (λ _, released base) (λ _ _, False).
Proof.
  intros [b w] Hb. pose proof Hb as (Hp & Hn & Hnew & Hw)%balanced_split.
  unfold Clear, get_batch. erewrite bind_step by done. simpl fst.
  assert (Ht : triple (λ bw, bw.1 = b ∧ holds (with_touched b.(touchedInstances) base) bw.2)
    (for_each b.(touchedInstances) (λ k, lift (unlock k)) ;; set_batch (empty_batch []))
    (λ _, released base) (λ _ _, False)).
  { eapply triple_bind; [by apply triple_unlock_all|]. intros [] [b' w'] [_ Hw'].
    by apply balanced_empty. }
  by apply (Ht (b, w)).
Qed.

Lemma triple_Flush_deferred base r :
  triple (balanced base) (Flush_deferred (S:=S) r) (λ _, released base) (λ _ _, False).
Proof.
  intros [b w] Hb. pose proof Hb as (Hp & Hn & Hnew & Hw)%balanced_split.
  unfold Flush_deferred, get_batch. erewrite bind_step by done. simpl fst.
  match goal with |- match ?m ?x with _ => _ end =>
    enough (Ht : triple (λ bw, bw.1 = b ∧ holds (with_touched b.(touchedInstances) base) bw.2)
      m (λ _, released base) (λ _ _, False)) by (by apply (Ht (b, w))) end.
  eapply triple_bind; [by apply triple_unlock_all|]. intros [].
  eapply triple_bind with (Q := λ _ bw, holds base bw.2).
  - destruct r as [[]|e]; [|by apply triple_ret; intros bw [_ ?]].
    eapply triple_conseq; [apply (triple_for_each (λ bw, holds base bw.2)
      _ _ (λ _ _, False))| |done|done]; [|by intros bw [_ ?]].
    intros a _ bw Hbw. unfold spawn, lift, zoom. simpl. exact Hbw.
  - intros [] [b' w'] Hw'. by apply balanced_empty.
Qed.

Lemma triple_Flush base :
  triple (balanced base) (Flush (S:=S)) (λ _, released base) (λ _, released base).
Proof.
  intros [b w] Hb. pose proof Hb as (Hp & _)%balanced_split.
  unfold Flush, get_batch. erewrite bind_step by done. simpl fst. rewrite Hp.
  match goal with |- match ?m ?x with _ => _ end =>
    enough (Ht : triple (balanced base) m (λ _, released base) (λ _, released base))
      by (by apply (Ht (b, w))) end.
  eapply triple_bind with (Q := λ _, balanced base).
  - apply triple_attempt, triple_of_pres. simpl. frames. apply no_lock_frame, no_lock_on_store.
  - intros r. eapply triple_bind.
    + eapply triple_conseq; [apply triple_Flush_deferred|done|done|done].
    + intros []. apply triple_of_result. intros bw Hbw. by destruct r.
Qed.

Lemma released_balanced base (bw : EngineBatch S * World S) : released base bw → balanced base bw.
Proof. by intros [? _]. Qed.

(** *** The frame *)

#[export] Instance lock_frame : EngineFrame (@lock_rel S).
Proof.
  split; [split|]; intros; try apply _; try (by apply batch_frame);
    try apply no_lock_frame; try apply no_lock_update_instance; try apply no_lock_on_heap.
  - by intros w.
  - by intros w.
  - intros w. unfold new_instance. simpl. done.
  - intros w. unfold on_timerManager. by destruct (w_timerManager w).
  - apply pres_lock_AddLockedInstance.
  - apply pres_lock_AddParentLockedInstance.
  - apply pres_of_triple. intros base.
    eapply triple_conseq; [apply triple_Clear|done| |done]. intros ? bw. apply released_balanced.
  - unfold add_stmt. destruct (prepare s); [by apply batch_frame|frame_step].
Qed.

#[export] Instance lock_decision : DecisionFrame (@lock_rel S).
Proof. split. intros d. apply no_lock_frame, no_lock_on_store. Qed.

Lemma pres_lock_Flush : pres lock_rel (Flush (S:=S)).
Proof.
  apply pres_of_triple. intros base.
  eapply triple_conseq; [apply triple_Flush|done| |]; intros ? bw; apply released_balanced.
Qed.
End batch.

(** ** Calls that return no error *)

Section no_errors.
Context {S : Type} `{Storage S} `{Env}.

Lemma no_err_lift {A} (m : EM S A) : no_err m → no_err (lift m).
Proof.
  intros Hm [b w]. specialize (Hm w). unfold lift, zoom. simpl.
  by destruct (m w) as [[] w'].
Qed.
Lemma no_err_load p : no_err (load_instance (S:=S) p).
Proof. intros w. unfold load_instance. by destruct (_ !! p). Qed.
Lemma no_err_set_State p s : no_err (set_State (S:=S) p s).
Proof. unfold set_State, update_instance. no_err_step; [apply no_err_load|no_err_step]. Qed.
Lemma no_err_ignore {X} (m : ST X unit) : no_err (ignore_error m).
Proof. unfold ignore_error. repeat no_err_step. Qed.

Ltac no_errors :=
  repeat (first [ no_err_step | apply no_err_ignore | apply no_err_lift
                | apply no_err_load | apply no_err_set_State | done ]).

Lemma no_err_save_tokens (l : list ExecutionToken) :
  no_err (for_each l (λ tok, ignore_error (SaveToken (S:=S) tok))).
Proof. no_errors. Qed.
Lemma no_err_WriteTokenIncident t p e : no_err (WriteTokenIncident (S:=S) t p e).
Proof. unfold WriteTokenIncident, createNewIncidentFromToken, reset_batch. no_errors. Qed.
Lemma no_err_lift_load p : no_err (lift (load_instance (S:=S) p)).
Proof. no_errors. Qed.
End no_errors.

(** ** The operations *)

Definition held_rel {S} (w w' : World S) : Prop := ∀ base, holds base w → holds base w'.

#[export] Instance held_rel_preorder {S} : PreOrder (@held_rel S).
Proof. split; [by intros w base|]. intros x y z H1 H2 base Hx. by apply H2, H1. Qed.

Section operations.
Context {S : Type} `{Storage S} `{DecisionStorage S} `{Env}.

Lemma released_split base b (w : World S) :
  released base (b, w) ↔
  b.(preFlushActions) = [] ∧ b.(touchedInstances) = [] ∧ holds base w.
Proof.
  assert (Hext : ∀ k, with_touched [] base k = base k).
  { intros k. unfold with_touched. rewrite bool_decide_eq_false_2 by apply not_elem_of_nil.
    by rewrite orb_false_r. }
  split.
  - intros [(Hp&_&_&Hw)%balanced_split Ht]. simpl in Ht. rewrite Ht in Hw.
    split_and!; [done..|]. by eapply holds_ext.
  - intros (Hp & Ht & Hw). split; [|done]. apply balanced_split. rewrite Ht.
    split_and!; [done|constructor| |].
    + intros k Hk. by apply not_elem_of_nil in Hk.
    + eapply holds_ext; [|exact Hw]. intros k. by rewrite Hext.
Qed.

Lemma held_no_lock {A} (m : EM S A) : no_lock m → pres held_rel m.
Proof.
  intros Hm w. pose proof (λ f, triple_no_lock f m Hm w) as Ht.
  by destruct (m w) as [[] w']; try done; intros base Hb; apply Ht.
Qed.

Lemma held_of_triple {A} (m : EM S A) :
  (∀ base, triple (holds base) m (λ _, holds base) (λ _, holds base)) → pres held_rel m.
Proof.
  intros Hm w. pose proof (λ base, Hm base w) as Hb.
  destruct (m w) as [[] w']; try done; intros base; apply Hb.
Qed.

Lemma triple_of_held {A} base (m : EM S A) :
  pres held_rel m → triple (holds base) m (λ _, holds base) (λ _, holds base).
Proof. intros Hm. apply (triple_pres held_rel); [done|]. intros x y Hx Hxy. by apply Hxy. Qed.

Lemma held_query {A} (q : S → result A) : pres held_rel (query q).
Proof. apply held_no_lock. intros w. unfold query. by destruct (q _). Qed.
Lemma held_load p : pres held_rel (load_instance (S:=S) p).
Proof. apply held_no_lock, no_lock_load. Qed.
Lemma held_on_heap {A} (m : S → ST Heap A) : pres held_rel (on_heap m).
Proof. apply held_no_lock, no_lock_on_heap. Qed.
Lemma held_on_store {A} (m : ST S A) : pres held_rel (on_store m).
Proof. apply held_no_lock, no_lock_on_store. Qed.
Lemma held_set_State p s : pres held_rel (set_State (S:=S) p s).
Proof. apply held_no_lock, no_lock_update_instance. Qed.
Lemma held_set_Variables p v : pres held_rel (set_Variables (S:=S) p v).
Proof. apply held_no_lock, no_lock_update_instance. Qed.
#[local] Hint Resolve held_query held_load held_on_heap held_on_store held_set_State
  held_set_Variables : frames.

(** [lock k; defer unlock k] *)
Lemma held_locking {A} k (body : EM S A) :
  pres held_rel body → pres held_rel (lock k ;; deferred body (unlock k)).
Proof.
  intros Hbody. apply held_of_triple. intros base.
  assert (Hun : ∀ Q : Prop, base k = false →
    triple (holds (upd k true base)) (unlock (S:=S) k) (λ _, holds base) (λ _, holds base)).
  { intros _ Hk. eapply triple_conseq; [apply triple_unlock|done| |by intros ?? []].
    intros u w Hw. eapply holds_ext; [|exact Hw]. intros j. by apply upd_restore. }
  eapply triple_bind with (Q := λ _ w, base k = false ∧ holds (upd k true base) w).
  - eapply triple_conseq; [apply triple_lock|done|done|by intros ?? []].
  - intros []. apply triple_pure. intros Hk.
    eapply triple_deferred; [by apply triple_of_held|intros a|intros e]; by apply (Hun True).
Qed.

(** *** Bodies with a batch *)

Lemma held_with_batch {A} (body : BM S A) :
  (∀ base, triple (balanced base) body (λ _, released base) (λ _, released base)) →
  pres held_rel (with_batch NewEngineBatchClean body).
Proof.
  intros Hm. apply held_of_triple. intros base w Hw. unfold with_batch.
  assert (Hb : balanced base (NewEngineBatchClean, w)) by (by apply balanced_empty).
  specialize (Hm base _ Hb). destruct (body _) as [[] [b' w']]; try done;
    by apply released_split in Hm as (_&_&?).
Qed.

Lemma triple_clearing {A} base b (body : BM S A) :
  triple (balanced base) body (λ _, released base) (λ _, balanced base) →
  triple (λ w, balanced base (b, w)) (clearing b body) (λ _, holds base) (λ _, holds base).
Proof.
  intros Hm w Hw. unfold clearing, with_batch.
  assert (Ht : triple (balanced base) (on_error body Clear) (λ _, released base) (λ _, released base)).
  { eapply triple_on_error; [exact Hm|]. intros e.
    eapply triple_conseq; [apply triple_Clear|done|done|by intros ?? []]. }
  specialize (Ht _ Hw). destruct (on_error _ _ _) as [[] [b' w']]; try done;
    by apply released_split in Ht as (_&_&?).
Qed.

Lemma triple_load_key base p k :
  triple (λ w : World S, holds base w ∧
      ∃ i, w.(w_heap).(h_objects) !! p = Some i ∧ i.(pi_Key) = k)
    (load_instance p) (λ i w, i.(pi_Key) = k ∧ holds base w) (λ _ _, False).
Proof.
  intros w (Hw & i & Hi & Hk). unfold load_instance. by rewrite Hi.
Qed.

Lemma triple_NewEngineBatch `{!HeapLaws S} base p :
  triple (holds base) (NewEngineBatch (S:=S) p) (λ b w, balanced base (b, w)) (λ _, holds base).
Proof.
  unfold NewEngineBatch.
  eapply triple_bind with (Q := λ i w, holds base w ∧ w.(w_heap).(h_objects) !! p = Some i).
  { intros w Hw. unfold load_instance. by destruct (_ !! p) eqn:E. }
  intros i.
  eapply triple_bind with (Q := λ _ w, base i.(pi_Key) = false ∧
    holds (upd i.(pi_Key) true base) w ∧ w.(w_heap).(h_objects) !! p = Some i).
  { intros w [Hw Hi]. pose proof (triple_lock base i.(pi_Key) w Hw) as Hl.
    unfold lock, on_locks, zoom in *. destruct (lockInstance _ _) as [[] c]; try done.
    by destruct Hl. }
  intros u. apply triple_pure. intros Hk.
  assert (Hun : ∀ e, triple (holds (upd i.(pi_Key) true base))
    (unlock i.(pi_Key) ;; throw e : EM S (EngineBatch S))
    (λ b w, balanced base (b, w)) (λ _, holds base)).
  { intros e. eapply triple_bind.
    - eapply triple_conseq; [apply triple_unlock|done|intros ?? Hq; exact Hq|by intros ?? []].
    - intros v. apply triple_throw. intros w Hw. eapply holds_ext; [|exact Hw].
      intros j. by apply upd_restore. }
  eapply triple_bind with (Q := λ r w, holds (upd i.(pi_Key) true base) w ∧
    (is_Good r = true → ∃ j, w.(w_heap).(h_objects) !! p = Some j ∧ j.(pi_Key) = i.(pi_Key))).
  { apply triple_attempt. intros w [Hw Hi].
    pose proof (triple_no_lock _ (refresh p) (no_lock_on_heap _) w Hw) as Hl.
    pose proof (heap_Refresh w.(w_store) p w.(w_heap)) as Hr.
    unfold refresh, on_heap in *. destruct (RefreshProcessInstance _ _ _) as [[] h]; try done.
    split; [exact Hl|]. intros _. destruct Hr as [_ Hr]. destruct (Hr p i Hi) as (j & Hj & Hid & _).
    by exists j. }
  intros [v|e]; [|eapply triple_conseq; [apply Hun|by intros w []|done..]].
  eapply triple_bind.
  { eapply triple_conseq; [apply (triple_load_key (upd i.(pi_Key) true base) p i.(pi_Key))
      |intros w [Hw Hj]; split; [exact Hw|by apply Hj]|intros ?? Hq; exact Hq|by intros ?? []]. }
  intros j. apply triple_pure. intros Hj. rewrite Hj.
  assert (Hret : triple (holds (upd i.(pi_Key) true base))
    (mret (empty_batch [i.(pi_Key)]) : EM S (EngineBatch S))
    (λ b w, balanced base (b, w)) (λ _, holds base)).
  { apply triple_ret. intros w Hw. apply balanced_split. split_and!; simpl.
    - done.
    - apply NoDup_singleton.
    - by intros k ->%list_elem_of_singleton.
    - eapply holds_ext; [|exact Hw]. intros k. unfold upd, with_touched.
      destruct (k =? i.(pi_Key))%Z eqn:E; propify.
      + subst. rewrite bool_decide_eq_true_2 by by apply list_elem_of_singleton.
        by rewrite orb_true_r.
      + rewrite bool_decide_eq_false_2 by (by intros ?%list_elem_of_singleton).
        by rewrite orb_false_r. }
  by destruct (pi_State j).
Qed.

(** An operation that opens a batch on an instance and clears it on errors. *)
Lemma held_clearing `{!HeapLaws S} {A} w p (body : EngineBatch S → BM S A) :
  (∀ base b, triple (balanced base) (body b) (λ _, released base) (λ _, balanced base)) →
  pres held_rel (b ← wrap w (NewEngineBatch p); clearing b (body b)).
Proof.
  intros Hm. apply held_of_triple. intros base. eapply triple_bind.
  - apply triple_wrap. apply triple_NewEngineBatch.
  - intros b. by apply triple_clearing.
Qed.

(** *** Steps of a body *)

Lemma keep_step {A B} base (m : BM S A) (f : A → BM S B) Q :
  pres lock_rel m → (∀ a, triple (balanced base) (f a) Q (λ _, balanced base)) →
  triple (balanced base) (m ≫= f) Q (λ _, balanced base).
Proof. intros Hm Hf. eapply triple_bind; [by apply triple_of_pres|done]. Qed.

(** A step before a flush that always comes: it returns no error. *)
Lemma sure_step {A B} base (m : BM S A) (f : A → BM S B) Q E :
  pres lock_rel m → no_err m → (∀ a, triple (balanced base) (f a) Q E) →
  triple (balanced base) (m ≫= f) Q E.
Proof.
  intros Hm Hn Hf. eapply triple_bind with (Q := λ _, balanced base); [|done].
  eapply triple_no_err; [done|by apply triple_of_pres].
Qed.

Lemma triple_lift_released {A} base (m : EM S A) :
  pres held_rel m → triple (released base) (lift m) (λ _, released base) (λ _, released base).
Proof.
  intros Hm [b w] (Hp & Ht & Hw)%released_split. pose proof (triple_of_held base m Hm w Hw) as Hr.
  unfold lift, zoom. simpl. destruct (m w) as [[] w']; try done; by apply released_split.
Qed.

Lemma triple_released {A} base (m : BM S A) Q E :
  triple (balanced base) m Q E → triple (released base) m Q E.
Proof. intros Hm. eapply triple_conseq; [exact Hm| |done|done]. apply released_balanced. Qed.

(** *** RunProcessInstance *)

#[local] Hint Resolve pres_WriteTokenIncident pres_WriteMessageIncident pres_lock_Flush
  pres_handleParentProcessContinuation pres_getExecutionTokenActivity pres_processFlowNode
  pres_ignore_error pres_SaveProcessInstance pres_SaveToken pres_SaveJob pres_SaveIncident
  pres_SaveTimer pres_UpdateOutputFlowElementInstance frame_Clear : frames.
#[local] Hint Extern 5 (EngineFrame _) => apply _ : frames.
#[local] Hint Extern 5 (DecisionFrame _) => apply _ : frames.

Lemma triple_attempt_Flush base :
  triple (balanced base) (attempt (Flush (S:=S))) (λ _, released base) (λ _ _, False).
Proof. apply triple_attempt, triple_Flush. Qed.

Lemma triple_token_incident base r e t p :
  triple (balanced base) (token_incident (S:=S) r e t p) (λ _, released base) (λ _ _, False).
Proof.
  unfold token_incident. apply sure_step; [frames|apply no_err_WriteTokenIncident|]. intros _u.
  eapply triple_bind; [apply triple_attempt_Flush|]. intros x. cbv zeta. by apply triple_ret.
Qed.

Lemma triple_flush_or_incident base r t p :
  triple (balanced base) (flush_or_incident (S:=S) r t p) (λ _, released base) (λ _ _, False).
Proof.
  unfold flush_or_incident. eapply triple_bind; [apply triple_attempt_Flush|].
  intros [x|e]; [by apply triple_ret|]. apply triple_released, triple_token_incident.
Qed.

Lemma triple_then_ret {A B} base (m : BM S A) (f : A → B) :
  triple (balanced base) m (λ _, released base) (λ _ _, False) →
  triple (balanced base) (a ← m; mret (f a)) (λ _, released base) (λ _, released base).
Proof.
  intros Hm. eapply triple_bind.
  - eapply triple_conseq; [exact Hm|done|intros ?? Hq; exact Hq|by intros ?? []].
  - intros a. by apply triple_ret.
Qed.

Lemma triple_finish_instance base r t p :
  triple (balanced base) (finish_instance (S:=S) r t p) (λ _, released base) (λ _, released base).
Proof.
  unfold finish_instance. apply sure_step; [frames|apply no_err_lift_load|]. intros i.
  apply sure_step; [frames|apply no_err_attempt|]. intros [x|e]; apply triple_then_ret.
  - apply triple_flush_or_incident.
  - apply triple_token_incident.
Qed.

Lemma triple_run_token base n p r t :
  triple (balanced base) (run_token n p r t) (λ _, released base) (λ _, released base).
Proof.
  unfold run_token. apply sure_step; [frames|apply no_err_attempt|].
  intros [l|e]; [|apply triple_then_ret, triple_token_incident].
  apply sure_step; [frames|apply no_err_save_tokens|]. intros _u.
  apply sure_step; [frames|destruct r; [apply no_err_lift, no_err_set_State|done]|]. intros _v.
  apply sure_step; [frames|apply no_err_attempt|]. intros [x|e].
  - apply sure_step; [frames|apply no_err_lift_load|]. intros i. case_match.
    + apply triple_finish_instance.
    + apply triple_then_ret, triple_flush_or_incident.
  - eapply triple_bind; [eapply triple_conseq; [apply triple_token_incident|done| |by intros ?? []];
      intros ?? Hq; exact Hq|]. intros x. by apply triple_throw.
Qed.

Lemma held_main_loop n p r l : pres held_rel (main_loop n p r l).
Proof.
  revert r l. induction n as [|n IH]; intros r [|t l]; simpl; [frame_step..|].
  case_match; [|apply IH]. frame_step.
  - apply held_with_batch. intros base. apply triple_run_token.
  - frame_step; [apply IH|frame_step].
Qed.
#[local] Hint Resolve held_main_loop : frames.

Lemma held_RunProcessInstance n p l : pres held_rel (RunProcessInstance n p l).
Proof.
  unfold RunProcessInstance. frame_step; [frames|]. apply held_locking.
  unfold run_locked, refresh. frames.
Qed.
#[local] Hint Resolve held_RunProcessInstance : frames.

(** *** Bodies that take no locks *)

Definition quiet (x y : EngineBatch S * World S) : Prop :=
  y.1.(touchedInstances) = x.1.(touchedInstances) ∧
  y.1.(preFlushActions) = x.1.(preFlushActions) ∧ y.2.(w_locks) = x.2.(w_locks).

#[local] Instance quiet_preorder : PreOrder quiet.
Proof. split; [by intros x|]. intros x y z (?&?&?) (?&?&?). repeat split; congruence. Qed.

Lemma quiet_lift {A} (m : EM S A) : no_lock m → pres quiet (lift m).
Proof.
  intros Hm [b w]. specialize (Hm w). unfold lift, zoom. simpl.
  by destruct (m w) as [[] w'].
Qed.
Lemma quiet_add_stmt s : pres quiet (add_stmt (S:=S) s).
Proof. unfold add_stmt. destruct (prepare s); [by intros bw|frame_step]. Qed.
Lemma quiet_SaveProcessInstance p : pres quiet (SaveProcessInstance (S:=S) p).
Proof.
  unfold SaveProcessInstance. frame_step; [apply quiet_lift, no_lock_load|apply quiet_add_stmt].
Qed.
Lemma quiet_StorageBatch_Flush : pres quiet (StorageBatch_Flush (S:=S)).
Proof. unfold StorageBatch_Flush, get_batch. repeat frame_step. apply quiet_lift, no_lock_on_store. Qed.

Lemma no_lock_bind {A B} (m : EM S A) (f : A → EM S B) :
  no_lock m → (∀ a, no_lock (f a)) → no_lock (m ≫= f).
Proof.
  intros Hm Hf w. specialize (Hm w). unfold mbind, ST_bind.
  destruct (m w) as [[a|e|p| |] w']; try done. simpl in Hm. by rewrite Hf.
Qed.

Lemma quiet_create d v k ids :
  pres quiet (instance ← lift (fresh_instance k d v);
    i ← lift (load_instance instance);
    wrap (λ e, errw! "failed to save changes to process instance %d: %w" [e])
      (SaveProcessInstance instance) ;;
    executionTokens ← starting_tokens i.(pi_Key) ids;
    mret (instance, executionTokens) : BM S _).
Proof.
  unfold starting_tokens, ignore_error. repeat frame_step;
    try apply quiet_add_stmt; try apply quiet_SaveProcessInstance;
    apply quiet_lift; [apply no_lock_bind|apply no_lock_load|apply no_lock_bind];
    by repeat (intros ? || apply no_lock_bind).
Qed.

Lemma held_with_batch_quiet {A} (body : BM S A) :
  pres quiet body → pres held_rel (with_batch NewEngineBatchClean body).
Proof.
  intros Hq. apply held_of_triple. intros base w Hw. specialize (Hq (NewEngineBatchClean, w)).
  unfold with_batch. destruct (body _) as [[] [b' w']]; try done;
    destruct Hq as (_ & _ & Hl); simpl in Hl; unfold holds; by rewrite Hl.
Qed.

(** *** The operations *)

Lemma held_start_and_run n c : pres quiet c → pres held_rel (start_and_run n c).
Proof.
  intros Hc. unfold start_and_run. frame_step; [|frames]. apply held_with_batch_quiet.
  repeat frame_step; [done|apply quiet_StorageBatch_Flush].
Qed.

Lemma held_CreateInstance n d v : pres held_rel (CreateInstance n d v).
Proof.
  apply held_start_and_run. unfold create_default.
  repeat frame_step; [apply quiet_create|apply quiet_StorageBatch_Flush].
Qed.
#[local] Hint Resolve held_CreateInstance : frames.

Lemma held_CreateInstanceWithStartingElements n k ids v :
  pres held_rel (CreateInstanceWithStartingElements n k ids v).
Proof.
  unfold CreateInstanceWithStartingElements. frames. apply held_start_and_run.
  unfold create_on_elements. frame_step. apply quiet_create.
Qed.

Lemma held_DeleteInstanceVariable k v : pres held_rel (DeleteInstanceVariable k v).
Proof.
  unfold DeleteInstanceVariable. apply held_locking. frames. apply held_with_batch_quiet.
  repeat frame_step; [apply quiet_SaveProcessInstance|apply quiet_StorageBatch_Flush].
Qed.

Lemma held_JobAssignByKey k a : pres held_rel (JobAssignByKey k a).
Proof. unfold JobAssignByKey. frames. Qed.
Lemma held_ActivateJobs ty : pres held_rel (ActivateJobs ty).
Proof. unfold ActivateJobs, activate_job. frames. Qed.

#[local] Hint Resolve pres_cancelInstance pres_terminateExecutionTokens pres_startExecutionTokens
  pres_createNewIncidentFromToken pres_propagate_message pres_cancelBoundarySubscriptions
  pres_handleElementTransition pres_handleExternalEndEventContinuation
  pres_publishMessageOnListener pres_handleBoundaryMessage pres_publishEventOnEventGateway : frames.

Lemma body_Flush base w :
  triple (balanced base) (wrap w (Flush (S:=S))) (λ _, released base) (λ _, balanced base).
Proof.
  apply triple_wrap. eapply triple_conseq; [apply triple_Flush|done|done|].
  intros e bw. apply released_balanced.
Qed.

Lemma body_Run base n p l :
  triple (released base) (lift (RunProcessInstance n p l)) (λ _, released base) (λ _, balanced base).
Proof.
  eapply triple_conseq; [apply triple_lift_released, held_RunProcessInstance|done|done|].
  intros e bw. apply released_balanced.
Qed.

(** Goes through a body to its flush. *)
Ltac body :=
  repeat (cbv beta zeta;
    first
    [ apply body_Flush
    | eapply triple_bind; [apply body_Flush|intros ?]
    | apply body_Run
    | eapply triple_bind; [apply body_Run|intros ?]
    | apply triple_ret; done
    | apply triple_throw; by intros ? ?
    | apply triple_throw; intros ?; apply released_balanced
    | match goal with
      | |- triple (released _) (match ?x with _ => _ end) _ _ => destruct x
      | |- triple (balanced _) (match ?x with _ => _ end) _ _ => destruct x
      | |- triple (released _) (wrap _ (lift (RunProcessInstance _ _ _))) _ _ =>
          apply triple_wrap, body_Run
      end
    | apply keep_step; [solve [frames]|intros ?] ]).

Ltac operation :=
  repeat (first [ solve [eauto 3 with frames] | apply held_clearing; intros ?? | frame_step ]).

Lemma held_CancelInstanceByKey `{!HeapLaws S} n k : pres held_rel (CancelInstanceByKey n k).
Proof.
  unfold CancelInstanceByKey. operation; body.
  all: eapply triple_conseq; [apply triple_Flush|done|done|]; intros e bw; apply released_balanced.
Qed.

Lemma held_ModifyInstance `{!HeapLaws S} n k t s v : pres held_rel (ModifyInstance n k t s v).
Proof. unfold ModifyInstance. operation. body. Qed.

Lemma held_ResolveIncident `{!HeapLaws S} n k : pres held_rel (ResolveIncident n k).
Proof. unfold ResolveIncident, find_incident. operation. body. Qed.

(** The operations on a job open their batch in lock_instance_of_job. *)
Lemma held_job_batch `{!HeapLaws S} {A} j (f : loc * EngineBatch S → EM S A) :
  (∀ base p b, triple (λ w, balanced base (b, w)) (f (p, b)) (λ _, holds base) (λ _, holds base)) →
  pres held_rel (lock_instance_of_job j ≫= f).
Proof.
  intros Hm. unfold lock_instance_of_job. apply held_of_triple. intros base.
  eapply triple_bind with (Q := λ ib w, balanced base (snd ib, w)).
  - eapply triple_bind; [apply triple_of_held; frames|]. intros p.
    eapply triple_bind; [apply triple_wrap, triple_NewEngineBatch|]. intros b. by apply triple_ret.
  - intros [p b]. apply Hm.
Qed.

Lemma lock_refresh_job k : pres lock_rel (lift (refresh_job (S:=S) k)).
Proof. unfold refresh_job. frames. Qed.
#[local] Hint Resolve lock_refresh_job : frames.

Ltac job_operation :=
  frame_step; [frames|]; frame_step; try solve [frame_step];
  apply held_job_batch; intros base p b; cbn [fst snd]; cbv zeta; apply triple_clearing; body.

Lemma held_JobFailByKey `{!HeapLaws S} k m c v : pres held_rel (JobFailByKey k m c v).
Proof. unfold JobFailByKey, fail_job. job_operation. Qed.

Lemma lock_complete_job p j v : pres lock_rel (complete_job (S:=S) p j v).
Proof. unfold complete_job. frames. Qed.
#[local] Hint Resolve lock_complete_job : frames.

Lemma held_JobCompleteByKey `{!HeapLaws S} n k v : pres held_rel (JobCompleteByKey n k v).
Proof.
  unfold JobCompleteByKey, complete_locked. job_operation.
Qed.

Lemma body_publish_to_node base n nd m p v :
  triple (balanced base) (publish_to_node (S:=S) n nd m p v) (λ _, released base)
    (λ _, balanced base).
Proof. unfold publish_to_node, flush_and_run, message_incident. body. Qed.

Lemma held_PublishMessageByName `{!HeapLaws S} n nm ck v :
  pres held_rel (PublishMessageByName n nm ck v).
Proof.
  unfold PublishMessageByName, PublishMessage, active_subscription. operation. cbv beta.
  apply keep_step; [frames|]. intros m.
  destruct (ms_State m); first [apply body_publish_to_node|idtac]; body; apply body_publish_to_node.
Qed.

#[local] Hint Resolve held_CreateInstanceWithStartingElements held_CancelInstanceByKey
  held_ModifyInstance held_DeleteInstanceVariable held_JobAssignByKey held_JobFailByKey
  held_JobCompleteByKey held_ActivateJobs held_PublishMessageByName held_ResolveIncident : frames.

Lemma held_run_operation `{!HeapLaws S} n op : pres held_rel (run_operation n op).
Proof.
  destruct op; unfold run_operation, discard, CreateInstanceById, CreateInstanceByKey; frames.
Qed.

Lemma held_run_spawned n : pres held_rel (run_spawned n).
Proof.
  unfold run_spawned, ignore_error. frames. apply pres_modify. by intros w base.
Qed.

Lemma held_PublishMessage `{!HeapLaws S} n k v : pres held_rel (PublishMessage n k v).
Proof.
  unfold PublishMessage, active_subscription. operation. cbv beta.
  apply keep_step; [frames|]. intros m.
  destruct (ms_State m); first [apply body_publish_to_node|idtac]; body; apply body_publish_to_node.
Qed.

Lemma held_modify f : (∀ w : World S, w_locks (f w) = w_locks w) → pres held_rel (modify f).
Proof. intros Hf w base Hw. simpl. unfold holds. by rewrite Hf. Qed.

Lemma held_Start n : pres held_rel (Start (S:=S) n).
Proof.
  unfold Start, ignore_error.
  repeat (first [apply held_modify; done | apply held_no_lock; done | frame_step]); frames.
Qed.

Lemma held_load_definition xml sum name d k : pres held_rel (load (S:=S) xml sum name d k).
Proof. unfold load. frames. Qed.

(** *** Timers

    A timer that is handled has released the locks; when it is not, only some
    of the errors clear the batch, and what it took may stay locked. *)
Definition keeps (base : Z → bool) (w : World S) : Prop :=
  cache_wf w.(w_locks) ∧ ∀ k, base k = true → held w.(w_locks) k = true.

Lemma holds_keeps base w : holds base w → keeps base w.
Proof. intros [Hc Hh]. split; [done|]. intros k Hk. by rewrite Hh. Qed.

Lemma balanced_keeps base b w : balanced base (b, w) → keeps base w.
Proof.
  intros (_ & _ & _ & Hc & Hh)%balanced_split. split; [done|]. intros k Hk.
  rewrite Hh. unfold with_touched. by rewrite Hk.
Qed.

Lemma body_cleared {A} base (m : BM S A) Q :
  triple (balanced base) m Q (λ _, balanced base) →
  triple (balanced base) (on_error m Clear) Q (λ _, balanced base).
Proof.
  intros Hm. eapply triple_on_error; [exact Hm|]. intros e.
  eapply triple_conseq; [apply triple_Clear|done| |by intros ?? []]. intros u bw. apply released_balanced.
Qed.

#[local] Hint Resolve pres_handleBoundaryTimer pres_on_error : frames.

Lemma body_trigger base n nd t p :
  triple (balanced base) (trigger_at_node (S:=S) n nd t p) (λ _, released base) (λ _, balanced base).
Proof.
  unfold trigger_at_node. destruct nd; try (by apply triple_throw; intros ??);
    repeat (first
      [ apply triple_ret; done
      | eapply triple_bind; [apply body_Flush|intros ?]
      | eapply triple_bind; [apply body_cleared, body_Flush|intros ?]
      | apply keep_step; [solve [frames]|intros ?]
      | eapply triple_bind; [apply body_cleared, triple_of_pres; solve [frames]|intros ?] ]).
Qed.

Lemma triple_with_batch {A} base b (body : BM S A) :
  triple (balanced base) body (λ _, released base) (λ _, balanced base) →
  triple (λ w, balanced base (b, w)) (with_batch b body) (λ _, holds base) (λ _, keeps base).
Proof.
  intros Hm w Hw. specialize (Hm _ Hw). unfold with_batch.
  destruct (body (b, w)) as [[] [b' w']]; try done.
  - by apply released_split in Hm as (_&_&?).
  - by apply balanced_keeps in Hm.
Qed.

Lemma triple_TriggerTimer `{!HeapLaws S} base n t :
  triple (holds base) (TriggerTimer n t) (λ _, holds base) (λ _, keeps base).
Proof.
  assert (Hany : ∀ A (m : EM S A), pres held_rel m →
    triple (holds base) m (λ _, holds base) (λ _, keeps base)).
  { intros A m Hm. eapply triple_conseq; [by apply triple_of_held|done|done|].
    intros e w. apply holds_keeps. }
  unfold TriggerTimer. do 3 (eapply triple_bind; [apply Hany; frames|intros ?]).
  case_match; [apply triple_throw; apply holds_keeps|].
  eapply triple_bind with (Q := λ b w, balanced base (b, w)).
  { apply triple_wrap. eapply triple_conseq; [apply triple_NewEngineBatch|done|done|].
    intros e w. apply holds_keeps. }
  intros b. apply triple_with_batch, keep_step; [frames|]. intros t'.
  case_match; try (by apply triple_throw; intros ??);
    (eapply triple_bind; [apply body_trigger|intros l; by apply triple_ret]).
Qed.

(** *** The calls of the engine's API *)

(** Every exported method of the engine that takes a lock, and Start and
    LoadFromBytes; apart from NewEngineBatch, which locks the instance for its
    caller. *)
Inductive EngineCall :=
| CallOperation (op : Operation)
| CallCreateInstance (process : ProcessDefinition) (variableContext : vars)
| CallRunProcessInstance (instance : loc) (executionTokens : list ExecutionToken)
| CallPublishMessage (subscriptionKey : Z) (variables : vars)
| CallStart
| CallLoadFromBytes (xmlData : string) (md5sum : list Z) (processName : string)
    (definitions : TDefinitions) (key : Z)
| CallTriggerTimer (timer : Timer)
| CallProcessTimer (timer : Timer).

Definition run_call (fuel : nat) (c : EngineCall) : EM S unit :=
  match c with
  | CallOperation op => run_operation fuel op
  | CallCreateInstance d v => discard (CreateInstance fuel d v)
  | CallRunProcessInstance p l => RunProcessInstance fuel p l
  | CallPublishMessage k v => PublishMessage fuel k v
  | CallStart => Start fuel
  | CallLoadFromBytes xml sum name d k => discard (load xml sum name d k)
  | CallTriggerTimer t => discard (TriggerTimer fuel t)
  | CallProcessTimer t => ProcessTimer fuel t
  end.

(** The call triggers a timer and the trigger fails. *)
Definition failing_trigger (fuel : nat) (c : EngineCall) (w : World S) : Prop :=
  match c with
  | CallTriggerTimer t | CallProcessTimer t => ∃ e, (TriggerTimer fuel t w).1 = Err e
  | _ => False
  end.

Lemma run_call_locks `{!HeapLaws S} n c base w o w' :
  holds base w → run_call n c w = (o, w') → returns o →
  keeps base w' ∧ (¬ failing_trigger n c w → holds base w').
Proof.
  intros Hw E Ho.
  assert (Hbal : pres held_rel (run_call n c) → keeps base w' ∧ (¬ failing_trigger n c w → holds base w')).
  { intros Hp. assert (Hh : holds base w') by (by apply (pres_returns _ _ _ _ _ Hp E Ho)).
    split; [by apply holds_keeps|done]. }
  destruct c as [op|d v|p l|k v| |xml sum name d k|t|t]; unfold run_call, discard in *;
    try (apply Hbal; first
      [ apply held_run_operation | apply held_PublishMessage | apply held_Start
      | frames; first [apply held_CreateInstance | apply held_load_definition] | apply held_RunProcessInstance ]).
  all: pose proof (triple_TriggerTimer base n t w Hw) as Ht; unfold ProcessTimer, attempt in E;
    unfold mbind, ST_bind in E; simpl; destruct (TriggerTimer n t w) as [[r|e| | |] w1]; simpl in *; simplify_eq;
    try done.
  - injection E as _ <-. split; [by apply holds_keeps|done].
  - split; [done|]. intros Hn. destruct Hn. by exists e.
  - destruct r as [p l]. pose proof (held_RunProcessInstance n p l w1) as Hr.
    destruct (RunProcessInstance n p l w1) as [[] w2]; simpl in *; unfold mret, ST_ret in E;
      simplify_eq; try done; (split; [by apply holds_keeps, Hr|intros _; by apply Hr]).
  - injection E as _ <-. split; [done|]. intros Hn. destruct Hn. by exists e.
Qed.

Lemma step_holds `{!HeapLaws S} base (w w' : World S) : step w w' → holds base w → holds base w'.
Proof.
  intros Hs Hw. destruct Hs as [n op w o w' E Ho|n w o w' E Ho|n t w r w1 o w' E E' Ho].
  - by eapply (pres_returns _ _ _ _ _ (held_run_operation n op) E Ho).
  - by eapply (pres_returns _ _ _ _ _ (held_run_spawned n) E Ho).
  - pose proof (triple_TriggerTimer base n t w Hw) as Ht. rewrite E in Ht.
    assert (Hr : pres held_rel (ignore_error (RunProcessInstance n r.1 r.2))).
    { unfold ignore_error. frames. }
    by eapply (pres_returns _ _ _ _ _ Hr E' Ho).
Qed.

Lemma reachable_holds `{!HeapLaws S} base (w w' : World S) :
  reachable w w' → holds base w → holds base w'.
Proof. induction 1 as [|x y z Hs _ IH]; [done|]. intros Hx. by eapply IH, step_holds. Qed.
End operations.
