(* ===== verification/Runs.v ===== *)
(** Running the programs of the engine: what is known of the states when a
    program of World.v returned a value, and a tactic that goes through a run
    that returned. *)
From S2P Require Import Prelude Monad Model Runtime DmnModel Storage Locks TimerManager World.
From S2P Require Import Conditions Dmn Instances Tasks Events Gateways SubProcess Engine Api.

Section runs.
Context {S : Type} `{Storage S} `{Env}.
Implicit Types (b : EngineBatch S) (w : World S).

Lemma mret_Ret {X A} (a a' : A) (s s' : X) : (mret a : ST X A) s = (Ret a', s') → a = a' ∧ s = s'.
Proof. intros E. unfold mret, ST_ret in E. by simplify_eq. Qed.
Lemma gets_Ret {X A} (f : X → A) s a s' : gets f s = (Ret a, s') → a = f s ∧ s' = s.
Proof. intros E. unfold gets in E. by simplify_eq. Qed.
Lemma modify_Ret {X} (f : X → X) s u s' : modify f s = (Ret u, s') → s' = f s.
Proof. intros E. unfold modify in E. by simplify_eq. Qed.
Lemma deref_Ret {X A} (o : option A) (s : X) a s' : deref o s = (Ret a, s') → o = Some a ∧ s' = s.
Proof. destruct o; intros E; [apply mret_Ret in E as [-> ->]|]; done. Qed.
Lemma of_result_Ret {X A} (r : result A) (s : X) a s' :
  of_result r s = (Ret a, s') → r = Good a ∧ s' = s.
Proof. destruct r; intros E; [apply mret_Ret in E as [-> ->]|]; done. Qed.
Lemma wrap_result_Ret {X A} f (r : result A) (s : X) a s' :
  wrap_result f r s = (Ret a, s') → r = Good a ∧ s' = s.
Proof. destruct r; intros E; [apply mret_Ret in E as [-> ->]|]; done. Qed.

Lemma lift_Ret {A} (m : EM S A) (x : EngineBatch S * World S) a y :
  lift m x = (Ret a, y) → m x.2 = (Ret a, y.2) ∧ y.1 = x.1.
Proof.
  unfold lift, zoom. destruct (m x.2) as [[] w'] eqn:E; intros Hm; by simplify_eq.
Qed.

Lemma load_instance_Ret p w i w' :
  load_instance p w = (Ret i, w') → w.(w_heap).(h_objects) !! p = Some i ∧ w' = w.
Proof. unfold load_instance. by apply deref_Ret. Qed.
Lemma query_Ret {A} (q : S → result A) w a w' :
  query q w = (Ret a, w') → q w.(w_store) = Good a ∧ w' = w.
Proof. unfold query. by apply of_result_Ret. Qed.
Lemma generateKey_Ret w k w' :
  generateKey w = (Ret k, w') → k = GenerateId w.(w_seq) ∧ w' = w_set_seq (Datatypes.S w.(w_seq)) w.
Proof. intros E. unfold generateKey in E. by simplify_eq. Qed.
Lemma now_Ret w t w' :
  now w = (Ret t, w') → t = clock w.(w_tick) ∧ w' = w_set_tick (Datatypes.S w.(w_tick)) w.
Proof. intros E. unfold now in E. by simplify_eq. Qed.
Lemma set_State_Ret p s w u w' :
  set_State p s w = (Ret u, w') → ∃ i, w.(w_heap).(h_objects) !! p = Some i ∧
    w' = w_set_heap (heap_set p (with_State s i) w.(w_heap)) w.
Proof.
  intros (i & w1 & [Hi ->]%load_instance_Ret & E%modify_Ret)%bind_Ret. by exists i.
Qed.
Lemma set_Variables_Ret p v w u w' :
  set_Variables p v w = (Ret u, w') → ∃ i, w.(w_heap).(h_objects) !! p = Some i ∧
    w' = w_set_heap (heap_set p (with_Variables v i) w.(w_heap)) w.
Proof.
  intros (i & w1 & [Hi ->]%load_instance_Ret & E%modify_Ret)%bind_Ret. by exists i.
Qed.

(** *** Statements *)

(** The batch with the statements [l] added. *)
Definition pushes (l : list Stmt) b : EngineBatch S :=
  {| b_stmts := b.(b_stmts) ++ l; touchedInstances := b.(touchedInstances);
     preFlushActions := b.(preFlushActions); postFlushActions := b.(postFlushActions) |}.

Lemma pushes_nil b : pushes [] b = b.
Proof. destruct b. unfold pushes. simpl. by rewrite app_nil_r. Qed.
Lemma pushes_app l1 l2 b : pushes l2 (pushes l1 b) = pushes (l1 ++ l2) b.
Proof. unfold pushes. simpl. by rewrite (assoc_L (++)). Qed.

Lemma add_stmt_Ret s x u y :
  add_stmt s x = (Ret u, y) → y = (pushes [s] x.1, x.2).
Proof. unfold add_stmt. destruct (prepare s); intros E; [by apply modify_Ret in E|done]. Qed.
Lemma SaveProcessInstance_Ret p x u y :
  SaveProcessInstance p x = (Ret u, y) → ∃ i, x.2.(w_heap).(h_objects) !! p = Some i ∧
    y = (pushes [StSaveProcessInstance p i] x.1, x.2).
Proof.
  intros (i & x1 & [[Hi Hw]%load_instance_Ret Hb]%lift_Ret & E%add_stmt_Ret)%bind_Ret.
  exists i. split; [done|]. by rewrite E, Hb, Hw.
Qed.
Lemma ignore_error_Ret {X} (m : ST X unit) x u y :
  ignore_error m x = (Ret u, y) → m x = (Ret tt, y) ∨ ∃ e, m x = (Err e, y).
Proof.
  unfold ignore_error, mbind, ST_bind, attempt. destruct (m x) as [[[]|e|p| |] z]; intros E; try done.
  - apply mret_Ret in E as [_ ->]. by left.
  - apply mret_Ret in E as [_ ->]. right. by exists e.
Qed.
Lemma add_stmt_Err s x e y : add_stmt (S:=S) s x = (Err e, y) → y = x.
Proof. unfold add_stmt. destruct (prepare s); intros E; [done|]. unfold throw in E. by simplify_eq. Qed.
Lemma ignore_add_stmt_Ret s x u y :
  ignore_error (add_stmt s) x = (Ret u, y) →
  y.2 = x.2 ∧ (y.1 = pushes [s] x.1 ∨ (y.1 = x.1 ∧ is_Good (prepare s) = false)).
Proof.
  intros [E|[e E]]%ignore_error_Ret.
  - apply add_stmt_Ret in E as ->. auto.
  - apply add_stmt_Err in E as Hy. subst. split; [done|]. right. split; [done|].
    unfold add_stmt in E. by destruct (prepare s).
Qed.
Lemma save_flow_Ret i flow k (b b' : EngineBatch S) w u w' :
  save_flow i flow k (b, w) = (Ret u, (b', w')) →
  w'.(w_seq) = Datatypes.S w.(w_seq) ∧ w'.(w_heap) = w.(w_heap) ∧ w'.(w_store) = w.(w_store) ∧
  ∃ l, b' = pushes l b.
Proof.
  intros E. unfold save_flow in E.
  apply bind_Ret in E as (? & [? ?] & [E1 ?]%lift_Ret & E). apply generateKey_Ret in E1 as [??].
  apply bind_Ret in E as (? & [? ?] & [E1 ?]%lift_Ret & E). apply now_Ret in E1 as [??]. simplify_eq/=.
  apply ignore_add_stmt_Ret in E as [E1 [E2|[E2 _]]]; simpl in *; subst; split_and!; try done; eauto.
  exists []. by rewrite pushes_nil.
Qed.

Lemma target_id_Ret i flow (b b' : EngineBatch S) w id w' :
  target_id i flow (b, w) = (Ret id, (b', w')) →
  b' = b ∧ w' = w ∧ ∃ n, GetTargetRef (defs_of i) flow = Some n ∧ id = GetId n.
Proof.
  intros (n & [? ?] & [??]%deref_Ret & [??]%mret_Ret)%bind_Ret. simplify_eq. eauto.
Qed.

(** *** Batches *)

Lemma with_batch_Ret {A} b (body : BM S A) w a w' :
  with_batch b body w = (Ret a, w') → ∃ b', body (b, w) = (Ret a, (b', w')).
Proof. unfold with_batch. destruct (body (b, w)) as [o [b' w1]]. intros E. simplify_eq. eauto. Qed.
Lemma on_error_Ret {X A} (m : ST X A) h x a y : on_error m h x = (Ret a, y) → m x = (Ret a, y).
Proof.
  intros ([v|e] & z & E1 & E)%bind_Ret.
  - apply mret_Ret in E as [-> ->]. by apply attempt_Ret_Good.
  - by apply bind_Ret in E as (?&?&_&E).
Qed.
Lemma clearing_Ret {A} b (body : BM S A) w a w' :
  clearing b body w = (Ret a, w') → ∃ b', body (b, w) = (Ret a, (b', w')).
Proof. intros [b' E]%with_batch_Ret. exists b'. by eapply on_error_Ret. Qed.

Definition keeps_data (x y : EngineBatch S * World S) : Prop :=
  y.2.(w_store) = x.2.(w_store) ∧ y.2.(w_heap) = x.2.(w_heap).
#[local] Instance keeps_data_preorder : PreOrder keeps_data.
Proof. split; [by intros x|]. intros x y z [??] [??]. split; congruence. Qed.

Lemma keeps_data_unlock k : pres keeps_data (lift (unlock k)).
Proof.
  intros [b w]. unfold lift, zoom, unlock, on_locks, zoom. simpl.
  by destruct (unlockInstance k _) as [[] c].
Qed.

Lemma Flush_Ret b w u b' w' :
  b.(preFlushActions) = [] → Flush (b, w) = (Ret u, (b', w')) →
  flush b.(b_stmts) w.(w_store) = (Ret tt, w'.(w_store)) ∧ w'.(w_heap) = w.(w_heap).
Proof.
  intros Hp E. unfold Flush, get_batch in E.
  apply bind_Ret in E as (x & y & [-> ->]%gets_Ret & E). simpl in E. rewrite Hp in E.
  apply bind_Ret in E as (r & [b1 w1] & E1 & E).
  apply bind_Ret in E as (v & [b2 w2] & E2 & E).
  apply of_result_Ret in E as [-> Ey]. simplify_eq.
  apply attempt_Ret_Good in E1. simpl in E1.
  apply bind_Ret in E1 as ([] & y & [_ <-]%mret_Ret & [E1 Eb]%lift_Ret).
  simpl in *. unfold on_store, zoom in E1.
  destruct (flush (b_stmts b) (w_store w)) as [o s'] eqn:Ef. simplify_eq.
  assert (Hk : pres keeps_data (Flush_deferred (Good u))).
  { unfold Flush_deferred, get_batch, set_batch. repeat frame_step; try apply keeps_data_unlock;
      by intros [b0 w0]. }
  match type of E2 with _ ?x = _ => specialize (Hk x) end. rewrite E2 in Hk. destruct Hk as [Hs Hh].
  simpl in *. rewrite Hs, Hh. by destruct u.
Qed.

Lemma on_locks_Ret {A} (m : ST RunningInstancesCache A) w a w' :
  on_locks m w = (Ret a, w') → w'.(w_store) = w.(w_store) ∧ w'.(w_heap) = w.(w_heap).
Proof. unfold on_locks, zoom. destruct (m _). intros E. by simplify_eq. Qed.

Lemma NewEngineBatch_Ret `{!HeapLaws S} p w b w' :
  NewEngineBatch p w = (Ret b, w') →
  ∃ i i', w.(w_heap).(h_objects) !! p = Some i ∧ w'.(w_heap).(h_objects) !! p = Some i' ∧
    same_identity i i' ∧ b = empty_batch [i.(pi_Key)] ∧ w'.(w_store) = w.(w_store).
Proof.
  intros E. unfold NewEngineBatch in E.
  apply bind_Ret in E as (i & w1 & [Hi ->]%load_instance_Ret & E).
  apply bind_Ret in E as (u & w2 & [Hs2 Hh2]%on_locks_Ret & E).
  apply bind_Ret in E as ([v|e] & w3 & Er & E); [|by apply bind_Ret in E as (?&?&_&E)].
  apply attempt_Ret_Good in Er. unfold refresh, on_heap in Er.
  pose proof (heap_Refresh w2.(w_store) p w2.(w_heap)) as Hr.
  destruct (RefreshProcessInstance _ _ _) as [o h]. simplify_eq.
  destruct Hr as [_ Hr]. destruct (Hr p i) as (i' & Hi' & Hid); [by rewrite Hh2|].
  apply bind_Ret in E as (j & w4 & [Hj ->]%load_instance_Ret & E). simpl in Hj.
  rewrite Hi' in Hj. simplify_eq. destruct Hid as (Hk & Hid).
  destruct (pi_State j); try (by apply bind_Ret in E as (?&?&_&E));
    apply mret_Ret in E as [<- <-]; simpl; exists i, j; rewrite Hk; split_and!; done.
Qed.
End runs.

(** Goes backwards through the binds of a run that returned a value. *)
Ltac run_step H :=
  lazymatch type of H with
  | (mret _) _ = (Ret _, _) => apply mret_Ret in H as [? ?]; subst
  | (_ ≫= _) _ = (Ret _, _) =>
      let H1 := fresh "Hr" in
      let st := fresh "st" in
      apply bind_Ret in H as (? & st & H1 & H);
      try match type of st with (_ * _)%type => destruct st as [? ?] end
  | gets _ _ = (Ret _, _) => apply gets_Ret in H as [? ?]; simplify_eq/=
  | modify _ _ = (Ret _, _) => apply modify_Ret in H; simplify_eq/=
  | deref _ _ = (Ret _, _) => apply deref_Ret in H as [? ?]; simplify_eq/=
  | of_result _ _ = (Ret _, _) => apply of_result_Ret in H as [? ?]; simplify_eq/=
  | wrap_result _ _ _ = (Ret _, _) => apply wrap_result_Ret in H as [? ?]; simplify_eq/=
  | wrap _ _ _ = (Ret _, _) => apply wrap_Ret in H
  | lift _ _ = (Ret _, _) => apply lift_Ret in H as [H ?]; simplify_eq/=
  | load_instance _ _ = (Ret _, _) => apply load_instance_Ret in H as [? ?]; simplify_eq/=
  | query _ _ = (Ret _, _) => apply query_Ret in H as [? ?]; simplify_eq/=
  | generateKey _ = (Ret _, _) => apply generateKey_Ret in H as [? ?]; simplify_eq/=
  | now _ = (Ret _, _) => apply now_Ret in H as [? ?]; simplify_eq/=
  | add_stmt _ _ = (Ret _, _) => apply add_stmt_Ret in H; simplify_eq/=
  | SaveJob _ _ = (Ret _, _) => apply add_stmt_Ret in H; simplify_eq/=
  | SaveTimer _ _ = (Ret _, _) => apply add_stmt_Ret in H; simplify_eq/=
  | SaveToken _ _ = (Ret _, _) => apply add_stmt_Ret in H; simplify_eq/=
  | SaveIncident _ _ = (Ret _, _) => apply add_stmt_Ret in H; simplify_eq/=
  | SaveMessageSubscription _ _ = (Ret _, _) => apply add_stmt_Ret in H; simplify_eq/=
  | SaveFlowElementInstance _ _ = (Ret _, _) => apply add_stmt_Ret in H; simplify_eq/=
  | UpdateOutputFlowElementInstance _ _ = (Ret _, _) => apply add_stmt_Ret in H; simplify_eq/=
  | SaveProcessInstance _ _ = (Ret _, _) =>
      apply SaveProcessInstance_Ret in H as (? & ? & ?); simplify_eq/=
  | target_id _ _ _ = (Ret _, _) => apply target_id_Ret in H as (? & ? & ? & ? & ?); simplify_eq/=
  | save_flow _ _ _ _ = (Ret _, _) => apply save_flow_Ret in H as (? & ? & ? & ? & ?); simplify_eq/=
  | set_State _ _ _ = (Ret _, _) => apply set_State_Ret in H as (? & ? & ?); simplify_eq/=
  | set_Variables _ _ _ = (Ret _, _) => apply set_Variables_Ret in H as (? & ? & ?); simplify_eq/=
  end.
Ltac run := repeat match goal with H : _ = (Ret _, _) |- _ => run_step H end.

(** An [attempt] in a run: its value or its error. *)
Ltac attempted :=
  match goal with
  | H : attempt _ _ = (Ret (Good _), _) |- _ => apply attempt_Ret_Good in H
  | H : attempt _ _ = (Ret (Bad _), _) |- _ => apply attempt_Ret_Bad in H
  | H : attempt _ _ = (Ret ?r, _) |- _ =>
      destruct r; [apply attempt_Ret_Good in H|apply attempt_Ret_Bad in H]
  end.
