(* ===== verification/Example.v ===== *)
(** A small process and a concrete environment, on which the definitions are
    evaluated: start event, service task [a], exclusive gateway [g] with the
    condition [=yes], end event. *)
From S2P Require Import Prelude Monad Model Runtime DmnModel Storage InMemory Locks TimerManager World.
From S2P Require Import Conditions Dmn Instances Tasks Events Gateways SubProcess Engine Api.

#[local] Open Scope string_scope.

(** The expression language of the example: a variable name, or the text
    [fail]. *)
Definition example_feel (e : string) (v : vars) : result value :=
  if (e =? "fail") then Bad (err! "feel") else Good (default VNil (v !! e)).

#[export] Instance example_env : Env := {|
  feel_Evaluate := example_feel;
  feel_UnaryTest := λ e v, Good (e =? "-");
  GenerateId := λ n, Z.of_nat (100 + n);
  clock := λ n, Z.of_nat (1000 + n);
  Duration := Z;
  ParseISO8601 := λ s, Good 60%Z;
  Shift := λ d t, (t + d)%Z;
  Duration_TS := λ d, d;
  Sprint_value := λ _, "?";
  json_Marshal := λ _, Good "{}";
  json_MarshalDecisions := λ _, Good "[]" |}.

(** Go's range over a map, in one order. *)
Definition example_iter (A : Type) (m : gmap Z A) : list (Z * A) := map_to_list m.
#[export] Instance example_storage : Storage InMemory := InMemory_Storage example_iter.
#[export] Instance example_decisions : DecisionStorage InMemory := InMemory_DecisionStorage example_iter.

Definition mk_flow (id src tgt cond : string) : TSequenceFlow :=
  {| sf_Id := id; sf_Name := ""; SourceRefId := src; TargetRefId := tgt; ConditionExpression := cond |}.
Definition mk_node (id : string) (ins outs : list TSequenceFlow) : TFlowNode :=
  {| fn_Id := id; fn_Name := ""; IncomingAssociations := ins; OutgoingAssociations := outs |}.

Definition f1 := mk_flow "f1" "s" "a" "".
Definition f2 := mk_flow "f2" "a" "g" "".
Definition f3 := mk_flow "f3" "g" "e1" "=yes".
Definition f4 := mk_flow "f4" "g" "e2" "".

Definition task_a : TServiceTask :=
  {| st_activity := {| act_node := mk_node "a" [f1] [f2]; act_MultiInstance := None;
                       act_Input := []; act_Output := [] |}; st_TaskType := "work" |}.
Definition end_event (id : string) (f : TSequenceFlow) : TEndEvent :=
  {| ee_node := mk_node id [f] []; EvenDefinitions := []; ee_TaskType := ""; ee_Input := [];
     ee_Output := [] |}.
Definition gateway_g : TExclusiveGateway :=
  {| eg_node := mk_node "g" [f2] [f3; f4]; eg_DefaultFlow := Some f4 |}.

(** Gateways off the main path: a parallel gateway with two incoming and two
    outgoing flows, and an inclusive one. *)
Definition f5 := mk_flow "f5" "x" "pg" "".
Definition f6 := mk_flow "f6" "y" "pg" "".
Definition f7 := mk_flow "f7" "pg" "e1" "".
Definition f8 := mk_flow "f8" "pg" "e2" "".
Definition f9 := mk_flow "f9" "ig" "e1" "=yes".
Definition f10 := mk_flow "f10" "ig" "e2" "=no".
Definition gateway_pg : TParallelGateway := {| pg_node := mk_node "pg" [f5; f6] [f7; f8] |}.
Definition gateway_ig : TInclusiveGateway :=
  {| ig_node := mk_node "ig" [] [f9; f10]; ig_DefaultFlow := None |}.

Definition example_process : TProcess :=
  {| p_Id := "p"; StartEvents := [{| se_node := mk_node "s" [] [f1] |}];
     EndEvents := [end_event "e1" f3; end_event "e2" f4]; ServiceTasks := [task_a];
     UserTasks := []; BusinessRuleTasks := []; SendTasks := []; ParallelGateways := [gateway_pg];
     ExclusiveGateways := [gateway_g]; EventBasedGateways := []; InclusiveGateways := [gateway_ig];
     IntermediateCatchEvents := []; IntermediateThrowEvents := []; CallActivities := [];
     BoundaryEvents := []; SubProcesses := [] |}.

Definition example_definition : ProcessDefinition :=
  {| pd_BpmnProcessId := "p"; pd_Version := 1; pd_Key := 1;
     pd_Definitions := {| Process := example_process; Messages := [] |};
     pd_BpmnData := ""; pd_BpmnProcessName := ""; pd_BpmnChecksum := [] |}.

Definition empty_world : World InMemory :=
  {| w_store := NewStorage; w_heap := empty_heap; w_seq := 0; w_tick := 0;
     w_locks := newRunningInstanceCache; w_timerManager := Some (start 0 (newTimerManager 10));
     w_handlers := []; w_spawned := [] |}.

(** An instance is created and waits in the service task. *)
Definition created := CreateInstance 20 example_definition {["yes" := VBool true]} empty_world.
Definition waiting_world : World InMemory := created.2.

(** ** Helpers of the examples *)

(** The value a run returned. *)
Definition value_of {A X} (d : A) (r : outcome A * X) : A :=
  match r with (Ret a, _) => a | _ => d end.
Definition batch_of {A S} (r : outcome A * (EngineBatch S * World S)) : EngineBatch S := r.2.1.
Definition world_of {A S} (r : outcome A * (EngineBatch S * World S)) : World S := r.2.2.

Definition example_instance (w : World InMemory) : ProcessInstance :=
  default {| pi_Kind := DefaultProcessInstance; pi_Definition := example_definition; pi_Key := 0;
             pi_BusinessKey := None; pi_VariableHolder := ∅; pi_CreatedAt := 0;
             pi_State := ActivityStateZero |} (w.(w_heap).(h_objects) !! 1%positive).

(** The keys of the example are different. *)
Lemma example_keys : ∀ j k, GenerateId j = GenerateId k → j = k.
Proof. intros j k E. unfold GenerateId, example_env in E. simpl in E. lia. Qed.

Definition token_at (id : string) (key : Z) (state : TokenState) : ExecutionToken :=
  {| tok_Key := key; tok_ElementInstanceKey := key + 1; tok_ElementId := id;
     tok_ProcessInstanceKey := (example_instance waiting_world).(pi_Key); tok_State := state;
     tok_CreatedAt := 0 |}.

(** The waiting world after a statement. *)
Definition after (s : Stmt) (w : World InMemory) : World InMemory := (on_store (exec s) w).2.
