(* ===== verification/Identity.v ===== *)
(** Instance objects keep their identity: whatever the engine does, the object
    a pointer denotes keeps its key, definition, business key, creation time
    and type; only its state, its variables and the parent token change. *)
From S2P Require Import Prelude Monad Model Runtime DmnModel Storage InMemory Locks TimerManager World.
From S2P Require Import Conditions Dmn Instances Tasks Events Gateways SubProcess Engine Api.
From S2P Require Import Frames System Runs Example.

Definition id_rel {S} (w w' : World S) : Prop := heap_ext w.(w_heap) w'.(w_heap).

Section identity.
Context {S : Type} `{Storage S} `{DecisionStorage S} `{Env} `{!HeapLaws S}.

#[local] Instance id_preorder : PreOrder (@id_rel S).
Proof.
  unfold id_rel. split; [intros w; reflexivity|]. intros x y z Hxy Hyz. by etrans.
Qed.

Lemma id_same (w w' : World S) : w'.(w_heap) = w.(w_heap) → id_rel w w'.
Proof. intros E. unfold id_rel. rewrite E. reflexivity. Qed.

Lemma id_update p f :
  (∀ i, same_identity i (f i)) → pres (@id_rel S) (update_instance p f).
Proof.
  intros Hf w. unfold update_instance, load_instance, mbind, ST_bind.
  destruct (_ !! p) as [i|] eqn:Ei; [|done].
  by apply heap_keeps_ext, (heap_set_keeps _ i).
Qed.

Lemma id_on_heap {A} (m : S → ST Heap A) :
  (∀ s, pres heap_ext (m s)) → pres (@id_rel S) (on_heap m).
Proof.
  intros Hm w. specialize (Hm w.(w_store) w.(w_heap)). unfold on_heap.
  by destruct (m _ _) as [[] h].
Qed.

#[export] Instance id_frame : WorldFrame (@id_rel S).
Proof.
  split; intros; try apply _; try (by apply id_update); try apply id_on_heap.
  - intros w. by apply id_same.
  - intros w. by apply id_same.
  - intros w. unfold new_instance. simpl. apply heap_alloc_ext.
  - intros s. apply heap_FindCalled.
  - intros s. apply heap_FindProcessInstanceByKey.
  - intros s h. pose proof (heap_Refresh s p h) as Hr.
    destruct (RefreshProcessInstance s p h) as [[] h']; try done; by apply heap_keeps_ext.
  - intros w. unfold on_timerManager. destruct (w_timerManager w); [by apply id_same|done].
  - intros w. unfold on_locks, zoom. destruct (m _) as [[] c]; try done; by apply id_same.
  - intros w. unfold on_store, zoom. destruct (exec s _) as [[] c]; try done; by apply id_same.
  - intros w. unfold on_store, zoom. destruct (flush l _) as [[] c]; try done; by apply id_same.
  - intros w. unfold on_store, zoom. destruct (SaveDecisionInstance d _) as [[] c]; try done;
      by apply id_same.
  - by apply id_same.
Qed.

(** C6: in every state the engine reaches, by its operations, by the
    goroutines its flushes start and by its timers, a pointer to an instance
    still denotes an instance with the same key, process definition, business
    key, creation time and type. *)
Theorem instance_identity w w' p i :
  heap_wf w.(w_heap) → reachable w w' →
  w.(w_heap).(h_objects) !! p = Some i →
  ∃ i', w'.(w_heap).(h_objects) !! p = Some i' ∧ same_identity i i'.
Proof.
  intros Hw Hr Hi. apply (reachable_rel id_rel) in Hr. by apply (Hr Hw).
Qed.
End identity.

#[export] Instance example_heap_laws : HeapLaws InMemory.
Proof. apply mem_heap_laws. Qed.

Lemma waiting_heap_wf : heap_wf waiting_world.(w_heap).
Proof.
  intros p [i Hp].
  assert (E : waiting_world.(w_heap) =
    {| h_objects := {[1%positive := example_instance waiting_world]}; h_next := 2%positive |})
    by (vm_compute; reflexivity).
  rewrite E in *. simpl in *. apply lookup_singleton_Some in Hp as [<- _]. lia.
Qed.

Definition job_key : Z :=
  match FindActiveJobsByType waiting_world.(w_store) "work" with
  | Good (j :: _) => j.(job_Key)
  | _ => 0
  end.

(** The waiting instance after its job was completed. *)
Definition completed_world : World InMemory :=
  (run_operation 20 (OpJobCompleteByKey job_key ∅) waiting_world).2.

Lemma completed_reachable : reachable waiting_world completed_world.
Proof.
  apply rtc_once. eapply (step_operation 20 (OpJobCompleteByKey job_key ∅) _ (Ret tt)); [|done].
  vm_compute. reflexivity.
Qed.

Lemma instance_identity_witness :
  ∃ i', completed_world.(w_heap).(h_objects) !! 1%positive = Some i' ∧
    same_identity (example_instance waiting_world) i'.
Proof.
  apply (instance_identity waiting_world completed_world).
  - apply waiting_heap_wf.
  - apply completed_reachable.
  - vm_compute. reflexivity.
Defined.
