(* ===== verification/GatewayProps.v ===== *)
(** What a token does at a gateway and when it leaves an element: the flows
    that are taken, the tokens that result, and their keys. *)
From S2P Require Import Prelude Monad Model Runtime DmnModel Storage Locks TimerManager World.
From S2P Require Import Conditions Instances Tasks Events Gateways Runs Example.

(** A token sent along a flow: it runs at the target of the flow. *)
Definition sent_along `{Env} (i : ProcessInstance) (flow : TSequenceFlow) (t : ExecutionToken) : Prop :=
  ∃ n, GetTargetRef (defs_of i) flow = Some n ∧ t.(tok_ElementId) = GetId n ∧
    t.(tok_State) = TokenStateRunning ∧ t.(tok_ProcessInstanceKey) = i.(pi_Key).

(** Three keys are generated for every new token: its own, that of its element
    instance and that of the history entry of the flow. *)
Definition fork_keys `{Env} (from n : nat) : list Z := (λ j, GenerateId (from + 3 * j)) <$> seq 0 n.

Arguments fork_keys : simpl never.

Lemma fork_keys_S `{Env} from n :
  fork_keys from (S n) = GenerateId from :: fork_keys (3 + from) n.
Proof.
  unfold fork_keys. cbn [seq]. rewrite fmap_cons. f_equal; [by rewrite Nat.mul_0_r, Nat.add_0_r|].
  rewrite <-fmap_S_seq, <-list_fmap_compose. apply list_fmap_ext. intros i j _. simpl. f_equal. lia.
Qed.

(** Keys that the generator hands out only once are different. *)
Lemma fork_keys_NoDup `{Env} from n :
  (∀ j k, GenerateId j = GenerateId k → j = k) → NoDup (fork_keys from n).
Proof.
  intros Hinj. revert from. induction n as [|n IH]; intros from; [constructor|].
  rewrite fork_keys_S. constructor; [|apply IH].
  unfold fork_keys. intros (j & Hj & _)%list_elem_of_fmap. apply Hinj in Hj. lia.
Qed.

Section gateways.
Context {S : Type} `{Storage S} `{Env}.

(** One new token for every flow. *)
Lemma new_tokens_Ret i flows (b b' : EngineBatch S) w toks w' :
  for_map flows (λ flow,
    key ← lift generateKey;
    eik ← lift generateKey;
    id ← target_id i flow;
    save_flow i flow key ;;
    mret {| tok_Key := key; tok_ElementInstanceKey := eik; tok_ElementId := id;
            tok_ProcessInstanceKey := i.(pi_Key); tok_State := TokenStateRunning;
            tok_CreatedAt := zero_time |}) (b, w) = (Ret toks, (b', w')) →
  Forall2 (sent_along i) flows toks ∧
  tok_Key <$> toks = fork_keys w.(w_seq) (length flows) ∧
  w'.(w_heap) = w.(w_heap) ∧ w'.(w_store) = w.(w_store).
Proof.
  revert b w toks. induction flows as [|f flows IH]; intros b w toks E; simpl in E; run.
  { simplify_eq. by split_and!; [constructor|..]. }
  apply IH in Hr0 as (F1 & F2 & F3 & F4).
  split_and!; try congruence.
  - constructor; [|done]. eexists. eauto.
  - rewrite fork_keys_S, F2. by do 2 f_equal.
Qed.

(** The flow an exclusive gateway chooses: the first one whose condition is
    true, or the default flow when every condition is false. *)
Definition exclusive_choice (flows : list TSequenceFlow) (defaultFlow : option TSequenceFlow)
    (v : vars) (flow : TSequenceFlow) : Prop :=
  let single := (length flows =? 1)%nat in
  (∃ l1 l2, flows = (l1 ++ flow :: l2)%list ∧ taken single v flow = true ∧
     ∀ g, g ∈ l1 → condition single v g = Good false) ∨
  ((∀ g, g ∈ flows → condition single v g = Good false) ∧ defaultFlow = Some flow).

Lemma exclusive_filter_Good flows d v l :
  exclusivelyFilterByConditionExpression flows d v = Good l →
  ∃ flow, l = [flow] ∧ exclusive_choice flows d v flow.
Proof.
  unfold exclusivelyFilterByConditionExpression, exclusive_choice. intros E.
  destruct (exclusive_loop_spec (length flows =? 1)%nat flows v) as [Hs|[Hs ?]];
    [|by apply Nat.eqb_eq in Hs].
  destruct (exclusive_loop _ _ _ _) as [[|f [|]]|e]; try done.
  - destruct d as [d|]; [|done]. simplify_eq. exists d. auto.
  - simplify_eq. exists f. auto.
Qed.

(** The flows an inclusive gateway takes: those whose condition is true, or
    the default flow when there are none. *)
Definition inclusive_choice (flows : list TSequenceFlow) (defaultFlow : option TSequenceFlow)
    (v : vars) (l : list TSequenceFlow) : Prop :=
  let single := (length flows =? 1)%nat in
  (∀ f, f ∈ flows → fails single v f = false) ∧
  match filter (λ f, taken single v f = true) flows with
  | [] => ∃ d, defaultFlow = Some d ∧ l = [d]
  | taken_flows => l = taken_flows
  end.

Lemma inclusive_filter_Ret {X} flows d v (s : X) l s' :
  inclusivelyFilterByConditionExpression flows d v s = (Ret l, s') →
  s' = s ∧ inclusive_choice flows d v l.
Proof.
  unfold inclusivelyFilterByConditionExpression, inclusive_choice. intros E.
  pose proof (inclusive_loop_spec (length flows =? 1)%nat flows v []) as Hs.
  destruct (inclusive_loop _ _ _ _) as [r|e]; [|done]. destruct Hs as [-> Hf].
  destruct (filter _ flows) as [|f r] eqn:Ef; simpl in E.
  - destruct d as [d|]; [run; eauto 10|]. destruct flows as [|f flows]; [done|].
    by destruct (_ =? _)%string.
  - run. auto.
Qed.

Lemma fork_Ret i flows (b b' : EngineBatch S) w toks w' :
  fork i flows (b, w) = (Ret toks, (b', w')) →
  Forall2 (sent_along i) flows toks ∧ tok_Key <$> toks = fork_keys w.(w_seq) (length flows).
Proof. intros E. apply new_tokens_Ret in E as (?&?&_). done. Qed.

(** ** Properties *)

(** C1: an exclusive gateway that succeeds sends the one token it received,
    with its key, along one flow: the first flow in document order whose
    condition is true, all earlier conditions being false, or the default
    flow when every condition is false. *)
Theorem exclusive_gateway_one_path p g t (b b' : EngineBatch S) w w' i toks :
  w.(w_heap).(h_objects) !! p = Some i →
  handleExclusiveGateway p g t (b, w) = (Ret toks, (b', w')) →
  ∃ flow n eik,
    exclusive_choice g.(eg_node).(OutgoingAssociations) g.(eg_DefaultFlow) i.(pi_VariableHolder) flow ∧
    GetTargetRef (defs_of i) flow = Some n ∧
    toks = [with_Element (GetId n) eik t].
Proof.
  intros Hi E. unfold handleExclusiveGateway in E. run.
  destruct (exclusivelyFilterByConditionExpression _ _ _) as [l|e] eqn:Ef; [|by run].
  apply exclusive_filter_Good in Ef as (flow & -> & Hc). run. eauto 10.
Qed.


(** C4: a parallel gateway completes the token that arrives.  While fewer than
    all but one of its incoming flows have delivered a token that completed
    there, that is all it does; the token that makes the count full is joined
    with them, and every outgoing flow gets one new running token with a key
    of its own. *)
Theorem parallel_gateway_join_fork p g t (b b' : EngineBatch S) w w' i all toks :
  w.(w_heap).(h_objects) !! p = Some i →
  GetAllTokensForProcessInstance w.(w_store) i.(pi_Key) = Good all →
  (∀ j k, GenerateId j = GenerateId k → j = k) →
  handleParallelGateway p g t (b, w) = (Ret toks, (b', w')) →
  let arrived := filter (λ x, x.(tok_State) = TokenStateCompleted ∧
                              x.(tok_ElementId) = t.(tok_ElementId)) all in
  if (length arrived + 1 =? length g.(pg_node).(IncomingAssociations))%nat
  then ∃ new, toks = with_TokenState TokenStateCompleted t :: new ∧
         Forall2 (sent_along i) g.(pg_node).(OutgoingAssociations) new ∧
         NoDup (tok_Key <$> new)
  else toks = [with_TokenState TokenStateCompleted t].
Proof.
  intros Hi Hall Hinj E. unfold handleParallelGateway in E. run.
  rewrite list_filter_filter in E. rewrite Hall in *. simplify_eq.
  cbv zeta; match type of E with context [length (filter ?P ?l)] => set (arrived := filter P l) in * end. set (n := length (IncomingAssociations _)) in *.
  destruct (Z.of_nat (length arrived) =? Z.of_nat n - 1)%Z eqn:Ec; simpl in E; propify.
  - run. apply fork_Ret in Hr as [F1 F2].
    destruct (Nat.eqb_spec (length arrived + 1) n); [|lia].
    eexists. split_and!; [done..|]. rewrite F2. by apply fork_keys_NoDup.
  - destruct (Nat.eqb_spec (length arrived + 1) n); [lia|]. by run.
Qed.

(** A token that leaves an element with outgoing flows moves, with its
    key, to the target of the first one and keeps running; each other flow
    gets a new running token with a key of its own.  Without outgoing flows
    the token completes, and only at an end event. *)
Theorem element_transition p n t (b b' : EngineBatch S) w w' i toks :
  w.(w_heap).(h_objects) !! p = Some i →
  (∀ j k, GenerateId j = GenerateId k → j = k) →
  handleDefaultElementTransition p n t (b, w) = (Ret toks, (b', w')) →
  match GetOutgoingAssociation n with
  | [] => GetType n = ElementTypeEndEvent ∧ toks = [with_TokenState TokenStateCompleted t]
  | flow :: rest => ∃ target eik new,
      GetTargetRef (defs_of i) flow = Some target ∧
      toks = with_TokenState TokenStateRunning (with_Element (GetId target) eik t) :: new ∧
      Forall2 (sent_along i) rest new ∧ NoDup (tok_Key <$> new)
  end.
Proof.
  intros Hi Hinj E. unfold handleDefaultElementTransition in E. run.
  destruct (GetOutgoingAssociation n) as [|flow rest].
  - destruct (bool_decide _) eqn:Ee; [|done]. run. by propify.
  - run. match goal with H : transition_rest _ _ _ = _ |- _ => apply new_tokens_Ret in H as (F1 & F2 & _) end.
    do 3 eexists. split_and!; [done..|]. rewrite F2. by apply fork_keys_NoDup.
Qed.
End gateways.

(** ** Witnesses *)

Definition at_g := token_at "g" 7 TokenStateRunning.
Definition g_run := handleExclusiveGateway 1 gateway_g at_g (NewEngineBatchClean, waiting_world).

Lemma exclusive_gateway_one_path_witness :
  ∃ flow n eik,
    exclusive_choice [f3; f4] (Some f4) {["yes" := VBool true]} flow ∧
    GetTargetRef (defs_of (example_instance waiting_world)) flow = Some n ∧
    value_of [] g_run = [with_Element (GetId n) eik at_g].
Proof.
  apply (exclusive_gateway_one_path 1 gateway_g at_g NewEngineBatchClean (batch_of g_run)
    waiting_world (world_of g_run) (example_instance waiting_world)); vm_compute; reflexivity.
Defined.

Definition at_ig := token_at "ig" 7 TokenStateRunning.
Definition ig_run := handleInclusiveGateway 1 gateway_ig at_ig (NewEngineBatchClean, waiting_world).


(** One token has already completed at the parallel gateway. *)
Definition at_pg := token_at "pg" 7 TokenStateRunning.
Definition pg_world := after (StSaveToken (token_at "pg" 8 TokenStateCompleted)) waiting_world.
Definition pg_run := handleParallelGateway 1 gateway_pg at_pg (NewEngineBatchClean, pg_world).
Definition pg_tokens : list ExecutionToken :=
  match GetAllTokensForProcessInstance pg_world.(w_store) 100 with Good l => l | Bad _ => [] end.

Lemma parallel_gateway_join_fork_witness :
  ∃ new, value_of [] pg_run = with_TokenState TokenStateCompleted at_pg :: new ∧
    Forall2 (sent_along (example_instance pg_world)) [f7; f8] new ∧ NoDup (tok_Key <$> new).
Proof.
  apply (parallel_gateway_join_fork 1 gateway_pg at_pg NewEngineBatchClean (batch_of pg_run)
    pg_world (world_of pg_run) (example_instance pg_world) pg_tokens);
    [vm_compute; reflexivity..|apply example_keys|vm_compute; reflexivity].
Defined.

Definition at_a := token_at "a" 7 TokenStateWaiting.
Definition a_run :=
  handleDefaultElementTransition 1 (ServiceTask task_a) at_a (NewEngineBatchClean, waiting_world).

Lemma element_transition_witness :
  ∃ target eik new,
    GetTargetRef (defs_of (example_instance waiting_world)) f2 = Some target ∧
    value_of [] a_run =
      with_TokenState TokenStateRunning (with_Element (GetId target) eik at_a) :: new ∧
    Forall2 (sent_along (example_instance waiting_world)) [] new ∧ NoDup (tok_Key <$> new).
Proof.
  apply (element_transition 1 (ServiceTask task_a) at_a NewEngineBatchClean (batch_of a_run)
    waiting_world (world_of a_run) (example_instance waiting_world));
    [vm_compute; reflexivity|apply example_keys|vm_compute; reflexivity].
Defined.
