(* ===== verification/CancelProps.v ===== *)
(** Cancelling an instance: what the storage contains when the operation
    returned without an error. *)
From S2P Require Import Prelude Monad Model Runtime DmnModel Storage InMemory Locks TimerManager World.
From S2P Require Import Conditions Dmn Instances Tasks Events Gateways SubProcess Engine Api.
From S2P Require Import Frames System Runs Example Identity.

(** Nothing of the instance waits any more. *)
Record nothing_waits (k : Z) (t : Tables) : Prop := {
  no_subscription key m : t.(t_Subscriptions) !! key = Some m →
    m.(ms_ProcessInstanceKey) = k → m.(ms_State) ≠ ActivityStateActive;
  no_timer key x : t.(t_Timers) !! key = Some x →
    x.(tm_ProcessInstanceKey) = k → x.(tm_TimerState) ≠ TimerStateCreated;
  no_job key j : t.(t_Jobs) !! key = Some j →
    j.(job_ProcessInstanceKey) = k → ¬ pending_job j }.

(** The statements a cancellation adds. *)
Definition cancelling (s : Stmt) : Prop :=
  match s with
  | StSaveMessageSubscription m => m.(ms_State) = ActivityStateTerminated
  | StSaveTimer t => t.(tm_TimerState) = TimerStateCancelled
  | StSaveJob j => j.(job_State) = ActivityStateTerminated
  | _ => True
  end.

(** The statements that terminate the given subscriptions, timers and jobs. *)
Definition terminations (subs : list MessageSubscription) (timers : list Timer) (jobs : list Job)
    : list Stmt :=
  ((λ m, StSaveMessageSubscription (with_SubscriptionState ActivityStateTerminated m)) <$> subs) ++
  ((λ t, StSaveTimer (with_TimerState TimerStateCancelled t)) <$> timers) ++
  ((λ j, StSaveJob (with_JobState ActivityStateTerminated j)) <$> jobs).

Lemma terminations_cancelling subs timers jobs : Forall cancelling (terminations subs timers jobs).
Proof.
  unfold terminations. rewrite !Forall_app, !Forall_fmap. unfold compose.
  split_and!; by apply Forall_true.
Qed.

(** Running only such statements, with a termination of everything of the
    instance that waits, leaves nothing waiting. *)
Lemma nothing_waits_after k t l subs timers jobs :
  tables_keyed t → Forall cancelling l →
  (∀ s, s ∈ terminations subs timers jobs → s ∈ l) →
  (∀ m, m ∈ subs ↔ (∃ key, t.(t_Subscriptions) !! key = Some m) ∧
     m.(ms_ProcessInstanceKey) = k ∧ m.(ms_State) = ActivityStateActive) →
  (∀ x, x ∈ timers ↔ (∃ key, t.(t_Timers) !! key = Some x) ∧
     x.(tm_ProcessInstanceKey) = k ∧ x.(tm_TimerState) = TimerStateCreated) →
  (∀ j, j ∈ jobs ↔ (∃ key, t.(t_Jobs) !! key = Some j) ∧
     j.(job_ProcessInstanceKey) = k ∧ pending_job j) →
  nothing_waits k (apply_stmts l t).
Proof.
  intros Hk Hl Hin Hs Ht Hj. rewrite Forall_forall in Hl. unfold terminations in Hin. split.
  - intros key m [(s & Hsl & Hr)|[Hm Hno]]%subscription_after Hp Ha.
    + destruct s; simpl in Hr; simplify_eq. apply Hl in Hsl. simpl in Hsl. congruence.
    + eapply Hno; [apply Hin, elem_of_app; left; apply list_elem_of_fmap; exists m; split; [done|];
        apply Hs; eauto|]. simpl. by rewrite (keyed_subscription _ Hk _ _ Hm).
  - intros key x [(s & Hsl & Hr)|[Hm Hno]]%timer_after Hp Ha.
    + destruct s; simpl in Hr; simplify_eq. apply Hl in Hsl. simpl in Hsl. congruence.
    + eapply Hno; [apply Hin, elem_of_app; right; apply elem_of_app; left; apply list_elem_of_fmap;
        exists x; split; [done|]; apply Ht; eauto|]. simpl. by rewrite (keyed_timer _ Hk _ _ Hm).
  - intros key j [(s & Hsl & Hr)|[Hm Hno]]%job_after Hp Ha.
    + destruct s; simpl in Hr; simplify_eq. apply Hl in Hsl. simpl in Hsl.
      unfold pending_job in Ha. rewrite Hsl in Ha. by destruct Ha as [?|[?|?]].
    + eapply Hno; [apply Hin, elem_of_app; right; apply elem_of_app; right; apply list_elem_of_fmap;
        exists j; split; [done|]; apply Hj; eauto|]. simpl. by rewrite (keyed_job _ Hk _ _ Hm).
Qed.

Section cancel.
Context {S : Type} `{Storage S} `{DecisionStorage S} `{Env} `{!HeapLaws S}.
Implicit Types (b : EngineBatch S) (w : World S).

(** A query of what waits answers, and the statement that terminates each of
    its records can be encoded. *)
Definition answered {A} (q : result (list A)) (g : A → Stmt) : Prop :=
  ∃ l, q = Good l ∧ Forall (λ x, prepare (g x) = Good tt) l.

Definition terminate_subscription (m : MessageSubscription) : Stmt :=
  StSaveMessageSubscription (with_SubscriptionState ActivityStateTerminated m).
Definition terminate_timer (t : Timer) : Stmt := StSaveTimer (with_TimerState TimerStateCancelled t).
Definition terminate_job (j : Job) : Stmt := StSaveJob (with_JobState ActivityStateTerminated j).

(** The three reads of what waits in an instance succeed in the storage [s]. *)
Record cancel_reads (s : S) (k : Z) : Prop := {
  reads_subscriptions :
    answered (FindProcessInstanceMessageSubscriptions s k ActivityStateActive) terminate_subscription;
  reads_timers : answered (FindProcessInstanceTimers s k TimerStateCreated) terminate_timer;
  reads_jobs : answered (FindPendingProcessInstanceJobs s k) terminate_job }.

Lemma answers_cancel_reads `{!StorageAnswers S} s k : cancel_reads s k.
Proof.
  assert (Hp : ∀ {A} (g : A → Stmt) (l : list A), Forall (λ x, prepare (g x) = Good tt) l)
    by (intros; apply Forall_true; intros; apply prepare_total).
  pose proof (answers_subscriptions s k ActivityStateActive) as Hs.
  pose proof (answers_timers s k TimerStateCreated) as Ht. pose proof (answers_jobs s k) as Hj.
  split; unfold answered.
  - destruct (FindProcessInstanceMessageSubscriptions _ _ _) as [l|]; [by exists l|done].
  - destruct (FindProcessInstanceTimers _ _ _) as [l|]; [by exists l|done].
  - destruct (FindPendingProcessInstanceJobs _ _) as [l|]; [by exists l|done].
Qed.

Lemma add_stmt_run s b w : prepare s = Good tt → add_stmt s (b, w) = (Ret tt, (pushes [s] b, w)).
Proof. intros Hs. unfold add_stmt. by rewrite Hs. Qed.

(** A loop that saves a record for every element. *)
Lemma save_all_run {A} (g : A → Stmt) f l b w :
  Forall (λ x, prepare (g x) = Good tt) l →
  for_each l (λ x, wrap f (add_stmt (g x))) (b, w) = (Ret tt, (pushes (g <$> l) b, w)).
Proof.
  intros Hl. revert b. induction Hl as [|x l Hx _ IH]; intros b; simpl; [by rewrite pushes_nil|].
  erewrite bind_step by by apply wrap_run, add_stmt_run. by rewrite IH, pushes_app.
Qed.

Lemma wrap_query_run {A} f (q : S → result A) a b w :
  q w.(w_store) = Good a → wrap f (lift (query q)) (b, w) = (Ret a, (b, w)).
Proof.
  intros Hq. unfold wrap, mbind, ST_bind, attempt, lift, zoom, query. simpl. by rewrite Hq.
Qed.

Lemma query_then_save_run {A} f f' (q : S → result (list A)) (g : A → Stmt) l b w :
  q w.(w_store) = Good l → Forall (λ x, prepare (g x) = Good tt) l →
  (xs ← wrap f (lift (query q)); for_each xs (λ x, wrap f' (add_stmt (g x)))) (b, w)
  = (Ret tt, (pushes (g <$> l) b, w)).
Proof.
  intros Hq Hl. erewrite bind_step by by apply wrap_query_run. by apply save_all_run.
Qed.

Lemma query_then_fails {A B} f (q : S → result A) (m : A → BM S B) e b w :
  q w.(w_store) = Bad e → (x ← wrap f (lift (query q)); m x) (b, w) = (Err (f e), (b, w)).
Proof.
  intros Hq. unfold wrap, mbind, ST_bind, attempt, lift, zoom, query. simpl. by rewrite Hq.
Qed.

(** cancel_waiting terminates what the queries return, and then resolves the
    incidents. *)
Lemma cancel_waiting_run k b w :
  cancel_reads w.(w_store) k →
  ∃ subs timers jobs f q,
    FindProcessInstanceMessageSubscriptions w.(w_store) k ActivityStateActive = Good subs ∧
    FindProcessInstanceTimers w.(w_store) k TimerStateCreated = Good timers ∧
    FindPendingProcessInstanceJobs w.(w_store) k = Good jobs ∧
    cancel_waiting k (b, w) = resolve_incidents f q (pushes (terminations subs timers jobs) b, w).
Proof.
  intros [(subs & Es & Hs) (timers & Et & Ht) (jobs & Ej & Hj)].
  eexists subs, timers, jobs, _, _. split_and!; try done.
  unfold cancel_waiting, cancel_subscriptions, cancel_timers, cancel_jobs.
  erewrite bind_step by by eapply query_then_save_run.
  erewrite bind_step by by eapply query_then_save_run.
  erewrite bind_step by by eapply query_then_save_run.
  rewrite !pushes_app. rewrite <-?(assoc_L (++)). reflexivity.
Qed.

Lemma cancel_waiting_fails k b w e :
  FindProcessInstanceMessageSubscriptions w.(w_store) k ActivityStateActive = Bad e →
  ∃ e', cancel_waiting k (b, w) = (Err e', (b, w)).
Proof.
  intros He. eexists. unfold cancel_waiting, cancel_subscriptions.
  unfold mbind at 1, ST_bind at 1. by erewrite query_then_fails.
Qed.

(** *** What the rest of a cancellation adds *)

Definition cancel_rel (x y : EngineBatch S * World S) : Prop :=
  ∃ l, y.1.(b_stmts) = x.1.(b_stmts) ++ l ∧ Forall cancelling l ∧
    y.1.(preFlushActions) = x.1.(preFlushActions) ∧ y.2.(w_store) = x.2.(w_store).

#[local] Instance cancel_rel_preorder : PreOrder cancel_rel.
Proof.
  split.
  - intros x. exists []. by rewrite app_nil_r.
  - intros x y z (l1 & E1 & F1 & G1 & H1') (l2 & E2 & F2 & G2 & H2'). exists (l1 ++ l2).
    rewrite E2, E1, (assoc_L (++)). split_and!; [done| |congruence..]. by apply Forall_app.
Qed.

Lemma cancel_rel_lift {A} (m : EM S A) :
  (∀ w, (m w).2.(w_store) = w.(w_store)) → pres cancel_rel (lift m).
Proof.
  intros Hm [b w]. specialize (Hm w). unfold lift, zoom. simpl.
  destruct (m w) as [[] w']; try done; exists []; simpl in *; by rewrite app_nil_r.
Qed.
Lemma cancel_rel_add s : cancelling s → pres cancel_rel (add_stmt s).
Proof.
  intros Hs x. unfold add_stmt. destruct (prepare s).
  - exists [s]. split_and!; try done. by constructor.
  - exists []. simpl. by rewrite app_nil_r.
Qed.
Lemma cancel_rel_touch k : pres cancel_rel (touch k).
Proof. intros x. exists []. simpl. by rewrite app_nil_r. Qed.

Lemma store_query {A} (q : S → result A) w : (query q w).2.(w_store) = w.(w_store).
Proof. unfold query. by destruct (q _). Qed.
Lemma store_load p w : (load_instance p w).2.(w_store) = w.(w_store).
Proof. unfold load_instance. by destruct (_ !! p). Qed.
Lemma store_set_State p s w : (set_State p s w).2.(w_store) = w.(w_store).
Proof. unfold set_State, update_instance, mbind, ST_bind, load_instance. by destruct (_ !! p). Qed.
Lemma store_on_heap {A} (m : S → ST Heap A) w : (on_heap m w).2.(w_store) = w.(w_store).
Proof. unfold on_heap. by destruct (m _ _). Qed.
Lemma store_on_locks {A} (m : ST RunningInstancesCache A) w :
  (on_locks m w).2.(w_store) = w.(w_store).
Proof. unfold on_locks, zoom. by destruct (m _). Qed.

Ltac cancels :=
  repeat (first
    [ done
    | frame_step
    | apply cancel_rel_touch
    | apply cancel_rel_add; done
    | apply cancel_rel_lift; first
        [ apply store_query | apply store_load | apply store_set_State | apply store_on_heap
        | apply store_on_locks | done ] ]).

Lemma cancel_rel_AddLockedInstance p : pres cancel_rel (AddLockedInstance p).
Proof. unfold AddLockedInstance, lock, unlock, refresh. cancels. Qed.
Lemma cancel_rel_SaveProcessInstance p : pres cancel_rel (SaveProcessInstance p).
Proof. unfold SaveProcessInstance. cancels. Qed.
Lemma cancel_rel_incidents f q : pres cancel_rel (resolve_incidents f q).
Proof. unfold resolve_incidents. cancels. Qed.
Lemma cancel_rel_waiting k : pres cancel_rel (cancel_waiting k).
Proof.
  unfold cancel_waiting, cancel_subscriptions, cancel_timers, cancel_jobs.
  cancels. apply cancel_rel_incidents.
Qed.
Lemma cancel_rel_token f l acc t : (∀ p, pres cancel_rel (f p)) → pres cancel_rel (cancel_token f l acc t).
Proof. intros Hf. unfold cancel_token, called_processes. cancels. Qed.
Lemma cancel_rel_inner f p l : (∀ q, pres cancel_rel (f q)) → pres cancel_rel (inner_cancel f p l).
Proof.
  intros Hf. unfold inner_cancel. cancels; [apply cancel_rel_waiting|by apply cancel_rel_token].
Qed.
Lemma cancel_rel_sub n p : pres cancel_rel (cancelSubProcessInstance n p).
Proof.
  revert p. induction n as [|n IH]; intros p; simpl; [frame_step|].
  frame_step; [apply cancel_rel_AddLockedInstance|]. unfold cancel_with. cancels;
    first [by apply cancel_rel_inner|apply cancel_rel_SaveProcessInstance].
Qed.

(** When the reads succeed everything that waits in the instance is
    terminated, also when the cancellation of a called instance, of an incident
    or of a token fails later. *)
Lemma inner_cancel_terminates n p i b w o y :
  w.(w_heap).(h_objects) !! p = Some i → cancel_reads w.(w_store) i.(pi_Key) →
  inner_cancel (cancelSubProcessInstance n) p [] (b, w) = (o, y) → returns o →
  ∃ subs timers jobs l,
    FindProcessInstanceMessageSubscriptions w.(w_store) i.(pi_Key) ActivityStateActive = Good subs ∧
    FindProcessInstanceTimers w.(w_store) i.(pi_Key) TimerStateCreated = Good timers ∧
    FindPendingProcessInstanceJobs w.(w_store) i.(pi_Key) = Good jobs ∧
    y.1.(b_stmts) = b.(b_stmts) ++ terminations subs timers jobs ++ l ∧ Forall cancelling l.
Proof.
  intros Hi Hr E Ho. unfold inner_cancel in E.
  erewrite bind_step in E by (unfold lift, zoom, load_instance; simpl; by rewrite Hi).
  destruct (cancel_waiting_run i.(pi_Key) b w Hr) as (subs & timers & jobs & f & q & Hs & Ht & Hj & Ec).
  unfold mbind at 1, ST_bind at 1 in E. rewrite Ec in E.
  match type of E with match resolve_incidents ?f ?q ?x with _ => _ end = _ =>
    match goal with |- context [y] =>
      assert (E' : (resolve_incidents f q ;; (
        tokens ← wrap (λ e, errw! "failed to find tokens for instance %d: %w" [e])
          (lift (query (λ s, GetActiveTokensForProcessInstance s i.(pi_Key))));
        for_fold tokens [] (cancel_token (cancelSubProcessInstance n) []))) x = (o, y)) by exact E
    end end.
  clear E. eapply (pres_returns cancel_rel) in E' as (l & E1 & F1 & _);
    [|cancels; [apply cancel_rel_incidents|apply cancel_rel_token, cancel_rel_sub]|done].
  simpl in *. exists subs, timers, jobs, l. split_and!; try done. by rewrite E1, <-!(assoc_L (++)).
Qed.

(** When the read of the subscriptions fails nothing at all is terminated. *)
Lemma inner_cancel_fails n p i b w e :
  w.(w_heap).(h_objects) !! p = Some i →
  FindProcessInstanceMessageSubscriptions w.(w_store) i.(pi_Key) ActivityStateActive = Bad e →
  ∃ e', inner_cancel (cancelSubProcessInstance n) p [] (b, w) = (Err e', (b, w)).
Proof.
  intros Hi He. destruct (cancel_waiting_fails i.(pi_Key) b w e He) as [e' E]. exists e'.
  unfold inner_cancel. erewrite bind_step by (unfold lift, zoom, load_instance; simpl; by rewrite Hi).
  unfold mbind at 1, ST_bind at 1. by rewrite E.
Qed.

Context (view : S → Tables) (row : S → Heap → Z → option ProcessInstance).
Context `{!StorageLaws S view row}.

(** cancelInstance on a fresh batch: what its inner cancellation leaves in the
    batch, whether it fails or not, and then the instance. *)
Lemma cancelInstance_Ret n p i b w u y :
  b.(preFlushActions) = [] → heap_wf w.(w_heap) → w.(w_heap).(h_objects) !! p = Some i →
  cancelInstance n p (b, w) = (Ret u, y) →
  ∃ o y1 i',
    inner_cancel (cancelSubProcessInstance n) p [] (b, w) = (o, y1) ∧ returns o ∧
    y.1.(b_stmts) = y1.1.(b_stmts) ++ [StSaveProcessInstance p i'] ∧
    y.1.(preFlushActions) = b.(preFlushActions) ∧
    y.2.(w_store) = w.(w_store) ∧ y.2.(w_heap).(h_objects) !! p = Some i' ∧
    i'.(pi_Key) = i.(pi_Key) ∧ i'.(pi_State) = ActivityStateTerminated.
Proof.
  intros Hp Hwf Hi E. unfold cancelInstance, cancel_with in E.
  apply bind_Ret in E as (r & [b1 w1] & E1 & E).
  assert (E2 : ∃ o, inner_cancel (cancelSubProcessInstance n) p [] (b, w) = (o, (b1, w1)) ∧ returns o).
  { unfold attempt in E1. destruct (inner_cancel _ _ _ _) as [[] y1]; simplify_eq; by eexists. }
  clear E1. destruct E2 as (o & E2 & Ho).
  pose proof (pres_returns _ _ _ _ _ (cancel_rel_inner _ p [] (cancel_rel_sub n)) E2 Ho)
    as (l & _ & _ & Hpre & Hst). simpl in *.
  pose proof (pres_returns _ _ _ _ _ (pres_inner_cancel (batch_rel id_rel) _ p []
    (pres_cancelSubProcessInstance _ n)) E2 Ho Hp) as [Hid _].
  destruct (Hid Hwf) as [_ Hkeep]. destruct (Hkeep p i Hi) as (i1 & Hi1 & Hk1 & _).
  exists o, (b1, w1). destruct r; run;
  match goal with H : <[_ := _]> _ !! _ = _ |- _ => rewrite lookup_insert_eq in H end;
  simplify_eq/=; eexists; rewrite lookup_insert_eq; split_and!; try done;
  by rewrite <-!(assoc_L (++)).
Qed.

(** The run of CancelInstanceByKey, from the inner cancellation on. *)
Lemma CancelInstanceByKey_Ret n k w w' :
  heap_wf w.(w_heap) → (∀ i, row w.(w_store) w.(w_heap) k = Some i → i.(pi_Key) = k) →
  CancelInstanceByKey n k w = (Ret tt, w') →
  ∃ p i w3 o y1 i',
    w3.(w_heap).(h_objects) !! p = Some i ∧ i.(pi_Key) = k ∧ w3.(w_store) = w.(w_store) ∧
    inner_cancel (cancelSubProcessInstance n) p [] (empty_batch [k], w3) = (o, y1) ∧ returns o ∧
    view w'.(w_store) = apply_stmts y1.1.(b_stmts) (view w.(w_store)) ∧
    row w'.(w_store) w'.(w_heap) k = Some i' ∧ i'.(pi_State) = ActivityStateTerminated.
Proof.
  intros Hwf Hrow E. unfold CancelInstanceByKey in E.
  apply bind_Ret in E as (p & w1 & Ef%wrap_Ret & E).
  unfold on_heap in Ef. destruct (FindProcessInstanceByKey _ _ _) as [o h] eqn:Eh. simplify_eq.
  pose proof (law_FindProcessInstanceByKey _ _ _ _ _ Eh) as Hp.
  pose proof (heap_FindProcessInstanceByKey w.(w_store) k w.(w_heap)) as Hext.
  rewrite Eh in Hext. destruct (Hext Hwf) as [Hwf1 _].
  apply bind_Ret in E as (i & w2 & [Hi ->]%load_instance_Ret & E). simpl in Hi.
  rewrite Hp in Hi. apply Hrow in Hi as Hk.
  destruct (negb _); [done|].
  assert (Erun : (b ← wrap (λ e, errw! "failed to create engine batch: %w" [e]) (NewEngineBatch p);
    clearing b (cancelInstance n p ;; Flush)) (w_set_heap h w) = (Ret tt, w'))
    by (by destruct (pi_State i)).
  clear E. apply bind_Ret in Erun as (b & w3 & Eb%wrap_Ret & E).
  apply NewEngineBatch_Ret in Eb as Hb.
  destruct Hb as (i1 & i2 & Hi1 & Hi2 & (Hk2 & _) & -> & Hst). simpl in Hi1.
  rewrite Hp, Hi in Hi1. simplify_eq.
  assert (Hwf3 : heap_wf w3.(w_heap)).
  { pose proof (pres_returns _ _ _ _ _ (pres_NewEngineBatch id_rel p) Eb I) as Hid.
    by apply Hid. }
  apply clearing_Ret in E as (b' & ([] & [b4 w4] & Ec & Efl)%bind_Ret).
  eapply cancelInstance_Ret in Ec as (o & y1 & i4 & Ein & Ho & Est & Hpre & Hst4 & Hi4 & Hk4 & Hs4); [|done..].
  simpl in *. apply Flush_Ret in Efl as [Efl Hh]; [|by rewrite Hpre].
  rewrite Hst4, Hst in Efl. exists p, i2, w3, o, y1, i4. split_and!; try done.
  - pose proof (law_flush _ _ _ Efl) as Hview. rewrite Hview, Est. apply apply_stmts_app.
  - rewrite Hh, <-Hk2, <-Hk4. eapply law_flush_instance; [exact Efl| |done].
    rewrite Est. apply last_saved_snoc.
Qed.

Lemma cancel_Ret_nothing_waits n k w w' :
  heap_wf w.(w_heap) → tables_keyed (view w.(w_store)) →
  (∀ i, row w.(w_store) w.(w_heap) k = Some i → i.(pi_Key) = k) →
  CancelInstanceByKey n k w = (Ret tt, w') →
  (∃ i', row w'.(w_store) w'.(w_heap) k = Some i' ∧ i'.(pi_State) = ActivityStateTerminated) ∧
  (cancel_reads w.(w_store) k → nothing_waits k (view w'.(w_store))) ∧
  (∀ e, FindProcessInstanceMessageSubscriptions w.(w_store) k ActivityStateActive = Bad e →
    view w'.(w_store) = view w.(w_store)).
Proof.
  intros Hwf Hkeyed Hrow E.
  apply CancelInstanceByKey_Ret in E
    as (p & i & w3 & o & y1 & i' & Hi & Hk & Hst & Ein & Ho & Hview & Hrow' & Hs); [|done..].
  split; [by exists i'|]. split.
  - intros Hr. rewrite <-Hst, <-Hk in Hr.
    eapply inner_cancel_terminates in Ein as (subs & timers & jobs & l & Qs & Qt & Qj & Est & Hl); [|done..].
    rewrite Hst, Hk in Qs, Qt, Qj. simpl in Est. rewrite Hview, Est.
    apply (nothing_waits_after _ _ _ subs timers jobs); try done.
    + apply Forall_app. split; [apply terminations_cancelling|done].
    + intros s Hin. apply elem_of_app. by left.
    + intros m. rewrite (law_FindProcessInstanceMessageSubscriptions _ _ _ _ Qs),
        list_elem_of_filter, elem_of_map_values. tauto.
    + intros x. rewrite (law_FindProcessInstanceTimers _ _ _ _ Qt),
        list_elem_of_filter, elem_of_map_values. tauto.
    + intros j. rewrite (law_FindPendingProcessInstanceJobs _ _ _ Qj),
        list_elem_of_filter, elem_of_map_values. tauto.
  - intros e He. rewrite <-Hst, <-Hk in He.
    destruct (inner_cancel_fails n p i (empty_batch [k]) w3 e Hi He) as [e' E'].
    rewrite E' in Ein. simplify_eq. exact Hview.
Qed.

End cancel.

(** ** Witness: the example instance waits in its task with an active job *)

#[export] Instance example_answers : StorageAnswers InMemory.
Proof. apply mem_answers. Qed.
#[export] Instance example_laws : StorageLaws InMemory mem_tables (mem_instance_row).
Proof. apply mem_laws. intros A m. apply reflexivity. Qed.

Definition keyed_by {A} (key : A → Z) (m : gmap Z A) : bool :=
  bool_decide (map_Forall (λ k x, key x = k) m).

Lemma tables_keyed_check t :
  keyed_by ms_Key t.(t_Subscriptions) && keyed_by tm_Key t.(t_Timers) &&
  keyed_by job_Key t.(t_Jobs) && keyed_by tok_Key t.(t_Tokens) = true → tables_keyed t.
Proof.
  unfold keyed_by. rewrite !andb_true_iff, !bool_decide_eq_true.
  intros (((?&?)&?)&?). by split.
Qed.

Definition cancelled_world : World InMemory := (CancelInstanceByKey 20 100 waiting_world).2.

