(* ===== verification/JobProps.v ===== *)
(** Jobs and incidents: the effect of failing a job and of resolving an
    incident on the storage, and the guard that makes completing a job
    idempotent. *)
From S2P Require Import Prelude Monad Model Runtime DmnModel Storage InMemory Locks TimerManager World.
From S2P Require Import Conditions Dmn Instances Tasks Events Gateways SubProcess Engine Api.
From S2P Require Import Frames System Runs Example Identity CancelProps.

Section jobs.
Context {S : Type} `{Storage S} `{DecisionStorage S} `{Env} `{!HeapLaws S}.
Context (view : S → Tables) (row : S → Heap → Z → option ProcessInstance).
Context `{!StorageLaws S view row}.

(** The instance that is locked is the stored one of the job's key. *)
Lemma lock_instance_of_job_Ret job w ib w' :
  lock_instance_of_job job w = (Ret ib, w') →
  ∃ i i', row w.(w_store) w.(w_heap) job.(job_ProcessInstanceKey) = Some i ∧
    same_identity i i' ∧ w'.(w_heap).(h_objects) !! fst ib = Some i' ∧
    snd ib = empty_batch [i'.(pi_Key)] ∧ w'.(w_store) = w.(w_store).
Proof.
  intros E. unfold lock_instance_of_job in E.
  apply bind_Ret in E as (p & w1 & E1%wrap_Ret & E).
  unfold on_heap in E1. destruct (FindProcessInstanceByKey _ _ _) as [o h] eqn:Ef. simplify_eq.
  apply law_FindProcessInstanceByKey in Ef as Hrow.
  apply bind_Ret in E as (b & w2 & Eb%wrap_Ret & [<- <-]%mret_Ret).
  apply NewEngineBatch_Ret in Eb as (i & i' & Hi & Hi' & (Hk & Hid) & -> & Hst). simpl in *.
  exists i, i'. rewrite Hk. split_and!; try done. congruence.
Qed.

Lemma refresh_job_Ret k w job w' :
  refresh_job k w = (Ret job, w') →
  FindJobByJobKey w.(w_store) k = Good job ∧ w' = w ∧
  job.(job_State) ≠ ActivityStateCompleted ∧ job.(job_State) ≠ ActivityStateTerminated ∧
  job.(job_State) ≠ ActivityStateFailed.
Proof.
  intros E. unfold refresh_job in E. run. destruct (job_State x) eqn:Es; try done; run;
    rewrite Es; by split_and!.
Qed.

(** C29: let the storage hold every instance under its own key.  When failing a
    job returns without an error, the stored job was neither completed, nor
    terminated, nor failed, and the storage now holds the same job and the
    token it carries in state Failed, the instance of the job's
    ProcessInstanceKey in state Failed (the same instance as before), and one
    new unresolved incident for that token; no other row of the jobs, tokens
    and incidents changed, and no timer or subscription. *)
Theorem job_fail_effect k msg code v w w' :
  tables_keyed (view w.(w_store)) →
  (∀ k' i, row w.(w_store) w.(w_heap) k' = Some i → i.(pi_Key) = k') →
  JobFailByKey k msg code v w = (Ret tt, w') →
  ∃ job t inc i0 i,
    let key := job.(job_ProcessInstanceKey) in
    (view w.(w_store)).(t_Jobs) !! k = Some job ∧
    job.(job_State) ∉ [ActivityStateCompleted; ActivityStateTerminated; ActivityStateFailed] ∧
    t = with_TokenState TokenStateFailed job.(job_Token) ∧
    inc.(inc_Token) = t ∧ inc.(inc_ResolvedAt) = None ∧
    inc.(inc_ProcessInstanceKey) = t.(tok_ProcessInstanceKey) ∧
    (view w'.(w_store)).(t_Jobs) =
      <[k := with_JobToken t (with_JobState ActivityStateFailed job)]> (view w.(w_store)).(t_Jobs) ∧
    (view w'.(w_store)).(t_Tokens) = <[t.(tok_Key) := t]> (view w.(w_store)).(t_Tokens) ∧
    (view w'.(w_store)).(t_Incidents) = <[inc.(inc_Key) := inc]> (view w.(w_store)).(t_Incidents) ∧
    (view w'.(w_store)).(t_Timers) = (view w.(w_store)).(t_Timers) ∧
    (view w'.(w_store)).(t_Subscriptions) = (view w.(w_store)).(t_Subscriptions) ∧
    row w.(w_store) w.(w_heap) key = Some i0 ∧ row w'.(w_store) w'.(w_heap) key = Some i ∧
    same_identity i0 i ∧ i.(pi_Key) = key ∧ i.(pi_State) = ActivityStateFailed.
Proof.
  intros Hkeyed Hrow E. unfold JobFailByKey in E.
  apply bind_Ret in E as (job0 & w1 & [Hj0 ->]%wrap_Ret%query_Ret & E).
  assert (E' : (ib ← lock_instance_of_job job0;
    clearing (snd ib) (fail_job (fst ib) k msg)) w = (Ret tt, w')) by (by destruct (job_State job0)).
  clear E. apply bind_Ret in E' as ([p b] & w2 & El & [b' E]%clearing_Ret).
  apply lock_instance_of_job_Ret in El as (i0 & i' & Hi0 & Hid & Hi' & Hb & Hst).
  apply Hrow in Hi0 as Hk0. pose proof Hid as (Hk' & _). simpl in *. subst b.
  unfold fail_job, createNewIncidentFromToken in E. run.
  apply refresh_job_Ret in Hr as (Hj & -> & Hnc & Hnt & Hnf). rewrite lookup_insert_eq in *. simplify_eq/=.
  apply Flush_Ret in E as [Efl Hh]; [|done]. simpl in *. rewrite Hst in *.
  rewrite Hj0 in Hj. simplify_eq.
  pose proof (law_FindJobByJobKey w.(w_store) k) as Hjob. rewrite Hj0 in Hjob. simpl in Hjob.
  apply (keyed_job _ Hkeyed) in Hjob as Hk.
  pose proof (law_flush _ _ _ Efl) as Hview. simpl in Hview. rewrite Hview. simpl.
  eexists _, _, (Build_Incident _ _ _ _ _ _ _ _), i0, (with_State ActivityStateFailed i').
  split_and!; try done.
  - rewrite !not_elem_of_cons. split_and!; try done. apply not_elem_of_nil.
  - by rewrite Hk.
  - rewrite <-Hk0, <-Hk'. change (pi_Key i') with (pi_Key (with_State ActivityStateFailed i')).
    eapply law_flush_instance; [exact Efl| |rewrite Hh; apply lookup_insert_eq].
    simpl. by rewrite Z.eqb_refl.
  - simpl. by rewrite Hk', Hk0.
Qed.

(** Completing a job is idempotent and never overtakes another outcome: on
    a job that is already completed the call returns at once and changes
    nothing, and on a job that has failed or was terminated it does not
    succeed. *)
Theorem job_complete_guard n k v w job :
  FindJobByJobKey w.(w_store) k = Good job →
  match job.(job_State) with
  | ActivityStateCompleted => JobCompleteByKey n k v w = (Ret tt, w)
  | ActivityStateFailed | ActivityStateTerminated =>
      ∀ u w', JobCompleteByKey n k v w ≠ (Ret u, w')
  | _ => True
  end.
Proof.
  intros Hj. unfold JobCompleteByKey.
  erewrite bind_step by (apply wrap_run; unfold query; rewrite Hj; done).
  assert (Hgo : ∀ u w', job.(job_State) = ActivityStateFailed ∨ job.(job_State) = ActivityStateTerminated →
    (ib ← lock_instance_of_job job; clearing (snd ib) (complete_locked n (fst ib) k v)) w
      ≠ (Ret u, w')).
  { intros u w' Hs ([p b] & w1 & El & [b' E]%clearing_Ret)%bind_Ret.
    apply lock_instance_of_job_Ret in El as (i0 & i & _ & _ & _ & _ & Hst). simpl in *.
    unfold complete_locked in E.
    apply bind_Ret in E as (job' & [b1 w2] & [Er _]%lift_Ret & _). simpl in Er.
    apply refresh_job_Ret in Er as (Hj' & _ & _ & Ht & Hf).
    rewrite Hst, Hj in Hj'. simplify_eq. by destruct Hs. }
  destruct (job_State job); auto.
Qed.
End jobs.

(** ** Witnesses *)

Definition failed_world : World InMemory :=
  (JobFailByKey job_key "boom" None ∅ waiting_world).2.

(** Every instance of an in-memory storage under its own key, decidably. *)
Definition rows_keyed (m : InMemory) (h : Heap) : bool :=
  bool_decide (map_Forall (λ k p, default k (pi_Key <$> h.(h_objects) !! p) = k) m.(ProcessInstances)).

Lemma rows_keyed_check m h :
  rows_keyed m h = true → ∀ k i, mem_instance_row m h k = Some i → i.(pi_Key) = k.
Proof.
  unfold rows_keyed, mem_instance_row. rewrite bool_decide_eq_true. intros Hm k i Hi.
  apply bind_Some in Hi as (p & Hp & Hi). specialize (Hm k p Hp). simpl in Hm. by rewrite Hi in Hm.
Qed.

Lemma job_fail_effect_witness :
  ∃ job t inc i0 i,
    let key := job.(job_ProcessInstanceKey) in
    let before := mem_tables waiting_world.(w_store) in
    let after := mem_tables failed_world.(w_store) in
    before.(t_Jobs) !! job_key = Some job ∧
    job.(job_State) ∉ [ActivityStateCompleted; ActivityStateTerminated; ActivityStateFailed] ∧
    t = with_TokenState TokenStateFailed job.(job_Token) ∧
    inc.(inc_Token) = t ∧ inc.(inc_ResolvedAt) = None ∧
    inc.(inc_ProcessInstanceKey) = t.(tok_ProcessInstanceKey) ∧
    after.(t_Jobs) = <[job_key := with_JobToken t (with_JobState ActivityStateFailed job)]> before.(t_Jobs) ∧
    after.(t_Tokens) = <[t.(tok_Key) := t]> before.(t_Tokens) ∧
    after.(t_Incidents) = <[inc.(inc_Key) := inc]> before.(t_Incidents) ∧
    after.(t_Timers) = before.(t_Timers) ∧ after.(t_Subscriptions) = before.(t_Subscriptions) ∧
    mem_instance_row waiting_world.(w_store) waiting_world.(w_heap) key = Some i0 ∧
    mem_instance_row failed_world.(w_store) failed_world.(w_heap) key = Some i ∧
    same_identity i0 i ∧ i.(pi_Key) = key ∧ i.(pi_State) = ActivityStateFailed.
Proof.
  apply (job_fail_effect mem_tables mem_instance_row job_key "boom" None ∅ waiting_world).
  - apply tables_keyed_check. vm_compute. reflexivity.
  - apply rows_keyed_check. vm_compute. reflexivity.
  - vm_compute. reflexivity.
Defined.

Definition completed_job : Job :=
  match FindJobByJobKey completed_world.(w_store) job_key with
  | Good j => j
  | Bad _ => with_Job ActivityStateZero zero_token None
      {| job_ElementId := ""; job_ElementInstanceKey := 0; job_ProcessInstanceKey := 0;
         job_Key := 0; job_State := ActivityStateZero; job_Type := ""; job_Variables := ∅;
         job_CreatedAt := 0; job_Token := zero_token; job_Assignee := None |}
  end.

Lemma job_complete_guard_witness :
  JobCompleteByKey 20 job_key ∅ completed_world = (Ret tt, completed_world).
Proof.
  apply (job_complete_guard mem_tables mem_instance_row 20 job_key ∅ completed_world completed_job).
  vm_compute. reflexivity.
Defined.
