(* ===== verification/LockProps.v ===== *)
(** The locks of instances across the engine's operations. *)
From S2P Require Import Prelude Monad Model Runtime DmnModel Storage InMemory Locks TimerManager World.
From S2P Require Import Conditions Dmn Instances Tasks Events Gateways SubProcess Engine Api.
From S2P Require Import Frames System LockDiscipline Runs Example Identity CancelProps.

Section lock_props.
Context {S : Type} `{Storage S} `{DecisionStorage S} `{Env} `{!HeapLaws S}.

(** C5: every call of the engine's API that returns, with a value or with an
    error, leaves exactly the instances locked that were locked when it was
    made: it never keeps a lock and never releases one it did not take.  The
    calls are the public operations, CreateInstance, RunProcessInstance,
    PublishMessage, Start, LoadFromBytes, TriggerTimer and ProcessTimer.  The
    one exception is a timer whose trigger fails: TriggerTimer then returns
    the error, and ProcessTimer drops it, without having released a lock that
    was held before, but possibly with more locks than before. *)
Theorem operations_release_locks n c base w o w' :
  holds base w → run_call n c w = (o, w') → returns o →
  keeps base w' ∧ (¬ failing_trigger n c w → holds base w').
Proof. apply run_call_locks. Qed.

(** An engine that starts with no instance locked has no instance locked
    after any sequence of operations, of goroutines started by its flushes and
    of timers that are triggered successfully. *)
Theorem idle_engine_holds_no_lock w w' :
  holds (λ _, false) w → reachable w w' → ∀ k, held w'.(w_locks) k = false.
Proof. intros Hw Hr. by apply (reachable_holds _ _ _ Hr Hw). Qed.

(** A timer that the storage already has as triggered or cancelled when it
    is processed makes TriggerTimer fail, and leaves the process instance
    locked: the error returns do not clear the batch. *)
Theorem late_timer_leaks_lock n t base w h p i node b w1 t' :
  FindProcessInstanceByKey w.(w_store) t.(tm_ProcessInstanceKey) w.(w_heap) = (Ret p, h) →
  h.(h_objects) !! p = Some i →
  GetFlowNodeById (process_of i) t.(tm_Token).(tok_ElementId) = Some node → GetId node ≠ "" →
  holds base w →
  NewEngineBatch p (w_set_heap h w) = (Ret b, w1) →
  GetTimer w1.(w_store) t.(tm_Key) = Good t' →
  t'.(tm_TimerState) = TimerStateTriggered ∨ t'.(tm_TimerState) = TimerStateCancelled →
  ∃ e w', TriggerTimer n t w = (Err e, w') ∧ held w'.(w_locks) i.(pi_Key) = true ∧
    base i.(pi_Key) = false.
Proof.
  intros Ef Hi Hn Hid Hw Eb Et Hs. unfold TriggerTimer.
  erewrite bind_step by (apply wrap_run; unfold on_heap; by rewrite Ef).
  erewrite bind_step by (unfold load_instance; simpl; by rewrite Hi).
  erewrite bind_step by (by rewrite Hn).
  destruct (String.eqb_spec (GetId node) ""); [done|].
  erewrite bind_step by by apply wrap_run.
  pose proof (triple_NewEngineBatch base p (w_set_heap h w) Hw) as Hb. rewrite Eb in Hb.
  apply NewEngineBatch_Ret in Eb as (i1 & i2 & Hi1 & _ & _ & -> & _). simpl in Hi1.
  rewrite Hi in Hi1. simplify_eq.
  apply balanced_split in Hb as (_ & _ & Hnew & _ & Hh). simpl in *.
  assert (Hk : i1.(pi_Key) ∈ [i1.(pi_Key)]) by (by apply list_elem_of_singleton).
  unfold with_batch.
  erewrite bind_step by (apply wrap_run; unfold lift, zoom, query; simpl; by rewrite Et).
  destruct Hs as [-> | ->]; do 2 eexists; (split; [done|]); simpl; rewrite Hh; unfold with_touched;
    (split; [|by apply Hnew]); by rewrite bool_decide_eq_true_2, orb_true_r.
Qed.
End lock_props.

(** ** Witnesses *)

Lemma empty_world_idle : holds (λ _, false) empty_world.
Proof. split; [apply cache_wf_new|]. intros k. vm_compute. reflexivity. Qed.

Lemma waiting_world_idle : holds (λ _, false) waiting_world.
Proof.
  assert (E : waiting_world.(w_locks) =
    {| processInstances := ∅;
       objects := {[1%positive := {| mu_locked := false; waiters := 0 |}]}; next_object := 2 |})
    by (vm_compute; reflexivity).
  split; rewrite E; [|done]. split; simpl; [done| |done].
  intros p [x Hp]. apply lookup_singleton_Some in Hp as [<- _]. lia.
Qed.

Lemma operations_release_locks_witness : holds (λ _, false) completed_world.
Proof.
  apply (operations_release_locks 20 (CallOperation (OpJobCompleteByKey job_key ∅)) (λ _, false)
    waiting_world (Ret tt)).
  - apply waiting_world_idle.
  - vm_compute. reflexivity.
  - exact I.
  - intros [].
Defined.

Lemma idle_engine_holds_no_lock_witness : held completed_world.(w_locks) 100%Z = false.
Proof.
  apply (idle_engine_holds_no_lock waiting_world).
  - apply waiting_world_idle.
  - apply completed_reachable.
Defined.

(** A boundary timer of the waiting task that was cancelled in the storage. *)
Definition stale_timer : Timer :=
  {| tm_ElementId := "a"; tm_Key := 50; tm_ElementInstanceKey := 8; tm_ProcessDefinitionKey := 1;
     tm_ProcessInstanceKey := 100; tm_TimerState := TimerStateCancelled; tm_CreatedAt := 0;
     tm_DueAt := 5; tm_Duration := 5; tm_Token := token_at "a" 7 TokenStateWaiting |}.
Definition stale_world : World InMemory := after (StSaveTimer stale_timer) waiting_world.
Definition stale_locked : World InMemory := (NewEngineBatch 1 stale_world).2.

Lemma stale_world_idle : holds (λ _, false) stale_world.
Proof.
  unfold holds. assert (E : stale_world.(w_locks) = waiting_world.(w_locks))
    by (vm_compute; reflexivity).
  rewrite E. apply waiting_world_idle.
Qed.

Lemma late_timer_leaks_lock_witness :
  ∃ e w', TriggerTimer 20 stale_timer stale_world = (Err e, w') ∧
    held w'.(w_locks) 100 = true ∧ (λ _ : Z, false) 100%Z = false.
Proof.
  apply (late_timer_leaks_lock 20 stale_timer (λ _, false) stale_world stale_world.(w_heap) 1
    (example_instance stale_world) (ServiceTask task_a) (empty_batch [100%Z]) stale_locked stale_timer).
  - vm_compute. reflexivity.
  - vm_compute. reflexivity.
  - vm_compute. reflexivity.
  - vm_compute. discriminate.
  - apply stale_world_idle.
  - vm_compute. reflexivity.
  - vm_compute. reflexivity.
  - right. vm_compute. reflexivity.
Defined.
