(* ===== verification/StorageProps.v ===== *)
(** What the in-memory storage guarantees to the engine, and where it departs
    from the contract of the storage interface. *)
From S2P Require Import Prelude Monad Model Runtime DmnModel Storage InMemory Example.

Section storage_props.
Context (iter : ∀ A, gmap Z A → list (Z * A)).
Context (iter_perm : ∀ A (m : gmap Z A), iter A m ≡ₚ map_to_list m).
#[local] Existing Instance InMemory_Storage.

(** *** The sort of versions *)

Definition version_ok (v : Z) : Prop := (0 ≤ v < 2 ^ 63)%Z.

Lemma wrap64_total (x y : Z) : (wrap64 (x - y) ≤ 0 ∨ wrap64 (y - x) ≤ 0)%Z.
Proof.
  unfold wrap64. destruct (Z_le_gt_dec ((x - y + 2 ^ 63) mod 2 ^ 64) (2 ^ 63)) as [|Hgt]; [left; lia|].
  right.
  assert (Hxy : ((y - x + 2 ^ 63) mod 2 ^ 64 = 2 ^ 64 - (x - y + 2 ^ 63) mod 2 ^ 64)%Z).
  { pose proof (Z.div_mod (x - y + 2 ^ 63) (2 ^ 64) ltac:(lia)) as Hdm.
    pose proof (Z.mod_pos_bound (x - y + 2 ^ 63) (2 ^ 64) ltac:(lia)).
    symmetry. apply Z.mod_unique_pos with (q := (- ((x - y + 2 ^ 63) / 2 ^ 64))%Z); lia. }
  lia.
Qed.

#[local] Instance cmp_decision_total : Total (leq_by cmp_decision).
Proof. intros a b. apply wrap64_total. Qed.

(** The first element of the sorted list has the lowest version. *)
Lemma sort_head_lowest l d l' :
  (∀ x, x ∈ l → version_ok x.(dcd_Version)) →
  sort_by cmp_decision l = d :: l' →
  ∀ x, x ∈ l → (d.(dcd_Version) ≤ x.(dcd_Version))%Z.
Proof.
  intros Hok E x Hx.
  assert (Hp : d :: l' ≡ₚ l) by (rewrite <-E; apply merge_sort_Permutation).
  assert (Hs : Sorted (leq_by cmp_decision) (d :: l')) by (rewrite <-E; apply Sorted_merge_sort, _).
  assert (Hok' : Forall (λ y, version_ok y.(dcd_Version)) (d :: l')).
  { apply Forall_forall. intros y Hy. apply Hok. by rewrite <-Hp. }
  rewrite <-Hp in Hx. clear E Hp Hok.
  assert (Hss : ∀ y, y ∈ d :: l' → (d.(dcd_Version) ≤ y.(dcd_Version))%Z); [|by apply Hss].
  clear x Hx. revert d Hs Hok'. induction l' as [|e l' IH]; intros d Hs Hok y Hy.
  { by apply list_elem_of_singleton in Hy as ->. }
  apply Sorted_inv in Hs as [Hs Hd]. apply HdRel_inv in Hd.
  apply Forall_cons in Hok as [Hd' Hok]. pose proof Hok as [He _]%Forall_cons.
  unfold leq_by, cmp_decision, version_ok in *. rewrite wrap64_small in Hd by lia.
  apply elem_of_cons in Hy as [->|Hy]; [lia|].
  specialize (IH e Hs Hok y Hy). lia.
Qed.

(** *** The loop for the latest process definition *)

Definition candidate (id : string) (acc : option ProcessDefinition) : Prop :=
  ∀ a, acc = Some a → a.(pd_BpmnProcessId) = id ∧ (1 ≤ a.(pd_Version))%Z.

Lemma latest_step_Some id acc x a :
  candidate id acc → (1 ≤ x.(pd_Version))%Z → latest_step id acc x = Some a →
  (acc = Some a ∨ a = x) ∧ a.(pd_BpmnProcessId) = id ∧ (1 ≤ a.(pd_Version))%Z ∧
  (∀ a0, acc = Some a0 → (a0.(pd_Version) ≤ a.(pd_Version))%Z) ∧
  (x.(pd_BpmnProcessId) = id → (x.(pd_Version) ≤ a.(pd_Version))%Z).
Proof.
  intros Hacc Hx Ha. unfold latest_step in Ha.
  destruct (pd_BpmnProcessId x =? id)%string eqn:Ei; simpl in Ha; propify.
  - destruct acc as [r|]; simplify_eq; [|split_and!; [by right|done..]].
    destruct (Hacc r eq_refl) as [Hr1 Hr2].
    destruct (pd_Version r =? 0)%Z eqn:Er; propify; [lia|]. simpl in Ha.
    destruct (pd_Version x <? pd_Version r)%Z eqn:Ex; propify; simplify_eq;
      split_and!; intros; simplify_eq; auto; lia.
  - subst. destruct (Hacc a eq_refl). split_and!; try (intros ? ?; simplify_eq); auto; done.
Qed.

Lemma latest_step_None id acc x :
  latest_step id acc x = None → acc = None ∧ x.(pd_BpmnProcessId) ≠ id.
Proof.
  unfold latest_step. destruct (_ =? id)%string eqn:Ei; simpl; propify; [|done].
  destruct acc; [|done]. by case_match.
Qed.

Lemma latest_loop id l acc :
  (∀ d, d ∈ l → (1 ≤ d.(pd_Version))%Z) → candidate id acc →
  match foldl (latest_step id) acc l with
  | Some d => (acc = Some d ∨ d ∈ l) ∧ d.(pd_BpmnProcessId) = id ∧
      (∀ a, acc = Some a → (a.(pd_Version) ≤ d.(pd_Version))%Z) ∧
      ∀ d', d' ∈ l → d'.(pd_BpmnProcessId) = id → (d'.(pd_Version) ≤ d.(pd_Version))%Z
  | None => acc = None ∧ ∀ d', d' ∈ l → d'.(pd_BpmnProcessId) ≠ id
  end.
Proof.
  revert acc. induction l as [|x l IH]; intros acc Hl Hacc; simpl.
  - destruct acc as [a|]; [destruct (Hacc a eq_refl)|]; split_and!; eauto;
      try (intros ? ?; by simplify_eq); intros d' Hd; by apply not_elem_of_nil in Hd.
  - assert (Hx : (1 ≤ x.(pd_Version))%Z) by (apply Hl; left).
    assert (Hstep := λ a, latest_step_Some id acc x a Hacc Hx).
    specialize (IH (latest_step id acc x) ltac:(intros; apply Hl; by right)).
    assert (Hc : candidate id (latest_step id acc x)) by (intros a Ha; apply Hstep in Ha; tauto).
    specialize (IH Hc). destruct (foldl _ _ _) as [d|].
    + destruct IH as (Hin & Hid & Hge & Hall).
      destruct (latest_step id acc x) as [a'|] eqn:Es.
      * destruct (Hstep a' eq_refl) as (Ha & _ & _ & H1 & H2). specialize (Hge a' eq_refl).
        split_and!; [|done| |].
        -- destruct Hin as [[= <-]|]; [|right; by right]. destruct Ha as [->| ->]; auto. right. left.
        -- intros a ->. specialize (H1 a eq_refl). lia.
        -- intros d' [->|Hd']%elem_of_cons Hi; [specialize (H2 Hi); lia|by apply Hall].
      * apply latest_step_None in Es as [-> Hx']. split_and!; [|done|done|].
        -- destruct Hin as [|]; [done|right; by right].
        -- intros d' [->|Hd']%elem_of_cons Hi; [done|by apply Hall].
    + destruct IH as [Hn Hall]. apply latest_step_None in Hn as [-> Hx']. split; [done|].
      intros d' [->|Hd']%elem_of_cons; [done|by apply Hall].
Qed.

(** ** Properties *)

(** C34: the in-memory storage implements the contract the engine relies on,
    whatever order Go ranges over its maps in: every query returns exactly the
    rows it is asked for, a batch that flushes without an error has run all
    its statements in order, and instance objects keep their identity. *)
Theorem in_memory_implements_storage :
  StorageLaws InMemory (H := InMemory_Storage iter) mem_tables mem_instance_row ∧
  HeapLaws InMemory (H := InMemory_Storage iter) ∧
  StorageAnswers InMemory (H := InMemory_Storage iter).
Proof. split_and!; [by apply mem_laws|apply mem_heap_laws|apply mem_answers]. Qed.

(** The latest process definition the in-memory storage returns for an id
    has that id and the highest version of all definitions with it; it reports
    not found exactly when there is none.  (Versions start at 1.) *)
Theorem latest_process_definition_is_highest m id :
  (∀ k d, (ProcessDefinitions m) !! k = Some d → 1 ≤ d.(pd_Version))%Z →
  match mem_FindLatestProcessDefinitionById iter m id with
  | Good d => (∃ k, ProcessDefinitions m !! k = Some d) ∧ d.(pd_BpmnProcessId) = id ∧
      ∀ k d', ProcessDefinitions m !! k = Some d' → d'.(pd_BpmnProcessId) = id →
        (d'.(pd_Version) ≤ d.(pd_Version))%Z
  | Bad e => e = ErrNotFound ∧
      ∀ k d', ProcessDefinitions m !! k = Some d' → d'.(pd_BpmnProcessId) ≠ id
  end.
Proof.
  intros Hpos.
  unfold mem_FindLatestProcessDefinitionById.
  assert (Hloop := latest_loop id (range iter (ProcessDefinitions m)) None).
  assert (Hrange : ∀ k d, ProcessDefinitions m !! k = Some d → d ∈ range iter (ProcessDefinitions m)).
  { intros k d Hk. apply (elem_of_range iter iter_perm). eauto. }
  specialize (Hloop ltac:(intros d [k Hk]%(elem_of_range iter iter_perm); by eapply Hpos) ltac:(done)).
  destruct (foldl _ _ _) as [d|].
  - destruct Hloop as ([|Hin] & Hid & _ & Hall); [done|]. apply (elem_of_range iter iter_perm) in Hin.
    split_and!; eauto.
  - destruct Hloop as [_ Hall]. eauto.
Qed.

(** For decisions the "latest" query of the in-memory storage returns the
    lowest version with the id, not the highest: it sorts the versions in
    ascending order and takes the first. *)
Theorem latest_decision_is_lowest m id d :
  (∀ k x, m.(DecisionDefinitions) !! k = Some x → version_ok x.(dcd_Version)) →
  mem_GetLatestDecisionDefinitionById iter m id = Good d →
  ∀ k x, m.(DecisionDefinitions) !! k = Some x → x.(dcd_Id) = id →
    (d.(dcd_Version) ≤ x.(dcd_Version))%Z.
Proof.
  intros Hok E k x Hk Hid. unfold mem_GetLatestDecisionDefinitionById, first_or_NotFound in E.
  destruct (sort_by _ _) as [|d' l] eqn:Es; [done|]. simplify_eq.
  eapply sort_head_lowest; [|exact Es|].
  - intros y [_ [j Hj]%(elem_of_range iter iter_perm)]%list_elem_of_filter. by eapply Hok.
  - apply list_elem_of_filter. split; [done|]. apply (elem_of_range iter iter_perm). eauto.
Qed.

(** A batch of the in-memory storage is not atomic: when one of its
    statements fails, Flush returns the error and the writes of the other
    statements stay in the storage. *)
Theorem failed_flush_keeps_writes (m : InMemory) t s1 s2 k :
  (MessageSubscriptions m) = {[k := s1]} → s1.(ms_Key) = k →
  s1.(ms_State) = ActivityStateActive → s2.(ms_Key) ≠ k →
  s2.(ms_Name) = s1.(ms_Name) → s2.(ms_CorrelationKey) = s1.(ms_CorrelationKey) →
  ∃ e m', mem_Flush iter [StSaveToken t; StSaveMessageSubscription s2] m = (Err e, m') ∧
    ExecutionTokens m' = <[t.(tok_Key) := t]> (ExecutionTokens m) ∧
    MessageSubscriptions m' = MessageSubscriptions m.
Proof.
  intros Hm Hk Ha Hne Hn Hc.
  assert (Hr : range iter (MessageSubscriptions m) = [s1]).
  { rewrite Hm. apply Permutation_singleton_r. rewrite range_perm by done.
    unfold map_values. by rewrite map_to_list_singleton. }
  unfold mem_Flush, run_stmts, mbind, ST_bind, attempt. simpl.
  unfold mem_SaveMessageSubscription, mbind, ST_bind, get. simpl. rewrite Hr. simpl.
  destruct (Z.eqb_spec (ms_Key s2) (ms_Key s1)) as [E|_]; [by rewrite Hk in E|].
  rewrite Ha, Hn, Hc, !String.eqb_refl, bool_decide_eq_true_2 by done. simpl.
  by do 2 eexists.
Qed.
End storage_props.

(** ** Witnesses *)

Lemma example_iter_perm A (m : gmap Z A) : example_iter A m ≡ₚ map_to_list m.
Proof. reflexivity. Qed.

Lemma in_memory_implements_storage_witness :
  StorageLaws InMemory (H := InMemory_Storage example_iter) mem_tables mem_instance_row ∧
  HeapLaws InMemory (H := InMemory_Storage example_iter) ∧
  StorageAnswers InMemory (H := InMemory_Storage example_iter).
Proof. apply (in_memory_implements_storage example_iter). apply example_iter_perm. Defined.

Definition definition_version (k v : Z) : ProcessDefinition :=
  {| pd_BpmnProcessId := "p"; pd_Version := v; pd_Key := k;
     pd_Definitions := {| Process := example_process; Messages := [] |};
     pd_BpmnData := ""; pd_BpmnProcessName := ""; pd_BpmnChecksum := [] |}.
Definition two_definitions : InMemory :=
  set_tables (λ t, apply_stmts [StSaveProcessDefinition (definition_version 1 1);
                                StSaveProcessDefinition (definition_version 2 2)] t) NewStorage.

Lemma latest_process_definition_is_highest_witness :
  (∃ k, ProcessDefinitions two_definitions !! k = Some (definition_version 2 2)) ∧
  "p"%string = "p"%string ∧
  ∀ k d', ProcessDefinitions two_definitions !! k = Some d' → d'.(pd_BpmnProcessId) = "p"%string →
    (d'.(pd_Version) ≤ 2)%Z.
Proof.
  apply (latest_process_definition_is_highest example_iter example_iter_perm two_definitions "p").
  apply map_Forall_lookup. apply (bool_decide_unpack _). vm_compute. exact I.
Defined.

Definition decision_version (k v : Z) : DecisionDefinition :=
  {| dcd_Version := v; dcd_Key := k; dcd_Id := "d"; dcd_VersionTag := "";
     dcd_DmnResourceDefinitionId := "r"; dcd_DmnResourceDefinitionKey := k |}.
Definition two_decisions : InMemory :=
  (mem_SaveDecisionDefinition (decision_version 2 2)
    (mem_SaveDecisionDefinition (decision_version 1 1) NewStorage).2).2.

Lemma latest_decision_is_lowest_witness :
  mem_GetLatestDecisionDefinitionById example_iter two_decisions "d" = Good (decision_version 1 1) ∧
  ((decision_version 1 1).(dcd_Version) ≤ (decision_version 2 2).(dcd_Version))%Z.
Proof.
  split; [vm_compute; reflexivity|].
  apply (latest_decision_is_lowest example_iter example_iter_perm two_decisions "d"
    (decision_version 1 1)) with (k := 2%Z).
  - apply map_Forall_lookup. unfold version_ok. apply (bool_decide_unpack _). vm_compute. exact I.
  - vm_compute. reflexivity.
  - vm_compute. reflexivity.
  - reflexivity.
Defined.

Definition subscription (k : Z) : MessageSubscription :=
  {| ms_Key := k; ms_ElementId := "c"; ms_ProcessDefinitionKey := 1; ms_ProcessInstanceKey := 100;
     ms_Name := "m"; ms_CorrelationKey := "x"; ms_State := ActivityStateActive; ms_CreatedAt := 0;
     ms_Token := zero_token |}.
Definition subscribed : InMemory :=
  set_tables (apply_stmt (StSaveMessageSubscription (subscription 1))) NewStorage.

Lemma failed_flush_keeps_writes_witness :
  ∃ e m', mem_Flush example_iter [StSaveToken zero_token; StSaveMessageSubscription (subscription 2)]
      subscribed = (Err e, m') ∧
    ExecutionTokens m' = <[0%Z := zero_token]> (ExecutionTokens subscribed) ∧
    MessageSubscriptions m' = MessageSubscriptions subscribed.
Proof.
  apply (failed_flush_keeps_writes example_iter example_iter_perm subscribed zero_token
    (subscription 1) (subscription 2) 1); try (vm_compute; reflexivity). discriminate.
Defined.
