(* ===== verification/DmnProps.v ===== *)
(** The DMN engine: which rules of a table match, what the hit policies make of
    them, when the evaluation of a decision with its requirements ends, and the
    versions a deployment gives. *)
From Stdlib Require Import Ascii.
From S2P Require Import Prelude Monad Model Runtime DmnModel Storage InMemory Locks TimerManager World.
From S2P Require Import Conditions Dmn Frames Runs Example.


(** ** What a decision table means

    The rules a table hits and the value of a rule, read off the document and
    the FEEL interpreter alone; nothing of the engine occurs here. *)
Section meaning.
Context `{Env}.
Implicit Types (t : TDecisionTable) (v : vars) (rule : TRule) (j i : nat).

(** The cell in input column [j] holds: its text (an empty cell is "-") is
    true of the value of that column's input expression, which the text sees
    as "?" next to the variables. *)
Definition cell_holds t v j (cell : string) : Prop := ∃ input x,
  t.(dt_Inputs) !! j = Some input ∧ feel_Evaluate input.(in_Expression) v = Good x ∧
  feel_UnaryTest (if (cell =? "") then "-" else cell)%string (<["?"%string := x]> v) = Good true.

(** All input cells of the rule in position [i] hold. *)
Definition hit t v (rules : list TRule) i : Prop := ∃ rule, rules !! i = Some rule ∧
  ∀ j cell, rule.(InputEntry) !! j = Some cell → cell_holds t v j cell.

(** The positions of the rules that are hit, in document order; the hit policy
    First stops at the first one. *)
Definition hits t v (rules : list TRule) (ps : list nat) : Prop :=
  StronglySorted lt ps ∧
  ∀ i, i ∈ ps ↔ hit t v rules i ∧
    (t.(dt_HitPolicy) = HitPolicyFirst → ∀ i', hit t v rules i' → i ≤ i').

(** The value of a rule's output cell in column [j]. *)
Definition output_cell v rule j (x : value) : Prop := ∃ cell,
  rule.(OutputEntry) !! j = Some cell ∧ feel_Evaluate cell v = Good x.

(** The value of a rule: the value of its cell when the table has one output
    column and no name for it, otherwise the values of its cells under the
    names of their columns. *)
Definition rule_value t v i (w : value) : Prop := ∃ rule, t.(dt_Rules) !! i = Some rule ∧
  if bool_decide (out_Name <$> t.(dt_Outputs) = [""%string]) then output_cell v rule 0 w
  else ∃ entries, w = VMap entries ∧ NoDup entries.*1 ∧
    ∀ name x, (name, x) ∈ entries ↔
      ∃ j output, t.(dt_Outputs) !! j = Some output ∧ out_Name output = name ∧
        output_cell v rule j x.

(** What the evaluation reports about the rule in position [i]. *)
Definition reports t v (rules : list TRule) (m : EvaluatedRule) i : Prop := ∃ rule,
  rules !! i = Some rule ∧ m.(RuleId) = rule.(rule_Id) ∧
  length m.(EvaluatedOutputs) = length t.(dt_Outputs) ∧
  ∀ j output, t.(dt_Outputs) !! j = Some output → ∃ x, output_cell v rule j x ∧
    m.(EvaluatedOutputs) !! j = Some {| eo_OutputId := output.(out_Id);
      eo_OutputName := output.(out_Name); eo_OutputJsonName := output.(out_Name);
      OutputValue := x |}.

(** What it reports about an input column. *)
Definition reports_input v (input : TInput) (e : EvaluatedInput) : Prop :=
  e.(ei_InputId) = input.(in_Id) ∧ e.(ei_InputName) = input.(in_Label) ∧
  e.(ei_InputExpression) = input.(in_Expression) ∧
  feel_Evaluate input.(in_Expression) v = Good e.(InputValue).

Lemma hits_nil t v : hits t v [] [].
Proof.
  split; [constructor|]. intros i. split; [by intros ?%elem_of_nil|].
  intros [(rule & Hr & _) _]. by rewrite lookup_nil in Hr.
Qed.

Lemma hit_cons t v r rules i : hit t v (r :: rules) (Datatypes.S i) ↔ hit t v rules i.
Proof. done. Qed.

Lemma StronglySorted_shift (ps : list nat) :
  StronglySorted lt ps → StronglySorted lt (Datatypes.S <$> ps).
Proof.
  induction 1 as [|p ps Hs IH Hp]; simpl; constructor; [done|].
  apply Forall_fmap. eapply Forall_impl; [exact Hp|]. simpl. lia.
Qed.

(** A rule that is not hit shifts the positions of those after it. *)
Lemma hits_skip t v r rules ps :
  ¬ hit t v (r :: rules) 0 → hits t v rules ps → hits t v (r :: rules) (Datatypes.S <$> ps).
Proof.
  intros Hr [Hs Hps]. split; [by apply StronglySorted_shift|]. intros i.
  rewrite list_elem_of_fmap. split.
  - intros (p & -> & [Hp Hmin]%Hps). split; [done|]. intros Hf [|i'] Hi'; [done|].
    apply le_n_S. by apply Hmin.
  - intros [Hi Hmin]. destruct i as [|i]; [done|]. exists i. split; [done|]. apply Hps.
    split; [done|]. intros Hf i' Hi'. by apply le_S_n, Hmin.
Qed.

(** A rule that is hit is the only one for First, and the first one otherwise. *)
Lemma hits_first t v r rules :
  t.(dt_HitPolicy) = HitPolicyFirst → hit t v (r :: rules) 0 → hits t v (r :: rules) [0].
Proof.
  intros Hf Hr. split; [by repeat constructor|]. intros i. rewrite list_elem_of_singleton. split.
  - intros ->. split; [done|]. lia.
  - intros [_ Hmin]. specialize (Hmin Hf 0 Hr). lia.
Qed.
Lemma hits_cons t v r rules ps :
  t.(dt_HitPolicy) ≠ HitPolicyFirst → hit t v (r :: rules) 0 → hits t v rules ps →
  hits t v (r :: rules) (0 :: (Datatypes.S <$> ps)).
Proof.
  intros Hf Hr [Hs Hps]. split.
  - constructor; [by apply StronglySorted_shift|]. apply Forall_fmap, Forall_true. simpl. lia.
  - intros i. rewrite elem_of_cons, list_elem_of_fmap. split.
    + by intros [->|(p & -> & [Hp _]%Hps)].
    + intros [Hi _]. destruct i as [|i]; [by left|]. right. exists i. split; [done|]. by apply Hps.
Qed.
End meaning.

(** ** The engine's loops compute that meaning *)

Section tables.
Context `{Env} {X : Type}.
Implicit Types (t : TDecisionTable) (v : vars) (s : X).

Lemma evaluate_inputs_Ret inputs v s l s' :
  evaluate_inputs inputs v s = (Ret l, s') → s' = s ∧ Forall2 (reports_input v) inputs l.
Proof.
  unfold evaluate_inputs. revert s l s'.
  induction inputs as [|input inputs IH]; intros s l s' E; simpl in E.
  { apply mret_Ret in E as [<- ->]. by split. }
  apply bind_Ret in E as (e & s1 & E1 & E). apply bind_Ret in E as (es & s2 & E2 & E).
  apply mret_Ret in E as [<- ->]. apply bind_Ret in E1 as (x & s3 & [Ex ->]%wrap_result_Ret & E1).
  apply mret_Ret in E1 as [<- ->]. apply IH in E2 as [-> Hes]. split; [done|]. by constructor.
Qed.

(** The loop over the cells of a rule, with the columns before [k] done. *)
Lemma match_cells_Ret t v ins cells k s b s' :
  Forall2 (reports_input v) (drop k t.(dt_Inputs)) ins →
  match_cells ins cells v s = (Ret b, s') →
  s' = s ∧ (b = true ↔ ∀ j cell, cells !! j = Some cell → cell_holds t v (k + j) cell).
Proof.
  revert k ins. induction cells as [|c cells IH]; intros k ins Hins E; simpl in E.
  { apply mret_Ret in E as [<- ->]. split; [done|]. split; [|done]. intros _ j cell Hj.
    by rewrite lookup_nil in Hj. }
  destruct ins as [|e ins]; [done|].
  destruct (drop k t.(dt_Inputs)) as [|input inputs] eqn:Ek; [by inversion Hins|].
  apply Forall2_cons in Hins as [(_ & _ & _ & Hx) Hins].
  apply bind_Ret in E as (m & s1 & [Em ->]%wrap_result_Ret & E).
  assert (Hk : t.(dt_Inputs) !! k = Some input)
    by (rewrite <-(Nat.add_0_r k), <-lookup_drop, Ek; done).
  assert (Hc : cell_holds t v k c ↔ m = true).
  { split; [|intros ->; by exists input, (InputValue e)].
    intros (input' & x & Hi & Hx' & Ht). congruence. }
  destruct m.
  - apply (IH (Datatypes.S k)) in E as [-> Hb].
    2:{ replace (Datatypes.S k) with (k + 1) by lia. by rewrite <-drop_drop, Ek. }
    split; [done|]. rewrite Hb. split.
    + intros Hall [|j] cell Hj; simpl in Hj; [simplify_eq; rewrite Nat.add_0_r; by apply Hc|].
      rewrite Nat.add_succ_r. by apply (Hall j).
    + intros Hall j cell Hj. specialize (Hall (Datatypes.S j) cell Hj).
      by rewrite Nat.add_succ_r in Hall.
  - apply mret_Ret in E as [<- ->]. split; [done|]. split; [done|]. intros Hall. apply Hc.
    specialize (Hall 0 c eq_refl). by rewrite Nat.add_0_r in Hall.
Qed.

Lemma evaluate_outputs_Ret outputs cells v s l s' :
  evaluate_outputs outputs cells v s = (Ret l, s') →
  s' = s ∧ length l = length outputs ∧
  ∀ j output, outputs !! j = Some output → ∃ cell x, cells !! j = Some cell ∧
    feel_Evaluate cell v = Good x ∧
    l !! j = Some {| eo_OutputId := output.(out_Id); eo_OutputName := output.(out_Name);
      eo_OutputJsonName := output.(out_Name); OutputValue := x |}.
Proof.
  revert cells s l s'. induction outputs as [|o outputs IH]; intros cells s l s' E; simpl in E.
  { apply mret_Ret in E as [<- ->]. by split_and!. }
  destruct cells as [|c cells]; [done|].
  apply bind_Ret in E as (x & s1 & [Ex ->]%wrap_result_Ret & E).
  apply bind_Ret in E as (rest & s2 & (-> & Hlen & Hrest)%IH & E). apply mret_Ret in E as [<- ->].
  split_and!; [done|simpl; by rewrite Hlen|]. intros [|j] output Hj; simpl in *; simplify_eq.
  - by exists c, x.
  - by apply Hrest.
Qed.

(** The positions an evaluation reports are those of the rules. *)
Definition reported t v (k : Z) (rules : list TRule) (m : EvaluatedRule) (i : nat) : Prop :=
  m.(RuleIndex) = (k + Z.of_nat i + 1)%Z ∧ reports t v rules m i.

Lemma reported_shift t v k r rules l ps :
  Forall2 (reported t v (k + 1) rules) l ps →
  Forall2 (reported t v k (r :: rules)) l (Datatypes.S <$> ps).
Proof.
  intros Hl. apply Forall2_fmap_r. eapply Forall2_impl; [exact Hl|].
  intros m i [Hi Hm]. split; [lia|done].
Qed.

Lemma evaluate_rules_Ret t v ins k rules s l s' :
  Forall2 (reports_input v) t.(dt_Inputs) ins →
  evaluate_rules t ins v k rules s = (Ret l, s') →
  s' = s ∧ ∃ ps, hits t v rules ps ∧ Forall2 (reported t v k rules) l ps.
Proof.
  intros Hins. revert k s l s'. induction rules as [|r rules IH]; intros k s l s' E; simpl in E.
  { apply mret_Ret in E as [<- ->]. split; [done|]. exists []. split; [apply hits_nil|constructor]. }
  apply bind_Ret in E as (b & s1 & E1 & E).
  apply (match_cells_Ret t v ins _ 0) in E1 as [-> Hb]; [|by rewrite drop_0].
  assert (Hhit : hit t v (r :: rules) 0 ↔ b = true).
  { rewrite Hb. unfold hit. simpl. naive_solver. }
  destruct b.
  2:{ apply IH in E as (-> & ps & Hps & Hl). split; [done|]. exists (Datatypes.S <$> ps).
      split; [|by apply reported_shift]. apply hits_skip; [by rewrite Hhit|done]. }
  apply bind_Ret in E as (outs & s2 & (-> & Hlen & Houts)%evaluate_outputs_Ret & E).
  set (m := {| RuleId := _; RuleIndex := _; EvaluatedOutputs := outs |}) in E.
  assert (Hm : reported t v k (r :: rules) m 0).
  { split; [simpl; lia|]. exists r. split_and!; [done..|]. intros j output Hj.
    destruct (Houts j output Hj) as (cell & x & Hc & Hx & Ho). exists x. split; [by exists cell|done]. }
  assert (Hrest : t.(dt_HitPolicy) ≠ HitPolicyFirst →
    (rest ← evaluate_rules t ins v (k + 1) rules; mret (m :: rest)) s = (Ret l, s') →
    s' = s ∧ ∃ ps, hits t v (r :: rules) ps ∧ Forall2 (reported t v k (r :: rules)) l ps).
  { intros Hf (rest & s3 & (-> & ps & Hps & Hl)%IH & [<- ->]%mret_Ret)%bind_Ret.
    split; [done|]. exists (0 :: (Datatypes.S <$> ps)). split; [|constructor; [done|by apply reported_shift]].
    apply hits_cons; [done|by apply Hhit|done]. }
  destruct (dt_HitPolicy t) eqn:Ep; try by apply Hrest.
  apply mret_Ret in E as [<- ->]. split; [done|]. exists [0].
  split; [apply hits_first; [done|by apply Hhit]|constructor; [done|constructor]].
Qed.

(** The parts of a successful evaluation. *)
Lemma evaluateDecisionTable_Ret t id v s out rules ins s' :
  evaluateDecisionTable t id v s = (Ret (out, rules, ins), s') →
  (1 < length t.(dt_Outputs) → isUnique t.(dt_Outputs) = true) ∧
  Forall2 (reports_input v) t.(dt_Inputs) ins ∧
  (∃ ps, hits t v t.(dt_Rules) ps ∧ Forall2 (reported t v 0 t.(dt_Rules)) rules ps) ∧
  EvaluateHitPolicyOutput t id t.(dt_HitPolicy) t.(dt_HitPolicyAggregation) rules s = (Ret out, s').
Proof.
  unfold evaluateDecisionTable. intros E. destruct (_ && _) eqn:Eu; [done|].
  apply bind_Ret in E as (ins' & s1 & [-> Hins]%evaluate_inputs_Ret & E).
  apply bind_Ret in E as (l & s2 & E1 & E). apply evaluate_rules_Ret in E1 as [-> Hps]; [|done].
  apply bind_Ret in E as (o & s3 & E3 & E). apply mret_Ret in E as [E ->]. simplify_eq.
  split_and!; [|done..]. intros Hlen%Nat.ltb_lt. rewrite Hlen in Eu. by destruct (isUnique _).
Qed.

(** C35: evaluating a decision table that succeeds reports exactly the rules
    that are hit: a rule is hit when each of its input cells is true of the
    value of its own column's input expression.  They are reported in
    document order, with their id and their position counted from 1, each
    with the values of its output cells; for the hit policy First only the
    first of them is.  The report lists every input column with its value. *)
Theorem matched_rules_are_the_matching_ones t id v s out rules inputs s' :
  evaluateDecisionTable t id v s = (Ret (out, rules, inputs), s') →
  Forall2 (reports_input v) t.(dt_Inputs) inputs ∧
  ∃ ps, hits t v t.(dt_Rules) ps ∧
    RuleIndex <$> rules = (λ i, Z.of_nat i + 1)%Z <$> ps ∧
    Forall2 (reports t v t.(dt_Rules)) rules ps.
Proof.
  intros (_ & Hins & (ps & Hps & Hl) & _)%evaluateDecisionTable_Ret. split; [done|].
  exists ps. split; [done|]. clear Hps. induction Hl as [|m i l ps [Hi Hm] _ [IH1 IH2]]; [done|].
  split; [|by constructor]. rewrite !fmap_cons, IH1, Hi. f_equal.
Qed.

(** The outputs of a rule under their names. *)
Lemma outputs_map_lookup l name :
  NoDup (eo_OutputJsonName <$> l) →
  ∀ x, outputs_map l !! name = Some x ↔
    ∃ o, o ∈ l ∧ o.(eo_OutputJsonName) = name ∧ o.(OutputValue) = x.
Proof.
  unfold outputs_map. intros Hnd x.
  assert (Hm : ∀ m : vars, (∀ o, o ∈ l → m !! o.(eo_OutputJsonName) = None) →
    foldl (λ m o, <[o.(eo_OutputJsonName) := o.(OutputValue)]> m) m l !! name = Some x ↔
    m !! name = Some x ∨ ∃ o, o ∈ l ∧ o.(eo_OutputJsonName) = name ∧ o.(OutputValue) = x).
  2:{ rewrite Hm by done. rewrite lookup_empty. naive_solver. }
  induction l as [|o l IH]; intros m Hfresh; simpl.
  { split; [by left|]. by intros [?|(o & ?%elem_of_nil & _)]. }
  rewrite fmap_cons in Hnd. apply NoDup_cons in Hnd as [Ho Hnd]. rewrite (IH Hnd).
  2:{ intros o' Ho'. rewrite lookup_insert_ne; [by apply Hfresh; right|].
      intros Heq. apply Ho. rewrite Heq. by apply list_elem_of_fmap_2. }
  setoid_rewrite elem_of_cons. rewrite lookup_insert_Some. split.
  - intros [[[<- <-]|[_ ?]]|(o' & ? & ? & ?)]; eauto 10.
  - intros [Hx|(o' & [->|Ho'] & <- & <-)]; [|by left; left|by right; eauto].
    left. right. split; [|done]. intros <-. rewrite (Hfresh o) in Hx; [done|by left].
Qed.

Lemma isUnique_NoDup l : isUnique l = true → NoDup (out_Name <$> l).
Proof.
  unfold isUnique. assert (Hl : ∀ seen, isUnique_loop seen l = true →
    NoDup (out_Name <$> l) ∧ ∀ o, o ∈ l → o.(out_Name) ∉ seen).
  2:{ intros Hu. by eapply Hl. }
  induction l as [|o l IH]; intros seen Hu; simpl in Hu.
  { split; [constructor|]. by intros o ?%elem_of_nil. }
  destruct (existsb _ seen) eqn:Es; [done|]. apply IH in Hu as [Hnd Hseen]. split.
  - rewrite fmap_cons. apply NoDup_cons. split; [|done].
    intros (o' & Ho & Ho')%list_elem_of_fmap. apply (Hseen o' Ho'). rewrite <-Ho. by left.
  - intros o' [->|Ho']%elem_of_cons.
    + intros Hin. apply not_true_iff_false in Es. apply Es, existsb_exists.
      exists (out_Name o). split; [by apply list_elem_of_In|by apply String.eqb_refl].
    + intros Hin. apply (Hseen o' Ho'). by right.
Qed.

(** A Go map as a value has every entry once. *)
Lemma map_value_entries (m : vars) : ∃ entries, map_value m = VMap entries ∧
  NoDup entries.*1 ∧ ∀ name x, (name, x) ∈ entries ↔ m !! name = Some x.
Proof.
  unfold map_value. eexists. split; [done|].
  assert (Hp : merge_sort key_le (map_to_list m) ≡ₚ map_to_list m) by apply merge_sort_Permutation.
  split.
  - rewrite Hp. apply NoDup_fst_map_to_list.
  - intros name x. rewrite Hp. apply elem_of_map_to_list.
Qed.

Lemma single_unnamed_spec t :
  single_unnamed t = bool_decide (out_Name <$> t.(dt_Outputs) = [""%string]).
Proof.
  unfold single_unnamed. destruct (dt_Outputs t) as [|o [|o' l]]; simpl; [done| |].
  2:{ symmetry. by apply bool_decide_eq_false. }
  destruct (String.eqb_spec o.(out_Name) "") as [->|Hn]; symmetry;
    [by apply bool_decide_eq_true|apply bool_decide_eq_false; congruence].
Qed.

(** What the engine reports of a rule has the rule's value. *)
Lemma rule_output_value t v m i s w s' :
  (1 < length t.(dt_Outputs) → isUnique t.(dt_Outputs) = true) →
  reports t v t.(dt_Rules) m i → rule_output t m s = (Ret w, s') → s' = s ∧ rule_value t v i w.
Proof.
  intros Hu (rule & Hr & _ & Hlen & Hout) E. unfold rule_output in E. unfold rule_value.
  rewrite single_unnamed_spec in E. case_bool_decide as Hs.
  - unfold first_output in E. destruct (dt_Outputs t) as [|o outs] eqn:Eo; [done|].
    destruct (Hout 0 o eq_refl) as (x & Hx & Hm).
    destruct (EvaluatedOutputs m) as [|e es]; [done|]. simpl in Hm. simplify_eq.
    apply mret_Ret in E as [<- ->]. split; [done|]. by exists rule.
  - apply mret_Ret in E as [<- ->]. split; [done|]. exists rule. split; [done|].
    destruct (map_value_entries (outputs_map m.(EvaluatedOutputs))) as (entries & He & Hnd & Hin).
    exists entries. split; [done|]. split; [done|]. intros name x. rewrite Hin, outputs_map_lookup.
    + split.
      * intros (o & [j Hj]%list_elem_of_lookup_1 & <- & <-).
        destruct (lookup_lt_is_Some_2 t.(dt_Outputs) j) as [output Ho];
          [rewrite <-Hlen; by eapply lookup_lt_Some|].
        destruct (Hout j output Ho) as (x & Hx & Hm). rewrite Hm in Hj. simplify_eq.
        by exists j, output.
      * intros (j & output & Ho & <- & Hx). destruct (Hout j output Ho) as (x' & Hx' & Hm).
        apply list_elem_of_lookup_2 in Hm. eexists. split; [exact Hm|]. split; [done|]. simpl.
        destruct Hx as (c & Hc & Hx), Hx' as (c' & Hc' & Hx'). congruence.
    + assert (Hnames : eo_OutputJsonName <$> m.(EvaluatedOutputs) = out_Name <$> t.(dt_Outputs)).
      { apply list_eq. intros j. rewrite !list_lookup_fmap.
        destruct (dt_Outputs t !! j) as [output|] eqn:Ho; simpl.
        - destruct (Hout j output Ho) as (x' & _ & Hm). by rewrite Hm.
        - apply lookup_ge_None in Ho. by rewrite lookup_ge_None_2 by lia. }
      rewrite Hnames. destruct (dt_Outputs t) as [|o [|o' outs]] eqn:Eo;
        [constructor|by apply NoDup_singleton|]. apply isUnique_NoDup, Hu. simpl. lia.
Qed.

Lemma collect_values t v rules ps s l s' :
  (1 < length t.(dt_Outputs) → isUnique t.(dt_Outputs) = true) →
  Forall2 (reported t v 0 t.(dt_Rules)) rules ps →
  for_map rules (rule_output t) s = (Ret l, s') → Forall2 (rule_value t v) ps l.
Proof.
  intros Hu Hr. revert s l s'. induction Hr as [|m i rules ps [_ Hm] _ IH]; intros s l s' E; simpl in E.
  { apply mret_Ret in E as [<- _]. constructor. }
  apply bind_Ret in E as (w & s1 & [_ Hw]%(rule_output_value _ v _ i) & E); [|done..].
  apply bind_Ret in E as (ws & s2 & E2 & [<- _]%mret_Ret). constructor; [done|]. by eapply IH.
Qed.

(** The output under the decision's name is the value of the first rule that
    is hit, nil when there is none. *)
Definition first_value t v id ps (out : vars) : Prop := ∃ w, out = {[id := w]} ∧
  match ps with [] => w = VNil | i :: _ => rule_value t v i w end.

Lemma first_rule_value t v id rules ps s out s' :
  (1 < length t.(dt_Outputs) → isUnique t.(dt_Outputs) = true) →
  Forall2 (reported t v 0 t.(dt_Rules)) rules ps →
  evaluateFirstRuleOutput t id rules s = (Ret out, s') → first_value t v id ps out.
Proof.
  intros Hu [|m i rules' ps' [_ Hm] _] E; unfold evaluateFirstRuleOutput in E.
  { apply mret_Ret in E as [<- _]. by eexists. }
  apply bind_Ret in E as (w & s1 & [_ Hw]%(rule_output_value _ v _ i) & [<- _]%mret_Ret); [|done..].
  by exists w.
Qed.

Definition with_aggregation (a : HitPolicyAggregation) t : TDecisionTable :=
  {| dt_Id := t.(dt_Id); dt_HitPolicy := t.(dt_HitPolicy); dt_HitPolicyAggregation := a;
     dt_Inputs := t.(dt_Inputs); dt_Outputs := t.(dt_Outputs); dt_Rules := t.(dt_Rules) |}.

Lemma evaluate_rules_aggregation a t ins v k rules s :
  evaluate_rules (with_aggregation a t) ins v k rules s = evaluate_rules t ins v k rules s.
Proof.
  revert k s. induction rules as [|r rules IH]; intros k s; simpl; [done|].
  unfold mbind, ST_bind. destruct (match_cells _ _ _ s) as [[b| | | |] s1]; try done.
  destruct b; [|done]. destruct (evaluate_outputs _ _ _ s1) as [[outs| | | |] s2]; try done.
  destruct (dt_HitPolicy t); try done; by rewrite IH.
Qed.

(** C36: the output of a decision table that is evaluated is fixed by the
    document and its hit policy.  Collect lists, under the decision's name,
    the values of the rules that are hit in document order; First, Any,
    Priority and the two order policies give the value of the first rule that
    is hit, nil without one; Unique does so too, and gives nothing at all
    when two rules are hit.  The value of a rule is that of its only output
    cell when the one output column has no name, otherwise the values of all
    its output cells, each under its own column's name.  Collect with one of
    the aggregations never gives an output: the table that is evaluated
    without the aggregation panics with it. *)
Theorem hit_policy_output t id v s out rules inputs s' :
  evaluateDecisionTable t id v s = (Ret (out, rules, inputs), s') →
  (∃ ps, hits t v t.(dt_Rules) ps ∧
    match t.(dt_HitPolicy) with
    | HitPolicyCollect =>
        (∃ text, t.(dt_HitPolicyAggregation) = HitPolicyAggregationOther text) ∧
        ∃ l, Forall2 (rule_value t v) ps l ∧ out = {[id := VList l]}
    | HitPolicyOther _ => if 1 <? length ps then out = ∅ else first_value t v id ps out
    | _ => first_value t v id ps out
    end) ∧
  (t.(dt_HitPolicy) = HitPolicyCollect → ∀ a, (∀ text, a ≠ HitPolicyAggregationOther text) →
    ∃ msg, evaluateDecisionTable (with_aggregation a t) id v s = (Panic msg, s)).
Proof.
  intros E. pose proof E as (Hu & _ & (ps & Hps & Hl) & Eo)%evaluateDecisionTable_Ret. split.
  - exists ps. split; [done|]. unfold EvaluateHitPolicyOutput in Eo.
    destruct (dt_HitPolicy t); try by eapply first_rule_value.
    + destruct (dt_HitPolicyAggregation t) as [| | | |text]; try done. split; [by exists text|].
      apply bind_Ret in Eo as (l & s1 & E1 & [<- _]%mret_Ret). exists l. split; [|done].
      by eapply collect_values.
    + unfold evaluateUniqueOutput in Eo. rewrite (Forall2_length _ _ _ Hl) in Eo.
      destruct (1 <? length ps); [by apply mret_Ret in Eo as [<- _]|by eapply first_rule_value].
  - intros Hc a Ha. unfold evaluateDecisionTable in E |- *. simpl. destruct (_ && _); [done|].
    apply bind_Ret in E as (ins & s1 & E1 & E). pose proof E1 as [-> _]%evaluate_inputs_Ret.
    erewrite bind_step by exact E1. apply bind_Ret in E as (l & s2 & E2 & E).
    apply evaluate_rules_Ret in E2 as Hs; [|by apply evaluate_inputs_Ret in E1 as [_ ?]].
    destruct Hs as [-> _].
    erewrite bind_step by (rewrite evaluate_rules_aggregation; exact E2). rewrite Hc.
    destruct a as [| | | |text]; try (by eexists). by destruct (Ha text).
Qed.
End tables.

(** ** Required decisions *)

Section requirements.
Context `{Env}.
Implicit Types (doc : DmnResourceDefinition) (id : string).

(** The decision [id] names [id'] as a required decision. *)
Definition requires doc id id' : Prop := ∃ d req href,
  findDecisionDefinition doc id = Some d ∧ req ∈ d.(InformationRequirement) ∧
  req.(RequiredResource) = TRequiredDecision href ∧ id' = TrimPrefix1 "#"%char href.

Definition decision_ids doc : list string := dec_Id <$> doc.(drd_Definitions).(Decisions).

Lemma findDecisionDefinition_in doc id d :
  findDecisionDefinition doc id = Some d → id ∈ decision_ids doc.
Proof.
  intros [Hd <-%String.eqb_eq]%List.find_some. unfold decision_ids.
  by apply list_elem_of_fmap_2, list_elem_of_In.
Qed.

Lemma enough_fuel_bind {X A B} (m : ST X A) (f : A → ST X B) :
  enough_fuel m → (∀ a, enough_fuel (f a)) → enough_fuel (m ≫= f).
Proof. apply (closed_bind (Φ:=λ A, @enough_fuel X A)). Qed.

Lemma enough_fuel_for_fold {X A B} (l : list A) (b : B) (f : B → A → ST X B) :
  (∀ b a, a ∈ l → enough_fuel (f b a)) → enough_fuel (for_fold l b f).
Proof.
  revert b. induction l as [|a l IH]; intros b Hf; simpl; [done|].
  apply enough_fuel_bind; [apply Hf; by left|].
  intros b'. apply IH. intros. apply Hf. by right.
Qed.

(** One more level of the evaluation. *)
Lemma enough_fuel_step {X} doc id v fuel :
  (∀ id', requires doc id id' → enough_fuel (evaluateDecision (X:=X) fuel doc id' v)) →
  enough_fuel (evaluateDecision (X:=X) (Datatypes.S fuel) doc id v).
Proof.
  intros IH. simpl. destruct (findDecisionDefinition doc id) as [d|] eqn:Hd; [|done].
  apply enough_fuel_bind.
  - apply enough_fuel_for_fold. intros acc req Hreq.
    destruct (RequiredResource req) as [href|href|] eqn:Er; [| |done].
    + apply enough_fuel_bind; [|done]. apply IH. by exists d, req, href.
    + by destruct (required_input_missing _ _ _).
  - intros r. apply enough_fuel_bind; [|done]. apply (closed_evaluate_logic (λ A, enough_fuel)).
Qed.

Lemma enough_fuel_visited {X} doc v visited fuel id :
  (∀ x, ¬ tc (requires doc) x x) → NoDup visited →
  (∀ x, x ∈ visited → x ∈ decision_ids doc ∧ tc (requires doc) x id) →
  length (decision_ids doc) < fuel + length visited →
  enough_fuel (evaluateDecision (X:=X) fuel doc id v).
Proof.
  intros Hacyclic. revert visited id. induction fuel as [|fuel IH]; intros visited id Hdup Hv Hlen.
  { assert (length visited ≤ length (decision_ids doc)); [|lia].
    apply NoDup_ListNoDup in Hdup. apply (List.NoDup_incl_length Hdup).
    intros x Hx%list_elem_of_In. by apply list_elem_of_In, Hv. }
  apply enough_fuel_step. intros id' Hr. apply (IH (id :: visited)).
  - apply NoDup_cons. split; [|done]. intros [_ Hc]%Hv. by apply Hacyclic in Hc.
  - intros x [->|Hx]%elem_of_cons.
    + split; [|by apply tc_once]. destruct Hr as (d & ? & ? & Hd & _).
      by apply findDecisionDefinition_in in Hd.
    + apply Hv in Hx as [??]. split; [done|]. by eapply tc_r.
  - simpl. lia.
Qed.

(** C37: when no decision of a document requires itself, directly or through
    others, the evaluation of any decision ends, whatever the variables: the
    depth of the recursion never exceeds the number of decisions. *)
Theorem acyclic_decision_evaluation_ends {X} doc id v fuel (s : X) :
  (∀ x, ¬ tc (requires doc) x x) →
  length (decision_ids doc) < fuel →
  (evaluateDecision fuel doc id v s).1 ≠ NoFuel.
Proof.
  intros Hacyclic Hlen. apply (enough_fuel_visited doc v [] fuel id); [done|apply NoDup_nil_2|set_solver|].
  simpl. lia.
Qed.

(** Decisions whose first requirements form a cycle are evaluated for
    ever: no depth of recursion is enough (there is no check of the
    requirements, at a deployment or at an evaluation). *)
Theorem cyclic_decision_never_ends {X} doc (cycle : string → Prop) v fuel id (s : X) :
  (∀ id, cycle id → ∃ d req l href, findDecisionDefinition doc id = Some d ∧
     d.(InformationRequirement) = req :: l ∧ req.(RequiredResource) = TRequiredDecision href ∧
     cycle (TrimPrefix1 "#"%char href)) →
  cycle id → (evaluateDecision fuel doc id v s).1 = NoFuel.
Proof.
  intros Hc. revert id s. induction fuel as [|fuel IH]; intros id s Hid; [done|].
  destruct (Hc id Hid) as (d & req & l & href & Hd & Hl & Hr & Hn).
  simpl. rewrite Hd, Hl. simpl. rewrite Hr. specialize (IH _ s Hn).
  unfold mbind, ST_bind. by destruct (evaluateDecision fuel doc _ v s) as [[] ?].
Qed.
End requirements.

(** ** Deployments *)

Lemma latest_by_max {A} (version : A → Z) (x : A) (l : list A) :
  latest_by version x l ∈ x :: l ∧
  ∀ y, y ∈ x :: l → (version y ≤ version (latest_by version x l))%Z.
Proof.
  unfold latest_by. revert x. induction l as [|y l IH]; intros x; simpl.
  { split; [by left|]. by intros y ->%list_elem_of_singleton. }
  pose proof (IH (if (version x <? version y)%Z then y else x)) as [Hin Hmax]. split.
  - apply elem_of_cons in Hin as [->|Hin]; [|by right; right].
    destruct (_ <? _)%Z; [by right; left|by left].
  - pose proof (Hmax _ (list_elem_of_here _ _)) as Hx.
    intros z [->|[->|Hz]%elem_of_cons]%elem_of_cons;
      [destruct (Z.ltb_spec (version x) (version y)); lia
      |destruct (Z.ltb_spec (version x) (version y)); lia
      |by apply Hmax; right].
Qed.

Section deployment.
Context {S : Type} `{Storage S} `{DecisionStorage S} `{Env}.

(** Saving a document returns the stored document with the highest version
    and writes nothing when that one has the same checksum; otherwise the
    document gets the version after the highest one, and a first document
    keeps the version it came with. *)
Theorem dmn_deployment_version (w w' : World S) existing d ds r l :
  FindDmnResourceDefinitionsById w.(w_store) d.(drd_Id) = Good existing →
  saveDmnResourceDefinition d ds w = (Ret (r, l), w') →
  (existing = [] ∧ r = d) ∨
  ∃ latest, latest ∈ existing ∧ (∀ x, x ∈ existing → (x.(drd_Version) ≤ latest.(drd_Version))%Z) ∧
    if bool_decide (latest.(drd_DmnChecksum) = d.(drd_DmnChecksum))
    then r = latest ∧ l = [] ∧ w' = w
    else r = with_drd_Version (wrap64 (latest.(drd_Version) + 1)) d.
Proof.
  intros He (e & w1 & [Hq ->]%wrap_Ret%query_Ret & E)%bind_Ret.
  rewrite He in Hq. simplify_eq. destruct e as [|x e].
  { left. split; [done|]. unfold save_resource in E.
    apply bind_Ret in E as (? & ? & _ & E). apply bind_Ret in E as (? & ? & _ & E).
    apply mret_Ret in E as [? _]. by simplify_eq. }
  right. exists (latest_by drd_Version x (x :: e)).
  pose proof (latest_by_max drd_Version x (x :: e)) as [Hin Hmax].
  split; [apply elem_of_cons in Hin as [->|Hin]; [by left|done]|].
  split; [intros y Hy; apply Hmax; by right|]. cbv zeta in E. case_bool_decide.
  - apply mret_Ret in E as [? ->]. by simplify_eq.
  - unfold save_resource in E. apply bind_Ret in E as (? & ? & _ & E).
    apply bind_Ret in E as (? & ? & _ & E). apply mret_Ret in E as [? _]. by simplify_eq.
Qed.
End deployment.

(** ** Witnesses *)

#[local] Open Scope string_scope.

Section dish.

(** A table with two inputs: the dish by season and number of guests.  A cell
    of the example's expression language is "-" or the value it wants, an
    expression the name of a variable. *)
#[local] Instance dish_env : Env := {|
  feel_Evaluate := λ e v, match v !! e with Some x => Good x | None => Bad (err! "feel") end;
  feel_UnaryTest := λ cell v, Good ((cell =? "-") ||
    match v !! "?" with Some (VString x) => (x =? cell) | _ => false end);
  GenerateId := λ n, Z.of_nat n; clock := λ n, Z.of_nat n;
  Duration := Z; ParseISO8601 := λ s, Good 60%Z; Shift := λ d t, (t + d)%Z; Duration_TS := λ d, d;
  Sprint_value := λ _, "?"; json_Marshal := λ _, Good "{}"; json_MarshalDecisions := λ _, Good "[]" |}.

Definition dish_vars : vars :=
  {["season" := VString "winter"; "guests" := VString "many";
    "stew" := VString "stew"; "soup" := VString "soup"; "big" := VInt 2; "small" := VInt 1]}.
Definition dish_rules : list TRule :=
  [{| rule_Id := "r1"; InputEntry := ["summer"; "many"]; OutputEntry := ["soup"; "big"] |};
   {| rule_Id := "r2"; InputEntry := ["winter"; ""]; OutputEntry := ["stew"; "big"] |};
   {| rule_Id := "r3"; InputEntry := ["winter"; "winter"]; OutputEntry := ["soup"; "small"] |};
   {| rule_Id := "r4"; InputEntry := ["-"; "many"]; OutputEntry := ["soup"; "small"] |}].
Definition dish_table (p : HitPolicy) : TDecisionTable :=
  {| dt_Id := "t"; dt_HitPolicy := p; dt_HitPolicyAggregation := HitPolicyAggregationOther "";
     dt_Inputs := [{| in_Id := "i"; in_Label := ""; in_Expression := "season" |};
                   {| in_Id := "j"; in_Label := ""; in_Expression := "guests" |}];
     dt_Outputs := [{| out_Id := "o"; out_Label := ""; out_Name := "dish"; out_TypeRef := "" |};
                    {| out_Id := "p"; out_Label := ""; out_Name := "size"; out_TypeRef := "" |}];
     dt_Rules := dish_rules |}.
Definition dish_run (p : HitPolicy) := evaluateDecisionTable (X:=unit) (dish_table p) "d" dish_vars tt.
Definition dish_result (p : HitPolicy) := value_of (∅, [], []) (dish_run p).

Lemma matched_rules_are_the_matching_ones_witness :
  RuleIndex <$> (dish_result HitPolicyCollect).1.2 = [2; 4]%Z ∧
  RuleIndex <$> (dish_result HitPolicyFirst).1.2 = [2]%Z ∧
  ∃ ps, hits (dish_table HitPolicyCollect) dish_vars dish_rules ps ∧ ps = [1; 3]%nat.
Proof.
  split_and!; [vm_compute; reflexivity..|].
  destruct (matched_rules_are_the_matching_ones (X:=unit) (dish_table HitPolicyCollect) "d" dish_vars tt
    (dish_result HitPolicyCollect).1.1 (dish_result HitPolicyCollect).1.2
    (dish_result HitPolicyCollect).2 tt) as (_ & ps & Hps & Hi & _); [vm_compute; reflexivity|].
  exists ps. split; [exact Hps|]. clear Hps.
  assert (Hr : RuleIndex <$> (dish_result HitPolicyCollect).1.2 = [2; 4]%Z) by (vm_compute; reflexivity).
  rewrite Hr in Hi. destruct ps as [|p1 [|p2 [|p3 ps]]]; try discriminate Hi.
  injection Hi as H1 H2.
  assert (p1 = 1%nat) as -> by lia. assert (p2 = 3%nat) as -> by lia. reflexivity.
Defined.

Lemma hit_policy_output_witness :
  (dish_result HitPolicyCollect).1.1 = {["d" := VList
    [VMap [("dish", VString "stew"); ("size", VInt 2)]; VMap [("dish", VString "soup"); ("size", VInt 1)]]]} ∧
  (∃ ps, hits (dish_table HitPolicyCollect) dish_vars dish_rules ps ∧
    (∃ text, HitPolicyAggregationOther "" = HitPolicyAggregationOther text) ∧
    ∃ l, Forall2 (rule_value (dish_table HitPolicyCollect) dish_vars) ps l ∧
      (dish_result HitPolicyCollect).1.1 = {["d" := VList l]}) ∧
  ∃ msg, evaluateDecisionTable (with_aggregation HitPolicyAggregationSum (dish_table HitPolicyCollect))
    "d" dish_vars tt = (Panic msg, tt).
Proof.
  destruct (hit_policy_output (X:=unit) (dish_table HitPolicyCollect) "d" dish_vars tt
    (dish_result HitPolicyCollect).1.1 (dish_result HitPolicyCollect).1.2
    (dish_result HitPolicyCollect).2 tt) as [Hout Hsum]; [vm_compute; reflexivity|].
  split; [vm_compute; reflexivity|]. split; [exact Hout|]. apply Hsum; [reflexivity|discriminate].
Defined.
End dish.

(** The table of the decisions below: one input and one unnamed output. *)
Definition example_table (p : HitPolicy) : TDecisionTable :=
  {| dt_Id := "t"; dt_HitPolicy := p; dt_HitPolicyAggregation := HitPolicyAggregationOther "";
     dt_Inputs := [{| in_Id := "i"; in_Label := ""; in_Expression := "yes" |}];
     dt_Outputs := [{| out_Id := "o"; out_Label := ""; out_Name := ""; out_TypeRef := "" |}];
     dt_Rules := [{| rule_Id := "r1"; InputEntry := ["no"]; OutputEntry := ["x"] |};
                  {| rule_Id := "r2"; InputEntry := ["-"]; OutputEntry := ["yes"] |};
                  {| rule_Id := "r3"; InputEntry := [""]; OutputEntry := ["x"] |}] |}.
Definition table_vars : vars := {["yes" := VBool true]}.

(** The decision [d] requires [e], and [c] requires itself. *)
Definition mk_decision (id : string) (reqs : list string) : TDecision :=
  {| dec_Id := id; dec_Name := id; dec_DecisionTable := Some (example_table HitPolicyFirst);
     dec_Variable := None; dec_LiteralExpression := None; dec_Context := None; dec_VersionTag := "";
     InformationRequirement :=
       (λ r, {| ir_Id := ""; RequiredResource := TRequiredDecision r |}) <$> reqs |}.
Definition mk_resource (l : list TDecision) (sum : list Z) : DmnResourceDefinition :=
  {| drd_Version := 1; drd_Key := 5; drd_Id := "doc";
     drd_Definitions := {| dd_Id := "doc"; dd_Name := ""; Decisions := l; InputData := [] |};
     drd_DmnData := ""; drd_DmnDefinitionName := ""; drd_DmnChecksum := sum |}.
Definition chain_doc := mk_resource [mk_decision "d" ["#e"]; mk_decision "e" []] [1%Z].
Definition cyclic_doc := mk_resource [mk_decision "c" ["#c"]] [1%Z].

Lemma chain_requires x y : requires chain_doc x y → x = "d" ∧ y = "e".
Proof.
  intros (d & req & href & [Hd <-%String.eqb_eq]%List.find_some & Hreq & Hr & ->).
  destruct Hd as [<-|[<-|[]]]; [|by apply elem_of_nil in Hreq].
  apply list_elem_of_singleton in Hreq as ->. simpl in Hr. by simplify_eq.
Qed.
Lemma chain_acyclic x : ¬ tc (requires chain_doc) x x.
Proof.
  intros Hc. assert (Hd : ∀ x y, tc (requires chain_doc) x y → x = "d" ∧ y = "e").
  { intros a b. induction 1 as [a b Hab|a b c Hab _ [E1 E2]];
      apply chain_requires in Hab as [??]; by simplify_eq. }
  apply Hd in Hc as [-> ?]. done.
Qed.

Lemma acyclic_decision_evaluation_ends_witness :
  (evaluateDecision (X:=unit) 3 chain_doc "d" table_vars tt).1 ≠ NoFuel.
Proof. apply acyclic_decision_evaluation_ends; [apply chain_acyclic|vm_compute; lia]. Defined.

Lemma cyclic_decision_never_ends_witness :
  (evaluateDecision (X:=unit) 1000 cyclic_doc "c" table_vars tt).1 = NoFuel.
Proof.
  apply (cyclic_decision_never_ends cyclic_doc (λ id, id = "c")); [|reflexivity].
  intros ? ->. exists (mk_decision "c" ["#c"]). eexists _, [], "#c". vm_compute. auto.
Defined.

(** A second version of a stored document. *)
Definition doc_run1 := saveDmnResourceDefinition chain_doc [] empty_world.
Definition chain_doc2 := mk_resource [mk_decision "d" []] [2%Z].
Definition doc_run2 := saveDmnResourceDefinition chain_doc2 [] doc_run1.2.

Lemma dmn_deployment_version_witness :
  (@nil DmnResourceDefinition = [chain_doc] ∧ with_drd_Version 2 chain_doc2 = chain_doc2) ∨
  ∃ latest, latest ∈ [chain_doc] ∧
    (∀ x, x ∈ [chain_doc] → (x.(drd_Version) ≤ latest.(drd_Version))%Z) ∧
    if bool_decide (latest.(drd_DmnChecksum) = chain_doc2.(drd_DmnChecksum))
    then with_drd_Version 2 chain_doc2 = latest ∧ @nil DecisionDefinition = [] ∧ doc_run2.2 = doc_run1.2
    else with_drd_Version 2 chain_doc2 = with_drd_Version (wrap64 (latest.(drd_Version) + 1)) chain_doc2.
Proof.
  assert (E := dmn_deployment_version doc_run1.2 doc_run2.2 [chain_doc] chain_doc2 []
    (with_drd_Version 2 chain_doc2) []).
  destruct E as [[E _]|E]; [vm_compute; reflexivity|vm_compute; reflexivity|done|right; exact E].
Defined.
