(* ===== verification/Utf8.v ===== *)
(** Strings of Go are sequences of bytes; [for _, c := range s] iterates over
    the code points they encode in UTF-8, an invalid byte counting as U+FFFD.
    This file holds that decoding, as the standard library defines it. *)
From Stdlib Require Import Ascii.
From S2P Require Import Prelude.

(** The byte at the head of a string as a number. *)
Definition byte_of (c : ascii) : Z := Z.of_N (N_of_ascii c).

Fixpoint bytes_of (s : string) : list Z :=
  match s with
  | EmptyString => []
  | String c s' => byte_of c :: bytes_of s'
  end.

Definition RuneError : Z := 65533.

Definition between (lo hi b : Z) : bool := ((lo <=? b) && (b <=? hi))%Z.
Definition continuation (b : Z) : bool := between 128 191 b.

(** Decoding of the first code point: its value and its width, (RuneError, 1)
    for an invalid encoding.  The ranges of the second byte exclude overlong
    encodings, surrogates and values above U+10FFFF. *)
Definition decode_rune (bs : list Z) : Z * nat :=
  match bs with
  | [] => (RuneError, 0%nat)
  | b0 :: rest =>
      if (b0 <? 128)%Z then (b0, 1%nat)
      else if between 194 223 b0 then
        match rest with
        | b1 :: _ => if continuation b1 then (((b0 - 192) * 64 + (b1 - 128))%Z, 2%nat)
                     else (RuneError, 1%nat)
        | _ => (RuneError, 1%nat)
        end
      else if between 224 239 b0 then
        match rest with
        | b1 :: b2 :: _ =>
            let lo := if (b0 =? 224)%Z then 160%Z else 128%Z in
            let hi := if (b0 =? 237)%Z then 159%Z else 191%Z in
            if between lo hi b1 && continuation b2
            then (((b0 - 224) * 4096 + (b1 - 128) * 64 + (b2 - 128))%Z, 3%nat)
            else (RuneError, 1%nat)
        | _ => (RuneError, 1%nat)
        end
      else if between 240 244 b0 then
        match rest with
        | b1 :: b2 :: b3 :: _ =>
            let lo := if (b0 =? 240)%Z then 144%Z else 128%Z in
            let hi := if (b0 =? 244)%Z then 143%Z else 191%Z in
            if between lo hi b1 && continuation b2 && continuation b3
            then (((b0 - 240) * 262144 + (b1 - 128) * 4096 + (b2 - 128) * 64 + (b3 - 128))%Z, 4%nat)
            else (RuneError, 1%nat)
        | _ => (RuneError, 1%nat)
        end
      else (RuneError, 1%nat)
  end.

(** The code points of a string; every step consumes at least one byte, so the
    length of the string is fuel enough. *)
Fixpoint runes_from (fuel : nat) (bs : list Z) : list Z :=
  match fuel, bs with
  | S n, _ :: _ => let '(r, w) := decode_rune bs in r :: runes_from n (drop w bs)
  | _, _ => []
  end.

Definition runes (s : string) : list Z :=
  let bs := bytes_of s in runes_from (length bs) bs.

Lemma decode_rune_width b bs : (1 ≤ (decode_rune (b :: bs)).2)%nat.
Proof. unfold decode_rune. repeat case_match; simpl; lia. Qed.

(** A step of the loop. *)
Lemma runes_from_cons n b bs :
  runes_from (S n) (b :: bs) =
    (decode_rune (b :: bs)).1 :: runes_from n (drop (decode_rune (b :: bs)).2 (b :: bs)).
Proof. cbn [runes_from]. by destruct (decode_rune (b :: bs)). Qed.

(** More fuel than the length changes nothing. *)
Lemma runes_from_enough n m bs :
  (length bs ≤ n)%nat → (length bs ≤ m)%nat → runes_from n bs = runes_from m bs.
Proof.
  revert m bs. induction n as [|n IH]; intros m bs Hn Hm.
  { destruct bs; [by destruct m|simpl in *; lia]. }
  destruct bs as [|b bs]; [by destruct m|]. destruct m as [|m]; [simpl in *; lia|].
  rewrite !runes_from_cons. f_equal. pose proof (decode_rune_width b bs) as Hw.
  apply IH; rewrite length_drop; simpl in *; lia.
Qed.

(** An ASCII string is read byte by byte. *)
Lemma runes_ascii s : Forall (λ b, (b < 128)%Z) (bytes_of s) → runes s = bytes_of s.
Proof.
  unfold runes. induction (bytes_of s) as [|b bs IH]; intros H; [done|].
  apply Forall_cons in H as [Hb H]. simpl length. rewrite runes_from_cons.
  unfold decode_rune. rewrite (proj2 (Z.ltb_lt b 128) Hb). simpl. f_equal. by apply IH.
Qed.

(** The two-byte sign of micro is one code point; a lone continuation byte is
    the replacement character. *)
Example runes_micro : runes "µs" = [181; 115]%Z.
Proof. reflexivity. Qed.
Example runes_invalid : runes (String (ascii_of_nat 181) "s") = [RuneError; 115]%Z.
Proof. reflexivity. Qed.
