(* ===== verification/ClusterState.v ===== *)
(** The state of the cluster (internal/cluster/state/state.go): partitions,
    nodes and the questions the controller and the request routing ask of them.

    The enumerations are int32 values in the code, cast from the ones of the
    protocol; they stay numbers here.  [Partitions] of a node is [None] where
    the code has a nil map (the zero value of Node).  Maps are iterated in an
    unspecified order: [iter] is the order of one iteration. *)
From S2P Require Import Prelude Monad Utf8.

Definition NodeStateError : Z := 1.
Definition NodeStateStarted : Z := 2.
Definition NodeStateShutdown : Z := 3.

Definition RoleFollower : Z := 1.
Definition RoleLeader : Z := 2.

Definition NodePartitionStateError : Z := 1.
Definition NodePartitionStateJoining : Z := 2.
Definition NodePartitionStateLeaving : Z := 3.
Definition NodePartitionStateInitializing : Z := 4.
Definition NodePartitionStateInitialized : Z := 5.

(** raft.ServerSuffrage of the raft library. *)
Definition Voter : Z := 0.
Definition Nonvoter : Z := 1.

Record NodePartition := {
  np_Id : Z;
  np_State : Z;
  np_Role : Z
}.

Record Node := {
  n_Id : string;
  n_Addr : string;
  n_Suffrage : Z;
  n_State : Z;
  n_Role : Z;
  n_Partitions : option (gmap Z NodePartition)
}.

Record Partition := {
  p_Id : Z;
  p_LeaderId : string
}.

Record Cluster := {
  DesiredPartitions : Z;
  c_Partitions : gmap Z Partition;
  c_Nodes : gmap string Node
}.

#[export] Instance NodePartition_eq_dec : EqDecision NodePartition.
Proof. solve_decision. Defined.
#[export] Instance Node_eq_dec : EqDecision Node.
Proof. solve_decision. Defined.
#[export] Instance Partition_eq_dec : EqDecision Partition.
Proof. solve_decision. Defined.
#[export] Instance Cluster_eq_dec : EqDecision Cluster.
Proof. solve_decision. Defined.

(** [Node{}]. *)
Definition zero_node : Node :=
  {| n_Id := ""; n_Addr := ""; n_Suffrage := 0; n_State := 0; n_Role := 0; n_Partitions := None |}.
Definition zero_node_partition : NodePartition := {| np_Id := 0; np_State := 0; np_Role := 0 |}.

Definition set_n_Role (r : Z) (n : Node) : Node :=
  {| n_Id := n.(n_Id); n_Addr := n.(n_Addr); n_Suffrage := n.(n_Suffrage); n_State := n.(n_State);
     n_Role := r; n_Partitions := n.(n_Partitions) |}.
Definition set_n_Addr (a : string) (n : Node) : Node :=
  {| n_Id := n.(n_Id); n_Addr := a; n_Suffrage := n.(n_Suffrage); n_State := n.(n_State);
     n_Role := n.(n_Role); n_Partitions := n.(n_Partitions) |}.
Definition set_n_Suffrage (x : Z) (n : Node) : Node :=
  {| n_Id := n.(n_Id); n_Addr := n.(n_Addr); n_Suffrage := x; n_State := n.(n_State);
     n_Role := n.(n_Role); n_Partitions := n.(n_Partitions) |}.
Definition set_n_State (x : Z) (n : Node) : Node :=
  {| n_Id := n.(n_Id); n_Addr := n.(n_Addr); n_Suffrage := n.(n_Suffrage); n_State := x;
     n_Role := n.(n_Role); n_Partitions := n.(n_Partitions) |}.
Definition set_n_Partitions (m : option (gmap Z NodePartition)) (n : Node) : Node :=
  {| n_Id := n.(n_Id); n_Addr := n.(n_Addr); n_Suffrage := n.(n_Suffrage); n_State := n.(n_State);
     n_Role := n.(n_Role); n_Partitions := m |}.
Definition set_Nodes (m : gmap string Node) (c : Cluster) : Cluster :=
  {| DesiredPartitions := c.(DesiredPartitions); c_Partitions := c.(c_Partitions); c_Nodes := m |}.
Definition set_Partitions (m : gmap Z Partition) (c : Cluster) : Cluster :=
  {| DesiredPartitions := c.(DesiredPartitions); c_Partitions := m; c_Nodes := c.(c_Nodes) |}.

(** Reading a possibly nil map: [m[k]] and [len(m)]. *)
Definition node_partition (n : Node) (k : Z) : option NodePartition :=
  n.(n_Partitions) ≫= (λ m, m !! k).
Definition partition_count (n : Node) : Z :=
  Z.of_nat (match n.(n_Partitions) with Some m => size m | None => 0%nat end).

(** ** The queries of state.go *)

(** GetNode walks over the whole map; the keys are distinct. *)
Definition GetNode (c : Cluster) (nodeId : string) : result Node :=
  match c.(c_Nodes) !! nodeId with
  | Some node => Good node
  | None => Bad ErrNodeNotFound
  end.

Section iteration.
Context (iter : ∀ (A : Type), gmap string A → list (string * A)).
Context (iter_perm : ∀ A (m : gmap string A), iter A m ≡ₚ map_to_list m).

Definition nodes_of (c : Cluster) : list Node := (iter Node c.(c_Nodes)).*2.

Definition leads_one (node : Node) : bool :=
  match node.(n_Partitions) with
  | None => false
  | Some m => bool_decide (Exists (λ kp, kp.2.(np_Role) = RoleLeader) (map_to_list m))
  end.

Definition leader_step (minNode node : Node) : Node :=
  if negb (partition_count node =? 0)%Z &&
     (bool_decide (minNode.(n_Partitions) = None) ||
      (partition_count node <? partition_count minNode)%Z) &&
     leads_one node
  then node else minNode.

Definition GetLeastStressedPartitionLeader (c : Cluster) : result Node :=
  let minNode := fold_left leader_step (nodes_of c) zero_node in
  if (minNode.(n_Id) =? "")%string then Bad (err! "failed to find node") else Good minNode.

Definition stress_step (minNode node : Node) : Node :=
  if bool_decide (minNode.(n_Partitions) = None) ||
     (partition_count node <? partition_count minNode)%Z
  then node else minNode.

Definition GetLeastStressedNode (c : Cluster) : result Node :=
  let minNode := fold_left stress_step (nodes_of c) zero_node in
  if (minNode.(n_Id) =? "")%string then Bad (err! "failed to find node") else Good minNode.

Definition is_follower_of (partition : Z) (node : Node) : bool :=
  match node_partition node partition with
  | Some np => (np.(np_Role) =? RoleFollower)%Z
  | None => false
  end.

(** The loop stops at the first follower, also at one without an address. *)
Definition GetPartitionFollower (c : Cluster) (partition : Z) : result Node :=
  match c.(c_Partitions) !! partition with
  | None => Bad (err! "partition not found")
  | Some partitionState =>
      let partitionFollower :=
        default zero_node (List.find (is_follower_of partition) (nodes_of c)) in
      Good (if (partitionFollower.(n_Addr) =? "")%string
            then default zero_node (c.(c_Nodes) !! partitionState.(p_LeaderId))
            else partitionFollower)
  end.

(** The loop returns at the first node that has the partition: the order does
    not matter. *)
Definition AnyNodeHasPartition (c : Cluster) (partitionId : Z) : bool :=
  existsb (λ node, bool_decide (is_Some (node_partition node (partitionId mod 2 ^ 32))))
    (nodes_of c).
End iteration.

(** [rand.Intn(n)] of the standard library panics for n ≤ 0; [draw] is the
    random number of the call, taken modulo n. *)
Definition Intn {X} (draw n : Z) : ST X Z :=
  if (n <=? 0)%Z then panic "invalid argument to Intn" else mret (draw mod n)%Z.

Definition LeastStressedPartition {X} (iter : ∀ (A : Type), gmap Z A → list (Z * A)) (draw : Z)
    (c : Cluster) : ST X Partition :=
  pick ← Intn draw (Z.of_nat (size c.(c_Partitions)) - 1);
  match (iter Partition c.(c_Partitions)).*2 !! Z.to_nat pick with
  | Some partition => mret partition
  | None => throw (err! "failed to find node")
  end.

(** [bitSum + uint32(character)] wraps; [len] is cast to uint32. *)
Definition wrapu32 (z : Z) : Z := (z mod 2 ^ 32)%Z.

Definition GetPartitionIdFromString (c : Cluster) (str : string) : Z :=
  if (size c.(c_Partitions) =? 0)%nat then 0%Z
  else
    let bitSum := fold_left (λ acc character, wrapu32 (acc + wrapu32 character)) (runes str) 0%Z in
    wrapu32 (bitSum mod wrapu32 (Z.of_nat (size c.(c_Partitions))) + 1).

(** ** Nodes, the slice of nodes (state.go, type Nodes) *)

(** IsReadOnly returns (readOnly, found). *)
Fixpoint IsReadOnly_loop (s : list Node) (id : string) : bool * bool :=
  match s with
  | [] => (false, false)
  | n :: s' =>
      if (n.(n_Id) =? id)%string then ((n.(n_Suffrage) =? Nonvoter)%Z, true) else IsReadOnly_loop s' id
  end.

Definition IsReadOnly (s : list Node) (id : string) : bool * bool :=
  if (id =? "")%string then (false, false) else IsReadOnly_loop s id.

Definition Contains (s : list Node) (id : string) : bool :=
  if (id =? "")%string then false else existsb (λ n, (n.(n_Id) =? id)%string) s.
