(* ===== verification/Json.v ===== *)
(** What encoding/json does with the types of the cluster state, at the level
    of JSON values: a class of the types that are encoded and decoded, with the
    law that decoding an encoded value gives it back, and its instances for
    strings, integers, maps and structs.

    Decoding [null] leaves the zero value, a missing field is the same as
    [null], the last of several fields with a name counts, and integers outside
    the range of their type are errors.  Strings that are not valid UTF-8 are
    changed by encoding: [json_ok] of a string says that it is kept. *)
From Stdlib Require Import Ascii.
From S2P Require Import Prelude Utf8.

Inductive json :=
| JNull
| JNumber (z : Z)
| JString (s : string)
| JObject (fields : list (string * json)).

Class Json (A : Type) := {
  marshal : A → json;
  unmarshal : json → result A;
  json_ok : A → Prop;
  unmarshal_marshal x : json_ok x → unmarshal (marshal x) = Good x
}.

Definition type_error : error := err! "json: cannot unmarshal %s into Go value of type %s".

(** ** Strings *)

Definition encode_rune (r : Z) : list Z :=
  if (r <? 128)%Z then [r]
  else if (r <? 2048)%Z then [192 + r / 64; 128 + r mod 64]%Z
  else if (r <? 65536)%Z then [224 + r / 4096; 128 + r / 64 mod 64; 128 + r mod 64]%Z
  else [240 + r / 262144; 128 + r / 4096 mod 64; 128 + r / 64 mod 64; 128 + r mod 64]%Z.

Definition string_of_bytes (bs : list Z) : string :=
  fold_right (λ b s, String (ascii_of_N (Z.to_N b)) s) EmptyString bs.

Definition to_valid_utf8 (s : string) : string := string_of_bytes (concat (encode_rune <$> runes s)).

Definition marshal_string (s : string) : json := JString (to_valid_utf8 s).
Definition unmarshal_string (j : json) : result string :=
  match j with JString s => Good s | JNull => Good ""%string | _ => Bad type_error end.

Lemma unmarshal_marshal_string s :
  to_valid_utf8 s = s → unmarshal_string (marshal_string s) = Good s.
Proof. intros Hs. simpl. by rewrite Hs. Qed.

#[export] Instance Json_string : Json string := {|
  marshal := marshal_string;
  unmarshal := unmarshal_string;
  json_ok s := to_valid_utf8 s = s;
  unmarshal_marshal := unmarshal_marshal_string
|}.

(** ASCII strings are kept. *)
Lemma byte_of_lt c : (0 ≤ byte_of c < 256)%Z.
Proof. unfold byte_of. pose proof (N_ascii_bounded c). lia. Qed.

Lemma string_of_bytes_of s : string_of_bytes (bytes_of s) = s.
Proof.
  induction s as [|c s IH]; [done|]. simpl. rewrite IH. unfold byte_of.
  by rewrite N2Z.id, ascii_N_embedding.
Qed.

Lemma json_ok_ascii s : Forall (λ b, (b < 128)%Z) (bytes_of s) → json_ok s.
Proof.
  intros Hs. simpl. unfold to_valid_utf8. rewrite runes_ascii by done.
  assert (E : concat (encode_rune <$> bytes_of s) = bytes_of s); [|rewrite E; apply string_of_bytes_of].
  induction Hs as [|b bs Hb _ IH]; [done|]. rewrite fmap_cons. cbn [concat]. rewrite IH.
  unfold encode_rune. by rewrite (proj2 (Z.ltb_lt b 128) Hb).
Qed.

(** ** Integers of a given range *)

Definition unmarshal_int (lo hi : Z) (j : json) : result Z :=
  match j with
  | JNumber z => if between lo hi z then Good z else Bad type_error
  | JNull => Good 0%Z
  | _ => Bad type_error
  end.

Lemma unmarshal_int_ok lo hi z : (lo ≤ z ≤ hi)%Z → unmarshal_int lo hi (JNumber z) = Good z.
Proof.
  intros Hz. unfold unmarshal_int, between. by rewrite !(proj2 (Z.leb_le _ _)) by lia.
Qed.

Definition int32_ok (z : Z) : Prop := (- 2 ^ 31 ≤ z ≤ 2 ^ 31 - 1)%Z.
Definition uint32_ok (z : Z) : Prop := (0 ≤ z ≤ 2 ^ 32 - 1)%Z.
Definition int64_ok (z : Z) : Prop := (- 2 ^ 63 ≤ z ≤ 2 ^ 63 - 1)%Z.
Definition unmarshal_int32 : json → result Z := unmarshal_int (- 2 ^ 31) (2 ^ 31 - 1).
Definition unmarshal_uint32 : json → result Z := unmarshal_int 0 (2 ^ 32 - 1).
Definition unmarshal_int64 : json → result Z := unmarshal_int (- 2 ^ 63) (2 ^ 63 - 1).

Lemma unmarshal_int32_ok z : int32_ok z → unmarshal_int32 (JNumber z) = Good z.
Proof. apply unmarshal_int_ok. Qed.
Lemma unmarshal_uint32_ok z : uint32_ok z → unmarshal_uint32 (JNumber z) = Good z.
Proof. apply unmarshal_int_ok. Qed.
Lemma unmarshal_int64_ok z : int64_ok z → unmarshal_int64 (JNumber z) = Good z.
Proof. apply unmarshal_int_ok. Qed.

(** ** Decimal keys *)

(** The digits of a number, the last one first. *)
Fixpoint digits (fuel : nat) (n : Z) : list Z :=
  match fuel with
  | O => []
  | S f => (n mod 10)%Z :: (if (n <? 10)%Z then [] else digits f (n / 10))
  end.

Definition format_uint (n : Z) : string :=
  string_of_bytes (rev ((λ d, 48 + d)%Z <$> digits 20 n)).

Definition is_digit (b : Z) : bool := between 48 57 b.

Definition parse_uint32 (s : string) : result Z :=
  let bs := bytes_of s in
  let z := fold_left (λ acc b, (acc * 10 + (b - 48))%Z) bs 0%Z in
  if negb (bool_decide (bs = [])) && forallb is_digit bs && (z <? 2 ^ 32)%Z
  then Good z else Bad type_error.

Lemma digits_value f n :
  (0 ≤ n < 10 ^ Z.of_nat f)%Z → fold_right (λ d acc, (acc * 10 + d)%Z) 0%Z (digits f n) = n.
Proof.
  revert n. induction f as [|f IH]; intros n Hn; [simpl in *; lia|]. simpl.
  assert (E : (10 ^ Z.of_nat (S f) = 10 * 10 ^ Z.of_nat f)%Z)
    by (rewrite Nat2Z.inj_succ, Z.pow_succ_r; lia).
  rewrite E in Hn. destruct (Z.ltb_spec n 10).
  - simpl. rewrite Z.mod_small; lia.
  - rewrite IH.
    + pose proof (Z.div_mod n 10). lia.
    + split; [apply Z.div_pos; lia|]. apply Z.div_lt_upper_bound; lia.
Qed.

Lemma digits_range f n : (0 ≤ n)%Z → Forall (λ d, 0 ≤ d < 10)%Z (digits f n).
Proof.
  revert n. induction f as [|f IH]; intros n Hn; simpl; constructor.
  - apply Z.mod_pos_bound. lia.
  - destruct (n <? 10)%Z; [constructor|]. apply IH. apply Z.div_pos; lia.
Qed.

Lemma bytes_of_string_of_bytes bs :
  Forall (λ b, 0 ≤ b < 256)%Z bs → bytes_of (string_of_bytes bs) = bs.
Proof.
  induction 1 as [|b bs Hb _ IH]; [done|]. simpl. rewrite IH. f_equal. unfold byte_of.
  rewrite N_ascii_embedding by lia. lia.
Qed.

Lemma parse_format n : uint32_ok n → parse_uint32 (format_uint n) = Good n.
Proof.
  unfold uint32_ok. intros Hn. unfold parse_uint32, format_uint.
  pose proof (digits_range 20 n (proj1 Hn)) as Hd.
  rewrite bytes_of_string_of_bytes by
    (apply Forall_rev, Forall_fmap; eapply Forall_impl; [exact Hd|]; simpl; lia).
  rewrite <- fold_left_rev_right, rev_involutive.
  assert (E : fold_right (λ b acc, (acc * 10 + (b - 48))%Z) 0%Z ((λ d, 48 + d)%Z <$> digits 20 n) = n).
  { rewrite <- (digits_value 20 n) at 2 by lia.
    induction (digits 20 n) as [|d ds IH]; [done|]. apply Forall_cons in Hd as [_ Hd].
    rewrite fmap_cons. cbn [fold_right]. rewrite IH by done. lia. }
  rewrite E.
  assert (Hne : bool_decide (rev ((λ d, 48 + d)%Z <$> digits 20 n) = []) = false).
  { apply bool_decide_eq_false_2. simpl. intros H. by apply app_eq_nil in H as [_ ?]. }
  rewrite Hne. simpl negb. rewrite (proj2 (forallb_forall _ _)).
  - simpl. by rewrite (proj2 (Z.ltb_lt _ _)) by lia.
  - intros b Hb. apply in_rev in Hb. apply list_elem_of_In, list_elem_of_fmap in Hb as (d & -> & Hin).
    rewrite Forall_forall in Hd. specialize (Hd _ Hin). unfold is_digit, between.
    by rewrite !(proj2 (Z.leb_le _ _)) by lia.
Qed.

(** ** Maps and struct fields *)

(** The entries of an encoded map are sorted by key in the code; the order of
    distinct entries does not matter to the decoder. *)
Section maps.
Context {K V : Type} `{Countable K} `{Json V}.
Context (key : K → string) (parse : string → result K).

Definition marshal_map (m : gmap K V) : json :=
  JObject ((λ kv, (key kv.1, marshal kv.2)) <$> map_to_list m).

Fixpoint unmarshal_entries (fields : list (string * json)) (m : gmap K V) : result (gmap K V) :=
  match fields with
  | [] => Good m
  | (k, j) :: fields' =>
      k' ← parse k; v ← unmarshal j; unmarshal_entries fields' (<[k' := v]> m)
  end.

(** [None] is the nil map. *)
Definition unmarshal_map (j : json) : result (option (gmap K V)) :=
  match j with
  | JNull => Good None
  | JObject fields => Some <$> unmarshal_entries fields ∅
  | _ => Bad type_error
  end.

Definition json_ok_map (m : gmap K V) : Prop :=
  ∀ k v, m !! k = Some v → parse (key k) = Good k ∧ json_ok v.

Lemma unmarshal_entries_marshal l m :
  NoDup l.*1 → (∀ k v, (k, v) ∈ l → parse (key k) = Good k ∧ json_ok v) →
  unmarshal_entries ((λ kv, (key kv.1, marshal kv.2)) <$> l) m = Good (list_to_map l ∪ m).
Proof.
  revert m. induction l as [|[k v] l IH]; intros m Hnd Hok.
  { simpl. by rewrite map_empty_union. }
  apply NoDup_cons in Hnd as [Hk Hnd]. change (k ∉ l.*1) in Hk. change (NoDup l.*1) in Hnd.
  rewrite fmap_cons. cbn [unmarshal_entries fst snd].
  destruct (Hok k v) as [-> Hv]; [left|]. simpl. rewrite unmarshal_marshal by done. simpl.
  rewrite IH; [|done|intros k' v' Hin; apply Hok; by right].
  f_equal. rewrite <- insert_union_l. rewrite insert_union_r; [done|].
  by apply not_elem_of_list_to_map_1.
Qed.

Lemma unmarshal_marshal_map m : json_ok_map m → unmarshal_map (marshal_map m) = Good (Some m).
Proof.
  intros Hm. simpl. rewrite unmarshal_entries_marshal.
  - by rewrite list_to_map_to_list, map_union_empty.
  - apply NoDup_fst_map_to_list.
  - intros k v Hin%elem_of_map_to_list. by apply Hm.
Qed.

Definition marshal_nilmap (m : option (gmap K V)) : json :=
  match m with Some m => marshal_map m | None => JNull end.

Lemma unmarshal_marshal_nilmap m :
  (∀ m', m = Some m' → json_ok_map m') → unmarshal_map (marshal_nilmap m) = Good m.
Proof. destruct m as [m|]; intros Hm; [|done]. by apply unmarshal_marshal_map, Hm. Qed.
End maps.

(** The field of an object: the last one with the name. *)
Fixpoint field (name : string) (fields : list (string * json)) : json :=
  match fields with
  | [] => JNull
  | (k, j) :: fields' =>
      match field name fields' with
      | JNull => if (k =? name)%string then j else JNull
      | j' => j'
      end
  end.

Definition unmarshal_struct {A} (zero : A) (decode : list (string * json) → result A) (j : json)
    : result A :=
  match j with
  | JNull => Good zero
  | JObject fields => decode fields
  | _ => Bad type_error
  end.

(** Reads the fields of an encoded struct without unfolding the decoders. *)
Ltac json_fields :=
  cbn [unmarshal_struct field String.eqb Ascii.eqb Bool.eqb marshal Json_string marshal_string].
