(* ===== verification/Snapshot.v ===== *)
(** Snapshots of the cluster state (internal/cluster/store/snapshot.go and the
    Snapshot and Restore methods of fsm.go): the JSON form of the state types
    and the two operations of the raft library's interface. *)
From S2P Require Import Prelude Monad Json ClusterState.

(** ** The JSON form of the types of state.go *)

Definition marshal_NodePartition (p : NodePartition) : json :=
  JObject [("id", JNumber p.(np_Id)); ("state", JNumber p.(np_State));
           ("role", JNumber p.(np_Role))]%string.

Definition unmarshal_NodePartition : json → result NodePartition :=
  unmarshal_struct zero_node_partition (λ fs,
    i ← unmarshal_uint32 (field "id" fs); s ← unmarshal_int32 (field "state" fs);
    r ← unmarshal_int32 (field "role" fs);
    Good {| np_Id := i; np_State := s; np_Role := r |}).

Definition NodePartition_ok (p : NodePartition) : Prop :=
  uint32_ok p.(np_Id) ∧ int32_ok p.(np_State) ∧ int32_ok p.(np_Role).

Lemma unmarshal_marshal_NodePartition p :
  NodePartition_ok p → unmarshal_NodePartition (marshal_NodePartition p) = Good p.
Proof.
  destruct p as [i s r]. intros (Hi & Hs & Hr).
  unfold unmarshal_NodePartition, marshal_NodePartition. json_fields.
  by rewrite unmarshal_uint32_ok, !unmarshal_int32_ok by done.
Qed.

#[export] Instance Json_NodePartition : Json NodePartition := {|
  marshal := marshal_NodePartition;
  unmarshal := unmarshal_NodePartition;
  json_ok := NodePartition_ok;
  unmarshal_marshal := unmarshal_marshal_NodePartition
|}.

Definition marshal_Partition (p : Partition) : json :=
  JObject [("id", JNumber p.(p_Id)); ("leaderId", marshal p.(p_LeaderId))]%string.

Definition unmarshal_Partition : json → result Partition :=
  unmarshal_struct {| p_Id := 0; p_LeaderId := "" |} (λ fs,
    i ← unmarshal_uint32 (field "id" fs); l ← unmarshal (field "leaderId" fs);
    Good {| p_Id := i; p_LeaderId := l |}).

Definition Partition_ok (p : Partition) : Prop := uint32_ok p.(p_Id) ∧ json_ok p.(p_LeaderId).

Lemma unmarshal_marshal_Partition p :
  Partition_ok p → unmarshal_Partition (marshal_Partition p) = Good p.
Proof.
  destruct p as [i l]. intros (Hi & Hl). unfold unmarshal_Partition, marshal_Partition.
  json_fields. rewrite unmarshal_uint32_ok by done. simpl in Hl |- *. by rewrite Hl.
Qed.

#[export] Instance Json_Partition : Json Partition := {|
  marshal := marshal_Partition;
  unmarshal := unmarshal_Partition;
  json_ok := Partition_ok;
  unmarshal_marshal := unmarshal_marshal_Partition
|}.

Definition marshal_Node (n : Node) : json :=
  JObject [("id", marshal n.(n_Id)); ("addr", marshal n.(n_Addr));
           ("suffrage", JNumber n.(n_Suffrage)); ("state", JNumber n.(n_State));
           ("role", JNumber n.(n_Role));
           ("partitions", marshal_nilmap format_uint n.(n_Partitions))]%string.

Definition unmarshal_Node : json → result Node :=
  unmarshal_struct zero_node (λ fs,
    i ← unmarshal (field "id" fs); a ← unmarshal (field "addr" fs);
    su ← unmarshal_int64 (field "suffrage" fs); st ← unmarshal_int32 (field "state" fs);
    r ← unmarshal_int32 (field "role" fs);
    ps ← unmarshal_map parse_uint32 (field "partitions" fs);
    Good {| n_Id := i; n_Addr := a; n_Suffrage := su; n_State := st; n_Role := r;
            n_Partitions := ps |}).

Definition uint32_keys {A} (m : gmap Z A) : Prop := ∀ k x, m !! k = Some x → uint32_ok k.

Definition Node_ok (n : Node) : Prop :=
  json_ok n.(n_Id) ∧ json_ok n.(n_Addr) ∧ int64_ok n.(n_Suffrage) ∧ int32_ok n.(n_State) ∧
  int32_ok n.(n_Role) ∧
  ∀ m, n.(n_Partitions) = Some m → uint32_keys m ∧ map_Forall (λ _ p, NodePartition_ok p) m.

Lemma json_ok_uint32_map {A} `{Json A} (m : gmap Z A) :
  uint32_keys m → map_Forall (λ _ x, json_ok x) m → json_ok_map format_uint parse_uint32 m.
Proof. intros Hk Hm k x Hx. split; [eapply parse_format, Hk, Hx|by eapply Hm]. Qed.

Lemma unmarshal_marshal_Node n : Node_ok n → unmarshal_Node (marshal_Node n) = Good n.
Proof.
  destruct n as [i a su st r ps]. intros (Hi & Ha & Hsu & Hst & Hr & Hps).
  unfold unmarshal_Node, marshal_Node. cbn [unmarshal_struct].
  assert (Ef : field "partitions" [("id", marshal i); ("addr", marshal a);
    ("suffrage", JNumber su); ("state", JNumber st); ("role", JNumber r);
    ("partitions", marshal_nilmap format_uint ps)]%string = marshal_nilmap format_uint ps)
    by (by destruct ps).
  cbn [n_Id n_Addr n_Suffrage n_State n_Role n_Partitions]. rewrite Ef.
  rewrite unmarshal_marshal_nilmap; [|intros m Hm; destruct (Hps m Hm); by apply json_ok_uint32_map].
  destruct ps; json_fields; rewrite unmarshal_int64_ok, !unmarshal_int32_ok by done;
    simpl in Hi, Ha |- *; by rewrite Hi, Ha.
Qed.

#[export] Instance Json_Node : Json Node := {|
  marshal := marshal_Node;
  unmarshal := unmarshal_Node;
  json_ok := Node_ok;
  unmarshal_marshal := unmarshal_marshal_Node
|}.

(** A decoded [null] for one of the maps of Cluster is a nil map, kept here as
    the empty one; Persist never writes it, New makes both maps. *)
Definition marshal_Cluster (c : Cluster) : json :=
  JObject [("clusterConfig", JObject [("desiredPartitions", JNumber c.(DesiredPartitions))]);
           ("partitions", marshal_map format_uint c.(c_Partitions));
           ("nodes", marshal_map to_valid_utf8 c.(c_Nodes))]%string.

Definition zero_cluster : Cluster := {| DesiredPartitions := 0; c_Partitions := ∅; c_Nodes := ∅ |}.

Definition unmarshal_Cluster : json → result Cluster :=
  unmarshal_struct zero_cluster (λ fs,
    d ← unmarshal_struct 0%Z (λ fs', unmarshal_uint32 (field "desiredPartitions" fs'))
          (field "clusterConfig" fs);
    ps ← unmarshal_map parse_uint32 (field "partitions" fs);
    ns ← unmarshal_map (λ k, Good k) (field "nodes" fs);
    Good {| DesiredPartitions := d; c_Partitions := default ∅ ps; c_Nodes := default ∅ ns |}).

(** What the snapshot keeps: numbers in the range of their types and strings of
    valid UTF-8. *)
Definition Cluster_ok (c : Cluster) : Prop :=
  uint32_ok c.(DesiredPartitions) ∧
  (uint32_keys c.(c_Partitions) ∧ map_Forall (λ _ p, Partition_ok p) c.(c_Partitions)) ∧
  map_Forall (λ k n, json_ok k ∧ Node_ok n) c.(c_Nodes).

Lemma unmarshal_marshal_Cluster c :
  Cluster_ok c → unmarshal_Cluster (marshal_Cluster c) = Good c.
Proof.
  destruct c as [d ps ns]. intros (Hd & [Hk Hps] & Hns).
  unfold unmarshal_Cluster, marshal_Cluster. json_fields. cbn [marshal_map].
  cbn [DesiredPartitions c_Partitions c_Nodes].
  change (unmarshal_uint32 (field "desiredPartitions" [("desiredPartitions"%string, JNumber d)]))
    with (unmarshal_uint32 (JNumber d)).
  rewrite unmarshal_uint32_ok by done.
  pose proof (unmarshal_marshal_map format_uint parse_uint32 ps) as Ep.
  pose proof (unmarshal_marshal_map to_valid_utf8 (λ k, Good k) ns) as En.
  unfold marshal_map in Ep, En. simpl in Ep, En |- *.
  rewrite Ep by by apply json_ok_uint32_map. simpl. rewrite En; [done|].
  intros k n Hn. destruct (Hns _ _ Hn) as [Hs Hok]. split; [|done]. simpl in Hs. by rewrite Hs.
Qed.

#[export] Instance Json_Cluster : Json Cluster := {|
  marshal := marshal_Cluster;
  unmarshal := unmarshal_Cluster;
  json_ok := Cluster_ok;
  unmarshal_marshal := unmarshal_marshal_Cluster
|}.

(** ** fsmSnapshot *)

Record fsmSnapshot := { snap_ClusterState : Cluster }.

Definition marshal_fsmSnapshot (f : fsmSnapshot) : json :=
  JObject [("clusterState", marshal f.(snap_ClusterState))]%string.

Definition unmarshal_fsmSnapshot : json → result fsmSnapshot :=
  unmarshal_struct {| snap_ClusterState := zero_cluster |} (λ fs,
    c ← unmarshal (field "clusterState" fs); Good {| snap_ClusterState := c |}).

(** The sink of a snapshot, an interface of the raft library: [sk_write] and
    [sk_close] are the errors of its Write and Close. *)
Record SnapshotSink := {
  sk_write : option error;
  sk_close : option error;
  sk_data : option json;
  sk_cancelled : bool
}.

Definition sink_Write (b : json) : ST SnapshotSink unit := λ s,
  match s.(sk_write) with
  | Some e => (Err e, s)
  | None => (Ret tt, {| sk_write := s.(sk_write); sk_close := s.(sk_close); sk_data := Some b;
                        sk_cancelled := s.(sk_cancelled) |})
  end.
Definition sink_Close : ST SnapshotSink unit := λ s,
  match s.(sk_close) with Some e => (Err e, s) | None => (Ret tt, s) end.
Definition sink_Cancel : ST SnapshotSink unit :=
  modify (λ s, {| sk_write := s.(sk_write); sk_close := s.(sk_close); sk_data := s.(sk_data);
                  sk_cancelled := true |}).

(** The types of the snapshot are always encodable. *)
Definition Persist (f : fsmSnapshot) : ST SnapshotSink unit :=
  on_error (sink_Write (marshal_fsmSnapshot f) ;; sink_Close) sink_Cancel.
