(* ===== verification/Fsm.v ===== *)
(** The replicated state machine of the cluster (internal/cluster/store/fsm.go
    and the messages of internal/cluster/command): applying the commands of the
    raft log to the cluster state.  The getters of the messages return the zero
    value of a missing field, so a message is the record of what they return. *)
From S2P Require Import Prelude Monad ClusterState.

Definition RAFT_SUFFRAGE_UNKNOWN : Z := 0.
Definition RAFT_SUFFRAGE_VOTER : Z := 1.
Definition RAFT_SUFFRAGE_NONVOTER : Z := 2.
Definition NODE_STATE_UNKNOWN : Z := 0.
Definition NODE_STATE_STARTED : Z := 2.
Definition NODE_STATE_SHUTDOWN : Z := 3.
Definition ROLE_TYPE_UNKNOWN : Z := 0.
Definition ROLE_TYPE_FOLLOWER : Z := 1.
Definition ROLE_TYPE_LEADER : Z := 2.
Definition NODE_PARTITION_STATE_JOINING : Z := 2.
Definition NODE_PARTITION_STATE_LEAVING : Z := 3.
Definition NODE_PARTITION_STATE_INITIALIZING : Z := 4.
Definition NODE_PARTITION_STATE_INITIALIZED : Z := 5.

Record NodeChange := {
  nc_NodeId : string;
  nc_Addr : string;
  nc_Suffrage : Z;
  nc_State : Z;
  nc_Role : Z
}.

Record NodePartitionChange := {
  npc_NodeId : string;
  npc_PartitionId : Z;
  npc_State : Z;
  npc_Role : Z
}.

Definition TYPE_NODE_CHANGE : Z := 2.
Definition TYPE_NODE_PARTITION_CHANGE : Z := 3.

(** The oneof of a command. *)
Inductive Request :=
| Request_None
| Request_NodeChange (c : NodeChange)
| Request_NodePartitionChange (c : NodePartitionChange).

Record Command := {
  cmd_Type : Z;
  cmd_Request : Request
}.

Definition GetNodeChange (c : Command) : NodeChange :=
  match c.(cmd_Request) with
  | Request_NodeChange nc => nc
  | _ => {| nc_NodeId := ""; nc_Addr := ""; nc_Suffrage := 0; nc_State := 0; nc_Role := 0 |}
  end.
Definition GetNodePartitionChange (c : Command) : NodePartitionChange :=
  match c.(cmd_Request) with
  | Request_NodePartitionChange pc => pc
  | _ => {| npc_NodeId := ""; npc_PartitionId := 0; npc_State := 0; npc_Role := 0 |}
  end.

Definition node_change_command (c : NodeChange) : Command :=
  {| cmd_Type := TYPE_NODE_CHANGE; cmd_Request := Request_NodeChange c |}.
Definition partition_change_command (c : NodePartitionChange) : Command :=
  {| cmd_Type := TYPE_NODE_PARTITION_CHANGE; cmd_Request := Request_NodePartitionChange c |}.

(** The interface the two apply functions need of a store.  LeaderID returns a
    value and an error; the callers ignore the error. *)
Class FsmStore (S : Type) := {
  fs_LeaderID : S → string * option error;
  fs_ClusterState : S → Cluster
}.

Section apply.
Context {S : Type} `{FsmStore S}.

Definition new_node (c : NodeChange) : Node :=
  {| n_Id := c.(nc_NodeId); n_Addr := c.(nc_Addr); n_Suffrage := 0; n_State := c.(nc_State);
     n_Role := 0; n_Partitions := Some ∅ |}.

(** The fields a change sets on the node: an empty address and unknown values
    leave the field. *)
Definition changed_node (role : Z) (c : NodeChange) (node : Node) : Node :=
  let node := set_n_Role role node in
  let node := if (c.(nc_Addr) =? "")%string then node else set_n_Addr c.(nc_Addr) node in
  let node :=
    if (c.(nc_Suffrage) =? RAFT_SUFFRAGE_VOTER)%Z then set_n_Suffrage Voter node
    else if (c.(nc_Suffrage) =? RAFT_SUFFRAGE_NONVOTER)%Z then set_n_Suffrage Nonvoter node
    else node in
  if (c.(nc_State) =? NODE_STATE_UNKNOWN)%Z then node else set_n_State c.(nc_State) node.

Definition FsmApplyNodeChange (store : S) (c : NodeChange) : Cluster :=
  let currState := fs_ClusterState store in
  let leaderId := (fs_LeaderID store).1 in
  let role := if (leaderId =? c.(nc_NodeId))%string then RoleLeader else RoleFollower in
  let node := default (new_node c) (currState.(c_Nodes) !! c.(nc_NodeId)) in
  let currState :=
    if ((leaderId =? node.(n_Id))%string && (node.(n_Role) <? RoleLeader)%Z && (role =? RoleLeader)%Z)%bool
    then set_Nodes (set_n_Role RoleFollower <$> currState.(c_Nodes)) currState
    else currState in
  set_Nodes (<[c.(nc_NodeId) := changed_node role c node]> currState.(c_Nodes)) currState.

Definition new_partition_node (c : NodePartitionChange) : Node :=
  {| n_Id := c.(npc_NodeId); n_Addr := ""; n_Suffrage := 0; n_State := 0; n_Role := 0;
     n_Partitions := Some ∅ |}.

(** Writing into a nil map panics, deleting from one does nothing. *)
Definition FsmApplyPartitionChange {X} (store : S) (c : NodePartitionChange) : ST X Cluster :=
  let currState := fs_ClusterState store in
  let node := default (new_partition_node c) (currState.(c_Nodes) !! c.(npc_NodeId)) in
  if (c.(npc_State) =? NODE_PARTITION_STATE_LEAVING)%Z then
    let node := set_n_Partitions (delete c.(npc_PartitionId) <$> node.(n_Partitions)) node in
    mret (set_Nodes (<[c.(npc_NodeId) := node]> currState.(c_Nodes)) currState)
  else
    match node.(n_Partitions) with
    | None => panic "assignment to entry in nil map"
    | Some m =>
        let node := set_n_Partitions
          (Some (<[c.(npc_PartitionId) := {| np_Id := c.(npc_PartitionId);
                    np_State := c.(npc_State); np_Role := c.(npc_Role) |}]> m)) node in
        let currState :=
          if (c.(npc_Role) =? ROLE_TYPE_LEADER)%Z
          then set_Partitions (<[c.(npc_PartitionId) := {| p_Id := c.(npc_PartitionId);
                 p_LeaderId := c.(npc_NodeId) |}]> currState.(c_Partitions)) currState
          else currState in
        mret (set_Nodes (<[c.(npc_NodeId) := node]> currState.(c_Nodes)) currState)
    end.
End apply.
