(* ===== verification/ClusterStore.v ===== *)
(** The raft store of the cluster (internal/cluster/store: store.go,
    store_helper.go and the FSM methods of fsm.go).

    The raft library is behind the record [Raft]: what it answers at the time
    of a call ([rf_...] fields), and the requests the store made of it
    ([rf_log], the commands given to Apply, and [rf_requests]).  Name resolution
    is a parameter. *)
From S2P Require Import Prelude Monad ClusterState Fsm Json Snapshot.

Record Server := {
  srv_Suffrage : Z;
  srv_ID : string;
  srv_Address : string
}.

(** raft.ApplyFuture: its error and the value FSM.Apply returned. *)
Record ApplyFuture := {
  fut_Error : option error;
  fut_Response : option Z
}.

Inductive RaftRequest :=
| AddVoter (id addr : string)
| AddNonvoter (id addr : string)
| RemoveServer (id : string)
| BootstrapCluster (servers : list Server)
| LeadershipTransfer
| VerifyLeaderRequest.

Record Raft := {
  rf_is_leader : bool;
  rf_Leader : string;
  rf_LeaderWithID : string * string;
  rf_GetConfiguration : result (list Server);
  rf_Apply : Command → ApplyFuture;
  rf_request : RaftRequest → option error;
  rf_CommitIndex : Z;
  rf_LocalAddr : string;
  rf_log : list Command;
  rf_requests : list RaftRequest
}.

Record StoreConfig := {
  ReapTimeout : Z;
  ReapReadOnlyTimeout : Z;
  NodeHearbeatShutdownTimeout : Z
}.

(** [s_notifications] counts the goroutines the FSM started to tell the
    observer of a change, [s_appliedTarget] is the index last signalled. *)
Record Store := {
  s_cfg : StoreConfig;
  s_open : bool;
  s_bootstrapExpect : Z;
  s_bootstrapped : bool;
  s_notifyingNodes : gmap string Server;
  s_raftID : string;
  s_state : Cluster;
  s_observer : bool;
  s_notifications : Z;
  s_appliedTarget : Z;
  s_raft : Raft
}.

Definition set_s_state (c : Cluster) (s : Store) : Store :=
  {| s_cfg := s.(s_cfg); s_open := s.(s_open); s_bootstrapExpect := s.(s_bootstrapExpect);
     s_bootstrapped := s.(s_bootstrapped); s_notifyingNodes := s.(s_notifyingNodes);
     s_raftID := s.(s_raftID); s_state := c; s_observer := s.(s_observer);
     s_notifications := s.(s_notifications); s_appliedTarget := s.(s_appliedTarget);
     s_raft := s.(s_raft) |}.
Definition set_s_notified (n i : Z) (s : Store) : Store :=
  {| s_cfg := s.(s_cfg); s_open := s.(s_open); s_bootstrapExpect := s.(s_bootstrapExpect);
     s_bootstrapped := s.(s_bootstrapped); s_notifyingNodes := s.(s_notifyingNodes);
     s_raftID := s.(s_raftID); s_state := s.(s_state); s_observer := s.(s_observer);
     s_notifications := n; s_appliedTarget := i; s_raft := s.(s_raft) |}.
Definition set_s_raft (r : Raft) (s : Store) : Store :=
  {| s_cfg := s.(s_cfg); s_open := s.(s_open); s_bootstrapExpect := s.(s_bootstrapExpect);
     s_bootstrapped := s.(s_bootstrapped); s_notifyingNodes := s.(s_notifyingNodes);
     s_raftID := s.(s_raftID); s_state := s.(s_state); s_observer := s.(s_observer);
     s_notifications := s.(s_notifications); s_appliedTarget := s.(s_appliedTarget); s_raft := r |}.
Definition set_s_notify (b : bool) (m : gmap string Server) (s : Store) : Store :=
  {| s_cfg := s.(s_cfg); s_open := s.(s_open); s_bootstrapExpect := s.(s_bootstrapExpect);
     s_bootstrapped := b; s_notifyingNodes := m;
     s_raftID := s.(s_raftID); s_state := s.(s_state); s_observer := s.(s_observer);
     s_notifications := s.(s_notifications); s_appliedTarget := s.(s_appliedTarget);
     s_raft := s.(s_raft) |}.

(** New: one desired partition, empty maps, not open. *)
Definition New_state : Cluster := {| DesiredPartitions := 1; c_Partitions := ∅; c_Nodes := ∅ |}.
Definition New (cfg : StoreConfig) (raftID : string) (bootstrapExpect : Z) (observer : bool)
    (raft : Raft) : Store :=
  {| s_cfg := cfg; s_open := false; s_bootstrapExpect := bootstrapExpect; s_bootstrapped := false;
     s_notifyingNodes := ∅; s_raftID := raftID; s_state := New_state; s_observer := observer;
     s_notifications := 0; s_appliedTarget := 0; s_raft := raft |}.

(** ** Questions about leadership *)

(** ClusterState returns a deep copy. *)
Definition ClusterState (s : Store) : Cluster := s.(s_state).
Definition IsLeader (s : Store) : bool := if s.(s_open) then s.(s_raft).(rf_is_leader) else false.
Definition HasLeader (s : Store) : bool :=
  if s.(s_open) then negb (s.(s_raft).(rf_Leader) =? "")%string else false.
Definition Role (s : Store) : Z := if IsLeader s then ROLE_TYPE_LEADER else ROLE_TYPE_FOLLOWER.
Definition LeaderID (s : Store) : string * option error :=
  if s.(s_open) then (s.(s_raft).(rf_LeaderWithID).2, None) else (""%string, None).
Definition LeaderAddr (s : Store) : string * option error :=
  if s.(s_open) then (s.(s_raft).(rf_LeaderWithID).1, None) else (""%string, None).
Definition LeaderWithID (s : Store) : string * string :=
  if s.(s_open) then s.(s_raft).(rf_LeaderWithID) else (""%string, ""%string).
Definition HasLeaderID (s : Store) : bool :=
  if s.(s_open) then negb (s.(s_raft).(rf_LeaderWithID).2 =? "")%string else false.
Definition Addr (s : Store) : string := if s.(s_open) then s.(s_raft).(rf_LocalAddr) else "".
Definition CommitIndex (s : Store) : result Z :=
  if s.(s_open) then Good s.(s_raft).(rf_CommitIndex) else Bad ErrNotOpen.

Definition IsVoter (s : Store) : result bool :=
  if s.(s_open) then
    servers ← s.(s_raft).(rf_GetConfiguration);
    match List.find (λ srv, (srv.(srv_ID) =? s.(s_raftID))%string) servers with
    | Some srv => Good (srv.(srv_Suffrage) =? Voter)%Z
    | None => Good false
    end
  else Bad ErrNotOpen.

Definition PartitionLeaderWithID (s : Store) (partition : Z) : string * string :=
  if s.(s_open) then
    match s.(s_state).(c_Partitions) !! partition with
    | None => (""%string, ""%string)
    | Some partitionInfo =>
        match s.(s_state).(c_Nodes) !! partitionInfo.(p_LeaderId) with
        | None => (""%string, ""%string)
        | Some partitionLeader => (partitionLeader.(n_Addr), partitionInfo.(p_LeaderId))
        end
    end
  else (""%string, ""%string).

#[export] Instance Store_FsmStore : FsmStore Store :=
  {| fs_LeaderID := LeaderID; fs_ClusterState := ClusterState |}.

(** ** The methods of the FSM *)

Definition applyNodeChange (c : NodeChange) : ST Store (option Z) := λ s,
  (Ret None, set_s_state (FsmApplyNodeChange s c) s).

Definition applyPartitionChange (c : NodePartitionChange) : ST Store (option Z) := λ s,
  (changedState ← FsmApplyPartitionChange s c; modify (set_s_state changedState) ;; mret None) s.

(** A log entry carries the encoded command; [None] is an entry that does not
    decode. *)
Record LogEntry := { l_Index : Z; l_Data : option Command }.

Definition Apply (l : LogEntry) : ST Store (option Z) :=
  match l.(l_Data) with
  | None => panic "failed to unmarshal command: %s"
  | Some command =>
      res ← (if (command.(cmd_Type) =? TYPE_NODE_CHANGE)%Z
             then applyNodeChange (GetNodeChange command)
             else if (command.(cmd_Type) =? TYPE_NODE_PARTITION_CHANGE)%Z
             then applyPartitionChange (GetNodePartitionChange command)
             else panic "unrecognized command type: %s");
      modify (λ s, set_s_notified
        (if s.(s_observer) then s.(s_notifications) + 1 else s.(s_notifications)) l.(l_Index) s) ;;
      mret res
  end.

Definition Snapshot (s : Store) : fsmSnapshot := {| snap_ClusterState := s.(s_state) |}.

(** The reader gives the JSON value of the snapshot, or an error. *)
Definition Restore (rc : result json) : ST Store unit :=
  snapshot ← of_result (rc ≫= unmarshal_fsmSnapshot);
  modify (set_s_state snapshot.(snap_ClusterState)).

(** ** Writing to the raft log and to the raft configuration *)

(** The errors of the raft library the store tests for. *)
Definition raft_ErrNotLeader : error := err! "node is not the leader".
Definition raft_ErrLeadershipLost : error := err! "leadership lost while committing log".
Definition is_error (e : error) (o : option error) : bool :=
  match o, e with
  | Some (Errorf f []), Errorf g [] => (f =? g)%string
  | _, _ => false
  end.

Definition raft_apply (c : Command) : ST Store ApplyFuture := λ s,
  let r := s.(s_raft) in
  (Ret (r.(rf_Apply) c), set_s_raft {| rf_is_leader := r.(rf_is_leader); rf_Leader := r.(rf_Leader);
     rf_LeaderWithID := r.(rf_LeaderWithID); rf_GetConfiguration := r.(rf_GetConfiguration);
     rf_Apply := r.(rf_Apply); rf_request := r.(rf_request); rf_CommitIndex := r.(rf_CommitIndex);
     rf_LocalAddr := r.(rf_LocalAddr); rf_log := (r.(rf_log) ++ [c])%list;
     rf_requests := r.(rf_requests) |} s).

Definition raft_request (q : RaftRequest) : ST Store (option error) := λ s,
  let r := s.(s_raft) in
  (Ret (r.(rf_request) q), set_s_raft {| rf_is_leader := r.(rf_is_leader); rf_Leader := r.(rf_Leader);
     rf_LeaderWithID := r.(rf_LeaderWithID); rf_GetConfiguration := r.(rf_GetConfiguration);
     rf_Apply := r.(rf_Apply); rf_request := r.(rf_request); rf_CommitIndex := r.(rf_CommitIndex);
     rf_LocalAddr := r.(rf_LocalAddr); rf_log := r.(rf_log);
     rf_requests := (r.(rf_requests) ++ [q])%list |} s).

Section store.
(** Encoding a command (protobuf), and the resolution of an address; the order
    of one iteration over a map. *)
Context (Marshal : Command → option error).
Context (resolvableAddress : string → option error).
Context (iter : ∀ (A : Type), gmap string A → list (string * A)).

(** The condition on the future is a conjunction in the code. *)
Definition write_command (c : Command) (failed : error → error) : ST Store unit :=
  match Marshal c with
  | Some err => throw (errw! "failed to marshal message before applying to log: %w" [err])
  | None =>
      f ← raft_apply c;
      match f.(fut_Error), f.(fut_Response) with
      | Some err, Some _ => throw (failed err)
      | _, _ => mret tt
      end
  end.

Definition WriteNodeChange (change : NodeChange) : ST Store unit :=
  write_command (node_change_command change)
    (λ e, errw! "failed to apply NodeChange message to raft log: %w" [e]).

Definition WritePartitionChange (change : NodePartitionChange) : ST Store unit :=
  write_command (partition_change_command change)
    (λ e, errw! "failed to apply NodePartitionChange message to raft log: %w" [e]).

(** addNewNode, shutdownNode, resumeNode and selfLeaderChange. *)
Definition addNewNode (node : Server) : ST Store unit :=
  s ← get;
  if IsLeader s then
    wrap (λ e, errw! "failed to write NodeChange update for %s: %w" [e])
      (WriteNodeChange {| nc_NodeId := node.(srv_ID); nc_Addr := node.(srv_Address);
         nc_Suffrage := if (node.(srv_Suffrage) =? Voter)%Z then RAFT_SUFFRAGE_VOTER
                        else if (node.(srv_Suffrage) =? Nonvoter)%Z then RAFT_SUFFRAGE_NONVOTER
                        else RAFT_SUFFRAGE_UNKNOWN;
         nc_State := NODE_STATE_STARTED; nc_Role := ROLE_TYPE_FOLLOWER |})
  else mret tt.

Definition shutdownNode (nodeId : string) : ST Store unit :=
  s ← get;
  if IsLeader s then
    wrap (λ e, errw! "failed to write shutdown NodeChange for %s: %w" [e])
      (WriteNodeChange {| nc_NodeId := nodeId; nc_Addr := ""; nc_Suffrage := 0;
         nc_State := NODE_STATE_SHUTDOWN; nc_Role := ROLE_TYPE_FOLLOWER |})
  else mret tt.

Definition resumeNode (nodeId : string) : ST Store unit :=
  s ← get;
  if IsLeader s then
    wrap (λ e, errw! "failed to write shutdown NodeChange for %s: %w" [e])
      (WriteNodeChange {| nc_NodeId := nodeId; nc_Addr := ""; nc_Suffrage := 0;
         nc_State := NODE_STATE_STARTED; nc_Role := ROLE_TYPE_FOLLOWER |})
  else mret tt.

Definition selfLeaderChange (leader : bool) : ST Store unit :=
  if leader then
    s ← get;
    wrap (λ e, errw! "failed to send NodeChange - leadership change message: %w" [e])
      (WriteNodeChange {| nc_NodeId := s.(s_raftID); nc_Addr := Addr s;
         nc_Suffrage := RAFT_SUFFRAGE_VOTER; nc_State := NODE_STATE_STARTED;
         nc_Role := ROLE_TYPE_LEADER |})
  else mret tt.

Definition remove (id : string) : ST Store unit :=
  wrap (λ e, errw! "failed to shutdown node %s: %w" [e]) (shutdownNode id) ;;
  err ← raft_request (RemoveServer id);
  if is_error raft_ErrNotLeader err then throw ErrNotLeader
  else match err with
       | Some e => throw (errw! "failed to remove node %s: %w" [e])
       | None => mret tt
       end.

(** Nodes: the raft configuration with the state of the nodes that have one,
    sorted by id. *)
Definition node_of_server (c : Cluster) (srv : Server) : Node :=
  let n := {| n_Id := srv.(srv_ID); n_Addr := srv.(srv_Address); n_Suffrage := srv.(srv_Suffrage);
              n_State := 0; n_Role := 0; n_Partitions := None |} in
  match GetNode c srv.(srv_ID) with
  | Bad _ => n
  | Good node =>
      set_n_Role node.(n_Role) (set_n_Partitions node.(n_Partitions) (set_n_State node.(n_State) n))
  end.

Fixpoint insert_node (n : Node) (l : list Node) : list Node :=
  match l with
  | [] => [n]
  | m :: l' => if String.ltb n.(n_Id) m.(n_Id) then n :: l else m :: insert_node n l'
  end.
Definition sort_nodes (l : list Node) : list Node := fold_right insert_node [] l.

Definition Nodes (s : Store) : result (list Node) :=
  if s.(s_open) then
    match s.(s_raft).(rf_GetConfiguration) with
    | Bad e => Bad (errw! "failed to get raft configuration for nodes: %w" [e])
    | Good rs => Good (sort_nodes (node_of_server s.(s_state) <$> rs))
    end
  else Bad ErrNotOpen.

(** ** Membership *)

Definition add_server (voter : bool) (id addr : string) : RaftRequest :=
  if voter then AddVoter id addr else AddNonvoter id addr.

(** A server with the joining node's id or address is removed first (by the id
    of the joining node), one with both ends the join. *)
Fixpoint join_loop (id addr : string) (servers : list Server) : ST Store bool :=
  match servers with
  | [] => mret false
  | srv :: servers' =>
      if ((srv.(srv_ID) =? id)%string || (srv.(srv_Address) =? addr)%string)%bool then
        if ((srv.(srv_Address) =? addr)%string && (srv.(srv_ID) =? id)%string)%bool then mret true
        else remove id ;; join_loop id addr servers'
      else join_loop id addr servers'
  end.

Definition Join (id addr : string) (voter : bool) : ST Store unit :=
  s ← get;
  if negb s.(s_open) then throw ErrNotOpen
  else if negb s.(s_raft).(rf_is_leader) then throw ErrNotLeader
  else match resolvableAddress addr with
  | Some err => throw (errw! "failed to resolve %s: %w" [err])
  | None =>
      servers ← of_result s.(s_raft).(rf_GetConfiguration);
      member ← join_loop id addr servers;
      if (member : bool) then mret tt
      else
        err ← raft_request (add_server voter id addr);
        if is_error raft_ErrNotLeader err then throw ErrNotLeader
        else match err with Some e => throw e | None => mret tt end
  end.

Definition Bootstrap (nodes : list (string * string)) : ST Store unit :=
  s ← get;
  if negb s.(s_open) then throw ErrNotOpen
  else
    err ← raft_request (BootstrapCluster
      ((λ n, {| srv_Suffrage := Voter; srv_ID := n.1; srv_Address := n.2 |}) <$> nodes));
    match err with
    | Some e => throw (errw! "failed to bootstrap cluster: %w" [e])
    | None => mret tt
    end.

(** A failing bootstrap is only logged; the store counts as bootstrapped. *)
Definition Notify (id address : string) : ST Store unit :=
  s ← get;
  if negb s.(s_open) then throw ErrNotOpen
  else if ((s.(s_bootstrapExpect) =? 0)%Z || s.(s_bootstrapped) || HasLeader s)%bool then mret tt
  else if bool_decide (is_Some (s.(s_notifyingNodes) !! id)) then mret tt
  else match resolvableAddress address with
  | Some err => throw (errw! "failed to resolve %s: %w" [err])
  | None =>
      let nodes := <[id := {| srv_Suffrage := Voter; srv_ID := id; srv_Address := address |}]>
                     s.(s_notifyingNodes) in
      modify (set_s_notify s.(s_bootstrapped) nodes) ;;
      if (Z.of_nat (size nodes) <? s.(s_bootstrapExpect))%Z then mret tt
      else
        _ ← raft_request (BootstrapCluster (iter Server nodes).*2);
        modify (set_s_notify true nodes)
  end.

Definition Stepdown (wait : bool) : ST Store unit :=
  s ← get;
  if negb s.(s_open) then throw ErrNotOpen
  else
    err ← raft_request LeadershipTransfer;
    if (wait : bool) then match err with Some e => throw e | None => mret tt end else mret tt.

Definition VerifyLeader : ST Store unit :=
  s ← get;
  if negb s.(s_open) then throw ErrNotOpen
  else
    err ← raft_request VerifyLeaderRequest;
    match err with
    | None => mret tt
    | Some e =>
        if (is_error raft_ErrNotLeader err || is_error raft_ErrLeadershipLost err)%bool
        then throw ErrNotLeader
        else throw (errw! "failed to verify leader: %s" [])
    end.

(** ** The observer of the raft library *)

Inductive Observation :=
| ResumedHeartbeatObservation (PeerID : string)
| FailedHeartbeatObservation (PeerID : string) (since : Z)
| LeaderObservation (LeaderID : string)
| PeerObservation (Removed : bool) (Peer : Server).

(** The filter given to NewObserver in Open: what it refuses never reaches the
    channel. *)
Definition observer_filter (o : Observation) : bool :=
  match o with
  | LeaderObservation _ | FailedHeartbeatObservation _ _ | PeerObservation _ _ => true
  | ResumedHeartbeatObservation _ => false
  end.

(** Errors of the handlers are only logged. *)
Definition logged (m : ST Store unit) : ST Store unit := _ ← attempt m; mret tt.

Definition failed_heartbeat (id : string) (dur : Z) : ST Store unit :=
  s ← get;
  let servers := match Nodes s with Good nodes => nodes | Bad _ => [] end in
  let '(isReadOnly, found) := IsReadOnly servers id in
  if negb found then mret tt
  else
    (if ((0 <? s.(s_cfg).(NodeHearbeatShutdownTimeout)) &&
         (s.(s_cfg).(NodeHearbeatShutdownTimeout) <? dur))%Z
     then logged (shutdownNode id) else mret tt) ;;
    (if ((isReadOnly && (0 <? s.(s_cfg).(ReapReadOnlyTimeout))%Z &&
          (s.(s_cfg).(ReapReadOnlyTimeout) <? dur)%Z) ||
         (negb isReadOnly && (0 <? s.(s_cfg).(ReapTimeout))%Z && (s.(s_cfg).(ReapTimeout) <? dur)%Z))%bool
     then logged (remove id) else mret tt).

(** The body of the loop of observe, for an observation of the channel. *)
Definition observe_step (o : Observation) : ST Store unit :=
  match o with
  | ResumedHeartbeatObservation id => logged (resumeNode id)
  | FailedHeartbeatObservation id dur => failed_heartbeat id dur
  | LeaderObservation id =>
      s ← get; logged (selfLeaderChange (id =? s.(s_raftID))%string)
  | PeerObservation true peer => logged (shutdownNode peer.(srv_ID))
  | PeerObservation false peer => logged (addNewNode peer)
  end.

(** An event of the raft library as the store sees it. *)
Definition observe (o : Observation) : ST Store unit :=
  if observer_filter o then observe_step o else mret tt.
End store.
