(* ===== verification/ClusterProps.v ===== *)
(** The replicas of the cluster state: every store applies the entries of the
    committed log in order, with its own view of who leads raft, and may be
    restored from the snapshot of another one.  The invariant of the states they
    reach, the snapshots and what the view of the leader changes. *)
From S2P Require Import Prelude Monad ClusterState Fsm Json Snapshot ClusterStore.

(** ** Well-formed states and commands *)

Definition node_inv (k : string) (n : Node) : Prop :=
  n.(n_Id) = k ∧ (n.(n_Role) ≤ RoleLeader)%Z ∧ ∃ m, n.(n_Partitions) = Some m ∧
    ∀ p np, m !! p = Some np → np.(np_Id) = p ∧ np.(np_State) ≠ NodePartitionStateLeaving.

Record cluster_inv (c : Cluster) : Prop := {
  inv_nodes : map_Forall node_inv c.(c_Nodes);
  inv_one_leader : ∀ k1 k2 n1 n2, c.(c_Nodes) !! k1 = Some n1 → c.(c_Nodes) !! k2 = Some n2 →
    n1.(n_Role) = RoleLeader → n2.(n_Role) = RoleLeader → k1 = k2;
  inv_partitions : ∀ p x, c.(c_Partitions) !! p = Some x →
    x.(p_Id) = p ∧ is_Some (c.(c_Nodes) !! x.(p_LeaderId));
  inv_ok : Cluster_ok c
}.

(** What the protocol lets into the log: strings of valid UTF-8 and numbers in
    the range of their types, in a command whose type is the one of its
    request. *)
Definition NodeChange_ok (c : NodeChange) : Prop :=
  json_ok c.(nc_NodeId) ∧ json_ok c.(nc_Addr) ∧ int32_ok c.(nc_State).
Definition NodePartitionChange_ok (c : NodePartitionChange) : Prop :=
  json_ok c.(npc_NodeId) ∧ uint32_ok c.(npc_PartitionId) ∧ int32_ok c.(npc_State) ∧
  int32_ok c.(npc_Role).

Inductive Command_ok : Command → Prop :=
| node_change_ok c : NodeChange_ok c → Command_ok (node_change_command c)
| partition_change_ok c : NodePartitionChange_ok c → Command_ok (partition_change_command c).

Lemma New_state_inv : cluster_inv New_state.
Proof.
  split; simpl.
  - apply map_Forall_empty.
  - by intros ????; rewrite lookup_empty.
  - by intros ??; rewrite lookup_empty.
  - split; [unfold uint32_ok; simpl; lia|].
    split; [split|apply map_Forall_empty]; [intros ?? H; inv H|apply map_Forall_empty].
Qed.

(** ** The two commands preserve the invariant *)

Section preservation.
Context {S : Type} `{FsmStore S}.

(** The node a change is about, and the other nodes. *)
Definition leader_role (store : S) (id : string) : Z :=
  if ((fs_LeaderID store).1 =? id)%string then RoleLeader else RoleFollower.

Lemma node_change_self (store : S) c :
  (FsmApplyNodeChange store c).(c_Nodes) !! c.(nc_NodeId) =
    Some (changed_node (leader_role store c.(nc_NodeId)) c
            (default (new_node c) ((fs_ClusterState store).(c_Nodes) !! c.(nc_NodeId)))).
Proof. simpl. by rewrite lookup_insert_eq. Qed.

(** Another node keeps its state, or becomes a follower when the changed node
    becomes the leader. *)
Lemma node_change_other (store : S) c k n :
  cluster_inv (fs_ClusterState store) →
  k ≠ c.(nc_NodeId) → (FsmApplyNodeChange store c).(c_Nodes) !! k = Some n →
  ∃ n0, (fs_ClusterState store).(c_Nodes) !! k = Some n0 ∧
    (n = set_n_Role RoleFollower n0 ∨
     n = n0 ∧ ((fs_LeaderID store).1 = c.(nc_NodeId) → n.(n_Role) ≠ RoleLeader)).
Proof.
  intros Hinv Hk. unfold FsmApplyNodeChange. simpl. rewrite lookup_insert_ne by done.
  case_match eqn:Hc; simpl.
  - rewrite lookup_fmap. destruct (_ !! k) as [n0|]; intros; simplify_eq/=; eauto.
  - intros Hn. exists n. split; [done|]. right. split; [done|]. intros Hl Hr.
    destruct (_ !! c.(nc_NodeId)) as [n0|] eqn:E; simpl in Hc.
    + destruct (inv_nodes _ Hinv _ _ E) as (Hid & Hle & _). rewrite Hid, Hl, String.eqb_refl in Hc.
      apply Hk, (inv_one_leader _ Hinv k c.(nc_NodeId) n n0); [done..|].
      unfold RoleLeader in *. destruct (Z.ltb_spec n0.(n_Role) 2); simpl in Hc; [done|lia].
    + by rewrite Hl, String.eqb_refl in Hc.
Qed.

Lemma changed_node_facts role c n :
  (changed_node role c n).(n_Id) = n.(n_Id) ∧ (changed_node role c n).(n_Role) = role ∧
  (changed_node role c n).(n_Partitions) = n.(n_Partitions).
Proof. unfold changed_node. by repeat case_match. Qed.

Lemma changed_node_ok role c n :
  int32_ok role → NodeChange_ok c → Node_ok n → Node_ok (changed_node role c n).
Proof.
  intros Hr (_ & Ha & Hs) (H1 & H2 & H3 & H4 & H5 & H6).
  unfold changed_node, Node_ok, Voter, Nonvoter. repeat case_match; simpl;
    (split_and!; [done|done| | |done|done]); try done; unfold int64_ok; lia.
Qed.

Lemma node_inv_default (store : S) c :
  cluster_inv (fs_ClusterState store) → NodeChange_ok c →
  let n := default (new_node c) ((fs_ClusterState store).(c_Nodes) !! c.(nc_NodeId)) in
  node_inv c.(nc_NodeId) n ∧ Node_ok n.
Proof.
  intros Hinv Hc n. subst n. destruct (_ !! c.(nc_NodeId)) as [n0|] eqn:E; simpl.
  - split; [exact (inv_nodes _ Hinv _ _ E)|]. by apply (proj2 (proj2 (inv_ok _ Hinv)) _ _ E).
  - destruct Hc as (Hk & Ha & Hs). split.
    + split; [done|]. split; [unfold RoleLeader; simpl; lia|]. exists ∅. split; [done|].
      by intros p np; rewrite lookup_empty.
    + unfold Node_ok; simpl.
      split_and!; [done|done|unfold int64_ok; lia|done|unfold int32_ok; lia|].
      intros m [= <-]. split; [by intros ??; rewrite lookup_empty|apply map_Forall_empty].
Qed.

Lemma leader_role_le (store : S) id : (leader_role store id ≤ RoleLeader)%Z ∧ int32_ok (leader_role store id).
Proof. unfold leader_role, int32_ok, RoleLeader, RoleFollower. case_match; lia. Qed.

(** Every node of the new state, with where it comes from. *)
Lemma node_change_node_inv (store : S) c k n :
  cluster_inv (fs_ClusterState store) → NodeChange_ok c →
  (FsmApplyNodeChange store c).(c_Nodes) !! k = Some n →
  node_inv k n ∧ json_ok k ∧ Node_ok n.
Proof.
  intros Hinv Hc Hn. destruct (decide (k = c.(nc_NodeId))) as [->|Hk].
  - rewrite node_change_self in Hn. injection Hn as <-.
    destruct (node_inv_default store c Hinv Hc) as [(Hid & _ & Hp) Hok].
    destruct (changed_node_facts (leader_role store c.(nc_NodeId)) c
      (default (new_node c) ((fs_ClusterState store).(c_Nodes) !! c.(nc_NodeId)))) as (E1 & E2 & E3).
    destruct (leader_role_le store c.(nc_NodeId)) as [Hle Hr].
    split_and!; [|by destruct Hc|by apply changed_node_ok].
    split; [by rewrite E1|]. by rewrite E2, E3.
  - destruct (node_change_other store c k n Hinv Hk Hn) as (n0 & E & Hcase).
    destruct (inv_nodes _ Hinv _ _ E) as (Hid & Hle & Hp).
    destruct (proj2 (proj2 (inv_ok _ Hinv)) _ _ E) as [Hj Hok].
    destruct Hcase as [-> | [-> _]]; [|done].
    split_and!; [|done|].
    + split; [done|]. split; [unfold RoleLeader, RoleFollower; simpl; lia|]. done.
    + destruct Hok as (H1 & H2 & H3 & H4 & H5 & H6). by split_and!.
Qed.

Lemma node_change_role (store : S) c k n :
  cluster_inv (fs_ClusterState store) →
  (FsmApplyNodeChange store c).(c_Nodes) !! k = Some n → n.(n_Role) = RoleLeader →
  if ((fs_LeaderID store).1 =? c.(nc_NodeId))%string then k = c.(nc_NodeId)
  else k ≠ c.(nc_NodeId) ∧ ∃ n0, (fs_ClusterState store).(c_Nodes) !! k = Some n0 ∧
         n0.(n_Role) = RoleLeader.
Proof.
  intros Hinv Hn Hr. destruct (decide (k = c.(nc_NodeId))) as [->|Hk].
  - rewrite node_change_self in Hn. injection Hn as <-.
    rewrite (proj1 (proj2 (changed_node_facts _ _ _))) in Hr. unfold leader_role in Hr.
    by case_match.
  - destruct (node_change_other store c k n Hinv Hk Hn) as (n0 & E & [-> | [-> Hl]]); [done|].
    destruct (String.eqb_spec (fs_LeaderID store).1 c.(nc_NodeId)) as [El|_].
    + by destruct (Hl El).
    + eauto.
Qed.

Lemma FsmApplyNodeChange_inv (store : S) c :
  cluster_inv (fs_ClusterState store) → NodeChange_ok c → cluster_inv (FsmApplyNodeChange store c).
Proof.
  intros Hinv Hc.
  assert (Hps : (FsmApplyNodeChange store c).(c_Partitions) = (fs_ClusterState store).(c_Partitions) ∧
    (FsmApplyNodeChange store c).(DesiredPartitions) = (fs_ClusterState store).(DesiredPartitions))
    by (unfold FsmApplyNodeChange; simpl; by case_match).
  destruct Hps as [Eps Ed]. split.
  - intros k n Hn. by apply (node_change_node_inv store c).
  - intros k1 k2 n1 n2 H1 H2 R1 R2.
    pose proof (node_change_role _ _ _ _ Hinv H1 R1) as A1.
    pose proof (node_change_role _ _ _ _ Hinv H2 R2) as A2.
    destruct ((fs_LeaderID store).1 =? c.(nc_NodeId))%string; [congruence|]. destruct A1 as (_ & m1 & E1 & L1), A2 as (_ & m2 & E2 & L2).
    by eapply (inv_one_leader _ Hinv).
  - intros p x. rewrite Eps. intros Hx. destruct (inv_partitions _ Hinv _ _ Hx) as [? [n Hn]].
    split; [done|]. unfold FsmApplyNodeChange. simpl. apply lookup_insert_is_Some.
    destruct (decide (c.(nc_NodeId) = x.(p_LeaderId))); [by left|right; split; [done|]].
    case_match; simpl; [rewrite lookup_fmap, Hn|rewrite Hn]; eauto.
  - destruct (inv_ok _ Hinv) as (H1 & H2 & H3). unfold Cluster_ok. rewrite Eps, Ed.
    split; [done|]. split; [done|]. intros k n Hn. by apply (node_change_node_inv store c).
Qed.

Definition partition_update (c : NodePartitionChange) : NodePartition :=
  {| np_Id := c.(npc_PartitionId); np_State := c.(npc_State); np_Role := c.(npc_Role) |}.

(** What a partition change does in a state of the invariant, where no node has
    a nil map: it removes the partition from the node when the state is
    LEAVING, sets it otherwise, and a leader is recorded for the partition. *)
Definition partition_changed (cs : Cluster) (c : NodePartitionChange) : Cluster :=
  let node := default (new_partition_node c) (cs.(c_Nodes) !! c.(npc_NodeId)) in
  let m := default ∅ node.(n_Partitions) in
  let leaving := (c.(npc_State) =? NODE_PARTITION_STATE_LEAVING)%Z in
  let m' := if leaving then delete c.(npc_PartitionId) m
            else <[c.(npc_PartitionId) := partition_update c]> m in
  {| DesiredPartitions := cs.(DesiredPartitions);
     c_Partitions := if negb leaving && (c.(npc_Role) =? ROLE_TYPE_LEADER)%Z
       then <[c.(npc_PartitionId) := {| p_Id := c.(npc_PartitionId); p_LeaderId := c.(npc_NodeId) |}]>
              cs.(c_Partitions)
       else cs.(c_Partitions);
     c_Nodes := <[c.(npc_NodeId) := set_n_Partitions (Some m') node]> cs.(c_Nodes) |}.

Lemma partition_node_facts cs c :
  cluster_inv cs → NodePartitionChange_ok c →
  let node := default (new_partition_node c) (cs.(c_Nodes) !! c.(npc_NodeId)) in
  node_inv c.(npc_NodeId) node ∧ Node_ok node.
Proof.
  intros Hinv (Hk & Hp & Hs & Hr) node. subst node.
  destruct (_ !! c.(npc_NodeId)) as [n0|] eqn:E; simpl.
  - split; [exact (inv_nodes _ Hinv _ _ E)|]. by apply (proj2 (proj2 (inv_ok _ Hinv)) _ _ E).
  - split.
    + split; [done|]. split; [unfold RoleLeader; simpl; lia|]. exists ∅. split; [done|].
      by intros p np; rewrite lookup_empty.
    + unfold Node_ok; simpl.
      split_and!; [done|done|unfold int64_ok; lia|unfold int32_ok; lia|unfold int32_ok; lia|].
      intros m [= <-]. split; [by intros ??; rewrite lookup_empty|apply map_Forall_empty].
Qed.

Lemma FsmApplyPartitionChange_run {X} (store : S) c (x : X) :
  cluster_inv (fs_ClusterState store) → NodePartitionChange_ok c →
  FsmApplyPartitionChange store c x = (Ret (partition_changed (fs_ClusterState store) c), x).
Proof.
  intros Hinv Hc. destruct (partition_node_facts _ _ Hinv Hc) as [(_ & _ & m & Em & _) _].
  unfold FsmApplyPartitionChange, partition_changed.
  destruct (fs_ClusterState store) as [d ps ns]; simpl in Em |- *. rewrite Em; simpl.
  by repeat case_match; simplify_eq/=.
Qed.

Lemma partition_changed_map cs c m :
  NodePartitionChange_ok c →
  (∀ p np, m !! p = Some np → np.(np_Id) = p ∧ np.(np_State) ≠ NodePartitionStateLeaving) →
  uint32_keys m ∧ map_Forall (λ _ p, NodePartition_ok p) m →
  cs = (if (c.(npc_State) =? NODE_PARTITION_STATE_LEAVING)%Z then delete c.(npc_PartitionId) m
        else <[c.(npc_PartitionId) := partition_update c]> m) →
  (∀ p np, cs !! p = Some np → np.(np_Id) = p ∧ np.(np_State) ≠ NodePartitionStateLeaving) ∧
  uint32_keys cs ∧ map_Forall (λ _ p, NodePartition_ok p) cs.
Proof.
  intros (_ & Hp & Hs & Hr) Hm [Hk Hf] ->. case_match; propify.
  - split; [by intros p np [_ ?]%lookup_delete_Some; auto|].
    split; [by intros p np [_ ?]%lookup_delete_Some; eauto|by apply map_Forall_delete].
  - split; [|split].
    + intros p np [[<- <-]|[_ ?]]%lookup_insert_Some; auto.
    + intros p np [[<- <-]|[_ ?]]%lookup_insert_Some; eauto.
    + by apply map_Forall_insert_2.
Qed.

Lemma partition_changed_inv cs c :
  cluster_inv cs → NodePartitionChange_ok c → cluster_inv (partition_changed cs c).
Proof.
  intros Hinv Hc.
  destruct (partition_node_facts _ _ Hinv Hc) as [(Hid & Hle & m & Em & Hm) Hok].
  destruct Hok as (O1 & O2 & O3 & O4 & O5 & O6).
  destruct (partition_changed_map _ c m Hc Hm (O6 _ Em) eq_refl) as (A1 & A2).
  assert (Hnode : ∀ k n, (partition_changed cs c).(c_Nodes) !! k = Some n →
    (k = c.(npc_NodeId) ∧ node_inv k n ∧ Node_ok n ∧
      n.(n_Role) = (default (new_partition_node c) (cs.(c_Nodes) !! k)).(n_Role)) ∨
    (k ≠ c.(npc_NodeId) ∧ cs.(c_Nodes) !! k = Some n)).
  { intros k n Hn. unfold partition_changed in Hn; cbn [c_Nodes] in Hn.
    apply lookup_insert_Some in Hn as [[<- <-]|[Hk Hn]]; [left|by right; auto].
    rewrite Em. simpl. split; [done|]. split; [|split; [|done]];
      [|split_and!; [done..|by intros ? [= <-]]].
    split; [done|]. split; [done|]. eexists. split; [done|]. exact A1. }
  split.
  - intros k n Hn. destruct (Hnode _ _ Hn) as [(_ & ? & _)|[_ ?]]; [done|].
    by apply (inv_nodes _ Hinv).
  - intros k1 k2 n1 n2 H1 H2 R1 R2.
    assert (Hold : ∀ k n, (partition_changed cs c).(c_Nodes) !! k = Some n → n.(n_Role) = RoleLeader →
      ∃ n0, cs.(c_Nodes) !! k = Some n0 ∧ n0.(n_Role) = RoleLeader).
    { intros k n Hn Hr. destruct (Hnode _ _ Hn) as [(-> & _ & _ & E)|[_ ?]]; [|by eauto].
      rewrite Hr in E. destruct (_ !! c.(npc_NodeId)) as [n0|]; simpl in E; [by eauto|done]. }
    destruct (Hold _ _ H1 R1) as (m1 & ? & ?), (Hold _ _ H2 R2) as (m2 & ? & ?).
    by eapply (inv_one_leader _ Hinv).
  - intros p x Hx. assert (Hx' : (p = c.(npc_PartitionId) ∧ x = {| p_Id := p; p_LeaderId := c.(npc_NodeId) |}) ∨
      cs.(c_Partitions) !! p = Some x).
    { unfold partition_changed in Hx; cbn [c_Partitions] in Hx. destruct (negb _ && _)%bool; [|by right].
      apply lookup_insert_Some in Hx as [[<- <-]|[_ ?]]; auto. }
    unfold partition_changed; cbn [c_Nodes]. destruct Hx' as [[-> ->]|Hp]; simpl.
    + split; [done|]. apply lookup_insert_is_Some. by left.
    + destruct (inv_partitions _ Hinv _ _ Hp) as [? ?]. split; [done|].
      apply lookup_insert_is_Some'. by right.
  - destruct (inv_ok _ Hinv) as (P1 & [P2 P3] & P4). destruct Hc as (C1 & C2 & C3 & C4).
    split; [done|]. split.
    + unfold partition_changed; cbn [c_Partitions]. destruct (negb _ && _)%bool; [|by split]. split.
      * intros p x [[<- <-]|[_ ?]]%lookup_insert_Some; eauto.
      * by apply map_Forall_insert_2.
    + intros k n Hn. destruct (Hnode _ _ Hn) as [(-> & _ & ? & _)|[_ ?]]; [by split|].
      by apply P4.
Qed.
End preservation.

(** ** Replicas *)

(** A store with the number of entries of the committed log it has applied. *)
Record ClusterSystem := {
  committed : list Command;
  replicas : list (Store * nat)
}.

(** Steps of the system: raft commits a command; a replica applies its next
    entry; the answers of raft (among them who leads) change for one replica, or
    its store opens or closes; a replica is restored from the snapshot of
    another. *)
Inductive cluster_step : ClusterSystem → ClusterSystem → Prop :=
| step_commit c log rs :
    Command_ok c → cluster_step {| committed := log; replicas := rs |}
                                {| committed := log ++ [c]; replicas := rs |}
| step_apply log rs i s n c r s' :
    rs !! i = Some (s, n) → log !! n = Some c →
    Apply {| l_Index := Z.of_nat n + 1; l_Data := Some c |} s = (Ret r, s') →
    cluster_step {| committed := log; replicas := rs |}
                 {| committed := log; replicas := <[i := (s', n + 1)%nat]> rs |}
| step_raft log rs i s n s' :
    rs !! i = Some (s, n) → s'.(s_state) = s.(s_state) →
    cluster_step {| committed := log; replicas := rs |}
                 {| committed := log; replicas := <[i := (s', n)]> rs |}
| step_restore log rs i j s n s2 n2 sink sink' b s' :
    rs !! i = Some (s, n) → rs !! j = Some (s2, n2) →
    Persist (Snapshot s2) sink = (Ret tt, sink') → sink'.(sk_data) = Some b →
    Restore (Good b) s = (Ret tt, s') →
    cluster_step {| committed := log; replicas := rs |}
                 {| committed := log; replicas := <[i := (s', n2)]> rs |}.

(** Initially nothing is committed and every store is new. *)
Definition cluster_initial (sys : ClusterSystem) : Prop :=
  sys.(committed) = [] ∧ Forall (λ r, r.1.(s_state) = New_state ∧ r.2 = 0%nat) sys.(replicas).

Inductive cluster_reachable : ClusterSystem → Prop :=
| reach_initial sys : cluster_initial sys → cluster_reachable sys
| reach_step sys sys' : cluster_reachable sys → cluster_step sys sys' → cluster_reachable sys'.

(** Applying a valid entry never panics and keeps the invariant. *)
Lemma Apply_run l c s :
  cluster_inv s.(s_state) → Command_ok c → l.(l_Data) = Some c →
  ∃ s', Apply l s = (Ret None, s') ∧ cluster_inv s'.(s_state) ∧ s'.(s_appliedTarget) = l.(l_Index).
Proof.
  intros Hinv Hc El. unfold Apply. rewrite El. destruct Hc as [c Hc|c Hc].
  - eexists. split; [done|]. split; [|done]. by apply (FsmApplyNodeChange_inv s).
  - unfold mbind at 1, ST_bind at 1. simpl. unfold applyPartitionChange, GetNodePartitionChange.
    simpl. erewrite bind_step by by apply (FsmApplyPartitionChange_run s).
    simpl. eexists. split; [done|]. split; [|done]. by apply partition_changed_inv.
Qed.

Lemma Snapshot_Restore s sink sink' b s2 :
  cluster_inv s.(s_state) → Persist (Snapshot s) sink = (Ret tt, sink') → sink'.(sk_data) = Some b →
  Restore (Good b) s2 = (Ret tt, set_s_state s.(s_state) s2).
Proof.
  intros Hinv Hp Hb. unfold Persist, on_error, attempt, sink_Write, sink_Close, mbind, ST_bind in Hp.
  destruct (sk_write sink); simpl in Hp; [by destruct sink|].
  destruct (sk_close sink); simpl in Hp; [done|]. unfold mret, ST_ret in Hp. simplify_eq/=.
  unfold Restore. unfold marshal_fsmSnapshot, unmarshal_fsmSnapshot. simpl.
  pose proof (unmarshal_marshal_Cluster (s_state s) (inv_ok _ Hinv)) as E.
  unfold marshal_Cluster in E |- *. simpl in E |- *. by rewrite E.
Qed.

Definition system_inv (sys : ClusterSystem) : Prop :=
  Forall Command_ok sys.(committed) ∧ Forall (λ r, cluster_inv r.1.(s_state)) sys.(replicas).

Lemma cluster_reachable_inv sys : cluster_reachable sys → system_inv sys.
Proof.
  induction 1 as [sys [E Hf]|sys sys' _ [IHc IHr] Hstep].
  - split; [by rewrite E|]. eapply Forall_impl; [exact Hf|]. intros [s n] [-> _]. apply New_state_inv.
  - destruct Hstep as [c log rs Hc|log rs i s n c r s' Hi Hc E|log rs i s n s' Hi E
      |log rs i j s n s2 n2 sink sink' b s' Hi Hj Hp Hb Hr]; simpl in *.
    + split; [|done]. by apply Forall_app_2; [|apply Forall_singleton].
    + split; [done|]. apply Forall_insert; [done|]. simpl.
      rewrite Forall_lookup in IHr. rewrite Forall_lookup in IHc.
      destruct (Apply_run {| l_Index := Z.of_nat n + 1; l_Data := Some c |} c s) as (s1 & E1 & Hinv & _);
        [apply (IHr _ _ Hi)|by eapply IHc|done|]. rewrite E in E1. by simplify_eq.
    + split; [done|]. apply Forall_insert; [done|]. simpl. rewrite E.
      rewrite Forall_lookup in IHr. apply (IHr _ _ Hi).
    + split; [done|]. apply Forall_insert; [done|]. simpl.
      rewrite Forall_lookup in IHr. pose proof (IHr _ _ Hj) as Hinv. simpl in Hinv.
      erewrite Snapshot_Restore in Hr by done. simplify_eq/=. exact Hinv.
Qed.

(** C7: every state of the cluster that a replica can reach - by applying the
    committed commands in any order of views of the leader, or from a snapshot
    of another replica - has at most one leading node, knows the leader of
    every partition as a node, stores nodes and partitions under their ids,
    and never has a node with a nil map of partitions. *)
Theorem cluster_state_invariant sys i s n :
  cluster_reachable sys → sys.(replicas) !! i = Some (s, n) → cluster_inv s.(s_state).
Proof.
  intros Hr Hi. destruct (cluster_reachable_inv _ Hr) as [_ Hf].
  rewrite Forall_lookup in Hf. apply (Hf _ _ Hi).
Qed.

(** C8: a replica can always apply the next committed entry: the state machine
    does not panic and signals the index of the entry. *)
Theorem replica_applies_next_entry sys i s n c :
  cluster_reachable sys → sys.(replicas) !! i = Some (s, n) → sys.(committed) !! n = Some c →
  ∃ s', Apply {| l_Index := Z.of_nat n + 1; l_Data := Some c |} s = (Ret None, s') ∧
    s'.(s_appliedTarget) = (Z.of_nat n + 1)%Z ∧
    cluster_step sys {| committed := sys.(committed);
                        replicas := <[i := (s', n + 1)%nat]> sys.(replicas) |}.
Proof.
  intros Hr Hi Hc. destruct (cluster_reachable_inv _ Hr) as [Hf1 Hf2].
  rewrite Forall_lookup in Hf1. rewrite Forall_lookup in Hf2.
  destruct (Apply_run {| l_Index := Z.of_nat n + 1; l_Data := Some c |} c s) as (s' & E & _ & Ei);
    [apply (Hf2 _ _ Hi)|by eapply Hf1|done|].
  exists s'. split; [done|]. split; [done|]. destruct sys. by eapply step_apply.
Qed.

(** C26: a snapshot that was persisted without an error restores exactly the
    state it was taken of, in any other store. *)
Theorem snapshot_roundtrip sys i s n sink sink' b s2 :
  cluster_reachable sys → sys.(replicas) !! i = Some (s, n) →
  Persist (Snapshot s) sink = (Ret tt, sink') → sink'.(sk_data) = Some b →
  Restore (Good b) s2 = (Ret tt, set_s_state s.(s_state) s2).
Proof.
  intros Hr Hi. apply Snapshot_Restore. destruct (cluster_reachable_inv _ Hr) as [_ Hf].
  rewrite Forall_lookup in Hf. apply (Hf _ _ Hi).
Qed.

Lemma Apply_node_change i nc s r s' :
  Apply {| l_Index := i; l_Data := Some (node_change_command nc) |} s = (Ret r, s') →
  s'.(s_state) = FsmApplyNodeChange s nc.
Proof. intros [= _ <-]. reflexivity. Qed.

(** The state machine is not deterministic in the log: two stores in the
    same state that apply the same node change reach different states when
    only one of them believes at that moment that the changed node leads. *)
Theorem replicas_diverge s1 s2 nc i s1' s2' r1 r2 :
  s1.(s_state) = s2.(s_state) →
  (LeaderID s1).1 = nc.(nc_NodeId) → (LeaderID s2).1 ≠ nc.(nc_NodeId) →
  Apply {| l_Index := i; l_Data := Some (node_change_command nc) |} s1 = (Ret r1, s1') →
  Apply {| l_Index := i; l_Data := Some (node_change_command nc) |} s2 = (Ret r2, s2') →
  s1'.(s_state) ≠ s2'.(s_state).
Proof.
  intros Es H1 H2 E1%Apply_node_change E2%Apply_node_change E. rewrite E1, E2 in E.
  pose proof (node_change_self s1 nc) as A1. pose proof (node_change_self s2 nc) as A2.
  rewrite E, A2 in A1. apply Some_inj, (f_equal n_Role) in A1.
  rewrite !(proj1 (proj2 (changed_node_facts _ _ _))) in A1.
  unfold leader_role in A1. simpl in A1.
  rewrite H1, String.eqb_refl, (proj2 (String.eqb_neq _ _) H2) in A1. done.
Qed.

(** The value FSM.Apply returns is always nil. *)
Lemma Apply_response l s r s' : Apply l s = (Ret r, s') → r = None.
Proof.
  unfold Apply, applyNodeChange, applyPartitionChange. destruct (l_Data l) as [c|]; [|done].
  unfold mbind, ST_bind, modify, mret, ST_ret, panic.
  repeat case_match; intros; simplify_eq/=; done.
Qed.

(** A node change that raft refuses is reported as written: the condition
    asks for an error and for a response, and the response of the state machine
    is always nil. *)
Theorem failed_write_is_not_reported Marshal change s e :
  Marshal (node_change_command change) = None →
  (∀ c r, (s.(s_raft).(rf_Apply) c).(fut_Response) = Some r →
     ∃ l s1 s1', Apply l s1 = (Ret (Some r), s1')) →
  (s.(s_raft).(rf_Apply) (node_change_command change)).(fut_Error) = Some e →
  ∃ s', WriteNodeChange Marshal change s = (Ret tt, s') ∧ s'.(s_state) = s.(s_state).
Proof.
  intros Hm Hresp He. unfold WriteNodeChange, write_command. rewrite Hm.
  unfold mbind, ST_bind, raft_apply. simpl. rewrite He.
  destruct (fut_Response _) as [r|] eqn:Er; [|by eexists].
  apply Hresp in Er as (l & s1 & s1' & E). by apply Apply_response in E.
Qed.

(** ** Witnesses: two replicas, one of which knows that node a leads *)

Definition example_raft (leader : string) : Raft :=
  {| rf_is_leader := true; rf_Leader := "10.0.0.1:8090"; rf_LeaderWithID := ("10.0.0.1:8090", leader);
     rf_GetConfiguration := Good []; rf_request := λ _, None; rf_CommitIndex := 0;
     rf_Apply := λ _, {| fut_Error := Some raft_ErrLeadershipLost; fut_Response := None |};
     rf_LocalAddr := "10.0.0.1:8090"; rf_log := []; rf_requests := [] |}%string.

Definition example_store (leader : string) : Store :=
  let s := New {| ReapTimeout := 0; ReapReadOnlyTimeout := 0; NodeHearbeatShutdownTimeout := 2 |}
             "a" 1 true (example_raft leader) in
  {| s_cfg := s.(s_cfg); s_open := true; s_bootstrapExpect := s.(s_bootstrapExpect);
     s_bootstrapped := s.(s_bootstrapped); s_notifyingNodes := s.(s_notifyingNodes);
     s_raftID := s.(s_raftID); s_state := s.(s_state); s_observer := s.(s_observer);
     s_notifications := s.(s_notifications); s_appliedTarget := s.(s_appliedTarget);
     s_raft := s.(s_raft) |}.

Definition node_a_started : NodeChange :=
  {| nc_NodeId := "a"; nc_Addr := "10.0.0.1:8090"; nc_Suffrage := 1; nc_State := 2; nc_Role := 2 |}.
Definition a_leads_1 : NodePartitionChange :=
  {| npc_NodeId := "a"; npc_PartitionId := 1; npc_State := 5; npc_Role := 2 |}.

Definition example_log : list Command :=
  [node_change_command node_a_started; partition_change_command a_leads_1].
Definition after_entry (i : Z) (c : Command) (s : Store) : Store :=
  (Apply {| l_Index := i; l_Data := Some c |} s).2.

Definition replica_1 : Store := after_entry 1 (node_change_command node_a_started) (example_store "a").
Definition replica_2 : Store := after_entry 2 (partition_change_command a_leads_1) replica_1.
Definition example_system : ClusterSystem :=
  {| committed := example_log; replicas := [(replica_2, 2%nat); (example_store "", 0%nat)] |}.

Lemma example_commands_ok : Forall Command_ok example_log.
Proof.
  repeat constructor; unfold int32_ok, uint32_ok; simpl; lia.
Qed.

Lemma example_reachable : cluster_reachable example_system.
Proof.
  assert (H0 : cluster_reachable {| committed := [];
    replicas := [(example_store "a", 0%nat); (example_store "", 0%nat)] |})
    by (apply reach_initial; split; [done|repeat constructor]).
  pose proof example_commands_ok as Hok. unfold example_log in Hok.
  apply Forall_cons in Hok as [Hc1 [Hc2 _]%Forall_cons].
  eapply reach_step in H0; [|apply (step_commit _ _ _ Hc1)].
  eapply reach_step in H0; [|apply (step_commit _ _ _ Hc2)].
  eapply reach_step in H0; [|eapply (step_apply _ _ 0); [done|done|by vm_compute]].
  eapply reach_step in H0; [|eapply (step_apply _ _ 0); [done|done|by vm_compute]].
  exact H0.
Qed.

Lemma cluster_state_invariant_witness :
  replica_2.(s_state).(c_Partitions) !! 1%Z = Some {| p_Id := 1; p_LeaderId := "a" |} ∧
  cluster_inv replica_2.(s_state).
Proof.
  split; [vm_compute; reflexivity|].
  apply (cluster_state_invariant example_system 0 _ 2 example_reachable). reflexivity.
Defined.

Lemma replica_applies_next_entry_witness :
  ∃ s', Apply {| l_Index := 1; l_Data := Some (node_change_command node_a_started) |}
          (example_store "") = (Ret None, s') ∧
    s'.(s_appliedTarget) = 1%Z ∧
    cluster_step example_system {| committed := example_log;
      replicas := [(replica_2, 2%nat); (s', 1%nat)] |}.
Proof.
  apply (replica_applies_next_entry example_system 1 (example_store "") 0 _ example_reachable);
    reflexivity.
Defined.

Definition example_sink : SnapshotSink :=
  {| sk_write := None; sk_close := None; sk_data := None; sk_cancelled := false |}.

Lemma snapshot_roundtrip_witness :
  Restore (Good (marshal_fsmSnapshot (Snapshot replica_2))) (example_store "") =
    (Ret tt, set_s_state replica_2.(s_state) (example_store "")).
Proof.
  apply (snapshot_roundtrip example_system 0 replica_2 2 example_sink
    (Persist (Snapshot replica_2) example_sink).2); [apply example_reachable|reflexivity..].
Defined.

Lemma replicas_diverge_witness :
  (after_entry 1 (node_change_command node_a_started) (example_store "a")).(s_state) ≠
  (after_entry 1 (node_change_command node_a_started) (example_store "")).(s_state).
Proof.
  apply (replicas_diverge (example_store "a") (example_store "") node_a_started 1 _ _ None None);
    [reflexivity|reflexivity|discriminate|reflexivity|reflexivity].
Defined.

Lemma failed_write_is_not_reported_witness :
  ∃ s', WriteNodeChange (λ _, None) node_a_started (example_store "a") = (Ret tt, s') ∧
    s'.(s_state) = (example_store "a").(s_state).
Proof.
  apply (failed_write_is_not_reported _ _ _ raft_ErrLeadershipLost);
    [reflexivity|intros c r E; discriminate E|reflexivity].
Defined.
