(* ===== verification/ClusterQueries.v ===== *)
(** What the questions about the cluster state answer: the node that gets a new
    partition, the partition a message is routed to, and the choice of a
    partition for a request. *)
From S2P Require Import Prelude Monad Utf8 ClusterState.

(** A step of the search keeps the node with fewer partitions. *)
Lemma stress_fold l minNode :
  Forall (λ n, n.(n_Partitions) ≠ None) l → minNode.(n_Partitions) ≠ None →
  let m := fold_left stress_step l minNode in
  (m = minNode ∨ m ∈ l) ∧ Forall (λ n, (partition_count m ≤ partition_count n)%Z) (minNode :: l).
Proof.
  revert minNode. induction l as [|n l IH]; intros minNode Hl Hm; simpl.
  { split; [by left|]. by constructor. }
  apply Forall_cons in Hl as [Hn Hl].
  assert (Es : stress_step minNode n =
    if (partition_count n <? partition_count minNode)%Z then n else minNode)
    by (unfold stress_step; by rewrite (bool_decide_eq_false_2 _ Hm)).
  rewrite Es.
  destruct (Z.ltb_spec (partition_count n) (partition_count minNode)).
  - destruct (IH n Hl Hn) as [Hin Hall]. split.
    + right. destruct Hin as [->|]; [left|by right].
    + apply Forall_cons in Hall as [? Hall].
      constructor; [lia|constructor; [done|done]].
  - destruct (IH minNode Hl Hm) as [Hin Hall]. split.
    + destruct Hin as [?|]; [by left|right; by right].
    + apply Forall_cons in Hall as [? Hall].
      constructor; [done|constructor; [lia|done]].
Qed.

Section queries.
Context (iter : ∀ (A : Type), gmap string A → list (string * A)).
Context (iter_perm : ∀ A (m : gmap string A), iter A m ≡ₚ map_to_list m).

Lemma elem_of_nodes_of c n : n ∈ nodes_of iter c ↔ ∃ k, c.(c_Nodes) !! k = Some n.
Proof.
  unfold nodes_of. rewrite iter_perm, list_elem_of_fmap. split.
  - intros ([k x] & -> & H%elem_of_map_to_list). eauto.
  - intros (k & H%elem_of_map_to_list). by exists (k, n).
Qed.

(** The node that gets a new partition is one with the fewest partitions,
    whatever the order of the iteration; without nodes there is none. *)
Theorem least_stressed_node_minimal c :
  map_Forall (λ k n, n.(n_Id) = k ∧ k ≠ ""%string ∧ n.(n_Partitions) ≠ None) c.(c_Nodes) →
  match GetLeastStressedNode iter c with
  | Good node => (∃ k, c.(c_Nodes) !! k = Some node) ∧
      ∀ k n, c.(c_Nodes) !! k = Some n → (partition_count node ≤ partition_count n)%Z
  | Bad _ => c.(c_Nodes) = ∅
  end.
Proof.
  intros Hc. unfold GetLeastStressedNode.
  assert (Hf : Forall (λ n, n.(n_Id) ≠ ""%string ∧ n.(n_Partitions) ≠ None) (nodes_of iter c)).
  { apply Forall_forall. intros n [k Hk]%elem_of_nodes_of. destruct (Hc k n Hk) as (-> & ? & ?). done. }
  destruct (nodes_of iter c) as [|n l] eqn:E.
  - simpl. apply map_empty. intros k. destruct (c_Nodes c !! k) as [n|] eqn:En; [|done].
    assert (Hin : n ∈ nodes_of iter c) by (apply elem_of_nodes_of; eauto).
    rewrite E in Hin. by apply not_elem_of_nil in Hin.
  - simpl fold_left. change (stress_step zero_node n) with n.
    assert (Hp : Forall (λ n, n.(n_Partitions) ≠ None) (n :: l))
      by (eapply Forall_impl; [exact Hf|]; by intros ? [_ ?]).
    apply Forall_cons in Hp as [Hn Hl]. destruct (stress_fold l n Hl Hn) as [Hin Hall].
    set (m := fold_left stress_step l n) in *.
    assert (Hm : m ∈ nodes_of iter c) by (rewrite E; destruct Hin as [->|]; [left|by right]).
    rewrite E in Hm. pose proof (proj1 (Forall_forall _ _) Hf m Hm) as [Hid _].
    destruct (String.eqb_spec m.(n_Id) ""); [done|]. split.
    + apply elem_of_nodes_of. by rewrite E.
    + intros k x Hx. apply (proj1 (Forall_forall _ _) Hall). rewrite <- E. apply elem_of_nodes_of. eauto.
Qed.
End queries.

(** A message is routed to one of the partitions 1 to n of a cluster with n
    partitions, and to partition 0, which does not exist, when there is none;
    the sum over the characters may wrap around the 32 bits. *)
Theorem partition_of_string_bounds c str :
  (Z.of_nat (size c.(c_Partitions)) < 2 ^ 32 - 1)%Z →
  let n := Z.of_nat (size c.(c_Partitions)) in
  if (n =? 0)%Z then GetPartitionIdFromString c str = 0%Z
  else (1 ≤ GetPartitionIdFromString c str ≤ n)%Z.
Proof.
  intros Hn. unfold GetPartitionIdFromString, wrapu32. simpl.
  destruct (size c.(c_Partitions)) as [|k] eqn:E; [done|].
  rewrite (proj2 (Z.eqb_neq (Z.of_nat (S k)) 0)) by lia. simpl Nat.eqb.
  rewrite (Z.mod_small (Z.of_nat (S k))) by lia.
  match goal with |- context [(?a mod Z.of_nat (S k))%Z] =>
    pose proof (Z.mod_pos_bound a (Z.of_nat (S k)) ltac:(lia)) end.
  rewrite Z.mod_small by lia. lia.
Qed.

(** The choice of a partition for a new instance panics in a cluster with
    one partition (the number of partitions every cluster starts with): the
    bound given to Intn is the number of partitions less one, which also keeps
    the last one of the iteration from ever being chosen. *)
Theorem least_stressed_partition_bound {X} iter draw c (x : X) :
  (∀ A (m : gmap Z A), iter A m ≡ₚ map_to_list m) →
  let order := (iter Partition c.(c_Partitions)).*2 in
  match LeastStressedPartition iter draw c x with
  | (Panic _, _) => (size c.(c_Partitions) ≤ 1)%nat
  | (Ret p, _) => ∃ i, order !! i = Some p ∧ (i < size c.(c_Partitions) - 1)%nat
  | _ => False
  end.
Proof.
  intros Hiter order. unfold LeastStressedPartition, Intn.
  assert (Hlen : length order = size c.(c_Partitions)).
  { unfold order. by rewrite length_fmap, Hiter, length_map_to_list. }
  destruct (Z.leb_spec (Z.of_nat (size (c_Partitions c)) - 1) 0); simpl.
  - unfold panic, mbind, ST_bind. lia.
  - unfold mbind, ST_bind, mret, ST_ret.
    set (b := (Z.of_nat (size (c_Partitions c)) - 1)%Z) in *.
    assert (Hb : (0 ≤ draw mod b < b)%Z) by (by apply Z.mod_pos_bound).
    destruct (lookup_lt_is_Some_2 order (Z.to_nat (draw mod b))) as [p Hp]; [rewrite Hlen; lia|]. fold order. rewrite Hp. eexists. split; [exact Hp|]. lia.
Qed.

(** ** Witnesses *)

Definition example_node (id : string) (ps : list Z) : Node :=
  {| n_Id := id; n_Addr := id; n_Suffrage := 0; n_State := 2; n_Role := 1;
     n_Partitions := Some (list_to_map ((λ p, (p, {| np_Id := p; np_State := 5; np_Role := 1 |})) <$> ps)) |}.

Definition example_cluster : Cluster :=
  {| DesiredPartitions := 3;
     c_Partitions := list_to_map ((λ p, (p, {| p_Id := p; p_LeaderId := "node-1" |})) <$> [1; 2; 3]%Z);
     c_Nodes := {["node-1"%string := example_node "node-1" [1; 2]%Z;
                  "node-2"%string := example_node "node-2" [3]%Z]} |}.

Definition string_order (A : Type) (m : gmap string A) : list (string * A) := map_to_list m.
Definition number_order (A : Type) (m : gmap Z A) : list (Z * A) := map_to_list m.

Lemma least_stressed_node_minimal_witness :
  GetLeastStressedNode string_order example_cluster = Good (example_node "node-2" [3]%Z) ∧
  (∃ k, example_cluster.(c_Nodes) !! k = Some (example_node "node-2" [3]%Z)) ∧
  ∀ k n, example_cluster.(c_Nodes) !! k = Some n →
    (partition_count (example_node "node-2" [3]%Z) ≤ partition_count n)%Z.
Proof.
  split; [vm_compute; reflexivity|].
  apply (least_stressed_node_minimal string_order (λ A m, reflexivity _) example_cluster).
  apply (bool_decide_unpack _). vm_compute. exact I.
Defined.

(** The values of the unit test of the code. *)
Example partition_of_digits :
  GetPartitionIdFromString example_cluster <$> ["0"; "1"; "2"]%string = [1; 2; 3]%Z.
Proof. vm_compute. reflexivity. Qed.

Lemma partition_of_string_bounds_witness :
  (1 ≤ GetPartitionIdFromString example_cluster "correlation-key" ≤ 3)%Z.
Proof. apply (partition_of_string_bounds example_cluster "correlation-key"). vm_compute. reflexivity. Defined.

Definition one_partition : Cluster :=
  {| DesiredPartitions := 1; c_Partitions := {[1%Z := {| p_Id := 1; p_LeaderId := "node-1" |}]};
     c_Nodes := ∅ |}.

Lemma least_stressed_partition_bound_witness :
  (LeastStressedPartition number_order 7 one_partition tt).1 = Panic "invalid argument to Intn" ∧
  (size one_partition.(c_Partitions) ≤ 1)%nat.
Proof.
  split; [vm_compute; reflexivity|].
  apply (least_stressed_partition_bound number_order 7 one_partition tt (λ A m, reflexivity _)).
Defined.
