(* ===== verification/Zenflake.v ===== *)
(** Keys of the engine (pkg/zenflake/snowflake.go): which partition a key
    belongs to.  Keys are generated by the bwmarrin/snowflake library; its
    layout, time above 10 bits of node above 12 bits of step, is the hypothesis
    [snowflake_layout] of the theorems. *)
From S2P Require Import Prelude ClusterState.

Definition NodeBits : Z := 10.
Definition StepBits : Z := 12.

(** [-1 ^ (-1 << NodeBits)] and [nodeMax << StepBits]. *)
Definition nodeMax : Z := wrap64 (Z.lxor (-1) (wrap64 (Z.shiftl (-1) NodeBits))).
Definition nodeMask : Z := wrap64 (Z.shiftl nodeMax StepBits).
Definition stepMask : Z := wrap64 (Z.lxor (-1) (wrap64 (Z.shiftl (-1) StepBits))).
Definition nodeShift : Z := StepBits.

Definition GetPartitionMask : Z := nodeMask.

Definition GetPartitionId (id : Z) : Z :=
  let maskedId := Z.land id GetPartitionMask in
  let nodeId := Z.shiftr maskedId nodeShift in
  wrapu32 nodeId.

(** ** The partition of a key *)

Lemma GetPartitionId_arith id : GetPartitionId id = (id / 2 ^ 12 mod 2 ^ 10)%Z.
Proof.
  unfold GetPartitionId, wrapu32. rewrite Z.shiftr_land.
  change (Z.shiftr GetPartitionMask nodeShift) with (Z.ones 10). rewrite Z.land_ones by lia.
  change nodeShift with 12%Z. rewrite Z.shiftr_div_pow2 by lia.
  apply Z.mod_small. pose proof (Z.mod_pos_bound (id / 2 ^ 12) (2 ^ 10)). lia.
Qed.

(** The layout of the keys of the snowflake library: a 63-bit number made of a
    time, the number of the node and a step. *)
Definition snowflake_layout (generate : Z → Z → Z → Z) : Prop :=
  ∀ time node step, (0 ≤ node < 2 ^ 10)%Z → (0 ≤ step < 2 ^ 12)%Z →
    generate time node step =
      wrap64 (Z.lor (Z.lor (Z.shiftl time 22) (Z.shiftl node 12)) step).

Lemma lor_disjoint a b k : (0 ≤ k)%Z → (0 ≤ b < 2 ^ k)%Z → Z.lor (Z.shiftl a k) b = (a * 2 ^ k + b)%Z.
Proof.
  intros Hk Hb. rewrite <- Z.shiftl_mul_pow2 by done. rewrite <- Z.add_lor_land.
  assert (Z.land (Z.shiftl a k) b = 0%Z) as ->; [|lia].
  apply Z.bits_inj'; intros n Hn. rewrite Z.land_spec, Z.bits_0.
  destruct (Z.ltb_spec n k); [by rewrite Z.shiftl_spec_low|].
  rewrite <- (Z.mod_small b (2 ^ k)) by done. rewrite Z.mod_pow2_bits_high by lia.
  apply andb_false_r.
Qed.

(** Wrapping changes a multiple of 2^64, which the partition does not see. *)
Lemma GetPartitionId_wrap64 z : GetPartitionId (wrap64 z) = GetPartitionId z.
Proof.
  rewrite !GetPartitionId_arith. unfold wrap64.
  replace ((z + 2 ^ 63) mod 2 ^ 64 - 2 ^ 63)%Z
    with (z + (- ((z + 2 ^ 63) / 2 ^ 64) * 2 ^ 52) * 2 ^ 12)%Z
    by (pose proof (Z.div_mod (z + 2 ^ 63) (2 ^ 64)); lia).
  rewrite Z.div_add by lia.
  replace (- ((z + 2 ^ 63) / 2 ^ 64) * 2 ^ 52)%Z
    with ((- ((z + 2 ^ 63) / 2 ^ 64) * 2 ^ 42) * 2 ^ 10)%Z by lia.
  by rewrite Z.mod_add by lia.
Qed.

(** The partition of a key is below 1024 whatever the key. *)
Theorem partition_of_key_bounds id : (0 ≤ GetPartitionId id < 1024)%Z.
Proof. rewrite GetPartitionId_arith. apply Z.mod_pos_bound. lia. Qed.

(** GetPartitionId gives back the number of the node a key was generated
    with, also when the time wraps around the 64 bits of the key. *)
Theorem partition_of_generated_key generate time node step :
  snowflake_layout generate → (0 ≤ node < 2 ^ 10)%Z → (0 ≤ step < 2 ^ 12)%Z →
  GetPartitionId (generate time node step) = node.
Proof.
  intros Hl Hn Hs. rewrite Hl, GetPartitionId_wrap64, GetPartitionId_arith by done.
  replace (Z.lor (Z.shiftl time 22) (Z.shiftl node 12))
    with (Z.shiftl (Z.lor (Z.shiftl time 10) node) 12)
    by (rewrite Z.shiftl_lor, Z.shiftl_shiftl by lia; done).
  rewrite (lor_disjoint _ step), (lor_disjoint time node) by lia.
  rewrite Z.div_add_l, (Z.div_small step), Z.add_0_r by lia.
  rewrite Z.add_comm, Z.mod_add by lia. by apply Z.mod_small.
Qed.

Lemma partition_of_generated_key_witness :
  GetPartitionId (wrap64 (Z.lor (Z.lor (Z.shiftl 1700000000000 22) (Z.shiftl 4 12)) 7)) = 4%Z.
Proof.
  apply (partition_of_generated_key
    (λ time node step, wrap64 (Z.lor (Z.lor (Z.shiftl time 22) (Z.shiftl node 12)) step))
    1700000000000 4 7); [by intros ?????|lia|lia].
Defined.
