(* ===== verification/Controller.v ===== *)
(** The controller of a node (internal/cluster/controller/controller.go): it
    compares the cluster state with the partition nodes that run on this node,
    creates partitions on the leader and drives the partitions of its own node
    from JOINING to INITIALIZED.

    The store is behind the interface ControlledStore, as in the code, here a
    class with the laws of a store that has applied what it wrote.  What the
    partition nodes and engines answer is the record [PartitionEnv].  The mutex
    of the partition map is not modelled: the operations run one at a time.
    Contexts expire: [env_expired] answers the n-th check. *)
From S2P Require Import Prelude Monad ClusterState Fsm.

(** ** The store a controller works on *)

Class ControlledStore (S : Type) := {
  cst_ID : S → string;
  cst_IsLeader : S → bool;
  cst_ClusterState : S → Cluster;
  cst_WritePartitionChange : NodePartitionChange → ST S unit;
  cst_NodeCommand : Command → ST S unit
}.

Definition cst_Role {S} `{ControlledStore S} (s : S) : Z :=
  if cst_IsLeader s then ROLE_TYPE_LEADER else ROLE_TYPE_FOLLOWER.

(** What a partition node of this process keeps. *)
Record ZenPartitionNode := {
  zpn_PartitionId : Z;
  zpn_FeelRuntime : bool;
  zpn_JsRuntime : bool;
  zpn_Engine : bool
}.

(** The answers of the partition nodes, by partition id: starting one, waiting
    for its leader, whether this node leads it, creating an engine, stopping it.
    An engine that fails to start is only logged. *)
Record PartitionEnv := {
  env_expired : nat → bool;
  env_Start : Z → result ZenPartitionNode;
  env_WaitForLeader_timeout : Z → bool;
  env_IsLeader : Z → bool;
  env_createEngine : Z → option error;
  env_Stop : Z → option error;
  env_ClusterLeader : option error
}.

Record ControllerWorld (S : Type) := {
  cw_store : S;
  cw_partitions : gmap Z ZenPartitionNode;
  cw_handleClusterChanges : bool;
  cw_env : PartitionEnv;
  cw_checks : nat;
  cw_retries : list Z
}.
Arguments cw_store {S}. Arguments cw_partitions {S}. Arguments cw_handleClusterChanges {S}.
Arguments cw_env {S}. Arguments cw_checks {S}. Arguments cw_retries {S}.

Section controller.
Context {S : Type} `{ControlledStore S}.
Abbreviation CM := (ST (ControllerWorld S)).

Definition set_store (s : S) (w : ControllerWorld S) : ControllerWorld S :=
  {| cw_store := s; cw_partitions := w.(cw_partitions);
     cw_handleClusterChanges := w.(cw_handleClusterChanges); cw_env := w.(cw_env);
     cw_checks := w.(cw_checks); cw_retries := w.(cw_retries) |}.
Definition set_partitions (m : gmap Z ZenPartitionNode) (w : ControllerWorld S) : ControllerWorld S :=
  {| cw_store := w.(cw_store); cw_partitions := m;
     cw_handleClusterChanges := w.(cw_handleClusterChanges); cw_env := w.(cw_env);
     cw_checks := w.(cw_checks); cw_retries := w.(cw_retries) |}.
Definition set_retries (l : list Z) (w : ControllerWorld S) : ControllerWorld S :=
  {| cw_store := w.(cw_store); cw_partitions := w.(cw_partitions);
     cw_handleClusterChanges := w.(cw_handleClusterChanges); cw_env := w.(cw_env);
     cw_checks := w.(cw_checks); cw_retries := l |}.

Definition on_store {A} (m : ST S A) : CM A := zoom cw_store set_store m.
Definition store_state : CM Cluster := gets (λ w, cst_ClusterState w.(cw_store)).

(** [ctx.Err() != nil]. *)
Definition ctx_expired : CM bool := λ w,
  (Ret (w.(cw_env).(env_expired) w.(cw_checks)),
   {| cw_store := w.(cw_store); cw_partitions := w.(cw_partitions);
      cw_handleClusterChanges := w.(cw_handleClusterChanges); cw_env := w.(cw_env);
      cw_checks := Datatypes.S w.(cw_checks); cw_retries := w.(cw_retries) |}).

(** An error that is only logged. *)
Definition log_error (m : CM unit) : CM unit := _ ← attempt m; mret tt.

Section iteration.
Context (iter_nodes : ∀ (A : Type), gmap string A → list (string * A)).
Context (iter_ids : ∀ (A : Type), gmap Z A → list (Z * A)).

(** ** The operations of the leader *)

Definition assignPartition (partitionId : Z) (nodeId : string) : CM unit :=
  expired ← ctx_expired;
  if (expired : bool) then mret tt
  else log_error (on_store (cst_WritePartitionChange
         {| npc_NodeId := nodeId; npc_PartitionId := partitionId;
            npc_State := NODE_PARTITION_STATE_JOINING; npc_Role := ROLE_TYPE_UNKNOWN |})).

Definition assignNewPartition (newPartitionId : Z) : CM unit :=
  cs ← store_state;
  match GetLeastStressedNode iter_nodes cs with
  | Bad _ => mret tt
  | Good partitionCandidate =>
      if AnyNodeHasPartition iter_nodes cs newPartitionId then mret tt
      else
        expired ← ctx_expired;
        if (expired : bool) then mret tt
        else assignPartition (wrapu32 newPartitionId) partitionCandidate.(n_Id)
  end.

Definition performLeaderOperations : CM unit :=
  expired ← ctx_expired;
  if (expired : bool) then mret tt
  else
    cs ← store_state;
    let currentPartitionCount := Z.of_nat (size cs.(c_Partitions)) in
    (if (currentPartitionCount <? cs.(DesiredPartitions))%Z
     then assignNewPartition (currentPartitionCount + 1) else mret tt) ;;
    cs ← store_state;
    for_each (nodes_of iter_nodes cs) (λ node,
      if (partition_count node =? 0)%Z then assignPartition 1 node.(n_Id) else mret tt).

(** ** The operations of a member *)

Definition send_partition_change (partitionId state role : Z) : CM unit :=
  w ← get;
  on_store (cst_NodeCommand (partition_change_command
    {| npc_NodeId := cst_ID w.(cw_store); npc_PartitionId := partitionId;
       npc_State := state; npc_Role := role |})).

Definition update_node (partitionId : Z) (n : ZenPartitionNode) : CM unit :=
  modify (λ w, set_partitions (<[partitionId := n]> w.(cw_partitions)) w).

(** The engine is started also after createEngine failed: the method call on
    the nil engine panics. *)
Definition start_engine (partitionId : Z) (n : ZenPartitionNode) : CM unit :=
  w ← get;
  match w.(cw_env).(env_createEngine) partitionId with
  | Some _ => panic "nil pointer dereference"
  | None => update_node partitionId
      {| zpn_PartitionId := n.(zpn_PartitionId); zpn_FeelRuntime := n.(zpn_FeelRuntime);
         zpn_JsRuntime := n.(zpn_JsRuntime); zpn_Engine := true |}
  end.

Definition ready_node (leader : bool) (n : ZenPartitionNode) : ZenPartitionNode :=
  {| zpn_PartitionId := n.(zpn_PartitionId);
     zpn_FeelRuntime := n.(zpn_FeelRuntime) || leader;
     zpn_JsRuntime := n.(zpn_JsRuntime) || leader; zpn_Engine := n.(zpn_Engine) |}.

(** Without a running partition node a goroutine will try to join again. *)
Definition handlePartitionStateInitializing (partitionId : Z) : CM unit :=
  w ← get;
  match w.(cw_partitions) !! partitionId with
  | None => modify (λ w, set_retries (w.(cw_retries) ++ [partitionId]) w)
  | Some partitionNode =>
      if w.(cw_env).(env_WaitForLeader_timeout) partitionId then mret tt
      else
        expired ← ctx_expired;
        if (expired : bool) then mret tt
        else
          let leader := w.(cw_env).(env_IsLeader) partitionId in
          let partitionNode := ready_node leader partitionNode in
          update_node partitionId partitionNode ;;
          (if negb partitionNode.(zpn_Engine) && leader
           then start_engine partitionId partitionNode else mret tt) ;;
          log_error (send_partition_change partitionId NODE_PARTITION_STATE_INITIALIZED
            (if leader then ROLE_TYPE_LEADER else ROLE_TYPE_FOLLOWER))
  end.

(** The state and role of the store (not of the partition) are sent; when the
    partition node does not start, the error path stops a nil node. *)
Definition handlePartitionStateJoining (partitionId : Z) : CM unit :=
  expired ← ctx_expired;
  if (expired : bool) then mret tt
  else
    w ← get;
    let assigned :=
      match GetNode (cst_ClusterState w.(cw_store)) (cst_ID w.(cw_store)) with
      | Bad _ => false
      | Good node =>
          match node_partition node partitionId with
          | None => false
          | Some partition =>
              bool_decide (is_Some (w.(cw_partitions) !! partitionId)) &&
              ((partition.(np_State) =? NodePartitionStateInitializing)%Z ||
               (partition.(np_State) =? NodePartitionStateInitialized)%Z)
          end
      end in
    if (assigned : bool) then mret tt
    else
      log_error (send_partition_change partitionId NODE_PARTITION_STATE_INITIALIZING
        (cst_Role w.(cw_store))) ;;
      match w.(cw_env).(env_Start) partitionId with
      | Bad _ => panic "nil pointer dereference"
      | Good partitionNode =>
          update_node partitionId partitionNode ;;
          handlePartitionStateInitializing partitionId
      end.

Definition handlePartitionStateInitialized (partitionId : Z) : CM unit :=
  w ← get;
  match w.(cw_partitions) !! partitionId with
  | None => handlePartitionStateJoining partitionId
  | Some _ => mret tt
  end.

Definition handlePartitionStateLeaving (partitionId : Z) : CM unit :=
  w ← get;
  match w.(cw_partitions) !! partitionId with
  | None => mret tt
  | Some toLeave =>
      match w.(cw_env).(env_Stop) partitionId with
      | Some _ => mret tt
      | None => modify (λ w, set_partitions (delete partitionId w.(cw_partitions)) w)
      end
  end.

Definition handle_partition (partitionId : Z) (partition : NodePartition) : CM unit :=
  let st := partition.(np_State) in
  if (st =? NodePartitionStateError)%Z then mret tt
  else if (st =? NodePartitionStateJoining)%Z then handlePartitionStateJoining partitionId
  else if (st =? NodePartitionStateInitializing)%Z then handlePartitionStateInitializing partitionId
  else if (st =? NodePartitionStateInitialized)%Z then handlePartitionStateInitialized partitionId
  else if (st =? NodePartitionStateLeaving)%Z then handlePartitionStateLeaving partitionId
  else panic "unexpected store.NodePartitionState: %#v".

Definition performMemberOperations : CM unit :=
  expired ← ctx_expired;
  if (expired : bool) then mret tt
  else
    w ← get;
    match GetNode (cst_ClusterState w.(cw_store)) (cst_ID w.(cw_store)) with
    | Bad _ => mret tt
    | Good currentNode =>
        match w.(cw_env).(env_ClusterLeader) with
        | Some _ => mret tt
        | None =>
            for_each (match currentNode.(n_Partitions) with
                      | Some m => iter_ids NodePartition m | None => [] end)
              (λ kp, handle_partition kp.1 kp.2)
        end
    end.

(** The hooks of other components run after it. *)
Definition ClusterStateChangeNotification (hooks : list (CM unit)) : CM unit :=
  w ← get;
  if negb w.(cw_handleClusterChanges) then mret tt
  else
    (if cst_IsLeader w.(cw_store) then performLeaderOperations else mret tt) ;;
    performMemberOperations ;;
    for_each hooks (λ hook, hook).

(** ** Questions *)

Definition IsPartitionLeader (partition : Z) (w : ControllerWorld S) : bool :=
  match w.(cw_partitions) !! partition with
  | None => false
  | Some _ => w.(cw_env).(env_IsLeader) partition
  end.

Definition IsAnyPartitionLeader (w : ControllerWorld S) : bool :=
  existsb (λ kp, IsPartitionLeader kp.1 w) (iter_ids _ w.(cw_partitions)).

Definition Engines (w : ControllerWorld S) : gmap Z ZenPartitionNode :=
  filter (λ kp, kp.2.(zpn_Engine) = true) w.(cw_partitions).

(** A partition this node follows is preferred. *)
Definition GetReadOnlyDB (w : ControllerWorld S) : result Z :=
  let ps := iter_ids _ w.(cw_partitions) in
  match List.find (λ kp, negb (w.(cw_env).(env_IsLeader) kp.1)) ps with
  | Some kp => Good kp.1
  | None => match ps with
            | kp :: _ => Good kp.1
            | [] => Bad (err! "no partition available to get read only database")
            end
  end.

Definition Stop (w : ControllerWorld S) : option error :=
  fold_left (λ joinErr kp,
    match w.(cw_env).(env_Stop) kp.1 with
    | None => joinErr
    | Some err => join_opt joinErr (errw! "failed to stop partition %d: %w" [err])
    end) (iter_ids _ w.(cw_partitions)) None.
End iteration.
End controller.
