(* ===== verification/ControllerProps.v ===== *)
(** The controller against a store that has applied what it wrote: how a
    partition goes from JOINING to INITIALIZED, that a cluster with one node
    reaches the desired number of partitions, and what the role sent while
    joining does to a partition that is led by another node. *)
From S2P Require Import Prelude Monad Json ClusterState Fsm Snapshot ClusterStore.
From S2P Require Import ClusterProps ClusterQueries Controller.

(** What the controller relies on: a write that returns has been applied to the
    state by the state machine, and the store stays the one of its node. *)
Class AppliedStore (S : Type) `{ControlledStore S} := {
  write_applied c (s : S) :
    cluster_inv (cst_ClusterState s) → NodePartitionChange_ok c →
    ∃ s', cst_WritePartitionChange c s = (Ret tt, s') ∧
      cst_ClusterState s' = partition_changed (cst_ClusterState s) c ∧
      cst_ID s' = cst_ID s ∧ cst_IsLeader s' = cst_IsLeader s;
  command_applied c (s : S) :
    cluster_inv (cst_ClusterState s) → NodePartitionChange_ok c →
    ∃ s', cst_NodeCommand (partition_change_command c) s = (Ret tt, s') ∧
      cst_ClusterState s' = partition_changed (cst_ClusterState s) c ∧
      cst_ID s' = cst_ID s ∧ cst_IsLeader s' = cst_IsLeader s
}.

(** ** A store that applies at once

    The store of the leader as its own client sees it (it is also the one of
    the unit tests, ControllerTestStore), with the server's NodeCommand. *)
Record LocalStore := {
  ls_id : string;
  ls_leader : bool;
  ls_leaderId : string;
  ls_state : Cluster
}.

#[export] Instance LocalStore_FsmStore : FsmStore LocalStore :=
  {| fs_LeaderID s := (s.(ls_leaderId), None); fs_ClusterState := ls_state |}.

Definition set_ls_state (c : Cluster) (s : LocalStore) : LocalStore :=
  {| ls_id := s.(ls_id); ls_leader := s.(ls_leader); ls_leaderId := s.(ls_leaderId); ls_state := c |}.

Definition local_WriteNodeChange (c : NodeChange) : ST LocalStore unit := λ s,
  (Ret tt, set_ls_state (FsmApplyNodeChange s c) s).
Definition local_WritePartitionChange (c : NodePartitionChange) : ST LocalStore unit := λ s,
  (cs ← FsmApplyPartitionChange s c; modify (set_ls_state cs)) s.

(** Server.NodeCommand (internal/cluster/server/server.go). *)
Definition NodeCommand (req : Command) : ST LocalStore unit :=
  if (req.(cmd_Type) =? TYPE_NODE_CHANGE)%Z then
    wrap (λ e, errw! "failed to write node change to store: %w" [e])
      (local_WriteNodeChange (GetNodeChange req))
  else if (req.(cmd_Type) =? TYPE_NODE_PARTITION_CHANGE)%Z then
    wrap (λ e, errw! "failed to write node change to store: %w" [e])
      (local_WritePartitionChange (GetNodePartitionChange req))
  else panic "unexpected protoc.Command_Type".

#[export] Instance LocalStore_ControlledStore : ControlledStore LocalStore := {|
  cst_ID := ls_id;
  cst_IsLeader := ls_leader;
  cst_ClusterState := ls_state;
  cst_WritePartitionChange := local_WritePartitionChange;
  cst_NodeCommand := NodeCommand
|}.

#[export] Instance LocalStore_AppliedStore : AppliedStore LocalStore.
Proof.
  assert (Hw : ∀ c s, cluster_inv s.(ls_state) → NodePartitionChange_ok c →
    local_WritePartitionChange c s =
      (Ret tt, set_ls_state (partition_changed s.(ls_state) c) s)).
  { intros c s Hs Hc. unfold local_WritePartitionChange.
    by erewrite bind_step by by apply (FsmApplyPartitionChange_run s). }
  split; intros c s Hs Hc; exists (set_ls_state (partition_changed s.(ls_state) c) s); (split; [|done]).
  - by apply Hw.
  - by apply (wrap_run _ (local_WritePartitionChange c)), Hw.
Qed.

Section controller_props.
Context {S : Type} `{AppliedStore S}.
Context (iter_nodes : ∀ (A : Type), gmap string A → list (string * A)).
Context (iter_ids : ∀ (A : Type), gmap Z A → list (Z * A)).
Context (iter_nodes_perm : ∀ A (m : gmap string A), iter_nodes A m ≡ₚ map_to_list m).
Context (iter_ids_perm : ∀ A (m : gmap Z A), iter_ids A m ≡ₚ map_to_list m).

Abbreviation state_of w := (cst_ClusterState w.(cw_store)).
Abbreviation id_of w := (cst_ID w.(cw_store)).

(** The partition node starts, a leader is elected, the engine is created and
    no context expires. *)
Record good_env (env : PartitionEnv) : Prop := {
  never_expired n : env.(env_expired) n = false;
  starts p : ∃ n, env.(env_Start) p = Good n;
  no_timeout p : env.(env_WaitForLeader_timeout) p = false;
  creates_engine p : env.(env_createEngine) p = None;
  has_leader : env.(env_ClusterLeader) = None
}.

(** What a step of the controller leaves alone. *)
Definition same_node (w w' : ControllerWorld S) : Prop :=
  w'.(cw_env) = w.(cw_env) ∧ id_of w' = id_of w ∧
  cst_IsLeader w'.(cw_store) = cst_IsLeader w.(cw_store) ∧
  w'.(cw_handleClusterChanges) = w.(cw_handleClusterChanges) ∧
  w'.(cw_retries) = w.(cw_retries).

#[local] Instance same_node_preorder : PreOrder same_node.
Proof.
  split; [by intros w|]. intros w1 w2 w3 (A1 & A2 & A3 & A4 & A5) (B1 & B2 & B3 & B4 & B5).
  split_and!; congruence.
Qed.

Definition change_of (w : ControllerWorld S) (p state role : Z) : NodePartitionChange :=
  {| npc_NodeId := id_of w; npc_PartitionId := p; npc_State := state; npc_Role := role |}.

Lemma ctx_not_expired w : good_env w.(cw_env) →
  ∃ w', ctx_expired w = (Ret false, w') ∧ same_node w w' ∧ cw_store w' = cw_store w ∧
    cw_partitions w' = cw_partitions w.
Proof. intros He. unfold ctx_expired. rewrite (never_expired _ He). eexists. split; [done|]. done. Qed.

Lemma send_run w p state role :
  cluster_inv (state_of w) → NodePartitionChange_ok (change_of w p state role) →
  ∃ w', log_error (send_partition_change p state role) w = (Ret tt, w') ∧ same_node w w' ∧
    state_of w' = partition_changed (state_of w) (change_of w p state role) ∧
    w'.(cw_partitions) = w.(cw_partitions).
Proof.
  intros Hi Hc. destruct (command_applied _ _ Hi Hc) as (s' & E & Es & Eid & El).
  exists (set_store s' w). split; [|done].
  unfold log_error, send_partition_change, attempt, get, on_store, zoom, mbind, ST_bind. simpl.
  unfold change_of in E. by rewrite E.
Qed.

(** INITIALIZING with a running partition node ends in INITIALIZED, with the
    role the partition node has; a leader then has an engine. *)
Lemma initializing_run w p n :
  cluster_inv (state_of w) → good_env w.(cw_env) → json_ok (id_of w) → uint32_ok p →
  w.(cw_partitions) !! p = Some n →
  let leader := w.(cw_env).(env_IsLeader) p in
  ∃ w' n', handlePartitionStateInitializing p w = (Ret tt, w') ∧ same_node w w' ∧
    state_of w' = partition_changed (state_of w) (change_of w p NODE_PARTITION_STATE_INITIALIZED
      (if leader then ROLE_TYPE_LEADER else ROLE_TYPE_FOLLOWER)) ∧
    w'.(cw_partitions) = <[p := n']> w.(cw_partitions) ∧
    (leader = true → n'.(zpn_Engine) = true).
Proof.
  intros Hi He Hid Hp Hn leader. unfold handlePartitionStateInitializing.
  unfold get at 1, mbind at 1, ST_bind at 1. rewrite Hn, (no_timeout _ He).
  destruct (ctx_not_expired w He) as (w1 & E1 & S1 & Es1 & Ep1).
  erewrite bind_step by exact E1. fold leader.
  unfold update_node at 1, modify, mbind at 1, ST_bind at 1. cbv beta iota zeta.
  set (w2 := set_partitions _ _).
  assert (Hok : NodePartitionChange_ok (change_of w p NODE_PARTITION_STATE_INITIALIZED
    (if leader then ROLE_TYPE_LEADER else ROLE_TYPE_FOLLOWER))).
  { split_and!; [done|done|unfold int32_ok, change_of, NODE_PARTITION_STATE_INITIALIZED; simpl; lia|].
    unfold int32_ok, change_of, ROLE_TYPE_LEADER, ROLE_TYPE_FOLLOWER; destruct leader; simpl; lia. }
  assert (E3 : ∃ w3 n', (if negb (zpn_Engine (ready_node leader n)) && leader
      then start_engine p (ready_node leader n) else mret tt) w2 = (Ret tt, w3) ∧
    same_node w w3 ∧ cw_store w3 = cw_store w ∧ cw_partitions w3 = <[p := n']> w.(cw_partitions) ∧
    (leader = true → n'.(zpn_Engine) = true)).
  { assert (S2 : same_node w w2) by (etrans; [exact S1|done]).
    destruct (negb (zpn_Engine (ready_node leader n)) && leader) eqn:Eb.
    - unfold start_engine, get, update_node, modify, mbind, ST_bind. subst w2. simpl.
      destruct S1 as (Ev & _). rewrite Ev, (creates_engine _ He). do 2 eexists.
      split; [done|]. split; [etrans; [exact S2|done]|]. split; [done|].
      split; [simpl; rewrite Ep1; by rewrite insert_insert_eq|done].
    - do 2 eexists. split; [done|]. split; [exact S2|]. split; [done|].
      split; [subst w2; simpl; by rewrite Ep1|]. intros ->. rewrite andb_true_r in Eb. by propify. }
  destruct E3 as (w3 & n' & E3 & S3 & Es3 & Ep3 & Hn').
  erewrite bind_step by exact E3.
  destruct (send_run w3 p NODE_PARTITION_STATE_INITIALIZED
    (if leader then ROLE_TYPE_LEADER else ROLE_TYPE_FOLLOWER)) as (w4 & E4 & S4 & Es4 & Ep4).
  { by rewrite Es3. }
  { unfold change_of in Hok |- *. by rewrite Es3. }
  exists w4, n'. split; [exact E4|]. split; [by etrans|].
  rewrite Es4, Ep4, Ep3. unfold change_of. by rewrite Es3.
Qed.

Definition role_of (leader : bool) : Z := if leader then ROLE_TYPE_LEADER else ROLE_TYPE_FOLLOWER.

Lemma change_of_ok w p state role :
  json_ok (id_of w) → uint32_ok p → int32_ok state → int32_ok role →
  NodePartitionChange_ok (change_of w p state role).
Proof. by intros. Qed.

Lemma role_of_ok b : int32_ok (role_of b).
Proof. unfold int32_ok, role_of, ROLE_TYPE_LEADER, ROLE_TYPE_FOLLOWER. destruct b; lia. Qed.

Lemma initializing_ok : int32_ok NODE_PARTITION_STATE_INITIALIZING ∧ int32_ok NODE_PARTITION_STATE_INITIALIZED.
Proof. unfold int32_ok, NODE_PARTITION_STATE_INITIALIZING, NODE_PARTITION_STATE_INITIALIZED. lia. Qed.

(** The two changes a joining node sends. *)
Definition joined (w : ControllerWorld S) (p : Z) : Cluster :=
  partition_changed
    (partition_changed (state_of w)
       (change_of w p NODE_PARTITION_STATE_INITIALIZING (role_of (cst_IsLeader w.(cw_store)))))
    (change_of w p NODE_PARTITION_STATE_INITIALIZED (role_of (w.(cw_env).(env_IsLeader) p))).

(** JOINING without a running partition node: it is started and goes through
    INITIALIZING to INITIALIZED. *)
Lemma joining_run w p :
  cluster_inv (state_of w) → good_env w.(cw_env) → json_ok (id_of w) → uint32_ok p →
  w.(cw_partitions) !! p = None →
  ∃ w' n', handlePartitionStateJoining p w = (Ret tt, w') ∧ same_node w w' ∧
    state_of w' = joined w p ∧ w'.(cw_partitions) = <[p := n']> w.(cw_partitions) ∧
    (w.(cw_env).(env_IsLeader) p = true → n'.(zpn_Engine) = true).
Proof.
  intros Hi He Hid Hp Hn. unfold handlePartitionStateJoining.
  destruct (ctx_not_expired w He) as (w1 & E1 & S1 & Es1 & Ep1).
  erewrite bind_step by exact E1.
    cbv beta iota. erewrite (bind_step get) by reflexivity.
  rewrite Ep1, Hn, bool_decide_eq_false_2 by by intros [].
  assert (Hno : match GetNode (cst_ClusterState (cw_store w1)) (cst_ID (cw_store w1)) with
      | Good node => match node_partition node p with Some _ => false | None => false end
      | Bad _ => false end = false) by by repeat case_match.
  cbn [andb]. rewrite Hno. cbv beta iota.
  assert (Hok1 : NodePartitionChange_ok (change_of w1 p NODE_PARTITION_STATE_INITIALIZING
    (cst_Role (cw_store w1)))).
  { apply change_of_ok; [by rewrite Es1|done|apply initializing_ok|].
    apply (role_of_ok (cst_IsLeader (cw_store w1))). }
  destruct (send_run w1 p NODE_PARTITION_STATE_INITIALIZING (cst_Role (cw_store w1)))
    as (w2 & E2 & S2 & Es2 & Ep2); [by rewrite Es1|done|].
  erewrite bind_step by exact E2.
  destruct (starts _ He p) as [n En]. destruct S1 as (Ev & S1). rewrite Ev, En.
  erewrite bind_step by reflexivity.
  set (w3 := set_partitions _ w2).
  assert (S3 : same_node w w3) by (etrans; [split; [exact Ev|exact S1]|]; etrans; [exact S2|done]).
  destruct S3 as (Ev3 & Ei3 & S3').
  destruct (initializing_run w3 p n) as (w4 & n' & E4 & S4 & Es4 & Ep4 & Hn').
  { change (cluster_inv (state_of w2)). rewrite Es2. apply partition_changed_inv; [by rewrite Es1|done]. }
  { by rewrite Ev3. } { by rewrite Ei3. } { done. }
  { subst w3. simpl. by rewrite lookup_insert_eq. }
  exists w4, n'. split; [exact E4|]. split; [etrans; [|exact S4]; split; [exact Ev3|done]|].
  rewrite Es4, Ep4. change (state_of w3) with (state_of w2). rewrite Es2, Ev3.
  split; [|split; [subst w3; simpl; by rewrite insert_insert_eq, Ep2, Ep1|]].
  - unfold joined, change_of. rewrite Ei3, Es1. reflexivity.
  - by rewrite Ev3 in Hn'.
Qed.

(** What the two changes leave: the node has the partition as INITIALIZED with
    its role; a leader of the partition is recorded when one of the two roles
    is the one of a leader. *)
Lemma partition_changed_self cs c :
  (c.(npc_State) =? NODE_PARTITION_STATE_LEAVING)%Z = false →
  (∃ n, (partition_changed cs c).(c_Nodes) !! c.(npc_NodeId) = Some n ∧
     node_partition n c.(npc_PartitionId) = Some (partition_update c)) ∧
  (partition_changed cs c).(c_Partitions) !! c.(npc_PartitionId) =
    if (c.(npc_Role) =? ROLE_TYPE_LEADER)%Z
    then Some {| p_Id := c.(npc_PartitionId); p_LeaderId := c.(npc_NodeId) |}
    else cs.(c_Partitions) !! c.(npc_PartitionId).
Proof.
  intros Hs. unfold partition_changed. rewrite Hs. cbn [c_Nodes c_Partitions negb andb]. split.
  - eexists. rewrite lookup_insert_eq. split; [done|]. unfold node_partition. simpl.
    by rewrite lookup_insert_eq.
  - case_match; [by rewrite lookup_insert_eq|done].
Qed.

Lemma joined_spec w p :
  (∃ n, (joined w p).(c_Nodes) !! id_of w = Some n ∧
     node_partition n p = Some {| np_Id := p; np_State := NodePartitionStateInitialized;
                                  np_Role := role_of (w.(cw_env).(env_IsLeader) p) |}) ∧
  (joined w p).(c_Partitions) !! p =
    if w.(cw_env).(env_IsLeader) p || cst_IsLeader w.(cw_store)
    then Some {| p_Id := p; p_LeaderId := id_of w |}
    else (state_of w).(c_Partitions) !! p.
Proof.
  unfold joined. split.
  - apply (partition_changed_self _ (change_of w p _ _)). done.
  - rewrite (proj2 (partition_changed_self _ (change_of w p NODE_PARTITION_STATE_INITIALIZED _) eq_refl)).
    rewrite (proj2 (partition_changed_self _ (change_of w p NODE_PARTITION_STATE_INITIALIZING _) eq_refl)).
    by destruct (env_IsLeader _ p), (cst_IsLeader _).
Qed.

(** A partition a node has to join ends INITIALIZED on that node in one
    pass of its controller, when the partition node starts and elects a leader;
    if this node leads it, it is recorded as the leader of the partition and its
    engine runs. *)
Theorem joining_partition_is_initialized w p np :
  cluster_inv (state_of w) → good_env w.(cw_env) → json_ok (id_of w) → uint32_ok p →
  w.(cw_partitions) !! p = None → np.(np_State) = NodePartitionStateJoining →
  let leader := w.(cw_env).(env_IsLeader) p in
  ∃ w', handle_partition p np w = (Ret tt, w') ∧ cluster_inv (state_of w') ∧
    (∃ node, (state_of w').(c_Nodes) !! id_of w = Some node ∧
       node_partition node p = Some {| np_Id := p; np_State := NodePartitionStateInitialized;
                                       np_Role := role_of leader |}) ∧
    (leader = true →
       (state_of w').(c_Partitions) !! p = Some {| p_Id := p; p_LeaderId := id_of w |} ∧
       ∃ n, w'.(cw_partitions) !! p = Some n ∧ n.(zpn_Engine) = true).
Proof.
  intros Hi He Hid Hp Hn Hs leader. unfold handle_partition. rewrite Hs. simpl.
  destruct (joining_run w p Hi He Hid Hp Hn) as (w' & n' & E & _ & Es & Ep & Hn').
  destruct (joined_spec w p) as [Hnode Hpart].
  exists w'. split; [exact E|]. rewrite Es. split; [|split; [exact Hnode|]].
  - apply partition_changed_inv; [apply partition_changed_inv; [done|]|];
      apply change_of_ok; try done; try apply initializing_ok; apply role_of_ok.
  - intros Hl. subst leader. rewrite Hpart, Hl. split; [done|].
    exists n'. split; [by rewrite Ep, lookup_insert_eq|by apply Hn'].
Qed.

(** While joining, the node reports its role in the cluster as its role in
    the partition: when the leader of the cluster joins a partition that another
    node leads, the state names it as the leader of that partition, and still
    does after it was initialized as a follower. *)
Theorem cluster_leader_takes_over_partition w p np other :
  cluster_inv (state_of w) → good_env w.(cw_env) → json_ok (id_of w) → uint32_ok p →
  w.(cw_partitions) !! p = None → np.(np_State) = NodePartitionStateJoining →
  cst_IsLeader w.(cw_store) = true → w.(cw_env).(env_IsLeader) p = false →
  (state_of w).(c_Partitions) !! p = Some {| p_Id := p; p_LeaderId := other |} →
  ∃ w', handle_partition p np w = (Ret tt, w') ∧
    (state_of w').(c_Partitions) !! p = Some {| p_Id := p; p_LeaderId := id_of w |} ∧
    ∃ node, (state_of w').(c_Nodes) !! id_of w = Some node ∧
      node_partition node p = Some {| np_Id := p; np_State := NodePartitionStateInitialized;
                                      np_Role := RoleFollower |}.
Proof.
  intros Hi He Hid Hp Hn Hs Hl Hpl _. unfold handle_partition. rewrite Hs. simpl.
  destruct (joining_run w p Hi He Hid Hp Hn) as (w' & n' & E & _ & Es & _).
  destruct (joined_spec w p) as [Hnode Hpart]. rewrite Hpl in Hnode, Hpart. rewrite Hl in Hpart.
  exists w'. split; [exact E|]. rewrite Es. by split.
Qed.

(** ** A cluster with one node reaches the desired number of partitions *)

(** The cluster has partitions 1 to [n], all of them led by the only node,
    which leads the cluster and has them as their leader, initialized and
    running with an engine. *)
Record steady (n : Z) (w : ControllerWorld S) : Prop := {
  st_inv : cluster_inv (state_of w);
  st_env : good_env w.(cw_env);
  st_leads p : w.(cw_env).(env_IsLeader) p = true;
  st_leader : cst_IsLeader w.(cw_store) = true;
  st_handles : w.(cw_handleClusterChanges) = true;
  st_id : json_ok (id_of w) ∧ id_of w ≠ ""%string;
  st_node : ∃ node m, (state_of w).(c_Nodes) = {[id_of w := node]} ∧ node.(n_Partitions) = Some m ∧
    (∀ p, is_Some (m !! p) ↔ (1 ≤ p ≤ n)%Z) ∧
    ∀ p np, m !! p = Some np → np =
      {| np_Id := p; np_State := NodePartitionStateInitialized; np_Role := RoleLeader |};
  st_size : Z.of_nat (size (state_of w).(c_Partitions)) = n;
  st_partitions p : is_Some ((state_of w).(c_Partitions) !! p) ↔ (1 ≤ p ≤ n)%Z;
  st_led p x : (state_of w).(c_Partitions) !! p = Some x →
    x = {| p_Id := p; p_LeaderId := id_of w |};
  st_running p : is_Some (w.(cw_partitions) !! p) ↔ (1 ≤ p ≤ n)%Z;
  st_engines p x : w.(cw_partitions) !! p = Some x → x.(zpn_Engine) = true
}.

Lemma nodes_of_singleton cs id node :
  cs.(c_Nodes) = {[id := node]} → nodes_of iter_nodes cs = [node].
Proof.
  intros E. unfold nodes_of. rewrite E.
  pose proof (iter_nodes_perm _ ({[id := node]} : gmap string Node)) as Hp.
  rewrite map_to_list_singleton in Hp. apply Permutation_sym, Permutation_length_1_inv in Hp.
  by rewrite Hp.
Qed.

Lemma partition_changed_singleton cs c node m :
  cs.(c_Nodes) = {[c.(npc_NodeId) := node]} → node.(n_Partitions) = Some m →
  (c.(npc_State) =? NODE_PARTITION_STATE_LEAVING)%Z = false →
  (partition_changed cs c).(c_Nodes) =
    {[c.(npc_NodeId) := set_n_Partitions (Some (<[c.(npc_PartitionId) := partition_update c]> m)) node]}.
Proof.
  intros E Em Hs. unfold partition_changed. rewrite Hs, E. cbn [c_Nodes].
  rewrite lookup_singleton_eq. simpl. rewrite Em. simpl. by rewrite insert_singleton_eq.
Qed.

(** Partitions that are initialized and running are left alone. *)
Lemma settled_loop l w :
  (∀ q np, (q, np) ∈ l → np.(np_State) = NodePartitionStateInitialized ∧ is_Some (w.(cw_partitions) !! q)) →
  for_each l (λ kp, handle_partition kp.1 kp.2) w = (Ret tt, w).
Proof.
  induction l as [|[q np] l IH]; intros Hl; [done|].
  destruct (Hl q np) as [Es [x Hx]]; [left|]. simpl for_each.
  erewrite bind_step.
  - apply IH. intros q' np' Hin. apply Hl. by right.
  - unfold handle_partition. simpl. rewrite Es. simpl. unfold handlePartitionStateInitialized.
    unfold get, mbind, ST_bind. by rewrite Hx.
Qed.

Lemma for_each_app {X A} (l1 l2 : list A) (f : A → ST X unit) w w1 :
  for_each l1 f w = (Ret tt, w1) → for_each (l1 ++ l2) f w = for_each l2 f w1.
Proof.
  revert w. induction l1 as [|x l1 IH]; intros w E; [by injection E as ->|].
  simpl in E |- *. apply bind_Ret in E as (a & w2 & E1 & E2).
  erewrite bind_step by exact E1. by apply IH.
Qed.

Lemma assign_run w p id :
  cluster_inv (state_of w) → good_env w.(cw_env) → json_ok id → uint32_ok p →
  ∃ w', assignPartition p id w = (Ret tt, w') ∧ same_node w w' ∧
    state_of w' = partition_changed (state_of w)
      {| npc_NodeId := id; npc_PartitionId := p; npc_State := NODE_PARTITION_STATE_JOINING;
         npc_Role := ROLE_TYPE_UNKNOWN |} ∧
    w'.(cw_partitions) = w.(cw_partitions).
Proof.
  intros Hi He Hid Hp. unfold assignPartition.
  destruct (ctx_not_expired w He) as (w1 & E1 & S1 & Es1 & Ep1).
  erewrite bind_step by exact E1. cbv beta iota.
  set (c := {| npc_NodeId := id |}).
  assert (Hc : NodePartitionChange_ok c).
  { split_and!; [done|done|..]; unfold int32_ok; simpl;
      unfold NODE_PARTITION_STATE_JOINING, ROLE_TYPE_UNKNOWN; lia. }
  destruct (write_applied c w1.(cw_store)) as (s' & E & Es & Eid & El); [by rewrite Es1|done|].
  exists (set_store s' w1). split; [|split; [|split; [by rewrite <- Es1|done]]].
  - unfold log_error, attempt, on_store, zoom, mbind, ST_bind. by rewrite E.
  - etrans; [exact S1|]. by split_and!.
Qed.

Lemma steady_least n w : steady n w →
  ∃ node, (state_of w).(c_Nodes) = {[id_of w := node]} ∧ node.(n_Id) = id_of w ∧
    GetLeastStressedNode iter_nodes (state_of w) = Good node.
Proof.
  intros Hw. destruct (st_node _ _ Hw) as (node & m & En & Em & _).
  destruct (inv_nodes _ (st_inv _ _ Hw) (id_of w) node) as [Eid _];
    [rewrite En; apply lookup_singleton_eq|].
  exists node. split; [done|]. split; [done|].
  unfold GetLeastStressedNode. rewrite (nodes_of_singleton _ _ _ En). simpl.
  change (stress_step zero_node node) with node. rewrite Eid.
  by rewrite (proj2 (String.eqb_neq _ _) (proj2 (st_id _ _ Hw))).
Qed.

Lemma steady_count n w node : steady n w → (state_of w).(c_Nodes) = {[id_of w := node]} →
  (1 ≤ n)%Z → (partition_count node =? 0)%Z = false.
Proof.
  intros Hw En Hn. destruct (st_node _ _ Hw) as (node' & m & En' & Em & Hm & _).
  rewrite En in En'. apply map_singleton_inj in En' as [_ ->].
  unfold partition_count. rewrite Em. apply Z.eqb_neq. intros E.
  destruct (proj2 (Hm 1%Z)) as [x Hx]; [lia|].
  assert (size m = 0%nat) as ->%map_size_empty_inv by lia. by rewrite lookup_empty in Hx.
Qed.

Lemma leader_idle n w :
  steady n w → (1 ≤ n)%Z → ((state_of w).(DesiredPartitions) ≤ n)%Z →
  ∃ w1, performLeaderOperations iter_nodes w = (Ret tt, w1) ∧ same_node w w1 ∧
    w1.(cw_store) = w.(cw_store) ∧ w1.(cw_partitions) = w.(cw_partitions).
Proof.
  intros Hw Hn Hd. destruct (st_node _ _ Hw) as (node & m & En & _).
  destruct (ctx_not_expired w (st_env _ _ Hw)) as (w1 & E1 & S1 & Es1 & Ep1).
  exists w1. split; [|done]. unfold performLeaderOperations.
  erewrite bind_step by exact E1. cbv beta iota.
  erewrite (bind_step store_state) by reflexivity. cbv beta zeta.
  rewrite Es1, (st_size _ _ Hw). destruct (Z.ltb_spec n (DesiredPartitions (state_of w))); [lia|].
  erewrite bind_step by reflexivity. erewrite (bind_step store_state) by reflexivity.
  rewrite Es1, (nodes_of_singleton _ _ _ En). cbn [for_each].
  by rewrite (steady_count _ _ _ Hw En Hn).
Qed.

Lemma leader_assigns n w :
  steady n w → (0 ≤ n)%Z → (n < (state_of w).(DesiredPartitions))%Z →
  ∃ w1, performLeaderOperations iter_nodes w = (Ret tt, w1) ∧ same_node w w1 ∧
    w1.(cw_partitions) = w.(cw_partitions) ∧
    state_of w1 = partition_changed (state_of w)
      (change_of w (n + 1) NODE_PARTITION_STATE_JOINING ROLE_TYPE_UNKNOWN).
Proof.
  intros Hw Hn Hd. destruct (st_node _ _ Hw) as (node & m & En & Em & Hm & _).
  destruct (steady_least _ _ Hw) as (node' & En' & Eid & Eleast).
  rewrite En in En'. apply map_singleton_inj in En' as [_ <-].
  pose proof (proj1 (inv_ok _ (st_inv _ _ Hw))) as Hdu. unfold uint32_ok in Hdu.
  destruct (ctx_not_expired w (st_env _ _ Hw)) as (w1 & E1 & S1 & Es1 & Ep1).
  pose proof (proj1 S1) as Ev1.
  destruct (ctx_not_expired w1) as (w2 & E2 & S2 & Es2 & Ep2); [rewrite Ev1; apply (st_env _ _ Hw)|].
  pose proof (proj1 S2) as Ev2.
  destruct (assign_run w2 (n + 1) (id_of w)) as (w3 & E3 & S3 & Es3 & Ep3).
  { rewrite Es2, Es1. apply (st_inv _ _ Hw). }
  { rewrite Ev2, Ev1. apply (st_env _ _ Hw). }
  { apply (st_id _ _ Hw). }
  { unfold uint32_ok. lia. }
  exists w3. rewrite Es2, Es1 in Es3.
  split; [|split; [by do 2 (etrans; [eassumption|])|split; [congruence|done]]].
  unfold performLeaderOperations.
  erewrite bind_step by exact E1. cbv beta iota.
  erewrite (bind_step store_state) by reflexivity. cbv beta zeta.
  rewrite Es1, (st_size _ _ Hw). destruct (Z.ltb_spec n (DesiredPartitions (state_of w))); [|lia].
  assert (Ea : assignNewPartition iter_nodes (n + 1) w1 = (Ret tt, w3)).
  { unfold assignNewPartition. erewrite (bind_step store_state) by reflexivity.
    rewrite Es1, Eleast. unfold AnyNodeHasPartition. rewrite (nodes_of_singleton _ _ _ En).
    cbn [existsb]. unfold node_partition. rewrite Em. cbn [mbind option_bind].
    rewrite bool_decide_eq_false_2; cbn [orb].
    - erewrite bind_step by exact E2. cbv beta iota. rewrite Eid. unfold wrapu32.
      rewrite Z.mod_small by lia. exact E3.
    - rewrite Z.mod_small by lia. intros Hp. apply Hm in Hp. lia. }
  erewrite bind_step by exact Ea. erewrite (bind_step store_state) by reflexivity.
  pose proof (partition_changed_singleton (state_of w)
    (change_of w (n + 1) NODE_PARTITION_STATE_JOINING ROLE_TYPE_UNKNOWN) node m En Em eq_refl) as En3.
  unfold change_of in En3 at 1. rewrite Es3, (nodes_of_singleton _ _ _ En3). cbn [for_each].
  unfold partition_count. simpl. rewrite map_size_insert.
  by destruct (m !! (n + 1)%Z) as [x|] eqn:Ex; [apply mk_is_Some, Hm in Ex; lia|].
Qed.

Abbreviation notification := (ClusterStateChangeNotification iter_nodes iter_ids []).

(** A map whose entries other than one are settled: the loop handles that one. *)
Lemma member_loop (m : gmap Z NodePartition) q np w w' :
  m !! q = Some np →
  (∀ p x, m !! p = Some x → p ≠ q → x.(np_State) = NodePartitionStateInitialized ∧
     is_Some (w.(cw_partitions) !! p)) →
  handle_partition q np w = (Ret tt, w') →
  (∀ p, is_Some (w.(cw_partitions) !! p) → is_Some (w'.(cw_partitions) !! p)) →
  for_each (iter_ids _ m) (λ kp, handle_partition kp.1 kp.2) w = (Ret tt, w').
Proof.
  intros Hq Hm Eh Hp.
  assert (Hin : (q, np) ∈ iter_ids _ m) by (rewrite iter_ids_perm; by apply elem_of_map_to_list).
  assert (Hnd : NoDup (iter_ids _ m).*1)
    by (rewrite iter_ids_perm; apply NoDup_fst_map_to_list).
  apply list_elem_of_split in Hin as (l1 & l2 & E). rewrite E in Hnd |- *.
  rewrite fmap_app, fmap_cons in Hnd. apply NoDup_app in Hnd as (_ & Hd1 & Hnd).
  apply NoDup_cons in Hnd as [Hd2 _].
  assert (Hother : ∀ p x, (p, x) ∈ l1 ∨ (p, x) ∈ l2 → m !! p = Some x ∧ p ≠ q).
  { intros p x Hpx. split.
    - apply elem_of_map_to_list. rewrite <- iter_ids_perm, E. apply elem_of_app.
      destruct Hpx; [by left|right; by right].
    - intros ->. destruct Hpx as [Hpx|Hpx]; apply (list_elem_of_fmap_2 fst) in Hpx; simpl in Hpx.
      + apply (Hd1 q Hpx). left.
      + done. }
  rewrite (for_each_app _ _ _ w w).
  - simpl for_each. erewrite bind_step by exact Eh. apply settled_loop. intros p x Hpx.
    destruct (Hother p x) as [Ex Hne]; [by right|]. destruct (Hm _ _ Ex Hne). auto.
  - apply settled_loop. intros p x Hpx. destruct (Hother p x) as [Ex Hne]; [by left|]. by apply Hm.
Qed.

(** Nothing happened: the store is the same one, so nothing was written to it,
    and so are the partition nodes of the process and the retries; only
    contexts were looked at. *)
Definition nothing_happened (w w' : ControllerWorld S) : Prop :=
  w'.(cw_store) = w.(cw_store) ∧ w'.(cw_partitions) = w.(cw_partitions) ∧
  w'.(cw_retries) = w.(cw_retries) ∧ w'.(cw_handleClusterChanges) = w.(cw_handleClusterChanges) ∧
  w'.(cw_env) = w.(cw_env).

#[local] Instance nothing_happened_preorder : PreOrder nothing_happened.
Proof.
  split; [by intros w|]. intros w1 w2 w3 (A1 & A2 & A3 & A4 & A5) (B1 & B2 & B3 & B4 & B5).
  split_and!; congruence.
Qed.

(** A notification in a steady cluster: nothing happens when there are enough
    partitions, otherwise the next one is created. *)
Lemma notification_idle n w :
  steady n w → (1 ≤ n)%Z → ((state_of w).(DesiredPartitions) ≤ n)%Z →
  ∃ w', notification w = (Ret tt, w') ∧ steady n w' ∧ nothing_happened w w'.
Proof.
  intros Hw Hn Hd. destruct (leader_idle n w Hw Hn Hd) as (w1 & E1 & S1 & Es1 & Ep1).
  pose proof S1 as (Ev1 & _ & _ & Eh1 & Er1).
  assert (He1 : good_env w1.(cw_env)) by (rewrite Ev1; apply (st_env _ _ Hw)).
  destruct (ctx_not_expired w1 He1) as (w2 & E2 & S2 & Es2 & Ep2).
  pose proof S2 as (Ev2 & _ & _ & Eh2 & Er2).
  assert (Hw2 : steady n w2).
  { destruct Hw. split; rewrite ?Ev2, ?Ev1, ?Es2, ?Es1, ?Ep2, ?Ep1, ?Eh2, ?Eh1; done. }
  exists w2. split; [|split; [done|split_and!; congruence]].
  unfold ClusterStateChangeNotification. erewrite (bind_step get) by reflexivity.
  rewrite (st_handles _ _ Hw), (st_leader _ _ Hw). cbv beta iota. cbn [negb].
  erewrite bind_step by exact E1.
  assert (Em : performMemberOperations iter_ids w1 = (Ret tt, w2)).
  { unfold performMemberOperations. erewrite bind_step by exact E2. cbv beta iota.
    erewrite (bind_step get) by reflexivity.
    destruct (st_node _ _ Hw2) as (node & m & En & Em & Hm & Hst).
    unfold GetNode. rewrite En, lookup_singleton_eq, (has_leader _ (st_env _ _ Hw2)), Em.
    apply settled_loop. intros q np Hin. rewrite iter_ids_perm in Hin.
    apply elem_of_map_to_list in Hin. split; [by rewrite (Hst _ _ Hin)|].
    apply (st_running _ _ Hw2). apply Hm. eauto. }
  by erewrite bind_step by exact Em.
Qed.

Lemma notification_creates n w :
  steady n w → (0 ≤ n)%Z → (n < (state_of w).(DesiredPartitions))%Z →
  ∃ w', notification w = (Ret tt, w') ∧ steady (n + 1) w' ∧
    (state_of w').(DesiredPartitions) = (state_of w).(DesiredPartitions).
Proof.
  intros Hw Hn Hd. pose proof (proj1 (inv_ok _ (st_inv _ _ Hw))) as Hdu. unfold uint32_ok in Hdu.
  destruct (st_node _ _ Hw) as (node & m & En & Em & Hm & Hst).
  destruct (leader_assigns n w Hw Hn Hd) as (w1 & E1 & S1 & Ep1 & Es1).
  pose proof S1 as (Ev1 & Ei1 & El1 & Eh1 & _).
  set (joining := change_of w (n + 1) NODE_PARTITION_STATE_JOINING ROLE_TYPE_UNKNOWN) in Es1.
  assert (Hok : NodePartitionChange_ok joining).
  { apply change_of_ok; [apply (st_id _ _ Hw)|unfold uint32_ok; lia| |];
      unfold int32_ok, NODE_PARTITION_STATE_JOINING, ROLE_TYPE_UNKNOWN; lia. }
  assert (Hi1 : cluster_inv (state_of w1))
    by (rewrite Es1; apply partition_changed_inv; [apply (st_inv _ _ Hw)|done]).
  pose proof (partition_changed_singleton _ joining node m En Em eq_refl) as En1.
  rewrite <- Es1 in En1. change (npc_NodeId joining) with (id_of w) in En1.
  assert (He1 : good_env w1.(cw_env)) by (rewrite Ev1; apply (st_env _ _ Hw)).
  destruct (ctx_not_expired w1 He1) as (w2 & E2 & S2 & Es2 & Ep2).
  pose proof S2 as (Ev2 & _ & _ & Eh2 & _).
  assert (Hfresh : w2.(cw_partitions) !! (n + 1)%Z = None).
  { rewrite Ep2, Ep1. destruct (_ !! (n + 1)%Z) as [x|] eqn:Ex; [|done].
    apply mk_is_Some, (st_running _ _ Hw) in Ex. lia. }
  destruct (joining_run w2 (n + 1)) as (w3 & n' & E3 & S3 & Es3 & Ep3 & Heng); try done.
  { by rewrite Es2. } { by rewrite Ev2. } { rewrite Es2, Ei1. apply (st_id _ _ Hw). }
  { unfold uint32_ok; lia. }
  pose proof S3 as (Ev3 & Ei3 & El3 & Eh3 & _).
  assert (Eid : id_of w2 = id_of w) by by rewrite Es2.
  (* the state after the two changes of the joining node *)
  assert (Enodes : (state_of w3).(c_Nodes) = {[id_of w := set_n_Partitions (Some
     (<[(n + 1)%Z := {| np_Id := n + 1; np_State := NodePartitionStateInitialized; np_Role := RoleLeader |}]> m))
     node]}).
  { rewrite Es3. unfold joined. rewrite Ev2, Ev1, (st_leads _ _ Hw), Es2, El1, (st_leader _ _ Hw).
    assert (Ec : ∀ s r, change_of w2 (n + 1) s r = change_of w (n + 1) s r)
      by (intros; unfold change_of; by rewrite Eid).
    rewrite !Ec.
    pose proof (partition_changed_singleton (state_of w1)
      (change_of w (n + 1) NODE_PARTITION_STATE_INITIALIZING (role_of true)) _ _ En1 eq_refl eq_refl) as Ea.
    pose proof (partition_changed_singleton _
      (change_of w (n + 1) NODE_PARTITION_STATE_INITIALIZED (role_of true)) _ _ Ea eq_refl eq_refl) as Eb.
    rewrite Eb. simpl. by rewrite !insert_insert_eq. }
  assert (Eparts : (state_of w3).(c_Partitions) =
    <[(n + 1)%Z := {| p_Id := n + 1; p_LeaderId := id_of w |}]> (state_of w).(c_Partitions)).
  { rewrite Es3. unfold joined. rewrite Ev2, Ev1, (st_leads _ _ Hw), Es2, El1, (st_leader _ _ Hw).
    unfold partition_changed. simpl. rewrite Es1. simpl. rewrite insert_insert_eq.
    by rewrite Eid. }
  assert (Ed : (state_of w3).(DesiredPartitions) = (state_of w).(DesiredPartitions))
    by (rewrite Es3; unfold joined, partition_changed; simpl; by rewrite Es2, Es1).
  exists w3. split; [|split; [|done]].
  - unfold ClusterStateChangeNotification. erewrite (bind_step get) by reflexivity.
    rewrite (st_handles _ _ Hw), (st_leader _ _ Hw). cbv beta iota. cbn [negb].
    erewrite bind_step by exact E1.
    assert (Emem : performMemberOperations iter_ids w1 = (Ret tt, w3)).
    { unfold performMemberOperations. erewrite bind_step by exact E2. cbv beta iota.
      erewrite (bind_step get) by reflexivity. unfold GetNode. rewrite Es2, Ei1, En1, lookup_singleton_eq.
      rewrite Ev2, (has_leader _ He1). cbn [set_n_Partitions n_Partitions].
      apply (member_loop _ (n + 1) (partition_update joining)).
      - apply lookup_insert_eq.
      - intros p x Hx Hne. rewrite lookup_insert_ne in Hx by done.
        split; [by rewrite (Hst _ _ Hx)|]. rewrite Ep2, Ep1. apply (st_running _ _ Hw), Hm. eauto.
      - unfold handle_partition. simpl. exact E3.
      - intros p Hp. rewrite Ep3. apply lookup_insert_is_Some'. by right. }
    by erewrite bind_step by exact Emem.
  - pose proof (st_size _ _ Hw) as Hsz.
    split; rewrite ?Ev3, ?Ev2, ?Ev1, ?Ei3, ?Eid, ?El3, ?Es2, ?El1, ?Eh3, ?Eh2, ?Eh1.
    + rewrite Es3. apply partition_changed_inv; [apply partition_changed_inv; [by rewrite Es2|]|];
        apply change_of_ok; try (rewrite Eid; apply (st_id _ _ Hw)); try apply initializing_ok;
        try apply role_of_ok; unfold uint32_ok; lia.
    + apply (st_env _ _ Hw).
    + apply (st_leads _ _ Hw).
    + apply (st_leader _ _ Hw).
    + apply (st_handles _ _ Hw).
    + apply (st_id _ _ Hw).
    + do 2 eexists. split; [exact Enodes|]. split; [done|]. split.
      * intros p. rewrite lookup_insert_is_Some', Hm. lia.
      * intros p x [[<- <-]|[_ Hx]]%lookup_insert_Some; [done|by eapply Hst].
    + rewrite Eparts, map_size_insert.
      destruct ((state_of w).(c_Partitions) !! (n + 1)%Z) as [x|] eqn:Ex;
        [apply mk_is_Some, (st_partitions _ _ Hw) in Ex; lia|lia].
    + intros p. rewrite Eparts, lookup_insert_is_Some', (st_partitions _ _ Hw). lia.
    + intros p x. rewrite Eparts. intros [[<- <-]|[_ Hx]]%lookup_insert_Some; [done|].
      by apply (st_led _ _ Hw).
    + intros p. rewrite Ep3, lookup_insert_is_Some', Ep2, Ep1, (st_running _ _ Hw). lia.
    + intros p x. rewrite Ep3. intros [[<- <-]|[_ Hx]]%lookup_insert_Some.
      * apply Heng. by rewrite Ev2, Ev1, (st_leads _ _ Hw).
      * rewrite Ep2, Ep1 in Hx. by apply (st_engines _ _ Hw p).
Qed.

(** The controller is told of [k] changes of the state, one after the other. *)
Fixpoint notifications (k : nat) : ST (ControllerWorld S) unit :=
  match k with
  | O => mret tt
  | Datatypes.S k' => notification ;; notifications k'
  end.

(** Further notifications find nothing to do. *)
Lemma notifications_idle n w k :
  steady n w → (1 ≤ n)%Z → ((state_of w).(DesiredPartitions) ≤ n)%Z →
  ∃ w', notifications k w = (Ret tt, w') ∧ nothing_happened w w'.
Proof.
  revert w. induction k as [|k IH]; intros w Hw Hn Hd; [by exists w|]. simpl.
  destruct (notification_idle n w Hw Hn Hd) as (w1 & E1 & Hw1 & Hsame).
  destruct (IH w1) as (w' & E & Hsame'); [done|done|by rewrite (proj1 Hsame)|].
  exists w'. erewrite bind_step by exact E1. split; [done|]. by etrans.
Qed.

(** C10: let a cluster have one node, which leads it, whose partition nodes
    start, lead their partitions and get their engines, and whose contexts do
    not expire, with [n] partitions set up.  After one
    notification for every partition that is missing the cluster has the
    desired number of partitions, each led by the node, and the node has each
    of them as its leader, initialized and running with an engine.  Whatever
    the number of further notifications, they return, write nothing to the
    store, and leave the partition nodes and the retries as they are. *)
Theorem desired_partitions_reached n w k :
  steady n w → (0 ≤ n ≤ (state_of w).(DesiredPartitions))%Z → (1 ≤ (state_of w).(DesiredPartitions))%Z →
  (Z.to_nat ((state_of w).(DesiredPartitions) - n) ≤ k)%nat →
  ∃ w', notifications k w = (Ret tt, w') ∧
    (state_of w').(DesiredPartitions) = (state_of w).(DesiredPartitions) ∧
    steady (state_of w).(DesiredPartitions) w' ∧
    ∀ j, ∃ w'', notifications j w' = (Ret tt, w'') ∧ nothing_happened w' w''.
Proof.
  revert n w. induction k as [|k IH]; intros n w Hw Hn Hd Hk.
  - exists w. split; [done|]. split; [done|].
    assert (Ed : DesiredPartitions (state_of w) = n) by lia. rewrite Ed. split; [done|].
    intros j. apply (notifications_idle n); [done|lia|lia].
  - simpl. destruct (Z.ltb_spec n (state_of w).(DesiredPartitions)) as [Hlt|Hge].
    + destruct (notification_creates n w Hw) as (w1 & E1 & Hw1 & Ed); [lia..|].
      destruct (IH (n + 1)%Z w1 Hw1) as (w' & E & Ed' & Hw' & Hj); rewrite ?Ed; [lia..|].
      exists w'. erewrite bind_step by exact E1. by rewrite Ed', Ed, <- Ed.
    + destruct (notification_idle n w Hw) as (w1 & E1 & Hw1 & Es & _); [lia..|].
      destruct (IH n w1 Hw1) as (w' & E & Ed' & Hw' & Hj); rewrite ?Es; [lia..|].
      exists w'. erewrite bind_step by exact E1. by rewrite Ed', Es, <- Es.
Qed.
End controller_props.

(** ** Witnesses: the cluster of the unit test, and one with a second node *)

Definition test_store (cs : Cluster) : LocalStore :=
  {| ls_id := "test-node-1"; ls_leader := true; ls_leaderId := "test-node-1"; ls_state := cs |}.

Definition started (id : string) : NodeChange :=
  {| nc_NodeId := id; nc_Addr := "127.0.0.1:8090"; nc_Suffrage := RAFT_SUFFRAGE_VOTER;
     nc_State := NODE_STATE_STARTED; nc_Role := ROLE_TYPE_FOLLOWER |}.
Definition node_2_leads_1 : NodePartitionChange :=
  {| npc_NodeId := "test-node-2"; npc_PartitionId := 1;
     npc_State := NODE_PARTITION_STATE_INITIALIZED; npc_Role := ROLE_TYPE_LEADER |}.

Definition wanting (d : Z) : Cluster := {| DesiredPartitions := d; c_Partitions := ∅; c_Nodes := ∅ |}.
Definition one_node (d : Z) : Cluster := FsmApplyNodeChange (test_store (wanting d)) (started "test-node-1").
Definition two_nodes : Cluster :=
  partition_changed (FsmApplyNodeChange (test_store (one_node 1)) (started "test-node-2")) node_2_leads_1.

Lemma started_ok id : json_ok id → NodeChange_ok (started id).
Proof. intros Hid. split; [done|]. split; [reflexivity|unfold int32_ok; simpl; unfold NODE_STATE_STARTED; lia]. Qed.

Lemma one_node_inv d : uint32_ok d → cluster_inv (one_node d).
Proof.
  intros Hd. apply (FsmApplyNodeChange_inv (test_store (wanting d))); [|by apply started_ok].
  destruct New_state_inv as [H1 H2 H3 (_ & H4 & H5)]. split; [done..|]. by split.
Qed.

Lemma two_nodes_inv : cluster_inv two_nodes.
Proof.
  apply partition_changed_inv.
  - apply (FsmApplyNodeChange_inv (test_store (one_node 1))); [|by apply started_ok].
    apply one_node_inv. unfold uint32_ok. lia.
  - split_and!; [reflexivity|..]; unfold uint32_ok, int32_ok; simpl;
      unfold NODE_PARTITION_STATE_INITIALIZED, ROLE_TYPE_LEADER; lia.
Qed.

Definition test_env (leads : bool) : PartitionEnv :=
  {| env_expired _ := false;
     env_Start p := Good {| zpn_PartitionId := p; zpn_FeelRuntime := false; zpn_JsRuntime := false;
                            zpn_Engine := false |};
     env_WaitForLeader_timeout _ := false; env_IsLeader _ := leads; env_createEngine _ := None;
     env_Stop _ := None; env_ClusterLeader := None |}.

Definition test_world (cs : Cluster) (leads : bool) : ControllerWorld LocalStore :=
  {| cw_store := test_store cs; cw_partitions := ∅; cw_handleClusterChanges := true;
     cw_env := test_env leads; cw_checks := 0; cw_retries := [] |}.

Lemma test_env_good leads : good_env (test_env leads).
Proof. split; [done|by eexists|done..]. Qed.

Definition joining_1 : NodePartition :=
  {| np_Id := 1; np_State := NodePartitionStateJoining; np_Role := 0 |}.

Lemma joining_partition_is_initialized_witness :
  let w := test_world (one_node 1) true in
  ∃ w', handle_partition 1 joining_1 w = (Ret tt, w') ∧ cluster_inv w'.(cw_store).(ls_state) ∧
    (∃ node, w'.(cw_store).(ls_state).(c_Nodes) !! "test-node-1"%string = Some node ∧
       node_partition node 1 = Some {| np_Id := 1; np_State := NodePartitionStateInitialized;
                                       np_Role := RoleLeader |}) ∧
    (true = true →
       w'.(cw_store).(ls_state).(c_Partitions) !! 1%Z = Some {| p_Id := 1; p_LeaderId := "test-node-1" |} ∧
       ∃ n, w'.(cw_partitions) !! 1%Z = Some n ∧ n.(zpn_Engine) = true).
Proof.
  refine (joining_partition_is_initialized (test_world (one_node 1) true) 1 joining_1 _ _ _ _ _ _).
  - apply one_node_inv. unfold uint32_ok. lia.
  - apply test_env_good.
  - reflexivity.
  - unfold uint32_ok. lia.
  - reflexivity.
  - reflexivity.
Defined.

(** Node 2 leads partition 1, node 1 leads the cluster and joins. *)
Lemma cluster_leader_takes_over_partition_witness :
  two_nodes.(c_Partitions) !! 1%Z = Some {| p_Id := 1; p_LeaderId := "test-node-2" |} ∧
  ∃ w', handle_partition 1 joining_1 (test_world two_nodes false) = (Ret tt, w') ∧
    w'.(cw_store).(ls_state).(c_Partitions) !! 1%Z = Some {| p_Id := 1; p_LeaderId := "test-node-1" |} ∧
    ∃ node, w'.(cw_store).(ls_state).(c_Nodes) !! "test-node-1"%string = Some node ∧
      node_partition node 1 = Some {| np_Id := 1; np_State := NodePartitionStateInitialized;
                                      np_Role := RoleFollower |}.
Proof.
  split; [vm_compute; reflexivity|].
  refine (cluster_leader_takes_over_partition (test_world two_nodes false) 1 joining_1
    "test-node-2" _ _ _ _ _ _ _ _ _).
  - apply two_nodes_inv.
  - apply test_env_good.
  - reflexivity.
  - unfold uint32_ok. lia.
  - reflexivity.
  - reflexivity.
  - reflexivity.
  - reflexivity.
  - vm_compute. reflexivity.
Defined.

Lemma one_node_steady : steady 0 (test_world (one_node 2) true).
Proof.
  split; try done.
  - apply one_node_inv. unfold uint32_ok. lia.
  - apply test_env_good.
  - exists (changed_node RoleLeader (started "test-node-1") (new_node (started "test-node-1"))), ∅.
    split; [vm_compute; reflexivity|]. split; [reflexivity|]. split.
    + intros p. split; [intros [x Hx]; by inversion Hx|lia].
    + intros p x Hx. by inversion Hx.
  - intros p. split; [intros [x Hx]; by inversion Hx|lia].
  - intros p. split; [intros [x Hx]; by inversion Hx|lia].
Qed.

Lemma desired_partitions_reached_witness :
  ∃ w', notifications string_order number_order 2 (test_world (one_node 2) true) = (Ret tt, w') ∧
    w'.(cw_store).(ls_state).(DesiredPartitions) = 2%Z ∧ steady 2 w' ∧
    ∀ j, ∃ w'', notifications string_order number_order j w' = (Ret tt, w'') ∧ nothing_happened w' w''.
Proof.
  refine (desired_partitions_reached string_order number_order (λ A m, reflexivity _)
    (λ A m, reflexivity _) 0 (test_world (one_node 2) true) 2 _ _ _ _);
    change (DesiredPartitions _) with 2%Z; [apply one_node_steady|lia|lia|lia].
Defined.
