(* ===== verification/JobServer.v ===== *)
(** The job server of a partition leader (internal/cluster/jobmanager/server.go):
    which clients want jobs of which type, the jobs that are out, and the loop
    that hands loaded jobs to the clients.

    The two read-write mutexes are part of the state: an operation that has to
    wait for one ends in [Block].  distributedJobsMu is held only around single
    updates and is not modelled.  Times are nanoseconds, the clock is read from
    the state.  Sending on a stream may fail; [js_sent] is what was sent. *)
From S2P Require Import Prelude Monad.

Definition jobLockDuration : Z := 30 * 10 ^ 9.
Definition emptyDistributionCounterSleep : Z := 100.
Definition maxActiveJobsPerClient : Z := 10.

(** sync.RWMutex: held by a writer, or by a number of readers. *)
Record RWMutex := { rw_writer : bool; rw_readers : Z }.
Definition free_mutex : RWMutex := {| rw_writer := false; rw_readers := 0 |}.
#[export] Instance RWMutex_eq_dec : EqDecision RWMutex.
Proof. solve_decision. Defined.

Record distributedJob := {
  dj_sentTime : Z;
  dj_client : string;
  dj_jobKey : Z
}.

(** The stream of a node: its number and whether sending on it fails. *)
Record nodeSub := {
  ns_nodeID : string;
  ns_stream : Z;
  ns_fails : bool
}.

Record jobTypeData := {
  jt_index : Z;
  jt_clients : list string
}.

(** The row of a job as the loader gives it (sql.Job). *)
Record LoadedJob := {
  lj_Key : Z;
  lj_Type : string
}.

Record jobServer := {
  js_nodeMu : RWMutex;
  js_nodeSubs : gmap string nodeSub;
  js_clientMu : RWMutex;
  js_subscriptions : gmap string (gmap string nodeSub);
  js_jobTypes : gmap string jobTypeData;
  js_maxPartitionJobLoadCount : Z;
  js_distributedJobs : list distributedJob;
  js_emptyDistributionCounter : Z;
  js_now : Z;
  js_sent : list (Z * string * LoadedJob)
}.

Definition newJobServer : jobServer :=
  {| js_nodeMu := free_mutex; js_nodeSubs := ∅; js_clientMu := free_mutex; js_subscriptions := ∅;
     js_jobTypes := ∅; js_maxPartitionJobLoadCount := 300; js_distributedJobs := [];
     js_emptyDistributionCounter := 0; js_now := 0; js_sent := [] |}.

Definition set_nodeMu (m : RWMutex) (s : jobServer) : jobServer :=
  {| js_nodeMu := m; js_nodeSubs := s.(js_nodeSubs); js_clientMu := s.(js_clientMu);
     js_subscriptions := s.(js_subscriptions); js_jobTypes := s.(js_jobTypes);
     js_maxPartitionJobLoadCount := s.(js_maxPartitionJobLoadCount);
     js_distributedJobs := s.(js_distributedJobs);
     js_emptyDistributionCounter := s.(js_emptyDistributionCounter);
     js_now := s.(js_now); js_sent := s.(js_sent) |}.
Definition set_clientMu (m : RWMutex) (s : jobServer) : jobServer :=
  {| js_nodeMu := s.(js_nodeMu); js_nodeSubs := s.(js_nodeSubs); js_clientMu := m;
     js_subscriptions := s.(js_subscriptions); js_jobTypes := s.(js_jobTypes);
     js_maxPartitionJobLoadCount := s.(js_maxPartitionJobLoadCount);
     js_distributedJobs := s.(js_distributedJobs);
     js_emptyDistributionCounter := s.(js_emptyDistributionCounter);
     js_now := s.(js_now); js_sent := s.(js_sent) |}.
Definition set_nodeSubs (m : gmap string nodeSub) (s : jobServer) : jobServer :=
  {| js_nodeMu := s.(js_nodeMu); js_nodeSubs := m; js_clientMu := s.(js_clientMu);
     js_subscriptions := s.(js_subscriptions); js_jobTypes := s.(js_jobTypes);
     js_maxPartitionJobLoadCount := s.(js_maxPartitionJobLoadCount);
     js_distributedJobs := s.(js_distributedJobs);
     js_emptyDistributionCounter := s.(js_emptyDistributionCounter);
     js_now := s.(js_now); js_sent := s.(js_sent) |}.
Definition set_clients (subs : gmap string (gmap string nodeSub)) (types : gmap string jobTypeData)
    (s : jobServer) : jobServer :=
  {| js_nodeMu := s.(js_nodeMu); js_nodeSubs := s.(js_nodeSubs); js_clientMu := s.(js_clientMu);
     js_subscriptions := subs; js_jobTypes := types;
     js_maxPartitionJobLoadCount := s.(js_maxPartitionJobLoadCount);
     js_distributedJobs := s.(js_distributedJobs);
     js_emptyDistributionCounter := s.(js_emptyDistributionCounter);
     js_now := s.(js_now); js_sent := s.(js_sent) |}.
Definition set_jobs (l : list distributedJob) (sent : list (Z * string * LoadedJob)) (s : jobServer)
    : jobServer :=
  {| js_nodeMu := s.(js_nodeMu); js_nodeSubs := s.(js_nodeSubs); js_clientMu := s.(js_clientMu);
     js_subscriptions := s.(js_subscriptions); js_jobTypes := s.(js_jobTypes);
     js_maxPartitionJobLoadCount := s.(js_maxPartitionJobLoadCount);
     js_distributedJobs := l; js_emptyDistributionCounter := s.(js_emptyDistributionCounter);
     js_now := s.(js_now); js_sent := sent |}.
Definition set_counter (n : Z) (s : jobServer) : jobServer :=
  {| js_nodeMu := s.(js_nodeMu); js_nodeSubs := s.(js_nodeSubs); js_clientMu := s.(js_clientMu);
     js_subscriptions := s.(js_subscriptions); js_jobTypes := s.(js_jobTypes);
     js_maxPartitionJobLoadCount := s.(js_maxPartitionJobLoadCount);
     js_distributedJobs := s.(js_distributedJobs); js_emptyDistributionCounter := n;
     js_now := s.(js_now); js_sent := s.(js_sent) |}.

Abbreviation JM := (ST jobServer).

(** ** Locks *)

Definition Lock {T} (gt : T → RWMutex) (st : RWMutex → T → T) : ST T unit := λ s,
  if (gt s).(rw_writer) || negb ((gt s).(rw_readers) =? 0)%Z then (Block, s)
  else (Ret tt, st {| rw_writer := true; rw_readers := 0 |} s).
Definition Unlock {T} (st : RWMutex → T → T) : ST T unit := modify (st free_mutex).
Definition RLock {T} (gt : T → RWMutex) (st : RWMutex → T → T) : ST T unit := λ s,
  if (gt s).(rw_writer) then (Block, s)
  else (Ret tt, st {| rw_writer := false; rw_readers := (gt s).(rw_readers) + 1 |} s).
Definition RUnlock {T} (gt : T → RWMutex) (st : RWMutex → T → T) : ST T unit :=
  modify (λ s, st {| rw_writer := false; rw_readers := (gt s).(rw_readers) - 1 |} s).

Definition nodeMu_Lock : JM unit := Lock js_nodeMu set_nodeMu.
Definition nodeMu_Unlock : JM unit := Unlock set_nodeMu.
Definition nodeMu_RLock : JM unit := RLock js_nodeMu set_nodeMu.
Definition nodeMu_RUnlock : JM unit := RUnlock js_nodeMu set_nodeMu.
Definition clientMu_Lock : JM unit := Lock js_clientMu set_clientMu.
Definition clientMu_Unlock : JM unit := Unlock set_clientMu.
Definition clientMu_RLock : JM unit := RLock js_clientMu set_clientMu.
Definition clientMu_RUnlock : JM unit := RUnlock js_clientMu set_clientMu.

(** ** Subscriptions *)

(** The part of addNodeSubscription before it serves the stream; [nodeIds] are
    the values of the node id in the metadata, [None] without metadata. *)
Definition addNodeSubscription (nodeIds : option (list string)) (stream : Z) (fails : bool) : JM nodeSub :=
  match nodeIds with
  | None => throw (err! "expected metadata to be present in SubscribeJob stream")
  | Some [nodeID] =>
      let sub := {| ns_nodeID := nodeID; ns_stream := stream; ns_fails := fails |} in
      nodeMu_Lock ;;
      modify (λ s, set_nodeSubs (<[nodeID := sub]> s.(js_nodeSubs)) s) ;;
      nodeMu_Unlock ;;
      mret sub
  | Some _ => throw (err! "expected nodeId to be present in metadata in SubscribeJob stream")
  end.

Definition removeNode (nodeId : string) : JM unit :=
  nodeMu_Lock ;;
  modify (λ s, set_nodeSubs (delete nodeId s.(js_nodeSubs)) s) ;;
  nodeMu_Unlock ;;
  clientMu_Lock ;;
  modify (λ s, set_clients (filter (λ kn, kn.2.(ns_nodeID) ≠ nodeId) <$> s.(js_subscriptions))
                 s.(js_jobTypes) s) ;;
  clientMu_Unlock.

(** The early return leaves nodeMu read-locked; clientMu is unlocked by the
    deferred call. *)
Definition subscribeClient (clientsNodeID clientID jType : string) : JM unit :=
  clientMu_Lock ;;
  nodeMu_RLock ;;
  s ← get;
  (match s.(js_nodeSubs) !! clientsNodeID with
   | None => mret tt
   | Some clientsNode =>
       nodeMu_RUnlock ;;
       modify (λ s,
         let subs := default ∅ (s.(js_subscriptions) !! jType) in
         let data := default {| jt_index := 0; jt_clients := [] |} (s.(js_jobTypes) !! jType) in
         set_clients (<[jType := <[clientID := clientsNode]> subs]> s.(js_subscriptions))
           (<[jType := {| jt_index := data.(jt_index); jt_clients := data.(jt_clients) ++ [clientID] |}]>
              s.(js_jobTypes)) s)
   end) ;;
  clientMu_Unlock.

(** [append(l[:i], l[i+1:]...)] at the first index of the client. *)
Fixpoint remove_client (clientID : string) (l : list string) : option (list string) :=
  match l with
  | [] => None
  | c :: l' => if (c =? clientID)%string then Some l' else cons c <$> remove_client clientID l'
  end.

Definition unsubscribe_type (clientID jType : string) (types : gmap string jobTypeData)
    : gmap string jobTypeData :=
  match types !! jType with
  | None => types
  | Some data =>
      match remove_client clientID data.(jt_clients) with
      | None => types
      | Some l => <[jType := {| jt_index := data.(jt_index); jt_clients := l |}]> types
      end
  end.

(** Deleting from the nil map of an unknown type does nothing. *)
Definition unsubscribeClient (clientID jType : string) : JM unit :=
  clientMu_Lock ;;
  modify (λ s, set_clients (alter (delete clientID) jType s.(js_subscriptions))
                 (unsubscribe_type clientID jType s.(js_jobTypes)) s) ;;
  clientMu_Unlock.

(** A type without clients is dropped. *)
Definition remove_from_type (clientID : string) (data : jobTypeData) : option jobTypeData :=
  let l := default data.(jt_clients) (remove_client clientID data.(jt_clients)) in
  if bool_decide (l = []) then None else Some {| jt_index := data.(jt_index); jt_clients := l |}.

Definition removeClient (clientID : string) : JM unit :=
  clientMu_Lock ;;
  modify (λ s, set_clients (delete clientID <$> s.(js_subscriptions))
                 (omap (remove_from_type clientID) s.(js_jobTypes)) s) ;;
  modify (λ s, set_jobs (filter (λ job, job.(dj_client) ≠ clientID) s.(js_distributedJobs)) s.(js_sent) s) ;;
  clientMu_Unlock.

Inductive SubscribeJobRequest :=
| TYPE_SUBSCRIBE (clientId jobType : string)
| TYPE_UNSUBSCRIBE (clientId jobType : string)
| TYPE_UNSUBSCRIBE_ALL (clientId : string)
| TYPE_OTHER.

(** One round of handleJobStreamRecv: a request, the end of the stream, or
    another error, which leaves the node subscribed. *)
Inductive Recv := Recv_Request (r : SubscribeJobRequest) | Recv_EOF | Recv_Error.

Definition handleJobStreamRecv (stream : nodeSub) (r : Recv) : JM unit :=
  match r with
  | Recv_EOF => removeNode stream.(ns_nodeID)
  | Recv_Error => mret tt
  | Recv_Request (TYPE_SUBSCRIBE c t) => subscribeClient stream.(ns_nodeID) c t
  | Recv_Request (TYPE_UNSUBSCRIBE c t) => unsubscribeClient c t
  | Recv_Request (TYPE_UNSUBSCRIBE_ALL c) => removeClient c
  | Recv_Request TYPE_OTHER => panic "unexpected proto.SubscribeJobRequest_Type: %#v"
  end.

(** ** Jobs that are out *)

(** Both completeJob and failJob: the engine's answer first, then the first
    entry of the job is removed. *)
Fixpoint remove_job (jobKey : Z) (l : list distributedJob) : list distributedJob :=
  match l with
  | [] => []
  | job :: l' => if (job.(dj_jobKey) =? jobKey)%Z then l' else job :: remove_job jobKey l'
  end.

Definition settle_job (answer : option error) (failed : error → error) (jobKey : Z) : JM unit :=
  match answer with
  | Some err => throw (failed err)
  | None => modify (λ s, set_jobs (remove_job jobKey s.(js_distributedJobs)) s.(js_sent) s)
  end.

Definition completeJob (JobCompleteByKey : Z → option error) (jobKey : Z) : JM unit :=
  settle_job (JobCompleteByKey jobKey) (λ e, errw! "failed to complete job %d: %w" [e]) jobKey.

Definition failJob (JobFailByKey : Z → option error) (jobKey : Z) : JM unit :=
  settle_job (JobFailByKey jobKey) (λ e, errw! "failed to fail job %d: %w" [e]) jobKey.

(** ** The distribution loop *)

(** Before the lock: the job types and a full set of slots for every client. *)
Definition initial_slots (types : gmap string jobTypeData) : gmap string Z :=
  list_to_map ((λ c, (c, maxActiveJobsPerClient)) <$> concat ((λ kd, kd.2.(jt_clients)) <$> map_to_list types)).

(** The loop over the jobs that are out, from the last one: a job whose lock
    has expired is released, the others take a slot of their client (a client
    without an entry has none) and are keys to skip; the entry of a released
    job in the slice of keys stays 0. *)
Record Collected := {
  col_jobs : list distributedJob;
  col_clients : gmap string Z;
  col_keys : list Z
}.

Definition is_expired (now : Z) (job : distributedJob) : bool :=
  (job.(dj_sentTime) + jobLockDuration <? now)%Z.

Fixpoint collect (now : Z) (clients : gmap string Z) (jobs : list distributedJob) : Collected :=
  match jobs with
  | [] => {| col_jobs := []; col_clients := clients; col_keys := [] |}
  | job :: jobs' =>
      let c := collect now clients jobs' in
      if is_expired now job
      then {| col_jobs := c.(col_jobs); col_clients := c.(col_clients);
              col_keys := 0%Z :: c.(col_keys) |}
      else {| col_jobs := job :: c.(col_jobs);
              col_clients := <[job.(dj_client) := (default 0 (c.(col_clients) !! job.(dj_client)) - 1)%Z]>
                               c.(col_clients);
              col_keys := job.(dj_jobKey) :: c.(col_keys) |}
  end.

Definition sum_slots (clients : gmap string Z) : Z := map_fold (λ _ n acc, (n + acc)%Z) 0%Z clients.

(** index++ and the wrap of the code, which compares with the length less one. *)
Definition next_index (clients : list string) (index : Z) : Z :=
  let i := (index + 1)%Z in
  if (Z.of_nat (length clients) - 1 <=? i)%Z then 0%Z else i.

(** The loop of goto indexLogic: from a saturated client to the next, until one
    has a slot or the first candidate is reached again. *)
Fixpoint index_loop (fuel : nat) (slots : gmap string Z) (clients : list string)
    (candidateIndex index : Z) : ST jobServer Z :=
  match fuel with
  | O => nofuel
  | S n =>
      match clients !! Z.to_nat index with
      | None => panic "index out of range"
      | Some clientID =>
          if (default 0 (slots !! clientID) <=? 0)%Z then
            let index' := next_index clients index in
            if (candidateIndex =? index')%Z then mret index'
            else index_loop n slots clients candidateIndex index'
          else mret index
      end
  end.

Definition set_index (jType : string) (data : jobTypeData) (index : Z) : JM unit :=
  modify (λ s, set_clients s.(js_subscriptions)
    (<[jType := {| jt_index := index; jt_clients := data.(jt_clients) |}]> s.(js_jobTypes)) s).

(** One loaded job; the slots are the ones computed before the jobs were
    loaded. A failing Send is only logged. *)
Definition dispatch (fuel : nat) (slots : gmap string Z) (job : LoadedJob) : JM unit :=
  clientMu_RLock ;;
  s ← get;
  let jType := job.(lj_Type) in
  let data := default {| jt_index := 0; jt_clients := [] |} (s.(js_jobTypes) !! jType) in
  if bool_decide (data.(jt_clients) = []) then clientMu_RUnlock
  else
    let candidateIndex := next_index data.(jt_clients) data.(jt_index) in
    clientIdx ← index_loop fuel slots data.(jt_clients) candidateIndex candidateIndex;
    set_index jType data clientIdx ;;
    match data.(jt_clients) !! Z.to_nat clientIdx with
    | None => panic "index out of range"
    | Some clientID =>
        match default ∅ (s.(js_subscriptions) !! jType) !! clientID with
        | None => clientMu_RUnlock
        | Some nodeStream =>
            modify (λ s, set_jobs (s.(js_distributedJobs) ++
              [{| dj_sentTime := s.(js_now); dj_client := clientID; dj_jobKey := job.(lj_Key) |}])
              s.(js_sent) s) ;;
            clientMu_RUnlock ;;
            if nodeStream.(ns_fails) then mret tt
            else modify (λ s, set_jobs s.(js_distributedJobs)
                   (s.(js_sent) ++ [(nodeStream.(ns_stream), clientID, job)]) s)
        end
    end.

(** The first part of an iteration: release expired jobs and compute the slots;
    the result is what is asked of the loader, [None] when there is no slot. *)
Definition prepare : JM (Collected * option (list string * list Z * Z)) :=
  s ← get;
  let c := collect s.(js_now) (initial_slots s.(js_jobTypes)) s.(js_distributedJobs) in
  modify (λ s, set_jobs c.(col_jobs) s.(js_sent) s) ;;
  let jobsToLoad := sum_slots c.(col_clients) in
  if (jobsToLoad <=? 0)%Z then mret (c, None)
  else
    let n := if (s.(js_maxPartitionJobLoadCount) <? jobsToLoad)%Z
             then s.(js_maxPartitionJobLoadCount) else jobsToLoad in
    mret (c, Some ((map_to_list s.(js_jobTypes)).*1, c.(col_keys), n)).

(** One iteration of distributeJobs. The errors of the loader are logged. *)
Definition distributeJobs (fuel : nat) (load : list string → list Z → Z → result (list LoadedJob))
    : JM unit :=
  p ← prepare;
  match p.2 with
  | None => mret tt
  | Some (types, keys, n) =>
      match load types keys n with
      | Bad _ => mret tt
      | Good [] => modify (λ s, set_counter (s.(js_emptyDistributionCounter) + 1) s)
      | Good jobs =>
          modify (set_counter 0) ;;
          for_each jobs (dispatch fuel p.1.(col_clients))
      end
  end.

(** When the context of the server is cancelled it forgets its nodes. *)
Definition stop_distribution : JM unit := modify (set_nodeSubs ∅).

(** ** The loader (ZenNode.LoadJobsToDistribute, internal/cluster/node.go)

    The databases of the partitions this node leads; their query is SQL. *)
Record PartitionDB := {
  db_Partition : Z;
  db_GetWaitingJobs : list Z → list string → Z → result (list LoadedJob)
}.

Fixpoint load_loop (databases : list PartitionDB) (keySkip : list Z) (jobTypes : list string)
    (count : Z) (jobsAcc : list LoadedJob) : result (list LoadedJob) :=
  match databases with
  | [] => Good jobsAcc
  | db :: databases' =>
      match db.(db_GetWaitingJobs) keySkip jobTypes count with
      | Bad err => Bad (errw! "failed to load jobs from partition %d: %w" [err])
      | Good jobs => load_loop databases' keySkip jobTypes count (jobsAcc ++ jobs)
      end
  end.

Definition LoadJobsToDistribute (databases : list PartitionDB) (jobTypes : list string)
    (idsToSkip : list Z) (count : Z) : result (list LoadedJob) :=
  if bool_decide (databases = []) then Bad (err! "no partitions where node is a leader were found")
  else load_loop databases (if bool_decide (idsToSkip = []) then [0%Z] else idsToSkip) jobTypes count [].
