(* ===== verification/JobServerProps.v ===== *)
(** The job server: the choice of a client ends and never takes the last one,
    no job is out twice, and what a subscription of an unknown node does to the
    locks. *)
From S2P Require Import Prelude Monad ClusterState Zenflake JobServer.

(** ** The choice of a client *)

(** The indices the loop goes through are 0 to [cycle - 1]: all but the last
    one, or the only one. *)
Definition cycle (clients : list string) : Z := Z.max 1 (Z.of_nat (length clients) - 1).

Lemma next_index_range clients i : (0 ≤ i)%Z → (0 ≤ next_index clients i < cycle clients)%Z.
Proof. unfold next_index, cycle. intros Hi. destruct (Z.leb_spec (Z.of_nat (length clients) - 1) (i + 1)); lia. Qed.

Lemma next_index_mod clients i :
  (0 ≤ i < cycle clients)%Z → next_index clients i = ((i + 1) mod cycle clients)%Z.
Proof.
  unfold next_index, cycle. intros Hi. destruct (Z.leb_spec (Z.of_nat (length clients) - 1) (i + 1)).
  - replace (i + 1)%Z with (Z.max 1 (Z.of_nat (length clients) - 1)) by lia.
    symmetry. apply Z.mod_same. lia.
  - symmetry. apply Z.mod_small. lia.
Qed.

Lemma cycle_length clients : clients ≠ [] → (cycle clients ≤ Z.of_nat (length clients))%Z.
Proof. unfold cycle. destruct clients; [done|]. simpl. lia. Qed.

Definition slots_of (slots : gmap string Z) (clients : list string) (i : Z) : Z :=
  default 0%Z (clients !! Z.to_nat i ≫= λ c, slots !! c).

(** The outcome of the loop: a client with a slot, or the candidate when every
    client of the cycle is saturated. *)
Definition chosen (slots : gmap string Z) (clients : list string) (candidate j : Z) : Prop :=
  (0 ≤ j < cycle clients)%Z ∧
  ((0 < slots_of slots clients j)%Z ∨
   (j = candidate ∧ ∀ i, (0 ≤ i < cycle clients)%Z → (slots_of slots clients i ≤ 0)%Z)).

Lemma index_loop_run slots clients candidate k fuel s :
  clients ≠ [] → (0 ≤ candidate < cycle clients)%Z → (0 ≤ k < cycle clients)%Z →
  (Z.to_nat (cycle clients - k) ≤ fuel)%nat →
  (∀ d, (0 ≤ d < k)%Z → (slots_of slots clients ((candidate + d) mod cycle clients) ≤ 0)%Z) →
  ∃ j, index_loop fuel slots clients candidate ((candidate + k) mod cycle clients) s = (Ret j, s) ∧
    chosen slots clients candidate j.
Proof.
  intros Hne Hc. pose proof (cycle_length _ Hne) as Hlen.
  assert (HM : (0 < cycle clients)%Z) by (unfold cycle; lia).
  revert k. induction fuel as [|fuel IH]; intros k Hk Hf Hsat; [lia|].
  set (M := cycle clients) in *. set (i := ((candidate + k) mod M)%Z).
  assert (Hi : (0 ≤ i < M)%Z) by (by apply Z.mod_pos_bound).
  destruct (lookup_lt_is_Some_2 clients (Z.to_nat i)) as [c Ec]; [lia|].
  simpl. rewrite Ec.
  assert (Es : slots_of slots clients i = default 0%Z (slots !! c)) by (unfold slots_of; by rewrite Ec).
  destruct (Z.leb_spec (default 0%Z (slots !! c)) 0) as [Hle|Hgt].
  2:{ exists i. split; [done|]. split; [done|]. left. rewrite Es. lia. }
  rewrite next_index_mod by done. fold M.
  assert (Enext : ((i + 1) mod M = (candidate + (k + 1)) mod M)%Z)
    by (unfold i; rewrite Z.add_mod_idemp_l by lia; f_equal; lia).
  assert (Hsat' : ∀ d, (0 ≤ d < k + 1)%Z → (slots_of slots clients ((candidate + d) mod M) ≤ 0)%Z).
  { intros d Hd. destruct (decide (d = k)) as [->|]; [fold i; lia|apply Hsat; lia]. }
  rewrite Enext. destruct (decide (k + 1 < M)%Z) as [Hlt|Hge].
  - destruct (Z.eqb_spec candidate ((candidate + (k + 1)) mod M)) as [E|_].
    + exfalso. destruct (Z_lt_le_dec (candidate + (k + 1)) M) as [Hs|Hb].
      * rewrite Z.mod_small in E by lia. lia.
      * assert ((candidate + (k + 1)) mod M = candidate + (k + 1) - M)%Z as Em.
        { symmetry. apply Z.mod_unique with 1%Z; lia. }
        lia.
    + apply IH; [lia|lia|done].
  - assert (k + 1 = M)%Z as -> by lia.
    assert ((candidate + M) mod M = candidate)%Z as ->.
    { replace (candidate + M)%Z with (candidate + 1 * M)%Z by lia. rewrite Z.mod_add by lia. by apply Z.mod_small. }
    rewrite Z.eqb_refl. exists candidate. split; [done|]. split; [done|]. right. split; [done|].
    intros x Hx.
    replace x with ((candidate + (x - candidate) mod M) mod M)%Z.
    + apply Hsat'. assert (k + 1 = M)%Z as -> by lia. by apply Z.mod_pos_bound.
    + rewrite Z.add_mod_idemp_r by lia. replace (candidate + (x - candidate))%Z with x by lia.
      by apply Z.mod_small.
Qed.

(** The choice of a client for a job ends after at most as many steps as
    the type has clients, with a client of the type that has a free slot, or,
    when all clients it looks at are saturated, with the first candidate. *)
Theorem client_choice_ends slots clients index s :
  clients ≠ [] → (0 ≤ index)%Z →
  let candidate := next_index clients index in
  ∃ j, index_loop (length clients) slots clients candidate candidate s = (Ret j, s) ∧
    is_Some (clients !! Z.to_nat j) ∧
    ((0 < slots_of slots clients j)%Z ∨
     (j = candidate ∧ ∀ i, (0 ≤ i < cycle clients)%Z → (slots_of slots clients i ≤ 0)%Z)).
Proof.
  intros Hne Hi candidate. pose proof (next_index_range clients index Hi) as Hc. fold candidate in Hc.
  pose proof (cycle_length _ Hne) as Hlen.
  destruct (index_loop_run slots clients candidate 0 (length clients) s) as (j & E & Hj & Hs);
    [done|done|lia|lia|lia|].
  rewrite Z.add_0_r, (Z.mod_small candidate) in E by done.
  exists j. split; [done|]. split; [|done]. apply lookup_lt_is_Some_2. lia.
Qed.

(** ** Dispatching jobs to a type with two clients *)

(** With two clients of a job type only the first one ever gets jobs: every
    job of the type is sent to it, also beyond the ten jobs a client may have,
    and the second one, whose turn the wrap of the index skips, gets none. *)
Theorem second_client_starves slots jobs jType c0 c1 idx subs stream s :
  s.(js_clientMu) = free_mutex → (0 ≤ idx)%Z →
  s.(js_jobTypes) !! jType = Some {| jt_index := idx; jt_clients := [c0; c1] |} →
  s.(js_subscriptions) !! jType = Some subs → subs !! c0 = Some stream → stream.(ns_fails) = false →
  Forall (λ job, job.(lj_Type) = jType) jobs →
  ∃ s', for_each jobs (dispatch 2 slots) s = (Ret tt, s') ∧
    s'.(js_distributedJobs) = s.(js_distributedJobs) ++
      ((λ job, {| dj_sentTime := s.(js_now); dj_client := c0; dj_jobKey := job.(lj_Key) |}) <$> jobs) ∧
    s'.(js_sent) = s.(js_sent) ++ ((λ job, (stream.(ns_stream), c0, job)) <$> jobs).
Proof.
  revert s idx. induction jobs as [|job jobs IH]; intros s idx Hmu Hidx Ht Hsubs Hc0 Hf Hjobs.
  { exists s. simpl. by rewrite !app_nil_r. }
  apply Forall_cons in Hjobs as [Hj Hjobs].
  assert (Hnext : ∀ i, (0 ≤ i)%Z → next_index [c0; c1] i = 0%Z).
  { intros i Hi. unfold next_index. simpl length. destruct (Z.leb_spec (Z.of_nat 2 - 1) (i + 1)); lia. }
  assert (Hloop : ∀ s', index_loop 2 slots [c0; c1] 0 0 s' = (Ret 0%Z, s')).
  { intros s'. simpl. rewrite Hnext by lia. simpl. by destruct (_ <=? 0)%Z. }
  assert (Hd : ∃ s1, dispatch 2 slots job s = (Ret tt, s1) ∧
    s1.(js_clientMu) = free_mutex ∧ s1.(js_now) = s.(js_now) ∧
    s1.(js_jobTypes) !! jType = Some {| jt_index := 0; jt_clients := [c0; c1] |} ∧
    s1.(js_subscriptions) = s.(js_subscriptions) ∧
    s1.(js_distributedJobs) = s.(js_distributedJobs) ++
      [{| dj_sentTime := s.(js_now); dj_client := c0; dj_jobKey := job.(lj_Key) |}] ∧
    s1.(js_sent) = s.(js_sent) ++ [(stream.(ns_stream), c0, job)]).
  { unfold dispatch.
    erewrite bind_step by (unfold clientMu_RLock, RLock; rewrite Hmu; reflexivity).
    erewrite (bind_step get) by reflexivity. cbn [js_jobTypes set_clientMu]. rewrite Hj, Ht.
    cbn [default jt_clients jt_index]. rewrite bool_decide_eq_false_2 by done.
    rewrite Hnext by done. erewrite bind_step by apply Hloop.
    erewrite bind_step by reflexivity. cbn [lookup list_lookup Z.to_nat].
    cbn [js_subscriptions set_clientMu]. rewrite Hsubs.
    change (default ∅ (Some subs)) with subs. 
    change (jt_clients (id _) !! Z.to_nat 0) with (Some c0). cbv iota beta. rewrite Hc0.
    erewrite bind_step by reflexivity. erewrite bind_step by reflexivity. rewrite Hf.
    eexists. split; [reflexivity|]. simpl. split_and!; try done. by rewrite lookup_insert_eq. }
  destruct Hd as (s1 & E1 & Hmu1 & Hnow1 & Ht1 & Hsubs1 & Hdist1 & Hsent1).
  destruct (IH s1 0%Z) as (s' & E' & Hd' & Hs'); try done; [by rewrite Hsubs1|].
  exists s'. simpl for_each. erewrite bind_step by exact E1. split; [exact E'|].
  rewrite Hd', Hs', Hdist1, Hsent1, Hnow1, !fmap_cons, <- !app_assoc. done.
Qed.

(** ** No job is out twice *)

Definition keys (l : list distributedJob) : list Z := dj_jobKey <$> l.
Definition loaded_keys (l : list LoadedJob) : list Z := lj_Key <$> l.

(** What the query of a partition promises: jobs of the partition, by primary
    key, that are not among the keys to skip. *)
Definition query_ok (db : PartitionDB) : Prop :=
  ∀ skip types count jobs, db.(db_GetWaitingJobs) skip types count = Good jobs →
    NoDup (loaded_keys jobs) ∧
    Forall (λ k, (k ∉ skip) ∧ GetPartitionId k = db.(db_Partition)) (loaded_keys jobs).

(** The keys of different partitions differ, so the jobs of all of them do. *)
Lemma load_loop_keys dbs skip types count acc jobs :
  Forall query_ok dbs → NoDup (db_Partition <$> dbs) →
  NoDup (loaded_keys acc) →
  Forall (λ k, (k ∉ skip) ∧ (GetPartitionId k ∉ (db_Partition <$> dbs))) (loaded_keys acc) →
  load_loop dbs skip types count acc = Good jobs →
  NoDup (loaded_keys jobs) ∧ Forall (λ k, k ∉ skip) (loaded_keys jobs).
Proof.
  revert acc. induction dbs as [|db dbs IH]; intros acc Hq Hnd Hacc Hfresh E; simpl in E.
  { simplify_eq. split; [done|]. eapply Forall_impl; [exact Hfresh|]. by intros ? [? _]. }
  apply Forall_cons in Hq as [Hq Hqs]. rewrite fmap_cons in Hnd. apply NoDup_cons in Hnd as [Hdb Hnd].
  destruct (db_GetWaitingJobs db skip types count) as [new|] eqn:En; [|done].
  destruct (Hq _ _ _ _ En) as [Hn1 Hn2]. rewrite Forall_forall in Hfresh, Hn2.
  apply (IH (acc ++ new)); [done|done|..|exact E].
  - unfold loaded_keys. rewrite fmap_app. apply NoDup_app. split; [done|]. split; [|done].
    intros k Hk Hk'. destruct (Hfresh k Hk) as [_ Hp], (Hn2 k Hk') as [_ Hp']. apply Hp.
    rewrite Hp', fmap_cons. left.
  - unfold loaded_keys. rewrite fmap_app, Forall_app, !Forall_forall. split; intros k Hk.
    + destruct (Hfresh k Hk) as [? Hp]. split; [done|]. intros Hin. apply Hp. rewrite fmap_cons. by right.
    + destruct (Hn2 k Hk) as [? ->]. by split.
Qed.

Lemma LoadJobsToDistribute_keys dbs types skip count jobs :
  Forall query_ok dbs → NoDup (db_Partition <$> dbs) →
  LoadJobsToDistribute dbs types skip count = Good jobs →
  NoDup (loaded_keys jobs) ∧ Forall (λ k, k ∉ skip) (loaded_keys jobs).
Proof.
  intros Hq Hnd. unfold LoadJobsToDistribute. case_bool_decide; [done|].
  intros E. apply load_loop_keys in E as [E1 E2]; [|done|done|constructor|constructor].
  split; [done|]. case_bool_decide as Hs; [|done]. subst.
  eapply Forall_impl; [exact E2|]. intros k _. apply not_elem_of_nil.
Qed.

(** The server, with the jobs of the current iteration that are still to be
    dispatched. Other operations run between the parts of an iteration. *)
Inductive server_op :=
| OpComplete (answer : Z → option error) (jobKey : Z)
| OpFail (answer : Z → option error) (jobKey : Z)
| OpRecv (stream : nodeSub) (r : Recv)
| OpAddNode (nodeIds : option (list string)) (stream : Z) (fails : bool)
| OpStop.

Definition run_op (o : server_op) : ST jobServer unit :=
  match o with
  | OpComplete answer k => completeJob answer k
  | OpFail answer k => failJob answer k
  | OpRecv stream r => handleJobStreamRecv stream r
  | OpAddNode ids stream fails => _ ← addNodeSubscription ids stream fails; mret tt
  | OpStop => stop_distribution
  end.

Definition server_state : Type := jobServer * option (gmap string Z * list LoadedJob).

Inductive server_step (dbs : list PartitionDB) : server_state → server_state → Prop :=
| srv_load s s' c types skip n jobs :
    prepare s = (Ret (c, Some (types, skip, n)), s') →
    LoadJobsToDistribute dbs types skip n = Good jobs →
    server_step dbs (s, None) (s', Some (c.(col_clients), jobs))
| srv_prepare s s' c q :
    prepare s = (Ret (c, q), s') → server_step dbs (s, None) (s', None)
| srv_dispatch s s' fuel slots job jobs :
    dispatch fuel slots job s = (Ret tt, s') →
    server_step dbs (s, Some (slots, job :: jobs)) (s', Some (slots, jobs))
| srv_done s slots : server_step dbs (s, Some (slots, [])) (s, None)
| srv_op s s' p o r :
    run_op o s = (r, s') → returns r → server_step dbs (s, p) (s', p)
| srv_clock s s' p :
    s'.(js_distributedJobs) = s.(js_distributedJobs) → server_step dbs (s, p) (s', p).

Inductive server_reachable (dbs : list PartitionDB) : server_state → Prop :=
| srv_init : server_reachable dbs (newJobServer, None)
| srv_next st st' : server_reachable dbs st → server_step dbs st st' → server_reachable dbs st'.

Definition pending_keys (p : option (gmap string Z * list LoadedJob)) : list Z :=
  match p with Some (_, jobs) => loaded_keys jobs | None => [] end.

Definition server_inv (st : server_state) : Prop :=
  NoDup (keys st.1.(js_distributedJobs) ++ pending_keys st.2).

(** The operations of others only take jobs away. *)
Lemma remove_job_sublist k l : sublist (remove_job k l) l.
Proof.
  induction l as [|job l IH]; simpl; [constructor|].
  case_match; [by apply sublist_cons|by apply sublist_skip].
Qed.

Lemma filter_sublist {A} (P : A → Prop) `{∀ x, Decision (P x)} l : sublist (filter P l) l.
Proof.
  induction l as [|x l IH]; [constructor|]. rewrite filter_cons.
  case_decide; [by apply sublist_skip|by apply sublist_cons].
Qed.

Definition fewer (s s' : jobServer) : Prop :=
  sublist s'.(js_distributedJobs) s.(js_distributedJobs).
#[local] Instance fewer_preorder : PreOrder fewer.
Proof. split; [by intros s; red|intros s1 s2 s3 H1 H2; red; by etrans]. Qed.

Lemma fewer_lock gt st :
  (∀ m s, (st m s).(js_distributedJobs) = s.(js_distributedJobs)) → pres fewer (Lock gt st).
Proof. intros H s. unfold Lock, fewer. destruct (_ || _); [done|]. by rewrite H. Qed.
Lemma fewer_rlock gt st :
  (∀ m s, (st m s).(js_distributedJobs) = s.(js_distributedJobs)) → pres fewer (RLock gt st).
Proof. intros H s. unfold RLock, fewer. destruct (rw_writer _); [done|]. by rewrite H. Qed.
Lemma fewer_modify f :
  (∀ s, sublist (f s).(js_distributedJobs) s.(js_distributedJobs)) → pres fewer (modify f).
Proof. intros H s. apply H. Qed.

#[local] Ltac fewer_step :=
  first [ frame_step | by apply fewer_lock | by apply fewer_rlock
        | apply fewer_modify; intros ?; first [done | apply remove_job_sublist | apply filter_sublist] ].

Lemma run_op_fewer o : pres fewer (run_op o).
Proof.
  destruct o as [a k|a k|stream r|ids stream fails|]; simpl;
    unfold completeJob, failJob, settle_job, handleJobStreamRecv, subscribeClient, unsubscribeClient,
      removeClient, removeNode, addNodeSubscription, stop_distribution;
    repeat fewer_step.
Qed.

Lemma collect_jobs now clients jobs :
  sublist (collect now clients jobs).(col_jobs) jobs ∧
  ∀ k, k ∈ keys (collect now clients jobs).(col_jobs) → k ∈ (collect now clients jobs).(col_keys).
Proof.
  induction jobs as [|job jobs [IH1 IH2]]; simpl; [by split; [constructor|]|].
  destruct (is_expired now job); simpl.
  - split; [by apply sublist_cons|]. intros k Hk. right. by apply IH2.
  - split; [by apply sublist_skip|]. intros k [->|Hk]%elem_of_cons; [left|right; by apply IH2].
Qed.

Lemma prepare_inv s c q s' :
  prepare s = (Ret (c, q), s') →
  c = collect s.(js_now) (initial_slots s.(js_jobTypes)) s.(js_distributedJobs) ∧
  s'.(js_distributedJobs) = c.(col_jobs) ∧
  ∀ types skip n, q = Some (types, skip, n) → skip = c.(col_keys).
Proof.
  unfold prepare, get, modify, mbind, ST_bind, mret, ST_ret. simpl.
  destruct (_ <=? 0)%Z; simpl; intros; simplify_eq/=; (split; [done|]; split; [done|]); intros;
    by simplify_eq.
Qed.

Lemma index_loop_state fuel slots clients candidate index s :
  (index_loop fuel slots clients candidate index s).2 = s.
Proof.
  revert index. induction fuel as [|fuel IH]; intros index; simpl; [done|].
  destruct (_ !! Z.to_nat index); [|done]. destruct (_ <=? 0)%Z; [|done].
  destruct (_ =? _)%Z; [done|apply IH].
Qed.

Lemma dispatch_keys fuel slots job s s' :
  dispatch fuel slots job s = (Ret tt, s') →
  keys s'.(js_distributedJobs) = keys s.(js_distributedJobs) ∨
  keys s'.(js_distributedJobs) = keys s.(js_distributedJobs) ++ [job.(lj_Key)].
Proof.
  unfold dispatch. intros E. apply bind_Ret in E as ([] & s1 & E1 & E).
  assert (Hs1 : s1.(js_distributedJobs) = s.(js_distributedJobs)).
  { unfold clientMu_RLock, RLock in E1. by destruct (rw_writer _); simplify_eq. }
  rewrite <- Hs1. clear Hs1 E1 s. apply bind_Ret in E as (s2 & ? & [= <- <-] & E).
  destruct (bool_decide _); [injection E as <-; by left|].
  apply bind_Ret in E as (j & s2 & E2 & E).
  assert (s2 = s1) as -> by (change s2 with (Ret j, s2).2; rewrite <- E2; apply index_loop_state).
  apply bind_Ret in E as ([] & s2 & [= <-] & E). cbn [js_subscriptions set_clients] in E.
  destruct (_ !! Z.to_nat j) as [clientID|]; [|done].
  destruct (_ !! clientID) as [stream|]; [|injection E as <-; by left].
  apply bind_Ret in E as ([] & s3 & [= <-] & E). apply bind_Ret in E as ([] & s4 & [= <-] & E).
  right. destruct (ns_fails stream); injection E as <-; simpl; unfold keys; by rewrite fmap_app.
Qed.

Lemma sublist_keys_NoDup l l' p : sublist l' l → NoDup (keys l ++ p) → NoDup (keys l' ++ p).
Proof.
  intros Hs Hnd. apply (sublist_NoDup _ _ Hnd), sublist_app; [|done]. unfold keys. by rewrite Hs.
Qed.

Lemma server_reachable_inv dbs st :
  Forall query_ok dbs → NoDup (db_Partition <$> dbs) → server_reachable dbs st → server_inv st.
Proof.
  intros Hq Hnd. induction 1 as [|st st' _ IH Hstep]; [constructor|].
  unfold server_inv in *. destruct Hstep as [s s' c types skip n jobs E Eload|s s' c q E
    |s s' fuel slots job jobs E|s slots|s s' p o r E Hr|s s' p E]; simpl in *.
  - apply prepare_inv in E as (-> & -> & Hskip). specialize (Hskip _ _ _ eq_refl) as ->.
    destruct (LoadJobsToDistribute_keys _ _ _ _ _ Hq Hnd Eload) as [Hj1 Hj2].
    destruct (collect_jobs s.(js_now) (initial_slots s.(js_jobTypes)) s.(js_distributedJobs)) as [Hs Hk].
    rewrite app_nil_r in IH. apply NoDup_app. split; [|split; [|done]].
    + rewrite <- (app_nil_r (keys _)). eapply sublist_keys_NoDup; [exact Hs|]. by rewrite app_nil_r.
    + intros k Hin Hin'. rewrite Forall_forall in Hj2. by apply (Hj2 k Hin'), Hk.
  - apply prepare_inv in E as (-> & -> & _). eapply sublist_keys_NoDup; [|exact IH].
    apply collect_jobs.
  - apply dispatch_keys in E as [-> | ->].
    + apply NoDup_app in IH as (H1 & H2 & H3).
      apply NoDup_cons in H3 as [_ H3]. apply NoDup_app. split; [done|]. split; [|done].
      intros k Hk Hk'. apply (H2 k Hk). by right.
    + by rewrite <- app_assoc.
  - done.
  - pose proof (pres_returns _ _ _ _ _ (run_op_fewer o) E Hr) as Hf.
    by eapply sublist_keys_NoDup.
  - by rewrite E.
Qed.

(** C27: no job is out twice: whatever requests, completions and failures arrive
    between the parts of the iterations of the distribution loop, the jobs that
    are locked by clients have distinct keys, as long as the query of every
    partition returns jobs of the partition that are not to be skipped. *)
Theorem jobs_are_out_once dbs s p :
  Forall query_ok dbs → NoDup (db_Partition <$> dbs) → server_reachable dbs (s, p) →
  NoDup (dj_jobKey <$> s.(js_distributedJobs)).
Proof.
  intros Hq Hnd Hr. apply server_reachable_inv in Hr; [|done..].
  unfold server_inv in Hr. by apply NoDup_app in Hr as [? _].
Qed.

(** A subscription over the stream of a node that is not subscribed any
    more (it was removed when an older stream of the same node ended) returns
    with nodeMu read-locked: from then on adding or removing a node waits for
    ever. *)
Theorem unknown_node_blocks_server s nodeID clientID jType ids stream fails other :
  s.(js_clientMu) = free_mutex → s.(js_nodeMu) = free_mutex → s.(js_nodeSubs) !! nodeID = None →
  ∃ s', subscribeClient nodeID clientID jType s = (Ret tt, s') ∧
    s'.(js_nodeMu) = {| rw_writer := false; rw_readers := 1 |} ∧
    (addNodeSubscription (Some [ids]) stream fails s').1 = Block ∧
    (removeNode other s').1 = Block.
Proof.
  intros Hc Hn Hs. unfold subscribeClient.
  erewrite bind_step by (unfold clientMu_Lock, Lock; rewrite Hc; reflexivity).
  erewrite bind_step by (unfold nodeMu_RLock, RLock; simpl; rewrite Hn; reflexivity).
  erewrite (bind_step get) by reflexivity. cbn [js_nodeSubs set_nodeMu set_clientMu]. rewrite Hs.
  erewrite bind_step by reflexivity. eexists. split; [reflexivity|]. split; [done|].
  by split.
Qed.

(** ** Concrete instances *)

Definition a_stream : nodeSub := {| ns_nodeID := "n"; ns_stream := 7; ns_fails := false |}.
Definition two_clients : jobServer :=
  set_clients {["t" := {["a" := a_stream; "b" := a_stream]}]}
    {["t" := {| jt_index := 0; jt_clients := ["a"; "b"] |}]} newJobServer.

Lemma client_choice_ends_witness :
  ∃ j, index_loop 3 {["a" := 0; "b" := 2; "c" := 5]}%Z ["a"; "b"; "c"] 1 1 two_clients = (Ret j, two_clients) ∧
    is_Some (["a"; "b"; "c"] !! Z.to_nat j) ∧
    ((0 < slots_of {["a" := 0; "b" := 2; "c" := 5]}%Z ["a"; "b"; "c"] j)%Z ∨
     (j = 1%Z ∧ ∀ i, (0 ≤ i < cycle ["a"; "b"; "c"])%Z →
       (slots_of {["a" := 0; "b" := 2; "c" := 5]}%Z ["a"; "b"; "c"] i ≤ 0)%Z)).
Proof.
  apply (client_choice_ends {["a" := 0; "b" := 2; "c" := 5]}%Z ["a"; "b"; "c"] 0 two_clients);
    [discriminate|lia].
Defined.

Lemma second_client_starves_witness :
  ∃ s', for_each [ {| lj_Key := 1; lj_Type := "t" |}; {| lj_Key := 2; lj_Type := "t" |} ]
          (dispatch 2 {["a" := 1; "b" := 10]}%Z) two_clients = (Ret tt, s') ∧
    s'.(js_distributedJobs) =
      [ {| dj_sentTime := 0; dj_client := "a"; dj_jobKey := 1 |};
        {| dj_sentTime := 0; dj_client := "a"; dj_jobKey := 2 |} ] ∧
    s'.(js_sent) =
      [ (7%Z, "a", {| lj_Key := 1; lj_Type := "t" |}); (7%Z, "a", {| lj_Key := 2; lj_Type := "t" |}) ].
Proof.
  refine (second_client_starves _ _ "t" "a" "b" 0 {["a" := a_stream; "b" := a_stream]} a_stream
    two_clients _ _ _ _ _ _ _); [reflexivity|lia|reflexivity|reflexivity|reflexivity|reflexivity|].
  by repeat constructor.
Defined.

Lemma unknown_node_blocks_server_witness :
  ∃ s', subscribeClient "gone" "a" "t" two_clients = (Ret tt, s') ∧
    s'.(js_nodeMu) = {| rw_writer := false; rw_readers := 1 |} ∧
    (addNodeSubscription (Some ["n"]) 8 false s').1 = Block ∧
    (removeNode "n" s').1 = Block.
Proof.
  apply (unknown_node_blocks_server two_clients "gone" "a" "t" "n" 8 false "n"); reflexivity.
Defined.

(** One partition with one waiting job, which its query leaves out when it is
    to be skipped. *)
Definition one_job : LoadedJob := {| lj_Key := 5; lj_Type := "t" |}.
Definition one_db : PartitionDB :=
  {| db_Partition := 0;
     db_GetWaitingJobs := λ skip _ _, Good (if bool_decide (5%Z ∈ skip) then [] else [one_job]) |}.
Definition add_node : server_op := OpAddNode (Some ["n"]) 7 false.
Definition subscribe (c : string) : server_op := OpRecv a_stream (Recv_Request (TYPE_SUBSCRIBE c "t")).
Definition ready : jobServer :=
  fold_left (λ s o, (run_op o s).2) [add_node; subscribe "a"; subscribe "b"] newJobServer.
Definition loaded : jobServer := (prepare ready).2.
Definition ready_slots : gmap string Z :=
  (collect 0 (initial_slots ready.(js_jobTypes)) []).(col_clients).
Definition served : jobServer := (dispatch 2 ready_slots one_job loaded).2.

Lemma one_db_ok : Forall query_ok [one_db].
Proof.
  constructor; [|constructor]. intros skip types count jobs [= <-]. case_bool_decide; simpl.
  - split; constructor.
  - split; [apply NoDup_singleton|]. repeat constructor. done.
Qed.

Lemma ready_reachable : server_reachable [one_db] (ready, None).
Proof.
  assert (Hop : ∀ s o, returns (run_op o s).1 → server_reachable [one_db] (s, None) →
    server_reachable [one_db] ((run_op o s).2, None)).
  { intros s o Hr Hs. eapply srv_next; [exact Hs|]. eapply srv_op; [apply surjective_pairing|exact Hr]. }
  apply (Hop _ (subscribe "b")); [done|]. apply (Hop _ (subscribe "a")); [done|].
  apply (Hop _ add_node); [done|]. constructor.
Qed.

Lemma served_reachable : server_reachable [one_db] (served, Some (ready_slots, [])).
Proof.
  eapply srv_next; [eapply srv_next; [apply ready_reachable|]|].
  - eapply (srv_load _ _ loaded _ ["t"] [] 20 [one_job]); vm_compute; reflexivity.
  - apply (srv_dispatch _ _ _ 2 ready_slots one_job []). vm_compute. reflexivity.
Qed.

Lemma jobs_are_out_once_witness :
  served.(js_distributedJobs) = [ {| dj_sentTime := 0; dj_client := "a"; dj_jobKey := 5 |} ] ∧
  NoDup (dj_jobKey <$> served.(js_distributedJobs)).
Proof.
  split; [vm_compute; reflexivity|].
  apply (jobs_are_out_once [one_db] served (Some (ready_slots, [])));
    [apply one_db_ok|apply NoDup_singleton|apply served_reachable].
Defined.
