(* ===== verification/Sql.v ===== *)
(** The SQL tables of a partition (internal/sql): the rows (models.go), the
    statements and queries that sqlc generates from queries/*.sql, and the
    constraints of migrations/*.sql as SQLite checks them.

    A table is a map from its primary key.  A query without ORDER BY returns
    its rows in an order the database chooses: [TableScan].  Variables are kept
    as their JSON text; the message of an incident as the error it is the text
    of.  NULL is [None]. *)
From S2P Require Import Prelude Monad Runtime.

(** ** Times and states as integers *)

Definition UnixMilli (t : Z) : Z := (t / 1000000)%Z.
Definition time_UnixMilli (ms : Z) : Z := (ms * 1000000)%Z.
Definition Unix (t : Z) : Z := (t / 1000000000)%Z.

Lemma UnixMilli_time ms : UnixMilli (time_UnixMilli ms) = ms.
Proof. unfold UnixMilli, time_UnixMilli. by rewrite Z.div_mul. Qed.

Definition ActivityState_int (s : ActivityState) : Z :=
  match s with
  | ActivityStateZero => 0 | ActivityStateActive => 1 | ActivityStateCompensated => 2
  | ActivityStateCompensating => 3 | ActivityStateCompleted => 4 | ActivityStateCompleting => 5
  | ActivityStateFailed => 6 | ActivityStateFailing => 7 | ActivityStateReady => 8
  | ActivityStateTerminated => 9 | ActivityStateTerminating => 10 | ActivityStateWithdrawn => 11
  end.

(** The conversion from an integer; a number that is no state is the zero one. *)
Definition ActivityState_of (n : Z) : ActivityState :=
  match n with
  | 1 => ActivityStateActive | 2 => ActivityStateCompensated | 3 => ActivityStateCompensating
  | 4 => ActivityStateCompleted | 5 => ActivityStateCompleting | 6 => ActivityStateFailed
  | 7 => ActivityStateFailing | 8 => ActivityStateReady | 9 => ActivityStateTerminated
  | 10 => ActivityStateTerminating | 11 => ActivityStateWithdrawn | _ => ActivityStateZero
  end%Z.

Definition TimerState_int (s : TimerState) : Z :=
  match s with
  | TimerStateZero => 0 | TimerStateCreated => 1 | TimerStateTriggered => 2 | TimerStateCancelled => 3
  end.
Definition TimerState_of (n : Z) : TimerState :=
  match n with
  | 1 => TimerStateCreated | 2 => TimerStateTriggered | 3 => TimerStateCancelled | _ => TimerStateZero
  end%Z.

Definition TokenState_int (s : TokenState) : Z :=
  match s with
  | TokenStateZero => 0 | TokenStateRunning => 1 | TokenStateWaiting => 2 | TokenStateCompleted => 3
  | TokenStateCanceled => 4 | TokenStateFailed => 5
  end.
Definition TokenState_of (n : Z) : TokenState :=
  match n with
  | 1 => TokenStateRunning | 2 => TokenStateWaiting | 3 => TokenStateCompleted
  | 4 => TokenStateCanceled | 5 => TokenStateFailed | _ => TokenStateZero
  end%Z.

Definition ProcessType_int (t : ProcessType) : Z :=
  match t with
  | ProcessTypeDefault => 1 | ProcessTypeSubProcess => 2 | ProcessTypeCallActivity => 3
  | ProcessTypeMultiInstance => 4
  end.

Create Rewrite HintDb sql.
Lemma ActivityState_of_int s : ActivityState_of (ActivityState_int s) = s.
Proof. by destruct s. Qed.
Lemma TimerState_of_int s : TimerState_of (TimerState_int s) = s.
Proof. by destruct s. Qed.
Lemma TokenState_of_int s : TokenState_of (TokenState_int s) = s.
Proof. by destruct s. Qed.
#[export] Hint Rewrite ActivityState_of_int TimerState_of_int TokenState_of_int UnixMilli_time : sql.

(** ** Rows *)

Record TokenRow := {
  tor_Key : Z; tor_ElementInstanceKey : Z; tor_ElementID : string; tor_ProcessInstanceKey : Z;
  tor_State : Z; tor_CreatedAt : Z }.

Record ElementRow := {
  elr_Key : Z; elr_ElementID : string; elr_ProcessInstanceKey : Z; elr_ExecutionTokenKey : Z;
  elr_CreatedAt : Z; elr_InputVariables : string; elr_OutputVariables : string }.

Record IncidentRow := {
  icr_Key : Z; icr_ElementInstanceKey : Z; icr_ElementID : string; icr_ProcessInstanceKey : Z;
  icr_Message : error; icr_CreatedAt : Z; icr_ResolvedAt : option Z; icr_ExecutionToken : Z }.

Record JobRow := {
  jor_Key : Z; jor_ElementInstanceKey : Z; jor_ElementID : string; jor_ProcessInstanceKey : Z;
  jor_Type : string; jor_State : Z; jor_CreatedAt : Z; jor_Variables : string;
  jor_ExecutionToken : Z; jor_Assignee : option string }.

Record SubscriptionRow := {
  sur_Key : Z; sur_ElementID : string; sur_ProcessDefinitionKey : Z; sur_ProcessInstanceKey : Z;
  sur_Name : string; sur_State : Z; sur_CreatedAt : Z; sur_CorrelationKey : string;
  sur_ExecutionToken : Z }.

Record PointerRow := {
  por_Name : string; por_CorrelationKey : string; por_State : Z; por_CreatedAt : Z;
  por_MessageSubscriptionKey : Z; por_ExecutionTokenKey : Z }.

Record DefinitionRow := {
  der_Key : Z; der_Version : Z; der_BpmnProcessID : string; der_BpmnData : string;
  der_BpmnChecksum : list Z; der_BpmnProcessName : string }.

Record InstanceRow := {
  inr_Key : Z; inr_ProcessDefinitionKey : Z; inr_BusinessKey : option string; inr_CreatedAt : Z;
  inr_State : Z; inr_Variables : string; inr_ParentProcessExecutionToken : option Z;
  inr_ParentProcessTargetElementID : option string;
  inr_ParentProcessTargetElementInstanceKey : option Z; inr_ProcessType : Z;
  inr_HistoryTtlSec : option Z; inr_HistoryDeleteSec : option Z }.

Record TimerRow := {
  tir_Key : Z; tir_ElementInstanceKey : Z; tir_ElementID : string; tir_ProcessDefinitionKey : Z;
  tir_ProcessInstanceKey : Z; tir_State : Z; tir_CreatedAt : Z; tir_DueAt : Z;
  tir_ExecutionToken : Z }.

Record DecisionRow := {
  dcr_Key : Z; dcr_Version : Z; dcr_DecisionID : string; dcr_VersionTag : string;
  dcr_DmnResourceDefinitionID : string; dcr_DmnResourceDefinitionKey : Z }.

Record ResourceRow := {
  rer_Key : Z; rer_Version : Z; rer_DmnResourceDefinitionID : string; rer_DmnData : string;
  rer_DmnChecksum : list Z; rer_DmnDefinitionName : string }.

Record DecisionInstanceRow := {
  dir_Key : Z; dir_DecisionID : string; dir_CreatedAt : Z; dir_OutputVariables : string;
  dir_EvaluatedDecisions : string; dir_DmnResourceDefinitionKey : Z;
  dir_DecisionDefinitionKey : Z; dir_ProcessInstanceKey : option Z;
  dir_FlowElementInstanceKey : option Z }.

(** ** The database *)

Record Database := {
  tb_process_definition : gmap Z DefinitionRow;
  tb_process_instance : gmap Z InstanceRow;
  tb_message_subscription_pointer : gmap (string * string) PointerRow;
  tb_message_subscription : gmap Z SubscriptionRow;
  tb_timer : gmap Z TimerRow;
  tb_job : gmap Z JobRow;
  tb_execution_token : gmap Z TokenRow;
  tb_flow_element_instance : gmap Z ElementRow;
  tb_incident : gmap Z IncidentRow;
  tb_dmn_resource_definition : gmap Z ResourceRow;
  tb_decision_definition : gmap Z DecisionRow;
  tb_decision_instance : gmap Z DecisionInstanceRow }.

Definition empty_database : Database :=
  {| tb_process_definition := ∅; tb_process_instance := ∅; tb_message_subscription_pointer := ∅;
     tb_message_subscription := ∅; tb_timer := ∅; tb_job := ∅; tb_execution_token := ∅;
     tb_flow_element_instance := ∅; tb_incident := ∅; tb_dmn_resource_definition := ∅;
     tb_decision_definition := ∅; tb_decision_instance := ∅ |}.

Definition set_tb_process_definition m (d : Database) : Database :=
  {| tb_process_definition := m; tb_process_instance := d.(tb_process_instance);
     tb_message_subscription_pointer := d.(tb_message_subscription_pointer);
     tb_message_subscription := d.(tb_message_subscription); tb_timer := d.(tb_timer); tb_job := d.(tb_job);
     tb_execution_token := d.(tb_execution_token); tb_flow_element_instance := d.(tb_flow_element_instance);
     tb_incident := d.(tb_incident); tb_dmn_resource_definition := d.(tb_dmn_resource_definition);
     tb_decision_definition := d.(tb_decision_definition); tb_decision_instance := d.(tb_decision_instance) |}.
Definition set_tb_process_instance m (d : Database) : Database :=
  {| tb_process_definition := d.(tb_process_definition); tb_process_instance := m;
     tb_message_subscription_pointer := d.(tb_message_subscription_pointer);
     tb_message_subscription := d.(tb_message_subscription); tb_timer := d.(tb_timer); tb_job := d.(tb_job);
     tb_execution_token := d.(tb_execution_token); tb_flow_element_instance := d.(tb_flow_element_instance);
     tb_incident := d.(tb_incident); tb_dmn_resource_definition := d.(tb_dmn_resource_definition);
     tb_decision_definition := d.(tb_decision_definition); tb_decision_instance := d.(tb_decision_instance) |}.
Definition set_tb_message_subscription_pointer m (d : Database) : Database :=
  {| tb_process_definition := d.(tb_process_definition); tb_process_instance := d.(tb_process_instance);
     tb_message_subscription_pointer := m; tb_message_subscription := d.(tb_message_subscription);
     tb_timer := d.(tb_timer); tb_job := d.(tb_job); tb_execution_token := d.(tb_execution_token);
     tb_flow_element_instance := d.(tb_flow_element_instance); tb_incident := d.(tb_incident);
     tb_dmn_resource_definition := d.(tb_dmn_resource_definition);
     tb_decision_definition := d.(tb_decision_definition); tb_decision_instance := d.(tb_decision_instance) |}.
Definition set_tb_message_subscription m (d : Database) : Database :=
  {| tb_process_definition := d.(tb_process_definition); tb_process_instance := d.(tb_process_instance);
     tb_message_subscription_pointer := d.(tb_message_subscription_pointer); tb_message_subscription := m;
     tb_timer := d.(tb_timer); tb_job := d.(tb_job); tb_execution_token := d.(tb_execution_token);
     tb_flow_element_instance := d.(tb_flow_element_instance); tb_incident := d.(tb_incident);
     tb_dmn_resource_definition := d.(tb_dmn_resource_definition);
     tb_decision_definition := d.(tb_decision_definition); tb_decision_instance := d.(tb_decision_instance) |}.
Definition set_tb_timer m (d : Database) : Database :=
  {| tb_process_definition := d.(tb_process_definition); tb_process_instance := d.(tb_process_instance);
     tb_message_subscription_pointer := d.(tb_message_subscription_pointer);
     tb_message_subscription := d.(tb_message_subscription); tb_timer := m; tb_job := d.(tb_job);
     tb_execution_token := d.(tb_execution_token); tb_flow_element_instance := d.(tb_flow_element_instance);
     tb_incident := d.(tb_incident); tb_dmn_resource_definition := d.(tb_dmn_resource_definition);
     tb_decision_definition := d.(tb_decision_definition); tb_decision_instance := d.(tb_decision_instance) |}.
Definition set_tb_job m (d : Database) : Database :=
  {| tb_process_definition := d.(tb_process_definition); tb_process_instance := d.(tb_process_instance);
     tb_message_subscription_pointer := d.(tb_message_subscription_pointer);
     tb_message_subscription := d.(tb_message_subscription); tb_timer := d.(tb_timer); tb_job := m;
     tb_execution_token := d.(tb_execution_token); tb_flow_element_instance := d.(tb_flow_element_instance);
     tb_incident := d.(tb_incident); tb_dmn_resource_definition := d.(tb_dmn_resource_definition);
     tb_decision_definition := d.(tb_decision_definition); tb_decision_instance := d.(tb_decision_instance) |}.
Definition set_tb_execution_token m (d : Database) : Database :=
  {| tb_process_definition := d.(tb_process_definition); tb_process_instance := d.(tb_process_instance);
     tb_message_subscription_pointer := d.(tb_message_subscription_pointer);
     tb_message_subscription := d.(tb_message_subscription); tb_timer := d.(tb_timer); tb_job := d.(tb_job);
     tb_execution_token := m; tb_flow_element_instance := d.(tb_flow_element_instance);
     tb_incident := d.(tb_incident); tb_dmn_resource_definition := d.(tb_dmn_resource_definition);
     tb_decision_definition := d.(tb_decision_definition); tb_decision_instance := d.(tb_decision_instance) |}.
Definition set_tb_flow_element_instance m (d : Database) : Database :=
  {| tb_process_definition := d.(tb_process_definition); tb_process_instance := d.(tb_process_instance);
     tb_message_subscription_pointer := d.(tb_message_subscription_pointer);
     tb_message_subscription := d.(tb_message_subscription); tb_timer := d.(tb_timer); tb_job := d.(tb_job);
     tb_execution_token := d.(tb_execution_token); tb_flow_element_instance := m;
     tb_incident := d.(tb_incident); tb_dmn_resource_definition := d.(tb_dmn_resource_definition);
     tb_decision_definition := d.(tb_decision_definition); tb_decision_instance := d.(tb_decision_instance) |}.
Definition set_tb_incident m (d : Database) : Database :=
  {| tb_process_definition := d.(tb_process_definition); tb_process_instance := d.(tb_process_instance);
     tb_message_subscription_pointer := d.(tb_message_subscription_pointer);
     tb_message_subscription := d.(tb_message_subscription); tb_timer := d.(tb_timer); tb_job := d.(tb_job);
     tb_execution_token := d.(tb_execution_token); tb_flow_element_instance := d.(tb_flow_element_instance);
     tb_incident := m; tb_dmn_resource_definition := d.(tb_dmn_resource_definition);
     tb_decision_definition := d.(tb_decision_definition); tb_decision_instance := d.(tb_decision_instance) |}.
Definition set_tb_dmn_resource_definition m (d : Database) : Database :=
  {| tb_process_definition := d.(tb_process_definition); tb_process_instance := d.(tb_process_instance);
     tb_message_subscription_pointer := d.(tb_message_subscription_pointer);
     tb_message_subscription := d.(tb_message_subscription); tb_timer := d.(tb_timer); tb_job := d.(tb_job);
     tb_execution_token := d.(tb_execution_token); tb_flow_element_instance := d.(tb_flow_element_instance);
     tb_incident := d.(tb_incident); tb_dmn_resource_definition := m;
     tb_decision_definition := d.(tb_decision_definition); tb_decision_instance := d.(tb_decision_instance) |}.
Definition set_tb_decision_definition m (d : Database) : Database :=
  {| tb_process_definition := d.(tb_process_definition); tb_process_instance := d.(tb_process_instance);
     tb_message_subscription_pointer := d.(tb_message_subscription_pointer);
     tb_message_subscription := d.(tb_message_subscription); tb_timer := d.(tb_timer); tb_job := d.(tb_job);
     tb_execution_token := d.(tb_execution_token); tb_flow_element_instance := d.(tb_flow_element_instance);
     tb_incident := d.(tb_incident); tb_dmn_resource_definition := d.(tb_dmn_resource_definition);
     tb_decision_definition := m; tb_decision_instance := d.(tb_decision_instance) |}.
Definition set_tb_decision_instance m (d : Database) : Database :=
  {| tb_process_definition := d.(tb_process_definition); tb_process_instance := d.(tb_process_instance);
     tb_message_subscription_pointer := d.(tb_message_subscription_pointer);
     tb_message_subscription := d.(tb_message_subscription); tb_timer := d.(tb_timer); tb_job := d.(tb_job);
     tb_execution_token := d.(tb_execution_token); tb_flow_element_instance := d.(tb_flow_element_instance);
     tb_incident := d.(tb_incident); tb_dmn_resource_definition := d.(tb_dmn_resource_definition);
     tb_decision_definition := d.(tb_decision_definition); tb_decision_instance := m |}.

(** ** Statements *)

(** One constructor per generated statement; the row of SaveProcessInstance
    has no TTL columns. *)
Inductive SqlStmt :=
| SqlSaveProcessDefinition (r : DefinitionRow)
| SqlSaveProcessInstance (r : InstanceRow)
| SqlSetProcessInstanceTTL (historyTTLSec historyDeleteSec : option Z) (key : Z)
| SqlSaveMessageSubscriptionPointer (r : PointerRow)
| SqlSaveMessageSubscription (r : SubscriptionRow)
| SqlSaveTimer (r : TimerRow)
| SqlSaveJob (r : JobRow)
| SqlSaveToken (r : TokenRow)
| SqlSaveFlowElementInstance (r : ElementRow)
| SqlUpdateOutputFlowElementInstance (r : ElementRow)
| SqlSaveIncident (r : IncidentRow)
| SqlSaveDmnResourceDefinition (r : ResourceRow)
| SqlSaveDecisionDefinition (r : DecisionRow)
| SqlSaveDecisionInstance (r : DecisionInstanceRow)
| SqlDeleteProcessInstancesDecisionInstances (keys : list Z)
| SqlDeleteFlowElementInstance (keys : list Z)
| SqlDeleteProcessInstancesTokens (keys : list Z)
| SqlDeleteProcessInstancesJobs (keys : list Z)
| SqlDeleteProcessInstancesTimers (keys : list Z)
| SqlDeleteProcessInstancesMessageSubscriptions (keys : list Z)
| SqlDeleteProcessInstancesIncidents (keys : list Z)
| SqlDeleteProcessInstances (keys : list Z).

Definition UNIQUE_failed : error := err! "UNIQUE constraint failed".
Definition FOREIGN_KEY_failed : error := err! "FOREIGN KEY constraint failed".

(** INSERT of a new row; [refs]: the rows it references exist, or foreign keys
    are not enforced. *)
Definition sql_insert {K A} `{Countable K} (refs : bool) (k : K) (r : A) (m : gmap K A)
    : result (gmap K A) :=
  match m !! k with
  | Some _ => Bad UNIQUE_failed
  | None => if refs then Good (<[k := r]> m) else Bad FOREIGN_KEY_failed
  end.

(** INSERT ... ON CONFLICT DO UPDATE: [upd old] sets the listed columns, none
    of which is a foreign key. *)
Definition sql_upsert {K A} `{Countable K} (refs : bool) (k : K) (r : A) (upd : A → A) (m : gmap K A)
    : result (gmap K A) :=
  match m !! k with
  | Some old => Good (<[k := upd old]> m)
  | None => if refs then Good (<[k := r]> m) else Bad FOREIGN_KEY_failed
  end.

(** DELETE ... WHERE column IN (keys). *)
Definition kept_row (keys : list Z) (o : option Z) : Prop :=
  match o with Some k => k ∉ keys | None => True end.
#[export] Instance kept_row_dec keys o : Decision (kept_row keys o).
Proof. destruct o; apply _. Defined.
Definition sql_delete {A} (column : A → option Z) (keys : list Z) (m : gmap Z A) : gmap Z A :=
  filter (λ kr, kept_row keys (column kr.2)) m.

Definition has_row {A} (m : gmap Z A) (k : Z) : bool := bool_decide (is_Some (m !! k)).

Definition upd_token (r old : TokenRow) : TokenRow :=
  {| tor_Key := old.(tor_Key); tor_ElementInstanceKey := r.(tor_ElementInstanceKey);
     tor_ElementID := r.(tor_ElementID); tor_ProcessInstanceKey := old.(tor_ProcessInstanceKey);
     tor_State := r.(tor_State); tor_CreatedAt := old.(tor_CreatedAt) |}.
Definition upd_inputs (r old : ElementRow) : ElementRow :=
  {| elr_Key := old.(elr_Key); elr_ElementID := old.(elr_ElementID);
     elr_ProcessInstanceKey := old.(elr_ProcessInstanceKey);
     elr_ExecutionTokenKey := old.(elr_ExecutionTokenKey); elr_CreatedAt := old.(elr_CreatedAt);
     elr_InputVariables := r.(elr_InputVariables); elr_OutputVariables := old.(elr_OutputVariables) |}.
Definition upd_outputs (r old : ElementRow) : ElementRow :=
  {| elr_Key := old.(elr_Key); elr_ElementID := old.(elr_ElementID);
     elr_ProcessInstanceKey := old.(elr_ProcessInstanceKey);
     elr_ExecutionTokenKey := old.(elr_ExecutionTokenKey); elr_CreatedAt := old.(elr_CreatedAt);
     elr_InputVariables := old.(elr_InputVariables); elr_OutputVariables := r.(elr_OutputVariables) |}.
Definition upd_incident (r old : IncidentRow) : IncidentRow :=
  {| icr_Key := old.(icr_Key); icr_ElementInstanceKey := old.(icr_ElementInstanceKey);
     icr_ElementID := old.(icr_ElementID); icr_ProcessInstanceKey := old.(icr_ProcessInstanceKey);
     icr_Message := old.(icr_Message); icr_CreatedAt := old.(icr_CreatedAt);
     icr_ResolvedAt := r.(icr_ResolvedAt); icr_ExecutionToken := old.(icr_ExecutionToken) |}.
Definition upd_job (r old : JobRow) : JobRow :=
  {| jor_Key := old.(jor_Key); jor_ElementInstanceKey := old.(jor_ElementInstanceKey);
     jor_ElementID := old.(jor_ElementID); jor_ProcessInstanceKey := old.(jor_ProcessInstanceKey);
     jor_Type := old.(jor_Type); jor_State := r.(jor_State); jor_CreatedAt := old.(jor_CreatedAt);
     jor_Variables := r.(jor_Variables); jor_ExecutionToken := old.(jor_ExecutionToken);
     jor_Assignee := r.(jor_Assignee) |}.
Definition upd_subscription (r old : SubscriptionRow) : SubscriptionRow :=
  {| sur_Key := old.(sur_Key); sur_ElementID := old.(sur_ElementID);
     sur_ProcessDefinitionKey := old.(sur_ProcessDefinitionKey);
     sur_ProcessInstanceKey := old.(sur_ProcessInstanceKey); sur_Name := old.(sur_Name);
     sur_State := r.(sur_State); sur_CreatedAt := old.(sur_CreatedAt);
     sur_CorrelationKey := old.(sur_CorrelationKey); sur_ExecutionToken := old.(sur_ExecutionToken) |}.
Definition upd_timer (r old : TimerRow) : TimerRow :=
  {| tir_Key := old.(tir_Key); tir_ElementInstanceKey := old.(tir_ElementInstanceKey);
     tir_ElementID := old.(tir_ElementID); tir_ProcessDefinitionKey := old.(tir_ProcessDefinitionKey);
     tir_ProcessInstanceKey := old.(tir_ProcessInstanceKey); tir_State := r.(tir_State);
     tir_CreatedAt := old.(tir_CreatedAt); tir_DueAt := old.(tir_DueAt);
     tir_ExecutionToken := old.(tir_ExecutionToken) |}.
Definition upd_instance (r old : InstanceRow) : InstanceRow :=
  {| inr_Key := old.(inr_Key); inr_ProcessDefinitionKey := old.(inr_ProcessDefinitionKey);
     inr_BusinessKey := r.(inr_BusinessKey); inr_CreatedAt := old.(inr_CreatedAt);
     inr_State := r.(inr_State); inr_Variables := r.(inr_Variables);
     inr_ParentProcessExecutionToken := old.(inr_ParentProcessExecutionToken);
     inr_ParentProcessTargetElementID := old.(inr_ParentProcessTargetElementID);
     inr_ParentProcessTargetElementInstanceKey := old.(inr_ParentProcessTargetElementInstanceKey);
     inr_ProcessType := old.(inr_ProcessType); inr_HistoryTtlSec := old.(inr_HistoryTtlSec);
     inr_HistoryDeleteSec := old.(inr_HistoryDeleteSec) |}.
(** An argument that is NULL leaves its column. *)
Definition set_ttl (ttl del : option Z) (old : InstanceRow) : InstanceRow :=
  {| inr_Key := old.(inr_Key); inr_ProcessDefinitionKey := old.(inr_ProcessDefinitionKey);
     inr_BusinessKey := old.(inr_BusinessKey); inr_CreatedAt := old.(inr_CreatedAt);
     inr_State := old.(inr_State); inr_Variables := old.(inr_Variables);
     inr_ParentProcessExecutionToken := old.(inr_ParentProcessExecutionToken);
     inr_ParentProcessTargetElementID := old.(inr_ParentProcessTargetElementID);
     inr_ParentProcessTargetElementInstanceKey := old.(inr_ParentProcessTargetElementInstanceKey);
     inr_ProcessType := old.(inr_ProcessType);
     inr_HistoryTtlSec := match ttl with Some t => Some t | None => old.(inr_HistoryTtlSec) end;
     inr_HistoryDeleteSec := match del with Some t => Some t | None => old.(inr_HistoryDeleteSec) end |}.

(** The rows of other tables that reference the process instance. *)
Definition references_instance (d : Database) (k : Z) : Prop :=
  map_Exists (λ _ r, r.(sur_ProcessInstanceKey) = k) d.(tb_message_subscription) ∨
  map_Exists (λ _ r, r.(tir_ProcessInstanceKey) = k) d.(tb_timer) ∨
  map_Exists (λ _ r, r.(jor_ProcessInstanceKey) = k) d.(tb_job) ∨
  map_Exists (λ _ r, r.(tor_ProcessInstanceKey) = k) d.(tb_execution_token) ∨
  map_Exists (λ _ r, r.(elr_ProcessInstanceKey) = k) d.(tb_flow_element_instance) ∨
  map_Exists (λ _ r, r.(icr_ProcessInstanceKey) = k) d.(tb_incident) ∨
  map_Exists (λ _ r, r.(dir_ProcessInstanceKey) = Some k) d.(tb_decision_instance).
#[export] Instance references_instance_dec d k : Decision (references_instance d k).
Proof. unfold references_instance. apply _. Defined.

Definition sql_delete_instances (fk : bool) (keys : list Z) (d : Database) : result Database :=
  if (fk && bool_decide (Exists (λ k, is_Some (d.(tb_process_instance) !! k) ∧ references_instance d k) keys))%bool
  then Bad FOREIGN_KEY_failed
  else Good (set_tb_process_instance
               (filter (λ kr, kr.1 ∉ keys) d.(tb_process_instance)) d).

(** One statement; [fk]: the connection enforces foreign keys. *)
Definition exec_stmt (fk : bool) (s : SqlStmt) (d : Database) : result Database :=
  let def k := (negb fk || has_row d.(tb_process_definition) k)%bool in
  let inst k := (negb fk || has_row d.(tb_process_instance) k)%bool in
  match s with
  | SqlSaveProcessDefinition r =>
      m ← sql_insert true r.(der_Key) r d.(tb_process_definition); Good (set_tb_process_definition m d)
  | SqlSaveProcessInstance r =>
      m ← sql_upsert (def r.(inr_ProcessDefinitionKey)) r.(inr_Key) r (upd_instance r) d.(tb_process_instance);
      Good (set_tb_process_instance m d)
  | SqlSetProcessInstanceTTL ttl del k =>
      Good (set_tb_process_instance (alter (set_ttl ttl del) k d.(tb_process_instance)) d)
  | SqlSaveMessageSubscriptionPointer r =>
      m ← sql_upsert true (r.(por_Name), r.(por_CorrelationKey)) r (λ _, r)
            d.(tb_message_subscription_pointer);
      Good (set_tb_message_subscription_pointer m d)
  | SqlSaveMessageSubscription r =>
      m ← sql_upsert (inst r.(sur_ProcessInstanceKey) && def r.(sur_ProcessDefinitionKey))
            r.(sur_Key) r (upd_subscription r) d.(tb_message_subscription);
      Good (set_tb_message_subscription m d)
  | SqlSaveTimer r =>
      m ← sql_upsert (inst r.(tir_ProcessInstanceKey) && def r.(tir_ProcessDefinitionKey))
            r.(tir_Key) r (upd_timer r) d.(tb_timer);
      Good (set_tb_timer m d)
  | SqlSaveJob r =>
      m ← sql_upsert (inst r.(jor_ProcessInstanceKey)) r.(jor_Key) r (upd_job r) d.(tb_job);
      Good (set_tb_job m d)
  | SqlSaveToken r =>
      m ← sql_upsert (inst r.(tor_ProcessInstanceKey)) r.(tor_Key) r (upd_token r) d.(tb_execution_token);
      Good (set_tb_execution_token m d)
  | SqlSaveFlowElementInstance r =>
      m ← sql_upsert (inst r.(elr_ProcessInstanceKey)) r.(elr_Key) r (upd_inputs r)
            d.(tb_flow_element_instance);
      Good (set_tb_flow_element_instance m d)
  | SqlUpdateOutputFlowElementInstance r =>
      m ← sql_upsert (inst r.(elr_ProcessInstanceKey)) r.(elr_Key) r (upd_outputs r)
            d.(tb_flow_element_instance);
      Good (set_tb_flow_element_instance m d)
  | SqlSaveIncident r =>
      m ← sql_upsert (inst r.(icr_ProcessInstanceKey)) r.(icr_Key) r (upd_incident r) d.(tb_incident);
      Good (set_tb_incident m d)
  | SqlSaveDmnResourceDefinition r =>
      m ← sql_insert true r.(rer_Key) r d.(tb_dmn_resource_definition);
      Good (set_tb_dmn_resource_definition m d)
  | SqlSaveDecisionDefinition r =>
      m ← sql_insert (negb fk || has_row d.(tb_dmn_resource_definition) r.(dcr_DmnResourceDefinitionKey))
            r.(dcr_Key) r d.(tb_decision_definition);
      Good (set_tb_decision_definition m d)
  | SqlSaveDecisionInstance r =>
      m ← sql_insert
            (negb fk || (has_row d.(tb_dmn_resource_definition) r.(dir_DmnResourceDefinitionKey) &&
                         has_row d.(tb_decision_definition) r.(dir_DecisionDefinitionKey) &&
                         match r.(dir_ProcessInstanceKey) with
                         | Some k => has_row d.(tb_process_instance) k | None => true end))
            r.(dir_Key) r d.(tb_decision_instance);
      Good (set_tb_decision_instance m d)
  | SqlDeleteProcessInstancesDecisionInstances keys =>
      Good (set_tb_decision_instance (sql_delete dir_ProcessInstanceKey keys d.(tb_decision_instance)) d)
  | SqlDeleteFlowElementInstance keys =>
      Good (set_tb_flow_element_instance
              (sql_delete (Some ∘ elr_ProcessInstanceKey) keys d.(tb_flow_element_instance)) d)
  | SqlDeleteProcessInstancesTokens keys =>
      Good (set_tb_execution_token
              (sql_delete (Some ∘ tor_ProcessInstanceKey) keys d.(tb_execution_token)) d)
  | SqlDeleteProcessInstancesJobs keys =>
      Good (set_tb_job (sql_delete (Some ∘ jor_ProcessInstanceKey) keys d.(tb_job)) d)
  | SqlDeleteProcessInstancesTimers keys =>
      Good (set_tb_timer (sql_delete (Some ∘ tir_ProcessInstanceKey) keys d.(tb_timer)) d)
  | SqlDeleteProcessInstancesMessageSubscriptions keys =>
      Good (set_tb_message_subscription
              (sql_delete (Some ∘ sur_ProcessInstanceKey) keys d.(tb_message_subscription)) d)
  | SqlDeleteProcessInstancesIncidents keys =>
      Good (set_tb_incident (sql_delete (Some ∘ icr_ProcessInstanceKey) keys d.(tb_incident)) d)
  | SqlDeleteProcessInstances keys => sql_delete_instances fk keys d
  end.

(** The statements of a request in their order, up to the first that fails. *)
Fixpoint exec_stmts (fk : bool) (l : list SqlStmt) (d : Database) : result Database :=
  match l with
  | [] => Good d
  | s :: l' => d' ← exec_stmt fk s d; exec_stmts fk l' d'
  end.

Lemma exec_stmts_app fk l1 l2 d :
  exec_stmts fk (l1 ++ l2) d = exec_stmts fk l1 d ≫= exec_stmts fk l2.
Proof.
  revert d. induction l1 as [|s l1 IH]; intros d; simpl; [done|].
  destruct (exec_stmt fk s d); simpl; [apply IH|done].
Qed.

(** ** Queries *)

(** The orders the database chooses: the one in which it returns the rows of a
    table, and, for a query with LIMIT and OFFSET, the one in which the selected
    rows reach the sort of its ORDER BY, which may be another one for every
    limit and offset. *)
Class TableScan := {
  scan : ∀ {A}, gmap Z A → list (Z * A);
  scan_perm : ∀ A (m : gmap Z A), scan m ≡ₚ map_to_list m;
  arrival : ∀ {A}, Z → nat → list A → list A;
  arrival_perm : ∀ A limit offset (l : list A), arrival limit offset l ≡ₚ l
}.

Definition select {A} `{TableScan} (P : A → Prop) `{!∀ x, Decision (P x)} (m : gmap Z A) : list A :=
  filter P (scan m).*2.

Lemma elem_of_select `{TableScan} {A} (P : A → Prop) `{!∀ x, Decision (P x)} (m : gmap Z A) x :
  x ∈ select P m ↔ P x ∧ ∃ k, m !! k = Some x.
Proof.
  unfold select. rewrite list_elem_of_filter. apply and_iff_compat_l.
  rewrite scan_perm, list_elem_of_fmap. split.
  - intros ([k y] & -> & Hk%elem_of_map_to_list). by exists k.
  - intros [k Hk%elem_of_map_to_list]. by exists (k, x).
Qed.

Lemma select_perm `{TableScan} {A} (P : A → Prop) `{!∀ x, Decision (P x)} (m : gmap Z A) :
  select P m ≡ₚ filter P (map_values m).
Proof. unfold select, map_values. by rewrite scan_perm. Qed.

(** ORDER BY a column. *)
Definition asc {A} (key : A → Z) (x y : A) : Prop := (key x ≤ key y)%Z.
Definition desc {A} (key : A → Z) (x y : A) : Prop := (key y ≤ key x)%Z.
#[export] Instance asc_dec {A} (key : A → Z) : RelDecision (asc key) := λ x y, decide (key x ≤ key y)%Z.
#[export] Instance desc_dec {A} (key : A → Z) : RelDecision (desc key) := λ x y, decide (key y ≤ key x)%Z.
Definition order_asc {A} (key : A → Z) : list A → list A := merge_sort (asc key).
Definition order_desc {A} (key : A → Z) : list A → list A := merge_sort (desc key).

Lemma order_asc_perm {A} (key : A → Z) l : order_asc key l ≡ₚ l.
Proof. apply merge_sort_Permutation. Qed.
Lemma order_desc_perm {A} (key : A → Z) l : order_desc key l ≡ₚ l.
Proof. apply merge_sort_Permutation. Qed.

#[export] Instance desc_trans {A} (key : A → Z) : Transitive (desc key).
Proof. unfold desc. intros x y z ? ?. lia. Qed.
#[export] Instance desc_total {A} (key : A → Z) : Total (desc key).
Proof. unfold desc. intros x y. lia. Qed.

(** The first row of a descending order has the highest value. *)
Lemma order_desc_head {A} (key : A → Z) l x :
  head (order_desc key l) = Some x → x ∈ l ∧ ∀ y, y ∈ l → (key y ≤ key x)%Z.
Proof.
  pose proof (order_desc_perm key l) as Hp.
  pose proof (StronglySorted_merge_sort (desc key) l) as Hs. fold (order_desc key l) in Hs.
  destruct (order_desc key l) as [|z l'] eqn:E; intros; simplify_eq/=. split.
  - rewrite <- Hp. left.
  - intros y. rewrite <- Hp, elem_of_cons. apply StronglySorted_inv in Hs as [_ Hs].
    rewrite Forall_forall in Hs. intros [->|Hy]; [done|]. by apply Hs.
Qed.

Section queries.
Context `{TableScan}.

(** process_definition.sql *)
Definition q_FindProcessDefinitionByKey (k : Z) (d : Database) : option DefinitionRow :=
  d.(tb_process_definition) !! k.
Definition q_FindLatestProcessDefinitionById (id : string) (d : Database) : option DefinitionRow :=
  head (order_desc der_Version (select (λ r, r.(der_BpmnProcessID) = id) d.(tb_process_definition))).
Definition q_FindProcessDefinitionsById (id : string) (d : Database) : list DefinitionRow :=
  order_asc der_Version (select (λ r, r.(der_BpmnProcessID) = id) d.(tb_process_definition)).

(** process_instance.sql *)
Definition q_GetProcessInstance (k : Z) (d : Database) : option InstanceRow :=
  d.(tb_process_instance) !! k.
Definition q_FindProcessesByParentExecutionToken (t : Z) (d : Database) : list InstanceRow :=
  select (λ r, r.(inr_ParentProcessExecutionToken) = Some t) d.(tb_process_instance).

(** [state IN (4, 6, 9)]: completed, failed and terminated. *)
Definition inactive_state (s : Z) : Prop := s = 4%Z ∨ s = 6%Z ∨ s = 9%Z.
#[global] Instance inactive_state_dec s : Decision (inactive_state s).
Proof. unfold inactive_state. apply _. Defined.

(** The instance of the parent token, by the two LEFT JOINs. *)
Definition parent_instance (d : Database) (r : InstanceRow) : option InstanceRow :=
  t ← r.(inr_ParentProcessExecutionToken);
  token ← d.(tb_execution_token) !! t;
  d.(tb_process_instance) !! token.(tor_ProcessInstanceKey).

(** A comparison with NULL is not true. *)
Definition to_delete (currUnix : Z) (d : Database) (r : InstanceRow) : Prop :=
  inactive_state r.(inr_State) ∧
  (r.(inr_ParentProcessExecutionToken) = None ∨
   match parent_instance d r with Some p => inactive_state p.(inr_State) | None => False end) ∧
  match r.(inr_HistoryDeleteSec) with Some t => (t < currUnix)%Z | None => True end.
#[global] Instance to_delete_dec u d r : Decision (to_delete u d r).
Proof.
  unfold to_delete. destruct (parent_instance d r), (inr_HistoryDeleteSec r); apply _.
Defined.

Definition q_FindInactiveInstancesToDelete (currUnix limit : Z) (d : Database) : list Z :=
  take (Z.to_nat limit) (inr_Key <$> select (to_delete currUnix d) d.(tb_process_instance)).

(** timer.sql *)
Definition q_GetTimerByKey (k : Z) (d : Database) : option TimerRow := d.(tb_timer) !! k.
Definition q_FindTokenTimers (token state : Z) (d : Database) : list TimerRow :=
  select (λ r, r.(tir_ExecutionToken) = token ∧ r.(tir_State) = state) d.(tb_timer).
Definition q_FindProcessInstanceTimersInState (pik state : Z) (d : Database) : list TimerRow :=
  select (λ r, r.(tir_ProcessInstanceKey) = pik ∧ r.(tir_State) = state) d.(tb_timer).
Definition q_FindTimersInStateTillDueAt (due state : Z) (d : Database) : list TimerRow :=
  select (λ r, (r.(tir_DueAt) < due)%Z ∧ r.(tir_State) = state) d.(tb_timer).

(** job.sql *)
Definition q_FindJobByJobKey (k : Z) (d : Database) : option JobRow := d.(tb_job) !! k.
Definition q_FindActiveJobsByType (type : string) (d : Database) : list JobRow :=
  select (λ r, r.(jor_Type) = type ∧ r.(jor_State) = 1%Z) d.(tb_job).
Definition q_FindProcessInstanceJobsInState (pik : Z) (states : list Z) (d : Database) : list JobRow :=
  select (λ r, r.(jor_ProcessInstanceKey) = pik ∧ (r.(jor_State) ∈ states)) d.(tb_job).
Definition q_GetJobsInStateByTokenKey (token : Z) (states : list Z) (d : Database) : list JobRow :=
  select (λ r, r.(jor_ExecutionToken) = token ∧ (r.(jor_State) ∈ states)) d.(tb_job).
Definition q_GetWaitingJobs (keySkip : list Z) (types : list string) (limit : Z) (d : Database)
    : list JobRow :=
  take (Z.to_nat limit) (order_asc jor_CreatedAt
    (select (λ r, r.(jor_State) = 1%Z ∧ (r.(jor_Type) ∈ types) ∧ (r.(jor_Key) ∉ keySkip)) d.(tb_job))).

(** message_subscription.sql and message_subscription_pointer.sql *)
Definition q_GetMessageSubscriptionById (k state : Z) (d : Database) : option SubscriptionRow :=
  r ← d.(tb_message_subscription) !! k;
  if (r.(sur_State) =? state)%Z then Some r else None.
Definition q_FindTokenMessageSubscriptions (token state : Z) (d : Database) : list SubscriptionRow :=
  select (λ r, r.(sur_ExecutionToken) = token ∧ r.(sur_State) = state) d.(tb_message_subscription).
Definition q_FindProcessInstanceMessageSubscriptions (pik state : Z) (d : Database)
    : list SubscriptionRow :=
  select (λ r, r.(sur_ProcessInstanceKey) = pik ∧ r.(sur_State) = state) d.(tb_message_subscription).
Definition q_FindMessageSubscriptionByNameAndCorrelationKeyAndState (correlationKey name : string)
    (state : Z) (d : Database) : option SubscriptionRow :=
  head (select (λ r, r.(sur_CorrelationKey) = correlationKey ∧ r.(sur_Name) = name ∧
                     r.(sur_State) = state) d.(tb_message_subscription)).
Definition q_FindMessageSubscriptionPointer (correlationKey name : string) (state : Z) (d : Database)
    : option PointerRow :=
  r ← d.(tb_message_subscription_pointer) !! (name, correlationKey);
  if (r.(por_State) =? state)%Z then Some r else None.

(** execution_token.sql *)
Definition q_GetTokensInState (state : Z) (d : Database) : list TokenRow :=
  select (λ r, r.(tor_State) = state) d.(tb_execution_token).
Definition q_GetTokensForProcessInstance (pik : Z) (states : list Z) (d : Database) : list TokenRow :=
  select (λ r, r.(tor_ProcessInstanceKey) = pik ∧ (r.(tor_State) ∈ states)) d.(tb_execution_token).
Definition q_GetAllTokensForProcessInstance (pik : Z) (d : Database) : list TokenRow :=
  select (λ r, r.(tor_ProcessInstanceKey) = pik) d.(tb_execution_token).
Definition q_GetTokens (keys : list Z) (d : Database) : list TokenRow :=
  select (λ r, r.(tor_Key) ∈ keys) d.(tb_execution_token).

(** flow_element_instance.sql *)
Definition q_CountFlowElementInstances (pik : Z) (d : Database) : Z :=
  Z.of_nat (length (select (λ r, r.(elr_ProcessInstanceKey) = pik) d.(tb_flow_element_instance))).
Definition q_GetFlowElementInstances (pik offset limit : Z) (d : Database) : list ElementRow :=
  take (Z.to_nat limit) (drop (Z.to_nat offset)
    (select (λ r, r.(elr_ProcessInstanceKey) = pik) d.(tb_flow_element_instance))).
Definition q_GetFlowElementInstanceByKey (k : Z) (d : Database) : option ElementRow :=
  d.(tb_flow_element_instance) !! k.

(** incident.sql *)
Definition q_FindIncidentByKey (k : Z) (d : Database) : option IncidentRow := d.(tb_incident) !! k.
Definition q_FindIncidentsByProcessInstanceKey (pik : Z) (d : Database) : list IncidentRow :=
  select (λ r, r.(icr_ProcessInstanceKey) = pik) d.(tb_incident).
Definition q_FindIncidentsByExecutionTokenKey (token : Z) (d : Database) : list IncidentRow :=
  select (λ r, r.(icr_ExecutionToken) = token) d.(tb_incident).

(** decision_definition.sql, dmn_resource_definition.sql, decision_instance.sql *)
Definition q_FindDecisionDefinitionByIdAndDmnResourceDefinitionKey (resource : Z) (id : string)
    (d : Database) : option DecisionRow :=
  head (select (λ r, r.(dcr_DmnResourceDefinitionKey) = resource ∧ r.(dcr_DecisionID) = id)
          d.(tb_decision_definition)).
Definition q_FindLatestDecisionDefinitionById (id : string) (d : Database) : option DecisionRow :=
  head (order_desc dcr_Version (select (λ r, r.(dcr_DecisionID) = id) d.(tb_decision_definition))).
Definition q_FindLatestDecisionDefinitionByIdAndVersionTag (id tag : string) (d : Database)
    : option DecisionRow :=
  head (order_desc dcr_Version
    (select (λ r, r.(dcr_DecisionID) = id ∧ r.(dcr_VersionTag) = tag) d.(tb_decision_definition))).
Definition q_FindLatestDecisionDefinitionByIdAndDmnResourceDefinitionId (id resource : string)
    (d : Database) : option DecisionRow :=
  head (order_desc dcr_Version
    (select (λ r, r.(dcr_DecisionID) = id ∧ r.(dcr_DmnResourceDefinitionID) = resource)
       d.(tb_decision_definition))).
Definition q_FindDecisionDefinitionsById (id : string) (d : Database) : list DecisionRow :=
  order_desc dcr_Version (select (λ r, r.(dcr_DecisionID) = id) d.(tb_decision_definition)).
Definition q_FindDmnResourceDefinitionByKey (k : Z) (d : Database) : option ResourceRow :=
  d.(tb_dmn_resource_definition) !! k.
Definition q_FindLatestDmnResourceDefinitionById (id : string) (d : Database) : option ResourceRow :=
  head (order_desc rer_Version
    (select (λ r, r.(rer_DmnResourceDefinitionID) = id) d.(tb_dmn_resource_definition))).
Definition q_FindDmnResourceDefinitionsById (id : string) (d : Database) : list ResourceRow :=
  order_desc rer_Version
    (select (λ r, r.(rer_DmnResourceDefinitionID) = id) d.(tb_dmn_resource_definition)).
Definition q_FindDecisionInstanceByKey (k : Z) (d : Database) : option DecisionInstanceRow :=
  d.(tb_decision_instance) !! k.
End queries.
