(* ===== verification/Pages.v ===== *)
(** The queries behind the lists and the statistics of the API
    (internal/sql, the :many queries with ORDER BY, LIMIT and OFFSET): how
    SQLite compares values, orders rows, and cuts a page out of them, and the
    queries on the tables of Sql.

    [COUNT( * ) OVER ()] counts the rows before LIMIT and OFFSET are applied,
    so every row of a page carries the number of all rows.  SQLite leaves the
    order of rows that are equal in all ORDER BY terms undefined: they come in
    the order in which they reached the sort ([Sql.arrival]), which may be
    another one for every page, and so do the rows of a query without ORDER
    BY. *)
From Stdlib Require Import Ascii.
From S2P Require Import Prelude Monad Sql.

#[local] Open Scope string_scope.
#[local] Open Scope list_scope.

(** ** Values and their order: NULL, numbers, texts byte by byte *)

Inductive SqlValue := SqlNull | SqlInt (z : Z) | SqlText (s : string).
#[export] Instance SqlValue_eq_dec : EqDecision SqlValue.
Proof. solve_decision. Defined.

Definition sql_leb (x y : SqlValue) : bool :=
  match x, y with
  | SqlNull, _ => true
  | SqlInt _, SqlNull => false
  | SqlInt a, SqlInt b => (a <=? b)%Z
  | SqlInt _, SqlText _ => true
  | SqlText a, SqlText b => (a <=? b)%string
  | SqlText _, _ => false
  end.

(** An optional column. *)
Definition text_or_null (o : option string) : SqlValue := from_option SqlText SqlNull o.

Lemma string_leb_trans a b c : (a <=? b)%string = true → (b <=? c)%string = true → (a <=? c)%string = true.
Proof.
  revert b c. induction a as [|x a IH]; intros [|y b] [|z c]; cbn; try done.
  unfold String.leb in *. cbn [String.compare]. unfold Ascii.compare.
  destruct (N.compare_spec (N_of_ascii x) (N_of_ascii y)) as [E1|E1|E1];
    destruct (N.compare_spec (N_of_ascii y) (N_of_ascii z)) as [E2|E2|E2];
    destruct (N.compare_spec (N_of_ascii x) (N_of_ascii z)) as [E3|E3|E3];
    intros Hx Hy; try done; try lia; by eapply IH.
Qed.

Lemma sql_leb_total x y : sql_leb x y = true ∨ sql_leb y x = true.
Proof. destruct x, y; simpl; auto; [lia|apply String.leb_total]. Qed.
Lemma sql_leb_trans x y z : sql_leb x y = true → sql_leb y z = true → sql_leb x z = true.
Proof. destruct x, y, z; simpl; try done; [lia|apply string_leb_trans]. Qed.
Lemma sql_leb_antisym x y : sql_leb x y = true → sql_leb y x = true → x = y.
Proof.
  destruct x, y; simpl; try done; intros; f_equal; [lia|by apply String.leb_antisym].
Qed.

(** ** ORDER BY *)

(** A term: descending or not, and its value. *)
Abbreviation order_term A := (bool * (A → SqlValue))%type (only parsing).

Fixpoint order_leb {A} (terms : list (order_term A)) (x y : A) : bool :=
  match terms with
  | [] => true
  | (descending, value) :: terms' =>
      if decide (value x = value y) then order_leb terms' x y
      else if descending : bool then sql_leb (value y) (value x) else sql_leb (value x) (value y)
  end.

Definition order_le {A} (terms : list (order_term A)) (x y : A) : Prop := order_leb terms x y = true.
#[export] Instance order_le_dec {A} (terms : list (order_term A)) : RelDecision (order_le terms).
Proof. intros x y. unfold order_le. apply _. Defined.

(** The rows of a query with that LIMIT and OFFSET before they are cut: sorted,
    equal ones as they arrived; a negative offset is zero. *)
Definition order_by `{TableScan} {A} (limit offset : Z) (terms : list (order_term A)) (l : list A) : list A :=
  merge_sort (order_le terms) (arrival limit (Z.to_nat offset) l).

(** [CASE CAST(?1 AS TEXT) WHEN 'x_asc' THEN column END ASC, ... DESC] for a
    list of names and columns; [sort] is the parameter. *)
Definition case_terms {A} (sort : option string) (columns : list (string * (A → SqlValue)))
    : list (order_term A) :=
  flat_map (λ c,
    [(false, λ r, if decide (sort = Some (c.1 +:+ "_asc")) then c.2 r else SqlNull);
     (true, λ r, if decide (sort = Some (c.1 +:+ "_desc")) then c.2 r else SqlNull)]) columns.

Section order.
Context `{TableScan} {A : Type}.
Implicit Types terms : list (order_term A).

#[export] Instance order_le_total terms : Total (order_le terms).
Proof.
  intros x y. unfold order_le. induction terms as [|[d v] terms IH]; simpl; [by left|].
  destruct (decide (v x = v y)) as [E|E].
  - by rewrite decide_True by done.
  - rewrite decide_False by done. destruct d; apply sql_leb_total.
Qed.

#[export] Instance order_le_trans terms : Transitive (order_le terms).
Proof.
  intros x y z. unfold order_le. induction terms as [|[d v] terms IH]; simpl; [done|].
  destruct (decide (v x = v y)) as [E1|E1], (decide (v y = v z)) as [E2|E2]; intros H1 H2.
  - rewrite decide_True by congruence. by apply IH.
  - by rewrite decide_False, E1 by congruence.
  - by rewrite decide_False, <- E2 by congruence.
  - rewrite decide_False.
    + destruct d; by eapply sql_leb_trans.
    + intros E. rewrite E in *. apply E1. destruct d; by apply sql_leb_antisym.
Qed.

Lemma order_by_perm limit offset terms l : order_by limit offset terms l ≡ₚ l.
Proof. unfold order_by. by rewrite merge_sort_Permutation, arrival_perm. Qed.
Lemma order_by_sorted limit offset terms l : StronglySorted (order_le terms) (order_by limit offset terms l).
Proof. apply StronglySorted_merge_sort; apply _. Qed.

(** No two rows are equal in all terms; then the sort has one result. *)
Definition no_ties terms (l : list A) : Prop :=
  ∀ x y, x ∈ l → y ∈ l → order_le terms x y → order_le terms y x → x = y.

Lemma order_by_unique limit offset terms l l' :
  no_ties terms l → StronglySorted (order_le terms) l' → l' ≡ₚ l →
  order_by limit offset terms l = l'.
Proof.
  intros Hu Hs Hp. apply (StronglySorted_unique_strong (order_le terms)); [|apply order_by_sorted|done|].
  - intros x y Hx Hy. rewrite order_by_perm in Hx. rewrite Hp in Hy. by apply Hu.
  - by rewrite order_by_perm, Hp.
Qed.

Lemma no_ties_rest_key terms (v : A → SqlValue) d rest l :
  (d, v) ∈ terms → (∀ x y, x ∈ l → y ∈ l → v x = v y → x = y) → no_ties (terms ++ rest) l.
Proof.
  intros Hin Hv x y Hx Hy H1 H2. apply Hv; [done..|]. clear Hv Hx Hy.
  unfold order_le in H1, H2. induction terms as [|[d' v'] terms IH]; [by inv Hin|]. simpl in H1, H2.
  destruct (decide (v' x = v' y)) as [E|E].
  - rewrite decide_True in H2 by done. inv Hin; [done|]. by apply IH.
  - rewrite decide_False in H2 by congruence. exfalso. apply E.
    destruct d'; by apply sql_leb_antisym.
Qed.

(** Terms that are the same for all rows do not count. *)
Lemma order_leb_constant d v terms x y : v x = v y → order_leb ((d, v) :: terms) x y = order_leb terms x y.
Proof. intros E. simpl. by rewrite decide_True. Qed.

Lemma case_terms_none sort (columns : list (string * (A → SqlValue))) rest x y :
  (∀ c, c ∈ columns → sort ≠ Some (c.1 +:+ "_asc") ∧ sort ≠ Some (c.1 +:+ "_desc")) →
  order_leb (case_terms sort columns ++ rest) x y = order_leb rest x y.
Proof.
  intros Hn. induction columns as [|c columns IH]; [done|].
  unfold case_terms. cbn [flat_map app]. destruct (Hn c ltac:(left)) as [H1 H2].
  rewrite !order_leb_constant by (by rewrite !decide_False). apply IH. intros c' Hc'. apply Hn. by right.
Qed.

(** Without a recognised sort the rest of the ORDER BY decides alone. *)
Lemma order_by_unknown limit offset sort (columns : list (string * (A → SqlValue))) rest (l : list A) :
  (∀ c, c ∈ columns → sort ≠ Some (c.1 +:+ "_asc") ∧ sort ≠ Some (c.1 +:+ "_desc")) →
  order_by limit offset (case_terms sort columns ++ rest) l = order_by limit offset rest l.
Proof.
  intros Hn. unfold order_by, merge_sort. generalize (arrival limit (Z.to_nat offset) l). clear l.
  intros l. generalize (@nil (option (list A))) at 1 2.
  assert (Hm : ∀ l1 l2, list_merge (order_le (case_terms sort columns ++ rest)) l1 l2 =
                        list_merge (order_le rest) l1 l2).
  { induction l1 as [|x l1 IH1]; [done|]. induction l2 as [|y l2 IH2]; [done|]. cbn.
    destruct (decide (order_le (case_terms sort columns ++ rest) x y)) as [Ha|Ha];
      destruct (decide (order_le rest x y)) as [Hb|Hb]; unfold order_le in Ha, Hb;
      rewrite case_terms_none in Ha by done; try done; [by f_equal|]. f_equal. apply IH2. }
  assert (Hst : ∀ st l1, merge_list_to_stack (order_le (case_terms sort columns ++ rest)) st l1 =
                         merge_list_to_stack (order_le rest) st l1).
  { induction st as [|[l2|] st IH]; intros l1; simpl; [done| |done]. by rewrite Hm, IH. }
  assert (Hs : ∀ st, merge_stack (order_le (case_terms sort columns ++ rest)) st = merge_stack (order_le rest) st).
  { induction st as [|[l2|] st IH]; simpl; [done| |done]. by rewrite Hm, IH. }
  induction l as [|x l IH]; intros st; simpl; [apply Hs|]. by rewrite Hst, IH.
Qed.
End order.

(** ** LIMIT and OFFSET

    A negative limit is none, a negative offset is zero. *)
Definition limit_offset {A} (limit offset : Z) (l : list A) : list A :=
  let l := drop (Z.to_nat offset) l in
  if (limit <? 0)%Z then l else take (Z.to_nat limit) l.

(** The rows with the number of all of them. *)
Definition with_total {A} (l : list A) : list (A * Z) := (λ r, (r, Z.of_nat (length l))) <$> l.

Lemma limit_offset_length {A} limit offset (l : list A) :
  (0 ≤ limit)%Z → (Z.of_nat (length (limit_offset limit offset l)) ≤ limit)%Z.
Proof.
  intros Hl. unfold limit_offset. rewrite (proj2 (Z.ltb_ge _ _)) by done. rewrite length_take. lia.
Qed.

Lemma limit_offset_fmap {A B} (f : A → B) limit offset l :
  limit_offset limit offset (f <$> l) = f <$> limit_offset limit offset l.
Proof. unfold limit_offset. destruct (limit <? 0)%Z; by rewrite <- fmap_drop, <- ?fmap_take. Qed.

Lemma limit_offset_sublist {A} limit offset (l : list A) : sublist (limit_offset limit offset l) l.
Proof.
  unfold limit_offset. destruct (_ <? _)%Z; [apply sublist_drop|].
  etrans; [apply sublist_take|apply sublist_drop].
Qed.

(** The pages of a list, put together, are the list: no row is missing and
    none comes twice. *)
Lemma pages_cover {A} (size : Z) (n : nat) (l : list A) :
  (0 < size)%Z → (Z.of_nat (length l) ≤ Z.of_nat n * size)%Z →
  concat ((λ i, limit_offset size (Z.of_nat i * size) l) <$> seq 0 n) = l.
Proof.
  intros Hs. revert l. induction n as [|n IH]; intros l Hn.
  { destruct l; [done|simpl in Hn; lia]. }
  rewrite <- cons_seq, fmap_cons. cbn [concat]. rewrite <- fmap_S_seq, <- list_fmap_compose.
  etrans; [|apply (take_drop (Z.to_nat size) l)]. f_equal.
  - unfold limit_offset. rewrite (proj2 (Z.ltb_ge _ _)) by lia. by rewrite drop_0.
  - rewrite <- (IH (drop (Z.to_nat size) l)) by (rewrite length_drop; lia).
    f_equal. apply list_fmap_ext. intros ? i _. unfold compose, limit_offset.
    rewrite drop_drop. pose proof (Z.mul_nonneg_nonneg (Z.of_nat i) size).
    by replace (Z.to_nat size + Z.to_nat (Z.of_nat i * size))%nat
      with (Z.to_nat (Z.of_nat (S i) * size)) by lia.
Qed.

(** ** The queries

    [sql_like] and [sql_lower] are the LIKE operator and lower() of SQLite. *)
Class SqlLike := { sql_like : string → string → bool; sql_lower : string → string }.

(** [CASE WHEN p IS NOT NULL THEN ... ELSE 1 END] *)
Definition if_given {A} (p : option A) (test : A → bool) : bool :=
  match p with None => true | Some a => test a end.

(** The four filters of the type of an instance: a type passes when one that is
    given equals it, or when none is given. *)
Definition type_filter (filters : list (option Z)) (t : Z) : bool :=
  forallb (λ f, bool_decide (f = None)) filters || existsb (λ f, bool_decide (f = Some t)) filters.

(** FindProcessInstancesPageParams *)
Record InstancesPageParams := {
  ipp_SortByOrder : option string;
  ipp_ProcessDefinitionKey : Z;
  ipp_ParentInstanceKey : Z;
  ipp_BusinessKey : option string;
  ipp_BpmnProcessID : option string;
  ipp_ActivityID : option string;
  ipp_CreatedFrom : option Z;
  ipp_CreatedTo : option Z;
  ipp_State : option Z;
  ipp_FilterTypes : list (option Z);
  ipp_Offset : Z;
  ipp_Size : Z
}.

Definition instances_columns : list (string * (InstanceRow * string → SqlValue)) :=
  [("createdAt", λ r, SqlInt r.1.(inr_CreatedAt)); ("key", λ r, SqlInt r.1.(inr_Key));
   ("state", λ r, SqlInt r.1.(inr_State)); ("businessKey", λ r, text_or_null r.1.(inr_BusinessKey))].
Definition instances_order (sort : option string) : list (order_term (InstanceRow * string)) :=
  case_terms sort instances_columns ++ [(true, λ r, SqlInt r.1.(inr_CreatedAt))].

(** A token of the parent instance. *)
Definition is_child_of (d : Database) (parent : Z) (r : InstanceRow) : bool :=
  match r.(inr_ParentProcessExecutionToken) ≫= (λ t, d.(tb_execution_token) !! t) with
  | Some token => (token.(tor_ProcessInstanceKey) =? parent)%Z
  | None => false
  end.

Definition has_token_at (d : Database) (pik : Z) (activity : string) : bool :=
  existsb (λ t, (t.(tor_ProcessInstanceKey) =? pik)%Z && (t.(tor_ElementID) =? activity)%string)
    (map_values d.(tb_execution_token)).

Definition instance_matches (p : InstancesPageParams) (d : Database) (rid : InstanceRow * string) : bool :=
  let '(r, id) := rid in
  ((p.(ipp_ProcessDefinitionKey) =? 0)%Z ||
   (r.(inr_ProcessDefinitionKey) =? p.(ipp_ProcessDefinitionKey))%Z) &&
  ((p.(ipp_ParentInstanceKey) =? 0)%Z || is_child_of d p.(ipp_ParentInstanceKey) r) &&
  if_given p.(ipp_BusinessKey) (λ b, bool_decide (r.(inr_BusinessKey) = Some b)) &&
  if_given p.(ipp_BpmnProcessID) (λ b, (id =? b)%string) &&
  if_given p.(ipp_ActivityID) (has_token_at d r.(inr_Key)) &&
  if_given p.(ipp_CreatedFrom) (λ t, (t <=? r.(inr_CreatedAt))%Z) &&
  if_given p.(ipp_CreatedTo) (λ t, (r.(inr_CreatedAt) <=? t)%Z) &&
  if_given p.(ipp_State) (λ s, (r.(inr_State) =? s)%Z) &&
  type_filter p.(ipp_FilterTypes) r.(inr_ProcessType).

(** FindJobsParams *)
Record JobsParams := {
  jpp_Sort : option string;
  jpp_Type : option string;
  jpp_State : option Z;
  jpp_ProcessInstanceKey : option Z;
  jpp_Assignee : option string;
  jpp_Offset : Z;
  jpp_Limit : Z
}.

Definition jobs_columns : list (string * (JobRow → SqlValue)) :=
  [("created_at", λ r, SqlInt r.(jor_CreatedAt)); ("key", λ r, SqlInt r.(jor_Key));
   ("type", λ r, SqlText r.(jor_Type)); ("state", λ r, SqlInt r.(jor_State))].
Definition jobs_order (sort : option string) : list (order_term JobRow) :=
  case_terms sort jobs_columns ++ [(true, λ r, SqlInt r.(jor_Key))].

Definition job_matches (p : JobsParams) (r : JobRow) : bool :=
  if_given p.(jpp_Type) (λ t, (t =? r.(jor_Type))%string) &&
  if_given p.(jpp_State) (λ s, (s =? r.(jor_State))%Z) &&
  if_given p.(jpp_ProcessInstanceKey) (λ k, (r.(jor_ProcessInstanceKey) =? k)%Z) &&
  if_given p.(jpp_Assignee) (λ a, bool_decide (r.(jor_Assignee) = Some a)).

(** FindDecisionInstancesPageParams *)
Record DecisionInstancesParams := {
  dpp_DmnResourceDefinitionKey : option Z;
  dpp_DmnResourceDefinitionID : option string;
  dpp_ProcessInstanceKey : option Z;
  dpp_EvaluatedFrom : option Z;
  dpp_EvaluatedTo : option Z;
  dpp_SortByOrder : option string;
  dpp_Offset : Z;
  dpp_Size : Z
}.

Definition decision_instances_columns : list (string * (DecisionInstanceRow → SqlValue)) :=
  [("evaluatedAt", λ r, SqlInt r.(dir_CreatedAt)); ("key", λ r, SqlInt r.(dir_Key))].
Definition decision_instances_order (sort : option string) : list (order_term DecisionInstanceRow) :=
  case_terms sort decision_instances_columns ++ [(true, λ r, SqlInt r.(dir_CreatedAt))].

(** A text is not equal to the number 0, so the id filters whenever it is given. *)
Definition decision_instance_matches (p : DecisionInstancesParams) (d : Database) (r : DecisionInstanceRow) : bool :=
  if_given p.(dpp_DmnResourceDefinitionKey) (λ k, (k =? 0)%Z || (r.(dir_DmnResourceDefinitionKey) =? k)%Z) &&
  if_given p.(dpp_DmnResourceDefinitionID) (λ id,
    match d.(tb_dmn_resource_definition) !! r.(dir_DmnResourceDefinitionKey) with
    | Some resource => (resource.(rer_DmnResourceDefinitionID) =? id)%string
    | None => false
    end) &&
  if_given p.(dpp_ProcessInstanceKey) (λ k, bool_decide (r.(dir_ProcessInstanceKey) = Some k)) &&
  if_given p.(dpp_EvaluatedFrom) (λ t, (t <=? r.(dir_CreatedAt))%Z) &&
  if_given p.(dpp_EvaluatedTo) (λ t, (r.(dir_CreatedAt) <=? t)%Z).

(** [version = (SELECT MAX(version) ... same id)] *)
Definition is_latest_definition (d : Database) (r : DefinitionRow) : bool :=
  forallb (λ r2, negb (r2.(der_BpmnProcessID) =? r.(der_BpmnProcessID))%string ||
                 (r2.(der_Version) <=? r.(der_Version))%Z) (map_values d.(tb_process_definition)).
Definition is_latest_resource (d : Database) (r : ResourceRow) : bool :=
  forallb (λ r2, negb (r2.(rer_DmnResourceDefinitionID) =? r.(rer_DmnResourceDefinitionID))%string ||
                 (r2.(rer_Version) <=? r.(rer_Version))%Z) (map_values d.(tb_dmn_resource_definition)).

Definition definitions_columns : list (string * (DefinitionRow → SqlValue)) :=
  [("version", λ r, SqlInt r.(der_Version)); ("key", λ r, SqlInt r.(der_Key));
   ("bpmnProcessId", λ r, SqlText r.(der_BpmnProcessID));
   ("bpmnProcessName", λ r, SqlText r.(der_BpmnProcessName))].
Definition definitions_order (sort : option string) : list (order_term DefinitionRow) :=
  case_terms sort definitions_columns ++ [(true, λ r, SqlInt r.(der_Key))].

Definition resources_columns : list (string * (ResourceRow → SqlValue)) :=
  [("dmnDefinitionName", λ r, SqlText r.(rer_DmnDefinitionName));
   ("dmnResourceDefinitionId", λ r, SqlText r.(rer_DmnResourceDefinitionID));
   ("version", λ r, SqlInt r.(rer_Version)); ("key", λ r, SqlInt r.(rer_Key))].
Definition resources_order (sort : option string) : list (order_term ResourceRow) :=
  case_terms sort resources_columns ++
  [(false, λ r, SqlText r.(rer_DmnResourceDefinitionID)); (true, λ r, SqlInt r.(rer_Version))].

Section pages.
Context `{TableScan} `{SqlLike}.

(** A page of rows with the number of all of them; without terms there is no
    ORDER BY. *)
Definition page {A} (limit offset : Z) (terms : list (order_term A)) (rows : list A) : list (A * Z) :=
  limit_offset limit offset (with_total (order_by limit offset terms rows)).

Definition rows {A} (m : gmap Z A) : list A := (scan m).*2.

(** process_instance JOIN process_definition *)
Definition joined_instances (d : Database) : list (InstanceRow * string) :=
  omap (λ r, pd ← d.(tb_process_definition) !! r.(inr_ProcessDefinitionKey);
             Some (r, pd.(der_BpmnProcessID))) (rows d.(tb_process_instance)).

Definition q_FindProcessInstancesPage (p : InstancesPageParams) (d : Database)
    : list (InstanceRow * string * Z) :=
  page p.(ipp_Size) p.(ipp_Offset) (instances_order p.(ipp_SortByOrder))
    (filter (instance_matches p d) (joined_instances d)).

Definition q_FindJobs (p : JobsParams) (d : Database) : list (JobRow * Z) :=
  page p.(jpp_Limit) p.(jpp_Offset) (jobs_order p.(jpp_Sort)) (filter (job_matches p) (rows d.(tb_job))).

Definition q_FindProcessInstanceJobs (pik offset size : Z) (d : Database) : list (JobRow * Z) :=
  page size offset [] (select (λ r, r.(jor_ProcessInstanceKey) = pik) d.(tb_job)).

(** The first join pairs every token of the instance with the instance itself
    and with the instance its token started; neither may be a call activity. *)
Definition history_instances (pik : Z) (d : Database) : list (TokenRow * InstanceRow) :=
  et ← select (λ t, t.(tor_ProcessInstanceKey) = pik) d.(tb_execution_token);
  pi ← select (λ r, (r.(inr_ParentProcessExecutionToken) = Some et.(tor_Key) ∨ r.(inr_Key) = pik) ∧
                    r.(inr_ProcessType) ≠ 3%Z) d.(tb_process_instance);
  [(et, pi)].
Definition history_rows (pik : Z) (d : Database) : list ElementRow :=
  etpi ← history_instances pik d;
  select (λ e, e.(elr_ProcessInstanceKey) = etpi.2.(inr_Key)) d.(tb_flow_element_instance).
Definition q_FindFlowElementInstances (pik offset limit : Z) (d : Database) : list (ElementRow * Z) :=
  page limit offset [] (history_rows pik d).

Definition q_FindIncidentsPageByProcessInstanceKey (pik : Z) (state : option string) (offset size : Z)
    (d : Database) : list (IncidentRow * Z) :=
  page size offset [] (filter (λ r, Is_true
      ((r.(icr_ProcessInstanceKey) =? pik)%Z &&
       match state with
       | None => true
       | Some s => if (s =? "resolved")%string then bool_decide (is_Some r.(icr_ResolvedAt))
                   else if (s =? "unresolved")%string then bool_decide (r.(icr_ResolvedAt) = None)
                   else true
       end)) (rows d.(tb_incident))).

Definition q_FindDecisionInstancesPage (p : DecisionInstancesParams) (d : Database)
    : list (DecisionInstanceRow * Z) :=
  page p.(dpp_Size) p.(dpp_Offset) (decision_instances_order p.(dpp_SortByOrder))
    (filter (decision_instance_matches p d) (rows d.(tb_decision_instance))).

Definition q_FindProcessDefinitions (bpmnProcessIdFilter sort : option string) (onlyLatest offset limit : Z)
    (d : Database) : list (DefinitionRow * Z) :=
  page limit offset (definitions_order sort)
    (filter (λ r, Is_true (if_given bpmnProcessIdFilter (λ id, (r.(der_BpmnProcessID) =? id)%string) &&
                  ((onlyLatest =? 0)%Z || is_latest_definition d r)))
       (rows d.(tb_process_definition))).

Definition q_FindAllDmnResourceDefinitions (sort : option string) (onlyLatest : Z)
    (dmnResourceDefinitionID dmnDefinitionName : option string) (offset size : Z) (d : Database)
    : list (ResourceRow * Z) :=
  page size offset (resources_order sort)
    (filter (λ r, Is_true (((onlyLatest =? 0)%Z || is_latest_resource d r) &&
                  if_given dmnResourceDefinitionID (λ id, (r.(rer_DmnResourceDefinitionID) =? id)%string) &&
                  if_given dmnDefinitionName (λ n, sql_like (sql_lower r.(rer_DmnDefinitionName))
                                                     ("%" +:+ sql_lower n +:+ "%"))))
       (rows d.(tb_dmn_resource_definition))).

Definition q_GetDefinitionKeyByChecksum (checksum : list Z) (d : Database) : option Z :=
  head (der_Key <$> select (λ r, r.(der_BpmnChecksum) = checksum) d.(tb_process_definition)).
Definition q_GetDmnResourceDefinitionKeyByChecksum (checksum : list Z) (d : Database) : option Z :=
  head (rer_Key <$> select (λ r, r.(rer_DmnChecksum) = checksum) d.(tb_dmn_resource_definition)).

(** *** Statistics *)

(** An active multi instance child (process type 4, state 1) of a token. *)
Definition active_multi_child (d : Database) (token : Z) : bool :=
  existsb (λ r, bool_decide (r.(inr_ParentProcessExecutionToken) = Some token) &&
                (r.(inr_ProcessType) =? 4)%Z && (r.(inr_State) =? 1)%Z)
    (map_values d.(tb_process_instance)).

(** Running or waiting tokens, where no multi instance child stands for them. *)
Definition counted_token (d : Database) (relevant : Z → bool) (t : TokenRow) : bool :=
  relevant t.(tor_ProcessInstanceKey) && ((t.(tor_State) =? 1)%Z || (t.(tor_State) =? 2)%Z) &&
  negb (active_multi_child d t.(tor_Key)).

(** GROUP BY element_id over the tokens and the incidents. *)
Definition element_counts (tokens : list TokenRow) (incidents : list IncidentRow) : list (string * Z * Z) :=
  (λ e, (e, Z.of_nat (length (filter (λ t, t.(tor_ElementID) = e) tokens)),
            Z.of_nat (length (filter (λ i, i.(icr_ElementID) = e) incidents))))
  <$> remove_dups ((tor_ElementID <$> tokens) ++ (icr_ElementID <$> incidents)).

Definition instance_of_definition (d : Database) (definition pik : Z) : bool :=
  match d.(tb_process_instance) !! pik with
  | Some r => (r.(inr_ProcessDefinitionKey) =? definition)%Z
  | None => false
  end.

Definition q_GetElementStatisticsByProcessDefinitionKey (key : Z) (d : Database) : list (string * Z * Z) :=
  element_counts
    (filter (counted_token d (instance_of_definition d key)) (rows d.(tb_execution_token)))
    (filter (λ i, Is_true (instance_of_definition d key i.(icr_ProcessInstanceKey) &&
                  bool_decide (i.(icr_ResolvedAt) = None))) (rows d.(tb_incident))).

(** The instance and its active multi instance children. *)
Definition relevant_instance (d : Database) (key pik : Z) : bool :=
  (pik =? key)%Z ||
  match d.(tb_process_instance) !! pik with
  | Some r => is_child_of d key r && (r.(inr_ProcessType) =? 4)%Z && (r.(inr_State) =? 1)%Z
  | None => false
  end.

Definition q_GetElementStatisticsByProcessInstanceKey (key : Z) (d : Database) : list (string * Z * Z) :=
  element_counts
    (filter (counted_token d (relevant_instance d key)) (rows d.(tb_execution_token)))
    (filter (λ i, Is_true (relevant_instance d key i.(icr_ProcessInstanceKey) &&
                  bool_decide (i.(icr_ResolvedAt) = None) &&
                  negb (active_multi_child d i.(icr_ExecutionToken)))) (rows d.(tb_incident))).

(** FindProcessDefinitionStatisticsRow: the numbers of the instances that are
    no sub processes or multi instances (types 2 and 4), by state. *)
Record DefinitionStatistics := {
  dfs_definition : DefinitionRow;
  dfs_TotalInstances : Z;
  dfs_ActiveCount : Z;
  dfs_CompletedCount : Z;
  dfs_TerminatedCount : Z;
  dfs_FailedCount : Z
}.

Definition definition_statistics (d : Database) (r : DefinitionRow) : DefinitionStatistics :=
  let instances := filter (λ i, i.(inr_ProcessDefinitionKey) = r.(der_Key) ∧
                                i.(inr_ProcessType) ≠ 2%Z ∧ i.(inr_ProcessType) ≠ 4%Z)
                     (rows d.(tb_process_instance)) in
  let count state := Z.of_nat (length (filter (λ i, i.(inr_State) = state) instances)) in
  {| dfs_definition := r; dfs_TotalInstances := Z.of_nat (length instances);
     dfs_ActiveCount := count 1%Z; dfs_CompletedCount := count 4%Z;
     dfs_TerminatedCount := count 9%Z; dfs_FailedCount := count 6%Z |}.

Definition statistics_columns : list (string * (DefinitionStatistics → SqlValue)) :=
  [("name", λ r, SqlText r.(dfs_definition).(der_BpmnProcessName));
   ("bpmnProcessId", λ r, SqlText r.(dfs_definition).(der_BpmnProcessID));
   ("version", λ r, SqlInt r.(dfs_definition).(der_Version));
   ("instanceCount", λ r, SqlInt r.(dfs_TotalInstances))].
Definition statistics_order (sort : option string) : list (order_term DefinitionStatistics) :=
  case_terms sort statistics_columns ++ [(true, λ r, SqlInt r.(dfs_definition).(der_Key))].

(** The two lists travel as JSON arrays; NULL and the empty array do not filter. *)
Definition q_FindProcessDefinitionStatistics (offset limit : Z) (sort nameFilter : option string)
    (onlyLatest : Z) (idIn : option (list string)) (keyIn : option (list Z)) (d : Database)
    : list (DefinitionStatistics * Z) :=
  page limit offset (statistics_order sort) (definition_statistics d <$>
    filter (λ r, Is_true
      (if_given nameFilter (λ n, sql_like r.(der_BpmnProcessName) ("%" +:+ n +:+ "%")) &&
       ((onlyLatest =? 0)%Z || is_latest_definition d r) &&
       if_given idIn (λ l, bool_decide (l = []) || bool_decide (r.(der_BpmnProcessID) ∈ l)) &&
       if_given keyIn (λ l, bool_decide (l = []) || bool_decide (r.(der_Key) ∈ l))))
      (rows d.(tb_process_definition))).
End pages.
