(* ===== verification/PartitionDB.v ===== *)
(** The persistent storage of a partition, reading side
    (internal/cluster/partition/partition_persistence.go and the driver of
    internal/sql): how a query is answered, the definition caches, and how the
    readers turn rows into the records of the engines.

    The rqlite store is the [Database] of Sql with two answers of the library:
    which queries currently fail, and whether executing fails.  The caches are
    maps; that an entry expires or is evicted is a step of the environment. *)
From S2P Require Import Prelude Monad Model Runtime DmnModel Storage Sql.

Record DB := {
  db_data : Database;
  db_fk : bool;
  db_pdCache : gmap Z ProcessDefinition;
  db_drdCache : gmap Z DmnResourceDefinition;
  db_queryErr : string → option error;
  db_executeErr : option error;
  db_now : Z
}.

Definition set_data (d : Database) (s : DB) : DB :=
  {| db_data := d; db_fk := s.(db_fk); db_pdCache := s.(db_pdCache); db_drdCache := s.(db_drdCache);
     db_queryErr := s.(db_queryErr); db_executeErr := s.(db_executeErr); db_now := s.(db_now) |}.
Definition pdCache_Add (k : Z) (d : ProcessDefinition) (s : DB) : DB :=
  {| db_data := s.(db_data); db_fk := s.(db_fk); db_pdCache := <[k := d]> s.(db_pdCache);
     db_drdCache := s.(db_drdCache); db_queryErr := s.(db_queryErr);
     db_executeErr := s.(db_executeErr); db_now := s.(db_now) |}.
Definition drdCache_Add (k : Z) (d : DmnResourceDefinition) (s : DB) : DB :=
  {| db_data := s.(db_data); db_fk := s.(db_fk); db_pdCache := s.(db_pdCache);
     db_drdCache := <[k := d]> s.(db_drdCache); db_queryErr := s.(db_queryErr);
     db_executeErr := s.(db_executeErr); db_now := s.(db_now) |}.

(** ** The driver *)

(** QueryContext and the loop of a generated :many query. *)
Definition query_many {A} (name : string) (q : Database → list A) : ST DB (list A) := λ s,
  match s.(db_queryErr) name with
  | Some e => (Err e, s)
  | None => (Ret (q s.(db_data)), s)
  end.

(** QueryRowContext and Row.Scan of a generated :one query: Scan looks at the
    values only, so a query that failed is reported as one without rows. *)
Definition query_one {A} (name : string) (q : Database → option A) : ST DB A := λ s,
  match s.(db_queryErr) name with
  | Some _ => (Err ErrNoRows, s)
  | None => match q s.(db_data) with Some r => (Ret r, s) | None => (Err ErrNoRows, s) end
  end.

(** [if errors.Is(err, sql.ErrNoRows) { err = storage.ErrNotFound }], wrapped. *)
Definition find_error (fmt : string) (e : error) : error :=
  Errorf fmt [if errors_Is is_ErrNoRows e then ErrNotFound else e].

(** Store.Execute in a transaction: when a statement fails nothing is written
    and its error is part of the response. *)
Definition ExecuteStatements (statements : list SqlStmt) : ST DB (option error) := λ s,
  match statements with
  | [] => (Ret None, s)
  | _ =>
      match s.(db_executeErr) with
      | Some e => (Err e, s)
      | None =>
          match exec_stmts s.(db_fk) statements s.(db_data) with
          | Good d => (Ret None, set_data d s)
          | Bad e => (Ret (Some e), s)
          end
      end
  end.

Definition db_ExecContext (stmt : SqlStmt) : ST DB unit :=
  r ← ExecuteStatements [stmt];
  match r with Some e => throw e | None => mret tt end.

(** ** Tokens of loaded rows *)

Definition token_of_row (r : TokenRow) : ExecutionToken :=
  {| tok_Key := r.(tor_Key); tok_ElementInstanceKey := r.(tor_ElementInstanceKey);
     tok_ElementId := r.(tor_ElementID); tok_ProcessInstanceKey := r.(tor_ProcessInstanceKey);
     tok_State := TokenState_of r.(tor_State); tok_CreatedAt := time_UnixMilli r.(tor_CreatedAt) |}.

(** The token joined to another row: without its creation time. *)
Definition joined_token (r : TokenRow) : ExecutionToken :=
  {| tok_Key := r.(tor_Key); tok_ElementInstanceKey := r.(tor_ElementInstanceKey);
     tok_ElementId := r.(tor_ElementID); tok_ProcessInstanceKey := r.(tor_ProcessInstanceKey);
     tok_State := TokenState_of r.(tor_State); tok_CreatedAt := zero_time |}.

(** [ExecutionToken{Key: key}] *)
Definition key_token (k : Z) : ExecutionToken :=
  {| tok_Key := k; tok_ElementInstanceKey := 0; tok_ElementId := ""; tok_ProcessInstanceKey := 0;
     tok_State := TokenStateZero; tok_CreatedAt := zero_time |}.

Section join.
Context {A : Type} (token : A → ExecutionToken) (set_token : ExecutionToken → A → A).

(** Every record with the key of the loaded token gets it ... *)
Definition join_token (res : list A) (t : TokenRow) : list A :=
  (λ x, if ((token x).(tok_Key) =? t.(tor_Key))%Z then set_token (joined_token t) x else x) <$> res.
Definition join_tokens (tokens : list TokenRow) (res : list A) : list A :=
  fold_left join_token tokens res.

(** ... or only the first one ([continue token]). *)
Fixpoint join_first (res : list A) (t : TokenRow) : list A :=
  match res with
  | [] => []
  | x :: res' =>
      if ((token x).(tok_Key) =? t.(tor_Key))%Z then set_token (joined_token t) x :: res'
      else x :: join_first res' t
  end.
Definition join_firsts (tokens : list TokenRow) (res : list A) : list A :=
  fold_left join_first tokens res.
End join.

Definition with_TimerToken (t : ExecutionToken) (x : Timer) : Timer :=
  {| tm_ElementId := x.(tm_ElementId); tm_Key := x.(tm_Key);
     tm_ElementInstanceKey := x.(tm_ElementInstanceKey);
     tm_ProcessDefinitionKey := x.(tm_ProcessDefinitionKey);
     tm_ProcessInstanceKey := x.(tm_ProcessInstanceKey); tm_TimerState := x.(tm_TimerState);
     tm_CreatedAt := x.(tm_CreatedAt); tm_DueAt := x.(tm_DueAt); tm_Duration := x.(tm_Duration);
     tm_Token := t |}.
Definition with_SubscriptionToken (t : ExecutionToken) (m : MessageSubscription) : MessageSubscription :=
  {| ms_Key := m.(ms_Key); ms_ElementId := m.(ms_ElementId);
     ms_ProcessDefinitionKey := m.(ms_ProcessDefinitionKey);
     ms_ProcessInstanceKey := m.(ms_ProcessInstanceKey); ms_Name := m.(ms_Name);
     ms_CorrelationKey := m.(ms_CorrelationKey); ms_State := m.(ms_State);
     ms_CreatedAt := m.(ms_CreatedAt); ms_Token := t |}.

Section readers.
Context `{TableScan}.
(** encoding/xml and encoding/json. *)
Context (xml_Unmarshal_bpmn : string → result TDefinitions).
Context (xml_Unmarshal_dmn : string → result DmnTDefinitions).
Context (json_Unmarshal : string → result vars).

Definition GetTokens (keys : list Z) : ST DB (list TokenRow) := query_many "GetTokens" (q_GetTokens keys).

(** ** Tokens *)

Definition db_GetTokenByKey (key : Z) : ST DB ExecutionToken :=
  tokens ← wrap (λ e, errw! "failed to find token by key %d: %w" [e]) (GetTokens [key]);
  match tokens with
  | [token] => mret (token_of_row token)
  | _ => throw (errw! "invalid key %d: %w" [ErrNotFound])
  end.

Definition db_GetRunningTokens : ST DB (list ExecutionToken) :=
  tokens ← query_many "GetTokensInState" (q_GetTokensInState (TokenState_int TokenStateRunning));
  mret (token_of_row <$> tokens).

Definition db_GetAllTokensForProcessInstance (pik : Z) : ST DB (list ExecutionToken) :=
  tokens ← query_many "GetAllTokensForProcessInstance" (q_GetAllTokensForProcessInstance pik);
  mret (token_of_row <$> tokens).

Definition GetTokensForProcessInstance (pik : Z) (states : list Z) : ST DB (list ExecutionToken) :=
  tokens ← query_many "GetTokensForProcessInstance" (q_GetTokensForProcessInstance pik states);
  mret (token_of_row <$> tokens).

Definition db_GetCompletedTokensForProcessInstance (pik : Z) : ST DB (list ExecutionToken) :=
  GetTokensForProcessInstance pik [TokenState_int TokenStateCompleted].
Definition db_GetActiveTokensForProcessInstance (pik : Z) : ST DB (list ExecutionToken) :=
  GetTokensForProcessInstance pik
    (TokenState_int <$> [TokenStateWaiting; TokenStateRunning; TokenStateFailed]).

(** ** Process definitions *)

(** [[16]byte(slice)] panics for a shorter slice. *)
Definition checksum16 (l : list Z) : ST DB (list Z) :=
  if bool_decide (16 ≤ length l)%nat then mret (take 16 l)
  else panic "cannot convert slice to array".

(** The name of the process is not read back. *)
Definition definition_of_row (r : DefinitionRow) (definitions : TDefinitions) (checksum : list Z)
    : ProcessDefinition :=
  {| pd_BpmnProcessId := r.(der_BpmnProcessID); pd_Version := wrap32 r.(der_Version);
     pd_Key := r.(der_Key); pd_Definitions := definitions; pd_BpmnData := r.(der_BpmnData);
     pd_BpmnProcessName := ""; pd_BpmnChecksum := checksum |}.

(** From a row: the cached definition, or the decoded one, which is cached. *)
Definition load_definition (key : Z) (r : DefinitionRow) : ST DB ProcessDefinition :=
  definitions ← wrap_result (λ e, errw! "failed to unmarshal xml data: %w" [e])
                  (xml_Unmarshal_bpmn r.(der_BpmnData));
  checksum ← checksum16 r.(der_BpmnChecksum);
  let res := definition_of_row r definitions checksum in
  modify (pdCache_Add key res) ;;
  mret res.

Definition db_FindLatestProcessDefinitionById (id : string) : ST DB ProcessDefinition :=
  r ← wrap (find_error "failed to find latest process definition by id %s: %w")
        (query_one "FindLatestProcessDefinitionById" (q_FindLatestProcessDefinitionById id));
  cache ← gets db_pdCache;
  match cache !! r.(der_Key) with
  | Some pd => mret pd
  | None => load_definition r.(der_Key) r
  end.

Definition db_FindProcessDefinitionByKey (key : Z) : ST DB ProcessDefinition :=
  cache ← gets db_pdCache;
  match cache !! key with
  | Some pd => mret pd
  | None =>
      r ← wrap (find_error "failed to find latest process definition by key %d: %w")
            (query_one "FindProcessDefinitionByKey" (q_FindProcessDefinitionByKey key));
      load_definition key r
  end.

Definition db_FindProcessDefinitionsById (id : string) : ST DB (list ProcessDefinition) :=
  rows ← wrap (λ e, errw! "failed to find process definitions by id %s: %w" [e])
           (query_many "FindProcessDefinitionsById" (q_FindProcessDefinitionsById id));
  for_map rows (λ r,
    cache ← gets db_pdCache;
    match cache !! r.(der_Key) with
    | Some pd => mret pd
    | None => load_definition r.(der_Key) r
    end).

(** ** Process instances *)

Definition unmarshal_variables (fmt : string) (text : string) : ST DB vars :=
  wrap_result (λ e, Errorf fmt [e]) (json_Unmarshal text).

(** The zero token without a parent. *)
Definition parent_token (r : InstanceRow) : ST DB ExecutionToken :=
  match r.(inr_ParentProcessExecutionToken) with
  | None => mret zero_token
  | Some t => wrap (λ e, errw! "failed to find parent process execution token by key: %w" [e])
                (db_GetTokenByKey t)
  end.

(** What RefreshProcessInstance assigns to the instance it is given. *)
Definition db_RefreshProcessInstance (i : ProcessInstance) : ST DB ProcessInstance :=
  r ← wrap (find_error "failed to find process instance by key %d: %w")
        (query_one "GetProcessInstance" (q_GetProcessInstance i.(pi_Key)));
  variables ← unmarshal_variables "failed to unmarshal variables: %w" r.(inr_Variables);
  parentToken ← parent_token r;
  let refreshed := with_State (ActivityState_of r.(inr_State))
                     (with_Variables (NewVariableHolder None (Some variables)) i) in
  if (r.(inr_ProcessType) =? ProcessType_int ProcessTypeDefault)%Z then mret refreshed
  else if (r.(inr_ProcessType) =? ProcessType_int ProcessTypeMultiInstance)%Z then
    match i.(pi_Kind) with
    | MultiInstanceInstance _ _ _ => mret (with_ParentToken parentToken refreshed)
    | _ => throw (err! "processInstance is not a MultiInstanceInstance")
    end
  else if (r.(inr_ProcessType) =? ProcessType_int ProcessTypeSubProcess)%Z then
    match i.(pi_Kind) with
    | SubProcessInstance _ _ _ => mret (with_ParentToken parentToken refreshed)
    | _ => throw (err! "processInstance is not a SubProcessInstance")
    end
  else if (r.(inr_ProcessType) =? ProcessType_int ProcessTypeCallActivity)%Z then
    match i.(pi_Kind) with
    | CallActivityInstance _ _ => mret (with_ParentToken parentToken refreshed)
    | _ => throw (err! "processInstance is not a CallActivityInstance")
    end
  else mret i.

Definition inflateProcessInstance (r : InstanceRow) : ST DB ProcessInstance :=
  variables ← unmarshal_variables "failed to unmarshal variables: %w" r.(inr_Variables);
  definition ← db_FindProcessDefinitionByKey r.(inr_ProcessDefinitionKey);
  parentToken ← parent_token r;
  let instanceKey := default 0%Z r.(inr_ParentProcessTargetElementInstanceKey) in
  let elementId := default ""%string r.(inr_ParentProcessTargetElementID) in
  let inflated kind :=
    {| pi_Kind := kind; pi_Definition := definition; pi_Key := r.(inr_Key);
       pi_BusinessKey := r.(inr_BusinessKey);
       pi_VariableHolder := NewVariableHolder None (Some variables);
       pi_CreatedAt := time_UnixMilli r.(inr_CreatedAt);
       pi_State := ActivityState_of r.(inr_State) |} in
  if (r.(inr_ProcessType) =? ProcessType_int ProcessTypeDefault)%Z then
    mret (inflated DefaultProcessInstance)
  else if (r.(inr_ProcessType) =? ProcessType_int ProcessTypeMultiInstance)%Z then
    mret (inflated (MultiInstanceInstance parentToken instanceKey elementId))
  else if (r.(inr_ProcessType) =? ProcessType_int ProcessTypeSubProcess)%Z then
    mret (inflated (SubProcessInstance parentToken instanceKey elementId))
  else if (r.(inr_ProcessType) =? ProcessType_int ProcessTypeCallActivity)%Z then
    mret (inflated (CallActivityInstance parentToken instanceKey))
  else throw (err! "not Supported Process Instance type %d").

Definition db_FindProcessInstanceByKey (key : Z) : ST DB ProcessInstance :=
  r ← wrap (find_error "failed to find process instance by key %d: %w")
        (query_one "GetProcessInstance" (q_GetProcessInstance key));
  inflateProcessInstance r.

Definition db_FindProcessInstancesByParentExecutionTokenKey (token : Z) : ST DB (list ProcessInstance) :=
  rows ← wrap (λ e, errw! "failed to find process instances by parentExecutionTokenKey %d: %w" [e])
           (query_many "FindProcessesByParentExecutionToken" (q_FindProcessesByParentExecutionToken token));
  for_map rows (λ r, wrap (λ e, errw! "failed to inflate process instance: %w" [e])
    (inflateProcessInstance r)).

(** ** Timers *)

(** [t.Sub(u)]: the difference, saturated. *)
Definition time_Sub (t u : Z) : Z := Z.max (- 2 ^ 63) (Z.min (2 ^ 63 - 1) (t - u)).

Definition timer_of_row (r : TimerRow) : Timer :=
  let created := time_UnixMilli r.(tir_CreatedAt) in
  let due := time_UnixMilli r.(tir_DueAt) in
  {| tm_ElementId := r.(tir_ElementID); tm_Key := r.(tir_Key);
     tm_ElementInstanceKey := r.(tir_ElementInstanceKey);
     tm_ProcessDefinitionKey := r.(tir_ProcessDefinitionKey);
     tm_ProcessInstanceKey := r.(tir_ProcessInstanceKey);
     tm_TimerState := TimerState_of r.(tir_State); tm_CreatedAt := created; tm_DueAt := due;
     tm_Duration := time_Sub due created; tm_Token := key_token r.(tir_ExecutionToken) |}.

Definition inflateTimers (rows : list TimerRow) : ST DB (list Timer) :=
  tokens ← wrap (λ e, errw! "failed to load timer subscriptions tokens: %w" [e])
             (GetTokens (tir_ExecutionToken <$> rows));
  mret (join_tokens tm_Token with_TimerToken tokens (timer_of_row <$> rows)).

Definition db_GetTimer (key : Z) : ST DB Timer :=
  r ← wrap (find_error "failed to find timer by key %d: %w")
        (query_one "GetTimerByKey" (q_GetTimerByKey key));
  timers ← inflateTimers [r];
  match timers with t :: _ => mret t | [] => panic "index out of range" end.

Definition find_timers (name fmt : string) (q : Database → list TimerRow) : ST DB (list Timer) :=
  rows ← wrap (λ e, Errorf fmt [e]) (query_many name q);
  inflateTimers rows.

Definition db_FindTokenActiveTimerSubscriptions (token : Z) : ST DB (list Timer) :=
  find_timers "FindTokenTimers" "failed to find active element timers for token %d: %w"
    (q_FindTokenTimers token (TimerState_int TimerStateCreated)).
Definition db_FindProcessInstanceTimers (pik : Z) (state : TimerState) : ST DB (list Timer) :=
  find_timers "FindProcessInstanceTimersInState"
    "failed to find element timers for process instance %d: %w"
    (q_FindProcessInstanceTimersInState pik (TimerState_int state)).
Definition db_FindTimersTo (end_ : Z) : ST DB (list Timer) :=
  find_timers "FindTimersInStateTillDueAt" "failed to find timers till %s in state CREATED: %w"
    (q_FindTimersInStateTillDueAt (UnixMilli end_) (TimerState_int TimerStateCreated)).

(** ** Jobs *)

(** No reader returns the assignee. *)
Definition job_of_row (variables : vars) (token : ExecutionToken) (r : JobRow) : Job :=
  {| job_ElementId := r.(jor_ElementID); job_ElementInstanceKey := r.(jor_ElementInstanceKey);
     job_ProcessInstanceKey := r.(jor_ProcessInstanceKey); job_Key := r.(jor_Key);
     job_State := ActivityState_of r.(jor_State); job_Type := r.(jor_Type);
     job_Variables := variables; job_CreatedAt := time_UnixMilli r.(jor_CreatedAt);
     job_Token := token; job_Assignee := None |}.

Definition decode_job (r : JobRow) : ST DB Job :=
  variables ← unmarshal_variables "failed to unmarshal job variables: %w" r.(jor_Variables);
  mret (job_of_row variables (key_token r.(jor_ExecutionToken)) r).

Definition find_jobs (name fmt : string) (q : Database → list JobRow) : ST DB (list Job) :=
  rows ← wrap (λ e, Errorf fmt [e]) (query_many name q);
  jobs ← for_map rows decode_job;
  tokens ← wrap (λ e, errw! "failed to load message subscriptions tokens: %w" [e])
             (GetTokens (jor_ExecutionToken <$> rows));
  mret (join_tokens job_Token with_JobToken tokens jobs).

(** [make([]int64, n)] and [append]: n zeros before the states. *)
Definition db_GetJobsInStateByTokenKey (token : Z) (states : list ActivityState) : ST DB (list Job) :=
  find_jobs "GetJobsInStateByTokenKey"
    "failed to find pending process instance jobs for execution token key %d: %w"
    (q_GetJobsInStateByTokenKey token
       (replicate (length states) 0%Z ++ (ActivityState_int <$> states))).
Definition db_FindPendingProcessInstanceJobs (pik : Z) : ST DB (list Job) :=
  find_jobs "FindProcessInstanceJobsInState"
    "failed to find pending process instance jobs for process instance key %d: %w"
    (q_FindProcessInstanceJobsInState pik
       (ActivityState_int <$> [ActivityStateCompleting; ActivityStateActive; ActivityStateFailed])).

(** Without the variables. *)
Definition db_FindActiveJobsByType (type : string) : ST DB (list Job) :=
  rows ← wrap (λ e, errw! "failed to find active jobs for type %s: %w" [e])
           (query_many "FindActiveJobsByType" (q_FindActiveJobsByType type));
  tokens ← wrap (λ e, errw! "failed to find job tokens: %w" [e]) (GetTokens (jor_ExecutionToken <$> rows));
  mret (join_firsts job_Token with_JobToken tokens
          ((λ r, job_of_row ∅ (key_token r.(jor_ExecutionToken)) r) <$> rows)).

Definition db_FindJobByJobKey (key : Z) : ST DB Job :=
  r ← wrap (find_error "failed to find job with key %d: %w")
        (query_one "FindJobByJobKey" (q_FindJobByJobKey key));
  tokens ← wrap (λ e, errw! "failed to find job token %d: %w" [e]) (GetTokens [r.(jor_ExecutionToken)]);
  match tokens with
  | [token] =>
      variables ← unmarshal_variables "failed to unmarshal job variables: %w" r.(jor_Variables);
      mret (job_of_row variables (joined_token token) r)
  | _ => throw (err! "failed to find job token %d in the database")
  end.

(** ** Message subscriptions *)

Definition subscription_of_row (token : ExecutionToken) (r : SubscriptionRow) : MessageSubscription :=
  {| ms_Key := r.(sur_Key); ms_ElementId := r.(sur_ElementID);
     ms_ProcessDefinitionKey := r.(sur_ProcessDefinitionKey);
     ms_ProcessInstanceKey := r.(sur_ProcessInstanceKey); ms_Name := r.(sur_Name);
     ms_CorrelationKey := r.(sur_CorrelationKey); ms_State := ActivityState_of r.(sur_State);
     ms_CreatedAt := time_UnixMilli r.(sur_CreatedAt); ms_Token := token |}.

Definition db_FindActiveMessageSubscriptionKey (name correlationKey : string) : ST DB Z :=
  r ← wrap (find_error "can't find active message subscription by name %s, correlationKey %s: %w")
        (query_one "FindMessageSubscriptionByNameAndCorrelationKeyAndState"
           (q_FindMessageSubscriptionByNameAndCorrelationKeyAndState correlationKey name
              (ActivityState_int ActivityStateActive)));
  mret r.(sur_Key).

(** The error of a missing token wraps the nil error. *)
Definition load_token (key : Z) : ST DB TokenRow :=
  tokens ← wrap (λ e, errw! "failed to load message subscription token: %w" [e]) (GetTokens [key]);
  match tokens with
  | [token] => mret token
  | _ => throw (err! "failed to load message subscription token: %w")
  end.

Definition db_FindTokenMessageSubscriptions (token : Z) (state : ActivityState)
    : ST DB (list MessageSubscription) :=
  rows ← wrap (λ e, errw! "failed to find token message subscriptions for token %d in state %d: %w" [e])
           (query_many "FindTokenMessageSubscriptions"
              (q_FindTokenMessageSubscriptions token (ActivityState_int state)));
  t ← load_token token;
  mret (subscription_of_row (joined_token t) <$> rows).

Definition db_FindMessageSubscriptionById (key : Z) (state : ActivityState) : ST DB MessageSubscription :=
  r ← wrap (find_error "failed to find active message subscription %d: %w")
        (query_one "GetMessageSubscriptionById"
           (q_GetMessageSubscriptionById key (ActivityState_int state)));
  t ← load_token r.(sur_ExecutionToken);
  mret (subscription_of_row (joined_token t) r).

Definition db_FindProcessInstanceMessageSubscriptions (pik : Z) (state : ActivityState)
    : ST DB (list MessageSubscription) :=
  rows ← wrap (λ e, errw! "failed to find message subscriptions for process %d: %w" [e])
           (query_many "FindProcessInstanceMessageSubscriptions"
              (q_FindProcessInstanceMessageSubscriptions pik (ActivityState_int state)));
  tokens ← wrap (λ e, errw! "failed to load message subscriptions tokens: %w" [e])
             (GetTokens (sur_ExecutionToken <$> rows));
  mret (join_tokens ms_Token with_SubscriptionToken tokens
          ((λ r, subscription_of_row (key_token r.(sur_ExecutionToken)) r) <$> rows)).

Definition db_FindActiveMessageSubscriptionPointer (name correlationKey : string) : ST DB PointerRow :=
  wrap (find_error "failed to find ready message subscription pointer for name %s correlationKey %s: %w")
    (query_one "FindMessageSubscriptionPointer"
       (q_FindMessageSubscriptionPointer correlationKey name (ActivityState_int ActivityStateActive))).

(** ** Flow element instances *)

Definition element_of_row (tokenKey : Z) (r : ElementRow) (inputs outputs : vars) : FlowElementInstance :=
  {| fe_Key := r.(elr_Key); fe_ProcessInstanceKey := r.(elr_ProcessInstanceKey);
     fe_ElementId := r.(elr_ElementID); fe_CreatedAt := time_UnixMilli r.(elr_CreatedAt);
     fe_ExecutionTokenKey := tokenKey; fe_InputVariables := inputs; fe_OutputVariables := outputs |}.

Definition decode_element (tokenKey : ElementRow → Z) (r : ElementRow) : ST DB FlowElementInstance :=
  let fmt := "failed to marshal variables for flow element instance %d: %w"%string in
  inputs ← unmarshal_variables fmt r.(elr_InputVariables);
  outputs ← unmarshal_variables fmt r.(elr_OutputVariables);
  mret (element_of_row (tokenKey r) r inputs outputs).

Definition db_GetFlowElementInstanceCountByProcessInstanceKey (pik : Z) : ST DB Z :=
  n ← wrap (λ e, errw! "failed to count element instances for process instance %d: %w" [e])
        (query_one "CountFlowElementInstances" (λ d, Some (q_CountFlowElementInstances pik d)));
  mret n.

(** The limit of the query is 1000; sort.Slice puts the newest first (it is not
    stable: the order of equal times is one of the possible ones). *)
Definition db_GetFlowElementInstancesByProcessInstanceKey (pik : Z) (orderByTimeCreated : bool)
    : ST DB (list FlowElementInstance) :=
  rows ← query_many "GetFlowElementInstances" (q_GetFlowElementInstances pik 0 1000);
  result ← for_map rows (decode_element elr_ExecutionTokenKey);
  mret (if orderByTimeCreated then order_desc fe_CreatedAt result else result).

(** The key of the instance is also returned as the key of its token; a missing
    row is not reported as ErrNotFound. *)
Definition db_GetFlowElementInstanceByKey (key : Z) : ST DB FlowElementInstance :=
  r ← query_one "GetFlowElementInstanceByKey" (q_GetFlowElementInstanceByKey key);
  decode_element elr_Key r.

(** ** Incidents *)

Definition incident_of_row (token : ExecutionToken) (r : IncidentRow) : Incident :=
  {| inc_Key := r.(icr_Key); inc_ElementInstanceKey := r.(icr_ElementInstanceKey);
     inc_ElementId := r.(icr_ElementID); inc_ProcessInstanceKey := r.(icr_ProcessInstanceKey);
     inc_Message := r.(icr_Message); inc_CreatedAt := time_UnixMilli r.(icr_CreatedAt);
     inc_ResolvedAt := time_UnixMilli <$> r.(icr_ResolvedAt); inc_Token := token |}.

(** [tokens[0]] panics for an incident whose token is not stored. *)
Definition db_FindIncidentsByExecutionTokenKey (token : Z) : ST DB (list Incident) :=
  rows ← query_many "FindIncidentsByExecutionTokenKey" (q_FindIncidentsByExecutionTokenKey token);
  tokens ← wrap (λ e, errw! "failed to find job tokens: %w" [e]) (GetTokens [token]);
  for_map rows (λ r,
    match tokens with
    | t :: _ => mret (incident_of_row (joined_token t) r)
    | [] => panic "index out of range"
    end).

(** The error of a failing token query is joined with the one of no tokens. *)
Definition db_FindIncidentByKey (key : Z) : ST DB Incident :=
  r ← wrap (find_error "incident with key %d not found: %w")
        (query_one "FindIncidentByKey" (q_FindIncidentByKey key));
  tokens ← attempt (GetTokens [r.(icr_ExecutionToken)]);
  match tokens with
  | Good (t :: _) => mret (incident_of_row (joined_token t) r)
  | Good [] => throw (Errorf "errors.Join" [err! "no incidents found"])
  | Bad e => throw (errors_Join e (err! "no incidents found"))
  end.

(** Neither the times nor the key of the token are copied, and the tokens are
    matched with the zero token of the records. *)
Definition partial_incident (r : IncidentRow) : Incident :=
  {| inc_Key := r.(icr_Key); inc_ElementInstanceKey := r.(icr_ElementInstanceKey);
     inc_ElementId := r.(icr_ElementID); inc_ProcessInstanceKey := r.(icr_ProcessInstanceKey);
     inc_Message := r.(icr_Message); inc_CreatedAt := zero_time; inc_ResolvedAt := None;
     inc_Token := zero_token |}.

Definition db_FindIncidentsByProcessInstanceKey (pik : Z) : ST DB (list Incident) :=
  rows ← query_many "FindIncidentsByProcessInstanceKey" (q_FindIncidentsByProcessInstanceKey pik);
  tokens ← wrap (λ e, errw! "failed to find job tokens: %w" [e])
             (GetTokens (icr_ExecutionToken <$> rows));
  mret (join_firsts inc_Token with_IncidentToken tokens (partial_incident <$> rows)).

(** ** Decisions *)

Definition decision_of_row (r : DecisionRow) : DecisionDefinition :=
  {| dcd_Version := r.(dcr_Version); dcd_Key := r.(dcr_Key); dcd_Id := r.(dcr_DecisionID);
     dcd_VersionTag := r.(dcr_VersionTag);
     dcd_DmnResourceDefinitionId := r.(dcr_DmnResourceDefinitionID);
     dcd_DmnResourceDefinitionKey := r.(dcr_DmnResourceDefinitionKey) |}.

Definition find_decision_row (name fmt : string) (q : Database → option DecisionRow)
    : ST DB DecisionDefinition :=
  r ← wrap (find_error fmt) (query_one name q);
  mret (decision_of_row r).

Definition db_GetLatestDecisionDefinitionById (id : string) : ST DB DecisionDefinition :=
  find_decision_row "FindLatestDecisionDefinitionById"
    "failed to find latest decision definition by id %s: %w" (q_FindLatestDecisionDefinitionById id).
Definition db_GetDecisionDefinitionsById (id : string) : ST DB (list DecisionDefinition) :=
  rows ← wrap (λ e, errw! "failed to find decisions by id: %w" [e])
           (query_many "FindDecisionDefinitionsById" (q_FindDecisionDefinitionsById id));
  mret (decision_of_row <$> rows).
Definition db_GetLatestDecisionDefinitionByIdAndVersionTag (id tag : string) : ST DB DecisionDefinition :=
  find_decision_row "FindLatestDecisionDefinitionByIdAndVersionTag"
    "failed to find latest decision by id %s and version tag %s: %w"
    (q_FindLatestDecisionDefinitionByIdAndVersionTag id tag).
Definition db_GetLatestDecisionDefinitionByIdAndDmnResourceDefinitionId (id resource : string)
    : ST DB DecisionDefinition :=
  find_decision_row "FindLatestDecisionDefinitionByIdAndDmnResourceDefinitionId"
    "failed to find latest decision by id %s and dmnResourceDefinitionId %s: %w"
    (q_FindLatestDecisionDefinitionByIdAndDmnResourceDefinitionId id resource).
Definition db_GetDecisionDefinitionByIdAndDmnResourceDefinitionKey (id : string) (resource : Z)
    : ST DB DecisionDefinition :=
  find_decision_row "FindDecisionDefinitionByIdAndDmnResourceDefinitionKey"
    "failed to find decision by decisionId %s and dmnResourceDefinitionKey %d: %w"
    (q_FindDecisionDefinitionByIdAndDmnResourceDefinitionKey resource id).

Definition load_resource (key : Z) (r : ResourceRow) : ST DB DmnResourceDefinition :=
  definitions ← wrap_result (λ e, errw! "failed to unmarshal xml data: %w" [e])
                  (xml_Unmarshal_dmn r.(rer_DmnData));
  checksum ← checksum16 r.(rer_DmnChecksum);
  let res := {| drd_Version := r.(rer_Version); drd_Key := r.(rer_Key);
                drd_Id := r.(rer_DmnResourceDefinitionID); drd_Definitions := definitions;
                drd_DmnData := r.(rer_DmnData);
                drd_DmnDefinitionName := r.(rer_DmnDefinitionName); drd_DmnChecksum := checksum |} in
  modify (drdCache_Add key res) ;;
  mret res.

Definition cached_resource (r : ResourceRow) : ST DB DmnResourceDefinition :=
  cache ← gets db_drdCache;
  match cache !! r.(rer_Key) with
  | Some d => mret d
  | None => load_resource r.(rer_Key) r
  end.

Definition db_FindLatestDmnResourceDefinitionById (id : string) : ST DB DmnResourceDefinition :=
  r ← wrap (find_error "failed to find latest dmn resource definition by id %s: %w")
        (query_one "FindLatestDmnResourceDefinitionById" (q_FindLatestDmnResourceDefinitionById id));
  cached_resource r.
Definition db_FindDmnResourceDefinitionByKey (key : Z) : ST DB DmnResourceDefinition :=
  cache ← gets db_drdCache;
  match cache !! key with
  | Some d => mret d
  | None =>
      r ← wrap (find_error "failed to find latest dmn resource definition by key %d: %w")
            (query_one "FindDmnResourceDefinitionByKey" (q_FindDmnResourceDefinitionByKey key));
      load_resource key r
  end.
Definition db_FindDmnResourceDefinitionsById (id : string) : ST DB (list DmnResourceDefinition) :=
  rows ← wrap (λ e, errw! "failed to find dmn resource definitions by id: %w"
                      [errw! "%w: %w" [e; ErrNotFound]])
           (query_many "FindDmnResourceDefinitionsById" (q_FindDmnResourceDefinitionsById id));
  for_map rows cached_resource.

Definition db_FindDecisionInstanceByKey (key : Z) : ST DB DecisionInstance :=
  r ← wrap (find_error "failed to find decision instance by key %d: %w")
        (query_one "FindDecisionInstanceByKey" (q_FindDecisionInstanceByKey key));
  mret {| dci_Key := r.(dir_Key); dci_ElementInstanceKey := 0; dci_ElementId := "";
          dci_ProcessInstanceKey := default 0%Z r.(dir_ProcessInstanceKey);
          dci_ExecutionTokenKey := 0; dci_DecisionId := r.(dir_DecisionID);
          dci_CreatedAt := time_UnixMilli r.(dir_CreatedAt);
          dci_OutputVariables := r.(dir_OutputVariables);
          dci_EvaluatedDecisions := r.(dir_EvaluatedDecisions);
          dci_DmnResourceDefinitionKey := r.(dir_DmnResourceDefinitionKey);
          dci_DecisionDefinitionKey := r.(dir_DecisionDefinitionKey) |}.
End readers.
