(* ===== verification/PartitionWrite.v ===== *)
(** The persistent storage of a partition, writing side
    (internal/cluster/partition/partition_persistence.go): the writers, written
    once against the interface Querier and used by the storage itself and by
    its batch, the pointers of message subscriptions, Flush, and the cleanup of
    finished instances. *)
From S2P Require Import Prelude Monad Model Runtime DmnModel Storage Sql PartitionDB.
From S2P Require Import ClusterState Zenflake.

(** ** The two queriers *)

(** [getQueries().db.ExecContext] and [getReadDB()]. *)
Class Querier (S : Type) := {
  ExecContext : SqlStmt → ST S unit;
  getReadDB : S → DB
}.

#[export] Instance DB_Querier : Querier DB := {| ExecContext := db_ExecContext; getReadDB s := s |}.

(** A batch, with the storage it belongs to. *)
Record DBBatch := {
  bt_db : DB;
  bt_stmtToRun : list SqlStmt;
  bt_preFlushActions : list (ST DB unit);
  bt_postFlushActions : list (ST DB unit)
}.

Definition NewBatch (db : DB) : DBBatch :=
  {| bt_db := db; bt_stmtToRun := []; bt_preFlushActions := []; bt_postFlushActions := [] |}.

(** A statement is only recorded. *)
Definition batch_ExecContext (stmt : SqlStmt) : ST DBBatch unit := modify (λ b,
  {| bt_db := b.(bt_db); bt_stmtToRun := b.(bt_stmtToRun) ++ [stmt];
     bt_preFlushActions := b.(bt_preFlushActions); bt_postFlushActions := b.(bt_postFlushActions) |}).

#[export] Instance DBBatch_Querier : Querier DBBatch :=
  {| ExecContext := batch_ExecContext; getReadDB := bt_db |}.

Definition AddPreFlushAction (f : ST DB unit) : ST DBBatch unit := modify (λ b,
  {| bt_db := b.(bt_db); bt_stmtToRun := b.(bt_stmtToRun);
     bt_preFlushActions := b.(bt_preFlushActions) ++ [f];
     bt_postFlushActions := b.(bt_postFlushActions) |}).
Definition AddPostFlushAction (f : ST DB unit) : ST DBBatch unit := modify (λ b,
  {| bt_db := b.(bt_db); bt_stmtToRun := b.(bt_stmtToRun);
     bt_preFlushActions := b.(bt_preFlushActions);
     bt_postFlushActions := b.(bt_postFlushActions) ++ [f] |}).

(** The values of the context the writers look up; the history TTL as
    [int64(historyTTL.Seconds())]. *)
Record AppContext := {
  ctx_BusinessKey : option string;
  ctx_HistoryTTLSec : option Z;
  ctx_ProcessInstanceKey : option Z;
  ctx_ElementInstanceKey : option Z
}.

Section writers.
Context `{TableScan}.
Context (json_Marshal : vars → result string).

Section querier.
Context {S : Type} `{Querier S}.

(** A query on the storage, from a batch too: the statements of the batch have
    not been run. *)
Definition on_read_db {A} (m : ST DB A) : ST S A := λ s, ((m (getReadDB s)).1, s).

Definition marshal_variables (fmt : string) (v : vars) : ST S string :=
  wrap_result (λ e, Errorf fmt [e]) (json_Marshal v).

Definition SaveToken (token : ExecutionToken) : ST S unit :=
  s ← get;
  ExecContext (SqlSaveToken
    {| tor_Key := token.(tok_Key); tor_ElementInstanceKey := token.(tok_ElementInstanceKey);
       tor_ElementID := token.(tok_ElementId); tor_ProcessInstanceKey := token.(tok_ProcessInstanceKey);
       tor_State := TokenState_int token.(tok_State);
       tor_CreatedAt := UnixMilli (getReadDB s).(db_now) |}).

(** The state that is stored is the one of GetState, an ActivityState; without
    a mapping it panics. *)
Definition SaveTimerWith (timer : Timer) : ST S unit :=
  match Timer_GetState timer with
  | None => panic "[invariant check] missing mapping for timer state=%s"
  | Some state =>
      wrap (λ e, errw! "failed to save timer %d: %w" [e]) (ExecContext (SqlSaveTimer
        {| tir_Key := timer.(tm_Key); tir_ElementInstanceKey := timer.(tm_ElementInstanceKey);
           tir_ElementID := timer.(tm_ElementId);
           tir_ProcessDefinitionKey := timer.(tm_ProcessDefinitionKey);
           tir_ProcessInstanceKey := timer.(tm_ProcessInstanceKey);
           tir_State := ActivityState_int state;
           tir_CreatedAt := UnixMilli timer.(tm_CreatedAt); tir_DueAt := UnixMilli timer.(tm_DueAt);
           tir_ExecutionToken := timer.(tm_Token).(tok_Key) |}))
  end.

Definition SaveJobWith (job : Job) : ST S unit :=
  variables ← marshal_variables "failed to marshal variables for job %d: %w" job.(job_Variables);
  wrap (λ e, errw! "failed to save job %d: %w" [e]) (ExecContext (SqlSaveJob
    {| jor_Key := job.(job_Key); jor_ElementInstanceKey := job.(job_ElementInstanceKey);
       jor_ElementID := job.(job_ElementId); jor_ProcessInstanceKey := job.(job_ProcessInstanceKey);
       jor_Type := job.(job_Type); jor_State := ActivityState_int job.(job_State);
       jor_CreatedAt := UnixMilli job.(job_CreatedAt); jor_Variables := variables;
       jor_ExecutionToken := job.(job_Token).(tok_Key); jor_Assignee := job.(job_Assignee) |})).

Definition SaveMessageSubscriptionWith (m : MessageSubscription) : ST S unit :=
  wrap (λ e, errw! "failed to save message subscription %d: %w" [e]) (ExecContext (SqlSaveMessageSubscription
    {| sur_Key := m.(ms_Key); sur_ElementID := m.(ms_ElementId);
       sur_ProcessDefinitionKey := m.(ms_ProcessDefinitionKey);
       sur_ProcessInstanceKey := m.(ms_ProcessInstanceKey); sur_Name := m.(ms_Name);
       sur_State := ActivityState_int m.(ms_State); sur_CreatedAt := UnixMilli m.(ms_CreatedAt);
       sur_CorrelationKey := m.(ms_CorrelationKey); sur_ExecutionToken := m.(ms_Token).(tok_Key) |})).

Definition element_row (f : FlowElementInstance) (inputs outputs : string) : ElementRow :=
  {| elr_Key := f.(fe_Key); elr_ElementID := f.(fe_ElementId);
     elr_ProcessInstanceKey := f.(fe_ProcessInstanceKey);
     elr_ExecutionTokenKey := f.(fe_ExecutionTokenKey);
     elr_CreatedAt := UnixMilli f.(fe_CreatedAt);
     elr_InputVariables := inputs; elr_OutputVariables := outputs |}.

Definition SaveFlowElementInstanceWith (f : FlowElementInstance) : ST S unit :=
  let fmt := "failed to marshal variables for flow element instance %d: %w"%string in
  inputs ← marshal_variables fmt f.(fe_InputVariables);
  outputs ← marshal_variables fmt f.(fe_OutputVariables);
  ExecContext (SqlSaveFlowElementInstance (element_row f inputs outputs)).

(** The inputs of the parameters are the empty string. *)
Definition UpdateOutputFlowElementInstanceWith (f : FlowElementInstance) : ST S unit :=
  outputs ← marshal_variables "failed to marshal variables for flow element instance %d: %w"
              f.(fe_OutputVariables);
  ExecContext (SqlUpdateOutputFlowElementInstance (element_row f "" outputs)).

Definition SaveIncidentWith (i : Incident) : ST S unit :=
  ExecContext (SqlSaveIncident
    {| icr_Key := i.(inc_Key); icr_ElementInstanceKey := i.(inc_ElementInstanceKey);
       icr_ElementID := i.(inc_ElementId); icr_ProcessInstanceKey := i.(inc_ProcessInstanceKey);
       icr_Message := i.(inc_Message); icr_CreatedAt := UnixMilli i.(inc_CreatedAt);
       icr_ResolvedAt := UnixMilli <$> i.(inc_ResolvedAt);
       icr_ExecutionToken := i.(inc_Token).(tok_Key) |}).

Definition SaveProcessDefinitionWith (d : ProcessDefinition) : ST S unit :=
  wrap (λ e, errw! "failed to save process definition: %w" [e]) (ExecContext (SqlSaveProcessDefinition
    {| der_Key := d.(pd_Key); der_Version := d.(pd_Version); der_BpmnProcessID := d.(pd_BpmnProcessId);
       der_BpmnData := d.(pd_BpmnData); der_BpmnChecksum := d.(pd_BpmnChecksum);
       der_BpmnProcessName := d.(pd_BpmnProcessName) |})).

Definition SaveDecisionDefinitionWith (d : DecisionDefinition) : ST S unit :=
  wrap (λ e, errw! "failed to save decision: %w" [e]) (ExecContext (SqlSaveDecisionDefinition
    {| dcr_Key := d.(dcd_Key); dcr_Version := d.(dcd_Version); dcr_DecisionID := d.(dcd_Id);
       dcr_VersionTag := d.(dcd_VersionTag);
       dcr_DmnResourceDefinitionID := d.(dcd_DmnResourceDefinitionId);
       dcr_DmnResourceDefinitionKey := d.(dcd_DmnResourceDefinitionKey) |})).

Definition SaveDmnResourceDefinitionWith (d : DmnResourceDefinition) : ST S unit :=
  wrap (λ e, errw! "failed to save dmn resource definition: %w" [e])
    (ExecContext (SqlSaveDmnResourceDefinition
       {| rer_Key := d.(drd_Key); rer_Version := d.(drd_Version);
          rer_DmnResourceDefinitionID := d.(drd_Id); rer_DmnData := d.(drd_DmnData);
          rer_DmnChecksum := d.(drd_DmnChecksum); rer_DmnDefinitionName := d.(drd_DmnDefinitionName) |})).

(** ** Process instances *)

(** The columns of the parent: its token, target element and element instance. *)
Definition parent_columns (k : InstanceKind) : option Z * option string * option Z :=
  match k with
  | DefaultProcessInstance => (None, None, None)
  | MultiInstanceInstance t eik id | SubProcessInstance t eik id =>
      (Some t.(tok_Key), Some id, Some eik)
  | CallActivityInstance t eik => (Some t.(tok_Key), None, Some eik)
  end.

Definition instance_params (businessKey : option string) (variables : string) (i : ProcessInstance)
    : InstanceRow :=
  let '(token, id, eik) := parent_columns i.(pi_Kind) in
  {| inr_Key := i.(pi_Key); inr_ProcessDefinitionKey := i.(pi_Definition).(pd_Key);
     inr_BusinessKey := businessKey; inr_CreatedAt := UnixMilli i.(pi_CreatedAt);
     inr_State := ActivityState_int i.(pi_State); inr_Variables := variables;
     inr_ParentProcessExecutionToken := token; inr_ParentProcessTargetElementID := id;
     inr_ParentProcessTargetElementInstanceKey := eik;
     inr_ProcessType := ProcessType_int (Type_ i); inr_HistoryTtlSec := None;
     inr_HistoryDeleteSec := None |}.

(** When the instance has ended: the mark is [now + ttl], of the instance as the
    storage has it. *)
Definition mark_for_deletion (i : ProcessInstance) : ST S unit :=
  pi ← wrap (λ e, errw! "failed to read process instance for history processing: %w" [e])
         (on_read_db (query_one "GetProcessInstance" (q_GetProcessInstance i.(pi_Key))));
  match pi.(inr_HistoryTtlSec) with
  | None => mret tt
  | Some ttl =>
      s ← get;
      let toDeleteTime := ((getReadDB s).(db_now) + wrap64 (ttl * 1000000000))%Z in
      wrap (λ e, errw! "failed to set process instance deletion mark: %w" [e])
        (ExecContext (SqlSetProcessInstanceTTL None (Some (Unix toDeleteTime)) i.(pi_Key)))
  end.

Definition SaveProcessInstanceWith (ctx : AppContext) (i : ProcessInstance) : ST S unit :=
  variables ← marshal_variables "failed to marshal variables for instance %d: %w" i.(pi_VariableHolder);
  let businessKey := match ctx.(ctx_BusinessKey) with Some k => Some k | None => i.(pi_BusinessKey) end in
  wrap (λ e, errw! "failed to save process instance %d: %w" [e])
    (ExecContext (SqlSaveProcessInstance (instance_params businessKey variables i))) ;;
  (match i.(pi_State) with
   | ActivityStateReady =>
       match ctx.(ctx_HistoryTTLSec) with
       | None => mret tt
       | Some ttl =>
           wrap (λ e, errw! "failed to set process instance TTL %d: %w" [e])
             (ExecContext (SqlSetProcessInstanceTTL (Some ttl) None i.(pi_Key)))
       end
   | ActivityStateCompleted | ActivityStateTerminated => mark_for_deletion i
   | _ => mret tt
   end).
End querier.

Definition db_SaveDecisionInstance (ctx : AppContext) (r : DecisionInstance) : ST DB unit :=
  db_ExecContext (SqlSaveDecisionInstance
    {| dir_Key := r.(dci_Key); dir_DecisionID := r.(dci_DecisionId);
       dir_CreatedAt := UnixMilli r.(dci_CreatedAt); dir_OutputVariables := r.(dci_OutputVariables);
       dir_EvaluatedDecisions := r.(dci_EvaluatedDecisions);
       dir_DmnResourceDefinitionKey := r.(dci_DmnResourceDefinitionKey);
       dir_DecisionDefinitionKey := r.(dci_DecisionDefinitionKey);
       dir_ProcessInstanceKey := ctx.(ctx_ProcessInstanceKey);
       dir_FlowElementInstanceKey := ctx.(ctx_ElementInstanceKey) |}).

(** ** The pointer of a message name and correlation key

    It lives in the partition of the correlation key.  [client]: the answers of
    the other nodes - whether the leader of a partition is known, the active
    message a pointer refers to (an error with the gRPC code NotFound is
    [ErrNotFound]), and setting the pointer in another partition. *)
Record Remote := {
  PartitionLeader : Z → option error;
  FindActiveMessage : Z → PointerRow → result Z;
  SetMessageSubscriptionPointer : Z → PointerRow → option error
}.

Section pointer.
Context (Partition : Z) (IsLeader : bool) (zenState : Cluster) (client : Remote).

Definition upsertPointer (pointer : PointerRow) : ST DB unit :=
  wrap (λ e, errw! "failed to save message subscription pointer for message subscription %d: %w" [e])
    (db_ExecContext (SqlSaveMessageSubscriptionPointer pointer)).

Definition zero_pointer : PointerRow :=
  {| por_Name := ""; por_CorrelationKey := ""; por_State := 0; por_CreatedAt := 0;
     por_MessageSubscriptionKey := 0; por_ExecutionTokenKey := 0 |}.

(** Whether the message of the old pointer is active decides. *)
Definition check_old_pointer (oldPointer pointer : PointerRow) : ST DB unit :=
  if negb (pointer.(por_State) =? ActivityState_int ActivityStateActive)%Z then upsertPointer pointer
  else
    let msgPartitionId := GetPartitionId oldPointer.(por_MessageSubscriptionKey) in
    match client.(PartitionLeader) msgPartitionId with
    | Some err => throw (errw! "failed to get partition %d leader client: %w" [err])
    | None =>
        match client.(FindActiveMessage) msgPartitionId oldPointer with
        | Bad e =>
            if is_ErrNotFound e then upsertPointer pointer
            else throw (errw! "failed to check if message assigned to pointer is active: %w" [e])
        | Good _ => throw (err! "message %d has already active subscription for this correlationKey")
        end
    end.

Definition SaveMessageSubscriptionPointer (pointer : PointerRow) : ST DB unit :=
  let ptrPartitionId := GetPartitionIdFromString zenState pointer.(por_CorrelationKey) in
  if ((Partition =? ptrPartitionId)%Z && IsLeader)%bool then
    oldPointer ← attempt (query_one "FindMessageSubscriptionPointer"
      (q_FindMessageSubscriptionPointer pointer.(por_CorrelationKey) pointer.(por_Name)
         (ActivityState_int ActivityStateActive)));
    match oldPointer with
    | Bad e =>
        if errors_Is is_ErrNoRows e then upsertPointer pointer
        else check_old_pointer zero_pointer pointer
    | Good old => check_old_pointer old pointer
    end
  else
    match client.(PartitionLeader) ptrPartitionId with
    | Some err => throw (errw! "failed to get client for partition leader %d: %w" [err])
    | None =>
        match client.(SetMessageSubscriptionPointer) ptrPartitionId pointer with
        | Some e => throw (errw! "%w: %w"
            [errw! "failed to save message subscription pointer for message subscription %d: %w" [e]; e])
        | None => mret tt
        end
    end.

Definition pointer_of (m : MessageSubscription) : PointerRow :=
  {| por_Name := m.(ms_Name); por_CorrelationKey := m.(ms_CorrelationKey);
     por_State := ActivityState_int m.(ms_State); por_CreatedAt := UnixMilli m.(ms_CreatedAt);
     por_MessageSubscriptionKey := m.(ms_Key); por_ExecutionTokenKey := m.(ms_Token).(tok_Key) |}.

Definition db_SaveMessageSubscription (m : MessageSubscription) : ST DB unit :=
  wrap (λ e, errw! "failed to update message pointer: %w" [e])
    (SaveMessageSubscriptionPointer (pointer_of m)) ;;
  SaveMessageSubscriptionWith m.

(** In a batch the pointer is saved before the statements are run. *)
Definition batch_SaveMessageSubscription (m : MessageSubscription) : ST DBBatch unit :=
  AddPreFlushAction (wrap (λ e, errw! "failed to update message %d pointer: %w" [e])
    (SaveMessageSubscriptionPointer (pointer_of m))) ;;
  SaveMessageSubscriptionWith m.
End pointer.

(** ** Flush *)

Definition batch_Flush (b : DBBatch) : ST DB unit :=
  for_each b.(bt_preFlushActions) (wrap (λ e, errw! "failed pre-flush action %s: %w" [e])) ;;
  resp ← ExecuteStatements b.(bt_stmtToRun);
  match resp with
  | Some e => throw (Errorf "errors.Join" [errw! "statement %d error: %s" []])
  | None => for_each b.(bt_postFlushActions) (λ action, action)
  end.

(** A writer of the interface, for a statement of a batch or of the storage. *)
Definition save_stmt {S} `{Querier S} (ctx : AppContext)
    (saveSubscription : MessageSubscription → ST S unit) (s : Stmt) : ST S unit :=
  match s with
  | StSaveProcessDefinition d => SaveProcessDefinitionWith d
  | StSaveProcessInstance _ i => SaveProcessInstanceWith ctx i
  | StSaveTimer t => SaveTimerWith t
  | StSaveJob j => SaveJobWith j
  | StSaveMessageSubscription m => saveSubscription m
  | StSaveToken t => SaveToken t
  | StSaveFlowElementInstance f => SaveFlowElementInstanceWith f
  | StUpdateOutputFlowElementInstance f => UpdateOutputFlowElementInstanceWith f
  | StSaveIncident i => SaveIncidentWith i
  end.

(** ** Cleanup of finished instances *)

Definition historyDeleteThreshold : Z := 1000.

(** Nothing of the error of a query or of a deletion is returned. *)
Definition dataCleanup (currTime : Z) : ST DB bool :=
  r ← attempt (query_many "FindInactiveInstancesToDelete"
                 (q_FindInactiveInstancesToDelete (Unix currTime) historyDeleteThreshold));
  let processes := match r with Good l => l | Bad _ => [] end in
  if (Z.of_nat (length processes) =? historyDeleteThreshold)%Z then
    for_each
      [SqlDeleteProcessInstancesDecisionInstances processes; SqlDeleteFlowElementInstance processes;
       SqlDeleteProcessInstancesTokens processes; SqlDeleteProcessInstancesJobs processes;
       SqlDeleteProcessInstancesTimers processes;
       SqlDeleteProcessInstancesMessageSubscriptions processes;
       SqlDeleteProcessInstancesIncidents processes; SqlDeleteProcessInstances processes]
      (λ stmt, _ ← attempt (db_ExecContext stmt); mret tt) ;;
    mret true
  else mret false.
End writers.
