(* ===== verification/PersistenceProps.v ===== *)
(** The persistent storage: the tables stay well formed, what Flush and the
    cleanup may change, what is read back of what was written, and where the
    storage departs from its contract. *)
From S2P Require Import Prelude Monad Model Runtime DmnModel Storage Sql PartitionDB PartitionWrite.
From S2P Require Import ClusterState Zenflake.

(** ** Well-formed tables *)

(** Every row is stored under its key ... *)
Definition keyed {K A} `{Countable K} (key : A → K) (m : gmap K A) : Prop :=
  map_Forall (λ k r, key r = k) m.
(** ... and what a column refers to exists. *)
Definition foreign_key {A B} (column : A → option Z) (m : gmap Z A) (target : gmap Z B) : Prop :=
  map_Forall (λ _ r, ∀ k, column r = Some k → is_Some (target !! k)) m.

Record keys_ok (d : Database) : Prop := {
  ok_definition_key : keyed der_Key d.(tb_process_definition);
  ok_instance_key : keyed inr_Key d.(tb_process_instance);
  ok_pointer_key : keyed (λ r, (r.(por_Name), r.(por_CorrelationKey))) d.(tb_message_subscription_pointer);
  ok_subscription_key : keyed sur_Key d.(tb_message_subscription);
  ok_timer_key : keyed tir_Key d.(tb_timer);
  ok_job_key : keyed jor_Key d.(tb_job);
  ok_token_key : keyed tor_Key d.(tb_execution_token);
  ok_element_key : keyed elr_Key d.(tb_flow_element_instance);
  ok_incident_key : keyed icr_Key d.(tb_incident);
  ok_resource_key : keyed rer_Key d.(tb_dmn_resource_definition);
  ok_decision_key : keyed dcr_Key d.(tb_decision_definition);
  ok_decision_instance_key : keyed dir_Key d.(tb_decision_instance)
}.

(** The rows of an instance. *)
Record instance_rows_ok {B} (d : Database) (instances : gmap Z B) : Prop := {
  ok_subscription_instance :
    foreign_key (Some ∘ sur_ProcessInstanceKey) d.(tb_message_subscription) instances;
  ok_timer_instance : foreign_key (Some ∘ tir_ProcessInstanceKey) d.(tb_timer) instances;
  ok_job_instance : foreign_key (Some ∘ jor_ProcessInstanceKey) d.(tb_job) instances;
  ok_token_instance : foreign_key (Some ∘ tor_ProcessInstanceKey) d.(tb_execution_token) instances;
  ok_element_instance :
    foreign_key (Some ∘ elr_ProcessInstanceKey) d.(tb_flow_element_instance) instances;
  ok_incident_instance : foreign_key (Some ∘ icr_ProcessInstanceKey) d.(tb_incident) instances;
  ok_decision_instance_instance : foreign_key dir_ProcessInstanceKey d.(tb_decision_instance) instances
}.

Record definition_rows_ok (d : Database) : Prop := {
  ok_instance_definition :
    foreign_key (Some ∘ inr_ProcessDefinitionKey) d.(tb_process_instance) d.(tb_process_definition);
  ok_subscription_definition :
    foreign_key (Some ∘ sur_ProcessDefinitionKey) d.(tb_message_subscription) d.(tb_process_definition);
  ok_timer_definition :
    foreign_key (Some ∘ tir_ProcessDefinitionKey) d.(tb_timer) d.(tb_process_definition);
  ok_decision_resource : foreign_key (Some ∘ dcr_DmnResourceDefinitionKey)
    d.(tb_decision_definition) d.(tb_dmn_resource_definition);
  ok_decision_instance_resource : foreign_key (Some ∘ dir_DmnResourceDefinitionKey)
    d.(tb_decision_instance) d.(tb_dmn_resource_definition);
  ok_decision_instance_decision : foreign_key (Some ∘ dir_DecisionDefinitionKey)
    d.(tb_decision_instance) d.(tb_decision_definition)
}.

Record database_ok (d : Database) : Prop := {
  ok_keys : keys_ok d;
  ok_instance_rows : instance_rows_ok d d.(tb_process_instance);
  ok_definition_rows : definition_rows_ok d
}.

Create HintDb tables discriminated.

Lemma keyed_empty {K A} `{Countable K} (key : A → K) : keyed key ∅.
Proof. apply map_Forall_empty. Qed.
Lemma foreign_key_empty {A B} (column : A → option Z) (t : gmap Z B) : foreign_key column ∅ t.
Proof. apply map_Forall_empty. Qed.
#[export] Hint Resolve keyed_empty foreign_key_empty : tables.

Lemma database_ok_empty : database_ok empty_database.
Proof. split; split; eauto with tables. Qed.

(** *** A table after a statement *)

Lemma sql_upsert_Some {K A} `{Countable K} refs (k : K) (r : A) upd m m' :
  sql_upsert refs k r upd m = Good m' →
  (∃ old, m !! k = Some old ∧ m' = <[k := upd old]> m) ∨ (m !! k = None ∧ refs = true ∧ m' = <[k := r]> m).
Proof.
  unfold sql_upsert. destruct (m !! k) as [old|] eqn:E; [intros [= <-]; left; by exists old|].
  destruct refs; intros; simplify_eq. by right.
Qed.
Lemma sql_insert_Some {K A} `{Countable K} refs (k : K) (r : A) m m' :
  sql_insert refs k r m = Good m' → m !! k = None ∧ refs = true ∧ m' = <[k := r]> m.
Proof. unfold sql_insert. destruct (m !! k), refs; intros; by simplify_eq. Qed.

Lemma keyed_upsert {K A} `{Countable K} (key : A → K) refs r upd m m' :
  sql_upsert refs (key r) r upd m = Good m' → (∀ old, key old = key r → key (upd old) = key r) →
  keyed key m → keyed key m'.
Proof.
  intros E Hu Hm. apply sql_upsert_Some in E as [(old & Eo & ->)|(_ & _ & ->)];
    apply map_Forall_insert_2; eauto.
Qed.
Lemma keyed_insert {K A} `{Countable K} (key : A → K) refs r m m' :
  sql_insert refs (key r) r m = Good m' → keyed key m → keyed key m'.
Proof. intros (_ & _ & ->)%sql_insert_Some Hm. by apply map_Forall_insert_2. Qed.
Lemma keyed_alter {A} (key : A → Z) f k m :
  (∀ r, key (f r) = key r) → keyed key m → keyed key (alter f k m).
Proof.
  intros Hf Hm j r. rewrite lookup_alter_Some. intros [(-> & x & Hx & ->)|[_ Hr]]; [rewrite Hf|]; eauto.
Qed.
Lemma keyed_filter {A} (key : A → Z) (P : Z * A → Prop) `{!∀ x, Decision (P x)} (m : gmap Z A) :
  keyed key m → keyed key (filter P m).
Proof. intros Hm k r [Hr _]%map_lookup_filter_Some. by apply Hm. Qed.

Lemma foreign_key_upsert {A B} (column : A → option Z) (t : gmap Z B) refs k r upd m m' :
  sql_upsert refs k r upd m = Good m' → (∀ old, column (upd old) = column old) →
  (∀ j, refs = true → column r = Some j → is_Some (t !! j)) →
  foreign_key column m t → foreign_key column m' t.
Proof.
  intros E Hu Hr Hm. apply sql_upsert_Some in E as [(old & Eo & ->)|(_ & -> & ->)];
    apply map_Forall_insert_2; eauto. intros j. rewrite Hu. by apply (Hm _ _ Eo).
Qed.
Lemma foreign_key_insert {A B} (column : A → option Z) (t : gmap Z B) refs k r m m' :
  sql_insert refs k r m = Good m' → (∀ j, refs = true → column r = Some j → is_Some (t !! j)) →
  foreign_key column m t → foreign_key column m' t.
Proof. intros (_ & -> & ->)%sql_insert_Some Hr Hm. apply map_Forall_insert_2; eauto. Qed.
Lemma foreign_key_alter {A B} (column : A → option Z) (t : gmap Z B) f k m :
  (∀ r, column (f r) = column r) → foreign_key column m t → foreign_key column (alter f k m) t.
Proof.
  intros Hf Hm j r. rewrite lookup_alter_Some. intros [(-> & x & Hx & ->)|[_ Hr]]; [rewrite Hf|]; eauto.
Qed.
Lemma foreign_key_filter {A B} (column : A → option Z) (t : gmap Z B) (P : Z * A → Prop)
    `{!∀ x, Decision (P x)} (m : gmap Z A) :
  foreign_key column m t → foreign_key column (filter P m) t.
Proof. intros Hm k r [Hr _]%map_lookup_filter_Some. by apply (Hm k). Qed.

(** Of the target: no key is lost. *)
Definition keeps_keys {A B} (t : gmap Z A) (t' : gmap Z B) : Prop := ∀ k, is_Some (t !! k) → is_Some (t' !! k).
Lemma foreign_key_target {A B C} (column : A → option Z) (t : gmap Z B) (t' : gmap Z C) m :
  keeps_keys t t' → foreign_key column m t → foreign_key column m t'.
Proof. intros Ht Hm k r Hr j Hj. by eapply Ht, Hm. Qed.
Lemma keeps_keys_insert {A} k (r : A) m : keeps_keys m (<[k := r]> m).
Proof. intros j Hj. destruct (decide (k = j)) as [->|]; rewrite ?lookup_insert_eq, ?lookup_insert_ne; eauto. Qed.
Lemma keeps_keys_sql_insert {A} refs k (r : A) m m' : sql_insert refs k r m = Good m' → keeps_keys m m'.
Proof. intros (_ & _ & ->)%sql_insert_Some. apply keeps_keys_insert. Qed.
Lemma keeps_keys_upsert {A} refs k (r : A) upd m m' :
  sql_upsert refs k r upd m = Good m' → keeps_keys m m'.
Proof. intros [(old & _ & ->)|(_ & _ & ->)]%sql_upsert_Some; apply keeps_keys_insert. Qed.
Lemma keeps_keys_alter {A} (f : A → A) k m : keeps_keys m (alter f k m).
Proof.
  intros j [r Hr]. destruct (decide (k = j)) as [->|]; [rewrite lookup_alter_eq, Hr|rewrite lookup_alter_ne];
    eauto.
Qed.

(** *** A statement *)

Lemma has_row_true {A} (m : gmap Z A) k : has_row m k = true → is_Some (m !! k).
Proof. unfold has_row. by intros ?%bool_decide_eq_true. Qed.

(** The table of an insert or upsert, in a hypothesis. *)
Ltac table_written :=
  match goal with
  | H : context [sql_upsert ?a ?k ?r ?u ?m] |- _ =>
      destruct (sql_upsert a k r u m) eqn:?; simpl in H; simplify_eq
  | H : context [sql_insert ?a ?k ?r ?m] |- _ =>
      destruct (sql_insert a k r m) eqn:?; simpl in H; simplify_eq
  | H : Good _ = Good _ |- _ => injection H as <-
  end.

Lemma sql_delete_instances_Good fk keys d d' :
  sql_delete_instances fk keys d = Good d' →
  d' = set_tb_process_instance (filter (λ kr, kr.1 ∉ keys) d.(tb_process_instance)) d ∧
  (fk = true → ∀ k, k ∈ keys → is_Some (d.(tb_process_instance) !! k) → ¬ references_instance d k).
Proof.
  unfold sql_delete_instances. case_bool_decide as Hx; rewrite ?andb_true_r, ?andb_false_r.
  - destruct fk; intros; by simplify_eq.
  - intros [= <-]. split; [done|]. intros _ k Hk Hi Href. apply Hx, Exists_exists. eauto.
Qed.

Lemma exec_stmt_keys fk s d d' : exec_stmt fk s d = Good d' → keys_ok d → keys_ok d'.
Proof.
  intros E [Hd Hi Hp Hs Ht Hj Hk He Hc Hr Hq Hx]. destruct s; simpl in E; try table_written;
    try (split; simpl; eauto using keyed_upsert, keyed_insert, keyed_filter, keyed_alter; fail).
  apply sql_delete_instances_Good in E as [-> _].
  split; simpl; eauto using keyed_filter.
Qed.

Ltac row_exists := intros; simplify_eq/=; propify; simplify_eq/=; eauto using has_row_true.

Lemma exec_stmt_definition_rows s d d' :
  exec_stmt true s d = Good d' → definition_rows_ok d → definition_rows_ok d'.
Proof.
  intros E [Hi Hs Ht Hd Hr Hq]. destruct s; simpl in E; try table_written;
    try (split; simpl; eauto using foreign_key_filter, foreign_key_alter; fail).
  all: try (split; simpl; try done; (eapply foreign_key_upsert || eapply foreign_key_insert);
    [eassumption|..]; try done; row_exists; fail).
  all: try (split; simpl; try done; eapply foreign_key_target; try done;
    eauto using keeps_keys_sql_insert, keeps_keys_upsert; fail).
  - split; simpl; try done.
    + eapply foreign_key_insert; [eassumption| |done]. row_exists.
    + by eapply foreign_key_target, Hq; eapply keeps_keys_sql_insert.
  - split; simpl; try done; (eapply foreign_key_insert; [eassumption| |done]).
    + row_exists.
    + row_exists.
  - apply sql_delete_instances_Good in E as [-> _]. split; simpl; eauto using foreign_key_filter.
Qed.

(** The rows of the instances, by the seven tables. *)
Lemma references_instance_iff d (P : Z → Prop) :
  (∀ k, references_instance d k → P k) ↔
  map_Forall (λ _ r, P r.(sur_ProcessInstanceKey)) d.(tb_message_subscription) ∧
  map_Forall (λ _ r, P r.(tir_ProcessInstanceKey)) d.(tb_timer) ∧
  map_Forall (λ _ r, P r.(jor_ProcessInstanceKey)) d.(tb_job) ∧
  map_Forall (λ _ r, P r.(tor_ProcessInstanceKey)) d.(tb_execution_token) ∧
  map_Forall (λ _ r, P r.(elr_ProcessInstanceKey)) d.(tb_flow_element_instance) ∧
  map_Forall (λ _ r, P r.(icr_ProcessInstanceKey)) d.(tb_incident) ∧
  map_Forall (λ _ r, ∀ k, r.(dir_ProcessInstanceKey) = Some k → P k) d.(tb_decision_instance).
Proof.
  unfold references_instance, map_Exists, map_Forall. split.
  - intros Hd. split_and!; intros; apply Hd; naive_solver.
  - intros (H1 & H2 & H3 & H4 & H5 & H6 & H7) k Hk.
    repeat destruct Hk as [Hk|Hk]; destruct Hk as (j & r & Hj & Hr); subst; eauto.
Qed.

Lemma instance_rows_iff {B} d (t : gmap Z B) :
  instance_rows_ok d t ↔ ∀ k, references_instance d k → is_Some (t !! k).
Proof.
  rewrite (references_instance_iff d (λ k, is_Some (t !! k))).
  unfold map_Forall. split.
  - intros [H1 H2 H3 H4 H5 H6 H7]. split_and!; intros; try (by eapply H7); naive_solver.
  - intros (H1 & H2 & H3 & H4 & H5 & H6 & H7). split; unfold foreign_key, map_Forall; try done;
      intros; simplify_eq/=; eauto.
Qed.

Lemma exec_stmt_instance_rows s d d' :
  exec_stmt true s d = Good d' → instance_rows_ok d d.(tb_process_instance) →
  instance_rows_ok d' d'.(tb_process_instance).
Proof.
  intros E Hok. destruct s; simpl in E; try table_written.
  all: try (destruct Hok; split; simpl; eauto using foreign_key_filter; fail).
  all: try (destruct Hok; split; simpl; try done;
    first [eapply foreign_key_upsert|eapply foreign_key_insert];
    try eassumption; try done; row_exists; fail).
  1-2: destruct Hok; split; simpl; (eapply foreign_key_target; [|eassumption]);
    eauto using keeps_keys_upsert, keeps_keys_alter.
  - destruct Hok; split; simpl; try done. eapply foreign_key_insert; [eassumption| |done].
    intros j Hr Hj. rewrite Hj in Hr. row_exists.
  - apply sql_delete_instances_Good in E as [-> Hdel].
    apply (instance_rows_iff _ (filter _ _)). intros k Hk. change (references_instance d k) in Hk.
    rewrite instance_rows_iff in Hok. destruct (Hok k Hk) as [r Hr].
    exists r. apply map_lookup_filter_Some. split; [done|]. simpl. intros Hin.
    by eapply (Hdel eq_refl k Hin).
Qed.

Lemma exec_stmts_ok l d d' : database_ok d → exec_stmts true l d = Good d' → database_ok d'.
Proof.
  revert d. induction l as [|s l IH]; intros d Hok E; simpl in E; [by simplify_eq|].
  destruct (exec_stmt true s d) as [d1|] eqn:E1; [|done]. apply (IH d1); [|done].
  destruct Hok. split; eauto using exec_stmt_keys, exec_stmt_instance_rows, exec_stmt_definition_rows.
Qed.

(** C14: with foreign keys enforced, the statements of a request keep the tables
    well formed: every row is stored under its key, and the instance, the
    process definition, the decision and the resource a row refers to exist. *)
Theorem statements_keep_tables l d d' :
  database_ok d → exec_stmts true l d = Good d' → database_ok d'.
Proof. apply exec_stmts_ok. Qed.

(** ** Cleanup *)

Lemma db_ExecContext_run stmt s :
  s.(db_executeErr) = None →
  db_ExecContext stmt s = match exec_stmt s.(db_fk) stmt s.(db_data) with
                          | Good d => (Ret tt, set_data d s)
                          | Bad e => (Err e, s)
                          end.
Proof.
  intros Ee. unfold db_ExecContext, ExecuteStatements, mbind, ST_bind. rewrite Ee. simpl.
  by destruct (exec_stmt _ _ _).
Qed.

Lemma attempt_exec stmt d s :
  s.(db_executeErr) = None → exec_stmt s.(db_fk) stmt s.(db_data) = Good d →
  (_ ← attempt (db_ExecContext stmt); mret tt : ST DB unit) s = (Ret tt, set_data d s).
Proof.
  intros Ee E. erewrite bind_step; [reflexivity|]. apply attempt_run. by rewrite db_ExecContext_run, E.
Qed.

(** The reference: a database without some instances and all their rows. *)
Definition without_instances (keys : list Z) (d : Database) : Database :=
  {| tb_process_definition := d.(tb_process_definition);
     tb_process_instance := filter (λ kr, kr.1 ∉ keys) d.(tb_process_instance);
     tb_message_subscription_pointer := d.(tb_message_subscription_pointer);
     tb_message_subscription := sql_delete (Some ∘ sur_ProcessInstanceKey) keys d.(tb_message_subscription);
     tb_timer := sql_delete (Some ∘ tir_ProcessInstanceKey) keys d.(tb_timer);
     tb_job := sql_delete (Some ∘ jor_ProcessInstanceKey) keys d.(tb_job);
     tb_execution_token := sql_delete (Some ∘ tor_ProcessInstanceKey) keys d.(tb_execution_token);
     tb_flow_element_instance :=
       sql_delete (Some ∘ elr_ProcessInstanceKey) keys d.(tb_flow_element_instance);
     tb_incident := sql_delete (Some ∘ icr_ProcessInstanceKey) keys d.(tb_incident);
     tb_dmn_resource_definition := d.(tb_dmn_resource_definition);
     tb_decision_definition := d.(tb_decision_definition);
     tb_decision_instance := sql_delete dir_ProcessInstanceKey keys d.(tb_decision_instance) |}.

Lemma sql_delete_Some {A} (column : A → option Z) keys (m : gmap Z A) k r :
  sql_delete column keys m !! k = Some r ↔ m !! k = Some r ∧ kept_row keys (column r).
Proof. unfold sql_delete. by rewrite map_lookup_filter_Some. Qed.

(** No row refers to a deleted instance: deleting the instance cannot fail. *)
Lemma without_unreferenced keys d k : k ∈ keys → ¬ references_instance (without_instances keys d) k.
Proof.
  intros Hk Href. revert Hk. change (k ∉ keys). revert k Href.
  apply (references_instance_iff _ (λ k, k ∉ keys)).
  split_and!; intros k r [_ Hr]%sql_delete_Some; simpl in Hr; try done.
  intros j Hj. by rewrite Hj in Hr.
Qed.

Definition delete_stmts (keys : list Z) : list SqlStmt :=
  [SqlDeleteProcessInstancesDecisionInstances keys; SqlDeleteFlowElementInstance keys;
   SqlDeleteProcessInstancesTokens keys; SqlDeleteProcessInstancesJobs keys;
   SqlDeleteProcessInstancesTimers keys; SqlDeleteProcessInstancesMessageSubscriptions keys;
   SqlDeleteProcessInstancesIncidents keys; SqlDeleteProcessInstances keys].

Lemma delete_stmts_run fk keys d : exec_stmts fk (delete_stmts keys) d = Good (without_instances keys d).
Proof.
  simpl. unfold sql_delete_instances. rewrite bool_decide_false; [by rewrite andb_false_r|].
  intros (k & Hk & _ & Href)%Exists_exists. by apply (without_unreferenced keys d k).
Qed.

Lemma attempt_exec_all l s d :
  s.(db_executeErr) = None → exec_stmts s.(db_fk) l s.(db_data) = Good d →
  for_each l (λ stmt, _ ← attempt (db_ExecContext stmt); mret tt) s = (Ret tt, set_data d s).
Proof.
  revert s. induction l as [|stmt l IH]; intros s Ee E; simpl in E.
  - injection E as <-. by destruct s.
  - destruct (exec_stmt _ stmt _) as [d1|] eqn:E1; [|done]. simpl.
    erewrite bind_step by (by apply attempt_exec). by rewrite IH.
Qed.

Lemma keyed_select `{TableScan} {A} (key : A → Z) (P : A → Prop) `{!∀ x, Decision (P x)} m k :
  keyed key m → k ∈ key <$> select P m → ∃ r, m !! k = Some r ∧ P r.
Proof.
  intros Hm (r & -> & (Hr & j & Hj)%elem_of_select)%list_elem_of_fmap.
  exists r. split; [|done]. by rewrite (Hm _ _ Hj).
Qed.

(** C16: a cleanup deletes finished instances only: those it finds have ended,
    their parent too if it is still stored, and their time of deletion has
    passed.  It deletes them with all their rows, no row of another instance
    and nothing else, and leaves the tables well formed; when it finds fewer
    than a thousand it deletes nothing at all. *)
Theorem cleanup_deletes_only_finished `{TableScan} t s :
  database_ok s.(db_data) → s.(db_fk) = true → s.(db_executeErr) = None →
  s.(db_queryErr) "FindInactiveInstancesToDelete" = None →
  let found := q_FindInactiveInstancesToDelete (Unix t) 1000 s.(db_data) in
  let full := bool_decide (length found = 1000) in
  let d := if full then without_instances found s.(db_data) else s.(db_data) in
  dataCleanup t s = (Ret full, set_data d s) ∧ database_ok d ∧
  (∀ k, k ∈ found →
     ∃ r, s.(db_data).(tb_process_instance) !! k = Some r ∧ to_delete (Unix t) s.(db_data) r).
Proof.
  intros Hok Hfk Ee Eq found full d.
  assert (Hfull : (Z.of_nat (length found) =? historyDeleteThreshold)%Z = full).
  { unfold full. case_bool_decide as Hl; [rewrite Hl; done|]. apply Z.eqb_neq. unfold historyDeleteThreshold. lia. }
  split; [|split].
  - unfold dataCleanup.
    erewrite bind_step by (apply attempt_run; unfold query_many; rewrite Eq; reflexivity).
    change (q_FindInactiveInstancesToDelete (Unix t) historyDeleteThreshold (db_data s)) with found.
    cbv beta iota zeta. rewrite Hfull. unfold d. destruct full.
    + erewrite bind_step by (apply (attempt_exec_all (delete_stmts found)); [done|apply delete_stmts_run]).
      done.
    + by destruct s.
  - unfold d. destruct full; [|done]. eapply (exec_stmts_ok _ _ _ Hok), delete_stmts_run.
  - intros k Hk. eapply (keyed_select inr_Key); [apply Hok|].
    unfold found, q_FindInactiveInstancesToDelete in Hk. apply elem_of_take in Hk as (i & Hi & _).
    by eapply list_elem_of_lookup_2.
Qed.

(** ** Flush *)

(** A program that always returns, with a value or an error. *)
Definition ends {S A} (m : ST S A) : Prop := ∀ s, returns (m s).1.

Lemma ends_bind {S A B} (m : ST S A) (f : A → ST S B) : ends m → (∀ a, ends (f a)) → ends (m ≫= f).
Proof.
  intros Hm Hf s. specialize (Hm s). unfold mbind, ST_bind. destruct (m s) as [[]?]; try done. apply Hf.
Qed.
Lemma ends_attempt {S A} (m : ST S A) : ends m → ends (attempt m).
Proof. intros Hm s. specialize (Hm s). unfold attempt. by destruct (m s) as [[]?]. Qed.
Lemma ends_wrap {S A} w (m : ST S A) : ends m → ends (wrap w m).
Proof. intros Hm. apply ends_bind; [by apply ends_attempt|]. by intros []. Qed.
Lemma ends_for_each {S A} (l : list A) (f : A → ST S unit) : (∀ x, x ∈ l → ends (f x)) → ends (for_each l f).
Proof.
  induction l as [|x l IH]; intros Hf; simpl; [done|].
  apply ends_bind; [apply Hf; left|]. intros _. apply IH. intros y Hy. apply Hf. by right.
Qed.

(** Only the table of the pointers changes. *)
Definition only_pointers (s s' : DB) : Prop :=
  ∃ m, s' = set_data (set_tb_message_subscription_pointer m s.(db_data)) s.

#[export] Instance only_pointers_preorder : PreOrder only_pointers.
Proof.
  split.
  - intros s. exists s.(db_data).(tb_message_subscription_pointer). by destruct s as [[] ? ? ? ? ? ?].
  - intros s1 s2 s3 [m ->] [m' ->]. by exists m'.
Qed.

Definition saves_pointers (m : ST DB unit) : Prop := ends m ∧ pres only_pointers m.

Lemma saves_pointers_wrap w m : saves_pointers m → saves_pointers (wrap w m).
Proof. intros [H1 H2]. split; [by apply ends_wrap|]. by apply pres_wrap; [apply _|]. Qed.

Lemma upsertPointer_saves p : saves_pointers (upsertPointer p).
Proof.
  apply saves_pointers_wrap. unfold db_ExecContext, ExecuteStatements, mbind, ST_bind.
  split; intros s; destruct (db_executeErr s); simpl; try done; unfold sql_upsert;
    destruct (_ !! _); simpl; try done; by eexists.
Qed.

Lemma query_one_saves {A} name (q : Database → option A) :
  ends (query_one name q) ∧ pres only_pointers (query_one name q).
Proof.
  unfold query_one. split; intros s; destruct (db_queryErr s name), (q (db_data s)); try done;
    simpl; reflexivity.
Qed.

Lemma SaveMessageSubscriptionPointer_saves P L z client p :
  saves_pointers (SaveMessageSubscriptionPointer P L z client p).
Proof.
  assert (Hcheck : ∀ o, saves_pointers (check_old_pointer client o p)).
  { intros o. unfold check_old_pointer. repeat case_match; try apply upsertPointer_saves;
      split; try done; apply pres_throw; apply _. }
  unfold SaveMessageSubscriptionPointer. case_match.
  - split.
    + apply ends_bind; [apply ends_attempt, query_one_saves|].
      intros [old|e]; [apply Hcheck|case_match; [apply upsertPointer_saves|apply Hcheck]].
    + apply pres_bind; [apply _|apply pres_attempt, query_one_saves|].
      intros [old|e]; [apply Hcheck|case_match; [apply upsertPointer_saves|apply Hcheck]].
  - repeat case_match; split; try done; try (apply pres_throw; apply _). apply pres_ret; apply _.
Qed.

(** A batch that is only written to. *)
Definition batch_of (s : DB) (b : DBBatch) : Prop :=
  b.(bt_db) = s ∧ b.(bt_postFlushActions) = [] ∧ Forall saves_pointers b.(bt_preFlushActions).
Definition stays_batch (b b' : DBBatch) : Prop := ∀ s, batch_of s b → batch_of s b'.
#[export] Instance stays_batch_preorder : PreOrder stays_batch.
Proof. split; [by intros b s|]. intros b1 b2 b3 H12 H23 s H. by apply H23, H12. Qed.

Lemma ExecContext_stays stmt : pres stays_batch (ExecContext stmt : ST DBBatch unit).
Proof. intros b s. simpl. by intros (? & ? & ?). Qed.
Lemma on_read_db_stays {A} (m : ST DB A) : pres stays_batch (on_read_db m).
Proof. intros b. unfold on_read_db. destruct (m (getReadDB b)).1; try done; intros s; done. Qed.

Ltac writes_step :=
  first [ apply ExecContext_stays | apply on_read_db_stays | frame_step | progress unfold marshal_variables ].

Lemma save_stmt_stays json ctx P L z client st :
  pres stays_batch (save_stmt json ctx (batch_SaveMessageSubscription P L z client) st).
Proof.
  assert (Hi : ∀ i, pres stays_batch (mark_for_deletion i : ST DBBatch unit)).
  { intros i. unfold mark_for_deletion. repeat writes_step. }
  destruct st; simpl; unfold SaveProcessDefinitionWith, SaveProcessInstanceWith, SaveTimerWith, SaveJobWith,
    batch_SaveMessageSubscription, AddPreFlushAction, SaveMessageSubscriptionWith, SaveToken,
    SaveFlowElementInstanceWith, UpdateOutputFlowElementInstanceWith, SaveIncidentWith;
    repeat (apply Hi || writes_step).
  apply pres_modify. intros b s (H1 & H2 & H3). split_and!; simpl; try done.
  apply Forall_app. split; [done|]. constructor; [|done].
  apply saves_pointers_wrap, SaveMessageSubscriptionPointer_saves.
Qed.

Lemma ExecuteStatements_cases l s :
  (∃ e, ExecuteStatements l s = (Err e, s) ∨ ExecuteStatements l s = (Ret (Some e), s)) ∨
  (∃ d, exec_stmts s.(db_fk) l s.(db_data) = Good d ∧ ExecuteStatements l s = (Ret None, set_data d s)).
Proof.
  unfold ExecuteStatements. destruct l as [|st l]; [right; exists s.(db_data); by destruct s|].
  destruct (db_executeErr s) as [e|]; [left; exists e; by left|].
  destruct (exec_stmts _ _ _) as [d|e]; [right; by exists d|left; exists e; by right].
Qed.

Lemma bind_stop {S A B} (m : ST S A) (f : A → ST S B) s e s1 :
  m s = (Err e, s1) → (m ≫= f) s = (Err e, s1).
Proof. intros H. unfold mbind, ST_bind. by rewrite H. Qed.

Lemma pre_flush_saves w l : Forall saves_pointers l → saves_pointers (for_each l (wrap w)).
Proof.
  intros Hl. rewrite Forall_forall in Hl. split.
  - apply ends_for_each. intros m Hm. by apply ends_wrap, Hl.
  - induction l as [|m l IH]; simpl; [apply pres_ret, _|]. apply pres_bind; [apply _| |intros _].
    + apply saves_pointers_wrap, Hl. left.
    + apply IH. intros x Hx. apply Hl. by right.
Qed.

Lemma attempt_stop {S A} (m : ST S A) s e s1 :
  m s = (Err e, s1) → attempt m s = (Ret (Bad e), s1).
Proof. intros H. unfold attempt. by rewrite H. Qed.

Lemma batch_Flush_cases s0 b s :
  batch_of s0 b →
  ∃ s1, only_pointers s s1 ∧
    ((∃ e, batch_Flush b s = (Err e, s1)) ∨
     (∃ d, exec_stmts s.(db_fk) b.(bt_stmtToRun) s1.(db_data) = Good d ∧
        batch_Flush b s = (Ret tt, set_data d s1))).
Proof.
  intros (_ & Hpost & Hpre).
  pose (pre := for_each (S := DB) b.(bt_preFlushActions) (wrap (λ e, errw! "failed pre-flush action %s: %w" [e]))).
  destruct (pre_flush_saves (λ e, errw! "failed pre-flush action %s: %w" [e]) _ Hpre) as [Hends Hp].
  specialize (Hends s). specialize (Hp s). fold pre in Hends, Hp.
  unfold batch_Flush. fold pre. destruct (pre s) as [[[]|e|?| |] s1] eqn:Epre; try done; exists s1; split; try done.
  - erewrite bind_step by exact Epre.
    destruct (ExecuteStatements_cases b.(bt_stmtToRun) s1) as [(e & [E|E])|(d & Ed & E)].
    + left. exists e. by apply bind_stop.
    + left. erewrite bind_step by exact E. by eexists.
    + right. exists d. assert (db_fk s1 = db_fk s) as <- by (by destruct Hp as [m ->]).
      split; [done|]. erewrite bind_step by exact E. by rewrite Hpost.
  - left. exists e. by apply bind_stop.
Qed.

(** A batch that has only been saved to. *)
Lemma saved_batch json ctx P L z client saved s0 b :
  for_each saved (save_stmt json ctx (batch_SaveMessageSubscription P L z client)) (NewBatch s0) = (Ret tt, b) →
  batch_of s0 b.
Proof.
  intros E. assert (Hst : pres stays_batch (for_each saved
    (save_stmt json ctx (batch_SaveMessageSubscription P L z client)))).
  { apply pres_for_each; [apply _|]. intros st. apply save_stmt_stays. }
  specialize (Hst (NewBatch s0)). rewrite E in Hst. by apply Hst.
Qed.

(** C17: flushing a batch is all or nothing: the statements recorded for what
    was saved are run in their order after the pre-flush actions, or an error
    is returned and no table has changed but the one of the message
    subscription pointers, which the pre-flush actions have written already. *)
Theorem flush_all_or_nothing json ctx P L z client saved s0 b s :
  for_each saved (save_stmt json ctx (batch_SaveMessageSubscription P L z client)) (NewBatch s0) = (Ret tt, b) →
  ∃ s1, only_pointers s s1 ∧
    ((∃ e, batch_Flush b s = (Err e, s1)) ∨
     (∃ d, exec_stmts s.(db_fk) b.(bt_stmtToRun) s1.(db_data) = Good d ∧
        batch_Flush b s = (Ret tt, set_data d s1))).
Proof.
  intros E. apply (batch_Flush_cases s0). by eapply saved_batch.
Qed.

(** ** Concrete instances *)

Definition by_key : TableScan := {|
  scan A m := map_to_list m; scan_perm A m := reflexivity _;
  arrival A _ _ l := l; arrival_perm A _ _ l := reflexivity _ |}.

Definition a_definition_row : DefinitionRow :=
  {| der_Key := 1; der_Version := 1; der_BpmnProcessID := "p"; der_BpmnData := "xml";
     der_BpmnChecksum := replicate 16 0%Z; der_BpmnProcessName := "" |}.
Definition a_instance_row (k st : Z) : InstanceRow :=
  {| inr_Key := k; inr_ProcessDefinitionKey := 1; inr_BusinessKey := None; inr_CreatedAt := 0; inr_State := st;
     inr_Variables := "{}"; inr_ParentProcessExecutionToken := None;
     inr_ParentProcessTargetElementID := None; inr_ParentProcessTargetElementInstanceKey := None;
     inr_ProcessType := 1; inr_HistoryTtlSec := None; inr_HistoryDeleteSec := None |}.
Definition a_token_row : TokenRow :=
  {| tor_Key := 3; tor_ElementInstanceKey := 4; tor_ElementID := "task"; tor_ProcessInstanceKey := 2;
     tor_State := 2; tor_CreatedAt := 0 |}.

Definition run_stmts (l : list SqlStmt) (d : Database) : Database :=
  match exec_stmts true l d with Good d' => d' | Bad _ => d end.
Lemma run_stmts_Good l d : is_Good (exec_stmts true l d) = true → exec_stmts true l d = Good (run_stmts l d).
Proof. unfold run_stmts. by destruct (exec_stmts true l d). Qed.

Definition storage_of (d : Database) : DB :=
  {| db_data := d; db_fk := true; db_pdCache := ∅; db_drdCache := ∅; db_queryErr _ := None;
     db_executeErr := None; db_now := 0 |}.

(** An active instance waiting at an element. *)
Definition setup : list SqlStmt :=
  [SqlSaveProcessDefinition a_definition_row; SqlSaveProcessInstance (a_instance_row 2 1); SqlSaveToken a_token_row].
Definition a_database : Database := run_stmts setup empty_database.
Lemma a_database_ok : database_ok a_database.
Proof. apply (exec_stmts_ok setup empty_database _ database_ok_empty). by apply run_stmts_Good. Qed.

Lemma statements_keep_tables_witness :
  exec_stmts true setup empty_database = Good a_database ∧ database_ok a_database.
Proof.
  split; [vm_compute; reflexivity|]. refine (statements_keep_tables setup empty_database a_database _ _).
  - apply database_ok_empty.
  - vm_compute. reflexivity.
Defined.

(** A thousand completed instances. *)
Definition finished_instances : gmap Z InstanceRow :=
  list_to_map ((λ k, (k, a_instance_row k 4)) <$> seqZ 10 1000).
Definition defined_process : Database := set_tb_process_definition {[1%Z := a_definition_row]} empty_database.
Definition thousand_finished : DB := storage_of (set_tb_process_instance finished_instances defined_process).

Lemma finished_instances_lookup k r : finished_instances !! k = Some r → r = a_instance_row k 4.
Proof. by intros (x & [= -> ->] & _)%elem_of_list_to_map_2%list_elem_of_fmap. Qed.

Lemma thousand_ok : database_ok thousand_finished.(db_data).
Proof.
  split; split; simpl; eauto with tables.
  - intros k r Hr. by apply lookup_singleton_Some in Hr as [<- <-].
  - intros k r Hr. by rewrite (finished_instances_lookup k r Hr).
  - intros k r Hr j [= <-]. rewrite (finished_instances_lookup k r Hr). by eexists.
Qed.

Lemma finished_instances_values : length (map_values finished_instances) = 1000.
Proof.
  unfold map_values, finished_instances. rewrite length_fmap, map_to_list_to_map.
  - rewrite length_fmap, length_seqZ. done.
  - rewrite <- list_fmap_compose.
    rewrite (list_fmap_ext _ id), list_fmap_id by done. apply NoDup_seqZ.
Qed.

Lemma all_finished_found : length (q_FindInactiveInstancesToDelete (H := by_key) (Unix 0) 1000 thousand_finished.(db_data)) = 1000.
Proof.
  unfold q_FindInactiveInstancesToDelete. rewrite length_take, length_fmap, select_perm, filter_all.
  - change (tb_process_instance (db_data thousand_finished)) with finished_instances.
    rewrite finished_instances_values. reflexivity.
  - intros r (k & Hk)%elem_of_map_values. rewrite (finished_instances_lookup k r Hk).
    split; [by left|]. split; [by left|done].
Qed.

Lemma cleanup_deletes_only_finished_witness :
  let found := q_FindInactiveInstancesToDelete (H := by_key) (Unix 0) 1000 thousand_finished.(db_data) in
  let d := without_instances found thousand_finished.(db_data) in
  length found = 1000 ∧
  dataCleanup (H := by_key) 0 thousand_finished = (Ret true, set_data d thousand_finished) ∧ database_ok d ∧
  (∀ k, k ∈ found →
     ∃ r, thousand_finished.(db_data).(tb_process_instance) !! k = Some r ∧
       to_delete (Unix 0) thousand_finished.(db_data) r).
Proof.
  intros found d. assert (Hl : length found = 1000) by apply all_finished_found. split; [exact Hl|].
  pose proof (cleanup_deletes_only_finished (H := by_key) 0 thousand_finished thousand_ok eq_refl eq_refl eq_refl) as Hc.
  cbv zeta in Hc. change (q_FindInactiveInstancesToDelete (H := by_key) (Unix 0) 1000 (db_data thousand_finished))
    with found in Hc. rewrite (bool_decide_true (length found = 1000)) in Hc by exact Hl. exact Hc.
Defined.

Definition no_remote : Remote :=
  {| PartitionLeader _ := None; FindActiveMessage _ _ := Bad ErrNotFound;
     SetMessageSubscriptionPointer _ _ := None |}.
Definition a_subscription (k token : Z) (st : ActivityState) : MessageSubscription :=
  {| ms_Key := k; ms_ElementId := "task"; ms_ProcessDefinitionKey := 1; ms_ProcessInstanceKey := 2;
     ms_Name := "m"; ms_CorrelationKey := "c"; ms_State := st; ms_CreatedAt := 0; ms_Token := key_token token |}.
Definition no_context : AppContext :=
  {| ctx_BusinessKey := None; ctx_HistoryTTLSec := None; ctx_ProcessInstanceKey := None;
     ctx_ElementInstanceKey := None |}.
Definition no_partitions : Cluster := {| DesiredPartitions := 0; c_Partitions := ∅; c_Nodes := ∅ |}.

(** A batch that saves a subscription and a token. *)
Definition a_saved : list Stmt :=
  [StSaveMessageSubscription (a_subscription 6 3 ActivityStateActive);
   StSaveToken {| tok_Key := 3; tok_ElementInstanceKey := 4; tok_ElementId := "task"; tok_ProcessInstanceKey := 2;
                  tok_State := TokenStateCompleted; tok_CreatedAt := 0 |}].
Definition a_batch : DBBatch :=
  (for_each (S := DBBatch) a_saved (save_stmt (λ _, Good "{}") no_context
     (batch_SaveMessageSubscription 0 true no_partitions no_remote)) (NewBatch (storage_of a_database))).2.

Lemma flush_all_or_nothing_witness :
  ∃ s1, only_pointers (storage_of a_database) s1 ∧
    ((∃ e, batch_Flush a_batch (storage_of a_database) = (Err e, s1)) ∨
     (∃ d, exec_stmts true a_batch.(bt_stmtToRun) s1.(db_data) = Good d ∧
        batch_Flush a_batch (storage_of a_database) = (Ret tt, set_data d s1))).
Proof.
  refine (flush_all_or_nothing (λ _, Good "{}") no_context 0 true no_partitions no_remote a_saved
    (storage_of a_database) a_batch (storage_of a_database) _).
  reflexivity.
Defined.
