(* ===== verification/ReadBack.v ===== *)
(** What the persistent storage returns of what was saved in it: jobs, process
    instances and timers, and the cache of process definitions. *)
From S2P Require Import Prelude Monad Model Runtime DmnModel Storage Sql PartitionDB PartitionWrite.
From S2P Require Import PersistenceProps.

(** ** Queries by key *)

Section by_key.
Context {A : Type} (key : A → Z) (m : gmap Z A) (Hm : keyed key m).

Lemma keyed_NoDup : NoDup (map_values m).
Proof.
  unfold map_values. apply (NoDup_fmap_1 key). rewrite <- list_fmap_compose.
  assert (E : (λ kr : Z * A, key kr.2) <$> map_to_list m = (map_to_list m).*1).
  { apply list_fmap_ext. intros i [k r] Hi%list_elem_of_lookup_2. simpl. apply Hm.
    by apply elem_of_map_to_list. }
  unfold compose. rewrite E. apply NoDup_fst_map_to_list.
Qed.

(** Exactly the rows that satisfy the condition, each once. *)
Lemma select_exactly `{TableScan} (P : A → Prop) `{!∀ x, Decision (P x)} :
  NoDup (select P m) ∧ ∀ r, r ∈ select P m ↔ m !! key r = Some r ∧ P r.
Proof.
  split.
  - rewrite select_perm. apply NoDup_filter, keyed_NoDup.
  - intros r. rewrite elem_of_select. split.
    + intros [HP [k Hk]]. by rewrite (Hm _ _ Hk).
    + intros [Hr HP]. eauto.
Qed.

Lemma select_key `{TableScan} k r : m !! k = Some r → select (λ x, key x ∈ [k]) m = [r].
Proof.
  intros Hk. destruct (select_exactly (λ x, key x ∈ [k])) as [Hnd Hin].
  apply Permutation_singleton_r, NoDup_Permutation; [done|apply NoDup_singleton|].
  intros x. rewrite Hin, !list_elem_of_singleton. split.
  - intros [Hx <-]. by simplify_eq.
  - intros ->. by rewrite (Hm _ _ Hk).
Qed.
End by_key.

(** A storage whose queries and writes succeed. *)
Record available (s : DB) : Prop := {
  available_query name : s.(db_queryErr) name = None;
  available_execute : s.(db_executeErr) = None;
  available_ok : database_ok s.(db_data)
}.

Section read_back.
Context `{TableScan}.

Lemma query_one_run {A} name (q : Database → option A) s r :
  available s → q s.(db_data) = Some r → query_one name q s = (Ret r, s).
Proof. intros Ha Hr. unfold query_one. by rewrite available_query, Hr. Qed.

Lemma GetTokens_run s k r :
  available s → s.(db_data).(tb_execution_token) !! k = Some r → GetTokens [k] s = (Ret [r], s).
Proof.
  intros Ha Hr. unfold GetTokens, query_many. rewrite available_query by done.
  unfold q_GetTokens. by rewrite (select_key tor_Key _ (ok_token_key _ (ok_keys _ (available_ok _ Ha))) k r).
Qed.

Lemma write_Ret w stmt s s' :
  s.(db_executeErr) = None → wrap w (db_ExecContext stmt) s = (Ret tt, s') →
  ∃ d, exec_stmt s.(db_fk) stmt s.(db_data) = Good d ∧ s' = set_data d s.
Proof.
  intros Ee E%wrap_Ret. rewrite db_ExecContext_run in E by done.
  destruct (exec_stmt _ _ _) as [d|] eqn:Ex; simplify_eq. by exists d.
Qed.

Lemma available_write s stmt d :
  available s → s.(db_fk) = true → exec_stmt true stmt s.(db_data) = Good d → available (set_data d s).
Proof.
  intros Ha Hfk E. split; simpl; [apply Ha|apply Ha|].
  apply (exec_stmts_ok [stmt] s.(db_data)); [apply Ha|]. simpl. by rewrite E.
Qed.

(** An upsert after which the row is the written one: it is new, or the columns
    that are not updated are the same. *)
Lemma sql_upsert_row {A} refs k (r : A) upd (m m' : gmap Z A) :
  sql_upsert refs k r upd m = Good m' → (∀ old, m !! k = Some old → upd old = r) → m' !! k = Some r.
Proof.
  intros E Hupd. apply sql_upsert_Some in E as [(old & Eo & ->)|(_ & _ & ->)]; rewrite lookup_insert_eq.
  - by rewrite Hupd.
  - done.
Qed.

Context (json_Marshal : vars → result string) (json_Unmarshal : string → result vars).

(** *** Jobs *)

Definition saved_job (variables : string) (j : Job) : JobRow :=
  {| jor_Key := j.(job_Key); jor_ElementInstanceKey := j.(job_ElementInstanceKey);
     jor_ElementID := j.(job_ElementId); jor_ProcessInstanceKey := j.(job_ProcessInstanceKey);
     jor_Type := j.(job_Type); jor_State := ActivityState_int j.(job_State);
     jor_CreatedAt := UnixMilli j.(job_CreatedAt); jor_Variables := variables;
     jor_ExecutionToken := j.(job_Token).(tok_Key); jor_Assignee := j.(job_Assignee) |}.

(** A stored row of the same job: only the columns that are updated differ. *)
Definition same_job (j : Job) (old : JobRow) : Prop := ∃ st variables assignee, old =
  {| jor_Key := j.(job_Key); jor_ElementInstanceKey := j.(job_ElementInstanceKey);
     jor_ElementID := j.(job_ElementId); jor_ProcessInstanceKey := j.(job_ProcessInstanceKey);
     jor_Type := j.(job_Type); jor_State := st; jor_CreatedAt := UnixMilli j.(job_CreatedAt);
     jor_Variables := variables; jor_ExecutionToken := j.(job_Token).(tok_Key); jor_Assignee := assignee |}.

Lemma SaveJobWith_Ret j text s s' :
  s.(db_executeErr) = None → json_Marshal j.(job_Variables) = Good text →
  SaveJobWith json_Marshal j s = (Ret tt, s') →
  ∃ d, exec_stmt s.(db_fk) (SqlSaveJob (saved_job text j)) s.(db_data) = Good d ∧ s' = set_data d s.
Proof.
  intros Ee Ej E. unfold SaveJobWith, marshal_variables in E. rewrite Ej in E.
  by eapply write_Ret in E.
Qed.

Lemma find_job_run s k r token v :
  available s → s.(db_data).(tb_job) !! k = Some r →
  s.(db_data).(tb_execution_token) !! r.(jor_ExecutionToken) = Some token →
  json_Unmarshal r.(jor_Variables) = Good v →
  db_FindJobByJobKey json_Unmarshal k s = (Ret (job_of_row v (joined_token token) r), s).
Proof.
  intros Ha Hr Ht Hv. unfold db_FindJobByJobKey.
  erewrite bind_step by (by apply wrap_run, query_one_run).
  erewrite bind_step by (by apply wrap_run, GetTokens_run).
  unfold unmarshal_variables. by rewrite Hv.
Qed.

(** A job that is saved, for the first time or over an earlier state of
    it, is found by its key as it was saved, with the time of its creation cut to milliseconds, the token as it is stored
    (without the time of its creation) and the variables as they are decoded.
    Its assignee is not read back. *)
Theorem saved_job_is_read_back j text v token s s' :
  available s → s.(db_fk) = true → json_Marshal j.(job_Variables) = Good text →
  json_Unmarshal text = Good v →
  s.(db_data).(tb_execution_token) !! j.(job_Token).(tok_Key) = Some token →
  (∀ old, s.(db_data).(tb_job) !! j.(job_Key) = Some old → same_job j old) →
  SaveJobWith json_Marshal j s = (Ret tt, s') →
  db_FindJobByJobKey json_Unmarshal j.(job_Key) s' =
    (Ret {| job_ElementId := j.(job_ElementId); job_ElementInstanceKey := j.(job_ElementInstanceKey);
            job_ProcessInstanceKey := j.(job_ProcessInstanceKey); job_Key := j.(job_Key);
            job_State := j.(job_State); job_Type := j.(job_Type); job_Variables := v;
            job_CreatedAt := time_UnixMilli (UnixMilli j.(job_CreatedAt));
            job_Token := joined_token token; job_Assignee := None |}, s').
Proof.
  intros Ha Hfk Ej Ev Ht Hold E. eapply SaveJobWith_Ret in E as (d & E & ->); [|apply Ha|done].
  rewrite Hfk in E. pose proof (available_write _ _ _ Ha Hfk E) as Ha'.
  simpl in E. destruct (sql_upsert _ _ _ _ _) as [m|] eqn:Em; simpl in E; [injection E as <-|done].
  eapply sql_upsert_row in Em; [|by intros old (st & vs & a & ->)%Hold].
  rewrite (find_job_run _ _ _ _ _ Ha' Em Ht Ev).
  unfold job_of_row. simpl. by rewrite ActivityState_of_int.
Qed.

Lemma query_one_state {A} name (q : Database → option A) s r s' :
  query_one name q s = (Ret r, s') → s' = s.
Proof. unfold query_one. by destruct (db_queryErr s name), (q (db_data s)); intros; simplify_eq. Qed.
Lemma query_many_state {A} name (q : Database → list A) s r s' :
  query_many name q s = (Ret r, s') → s' = s.
Proof. unfold query_many. by destruct (db_queryErr s name); intros; simplify_eq. Qed.

Lemma find_job_unassigned k s j s' :
  db_FindJobByJobKey json_Unmarshal k s = (Ret j, s') → s' = s ∧ j.(job_Assignee) = None.
Proof.
  unfold db_FindJobByJobKey. intros (r & s1 & E1%wrap_Ret%query_one_state & E)%bind_Ret. subst s1.
  apply bind_Ret in E as (tokens & s1 & E1%wrap_Ret%query_many_state & E). subst s1.
  destruct tokens as [|t []]; try done. unfold unmarshal_variables, wrap_result in E.
  destruct (json_Unmarshal _); [|done]. by injection E as <- <-.
Qed.

(** The assignee of a job does not survive: a job that was found by its key
    and is saved again, as completing or failing it does, has none. *)
Theorem assignee_is_lost k j s s1 s2 :
  s.(db_executeErr) = None →
  db_FindJobByJobKey json_Unmarshal k s = (Ret j, s1) → ∀ st v,
  let j' := {| job_ElementId := j.(job_ElementId); job_ElementInstanceKey := j.(job_ElementInstanceKey);
               job_ProcessInstanceKey := j.(job_ProcessInstanceKey); job_Key := j.(job_Key);
               job_State := st; job_Type := j.(job_Type); job_Variables := v;
               job_CreatedAt := j.(job_CreatedAt); job_Token := j.(job_Token);
               job_Assignee := j.(job_Assignee) |} in
  SaveJobWith json_Marshal j' s1 = (Ret tt, s2) →
  ∃ r, s2.(db_data).(tb_job) !! j.(job_Key) = Some r ∧ r.(jor_State) = ActivityState_int st ∧
    r.(jor_Assignee) = None.
Proof.
  intros Ee (-> & Ha)%find_job_unassigned st v j' E. unfold SaveJobWith, marshal_variables in E.
  destruct (json_Marshal _) as [text|]; [|done]. eapply write_Ret in E as (d & E & ->); [|done].
  simpl in E. destruct (sql_upsert _ _ _ _ _) as [m|] eqn:Em; simpl in E; [injection E as <-|done].
  simpl. apply sql_upsert_Some in Em as [(old & _ & ->)|(_ & _ & ->)]; rewrite lookup_insert_eq; by eexists.
Qed.

(** *** Timers *)

Lemma join_tokens_in {A} (token : A → ExecutionToken) (set_token : ExecutionToken → A → A) {B} (f : A → B) tokens l x :
  (∀ t y, f (set_token t y) = f y) → x ∈ join_tokens token set_token tokens l → ∃ y, y ∈ l ∧ f x = f y.
Proof.
  intros Hf. revert l. induction tokens as [|t tokens IH]; intros l Hx; simpl in Hx; [by eexists|].
  apply IH in Hx as (y & (z & -> & Hz)%list_elem_of_fmap & ->). exists z. split; [done|].
  by case_match; rewrite ?Hf.
Qed.

Lemma join_tokens_length {A} token (set_token : ExecutionToken → A → A) tokens l :
  length (join_tokens token set_token tokens l) = length l.
Proof.
  unfold join_tokens. revert l. induction tokens as [|t tokens IH]; intros l; simpl; [done|].
  rewrite IH. apply length_fmap.
Qed.

Lemma GetTokens_any s ks : available s → ∃ tokens, GetTokens ks s = (Ret tokens, s).
Proof. intros Ha. unfold GetTokens, query_many. rewrite available_query by done. by eexists. Qed.

Lemma GetTimer_run s k r :
  available s → s.(db_data).(tb_timer) !! k = Some r →
  ∃ t, db_GetTimer k s = (Ret t, s) ∧ t.(tm_Key) = r.(tir_Key) ∧
    t.(tm_TimerState) = TimerState_of r.(tir_State).
Proof.
  intros Ha Hr. destruct (GetTokens_any s [r.(tir_ExecutionToken)] Ha) as [tokens Et].
  unfold db_GetTimer.
  pose proof (join_tokens_length tm_Token with_TimerToken tokens [timer_of_row r]) as Hl.
  pose proof (λ x, join_tokens_in tm_Token with_TimerToken (λ t, (t.(tm_Key), t.(tm_TimerState))) tokens
    [timer_of_row r] x (λ _ _, eq_refl)) as Hin.
  destruct (join_tokens _ _ _ _) as [|t [|]] eqn:Ej; try done. exists t.
  destruct (Hin t) as (y & ->%list_elem_of_singleton & [= -> ->]); [left|].
  split; [|done].
  erewrite bind_step by (by apply wrap_run, query_one_run).
  assert (Ei : inflateTimers [r] s = (Ret [t], s)).
  { unfold inflateTimers. erewrite bind_step by (apply wrap_run; exact Et). simpl. by rewrite <- Ej. }
  by erewrite bind_step by exact Ei.
Qed.

(** A timer that was triggered or cancelled is not recognised when it is
    read back: its state is stored as the state of an activity, and the number
    read as the state of a timer is neither of the two; only a timer that is
    created is found in its state. *)
Theorem ended_timer_is_not_recognised t s s' :
  available s → s.(db_fk) = true → SaveTimerWith t s = (Ret tt, s') →
  (∃ t', db_GetTimer t.(tm_Key) s' = (Ret t', s') ∧ t'.(tm_Key) = t.(tm_Key) ∧
     t'.(tm_TimerState) =
       match t.(tm_TimerState) with TimerStateCreated => TimerStateCreated | _ => TimerStateZero end) ∧
  (∀ pik st l, st ≠ TimerStateCreated → st ≠ TimerStateZero →
     db_FindProcessInstanceTimers pik st s' = (Ret l, s') → t.(tm_Key) ∉ tm_Key <$> l).
Proof.
  intros Ha Hfk E. unfold SaveTimerWith in E.
  destruct (Timer_GetState t) as [state|] eqn:Est; [|done].
  eapply write_Ret in E as (d & E & ->); [|apply Ha]. rewrite Hfk in E.
  pose proof (available_write _ _ _ Ha Hfk E) as Ha'. simpl in E.
  assert (Hrow : ∃ r, d.(tb_timer) !! t.(tm_Key) = Some r ∧ r.(tir_Key) = t.(tm_Key) ∧
    r.(tir_State) = ActivityState_int state).
  { destruct (sql_upsert _ _ _ _ _) as [m|] eqn:Em; simpl in E; [injection E as <-|done].
    apply sql_upsert_Some in Em as [(old & Hold & ->)|(_ & _ & ->)]; simpl; rewrite lookup_insert_eq;
      eexists; split_and!; try done. exact (ok_timer_key _ (ok_keys _ (available_ok _ Ha)) _ _ Hold). }
  destruct Hrow as (r & Hr & Hk & Hs). split.
  - destruct (GetTimer_run _ _ _ Ha' Hr) as (t' & Et' & Hk' & Hs'). exists t'.
    split; [done|]. rewrite Hk', Hs', Hs. split; [done|].
    unfold Timer_GetState in Est. by destruct (tm_TimerState t); simplify_eq.
  - intros pik st l Hst Hst' El (x & Hx & Hin)%list_elem_of_fmap.
    unfold db_FindProcessInstanceTimers, find_timers in El.
    apply bind_Ret in El as (rows & s1 & Erows%wrap_Ret & El).
    unfold query_many in Erows. rewrite available_query in Erows by done. injection Erows as <- <-.
    unfold inflateTimers in El. apply bind_Ret in El as (tokens & s1 & _ & [= <- _]).
    apply (join_tokens_in tm_Token with_TimerToken tm_Key) in Hin as (y & Hy & Hxy); [|done].
    apply list_elem_of_fmap in Hy as (r' & -> & ((_ & Hst2) & j & Hj)%elem_of_select).
    simpl in Hxy. pose proof (ok_timer_key _ (ok_keys _ (available_ok _ Ha')) _ _ Hj) as Hj'.
    simpl in Hj'. rewrite Hj', <- Hx in Hxy. subst j. rewrite Hr in Hj. injection Hj as <-.
    rewrite Hs in Hst2. unfold Timer_GetState in Est.
    by destruct (tm_TimerState t), st; simplify_eq.
Qed.

(** *** Process definitions *)

Context (xml_Unmarshal_bpmn : string → result TDefinitions).

(** The definition a row decodes to. *)
Definition decode_definition (r : DefinitionRow) : option ProcessDefinition :=
  match xml_Unmarshal_bpmn r.(der_BpmnData) with
  | Good definitions =>
      if bool_decide (16 ≤ length r.(der_BpmnChecksum))%nat
      then Some (definition_of_row r definitions (take 16 r.(der_BpmnChecksum))) else None
  | Bad _ => None
  end.

(** Every cached definition is the one that is stored. *)
Definition cache_ok (s : DB) : Prop :=
  map_Forall (λ k pd, ∃ r, s.(db_data).(tb_process_definition) !! k = Some r ∧ decode_definition r = Some pd)
    s.(db_pdCache).

Definition clear_cache (s : DB) : DB :=
  {| db_data := s.(db_data); db_fk := s.(db_fk); db_pdCache := ∅; db_drdCache := s.(db_drdCache);
     db_queryErr := s.(db_queryErr); db_executeErr := s.(db_executeErr); db_now := s.(db_now) |}.

Lemma load_definition_decode k r s :
  match decode_definition r with
  | Some pd => load_definition xml_Unmarshal_bpmn k r s = (Ret pd, pdCache_Add k pd s)
  | None => (load_definition xml_Unmarshal_bpmn k r s).2 = s
  end.
Proof.
  unfold decode_definition, load_definition, mbind, ST_bind, checksum16.
  destruct (xml_Unmarshal_bpmn _); simpl; [|done]. by case_bool_decide.
Qed.

Lemma load_definition_outcome k r s s' :
  (load_definition xml_Unmarshal_bpmn k r s).1 = (load_definition xml_Unmarshal_bpmn k r s').1.
Proof.
  unfold load_definition, mbind, ST_bind, checksum16.
  destruct (xml_Unmarshal_bpmn _); simpl; [|done]. by case_bool_decide.
Qed.

Lemma load_definition_cache k r s :
  cache_ok s → s.(db_data).(tb_process_definition) !! k = Some r →
  cache_ok (load_definition xml_Unmarshal_bpmn k r s).2.
Proof.
  intros Hc Hr. pose proof (load_definition_decode k r s) as E.
  destruct (decode_definition r) as [pd|] eqn:Ed; rewrite E; [|done].
  apply map_Forall_insert_2; simpl; eauto.
Qed.

(** A definition of the cache, or loaded from its row. *)
Lemma cached_or_loaded s k r :
  cache_ok s → s.(db_data).(tb_process_definition) !! k = Some r →
  let m : ST DB ProcessDefinition :=
    cache ← gets db_pdCache;
    match cache !! k with Some pd => mret pd | None => load_definition xml_Unmarshal_bpmn k r end in
  (m s).1 = (load_definition xml_Unmarshal_bpmn k r (clear_cache s)).1 ∧ cache_ok (m s).2.
Proof.
  intros Hc Hr m. unfold m. erewrite (bind_step (gets _)) by reflexivity.
  destruct (db_pdCache s !! k) as [pd|] eqn:Ek.
  - split; [|done]. destruct (Hc _ _ Ek) as (r' & Hr' & Hd). rewrite Hr in Hr'. injection Hr' as <-.
    pose proof (load_definition_decode k r (clear_cache s)) as E. rewrite Hd in E. by rewrite E.
  - split; [apply load_definition_outcome|by apply load_definition_cache].
Qed.

Lemma available_clear s : available s → available (clear_cache s).
Proof. by intros [? ? ?]. Qed.

Lemma find_by_key_stored s k r :
  available s → s.(db_data).(tb_process_definition) !! k = Some r →
  db_FindProcessDefinitionByKey xml_Unmarshal_bpmn k s =
    (cache ← gets db_pdCache;
     match cache !! k with Some pd => mret pd | None => load_definition xml_Unmarshal_bpmn k r end) s.
Proof.
  intros Ha Hr. unfold db_FindProcessDefinitionByKey, mbind at 1, ST_bind at 1. simpl.
  unfold mbind at 2, ST_bind at 2. simpl. destruct (db_pdCache s !! k); [done|].
  by erewrite bind_step by (by apply wrap_run, query_one_run).
Qed.

Lemma find_by_key_missing s k :
  available s → cache_ok s → s.(db_data).(tb_process_definition) !! k = None →
  db_FindProcessDefinitionByKey xml_Unmarshal_bpmn k s =
    (Err (find_error "failed to find latest process definition by key %d: %w" ErrNoRows), s).
Proof.
  intros Ha Hc Hr. unfold db_FindProcessDefinitionByKey. erewrite (bind_step (gets _)) by reflexivity.
  destruct (db_pdCache s !! k) as [pd|] eqn:Ek.
  - destruct (Hc _ _ Ek) as (r & Hr' & _). by rewrite Hr in Hr'.
  - unfold wrap, attempt, query_one, mbind, ST_bind. rewrite available_query by done.
    unfold q_FindProcessDefinitionByKey. by rewrite Hr.
Qed.

Lemma q_latest_stored id d r :
  database_ok d → q_FindLatestProcessDefinitionById id d = Some r → d.(tb_process_definition) !! der_Key r = Some r.
Proof.
  intros Hok [(_ & k & Hk)%elem_of_select _]%order_desc_head.
  by rewrite (ok_definition_key _ (ok_keys _ Hok) _ _ Hk).
Qed.

(** A statement never changes a stored definition. *)
Lemma exec_stmt_definitions fk stmt d d' :
  exec_stmt fk stmt d = Good d' → d.(tb_process_definition) ⊆ d'.(tb_process_definition).
Proof.
  intros E. destruct stmt; simpl in E; try table_written; try done.
  - apply sql_insert_Some in Heqr0 as (Hk & _ & ->). by apply insert_subseteq.
  - by apply sql_delete_instances_Good in E as [-> _].
Qed.

Lemma exec_stmts_definitions fk l d d' :
  exec_stmts fk l d = Good d' → d.(tb_process_definition) ⊆ d'.(tb_process_definition).
Proof.
  revert d. induction l as [|stmt l IH]; intros d E; simpl in E; [by simplify_eq|].
  destruct (exec_stmt fk stmt d) as [d1|] eqn:E1; [|done].
  etrans; [by eapply exec_stmt_definitions|by apply IH].
Qed.

(** The cache of process definitions does not show: as long as it holds
    what is stored, finding a definition by its key or the latest one of a
    process has the same outcome with the cache and without, and neither a find
    nor any statement makes a cached definition differ from the stored one. *)
Theorem definition_cache_is_transparent s :
  available s → cache_ok s →
  (∀ k, (db_FindProcessDefinitionByKey xml_Unmarshal_bpmn k s).1 =
          (db_FindProcessDefinitionByKey xml_Unmarshal_bpmn k (clear_cache s)).1 ∧
        cache_ok (db_FindProcessDefinitionByKey xml_Unmarshal_bpmn k s).2) ∧
  (∀ id, (db_FindLatestProcessDefinitionById xml_Unmarshal_bpmn id s).1 =
           (db_FindLatestProcessDefinitionById xml_Unmarshal_bpmn id (clear_cache s)).1 ∧
         cache_ok (db_FindLatestProcessDefinitionById xml_Unmarshal_bpmn id s).2) ∧
  (∀ l d, exec_stmts s.(db_fk) l s.(db_data) = Good d → cache_ok (set_data d s)).
Proof.
  intros Ha Hc. split_and!.
  - intros k. destruct (s.(db_data).(tb_process_definition) !! k) as [r|] eqn:Hr.
    + pose proof (cached_or_loaded s k r Hc Hr) as Hm. cbv zeta in Hm.
      rewrite (find_by_key_stored s k r), (find_by_key_stored (clear_cache s) k r) by
        eauto using available_clear.
      erewrite (bind_step (gets _) _ (clear_cache s)) by reflexivity. simpl. by rewrite lookup_empty.
    + rewrite !find_by_key_missing by (done || apply available_clear, Ha). done.
  - intros id. unfold db_FindLatestProcessDefinitionById, query_one, wrap, attempt, mbind, ST_bind.
    simpl. rewrite !available_query by done.
    destruct (q_FindLatestProcessDefinitionById id (db_data s)) as [r|] eqn:Hr; simpl; [|done].
    apply q_latest_stored in Hr; [|apply Ha].
    pose proof (cached_or_loaded s r.(der_Key) r Hc Hr) as Hm.
    unfold mbind, ST_bind in Hm. simpl in Hm. rewrite lookup_empty. exact Hm.
  - intros l d E k pd Hk. destruct (Hc k pd Hk) as (r & Hr & Hd). exists r. split; [|done]. simpl.
    eapply lookup_weaken; [exact Hr|]. by eapply exec_stmts_definitions.
Qed.

(** *** Process instances *)

(** The kind as it is read back, with the parent's token as it is stored. *)
Definition read_kind (token : ExecutionToken) (k : InstanceKind) : InstanceKind :=
  match k with
  | DefaultProcessInstance => DefaultProcessInstance
  | SubProcessInstance _ eik id => SubProcessInstance token eik id
  | CallActivityInstance _ eik => CallActivityInstance token eik
  | MultiInstanceInstance _ eik id => MultiInstanceInstance token eik id
  end.

Lemma parent_token_run s r token :
  available s →
  (∀ t, r.(inr_ParentProcessExecutionToken) = Some t →
     ∃ tr, s.(db_data).(tb_execution_token) !! t = Some tr ∧ token = token_of_row tr) →
  ∃ token', parent_token r s = (Ret token', s) ∧
    (r.(inr_ParentProcessExecutionToken) ≠ None → token' = token).
Proof.
  intros Ha Hp. unfold parent_token. destruct (inr_ParentProcessExecutionToken r) as [t|]; [|by eexists].
  destruct (Hp t eq_refl) as (tr & Htr & ->). exists (token_of_row tr). split; [|done].
  apply wrap_run. unfold db_GetTokenByKey.
  by erewrite bind_step by (by apply wrap_run, GetTokens_run).
Qed.

Lemma find_by_key_cached s k pd :
  s.(db_pdCache) !! k = Some pd → db_FindProcessDefinitionByKey xml_Unmarshal_bpmn k s = (Ret pd, s).
Proof.
  intros Hk. unfold db_FindProcessDefinitionByKey. erewrite (bind_step (gets _)) by reflexivity. by rewrite Hk.
Qed.

Lemma find_instance_run s k ttl del businessKey text i pd v token :
  available s → s.(db_data).(tb_process_instance) !! k = Some (set_ttl ttl del (instance_params businessKey text i)) →
  s.(db_pdCache) !! i.(pi_Definition).(pd_Key) = Some pd → json_Unmarshal text = Good v →
  (∀ t, (parent_columns i.(pi_Kind)).1.1 = Some t →
     ∃ tr, s.(db_data).(tb_execution_token) !! t = Some tr ∧ token = token_of_row tr) →
  db_FindProcessInstanceByKey xml_Unmarshal_bpmn json_Unmarshal k s =
    (Ret {| pi_Kind := read_kind token i.(pi_Kind); pi_Definition := pd; pi_Key := i.(pi_Key);
            pi_BusinessKey := businessKey; pi_VariableHolder := NewVariableHolder None (Some v);
            pi_CreatedAt := time_UnixMilli (UnixMilli i.(pi_CreatedAt)); pi_State := i.(pi_State) |}, s).
Proof.
  intros Ha Hr Hpd Hv Hp. unfold db_FindProcessInstanceByKey.
  erewrite bind_step by (by apply wrap_run, query_one_run).
  pose proof (parent_token_run s (set_ttl ttl del (instance_params businessKey text i)) token Ha) as Hpt.
  unfold inflateProcessInstance, unmarshal_variables.
  destruct i as [kind def ik bk vh ca st]. destruct kind; simpl in *;
    (destruct Hpt as (token' & Et & Htok); [done|]);
    rewrite Hv; (erewrite bind_step by reflexivity);
    (erewrite bind_step by (by apply find_by_key_cached));
    (erewrite bind_step by exact Et); simpl; rewrite ?ActivityState_of_int, ?Htok by done; reflexivity.
Qed.
Lemma save_instance_row fk r d d' :
  exec_stmt fk (SqlSaveProcessInstance r) d = Good d' → d.(tb_process_instance) !! r.(inr_Key) = None →
  d'.(tb_execution_token) = d.(tb_execution_token) ∧ d'.(tb_process_instance) !! r.(inr_Key) = Some r.
Proof.
  simpl. intros E Hnew. destruct (sql_upsert _ _ _ _ _) as [m|] eqn:Em; simpl in E; [injection E as <-|done].
  split; [done|]. eapply sql_upsert_row; [exact Em|]. intros old. by rewrite Hnew.
Qed.

Lemma set_ttl_none r : set_ttl None None r = r.
Proof. by destruct r. Qed.

Lemma instance_params_key bk text i : (instance_params bk text i).(inr_Key) = i.(pi_Key).
Proof. by destruct i as [[] ? ? ? ? ? ?]. Qed.

Lemma SaveProcessInstanceWith_Ret ctx i text s s' :
  available s → s.(db_fk) = true → json_Marshal i.(pi_VariableHolder) = Good text →
  s.(db_data).(tb_process_instance) !! i.(pi_Key) = None →
  i.(pi_State) ≠ ActivityStateCompleted → i.(pi_State) ≠ ActivityStateTerminated →
  SaveProcessInstanceWith json_Marshal ctx i s = (Ret tt, s') →
  ∃ ttl d, s' = set_data d s ∧ available s' ∧
    d.(tb_execution_token) = s.(db_data).(tb_execution_token) ∧
    d.(tb_process_instance) !! i.(pi_Key) = Some (set_ttl ttl None (instance_params
      (match ctx.(ctx_BusinessKey) with Some k => Some k | None => i.(pi_BusinessKey) end) text i)).
Proof.
  intros Ha Hfk Ej Hnew Hc Ht E. unfold SaveProcessInstanceWith, marshal_variables in E.
  rewrite Ej in E. erewrite bind_step in E by reflexivity. cbv zeta in E.
  apply bind_Ret in E as ([] & s1 & E1 & E2).
  eapply write_Ret in E1 as (d & E1 & ->); [|apply Ha]. rewrite Hfk in E1.
  pose proof (available_write _ _ _ Ha Hfk E1) as Ha1.
  set (r := instance_params _ _ _) in *.
  assert (Hk : r.(inr_Key) = i.(pi_Key)) by apply instance_params_key. rewrite <- Hk in Hnew |- *.
  apply save_instance_row in E1 as [Htok Hrow]; [|done].
  assert (Hret : s' = set_data d s → ∃ ttl d, s' = set_data d s ∧ available s' ∧
    d.(tb_execution_token) = s.(db_data).(tb_execution_token) ∧
    d.(tb_process_instance) !! r.(inr_Key) = Some (set_ttl ttl None r)).
  { intros ->. exists None, d. by rewrite set_ttl_none. }
  destruct (pi_State i); try done; try (apply Hret; by injection E2).
  destruct (ctx_HistoryTTLSec ctx) as [ttl|]; [|apply Hret; by injection E2].
  eapply write_Ret in E2 as (d2 & E2 & ->); [|apply Ha1]. simpl in E2. injection E2 as <-.
  eexists (Some ttl), _. split; [reflexivity|]. split; [|split; [done|]].
  - exact (available_write (set_data d s) (SqlSetProcessInstanceTTL (Some ttl) None i.(pi_Key)) _ Ha1 Hfk eq_refl).
  - simpl. by rewrite <- Hk, lookup_alter_eq, Hrow.
Qed.

(** C31: a process instance that is saved for the first time, in a state it has
    not ended in, is found again by its key as it was saved: with its key, state
    and the columns of its kind, the business key of the context if there is one,
    the time of its creation cut to milliseconds, the variables as they are
    decoded, the cached definition and the parent token as it is stored. *)
Theorem saved_instance_is_read_back ctx i text pd v token s s' :
  available s → s.(db_fk) = true → json_Marshal i.(pi_VariableHolder) = Good text →
  json_Unmarshal text = Good v → s.(db_pdCache) !! i.(pi_Definition).(pd_Key) = Some pd →
  s.(db_data).(tb_process_instance) !! i.(pi_Key) = None →
  i.(pi_State) ≠ ActivityStateCompleted → i.(pi_State) ≠ ActivityStateTerminated →
  (∀ t, (parent_columns i.(pi_Kind)).1.1 = Some t →
     ∃ tr, s.(db_data).(tb_execution_token) !! t = Some tr ∧ token = token_of_row tr) →
  SaveProcessInstanceWith json_Marshal ctx i s = (Ret tt, s') →
  db_FindProcessInstanceByKey xml_Unmarshal_bpmn json_Unmarshal i.(pi_Key) s' =
    (Ret {| pi_Kind := read_kind token i.(pi_Kind); pi_Definition := pd; pi_Key := i.(pi_Key);
            pi_BusinessKey := match ctx.(ctx_BusinessKey) with Some k => Some k | None => i.(pi_BusinessKey) end;
            pi_VariableHolder := NewVariableHolder None (Some v);
            pi_CreatedAt := time_UnixMilli (UnixMilli i.(pi_CreatedAt)); pi_State := i.(pi_State) |}, s').
Proof.
  intros Ha Hfk Ej Hv Hpd Hnew Hc Ht Hp E.
  assert (Hsaved : ∃ ttl d, s' = set_data d s ∧ available s' ∧
    d.(tb_execution_token) = s.(db_data).(tb_execution_token) ∧
    d.(tb_process_instance) !! i.(pi_Key) = Some (set_ttl ttl None (instance_params
      (match ctx.(ctx_BusinessKey) with Some k => Some k | None => i.(pi_BusinessKey) end) text i))).
  { by eapply SaveProcessInstanceWith_Ret. }
  destruct Hsaved as (ttl & d & -> & Ha' & Htok & Hr). eapply find_instance_run; try done.
  simpl. by rewrite Htok.
Qed.
End read_back.

(** ** Concrete instances *)

Lemma storage_available d : database_ok d → available (storage_of d).
Proof. by split. Qed.
Lemma a_storage_available : available (storage_of a_database).
Proof. apply storage_available, a_database_ok. Qed.

Definition a_job (assignee : option string) : Job :=
  {| job_ElementId := "task"; job_ElementInstanceKey := 4; job_ProcessInstanceKey := 2; job_Key := 5;
     job_State := ActivityStateActive; job_Type := "t"; job_Variables := ∅; job_CreatedAt := 1999999;
     job_Token := key_token 3; job_Assignee := assignee |}.
Definition to_text (v : vars) : result string := Good "{}".
Definition of_text (s : string) : result vars := Good ∅.

Definition job_saved : DB :=
  (SaveJobWith to_text (a_job (Some "kim")) (storage_of a_database)).2.

Lemma saved_job_is_read_back_witness :
  SaveJobWith to_text (a_job (Some "kim")) (storage_of a_database) = (Ret tt, job_saved) ∧
  db_FindJobByJobKey (H := by_key) of_text 5 job_saved =
    (Ret {| job_ElementId := "task"; job_ElementInstanceKey := 4; job_ProcessInstanceKey := 2; job_Key := 5;
            job_State := ActivityStateActive; job_Type := "t"; job_Variables := ∅; job_CreatedAt := 1000000;
            job_Token := joined_token a_token_row; job_Assignee := None |}, job_saved).
Proof.
  assert (E : SaveJobWith to_text (a_job (Some "kim")) (storage_of a_database) = (Ret tt, job_saved))
    by reflexivity.
  split; [exact E|].
  refine (saved_job_is_read_back (H := by_key) to_text of_text (a_job (Some "kim")) "{}" ∅ a_token_row
    (storage_of a_database) job_saved a_storage_available _ _ _ _ _ E); try reflexivity.
  intros old Hold. discriminate Hold.
Defined.

Definition found_job (st : ActivityState) : Job :=
  {| job_ElementId := "task"; job_ElementInstanceKey := 4; job_ProcessInstanceKey := 2; job_Key := 5;
     job_State := st; job_Type := "t"; job_Variables := ∅; job_CreatedAt := 1000000;
     job_Token := joined_token a_token_row; job_Assignee := None |}.
Definition job_completed : DB := (SaveJobWith to_text (found_job ActivityStateCompleted) job_saved).2.

Lemma assignee_is_lost_witness :
  (∃ r, job_saved.(db_data).(tb_job) !! 5%Z = Some r ∧ r.(jor_Assignee) = Some "kim") ∧
  (∃ r, job_completed.(db_data).(tb_job) !! 5%Z = Some r ∧ r.(jor_State) = 4%Z ∧ r.(jor_Assignee) = None).
Proof.
  split; [eexists; split; reflexivity|].
  assert (Ef : db_FindJobByJobKey (H := by_key) of_text 5 job_saved = (Ret (found_job ActivityStateActive), job_saved))
    by (vm_compute; reflexivity).
  refine (assignee_is_lost (H := by_key) to_text of_text 5 (found_job ActivityStateActive) job_saved job_saved
    job_completed eq_refl Ef ActivityStateCompleted ∅ _). reflexivity.
Defined.

Definition a_timer : Timer :=
  {| tm_ElementId := "timer"; tm_Key := 7; tm_ElementInstanceKey := 4; tm_ProcessDefinitionKey := 1;
     tm_ProcessInstanceKey := 2; tm_TimerState := TimerStateTriggered; tm_CreatedAt := 0; tm_DueAt := 5;
     tm_Duration := 5; tm_Token := key_token 3 |}.
Definition timer_saved : DB := ((SaveTimerWith a_timer : ST DB unit) (storage_of a_database)).2.

Lemma ended_timer_is_not_recognised_witness :
  (∃ t', db_GetTimer (H := by_key) 7 timer_saved = (Ret t', timer_saved) ∧ t'.(tm_Key) = 7%Z ∧
     t'.(tm_TimerState) = TimerStateZero) ∧
  (∀ pik st l, st ≠ TimerStateCreated → st ≠ TimerStateZero →
     db_FindProcessInstanceTimers (H := by_key) pik st timer_saved = (Ret l, timer_saved) → 7%Z ∉ tm_Key <$> l).
Proof.
  refine (ended_timer_is_not_recognised (H := by_key) a_timer (storage_of a_database) timer_saved
    a_storage_available eq_refl _). reflexivity.
Defined.

Definition some_definitions : TDefinitions :=
  {| Process := MkProcess "p" [] [] [] [] [] [] [] [] [] [] [] [] [] [] []; Messages := [] |}.
Definition parse_bpmn (s : string) : result TDefinitions := Good some_definitions.
Definition a_definition : ProcessDefinition :=
  definition_of_row a_definition_row some_definitions (replicate 16 0%Z).
Definition cached_storage : DB := pdCache_Add 1 a_definition (storage_of a_database).

Lemma cached_available : available cached_storage.
Proof. by destruct a_storage_available. Qed.
Lemma cached_ok : cache_ok parse_bpmn cached_storage.
Proof.
  intros k pd Hk. change (<[1%Z := a_definition]> (∅ : gmap Z ProcessDefinition) !! k = Some pd) in Hk.
  apply lookup_insert_Some in Hk as [[<- <-]|[_ Hk]]; [|by rewrite lookup_empty in Hk].
  exists a_definition_row. by split.
Qed.

Lemma definition_cache_is_transparent_witness :
  (db_FindProcessDefinitionByKey parse_bpmn 1 cached_storage).1 = Ret a_definition ∧
  (db_FindProcessDefinitionByKey parse_bpmn 1 cached_storage).1 =
    (db_FindProcessDefinitionByKey parse_bpmn 1 (clear_cache cached_storage)).1 ∧
  (db_FindLatestProcessDefinitionById (H := by_key) parse_bpmn "p" cached_storage).1 =
    (db_FindLatestProcessDefinitionById (H := by_key) parse_bpmn "p" (clear_cache cached_storage)).1.
Proof.
  destruct (definition_cache_is_transparent (H := by_key) parse_bpmn cached_storage cached_available cached_ok)
    as (H1 & H2 & _).
  split; [reflexivity|]. split; [apply H1|apply H2].
Defined.

(** A called instance, whose parent waits with the stored token. *)
Definition a_called_instance : ProcessInstance :=
  {| pi_Kind := CallActivityInstance (key_token 3) 4; pi_Definition := a_definition; pi_Key := 8;
     pi_BusinessKey := Some "own"; pi_VariableHolder := ∅; pi_CreatedAt := 1999999;
     pi_State := ActivityStateReady |}.
Definition a_context : AppContext :=
  {| ctx_BusinessKey := None; ctx_HistoryTTLSec := Some 60%Z; ctx_ProcessInstanceKey := None;
     ctx_ElementInstanceKey := None |}.
Definition instance_saved : DB :=
  ((SaveProcessInstanceWith to_text a_context a_called_instance : ST DB unit) cached_storage).2.

Lemma saved_instance_is_read_back_witness :
  SaveProcessInstanceWith to_text a_context a_called_instance cached_storage = (Ret tt, instance_saved) ∧
  db_FindProcessInstanceByKey (H := by_key) parse_bpmn of_text 8 instance_saved =
    (Ret {| pi_Kind := CallActivityInstance (token_of_row a_token_row) 4; pi_Definition := a_definition;
            pi_Key := 8; pi_BusinessKey := Some "own"; pi_VariableHolder := ∅; pi_CreatedAt := 1000000;
            pi_State := ActivityStateReady |}, instance_saved).
Proof.
  assert (E : SaveProcessInstanceWith to_text a_context a_called_instance cached_storage = (Ret tt, instance_saved))
    by reflexivity.
  split; [exact E|].
  refine (saved_instance_is_read_back (H := by_key) to_text of_text parse_bpmn a_context a_called_instance "{}"
    a_definition ∅ (token_of_row a_token_row) cached_storage instance_saved cached_available
    eq_refl eq_refl eq_refl eq_refl eq_refl _ _ _ E); [discriminate|discriminate|].
  intros t [= <-]. exists a_token_row. by split.
Defined.
