(* ===== verification/FlushRefinement.v ===== *)
(** The batch of the persistent storage implements the contract of Storage.v: a
    successful Flush does to the SQL tables what the statements of the batch do
    to the abstract tables.  The two are related row by row ([represents]).

    The upserts of the SQL statements do not set every column, so that the
    tables stay related as long as the batch saves a stored record again only
    with the other fields as they are ([keeps_identity]). *)
From S2P Require Import Prelude Monad Model Runtime DmnModel Storage Sql PartitionDB PartitionWrite.
From S2P Require Import ClusterState Zenflake PersistenceProps.

(** ** The relation *)

Section relation.
Context (json_Marshal : vars → result string).

(** What a row shows of a record; times are stored in milliseconds. *)
Definition shows_definition (x : ProcessDefinition) (r : DefinitionRow) : Prop :=
  r = {| der_Key := x.(pd_Key); der_Version := x.(pd_Version); der_BpmnProcessID := x.(pd_BpmnProcessId);
         der_BpmnData := x.(pd_BpmnData); der_BpmnChecksum := x.(pd_BpmnChecksum);
         der_BpmnProcessName := x.(pd_BpmnProcessName) |}.

(** The time of its creation is not the one of the token. *)
Definition shows_token (x : ExecutionToken) (r : TokenRow) : Prop :=
  ∃ created, r =
    {| tor_Key := x.(tok_Key); tor_ElementInstanceKey := x.(tok_ElementInstanceKey);
       tor_ElementID := x.(tok_ElementId); tor_ProcessInstanceKey := x.(tok_ProcessInstanceKey);
       tor_State := TokenState_int x.(tok_State); tor_CreatedAt := created |}.

Definition shows_timer (x : Timer) (r : TimerRow) : Prop :=
  ∃ state, Timer_GetState x = Some state ∧ r =
    {| tir_Key := x.(tm_Key); tir_ElementInstanceKey := x.(tm_ElementInstanceKey);
       tir_ElementID := x.(tm_ElementId); tir_ProcessDefinitionKey := x.(tm_ProcessDefinitionKey);
       tir_ProcessInstanceKey := x.(tm_ProcessInstanceKey); tir_State := ActivityState_int state;
       tir_CreatedAt := UnixMilli x.(tm_CreatedAt); tir_DueAt := UnixMilli x.(tm_DueAt);
       tir_ExecutionToken := x.(tm_Token).(tok_Key) |}.

Definition shows_job (x : Job) (r : JobRow) : Prop :=
  ∃ text, json_Marshal x.(job_Variables) = Good text ∧ r =
    {| jor_Key := x.(job_Key); jor_ElementInstanceKey := x.(job_ElementInstanceKey);
       jor_ElementID := x.(job_ElementId); jor_ProcessInstanceKey := x.(job_ProcessInstanceKey);
       jor_Type := x.(job_Type); jor_State := ActivityState_int x.(job_State);
       jor_CreatedAt := UnixMilli x.(job_CreatedAt); jor_Variables := text;
       jor_ExecutionToken := x.(job_Token).(tok_Key); jor_Assignee := x.(job_Assignee) |}.

Definition shows_subscription (x : MessageSubscription) (r : SubscriptionRow) : Prop :=
  r = {| sur_Key := x.(ms_Key); sur_ElementID := x.(ms_ElementId);
         sur_ProcessDefinitionKey := x.(ms_ProcessDefinitionKey);
         sur_ProcessInstanceKey := x.(ms_ProcessInstanceKey); sur_Name := x.(ms_Name);
         sur_State := ActivityState_int x.(ms_State); sur_CreatedAt := UnixMilli x.(ms_CreatedAt);
         sur_CorrelationKey := x.(ms_CorrelationKey); sur_ExecutionToken := x.(ms_Token).(tok_Key) |}.

Definition shows_element (x : FlowElementInstance) (r : ElementRow) : Prop :=
  ∃ inputs outputs, json_Marshal x.(fe_InputVariables) = Good inputs ∧
    json_Marshal x.(fe_OutputVariables) = Good outputs ∧ r = element_row x inputs outputs.

Definition shows_incident (x : Incident) (r : IncidentRow) : Prop :=
  r = {| icr_Key := x.(inc_Key); icr_ElementInstanceKey := x.(inc_ElementInstanceKey);
         icr_ElementID := x.(inc_ElementId); icr_ProcessInstanceKey := x.(inc_ProcessInstanceKey);
         icr_Message := x.(inc_Message); icr_CreatedAt := UnixMilli x.(inc_CreatedAt);
         icr_ResolvedAt := UnixMilli <$> x.(inc_ResolvedAt); icr_ExecutionToken := x.(inc_Token).(tok_Key) |}.

(** The same keys, and under each a record of that key and the row that shows it. *)
Definition rows_shown {X A} (key : X → Z) (shows : X → A → Prop) : gmap Z X → gmap Z A → Prop :=
  map_Forall2 (λ k x r, key x = k ∧ shows x r).

Record represents (t : Tables) (d : Database) : Prop := {
  rep_definition : rows_shown pd_Key shows_definition t.(t_Definitions) d.(tb_process_definition);
  rep_timer : rows_shown tm_Key shows_timer t.(t_Timers) d.(tb_timer);
  rep_job : rows_shown job_Key shows_job t.(t_Jobs) d.(tb_job);
  rep_subscription : rows_shown ms_Key shows_subscription t.(t_Subscriptions) d.(tb_message_subscription);
  rep_token : rows_shown tok_Key shows_token t.(t_Tokens) d.(tb_execution_token);
  rep_element : rows_shown fe_Key shows_element t.(t_Elements) d.(tb_flow_element_instance);
  rep_incident : rows_shown inc_Key shows_incident t.(t_Incidents) d.(tb_incident)
}.

(** What the row of an instance shows, with the business key it was saved with. *)
Definition shows_instance (bk : option string) (x : ProcessInstance) (r : InstanceRow) : Prop :=
  r.(inr_State) = ActivityState_int x.(pi_State) ∧ r.(inr_BusinessKey) = bk ∧
  json_Marshal x.(pi_VariableHolder) = Good r.(inr_Variables).
End relation.

(** ** Saving a stored record again *)

Definition same_but_timer_state (old x : Timer) : Prop :=
  old.(tm_ElementInstanceKey) = x.(tm_ElementInstanceKey) ∧ old.(tm_ElementId) = x.(tm_ElementId) ∧
  old.(tm_ProcessDefinitionKey) = x.(tm_ProcessDefinitionKey) ∧
  old.(tm_ProcessInstanceKey) = x.(tm_ProcessInstanceKey) ∧
  old.(tm_CreatedAt) = x.(tm_CreatedAt) ∧ old.(tm_DueAt) = x.(tm_DueAt) ∧
  old.(tm_Token).(tok_Key) = x.(tm_Token).(tok_Key).

Definition same_but_job_state (old x : Job) : Prop :=
  old.(job_ElementInstanceKey) = x.(job_ElementInstanceKey) ∧ old.(job_ElementId) = x.(job_ElementId) ∧
  old.(job_ProcessInstanceKey) = x.(job_ProcessInstanceKey) ∧ old.(job_Type) = x.(job_Type) ∧
  old.(job_CreatedAt) = x.(job_CreatedAt) ∧ old.(job_Token).(tok_Key) = x.(job_Token).(tok_Key).

Definition same_but_subscription_state (old x : MessageSubscription) : Prop :=
  old.(ms_ElementId) = x.(ms_ElementId) ∧ old.(ms_ProcessDefinitionKey) = x.(ms_ProcessDefinitionKey) ∧
  old.(ms_ProcessInstanceKey) = x.(ms_ProcessInstanceKey) ∧ old.(ms_Name) = x.(ms_Name) ∧
  old.(ms_CreatedAt) = x.(ms_CreatedAt) ∧ old.(ms_CorrelationKey) = x.(ms_CorrelationKey) ∧
  old.(ms_Token).(tok_Key) = x.(ms_Token).(tok_Key).

Definition same_but_inputs (old x : FlowElementInstance) : Prop :=
  old.(fe_ElementId) = x.(fe_ElementId) ∧ old.(fe_ProcessInstanceKey) = x.(fe_ProcessInstanceKey) ∧
  old.(fe_ExecutionTokenKey) = x.(fe_ExecutionTokenKey) ∧ old.(fe_CreatedAt) = x.(fe_CreatedAt) ∧
  old.(fe_OutputVariables) = x.(fe_OutputVariables).

Definition same_but_resolution (old x : Incident) : Prop :=
  old.(inc_ElementInstanceKey) = x.(inc_ElementInstanceKey) ∧ old.(inc_ElementId) = x.(inc_ElementId) ∧
  old.(inc_ProcessInstanceKey) = x.(inc_ProcessInstanceKey) ∧ old.(inc_Message) = x.(inc_Message) ∧
  old.(inc_CreatedAt) = x.(inc_CreatedAt) ∧ old.(inc_Token).(tok_Key) = x.(inc_Token).(tok_Key).

(** A statement that finds its record stored changes only the fields its upsert
    sets; outputs are set of elements that are stored. *)
Definition keeps_identity (s : Stmt) (t : Tables) : Prop :=
  let stored {X} (m : gmap Z X) (k : Z) (same : X → Prop) := ∀ old, m !! k = Some old → same old in
  match s with
  | StSaveTimer x => stored t.(t_Timers) x.(tm_Key) (λ old, same_but_timer_state old x)
  | StSaveJob x => stored t.(t_Jobs) x.(job_Key) (λ old, same_but_job_state old x)
  | StSaveMessageSubscription x =>
      stored t.(t_Subscriptions) x.(ms_Key) (λ old, same_but_subscription_state old x)
  | StSaveToken x =>
      stored t.(t_Tokens) x.(tok_Key) (λ old, old.(tok_ProcessInstanceKey) = x.(tok_ProcessInstanceKey))
  | StSaveFlowElementInstance x => stored t.(t_Elements) x.(fe_Key) (λ old, same_but_inputs old x)
  | StUpdateOutputFlowElementInstance x => is_Some (t.(t_Elements) !! x.(fe_Key))
  | StSaveIncident x => stored t.(t_Incidents) x.(inc_Key) (λ old, same_but_resolution old x)
  | StSaveProcessDefinition _ | StSaveProcessInstance _ _ => True
  end.

Fixpoint keep_identity (l : list Stmt) (t : Tables) : Prop :=
  match l with
  | [] => True
  | s :: l' => keeps_identity s t ∧ keep_identity l' (apply_stmt s t)
  end.

(** ** What a saved record adds to the batch *)

Section recorded.
Context (json_Marshal : vars → result string) (ctx : AppContext).

Definition saved_business_key (i : ProcessInstance) : option string :=
  match ctx.(ctx_BusinessKey) with Some k => Some k | None => i.(pi_BusinessKey) end.

Inductive recorded : Stmt → list SqlStmt → Prop :=
| rec_definition x r : shows_definition x r → recorded (StSaveProcessDefinition x) [SqlSaveProcessDefinition r]
| rec_timer x r : shows_timer x r → recorded (StSaveTimer x) [SqlSaveTimer r]
| rec_job x r : shows_job json_Marshal x r → recorded (StSaveJob x) [SqlSaveJob r]
| rec_subscription x r :
    shows_subscription x r → recorded (StSaveMessageSubscription x) [SqlSaveMessageSubscription r]
| rec_token x r : shows_token x r → recorded (StSaveToken x) [SqlSaveToken r]
| rec_element x r :
    shows_element json_Marshal x r → recorded (StSaveFlowElementInstance x) [SqlSaveFlowElementInstance r]
| rec_outputs x text :
    json_Marshal x.(fe_OutputVariables) = Good text →
    recorded (StUpdateOutputFlowElementInstance x) [SqlUpdateOutputFlowElementInstance (element_row x "" text)]
| rec_incident x r : shows_incident x r → recorded (StSaveIncident x) [SqlSaveIncident r]
| rec_instance p x text :
    json_Marshal x.(pi_VariableHolder) = Good text →
    recorded (StSaveProcessInstance p x)
      [SqlSaveProcessInstance (instance_params (saved_business_key x) text x)]
| rec_instance_ttl p x text ttl del :
    json_Marshal x.(pi_VariableHolder) = Good text →
    recorded (StSaveProcessInstance p x)
      [SqlSaveProcessInstance (instance_params (saved_business_key x) text x);
       SqlSetProcessInstanceTTL ttl del x.(pi_Key)].

Definition adds (l : list SqlStmt) (b b' : DBBatch) : Prop := b'.(bt_stmtToRun) = b.(bt_stmtToRun) ++ l.

Lemma ExecContext_adds stmt b b' : (ExecContext stmt : ST DBBatch unit) b = (Ret tt, b') → adds [stmt] b b'.
Proof. by intros [= <-]. Qed.

Lemma marshal_variables_Ret {S} fmt v (s : S) text s' :
  marshal_variables json_Marshal fmt v s = (Ret text, s') → json_Marshal v = Good text ∧ s' = s.
Proof. unfold marshal_variables, wrap_result. by destruct (json_Marshal v); intros [= <- <-]. Qed.

Lemma on_read_db_Ret {A} (m : ST DB A) (b : DBBatch) a b' : on_read_db m b = (Ret a, b') → b' = b.
Proof. by intros [= _ <-]. Qed.

(** Take a successful writer apart. *)
Ltac unsave :=
  repeat match goal with
  | H : (_ ≫= _) _ = (Ret _, _) |- _ => apply bind_Ret in H as (? & ? & ? & H)
  | H : wrap _ _ _ = (Ret _, _) |- _ => apply wrap_Ret in H
  | H : marshal_variables _ _ _ _ = (Ret _, _) |- _ => apply marshal_variables_Ret in H as [? ->]
  | H : on_read_db _ _ = (Ret _, _) |- _ => apply on_read_db_Ret in H; subst
  | H : get _ = (Ret _, _) |- _ => injection H as <- <-
  | H : mret _ _ = (Ret _, _) |- _ => injection H as <-
  | H : ExecContext _ _ = (Ret _, _) |- _ => apply ExecContext_adds in H
  | H : panic _ _ = (Ret _, _) |- _ => discriminate H
  | u : unit |- _ => destruct u
  end.

Lemma SaveProcessInstanceWith_records p i (b b' : DBBatch) :
  SaveProcessInstanceWith json_Marshal ctx i b = (Ret tt, b') →
  ∃ l, recorded (StSaveProcessInstance p i) l ∧ adds l b b'.
Proof.
  unfold SaveProcessInstanceWith. fold (saved_business_key i). intros E. unsave.
  assert (Hnone : ∀ b2, adds [SqlSaveProcessInstance (instance_params (saved_business_key i) x i)] b b2 →
    ∃ l, recorded (StSaveProcessInstance p i) l ∧ adds l b b2).
  { intros b2 Hb. eexists. split; [by apply rec_instance|done]. }
  assert (Httl : ∀ b1 b2 ttl del,
    adds [SqlSaveProcessInstance (instance_params (saved_business_key i) x i)] b b1 →
    adds [SqlSetProcessInstanceTTL ttl del i.(pi_Key)] b1 b2 →
    ∃ l, recorded (StSaveProcessInstance p i) l ∧ adds l b b2).
  { intros b1 b2 ttl del H1 H2. eexists. split; [by apply rec_instance_ttl|].
    unfold adds in *. by rewrite H2, H1, <- (assoc_L (++)). }
  unfold mark_for_deletion in E.
  destruct (pi_State i); unsave; repeat (case_match; unsave); eauto.
Qed.

Lemma save_records P L z client st b b' :
  save_stmt json_Marshal ctx (batch_SaveMessageSubscription P L z client) st b = (Ret tt, b') →
  ∃ l, recorded st l ∧ adds l b b'.
Proof.
  destruct st; unfold save_stmt; intros E; [|by eapply SaveProcessInstanceWith_records|..].
  all: try match type of E with batch_SaveMessageSubscription _ _ _ _ _ _ = _ =>
    apply bind_Ret in E as (? & ? & [= <- <-] & E) end.
  all: unfold SaveProcessDefinitionWith, SaveTimerWith, SaveJobWith, SaveMessageSubscriptionWith, SaveToken,
    SaveFlowElementInstanceWith, UpdateOutputFlowElementInstanceWith, SaveIncidentWith in E.
  all: try match type of E with context [Timer_GetState ?x] =>
    destruct (Timer_GetState x) eqn:?; [|discriminate E] end.
  all: unsave.
  all: eexists; split; [|eassumption]; constructor; try done; repeat (eexists || split); done.
Qed.

Lemma saved_records P L z client saved b b' :
  for_each saved (save_stmt json_Marshal ctx (batch_SaveMessageSubscription P L z client)) b = (Ret tt, b') →
  ∃ ls, Forall2 recorded saved ls ∧ adds (concat ls) b b'.
Proof.
  revert b. induction saved as [|st saved IH]; intros b E; simpl in E.
  - injection E as <-. exists []. split; [constructor|]. unfold adds. simpl. by rewrite app_nil_r.
  - apply bind_Ret in E as ([] & b1 & (l & Hl & Hb)%save_records & (ls & Hls & Hb')%IH).
    exists (l :: ls). split; [by constructor|]. unfold adds in *. simpl.
    by rewrite Hb', Hb, <- (assoc_L (++)).
Qed.

(** ** The statements simulate the contract *)

Section rows.
Context {X A : Type} (key : X → Z) (shows : X → A → Prop).

(** The row an upsert leaves shows the saved record when it is new, and when it
    updates the row of a record. *)
Lemma rows_shown_upsert refs k r upd x T m m' :
  sql_upsert refs k r upd m = Good m' → k = key x → rows_shown key shows T m → shows x r →
  (∀ old ro, T !! key x = Some old → key old = key x → shows old ro → shows x (upd ro)) →
  rows_shown key shows (<[key x := x]> T) m'.
Proof.
  intros E -> HT Hr Hu. apply sql_upsert_Some in E as [(ro & Ero & ->)|(_ & _ & ->)];
    apply map_Forall2_insert_2; try done. split; [done|].
  specialize (HT (key x)). rewrite Ero in HT. inversion HT as [old ro' [Hk Hs] Hold Ero'|]; simplify_eq.
  by eapply Hu.
Qed.

Lemma rows_shown_insert refs r x T m m' :
  sql_insert refs (key x) r m = Good m' → rows_shown key shows T m → shows x r →
  rows_shown key shows (<[key x := x]> T) m'.
Proof. intros (_ & _ & ->)%sql_insert_Some HT Hr. by apply map_Forall2_insert_2. Qed.
End rows.

(** *** The updated columns *)

Lemma upd_token_shows x r old ro :
  old.(tok_Key) = x.(tok_Key) → old.(tok_ProcessInstanceKey) = x.(tok_ProcessInstanceKey) →
  shows_token x r → shows_token old ro → shows_token x (upd_token r ro).
Proof. intros Hk Hp [c ->] [c' ->]. exists c'. unfold upd_token. simpl. by rewrite Hk, Hp. Qed.

Lemma upd_timer_shows x r old ro :
  old.(tm_Key) = x.(tm_Key) → same_but_timer_state old x →
  shows_timer x r → shows_timer old ro → shows_timer x (upd_timer r ro).
Proof.
  intros Hk (H1 & H2 & H3 & H4 & H5 & H6 & H7) (st & Est & ->) (st' & _ & ->).
  exists st. split; [done|]. unfold upd_timer. simpl. congruence.
Qed.

Lemma upd_job_shows x r old ro :
  old.(job_Key) = x.(job_Key) → same_but_job_state old x →
  shows_job json_Marshal x r → shows_job json_Marshal old ro → shows_job json_Marshal x (upd_job r ro).
Proof.
  intros Hk (H1 & H2 & H3 & H4 & H5 & H6) (text & Et & ->) (text' & _ & ->).
  exists text. split; [done|]. unfold upd_job. simpl. congruence.
Qed.

Lemma upd_subscription_shows x r old ro :
  old.(ms_Key) = x.(ms_Key) → same_but_subscription_state old x →
  shows_subscription x r → shows_subscription old ro → shows_subscription x (upd_subscription r ro).
Proof.
  intros Hk (H1 & H2 & H3 & H4 & H5 & H6 & H7) -> ->. unfold shows_subscription, upd_subscription. simpl.
  congruence.
Qed.

Lemma upd_incident_shows x r old ro :
  old.(inc_Key) = x.(inc_Key) → same_but_resolution old x →
  shows_incident x r → shows_incident old ro → shows_incident x (upd_incident r ro).
Proof.
  intros Hk (H1 & H2 & H3 & H4 & H5 & H6) -> ->. unfold shows_incident, upd_incident. simpl. congruence.
Qed.

Lemma upd_inputs_shows x r old ro :
  old.(fe_Key) = x.(fe_Key) → same_but_inputs old x →
  shows_element json_Marshal x r → shows_element json_Marshal old ro →
  shows_element json_Marshal x (upd_inputs r ro).
Proof.
  intros Hk (H1 & H2 & H3 & H4 & H5) (i & o & Ei & Eo & ->) (i' & o' & Ei' & Eo' & ->).
  exists i, o. split_and!; [done|done|]. unfold upd_inputs, element_row. simpl. congruence.
Qed.

Lemma upd_outputs_shows x text old ro :
  json_Marshal x.(fe_OutputVariables) = Good text → shows_element json_Marshal old ro →
  shows_element json_Marshal (with_OutputVariables x.(fe_OutputVariables) old)
    (upd_outputs (element_row x "" text) ro).
Proof. intros Et (i & o & Ei & Eo & ->). exists i, text. by split_and!. Qed.

(** Only the outputs are set, of an element that is stored. *)
Lemma outputs_shown refs x text T m m' :
  sql_upsert refs x.(fe_Key) (element_row x "" text) (upd_outputs (element_row x "" text)) m = Good m' →
  json_Marshal x.(fe_OutputVariables) = Good text → is_Some (T !! x.(fe_Key)) →
  rows_shown fe_Key (shows_element json_Marshal) T m →
  rows_shown fe_Key (shows_element json_Marshal)
    (<[x.(fe_Key) := with_OutputVariables x.(fe_OutputVariables) (default zero_element (T !! x.(fe_Key)))]> T) m'.
Proof.
  intros E Et [old Hold] HT. pose proof (HT x.(fe_Key)) as Hk. rewrite Hold in Hk |- *.
  inversion Hk as [old' ro [Hkey Hs] Eold Ero|]; simplify_eq.
  apply sql_upsert_Some in E as [(? & Ero' & ->)|(Ero' & _ & ->)]; rewrite Ero' in Ero; [|done].
  injection Ero as ->. apply map_Forall2_insert_2; [|done]. split; [done|]. by apply upd_outputs_shows.
Qed.

(** A saved record: the contract's tables and the SQL tables stay related. *)
Lemma recorded_simulates fk st l t d d' :
  recorded st l → keeps_identity st t → represents json_Marshal t d → exec_stmts fk l d = Good d' →
  represents json_Marshal (apply_stmt st t) d'.
Proof.
  intros Hl Hid [R1 R2 R3 R4 R5 R6 R7] E.
  destruct Hl as [x r H|x r H|x r H|x r H|x r H|x r H|x text H|x r H|p x text H|p x text ttl del H];
    simpl in E; table_written; split; simpl; try done.
  - red in H. subst r. by eapply rows_shown_insert.
  - eapply rows_shown_upsert; eauto using upd_timer_shows. by destruct H as (? & ? & ->).
  - eapply rows_shown_upsert; eauto using upd_job_shows. by destruct H as (? & ? & ->).
  - eapply rows_shown_upsert; eauto using upd_subscription_shows. by red in H; subst r.
  - eapply rows_shown_upsert; eauto using upd_token_shows. by destruct H as (? & ->).
  - eapply rows_shown_upsert; eauto using upd_inputs_shows. by destruct H as (? & ? & ? & ? & ->).
  - by eapply outputs_shown.
  - eapply rows_shown_upsert; eauto using upd_incident_shows. by red in H; subst r.
Qed.

Lemma saved_simulate fk saved ls t d d' :
  Forall2 recorded saved ls → keep_identity saved t → represents json_Marshal t d →
  exec_stmts fk (concat ls) d = Good d' → represents json_Marshal (apply_stmts saved t) d'.
Proof.
  intros Hls. revert t d. induction Hls as [|st l saved ls Hl Hls IH]; intros t d Hid Hr E; simpl in *.
  { by simplify_eq. }
  rewrite exec_stmts_app in E. destruct (exec_stmts fk l d) as [d1|] eqn:El; [|done].
  destruct Hid as [Hid1 Hid]. eapply IH; [done| |done]. by eapply recorded_simulates.
Qed.

(** *** Process instances *)

Definition instance_shown (k : Z) (x : ProcessInstance) (d : Database) : Prop :=
  ∃ r, d.(tb_process_instance) !! k = Some r ∧ shows_instance json_Marshal (saved_business_key x) x r.

(** Setting the time to live keeps what the row shows. *)
Lemma set_ttl_shown ttl del j k x d :
  instance_shown k x d →
  instance_shown k x (set_tb_process_instance (alter (set_ttl ttl del) j d.(tb_process_instance)) d).
Proof.
  intros (r & Hr & Hs). unfold instance_shown. simpl.
  destruct (decide (j = k)) as [->|Hne].
  - rewrite lookup_alter_eq, Hr. simpl. by eexists.
  - rewrite lookup_alter_ne by done. by exists r.
Qed.

Lemma save_instance_shown fk x text d d' :
  json_Marshal x.(pi_VariableHolder) = Good text →
  exec_stmt fk (SqlSaveProcessInstance (instance_params (saved_business_key x) text x)) d = Good d' →
  instance_shown x.(pi_Key) x d' ∧ (∀ k y, k ≠ x.(pi_Key) → instance_shown k y d → instance_shown k y d').
Proof.
  intros Ht E. simpl in E. table_written. unfold instance_shown. simpl.
  assert (Hp : (instance_params (saved_business_key x) text x).(inr_Key) = x.(pi_Key) ∧
    shows_instance json_Marshal (saved_business_key x) x (instance_params (saved_business_key x) text x)).
  { unfold instance_params, shows_instance. destruct (parent_columns _) as [[]]. by split_and!. }
  destruct Hp as [Hk Hs]. rewrite Hk in *.
  match goal with H : sql_upsert _ _ _ _ _ = _ |- _ =>
    apply sql_upsert_Some in H as [(ro & Hro & ->)|(_ & _ & ->)] end; split;
    try (intros k y Hne (r & Hr & Hy); exists r; by rewrite lookup_insert_ne);
    eexists; (split; [apply lookup_insert_eq|done]).
Qed.

(** A statement that saves an instance sets its row, the others no instance's. *)
Lemma recorded_instances fk st l d d' :
  recorded st l → exec_stmts fk l d = Good d' →
  match st with
  | StSaveProcessInstance _ i => instance_shown i.(pi_Key) i d' ∧
      ∀ k y, k ≠ i.(pi_Key) → instance_shown k y d → instance_shown k y d'
  | _ => d'.(tb_process_instance) = d.(tb_process_instance)
  end.
Proof.
  intros Hl E. destruct Hl as [| | | | | | | |p x text Ht|p x text ttl del Ht]; unfold exec_stmts in E.
  1-8: simpl in E; by table_written.
  - destruct (exec_stmt fk _ d) as [d1|] eqn:E1; [|done]. injection E as <-. by eapply save_instance_shown.
  - destruct (exec_stmt fk _ d) as [d1|] eqn:E1; [|done]. injection E as <-.
    destruct (save_instance_shown _ _ _ _ _ Ht E1) as [H1 H2].
    split; [by apply set_ttl_shown|]. intros k y Hne Hy. by apply set_ttl_shown, H2.
Qed.

Lemma unsaved_shown fk saved ls k y d d' :
  Forall2 recorded saved ls → exec_stmts fk (concat ls) d = Good d' → last_saved k saved = None →
  instance_shown k y d → instance_shown k y d'.
Proof.
  intros Hls. revert d. induction Hls as [|st l saved ls Hl Hls IH]; intros d E Hn Hy; simpl in *.
  { by simplify_eq. }
  rewrite exec_stmts_app in E. destruct (exec_stmts fk l d) as [d1|] eqn:El; [|done].
  destruct (last_saved k saved) eqn:Es; [done|]. apply (IH d1); [done|done|].
  apply (recorded_instances _ _ _ _ _ Hl) in El.
  destruct st as [|p i| | | | | | |]; try (unfold instance_shown in *; by rewrite El).
  destruct (_ =? k)%Z eqn:Ek; [done|]. propify. by apply El.
Qed.

Lemma saved_shown fk saved ls k p x d d' :
  Forall2 recorded saved ls → exec_stmts fk (concat ls) d = Good d' → last_saved k saved = Some (p, x) →
  instance_shown k x d'.
Proof.
  intros Hls. revert d. induction Hls as [|st l saved ls Hl Hls IH]; intros d E Hn; simpl in *; [done|].
  rewrite exec_stmts_app in E. destruct (exec_stmts fk l d) as [d1|] eqn:El; [|done].
  destruct (last_saved k saved) as [z|] eqn:Es; [by eapply IH; [done|injection Hn as ->]|].
  apply (recorded_instances _ _ _ _ _ Hl) in El.
  destruct st as [|q i| | | | | | |]; try done. destruct (_ =? k)%Z eqn:Ek; [|done]. propify. simplify_eq.
  destruct El as [Hx _]. by eapply unsaved_shown.
Qed.
End recorded.

Lemma represents_only_pointers json t s s1 :
  only_pointers s s1 → represents json t s.(db_data) → represents json t s1.(db_data).
Proof. intros [m ->] [R1 R2 R3 R4 R5 R6 R7]. by split. Qed.

(** C18: flushing a batch of the persistent storage implements the contract of
    the storage interface.  When the tables hold the records of the contract's
    abstract tables, row by row, and every record that is saved again keeps the
    fields its upsert does not set, then after a Flush that returned nil they
    hold the records of the abstract tables after the batch's statements, in
    their order; and the row of every process instance the batch saved shows the
    state, variables and business key it was last saved with. *)
Theorem flush_implements_contract json ctx P L z client saved s0 b t s s' :
  for_each saved (save_stmt json ctx (batch_SaveMessageSubscription P L z client)) (NewBatch s0) = (Ret tt, b) →
  represents json t s.(db_data) → keep_identity saved t →
  batch_Flush b s = (Ret tt, s') →
  represents json (apply_stmts saved t) s'.(db_data) ∧
  (∀ k p i, last_saved k saved = Some (p, i) → instance_shown json ctx k i s'.(db_data)).
Proof.
  intros E Hr Hid Ef.
  destruct (batch_Flush_cases s0 b s) as (s1 & Hp & [[e Ee]|(d & Ed & Ed')]).
  { by eapply saved_batch. }
  { congruence. }
  rewrite Ed' in Ef. injection Ef as <-. apply saved_records in E as (ls & Hls & Hb).
  unfold adds in Hb. simpl in Hb. rewrite Hb in Ed. simpl. split.
  - eapply saved_simulate; [done|done| |done]. by eapply represents_only_pointers.
  - intros k p i Hk. by eapply saved_shown.
Qed.

(** ** A concrete instance

    An active instance with a waiting token: the batch completes the token,
    saves a job and its incident, and fails the instance. *)

Definition stored_token (state : TokenState) : ExecutionToken :=
  {| tok_Key := 3; tok_ElementInstanceKey := 4; tok_ElementId := "task"; tok_ProcessInstanceKey := 2;
     tok_State := state; tok_CreatedAt := 0 |}.
Definition stored_process : ProcessDefinition :=
  {| pd_BpmnProcessId := "p"; pd_Version := 1; pd_Key := 1;
     pd_Definitions := {| Process := MkProcess "p" [] [] [] [] [] [] [] [] [] [] [] [] [] [] []; Messages := [] |};
     pd_BpmnData := "xml"; pd_BpmnProcessName := ""; pd_BpmnChecksum := replicate 16 0%Z |}.
Definition stored_tables : Tables :=
  {| t_Definitions := {[1%Z := stored_process]}; t_Timers := ∅; t_Jobs := ∅; t_Subscriptions := ∅;
     t_Tokens := {[3%Z := stored_token TokenStateWaiting]}; t_Elements := ∅; t_Incidents := ∅ |}.

Definition one_text (_ : vars) : result string := Good "{}".

Lemma stored_tables_shown : represents one_text stored_tables a_database.
Proof.
  split; simpl; try apply map_Forall2_empty.
  - change (tb_process_definition a_database) with ({[1%Z := a_definition_row]} : gmap Z DefinitionRow).
    apply map_Forall2_singleton. by split.
  - change (tb_execution_token a_database) with ({[3%Z := a_token_row]} : gmap Z TokenRow).
    apply map_Forall2_singleton. split; [done|]. by exists 0%Z.
Qed.

Definition flushed_job : Job :=
  {| job_ElementId := "task"; job_ElementInstanceKey := 4; job_ProcessInstanceKey := 2; job_Key := 5;
     job_State := ActivityStateFailed; job_Type := "t"; job_Variables := ∅; job_CreatedAt := 1999999;
     job_Token := stored_token TokenStateFailed; job_Assignee := None |}.
Definition flushed_incident : Incident :=
  {| inc_Key := 6; inc_ElementInstanceKey := 4; inc_ElementId := "task"; inc_ProcessInstanceKey := 2;
     inc_Message := err! "job failed"; inc_CreatedAt := 2000000; inc_ResolvedAt := None;
     inc_Token := stored_token TokenStateFailed |}.
Definition flushed_instance : ProcessInstance :=
  {| pi_Kind := DefaultProcessInstance; pi_Definition := stored_process; pi_Key := 2; pi_BusinessKey := Some "b";
     pi_VariableHolder := ∅; pi_CreatedAt := 0; pi_State := ActivityStateFailed |}.
Definition flushed_stmts : list Stmt :=
  [StSaveToken (stored_token TokenStateFailed); StSaveJob flushed_job; StSaveIncident flushed_incident;
   StSaveProcessInstance 1%positive flushed_instance].
Definition flushed_batch : DBBatch :=
  (for_each (S := DBBatch) flushed_stmts (save_stmt one_text no_context
     (batch_SaveMessageSubscription 0 true no_partitions no_remote)) (NewBatch (storage_of a_database))).2.
Definition flushed : DB := (batch_Flush flushed_batch (storage_of a_database)).2.

Lemma flush_implements_contract_witness :
  batch_Flush flushed_batch (storage_of a_database) = (Ret tt, flushed) ∧
  represents one_text (apply_stmts flushed_stmts stored_tables) flushed.(db_data) ∧
  (∃ r, flushed.(db_data).(tb_execution_token) !! 3%Z = Some r ∧ r.(tor_State) = 5%Z) ∧
  instance_shown one_text no_context 2 flushed_instance flushed.(db_data).
Proof.
  assert (Ef : batch_Flush flushed_batch (storage_of a_database) = (Ret tt, flushed)) by reflexivity.
  assert (H : represents one_text (apply_stmts flushed_stmts stored_tables) flushed.(db_data) ∧
    (∀ k p i, last_saved k flushed_stmts = Some (p, i) →
       instance_shown one_text no_context k i flushed.(db_data))).
  { refine (flush_implements_contract one_text no_context 0 true no_partitions no_remote flushed_stmts
      (storage_of a_database) flushed_batch stored_tables (storage_of a_database) flushed
      eq_refl stored_tables_shown _ Ef).
    split_and!; simpl; try done.
    intros old Hold. apply lookup_singleton_Some in Hold as [_ <-]. reflexivity. }
  destruct H as [H1 H2]. split; [exact Ef|]. split; [exact H1|]. split; [eexists; by split|].
  apply (H2 2%Z 1%positive). reflexivity.
Defined.
