(* ===== verification/StorageReads.v ===== *)
(** The queries of the persistent storage implement the contract of Storage.v:
    over tables that hold the records of the abstract tables
    ([FlushRefinement.represents]) a list query that answers returns the records
    the contract prescribes.

    What a row cannot give back is not compared: times are cut to milliseconds,
    of the token of a record only the key counts, and the time of the creation
    of a token, the variables and the assignee of a job are left out.  One
    query gives back less than the rows have: the incidents of an instance come
    without their times and without their token. *)
From S2P Require Import Prelude Monad Model Runtime DmnModel Storage Sql PartitionDB PartitionWrite.
From S2P Require Import ClusterState Zenflake PersistenceProps ReadBack FlushRefinement.

(** ** What is compared *)

Definition in_ms (t : Z) : Z := time_UnixMilli (UnixMilli t).
Lemma in_ms_stored ms : in_ms (time_UnixMilli ms) = time_UnixMilli ms.
Proof. unfold in_ms. by rewrite UnixMilli_time. Qed.
#[local] Hint Rewrite in_ms_stored : sql.

Definition seen_token (x : ExecutionToken) : ExecutionToken :=
  {| tok_Key := x.(tok_Key); tok_ElementInstanceKey := x.(tok_ElementInstanceKey);
     tok_ElementId := x.(tok_ElementId); tok_ProcessInstanceKey := x.(tok_ProcessInstanceKey);
     tok_State := x.(tok_State); tok_CreatedAt := 0 |}.

Definition seen_job (x : Job) : Job :=
  {| job_ElementId := x.(job_ElementId); job_ElementInstanceKey := x.(job_ElementInstanceKey);
     job_ProcessInstanceKey := x.(job_ProcessInstanceKey); job_Key := x.(job_Key);
     job_State := x.(job_State); job_Type := x.(job_Type); job_Variables := ∅;
     job_CreatedAt := in_ms x.(job_CreatedAt); job_Token := key_token x.(job_Token).(tok_Key);
     job_Assignee := None |}.

Definition seen_subscription (x : MessageSubscription) : MessageSubscription :=
  {| ms_Key := x.(ms_Key); ms_ElementId := x.(ms_ElementId);
     ms_ProcessDefinitionKey := x.(ms_ProcessDefinitionKey);
     ms_ProcessInstanceKey := x.(ms_ProcessInstanceKey); ms_Name := x.(ms_Name);
     ms_CorrelationKey := x.(ms_CorrelationKey); ms_State := x.(ms_State);
     ms_CreatedAt := in_ms x.(ms_CreatedAt); ms_Token := key_token x.(ms_Token).(tok_Key) |}.

Definition seen_timer (x : Timer) : Timer :=
  {| tm_ElementId := x.(tm_ElementId); tm_Key := x.(tm_Key);
     tm_ElementInstanceKey := x.(tm_ElementInstanceKey);
     tm_ProcessDefinitionKey := x.(tm_ProcessDefinitionKey);
     tm_ProcessInstanceKey := x.(tm_ProcessInstanceKey); tm_TimerState := x.(tm_TimerState);
     tm_CreatedAt := in_ms x.(tm_CreatedAt); tm_DueAt := in_ms x.(tm_DueAt);
     tm_Duration := 0; tm_Token := key_token x.(tm_Token).(tok_Key) |}.

Definition seen_incident (x : Incident) : Incident :=
  {| inc_Key := x.(inc_Key); inc_ElementInstanceKey := x.(inc_ElementInstanceKey);
     inc_ElementId := x.(inc_ElementId); inc_ProcessInstanceKey := x.(inc_ProcessInstanceKey);
     inc_Message := x.(inc_Message); inc_CreatedAt := in_ms x.(inc_CreatedAt);
     inc_ResolvedAt := in_ms <$> x.(inc_ResolvedAt); inc_Token := key_token x.(inc_Token).(tok_Key) |}.

(** What the incidents of an instance are compared in: neither the times nor the
    token. *)
Definition seen_incident_text (x : Incident) : Incident :=
  {| inc_Key := x.(inc_Key); inc_ElementInstanceKey := x.(inc_ElementInstanceKey);
     inc_ElementId := x.(inc_ElementId); inc_ProcessInstanceKey := x.(inc_ProcessInstanceKey);
     inc_Message := x.(inc_Message); inc_CreatedAt := 0; inc_ResolvedAt := None;
     inc_Token := zero_token |}.

(** An incident as it is read without its times and the key of its token. *)
Definition stripped (x : Incident) : Prop :=
  x.(inc_CreatedAt) = zero_time ∧ x.(inc_ResolvedAt) = None ∧ x.(inc_Token).(tok_Key) = 0%Z.

(** A query answers with the records of the abstract table that satisfy [P], each
    once, in some order, and changes nothing. *)
Definition answers {X} (seen : X → X) (T : gmap Z X) (P : X → Prop) `{!∀ x, Decision (P x)}
    (query : ST DB (list X)) (s : DB) : Prop :=
  ∀ l s', query s = (Ret l, s') → s' = s ∧ seen <$> l ≡ₚ seen <$> filter P (map_values T).

(** ** Selected rows *)

Section selected.
Context {X A B : Type} (key : X → Z) (shows : X → A → Prop).

Lemma map_values_insert {C} (m : gmap Z C) k x :
  m !! k = None → map_values (<[k := x]> m) ≡ₚ x :: map_values m.
Proof. intros Hk. unfold map_values. by rewrite map_to_list_insert. Qed.

(** The rows that satisfy the condition of a query show the records that satisfy
    the one of the contract. *)
Lemma rows_shown_filter (P : X → Prop) `{!∀ x, Decision (P x)} (Q : A → Prop) `{!∀ r, Decision (Q r)}
    (f : A → B) (g : X → B) T m :
  rows_shown key shows T m → (∀ x r, shows x r → P x ↔ Q r) → (∀ x r, shows x r → P x → f r = g x) →
  f <$> filter Q (map_values m) ≡ₚ g <$> filter P (map_values T).
Proof.
  intros HT HPQ Hfg. revert m HT. induction T as [|k x T Hk IH] using map_ind; intros m HT.
  { apply map_Forall2_empty_inv_l in HT as ->. done. }
  apply map_Forall2_insert_inv_l in HT as (r & m' & -> & Hk' & [_ Hs] & HT); [|done].
  rewrite !map_values_insert by done. rewrite !filter_cons.
  destruct (decide (P x)) as [HP|HP].
  - rewrite decide_True by (by apply (HPQ x)). simpl. by rewrite IH, (Hfg x r).
  - rewrite decide_False by (by rewrite <- (HPQ x)). by apply IH.
Qed.
End selected.

Lemma query_many_Ret {A} name (q : Database → list A) s r s' :
  query_many name q s = (Ret r, s') → r = q s.(db_data) ∧ s' = s.
Proof. unfold query_many. by destruct (db_queryErr s name); intros; simplify_eq. Qed.

(** *** Joining the tokens keeps what is compared *)

Section joins.
Context {X : Type} (token : X → ExecutionToken) (set_token : ExecutionToken → X → X) (seen : X → X).
Context (Hseen : ∀ t x, t.(tok_Key) = (token x).(tok_Key) → seen (set_token t x) = seen x).

Lemma join_tokens_seen tokens l : seen <$> join_tokens token set_token tokens l = seen <$> l.
Proof.
  unfold join_tokens. revert l. induction tokens as [|t tokens IH]; intros l; simpl; [done|].
  rewrite IH. unfold join_token. rewrite <- list_fmap_compose. apply list_fmap_ext. intros i x _. simpl.
  case_match; [|done]. propify. by apply Hseen.
Qed.

Lemma join_first_seen l t : seen <$> join_first token set_token l t = seen <$> l.
Proof.
  induction l as [|x l IH]; [done|]. cbn [join_first].
  case_match; rewrite !fmap_cons; [|by rewrite IH]. propify. by rewrite Hseen.
Qed.
Lemma join_firsts_seen tokens l : seen <$> join_firsts token set_token tokens l = seen <$> l.
Proof.
  unfold join_firsts. revert l. induction tokens as [|t tokens IH]; intros l; [done|].
  cbn [fold_left]. by rewrite IH, join_first_seen.
Qed.
End joins.

(** ** Tokens *)

Section token_answers.
Context `{TableScan}.
Context (json_Marshal : vars → result string).

Lemma ActivityState_int_inj s s' : ActivityState_int s = ActivityState_int s' ↔ s = s'.
Proof. split; [|by intros ->]. by destruct s, s'. Qed.

Lemma tokens_answer (P : ExecutionToken → Prop) `{!∀ x, Decision (P x)} (Q : TokenRow → Prop)
    `{!∀ r, Decision (Q r)} name t s :
  represents json_Marshal t s.(db_data) → (∀ x r, shows_token x r → P x ↔ Q r) →
  answers seen_token t.(t_Tokens) P
    (rows ← query_many name (λ d, select Q d.(tb_execution_token)); mret (token_of_row <$> rows)) s.
Proof.
  intros Hr HPQ l s' E. apply bind_Ret in E as (rows & s1 & [-> ->]%query_many_Ret & [= <- <-]).
  split; [done|]. rewrite <- list_fmap_compose, select_perm.
  apply (rows_shown_filter tok_Key shows_token); [apply Hr|done|].
  intros x r [c ->] _. unfold seen_token. simpl. by rewrite TokenState_of_int.
Qed.
End token_answers.

(** ** Records with a token *)

Lemma for_map_Ret_fmap {S A B C} (f : A → ST S B) (g : B → C) (h : A → C) l s ys s' :
  (∀ x y s s', f x s = (Ret y, s') → s' = s ∧ g y = h x) →
  for_map l f s = (Ret ys, s') → s' = s ∧ g <$> ys = h <$> l.
Proof.
  intros Hf. revert s ys s'. induction l as [|x l IH]; intros s ys s' E; simpl in E; [by injection E as <- <-|].
  apply bind_Ret in E as (y & s1 & [-> Hy]%Hf & E).
  apply bind_Ret in E as (ys' & s1 & [-> Hys]%IH & [= <- <-]).
  split; [done|]. by rewrite !fmap_cons, Hy, Hys.
Qed.

Section record_answers.
Context `{TableScan}.
Context (json_Marshal : vars → result string) (json_Unmarshal : string → result vars).

Lemma GetTokens_Ret keys s rows s' :
  GetTokens keys s = (Ret rows, s') → s' = s ∧ ∀ r, r ∈ rows → r.(tor_Key) ∈ keys.
Proof.
  intros [-> ->]%query_many_Ret. split; [done|].
  intros r Hr. unfold q_GetTokens in Hr. by apply elem_of_select in Hr as [Hk _].
Qed.

(** *** Jobs *)

Lemma with_JobToken_seen t x :
  t.(tok_Key) = x.(job_Token).(tok_Key) → seen_job (with_JobToken t x) = seen_job x.
Proof. intros Ht. unfold seen_job. simpl. by rewrite Ht. Qed.

Lemma job_of_row_seen x r v token :
  shows_job json_Marshal x r → token.(tok_Key) = r.(jor_ExecutionToken) →
  seen_job (job_of_row v token r) = seen_job x.
Proof.
  intros (text & _ & ->) Ht. unfold seen_job. simpl in *.
  by rewrite Ht, ActivityState_of_int, in_ms_stored.
Qed.

Lemma decode_job_seen r j s s' :
  decode_job json_Unmarshal r s = (Ret j, s') →
  s' = s ∧ seen_job j = seen_job (job_of_row ∅ (key_token r.(jor_ExecutionToken)) r).
Proof.
  intros E. apply bind_Ret in E as (v & s1 & E1 & [= <- <-]).
  unfold unmarshal_variables, wrap_result in E1. destruct (json_Unmarshal _); [|done].
  injection E1 as _ ->. done.
Qed.

Lemma jobs_seen (P : Job → Prop) `{!∀ x, Decision (P x)} (Q : JobRow → Prop) `{!∀ r, Decision (Q r)} t d :
  represents json_Marshal t d → (∀ x r, shows_job json_Marshal x r → P x ↔ Q r) →
  seen_job <$> ((λ r, job_of_row ∅ (key_token r.(jor_ExecutionToken)) r) <$> select Q d.(tb_job)) ≡ₚ
  seen_job <$> filter P (map_values t.(t_Jobs)).
Proof.
  intros Hr HPQ. rewrite <- list_fmap_compose, select_perm.
  apply (rows_shown_filter job_Key (shows_job json_Marshal)); [apply Hr|done|].
  intros x r Hs _. by apply job_of_row_seen.
Qed.

Lemma jobs_answer (P : Job → Prop) `{!∀ x, Decision (P x)} (Q : JobRow → Prop)
    `{!∀ r, Decision (Q r)} name fmt t s :
  represents json_Marshal t s.(db_data) → (∀ x r, shows_job json_Marshal x r → P x ↔ Q r) →
  answers seen_job t.(t_Jobs) P (find_jobs json_Unmarshal name fmt (λ d, select Q d.(tb_job))) s.
Proof.
  intros Hr HPQ l s' E. unfold find_jobs in E.
  apply bind_Ret in E as (rows & s1 & [-> ->]%wrap_Ret%query_many_Ret & E).
  apply bind_Ret in E as (jobs & s1 & Ej & E).
  apply (for_map_Ret_fmap _ seen_job
    (λ r, seen_job (job_of_row ∅ (key_token r.(jor_ExecutionToken)) r))) in Ej as [-> Hj];
    [|intros; by apply decode_job_seen].
  apply bind_Ret in E as (tokens & s1 & [-> _]%wrap_Ret%GetTokens_Ret & [= <- <-]).
  split; [done|]. rewrite (join_tokens_seen _ _ seen_job) by (intros; by apply with_JobToken_seen).
  rewrite Hj, <- (jobs_seen P Q t s.(db_data)) by done. by rewrite <- list_fmap_compose.
Qed.

Lemma active_jobs_answer (P : Job → Prop) `{!∀ x, Decision (P x)} type t s :
  represents json_Marshal t s.(db_data) →
  (∀ x r, shows_job json_Marshal x r → P x ↔ r.(jor_Type) = type ∧ r.(jor_State) = 1%Z) →
  answers seen_job t.(t_Jobs) P (db_FindActiveJobsByType type) s.
Proof.
  intros Hr HPQ l s' E. unfold db_FindActiveJobsByType in E.
  apply bind_Ret in E as (rows & s1 & [-> ->]%wrap_Ret%query_many_Ret & E).
  apply bind_Ret in E as (tokens & s1 & [-> _]%wrap_Ret%GetTokens_Ret & [= <- <-]).
  split; [done|]. rewrite (join_firsts_seen _ _ seen_job) by (intros; by apply with_JobToken_seen).
  by apply (jobs_seen P _ t s.(db_data)).
Qed.

(** *** Message subscriptions *)

Lemma with_SubscriptionToken_seen t x :
  t.(tok_Key) = x.(ms_Token).(tok_Key) → seen_subscription (with_SubscriptionToken t x) = seen_subscription x.
Proof. intros Ht. unfold seen_subscription. simpl. by rewrite Ht. Qed.

Lemma subscription_of_row_seen x r token :
  shows_subscription x r → token.(tok_Key) = r.(sur_ExecutionToken) →
  seen_subscription (subscription_of_row token r) = seen_subscription x.
Proof.
  intros -> Ht. unfold seen_subscription. simpl in *. by rewrite Ht, ActivityState_of_int, in_ms_stored.
Qed.

Lemma subscriptions_seen (P : MessageSubscription → Prop) `{!∀ x, Decision (P x)} (Q : SubscriptionRow → Prop)
    `{!∀ r, Decision (Q r)} (token : SubscriptionRow → ExecutionToken) t d :
  represents json_Marshal t d → (∀ x r, shows_subscription x r → P x ↔ Q r) →
  (∀ r, Q r → (token r).(tok_Key) = r.(sur_ExecutionToken)) →
  seen_subscription <$> ((λ r, subscription_of_row (token r) r) <$> select Q d.(tb_message_subscription)) ≡ₚ
  seen_subscription <$> filter P (map_values t.(t_Subscriptions)).
Proof.
  intros Hr HPQ Ht. rewrite <- list_fmap_compose, select_perm.
  apply (rows_shown_filter ms_Key shows_subscription); [apply Hr|done|].
  intros x r Hs HP. apply subscription_of_row_seen; [done|]. apply Ht. by apply (HPQ x).
Qed.

Lemma token_subscriptions_answer token state t s :
  represents json_Marshal t s.(db_data) →
  answers seen_subscription t.(t_Subscriptions) (λ m, m.(ms_Token).(tok_Key) = token ∧ m.(ms_State) = state)
    (db_FindTokenMessageSubscriptions token state) s.
Proof.
  intros Hr l s' E. apply bind_Ret in E as (rows & s1 & [-> ->]%wrap_Ret%query_many_Ret & E).
  apply bind_Ret in E as (row & s1 & Et & [= <- <-]).
  assert (s1 = s ∧ row.(tor_Key) = token) as [-> Hk].
  { apply bind_Ret in Et as (tokens & s2 & [-> Hin]%wrap_Ret%GetTokens_Ret & Et).
    destruct tokens as [|x []]; try done. injection Et as <- <-. split; [done|].
    apply list_elem_of_singleton, Hin. by left. }
  split; [done|]. apply (subscriptions_seen _ _ (λ _, joined_token row)); [done| |].
  - intros x r ->. simpl. by rewrite ActivityState_int_inj.
  - simpl. intros r [<- _]. done.
Qed.

Lemma instance_subscriptions_answer pik state t s :
  represents json_Marshal t s.(db_data) →
  answers seen_subscription t.(t_Subscriptions) (λ m, m.(ms_ProcessInstanceKey) = pik ∧ m.(ms_State) = state)
    (db_FindProcessInstanceMessageSubscriptions pik state) s.
Proof.
  intros Hr l s' E. apply bind_Ret in E as (rows & s1 & [-> ->]%wrap_Ret%query_many_Ret & E).
  apply bind_Ret in E as (tokens & s1 & [-> _]%wrap_Ret%GetTokens_Ret & [= <- <-]).
  split; [done|]. rewrite (join_tokens_seen _ _ seen_subscription) by (intros; by apply with_SubscriptionToken_seen).
  apply (subscriptions_seen _ _ (λ r, key_token r.(sur_ExecutionToken))); [done| |done].
  intros x r ->. simpl. by rewrite ActivityState_int_inj.
Qed.

(** *** Timers that are created *)

Lemma with_TimerToken_seen t x :
  t.(tok_Key) = x.(tm_Token).(tok_Key) → seen_timer (with_TimerToken t x) = seen_timer x.
Proof. intros Ht. unfold seen_timer. simpl. by rewrite Ht. Qed.

Lemma created_timer_shown x r :
  shows_timer x r → x.(tm_TimerState) = TimerStateCreated ↔ r.(tir_State) = TimerState_int TimerStateCreated.
Proof.
  intros (state & Est & ->). unfold Timer_GetState in Est. simpl.
  by destruct (tm_TimerState x); simplify_eq.
Qed.

Lemma timers_answer (P : Timer → Prop) `{!∀ x, Decision (P x)} (Q : TimerRow → Prop)
    `{!∀ r, Decision (Q r)} name fmt t s :
  represents json_Marshal t s.(db_data) → (∀ x r, shows_timer x r → P x ↔ Q r) →
  (∀ x, P x → x.(tm_TimerState) = TimerStateCreated) →
  answers seen_timer t.(t_Timers) P (find_timers name fmt (λ d, select Q d.(tb_timer))) s.
Proof.
  intros Hr HPQ HP l s' E. apply bind_Ret in E as (rows & s1 & [-> ->]%wrap_Ret%query_many_Ret & E).
  apply bind_Ret in E as (tokens & s1 & [-> _]%wrap_Ret%GetTokens_Ret & [= <- <-]).
  split; [done|]. rewrite (join_tokens_seen _ _ seen_timer) by (intros; by apply with_TimerToken_seen).
  rewrite <- list_fmap_compose, select_perm.
  apply (rows_shown_filter tm_Key shows_timer); [apply Hr|done|].
  intros x r Hs Hx%HP. pose proof Hx as Hst. rewrite (created_timer_shown x r Hs) in Hst.
  destruct Hs as (state & _ & ->). simpl in Hst. unfold seen_timer. simpl.
  by rewrite Hst, Hx, !in_ms_stored.
Qed.

(** *** Incidents *)

Lemma incidents_answer token t s :
  represents json_Marshal t s.(db_data) →
  answers seen_incident t.(t_Incidents) (λ i, i.(inc_Token).(tok_Key) = token)
    (db_FindIncidentsByExecutionTokenKey token) s.
Proof.
  intros Hr l s' E. apply bind_Ret in E as (rows & s1 & [-> ->]%query_many_Ret & E).
  apply bind_Ret in E as (tokens & s1 & [-> Hin]%wrap_Ret%GetTokens_Ret & E).
  apply (for_map_Ret_fmap _ seen_incident
    (λ r, seen_incident (incident_of_row (key_token token) r))) in E as [-> Hl].
  - split; [done|]. rewrite Hl. unfold q_FindIncidentsByExecutionTokenKey. rewrite select_perm.
    apply (rows_shown_filter inc_Key shows_incident); [apply Hr|by intros x r ->|].
    intros x r -> Hx. unfold seen_incident. simpl. rewrite Hx, in_ms_stored.
    destruct (inc_ResolvedAt x); simpl; by rewrite ?in_ms_stored.
  - intros r i s1 s2 E1. destruct tokens as [|tk tokens]; [done|]. injection E1 as <- <-. split; [done|].
    unfold seen_incident. simpl. do 2 f_equal. apply list_elem_of_singleton, Hin. by left.
Qed.

(** The states a query asks for, with the zeros in front of them. *)
Lemma padded_states (x : ActivityState) states :
  ActivityState_int x ∈ replicate (length states) 0%Z ++ (ActivityState_int <$> states) ↔
  x ∈ states ∨ states ≠ [] ∧ x = ActivityStateZero.
Proof.
  rewrite elem_of_app, list_elem_of_fmap. split.
  - intros [Hz%elem_of_replicate|(y & Hy%ActivityState_int_inj & Hin)]; [right|left; by subst].
    destruct Hz as [Hz Hlen]. split; [by intros ->|]. by apply ActivityState_int_inj.
  - intros [Hx|[Hs ->]]; [right; by exists x|left]. apply elem_of_replicate.
    split; [done|]. by destruct states.
Qed.

(** Every incident of an instance is read stripped, whatever the token query
    returns: a token is joined by the key, which is zero in the records. *)
Lemma join_firsts_stripped tokens l :
  Forall stripped l → Forall stripped (join_firsts inc_Token with_IncidentToken tokens l).
Proof.
  unfold join_firsts. revert l. induction tokens as [|t tokens IH]; intros l Hl; [done|].
  cbn [fold_left]. apply IH. induction Hl as [|x l Hx Hl IHl]; [constructor|]. cbn [join_first].
  case_match; constructor; try done. propify. destruct Hx as (Hc & Hr & Hk).
  split_and!; [done..|]. simpl. congruence.
Qed.

Lemma instance_incidents_answer pik t s :
  represents json_Marshal t s.(db_data) →
  answers seen_incident_text t.(t_Incidents) (λ i, i.(inc_ProcessInstanceKey) = pik)
    (db_FindIncidentsByProcessInstanceKey pik) s ∧
  ∀ l s', db_FindIncidentsByProcessInstanceKey pik s = (Ret l, s') → Forall stripped l.
Proof.
  intros Hr.
  assert (Hrun : ∀ l s', db_FindIncidentsByProcessInstanceKey pik s = (Ret l, s') → s' = s ∧
    ∃ tokens, l = join_firsts inc_Token with_IncidentToken tokens
      (partial_incident <$> q_FindIncidentsByProcessInstanceKey pik s.(db_data))).
  { intros l s' E. apply bind_Ret in E as (rows & s1 & [-> ->]%query_many_Ret & E).
    apply bind_Ret in E as (tokens & s1 & [-> _]%wrap_Ret%GetTokens_Ret & [= <- <-]). eauto. }
  split; intros l s' (-> & tokens & ->)%Hrun.
  - split; [done|]. rewrite (join_firsts_seen _ _ seen_incident_text) by done.
    rewrite <- list_fmap_compose. unfold q_FindIncidentsByProcessInstanceKey. rewrite select_perm.
    apply (rows_shown_filter inc_Key shows_incident); [apply Hr|by intros x r ->|by intros x r ->].
  - apply join_firsts_stripped, Forall_fmap, Forall_true. by intros r.
Qed.

End record_answers.

(** ** A concrete instance *)

