(* ===== verification/Messages.v ===== *)
(** Messages across partitions: the handlers of the cluster server that set a
    message subscription pointer, find an active message and publish one
    (internal/cluster/server/server.go), PublishMessage of a node
    (internal/cluster/node.go), and the storages of the leaders together.

    The pointer of a message name and correlation key lives in the partition of
    the correlation key, the subscription in the partition of its instance. *)
From S2P Require Import Prelude ZenErr Monad Model Runtime DmnModel Storage Sql PartitionDB PartitionWrite.
From S2P Require Import ClusterState Zenflake.

(** [errors.Is(err, sql.ErrNoRows) || errors.Is(err, storage.ErrNotFound)] *)
Definition isErrNotFound (e : error) : bool :=
  (errors_Is is_ErrNoRows e || errors_Is is_ErrNotFound e)%bool.

Section handlers.
Context `{TableScan}.

(** ** The cluster server, on the partition of the request *)

(** The pointer is written whatever it replaces. *)
Definition server_SetMessageSubscriptionPointer (zenState : Cluster) (PartitionId : Z) (IsLeader : bool)
    (req : PointerRow) : ST DB unit :=
  let partitionId := GetPartitionIdFromString zenState req.(por_CorrelationKey) in
  if ((PartitionId =? partitionId)%Z && IsLeader)%bool then
    wrap (λ e, errw! "failed to save message subscription pointer for message subscription name:%s correlationId:%s : %w" [e])
      (db_ExecContext (SqlSaveMessageSubscriptionPointer req))
  else throw (err! "Node is not a leader for partition %d").

(** The active subscription of the token with the name and correlation key of
    the pointer; an error with the code NotFound is [ErrNotFound]. *)
Definition server_FindActiveMessage (req : PointerRow) : ST DB Z :=
  r ← attempt (query_many "FindTokenMessageSubscriptions"
        (q_FindTokenMessageSubscriptions req.(por_ExecutionTokenKey) (ActivityState_int ActivityStateActive)));
  subs ← match r with
         | Good subs => mret subs
         | Bad e => if isErrNotFound e then mret [] else throw (err! "failed to find message subscriptions %d")
         end;
  match head (filter (λ m, m.(sur_CorrelationKey) = req.(por_CorrelationKey) ∧ m.(sur_Name) = req.(por_Name))
                subs) with
  | Some message => mret message.(sur_Key)
  | None => throw ErrNotFound
  end.

(** ** All partitions

    The storage of the leader of every partition whose leader is known. *)
Record Partitions := {
  pt_zenState : Cluster;
  pt_leaders : gmap Z DB
}.

Definition set_leader (p : Z) (s : DB) (w : Partitions) : Partitions :=
  {| pt_zenState := w.(pt_zenState); pt_leaders := <[p := s]> w.(pt_leaders) |}.

Definition no_leader : error :=
  err! "failed to get leader address for cluster client: no leader available".

(** The answers of the other nodes.  A node is asked as the leader of the
    partition of the subscription and answers for the one of its token: the two
    keys come from the same generator. *)
Definition remote (w : Partitions) : Remote := {|
  PartitionLeader p := match w.(pt_leaders) !! p with Some _ => None | None => Some no_leader end;
  FindActiveMessage _ req :=
    match w.(pt_leaders) !! GetPartitionId req.(por_ExecutionTokenKey) with
    | None => Bad (err! "failed to find partition %d")
    | Some s => match (server_FindActiveMessage req s).1 with
                | Ret k => Good k | Err e => Bad e | _ => Bad (err! "unavailable") end
    end;
  SetMessageSubscriptionPointer p req :=
    match w.(pt_leaders) !! p with
    | None => Some (err! "node for partition %d was not found")
    | Some s => match (server_SetMessageSubscriptionPointer w.(pt_zenState) p true req s).1 with
                | Ret _ => None | Err e => Some e | _ => Some (err! "unavailable") end
    end |}.

(** Saving a pointer from partition [p]: what the leader of [p] does, and what
    the call to the leader of the pointer's partition does there. *)
Definition save_pointer (p : Z) (pointer : PointerRow) (w : Partitions) : option (outcome unit * Partitions) :=
  s ← w.(pt_leaders) !! p;
  let '(o, s') := SaveMessageSubscriptionPointer p true w.(pt_zenState) (remote w) pointer s in
  let w' := set_leader p s' w in
  let q := GetPartitionIdFromString w.(pt_zenState) pointer.(por_CorrelationKey) in
  if (p =? q)%Z then Some (o, w')
  else match w.(pt_leaders) !! q with
       | Some t => Some (o, set_leader q
                     (server_SetMessageSubscriptionPointer w.(pt_zenState) q true pointer t).2 w')
       | None => Some (o, w')
       end.

(** Saving a subscription in partition [p], as Flush of a batch does: the
    pointer first, then the row. *)
Definition save_subscription (p : Z) (m : MessageSubscription) (w : Partitions)
    : option (outcome unit * Partitions) :=
  '(o, w1) ← save_pointer p (pointer_of m) w;
  match o with
  | Ret _ =>
      s ← w1.(pt_leaders) !! p;
      let '(o', s') := (SaveMessageSubscriptionWith m : ST DB unit) s in
      Some (o', set_leader p s' w1)
  | _ => Some (o, w1)
  end.

(** ** Publishing *)

Context (json_Unmarshal : string → result vars) (json_Marshal : vars → result string).
(** Engine.PublishMessage of the engine of a partition. *)
Context (engine_PublishMessage : Z → Z → vars → option error).

Definition server_PublishMessage (engines : Z → bool) (key : Z) (variables : string) : option ErrorResult :=
  let partitionId := GetPartitionId key in
  if negb (engines partitionId) then Some (ToProtoError TechnicalErrorCode (err! "engine with partition %d was not found"))
  else match json_Unmarshal variables with
       | Bad e => Some (ToProtoError TechnicalErrorCode (errw! "failed to unmarshal message input variables: %w" [e]))
       | Good vars =>
           match engine_PublishMessage partitionId key vars with
           | None => None
           | Some e =>
               Some (if isErrNotFound e
                     then ToProtoError NotFoundCode (err! "message subscription for key %d not found")
                     else ToProtoError TechnicalErrorCode (errw! "failed to publish message event %d: %w" [e]))
           end
       end.

(** [nodes]: the replicas of this node, which must include the partition of the
    correlation key; the leader that is called has the engines. *)
Definition node_PublishMessage (nodes : gmap Z DB) (w : Partitions) (name correlationKey : string)
    (variables : vars) : option error :=
  match nodes !! GetPartitionIdFromString w.(pt_zenState) correlationKey with
  | None => Some (TechnicalError (err! "partition %d not found for correlation key %s"))
  | Some db =>
      match (db_FindActiveMessageSubscriptionPointer name correlationKey db).1 with
      | Ret msPointer =>
          let partitionId := GetPartitionId msPointer.(por_MessageSubscriptionKey) in
          match w.(pt_leaders) !! partitionId with
          | None => Some (ClusterError (errw! "failed to get partition leader: %w" [no_leader]))
          | Some _ =>
              match json_Marshal variables with
              | Bad e => Some (TechnicalError (errw! "failed to marshal variables: %w" [e]))
              | Good text =>
                  match server_PublishMessage (λ p, (p =? partitionId)%Z) msPointer.(por_MessageSubscriptionKey) text with
                  | Some e => Some (ToZenError e (err! "client call to publish message failed"))
                  | None => None
                  end
              end
          end
      | Err e =>
          Some (if errors_Is is_ErrNotFound e
                then NotFound (err! "no active message subscription found for name %q and correlationKey %q")
                else TechnicalError (errw! "failed to find message subscription for name %q and correlationKey %q: %w" [e]))
      | _ => Some (err! "unavailable")
      end
  end.
End handlers.
