(* ===== verification/MessageProps.v ===== *)
(** The pointers of message subscriptions: what guards them within a partition,
    what does not across partitions, and where a published message goes. *)
From S2P Require Import Prelude ZenErr Monad Model Runtime DmnModel Storage Sql PartitionDB PartitionWrite.
From S2P Require Import PersistenceProps ReadBack ClusterState Zenflake Messages.

Definition active : Z := ActivityState_int ActivityStateActive.

(** Every active subscription of partition [p] has an active pointer to it. *)
Definition pointers_ok (p : Z) (d : Database) : Prop :=
  map_Forall (λ k r, r.(sur_State) = active →
    GetPartitionId r.(sur_ExecutionToken) = p ∧
    ∃ ptr, d.(tb_message_subscription_pointer) !! (r.(sur_Name), r.(sur_CorrelationKey)) = Some ptr ∧
      ptr.(por_State) = active ∧ ptr.(por_MessageSubscriptionKey) = k ∧
      ptr.(por_ExecutionTokenKey) = r.(sur_ExecutionToken) ∧
      ptr.(por_Name) = r.(sur_Name) ∧ ptr.(por_CorrelationKey) = r.(sur_CorrelationKey))
    d.(tb_message_subscription).

(** A subscription that may be saved: what is stored under its key is the same
    subscription, and only an active one is ended. *)
Definition may_save (d : Database) (m : MessageSubscription) : Prop :=
  (∀ old, d.(tb_message_subscription) !! m.(ms_Key) = Some old →
     old.(sur_Name) = m.(ms_Name) ∧ old.(sur_CorrelationKey) = m.(ms_CorrelationKey) ∧
     old.(sur_ExecutionToken) = m.(ms_Token).(tok_Key)) ∧
  (m.(ms_State) ≠ ActivityStateActive →
     ∃ old, d.(tb_message_subscription) !! m.(ms_Key) = Some old ∧ old.(sur_State) = active).

Definition subscription_row (m : MessageSubscription) : SubscriptionRow :=
  {| sur_Key := m.(ms_Key); sur_ElementID := m.(ms_ElementId);
     sur_ProcessDefinitionKey := m.(ms_ProcessDefinitionKey);
     sur_ProcessInstanceKey := m.(ms_ProcessInstanceKey); sur_Name := m.(ms_Name);
     sur_State := ActivityState_int m.(ms_State); sur_CreatedAt := UnixMilli m.(ms_CreatedAt);
     sur_CorrelationKey := m.(ms_CorrelationKey); sur_ExecutionToken := m.(ms_Token).(tok_Key) |}.

Definition with_pointer (ptr : PointerRow) (s : DB) : DB :=
  set_data (set_tb_message_subscription_pointer
    (<[(ptr.(por_Name), ptr.(por_CorrelationKey)) := ptr]> s.(db_data).(tb_message_subscription_pointer))
    s.(db_data)) s.

Lemma sql_upsert_replace {K A} `{Countable K} (k : K) (r : A) m :
  sql_upsert true k r (λ _, r) m = Good (<[k := r]> m).
Proof. unfold sql_upsert. by destruct (m !! k). Qed.

Lemma write_pointer_run w ptr s :
  s.(db_executeErr) = None →
  wrap w (db_ExecContext (SqlSaveMessageSubscriptionPointer ptr)) s = (Ret tt, with_pointer ptr s).
Proof. intros Ee. apply wrap_run. rewrite db_ExecContext_run by done. simpl. by rewrite sql_upsert_replace. Qed.

Lemma upsertPointer_run ptr s :
  s.(db_executeErr) = None → upsertPointer ptr s = (Ret tt, with_pointer ptr s).
Proof. apply write_pointer_run. Qed.

Section props.
Context `{TableScan}.

Lemma query_one_run_option {A} name (q : Database → option A) s :
  available s →
  (q s.(db_data) = None ∧ query_one name q s = (Err ErrNoRows, s)) ∨
  (∃ r, q s.(db_data) = Some r ∧ query_one name q s = (Ret r, s)).
Proof.
  intros Ha. unfold query_one. rewrite available_query by done.
  destruct (q (db_data s)) as [r|]; [right; by exists r|by left].
Qed.

(** *** The active message of a pointer *)

Lemma server_FindActiveMessage_run ptr s :
  available s →
  ∃ o, server_FindActiveMessage ptr s = (o, s) ∧
    ((∃ k j r, o = Ret k ∧ s.(db_data).(tb_message_subscription) !! j = Some r ∧ r.(sur_State) = active ∧
        r.(sur_ExecutionToken) = ptr.(por_ExecutionTokenKey) ∧
        r.(sur_Name) = ptr.(por_Name) ∧ r.(sur_CorrelationKey) = ptr.(por_CorrelationKey)) ∨
     (o = Err ErrNotFound ∧
      ∀ k r, s.(db_data).(tb_message_subscription) !! k = Some r → r.(sur_State) = active →
        r.(sur_ExecutionToken) = ptr.(por_ExecutionTokenKey) →
        r.(sur_Name) = ptr.(por_Name) → r.(sur_CorrelationKey) = ptr.(por_CorrelationKey) → False)).
Proof.
  intros Ha. unfold server_FindActiveMessage.
  erewrite bind_step by (apply attempt_run; unfold query_many; rewrite available_query by done; reflexivity).
  cbv beta iota. erewrite bind_step by reflexivity.
  case_match eqn:Eh.
  { apply head_Some_elem_of, list_elem_of_filter in Eh as [[Hc Hn] ((Ht & Hst) & j & Hj)%elem_of_select].
    eexists. split; [reflexivity|]. left. by eexists _, j, _. }
  eexists. split; [reflexivity|]. right. split; [done|]. intros k r Hr Hs Ht Hn Hc.
  apply head_None in Eh. apply (not_elem_of_nil r). rewrite <- Eh.
  apply list_elem_of_filter. split; [done|]. apply elem_of_select. eauto.
Qed.

Lemma remote_not_found p w s ptr :
  w.(pt_leaders) !! p = Some s → available s →
  GetPartitionId ptr.(por_ExecutionTokenKey) = p →
  (remote w).(FindActiveMessage) (GetPartitionId ptr.(por_MessageSubscriptionKey)) ptr = Bad ErrNotFound →
  ∀ k r, s.(db_data).(tb_message_subscription) !! k = Some r → r.(sur_State) = active →
    r.(sur_ExecutionToken) = ptr.(por_ExecutionTokenKey) →
    r.(sur_Name) = ptr.(por_Name) → r.(sur_CorrelationKey) = ptr.(por_CorrelationKey) → False.
Proof.
  intros Hs Ha Ht. simpl. rewrite Ht, Hs.
  destruct (server_FindActiveMessage_run ptr s Ha) as (o & E & [(k & ? & ? & -> & _)|[-> Hno]]); rewrite E; simpl; [done|].
  intros _. exact Hno.
Qed.

(** Saving a pointer of the own partition leaves it written, or fails and
    changes nothing; an active one is only written when the active pointer it
    replaces has no active message. *)
Lemma save_own_pointer_run p w s ptr :
  w.(pt_leaders) !! p = Some s → available s → pointers_ok p s.(db_data) →
  GetPartitionIdFromString w.(pt_zenState) ptr.(por_CorrelationKey) = p →
  (∃ e, SaveMessageSubscriptionPointer p true w.(pt_zenState) (remote w) ptr s = (Err e, s)) ∨
  (SaveMessageSubscriptionPointer p true w.(pt_zenState) (remote w) ptr s = (Ret tt, with_pointer ptr s) ∧
   (ptr.(por_State) = active → ∀ k r, s.(db_data).(tb_message_subscription) !! k = Some r →
      r.(sur_State) = active → r.(sur_Name) = ptr.(por_Name) →
      r.(sur_CorrelationKey) = ptr.(por_CorrelationKey) → False)).
Proof.
  intros Hs Ha Hok Hp. unfold SaveMessageSubscriptionPointer. rewrite Hp, Z.eqb_refl. simpl.
  destruct (query_one_run_option "FindMessageSubscriptionPointer"
    (q_FindMessageSubscriptionPointer ptr.(por_CorrelationKey) ptr.(por_Name) active) s Ha)
    as [[Eq E]|(old & Eq & E)]; unfold q_FindMessageSubscriptionPointer in Eq.
  - erewrite bind_step by (by apply attempt_stop). cbn [errors_Is is_ErrNoRows orb]. right.
    rewrite upsertPointer_run by apply Ha. split; [done|]. intros Hact k r Hr Hra Hn Hc.
    destruct (Hok _ _ Hr Hra) as (_ & old & Hold & Hs' & _). rewrite Hn, Hc in Hold.
    rewrite Hold in Eq. simpl in Eq. by rewrite Hs' in Eq.
  - erewrite bind_step by (by apply attempt_run). cbv beta iota.
    unfold check_old_pointer. destruct (_ =? _)%Z eqn:Est; cbn [negb]; cbv zeta.
    + destruct ((remote w).(PartitionLeader) _); [left; by eexists|].
      destruct ((remote w).(FindActiveMessage) _ old) as [|e] eqn:Ef; [left; by eexists|].
      destruct (is_ErrNotFound e) eqn:Ee; [|left; by eexists]. destruct e; try done.
      pose proof (λ Ht, remote_not_found p w s old Hs Ha Ht Ef) as Hnf. right. rewrite upsertPointer_run by apply Ha. split; [done|].
      intros Hact k r Hr Hra Hn Hc.
      destruct (Hok _ _ Hr Hra) as (Hpt & old' & Hold & Hs' & Hk' & Ht' & Hn' & Hc').
      rewrite Hn, Hc in Hold. rewrite Hold in Eq. simpl in Eq. rewrite Hs', Z.eqb_refl in Eq.
      injection Eq as ->. rewrite <- Ht' in Hpt. by eapply (Hnf Hpt k r).
    + right. rewrite upsertPointer_run by apply Ha. split; [done|].
      intros Hact. by apply Z.eqb_neq in Est.
Qed.

Lemma SaveMessageSubscriptionWith_run m s :
  s.(db_executeErr) = None →
  (∃ e, (SaveMessageSubscriptionWith m : ST DB unit) s = (Err e, s) ∧
     exec_stmt s.(db_fk) (SqlSaveMessageSubscription (subscription_row m)) s.(db_data) = Bad FOREIGN_KEY_failed) ∨
  (∃ d, (SaveMessageSubscriptionWith m : ST DB unit) s = (Ret tt, set_data d s) ∧
     exec_stmt s.(db_fk) (SqlSaveMessageSubscription (subscription_row m)) s.(db_data) = Good d).
Proof.
  intros Ee. unfold SaveMessageSubscriptionWith, wrap, attempt, mbind, ST_bind. simpl ExecContext.
  fold (subscription_row m). rewrite db_ExecContext_run by done.
  destruct (exec_stmt _ _ _) as [d|e] eqn:E; [right; by exists d|left].
  eexists. split; [reflexivity|]. simpl in E. unfold sql_upsert in E.
  destruct (_ !! _); simpl in E; [done|]. by destruct (_ && _).
Qed.

(** *** Saving a subscription whose pointer is in the own partition *)

Lemma pointers_unique p d k1 k2 r1 r2 :
  pointers_ok p d → d.(tb_message_subscription) !! k1 = Some r1 → d.(tb_message_subscription) !! k2 = Some r2 →
  r1.(sur_State) = active → r2.(sur_State) = active → r1.(sur_Name) = r2.(sur_Name) →
  r1.(sur_CorrelationKey) = r2.(sur_CorrelationKey) → k1 = k2.
Proof.
  intros Hok H1 H2 A1 A2 Hn Hc.
  destruct (Hok _ _ H1 A1) as (_ & p1 & Hp1 & _ & <- & _), (Hok _ _ H2 A2) as (_ & p2 & Hp2 & _ & <- & _).
  rewrite Hn, Hc in Hp1. by simplify_eq.
Qed.

(** The tables after the pointer and the row of [m] are written. *)
Lemma pointers_ok_saved p d m refs subs :
  pointers_ok p d → may_save d m → GetPartitionId m.(ms_Token).(tok_Key) = p →
  (m.(ms_State) = ActivityStateActive → ∀ k r, d.(tb_message_subscription) !! k = Some r →
     r.(sur_State) = active → r.(sur_Name) = m.(ms_Name) → r.(sur_CorrelationKey) = m.(ms_CorrelationKey) →
     False) →
  sql_upsert refs m.(ms_Key) (subscription_row m) (upd_subscription (subscription_row m))
    d.(tb_message_subscription) = Good subs →
  pointers_ok p (set_tb_message_subscription subs (set_tb_message_subscription_pointer
    (<[(m.(ms_Name), m.(ms_CorrelationKey)) := pointer_of m]> d.(tb_message_subscription_pointer)) d)).
Proof.
  intros Hok [Hsame Hend] Hp Hnone E.
  assert (Hrow : ∃ row, subs = <[m.(ms_Key) := row]> d.(tb_message_subscription) ∧
    row.(sur_State) = ActivityState_int m.(ms_State) ∧ row.(sur_Name) = m.(ms_Name) ∧
    row.(sur_CorrelationKey) = m.(ms_CorrelationKey) ∧ row.(sur_ExecutionToken) = m.(ms_Token).(tok_Key)).
  { apply sql_upsert_Some in E as [(old & Hold & ->)|(_ & _ & ->)]; eexists; split_and!; try done;
      simpl; by apply (Hsame _ Hold). }
  destruct Hrow as (row & -> & Rs & Rn & Rc & Rt). intros k r Hr Ha. simpl in Hr.
  apply lookup_insert_Some in Hr as [[<- <-]|[Hk Hr]]; simpl.
  - rewrite Rn, Rc, Rt, lookup_insert_eq. split; [done|]. exists (pointer_of m).
    split_and!; try done. simpl. congruence.
  - destruct (decide ((m.(ms_Name), m.(ms_CorrelationKey)) = (r.(sur_Name), r.(sur_CorrelationKey)))) as [[= Hn Hc]|Hne].
    + exfalso. destruct (decide (m.(ms_State) = ActivityStateActive)) as [Hm|Hm]; [by eapply Hnone|].
      destruct (Hend Hm) as (old & Hold & Hoa). destruct (Hsame _ Hold) as (Hon & Hoc & _).
      apply Hk. eapply pointers_unique; eauto; congruence.
    + rewrite lookup_insert_ne by done. by apply Hok.
Qed.

Lemma pointers_ok_refused p s ptr :
  pointers_ok p s.(db_data) →
  (∀ k r, s.(db_data).(tb_message_subscription) !! k = Some r → r.(sur_State) = active →
     r.(sur_Name) = ptr.(por_Name) → r.(sur_CorrelationKey) = ptr.(por_CorrelationKey) → False) →
  pointers_ok p (with_pointer ptr s).(db_data).
Proof.
  intros Hok Hnone k r Hr Ha. simpl in *. rewrite lookup_insert_ne; [by apply Hok|].
  intros [= Hn Hc]. by eapply Hnone.
Qed.

Lemma sql_save_refused fk r d e :
  exec_stmt fk (SqlSaveMessageSubscription r) d = Bad e → d.(tb_message_subscription) !! r.(sur_Key) = None.
Proof. simpl. unfold sql_upsert. by destruct (_ !! _). Qed.

Lemma available_with_pointer ptr s : available s → s.(db_fk) = true → available (with_pointer ptr s).
Proof.
  intros Ha Hfk. apply (available_write _ (SqlSaveMessageSubscriptionPointer ptr)); [done..|]. simpl.
  by rewrite sql_upsert_replace.
Qed.

(** C20: an invariant of saving subscriptions one after the other in the
    partition their correlation keys belong to: every active subscription has
    an active pointer, so that no two active subscriptions have the same message
    name and correlation key, whether the save succeeds or is refused. *)
Theorem one_active_subscription p w s m o w' :
  w.(pt_leaders) !! p = Some s → available s → s.(db_fk) = true → pointers_ok p s.(db_data) →
  may_save s.(db_data) m → GetPartitionIdFromString w.(pt_zenState) m.(ms_CorrelationKey) = p →
  GetPartitionId m.(ms_Token).(tok_Key) = p → save_subscription p m w = Some (o, w') →
  ∃ s', w'.(pt_leaders) !! p = Some s' ∧ available s' ∧ pointers_ok p s'.(db_data) ∧
    (∀ k1 k2 r1 r2, s'.(db_data).(tb_message_subscription) !! k1 = Some r1 →
       s'.(db_data).(tb_message_subscription) !! k2 = Some r2 →
       r1.(sur_State) = active → r2.(sur_State) = active → r1.(sur_Name) = r2.(sur_Name) →
       r1.(sur_CorrelationKey) = r2.(sur_CorrelationKey) → k1 = k2).
Proof.
  intros Hs Ha Hfk Hok Hm Hp Ht E.
  enough (∃ s', w'.(pt_leaders) !! p = Some s' ∧ available s' ∧ pointers_ok p s'.(db_data))
    as (s' & H1 & H2 & H3) by (exists s'; split_and!; eauto using pointers_unique).
  unfold save_subscription, save_pointer in E. rewrite Hs in E. simpl in E. rewrite Hp, Z.eqb_refl in E.
  destruct (save_own_pointer_run p w s (pointer_of m) Hs Ha Hok Hp) as [[e Ep]|[Ep Hnone]];
    rewrite Ep in E; simpl in E.
  - injection E as <- <-. exists s. simpl. by rewrite lookup_insert_eq.
  - rewrite lookup_insert_eq in E. simpl in E.
    pose proof (available_with_pointer (pointer_of m) s Ha Hfk) as Ha1.
    destruct (SaveMessageSubscriptionWith_run m (with_pointer (pointer_of m) s)) as [(e & Ew & Eb)|(d & Ew & Eb)];
      [apply Ha1| |]; rewrite Ew in E; injection E as <- <-; simpl; rewrite lookup_insert_eq.
    + eexists. split_and!; [done..|]. apply pointers_ok_refused; [done|]. apply Hnone. simpl.
      apply sql_save_refused in Eb. destruct Hm as [_ Hend].
      destruct (decide (m.(ms_State) = ActivityStateActive)) as [->|Hna]; [done|].
      destruct (Hend Hna) as (old & Hold & _). simpl in Eb. by rewrite Hold in Eb.
    + eexists. split_and!; [done| |].
      * eapply available_write; [exact Ha1|done|]. by rewrite <- Hfk.
      * simpl in Eb. destruct (sql_upsert _ _ _ _ _) as [subs|] eqn:Eu; [|done]. injection Eb as <-.
        eapply pointers_ok_saved; [done..| |exact Eu].
        intros Hact. apply Hnone. simpl. by rewrite Hact.
Qed.

(** *** Flushes that overlap *)

Definition stored_active (m : MessageSubscription) (s : DB) : Prop :=
  ∃ r, s.(db_data).(tb_message_subscription) !! m.(ms_Key) = Some r ∧ r.(sur_State) = active.

Lemma save_active_row m s s' :
  s.(db_executeErr) = None → m.(ms_State) = ActivityStateActive →
  (SaveMessageSubscriptionWith m : ST DB unit) s = (Ret tt, s') →
  s'.(db_executeErr) = None ∧ stored_active m s' ∧
  (∀ m', m'.(ms_Key) ≠ m.(ms_Key) → stored_active m' s → stored_active m' s').
Proof.
  intros Ee Hm E. destruct (SaveMessageSubscriptionWith_run m s Ee) as [(e & Ew & _)|(d & Ew & Ed)];
    rewrite Ew in E; simplify_eq. split; [done|]. simpl in Ed.
  destruct (sql_upsert _ _ _ _ _) as [subs|] eqn:Eu; [|done]. injection Ed as <-.
  unfold stored_active. simpl.
  apply sql_upsert_Some in Eu as [(old & _ & ->)|(_ & _ & ->)]; simpl; rewrite lookup_insert_eq;
    (split; [eexists; split; [done|]; simpl; by rewrite Hm|]); intros m' Hk (r & Hr & Hra); exists r; by rewrite lookup_insert_ne.
Qed.

Lemma save_pointer_own p ptr w s s' o :
  w.(pt_leaders) !! p = Some s → GetPartitionIdFromString w.(pt_zenState) ptr.(por_CorrelationKey) = p →
  SaveMessageSubscriptionPointer p true w.(pt_zenState) (remote w) ptr s = (o, s') →
  save_pointer p ptr w = Some (o, set_leader p s' w).
Proof. intros Hs Hp E. unfold save_pointer. rewrite Hs. simpl. by rewrite E, Hp, Z.eqb_refl. Qed.

(** A pointer without an active message is replaced. *)
Lemma replace_stale_pointer p w s ptr :
  w.(pt_leaders) !! p = Some s → available s →
  GetPartitionIdFromString w.(pt_zenState) ptr.(por_CorrelationKey) = p → 
  (∀ old, s.(db_data).(tb_message_subscription_pointer) !! (ptr.(por_Name), ptr.(por_CorrelationKey)) = Some old →
     GetPartitionId old.(por_MessageSubscriptionKey) = p ∧ GetPartitionId old.(por_ExecutionTokenKey) = p ∧
     ∀ k r, s.(db_data).(tb_message_subscription) !! k = Some r →
       r.(sur_ExecutionToken) ≠ old.(por_ExecutionTokenKey)) →
  save_pointer p ptr w = Some (Ret tt, set_leader p (with_pointer ptr s) w).
Proof.
  intros Hs Ha Hp Hold. apply (save_pointer_own p ptr w s); [done..|].
  unfold SaveMessageSubscriptionPointer. rewrite Hp, Z.eqb_refl. simpl.
  destruct (query_one_run_option "FindMessageSubscriptionPointer"
    (q_FindMessageSubscriptionPointer ptr.(por_CorrelationKey) ptr.(por_Name) active) s Ha)
    as [[Eq E]|(old & Eq & E)]; unfold q_FindMessageSubscriptionPointer in Eq.
  - erewrite bind_step by (by apply attempt_stop). cbn [errors_Is is_ErrNoRows orb].
    apply upsertPointer_run, Ha.
  - erewrite bind_step by (by apply attempt_run). cbv beta iota.
    apply bind_Some in Eq as (old' & Ho & Eq). destruct (_ =? _)%Z; [|done].
    injection Eq as ->. destruct (Hold _ Ho) as (Hk & Ht & Hno).
    unfold check_old_pointer. destruct (_ =? _)%Z; cbn [negb]; cbv zeta; [|apply upsertPointer_run, Ha]. simpl. rewrite Hk, Ht, Hs.
    destruct (server_FindActiveMessage_run old s Ha) as (o & Ef & [(k & j & r & -> & Hr & _ & Hrt & _)|[-> _]]);
      rewrite Ef; simpl; [by destruct (Hno j r Hr)|apply upsertPointer_run, Ha].
Qed.

(** Two flushes that overlap leave two active subscriptions of the same
    message name and correlation key: a pointer is checked before the row of the
    subscription it replaces is written, so that the pre-flush actions of both
    succeed, and the statements of both. *)
Theorem overlapping_flushes_leave_two_active p w s m1 m2 :
  w.(pt_leaders) !! p = Some s → available s → s.(db_fk) = true →
  m1.(ms_Name) = m2.(ms_Name) → m1.(ms_CorrelationKey) = m2.(ms_CorrelationKey) →
  m1.(ms_Key) ≠ m2.(ms_Key) → m1.(ms_State) = ActivityStateActive → m2.(ms_State) = ActivityStateActive →
  GetPartitionIdFromString w.(pt_zenState) m1.(ms_CorrelationKey) = p →
  GetPartitionId m1.(ms_Key) = p → GetPartitionId m1.(ms_Token).(tok_Key) = p →
  s.(db_data).(tb_message_subscription_pointer) !! (m1.(ms_Name), m1.(ms_CorrelationKey)) = None →
  (∀ k r, s.(db_data).(tb_message_subscription) !! k = Some r →
     r.(sur_ExecutionToken) ≠ m1.(ms_Token).(tok_Key)) →
  ∃ w1 w2 s2, save_pointer p (pointer_of m1) w = Some (Ret tt, w1) ∧
    save_pointer p (pointer_of m2) w1 = Some (Ret tt, w2) ∧ w2.(pt_leaders) !! p = Some s2 ∧
    ∀ s3 s4, (SaveMessageSubscriptionWith m1 : ST DB unit) s2 = (Ret tt, s3) →
      (SaveMessageSubscriptionWith m2 : ST DB unit) s3 = (Ret tt, s4) →
      stored_active m1 s4 ∧ stored_active m2 s4.
Proof.
  intros Hs Ha Hfk Hn Hc Hk A1 A2 Hp Hk1 Ht1 Hnone Hfresh.
  pose proof (available_with_pointer (pointer_of m1) s Ha Hfk) as Ha1.
  eexists _, _, (with_pointer (pointer_of m2) (with_pointer (pointer_of m1) s)). split_and!.
  - apply (replace_stale_pointer p w s); [done..|]. simpl. by rewrite Hnone.
  - apply (replace_stale_pointer p _ (with_pointer (pointer_of m1) s)); [simpl; apply lookup_insert_eq|done| |].
    + simpl. by rewrite <- Hc.
    + simpl. rewrite <- Hn, <- Hc, lookup_insert_eq. intros old [= <-]. done.
  - simpl. apply lookup_insert_eq.
  - intros s3 s4 E3 E4. apply save_active_row in E3 as (Ee3 & Hst1 & _); [|apply Ha|done].
    apply save_active_row in E4 as (_ & Hst2 & Hkeep); [|done|done]. split; [by apply Hkeep|done].
Qed.

(** *** Partitions *)

Lemma save_own_pointer_Ret p w s s' ptr :
  available s → GetPartitionIdFromString w.(pt_zenState) ptr.(por_CorrelationKey) = p →
  SaveMessageSubscriptionPointer p true w.(pt_zenState) (remote w) ptr s = (Ret tt, s') →
  s' = with_pointer ptr s.
Proof.
  intros Ha Hp. unfold SaveMessageSubscriptionPointer. rewrite Hp, Z.eqb_refl. simpl.
  destruct (query_one_run_option "FindMessageSubscriptionPointer"
    (q_FindMessageSubscriptionPointer ptr.(por_CorrelationKey) ptr.(por_Name) active) s Ha)
    as [[_ E]|(old & _ & E)].
  - erewrite bind_step by (by apply attempt_stop). cbn [errors_Is is_ErrNoRows orb].
    rewrite upsertPointer_run by apply Ha. by intros [= <-].
  - erewrite bind_step by (by apply attempt_run). cbv beta iota.
    unfold check_old_pointer. repeat case_match; try done; rewrite upsertPointer_run by apply Ha;
      by intros [= <-].
Qed.

Lemma server_set_pointer_run q w ptr t :
  t.(db_executeErr) = None → GetPartitionIdFromString w.(pt_zenState) ptr.(por_CorrelationKey) = q →
  server_SetMessageSubscriptionPointer w.(pt_zenState) q true ptr t = (Ret tt, with_pointer ptr t).
Proof.
  intros Ee Hq. unfold server_SetMessageSubscriptionPointer. rewrite Hq, Z.eqb_refl. simpl.
  by apply write_pointer_run.
Qed.

(** From another partition the pointer is written without a look at the old one. *)
Lemma save_remote_pointer p q w s t ptr :
  w.(pt_leaders) !! p = Some s → w.(pt_leaders) !! q = Some t → p ≠ q → t.(db_executeErr) = None →
  GetPartitionIdFromString w.(pt_zenState) ptr.(por_CorrelationKey) = q →
  save_pointer p ptr w = Some (Ret tt, set_leader q (with_pointer ptr t) (set_leader p s w)).
Proof.
  intros Hs Ht Hpq Ee Hq. unfold save_pointer. rewrite Hs. simpl.
  assert (Epq : (p =? q)%Z = false) by by apply Z.eqb_neq.
  assert (E : SaveMessageSubscriptionPointer p true w.(pt_zenState) (remote w) ptr s = (Ret tt, s)).
  { unfold SaveMessageSubscriptionPointer. rewrite Hq, Epq. simpl. rewrite Ht.
    by rewrite (server_set_pointer_run q w). }
  by rewrite E, Hq, Epq, Ht, (server_set_pointer_run q w).
Qed.

(** A subscription whose correlation key belongs to another partition takes
    the pointer over whatever it points to: where a second active subscription
    would be refused in the own partition, it is accepted here, and the message
    of the first one can no longer be correlated. *)
Theorem remote_subscription_takes_over p q w s t m s' :
  w.(pt_leaders) !! p = Some s → w.(pt_leaders) !! q = Some t → p ≠ q → t.(db_executeErr) = None →
  GetPartitionIdFromString w.(pt_zenState) m.(ms_CorrelationKey) = q →
  (SaveMessageSubscriptionWith m : ST DB unit) s = (Ret tt, s') →
  ∃ w', save_subscription p m w = Some (Ret tt, w') ∧ w'.(pt_leaders) !! p = Some s' ∧
    ∃ t', w'.(pt_leaders) !! q = Some t' ∧
      t'.(db_data).(tb_message_subscription) = t.(db_data).(tb_message_subscription) ∧
      t'.(db_data).(tb_message_subscription_pointer) !! (m.(ms_Name), m.(ms_CorrelationKey)) =
        Some (pointer_of m).
Proof.
  intros Hs Ht Hpq Ee Hq E. unfold save_subscription.
  rewrite (save_remote_pointer p q w s t) by done. simpl.
  rewrite lookup_insert_ne, lookup_insert_eq by done. simpl. rewrite E. eexists. split; [done|]. simpl.
  rewrite lookup_insert_eq, lookup_insert_ne, lookup_insert_eq by done. split; [done|].
  eexists. split; [done|]. split; [done|]. apply lookup_insert_eq.
Qed.

(** Where the pointer of a saved subscription is. *)
Lemma saved_pointer p w s t m w' :
  w.(pt_leaders) !! p = Some s → w.(pt_leaders) !! GetPartitionIdFromString w.(pt_zenState) m.(ms_CorrelationKey) = Some t →
  available s → (∀ name, t.(db_queryErr) name = None) → t.(db_executeErr) = None →
  save_subscription p m w = Some (Ret tt, w') →
  w'.(pt_zenState) = w.(pt_zenState) ∧ is_Some (w'.(pt_leaders) !! p) ∧
  ∃ t', w'.(pt_leaders) !! GetPartitionIdFromString w.(pt_zenState) m.(ms_CorrelationKey) = Some t' ∧
    (∀ name, t'.(db_queryErr) name = None) ∧
    t'.(db_data).(tb_message_subscription_pointer) !! (m.(ms_Name), m.(ms_CorrelationKey)) =
      Some (pointer_of m).
Proof.
  set (q := GetPartitionIdFromString _ _). intros Hs Ht Ha Hqe Hee. unfold save_subscription.
  destruct (decide (p = q)) as [Hpq|Hpq].
  - subst q. unfold save_pointer at 1. rewrite Hs. simpl.
    destruct (SaveMessageSubscriptionPointer _ _ _ _ _ s) as [o s1] eqn:E1. rewrite <- Hpq, Z.eqb_refl. simpl.
    destruct o as [[]|?|?| |]; try done.
    apply save_own_pointer_Ret in E1 as ->; [|done|done]. rewrite lookup_insert_eq. simpl.
    destruct (SaveMessageSubscriptionWith_run m (with_pointer (pointer_of m) s)) as [(e & -> & _)|(d & -> & Ed)];
      [apply Ha|done|]. intros [= <-]. simpl. rewrite !lookup_insert_eq. split_and!; [done|done|].
    eexists. split; [done|]. split; [apply Ha|]. simpl in Ed.
    destruct (sql_upsert _ _ _ _ _); [|done]. injection Ed as <-. simpl. apply lookup_insert_eq.
  - rewrite (save_remote_pointer p q w s t) by done. simpl.
    rewrite lookup_insert_ne, lookup_insert_eq by done. simpl.
    destruct (SaveMessageSubscriptionWith m s) as [[[]|?|?| |] s'] eqn:E; try done.
    intros [= <-]. simpl. rewrite lookup_insert_eq, lookup_insert_ne, lookup_insert_eq by done.
    split_and!; [done|done|]. eexists. split; [done|]. split; [done|]. apply lookup_insert_eq.
Qed.

(** The entry of the pointer table for a message. *)
Definition pointer_in (s : DB) (name correlationKey : string) : option PointerRow :=
  s.(db_data).(tb_message_subscription_pointer) !! (name, correlationKey).

(** C30: a message reaches its subscription from a node that has the pointer.
    Let an active subscription be saved in the partition its key belongs to, and
    a message of its name and correlation key be published from some node.  The
    node looks the pointer up in its own replica of the partition of the
    correlation key.  If that replica has the pointer the partition's leader
    has, the engine of the subscription's partition is called with the
    subscription's key, and an error is returned exactly when the engine
    returns one.  If the replica has not received the pointer yet, the answer
    is NotFound, and on a node without a replica of that partition it is a
    technical error, whatever the engine would do. *)
Theorem message_reaches_subscription json_Unmarshal json_Marshal engine p w s t m w' nodes variables text v :
  let q := GetPartitionIdFromString w.(pt_zenState) m.(ms_CorrelationKey) in
  let publish := node_PublishMessage json_Unmarshal json_Marshal engine nodes w'
    m.(ms_Name) m.(ms_CorrelationKey) variables in
  w.(pt_leaders) !! p = Some s → w.(pt_leaders) !! q = Some t →
  available s → (∀ name, t.(db_queryErr) name = None) → t.(db_executeErr) = None →
  m.(ms_State) = ActivityStateActive → GetPartitionId m.(ms_Key) = p →
  save_subscription p m w = Some (Ret tt, w') →
  json_Marshal variables = Good text → json_Unmarshal text = Good v →
  ∃ t', w'.(pt_leaders) !! q = Some t' ∧
    match nodes !! q with
    | None => publish = Some (TechnicalError (err! "partition %d not found for correlation key %s"))
    | Some db => (∀ name, db.(db_queryErr) name = None) →
        (pointer_in db m.(ms_Name) m.(ms_CorrelationKey) = pointer_in t' m.(ms_Name) m.(ms_CorrelationKey) →
         publish = (λ e, ToZenError
           (if isErrNotFound e
            then ToProtoError NotFoundCode (err! "message subscription for key %d not found")
            else ToProtoError TechnicalErrorCode (errw! "failed to publish message event %d: %w" [e]))
           (err! "client call to publish message failed")) <$> engine p m.(ms_Key) v) ∧
        (pointer_in db m.(ms_Name) m.(ms_CorrelationKey) = None →
         publish = Some (NotFound
           (err! "no active message subscription found for name %q and correlationKey %q")))
    end.
Proof.
  intros q publish Hs Ht Ha Hqe Hee Hm Hk E Ej Ev.
  destruct (saved_pointer p w s t m w' Hs Ht Ha Hqe Hee E) as (Hz & [s' Hs'] & t' & Ht' & _ & Hptr).
  exists t'. split; [done|]. subst publish. unfold node_PublishMessage. rewrite Hz. fold q.
  destruct (nodes !! q) as [db|]; [|done]. intros Hdb. unfold pointer_in.
  unfold db_FindActiveMessageSubscriptionPointer, wrap, attempt, query_one, mbind, ST_bind. rewrite Hdb.
  unfold q_FindMessageSubscriptionPointer. rewrite Hptr. split; intros ->; simpl.
  - rewrite Hm. simpl. rewrite Hk, Hs', Ej. unfold server_PublishMessage. rewrite Hk, Z.eqb_refl, Ev. simpl.
    by destruct (engine p (ms_Key m) v).
  - done.
Qed.
End props.

(** ** Concrete instances *)

(** Two partitions; the correlation key of the subscriptions belongs to the
    second. *)
Definition two_partitions : Cluster :=
  {| DesiredPartitions := 2;
     c_Partitions := {[1%Z := {| p_Id := 1; p_LeaderId := "n" |}; 2%Z := {| p_Id := 2; p_LeaderId := "n" |}]};
     c_Nodes := ∅ |}.
Definition leaders : Partitions :=
  {| pt_zenState := two_partitions;
     pt_leaders := {[1%Z := storage_of a_database; 2%Z := storage_of a_database]} |}.
(** The keys of the second partition. *)
Definition own_key (i : Z) : Z := (8192 + i)%Z.
Definition remote_key (i : Z) : Z := (4096 + i)%Z.
Definition own : MessageSubscription := a_subscription (own_key 6) (own_key 3) ActivityStateActive.
Definition own2 : MessageSubscription := a_subscription (own_key 7) (own_key 4) ActivityStateActive.
Definition remote_one : MessageSubscription := a_subscription (remote_key 6) (remote_key 3) ActivityStateActive.

Definition after {A} (r : option (outcome unit * Partitions)) (d : A) (f : Partitions → A) : A :=
  match r with Some (_, w) => f w | None => d end.
Definition own_saved : Partitions := after (save_subscription (H := by_key) 2 own leaders) leaders id.

Lemma no_pointers p d : d.(tb_message_subscription) = ∅ → pointers_ok p d.
Proof. intros Hd k r Hr. by rewrite Hd in Hr. Qed.
Lemma may_save_new d m :
  d.(tb_message_subscription) = ∅ → m.(ms_State) = ActivityStateActive → may_save d m.
Proof. intros Hd Hm. split; [|done]. intros old Hold. by rewrite Hd in Hold. Qed.

Lemma one_active_subscription_witness :
  save_subscription (H := by_key) 2 own leaders = Some (Ret tt, own_saved) ∧
  ∃ s', own_saved.(pt_leaders) !! 2%Z = Some s' ∧ available s' ∧ pointers_ok 2 s'.(db_data) ∧
    (∀ k1 k2 r1 r2, s'.(db_data).(tb_message_subscription) !! k1 = Some r1 →
       s'.(db_data).(tb_message_subscription) !! k2 = Some r2 →
       r1.(sur_State) = active → r2.(sur_State) = active → r1.(sur_Name) = r2.(sur_Name) →
       r1.(sur_CorrelationKey) = r2.(sur_CorrelationKey) → k1 = k2).
Proof.
  assert (E : save_subscription (H := by_key) 2 own leaders = Some (Ret tt, own_saved)) by reflexivity.
  split; [exact E|].
  refine (one_active_subscription (H := by_key) 2 leaders (storage_of a_database) own (Ret tt) own_saved
    eq_refl a_storage_available eq_refl _ _ _ _ E); [|  |reflexivity|reflexivity].
  - by apply no_pointers.
  - by apply may_save_new.
Defined.

Lemma overlapping_flushes_leave_two_active_witness :
  ∃ w1 w2 s2, save_pointer (H := by_key) 2 (pointer_of own) leaders = Some (Ret tt, w1) ∧
    save_pointer (H := by_key) 2 (pointer_of own2) w1 = Some (Ret tt, w2) ∧ w2.(pt_leaders) !! 2%Z = Some s2 ∧
    ∀ s3 s4, (SaveMessageSubscriptionWith own : ST DB unit) s2 = (Ret tt, s3) →
      (SaveMessageSubscriptionWith own2 : ST DB unit) s3 = (Ret tt, s4) →
      stored_active own s4 ∧ stored_active own2 s4.
Proof.
  refine (overlapping_flushes_leave_two_active (H := by_key) 2 leaders (storage_of a_database) own own2
    eq_refl a_storage_available eq_refl eq_refl eq_refl _ eq_refl eq_refl _ eq_refl eq_refl eq_refl _);
    [discriminate|reflexivity|]. intros k r Hr. discriminate Hr.
Defined.

Lemma remote_subscription_takes_over_witness :
  ∃ s', (SaveMessageSubscriptionWith remote_one : ST DB unit) (storage_of a_database) = (Ret tt, s') ∧
  ∃ w', save_subscription (H := by_key) 1 remote_one own_saved = Some (Ret tt, w') ∧
    w'.(pt_leaders) !! 1%Z = Some s' ∧
    ∃ t', w'.(pt_leaders) !! 2%Z = Some t' ∧
      t'.(db_data).(tb_message_subscription) =
        after (Some (Ret tt, own_saved)) ∅ (λ w, match w.(pt_leaders) !! 2%Z with
          | Some t => t.(db_data).(tb_message_subscription) | None => ∅ end) ∧
      t'.(db_data).(tb_message_subscription_pointer) !! ("m"%string, "c"%string) = Some (pointer_of remote_one).
Proof.
  eexists. split; [reflexivity|].
  refine (remote_subscription_takes_over (H := by_key) 1 2 own_saved (storage_of a_database) _ remote_one _
    eq_refl eq_refl _ eq_refl _ eq_refl); [discriminate|reflexivity].
Defined.

Lemma message_reaches_subscription_witness :
  node_PublishMessage (λ _, Good ∅) (λ _, Good "{}")
    (λ p k _, if bool_decide ((p, k) = (2%Z, own_key 6)) then None else Some ErrNotFound)
    own_saved.(pt_leaders) own_saved "m" "c" ∅ = None ∧
  node_PublishMessage (λ _, Good ∅) (λ _, Good "{}") (λ _ _ _, None)
    (delete 2%Z own_saved.(pt_leaders)) own_saved "m" "c" ∅ =
    Some (TechnicalError (err! "partition %d not found for correlation key %s")).
Proof.
  assert (Hreach := λ engine nodes, message_reaches_subscription (H := by_key) (λ _, Good ∅) (λ _, Good "{}")
    engine 2 leaders (storage_of a_database) (storage_of a_database) own own_saved nodes ∅ "{}" ∅
    eq_refl eq_refl a_storage_available (λ _, eq_refl) eq_refl eq_refl eq_refl eq_refl eq_refl eq_refl).
  split.
  - destruct (Hreach (λ p k _, if bool_decide ((p, k) = (2%Z, own_key 6)) then None else Some ErrNotFound)
      own_saved.(pt_leaders)) as (t' & Ht' & Hpub).
    change (GetPartitionIdFromString _ _) with 2%Z in Ht', Hpub. rewrite Ht' in Hpub.
    destruct Hpub as [Hpub _]; [|by apply Hpub].
    intros name. vm_compute in Ht'. injection Ht' as <-. reflexivity.
  - destruct (Hreach (λ _ _ _, None) (delete 2%Z own_saved.(pt_leaders))) as (t' & _ & Hpub). exact Hpub.
Defined.
