(* ===== verification/JobClient.v ===== *)
(** The client side of the job manager (internal/cluster/jobmanager/client.go
    and manager.go) and the clients of the cluster (internal/cluster/client):
    the streams to the partition leaders, the clients of this node and the jobs
    handed to them, and the manager that owns the server and the client.

    A context and a channel are numbers; a send on an unbuffered channel ends in
    [Block] when no goroutine waits to receive from it.  What the gRPC library
    and the other nodes answer is the class [Rpc].  A stream keeps the partition
    it was opened for in a field that is never set. *)
From S2P Require Import Prelude ZenErr Monad Runtime ClusterState ClusterStore Zenflake JobServer.

(** ** Clients of the cluster nodes (client_manager.go)

    [cm_activeClients] maps an address to the client of its connection. *)
Record ClientManager := { cm_activeClients : gmap string Z }.

Record Job := {
  jb_Key : Z;
  jb_InstanceKey : Z;
  jb_Variables : string;
  jb_Type : string;
  jb_State : Z;
  jb_ElementID : string;
  jb_CreatedAt : Z;
  jb_ClientID : string
}.

Record CompleteJobRequest := { cjr_Key : Z; cjr_Variables : string; cjr_ClientId : string }.
Record FailJobRequest := {
  fjr_Key : Z; fjr_Message : string; fjr_ErrorCode : option string; fjr_Variables : string;
  fjr_ClientId : string
}.

(** Connecting to an address gives a client, a number here. *)
Class Dial := { rpc_NewClient : string → result Z }.

(** The answers of a client of a node: an error of the call, or a response with
    its error field. *)
Class Rpc := {
  rpc_Dial :: Dial;
  rpc_SubscribeJob : Z → string → result Z;
  rpc_CompleteJob : Z → CompleteJobRequest → result (option ErrorResult);
  rpc_FailJob : Z → FailJobRequest → result (option ErrorResult);
  stream_Err : Z → bool;
  stream_CloseSend : Z → option error;
  stream_Send : Z → SubscribeJobRequest → option error
}.

Section manager.
Context `{Dial}.

Definition newClient (nodeAddr : string) : ST ClientManager Z :=
  grpcClient ← wrap_result (λ e, errw! "failed to create new GRPC client: %w" [e]) (rpc_NewClient nodeAddr);
  modify (λ m, {| cm_activeClients := <[nodeAddr := grpcClient]> m.(cm_activeClients) |}) ;;
  mret grpcClient.

Definition For (targetAddr : string) : ST ClientManager Z :=
  m ← get;
  match m.(cm_activeClients) !! targetAddr with
  | Some client => mret client
  | None => newClient targetAddr
  end.

Definition no_leader_available : error :=
  err! "failed to get leader address for cluster client: no leader available".

Definition ClusterLeader (s : Store) : ST ClientManager Z :=
  let leaderAddr := (LeaderWithID s).1 in
  if (leaderAddr =? "")%string then throw no_leader_available else For leaderAddr.

Definition client_PartitionLeaderWithID (s : Store) (partition : Z) : ST ClientManager (Z * string) :=
  let '(leaderAddr, nodeId) := PartitionLeaderWithID s partition in
  if (leaderAddr =? "")%string then throw no_leader_available
  else client ← For leaderAddr; mret (client, nodeId).

Definition PartitionLeader (s : Store) (partition : Z) : ST ClientManager Z :=
  r ← client_PartitionLeaderWithID s partition; mret r.1.
End manager.

(** ** The job client *)

Record clientSub := { cs_ctx : Z; cs_ch : Z; cs_clientID : string }.

Record clientNodeStream := { cns_stream : Z; cns_nodeID : string; cns_partition : Z }.

(** [jc_cancelled]: the contexts that are done.  [jc_readers]: the channels a
    goroutine waits to receive from, [jc_closed] the closed ones.  The logs:
    jobs received from channels, requests sent on streams, streams closed. *)
Record jobClient := {
  jc_clientSubs : gmap string clientSub;
  jc_clientMu : RWMutex;
  jc_nodeID : string;
  jc_nodeClientManager : ClientManager;
  jc_nodeStreams : list clientNodeStream;
  jc_nodeMu : RWMutex;
  jc_cancelled : gset Z;
  jc_readers : gset Z;
  jc_closed : gset Z;
  jc_delivered : list (Z * Job);
  jc_sent : list (Z * SubscribeJobRequest);
  jc_closedStreams : list Z
}.

Definition newJobClient (nodeID : string) (clientManager : ClientManager) : jobClient :=
  {| jc_clientSubs := ∅; jc_clientMu := free_mutex; jc_nodeID := nodeID;
     jc_nodeClientManager := clientManager; jc_nodeStreams := []; jc_nodeMu := free_mutex;
     jc_cancelled := ∅; jc_readers := ∅; jc_closed := ∅; jc_delivered := []; jc_sent := [];
     jc_closedStreams := [] |}.

Definition set_jc_clientSubs (m : gmap string clientSub) (c : jobClient) : jobClient :=
  {| jc_clientSubs := m; jc_clientMu := c.(jc_clientMu); jc_nodeID := c.(jc_nodeID);
     jc_nodeClientManager := c.(jc_nodeClientManager); jc_nodeStreams := c.(jc_nodeStreams);
     jc_nodeMu := c.(jc_nodeMu); jc_cancelled := c.(jc_cancelled); jc_readers := c.(jc_readers);
     jc_closed := c.(jc_closed); jc_delivered := c.(jc_delivered); jc_sent := c.(jc_sent);
     jc_closedStreams := c.(jc_closedStreams) |}.
Definition set_jc_clientMu (mu : RWMutex) (c : jobClient) : jobClient :=
  {| jc_clientSubs := c.(jc_clientSubs); jc_clientMu := mu; jc_nodeID := c.(jc_nodeID);
     jc_nodeClientManager := c.(jc_nodeClientManager); jc_nodeStreams := c.(jc_nodeStreams);
     jc_nodeMu := c.(jc_nodeMu); jc_cancelled := c.(jc_cancelled); jc_readers := c.(jc_readers);
     jc_closed := c.(jc_closed); jc_delivered := c.(jc_delivered); jc_sent := c.(jc_sent);
     jc_closedStreams := c.(jc_closedStreams) |}.
Definition set_jc_nodeMu (mu : RWMutex) (c : jobClient) : jobClient :=
  {| jc_clientSubs := c.(jc_clientSubs); jc_clientMu := c.(jc_clientMu); jc_nodeID := c.(jc_nodeID);
     jc_nodeClientManager := c.(jc_nodeClientManager); jc_nodeStreams := c.(jc_nodeStreams);
     jc_nodeMu := mu; jc_cancelled := c.(jc_cancelled); jc_readers := c.(jc_readers);
     jc_closed := c.(jc_closed); jc_delivered := c.(jc_delivered); jc_sent := c.(jc_sent);
     jc_closedStreams := c.(jc_closedStreams) |}.
Definition set_jc_manager (m : ClientManager) (c : jobClient) : jobClient :=
  {| jc_clientSubs := c.(jc_clientSubs); jc_clientMu := c.(jc_clientMu); jc_nodeID := c.(jc_nodeID);
     jc_nodeClientManager := m; jc_nodeStreams := c.(jc_nodeStreams);
     jc_nodeMu := c.(jc_nodeMu); jc_cancelled := c.(jc_cancelled); jc_readers := c.(jc_readers);
     jc_closed := c.(jc_closed); jc_delivered := c.(jc_delivered); jc_sent := c.(jc_sent);
     jc_closedStreams := c.(jc_closedStreams) |}.
Definition set_jc_nodeStreams (l : list clientNodeStream) (c : jobClient) : jobClient :=
  {| jc_clientSubs := c.(jc_clientSubs); jc_clientMu := c.(jc_clientMu); jc_nodeID := c.(jc_nodeID);
     jc_nodeClientManager := c.(jc_nodeClientManager); jc_nodeStreams := l;
     jc_nodeMu := c.(jc_nodeMu); jc_cancelled := c.(jc_cancelled); jc_readers := c.(jc_readers);
     jc_closed := c.(jc_closed); jc_delivered := c.(jc_delivered); jc_sent := c.(jc_sent);
     jc_closedStreams := c.(jc_closedStreams) |}.
Definition set_jc_contexts (s : gset Z) (c : jobClient) : jobClient :=
  {| jc_clientSubs := c.(jc_clientSubs); jc_clientMu := c.(jc_clientMu); jc_nodeID := c.(jc_nodeID);
     jc_nodeClientManager := c.(jc_nodeClientManager); jc_nodeStreams := c.(jc_nodeStreams);
     jc_nodeMu := c.(jc_nodeMu); jc_cancelled := s; jc_readers := c.(jc_readers);
     jc_closed := c.(jc_closed); jc_delivered := c.(jc_delivered); jc_sent := c.(jc_sent);
     jc_closedStreams := c.(jc_closedStreams) |}.
Definition set_jc_channels (readers closed : gset Z) (delivered : list (Z * Job)) (c : jobClient)
    : jobClient :=
  {| jc_clientSubs := c.(jc_clientSubs); jc_clientMu := c.(jc_clientMu); jc_nodeID := c.(jc_nodeID);
     jc_nodeClientManager := c.(jc_nodeClientManager); jc_nodeStreams := c.(jc_nodeStreams);
     jc_nodeMu := c.(jc_nodeMu); jc_cancelled := c.(jc_cancelled); jc_readers := readers;
     jc_closed := closed; jc_delivered := delivered; jc_sent := c.(jc_sent);
     jc_closedStreams := c.(jc_closedStreams) |}.
Definition set_jc_streams (sent : list (Z * SubscribeJobRequest)) (closed : list Z) (c : jobClient)
    : jobClient :=
  {| jc_clientSubs := c.(jc_clientSubs); jc_clientMu := c.(jc_clientMu); jc_nodeID := c.(jc_nodeID);
     jc_nodeClientManager := c.(jc_nodeClientManager); jc_nodeStreams := c.(jc_nodeStreams);
     jc_nodeMu := c.(jc_nodeMu); jc_cancelled := c.(jc_cancelled); jc_readers := c.(jc_readers);
     jc_closed := c.(jc_closed); jc_delivered := c.(jc_delivered); jc_sent := sent;
     jc_closedStreams := closed |}.

Abbreviation JC := (ST jobClient).

Definition jc_clientMu_Lock : JC unit := Lock jc_clientMu set_jc_clientMu.
Definition jc_clientMu_Unlock : JC unit := Unlock set_jc_clientMu.
Definition jc_clientMu_RLock : JC unit := RLock jc_clientMu set_jc_clientMu.
Definition jc_clientMu_RUnlock : JC unit := RUnlock jc_clientMu set_jc_clientMu.
Definition jc_nodeMu_Lock : JC unit := Lock jc_nodeMu set_jc_nodeMu.
Definition jc_nodeMu_Unlock : JC unit := Unlock set_jc_nodeMu.
Definition jc_nodeMu_RLock : JC unit := RLock jc_nodeMu set_jc_nodeMu.
Definition jc_nodeMu_RUnlock : JC unit := RUnlock jc_nodeMu set_jc_nodeMu.

(** A call of the client manager. *)
Definition with_manager {A} (m : ST ClientManager A) : JC A :=
  zoom jc_nodeClientManager set_jc_manager m.

(** [ch <- job] and [close(ch)]. *)
Definition chan_send (ch : Z) (job : Job) : JC unit := λ c,
  if decide (ch ∈ c.(jc_closed)) then (Panic "send on closed channel", c)
  else if decide (ch ∈ c.(jc_readers)) then
    (Ret tt, set_jc_channels (c.(jc_readers) ∖ {[ch]}) c.(jc_closed) (c.(jc_delivered) ++ [(ch, job)]) c)
  else (Block, c).
Definition chan_close (ch : Z) : JC unit := λ c,
  if decide (ch ∈ c.(jc_closed)) then (Panic "close of closed channel", c)
  else (Ret tt, set_jc_channels (c.(jc_readers) ∖ {[ch]}) ({[ch]} ∪ c.(jc_closed)) c.(jc_delivered) c).

Section client.
Context `{Rpc}.
Context (iter : ∀ (A : Type), gmap Z A → list (Z * A)).

(** *** Streams to the leaders *)

(** [streamNode] gives a stream without a partition. *)
Definition subscribeNodeToPartition (s : Store) (partition : Z) : JC unit :=
  jc_nodeMu_Lock ;;
  deferred
    (r ← attempt (with_manager (client_PartitionLeaderWithID s partition));
     match r with
     | Bad _ => mret tt
     | Good (lClient, nodeID) =>
         c ← get;
         match rpc_SubscribeJob lClient c.(jc_nodeID) with
         | Bad _ => mret tt
         | Good stream =>
             modify (λ c, set_jc_nodeStreams (c.(jc_nodeStreams) ++
               [{| cns_stream := stream; cns_nodeID := nodeID; cns_partition := 0 |}]) c)
         end
     end)
    jc_nodeMu_Unlock.

Definition subscribeNode (s : Store) : JC unit :=
  for_each (iter Partition (ClusterState s).(c_Partitions)).*2
    (λ partition, subscribeNodeToPartition s partition.(p_Id)).

(** The leaders of the partitions that are initialized there. *)
Definition add_leader (s : Cluster) (leaders : gmap Z string) (partition : Partition) : gmap Z string :=
  match s.(c_Nodes) !! partition.(p_LeaderId) with
  | None => leaders
  | Some partitionNode =>
      if negb ((default zero_node_partition (node_partition partitionNode partition.(p_Id))).(np_State)
               =? NodePartitionStateInitialized)%Z
      then leaders
      else <[partition.(p_Id) := partition.(p_LeaderId)]> leaders
  end.
Definition leaders_of (s : Cluster) : gmap Z string :=
  fold_left (add_leader s) (iter Partition s.(c_Partitions)).*2 ∅.

(** A failing CloseSend is only logged. *)
Definition close_stream (stream : clientNodeStream) : JC unit :=
  modify (λ c, set_jc_streams c.(jc_sent) (c.(jc_closedStreams) ++ [stream.(cns_stream)]) c).

(** The loop over the streams from the last one; the result is the streams that
    are left and what is left of partitionsToSubscribe. *)
Fixpoint review_streams (leaders : gmap Z string) (streams : list clientNodeStream)
    (partitionsToSubscribe : list Z) : JC (list clientNodeStream * list Z) :=
  match streams with
  | [] => mret ([], partitionsToSubscribe)
  | stream :: streams' =>
      r ← review_streams leaders streams' partitionsToSubscribe;
      let '(kept, parts) := r in
      if (negb (bool_decide (stream.(cns_nodeID) ∈ (map_to_list leaders).*2)) ||
          stream_Err stream.(cns_stream))%bool
      then close_stream stream ;; mret (kept, parts)
      else match leaders !! stream.(cns_partition) with
           | None => mret (stream :: kept, parts)
           | Some assignedLeader =>
               if negb (assignedLeader =? stream.(cns_nodeID))%string
               then close_stream stream ;; mret (kept, parts)
               else mret (stream :: kept, filter (λ a, a ≠ stream.(cns_partition)) parts)
           end
  end.

Definition updateNodeSubs (s : Store) : JC unit :=
  let leaders := leaders_of (ClusterState s) in
  jc_nodeMu_Lock ;;
  c ← get;
  r ← review_streams leaders c.(jc_nodeStreams) [];
  modify (set_jc_nodeStreams r.1) ;;
  jc_nodeMu_Unlock ;;
  for_each r.2 (subscribeNodeToPartition s).

(** *** Requests to the leaders *)

Definition send_to (req : SubscribeJobRequest) (errJoin : option error) (stream : clientNodeStream)
    : JC (option error) :=
  match stream_Send stream.(cns_stream) req with
  | Some err => mret (join_opt errJoin (errw! "failed to send request to nodeID %s: %w" [err]))
  | None =>
      modify (λ c, set_jc_streams (c.(jc_sent) ++ [(stream.(cns_stream), req)]) c.(jc_closedStreams) c) ;;
      mret errJoin
  end.

Definition broadcastToNodes (req : SubscribeJobRequest) : JC unit :=
  jc_nodeMu_RLock ;;
  deferred
    (c ← get;
     errJoin ← for_fold c.(jc_nodeStreams) None (send_to req);
     match errJoin with Some e => throw e | None => mret tt end)
    jc_nodeMu_RUnlock.

Definition addJobSub (clientID jobType : string) : JC unit :=
  wrap (λ e, errw! "failed to subscribe client %s to jobType %s: %w" [e])
    (broadcastToNodes (TYPE_SUBSCRIBE clientID jobType)).

Definition removeJobSub (clientID jobType : string) : JC unit :=
  wrap (λ e, errw! "failed to unsubscribe client %s from jobType %s: %w" [e])
    (broadcastToNodes (TYPE_UNSUBSCRIBE clientID jobType)).

(** *** Clients of this node *)

Definition addClient (ctx : Z) (clientID : string) (clientRcv : Z) : JC unit :=
  jc_clientMu_Lock ;;
  deferred
    (c ← get;
     match c.(jc_clientSubs) !! clientID with
     | Some _ => throw (err! "client with this id is already subscribed")
     | None => modify (λ c, set_jc_clientSubs
         (<[clientID := {| cs_ctx := ctx; cs_ch := clientRcv; cs_clientID := clientID |}]> c.(jc_clientSubs)) c)
     end)
    jc_clientMu_Unlock.

(** The error of the broadcast is only logged. *)
Definition jc_removeClient (clientID : string) : JC unit :=
  jc_clientMu_Lock ;;
  deferred
    (c ← get;
     match c.(jc_clientSubs) !! clientID with
     | None => mret tt
     | Some sub =>
         _ ← attempt (broadcastToNodes (TYPE_UNSUBSCRIBE_ALL clientID));
         modify (λ c, set_jc_clientSubs (delete clientID c.(jc_clientSubs)) c) ;;
         chan_close sub.(cs_ch)
     end)
    jc_clientMu_Unlock.

(** The job is handed over with clientMu read-locked. *)
Definition hand_over (pickedClient : clientSub) (job : Job) : JC unit :=
  chan_send pickedClient.(cs_ch) job ;;
  jc_clientMu_RUnlock.

Definition sendJobToClient (job : Job) : JC unit :=
  jc_clientMu_RLock ;;
  c ← get;
  match c.(jc_clientSubs) !! job.(jb_ClientID) with
  | None => jc_clientMu_RUnlock
  | Some pickedClient =>
      if decide (pickedClient.(cs_ctx) ∈ c.(jc_cancelled)) then
        jc_clientMu_RUnlock ;;
        jc_removeClient pickedClient.(cs_clientID)
      else hand_over pickedClient job
  end.

(** *** Settling jobs *)

Context (json_Marshal : vars → result string).

(** The response is dropped: only the error of the call counts. *)
Definition jc_completeJob (s : Store) (clientID : string) (jobKey : Z) (variables : vars)
    : JC unit :=
  lClient ← wrap (λ e, errw! "failed to retrieve client for partition %d leader: %w" [e])
    (with_manager (PartitionLeader s (GetPartitionId jobKey)));
  vars ← wrap_result (λ e, errw! "failed to marshal variables for job completion: %w" [e])
    (json_Marshal variables);
  _ ← wrap_result (λ e, errw! "failed to complete job %d from client: %w" [e])
    (rpc_CompleteJob lClient {| cjr_Key := jobKey; cjr_Variables := vars; cjr_ClientId := clientID |});
  mret tt.

(** The request carries no client id. *)
Definition jc_failJob (s : Store) (clientID : string) (jobKey : Z) (message : string)
    (errorCode : option string) (variables : vars) : JC unit :=
  lClient ← wrap (λ e, errw! "failed to retrieve client for partition %d leader: %w" [e])
    (with_manager (PartitionLeader s (GetPartitionId jobKey)));
  vars ← wrap_result (λ e, errw! "failed to marshal variables for job failure: %w" [e])
    (json_Marshal variables);
  _ ← wrap_result (λ e, errw! "failed to fail job %d from client: %w" [e])
    (rpc_FailJob lClient {| fjr_Key := jobKey; fjr_Message := message; fjr_ErrorCode := errorCode;
                            fjr_Variables := vars; fjr_ClientId := "" |});
  mret tt.
End client.

(** ** What arrives on a stream from a leader *)

Record InternalJob := {
  wj_Key : Z; wj_InstanceKey : Z; wj_Variables : string; wj_Type : string; wj_State : Z;
  wj_ElementId : string; wj_CreatedAt : Z
}.
Record SubscribeJobResponse := { sjr_Job : option InternalJob; sjr_ClientId : string }.

(** The job put into jobsChan; [None] ends the receiving goroutine. *)
Definition client_handleJobStreamRecv (r : result SubscribeJobResponse) : option Job :=
  match r with
  | Bad _ => None
  | Good resp =>
      match resp.(sjr_Job) with
      | None => None
      | Some j => Some
          {| jb_Key := j.(wj_Key); jb_InstanceKey := j.(wj_InstanceKey); jb_Variables := j.(wj_Variables);
             jb_Type := j.(wj_Type); jb_State := j.(wj_State); jb_ElementID := j.(wj_ElementId);
             jb_CreatedAt := j.(wj_CreatedAt); jb_ClientID := resp.(sjr_ClientId) |}
      end
  end.
