(* ===== verification/JobManager.v ===== *)
(** The job manager of a node (internal/cluster/jobmanager/manager.go), the
    handlers of the cluster server that settle jobs
    (internal/cluster/server/server.go), and the job streams of the public API
    (internal/grpc/server.go).

    The manager owns the job client and, once started, a job server.  The engine
    that settles a job is behind the record [JobCompleter], as in the code. *)
From S2P Require Import Prelude ZenErr Monad Runtime ClusterState ClusterStore Zenflake JobServer JobClient.
From S2P Require Import Messages.

Definition NodeIsNotALeader : error := err! "Node is not a leader".

Record partitionRoleState := { prs_nodeId : string; prs_state : Z }.
#[export] Instance partitionRoleState_eq_dec : EqDecision partitionRoleState.
Proof. solve_decision. Defined.

(** A nil map equals an empty one.  The context of the server is a number;
    [jm_cancelled] are the contexts the manager cancelled. *)
Record JobManager := {
  jm_client : jobClient;
  jm_server : option jobServer;
  jm_currentPartitionRoles : gmap Z partitionRoleState;
  jm_serverCtx : option Z;
  jm_nextCtx : Z;
  jm_cancelled : list Z
}.

Record JobCompleter := {
  jcm_JobCompleteByKey : Z → vars → option error;
  jcm_JobFailByKey : Z → string → option string → vars → option error
}.

Definition NewJobManager (s : Store) (clientManager : ClientManager) : JobManager :=
  {| jm_client := newJobClient s.(s_raftID) clientManager; jm_server := None;
     jm_currentPartitionRoles := ∅; jm_serverCtx := None; jm_nextCtx := 0; jm_cancelled := [] |}.

Definition set_jm_client (c : jobClient) (m : JobManager) : JobManager :=
  {| jm_client := c; jm_server := m.(jm_server); jm_currentPartitionRoles := m.(jm_currentPartitionRoles);
     jm_serverCtx := m.(jm_serverCtx); jm_nextCtx := m.(jm_nextCtx); jm_cancelled := m.(jm_cancelled) |}.
Definition set_jm_server (s : option jobServer) (m : JobManager) : JobManager :=
  {| jm_client := m.(jm_client); jm_server := s; jm_currentPartitionRoles := m.(jm_currentPartitionRoles);
     jm_serverCtx := m.(jm_serverCtx); jm_nextCtx := m.(jm_nextCtx); jm_cancelled := m.(jm_cancelled) |}.
Definition set_jm_roles (r : gmap Z partitionRoleState) (m : JobManager) : JobManager :=
  {| jm_client := m.(jm_client); jm_server := m.(jm_server); jm_currentPartitionRoles := r;
     jm_serverCtx := m.(jm_serverCtx); jm_nextCtx := m.(jm_nextCtx); jm_cancelled := m.(jm_cancelled) |}.

Abbreviation MM := (ST JobManager).

Definition on_client {A} (m : JC A) : MM A := zoom jm_client set_jm_client m.

(** [if m.server == nil { return NodeIsNotALeader }] *)
Definition on_server {A} (m : JM A) : MM A := λ jm,
  match jm.(jm_server) with
  | None => (Err NodeIsNotALeader, jm)
  | Some s => let '(o, s') := m s in (o, set_jm_server (Some s') jm)
  end.

(** A new server with a context of its own. *)
Definition start_server : MM unit := modify (λ m,
  {| jm_client := m.(jm_client); jm_server := Some newJobServer;
     jm_currentPartitionRoles := m.(jm_currentPartitionRoles);
     jm_serverCtx := Some m.(jm_nextCtx); jm_nextCtx := m.(jm_nextCtx) + 1;
     jm_cancelled := m.(jm_cancelled) |}).

Definition stop_server (ctx : Z) : MM unit := modify (λ m,
  {| jm_client := m.(jm_client); jm_server := None;
     jm_currentPartitionRoles := m.(jm_currentPartitionRoles);
     jm_serverCtx := None; jm_nextCtx := m.(jm_nextCtx);
     jm_cancelled := m.(jm_cancelled) ++ [ctx] |}).

Section manager.
Context `{Rpc}.
Context (iter : ∀ (A : Type), gmap Z A → list (Z * A)).
Context (json_Marshal : vars → result string) (json_Unmarshal : string → result vars).

(** The server is started whether or not the node leads a partition. *)
Definition Start (s : Store) : MM unit :=
  start_server ;;
  on_client (subscribeNode iter s).

Definition AddClient (ctx : Z) (clientId : string) (clientRcv : Z) : MM unit :=
  on_client (addClient ctx clientId clientRcv).
Definition RemoveClient (clientId : string) : MM unit := on_client (jc_removeClient clientId).
(** The errors of both are dropped. *)
Definition AddClientJobSub (clientId jobType : string) : MM unit :=
  _ ← attempt (on_client (addJobSub clientId jobType)); mret tt.
Definition RemoveClientJobSub (clientId jobType : string) : MM unit :=
  _ ← attempt (on_client (removeJobSub clientId jobType)); mret tt.

Definition AddNodeSubscription (nodeIds : option (list string)) (stream : Z) (fails : bool) : MM nodeSub :=
  on_server (addNodeSubscription nodeIds stream fails).

Definition CompleteJobReq (s : Store) (clientId : string) (jobKey : Z) (variables : vars) : MM unit :=
  on_client (jc_completeJob json_Marshal s clientId jobKey variables).
Definition CompleteJob (completer : JobCompleter) (jobKey : Z) (variables : vars) : MM unit :=
  on_server (completeJob (λ k, jcm_JobCompleteByKey completer k variables) jobKey).
Definition FailJobReq (s : Store) (clientID : string) (jobKey : Z) (message : string)
    (errorCode : option string) (variables : vars) : MM unit :=
  on_client (jc_failJob json_Marshal s clientID jobKey message errorCode variables).
Definition FailJob (completer : JobCompleter) (jobKey : Z) (message : string)
    (errorCode : option string) (variables : vars) : MM unit :=
  on_server (failJob (λ k, jcm_JobFailByKey completer k message errorCode variables) jobKey).

(** onJobRejected of the server is empty. *)
Definition OnJobRejected (jobKey : Z) : MM unit := on_server (mret tt).

(** The partitions with the state of their leader; zero values for unknown
    nodes and partitions. *)
Definition partition_roles (s : Cluster) : gmap Z partitionRoleState :=
  (λ partition,
     let leaderNode := default zero_node (s.(c_Nodes) !! partition.(p_LeaderId)) in
     {| prs_nodeId := partition.(p_LeaderId);
        prs_state := (default zero_node_partition (node_partition leaderNode partition.(p_Id))).(np_State) |})
  <$> s.(c_Partitions).

(** The hook of the controller; the call of OnPartitionRoleChange is commented
    out in the code. *)
Definition OnClusterStateChange (s : Store) : MM unit :=
  let newPartitionLeaders := partition_roles (ClusterState s) in
  m ← get;
  if bool_decide (m.(jm_currentPartitionRoles) = newPartitionLeaders) then mret tt
  else modify (set_jm_roles newPartitionLeaders).

Definition leads_initialized (s : Cluster) (nodeID : string) (partition : Partition) : bool :=
  match s.(c_Nodes) !! partition.(p_LeaderId) with
  | None => false
  | Some partitionNode =>
      (((default zero_node_partition (node_partition partitionNode partition.(p_Id))).(np_State)
        =? NodePartitionStateInitialized)%Z && (partition.(p_LeaderId) =? nodeID)%string)%bool
  end.

Definition OnPartitionRoleChange (s : Store) : MM unit :=
  let isLeader := existsb (leads_initialized (ClusterState s) s.(s_raftID))
                    (iter Partition (ClusterState s).(c_Partitions)).*2 in
  m ← get;
  (if (isLeader && bool_decide (m.(jm_serverCtx) = None))%bool then start_server else mret tt) ;;
  m ← get;
  match m.(jm_serverCtx) with
  | Some ctx => if negb isLeader then stop_server ctx else mret tt
  | None => mret tt
  end ;;
  on_client (updateNodeSubs iter s).

(** ** The handlers of the cluster server

    The error field of the response; FailJob also returns the error, and a
    caller then gets no response. *)
Definition server_CompleteJob (completer : JobCompleter) (req : CompleteJobRequest)
    : MM (option ErrorResult) :=
  match json_Unmarshal req.(cjr_Variables) with
  | Bad e =>
      mret (Some (ToProtoError TechnicalErrorCode (errw! "failed to unmarshal job input variables: %w" [e])))
  | Good vars =>
      r ← attempt (CompleteJob completer req.(cjr_Key) vars);
      match r with
      | Good _ => mret None
      | Bad e =>
          mret (Some (if isErrNotFound e then ToProtoError NotFoundCode (err! "job %d not found")
                      else ToProtoError TechnicalErrorCode (errw! "failed to complete job %d: %w" [e])))
      end
  end.

Definition server_FailJob (completer : JobCompleter) (req : FailJobRequest) : MM (option ErrorResult) :=
  match json_Unmarshal req.(fjr_Variables) with
  | Bad e => throw (errw! "failed to unmarshal job input variables: %w" [e])
  | Good vars =>
      wrap (λ e, errw! "failed to fail job %d: %w" [e])
        (FailJob completer req.(fjr_Key) req.(fjr_Message) req.(fjr_ErrorCode) vars) ;;
      mret None
  end.

(** ZenNode.CompleteJob (internal/cluster/node.go), the completion over REST:
    the error of the response is returned. *)
Definition node_CompleteJob (s : Store) (key : Z) (variables : vars) : ST ClientManager unit :=
  client ← wrap (λ e, ClusterError (errw! "failed to get client: %w" [e]))
    (PartitionLeader s (GetPartitionId key));
  vars ← wrap_result (λ e, BadRequest (errw! "failed marshal variables: %w" [e])) (json_Marshal variables);
  resp ← wrap_result (λ e, TechnicalError (errw! "client call to complete job %d failed: %w" [e]))
    (rpc_CompleteJob client {| cjr_Key := key; cjr_Variables := vars; cjr_ClientId := "" |});
  match resp with
  | Some e => throw (ToZenError e (err! "client call to complete job %d failed"))
  | None => mret tt
  end.

(** ** The job streams of the public API *)

(** The client id of the metadata, or a new uuid. *)
Definition getClientID (clientIDs : option (list string)) : string :=
  match clientIDs with Some [c] => c | _ => "" end.

Definition stream_clientID (clientIDs : option (list string)) (uuid : string) : string :=
  let clientID := getClientID clientIDs in
  if (clientID =? "")%string then uuid else clientID.

Inductive JobStreamRequest :=
| JobStreamRequest_Complete (key : Z) (variables : string)
| JobStreamRequest_Fail (key : Z) (message : string) (errorCode : option string) (variables : string)
| Subscription_UNDEFINED
| Subscription_SUBSCRIBE (jobType : string)
| Subscription_UNSUBSCRIBE (jobType : string)
| Subscription_other
| JobStreamRequest_other.

(** The error responses are the key of the job with the error. *)
Definition answer_errors (m : MM unit) (failed : error → error) (key : Z) : MM (option (Z * error)) :=
  r ← attempt m;
  match r with Good _ => mret None | Bad e => mret (Some (key, failed e)) end.

(** One request of the loop of recvClientRequests: what is sent back. *)
Definition recvClientRequest (s : Store) (clientID : string) (req : JobStreamRequest)
    : MM (option (Z * error)) :=
  match req with
  | JobStreamRequest_Complete key variables =>
      match json_Unmarshal variables with
      | Bad e => mret (Some (key, err! "Failed to unmarshal variables: %s"))
      | Good vars => answer_errors (CompleteJobReq s clientID key vars)
                       (λ e, err! "Failed to complete job: %s") key
      end
  | JobStreamRequest_Fail key message errorCode variables =>
      match json_Unmarshal variables with
      | Bad e => mret (Some (key, err! "Failed to unmarshal variables: %s"))
      | Good vars => answer_errors (FailJobReq s clientID key message errorCode vars)
                       (λ e, err! "Failed to fail job: %s") key
      end
  | Subscription_UNDEFINED => mret None
  | Subscription_SUBSCRIBE jobType => AddClientJobSub clientID jobType ;; mret None
  | Subscription_UNSUBSCRIBE jobType => RemoveClientJobSub clientID jobType ;; mret None
  | Subscription_other => panic "unexpected proto.StreamSubscriptionRequest_Type: %#v"
  | JobStreamRequest_other => panic "unexpected proto.isJobStreamRequest_Request: %#v"
  end.

(** JobStream up to the two goroutines: the channel is new. *)
Definition JobStream (ctx : Z) (clientIDs : option (list string)) (uuid : string) (clientCh : Z) : MM string :=
  let clientID := stream_clientID clientIDs uuid in
  wrap (λ e, errw! "failed to add client: %w" [e]) (AddClient ctx clientID clientCh) ;;
  mret clientID.
End manager.

(** ** The goroutines of the job client

    The distributor takes a job from jobsChan and hands it to its client; the
    goroutine of a client, one per channel, receives jobs until its stream is
    done, and then removes the client.  [Waiting] is a goroutine at its select,
    [Busy] one that sends a received job to its stream, [Removing] one that
    called RemoveClient. *)
Inductive client_state := Waiting | Busy | Removing.

Record ClientThreads := {
  ct_client : jobClient;
  ct_distributor : option (clientSub * Job);
  ct_threads : gmap Z (clientSub * client_state)
}.

Definition set_readers (s : gset Z) (c : jobClient) : jobClient :=
  set_jc_channels s c.(jc_closed) c.(jc_delivered) c.

Section threads.
Context `{Rpc}.

(** The steps: the distributor takes a job, and waits at the channel when the
    goroutine of the client is not there; the channel passes the job; a client
    has received something, goes back to its select, loses its connection,
    starts to remove itself, and is removed; a new client comes. *)
Inductive thread_step : ClientThreads → ClientThreads → Prop :=
| th_distribute c job c' th :
    sendJobToClient job c = (Ret tt, c') →
    thread_step {| ct_client := c; ct_distributor := None; ct_threads := th |}
                {| ct_client := c'; ct_distributor := None; ct_threads := th |}
| th_distribute_wait c job c' sub th :
    c.(jc_clientMu).(rw_writer) = false →
    c.(jc_clientSubs) !! job.(jb_ClientID) = Some sub → sub.(cs_ctx) ∉ c.(jc_cancelled) →
    sendJobToClient job c = (Block, c') →
    thread_step {| ct_client := c; ct_distributor := None; ct_threads := th |}
                {| ct_client := c'; ct_distributor := Some (sub, job); ct_threads := th |}
| th_hand_over c sub job c' th :
    hand_over sub job c = (Ret tt, c') →
    thread_step {| ct_client := c; ct_distributor := Some (sub, job); ct_threads := th |}
                {| ct_client := c'; ct_distributor := None; ct_threads := th |}
| th_received c d th sub :
    th !! sub.(cs_ch) = Some (sub, Waiting) →
    sub.(cs_ch) ∉ c.(jc_readers) ∨ sub.(cs_ch) ∈ c.(jc_closed) →
    thread_step {| ct_client := c; ct_distributor := d; ct_threads := th |}
                {| ct_client := c; ct_distributor := d; ct_threads := <[sub.(cs_ch) := (sub, Busy)]> th |}
| th_wait c d th sub :
    th !! sub.(cs_ch) = Some (sub, Busy) →
    thread_step {| ct_client := c; ct_distributor := d; ct_threads := th |}
                {| ct_client := set_readers ({[sub.(cs_ch)]} ∪ c.(jc_readers)) c; ct_distributor := d;
                   ct_threads := <[sub.(cs_ch) := (sub, Waiting)]> th |}
| th_disconnect c d th ctx :
    thread_step {| ct_client := c; ct_distributor := d; ct_threads := th |}
                {| ct_client := set_jc_contexts ({[ctx]} ∪ c.(jc_cancelled)) c; ct_distributor := d;
                   ct_threads := th |}
| th_leave c d th sub :
    th !! sub.(cs_ch) = Some (sub, Waiting) → sub.(cs_ctx) ∈ c.(jc_cancelled) →
    sub.(cs_ch) ∈ c.(jc_readers) →
    thread_step {| ct_client := c; ct_distributor := d; ct_threads := th |}
                {| ct_client := set_readers (c.(jc_readers) ∖ {[sub.(cs_ch)]}) c; ct_distributor := d;
                   ct_threads := <[sub.(cs_ch) := (sub, Removing)]> th |}
| th_removed c d th sub c' :
    th !! sub.(cs_ch) = Some (sub, Removing) → jc_removeClient sub.(cs_clientID) c = (Ret tt, c') →
    thread_step {| ct_client := c; ct_distributor := d; ct_threads := th |}
                {| ct_client := c'; ct_distributor := d; ct_threads := delete sub.(cs_ch) th |}
| th_add c d th id ctx ch c' :
    addClient ctx id ch c = (Ret tt, c') →
    th !! ch = None → ch ∉ c.(jc_closed) → ch ∉ c.(jc_readers) →
    thread_step {| ct_client := c; ct_distributor := d; ct_threads := th |}
                {| ct_client := c'; ct_distributor := d;
                   ct_threads := <[ch := ({| cs_ctx := ctx; cs_ch := ch; cs_clientID := id |}, Busy)]> th |}.
End threads.
