(* ===== verification/JobClientProps.v ===== *)
(** The job client: jobs reach the client they are for and the channels are used
    safely, what a client that disconnects can do to the distribution, which
    streams a node has, and what a client learns of a refused completion. *)
From S2P Require Import Prelude ZenErr Monad Runtime ClusterState ClusterStore Zenflake JobServer JobClient.
From S2P Require Import Messages JobManager ClusterProps.

(** ** Requests to the leaders *)

Section broadcast.
Context `{Rpc}.

Definition accepted (req : SubscribeJobRequest) (streams : list clientNodeStream)
    : list (Z * SubscribeJobRequest) :=
  (λ s, (s.(cns_stream), req)) <$> filter (λ s, stream_Send s.(cns_stream) req = None) streams.

Lemma send_loop req streams err c :
  ∃ err', for_fold streams err (send_to req) c =
    (Ret err', set_jc_streams (c.(jc_sent) ++ accepted req streams) c.(jc_closedStreams) c).
Proof.
  revert err c. induction streams as [|s streams IH]; intros err c.
  { exists err. unfold accepted. simpl. rewrite app_nil_r. by destruct c. }
  simpl. unfold accepted. rewrite filter_cons.
  destruct (stream_Send (cns_stream s) req) as [e|] eqn:E.
  - rewrite decide_False by done.
    destruct (IH (join_opt err (errw! "failed to send request to nodeID %s: %w" [e])) c) as [err' IH'].
    exists err'. erewrite bind_step by (unfold send_to; rewrite E; reflexivity). exact IH'.
  - rewrite decide_True by done.
    destruct (IH err (set_jc_streams (c.(jc_sent) ++ [(s.(cns_stream), req)]) c.(jc_closedStreams) c))
      as [err' IH'].
    exists err'. erewrite bind_step by (unfold send_to; rewrite E; reflexivity).
    rewrite IH'. simpl. by rewrite <- app_assoc.
Qed.

(** The state after a broadcast that had the lock. *)
Definition broadcasted (req : SubscribeJobRequest) (c : jobClient) : jobClient :=
  set_jc_nodeMu {| rw_writer := false; rw_readers := c.(jc_nodeMu).(rw_readers) + 1 - 1 |}
    (set_jc_streams (c.(jc_sent) ++ accepted req c.(jc_nodeStreams)) c.(jc_closedStreams) c).

Lemma broadcast_run req c :
  c.(jc_nodeMu).(rw_writer) = false →
  ∃ r, attempt (broadcastToNodes req) c = (Ret r, broadcasted req c).
Proof.
  intros Hw. unfold broadcastToNodes. unfold attempt.
  erewrite bind_step by (unfold jc_nodeMu_RLock, RLock; rewrite Hw; reflexivity).
  set (c1 := set_jc_nodeMu _ c).
  destruct (send_loop req c.(jc_nodeStreams) None c1) as [err E].
  unfold deferred. destruct err as [e|].
  - erewrite bind_step.
    2:{ unfold attempt. erewrite (bind_step get) by reflexivity. erewrite bind_step by exact E. reflexivity. }
    exists (Bad e). reflexivity.
  - erewrite bind_step.
    2:{ unfold attempt. erewrite (bind_step get) by reflexivity. erewrite bind_step by exact E. reflexivity. }
    exists (Good tt). reflexivity.
Qed.

Lemma broadcast_block req c :
  c.(jc_nodeMu).(rw_writer) = true → attempt (broadcastToNodes req) c = (Block, c).
Proof.
  intros Hw. unfold attempt, broadcastToNodes, jc_nodeMu_RLock, RLock, mbind, ST_bind. by rewrite Hw.
Qed.

(** ** Clients *)

(** A client is removed: it is forgotten and its channel closed. *)
Definition forget (id : string) (sub : clientSub) (c : jobClient) : jobClient :=
  set_jc_channels (c.(jc_readers) ∖ {[sub.(cs_ch)]}) ({[sub.(cs_ch)]} ∪ c.(jc_closed)) c.(jc_delivered)
    (set_jc_clientSubs (delete id c.(jc_clientSubs)) (broadcasted (TYPE_UNSUBSCRIBE_ALL id) c)).

Definition removed (id : string) (c : jobClient) : jobClient :=
  match c.(jc_clientSubs) !! id with None => c | Some sub => forget id sub c end.

Definition is_free (m : RWMutex) : Prop := m = free_mutex.

Lemma Lock_run {T} gt st (s : T) :
  (gt s = free_mutex ∧ Lock gt st s = (Ret tt, st {| rw_writer := true; rw_readers := 0 |} s)) ∨
  (gt s ≠ free_mutex ∧ Lock gt st s = (Block, s)).
Proof.
  unfold Lock, free_mutex. destruct (gt s) as [w r]. simpl. destruct w; simpl; [by right|].
  destruct (Z.eqb_spec r 0) as [->|Hr]; simpl; [by left|right]. split; [congruence|done].
Qed.

Lemma removeClient_run id c :
  (∀ sub, c.(jc_clientSubs) !! id = Some sub → sub.(cs_ch) ∉ c.(jc_closed)) →
  (jc_removeClient id c).1 = Block ∨
  (c.(jc_clientMu) = free_mutex ∧
   jc_removeClient id c = (Ret tt, set_jc_clientMu free_mutex (removed id c))).
Proof.
  intros Hch. unfold jc_removeClient, removed.
  destruct (Lock_run jc_clientMu set_jc_clientMu c) as [[Hmu E]|[Hmu E]].
  2:{ left. unfold jc_clientMu_Lock, mbind, ST_bind. by rewrite E. }
  erewrite bind_step by exact E. unfold deferred. set (c1 := set_jc_clientMu _ c).
  destruct (c.(jc_clientSubs) !! id) as [sub|] eqn:Es.
  2:{ right. split; [done|].
      erewrite bind_step.
      2:{ apply attempt_run. erewrite (bind_step get) by reflexivity. simpl. rewrite Es. reflexivity. }
      reflexivity. }
  destruct (c1.(jc_nodeMu).(rw_writer)) eqn:Hw.
  { left. unfold mbind at 1, ST_bind at 1. unfold attempt at 1.
    erewrite (bind_step get) by reflexivity. simpl. rewrite Es.
    unfold mbind at 1, ST_bind at 1. by rewrite broadcast_block. }
  right. split; [done|].
  destruct (broadcast_run (TYPE_UNSUBSCRIBE_ALL id) c1 Hw) as [r Er].
  erewrite bind_step.
  2:{ apply attempt_run. erewrite (bind_step get) by reflexivity. simpl. rewrite Es.
      erewrite bind_step by exact Er. erewrite bind_step by reflexivity.
      unfold chan_close. simpl. rewrite decide_False by (by apply Hch). reflexivity. }
  reflexivity.
Qed.

Lemma removeClient_locked id c : c.(jc_clientMu) ≠ free_mutex → jc_removeClient id c = (Block, c).
Proof.
  intros Hmu. unfold jc_removeClient, jc_clientMu_Lock.
  destruct (Lock_run jc_clientMu set_jc_clientMu c) as [[? _]|[_ E]]; [done|].
  unfold mbind, ST_bind. by rewrite E.
Qed.

Lemma addClient_locked ctx id ch c : c.(jc_clientMu) ≠ free_mutex → addClient ctx id ch c = (Block, c).
Proof.
  intros Hmu. unfold addClient, jc_clientMu_Lock.
  destruct (Lock_run jc_clientMu set_jc_clientMu c) as [[? _]|[_ E]]; [done|].
  unfold mbind, ST_bind. by rewrite E.
Qed.

Definition added (ctx : Z) (id : string) (ch : Z) (c : jobClient) : jobClient :=
  set_jc_clientSubs (<[id := {| cs_ctx := ctx; cs_ch := ch; cs_clientID := id |}]> c.(jc_clientSubs)) c.

Lemma addClient_Ret ctx id ch c c' :
  addClient ctx id ch c = (Ret tt, c') →
  c.(jc_clientMu) = free_mutex ∧ c.(jc_clientSubs) !! id = None ∧
  c' = set_jc_clientMu free_mutex (added ctx id ch c).
Proof.
  intros E. destruct (decide (c.(jc_clientMu) = free_mutex)) as [Hmu|Hmu].
  2:{ by rewrite addClient_locked in E. }
  unfold addClient, jc_clientMu_Lock in E.
  destruct (Lock_run jc_clientMu set_jc_clientMu c) as [[_ E1]|[? _]]; [|done].
  erewrite bind_step in E by exact E1. unfold deferred, attempt in E.
  unfold mbind, ST_bind, get in E. simpl in E. destruct (jc_clientSubs c !! id) eqn:Es; [done|].
  simpl in E. split_and!; [done|done|]. by injection E as <-.
Qed.

(** What the distributor does with a job. *)
Definition read_locked (c : jobClient) : jobClient :=
  set_jc_clientMu {| rw_writer := false; rw_readers := c.(jc_clientMu).(rw_readers) + 1 |} c.

Lemma hand_over_run sub job c :
  sub.(cs_ch) ∉ c.(jc_closed) →
  hand_over sub job c =
    if decide (sub.(cs_ch) ∈ c.(jc_readers)) then
      (Ret tt, set_jc_clientMu {| rw_writer := false; rw_readers := c.(jc_clientMu).(rw_readers) - 1 |}
        (set_jc_channels (c.(jc_readers) ∖ {[sub.(cs_ch)]}) c.(jc_closed)
           (c.(jc_delivered) ++ [(sub.(cs_ch), job)]) c))
    else (Block, c).
Proof.
  intros Hch. unfold hand_over, chan_send, mbind, ST_bind. rewrite decide_False by done.
  by case_decide.
Qed.

Lemma sendJobToClient_waits job sub c :
  c.(jc_clientMu).(rw_writer) = false → c.(jc_clientSubs) !! job.(jb_ClientID) = Some sub →
  sub.(cs_ctx) ∉ c.(jc_cancelled) →
  sendJobToClient job c = hand_over sub job (read_locked c).
Proof.
  intros Hw Hs Hctx. unfold sendJobToClient.
  erewrite bind_step by (unfold jc_clientMu_RLock, RLock; rewrite Hw; reflexivity).
  erewrite (bind_step get) by reflexivity. simpl. rewrite Hs. by rewrite decide_False.
Qed.

End broadcast.

(** ** The goroutines of the job client *)

Section threads.
Context `{Rpc}.

Abbreviation step := thread_step.

(** The goroutine of a registered client runs, its channel is open; the lock is
    held exactly while the distributor waits. *)
Record threads_ok (t : ClientThreads) : Prop := {
  ok_lock : t.(ct_client).(jc_clientMu) =
    match t.(ct_distributor) with
    | None => free_mutex
    | Some _ => {| rw_writer := false; rw_readers := 1 |}
    end;
  ok_registered id sub : t.(ct_client).(jc_clientSubs) !! id = Some sub →
    sub.(cs_clientID) = id ∧ (sub.(cs_ch) ∉ t.(ct_client).(jc_closed)) ∧
    ∃ st, t.(ct_threads) !! sub.(cs_ch) = Some (sub, st);
  ok_distributor sub job : t.(ct_distributor) = Some (sub, job) →
    t.(ct_client).(jc_clientSubs) !! job.(jb_ClientID) = Some sub }.

(** Two clients have two channels. *)
Lemma channels_differ t id1 id2 sub1 sub2 :
  threads_ok t → t.(ct_client).(jc_clientSubs) !! id1 = Some sub1 →
  t.(ct_client).(jc_clientSubs) !! id2 = Some sub2 → sub1.(cs_ch) = sub2.(cs_ch) → id1 = id2.
Proof.
  intros Hok H1 H2 E. destruct (ok_registered _ Hok _ _ H1) as (<- & _ & st1 & E1).
  destruct (ok_registered _ Hok _ _ H2) as (<- & _ & st2 & E2). rewrite E in E1. congruence.
Qed.

Lemma removed_ok t id (c' : jobClient) th' :
  threads_ok t → t.(ct_distributor) = None →
  c' = set_jc_clientMu free_mutex (removed id t.(ct_client)) →
  (∀ id' sub st, id' ≠ id → sub.(cs_clientID) = id' → t.(ct_threads) !! sub.(cs_ch) = Some (sub, st) →
     th' !! sub.(cs_ch) = Some (sub, st)) →
  threads_ok {| ct_client := c'; ct_distributor := None; ct_threads := th' |}.
Proof.
  intros Hok Hd -> Hth. split; simpl; [done| |done].
  intros id' sub Hs. unfold removed in *. destruct (jc_clientSubs (ct_client t) !! id) as [sub0|] eqn:E0.
  - simpl in *. apply lookup_delete_Some in Hs as [Hne Hs].
    destruct (ok_registered _ Hok _ _ Hs) as (Hid & Hcl & st & Est). split_and!; [done| |].
    + intros [E%elem_of_singleton|]%elem_of_union; [|done].
      apply Hne. symmetry. by eapply channels_differ.
    + exists st. by eapply Hth.
  - destruct (ok_registered _ Hok _ _ Hs) as (Hid & Hcl & st & Est). split_and!; [done|done|].
    exists st. eapply Hth; [|done..]. by intros ->; congruence.
Qed.

Lemma sendJobToClient_run t job :
  threads_ok t → t.(ct_distributor) = None →
  let c := t.(ct_client) in
  (sendJobToClient job c).1 = Block ∨
  sendJobToClient job c = (Ret tt, set_jc_clientMu free_mutex c) ∨
  (sendJobToClient job c = (Ret tt, set_jc_clientMu free_mutex (removed job.(jb_ClientID) c))) ∨
  ∃ sub, c.(jc_clientSubs) !! job.(jb_ClientID) = Some sub ∧ sub.(cs_ch) ∈ c.(jc_readers) ∧
    sendJobToClient job c = (Ret tt, set_jc_clientMu free_mutex
      (set_jc_channels (c.(jc_readers) ∖ {[sub.(cs_ch)]}) c.(jc_closed)
         (c.(jc_delivered) ++ [(sub.(cs_ch), job)]) c)).
Proof.
  intros Hok Hd c. pose proof (ok_lock _ Hok) as Hmu. rewrite Hd in Hmu. fold c in Hmu.
  destruct (c.(jc_clientSubs) !! job.(jb_ClientID)) as [sub|] eqn:Es.
  2:{ right; left. unfold sendJobToClient.
      erewrite bind_step by (unfold jc_clientMu_RLock, RLock; rewrite Hmu; reflexivity).
      erewrite (bind_step get) by reflexivity. simpl. rewrite Es. reflexivity. }
  destruct (ok_registered _ Hok _ _ Es) as (Hid & Hcl & _).
  destruct (decide (sub.(cs_ctx) ∈ c.(jc_cancelled))) as [Hin|Hout].
  - assert (E : sendJobToClient job c =
      jc_removeClient job.(jb_ClientID) (set_jc_clientMu free_mutex c)).
    { unfold sendJobToClient.
      erewrite bind_step by (unfold jc_clientMu_RLock, RLock; rewrite Hmu; reflexivity).
      erewrite (bind_step get) by reflexivity. simpl. rewrite Es, decide_True by done.
      erewrite bind_step by reflexivity. by rewrite Hid. }
    rewrite E.
    destruct (removeClient_run job.(jb_ClientID) (set_jc_clientMu free_mutex c)) as [Hb|[_ Hr]].
    + simpl. intros sub' Hs'. by apply (ok_registered _ Hok job.(jb_ClientID)).
    + by left.
    + right; right; left. rewrite Hr. unfold removed. simpl. by rewrite Es.
  - rewrite (sendJobToClient_waits job sub) by first [done|by rewrite Hmu].
    rewrite hand_over_run by done. simpl. case_decide; [|by left].
    right; right; right. exists sub. split; [done|]. split; [done|]. by rewrite Hmu.
Qed.

(** A change of the threads and the readers keeps the registered clients. *)
Lemma same_clients_ok t c' th' :
  threads_ok t → c'.(jc_clientMu) = t.(ct_client).(jc_clientMu) →
  c'.(jc_clientSubs) = t.(ct_client).(jc_clientSubs) → c'.(jc_closed) = t.(ct_client).(jc_closed) →
  (∀ sub st, t.(ct_threads) !! sub.(cs_ch) = Some (sub, st) → ∃ st', th' !! sub.(cs_ch) = Some (sub, st')) →
  threads_ok {| ct_client := c'; ct_distributor := t.(ct_distributor); ct_threads := th' |}.
Proof.
  intros Hok Hmu Hs Hcl Hth. split; simpl; [by rewrite Hmu; apply Hok|..].
  - intros id sub. rewrite Hs, Hcl. intros (? & ? & st & E)%(ok_registered _ Hok). split_and!; [done..|].
    by eapply Hth.
  - intros sub job. rewrite Hs. by apply (ok_distributor _ Hok).
Qed.

Lemma set_thread (th : gmap Z (clientSub * client_state)) sub st1 st2 :
  th !! sub.(cs_ch) = Some (sub, st1) →
  ∀ sub' st, th !! sub'.(cs_ch) = Some (sub', st) →
  ∃ st', <[sub.(cs_ch) := (sub, st2)]> th !! sub'.(cs_ch) = Some (sub', st').
Proof.
  intros E sub' st E'. destruct (decide (sub.(cs_ch) = sub'.(cs_ch))) as [Eq|Hne].
  - rewrite <- Eq in *. rewrite E in E'. injection E' as <- _. exists st2. by rewrite lookup_insert_eq.
  - exists st. by rewrite lookup_insert_ne.
Qed.

Lemma thread_step_ok t t' : step t t' → threads_ok t → threads_ok t'.
Proof.
  destruct 1 as [c job c' th E|c job c' sub th Hw Hs Hctx E|c sub job c' th E|c d th sub Hth _
    |c d th sub Hth|c d th ctx|c d th sub Hth _ _|c d th sub c' Hth E|c d th id ctx ch c' E Hth Hcl _];
    intros Hok.
  - destruct (sendJobToClient_run _ job Hok eq_refl) as [Hb|[E'|[E'|(sub & Hs & _ & E')]]]; simpl in *;
      [by rewrite E in Hb|rewrite E in E'; injection E' as ->..].
    + eapply (same_clients_ok {| ct_client := c; ct_distributor := None; ct_threads := th |}); eauto.
      symmetry. apply (ok_lock _ Hok).
    + eapply (removed_ok {| ct_client := c; ct_distributor := None; ct_threads := th |}); eauto.
    + eapply (same_clients_ok {| ct_client := c; ct_distributor := None; ct_threads := th |}); eauto.
      symmetry. apply (ok_lock _ Hok).
  - rewrite (sendJobToClient_waits job sub) in E by done.
    destruct (ok_registered _ Hok _ _ Hs) as (_ & Hcl & _). simpl in Hcl.
    rewrite hand_over_run in E by done. case_decide; [done|]. injection E as <-.
    split; simpl; [|by apply (ok_registered _ Hok)|by intros ?? [= <- <-]].
    pose proof (ok_lock _ Hok) as Hmu. simpl in Hmu. by rewrite Hmu.
  - pose proof (ok_distributor _ Hok _ _ eq_refl) as Hs. simpl in Hs.
    destruct (ok_registered _ Hok _ _ Hs) as (_ & Hcl & _). simpl in Hcl.
    rewrite hand_over_run in E by done. case_decide; [|done]. injection E as <-.
    split; simpl; [|by apply (ok_registered _ Hok)|done].
    pose proof (ok_lock _ Hok) as Hmu. simpl in Hmu. by rewrite Hmu.
  - eapply (same_clients_ok {| ct_client := c; ct_distributor := d; ct_threads := th |}); eauto.
    by eapply set_thread.
  - eapply (same_clients_ok {| ct_client := c; ct_distributor := d; ct_threads := th |}); eauto.
    by eapply set_thread.
  - by eapply (same_clients_ok {| ct_client := c; ct_distributor := d; ct_threads := th |}); eauto.
  - eapply (same_clients_ok {| ct_client := c; ct_distributor := d; ct_threads := th |}); eauto.
    by eapply set_thread.
  - destruct (removeClient_run sub.(cs_clientID) c) as [Hb|[Hmu E']];
      [intros sub' Hs'; by apply (ok_registered _ Hok sub.(cs_clientID))|by rewrite E in Hb|].
    rewrite E in E'. injection E' as ->. pose proof (ok_lock _ Hok) as Hl. simpl in Hl. rewrite Hmu in Hl.
    destruct d; [done|].
    eapply (removed_ok {| ct_client := c; ct_distributor := None; ct_threads := th |}); eauto.
    simpl. intros id' sub' st Hne Hid Hs'. rewrite lookup_delete_ne; [done|].
    intros Eq. rewrite Eq in Hth. congruence.
  - apply addClient_Ret in E as (Hmu & Hs & ->). pose proof (ok_lock _ Hok) as Hl. simpl in Hl.
    rewrite Hmu in Hl. destruct d; [done|]. split; simpl; [done| |done].
    intros id' sub. destruct (decide (id = id')) as [<-|Hne].
    + rewrite lookup_insert_eq. intros [= <-]. simpl. split_and!; [done|done|].
      eexists. by rewrite lookup_insert_eq.
    + rewrite lookup_insert_ne by done. intros (? & ? & st & E)%(ok_registered _ Hok).
      split_and!; [done..|]. simpl in E. exists st. rewrite lookup_insert_ne; [done|]. congruence.
Qed.

Lemma threads_ok_reachable t t' : threads_ok t → rtc step t t' → threads_ok t'.
Proof. intros Hok Hr. induction Hr; [done|]. eauto using thread_step_ok. Qed.

Lemma threads_ok_init nodeID manager :
  threads_ok {| ct_client := newJobClient nodeID manager; ct_distributor := None; ct_threads := ∅ |}.
Proof. by split. Qed.

(** What a step adds to the jobs that were received. *)
Lemma thread_step_delivered t t' :
  step t t' → threads_ok t →
  t'.(ct_client).(jc_delivered) = t.(ct_client).(jc_delivered) ∨
  ∃ job sub, t.(ct_client).(jc_clientSubs) !! job.(jb_ClientID) = Some sub ∧
    sub.(cs_ch) ∈ t.(ct_client).(jc_readers) ∧
    t'.(ct_client).(jc_delivered) = t.(ct_client).(jc_delivered) ++ [(sub.(cs_ch), job)].
Proof.
  destruct 1 as [c job c' th E|c job c' sub th Hw Hs Hctx E|c sub job c' th E|c d th sub Hth _
    |c d th sub Hth|c d th ctx|c d th sub Hth _ _|c d th sub c' Hth E|c d th id ctx ch c' E Hth Hcl _];
    intros Hok; simpl; try by left.
  - destruct (sendJobToClient_run _ job Hok eq_refl) as [Hb|[E'|[E'|(sub & Hs & Hr & E')]]]; simpl in *;
      [by rewrite E in Hb|rewrite E in E'; injection E' as ->..].
    + by left.
    + left. unfold removed. by destruct (_ !! _).
    + right. by exists job, sub.
  - rewrite (sendJobToClient_waits job sub) in E by done.
    destruct (ok_registered _ Hok _ _ Hs) as (_ & Hcl & _). simpl in Hcl.
    rewrite hand_over_run in E by done. case_decide; [done|]. injection E as <-. by left.
  - pose proof (ok_distributor _ Hok _ _ eq_refl) as Hs. simpl in Hs.
    destruct (ok_registered _ Hok _ _ Hs) as (_ & Hcl & _). simpl in Hcl.
    rewrite hand_over_run in E by done. case_decide; [|done]. injection E as <-.
    right. by exists job, sub.
  - destruct (removeClient_run sub.(cs_clientID) c) as [Hb|[Hmu E']];
      [intros sub' Hs'; by apply (ok_registered _ Hok sub.(cs_clientID))|by rewrite E in Hb|].
    rewrite E in E'. injection E' as ->. left. simpl. unfold removed.
    by destruct (jc_clientSubs c !! cs_clientID sub).
  - apply addClient_Ret in E as (_ & _ & ->). by left.
Qed.

(** No call of the goroutines sends on a closed channel or closes one twice. *)
Definition no_channel_panic (t : ClientThreads) : Prop :=
  match t.(ct_distributor) with
  | None => ∀ job msg, (sendJobToClient job t.(ct_client)).1 ≠ Panic msg
  | Some (sub, job) => ∀ msg, (hand_over sub job t.(ct_client)).1 ≠ Panic msg
  end ∧
  ∀ id msg, (jc_removeClient id t.(ct_client)).1 ≠ Panic msg.

Lemma threads_ok_no_panic t : threads_ok t → no_channel_panic t.
Proof.
  intros Hok. split.
  - destruct t.(ct_distributor) as [[sub job]|] eqn:Hd.
    + intros msg. pose proof (ok_distributor _ Hok _ _ Hd) as Hs.
      destruct (ok_registered _ Hok _ _ Hs) as (_ & Hcl & _). rewrite hand_over_run by done.
      by case_decide.
    + intros job msg.
      by destruct (sendJobToClient_run _ job Hok Hd) as [->|[->|[->|(sub & _ & _ & ->)]]].
  - intros id msg. destruct (removeClient_run id t.(ct_client)) as [->|[_ ->]]; [|done..].
    intros sub Hs. by apply (ok_registered _ Hok id).
Qed.

(** C23: whatever clients come, lose their connection and leave while jobs
    arrive, the goroutines of the job client never send on a closed channel or
    close one twice, and a job that is received is received on the channel that
    is registered for the client the leader chose, by the goroutine that waits
    there. *)
Theorem jobs_reach_their_client nodeID manager t :
  rtc step {| ct_client := newJobClient nodeID manager; ct_distributor := None; ct_threads := ∅ |} t →
  no_channel_panic t ∧
  ∀ t', step t t' →
    t'.(ct_client).(jc_delivered) = t.(ct_client).(jc_delivered) ∨
    ∃ job sub, t.(ct_client).(jc_clientSubs) !! job.(jb_ClientID) = Some sub ∧
      sub.(cs_clientID) = job.(jb_ClientID) ∧ sub.(cs_ch) ∈ t.(ct_client).(jc_readers) ∧
      t'.(ct_client).(jc_delivered) = t.(ct_client).(jc_delivered) ++ [(sub.(cs_ch), job)].
Proof.
  intros Hr. pose proof (threads_ok_reachable _ _ (threads_ok_init nodeID manager) Hr) as Hok.
  split; [by apply threads_ok_no_panic|]. intros t' Hst.
  destruct (thread_step_delivered _ _ Hst Hok) as [|(job & sub & Hs & Hin & E)]; [by left|right].
  exists job, sub. split_and!; [done|by apply (ok_registered _ Hok _ _ Hs)|done|done].
Qed.

(** ** A client that disconnects while a job waits for it *)

(** The distributor waits for a goroutine that waits for the distributor. *)
Record stuck (sub : clientSub) (job : Job) (c0 : jobClient) (t : ClientThreads) : Prop := {
  st_distributor : t.(ct_distributor) = Some (sub, job);
  st_lock : t.(ct_client).(jc_clientMu) = {| rw_writer := false; rw_readers := 1 |};
  st_thread : t.(ct_threads) !! sub.(cs_ch) = Some (sub, Removing);
  st_reader : sub.(cs_ch) ∉ t.(ct_client).(jc_readers);
  st_clients : t.(ct_client).(jc_clientSubs) = c0.(jc_clientSubs);
  st_delivered : t.(ct_client).(jc_delivered) = c0.(jc_delivered) }.

Lemma stuck_step sub job c0 t t' : step t t' → stuck sub job c0 t → stuck sub job c0 t'.
Proof.
  destruct 1 as [c job' c' th E|c job' c' sub' th Hw Hs Hctx E|c sub' job' c' th E|c d th sub' Hth _
    |c d th sub' Hth|c d th ctx|c d th sub' Hth _ _|c d th sub' c' Hth E|c d th id ctx ch c' E Hth Hcl _];
    intros [Hd Hmu Ht Hr Hc Hdel]; simpl in *; try done.
  - injection Hd as -> ->. unfold hand_over, chan_send, mbind, ST_bind in E.
    case_decide; [done|]. by rewrite decide_False in E.
  - split; simpl; try done. rewrite lookup_insert_ne; [done|]. intros Eq. rewrite Eq in Hth. congruence.
  - assert (Hne : sub'.(cs_ch) ≠ sub.(cs_ch)) by (intros Eq; rewrite Eq in Hth; congruence).
    split; simpl; first [done|by rewrite lookup_insert_ne|set_solver].
  - assert (Hne : sub'.(cs_ch) ≠ sub.(cs_ch)) by (intros Eq; rewrite Eq in Hth; congruence).
    split; simpl; first [done|by rewrite lookup_insert_ne|set_solver].
  - by rewrite removeClient_locked in E by (by rewrite Hmu).
  - by rewrite addClient_locked in E by (by rewrite Hmu).
Qed.

(** A client whose stream ends while the distributor waits for it to take a
    job stops the distribution of the node: its goroutine waits for the lock
    that the distributor holds while it waits for the goroutine.  From then on
    no client is added or removed and no job is received by anyone. *)
Theorem disconnect_deadlocks_distribution c th sub job :
  c.(jc_clientMu) = free_mutex → c.(jc_clientSubs) !! job.(jb_ClientID) = Some sub →
  sub.(cs_ctx) ∉ c.(jc_cancelled) → sub.(cs_ch) ∉ c.(jc_closed) → sub.(cs_ch) ∉ c.(jc_readers) →
  th !! sub.(cs_ch) = Some (sub, Busy) →
  ∃ t, rtc step {| ct_client := c; ct_distributor := None; ct_threads := th |} t ∧
    ∀ t', rtc step t t' →
      t'.(ct_distributor) = Some (sub, job) ∧
      t'.(ct_client).(jc_delivered) = c.(jc_delivered) ∧
      t'.(ct_client).(jc_clientSubs) = c.(jc_clientSubs) ∧
      (∀ id, (jc_removeClient id t'.(ct_client)).1 = Block) ∧
      (∀ ctx id ch, (addClient ctx id ch t'.(ct_client)).1 = Block).
Proof.
  intros Hmu Hs Hctx Hcl Hr Hth.
  assert (Hsend : sendJobToClient job c = (Block, read_locked c)).
  { rewrite (sendJobToClient_waits job sub) by first [done|by rewrite Hmu].
    rewrite hand_over_run by done. by rewrite decide_False. }
  assert (H2 : ∀ t, stuck sub job c t → ∀ t', rtc step t t' → stuck sub job c t').
  { intros t Hst t' Hrt. induction Hrt; [done|]. eauto using stuck_step. }
  eexists. split.
  - eapply rtc_l; [eapply th_distribute_wait; [by rewrite Hmu|done|done|exact Hsend]|].
    eapply rtc_l; [by eapply th_wait|].
    eapply rtc_l; [apply (th_disconnect _ _ _ sub.(cs_ctx))|].
    eapply rtc_l; [eapply (th_leave _ _ _ sub); simpl|apply rtc_refl].
    + by rewrite lookup_insert_eq.
    + set_solver.
    + set_solver.
  - intros t' Hrt. apply H2 in Hrt as [Hd' Hmu' _ _ Hc' Hdel'].
    + split_and!; [done|done|done|..]; intros; [rewrite removeClient_locked|rewrite addClient_locked];
        try done; by rewrite Hmu'.
    + split; simpl; first [done|by rewrite Hmu|by rewrite lookup_insert_eq|set_solver].
Qed.
End threads.

(** ** The streams of a node *)

Section streams.
Context `{Rpc}.
Context (iter : ∀ (A : Type), gmap Z A → list (Z * A)).
Context (json_Marshal : vars → result string) (json_Unmarshal : string → result vars).

(** Streams are only closed, and requests only sent on streams that are there. *)
Definition only_closes (c c' : jobClient) : Prop :=
  sublist c'.(jc_nodeStreams) c.(jc_nodeStreams) ∧
  ∃ l, c'.(jc_sent) = c.(jc_sent) ++ l ∧ Forall (λ x, x.1 ∈ (cns_stream <$> c.(jc_nodeStreams))) l.

#[export] Instance only_closes_preorder : PreOrder only_closes.
Proof.
  split.
  - intros c. split; [done|]. exists []. by rewrite app_nil_r.
  - intros c1 c2 c3 [H1 (l1 & E1 & F1)] [H2 (l2 & E2 & F2)]. split; [by etrans|].
    exists (l1 ++ l2). rewrite E2, E1, <- app_assoc. split; [done|]. apply Forall_app. split; [done|].
    eapply Forall_impl; [exact F2|]. intros x Hx. eapply elem_of_sublist; [exact Hx|].
    by apply (fmap_sublist cns_stream).
Qed.

(** Everything that neither opens a stream nor sends a request. *)
Lemma quiet f : (∀ c, (f c).(jc_nodeStreams) = c.(jc_nodeStreams) ∧ (f c).(jc_sent) = c.(jc_sent)) →
  ∀ c, only_closes c (f c).
Proof. intros Hf c. destruct (Hf c) as [E1 E2]. split; [by rewrite E1|]. exists []. by rewrite app_nil_r. Qed.
Lemma pres_quiet f :
  (∀ c, (f c).(jc_nodeStreams) = c.(jc_nodeStreams) ∧ (f c).(jc_sent) = c.(jc_sent)) →
  pres only_closes (modify f).
Proof. intros Hf c. by apply quiet. Qed.
Lemma pres_zoom_manager {A} (m : ST ClientManager A) : pres only_closes (with_manager m).
Proof.
  intros c. unfold with_manager, zoom. destruct (m _) as [[] cm]; try done;
    by apply (quiet (set_jc_manager cm)).
Qed.
Lemma pres_Lock gt st : (∀ m, pres only_closes (modify (st m))) → pres only_closes (Lock gt st).
Proof. intros Hst c. unfold Lock. destruct (_ || _)%bool; [done|]. apply (Hst _ c). Qed.
Lemma pres_RLock gt st : (∀ m, pres only_closes (modify (st m))) → pres only_closes (RLock gt st).
Proof. intros Hst c. unfold RLock. destruct (rw_writer _); [done|]. apply (Hst _ c). Qed.
Lemma pres_chan_send ch job : pres only_closes (chan_send ch job).
Proof.
  intros c. unfold chan_send. repeat case_decide; try done.
  by apply (pres_quiet (λ c, set_jc_channels _ _ _ c)).
Qed.
Lemma pres_chan_close ch : pres only_closes (chan_close ch).
Proof. intros c. unfold chan_close. case_decide; [done|]. by apply (pres_quiet (λ c, set_jc_channels _ _ _ c)). Qed.

Lemma pres_broadcast req : pres only_closes (broadcastToNodes req).
Proof.
  intros c. destruct (c.(jc_nodeMu).(rw_writer)) eqn:Hw.
  - pose proof (broadcast_block req c Hw) as E. unfold attempt in E.
    by destruct (broadcastToNodes req c) as [[] ?].
  - destruct (broadcast_run req c Hw) as [r E]. unfold attempt in E.
    assert (Hb : only_closes c (broadcasted req c)).
    { split; [done|]. exists (accepted req c.(jc_nodeStreams)). split; [done|].
      apply Forall_forall. intros x (s & -> & [_ Hs]%list_elem_of_filter)%list_elem_of_fmap.
      apply list_elem_of_fmap. by exists s. }
    destruct (broadcastToNodes req c) as [[] ?]; simplify_eq; done.
Qed.

#[local] Ltac stream_step :=
  first [ frame_step | apply pres_broadcast | apply pres_zoom_manager
        | apply pres_Lock; intros ?; apply pres_quiet; intros ?; by split
        | apply pres_RLock; intros ?; apply pres_quiet; intros ?; by split
        | apply pres_chan_send | apply pres_chan_close
        | apply pres_quiet; intros ?; by split ].

Lemma pres_removeClient id : pres only_closes (jc_removeClient id).
Proof. unfold jc_removeClient. repeat stream_step. Qed.

Lemma review_streams_run leaders streams c :
  ∃ r c', review_streams leaders streams [] c = (Ret r, c') ∧ r.2 = [] ∧ sublist r.1 streams ∧
    c'.(jc_sent) = c.(jc_sent) ∧ c'.(jc_nodeStreams) = c.(jc_nodeStreams).
Proof.
  revert c. induction streams as [|s streams IH]; intros c; simpl.
  { exists ([], []), c. by split_and!. }
  destruct (IH c) as ([kept parts] & c' & E & Hp & Hs & Hsent & Hst). simpl in Hp, Hs. subst parts.
  erewrite bind_step by exact E.
  destruct (_ || _)%bool.
  { exists (kept, []). eexists. split; [reflexivity|]. split_and!; [done|by apply sublist_cons|done|done]. }
  destruct (leaders !! cns_partition s) as [l|].
  - destruct (negb _).
    + exists (kept, []). eexists. split; [reflexivity|]. split_and!; [done|by apply sublist_cons|done|done].
    + exists (s :: kept, []). exists c'. split_and!; [done|done|by apply sublist_skip|done|done].
  - exists (s :: kept, []), c'. split_and!; [done|done|by apply sublist_skip|done|done].
Qed.

Lemma pres_updateNodeSubs s : pres only_closes (updateNodeSubs iter s).
Proof.
  unfold updateNodeSubs. apply pres_bind; [apply _|apply pres_Lock; intros m; apply pres_quiet; by split|]. intros _ c.
  erewrite (bind_step get) by reflexivity.
  destruct (review_streams_run (leaders_of iter (ClusterState s)) c.(jc_nodeStreams) c)
    as (r & c' & E & Hp & Hs & Hsent & Hst).
  erewrite bind_step by exact E. erewrite bind_step by reflexivity.
  erewrite bind_step by reflexivity. rewrite Hp. simpl.
  split; [done|]. exists []. by rewrite app_nil_r.
Qed.

(** What the node does with its job client after it was started. *)
Inductive client_op :=
| CoStateChange (s : Store)
| CoRoleChange (s : Store)
| CoAddClient (ctx : Z) (clientId : string) (ch : Z)
| CoRemoveClient (clientId : string)
| CoJob (job : Job)
| CoRequest (s : Store) (clientId : string) (req : JobStreamRequest)
| CoServer {A} (m : JM A).

Definition run_client_op (o : client_op) : MM unit :=
  match o with
  | CoStateChange s => OnClusterStateChange s
  | CoRoleChange s => OnPartitionRoleChange iter s
  | CoAddClient ctx id ch => AddClient ctx id ch
  | CoRemoveClient id => RemoveClient id
  | CoJob job => on_client (sendJobToClient job)
  | CoRequest s id req => _ ← recvClientRequest json_Marshal json_Unmarshal s id req; mret tt
  | CoServer m => _ ← on_server m; mret tt
  end.

Definition manager_closes (m m' : JobManager) : Prop := only_closes m.(jm_client) m'.(jm_client).
#[export] Instance manager_closes_preorder : PreOrder manager_closes.
Proof. split; [intros m; red; done|]. intros m1 m2 m3 H1 H2. red. by etrans. Qed.

Lemma pres_on_client {A} (m : JC A) : pres only_closes m → pres manager_closes (on_client m).
Proof.
  intros Hm jm. specialize (Hm jm.(jm_client)). unfold on_client, zoom.
  by destruct (m (jm_client jm)) as [[] ?].
Qed.
Lemma pres_on_server {A} (m : JM A) : pres manager_closes (on_server m).
Proof.
  intros jm. unfold on_server. destruct (jm_server jm); [|red; reflexivity].
  destruct (m j) as [[] ?]; try done; red; reflexivity.
Qed.
Lemma pres_manager f : (∀ m, (f m).(jm_client) = m.(jm_client)) → pres manager_closes (modify f).
Proof. intros Hf m. unfold modify, manager_closes. by rewrite Hf. Qed.

Lemma run_client_op_closes o : pres manager_closes (run_client_op o).
Proof.
  destruct o as [s|s|ctx id ch|id|job|s id req|A m]; simpl;
    unfold OnClusterStateChange, OnPartitionRoleChange, AddClient, RemoveClient, recvClientRequest,
      answer_errors, CompleteJobReq, FailJobReq, AddClientJobSub, RemoveClientJobSub, start_server, stop_server;
    repeat first [ frame_step | apply pres_manager; intros ?; done | apply pres_on_server ];
    apply pres_on_client; first [apply pres_updateNodeSubs | apply pres_removeClient
      | unfold addClient, sendJobToClient, hand_over, jc_completeJob, jc_failJob, addJobSub, removeJobSub;
        repeat first [stream_step | apply pres_removeClient]].
Qed.

Definition client_step (m m' : JobManager) : Prop :=
  ∃ o r, run_client_op o m = (r, m') ∧ returns r.

Lemma client_steps_close m m' : rtc client_step m m' → manager_closes m m'.
Proof.
  induction 1 as [m|m1 m2 m3 (o & r & E & Hr) _ IH]; [reflexivity|]. etrans; [|exact IH].
  by eapply pres_returns; [apply run_client_op_closes|exact E|].
Qed.

Lemma broadcast_to_nobody req c :
  c.(jc_nodeMu).(rw_writer) = false → c.(jc_nodeStreams) = [] → (broadcastToNodes req c).1 = Ret tt.
Proof.
  intros Hw Hs. unfold broadcastToNodes.
  erewrite bind_step by (unfold jc_nodeMu_RLock, RLock; rewrite Hw; reflexivity).
  unfold deferred. erewrite bind_step; [|apply attempt_run; erewrite (bind_step get) by reflexivity;
    simpl; rewrite Hs; reflexivity]. reflexivity.
Qed.

(** A node that starts when the cluster has no partition yet never asks a
    leader for jobs: whatever happens to the cluster state and the leaders
    afterwards, and whatever its clients request, it has no stream to a leader
    and has sent nothing, while a client that subscribes to a job type gets no
    error. *)
Theorem leaders_after_start_are_not_asked s manager m :
  iter Partition ∅ = [] → s.(s_state).(c_Partitions) = ∅ →
  rtc client_step (Start iter s (NewJobManager s manager)).2 m →
  m.(jm_client).(jc_nodeStreams) = [] ∧ m.(jm_client).(jc_sent) = [] ∧
  (m.(jm_client).(jc_nodeMu).(rw_writer) = false →
   ∀ clientId jobType, (AddClientJobSub clientId jobType m).1 = Ret tt).
Proof.
  intros Hi Hs Hr. apply client_steps_close in Hr as [H1 (l & E & F)].
  assert (Hst : (Start iter s (NewJobManager s manager)).2.(jm_client) = newJobClient s.(s_raftID) manager).
  { unfold Start, subscribeNode, ClusterState. by rewrite Hs, Hi. }
  rewrite Hst in *. simpl in *.
  assert (Hl : l = []).
  { destruct l as [|x l]; [done|]. by apply Forall_cons in F as [F%elem_of_nil _]. }
  apply sublist_nil_r in H1. split_and!; [done|by rewrite E, Hl|].
  intros Hw id ty. pose proof (broadcast_to_nobody (TYPE_SUBSCRIBE id ty) m.(jm_client) Hw H1) as Hb.
  destruct (broadcastToNodes (TYPE_SUBSCRIBE id ty) (jm_client m)) as [[] c] eqn:Eb; simplify_eq/=.
  unfold AddClientJobSub. erewrite (bind_step _ _ _ (Good tt)); [reflexivity|].
  apply attempt_run. unfold on_client, zoom, addJobSub. by erewrite wrap_run by exact Eb.
Qed.

(** ** What a client learns of its completions *)

(** The leader of a partition as a node that calls it sees it. *)
Definition answer_of (o : outcome (option ErrorResult)) : result (option ErrorResult) :=
  match o with Ret r => Good r | Err e => Bad e | _ => Bad (err! "unavailable") end.

Lemma found_leader s key c lClient cm' :
  PartitionLeader s (GetPartitionId key) c.(jc_nodeClientManager) = (Ret lClient, cm') →
  ∀ w, wrap w (with_manager (PartitionLeader s (GetPartitionId key))) c = (Ret lClient, set_jc_manager cm' c).
Proof. intros E w. apply wrap_run. unfold with_manager, zoom. by rewrite E. Qed.

(** A completion the engine of the partition refuses is an error of the
    leader's handler, but the client that asked for it is not told: no error
    comes back on its stream.  The same completion over REST, and a refused
    failure, are reported. *)
Theorem refused_completion_is_not_reported completer L srv s m id key text vs text' vs' lClient cm' e :
  L.(jm_server) = Some srv →
  PartitionLeader s (GetPartitionId key) m.(jm_client).(jc_nodeClientManager) = (Ret lClient, cm') →
  json_Unmarshal text = Good vs → json_Marshal vs = Good text' → json_Unmarshal text' = Good vs' →
  (∀ req, rpc_CompleteJob lClient req = answer_of (server_CompleteJob json_Unmarshal completer req L).1) →
  (∀ req, rpc_FailJob lClient req = answer_of (server_FailJob json_Unmarshal completer req L).1) →
  jcm_JobCompleteByKey completer key vs' = Some e →
  (∃ e', (server_CompleteJob json_Unmarshal completer
            {| cjr_Key := key; cjr_Variables := text'; cjr_ClientId := id |} L).1 = Ret (Some e')) ∧
  (recvClientRequest json_Marshal json_Unmarshal s id (JobStreamRequest_Complete key text) m).1 = Ret None ∧
  (∃ e', (node_CompleteJob json_Marshal s key vs m.(jm_client).(jc_nodeClientManager)).1 = Err e') ∧
  ∀ message code e', jcm_JobFailByKey completer key message code vs' = Some e' →
    (recvClientRequest json_Marshal json_Unmarshal s id (JobStreamRequest_Fail key message code text) m).1 =
    Ret (Some (key, err! "Failed to fail job: %s")).
Proof.
  intros Hsrv Hl H1 H2 H3 Hc Hf He.
  assert (Hrefused : ∃ e', (server_CompleteJob json_Unmarshal completer
            {| cjr_Key := key; cjr_Variables := text'; cjr_ClientId := id |} L).1 = Ret (Some e')).
  { unfold server_CompleteJob. simpl. rewrite H3. unfold CompleteJob, on_server, attempt, mbind, ST_bind.
    rewrite Hsrv. unfold completeJob, settle_job. rewrite He. by eexists. }
  split; [done|]. destruct Hrefused as [e' Hr]. split; [|split].
  - simpl. rewrite H1. unfold answer_errors, CompleteJobReq, on_client.
    erewrite (bind_step _ _ _ (Good tt)); [reflexivity|]. apply attempt_run. unfold zoom, jc_completeJob.
    erewrite bind_step by (by apply found_leader). rewrite H2.
    erewrite bind_step by reflexivity. rewrite Hc, Hr. reflexivity.
  - unfold node_CompleteJob. erewrite bind_step by (by apply wrap_run). rewrite H2.
    erewrite bind_step by reflexivity. rewrite Hc.
    unfold server_CompleteJob, CompleteJob, on_server, attempt, mbind, ST_bind. simpl.
    rewrite H3, Hsrv. unfold completeJob, settle_job. rewrite He. by eexists.
  - intros message code e'' Hfail. simpl. rewrite H1. unfold answer_errors, FailJobReq, on_client.
    erewrite (bind_step _ _ _ (Bad _)); [reflexivity|]. unfold attempt, zoom, jc_failJob.
    erewrite bind_step by (by apply found_leader). rewrite H2.
    erewrite bind_step by reflexivity. rewrite Hf. unfold server_FailJob. simpl. rewrite H3.
    unfold FailJob, wrap, on_server, attempt, mbind, ST_bind. rewrite Hsrv.
    unfold failJob, settle_job. rewrite Hfail. reflexivity.
Qed.

(** ** The server of a node *)

(** A role change runs a server exactly on a node that leads an initialized
    partition; the hook of the state changes, however, never calls it. *)
Lemma role_change_runs_the_server s m :
  (m.(jm_serverCtx) = None ↔ m.(jm_server) = None) →
  (OnPartitionRoleChange iter s m).1 = Ret tt →
  let leader := existsb (leads_initialized (ClusterState s) s.(s_raftID))
                  (iter Partition (ClusterState s).(c_Partitions)).*2 in
  let m' := (OnPartitionRoleChange iter s m).2 in
  (m'.(jm_serverCtx) = None ↔ m'.(jm_server) = None) ∧
  (leader = true ↔ is_Some m'.(jm_server)).
Proof.
  unfold OnPartitionRoleChange. set (b := existsb _ _). clearbody b. intros Hm Hr. cbv zeta.
  assert (Hpost : ∀ m0, (m0.(jm_serverCtx) = None ↔ m0.(jm_server) = None) →
    (on_client (updateNodeSubs iter s) m0).2.(jm_serverCtx) = m0.(jm_serverCtx) ∧
    (on_client (updateNodeSubs iter s) m0).2.(jm_server) = m0.(jm_server)).
  { intros m0 _. unfold on_client, zoom. by destruct (updateNodeSubs _ _ _) as [[] ?]. }
  revert Hr. erewrite (bind_step get) by reflexivity.
  destruct m as [c srv roles ctx next cancelled]. cbn [jm_serverCtx jm_server] in *.
  destruct b; destruct ctx as [x|], srv as [y|]; simpl; try (exfalso; naive_solver);
    unfold start_server, stop_server, modify, mret, ST_ret, mbind, ST_bind, get; simpl;
    intros _; match goal with |- context [on_client _ ?m0] =>
      destruct (Hpost m0) as [E1 E2]; [done|] end; rewrite E1, E2; simpl;
    (split; [done|]); split; try done; by intros [? ?].
Qed.
End streams.

(** ** Concrete instances *)

Section concrete.
#[local] Open Scope string_scope.

(** A node whose calls all succeed, and whose completions are the ones of the
    manager [refusing], of which the engine refuses every job. *)
Definition refusing_completer : JobCompleter :=
  {| jcm_JobCompleteByKey _ _ := Some (err! "refused"); jcm_JobFailByKey _ _ _ _ := Some (err! "refused") |}.
Definition refusing : JobManager :=
  {| jm_client := newJobClient "a" {| cm_activeClients := ∅ |}; jm_server := Some newJobServer;
     jm_currentPartitionRoles := ∅; jm_serverCtx := Some 0%Z; jm_nextCtx := 1; jm_cancelled := [] |}.
Definition no_vars (text : string) : result vars := Good ∅.
Definition empty_json (v : vars) : result string := Good "{}".

#[local] Instance one_dial : Dial := {| rpc_NewClient _ := Good 1%Z |}.
#[local] Instance refusing_rpc : Rpc := {|
  rpc_Dial := one_dial;
  rpc_SubscribeJob _ _ := Good 9%Z;
  rpc_CompleteJob _ req := answer_of (server_CompleteJob no_vars refusing_completer req refusing).1;
  rpc_FailJob _ req := answer_of (server_FailJob no_vars refusing_completer req refusing).1;
  stream_Err _ := false;
  stream_CloseSend _ := None;
  stream_Send _ _ := None |}.

Definition list_iter (A : Type) (m : gmap Z A) : list (Z * A) := map_to_list m.

Definition no_clients : jobClient := newJobClient "a" {| cm_activeClients := ∅ |}.
Definition a_job : Job :=
  {| jb_Key := 4096; jb_InstanceKey := 4097; jb_Variables := "{}"; jb_Type := "t"; jb_State := 1;
     jb_ElementID := "task"; jb_CreatedAt := 0; jb_ClientID := "c" |}.
Definition c_sub : clientSub := {| cs_ctx := 1; cs_ch := 5; cs_clientID := "c" |}.
Definition with_c : jobClient := (addClient 1 "c" 5 no_clients).2.
Definition c_waits : jobClient := set_readers ({[5%Z]} ∪ with_c.(jc_readers)) with_c.
Definition c_served : jobClient := (sendJobToClient a_job c_waits).2.

Abbreviation threads_of c d th := {| ct_client := c; ct_distributor := d; ct_threads := th |}.

Lemma with_c_step :
  thread_step (threads_of no_clients None ∅) (threads_of with_c None (<[5%Z := (c_sub, Busy)]> ∅)).
Proof.
  apply (th_add no_clients None ∅ "c" 1 5 with_c);
    [reflexivity|apply lookup_empty|apply not_elem_of_empty|apply not_elem_of_empty].
Qed.

Lemma c_waits_step :
  thread_step (threads_of with_c None (<[5%Z := (c_sub, Busy)]> ∅))
    (threads_of c_waits None (<[5%Z := (c_sub, Waiting)]> (<[5%Z := (c_sub, Busy)]> ∅))).
Proof. by apply (th_wait with_c None _ c_sub). Qed.

Lemma jobs_reach_their_client_witness :
  c_served.(jc_delivered) = [(5%Z, a_job)] ∧
  no_channel_panic (threads_of c_waits None (<[5%Z := (c_sub, Waiting)]> (<[5%Z := (c_sub, Busy)]> ∅))) ∧
  (c_served.(jc_delivered) = [] ∨
   ∃ job sub, c_waits.(jc_clientSubs) !! job.(jb_ClientID) = Some sub ∧
     sub.(cs_clientID) = job.(jb_ClientID) ∧ sub.(cs_ch) ∈ c_waits.(jc_readers) ∧
     c_served.(jc_delivered) = ([] ++ [(sub.(cs_ch), job)])%list).
Proof.
  destruct (jobs_reach_their_client "a" {| cm_activeClients := ∅ |}
    (threads_of c_waits None (<[5%Z := (c_sub, Waiting)]> (<[5%Z := (c_sub, Busy)]> ∅)))) as [Hp Hd].
  - eapply rtc_l; [apply with_c_step|]. eapply rtc_l; [apply c_waits_step|apply rtc_refl].
  - split; [reflexivity|]. split; [exact Hp|].
    exact (Hd _ (th_distribute c_waits a_job c_served _ eq_refl)).
Defined.

Lemma disconnect_deadlocks_distribution_witness :
  ∃ t, rtc thread_step (threads_of with_c None (<[5%Z := (c_sub, Busy)]> ∅)) t ∧
    ∀ t', rtc thread_step t t' →
      t'.(ct_distributor) = Some (c_sub, a_job) ∧
      t'.(ct_client).(jc_delivered) = [] ∧
      t'.(ct_client).(jc_clientSubs) = with_c.(jc_clientSubs) ∧
      (∀ id, (jc_removeClient id t'.(ct_client)).1 = Block) ∧
      (∀ ctx id ch, (addClient ctx id ch t'.(ct_client)).1 = Block).
Proof.
  apply (disconnect_deadlocks_distribution with_c (<[5%Z := (c_sub, Busy)]> ∅) c_sub a_job);
    [reflexivity|reflexivity|apply not_elem_of_empty|apply not_elem_of_empty|apply not_elem_of_empty|reflexivity].
Defined.

(** The node starts before partition 1 exists, then becomes its leader. *)
Definition started : JobManager :=
  (Start list_iter replica_1 (NewJobManager replica_1 {| cm_activeClients := ∅ |})).2.
Definition partition_led : JobManager :=
  (run_client_op list_iter empty_json no_vars (CoRoleChange replica_2) started).2.

Lemma leaders_after_start_are_not_asked_witness :
  leaders_of list_iter replica_2.(s_state) = {[1%Z := "a"]} ∧
  partition_led.(jm_client).(jc_nodeStreams) = [] ∧ partition_led.(jm_client).(jc_sent) = [] ∧
  (AddClientJobSub "c" "t" partition_led).1 = Ret tt.
Proof.
  split; [reflexivity|].
  destruct (leaders_after_start_are_not_asked list_iter empty_json no_vars replica_1
    {| cm_activeClients := ∅ |} partition_led) as (H1 & H2 & H3).
  - reflexivity.
  - reflexivity.
  - eapply rtc_l; [|apply rtc_refl]. exists (CoRoleChange replica_2), (Ret tt). by split.
  - split; [exact H1|]. split; [exact H2|]. by apply H3.
Defined.

Lemma refused_completion_is_not_reported_witness :
  (∃ e', (server_CompleteJob no_vars refusing_completer
            {| cjr_Key := 4096; cjr_Variables := "{}"; cjr_ClientId := "c" |} refusing).1 = Ret (Some e')) ∧
  (recvClientRequest empty_json no_vars replica_2 "c" (JobStreamRequest_Complete 4096 "{}") started).1 = Ret None ∧
  (∃ e', (node_CompleteJob empty_json replica_2 4096 ∅ started.(jm_client).(jc_nodeClientManager)).1 = Err e') ∧
  ∀ message code e', Some (err! "refused") = Some e' →
    (recvClientRequest empty_json no_vars replica_2 "c" (JobStreamRequest_Fail 4096 message code "{}") started).1 =
    Ret (Some (4096%Z, err! "Failed to fail job: %s")).
Proof.
  refine (refused_completion_is_not_reported empty_json no_vars refusing_completer refusing newJobServer
    replica_2 started "c" 4096 "{}" ∅ "{}" ∅ 1 {| cm_activeClients := {["10.0.0.1:8090" := 1%Z]} |}
    (err! "refused") _ _ _ _ _ _ _ _); reflexivity.
Defined.
End concrete.
