(* ===== verification/Commands.v ===== *)
(** Commands on the cluster: the handlers of the REST server
    (internal/rest/server.go) call the node (internal/cluster/node.go), which
    finds the leader of the partition that a key belongs to and calls it; the
    handlers of the cluster server (internal/cluster/server/server.go) run the
    command on the engine of the partition.

    The engines are behind the class [EngineApi].  A server is the engines of the
    partitions its node leads ([PartitionEngine]); the servers of all nodes are
    found by the number of the client that is connected to them. *)
From S2P Require Import Prelude ZenErr Monad Runtime Sql ClusterState ClusterStore Zenflake JobClient.
From S2P Require Import Messages.

Class EngineApi (E : Type) := {
  eng_JobAssignByKey : Z → option string → ST E unit;
  eng_ResolveIncident : Z → ST E unit;
  eng_CancelInstanceByKey : Z → ST E unit;
  eng_ModifyInstance : Z → list Z → list string → vars → ST E (ProcessInstance * list ExecutionToken);
  eng_DeleteInstanceVariable : Z → string → ST E ProcessInstance;
  eng_LoadFromBytes : string → Z → ST E unit
}.

(** proto.ProcessInstance and proto.ExecutionToken *)
Record ProtoProcessInstance := {
  ppi_Key : Z; ppi_ProcessId : string; ppi_Variables : string; ppi_State : Z; ppi_CreatedAt : Z;
  ppi_DefinitionKey : Z; ppi_ParentInstanceKey : option Z; ppi_BusinessKey : option string; ppi_Type : Z
}.
Record ProtoExecutionToken := {
  pet_Key : Z; pet_ElementInstanceKey : Z; pet_ElementId : string; pet_ProcessInstanceKey : Z;
  pet_CreatedAt : Z; pet_State : Z
}.

(** The business key is not part of these two responses. *)
Definition proto_instance (i : ProcessInstance) (variables : string) : ProtoProcessInstance :=
  {| ppi_Key := i.(pi_Key); ppi_ProcessId := i.(pi_Definition).(pd_BpmnProcessId);
     ppi_Variables := variables; ppi_State := ActivityState_int i.(pi_State);
     ppi_CreatedAt := UnixMilli i.(pi_CreatedAt); ppi_DefinitionKey := i.(pi_Definition).(pd_Key);
     ppi_ParentInstanceKey := tok_ProcessInstanceKey <$> ParentProcessExecutionToken i;
     ppi_BusinessKey := None; ppi_Type := ProcessType_int (Type_ i) |}.
Definition proto_token (t : ExecutionToken) : ProtoExecutionToken :=
  {| pet_Key := t.(tok_Key); pet_ElementInstanceKey := t.(tok_ElementInstanceKey);
     pet_ElementId := t.(tok_ElementId); pet_ProcessInstanceKey := t.(tok_ProcessInstanceKey);
     pet_CreatedAt := UnixMilli t.(tok_CreatedAt); pet_State := TokenState_int t.(tok_State) |}.

(** The engines of the partitions a node leads. *)
Abbreviation Server E := (gmap Z E) (only parsing).

Section commands.
Context {E : Type} `{EngineApi E} `{Dial}.
Context (json_Marshal : vars → result string) (json_Unmarshal : string → result vars).

(** ** The cluster server

    A response is a value or its error field. *)
Definition Response (A : Type) : Type := (A + ErrorResult)%type.

Definition on_engine {A} (p : Z) (m : ST E A) : ST (Server E) A := λ es,
  match es !! p with
  | None => (Panic "nil pointer dereference", es)
  | Some e => let '(o, e') := m e in (o, <[p := e']> es)
  end.

(** [errors.Is] decides between NOT_FOUND and a technical error. *)
Definition found_or_technical (notFound technical : error → error) (e : error) : ErrorResult :=
  if isErrNotFound e then ToProtoError NotFoundCode (notFound e)
  else ToProtoError TechnicalErrorCode (technical e).

(** The engine of the partition or the response without one. *)
Definition with_engine {A} (p : Z) (missing : error) (body : ST (Server E) (Response A)) : ST (Server E) (Response A) :=
  es ← get;
  match es !! p with
  | None => mret (inr (ToProtoError TechnicalErrorCode missing))
  | Some _ => body
  end.

Definition answer {A} (m : ST (Server E) A) (failed : error → ErrorResult) : ST (Server E) (Response A) :=
  r ← attempt m; mret (match r with Good a => inl a | Bad e => inr (failed e) end).

Definition no_engine : error := err! "engine with partition %d was not found".

Definition server_AssignJobToAssignee (key : Z) (assignee : string) : ST (Server E) (Response unit) :=
  let partitionId := GetPartitionId key in
  with_engine partitionId (err! "engine for partition %d not found")
    (let assigneePtr := if (assignee =? "")%string then None else Some assignee in
     answer (on_engine partitionId (eng_JobAssignByKey key assigneePtr))
       (found_or_technical (λ e, errw! "job %d not found: %w" [e])
                           (λ e, errw! "failed to assign job %d: %w" [e]))).

Definition server_ResolveIncident (key : Z) : ST (Server E) (Response unit) :=
  let partitionId := GetPartitionId key in
  with_engine partitionId no_engine
    (answer (on_engine partitionId (eng_ResolveIncident key))
       (found_or_technical (λ e, e) (λ e, errw! "failed to resolve incident %d: %w" [e]))).

Definition is_InvalidStateError (e : error) : bool :=
  match e with InvalidStateError => true | _ => false end.

Definition server_CancelProcessInstance (key : Z) : ST (Server E) (Response unit) :=
  let partitionId := GetPartitionId key in
  with_engine partitionId no_engine
    (answer (on_engine partitionId (eng_CancelInstanceByKey key))
       (λ e, if isErrNotFound e then ToProtoError NotFoundCode (errw! "process instance %d not found: %w" [e])
             else if errors_Is is_InvalidStateError e then ToProtoError ConflictCode e
             else ToProtoError TechnicalErrorCode (errw! "failed to cancel process instance %d: %w" [e]))).

(** The instance of a response: its variables may not be JSON. *)
Definition respond_instance {A} (i : ProcessInstance) (respond : ProtoProcessInstance → A)
    : ST (Server E) (Response A) :=
  mret (match json_Marshal i.(pi_VariableHolder) with
        | Bad e => inr (ToProtoError TechnicalErrorCode (errw! "failed to marshal process instance result: %w" [e]))
        | Good variables => inl (respond (proto_instance i variables))
        end).

Definition server_ModifyProcessInstance (key : Z) (terminate : list Z) (start : list string)
    (variables : string) : ST (Server E) (Response (ProtoProcessInstance * list ProtoExecutionToken)) :=
  let partitionId := GetPartitionId key in
  with_engine partitionId no_engine
    (match json_Unmarshal variables with
     | Bad e =>
         mret (inr (ToProtoError TechnicalErrorCode (errw! "failed to unmarshal process variables: %w" [e])))
     | Good vars =>
         r ← answer (on_engine partitionId (eng_ModifyInstance key terminate start vars))
           (found_or_technical (λ e, errw! "process instance %d not found: %w" [e])
                               (λ e, errw! "failed to modify process instance %d: %w" [e]));
         match r with
         | inr e => mret (inr e)
         | inl (instance, tokens) => respond_instance instance (λ i, (i, proto_token <$> tokens))
         end
     end).

Definition server_DeleteProcessInstanceVariable (key : Z) (variable : string)
    : ST (Server E) (Response ProtoProcessInstance) :=
  let partitionId := GetPartitionId key in
  with_engine partitionId no_engine
    (r ← answer (on_engine partitionId (eng_DeleteInstanceVariable key variable))
       (found_or_technical (λ e, errw! "process instance %d not found: %w" [e])
                           (λ e, errw! "failed to delete process instance variable: %w" [e]));
     match r with
     | inr e => mret (inr e)
     | inl instance => respond_instance instance (λ i, i)
     end).

(** Every engine of the node loads the definition, in the order of the map; the
    error is also returned, so that the caller gets no response. *)
Definition server_DeployProcessDefinition (iter : ∀ (A : Type), gmap Z A → list (Z * A))
    (data : string) (key : Z) : ST (Server E) unit :=
  es ← get;
  for_each (iter E es).*1 (λ p,
    wrap (λ e, errw! "failed to deploy process definition: %w" [e]) (on_engine p (eng_LoadFromBytes data key))).

(** ** The node *)

Record ZenNode := {
  zn_store : Store;
  zn_client : ClientManager;
  zn_servers : gmap Z (Server E)
}.

Definition with_client {A} (m : ST ClientManager A) : ST ZenNode A :=
  zoom zn_client (λ c z, {| zn_store := z.(zn_store); zn_client := c; zn_servers := z.(zn_servers) |}) m.

(** A call of a client: an error when the node cannot be reached. *)
Definition call {A} (client : Z) (m : ST (Server E) A) : ST ZenNode A := λ z,
  match z.(zn_servers) !! client with
  | None => (Err (err! "unavailable"), z)
  | Some es => let '(o, es') := m es in
               (o, {| zn_store := z.(zn_store); zn_client := z.(zn_client);
                      zn_servers := <[client := es']> z.(zn_servers) |})
  end.

Definition node_PartitionLeader (key : Z) (failed : error → error) : ST ZenNode Z :=
  z ← get;
  wrap (λ e, ClusterError (failed e)) (with_client (PartitionLeader z.(zn_store) (GetPartitionId key))).

(** The response of a call, or the error of the node's method. *)
Definition expect {A} (failed : error → error) (refused : error) (m : ST ZenNode (Response A)) : ST ZenNode A :=
  resp ← wrap (λ e, TechnicalError (failed e)) m;
  match resp with
  | inl a => mret a
  | inr e => throw (ToZenError e refused)
  end.

Definition node_AssignJob (key : Z) (assignee : string) : ST ZenNode unit :=
  client ← node_PartitionLeader key (λ e, errw! "failed to get client: %w" [e]);
  expect (λ e, errw! "client call to assign job failed: %w" [e]) (err! "client call to assign job failed")
    (call client (server_AssignJobToAssignee key assignee)).

Definition node_ResolveIncident (key : Z) : ST ZenNode unit :=
  client ← node_PartitionLeader key (λ e, errw! "failed to get client: %w" [e]);
  expect (λ e, errw! "client call to resolve incident failed: %w" [e])
    (err! "client call to resolve incident failed") (call client (server_ResolveIncident key)).

Definition node_DeleteProcessInstanceVariable (key : Z) (variable : string) : ST ZenNode unit :=
  client ← node_PartitionLeader key (λ e, errw! "failed to get client to delete process instance variable: %w" [e]);
  _ ← expect (λ e, errw! "failed to delete process instance variable %w" [e])
    (err! "failed to delete process instance variable")
    (call client (server_DeleteProcessInstanceVariable key variable));
  mret tt.

Definition node_CancelProcessInstance (key : Z) : ST ZenNode unit :=
  client ← node_PartitionLeader key (λ e, errw! "failed to get client to cancel process instance: %d. %w" [e]);
  expect (λ e, errw! "failed to cancel process instance: %w" [e])
    (err! "failed to cancel process instance: %s") (call client (server_CancelProcessInstance key)).

Definition node_ModifyProcessInstance (key : Z) (terminate : list Z) (start : list string) (variables : vars)
    : ST ZenNode (ProtoProcessInstance * list ProtoExecutionToken) :=
  client ← node_PartitionLeader key (λ e, errw! "failed to get client to modify process instance: %d. %w" [e]);
  vars ← wrap_result (λ e, BadRequest (errw! "failed to marshal variables to modify process instance: %w" [e]))
    (json_Marshal variables);
  expect (λ e, errw! "failed to modify process instance for processInstanceKey %d %w" [e])
    (err! "failed to modify process instance for processInstanceKey %d")
    (call client (server_ModifyProcessInstance key terminate start vars)).

Definition node_UpdateProcessInstanceVariables (key : Z) (variables : vars) : ST ZenNode unit :=
  _ ← node_ModifyProcessInstance key [] [] variables; mret tt.

(** *** Deploying to all partitions

    [db] is the database GetReadOnlyDB gives, as its query
    GetDefinitionKeyByChecksum; the key of the definition is generated. *)
Definition GetDefinitionKeyByBytes (db : result (list Z → result Z)) (md5sum : list Z) : result Z :=
  match db with
  | Bad e => Bad (errw! "failed to get database for definition key lookup: %w" [e])
  | Good query =>
      match query md5sum with
      | Good key => Good key
      | Bad e => if (Error e =? "No result row")%string then Good 0%Z
                 else Bad (errw! "failed to find process definition by checksum: %w" [e])
      end
  end.

Definition sortedPartitionIds (c : Cluster) : list Z := merge_sort Z.le (map_to_list c.(c_Partitions)).*1.

Context (iter : ∀ (A : Type), gmap Z A → list (Z * A)).

Definition deployProcessDefinitionToPartition (c : Cluster) (leaderId : string) (key : Z) (data : string)
    : ST ZenNode unit :=
  let partitionLeader := default zero_node (c.(c_Nodes) !! leaderId) in
  client ← wrap (λ e, TechnicalError (errw! "failed to get client: %w" [e]))
    (with_client (For partitionLeader.(n_Addr)));
  wrap (λ e, TechnicalError (errw! "client call to deploy process definition failed: %w" [e]))
    (call client (server_DeployProcessDefinition iter data key)).

(** One goroutine per partition; they run in the order [order].  After the
    first error the context of the group is cancelled, and the calls to the
    partitions [cancelled] are not made any more.  The first error is the
    result. *)
Definition deploy_step (c : Cluster) (cancelled : Z → bool) (key : Z) (data : string)
    (first : option error) (partitionId : Z) : ST ZenNode (option error) :=
  match first, cancelled partitionId with
  | Some _, true => mret first
  | _, _ =>
      let leaderId := default "" (p_LeaderId <$> c.(c_Partitions) !! partitionId) in
      r ← attempt (deployProcessDefinitionToPartition c leaderId key data);
      mret (match first, r with None, Bad e => Some e | _, _ => first end)
  end.

Definition DeployProcessDefinitionToAllPartitions (db : result (list Z → result Z)) (definitionKey : Z)
    (order : list Z) (cancelled : Z → bool) (data : string) (md5sum : list Z) : ST ZenNode Z :=
  match GetDefinitionKeyByBytes db md5sum with
  | Bad e => throw (TechnicalError (errw! "failed to get process definition key by bytes: %w" [e]))
  | Good key =>
      if negb (key =? 0)%Z then throw (Conflict (err! "duplicate process definition %d exists"))
      else
        z ← get;
        waitErr ← for_fold order None (deploy_step (ClusterState z.(zn_store)) cancelled definitionKey data);
        match waitErr with
        | Some e => throw e
        | None => mret definitionKey
        end
  end.
End commands.

(** ** The REST server: the status of a response

    [errors.As] finds a ZenError also when it is wrapped; the methods of the
    node return it unwrapped. *)
Definition rest_respond {T A} (ok : Z) (status : Z → Z) (m : ST T A) : ST T Z :=
  r ← attempt m;
  mret (match r with
        | Good _ => ok
        | Bad (ZenError code _) => status code
        | Bad _ => 500%Z
        end).

Definition status_of (table : list (Z * Z)) (code : Z) : Z :=
  match List.find (λ cs, (cs.1 =? code)%Z) table with Some cs => cs.2 | None => 500%Z end.

Section rest.
Context {E : Type} `{EngineApi E} `{Dial}.
Context (json_Marshal : vars → result string) (json_Unmarshal : string → result vars).

Definition rest_CompleteJob {T} (node_CompleteJob : ST T unit) : ST T Z :=
  rest_respond 201 (status_of [(ClusterErrorCode, 502); (BadRequestCode, 400); (NotFoundCode, 404)]%Z)
    node_CompleteJob.

Definition rest_AssignJob (key : Z) (assignee : string) : ST (ZenNode (E := E)) Z :=
  rest_respond 204 (status_of [(ClusterErrorCode, 502); (NotFoundCode, 404); (BadRequestCode, 400)]%Z)
    (node_AssignJob key assignee).

Definition rest_ResolveIncident (key : Z) : ST (ZenNode (E := E)) Z :=
  rest_respond 201 (status_of [(ClusterErrorCode, 502); (NotFoundCode, 404)]%Z) (node_ResolveIncident key).

Definition rest_CancelProcessInstance (key : Z) : ST (ZenNode (E := E)) Z :=
  rest_respond 204 (status_of [(ClusterErrorCode, 502); (NotFoundCode, 404); (ConflictCode, 409)]%Z)
    (node_CancelProcessInstance key).

(** Up to the body of the response; variables that are missing are empty. *)
Definition rest_ModifyProcessInstance (key : Z) (terminate : option (list Z)) (start : option (list string))
    (variables : option vars) : ST (ZenNode (E := E)) Z :=
  rest_respond 201 (status_of [(ClusterErrorCode, 502); (BadRequestCode, 400); (NotFoundCode, 404)]%Z)
    (r ← node_ModifyProcessInstance json_Marshal json_Unmarshal key (default [] terminate) (default [] start)
           (default ∅ variables);
     of_result (json_Unmarshal r.1.(ppi_Variables))).

(** [process]: the state and the variables GetProcessInstance answers before. *)
Definition rest_UpdateProcessInstanceVariables (process : result (Z * string)) (key : Z) (variables : vars)
    : ST (ZenNode (E := E)) Z :=
  match process with
  | Bad (ZenError code _) => mret (status_of [(ClusterErrorCode, 502); (NotFoundCode, 404)]%Z code)
  | Bad _ => mret 500%Z
  | Good (state, _) =>
      if (negb (state =? ActivityState_int ActivityStateActive)%Z &&
          negb (state =? ActivityState_int ActivityStateFailed)%Z)%bool
      then mret 409%Z
      else rest_respond 204
        (status_of [(ClusterErrorCode, 502); (BadRequestCode, 400); (NotFoundCode, 404)]%Z)
        (node_UpdateProcessInstanceVariables json_Marshal json_Unmarshal key variables)
  end.

Definition rest_DeleteProcessInstanceVariable (process : result (Z * string)) (key : Z) (variable : string)
    : ST (ZenNode (E := E)) Z :=
  match process with
  | Bad (ZenError code _) => mret (status_of [(ClusterErrorCode, 502); (NotFoundCode, 404)]%Z code)
  | Bad _ => mret 500%Z
  | Good (state, variables) =>
      match json_Unmarshal variables with
      | Bad _ => mret 500%Z
      | Good existingVars =>
          if bool_decide (existingVars !! variable = None) then mret 404%Z
          else if negb (state =? ActivityState_int ActivityStateActive)%Z then mret 409%Z
          else rest_respond 204 (status_of [(ClusterErrorCode, 502)]%Z)
            (node_DeleteProcessInstanceVariable json_Marshal key variable)
      end
  end.
End rest.
