(* ===== verification/CommandProps.v ===== *)
(** Commands on the cluster: a command runs on the engine of the partition its
    key belongs to, and nowhere else; the code its caller sees; deployments to
    all partitions; and the commands on the engines of this development. *)
From S2P Require Import Prelude ZenErr Monad Runtime Sql ClusterState ClusterStore Zenflake JobClient.
From S2P Require Import ClusterProps Messages Commands.

Section routing.
Context {E : Type} `{EngineApi E} `{Dial}.
Context (json_Marshal : vars → result string) (json_Unmarshal : string → result vars).

Inductive Command :=
| CmdAssignJob (key : Z) (assignee : string)
| CmdResolveIncident (key : Z)
| CmdCancel (key : Z)
| CmdModify (key : Z) (terminate : list Z) (start : list string) (variables : vars)
| CmdDeleteVariable (key : Z) (variable : string).

Definition command_key (c : Command) : Z :=
  match c with
  | CmdAssignJob key _ | CmdResolveIncident key | CmdCancel key | CmdModify key _ _ _
  | CmdDeleteVariable key _ => key
  end.

Definition node_command (c : Command) : ST (ZenNode (E := E)) unit :=
  match c with
  | CmdAssignJob key assignee => node_AssignJob key assignee
  | CmdResolveIncident key => node_ResolveIncident key
  | CmdCancel key => node_CancelProcessInstance key
  | CmdModify key terminate start variables =>
      _ ← node_ModifyProcessInstance json_Marshal json_Unmarshal key terminate start variables; mret tt
  | CmdDeleteVariable key variable => node_DeleteProcessInstanceVariable json_Marshal key variable
  end.

(** The command on an engine, with the variables as they arrive there. *)
Definition run_command (sent : vars → vars) (c : Command) : ST E unit :=
  match c with
  | CmdAssignJob key assignee =>
      eng_JobAssignByKey key (if (assignee =? "")%string then None else Some assignee)
  | CmdResolveIncident key => eng_ResolveIncident key
  | CmdCancel key => eng_CancelInstanceByKey key
  | CmdModify key terminate start variables =>
      _ ← eng_ModifyInstance key terminate start (sent variables); mret tt
  | CmdDeleteVariable key variable => _ ← eng_DeleteInstanceVariable key variable; mret tt
  end.

(** The code of a command the engine refused. *)
Definition refused_code (c : Command) (e : error) : Z :=
  if isErrNotFound e then NotFoundCode
  else match c with
       | CmdCancel _ => if errors_Is is_InvalidStateError e then ConflictCode else TechnicalErrorCode
       | _ => TechnicalErrorCode
       end.

(** The state after a command: the client manager knows the leader, and one
    engine of one server changed. *)
Definition with_engine_state (z : ZenNode (E := E)) (cm : ClientManager) (client p : Z) (es : Server E) (e : E)
    : ZenNode :=
  {| zn_store := z.(zn_store); zn_client := cm; zn_servers := <[client := <[p := e]> es]> z.(zn_servers) |}.

Section call.
Context (z : ZenNode (E := E)) (key client : Z) (cm : ClientManager) (es : Server E) (e : E).
Context (Hleader : PartitionLeader z.(zn_store) (GetPartitionId key) z.(zn_client) = (Ret client, cm)).
Context (Hserver : z.(zn_servers) !! client = Some es) (Hengine : es !! GetPartitionId key = Some e).

Lemma leader_found f :
  node_PartitionLeader key f z =
    (Ret client, {| zn_store := z.(zn_store); zn_client := cm; zn_servers := z.(zn_servers) |}).
Proof.
  unfold node_PartitionLeader. erewrite (bind_step get) by reflexivity. apply wrap_run.
  unfold with_client, zoom. by rewrite Hleader.
Qed.

(** A call that runs one operation on the engine of the partition. *)
Definition answered {A} (r : result A) (failed : error → ErrorResult) : Response A :=
  match r with Good a => inl a | Bad err => inr (failed err) end.

Lemma call_run {A} (m : ST (Server E) A) es' r z' :
  z'.(zn_servers) = z.(zn_servers) → m es = (Ret r, es') →
  call client m z' = (Ret r, {| zn_store := z'.(zn_store); zn_client := z'.(zn_client);
                                zn_servers := <[client := es']> z.(zn_servers) |}).
Proof. intros Hz Em. unfold call. by rewrite Hz, Hserver, Em. Qed.

Lemma engine_returned {A B} (op : ST E A) (missing : error) (failed : error → ErrorResult)
    (k : Response A → ST (Server E) (Response B)) o e' (r : result A) :
  op e = (o, e') → o = match r with Good a => Ret a | Bad err => Err err end →
  with_engine (GetPartitionId key) missing (answer (on_engine (GetPartitionId key) op) failed ≫= k) es =
  k (answered r failed) (<[GetPartitionId key := e']> es).
Proof.
  intros Eop Eo. unfold with_engine. erewrite (bind_step get) by reflexivity. rewrite Hengine.
  unfold answer, on_engine, attempt, mbind, ST_bind. rewrite Hengine, Eop, Eo. by destruct r.
Qed.

Lemma engine_answered {A} (op : ST E A) (missing : error) (failed : error → ErrorResult) o e' (r : result A) :
  op e = (o, e') → o = match r with Good a => Ret a | Bad err => Err err end →
  with_engine (GetPartitionId key) missing (answer (on_engine (GetPartitionId key) op) failed) es =
  (Ret (answered r failed), <[GetPartitionId key := e']> es).
Proof.
  intros Eop Eo. unfold with_engine. erewrite (bind_step get) by reflexivity. rewrite Hengine.
  unfold answer, on_engine, attempt, mbind, ST_bind. rewrite Hengine, Eop, Eo. by destruct r.
Qed.

Lemma expect_run {A} failed refused (m : ST (ZenNode (E := E)) (Response A)) z1 resp z2 :
  m z1 = (Ret resp, z2) →
  expect failed refused m z1 =
    (match resp with inl a => Ret a | inr err => Err (ToZenError err refused) end, z2).
Proof. intros Em. unfold expect. erewrite bind_step by (by apply wrap_run). by destruct resp. Qed.

(** A command of one operation without a result. *)
Lemma simple_command (op : ST E unit) missing failed f1 f2 refused o e' :
  op e = (o, e') → returns o →
  (client ← node_PartitionLeader key f1;
   expect f2 refused (call client (with_engine (GetPartitionId key) missing
     (answer (on_engine (GetPartitionId key) op) failed)))) z =
  (match o with Err err => Err (ToZenError (failed err) refused) | _ => Ret tt end,
   with_engine_state z cm client (GetPartitionId key) es e').
Proof.
  intros Eop Ho. erewrite bind_step by apply leader_found.
  destruct o as [[]|err|?| |]; try done.
  - erewrite expect_run; [|eapply call_run; [done|by eapply (engine_answered _ _ _ _ _ (Good tt))]]. done.
  - erewrite expect_run; [|eapply call_run; [done|by eapply (engine_answered _ _ _ _ _ (Bad err))]]. done.
Qed.

(** It only returns when the operation did. *)
Lemma simple_command_returns (op : ST E unit) missing failed f1 f2 refused :
  returns ((client ← node_PartitionLeader key f1;
    expect f2 refused (call client (with_engine (GetPartitionId key) missing
      (answer (on_engine (GetPartitionId key) op) failed)))) z).1 →
  returns (op e).1.
Proof.
  erewrite bind_step by apply leader_found.
  unfold expect, wrap, attempt, call, with_engine, answer, on_engine, attempt, get, mbind, ST_bind.
  simpl. rewrite Hserver, Hengine, Hengine. by destruct (op e) as [[] e'].
Qed.

Lemma simple_command_Ret (op : ST E unit) missing failed f1 f2 refused z' :
  (client ← node_PartitionLeader key f1;
   expect f2 refused (call client (with_engine (GetPartitionId key) missing
     (answer (on_engine (GetPartitionId key) op) failed)))) z = (Ret tt, z') →
  ∃ e', op e = (Ret tt, e') ∧ z' = with_engine_state z cm client (GetPartitionId key) es e'.
Proof.
  intros Er. assert (Ho : returns (op e).1) by (eapply simple_command_returns; by rewrite Er).
  destruct (op e) as [o e'] eqn:Eop. erewrite simple_command in Er by done.
  destruct o as [[]|err|msg| |]; try done. injection Er as <-. by eexists.
Qed.

Context (Hmarshal : ∀ v, ∃ text, json_Marshal v = Good text).

Definition with_json {A} (i : ProcessInstance) (respond : ProtoProcessInstance → A) : Response A :=
  match json_Marshal i.(pi_VariableHolder) with
  | Good text => inl (respond (proto_instance i text))
  | Bad err => inr (ToProtoError TechnicalErrorCode (errw! "failed to marshal process instance result: %w" [err]))
  end.

Definition instance_failed (technical : error → error) (err : error) : ErrorResult :=
  found_or_technical (λ e, errw! "process instance %d not found: %w" [e]) technical err.

Definition modify_response (r : result (ProcessInstance * list ExecutionToken))
    : Response (ProtoProcessInstance * list ProtoExecutionToken) :=
  match r with
  | Good (i, tokens) => with_json i (λ x, (x, proto_token <$> tokens))
  | Bad err => inr (instance_failed (λ e, errw! "failed to modify process instance %d: %w" [e]) err)
  end.

Lemma modify_run terminate start variables text vs o e' r :
  json_Marshal variables = Good text → json_Unmarshal text = Good vs →
  eng_ModifyInstance key terminate start vs e = (o, e') →
  o = match r with Good a => Ret a | Bad err => Err err end →
  node_ModifyProcessInstance json_Marshal json_Unmarshal key terminate start variables z =
  (match modify_response r with
   | inl a => Ret a
   | inr x => Err (ToZenError x (err! "failed to modify process instance for processInstanceKey %d"))
   end, with_engine_state z cm client (GetPartitionId key) es e').
Proof.
  intros Em Eu Eop Ho. unfold node_ModifyProcessInstance. erewrite bind_step by apply leader_found.
  rewrite Em. erewrite bind_step by reflexivity.
  erewrite expect_run; [|eapply call_run; [done|]].
  2:{ unfold server_ModifyProcessInstance. rewrite Eu.
      erewrite (engine_returned _ _ _ _ _ _ r Eop) by done.
      instantiate (2 := modify_response r). by destruct r as [[i tokens]|err]. }
  done.
Qed.

Definition delete_response (r : result ProcessInstance) : Response ProtoProcessInstance :=
  match r with
  | Good i => with_json i (λ x, x)
  | Bad err => inr (instance_failed (λ e, errw! "failed to delete process instance variable: %w" [e]) err)
  end.

Lemma delete_run variable o e' r :
  eng_DeleteInstanceVariable key variable e = (o, e') →
  o = match r with Good a => Ret a | Bad err => Err err end →
  node_DeleteProcessInstanceVariable json_Marshal key variable z =
  (match delete_response r with
   | inl _ => Ret tt
   | inr x => Err (ToZenError x (err! "failed to delete process instance variable"))
   end, with_engine_state z cm client (GetPartitionId key) es e').
Proof.
  intros Eop Ho. unfold node_DeleteProcessInstanceVariable. erewrite bind_step by apply leader_found.
  unfold mbind at 1, ST_bind at 1. erewrite expect_run; [|eapply call_run; [done|]].
  2:{ unfold server_DeleteProcessInstanceVariable.
      erewrite (engine_returned _ _ _ _ _ _ r Eop) by done.
      instantiate (2 := delete_response r). by destruct r as [i|err]. }
  by destruct (delete_response r).
Qed.
End call.

(** The outcome of an operation whose value is dropped. *)
Definition discarded {A} (o : outcome A) : outcome unit :=
  match o with Ret _ => Ret tt | Err err => Err err | Panic msg => Panic msg | Block => Block | NoFuel => NoFuel end.

Lemma run_discarded {A} (op : ST E A) e o e' :
  (_ ← op; mret tt) e = (o, e') → ∃ o1, op e = (o1, e') ∧ o = discarded o1.
Proof. unfold mbind, ST_bind. destruct (op e) as [[] e1]; intros [= <- <-]; by eexists. Qed.

#[local] Ltac code_cases err :=
  unfold instance_failed, found_or_technical, refused_code; destruct (isErrNotFound err); [by eexists|];
  first [destruct (errors_Is is_InvalidStateError err); by eexists | by eexists].

(** C13: a command reaches its engine: from any node that knows the leader of
    the partition its key belongs to, a command runs exactly once on the engine
    of that partition, and no other engine of the cluster changes; the caller
    gets a success when the engine returned, and otherwise an error with the
    code NOT_FOUND for an error that is ErrNotFound, CONFLICT for the
    cancellation of an instance in a wrong state, and TECHNICAL_ERROR for
    everything else. *)
Theorem command_reaches_its_engine sent (c : Command) z client cm (es : Server E) e :
  (∀ v, ∃ text, json_Marshal v = Good text ∧ json_Unmarshal text = Good (sent v)) →
  PartitionLeader z.(zn_store) (GetPartitionId (command_key c)) z.(zn_client) = (Ret client, cm) →
  z.(zn_servers) !! client = Some es → es !! GetPartitionId (command_key c) = Some e →
  let z' := with_engine_state z cm client (GetPartitionId (command_key c)) es (run_command sent c e).2 in
  match (run_command sent c e).1 with
  | Ret _ => node_command c z = (Ret tt, z')
  | Err err => ∃ text, node_command c z = (Err (ZenError (refused_code c err) text), z')
  | _ => True
  end.
Proof.
  intros Hjson Hl Hs He. cbv zeta. destruct (run_command sent c e) as [o e'] eqn:Er. cbn [fst snd].
  assert (Hmarshal : ∀ v, ∃ text, json_Marshal v = Good text) by (intros v; destruct (Hjson v) as (t & ? & _); eauto).
  destruct c as [key assignee|key|key|key terminate start variables|key variable];
    cbn [command_key node_command run_command] in *.
  1-3: unfold node_AssignJob, node_ResolveIncident, node_CancelProcessInstance, server_AssignJobToAssignee,
    server_ResolveIncident, server_CancelProcessInstance; cbv zeta;
    destruct o as [[]|err|?| |]; try done;
    rewrite (simple_command z key client cm es e Hl Hs He _ _ _ _ _ _ _ _ Er I); [done|by code_cases err].
  - destruct (Hjson variables) as (text & Em & Eu).
    apply run_discarded in Er as (o1 & E1 & ->).
    pose proof (λ o e', modify_run z key client cm es e Hl Hs He terminate start variables text (sent variables) o e') as Hrun.
    destruct o1 as [[i tokens]|err|?| |]; try done; unfold mbind, ST_bind.
    + rewrite (Hrun _ _ (Good (i, tokens)) Em Eu E1 eq_refl). simpl. unfold with_json.
      by destruct (Hmarshal i.(pi_VariableHolder)) as [t ->].
    + rewrite (Hrun _ _ (Bad err) Em Eu E1 eq_refl). simpl. by code_cases err.
  - apply run_discarded in Er as (o1 & E1 & ->).
    pose proof (λ o e', delete_run z key client cm es e Hl Hs He variable o e') as Hrun.
    destruct o1 as [i|err|?| |]; try done.
    + rewrite (Hrun _ _ (Good i) E1 eq_refl). simpl. unfold with_json.
      by destruct (Hmarshal i.(pi_VariableHolder)) as [t ->].
    + rewrite (Hrun _ _ (Bad err) E1 eq_refl). simpl. by code_cases err.
Qed.

(** ** Deployments *)

Section deployment.
Context (iter : ∀ (A : Type), gmap Z A → list (Z * A)).
Context (iter_perm : ∀ A (m : gmap Z A), iter A m ≡ₚ map_to_list m).
Context (data : string) (key : Z).

(** An engine that loaded the definition. *)
Definition loads (e e' : E) : Prop := eng_LoadFromBytes data key e = (Ret tt, e').

Lemma engines_load (ps : list Z) (es es' : Server E) f :
  for_each ps (λ p, wrap f (on_engine p (eng_LoadFromBytes data key))) es = (Ret tt, es') →
  ∀ q e, es !! q = Some e → ∃ e', es' !! q = Some e' ∧ rtc loads e e' ∧ (q ∈ ps → tc loads e e').
Proof.
  revert es. induction ps as [|p ps IH]; intros es Er q e Hq; simpl in Er.
  { injection Er as <-. exists e. split_and!; [done|done|]. by intros Hin%elem_of_nil. }
  apply bind_Ret in Er as ([] & es1 & E1%wrap_Ret & Er). unfold on_engine in E1.
  destruct (es !! p) as [e0|] eqn:Ep; [|done].
  destruct (eng_LoadFromBytes data key e0) as [o e1] eqn:El. injection E1 as -> <-.
  destruct (decide (p = q)) as [->|Hne].
  - rewrite Ep in Hq. injection Hq as ->.
    destruct (IH _ Er q e1) as (e' & He' & Hr & _); [by rewrite lookup_insert_eq|].
    exists e'. split_and!; [done|by eapply rtc_l|intros _; by eapply tc_rtc_r; [apply tc_once|]].
  - destruct (IH _ Er q e) as (e' & He' & Hr & Ht); [by rewrite lookup_insert_ne|].
    exists e'. split_and!; [done|done|]. intros [->|Hin]%elem_of_cons; [done|by apply Ht].
Qed.

Lemma server_loads (es es' : Server E) :
  server_DeployProcessDefinition iter data key es = (Ret tt, es') →
  ∀ q e, es !! q = Some e → ∃ e', es' !! q = Some e' ∧ tc loads e e'.
Proof.
  intros Er q e Hq. unfold server_DeployProcessDefinition in Er.
  erewrite (bind_step get) in Er by reflexivity.
  destruct (engines_load _ _ _ _ Er q e Hq) as (e' & He' & _ & Ht). exists e'. split; [done|].
  apply Ht. rewrite iter_perm. apply list_elem_of_fmap. exists (q, e). split; [done|].
  by apply elem_of_map_to_list.
Qed.

(** What a deployment does to the cluster: clients are added, engines load. *)
Definition evolves (z z' : ZenNode (E := E)) : Prop :=
  z'.(zn_store) = z.(zn_store) ∧
  z.(zn_client).(cm_activeClients) ⊆ z'.(zn_client).(cm_activeClients) ∧
  ∀ client es, z.(zn_servers) !! client = Some es →
    ∃ es', z'.(zn_servers) !! client = Some es' ∧
      ∀ q e, es !! q = Some e → ∃ e', es' !! q = Some e' ∧ rtc loads e e'.

#[local] Instance evolves_preorder : PreOrder evolves.
Proof.
  split.
  - intros z. split_and!; [done|done|]. intros client es Hes. exists es. split; [done|]. by eauto using rtc_refl.
  - intros z1 z2 z3 (E1 & C1 & S1) (E2 & C2 & S2). split_and!; [congruence|by etrans|].
    intros client es Hes. destruct (S1 _ _ Hes) as (es2 & Hes2 & H12).
    destruct (S2 _ _ Hes2) as (es3 & Hes3 & H23). exists es3. split; [done|].
    intros q e Hq. destruct (H12 _ _ Hq) as (e2 & Hq2 & R12). destruct (H23 _ _ Hq2) as (e3 & Hq3 & R23).
    exists e3. split; [done|]. by etrans.
Qed.

Lemma For_client addr cm o cm' :
  For addr cm = (o, cm') → cm.(cm_activeClients) ⊆ cm'.(cm_activeClients) ∧
  ∀ client, o = Ret client → cm'.(cm_activeClients) !! addr = Some client.
Proof.
  unfold For. erewrite (bind_step get) by reflexivity.
  destruct (cm_activeClients cm !! addr) as [c|] eqn:Ec.
  { intros [= <- <-]. split; [done|]. by intros ? [= <-]. }
  unfold newClient, wrap_result. destruct (rpc_NewClient addr) as [c|err]; intros [= <- <-]; simpl.
  - split; [by apply insert_subseteq|]. intros ? [= <-]. by rewrite lookup_insert_eq.
  - by split.
Qed.

(** The engines of the leader of a partition have loaded the definition. *)
Definition leader_loaded (c : Cluster) (z z' : ZenNode (E := E)) (p : Z) : Prop :=
  ∃ client, z'.(zn_client).(cm_activeClients) !!
      (default zero_node (c.(c_Nodes) !! default "" (p_LeaderId <$> c.(c_Partitions) !! p))).(n_Addr) = Some client ∧
    is_Some (z'.(zn_servers) !! client) ∧
    ∀ es, z.(zn_servers) !! client = Some es → ∃ es', z'.(zn_servers) !! client = Some es' ∧
      ∀ q e, es !! q = Some e → ∃ e', es' !! q = Some e' ∧ tc loads e e'.

Lemma leader_loaded_later c z z1 z2 z3 p :
  evolves z z1 → leader_loaded c z1 z2 p → evolves z2 z3 → leader_loaded c z z3 p.
Proof.
  intros (_ & _ & S1) (client & Hc & [es2 Hes2] & Hl) (_ & C3 & S3).
  exists client. split; [by eapply lookup_weaken|].
  destruct (S3 _ _ Hes2) as (es3 & Hes3 & H23). split; [by eexists|].
  intros es Hes. destruct (S1 _ _ Hes) as (es1 & Hes1 & H01). destruct (Hl _ Hes1) as (es2' & Hes2' & H12).
  rewrite Hes2 in Hes2'. injection Hes2' as <-. exists es3. split; [done|].
  intros q e Hq. destruct (H01 _ _ Hq) as (e1 & Hq1 & R01). destruct (H12 _ _ Hq1) as (e2 & Hq2 & T12).
  destruct (H23 _ _ Hq2) as (e3 & Hq3 & R23). exists e3. split; [done|].
  eapply tc_rtc_l; [exact R01|]. by eapply tc_rtc_r.
Qed.

Lemma deploy_one c p z z' :
  deployProcessDefinitionToPartition iter c (default "" (p_LeaderId <$> c.(c_Partitions) !! p)) key data z =
    (Ret tt, z') →
  evolves z z' ∧ leader_loaded c z z' p.
Proof.
  unfold deployProcessDefinitionToPartition. intros (client & z1 & E1%wrap_Ret & E2%wrap_Ret)%bind_Ret.
  unfold with_client, zoom in E1. destruct (For _ _) as [o cm] eqn:Ef. injection E1 as -> <-.
  apply For_client in Ef as [Hsub Hfor]. specialize (Hfor _ eq_refl).
  unfold call in E2. simpl in E2. destruct (zn_servers z !! client) as [es|] eqn:Hes; [|done].
  destruct (server_DeployProcessDefinition iter data key es) as [o es'] eqn:Es. injection E2 as -> <-.
  pose proof (server_loads _ _ Es) as Hload. split.
  - split_and!; [done|done|]. simpl. intros client' es1 Hes1.
    destruct (decide (client = client')) as [<-|Hne].
    + rewrite Hes in Hes1. injection Hes1 as <-. exists es'. rewrite lookup_insert_eq. split; [done|].
      intros q e Hq. destruct (Hload _ _ Hq) as (e' & ? & ?). exists e'. split; [done|]. by apply tc_rtc.
    + exists es1. rewrite lookup_insert_ne by done. split; [done|]. by eauto using rtc_refl.
  - exists client. simpl. rewrite lookup_insert_eq. split_and!; [done|by eexists|].
    intros es1 Hes1. rewrite Hes in Hes1. injection Hes1 as <-. by exists es'.
Qed.

(** When no call failed, every partition was reached. *)
Lemma deploy_all c cancelled order z z' first :
  for_fold order first (deploy_step iter c cancelled key data) z = (Ret None, z') →
  first = None ∧ evolves z z' ∧ ∀ p, p ∈ order → leader_loaded c z z' p.
Proof.
  revert z first. induction order as [|p order IH]; intros z first Er; simpl in Er.
  { injection Er as -> <-. split_and!; [done|reflexivity|]. by intros p Hp%elem_of_nil. }
  apply bind_Ret in Er as (f' & z1 & E1 & Er). destruct (IH _ _ Er) as (-> & Hev & Hl).
  assert (first = None ∧ evolves z z1 ∧ leader_loaded c z z1 p) as (-> & Hev1 & Hl1).
  { unfold deploy_step in E1. destruct first as [err|].
    - destruct (cancelled p); [done|]. apply bind_Ret in E1 as (r & z2 & _ & E2). by destruct r.
    - split; [done|]. assert (E2 : (r ← attempt (deployProcessDefinitionToPartition iter c
          (default "" (p_LeaderId <$> c.(c_Partitions) !! p)) key data);
        mret (match r with Bad e => Some e | _ => None end)) z = (Ret None, z1)) by (by destruct (cancelled p)).
      apply bind_Ret in E2 as (r & z2 & Ea & E2). destruct r as [[]|]; [|done].
      injection E2 as <-. apply attempt_Ret_Good in Ea. by apply deploy_one. }
  split_and!; [done|by etrans|]. intros q [->|Hq]%elem_of_cons.
  - eapply leader_loaded_later; [reflexivity|exact Hl1|exact Hev].
  - eapply leader_loaded_later; [exact Hev1|by apply Hl|reflexivity].
Qed.

(** C22: a deployment that is answered with a key reached every partition: on the
    leader of each partition every engine loaded the definition under that key,
    in whatever order the goroutines ran, and no engine was touched in any other
    way. *)
Theorem deployment_reaches_every_partition db md5sum order cancelled z z' k :
  order ≡ₚ sortedPartitionIds z.(zn_store).(s_state) →
  DeployProcessDefinitionToAllPartitions iter db key order cancelled data md5sum z = (Ret k, z') →
  k = key ∧ evolves z z' ∧
  ∀ p partition, z.(zn_store).(s_state).(c_Partitions) !! p = Some partition →
    leader_loaded z.(zn_store).(s_state) z z' p.
Proof.
  intros Hord Er. unfold DeployProcessDefinitionToAllPartitions in Er.
  destruct (GetDefinitionKeyByBytes db md5sum) as [k0|]; [|done]. destruct (negb _); [done|].
  erewrite (bind_step get) in Er by reflexivity.
  apply bind_Ret in Er as (first & z1 & E1 & Er). destruct first; [done|]. injection Er as <- <-.
  apply deploy_all in E1 as (_ & Hev & Hl). split_and!; [done|done|].
  intros p partition Hp. apply Hl. rewrite Hord. unfold sortedPartitionIds.
  rewrite merge_sort_Permutation. apply list_elem_of_fmap. exists (p, partition). split; [done|].
  by apply elem_of_map_to_list.
Qed.
End deployment.
End routing.

(** ** A concrete deployment

    Engines that record what they loaded; partition 1 is led by node [a]. *)
Section concrete.
#[local] Open Scope string_scope.

Definition recorder : Type := list (string * Z).
Definition unsupported {A} : ST recorder A := throw (err! "unsupported").
#[local] Instance recorder_api : EngineApi recorder := {|
  eng_JobAssignByKey _ _ := unsupported; eng_ResolveIncident _ := unsupported;
  eng_CancelInstanceByKey _ := unsupported; eng_ModifyInstance _ _ _ _ := unsupported;
  eng_DeleteInstanceVariable _ _ := unsupported;
  eng_LoadFromBytes data key := modify (λ l, (data, key) :: l)%list |}.
#[local] Instance dial_address : Dial := {| rpc_NewClient _ := Good 1%Z |}.

Definition record_iter (A : Type) (m : gmap Z A) : list (Z * A) := map_to_list m.
Definition record_node (l : recorder) (clients : gmap string Z) : ZenNode (E := recorder) :=
  {| zn_store := replica_2; zn_client := {| cm_activeClients := clients |};
     zn_servers := {[1%Z := {[1%Z := l]}]} |}.
Definition deployed_node : ZenNode (E := recorder) :=
  record_node [("bpmn", 7%Z)] {["10.0.0.1:8090" := 1%Z]}.
Definition no_definition : result (list Z → result Z) := Good (λ _, Bad ErrNoRows).

Lemma deployment_reaches_every_partition_witness :
  DeployProcessDefinitionToAllPartitions record_iter no_definition 7 [1%Z] (λ _, false) "bpmn" []
    (record_node [] ∅) = (Ret 7%Z, deployed_node) ∧
  leader_loaded "bpmn" 7 replica_2.(s_state) (record_node [] ∅) deployed_node 1.
Proof.
  assert (Er : DeployProcessDefinitionToAllPartitions record_iter no_definition 7 [1%Z] (λ _, false) "bpmn" []
    (record_node [] ∅) = (Ret 7%Z, deployed_node)) by reflexivity.
  split; [exact Er|].
  destruct (deployment_reaches_every_partition record_iter (λ A m, reflexivity _) "bpmn" 7 no_definition []
    [1%Z] (λ _, false) (record_node [] ∅) deployed_node 7) as (_ & _ & Hl); [reflexivity|exact Er|].
  by apply (Hl 1%Z {| p_Id := 1; p_LeaderId := "a" |}).
Defined.
End concrete.
