(* ===== verification/EngineCommands.v ===== *)
(** The commands of the cluster on the engines of this development: what a
    cancellation over REST leaves behind, and which status an unknown instance
    and an unknown job get. *)
From S2P Require Import Prelude ZenErr Monad Model Runtime DmnModel Storage InMemory Locks TimerManager World.
From S2P Require Import Api Runs Example CancelProps Identity ClusterState ClusterStore ClusterProps.
From S2P Require Import Zenflake JobClient Messages Commands CommandProps.

Section engine.
Context {S : Type} `{Storage S} `{DecisionStorage S} `{Env}.

(** The engines of a partition as the handlers of the cluster server use them;
    parsing and the checksum of a definition are given. *)
#[export] Instance World_EngineApi (fuel : nat) (parse : string → string * TDefinitions)
    (md5 : string → list Z) : EngineApi (World S) := {|
  eng_JobAssignByKey := JobAssignByKey;
  eng_ResolveIncident := ResolveIncident fuel;
  eng_CancelInstanceByKey := CancelInstanceByKey fuel;
  eng_ModifyInstance k terminate start variables :=
    r ← ModifyInstance fuel k terminate start variables;
    i ← load_instance r.1;
    mret (i, r.2);
  eng_DeleteInstanceVariable k variable := p ← DeleteInstanceVariable k variable; load_instance p;
  eng_LoadFromBytes data k :=
    _ ← load data (md5 data) (parse data).1 (parse data).2 k; mret tt |}.
End engine.

Lemma rest_ok {T A} ok status (m : ST T A) s s' :
  rest_respond ok status m s = (Ret ok, s') → (∀ code, status code ≠ ok) → ok ≠ 500%Z →
  ∃ a, m s = (Ret a, s').
Proof.
  intros (r & s1 & E1 & E)%bind_Ret Hs Hok. destruct r as [a|e].
  - apply attempt_Ret_Good in E1. injection E as <-. by exists a.
  - exfalso. injection E as E _. destruct e; congruence.
Qed.

Lemma rest_status {T A} ok status (m : ST T A) s s' code err :
  m s = (Err (ZenError code err), s') → rest_respond ok status m s = (Ret (status code), s').
Proof. intros Em. unfold rest_respond, attempt, mbind, ST_bind. by rewrite Em. Qed.

Lemma rest_returns {T A} ok status (m : ST T A) s code :
  (rest_respond ok status m s).1 = Ret code → returns (m s).1.
Proof. unfold rest_respond, attempt, mbind, ST_bind. by destruct (m s) as [[] ?]. Qed.

Lemma status_of_ne table code ok :
  Forall (λ cs, cs.2 ≠ ok) table → ok ≠ 500%Z → status_of table code ≠ ok.
Proof.
  intros Ht Hok. unfold status_of. destruct (List.find _ table) as [cs|] eqn:Ef; [|done].
  apply List.find_some in Ef as [Hin _]. rewrite Forall_forall in Ht. apply Ht. by apply list_elem_of_In.
Qed.

Section commands.
Context {S : Type} `{Storage S} `{DecisionStorage S} `{Env} `{Dial}.
Context (fuel : nat) (parse : string → string * TDefinitions) (md5 : string → list Z).
#[local] Existing Instance World_EngineApi.
#[local] Instance engine_api : EngineApi (World S) := World_EngineApi fuel parse md5.

Section cancel.
Context `{!HeapLaws S} {view : S → Tables}
  {row : S → Heap → Z → option ProcessInstance} `{!StorageLaws S view row}.

End cancel.

(** The errors of JobAssignByKey wrap nothing. *)
Lemma assign_outcome key assignee w :
  returns (JobAssignByKey key assignee w).1 →
  (JobAssignByKey key assignee w).1 = Ret tt ∧ is_Good (FindJobByJobKey w.(w_store) key) ∨
  ∃ m, (JobAssignByKey key assignee w).1 = Err (Errorf m []).
Proof.
  unfold JobAssignByKey, query, wrap, attempt, on_store, zoom, mbind, ST_bind.
  destruct (FindJobByJobKey _ _) as [job|e]; simpl; [|right; by eexists].
  destruct (exec _ _) as [[[]|e|?| |] s]; simpl; intros Hr; try done; [by left|right; by eexists].
Qed.

(** An unknown instance and an unknown job are not answered alike: a
    cancellation of an instance the storage does not know is answered with 404,
    but assigning a job it does not know is answered with 500, because the
    engine drops the error of the storage; no assignment is ever answered with
    the 404 its handler provides for. *)
Theorem unknown_job_is_a_server_error (z : ZenNode (E := World S)) key client cm es w :
  PartitionLeader z.(zn_store) (GetPartitionId key) z.(zn_client) = (Ret client, cm) →
  z.(zn_servers) !! client = Some es → es !! GetPartitionId key = Some w →
  ((FindProcessInstanceByKey w.(w_store) key w.(w_heap)).1 = Err ErrNotFound →
   (rest_CancelProcessInstance key z).1 = Ret 404%Z) ∧
  (FindJobByJobKey w.(w_store) key = Bad ErrNotFound →
   ∀ assignee, (rest_AssignJob key assignee z).1 = Ret 500%Z) ∧
  ∀ assignee, (rest_AssignJob key assignee z).1 ≠ Ret 404%Z.
Proof.
  intros Hl Hs He.
  assert (Hassign : ∀ assignee, let o := (JobAssignByKey key (if (assignee =? "")%string then None else Some assignee) w).1 in
    returns o → (rest_AssignJob key assignee z).1 = Ret (match o with Ret _ => 204%Z | _ => 500%Z end)).
  { intros assignee o Ho. unfold rest_AssignJob, rest_respond, attempt, mbind at 1, ST_bind at 1.
    unfold node_AssignJob, server_AssignJobToAssignee. cbv zeta.
    erewrite (simple_command z key client cm es w Hl Hs He) by (apply surjective_pairing || exact Ho).
    destruct (assign_outcome _ _ _ Ho) as [[Eo _]|[m Eo]]; subst o; simpl in *; by rewrite Eo. }
  split_and!.
  - intros Hnf. unfold rest_CancelProcessInstance, rest_respond, attempt, mbind at 1, ST_bind at 1.
    unfold node_CancelProcessInstance, server_CancelProcessInstance. cbv zeta.
    assert (Ec : ∃ w', CancelInstanceByKey fuel key w = (Err (errw! "failed to find process instance %d: %w" [ErrNotFound]), w')).
    { unfold CancelInstanceByKey, wrap, attempt, on_heap, mbind, ST_bind.
      destruct (FindProcessInstanceByKey _ _ _) as [o h]. simpl in Hnf. subst o. by eexists. }
    destruct Ec as [w' Ec].
    erewrite (simple_command z key client cm es w Hl Hs He) by (exact Ec || done). reflexivity.
  - intros Hnf assignee. rewrite Hassign; unfold JobAssignByKey, query, wrap, attempt, mbind, ST_bind;
      by rewrite Hnf.
  - intros assignee Er. apply rest_returns in Er as Ho.
    unfold node_AssignJob, server_AssignJobToAssignee in Ho. cbv zeta in Ho.
    eapply simple_command_returns in Ho; [|done..].
    rewrite (Hassign _ Ho) in Er. cbn [eng_JobAssignByKey] in Er.
    by destruct (JobAssignByKey _ _ w).1.
Qed.
End commands.

(** ** Concrete instances *)

Section concrete.
#[local] Open Scope string_scope.
#[local] Instance dial_one : Dial := {| rpc_NewClient _ := Good 1%Z |}.

(** Partition 0, to which the keys of the example belong, is led by node [a]. *)
Definition leads_zero : Store :=
  set_s_state {| DesiredPartitions := 1;
                 c_Partitions := {[0%Z := {| p_Id := 0; p_LeaderId := "a" |}]};
                 c_Nodes := replica_2.(s_state).(c_Nodes) |} replica_2.

Definition no_clients_yet : ClientManager := {| cm_activeClients := ∅ |}.
Definition one_client : ClientManager := {| cm_activeClients := {["10.0.0.1:8090" := 1%Z]} |}.

Definition no_parse (data : string) : string * TDefinitions := ("", example_definition.(pd_Definitions)).
Definition no_md5 (data : string) : list Z := [].
#[local] Instance example_engine : EngineApi (World InMemory) := World_EngineApi 20 no_parse no_md5.

(** The node of a cluster whose engine of partition 0 is in the world [w]. *)
Definition server_with (w : World InMemory) : Server (World InMemory) := {[0%Z := w]}.
Definition node_with (w : World InMemory) : ZenNode (E := World InMemory) :=
  {| zn_store := leads_zero; zn_client := no_clients_yet; zn_servers := {[1%Z := server_with w]} |}.
Definition node_after (w w' : World InMemory) : ZenNode (E := World InMemory) :=
  with_engine_state (node_with w) one_client 1 (GetPartitionId 100) (server_with w) w'.

Definition to_json (v : vars) : result string := Good "{}".
Definition from_json (text : string) : result vars := Good ∅.

Lemma cancel_waiting : CancelInstanceByKey 20 100 waiting_world = (Ret tt, cancelled_world).
Proof. vm_compute. reflexivity. Qed.

Lemma run_cancel f : run_command (E := World InMemory) f (CmdCancel 100) = CancelInstanceByKey 20 100.
Proof. reflexivity. Qed.

Lemma command_reaches_its_engine_witness :
  (run_command (λ _, ∅) (CmdCancel 100) waiting_world).1 = Ret tt ∧
  node_command to_json from_json (CmdCancel 100) (node_with waiting_world) =
    (Ret tt, node_after waiting_world cancelled_world).
Proof.
  rewrite run_cancel. generalize cancel_waiting. generalize cancelled_world, waiting_world. intros w' w Ew.
  rewrite Ew. split; [reflexivity|].
  pose proof (command_reaches_its_engine to_json from_json (λ _, ∅) (CmdCancel 100) (node_with w) 1
    one_client (server_with w) w) as Hc.
  rewrite run_cancel, Ew in Hc. apply Hc; [|reflexivity|reflexivity|reflexivity].
  intros v. exists "{}". by split.
Defined.


Lemma unknown_job_is_a_server_error_witness :
  (rest_CancelProcessInstance 5 (node_with waiting_world)).1 = Ret 404%Z ∧
  ∀ assignee, (rest_AssignJob 5 assignee (node_with waiting_world)).1 = Ret 500%Z.
Proof.
  assert (Hi : (FindProcessInstanceByKey waiting_world.(w_store) 5 waiting_world.(w_heap)).1 = Err ErrNotFound)
    by (vm_compute; reflexivity).
  assert (Hj : FindJobByJobKey waiting_world.(w_store) 5 = Bad ErrNotFound) by (vm_compute; reflexivity).
  generalize Hi Hj. clear Hi Hj. generalize waiting_world. intros w Hi Hj.
  pose proof (unknown_job_is_a_server_error 20 no_parse no_md5 (node_with w) 5 1 one_client (server_with w) w) as Hu.
  destruct Hu as (H1 & H2 & _); [reflexivity|reflexivity|reflexivity|].
  split; [exact (H1 Hi)|exact (H2 Hj)].
Defined.
End concrete.
