(* ===== verification/Reads.v ===== *)
(** Reads on the cluster: the handlers of the cluster server
    (internal/cluster/server/server.go) that query the database of a partition,
    and the methods of the node (internal/cluster/node.go) that ask a follower
    of one partition, or of every partition, and put the answers together.
    Definitions are read from a database of the node itself.

    A node keeps, per partition, whether it has an engine, whether it leads the
    partition, and its replica of the database.  Reading may fill the caches of
    a replica. *)
From S2P Require Import Prelude ZenErr Monad Runtime Sql Pages PartitionDB ClusterState ClusterStore Zenflake.
From S2P Require Import JobClient Messages Commands.

#[local] Open Scope string_scope.
#[local] Open Scope list_scope.

Record ReadPartition := { rp_Engine : bool; rp_IsLeader : bool; rp_DB : DB }.
Abbreviation ReadServer := (gmap Z ReadPartition).

(** ** Messages of the cluster protocol *)

Record ProtoJob := {
  pj_Key : Z; pj_ElementInstanceKey : Z; pj_ElementId : string; pj_ProcessInstanceKey : Z;
  pj_Type : string; pj_State : Z; pj_CreatedAt : Z; pj_Variables : string; pj_Assignee : option string
}.
Record ProtoIncident := {
  pin_Key : Z; pin_ElementInstanceKey : Z; pin_ElementId : string; pin_ProcessInstanceKey : Z;
  pin_Message : error; pin_CreatedAt : Z; pin_ResolvedAt : option Z; pin_ExecutionToken : Z
}.
Record FlowElement := { fe_Key : Z; fe_ElementId : string; fe_ProcessInstanceKey : Z; fe_CreatedAt : Z }.
Record ProtoDecisionInstance := {
  pdi_Key : Z; pdi_DmnResourceDefinitionKey : Z; pdi_ProcessInstanceKey : option Z;
  pdi_FlowElementInstanceKey : option Z; pdi_EvaluatedAt : Z;
  pdi_EvaluatedDecisions : option string; pdi_DecisionOutput : option string
}.
Record ElementStatisticEntry := { ese_ElementId : string; ese_ActiveCount : Z; ese_IncidentCount : Z }.
Record ProtoDefinition := {
  pde_Key : Z; pde_Version : Z; pde_Id : string; pde_Name : string; pde_Definition : string
}.

Record ProtoDefinitionStatistics := {
  pds_Key : Z; pds_Version : Z; pds_BpmnProcessId : string; pds_BpmnProcessName : string;
  pds_Total : Z; pds_Active : Z; pds_Completed : Z; pds_Terminated : Z; pds_Failed : Z
}.

(** PartitionedJobs, PartitionedProcessInstances and the like. *)
Record Partitioned (A : Type) := { ptd_PartitionId : Z; ptd_Items : list A; ptd_TotalCount : Z }.
Arguments Build_Partitioned {A}. Arguments ptd_PartitionId {A}. Arguments ptd_Items {A}.
Arguments ptd_TotalCount {A}.

Record GetJobsRequest := {
  gj_Page : Z; gj_Size : Z; gj_Partitions : list Z; gj_JobType : option string; gj_State : option Z;
  gj_Assignee : option string; gj_ProcessInstanceKey : option Z; gj_Sort : option string
}.
Record GetProcessInstancesRequest := {
  gp_Page : Z; gp_Size : Z; gp_Partitions : list Z; gp_DefinitionKey : Z; gp_ParentKey : Z;
  gp_BusinessKey : option string; gp_ProcessId : option string; gp_CreatedFrom : option Z;
  gp_CreatedTo : option Z; gp_State : option Z; gp_ShowChildProcesses : option bool;
  gp_ActivityId : option string; gp_SortByOrder : option string
}.
Record GetChildProcessInstancesRequest := {
  gc_Page : Z; gc_Size : Z; gc_ParentInstanceKey : option Z; gc_State : option Z;
  gc_SortByOrder : option string
}.
Record GetDecisionInstancesRequest := {
  gd_Page : Z; gd_Size : Z; gd_Partitions : list Z; gd_DmnResourceDefinitionKey : option Z;
  gd_DmnResourceDefinitionId : option string; gd_ProcessInstanceKey : option Z;
  gd_EvaluatedFrom : option Z; gd_EvaluatedTo : option Z; gd_SortByOrder : option string
}.
Record GetStatisticsRequest := {
  gs_Page : Z; gs_Size : Z; gs_Partitions : list Z; gs_OnlyLatest : option bool;
  gs_BpmnProcessIdIn : list string; gs_BpmnProcessDefinitionKeyIn : list Z; gs_Name : option string;
  gs_Sort : option string
}.

(** ** The cluster server *)

(** [int64(size) * int64(page-1)]: the subtraction is one of int32. *)
Definition server_offset (page size : Z) : Z := (size * wrap32 (page - 1))%Z.

(** The total count is the one of the first row, 0 without rows. *)
Definition first_total {A} (rows : list (A * Z)) : Z :=
  match rows with [] => 0%Z | (_, n) :: _ => wrap32 n end.

Definition on_db {A} (p : Z) (m : ST DB A) : ST ReadServer A := λ ns,
  match ns !! p with
  | None => (Panic "nil pointer dereference", ns)
  | Some n => let '(o, db) := m n.(rp_DB) in
              (o, <[p := {| rp_Engine := n.(rp_Engine); rp_IsLeader := n.(rp_IsLeader); rp_DB := db |}]> ns)
  end.

(** The queries of the partition, or the response without them. *)
Definition with_queries {A} (p : Z) (body : ST DB (Response A)) : ST ReadServer (Response A) :=
  ns ← get;
  match ns !! p with
  | None => mret (inr (ToProtoError TechnicalErrorCode (err! "queries for partition %d not found")))
  | Some _ => on_db p body
  end.

(** A query whose error is the error of the response. *)
Definition respond {A B} (failed : error → ErrorResult) (q : ST DB A) (found : A → ST DB (Response B))
    : ST DB (Response B) :=
  r ← attempt q;
  match r with Bad e => mret (inr (failed e)) | Good a => found a end.

Definition technical (e : error) : ErrorResult := ToProtoError TechnicalErrorCode e.

(** The loop over the partitions of a request ends at the first error. *)
Fixpoint server_partitions {A} (partitions : list Z) (one : Z → ST DB (Response A))
    : ST ReadServer (Response (list A)) :=
  match partitions with
  | [] => mret (inl [])
  | p :: partitions' =>
      r ← with_queries p (one p);
      match r with
      | inr e => mret (inr e)
      | inl a =>
          rest ← server_partitions partitions' one;
          mret (match rest with inr e => inr e | inl l => inl (a :: l) end)
      end
  end.

Definition proto_job (r : JobRow) : ProtoJob :=
  {| pj_Key := r.(jor_Key); pj_ElementInstanceKey := r.(jor_ElementInstanceKey);
     pj_ElementId := r.(jor_ElementID); pj_ProcessInstanceKey := r.(jor_ProcessInstanceKey);
     pj_Type := r.(jor_Type); pj_State := r.(jor_State); pj_CreatedAt := r.(jor_CreatedAt);
     pj_Variables := r.(jor_Variables); pj_Assignee := r.(jor_Assignee) |}.

(** The zero value of a token that is not found has the instance key 0. *)
Definition parent_key (parentTokens : list TokenRow) (r : InstanceRow) : option Z :=
  let parentTokensMap : gmap Z TokenRow := foldl (λ m t, <[t.(tor_Key) := t]> m) ∅ parentTokens in
  (λ t, default 0%Z (tor_ProcessInstanceKey <$> parentTokensMap !! t)) <$> r.(inr_ParentProcessExecutionToken).

Definition proto_instance_row (parentTokens : list TokenRow) (r : InstanceRow) (id : string)
    : ProtoProcessInstance :=
  {| ppi_Key := r.(inr_Key); ppi_ProcessId := id; ppi_Variables := r.(inr_Variables);
     ppi_State := r.(inr_State); ppi_CreatedAt := r.(inr_CreatedAt);
     ppi_DefinitionKey := r.(inr_ProcessDefinitionKey);
     ppi_ParentInstanceKey := parent_key parentTokens r;
     ppi_BusinessKey := r.(inr_BusinessKey); ppi_Type := r.(inr_ProcessType) |}.

(** GetProcessInstance answers the row's key and business key as well. *)
Definition proto_found_instance (i : ProcessInstance) (variables : string) : ProtoProcessInstance :=
  let p := proto_instance i variables in
  {| ppi_Key := p.(ppi_Key); ppi_ProcessId := p.(ppi_ProcessId); ppi_Variables := p.(ppi_Variables);
     ppi_State := p.(ppi_State); ppi_CreatedAt := p.(ppi_CreatedAt);
     ppi_DefinitionKey := p.(ppi_DefinitionKey); ppi_ParentInstanceKey := p.(ppi_ParentInstanceKey);
     ppi_BusinessKey := i.(pi_BusinessKey); ppi_Type := p.(ppi_Type) |}.

Definition proto_token_row (t : TokenRow) : ProtoExecutionToken :=
  {| pet_Key := t.(tor_Key); pet_ElementInstanceKey := t.(tor_ElementInstanceKey);
     pet_ElementId := t.(tor_ElementID); pet_ProcessInstanceKey := t.(tor_ProcessInstanceKey);
     pet_CreatedAt := t.(tor_CreatedAt); pet_State := t.(tor_State) |}.

Section server.
Context `{TableScan} `{SqlLike}.
Context (xml_Unmarshal_bpmn : string → result Model.TDefinitions).
Context (json_Unmarshal : string → result vars) (json_Marshal : vars → result string).

(** Needs the engine of the partition, which only its leader has. *)
Definition server_GetProcessInstance (key : Z)
    : ST ReadServer (Response (ProtoProcessInstance * list ProtoExecutionToken)) :=
  let partitionId := GetPartitionId key in
  ns ← get;
  match ns !! partitionId with
  | Some {| rp_Engine := true |} =>
      on_db partitionId
        (respond (found_or_technical (λ e, errw! "process instance %d not found: %w" [e])
                                     (λ e, errw! "failed to get process instance %d: %w" [e]))
           (db_FindProcessInstanceByKey xml_Unmarshal_bpmn json_Unmarshal key) (λ instance,
         respond (λ _, technical (err! "failed to find process instance execution tokens for instance %d"))
           (query_many "GetTokensForProcessInstance" (q_GetTokensForProcessInstance key
              [TokenState_int TokenStateWaiting; TokenState_int TokenStateRunning; TokenState_int TokenStateFailed]))
           (λ tokens,
         mret (match json_Marshal instance.(pi_VariableHolder) with
               | Bad _ => inr (technical (err! "failed to marshal variables of process instance %d"))
               | Good vars => inl (proto_found_instance instance vars, proto_token_row <$> tokens)
               end))))
  | _ => mret (inr (technical (err! "engine with partition %d was not found")))
  end.

Definition server_GetDecisionInstance (key : Z) : ST ReadServer (Response ProtoDecisionInstance) :=
  with_queries (GetPartitionId key)
    (respond (found_or_technical (λ _, err! "decision instance %d not found")
                                 (λ e, errw! "failed to find decision instance %d: %w" [e]))
       (query_one "FindDecisionInstanceByKey" (q_FindDecisionInstanceByKey key)) (λ r,
     mret (inl {| pdi_Key := r.(dir_Key); pdi_DmnResourceDefinitionKey := r.(dir_DmnResourceDefinitionKey);
                  pdi_ProcessInstanceKey := r.(dir_ProcessInstanceKey);
                  pdi_FlowElementInstanceKey := r.(dir_FlowElementInstanceKey);
                  pdi_EvaluatedAt := r.(dir_CreatedAt);
                  pdi_EvaluatedDecisions := Some r.(dir_EvaluatedDecisions);
                  pdi_DecisionOutput := Some r.(dir_OutputVariables) |}))).

(** The page does not select the decisions and the output. *)
Definition server_GetDecisionInstances (req : GetDecisionInstancesRequest)
    : ST ReadServer (Response (list (Partitioned ProtoDecisionInstance))) :=
  server_partitions req.(gd_Partitions) (λ partitionId,
    respond (λ e, technical (errw! "failed to find decision instances for request %v: %w" [e]))
      (query_many "FindDecisionInstancesPage" (q_FindDecisionInstancesPage
         {| dpp_DmnResourceDefinitionKey := req.(gd_DmnResourceDefinitionKey);
            dpp_DmnResourceDefinitionID := req.(gd_DmnResourceDefinitionId);
            dpp_ProcessInstanceKey := req.(gd_ProcessInstanceKey);
            dpp_EvaluatedFrom := req.(gd_EvaluatedFrom); dpp_EvaluatedTo := req.(gd_EvaluatedTo);
            dpp_SortByOrder := req.(gd_SortByOrder);
            dpp_Offset := server_offset req.(gd_Page) req.(gd_Size); dpp_Size := req.(gd_Size) |}))
      (λ instances,
    mret (inl {| ptd_PartitionId := partitionId; ptd_TotalCount := first_total instances;
      ptd_Items := (λ r, {| pdi_Key := r.1.(dir_Key);
        pdi_DmnResourceDefinitionKey := r.1.(dir_DmnResourceDefinitionKey);
        pdi_ProcessInstanceKey := r.1.(dir_ProcessInstanceKey);
        pdi_FlowElementInstanceKey := r.1.(dir_FlowElementInstanceKey);
        pdi_EvaluatedAt := r.1.(dir_CreatedAt); pdi_EvaluatedDecisions := None;
        pdi_DecisionOutput := None |}) <$> instances |}))).

Definition server_GetProcessInstanceJobs (page size key : Z) : ST ReadServer (Response (list ProtoJob * Z)) :=
  with_queries (GetPartitionId key)
    (respond (λ _, technical (err! "failed to find process instance jobs for instance %d"))
       (query_many "FindProcessInstanceJobs" (q_FindProcessInstanceJobs key (server_offset page size) size))
       (λ result, mret (inl ((λ r, proto_job r.1) <$> result, first_total result)))).

Definition server_GetFlowElementHistory (page size key : Z)
    : ST ReadServer (Response (list FlowElement * Z)) :=
  with_queries (GetPartitionId key)
    (respond (λ _, technical (err! "failed to find flow element history for instance %d"))
       (query_many "FindFlowElementInstances" (q_FindFlowElementInstances key (server_offset page size) size))
       (λ flowElements, mret (inl
         ((λ r, {| fe_Key := r.1.(elr_Key); fe_ElementId := r.1.(elr_ElementID);
                   fe_ProcessInstanceKey := r.1.(elr_ProcessInstanceKey);
                   fe_CreatedAt := r.1.(elr_CreatedAt) |}) <$> flowElements,
          first_total flowElements)))).

Definition server_GetJobs (req : GetJobsRequest) : ST ReadServer (Response (list (Partitioned ProtoJob))) :=
  server_partitions req.(gj_Partitions) (λ partitionId,
    respond (λ e, technical (errw! "failed to find jobs list %w" [e]))
      (query_many "FindJobs" (q_FindJobs
         {| jpp_Sort := req.(gj_Sort); jpp_Type := req.(gj_JobType); jpp_State := req.(gj_State);
            jpp_ProcessInstanceKey := req.(gj_ProcessInstanceKey); jpp_Assignee := req.(gj_Assignee);
            jpp_Offset := server_offset req.(gj_Page) req.(gj_Size); jpp_Limit := req.(gj_Size) |}))
      (λ dbJobs,
    mret (inl {| ptd_PartitionId := partitionId; ptd_Items := (λ r, proto_job r.1) <$> dbJobs;
                 ptd_TotalCount := first_total dbJobs |}))).

Definition server_GetJob (key : Z) : ST ReadServer (Response ProtoJob) :=
  with_queries (GetPartitionId key)
    (respond (found_or_technical (λ _, err! "job %d not found") (λ e, errw! "failed to get job %d: %w" [e]))
       (query_one "FindJobByJobKey" (q_FindJobByJobKey key)) (λ job, mret (inl (proto_job job)))).

(** The rows of a page as instances; an error of the second query is returned. *)
Definition page_of_instances (p : InstancesPageParams) (failed : error → ErrorResult)
    : ST DB (Response (list ProtoProcessInstance * Z)) :=
  respond failed (query_many "FindProcessInstancesPage" (q_FindProcessInstancesPage p)) (λ instances,
    parentTokens ← GetTokens ((λ r, default 0%Z r.1.1.(inr_ParentProcessExecutionToken)) <$> instances);
    mret (inl ((λ r, proto_instance_row parentTokens r.1.1 r.1.2) <$> instances, first_total instances))).

(** The types in the order of the parameters: call activity, multi instance,
    default, sub process. *)
Definition filter_types (showChildProcesses : option bool) : list (option Z) :=
  if bool_decide (showChildProcesses = Some true)
  then [Some (ProcessType_int ProcessTypeCallActivity); Some (ProcessType_int ProcessTypeMultiInstance);
        Some (ProcessType_int ProcessTypeDefault); Some (ProcessType_int ProcessTypeSubProcess)]
  else [Some (ProcessType_int ProcessTypeCallActivity); None;
        Some (ProcessType_int ProcessTypeDefault); None].

Definition instances_page_params (req : GetProcessInstancesRequest) : InstancesPageParams :=
  {| ipp_SortByOrder := req.(gp_SortByOrder); ipp_ProcessDefinitionKey := req.(gp_DefinitionKey);
     ipp_ParentInstanceKey := req.(gp_ParentKey); ipp_BusinessKey := req.(gp_BusinessKey);
     ipp_BpmnProcessID := req.(gp_ProcessId); ipp_ActivityID := req.(gp_ActivityId);
     ipp_CreatedFrom := req.(gp_CreatedFrom); ipp_CreatedTo := req.(gp_CreatedTo);
     ipp_State := req.(gp_State); ipp_FilterTypes := filter_types req.(gp_ShowChildProcesses);
     ipp_Offset := server_offset req.(gp_Page) req.(gp_Size); ipp_Size := req.(gp_Size) |}.

Definition server_GetProcessInstances (req : GetProcessInstancesRequest)
    : ST ReadServer (Response (list (Partitioned ProtoProcessInstance))) :=
  server_partitions req.(gp_Partitions) (λ partitionId,
    r ← page_of_instances (instances_page_params req)
          (λ _, technical (err! "failed to find process instances with definition key %d"));
    mret (match r with
          | inr e => inr e
          | inl (items, total) => inl {| ptd_PartitionId := partitionId; ptd_Items := items;
                                         ptd_TotalCount := total |}
          end)).

(** The errors are returned as well, so the caller gets no response. *)
Definition server_GetChildProcessInstances (req : GetChildProcessInstancesRequest)
    : ST ReadServer (list ProtoProcessInstance * Z) :=
  let parentKey := default 0%Z req.(gc_ParentInstanceKey) in
  ns ← get;
  match ns !! GetPartitionId parentKey with
  | None => throw (err! "queries for partition %d not found")
  | Some _ =>
      r ← on_db (GetPartitionId parentKey) (page_of_instances
        {| ipp_SortByOrder := req.(gc_SortByOrder); ipp_ProcessDefinitionKey := 0;
           ipp_ParentInstanceKey := parentKey; ipp_BusinessKey := None; ipp_BpmnProcessID := None;
           ipp_ActivityID := None; ipp_CreatedFrom := None; ipp_CreatedTo := None;
           ipp_State := req.(gc_State);
           ipp_FilterTypes := [Some (ProcessType_int ProcessTypeCallActivity);
             Some (ProcessType_int ProcessTypeMultiInstance); None;
             Some (ProcessType_int ProcessTypeSubProcess)];
           ipp_Offset := server_offset req.(gc_Page) req.(gc_Size); ipp_Size := req.(gc_Size) |}
        (λ _, technical (err! "failed to find child process instances with key %d")));
      match r with
      | inl a => mret a
      | inr _ => throw (err! "failed to find child process instances with key %d")
      end
  end.

Definition server_GetIncidents (page size key : Z) (state : option string)
    : ST ReadServer (Response (list ProtoIncident * Z)) :=
  with_queries (GetPartitionId key)
    (respond (λ _, technical (err! "failed to find incidents for instance %d"))
       (query_many "FindIncidentsPageByProcessInstanceKey"
          (q_FindIncidentsPageByProcessInstanceKey key state (server_offset page size) size))
       (λ incidents, mret (inl
         ((λ r, {| pin_Key := r.1.(icr_Key); pin_ElementInstanceKey := r.1.(icr_ElementInstanceKey);
                   pin_ElementId := r.1.(icr_ElementID); pin_ProcessInstanceKey := r.1.(icr_ProcessInstanceKey);
                   pin_Message := r.1.(icr_Message); pin_CreatedAt := r.1.(icr_CreatedAt);
                   pin_ResolvedAt := r.1.(icr_ResolvedAt); pin_ExecutionToken := r.1.(icr_ExecutionToken) |})
          <$> incidents, first_total incidents)))).

(** The counts of an element are cast to int32. *)
Definition statistic_entry (row : string * Z * Z) : ElementStatisticEntry :=
  {| ese_ElementId := row.1.1; ese_ActiveCount := wrap32 row.1.2; ese_IncidentCount := wrap32 row.2 |}.

Definition server_GetProcessDefinitionElementStatistics (key : Z) (partitions : list Z)
    : ST ReadServer (Response (list (Z * list ElementStatisticEntry))) :=
  server_partitions partitions (λ partitionId,
    respond (λ e, technical (errw! "failed to get element statistics for process definition %d: %w" [e]))
      (query_many "GetElementStatisticsByProcessDefinitionKey" (q_GetElementStatisticsByProcessDefinitionKey key))
      (λ rows, mret (inl (partitionId, statistic_entry <$> rows)))).

Definition server_GetProcessInstanceElementStatistics (key : Z) (partitions : list Z)
    : ST ReadServer (Response (list (Z * list ElementStatisticEntry))) :=
  server_partitions partitions (λ partitionId,
    respond (λ e, technical (errw! "failed to get element statistics for process instance %d: %w" [e]))
      (query_many "GetElementStatisticsByProcessInstanceKey" (q_GetElementStatisticsByProcessInstanceKey key))
      (λ rows, mret (inl (partitionId, statistic_entry <$> rows)))).

(** An empty list of a request arrives as a nil slice, which is NULL; a list of
    strings or numbers always has a JSON text. *)
Definition json_param {A} (l : list A) : option (list A) :=
  match l with [] => None | _ => Some l end.

(** The sums are read as float64 and converted back: exact below 2^53. *)
Definition proto_statistics (s : DefinitionStatistics) : ProtoDefinitionStatistics :=
  {| pds_Key := s.(dfs_definition).(der_Key); pds_Version := wrap32 s.(dfs_definition).(der_Version);
     pds_BpmnProcessId := s.(dfs_definition).(der_BpmnProcessID);
     pds_BpmnProcessName := s.(dfs_definition).(der_BpmnProcessName);
     pds_Total := s.(dfs_TotalInstances); pds_Active := s.(dfs_ActiveCount);
     pds_Completed := s.(dfs_CompletedCount); pds_Terminated := s.(dfs_TerminatedCount);
     pds_Failed := s.(dfs_FailedCount) |}.

Definition server_GetProcessDefinitionStatistics (req : GetStatisticsRequest)
    : ST ReadServer (Response (list (Partitioned ProtoDefinitionStatistics))) :=
  server_partitions req.(gs_Partitions) (λ partitionId,
    respond (λ e, technical (errw! "failed to find process definition statistics: %w" [e]))
      (query_many "FindProcessDefinitionStatistics" (q_FindProcessDefinitionStatistics
         (server_offset req.(gs_Page) req.(gs_Size)) req.(gs_Size) req.(gs_Sort) req.(gs_Name)
         (if bool_decide (req.(gs_OnlyLatest) = Some true) then 1 else 0)%Z
         (json_param req.(gs_BpmnProcessIdIn)) (json_param req.(gs_BpmnProcessDefinitionKeyIn))))
      (λ dbStats,
    mret (inl {| ptd_PartitionId := partitionId; ptd_Items := (λ r, proto_statistics r.1) <$> dbStats;
                 ptd_TotalCount := first_total dbStats |}))).
End server.

(** ** The node *)

Section node.
Context `{TableScan} `{SqlLike} `{Dial}.
Context (iter_nodes : ∀ (A : Type), gmap string A → list (string * A)).
Context (xml_Unmarshal_bpmn : string → result Model.TDefinitions).
Context (json_Unmarshal : string → result vars) (json_Marshal : vars → result string).

Abbreviation Cluster_ST := (ST (ZenNode (E := ReadPartition))).

(** A client of a follower of the partition, or of its leader when there is no
    follower. *)
Definition follower_client (c : Cluster) (partitionId : Z) (no_follower no_client : error → error) : Cluster_ST Z :=
  follower ← wrap_result (λ e, ClusterError (no_follower e)) (GetPartitionFollower iter_nodes c partitionId);
  wrap no_client (with_client (For follower.(n_Addr))).

(** The read of one partition, found by the key that is read. *)
Definition read_by_key {A} (key : Z) (no_follower no_client : error → error) (failed : error → error)
    (refused : error) (m : ST ReadServer (Response A)) : Cluster_ST A :=
  z ← get;
  client ← follower_client (ClusterState z.(zn_store)) (GetPartitionId key) no_follower no_client;
  expect failed refused (call client m).

(** One goroutine per partition, run in the order [order]; a result goes to the
    place of its partition.  After the first error the calls to the partitions
    [cancelled] are not made any more, and the first error is the result. *)
Definition fan_step {A} (cancelled : Z → bool) (ask : Z → Cluster_ST (list A))
    (acc : option error * gmap Z (list A)) (partitionId : Z) : Cluster_ST (option error * gmap Z (list A)) :=
  match acc.1, cancelled partitionId with
  | Some _, true => mret acc
  | _, _ =>
      r ← attempt (ask partitionId);
      mret (match r with
            | Good partitions => (acc.1, <[partitionId := partitions]> acc.2)
            | Bad e => (match acc.1 with None => Some e | Some _ => acc.1 end, acc.2)
            end)
  end.

Definition fan_out {A} (order : list Z) (cancelled : Z → bool) (ask : Cluster → Z → Cluster_ST (list A))
    : Cluster_ST (list A) :=
  z ← get;
  let clusterState := ClusterState z.(zn_store) in
  acc ← for_fold order (None, ∅) (fan_step cancelled (ask clusterState));
  match acc.1 with
  | Some e => throw e
  | None => mret (concat ((λ p, default [] (acc.2 !! p)) <$> sortedPartitionIds clusterState))
  end.

(** The requests to one partition of a fanned out read. *)
Definition getProcessInstancesForPartition (req : GetProcessInstancesRequest) (c : Cluster) (partitionId : Z)
    : Cluster_ST (list (Partitioned ProtoProcessInstance)) :=
  client ← follower_client c partitionId (λ e, errw! "failed to get follower node for partition %d: %w" [e])
             (λ e, TechnicalError (errw! "failed to get client for partition %d: %w" [e]));
  expect (λ e, errw! "failed to get process instances from partition %d: %w" [e])
    (err! "failed to get process instances from partition %d")
    (call client (server_GetProcessInstances
      {| gp_Page := req.(gp_Page); gp_Size := req.(gp_Size); gp_Partitions := [partitionId];
         gp_DefinitionKey := req.(gp_DefinitionKey); gp_ParentKey := req.(gp_ParentKey);
         gp_BusinessKey := req.(gp_BusinessKey); gp_ProcessId := req.(gp_ProcessId);
         gp_CreatedFrom := req.(gp_CreatedFrom); gp_CreatedTo := req.(gp_CreatedTo);
         gp_State := req.(gp_State); gp_ShowChildProcesses := req.(gp_ShowChildProcesses);
         gp_ActivityId := req.(gp_ActivityId); gp_SortByOrder := req.(gp_SortByOrder) |})).

(** A sort that is missing is sent as the empty string. *)
Definition getJobsForPartition (page size : Z) (jobType : option string) (jobState : option ActivityState)
    (assignee : option string) (processInstanceKey : option Z) (sort : option string) (c : Cluster)
    (partitionId : Z) : Cluster_ST (list (Partitioned ProtoJob)) :=
  client ← follower_client c partitionId (λ e, errw! "failed to get follower node for partition %d: %w" [e])
             (λ e, TechnicalError (errw! "failed to get client to get jobs: %w" [e]));
  expect (λ e, errw! "failed to get jobs from partition %d: %w" [e])
    (err! "failed to get jobs from partition %d")
    (call client (server_GetJobs
      {| gj_Page := page; gj_Size := size; gj_Partitions := [partitionId]; gj_JobType := jobType;
         gj_State := ActivityState_int <$> jobState; gj_Assignee := assignee;
         gj_ProcessInstanceKey := processInstanceKey; gj_Sort := Some (default "" sort) |})).

Definition getDecisionInstancesForPartition (req : GetDecisionInstancesRequest) (c : Cluster) (partitionId : Z)
    : Cluster_ST (list (Partitioned ProtoDecisionInstance)) :=
  client ← follower_client c partitionId
             (λ e, errw! "failed to read follower node to get decision instances: %w" [e])
             (λ e, TechnicalError (errw! "failed to get client to get decision instances: %w" [e]));
  expect (λ e, errw! "failed to get decision instances from partition %d: %w" [e])
    (err! "failed to get decision instances from partition %d")
    (call client (server_GetDecisionInstances
      {| gd_Page := req.(gd_Page); gd_Size := req.(gd_Size); gd_Partitions := [partitionId];
         gd_DmnResourceDefinitionKey := req.(gd_DmnResourceDefinitionKey);
         gd_DmnResourceDefinitionId := req.(gd_DmnResourceDefinitionId);
         gd_ProcessInstanceKey := req.(gd_ProcessInstanceKey);
         gd_EvaluatedFrom := req.(gd_EvaluatedFrom); gd_EvaluatedTo := req.(gd_EvaluatedTo);
         gd_SortByOrder := req.(gd_SortByOrder) |})).

Definition getProcessDefinitionElementStatisticsForPartition (key : Z) (c : Cluster) (partitionId : Z)
    : Cluster_ST (list (Z * list ElementStatisticEntry)) :=
  client ← follower_client c partitionId
             (λ e, errw! "failed to read follower node to get element statistics from partition %d: %w" [e])
             (λ e, TechnicalError (errw! "failed to get client to get element statistics from partition %d: %w" [e]));
  expect (λ e, errw! "%w: %w" [err! "failed to get element statistics from partition %d"; e])
    (err! "failed to get element statistics from partition %d")
    (call client (server_GetProcessDefinitionElementStatistics key [partitionId])).

Definition getProcessInstanceElementStatisticsForPartition (key : Z) (c : Cluster) (partitionId : Z)
    : Cluster_ST (list (Z * list ElementStatisticEntry)) :=
  client ← follower_client c partitionId
             (λ e, errw! "failed to read follower node to get element statistics from partition %d: %w" [e])
             (λ e, TechnicalError (errw! "failed to get client to get element statistics from partition %d: %w" [e]));
  expect (λ e, errw! "failed to get element statistics from partition %d: %w" [e])
    (err! "failed to get element statistics from partition %d")
    (call client (server_GetProcessInstanceElementStatistics key [partitionId])).

Definition getProcessDefinitionStatisticsForPartition (page size : Z) (onlyLatest : bool)
    (bpmnProcessIdIn : list string) (bpmnProcessDefinitionKeyIn : list Z) (name sort : option string)
    (c : Cluster) (partitionId : Z) : Cluster_ST (list (Partitioned ProtoDefinitionStatistics)) :=
  client ← follower_client c partitionId
             (λ e, errw! "failed to read follower node to get process definition statistics: %w" [e])
             (λ e, TechnicalError (errw! "failed to get client to get process definition statistics: %w" [e]));
  expect (λ e, errw! "failed to get definition statistics from partition %d: %w" [e])
    (err! "failed to get definition statistics from partition %d")
    (call client (server_GetProcessDefinitionStatistics
      {| gs_Page := page; gs_Size := size; gs_Partitions := [partitionId]; gs_OnlyLatest := Some onlyLatest;
         gs_BpmnProcessIdIn := bpmnProcessIdIn; gs_BpmnProcessDefinitionKeyIn := bpmnProcessDefinitionKeyIn;
         gs_Name := name; gs_Sort := sort |})).

(** *** Reads of all partitions *)

Definition node_GetProcessInstances order cancelled (req : GetProcessInstancesRequest)
    : Cluster_ST (list (Partitioned ProtoProcessInstance)) :=
  fan_out order cancelled (getProcessInstancesForPartition req).
Definition node_GetJobs order cancelled page size jobType jobState assignee processInstanceKey sort
    : Cluster_ST (list (Partitioned ProtoJob)) :=
  fan_out order cancelled (getJobsForPartition page size jobType jobState assignee processInstanceKey sort).
Definition node_GetDecisionInstances order cancelled (req : GetDecisionInstancesRequest)
    : Cluster_ST (list (Partitioned ProtoDecisionInstance)) :=
  fan_out order cancelled (getDecisionInstancesForPartition req).
Definition node_GetProcessDefinitionElementStatistics order cancelled (key : Z)
    : Cluster_ST (list (Z * list ElementStatisticEntry)) :=
  fan_out order cancelled (getProcessDefinitionElementStatisticsForPartition key).
Definition node_GetProcessInstanceElementStatistics order cancelled (key : Z)
    : Cluster_ST (list (Z * list ElementStatisticEntry)) :=
  fan_out order cancelled (getProcessInstanceElementStatisticsForPartition key).
Definition node_GetProcessDefinitionStatistics order cancelled page size onlyLatest idIn keyIn name sort
    : Cluster_ST (list (Partitioned ProtoDefinitionStatistics)) :=
  fan_out order cancelled
    (getProcessDefinitionStatisticsForPartition page size onlyLatest idIn keyIn name sort).

(** *** Reads of the partition of a key *)

Definition node_GetJob (jobKey : Z) : Cluster_ST ProtoJob :=
  read_by_key jobKey (λ e, errw! "failed to get follower node to get job: %w" [e])
    (λ e, TechnicalError (errw! "failed to get client to get job: %w" [e]))
    (λ e, errw! "failed to get job from partition %d %w" [e]) (err! "failed to get job from partition %d")
    (server_GetJob jobKey).

Definition node_GetProcessInstance (key : Z) : Cluster_ST (ProtoProcessInstance * list ProtoExecutionToken) :=
  read_by_key key (λ e, errw! "failed to get follower node to get process instance: %w" [e])
    (λ e, TechnicalError (errw! "failed to get client to get process instance: %w" [e]))
    (λ e, errw! "failed to get process instance from partition %d %w" [e])
    (err! "failed to get process instance from partition %d")
    (server_GetProcessInstance xml_Unmarshal_bpmn json_Unmarshal json_Marshal key).

Definition node_GetDecisionInstance (key : Z) : Cluster_ST ProtoDecisionInstance :=
  read_by_key key (λ e, errw! "failed to get follower node to get decision instance: %w" [e])
    (λ e, ClusterError (errw! "failed to get client to get decision instance: %w" [e]))
    (λ e, errw! "failed to get decision instance from partition %d: %w" [e])
    (err! "failed to get decision instance from partition %d")
    (server_GetDecisionInstance key).

Definition node_GetProcessInstanceJobs (page size key : Z) : Cluster_ST (list ProtoJob * Z) :=
  read_by_key key (λ e, errw! "failed to get follower node to get process instance jobs: %w" [e])
    (λ e, TechnicalError (errw! "failed to get client to get process instance jobs: %w" [e]))
    (λ e, errw! "failed to get process instance jobs from partition %d %w" [e])
    (err! "failed to get process instance jobs from partition %d")
    (server_GetProcessInstanceJobs page size key).

Definition node_GetFlowElementHistory (page size key : Z) : Cluster_ST (list FlowElement * Z) :=
  read_by_key key (λ e, errw! "failed to get follower node to get flow element history: %w" [e])
    (λ e, TechnicalError (errw! "failed to get client to get flow element history: %w" [e]))
    (λ e, errw! "failed to get process instance flow element history from partition %d %w" [e])
    (err! "failed to get process instance flow element history from partition %d")
    (server_GetFlowElementHistory page size key).

Definition node_GetIncidents (page size key : Z) (state : option string) : Cluster_ST (list ProtoIncident * Z) :=
  read_by_key key (λ e, errw! "failed to get follower node to get incidents: %w" [e])
    (λ e, TechnicalError (errw! "failed to get client to get incidents: %w" [e]))
    (λ e, errw! "failed to get incidents from partition %d %w" [e])
    (err! "failed to get incidents from partition %d")
    (server_GetIncidents page size key state).

(** An error of the call is not one with a code. *)
Definition node_GetChildProcessInstances (req : GetChildProcessInstancesRequest)
    : Cluster_ST (list (Partitioned ProtoProcessInstance)) :=
  z ← get;
  match req.(gc_ParentInstanceKey) with
  | None => throw (ClusterError (err! "parentInstanceKey is null"))
  | Some parent =>
      let partitionId := GetPartitionId parent in
      client ← follower_client (ClusterState z.(zn_store)) partitionId
                 (λ e, errw! "failed to get follower node to get child process instances: %w" [e])
                 (λ e, TechnicalError (errw! "failed to get client to get child process instances: %w" [e]));
      resp ← wrap (λ e, errw! "%w: %w" [err! "failed to get child process instances from partition %d"; e])
               (call client (server_GetChildProcessInstances req));
      mret [{| ptd_PartitionId := partitionId; ptd_Items := resp.1; ptd_TotalCount := resp.2 |}]
  end.

(** *** Definitions, from a database of this node

    A partition the node does not lead is preferred. *)
Context (iter_partitions : ∀ (A : Type), gmap Z A → list (Z * A)).

Definition node_GetReadOnlyDB (ns : ReadServer) : result Z :=
  let ps := iter_partitions _ ns in
  match List.find (λ kp, negb kp.2.(rp_IsLeader)) ps, ps with
  | Some kp, _ => Good kp.1
  | None, kp :: _ => Good kp.1
  | None, [] => Bad (err! "no partition available to get read only database")
  end.

Definition on_read_only {A} (no_db : error → error) (m : ST DB A) : ST ReadServer A :=
  ns ← get;
  p ← wrap_result (λ e, TechnicalError (no_db e)) (node_GetReadOnlyDB ns);
  on_db p m.

(** [int64((page - 1) * size)]: the product is one of int32. *)
Definition node_offset (page size : Z) : Z := wrap32 (wrap32 (page - 1) * size).

(** sql.ErrNoRows is not found, everything else a technical error. *)
Definition no_rows_or_technical {A} (notFound : error) (failed : error → error) (q : ST DB A) : ST DB A :=
  wrap (λ e, if errors_Is is_ErrNoRows e then NotFound notFound else TechnicalError (failed e)) q.

Definition node_GetProcessDefinitions (bpmnProcessId : option string) (onlyLatest : option bool)
    (sort : option string) (page size : Z) : ST ReadServer (list ProtoDefinition * Z) :=
  on_read_only (λ e, errw! "failed to get partition store: %w" [e])
    (dbDefinitions ← wrap (λ e, TechnicalError (errw! "failed to find process definitions: %w" [e]))
       (query_many "FindProcessDefinitions" (q_FindProcessDefinitions bpmnProcessId sort
          (if bool_decide (onlyLatest = Some true) then 1 else 0)%Z (node_offset page size) size));
     mret ((λ r, {| pde_Key := r.1.(der_Key); pde_Version := wrap32 r.1.(der_Version);
                    pde_Id := r.1.(der_BpmnProcessID); pde_Name := r.1.(der_BpmnProcessName);
                    pde_Definition := "" |}) <$> dbDefinitions, first_total dbDefinitions)).

Definition node_definition (r : DefinitionRow) : ProtoDefinition :=
  {| pde_Key := r.(der_Key); pde_Version := wrap32 r.(der_Version); pde_Id := r.(der_BpmnProcessID);
     pde_Name := ""; pde_Definition := r.(der_BpmnData) |}.

Definition node_GetLatestProcessDefinition (processId : string) : ST ReadServer ProtoDefinition :=
  on_read_only (λ e, errw! "failed to get node db to get process definition: %w" [e])
    (def ← no_rows_or_technical (err! "process definition with id %s not found")
       (λ e, errw! "failed to read process definition from database: %w" [e])
       (query_one "FindLatestProcessDefinitionById" (q_FindLatestProcessDefinitionById processId));
     mret (node_definition def)).

Definition node_GetProcessDefinition (key : Z) : ST ReadServer ProtoDefinition :=
  on_read_only (λ e, errw! "failed to get node db to get process definition: %w" [e])
    (def ← no_rows_or_technical (err! "process definition with key %d not found")
       (λ e, errw! "failed to read process definition from database: %w" [e])
       (query_one "FindProcessDefinitionByKey" (q_FindProcessDefinitionByKey key));
     mret (node_definition def)).

Definition node_resource (r : ResourceRow) (definition : string) : ProtoDefinition :=
  {| pde_Key := r.(rer_Key); pde_Version := wrap32 r.(rer_Version);
     pde_Id := r.(rer_DmnResourceDefinitionID); pde_Name := r.(rer_DmnDefinitionName);
     pde_Definition := definition |}.

Definition node_GetDmnResourceDefinitions (onlyLatest : option bool)
    (sort dmnResourceDefinitionId dmnDefinitionName : option string) (page size : Z)
    : ST ReadServer (list ProtoDefinition * Z) :=
  on_read_only (λ e, errw! "failed to get node DB: %w" [e])
    (definitions ← wrap (λ e, TechnicalError (errw! "failed to read dmn resource definitions from database: %w" [e]))
       (query_many "FindAllDmnResourceDefinitions" (q_FindAllDmnResourceDefinitions sort
          (if bool_decide (onlyLatest = Some true) then 1 else 0)%Z dmnResourceDefinitionId dmnDefinitionName
          (node_offset page size) size));
     mret ((λ r, node_resource r.1 r.1.(rer_DmnData)) <$> definitions, first_total definitions)).

Definition node_GetDmnResourceDefinition (key : Z) : ST ReadServer ProtoDefinition :=
  on_read_only (λ e, errw! "failed to get node DB: %w" [e])
    (def ← no_rows_or_technical (err! "dmn resource definition by key %d not found")
       (λ e, errw! "failed to read dmn resource definition by key: %d from database: %w" [e])
       (query_one "FindDmnResourceDefinitionByKey" (q_FindDmnResourceDefinitionByKey key));
     mret (node_resource def def.(rer_DmnData))).
End node.
