(* ===== verification/RestReads.v ===== *)
(** Reads over REST (internal/rest/server.go): the checks and defaults of the
    parameters, the calls of the node, the status of an error, and the pages
    put together from the answers of the partitions.

    A parameter of an enumeration is the string of the query.  The times of a
    response are the milliseconds they are made of. *)
From S2P Require Import Prelude ZenErr Monad Runtime Sql Pages PartitionDB ClusterState JobClient Commands Reads.

#[local] Open Scope string_scope.
#[local] Open Scope list_scope.

(** A response with a body, or the status of another one. *)
Inductive RestResponse (A : Type) := RestOk (body : A) | RestStatus (status : Z).
Arguments RestOk {A} body. Arguments RestStatus {A} status.

(** ** Parameters *)

Definition PaginationDefaultPage : Z := 1.
Definition PaginationDefaultSize : Z := 10.
Definition PaginationMaxSize : Z := 100.

Definition defaultPagination (page size : option Z) : Z * Z :=
  (default PaginationDefaultPage page, default PaginationDefaultSize size).

Definition validatePagination (page size : Z) : option error :=
  if (page <? 1)%Z then Some (BadRequest (err! "page must be >= 1, got %d"))
  else if ((size <? 1) || (PaginationMaxSize <? size))%Z
  then Some (BadRequest (err! "size must be between 1 and %d, got %d"))
  else None.

(** sql.SortString; ascending by default. *)
Definition SortString (sortOrder sortBy : option string) : option string :=
  (λ by_, by_ +:+ "_" +:+ default "asc" sortOrder) <$> sortBy.

(** The handlers that check the sort: the column must be a supported one, the
    order is descending by default; [None] is a bad request. *)
Definition checked_sort (supported : list string) (sortOrder sortBy : option string) : option (option string) :=
  if forallb (λ by_, bool_decide (by_ ∈ supported)) (option_list sortBy) then
    match sortOrder with
    | None => Some (SortString (Some "desc") sortBy)
    | Some o => if bool_decide (o ∈ ["asc"; "desc"]) then Some (SortString sortOrder sortBy) else None
    end
  else None.

(** The state filter of instances. *)
Definition instance_state_filter (state : option string) : option (option Z) :=
  match state with
  | None => Some None
  | Some s =>
      if (s =? "active")%string then Some (Some (ActivityState_int ActivityStateActive))
      else if (s =? "completed")%string then Some (Some (ActivityState_int ActivityStateCompleted))
      else if (s =? "terminated")%string then Some (Some (ActivityState_int ActivityStateTerminated))
      else if (s =? "failed")%string then Some (Some (ActivityState_int ActivityStateFailed))
      else None
  end.

(** The state filter of jobs. *)
Definition job_state_filter (state : option string) : option (option ActivityState) :=
  match state with
  | None => Some None
  | Some s =>
      if (s =? "active")%string then Some (Some ActivityStateActive)
      else if (s =? "completed")%string then Some (Some ActivityStateCompleted)
      else if (s =? "terminated")%string then Some (Some ActivityStateActive)
      else None
  end.

(** ** Values of a response: an unexpected state or type panics *)

Definition getRestJobState {T} (state : ActivityState) : ST T string :=
  match state with
  | ActivityStateActive => mret "active"
  | ActivityStateCompleted => mret "completed"
  | ActivityStateTerminated => mret "terminated"
  | ActivityStateFailed => mret "failed"
  | _ => panic "unexpected runtime.ActivityState: %#v"
  end.

Definition getRestProcessInstanceState {T} (state : ActivityState) : ST T string :=
  match state with
  | ActivityStateReady => mret "active"
  | ActivityStateActive => mret "active"
  | ActivityStateCompleted => mret "completed"
  | ActivityStateFailed => mret "failed"
  | ActivityStateTerminated => mret "terminated"
  | _ => panic "unexpected runtime.ActivityState: %#v"
  end.

Definition getRestProcessInstanceType {T} (type : Z) : ST T string :=
  if (type =? ProcessType_int ProcessTypeDefault)%Z then mret "default"
  else if (type =? ProcessType_int ProcessTypeSubProcess)%Z then mret "subprocess"
  else if (type =? ProcessType_int ProcessTypeCallActivity)%Z then mret "callActivity"
  else if (type =? ProcessType_int ProcessTypeMultiInstance)%Z then mret "multiInstance"
  else panic "unexpected runtime.ProcessType: %#v".

Record RestProcessInstance := {
  ri_Key : Z; ri_BpmnProcessId : string; ri_BusinessKey : option string; ri_CreatedAt : Z;
  ri_ProcessDefinitionKey : Z; ri_ProcessType : string; ri_State : string; ri_Variables : vars;
  ri_ParentProcessInstanceKey : option Z; ri_ActiveElementInstances : list (Z * string * Z * string)
}.
Record RestJob := {
  rj_Key : Z; rj_ElementId : string; rj_ProcessInstanceKey : Z; rj_Type : string; rj_State : string;
  rj_CreatedAt : Z; rj_Variables : vars; rj_Assignee : option string
}.

(** A page: the items by partition, with the counts of all partitions. *)
Record RestPage (A : Type) := {
  rpg_Partitions : list (Z * list A); rpg_Page : Z; rpg_Size : Z; rpg_Count : Z; rpg_TotalCount : Z
}.
Arguments rpg_Partitions {A}. Arguments rpg_Page {A}. Arguments rpg_Size {A}. Arguments rpg_Count {A}.
Arguments rpg_TotalCount {A}.

(** The error of a call of the node as a status. *)
Definition rest_read {T A B} (table : list (Z * Z)) (m : ST T A) (found : A → ST T (RestResponse B))
    : ST T (RestResponse B) :=
  r ← attempt m;
  match r with
  | Good a => found a
  | Bad (ZenError code _) => mret (RestStatus (status_of table code))
  | Bad _ => mret (RestStatus 500)
  end.

(** Converting the items of a response; the first error is a 500. *)
Fixpoint convert_items {T A B} (convert : A → ST T (result B)) (items : list A) : ST T (result (list B)) :=
  match items with
  | [] => mret (Good [])
  | x :: items' =>
      r ← convert x;
      match r with
      | Bad e => mret (Bad e)
      | Good b =>
          rest ← convert_items convert items';
          mret (match rest with Bad e => Bad e | Good bs => Good (b :: bs) end)
      end
  end.

Definition sum_items {A} (partitions : list (Partitioned A)) : Z :=
  foldl (λ count p, (count + Z.of_nat (length p.(ptd_Items)))%Z) 0%Z partitions.
Definition sum_totals {A} (partitions : list (Partitioned A)) : Z :=
  foldl (λ total p, (total + p.(ptd_TotalCount))%Z) 0%Z partitions.

(** [total]: how the handler adds the totals. *)
Definition partitioned_page {T A B} (page size : Z) (total : list (Partitioned A) → Z)
    (convert : A → ST T (result B)) (partitions : list (Partitioned A)) : ST T (RestResponse (RestPage B)) :=
  r ← convert_items (λ p, items ← convert_items convert p.(ptd_Items);
                          mret ((λ l, (p.(ptd_PartitionId), l)) <$> items)) partitions;
  mret (match r with
        | Bad _ => RestStatus 500
        | Good ps => RestOk {| rpg_Partitions := ps; rpg_Page := page; rpg_Size := size;
                               rpg_Count := sum_items partitions; rpg_TotalCount := total partitions |}
        end).

(** A page of one list. *)
Definition single_page {T A B} (page size : Z) (convert : A → ST T (result B)) (items : list A * Z)
    : ST T (RestResponse (RestPage B)) :=
  r ← convert_items convert items.1;
  mret (match r with
        | Bad _ => RestStatus 500
        | Good l => RestOk {| rpg_Partitions := [(0%Z, l)]; rpg_Page := page; rpg_Size := size;
                              rpg_Count := Z.of_nat (length l); rpg_TotalCount := items.2 |}
        end).

Section reads.
Context `{TableScan} `{SqlLike} `{Dial}.
Context (iter_nodes : ∀ (A : Type), gmap string A → list (string * A)).
Context (iter_partitions : ∀ (A : Type), gmap Z A → list (Z * A)).
Context (xml_Unmarshal_bpmn : string → result Model.TDefinitions).
Context (json_Unmarshal : string → result vars) (json_Marshal : vars → result string).
Context (order : list Z) (cancelled : Z → bool).

Abbreviation Rest_ST A := (ST (ZenNode (E := ReadPartition)) (RestResponse A)).

(** *** Process instances *)

Definition instance_response (elements : list (Z * string * Z * string)) (variables : vars)
    (type state : string) (i : ProtoProcessInstance) : RestProcessInstance :=
  {| ri_Key := i.(ppi_Key); ri_BpmnProcessId := i.(ppi_ProcessId);
     ri_BusinessKey := i.(ppi_BusinessKey); ri_CreatedAt := i.(ppi_CreatedAt);
     ri_ProcessDefinitionKey := i.(ppi_DefinitionKey); ri_ProcessType := type; ri_State := state;
     ri_Variables := variables;
     ri_ParentProcessInstanceKey :=
       (if default 0 i.(ppi_ParentInstanceKey) =? 0 then None else i.(ppi_ParentInstanceKey))%Z;
     ri_ActiveElementInstances := elements |}.

(** An instance of a list.  Its active elements are read from the response that
    is being built, so there are none. *)
Definition rest_instance {T} (i : ProtoProcessInstance) : ST T (result RestProcessInstance) :=
  match json_Unmarshal i.(ppi_Variables) with
  | Bad e => mret (Bad e)
  | Good vars =>
      type ← getRestProcessInstanceType i.(ppi_Type);
      state ← getRestProcessInstanceState (ActivityState_of i.(ppi_State));
      mret (Good (instance_response [] vars type state i))
  end.

Record InstancesQuery := {
  iq_page : option Z; iq_size : option Z; iq_processDefinitionKey : option Z;
  iq_parentProcessInstanceKey : option Z; iq_businessKey : option string; iq_bpmnProcessId : option string;
  iq_createdFrom : option Z; iq_createdTo : option Z; iq_state : option string;
  iq_includeChildProcesses : option bool; iq_activityId : option string;
  iq_sortBy : option string; iq_sortOrder : option string
}.

Definition rest_GetProcessInstances (q : InstancesQuery) : Rest_ST (RestPage RestProcessInstance) :=
  let '(page, size) := defaultPagination q.(iq_page) q.(iq_size) in
  match instance_state_filter q.(iq_state),
        checked_sort ["key"; "state"; "createdAt"; "businessKey"] q.(iq_sortOrder) q.(iq_sortBy) with
  | Some state, Some sortByOrder =>
      rest_read [(ClusterErrorCode, 502)]%Z
        (node_GetProcessInstances iter_nodes order cancelled
           {| gp_Page := page; gp_Size := size; gp_Partitions := [];
              gp_DefinitionKey := default 0%Z q.(iq_processDefinitionKey);
              gp_ParentKey := default 0%Z q.(iq_parentProcessInstanceKey);
              gp_BusinessKey := q.(iq_businessKey); gp_ProcessId := q.(iq_bpmnProcessId);
              gp_CreatedFrom := UnixMilli <$> q.(iq_createdFrom); gp_CreatedTo := UnixMilli <$> q.(iq_createdTo);
              gp_State := state; gp_ShowChildProcesses := q.(iq_includeChildProcesses);
              gp_ActivityId := q.(iq_activityId); gp_SortByOrder := sortByOrder |})
        (partitioned_page page size sum_totals rest_instance)
  | _, _ => mret (RestStatus 400)
  end.

(** The size -1 is 20; every error is a 502. *)
Definition rest_GetChildProcessInstances (page size : option Z) (key : Z) (state sortBy sortOrder : option string)
    : Rest_ST (RestPage RestProcessInstance) :=
  let '(page, size) := defaultPagination page size in
  match instance_state_filter state, checked_sort ["key"; "state"] sortOrder sortBy with
  | Some state, Some sortByOrder =>
      let size := if (size =? -1)%Z then 20%Z else size in
      r ← attempt (node_GetChildProcessInstances iter_nodes
            {| gc_Page := page; gc_Size := size; gc_ParentInstanceKey := Some key; gc_State := state;
               gc_SortByOrder := sortByOrder |});
      match r with
      | Bad _ => mret (RestStatus 502)
      | Good partitions => partitioned_page page size sum_totals rest_instance partitions
      end
  | _, _ => mret (RestStatus 400)
  end.

(** [TokenState(n).String()] is a parameter: it is generated code. *)
Definition rest_GetProcessInstance (TokenState_String : Z → string) (key : Z) : Rest_ST RestProcessInstance :=
  rest_read [(ClusterErrorCode, 502); (NotFoundCode, 404)]%Z
    (node_GetProcessInstance iter_nodes xml_Unmarshal_bpmn json_Unmarshal json_Marshal key)
    (λ '(i, tokens),
     match json_Unmarshal i.(ppi_Variables) with
     | Bad _ => mret (RestStatus 500)
     | Good vars =>
         state ← getRestProcessInstanceState (ActivityState_of i.(ppi_State));
         type ← getRestProcessInstanceType i.(ppi_Type);
         mret (RestOk (instance_response
           ((λ t, (t.(pet_CreatedAt), t.(pet_ElementId), t.(pet_ElementInstanceKey),
                   TokenState_String t.(pet_State))) <$> tokens) vars type state i))
     end).

(** *** Jobs *)

Definition rest_job {T} (assignee : option string) (j : ProtoJob) : ST T (result RestJob) :=
  match json_Unmarshal j.(pj_Variables) with
  | Bad e => mret (Bad e)
  | Good vars =>
      state ← getRestJobState (ActivityState_of j.(pj_State));
      mret (Good {| rj_Key := j.(pj_Key); rj_ElementId := j.(pj_ElementId);
        rj_ProcessInstanceKey := j.(pj_ProcessInstanceKey); rj_Type := j.(pj_Type); rj_State := state;
        rj_CreatedAt := j.(pj_CreatedAt); rj_Variables := vars; rj_Assignee := assignee |})
  end.

(** The total is one of int32. *)
Definition rest_GetJobs (page size : option Z) (jobType state assignee : option string)
    (processInstanceKey : option Z) (sortBy sortOrder : option string) : Rest_ST (RestPage RestJob) :=
  let '(page, size) := defaultPagination page size in
  match job_state_filter state with
  | None => mret (RestStatus 400)
  | Some reqState =>
      rest_read [(ClusterErrorCode, 502)]%Z
        (node_GetJobs iter_nodes order cancelled page size jobType reqState assignee processInstanceKey
           (SortString sortOrder sortBy))
        (partitioned_page page size (foldl (λ total p, wrap32 (total + p.(ptd_TotalCount))) 0%Z)
           (λ j, rest_job j.(pj_Assignee) j))
  end.

(** The assignee is not part of this response. *)
Definition rest_GetJob (key : Z) : Rest_ST RestJob :=
  rest_read [(ClusterErrorCode, 502); (NotFoundCode, 404)]%Z (node_GetJob iter_nodes key)
    (λ job, r ← rest_job None job; mret (match r with Good j => RestOk j | Bad _ => RestStatus 500 end)).

(** Without an assignee the response has an empty one. *)
Definition rest_GetProcessInstanceJobs (page size : option Z) (key : Z) : Rest_ST (RestPage RestJob) :=
  let '(page, size) := defaultPagination page size in
  rest_read [(ClusterErrorCode, 502)]%Z (node_GetProcessInstanceJobs iter_nodes page size key)
    (single_page page size (λ j, rest_job (Some (default "" j.(pj_Assignee))) j)).

(** *** History and incidents *)

Definition rest_GetHistory (page size : option Z) (key : Z) : Rest_ST (RestPage FlowElement) :=
  let '(page, size) := defaultPagination page size in
  rest_read [(ClusterErrorCode, 502)]%Z (node_GetFlowElementHistory iter_nodes page size key)
    (single_page page size (λ e, mret (Good e))).

Definition rest_GetIncidents (page size : option Z) (key : Z) (state : option string)
    : Rest_ST (RestPage ProtoIncident) :=
  let '(page, size) := defaultPagination page size in
  rest_read [(ClusterErrorCode, 502)]%Z (node_GetIncidents iter_nodes page size key state)
    (single_page page size (λ i, mret (Good i))).

(** *** Decision instances *)

Definition rest_GetDecisionInstances (page size : option Z) (dmnResourceDefinitionKey : option Z)
    (dmnResourceDefinitionId : option string) (processInstanceKey evaluatedFrom evaluatedTo : option Z)
    (sortBy sortOrder : option string) : Rest_ST (RestPage ProtoDecisionInstance) :=
  let '(page, size) := defaultPagination page size in
  match checked_sort ["key"; "evaluatedAt"] sortOrder sortBy with
  | None => mret (RestStatus 400)
  | Some sortByOrder =>
      rest_read [(ClusterErrorCode, 502)]%Z
        (node_GetDecisionInstances iter_nodes order cancelled
           {| gd_Page := page; gd_Size := size; gd_Partitions := [];
              gd_DmnResourceDefinitionKey := dmnResourceDefinitionKey;
              gd_DmnResourceDefinitionId := dmnResourceDefinitionId;
              gd_ProcessInstanceKey := processInstanceKey;
              gd_EvaluatedFrom := UnixMilli <$> evaluatedFrom; gd_EvaluatedTo := UnixMilli <$> evaluatedTo;
              gd_SortByOrder := sortByOrder |})
        (partitioned_page page size sum_totals (λ i, mret (Good i)))
  end.

(** *** Statistics

    The definition or instance is looked up first: its answer is a parameter. *)
Definition statistic_map (entries : list ElementStatisticEntry) : gmap string (Z * Z) :=
  foldl (λ m e, <[e.(ese_ElementId) := (e.(ese_ActiveCount), e.(ese_IncidentCount))]> m) ∅ entries.

Definition rest_statistics {T} (partitions : list (Z * list ElementStatisticEntry))
    : ST T (RestResponse (list (Z * gmap string (Z * Z)))) :=
  mret (RestOk ((λ p, (p.1, statistic_map p.2)) <$> partitions)).

Definition rest_GetProcessDefinitionElementStatistics (definition : result ProtoDefinition) (key : Z)
    : Rest_ST (list (Z * gmap string (Z * Z))) :=
  if (key <=? 0)%Z then mret (RestStatus 400)
  else
    match definition with
    | Bad (ZenError code _) => mret (RestStatus (status_of [(NotFoundCode, 404)]%Z code))
    | Bad _ => mret (RestStatus 500)
    | Good _ =>
        rest_read [(ClusterErrorCode, 502); (BadRequestCode, 400)]%Z
          (node_GetProcessDefinitionElementStatistics iter_nodes order cancelled key) rest_statistics
    end.

Definition rest_GetProcessInstanceElementStatistics (key : Z) : Rest_ST (list (Z * gmap string (Z * Z))) :=
  if (key <=? 0)%Z then mret (RestStatus 400)
  else
    rest_read [(NotFoundCode, 404); (ClusterErrorCode, 502)]%Z
      (node_GetProcessInstance iter_nodes xml_Unmarshal_bpmn json_Unmarshal json_Marshal key) (λ _,
    rest_read [(ClusterErrorCode, 502); (BadRequestCode, 400)]%Z
      (node_GetProcessInstanceElementStatistics iter_nodes order cancelled key) rest_statistics).

Definition rest_GetProcessDefinitionStatistics (page size : option Z) (onlyLatest : option bool)
    (bpmnProcessIdIn : option (list string)) (bpmnProcessDefinitionKeyIn : option (list Z))
    (name sortBy sortOrder : option string) : Rest_ST (RestPage ProtoDefinitionStatistics) :=
  let '(page, size) := defaultPagination page size in
  match validatePagination page size with
  | Some _ => mret (RestStatus 400)
  | None =>
      rest_read [(ClusterErrorCode, 502); (BadRequestCode, 400)]%Z
        (node_GetProcessDefinitionStatistics iter_nodes order cancelled page size (default false onlyLatest)
           (default [] bpmnProcessIdIn) (default [] bpmnProcessDefinitionKeyIn) name
           (SortString sortOrder sortBy))
        (partitioned_page page size sum_totals (λ s, mret (Good s)))
  end.

(** *** Definitions *)

Definition rest_GetProcessDefinitions (page size : option Z) (bpmnProcessId : option string)
    (onlyLatest : option bool) (sortBy sortOrder : option string)
    : ST ReadServer (RestResponse (RestPage ProtoDefinition)) :=
  let '(page, size) := defaultPagination page size in
  match validatePagination page size with
  | Some _ => mret (RestStatus 400)
  | None =>
      rest_read [(BadRequestCode, 400)]%Z
        (node_GetProcessDefinitions iter_partitions bpmnProcessId onlyLatest (SortString sortOrder sortBy) page size)
        (single_page page size (λ d, mret (Good d)))
  end.

Definition rest_GetProcessDefinition (key : Z) : ST ReadServer (RestResponse ProtoDefinition) :=
  if (key <=? 0)%Z then mret (RestStatus 400)
  else rest_read [(NotFoundCode, 404); (BadRequestCode, 400)]%Z (node_GetProcessDefinition iter_partitions key)
         (λ d, mret (RestOk d)).

Definition rest_GetDmnResourceDefinitions (page size : option Z)
    (dmnDefinitionName dmnResourceDefinitionId : option string) (onlyLatest : option bool)
    (sortBy sortOrder : option string) : ST ReadServer (RestResponse (RestPage ProtoDefinition)) :=
  let '(page, size) := defaultPagination page size in
  match checked_sort ["key"; "version"; "dmnDefinitionName"; "dmnResourceDefinitionId"] sortOrder sortBy with
  | None => mret (RestStatus 400)
  | Some sortByOrder =>
      rest_read [(ClusterErrorCode, 502)]%Z
        (node_GetDmnResourceDefinitions iter_partitions onlyLatest sortByOrder dmnResourceDefinitionId
           dmnDefinitionName page size)
        (single_page page size (λ d, mret (Good d)))
  end.

Definition rest_GetDmnResourceDefinition (key : Z) : ST ReadServer (RestResponse ProtoDefinition) :=
  rest_read [(NotFoundCode, 404)]%Z (node_GetDmnResourceDefinition iter_partitions key)
    (λ d, mret (RestOk d)).
End reads.
