(* ===== verification/ReadsProps.v ===== *)
(** Reads on the cluster: a read of all partitions asks a replica of each of
    them once and changes nothing; the pages of the process instances put
    together are the instances that match the request, where no two of them are
    equal in the order of the request; and where the lists and
    reads depart from what they promise. *)
From S2P Require Import Prelude ZenErr Monad Runtime Sql Pages PartitionDB PersistenceProps.
From S2P Require Import ClusterState ClusterStore Zenflake JobClient Messages Commands CommandProps Reads RestReads.

#[local] Open Scope string_scope.
#[local] Open Scope list_scope.

(** ** Runs of the shared parts *)

Lemma on_db_run {A} p (m : ST DB A) ns n o :
  ns !! p = Some n → m n.(rp_DB) = (o, n.(rp_DB)) → on_db p m ns = (o, ns).
Proof.
  intros Hn Em. unfold on_db. rewrite Hn, Em. f_equal. apply insert_id. by rewrite Hn; destruct n.
Qed.

Lemma with_queries_run {A} p (body : ST DB (Response A)) ns n r :
  ns !! p = Some n → body n.(rp_DB) = (Ret r, n.(rp_DB)) → with_queries p body ns = (Ret r, ns).
Proof.
  intros Hn Eb. unfold with_queries. erewrite (bind_step get) by reflexivity. rewrite Hn.
  by eapply on_db_run.
Qed.

(** A request for one partition. *)
Lemma server_one_partition {A} p (one : Z → ST DB (Response A)) ns n a :
  ns !! p = Some n → one p n.(rp_DB) = (Ret (inl a), n.(rp_DB)) →
  server_partitions [p] one ns = (Ret (inl [a]), ns).
Proof.
  intros Hn E1. cbn [server_partitions]. by erewrite bind_step by (by eapply with_queries_run).
Qed.

Lemma query_many_run {A} name (q : Database → list A) db :
  db.(db_queryErr) name = None → query_many name q db = (Ret (q db.(db_data)), db).
Proof. intros E. unfold query_many. by rewrite E. Qed.

Lemma respond_run {A B} failed (q : ST DB A) (found : A → ST DB (Response B)) db a :
  q db = (Ret a, db) → respond failed q found db = found a db.
Proof. intros E. unfold respond. by erewrite bind_step by (by apply attempt_run). Qed.

Section cluster.
Context `{Dial}.
Context (iter_nodes : ∀ (A : Type), gmap string A → list (string * A)).

(** The client of the node that is asked about a partition, when it is connected. *)
Definition follower_of (z : ZenNode (E := ReadPartition)) (p : Z) : option Z :=
  match GetPartitionFollower iter_nodes (ClusterState z.(zn_store)) p with
  | Bad _ => None
  | Good node => z.(zn_client).(cm_activeClients) !! node.(n_Addr)
  end.

(** The partition on that node. *)
Definition replica (z : ZenNode (E := ReadPartition)) (p : Z) : option ReadPartition :=
  follower_of z p ≫= λ client, z.(zn_servers) !! client ≫= λ ns, ns !! p.

Lemma follower_client_run z p client f1 f2 :
  follower_of z p = Some client →
  follower_client iter_nodes (ClusterState z.(zn_store)) p f1 f2 z = (Ret client, z).
Proof.
  unfold follower_of, follower_client. destruct (GetPartitionFollower _ _ _) as [node|]; [|done].
  intros Hc. erewrite (bind_step (wrap_result _ _)) by reflexivity. apply wrap_run.
  unfold with_client, zoom, For. erewrite (bind_step get) by reflexivity. rewrite Hc. by destruct z.
Qed.

Lemma call_unchanged {A} client (m : ST ReadServer A) (z : ZenNode (E := ReadPartition)) ns o :
  z.(zn_servers) !! client = Some ns → m ns = (o, ns) → call client m z = (o, z).
Proof.
  intros Hs Em. unfold call. rewrite Hs, Em. rewrite insert_id by done. by destruct z.
Qed.

(** A read of a partition: the response of its replica. *)
Lemma ask_run {A} z p rp f1 f2 failed refused (m : ST ReadServer (Response A)) resp :
  replica z p = Some rp →
  (∀ ns, ns !! p = Some rp → m ns = (Ret resp, ns)) →
  (client ← follower_client iter_nodes (ClusterState z.(zn_store)) p f1 f2;
   expect failed refused (call client m)) z =
  (match resp with inl a => Ret a | inr err => Err (ToZenError err refused) end, z).
Proof.
  unfold replica. intros (client & Hf & (ns & Hs & Hp)%bind_Some)%bind_Some Hm.
  erewrite bind_step by (by apply follower_client_run).
  eapply expect_run. eapply call_unchanged; [done|by apply Hm].
Qed.

(** A read of all partitions, one after the other in any order. *)
Lemma fan_out_run {A} order cancelled (ask : Cluster → Z → ST _ (list A)) z (answers : Z → list A) :
  order ≡ₚ sortedPartitionIds (ClusterState z.(zn_store)) →
  (∀ p, p ∈ order → ask (ClusterState z.(zn_store)) p z = (Ret (answers p), z)) →
  fan_out order cancelled ask z =
  (Ret (concat (answers <$> sortedPartitionIds (ClusterState z.(zn_store)))), z).
Proof.
  intros Hperm Hask. unfold fan_out. erewrite (bind_step get) by reflexivity.
  assert (Hfold : ∀ l acc, (∀ p, p ∈ l → p ∈ order) →
    for_fold l (None, acc) (fan_step cancelled (ask (ClusterState z.(zn_store)))) z =
    (Ret (None, foldl (λ m p, <[p := answers p]> m) acc l), z)).
  { induction l as [|p l IH]; intros acc Hl; [done|]. cbn [for_fold foldl].
    erewrite bind_step.
    - apply IH. intros q Hq. apply Hl. by right.
    - unfold fan_step. cbn [fst]. erewrite bind_step by (apply attempt_run, Hask, Hl; by left). done. }
  erewrite bind_step by (apply Hfold; auto). cbn [fst snd].
  unfold mret, ST_ret. do 3 f_equal. apply list_fmap_ext. intros i p Hp%list_elem_of_lookup_2.
  rewrite <- Hperm in Hp. clear Hfold Hask Hperm. revert Hp.
  assert (Hlook : ∀ l (acc : gmap Z (list A)), p ∈ l ∨ acc !! p = Some (answers p) →
    foldl (λ m p, <[p := answers p]> m) acc l !! p = Some (answers p)).
  { induction l as [|q l IH]; intros acc [Hin|Hacc]; simpl; [by inv Hin|done| |].
    - apply IH. inv Hin; [right; by rewrite lookup_insert_eq|by left].
    - apply IH. right. destruct (decide (q = p)) as [<-|]; [by rewrite lookup_insert_eq|].
      by rewrite lookup_insert_ne. }
  intros Hp. by rewrite Hlook by (by left).
Qed.
End cluster.

(** ** The pages of the process instances *)

Section pages.
Context `{TableScan} `{Dial}.
Context (iter_nodes : ∀ (A : Type), gmap string A → list (string * A)).

(** An instance of a list, its parent looked up in the table of the tokens. *)
Definition listed (d : Database) (row : InstanceRow * string) : ProtoProcessInstance :=
  {| ppi_Key := row.1.(inr_Key); ppi_ProcessId := row.2; ppi_Variables := row.1.(inr_Variables);
     ppi_State := row.1.(inr_State); ppi_CreatedAt := row.1.(inr_CreatedAt);
     ppi_DefinitionKey := row.1.(inr_ProcessDefinitionKey);
     ppi_ParentInstanceKey :=
       (λ t, default 0%Z (tor_ProcessInstanceKey <$> d.(tb_execution_token) !! t))
       <$> row.1.(inr_ParentProcessExecutionToken);
     ppi_BusinessKey := row.1.(inr_BusinessKey); ppi_Type := row.1.(inr_ProcessType) |}.

Lemma token_of_list (l : list TokenRow) (m : gmap Z TokenRow) t :
  (∀ x y, x ∈ l → y ∈ l → x.(tor_Key) = y.(tor_Key) → x = y) →
  foldl (λ m t, <[t.(tor_Key) := t]> m) m l !! t =
  match List.find (λ x, (x.(tor_Key) =? t)%Z) l with Some x => Some x | None => m !! t end.
Proof.
  revert m. induction l as [|x l IH]; intros m Hu; [done|]. cbn [foldl List.find].
  rewrite IH by (intros; apply Hu; try done; by right).
  destruct (Z.eqb_spec (tor_Key x) t) as [<-|Hne].
  - rewrite lookup_insert_eq. destruct (List.find _ l) as [y|] eqn:Ef; [|done].
    apply List.find_some in Ef as [Hy%list_elem_of_In Ey%Z.eqb_eq]. f_equal.
    apply Hu; [by right|by left|done].
  - rewrite lookup_insert_ne by done. done.
Qed.

Lemma token_of_query keys t d :
  keyed tor_Key d.(tb_execution_token) → t ∈ keys →
  (foldl (λ m t, <[t.(tor_Key) := t]> m) ∅ (q_GetTokens keys d) : gmap Z TokenRow) !! t =
  d.(tb_execution_token) !! t.
Proof.
  intros Hk Ht.
  assert (Hsel : ∀ x, x ∈ q_GetTokens keys d ↔
    x.(tor_Key) ∈ keys ∧ d.(tb_execution_token) !! x.(tor_Key) = Some x).
  { intros x. unfold q_GetTokens. rewrite elem_of_select. apply and_iff_compat_l. split.
    - intros [k Ek]. by rewrite (Hk _ _ Ek).
    - by eexists. }
  rewrite token_of_list.
  2:{ intros x y Hx%Hsel Hy%Hsel E. destruct Hx as [_ Hx], Hy as [_ Hy]. congruence. }
  destruct (List.find _ _) as [x|] eqn:Ef.
  - apply List.find_some in Ef as [[_ Hx]%list_elem_of_In%Hsel E%Z.eqb_eq]. by rewrite <- E, Hx.
  - rewrite lookup_empty. destruct (tb_execution_token d !! t) as [x|] eqn:Et; [|done].
    pose proof (Hk _ _ Et) as E. exfalso.
    eapply List.find_none in Ef; [apply Z.eqb_neq in Ef; exact (Ef E)|].
    apply list_elem_of_In, Hsel. by rewrite E.
Qed.

Lemma page_of_instances_run p failed db :
  db.(db_queryErr) "FindProcessInstancesPage" = None → db.(db_queryErr) "GetTokens" = None →
  keys_ok db.(db_data) →
  page_of_instances p failed db =
  (Ret (inl ((λ r, listed db.(db_data) r.1) <$> q_FindProcessInstancesPage p db.(db_data),
             first_total (q_FindProcessInstancesPage p db.(db_data)))), db).
Proof.
  intros E1 E2 Hk. unfold page_of_instances.
  erewrite respond_run by (by apply query_many_run).
  erewrite bind_step by (by apply query_many_run).
  unfold mret, ST_ret. do 4 f_equal. apply list_fmap_ext. intros i [[r id] n] Hr%list_elem_of_lookup_2.
  unfold listed, proto_instance_row, parent_key. cbn [fst snd]. f_equal.
  destruct (inr_ParentProcessExecutionToken r) as [t|] eqn:Et; [|done]. cbn. do 2 f_equal.
  f_equal. apply token_of_query; [by apply ok_token_key|].
  apply list_elem_of_fmap. exists (r, id, n). cbn [fst]. by rewrite Et.
Qed.

(** The request for the page with the number [page]. *)
Definition with_page (page : Z) (req : GetProcessInstancesRequest) : GetProcessInstancesRequest :=
  {| gp_Page := page; gp_Size := req.(gp_Size); gp_Partitions := req.(gp_Partitions);
     gp_DefinitionKey := req.(gp_DefinitionKey); gp_ParentKey := req.(gp_ParentKey);
     gp_BusinessKey := req.(gp_BusinessKey); gp_ProcessId := req.(gp_ProcessId);
     gp_CreatedFrom := req.(gp_CreatedFrom); gp_CreatedTo := req.(gp_CreatedTo);
     gp_State := req.(gp_State); gp_ShowChildProcesses := req.(gp_ShowChildProcesses);
     gp_ActivityId := req.(gp_ActivityId); gp_SortByOrder := req.(gp_SortByOrder) |}.

(** The instances of a partition that match the request. *)
Definition matching_rows (req : GetProcessInstancesRequest) (d : Database) : list (InstanceRow * string) :=
  filter (instance_matches (instances_page_params req) d) (joined_instances d).

(** The page [i], counted from 0, of one partition, cut out of the rows in the
    order [rows] in which the query has them. *)
Definition page_items (req : GetProcessInstancesRequest) (i : nat) (d : Database)
    (rows : list (InstanceRow * string)) : list ProtoProcessInstance :=
  listed d <$> limit_offset req.(gp_Size) (Z.of_nat i * req.(gp_Size)) rows.
Definition sorted_rows (req : GetProcessInstancesRequest) (i : nat) (d : Database) : list (InstanceRow * string) :=
  order_by req.(gp_Size) (Z.of_nat i * req.(gp_Size)) (instances_order req.(gp_SortByOrder)) (matching_rows req d).
Definition page_of_partition (req : GetProcessInstancesRequest) (i : nat) (p : Z) (d : Database)
    : Partitioned ProtoProcessInstance :=
  let items := page_items req i d (sorted_rows req i d) in
  {| ptd_PartitionId := p; ptd_Items := items;
     ptd_TotalCount := match items with [] => 0%Z | _ => wrap32 (Z.of_nat (length (matching_rows req d))) end |}.

Lemma matching_with_page page req d :
  filter (instance_matches (instances_page_params (with_page page req)) d) (joined_instances d) =
  matching_rows req d.
Proof. done. Qed.

(** A page with the number of all rows, read as a page of the rows. *)
Lemma page_fmap {A B} (f : A → B) limit offset terms (l : list A) :
  (λ r, f r.1) <$> page limit offset terms l = f <$> limit_offset limit offset (order_by limit offset terms l).
Proof.
  unfold page, with_total. rewrite limit_offset_fmap, <- list_fmap_compose.
  by apply list_fmap_ext.
Qed.
Lemma page_total {A} limit offset terms (l : list A) :
  first_total (page limit offset terms l) =
  match limit_offset limit offset (order_by limit offset terms l) with
  | [] => 0%Z
  | _ => wrap32 (Z.of_nat (length l))
  end.
Proof.
  unfold page, with_total. rewrite limit_offset_fmap, (Permutation_length (order_by_perm _ _ _ l)).
  by destruct (limit_offset limit offset _).
Qed.

Lemma server_offset_exact i size :
  (Z.of_nat i < 2 ^ 31 - 1)%Z → server_offset (Z.of_nat i + 1) size = (Z.of_nat i * size)%Z.
Proof.
  intros Hi. unfold server_offset. replace (Z.of_nat i + 1 - 1)%Z with (Z.of_nat i) by lia.
  unfold wrap32. rewrite Z.mod_small by lia. lia.
Qed.

Lemma server_page_run req i p db ns :
  (∃ rp, ns !! p = Some rp ∧ rp.(rp_DB) = db) →
  db.(db_queryErr) "FindProcessInstancesPage" = None → db.(db_queryErr) "GetTokens" = None →
  keys_ok db.(db_data) → (Z.of_nat i < 2 ^ 31 - 1)%Z → req.(gp_Partitions) = [p] →
  server_GetProcessInstances (with_page (Z.of_nat i + 1) req) ns =
  (Ret (inl [page_of_partition req i p db.(db_data)]), ns).
Proof.
  intros (rp & Hp & <-) E1 E2 Hk Hi Hreq. unfold server_GetProcessInstances.
  change (gp_Partitions (with_page (Z.of_nat i + 1) req)) with (gp_Partitions req). rewrite Hreq.
  eapply server_one_partition; [done|].
  erewrite bind_step by (by apply page_of_instances_run).
  unfold mret, ST_ret. do 3 f_equal. unfold q_FindProcessInstancesPage.
  change (ipp_SortByOrder (instances_page_params (with_page (Z.of_nat i + 1) req)))
    with (gp_SortByOrder req).
  change (ipp_Size (instances_page_params (with_page (Z.of_nat i + 1) req))) with (gp_Size req).
  change (ipp_Offset (instances_page_params (with_page (Z.of_nat i + 1) req)))
    with (server_offset (Z.of_nat i + 1) (gp_Size req)).
  rewrite server_offset_exact, matching_with_page, page_fmap, page_total by done.
  unfold page_of_partition, page_items, sorted_rows. f_equal.
  by destruct (limit_offset (gp_Size req) _ _).
Qed.

(** Sorted by the key of the instances there are no ties. *)
Lemma joined_instances_keyed d x y :
  keys_ok d → x ∈ joined_instances d → y ∈ joined_instances d → x.1.(inr_Key) = y.1.(inr_Key) → x = y.
Proof.
  intros Hk Hx Hy E. unfold joined_instances in Hx, Hy.
  apply list_elem_of_omap in Hx as (r & Hr & Hx), Hy as (r' & Hr' & Hy).
  apply bind_Some in Hx as (pd & Hd & [= <-]), Hy as (pd' & Hd' & [= <-]). simpl in E.
  assert (Hrow : ∀ r, r ∈ rows d.(tb_process_instance) → d.(tb_process_instance) !! r.(inr_Key) = Some r).
  { clear -Hk. intros r Hr. unfold rows in Hr. rewrite scan_perm in Hr.
    apply list_elem_of_fmap in Hr as ([k z] & -> & Hz%elem_of_map_to_list). simpl.
    by rewrite (ok_instance_key _ Hk _ _ Hz). }
  apply Hrow in Hr, Hr'. congruence.
Qed.

Lemma key_sort_has_no_ties req d :
  keys_ok d → req.(gp_SortByOrder) = Some "key_asc" ∨ req.(gp_SortByOrder) = Some "key_desc" →
  no_ties (instances_order req.(gp_SortByOrder)) (matching_rows req d).
Proof.
  intros Hk Hs. assert (Hkey : ∀ x y, x ∈ matching_rows req d → y ∈ matching_rows req d →
    SqlInt x.1.(inr_Key) = SqlInt y.1.(inr_Key) → x = y).
  { intros x y [_ Hx]%list_elem_of_filter [_ Hy]%list_elem_of_filter [= E]. by eapply joined_instances_keyed. }
  unfold instances_order. destruct Hs as [-> | ->].
  - apply (no_ties_rest_key _ (λ r, if decide (Some "key_asc" = Some ("key" +:+ "_asc")) then SqlInt r.1.(inr_Key) else SqlNull) false).
    + cbn. right. right. left.
    + exact Hkey.
  - apply (no_ties_rest_key _ (λ r, if decide (Some "key_desc" = Some ("key" +:+ "_desc")) then SqlInt r.1.(inr_Key) else SqlNull) true).
    + cbn. right. right. right. left.
    + exact Hkey.
Qed.

(** C24: let the node be connected to the replica it asks for every partition,
    and let those replicas answer their queries.  In any order in which the
    partitions are asked, and whatever calls would be cancelled after an error,
    the request for a page of the process instances returns, leaves the cluster
    as it is, and answers one entry per partition, in the order of their
    numbers, with that page of the partition's replica; each page that is not
    empty carries the number of all matching instances.  A page is cut out of
    exactly the matching instances in an order of the request, which is another
    one for every page where instances are equal in it.  Where no two matching
    instances are equal in that order, the pages of a partition, as many as it
    takes, put together are the matching instances, each of them once and in
    the order of the request; this is so whenever the request sorts by key.
    (With equal instances a page may repeat one and another may be on none:
    [tied_pages_repeat_an_instance].) *)
Theorem instance_pages_list_everything req z order cancelled (dbs : Z → DB) :
  let partitions := sortedPartitionIds (ClusterState z.(zn_store)) in
  let terms := instances_order req.(gp_SortByOrder) in
  (∀ p, p ∈ partitions → rp_DB <$> replica iter_nodes z p = Some (dbs p)) →
  (∀ p, p ∈ partitions → (dbs p).(db_queryErr) "FindProcessInstancesPage" = None ∧
                         (dbs p).(db_queryErr) "GetTokens" = None ∧ keys_ok (dbs p).(db_data)) →
  order ≡ₚ partitions → (0 < req.(gp_Size))%Z →
  (∀ i, (Z.of_nat i < 2 ^ 31 - 1)%Z →
     node_GetProcessInstances iter_nodes order cancelled (with_page (Z.of_nat i + 1) req) z =
     (Ret ((λ p, page_of_partition req i p (dbs p).(db_data)) <$> partitions), z)) ∧
  ∀ p, p ∈ partitions → let d := (dbs p).(db_data) in
     (∀ i, ∃ rows, rows ≡ₚ matching_rows req d ∧ StronglySorted (order_le terms) rows ∧
        (page_of_partition req i p d).(ptd_Items) = page_items req i d rows) ∧
     (no_ties terms (matching_rows req d) →
        ∀ n, (Z.of_nat (length (matching_rows req d)) ≤ Z.of_nat n * req.(gp_Size))%Z →
        ∃ rows, rows ≡ₚ matching_rows req d ∧ StronglySorted (order_le terms) rows ∧
          concat ((λ i, (page_of_partition req i p d).(ptd_Items)) <$> seq 0 n) = listed d <$> rows) ∧
     (req.(gp_SortByOrder) = Some "key_asc" ∨ req.(gp_SortByOrder) = Some "key_desc" →
        no_ties terms (matching_rows req d)).
Proof.
  intros partitions terms Hrep Hok Hperm Hsize. split.
  - intros i Hi. unfold node_GetProcessInstances.
    erewrite (fan_out_run order cancelled _ z
                (λ p, [page_of_partition req i p (dbs p).(db_data)])); [|done|].
    + unfold mret, ST_ret. do 3 f_equal. fold partitions. clear.
      induction partitions as [|p l IH]; [done|]. cbn. by f_equal.
    + intros p Hp. rewrite Hperm in Hp. destruct (Hok _ Hp) as (E1 & E2 & Hk).
      apply Hrep, fmap_Some in Hp as (rp & Hrp & Hdb).
      unfold getProcessInstancesForPartition. erewrite ask_run; [|done|].
      2:{ intros ns Hns. apply (server_page_run
            {| gp_Page := 0; gp_Size := req.(gp_Size); gp_Partitions := [p];
               gp_DefinitionKey := req.(gp_DefinitionKey); gp_ParentKey := req.(gp_ParentKey);
               gp_BusinessKey := req.(gp_BusinessKey); gp_ProcessId := req.(gp_ProcessId);
               gp_CreatedFrom := req.(gp_CreatedFrom); gp_CreatedTo := req.(gp_CreatedTo);
               gp_State := req.(gp_State); gp_ShowChildProcesses := req.(gp_ShowChildProcesses);
               gp_ActivityId := req.(gp_ActivityId); gp_SortByOrder := req.(gp_SortByOrder) |} i p (dbs p));
          [by exists rp|done..]. }
      done.
  - intros p Hp d. split_and!.
    + intros i. exists (sorted_rows req i d).
      split_and!; [apply order_by_perm|apply order_by_sorted|done].
    + intros Hu n Hn. set (l := sorted_rows req 0 d). exists l.
      split_and!; [apply order_by_perm|apply order_by_sorted|].
      assert (El : ∀ i, sorted_rows req i d = l).
      { intros i. apply order_by_unique; [done|apply order_by_sorted|apply order_by_perm]. }
      rewrite <- (pages_cover req.(gp_Size) n (listed d <$> l)); [|done|].
      * f_equal. apply list_fmap_ext. intros j i _. cbn [page_of_partition ptd_Items]. unfold page_items.
        by rewrite limit_offset_fmap, El.
      * rewrite length_fmap. unfold l, sorted_rows. by rewrite order_by_perm.
    + apply key_sort_has_no_ties. by apply (Hok p Hp).
Qed.
End pages.

(** ** The history of an instance *)

Section history.
Context `{TableScan}.

Lemma filter_bind {A B} (P : B → Prop) `{!∀ x, Decision (P x)} (f : A → list B) l :
  filter P (l ≫= f) = l ≫= (λ x, filter P (f x)).
Proof. induction l as [|x l IH]; [done|]. cbn. by rewrite filter_app, IH. Qed.

Lemma bind_bind {A B C} (f : A → list B) (g : B → list C) l : (l ≫= f) ≫= g = l ≫= (λ x, f x ≫= g).
Proof. induction l as [|x l IH]; [done|]. cbn. by rewrite bind_app, IH. Qed.

Lemma bind_ext {A B} (f g : A → list B) l : (∀ x, f x = g x) → l ≫= f = l ≫= g.
Proof. intros E. induction l as [|x l IH]; [done|]. cbn. by rewrite E, IH. Qed.

(** Only one element of the list contributes. *)
Lemma bind_only {A B} (f : A → list B) x (l : list A) :
  NoDup l → x ∈ l → (∀ y, y ∈ l → y ≠ x → f y = []) → l ≫= f = f x.
Proof.
  induction 1 as [|y l Hy Hnd IH]; intros Hx Hf; [by inv Hx|]. cbn.
  apply elem_of_cons in Hx as [<-|Hx].
  - assert (E : l ≫= f = []); [|by rewrite E, app_nil_r].
    assert (Hl : ∀ z, z ∈ l → f z = []) by (intros z Hz; apply Hf; [by right|by intros ->]).
    clear - Hl. induction l as [|z l IH]; [done|]. cbn. rewrite Hl by left. apply IH. intros. apply Hl. by right.
  - rewrite Hf; [|by left|by intros ->]. apply IH; [done|]. intros z Hz. apply Hf. by right.
Qed.

Lemma select_NoDup {A} (key : A → Z) (P : A → Prop) `{!∀ x, Decision (P x)} (m : gmap Z A) :
  keyed key m → NoDup (select P m).
Proof.
  intros Hk. unfold select. apply NoDup_filter. rewrite scan_perm.
  apply NoDup_fmap_2_strong; [|apply NoDup_map_to_list].
  intros [k x] [k' y] Hx%elem_of_map_to_list Hy%elem_of_map_to_list E. cbn in E. subst y.
  by rewrite <- (Hk _ _ Hx), <- (Hk _ _ Hy).
Qed.

Lemma bind_constant {A B} (f : A → list B) (r : list B) l :
  (∀ x, x ∈ l → f x = r) → l ≫= f = concat (replicate (length l) r).
Proof.
  induction l as [|x l IH]; intros Hf; [done|]. cbn. rewrite Hf by left. f_equal. apply IH. intros. apply Hf. by right.
Qed.

(** The tokens and the elements of an instance. *)
Definition history_tokens (pik : Z) (d : Database) : list TokenRow :=
  select (λ t, t.(tor_ProcessInstanceKey) = pik) d.(tb_execution_token).
Definition history_elements (pik : Z) (d : Database) : list ElementRow :=
  select (λ e, e.(elr_ProcessInstanceKey) = pik) d.(tb_flow_element_instance).

Lemma own_elements pik k d :
  filter (λ e, elr_ProcessInstanceKey e = pik) (history_elements k d) = if decide (k = pik) then history_elements pik d else [].
Proof.
  unfold history_elements, select. rewrite list_filter_filter. destruct (decide (k = pik)) as [->|Hne].
  - apply list_filter_iff. intros e. tauto.
  - apply filter_none. intros e _ [<- E]. by apply Hne.
Qed.

(** The history repeats the elements: of the elements an instance went
    through, its history has each one as many times as the instance has tokens,
    and none at all for the instance of a call activity. *)
Theorem history_repeats_elements pik r d :
  keys_ok d → d.(tb_process_instance) !! pik = Some r →
  filter (λ e, elr_ProcessInstanceKey e = pik) (history_rows pik d) =
  if decide (r.(inr_ProcessType) = ProcessType_int ProcessTypeCallActivity) then []
  else concat (replicate (length (history_tokens pik d)) (history_elements pik d)).
Proof.
  intros Hk Hr. unfold history_rows, history_instances. rewrite filter_bind, bind_bind. fold (history_tokens pik d).
  assert (Hkey : inr_Key r = pik) by exact (ok_instance_key _ Hk _ _ Hr).
  rewrite (bind_constant _ (if decide (r.(inr_ProcessType) = ProcessType_int ProcessTypeCallActivity) then []
                            else history_elements pik d)).
  { destruct (decide _); [|done]. induction (length _); done. }
  intros et _. rewrite bind_bind.
  rewrite (bind_ext _ (λ y, if decide (inr_Key y = pik) then history_elements pik d else [])).
  2:{ intros y. cbn. rewrite app_nil_r. apply own_elements. }
  set (pis := select _ _).
  assert (Hnd : NoDup pis) by (apply (select_NoDup inr_Key), Hk).
  assert (Hother : ∀ y, y ∈ pis → y ≠ r →
    (if decide (inr_Key y = pik) then history_elements pik d else []) = []).
  { intros y [_ [k Hy]]%elem_of_select Hne. rewrite decide_False; [done|].
    rewrite (ok_instance_key _ Hk _ _ Hy). intros ->. congruence. }
  destruct (decide _) as [E3|E3].
  - assert (Hl : ∀ y, y ∈ pis → (if decide (inr_Key y = pik) then history_elements pik d else []) = []).
    { intros y Hy. apply Hother; [done|]. intros ->. apply elem_of_select in Hy as [[_ ?] _]. done. }
    rewrite (bind_constant _ [] _ Hl). by induction (length _).
  - rewrite (bind_only _ r pis Hnd); [by rewrite decide_True|by apply elem_of_select; eauto|done].
Qed.
End history.

(** ** Parameters of the lists

    Two requests that run the same queries are answered the same. *)

Lemma query_many_ext {A} name (q q' : Database → list A) db :
  (∀ d, q d = q' d) → query_many name q db = query_many name q' db.
Proof. intros E. unfold query_many. by rewrite E. Qed.

Lemma respond_ext {A B} failed (m m' : ST DB A) (found : A → ST DB (Response B)) db :
  m db = m' db → respond failed m found db = respond failed m' found db.
Proof. intros E. unfold respond, mbind, ST_bind, attempt. by rewrite E. Qed.

Lemma with_queries_ext {A} p (body body' : ST DB (Response A)) ns :
  (∀ db, body db = body' db) → with_queries p body ns = with_queries p body' ns.
Proof.
  intros E. unfold with_queries. erewrite !(bind_step get) by reflexivity.
  destruct (ns !! p); [|done]. unfold on_db. destruct (ns !! p); [|done]. by rewrite E.
Qed.

Lemma server_partitions_ext {A} l (one one' : Z → ST DB (Response A)) ns :
  (∀ p db, one p db = one' p db) → server_partitions l one ns = server_partitions l one' ns.
Proof.
  intros E. revert ns. induction l as [|p l IH]; intros ns; [done|]. cbn [server_partitions].
  unfold mbind, ST_bind. rewrite (with_queries_ext p (one p) (one' p)) by auto.
  destruct (with_queries p (one' p) ns) as [[[a|e]|e|msg| |] ns']; try done. by rewrite IH.
Qed.

Lemma expect_ext {E} `{Dial} {A} failed refused (m m' : ST (ZenNode (E := E)) (Response A)) z :
  m z = m' z → expect failed refused m z = expect failed refused m' z.
Proof. intros Em. unfold expect, wrap, mbind, ST_bind, attempt. by rewrite Em. Qed.

Lemma call_ext {E} `{Dial} {A} client (m m' : ST (Server E) A) (z : ZenNode (E := E)) :
  (∀ es, m es = m' es) → call client m z = call client m' z.
Proof. intros Em. unfold call. destruct (zn_servers z !! client); [|done]. by rewrite Em. Qed.

Lemma bind_ext_run {S A B} (m : ST S A) (f g : A → ST S B) s :
  (∀ a s, f a s = g a s) → (m ≫= f) s = (m ≫= g) s.
Proof. intros E. unfold mbind, ST_bind. by destruct (m s) as [[] ?]. Qed.

Lemma for_fold_ext {S A B} l (f g : B → A → ST S B) b s :
  (∀ b x s, f b x s = g b x s) → for_fold l b f s = for_fold l b g s.
Proof.
  intros E. revert b s. induction l as [|x l IH]; intros b s; [done|]. cbn [for_fold].
  unfold mbind, ST_bind. rewrite E. destruct (g b x s) as [[] ?]; auto.
Qed.

Lemma fan_out_ext {A} order cancelled (ask ask' : Cluster → Z → ST (ZenNode (E := ReadPartition)) (list A)) z :
  (∀ c p z, ask c p z = ask' c p z) → fan_out order cancelled ask z = fan_out order cancelled ask' z.
Proof.
  intros E. unfold fan_out. erewrite !(bind_step get) by reflexivity. unfold mbind, ST_bind.
  rewrite (for_fold_ext _ _ (fan_step cancelled (ask' (ClusterState z.(zn_store))))); [done|].
  intros [e m] p z'. unfold fan_step.
  assert (E1 : attempt (ask (ClusterState z.(zn_store)) p) z' = attempt (ask' (ClusterState z.(zn_store)) p) z')
    by (unfold attempt; by rewrite E).
  cbn [fst snd]. destruct e as [e|], (cancelled p); try done; unfold mbind, ST_bind; by rewrite E1.
Qed.

Section lists.
Context `{TableScan} `{Dial}.
Context (iter_nodes : ∀ (A : Type), gmap string A → list (string * A)).
Context (json_Unmarshal : string → result vars).

(** A sort parameter the query does not know. *)
Definition unknown_job_sort (sort : option string) : Prop :=
  ∀ c, c ∈ jobs_columns → sort ≠ Some (c.1 +:+ "_asc") ∧ sort ≠ Some (c.1 +:+ "_desc").

Lemma jobs_unknown_sort order cancelled page size ty st a k sort1 sort2 z :
  unknown_job_sort (Some (default "" sort1)) → unknown_job_sort (Some (default "" sort2)) →
  node_GetJobs iter_nodes order cancelled page size ty st a k sort1 z =
  node_GetJobs iter_nodes order cancelled page size ty st a k sort2 z.
Proof.
  intros H1 H2. apply fan_out_ext. intros c p z'. unfold getJobsForPartition.
  apply bind_ext_run. intros client z1. apply expect_ext, call_ext. intros ns.
  apply server_partitions_ext. intros q db. apply respond_ext, query_many_ext. intros d.
  unfold q_FindJobs, jobs_order, Pages.page. cbn [jpp_Sort gj_Sort]. by rewrite !order_by_unknown.
Qed.

#[local] Ltac not_a_column :=
  intros c Hc; unfold jobs_columns in Hc; repeat (apply elem_of_cons in Hc as [->|Hc]; [split; cbn; intros ?; discriminate|]);
  by apply not_elem_of_nil in Hc.

(** Parameters of the list of jobs: asking for the failed jobs is a bad
    request; asking for the terminated ones lists the active ones; and sorting
    by the time of creation, in either order, gives the same answer as no
    sorting at all, whatever the cluster holds. *)
Theorem job_list_parameters order cancelled page size jobType state assignee key sortOrder z :
  let jobs := rest_GetJobs iter_nodes json_Unmarshal order cancelled page size jobType in
  jobs (Some "failed") assignee key None sortOrder z = (Ret (RestStatus 400), z) ∧
  jobs (Some "terminated") assignee key None sortOrder z = jobs (Some "active") assignee key None sortOrder z ∧
  jobs state assignee key (Some "createdAt") sortOrder z = jobs state assignee key None None z.
Proof.
  intros jobs. split_and!; [done|done|]. unfold jobs, rest_GetJobs.
  destruct (defaultPagination page size) as [p s]. destruct (job_state_filter state) as [st|]; [|done].
  unfold rest_read, mbind, ST_bind, attempt. rewrite (jobs_unknown_sort _ _ _ _ _ _ _ _ _ None); [done| |].
  - unfold SortString. cbn [default fmap option_fmap option_map]. generalize (default "asc" sortOrder). intros o.
    not_a_column.
  - not_a_column.
Qed.

(** An instance is read from its engine: a read of an instance asks a
    follower of its partition, if there is one, but the handler needs the engine
    of the partition, which only the leader has.  The caller gets an internal
    error and nothing is read, whether the instance is stored or not. *)
Theorem instance_read_needs_engine xml_Unmarshal_bpmn json_Marshal TokenState_String key z rp :
  replica iter_nodes z (GetPartitionId key) = Some rp → rp.(rp_Engine) = false →
  rest_GetProcessInstance iter_nodes xml_Unmarshal_bpmn json_Unmarshal json_Marshal TokenState_String key z =
  (Ret (RestStatus 500), z).
Proof.
  intros Hrep Hengine. unfold rest_GetProcessInstance, rest_read.
  assert (E : ∃ err, node_GetProcessInstance iter_nodes xml_Unmarshal_bpmn json_Unmarshal json_Marshal key z =
    (Err (ToZenError (ToProtoError TechnicalErrorCode (err! "engine with partition %d was not found")) err), z)).
  { eexists. unfold node_GetProcessInstance, read_by_key. erewrite (bind_step get) by reflexivity.
    erewrite ask_run; [|done|].
    2:{ intros ns Hns. unfold server_GetProcessInstance. erewrite (bind_step get) by reflexivity.
        rewrite Hns. destruct rp as [[] leader db]; [done|reflexivity]. }
    reflexivity. }
  destruct E as [err E]. unfold mbind, ST_bind, attempt. rewrite E. reflexivity.
Qed.
End lists.

(** ** Pages of the definitions *)

Section definitions.
Context `{TableScan}.
Context (iter_partitions : ∀ (A : Type), gmap Z A → list (Z * A)).

Lemma on_read_only_ext {A} no_db (m m' : ST DB A) ns :
  (∀ db, m db = m' db) → on_read_only iter_partitions no_db m ns = on_read_only iter_partitions no_db m' ns.
Proof.
  intros E. unfold on_read_only. erewrite !(bind_step get) by reflexivity. unfold mbind, ST_bind.
  destruct (wrap_result _ _ _) as [[] ?]; try done. unfold on_db. destruct (_ !! _); [|done]. by rewrite E.
Qed.

(** An offset that is not positive is none. *)
Lemma limit_offset_negative {A} limit offset (l : list A) :
  (offset ≤ 0)%Z → limit_offset limit offset l = limit_offset limit 0 l.
Proof. intros Ho. unfold limit_offset. by replace (Z.to_nat offset) with (Z.to_nat 0) by lia. Qed.

Lemma order_by_negative {A} limit offset terms (l : list A) :
  (offset ≤ 0)%Z → order_by limit offset terms l = order_by limit 0 terms l.
Proof. intros Ho. unfold order_by. by replace (Z.to_nat offset) with (Z.to_nat 0) by lia. Qed.

Lemma node_offset_small page size :
  (1 ≤ page < 2 ^ 31)%Z → (1 ≤ size)%Z → ((page - 1) * size < 2 ^ 31)%Z →
  node_offset page size = ((page - 1) * size)%Z.
Proof.
  intros Hp Hs Hm. unfold node_offset, wrap32.
  rewrite (Z.mod_small (page - 1 + _)) by lia. rewrite Z.mod_small; nia.
Qed.

Lemma node_offset_negative page size :
  (1 ≤ page < 2 ^ 31)%Z → (2 ^ 31 ≤ (page - 1) * size < 2 ^ 32)%Z → (node_offset page size < 0)%Z.
Proof.
  intros Hp Hm. unfold node_offset, wrap32. rewrite (Z.mod_small (page - 1 + _)) by lia.
  replace (page - 1 + 2 ^ 31 - 2 ^ 31)%Z with (page - 1)%Z by lia.
  rewrite <- (Z.mod_unique ((page - 1) * size + 2 ^ 31) (2 ^ 32) 1 ((page - 1) * size - 2 ^ 31)); lia.
Qed.

(** The pages of the definitions wrap around: the offset of a page is
    computed in 32 bits.  It is the right one while the rows before the page
    are fewer than 2^31; from there up to 2^32 it is negative, and for a page
    and a size that pass the checks of the parameters the first page is read
    again, and its rows are answered under the number of the requested page. *)
Theorem definitions_page_wraps page size :
  validatePagination page size = None → (page < 2 ^ 31)%Z →
  (((page - 1) * size < 2 ^ 31)%Z → node_offset page size = ((page - 1) * size)%Z) ∧
  ((2 ^ 31 ≤ (page - 1) * size < 2 ^ 32)%Z → ∀ id latest sortBy sortOrder ns,
     let definitions n := rest_GetProcessDefinitions iter_partitions (Some n) (Some size) id latest sortBy sortOrder ns in
     (definitions page).2 = (definitions 1%Z).2 ∧
     ∀ answer, (definitions 1%Z).1 = Ret (RestOk answer) →
       (definitions page).1 = Ret (RestOk {| rpg_Partitions := answer.(rpg_Partitions); rpg_Page := page;
         rpg_Size := size; rpg_Count := answer.(rpg_Count); rpg_TotalCount := answer.(rpg_TotalCount) |})).
Proof.
  unfold validatePagination. intros Hv Hp. unfold PaginationMaxSize in Hv.
  destruct (Z.ltb_spec page 1) as [|H1]; [discriminate Hv|].
  destruct (Z.ltb_spec size 1) as [|Hs]; [discriminate Hv|].
  destruct (Z.ltb_spec 100 size) as [|Hs']; [discriminate Hv|]. clear Hv. split; [intros; apply node_offset_small; lia|].
  intros Hw id latest sortBy sortOrder ns.
  pose (definitions n := rest_GetProcessDefinitions iter_partitions (Some n) (Some size) id latest sortBy sortOrder ns).
  change ((definitions page).2 = (definitions 1%Z).2 ∧
     ∀ answer, (definitions 1%Z).1 = Ret (RestOk answer) →
       (definitions page).1 = Ret (RestOk {| rpg_Partitions := answer.(rpg_Partitions); rpg_Page := page;
         rpg_Size := size; rpg_Count := answer.(rpg_Count); rpg_TotalCount := answer.(rpg_TotalCount) |})).
  set (nd := node_GetProcessDefinitions iter_partitions id latest (SortString sortOrder sortBy)).
  assert (E : nd page size ns = nd 1%Z size ns).
  { apply on_read_only_ext. intros db. unfold mbind, ST_bind, wrap, mbind, ST_bind, attempt.
    rewrite (query_many_ext _ _ (q_FindProcessDefinitions id (SortString sortOrder sortBy)
      (if bool_decide (latest = Some true) then 1 else 0)%Z (node_offset 1 size) size)); [done|].
    intros d. unfold q_FindProcessDefinitions, Pages.page.
    assert (Hneg : (node_offset page size ≤ 0)%Z) by (apply Z.lt_le_incl, node_offset_negative; lia).
    rewrite !(limit_offset_negative size (node_offset _ size)), !(order_by_negative size (node_offset _ size));
      done. }
  assert (Ed : ∀ n, (1 ≤ n)%Z → definitions n = rest_read [(BadRequestCode, 400)]%Z (nd n size)
    (single_page n size (λ d, mret (Good d))) ns).
  { intros n Hn. unfold definitions, rest_GetProcessDefinitions, defaultPagination, validatePagination.
    cbn [from_option Datatypes.id]. rewrite (proj2 (Z.ltb_ge n 1)), (proj2 (Z.ltb_ge size 1)) by lia.
    unfold PaginationMaxSize. rewrite (proj2 (Z.ltb_ge 100 size)) by lia. done. }
  rewrite !Ed by lia. unfold rest_read, mbind, ST_bind, attempt. rewrite E.
  destruct (nd 1%Z size ns) as [[rows|[]|msg| |] ns']; try done.
  unfold single_page, mbind, ST_bind. destruct (convert_items _ _ _) as [[[|]| | | |] ?]; cbn;
    (split; [done|]); intros answer [=]; by subst.
Qed.
End definitions.

(** ** A concrete cluster

    Node [a] leads partition 1, which node [b] follows, and [b] leads partition
    2.  Partition 1 has two instances, the second one without a token. *)

#[local] Existing Instance by_key.
#[local] Instance dial_reads : Dial := {| rpc_NewClient _ := Bad (err! "unavailable") |}.

Definition two_nodes : Cluster :=
  {| DesiredPartitions := 2;
     c_Partitions := {[1%Z := {| p_Id := 1; p_LeaderId := "a" |}; 2%Z := {| p_Id := 2; p_LeaderId := "b" |}]};
     c_Nodes := {["a" := {| n_Id := "a"; n_Addr := "a:1"; n_Suffrage := 1; n_State := 2; n_Role := 2;
                            n_Partitions := Some {[1%Z := {| np_Id := 1; np_State := 5; np_Role := 2 |}]} |};
                  "b" := {| n_Id := "b"; n_Addr := "b:1"; n_Suffrage := 1; n_State := 2; n_Role := 1;
                            n_Partitions := Some {[1%Z := {| np_Id := 1; np_State := 5; np_Role := 1 |};
                                                   2%Z := {| np_Id := 2; np_State := 5; np_Role := 2 |}]} |}]} |}.

Definition store_of (c : Cluster) : Store :=
  let s := ClusterProps.example_store "a" in
  {| s_cfg := s.(s_cfg); s_open := s.(s_open); s_bootstrapExpect := s.(s_bootstrapExpect);
     s_bootstrapped := s.(s_bootstrapped); s_notifyingNodes := s.(s_notifyingNodes);
     s_raftID := s.(s_raftID); s_state := c; s_observer := s.(s_observer);
     s_notifications := s.(s_notifications); s_appliedTarget := s.(s_appliedTarget);
     s_raft := s.(s_raft) |}.

Definition two_instances : Database := run_stmts (setup ++ [SqlSaveProcessInstance (a_instance_row 5 4)]) empty_database.
Lemma two_instances_ok : database_ok two_instances.
Proof. refine (exec_stmts_ok _ _ _ database_ok_empty _). by apply run_stmts_Good. Qed.

Definition read_db (p : Z) : DB := storage_of (if (p =? 1)%Z then two_instances else empty_database).
Definition read_partition (leader : bool) (p : Z) : ReadPartition :=
  {| rp_Engine := leader; rp_IsLeader := leader; rp_DB := read_db p |}.
Definition read_cluster : ZenNode (E := ReadPartition) :=
  {| zn_store := store_of two_nodes; zn_client := {| cm_activeClients := {["a:1" := 10%Z; "b:1" := 11%Z]} |};
     zn_servers := {[10%Z := {[1%Z := read_partition true 1]};
                     11%Z := {[1%Z := read_partition false 1; 2%Z := read_partition true 2]}]} |}.
Definition nodes_by_id (A : Type) (m : gmap string A) : list (string * A) := map_to_list m.

Definition all_instances : GetProcessInstancesRequest :=
  {| gp_Page := 1; gp_Size := 1; gp_Partitions := []; gp_DefinitionKey := 0; gp_ParentKey := 0;
     gp_BusinessKey := None; gp_ProcessId := None; gp_CreatedFrom := None; gp_CreatedTo := None;
     gp_State := None; gp_ShowChildProcesses := None; gp_ActivityId := None; gp_SortByOrder := Some "key_asc" |}.

Lemma read_db_ok p : keys_ok (read_db p).(db_data).
Proof. unfold read_db. destruct (p =? 1)%Z; apply ok_keys; [apply two_instances_ok|apply database_ok_empty]. Qed.

Lemma instance_pages_list_everything_witness :
  node_GetProcessInstances nodes_by_id [2; 1]%Z (λ _, true) (with_page 2 all_instances) read_cluster =
  (Ret [page_of_partition all_instances 1 1 two_instances;
        page_of_partition all_instances 1 2 empty_database], read_cluster) ∧
  (∃ rows, rows ≡ₚ matching_rows all_instances two_instances ∧
     concat ((λ i, (page_of_partition all_instances i 1 two_instances).(ptd_Items)) <$> seq 0 2) =
       listed two_instances <$> rows) ∧
  ppi_Key <$> concat ((λ i, (page_of_partition all_instances i 1 two_instances).(ptd_Items)) <$> seq 0 2) = [2; 5]%Z.
Proof.
  assert (Hsorted : sortedPartitionIds (ClusterState read_cluster.(zn_store)) = [1; 2]%Z) by (vm_compute; reflexivity).
  assert (Hcases : ∀ p, p ∈ [1; 2]%Z → p = 1%Z ∨ p = 2%Z)
    by (intros p [->|[->|[]%not_elem_of_nil]%elem_of_cons]%elem_of_cons; auto).
  assert (H1 : rp_DB <$> replica nodes_by_id read_cluster 1 = Some (read_db 1)) by reflexivity.
  assert (H2 : rp_DB <$> replica nodes_by_id read_cluster 2 = Some (read_db 2)) by reflexivity.
  assert (Hlen : length (matching_rows all_instances two_instances) = 2%nat) by (vm_compute; reflexivity).
  destruct (instance_pages_list_everything nodes_by_id all_instances read_cluster [2; 1]%Z (λ _, true) read_db)
    as [Hpage Hall].
  - rewrite Hsorted. intros p [-> | ->]%Hcases; [exact H1|exact H2].
  - intros p _. split_and!; [done|done|apply read_db_ok].
  - rewrite Hsorted. constructor.
  - done.
  - split_and!.
    + specialize (Hpage 1%nat ltac:(done)). rewrite Hsorted in Hpage. exact Hpage.
    + rewrite Hsorted in Hall. destruct (Hall 1%Z ltac:(left)) as (_ & Hcat & Hkey).
      change (read_db 1).(db_data) with two_instances in *.
      destruct (Hcat (Hkey ltac:(by left)) 2%nat) as (rows & Hr & _ & E); [by rewrite Hlen|].
      exists rows. split; [exact Hr|exact E].
    + vm_compute. reflexivity.
Defined.

(** Without a sort the two instances, created in the same millisecond, are
    equal in the order of the list.  A database that hands equal rows to the
    sort the other way round when it skips rows lists the same instance on both
    pages and the other one on none. *)
Definition turning : TableScan := {|
  scan A m := map_to_list m; scan_perm A m := reflexivity _;
  arrival A _ offset l := if (offset =? 0)%nat then l else reverse l;
  arrival_perm A _ offset l := match (offset =? 0)%nat as b return (if b then l else reverse l) ≡ₚ l with
                               | true => reflexivity _ | false => reverse_Permutation l end |}.
Definition unsorted_instances : GetProcessInstancesRequest :=
  {| gp_Page := 1; gp_Size := 1; gp_Partitions := []; gp_DefinitionKey := 0; gp_ParentKey := 0;
     gp_BusinessKey := None; gp_ProcessId := None; gp_CreatedFrom := None; gp_CreatedTo := None;
     gp_State := None; gp_ShowChildProcesses := None; gp_ActivityId := None; gp_SortByOrder := None |}.
Definition tied_page (i : nat) : list Z :=
  ppi_Key <$> (page_of_partition (H := turning) unsorted_instances i 1 two_instances).(ptd_Items).

Lemma tied_pages_repeat_an_instance :
  inr_Key ∘ fst <$> matching_rows (H := turning) unsorted_instances two_instances = [5; 2]%Z ∧
  tied_page 0 = [5]%Z ∧ tied_page 1 = [5]%Z.
Proof. split_and!; vm_compute; reflexivity. Qed.

(** An instance with two tokens that went through one element. *)
Definition an_element : ElementRow :=
  {| elr_Key := 8; elr_ElementID := "task"; elr_ProcessInstanceKey := 2; elr_ExecutionTokenKey := 3;
     elr_CreatedAt := 0; elr_InputVariables := "{}"; elr_OutputVariables := "{}" |}.
Definition two_tokens : Database :=
  run_stmts (setup ++
    [SqlSaveToken {| tor_Key := 7; tor_ElementInstanceKey := 9; tor_ElementID := "end"; tor_ProcessInstanceKey := 2;
                     tor_State := 3; tor_CreatedAt := 0 |};
     SqlSaveFlowElementInstance an_element]) empty_database.
Lemma two_tokens_ok : database_ok two_tokens.
Proof. refine (exec_stmts_ok _ _ _ database_ok_empty _). by apply run_stmts_Good. Qed.

Lemma history_repeats_elements_witness :
  filter (λ e, elr_ProcessInstanceKey e = 2%Z) (history_rows 2 two_tokens) =
  concat (replicate (length (history_tokens 2 two_tokens)) (history_elements 2 two_tokens)) ∧
  history_rows 2 two_tokens = [an_element; an_element].
Proof.
  assert (Hr : two_tokens.(tb_process_instance) !! 2%Z = Some (a_instance_row 2 1)) by (vm_compute; reflexivity).
  split; [exact (history_repeats_elements 2 _ two_tokens (ok_keys _ two_tokens_ok) Hr)|vm_compute; reflexivity].
Defined.

(** The instance is in the database, but its partition is asked on the follower. *)
Lemma instance_read_needs_engine_witness :
  GetPartitionId (2 ^ 12) = 1%Z ∧
  rest_GetProcessInstance nodes_by_id (λ _, Bad (err! "xml")) (λ _, Good ∅) (λ _, Good "{}") (λ _, "") (2 ^ 12)
    read_cluster = (Ret (RestStatus 500), read_cluster).
Proof.
  assert (Hk : GetPartitionId (2 ^ 12) = 1%Z) by (vm_compute; reflexivity). split; [exact Hk|].
  apply (instance_read_needs_engine nodes_by_id (λ _, Good ∅) _ _ _ (2 ^ 12) read_cluster (read_partition false 1));
    [rewrite Hk; reflexivity|reflexivity].
Defined.

(** Page 21474838 with 100 rows: 2147483700 rows before it. *)
Lemma definitions_page_wraps_witness :
  node_offset 21474838 100 ≠ ((21474838 - 1) * 100)%Z ∧
  ∀ ns, (rest_GetProcessDefinitions (λ A m, map_to_list m) (Some 21474838%Z) (Some 100%Z) None None None None ns).2 =
        (rest_GetProcessDefinitions (λ A m, map_to_list m) (Some 1%Z) (Some 100%Z) None None None None ns).2.
Proof.
  split; [vm_compute; discriminate|]. intros ns.
  exact (proj1 (proj2 (definitions_page_wraps (λ A m, map_to_list m) 21474838 100 eq_refl ltac:(lia))
    ltac:(lia) None None None None ns)).
Defined.
