(* ===== verification/Create.v ===== *)
(** New instances, decisions and DMN resources on the cluster: the node
    (internal/cluster/node.go) chooses the least stressed node that leads a
    partition, whose handler (internal/cluster/server/server.go) runs the
    operation on one of its engines; a DMN resource goes to the leader of every
    partition.  The REST handlers (internal/rest/server.go) check the parameters
    and translate the errors.

    The operations of an engine are behind the class [CreationApi].  An operation
    that creates an instance may return the instance together with an error. *)
From S2P Require Import Prelude ZenErr Ttl Monad Runtime DmnModel Sql ClusterState ClusterStore Zenflake.
From S2P Require Import JobClient Messages Commands Pages PartitionDB Reads RestReads.

#[local] Open Scope string_scope.
#[local] Open Scope list_scope.

(** The values the handler puts into the context. *)
Record CreateContext := { crc_HistoryTTL : option Z; crc_BusinessKey : option string }.

(** What CreateInstance of an engine returns. *)
Abbreviation created := (option ProcessInstance * option error)%type.

Class CreationApi (E : Type) := {
  eng_CreateInstanceByKey : CreateContext → Z → vars → ST E created;
  eng_CreateInstanceById : CreateContext → string → vars → ST E created;
  eng_CreateInstanceWithStartingElements : Z → list string → vars → ST E created;
  eng_FindAndEvaluateDRD : string → string → string → vars → ST E EvaluatedDRDResult;
  eng_SaveDmnResourceDefinition : DmnTDefinitions → string → Z → ST E unit
}.

Inductive StartBy := StartByDefinitionKey (key : Z) | StartByLatestProcessId (id : string).

Record CreateInstanceRequest := {
  cir_StartBy : option StartBy; cir_Variables : string; cir_HistoryTTL : option Z;
  cir_BusinessKey : option string
}.

Section create.
Context {E : Type} `{CreationApi E} `{Dial}.
Context (json_Marshal : vars → result string) (json_Unmarshal : string → result vars).
Context (iter : ∀ (A : Type), gmap Z A → list (Z * A)) (iter_nodes : ∀ (A : Type), gmap string A → list (string * A)).

(** ** The cluster server

    [Intn] is rand.Intn: the engine is one of the engines of the node. *)
Definition GetRandomEngine (Intn : nat → nat) (es : Server E) : option Z :=
  let engines := iter E es in
  match engines with
  | [] => None
  | _ => fst <$> nth_error engines (Intn (length engines))
  end.

Definition with_random_engine {A} (Intn : nat → nat) (body : Z → ST (Server E) (Response A))
    : ST (Server E) (Response A) :=
  es ← get;
  match GetRandomEngine Intn es with
  | None => mret (inr (technical (err! "no engine available on this node")))
  | Some p => body p
  end.

(** The instance of a response; it has no parent. *)
Definition created_response (i : ProcessInstance) (businessKey : option string) (variables : string)
    : ProtoProcessInstance :=
  let p := proto_instance i variables in
  {| ppi_Key := p.(ppi_Key); ppi_ProcessId := p.(ppi_ProcessId); ppi_Variables := p.(ppi_Variables);
     ppi_State := p.(ppi_State); ppi_CreatedAt := p.(ppi_CreatedAt);
     ppi_DefinitionKey := p.(ppi_DefinitionKey); ppi_ParentInstanceKey := None;
     ppi_BusinessKey := businessKey; ppi_Type := p.(ppi_Type) |}.

Definition marshal_created (i : ProcessInstance) (businessKey : option string) : Response ProtoProcessInstance :=
  match json_Marshal i.(pi_VariableHolder) with
  | Bad e => inr (technical (errw! "failed to marshal process instance result: %w" [e]))
  | Good variables => inl (created_response i businessKey variables)
  end.

(** An instance that was created is answered also when running it failed. *)
Definition server_CreateInstance (Intn : nat → nat) (req : CreateInstanceRequest)
    : ST (Server E) (Response ProtoProcessInstance) :=
  with_random_engine Intn (λ p,
    match json_Unmarshal req.(cir_Variables) with
    | Bad e => mret (inr (technical (errw! "failed to unmarshal process variables: %w" [e])))
    | Good vars =>
        let ctx := {| crc_HistoryTTL := req.(cir_HistoryTTL); crc_BusinessKey := req.(cir_BusinessKey) |} in
        r ← match req.(cir_StartBy) with
            | Some (StartByDefinitionKey key) => on_engine p (eng_CreateInstanceByKey ctx key vars)
            | Some (StartByLatestProcessId id) => on_engine p (eng_CreateInstanceById ctx id vars)
            | None => mret (None, None)
            end;
        match r with
        | (None, Some e) => mret (inr (found_or_technical
            (λ e, errw! "process definition %d not found: %w" [e])
            (λ e, errw! "failed to create process instance: %w" [e]) e))
        | (None, None) => panic "nil pointer dereference"
        | (Some i, _) => mret (marshal_created i i.(pi_BusinessKey))
        end
    end).

(** Here the error is answered, the instance dropped. *)
Definition server_StartProcessInstanceOnElements (Intn : nat → nat) (key : Z) (elements : list string)
    (variables : string) : ST (Server E) (Response ProtoProcessInstance) :=
  with_random_engine Intn (λ p,
    match json_Unmarshal variables with
    | Bad e => mret (inr (technical (errw! "failed to unmarshal process variables: %w" [e])))
    | Good vars =>
        r ← on_engine p (eng_CreateInstanceWithStartingElements key elements vars);
        match r with
        | (_, Some e) => mret (inr (found_or_technical
            (λ e, errw! "process definition %d not found: %w" [e])
            (λ e, errw! "failed to create process instance on elements from process definition %d: %w" [e]) e))
        | (None, None) => panic "nil pointer dereference"
        | (Some i, None) => mret (marshal_created i None)
        end
    end).

(** The document is parsed once, by the first engine; every engine of the node
    saves it. *)
Fixpoint save_resource_on (partitions : list Z) (definition : DmnTDefinitions) (data : string) (key : Z)
    : ST (Server E) (Response unit) :=
  match partitions with
  | [] => mret (inl tt)
  | p :: partitions' =>
      r ← attempt (on_engine p (eng_SaveDmnResourceDefinition definition data key));
      match r with
      | Bad e => mret (inr (technical (errw! "failed to deploy dmn resource definition: %w" [e])))
      | Good _ => save_resource_on partitions' definition data key
      end
  end.

Definition server_DeployDmnResourceDefinition (ParseDmnFromBytes : string → result DmnTDefinitions)
    (data : string) (key : Z) : ST (Server E) (Response unit) :=
  es ← get;
  match (iter E es).*1 with
  | [] => mret (inr (technical (err! "no engines available: %w")))
  | partitions =>
      match ParseDmnFromBytes data with
      | Bad e => mret (inr (technical (errw! "failed to parse request data: %w" [e])))
      | Good definition => save_resource_on partitions definition data key
      end
  end.

(** ** The node *)

Abbreviation Create_ST := (ST (ZenNode (E := E))).

(** A client of the least stressed node that leads a partition. *)
Definition least_stressed_client (no_node no_client : error → error) : Create_ST Z :=
  z ← get;
  candidateNode ← wrap_result no_node (GetLeastStressedPartitionLeader iter_nodes (ClusterState z.(zn_store)));
  wrap no_client (with_client (For candidateNode.(n_Addr))).

(** The configured time to live holds for requests without one; 0 is none. *)
Definition instance_ttl (InstanceHistoryTTL : Z) (timeToLive : option Z) : option Z :=
  match timeToLive with
  | Some ttl => Some ttl
  | None => if (InstanceHistoryTTL =? 0)%Z then None else Some InstanceHistoryTTL
  end.

Definition node_CreateInstance (Intn : nat → nat) (InstanceHistoryTTL : Z) (processDefinitionKey : option Z)
    (bpmnProcessId businessKey : option string) (variables : vars) (timeToLive : option Z)
    : Create_ST ProtoProcessInstance :=
  client ← least_stressed_client
    (λ e, ClusterError (errw! "failed to get node to create process instance: %w" [e]))
    (λ e, TechnicalError (errw! "failed to get client to create process instance: %w" [e]));
  vars ← wrap_result (λ e, BadRequest (errw! "failed to marshal variables to create process instance: %w" [e]))
    (json_Marshal variables);
  let create start := expect (λ e, errw! "failed to create process instance %w" [e])
    (err! "failed to create process instance")
    (call client (server_CreateInstance Intn
       {| cir_StartBy := Some start; cir_Variables := vars;
          cir_HistoryTTL := instance_ttl InstanceHistoryTTL timeToLive; cir_BusinessKey := businessKey |})) in
  match processDefinitionKey, bpmnProcessId with
  | Some key, _ => create (StartByDefinitionKey key)
  | None, Some id => create (StartByLatestProcessId id)
  | None, None => throw (TechnicalError
      (err! "failed to create process instance: processDefinitionKey and bpmnProcessId are both null"))
  end.

Definition node_StartProcessInstanceOnElements (Intn : nat → nat) (key : Z) (elements : list string)
    (variables : vars) : Create_ST ProtoProcessInstance :=
  client ← least_stressed_client
    (λ e, ClusterError (errw! "failed to get node to start process instance on elements: %w" [e]))
    (λ e, TechnicalError (errw! "failed to get client to start process instance on elements: %w" [e]));
  vars ← wrap_result (λ e, BadRequest (errw! "failed to marshal variables to start process instance on elements: %w" [e]))
    (json_Marshal variables);
  expect (λ e, errw! "failed to start process instance on elements: %w" [e])
    (err! "failed to start process instance on elements")
    (call client (server_StartProcessInstanceOnElements Intn key elements vars)).

(** *** DMN resources to all partitions *)

(** A database without the checksum answers ErrNoRows, which is the key 0. *)
Definition getDmnResourceDefinitionKeyByBytes (db : result (list Z → result Z)) (md5sum : list Z) : result Z :=
  match db with
  | Bad e => Bad (errw! "failed to get database for dmn resource definition key lookup: %w" [e])
  | Good query =>
      match query md5sum with
      | Good key => Good key
      | Bad e => if errors_Is is_ErrNoRows e then Good 0%Z
                 else Bad (errw! "failed to find dmn resource definition by checksum: %w" [e])
      end
  end.

Definition deployDmnResourceDefinitionToPartition (Parse : string → result DmnTDefinitions) (c : Cluster)
    (leaderId : string) (key : Z) (data : string) : Create_ST unit :=
  let partitionLeader := default zero_node (c.(c_Nodes) !! leaderId) in
  client ← wrap (λ e, TechnicalError (errw! "failed to get client: %w" [e]))
    (with_client (For partitionLeader.(n_Addr)));
  expect (λ e, errw! "client call to deploy dmn resource definition failed: %w" [e])
    (err! "client call to deploy dmn resource definition failed: %w")
    (call client (server_DeployDmnResourceDefinition Parse data key)).

(** One goroutine per partition, as for process definitions. *)
Definition deploy_dmn_step (Parse : string → result DmnTDefinitions) (c : Cluster) (cancelled : Z → bool)
    (key : Z) (data : string) (first : option error) (partitionId : Z) : Create_ST (option error) :=
  match first, cancelled partitionId with
  | Some _, true => mret first
  | _, _ =>
      let leaderId := default "" (p_LeaderId <$> c.(c_Partitions) !! partitionId) in
      r ← attempt (deployDmnResourceDefinitionToPartition Parse c leaderId key data);
      mret (match first, r with None, Bad e => Some e | _, _ => first end)
  end.

Definition DeployDmnResourceDefinitionToAllPartitions (Parse : string → result DmnTDefinitions)
    (db : result (list Z → result Z)) (definitionKey : Z) (order : list Z) (cancelled : Z → bool)
    (data : string) (md5sum : list Z) : Create_ST Z :=
  match getDmnResourceDefinitionKeyByBytes db md5sum with
  | Bad e => throw (TechnicalError (errw! "failed to get dmn resource definition key by bytes: %w" [e]))
  | Good key =>
      if negb (key =? 0)%Z then throw (Conflict (err! "duplicate dmn resource definition %d exists"))
      else
        z ← get;
        waitErr ← for_fold order None (deploy_dmn_step Parse (ClusterState z.(zn_store)) cancelled definitionKey data);
        match waitErr with Some e => throw e | None => mret definitionKey end
  end.

(** ** The REST server *)

Record CreatedInstance := {
  cri_CreatedAt : Z; cri_Key : Z; cri_ProcessDefinitionKey : Z; cri_State : string; cri_Variables : vars
}.

Definition rest_created {T} (state : ActivityState → ST T string) (i : ProtoProcessInstance)
    : ST T (RestResponse CreatedInstance) :=
  match json_Unmarshal i.(ppi_Variables) with
  | Bad _ => mret (RestStatus 500)
  | Good vars =>
      s ← state (ActivityState_of i.(ppi_State));
      mret (RestOk {| cri_CreatedAt := i.(ppi_CreatedAt); cri_Key := i.(ppi_Key);
        cri_ProcessDefinitionKey := i.(ppi_DefinitionKey); cri_State := s; cri_Variables := vars |})
  end.

Definition rest_CreateProcessInstance (Intn : nat → nat) (InstanceHistoryTTL : Z)
    (processDefinitionKey : option Z) (bpmnProcessId businessKey : option string) (variables : option vars)
    (historyTimeToLive : option string) : Create_ST (RestResponse CreatedInstance) :=
  match ParseTTL <$> historyTimeToLive with
  | Some (Bad _) => mret (RestStatus 400)
  | parsed =>
      let ttl := match parsed with Some (Good ttl) => Some ttl | _ => None end in
      match processDefinitionKey, bpmnProcessId with
      | None, None => mret (RestStatus 400)
      | _, _ =>
          rest_read [(ClusterErrorCode, 502); (NotFoundCode, 404)]%Z
            (node_CreateInstance Intn InstanceHistoryTTL processDefinitionKey bpmnProcessId businessKey
               (default ∅ variables) ttl)
            (rest_created getRestProcessInstanceState)
      end
  end.

(** [ActivityState_String] is the generated String method. *)
Definition rest_StartProcessInstanceOnElements (Intn : nat → nat) (ActivityState_String : ActivityState → string)
    (key : Z) (elements : list string) (variables : option vars) : Create_ST (RestResponse CreatedInstance) :=
  rest_read [(ClusterErrorCode, 502); (BadRequestCode, 400); (NotFoundCode, 404)]%Z
    (node_StartProcessInstanceOnElements Intn key elements (default ∅ variables))
    (rest_created (λ s, mret (ActivityState_String s))).

Definition rest_CreateDmnResourceDefinition (Parse : string → result DmnTDefinitions)
    (db : result (list Z → result Z)) (definitionKey : Z) (order : list Z) (cancelled : Z → bool)
    (data : string) (md5sum : list Z) : Create_ST Z :=
  rest_respond 201 (status_of [(ClusterErrorCode, 502); (ConflictCode, 409)]%Z)
    (DeployDmnResourceDefinitionToAllPartitions Parse db definitionKey order cancelled data md5sum).

(** Up to reading the file out of the form. *)
Definition rest_CreateProcessDefinition `{EngineApi E} (db : result (list Z → result Z)) (definitionKey : Z)
    (order : list Z) (cancelled : Z → bool) (data : string) (md5sum : list Z) : Create_ST Z :=
  rest_respond 201 (status_of [(ClusterErrorCode, 500); (ConflictCode, 409)]%Z)
    (DeployProcessDefinitionToAllPartitions iter db definitionKey order cancelled data md5sum).
End create.
