(* ===== verification/Decisions.v ===== *)
(** Evaluating a decision on the cluster, and reading a decision instance: the
    handler of the cluster server encodes the parts of the result as JSON
    (internal/cluster/server/server.go), the REST handlers decode them again
    (internal/rest/server.go).

    [json_value] is json.Marshal and json.Unmarshal for a value of any type. *)
From S2P Require Import Prelude ZenErr Monad Runtime DmnModel Sql ClusterState ClusterStore Zenflake.
From S2P Require Import JobClient Messages Commands Pages PartitionDB Reads RestReads Create.

#[local] Open Scope string_scope.
#[local] Open Scope list_scope.

(** ** Messages *)

Record ProtoEvaluatedOutput := { peo_OutputId : string; peo_OutputName : string; peo_OutputValue : string }.
Record ProtoEvaluatedRule := {
  per_RuleId : string; per_RuleIndex : Z; per_EvaluatedOutputs : list ProtoEvaluatedOutput
}.
Record ProtoEvaluatedInput := {
  pei_InputId : string; pei_InputName : string; pei_InputExpression : string; pei_InputValue : string
}.
Record ProtoEvaluatedDecision := {
  ped_DecisionId : string; ped_DecisionName : string; ped_DecisionType : EvaluatedDecisionType;
  ped_DmnResourceDefinitionVersion : Z; ped_DmnResourceDefinitionKey : Z;
  ped_DmnResourceDefinitionId : string; ped_MatchedRules : list ProtoEvaluatedRule;
  ped_DecisionOutput : string; ped_EvaluatedInputs : list ProtoEvaluatedInput
}.
Record ProtoDRDResult := {
  pdr_EvaluatedDecisions : list ProtoEvaluatedDecision; pdr_DecisionOutput : string;
  pdr_DecisionInstanceKey : Z
}.

Record RestEvaluatedOutput := { reo_OutputId : string; reo_OutputName : string; reo_OutputValue : vars }.
Record RestEvaluatedRule := {
  rer_RuleId : string; rer_RuleIndex : Z; rer_EvaluatedOutputs : list RestEvaluatedOutput
}.
Record RestEvaluatedInput := {
  rei_InputId : string; rei_InputName : string; rei_InputExpression : string; rei_InputValue : value
}.
Record RestEvaluatedDecision := {
  red_DecisionId : string; red_DecisionName : string; red_DecisionType : EvaluatedDecisionType;
  red_DecisionDefinitionVersion : Z; red_DmnResourceDefinitionKey : Z;
  red_DmnResourceDefinitionId : string; red_MatchedRules : list RestEvaluatedRule;
  red_DecisionOutput : vars; red_EvaluatedInputs : list RestEvaluatedInput
}.
Record RestDRDResult := {
  rdr_DecisionInstanceKey : Z; rdr_DecisionOutput : value; rdr_EvaluatedDecisions : list RestEvaluatedDecision
}.

Section decisions.
Context {E : Type} `{CreationApi E} `{Dial}.
Context (json_Marshal : vars → result string) (json_Unmarshal : string → result vars).
Context (json_value_Marshal : value → result string) (json_value_Unmarshal : string → result value).
Context (iter : ∀ (A : Type), gmap Z A → list (Z * A)) (iter_nodes : ∀ (A : Type), gmap string A → list (string * A)).

(** ** The cluster server: encoding *)

(** Each output under its JSON name. *)
Definition proto_output (o : EvaluatedOutput) : result ProtoEvaluatedOutput :=
  match json_Marshal {[o.(eo_OutputJsonName) := o.(OutputValue)]} with
  | Bad e => Bad (errw! "failed to marshal evaluatedOutput.OutputValue: %w" [e])
  | Good text => Good {| peo_OutputId := o.(eo_OutputId); peo_OutputName := o.(eo_OutputName);
                         peo_OutputValue := text |}
  end.

Definition proto_rule (r : EvaluatedRule) : result ProtoEvaluatedRule :=
  match result_map proto_output r.(EvaluatedOutputs) with
  | Bad e => Bad e
  | Good outputs => Good {| per_RuleId := r.(RuleId); per_RuleIndex := wrap32 r.(RuleIndex);
                            per_EvaluatedOutputs := outputs |}
  end.

Definition proto_input (i : EvaluatedInput) : result ProtoEvaluatedInput :=
  match json_value_Marshal i.(InputValue) with
  | Bad e => Bad (errw! "failed to marshal evaluated input %s : %w" [e])
  | Good text => Good {| pei_InputId := i.(ei_InputId); pei_InputName := i.(ei_InputName);
                         pei_InputExpression := i.(ei_InputExpression); pei_InputValue := text |}
  end.

Definition proto_decision (d : EvaluatedDecisionResult) : result ProtoEvaluatedDecision :=
  match result_map proto_rule d.(edr_MatchedRules) with
  | Bad e => Bad e
  | Good rules =>
      match json_Marshal d.(edr_DecisionOutput) with
      | Bad e => Bad (errw! "failed to marshal decision output: %w" [e])
      | Good output =>
          match result_map proto_input d.(edr_EvaluatedInputs) with
          | Bad e => Bad e
          | Good inputs =>
              Good {| ped_DecisionId := d.(edr_DecisionId); ped_DecisionName := d.(edr_DecisionName);
                      ped_DecisionType := d.(edr_DecisionType);
                      ped_DmnResourceDefinitionVersion := d.(edr_DecisionDefinitionVersion);
                      ped_DmnResourceDefinitionKey := d.(edr_DecisionDefinitionKey);
                      ped_DmnResourceDefinitionId := d.(edr_DmnResourceDefinitionId);
                      ped_MatchedRules := rules; ped_DecisionOutput := output;
                      ped_EvaluatedInputs := inputs |}
          end
      end
  end.

Definition proto_drd_result (r : EvaluatedDRDResult) : result ProtoDRDResult :=
  match json_value_Marshal r.(DecisionOutput) with
  | Bad e => Bad (errw! "failed to marshal evaluated decision output: %w" [e])
  | Good output =>
      match result_map proto_decision r.(EvaluatedDecisions) with
      | Bad e => Bad e
      | Good decisions =>
          Good {| pdr_EvaluatedDecisions := decisions; pdr_DecisionOutput := output;
                  pdr_DecisionInstanceKey := r.(DecisionInstanceKey) |}
      end
  end.

(** [is_DecisionNotFound]: errors.As with a DecisionNotFoundError.  An error of
    the encoding is returned: the caller gets no response. *)
Definition server_EvaluateDecision (is_DecisionNotFound : error → bool) (Intn : nat → nat)
    (bindingType decisionId versionTag variables : string) : ST (Server E) (Response ProtoDRDResult) :=
  with_random_engine iter Intn (λ p,
    match json_Unmarshal variables with
    | Bad e => mret (inr (technical (errw! "failed to unmarshal decision variables: %w" [e])))
    | Good vars =>
        r ← attempt (on_engine p (eng_FindAndEvaluateDRD bindingType decisionId versionTag vars));
        match r with
        | Bad e => mret (inr (if is_DecisionNotFound e || isErrNotFound e
            then ToProtoError NotFoundCode (errw! "decision definition %s not found: %w" [e])
            else technical (errw! "failed to evaluate decision: %w" [e])))
        | Good result => of_result (match proto_drd_result result with Good a => Good (inl a) | Bad e => Bad e end)
        end
    end).

(** ** The node: an error of the call is one of the cluster *)

Definition node_EvaluateDecision (is_DecisionNotFound : error → bool) (Intn : nat → nat)
    (bindingType decisionId versionTag : string) (variables : vars) : ST (ZenNode (E := E)) ProtoDRDResult :=
  client ← least_stressed_client iter_nodes
    (λ e, ClusterError (errw! "failed to get node to evaluate decision: %w" [e]))
    (λ e, ClusterError (errw! "failed to get client to evaluate decision: %w" [e]));
  vars ← wrap_result (λ e, TechnicalError (errw! "failed to marshal variables to evaluate decision: %w" [e]))
    (json_Marshal variables);
  resp ← wrap (λ e, ClusterError (errw! "failed to evaluate decision %s: %w" [e]))
    (call client (server_EvaluateDecision is_DecisionNotFound Intn bindingType decisionId versionTag vars));
  match resp with
  | inl a => mret a
  | inr e => throw (ToZenError e (err! "failed to evaluate decision %s"))
  end.

(** ** The REST server: decoding *)

Definition rest_output (o : ProtoEvaluatedOutput) : result RestEvaluatedOutput :=
  match json_Unmarshal o.(peo_OutputValue) with
  | Bad e => Bad e
  | Good v => Good {| reo_OutputId := o.(peo_OutputId); reo_OutputName := o.(peo_OutputName); reo_OutputValue := v |}
  end.

Definition rest_rule (r : ProtoEvaluatedRule) : result RestEvaluatedRule :=
  match result_map rest_output r.(per_EvaluatedOutputs) with
  | Bad e => Bad e
  | Good outputs => Good {| rer_RuleId := r.(per_RuleId); rer_RuleIndex := r.(per_RuleIndex);
                            rer_EvaluatedOutputs := outputs |}
  end.

Definition rest_input (i : ProtoEvaluatedInput) : result RestEvaluatedInput :=
  match json_value_Unmarshal i.(pei_InputValue) with
  | Bad e => Bad e
  | Good v => Good {| rei_InputId := i.(pei_InputId); rei_InputName := i.(pei_InputName);
                      rei_InputExpression := i.(pei_InputExpression); rei_InputValue := v |}
  end.

(** The output of a decision is decoded from the output of the whole result. *)
Definition rest_decision (decisionOutput : string) (d : ProtoEvaluatedDecision) : result RestEvaluatedDecision :=
  match result_map rest_rule d.(ped_MatchedRules) with
  | Bad e => Bad e
  | Good rules =>
      match json_Unmarshal decisionOutput with
      | Bad e => Bad e
      | Good output =>
          match result_map rest_input d.(ped_EvaluatedInputs) with
          | Bad e => Bad e
          | Good inputs =>
              Good {| red_DecisionId := d.(ped_DecisionId); red_DecisionName := d.(ped_DecisionName);
                      red_DecisionType := d.(ped_DecisionType);
                      red_DecisionDefinitionVersion := d.(ped_DmnResourceDefinitionVersion);
                      red_DmnResourceDefinitionKey := d.(ped_DmnResourceDefinitionKey);
                      red_DmnResourceDefinitionId := d.(ped_DmnResourceDefinitionId);
                      red_MatchedRules := rules; red_DecisionOutput := output; red_EvaluatedInputs := inputs |}
          end
      end
  end.

Definition rest_drd_result (r : ProtoDRDResult) : result RestDRDResult :=
  match json_value_Unmarshal r.(pdr_DecisionOutput) with
  | Bad e => Bad e
  | Good output =>
      match result_map (rest_decision r.(pdr_DecisionOutput)) r.(pdr_EvaluatedDecisions) with
      | Bad e => Bad e
      | Good decisions => Good {| rdr_DecisionInstanceKey := r.(pdr_DecisionInstanceKey);
                                  rdr_DecisionOutput := output; rdr_EvaluatedDecisions := decisions |}
      end
  end.

Definition rest_EvaluateDecision (is_DecisionNotFound : error → bool) (Intn : nat → nat)
    (bindingType decisionId : string) (dmnResourceDefinitionId versionTag : option string)
    (variables : option vars) : ST (ZenNode (E := E)) (RestResponse RestDRDResult) :=
  if (bindingType =? "deployment")%string then mret (RestStatus 400)
  else
    let decision := match dmnResourceDefinitionId with
                    | Some id => if (bindingType =? "latest")%string then id +:+ "." +:+ decisionId else decisionId
                    | None => decisionId
                    end in
    rest_read [(ClusterErrorCode, 502); (NotFoundCode, 404); (BadRequestCode, 400)]%Z
      (node_EvaluateDecision is_DecisionNotFound Intn bindingType decision (default "" versionTag)
         (default ∅ variables))
      (λ result, mret (match rest_drd_result result with Good r => RestOk r | Bad _ => RestStatus 500 end)).
End decisions.

(** ** A decision instance

    [Unmarshal_decisions] decodes the stored decisions; without them there are
    none.  The outputs of a decision are not part of this response. *)
Record RestDecisionSummary := {
  rds_DecisionId : string; rds_DecisionName : string; rds_DecisionType : EvaluatedDecisionType;
  rds_Inputs : list EvaluatedInput; rds_MatchedRules : list EvaluatedRule
}.

Definition getEvaluatedDecisionsResponse (decisions : list EvaluatedDecisionResult) : list RestDecisionSummary :=
  (λ d, {| rds_DecisionId := d.(edr_DecisionId); rds_DecisionName := d.(edr_DecisionName);
           rds_DecisionType := d.(edr_DecisionType); rds_Inputs := d.(edr_EvaluatedInputs);
           rds_MatchedRules := d.(edr_MatchedRules) |}) <$> decisions.

Definition rest_GetDecisionInstance `{Dial} (iter_nodes : ∀ (A : Type), gmap string A → list (string * A))
    (Unmarshal_decisions : string → result (list EvaluatedDecisionResult)) (key : Z)
    : ST (ZenNode (E := ReadPartition)) (RestResponse (ProtoDecisionInstance * list RestDecisionSummary)) :=
  rest_read [(ClusterErrorCode, 502); (NotFoundCode, 404)]%Z (node_GetDecisionInstance iter_nodes key) (λ instance,
    mret (match from_option Unmarshal_decisions (Good []) instance.(pdi_EvaluatedDecisions) with
          | Bad _ => RestStatus 500
          | Good decisions => RestOk (instance, getEvaluatedDecisionsResponse decisions)
          end)).
