(* ===== verification/CreateProps.v ===== *)
(** New instances and decisions on the cluster: an instance lives in the
    partition its key belongs to, on the one engine that created it; and the
    outputs of evaluated decisions over REST. *)
From S2P Require Import Prelude ZenErr Ttl Monad Runtime DmnModel Sql ClusterState ClusterStore ClusterProps Zenflake.
From S2P Require Import JobClient Messages Commands CommandProps Pages PartitionDB Reads RestReads Create Decisions.

#[local] Open Scope string_scope.
#[local] Open Scope list_scope.

(** What the engines promise: an engine that lives in a partition keeps living
    there, and the key of an instance it creates belongs to the partition. *)
Definition creates {E} (lives : Z → E → Prop) (p : Z) (m : ST E created) : Prop :=
  ∀ e r e', lives p e → m e = (Ret r, e') →
    lives p e' ∧ ∀ i, r.1 = Some i → GetPartitionId i.(pi_Key) = p.

Class CreationLaws (E : Type) `{CreationApi E} (lives : Z → E → Prop) := {
  created_by_key ctx key vars p : creates lives p (eng_CreateInstanceByKey ctx key vars);
  created_by_id ctx id vars p : creates lives p (eng_CreateInstanceById ctx id vars);
  created_on_elements key elements vars p : creates lives p (eng_CreateInstanceWithStartingElements key elements vars)
}.

(** ** Running to the end *)

Lemma rest_read_Ok {T A B} table (m : ST T A) (found : A → ST T (RestResponse B)) s b s' :
  rest_read table m found s = (Ret (RestOk b), s') →
  ∃ a s1, m s = (Ret a, s1) ∧ found a s1 = (Ret (RestOk b), s').
Proof.
  unfold rest_read, mbind, ST_bind, attempt. destruct (m s) as [[a|[]|msg| |] s1]; try done.
  intros Hf. by exists a, s1.
Qed.

Lemma expect_Ret {E} `{Dial} {A} failed refused (m : ST (ZenNode (E := E)) (Response A)) z a z' :
  expect failed refused m z = (Ret a, z') → m z = (Ret (inl a), z').
Proof.
  unfold expect, wrap, mbind, ST_bind, attempt. destruct (m z) as [[[x|x]|e|msg| |] z1]; try done.
  by intros [= <- <-].
Qed.

Lemma wrap_Ret_inv {S A} w (m : ST S A) s a s' : wrap w m s = (Ret a, s') → m s = (Ret a, s').
Proof.
  unfold wrap, mbind, ST_bind, attempt. destruct (m s) as [[]]; by inversion 1.
Qed.

Lemma wrap_result_Good {S A} w (r : result A) (s s' : S) a : wrap_result w r s = (Ret a, s') → r = Good a ∧ s' = s.
Proof. destruct r; by inversion 1. Qed.

Section created.
Context {E : Type} `{CreationApi E} `{Dial}.
Context (json_Marshal : vars → result string) (json_Unmarshal : string → result vars).
Context (iter : ∀ (A : Type), gmap Z A → list (Z * A)) (iter_perm : ∀ A (m : gmap Z A), iter A m ≡ₚ map_to_list m).
Context (iter_nodes : ∀ (A : Type), gmap string A → list (string * A)).
Context (lives : Z → E → Prop) `{!CreationLaws E lives}.

Definition create_op (start : StartBy) (ctx : CreateContext) (variables : vars) : ST E created :=
  match start with
  | StartByDefinitionKey key => eng_CreateInstanceByKey ctx key variables
  | StartByLatestProcessId id => eng_CreateInstanceById ctx id variables
  end.

Lemma create_op_creates start ctx variables p : creates lives p (create_op start ctx variables).
Proof. destruct start; [apply created_by_key|apply created_by_id]. Qed.

Lemma GetRandomEngine_Some Intn (es : Server E) p :
  GetRandomEngine iter Intn es = Some p → is_Some (es !! p).
Proof.
  unfold GetRandomEngine. destruct (iter E es) as [|x l] eqn:Ei; [done|].
  destruct (nth_error _ _) as [[q e]|] eqn:En; [|done]. intros [= <-]. exists e.
  apply nth_error_In, list_elem_of_In in En. rewrite <- Ei, iter_perm in En. by apply elem_of_map_to_list.
Qed.

(** A handler that answers has run on one engine of the node. *)
Lemma with_random_engine_inl {A} Intn (body : Z → ST (Server E) (Response A)) es a es' :
  with_random_engine iter Intn body es = (Ret (inl a), es') →
  ∃ p e, es !! p = Some e ∧ body p es = (Ret (inl a), es').
Proof.
  unfold with_random_engine. erewrite (bind_step get) by reflexivity.
  destruct (GetRandomEngine _ _ _) as [p|] eqn:Eg; [|done]. intros Eb.
  apply GetRandomEngine_Some in Eg as [e He]. by exists p, e.
Qed.

Lemma on_engine_Ret {A} p (m : ST E A) (es : Server E) e a es' :
  es !! p = Some e → on_engine p m es = (Ret a, es') → ∃ e', m e = (Ret a, e') ∧ es' = <[p := e']> es.
Proof.
  unfold on_engine. intros ->. destruct (m e) as [o e'] eqn:Em. intros [= -> <-]. by exists e'.
Qed.

Lemma server_create_inl Intn start variables ttl bk es i' es' :
  server_CreateInstance json_Marshal json_Unmarshal iter Intn
    {| cir_StartBy := Some start; cir_Variables := variables; cir_HistoryTTL := ttl; cir_BusinessKey := bk |} es =
    (Ret (inl i'), es') →
  ∃ vs p e i err e' text, json_Unmarshal variables = Good vs ∧ es !! p = Some e ∧
    create_op start {| crc_HistoryTTL := ttl; crc_BusinessKey := bk |} vs e = (Ret (Some i, err), e') ∧
    json_Marshal i.(pi_VariableHolder) = Good text ∧
    es' = <[p := e']> es ∧ i' = created_response i i.(pi_BusinessKey) text.
Proof.
  intros (p & e & He & Eb)%with_random_engine_inl. cbn [cir_Variables cir_StartBy] in Eb.
  destruct (json_Unmarshal variables) as [vs|]; [|done].
  apply bind_Ret in Eb as ([i err] & es1 & E1 & E2).
  assert (E1' : on_engine p (create_op start {| crc_HistoryTTL := ttl; crc_BusinessKey := bk |} vs) es =
                (Ret (i, err), es1)) by (by destruct start).
  apply (on_engine_Ret _ _ _ e) in E1' as (e' & Ec & ->); [|done].
  destruct i as [i|]; [|by destruct err]. unfold marshal_created in E2.
  destruct (json_Marshal _) as [text|] eqn:Et; [|done]. injection E2 as <- <-.
  by exists vs, p, e, i, err, e', text.
Qed.

Lemma least_stressed_client_Ret f1 f2 (z : ZenNode (E := E)) client z' :
  least_stressed_client iter_nodes f1 f2 z = (Ret client, z') →
  ∃ node cm, GetLeastStressedPartitionLeader iter_nodes (ClusterState z.(zn_store)) = Good node ∧
    For node.(n_Addr) z.(zn_client) = (Ret client, cm) ∧
    z' = {| zn_store := z.(zn_store); zn_client := cm; zn_servers := z.(zn_servers) |}.
Proof.
  unfold least_stressed_client. erewrite (bind_step get) by reflexivity.
  intros (node & z1 & [E1 ->]%wrap_result_Good & E2)%bind_Ret. apply wrap_Ret_inv in E2.
  unfold with_client, zoom in E2. destruct (For _ _) as [o cm] eqn:Ef. injection E2 as -> <-.
  by exists node, cm.
Qed.

Lemma call_Ret {A} client (m : ST (Server E) A) (z : ZenNode (E := E)) a z' :
  call client m z = (Ret a, z') → ∃ es es', z.(zn_servers) !! client = Some es ∧ m es = (Ret a, es') ∧
    z' = {| zn_store := z.(zn_store); zn_client := z.(zn_client); zn_servers := <[client := es']> z.(zn_servers) |}.
Proof.
  unfold call. destruct (zn_servers z !! client) as [es|]; [|done].
  destruct (m es) as [o es'] eqn:Em. intros [= -> <-]. by exists es, es'.
Qed.

Lemma node_create_Ret Intn default_ttl key id bk variables ttl z i' z' :
  node_CreateInstance json_Marshal json_Unmarshal iter iter_nodes Intn default_ttl key id bk variables ttl z =
    (Ret i', z') →
  ∃ start node client cm es sent text, start = match key, id with
      | Some k, _ => StartByDefinitionKey k | None, Some s => StartByLatestProcessId s
      | None, None => StartByDefinitionKey 0 end ∧
    GetLeastStressedPartitionLeader iter_nodes (ClusterState z.(zn_store)) = Good node ∧
    For node.(n_Addr) z.(zn_client) = (Ret client, cm) ∧ z.(zn_servers) !! client = Some es ∧
    json_Marshal variables = Good text ∧ json_Unmarshal text = Good sent ∧
    ∃ p e i err e' answer, es !! p = Some e ∧
      create_op start {| crc_HistoryTTL := instance_ttl default_ttl ttl; crc_BusinessKey := bk |} sent e =
        (Ret (Some i, err), e') ∧
      i' = created_response i i.(pi_BusinessKey) answer ∧
      z' = with_engine_state z cm client p es e'.
Proof.
  unfold node_CreateInstance. intros (client & z1 & E1 & E2)%bind_Ret.
  apply least_stressed_client_Ret in E1 as (node & cm & En & Ef & ->).
  apply bind_Ret in E2 as (text & z2 & [Et ->]%wrap_result_Good & E2).
  assert (Ec : ∃ start, start = match key, id with
      | Some k, _ => StartByDefinitionKey k | None, Some s => StartByLatestProcessId s
      | None, None => StartByDefinitionKey 0 end ∧
    expect (λ e, errw! "failed to create process instance %w" [e]) (err! "failed to create process instance")
      (call client (server_CreateInstance json_Marshal json_Unmarshal iter Intn
         {| cir_StartBy := Some start; cir_Variables := text;
            cir_HistoryTTL := instance_ttl default_ttl ttl; cir_BusinessKey := bk |}))
      {| zn_store := z.(zn_store); zn_client := cm; zn_servers := z.(zn_servers) |} = (Ret i', z')).
  { destruct key as [k|]; [by eexists|]. destruct id as [s|]; [by eexists|done]. }
  destruct Ec as (start & Estart & Ec%expect_Ret%call_Ret).
  destruct Ec as (es & es' & Hs & (vs & p & e & i & err & e' & answer & Hv & He & Eop & _ & -> & ->)%server_create_inl & ->).
  exists start, node, client, cm, es, vs, text. split_and!; try done.
  exists p, e, i, err, e', answer. split_and!; done.
Qed.

(** C21: a created instance lives in its partition: when a creation over REST is
    answered with 201, the engine of the partition that the answered key belongs
    to has created the instance, on the least stressed node that leads a
    partition, once and with the variables, the business key and the time to
    live of the request (or the configured one); no other engine of the cluster
    has changed.  So a command with that key is routed to the engine that holds
    the instance. *)
Theorem created_instance_lives_in_its_partition Intn default_ttl key id bk variables ttl z answer z' :
  (∀ client es, z.(zn_servers) !! client = Some es → map_Forall lives es) →
  rest_CreateProcessInstance json_Marshal json_Unmarshal iter iter_nodes Intn default_ttl key id bk variables ttl z =
    (Ret (RestOk answer), z') →
  let p := GetPartitionId answer.(cri_Key) in
  ∃ node client cm es e e' sent text i err,
    GetLeastStressedPartitionLeader iter_nodes (ClusterState z.(zn_store)) = Good node ∧
    For node.(n_Addr) z.(zn_client) = (Ret client, cm) ∧
    z.(zn_servers) !! client = Some es ∧ es !! p = Some e ∧ lives p e' ∧
    json_Marshal (default ∅ variables) = Good text ∧ json_Unmarshal text = Good sent ∧
    create_op match key, id with
              | Some k, _ => StartByDefinitionKey k | None, Some s => StartByLatestProcessId s
              | None, None => StartByDefinitionKey 0 end
      {| crc_HistoryTTL := instance_ttl default_ttl (ttl ≫= λ s, match ParseTTL s with Good t => Some t | Bad _ => None end);
         crc_BusinessKey := bk |} sent e = (Ret (Some i, err), e') ∧
    answer.(cri_Key) = i.(pi_Key) ∧ z' = with_engine_state z cm client p es e'.
Proof.
  intros Hlives Er p. unfold rest_CreateProcessInstance in Er.
  assert (Er' : rest_read [(ClusterErrorCode, 502); (NotFoundCode, 404)]%Z
    (node_CreateInstance json_Marshal json_Unmarshal iter iter_nodes Intn default_ttl key id bk (default ∅ variables)
       (ttl ≫= λ s, match ParseTTL s with Good t => Some t | Bad _ => None end))
    (rest_created json_Unmarshal getRestProcessInstanceState) z = (Ret (RestOk answer), z')).
  { destruct ttl as [s|]; cbn in Er |- *; [destruct (ParseTTL s)|];
      destruct key, id; cbn in Er; try done. }
  clear Er. apply rest_read_Ok in Er' as (i' & z1 & En & Ef).
  apply node_create_Ret in En as (start & node & client & cm & es & sent & text & -> & Hn & Hf & Hs & Ht & Hv &
    (q & e & i & err & e' & body & He & Eop & -> & ->)).
  assert (Hans : answer.(cri_Key) = i.(pi_Key) ∧ z' = with_engine_state z cm client q es e').
  { unfold rest_created in Ef. destruct (json_Unmarshal (ppi_Variables _)) as [vs|]; [|done].
    unfold mbind, ST_bind in Ef. destruct (getRestProcessInstanceState _ _) as [[st|?|?| |] ?] eqn:Eg; try done.
    injection Ef as <- <-. split; [done|].
    unfold getRestProcessInstanceState in Eg. destruct (ActivityState_of _); by inversion Eg. }
  destruct Hans as [Hk ->].
  destruct (create_op_creates _ _ _ q e _ e' (Hlives _ _ Hs _ _ He) Eop) as [Hl Hp].
  specialize (Hp i eq_refl). assert (Hq : p = q) by (unfold p; by rewrite Hk).
  rewrite Hq. by exists node, client, cm, es, e, e', sent, text, i, err.
Qed.
End created.

(** ** Evaluated decisions over REST *)

Section decisions.
Context (json_Unmarshal : string → result vars) (json_value_Unmarshal : string → result value).

Lemma result_map_Good {A B} (f : A → result B) l ys :
  result_map f l = Good ys → Forall2 (λ x y, f x = Good y) l ys.
Proof.
  revert ys. induction l as [|x l IH]; intros ys; cbn; [by intros [= <-]|].
  destruct (f x) as [y|] eqn:Ef; [|done]. destruct (result_map f l) as [ys'|]; [|done].
  intros [= <-]. constructor; [done|by apply IH].
Qed.

Lemma rest_decision_output output d d' :
  rest_decision json_Unmarshal json_value_Unmarshal output d = Good d' → json_Unmarshal output = Good d'.(red_DecisionOutput).
Proof.
  unfold rest_decision. destruct (result_map _ _); [|done]. destruct (json_Unmarshal output); [|done].
  destruct (result_map _ _); [|done]. by intros [= <-].
Qed.

(** The outputs of evaluated decisions over REST: every decision of an
    answer carries the output of the whole evaluation, whatever its own output
    was; and an evaluation of at least one decision whose output is no JSON
    object, such as a number or a text, is answered with an internal error
    although the engine evaluated it. *)
Theorem evaluated_decisions_share_their_output {E} `{CreationApi E} `{Dial} json_Marshal json_value_Marshal
    iter iter_nodes is_DecisionNotFound Intn bindingType decisionId resource versionTag variables z result z' :
  (bindingType =? "deployment")%string = false →
  node_EvaluateDecision json_Marshal json_Unmarshal json_value_Marshal iter iter_nodes is_DecisionNotFound Intn
    bindingType
    (match resource with
     | Some id => if (bindingType =? "latest")%string then id +:+ "." +:+ decisionId else decisionId
     | None => decisionId end) (default "" versionTag) (default ∅ variables) z = (Ret result, z') →
  let answer := rest_EvaluateDecision json_Marshal json_Unmarshal json_value_Marshal json_value_Unmarshal iter iter_nodes
    is_DecisionNotFound Intn bindingType decisionId resource versionTag variables z in
  answer.2 = z' ∧
  (∀ r, answer.1 = Ret (RestOk r) →
     Forall (λ d, json_Unmarshal result.(pdr_DecisionOutput) = Good d.(red_DecisionOutput)) r.(rdr_EvaluatedDecisions)) ∧
  (result.(pdr_EvaluatedDecisions) ≠ [] → is_Good (json_Unmarshal result.(pdr_DecisionOutput)) = false →
     answer.1 = Ret (RestStatus 500)).
Proof.
  intros Hb En answer. unfold answer, rest_EvaluateDecision. rewrite Hb. unfold rest_read, mbind, ST_bind, attempt.
  rewrite En. cbn [fst snd mret ST_ret]. split_and!; [done| |].
  - intros r. unfold rest_drd_result. destruct (json_value_Unmarshal _) as [output|]; [|by inversion 1].
    destruct (result_map _ _) as [ds|] eqn:Em; [|by inversion 1]. intros [= <-]. cbn.
    apply result_map_Good in Em. clear Hb En. induction Em as [|d d' l l' Hd _ IH]; constructor; [|done].
    by eapply rest_decision_output.
  - intros Hne Hbad. unfold rest_drd_result. destruct (json_value_Unmarshal _) as [output|]; [|done].
    destruct (result_map _ _) as [ds|] eqn:Em; [|done]. exfalso. apply result_map_Good in Em.
    destruct Em as [|d d' l l' Hd _]; [done|]. apply rest_decision_output in Hd. by rewrite Hd in Hbad.
Qed.
End decisions.
