(* ===== verification/EngineCreate.v ===== *)
(** The engines of this development behind the interface [CreationApi]: each
    partition runs its engine with its own key generator, and a new instance
    gets a key of the partition, so the engines keep the laws that the cluster
    relies on.

    The storage of this development knows nothing of the time to live and the
    business key in the context. *)
From S2P Require Import Prelude ZenErr Monad Model Runtime DmnModel Storage InMemory Locks TimerManager World.
From S2P Require Import Dmn Instances Tasks Events Gateways SubProcess Engine Api Frames System Runs Example Identity.
From S2P Require Import ClusterState ClusterStore ClusterProps Zenflake JobClient Messages Commands EngineCommands.
From S2P Require Import CommandProps Pages PartitionDB Reads RestReads Create Decisions CreateProps DmnProps.

#[local] Open Scope string_scope.
#[local] Open Scope list_scope.

Section engine.
Context {S : Type} `{Storage S} `{DecisionStorage S} `{Env}.

(** An instance whose run failed is returned with the error. *)
Definition create_and_run (fuel : nat) (create : BM S (loc * list ExecutionToken)) : EM S created :=
  r ← attempt (with_batch NewEngineBatchClean (
    r ← create;
    wrap (λ e, errw! "failed to start process instance: %w" [e]) StorageBatch_Flush ;;
    mret r));
  match r with
  | Bad e => mret (None, Some e)
  | Good (p, tokens) =>
      ran ← attempt (wrap (λ e, errw! "failed to run process instance %d: %w" [e])
                       (RunProcessInstance fuel p tokens));
      i ← load_instance p;
      mret (Some i, match ran with Good _ => None | Bad e => Some e end)
  end.

Definition created_from (find : S → result ProcessDefinition) (missing failed : error → error) (fuel : nat)
    (variables : vars) : EM S created :=
  r ← attempt (query find);
  match r with
  | Bad e => mret (None, Some (missing e))
  | Good process =>
      c ← create_and_run fuel (create_default process variables);
      mret (c.1, failed <$> c.2)
  end.

Definition answer_by_id (fuel : nat) (processId : string) : vars → EM S created :=
  created_from (λ s, FindLatestProcessDefinitionById s processId)
    (errors_Join (err! "no process definition with id=%s was found (prior loaded into the engine)"))
    (errors_Join (err! "failed to create process instance: %s")) fuel.

Definition answer_by_key (fuel : nat) (definitionKey : Z) : vars → EM S created :=
  created_from (λ s, FindProcessDefinitionByKey s definitionKey)
    (errors_Join (err! "no process definition with key %d was found (prior loaded into the engine)"))
    (errors_Join (err! "failed to create process instance with definition key: %d")) fuel.

Definition answer_on_elements (fuel : nat) (definitionKey : Z) (ids : list string) (variables : vars)
    : EM S created :=
  r ← attempt (query (λ s, FindProcessDefinitionByKey s definitionKey));
  match r with
  | Bad e => mret (None, Some (errors_Join
      (err! "no process definition with key %d was found (prior loaded into the engine)") e))
  | Good process =>
      match starting_nodes process ids with
      | Bad e => mret (None, Some e)
      | Good nodes => create_and_run fuel (create_on_elements process nodes variables)
      end
  end.

(** *** The keys of new instances *)

(** A creation of a batch: the instance it returns has a generated key. *)
Definition generates (m : BM S (loc * list ExecutionToken)) : Prop :=
  pres (batch_rel id_rel) m ∧
  ∀ x r y, x.1.(preFlushActions) = [] → heap_wf x.2.(w_heap) → m x = (Ret r, y) →
    ∃ i n, y.2.(w_heap).(h_objects) !! r.1 = Some i ∧ i.(pi_Key) = GenerateId n.

Context `{!HeapLaws S}.
#[local] Existing Instance id_preorder.

Lemma fresh_instance_Ret kind process v (w : World S) p w' :
  fresh_instance kind process v w = (Ret p, w') →
  ∃ i n, w'.(w_heap).(h_objects) !! p = Some i ∧ i.(pi_Key) = GenerateId n.
Proof.
  intros E. unfold fresh_instance in E. run.
  match goal with E : new_instance _ _ = _ |- _ => unfold new_instance in E; simpl in E; injection E as <- <- end.
  eexists _, _. split; [apply lookup_insert_eq|done].
Qed.

Lemma id_keeps {A} (m : BM S A) x a y p i :
  pres (batch_rel id_rel) m → x.1.(preFlushActions) = [] → heap_wf x.2.(w_heap) → m x = (Ret a, y) →
  x.2.(w_heap).(h_objects) !! p = Some i →
  ∃ i', y.2.(w_heap).(h_objects) !! p = Some i' ∧ i'.(pi_Key) = i.(pi_Key).
Proof.
  intros Hm Hb Hw E Hi. specialize (Hm x). rewrite E in Hm. destruct (Hm Hb) as [Hr _].
  destruct (Hr Hw) as [_ Hk]. destruct (Hk p i Hi) as (i' & Hi' & Hs & _). by exists i'.
Qed.

(** What both ways to create an instance do. *)
Lemma starting_key kind process v ids x r y :
  x.1.(preFlushActions) = [] → heap_wf x.2.(w_heap) →
  (instance ← lift (fresh_instance kind process v);
   i ← lift (load_instance instance);
   wrap (λ e, errw! "failed to save changes to process instance %d: %w" [e]) (SaveProcessInstance instance) ;;
   tokens ← starting_tokens i.(pi_Key) ids;
   mret (instance, tokens)) x = (Ret r, y) →
  ∃ i n, y.2.(w_heap).(h_objects) !! r.1 = Some i ∧ i.(pi_Key) = GenerateId n.
Proof.
  intros Hb Hw E.
  apply bind_Ret in E as (p & x1 & [E1 Hb1]%lift_Ret & E).
  apply bind_Ret in E as (i & x2 & [[Hi Hw2]%load_instance_Ret Hb2]%lift_Ret & E).
  apply bind_Ret in E as (u & x3 & (i3 & Hi3 & ->)%wrap_Ret%SaveProcessInstance_Ret & E).
  apply bind_Ret in E as (tokens & x4 & E4 & [<- <-]%mret_Ret).
  pose proof (fresh_instance_Ret _ _ _ _ _ _ E1) as (i0 & n & H0' & Hk).
  assert (Hw1 : heap_wf x1.2.(w_heap)).
  { assert (Hp : pres (on_world (batch_rel id_rel)) (fresh_instance (S := S) kind process v))
      by (apply pres_fresh_instance; apply _).
    specialize (Hp x.2). rewrite E1 in Hp.
    destruct (Hp (empty_batch []) eq_refl) as [Hr _]. by apply (Hr Hw). }
  eapply (id_keeps (starting_tokens i.(pi_Key) ids)) in E4 as (i' & Hi' & Hk').
  - exists i', n. split; [exact Hi'|]. rewrite Hk'. exact Hk.
  - apply pres_starting_tokens. apply _.
  - simpl. by rewrite Hb2, Hb1, Hb.
  - simpl. by rewrite Hw2.
  - simpl. by rewrite Hw2.
Qed.

Lemma default_generates process v : generates (create_default process v).
Proof.
  split; [apply pres_create_default; apply _|]. intros x r y Hb Hw E. unfold create_default in E.
  apply bind_Ret in E as ([r'|e] & x1 & E1 & E).
  - apply mret_Ret in E as [-> ->]. apply attempt_Ret_Good in E1. by eapply starting_key.
  - by apply bind_Ret in E as (?&?&_&E).
Qed.

Lemma on_elements_generates process nodes v : generates (create_on_elements process nodes v).
Proof.
  split; [apply pres_create_on_elements; apply _|]. intros x r y Hb Hw E.
  apply wrap_Ret in E. by eapply starting_key.
Qed.

(** *** What an operation answers *)

Definition answers_own_key (m : EM S created) : Prop :=
  ∀ w r w', heap_wf w.(w_heap) → m w = (Ret r, w') →
    heap_wf w'.(w_heap) ∧ ∀ i, r.1 = Some i → ∃ n, i.(pi_Key) = GenerateId n.

Lemma create_and_run_own fuel m : generates m → answers_own_key (create_and_run fuel m).
Proof.
  intros [Hm Hk] w r w' Hw E. unfold create_and_run in E.
  set (body := r ← m; wrap _ StorageBatch_Flush ;; mret r) in E.
  assert (Hbody : pres (batch_rel id_rel) body).
  { unfold body. repeat frame_step; [done|apply pres_StorageBatch_Flush; apply _]. }
  apply bind_Ret in E as (r1 & w1 & E1 & E).
  assert (Hw1 : heap_wf w1.(w_heap)).
  { assert (Hp : pres id_rel (attempt (with_batch NewEngineBatchClean body)))
      by (apply pres_attempt, pres_with_batch; done).
    specialize (Hp w). rewrite E1 in Hp. by apply (Hp Hw). }
  destruct r1 as [[p tokens]|e]; [|by apply mret_Ret in E as [<- <-]].
  apply attempt_Ret_Good, with_batch_Ret in E1 as [b1 E1].
  apply bind_Ret in E as (ran & w2 & E2 & E).
  apply bind_Ret in E as (i & w3 & [Hi ->]%load_instance_Ret & [<- <-]%mret_Ret).
  assert (Hp : pres id_rel (attempt (wrap (λ e, errw! "failed to run process instance %d: %w" [e])
      (RunProcessInstance fuel p tokens)))) by (apply pres_attempt, pres_wrap, pres_RunProcessInstance; apply _).
  specialize (Hp w1). rewrite E2 in Hp. destruct (Hp Hw1) as [Hw2 Hext]. split; [done|].
  intros i' [= <-].
  (* the instance after the creation and the flush *)
  apply bind_Ret in E1 as (r & x1 & Em & E1).
  apply bind_Ret in E1 as (u & x2 & Ef & [-> ->]%mret_Ret).
  assert (Hx1 : batch_rel id_rel (NewEngineBatchClean, w) x1) by (specialize (Hm (NewEngineBatchClean, w)); by rewrite Em in Hm).
  destruct (Hx1 eq_refl) as [Hr1 Hb1]. destruct (Hr1 Hw) as [Hwx1 _].
  destruct (Hk (NewEngineBatchClean, w) _ _ eq_refl Hw Em) as (i0 & n & H0' & Hkey).
  eapply (id_keeps (wrap _ StorageBatch_Flush)) in Ef as (i1 & Hi1 & Hkey1);
    [|apply pres_wrap, pres_StorageBatch_Flush; apply _|exact Hb1|exact Hwx1|exact H0'].
  destruct (Hext p i1 Hi1) as (i2 & Hi2 & Hkey2 & _). exists n. congruence.
Qed.

Lemma created_from_own find missing failed fuel v :
  answers_own_key (created_from find missing failed fuel v).
Proof.
  intros w r w' Hw E. unfold created_from in E. apply bind_Ret in E as (d & w1 & E1 & E).
  assert (w1 = w) as -> by (unfold attempt, query in E1; destruct (find _); by inversion E1).
  destruct d as [process|e]; [|by apply mret_Ret in E as [<- <-]].
  apply bind_Ret in E as (c & w2 & Ec & [<- <-]%mret_Ret).
  by apply (create_and_run_own fuel _ (default_generates process v)) in Ec.
Qed.

Lemma created_on_elements_own fuel k ids v : answers_own_key (answer_on_elements fuel k ids v).
Proof.
  intros w r w' Hw E. unfold answer_on_elements in E. apply bind_Ret in E as (d & w1 & E1 & E).
  assert (w1 = w) as -> by (unfold attempt, query in E1; destruct (FindProcessDefinitionByKey _ _); by inversion E1).
  destruct d as [process|e]; [|by apply mret_Ret in E as [<- <-]].
  destruct (starting_nodes _ _) as [nodes|]; [|by apply mret_Ret in E as [<- <-]].
  by apply (create_and_run_own fuel _ (on_elements_generates process nodes v)) in E.
Qed.
End engine.

(** ** The engines of the partitions *)

Section partitions.
Context {S : Type} `{Storage S} `{DecisionStorage S} (env : Z → Env).

(** An engine with the partition it runs, which its key generator is made of. *)
Definition on_env {A} (op : ∀ e : Env, EM S A) : ST (Z * World S) A := λ pw,
  let '(o, w) := op (env pw.1) pw.2 in (o, (pw.1, w)).

Context (fuel : nat) (md5 : string → list Z).

#[export] Instance World_CreationApi : CreationApi (Z * World S) := {|
  eng_CreateInstanceByKey _ key vars := on_env (λ _, answer_by_key fuel key vars);
  eng_CreateInstanceById _ id vars := on_env (λ _, answer_by_id fuel id vars);
  eng_CreateInstanceWithStartingElements key elements vars :=
    on_env (λ _, answer_on_elements fuel key elements vars);
  eng_FindAndEvaluateDRD bindingType decisionId versionTag vars :=
    on_env (λ _, FindAndEvaluateDRD fuel bindingType decisionId versionTag vars);
  eng_SaveDmnResourceDefinition definition data key :=
    on_env (λ _, _ ← DeployDmnResourceDefinition definition data (md5 data) key; mret tt) |}.

Definition runs_partition (p : Z) (pw : Z * World S) : Prop := pw.1 = p ∧ (0 ≤ p < 2 ^ 10)%Z ∧ heap_wf pw.2.(w_heap).

Lemma on_env_creates (op : ∀ e : Env, EM S created) p :
  ((0 ≤ p < 2 ^ 10)%Z → ∀ n, GetPartitionId (@GenerateId (env p) n) = p) → @answers_own_key S (env p) (op (env p)) →
  creates runs_partition p (on_env op).
Proof.
  intros Hgen Hop [q w] r e' (Hq & Hp & Hw) E. cbn in Hq. subst q. unfold on_env in E. cbn in E.
  destruct (op (env p) w) as [o w'] eqn:Eo. injection E as -> <-.
  destruct (Hop w r w' Hw Eo) as [Hw' Hk]. split; [done|].
  intros i Hi. destruct (Hk i Hi) as [n ->]. by apply Hgen.
Qed.

(** The laws, when the generator of a partition generates keys of it. *)
Lemma World_CreationLaws `{!HeapLaws S} :
  (∀ p n, (0 ≤ p < 2 ^ 10)%Z → GetPartitionId (@GenerateId (env p) n) = p) → CreationLaws (Z * World S) runs_partition.
Proof.
  intros Hgen. split; intros; apply on_env_creates; try (intros Hp n; by apply Hgen).
  - apply created_from_own.
  - apply created_from_own.
  - apply created_on_elements_own.
Qed.
End partitions.

(** ** A concrete cluster *)

Section concrete.
(** Partition [p] generates the keys p * 2^12 + n, within one time. *)
Definition partition_env (p : Z) : Env := {|
  feel_Evaluate := example_feel; feel_UnaryTest := λ e v, Good (e =? "-");
  GenerateId := λ n, (p * 2 ^ 12 + Z.of_nat n mod 2 ^ 12)%Z;
  clock := λ n, Z.of_nat (1000 + n);
  Duration := Z; ParseISO8601 := λ s, Good 60%Z; Shift := λ d t, (t + d)%Z; Duration_TS := λ d, d;
  Sprint_value := λ _, "?"; json_Marshal := λ _, Good "{}"; json_MarshalDecisions := λ _, Good "[]" |}.

Lemma partition_env_keys p n : (0 ≤ p < 2 ^ 10)%Z → GetPartitionId (@GenerateId (partition_env p) n) = p.
Proof.
  intros Hp. rewrite GetPartitionId_arith. unfold GenerateId. cbn [partition_env].
  pose proof (Z.mod_pos_bound (Z.of_nat n) (2 ^ 12)) as Hn.
  rewrite Z.div_add_l, (Z.div_small (_ mod _)), Z.add_0_r by lia. by apply Z.mod_small.
Qed.

Definition deployed_world : World InMemory := after (StSaveProcessDefinition example_definition) empty_world.
#[local] Instance dial_a : Dial := {| rpc_NewClient _ := Good 1%Z |}.
#[local] Instance partition_engines : CreationApi (Z * World InMemory) :=
  World_CreationApi partition_env 20 (λ _, []).
#[local] Instance partition_laws : CreationLaws (Z * World InMemory) runs_partition :=
  World_CreationLaws partition_env 20 (λ _, []) partition_env_keys.

Definition iter_all (A : Type) (m : gmap string A) : list (string * A) := map_to_list m.
Definition creating_server : Server (Z * World InMemory) := {[1%Z := (1%Z, deployed_world)]}.
Definition creating_node : ZenNode (E := Z * World InMemory) :=
  {| zn_store := replica_2; zn_client := no_clients_yet; zn_servers := {[1%Z := creating_server]} |}.
Definition creation :=
  rest_CreateProcessInstance to_json from_json example_iter iter_all (λ _, 0%nat) 0 None (Some "p") None None None
    creating_node.
Definition no_answer : CreatedInstance :=
  {| cri_CreatedAt := 0; cri_Key := 0; cri_ProcessDefinitionKey := 0; cri_State := ""; cri_Variables := ∅ |}.
Definition creation_answer : CreatedInstance :=
  match creation.1 with Ret (RestOk answer) => answer | _ => no_answer end.

Lemma deployed_runs : runs_partition 1 (1%Z, deployed_world).
Proof.
  split_and!; [done..|]. assert (E : deployed_world.(w_heap) = empty_heap) by (vm_compute; reflexivity).
  cbn [snd]. rewrite E. intros q [i Hi]. done.
Qed.

Lemma creation_returns : ∃ answer z', creation = (Ret (RestOk answer), z') ∧ answer.(cri_Key) = 4096%Z.
Proof.
  assert (E : (match creation.1 with Ret (RestOk a) => Some (cri_Key a) | _ => None end) = Some 4096%Z)
    by (vm_compute; reflexivity).
  destruct creation as [o z']. cbn in E. destruct o as [[answer|]|?|?| |]; try done.
  injection E as E. by exists answer, z'.
Qed.

Lemma created_instance_lives_in_its_partition_witness : ∃ node client cm es e e' i err vs,
  GetLeastStressedPartitionLeader iter_all replica_2.(s_state) = Good node ∧
  For node.(n_Addr) no_clients_yet = (Ret client, cm) ∧
  creating_node.(zn_servers) !! client = Some es ∧ es !! 1%Z = Some e ∧
  create_op (StartByLatestProcessId "p") {| crc_HistoryTTL := None; crc_BusinessKey := None |} vs e =
    (Ret (Some i, err), e') ∧
  i.(pi_Key) = 4096%Z ∧ creation.2 = with_engine_state creating_node cm client 1 es e'.
Proof.
  destruct creation_returns as (answer & z' & E & Hk).
  assert (Hlives : ∀ client es, creating_node.(zn_servers) !! client = Some es → map_Forall runs_partition es).
  { intros client es Hes. unfold creating_node in Hes. cbn in Hes.
    apply lookup_singleton_Some in Hes as [_ <-]. intros p e He. unfold creating_server in He.
    apply lookup_singleton_Some in He as [<- <-]. apply deployed_runs. }
  destruct (created_instance_lives_in_its_partition to_json from_json example_iter (λ A m, reflexivity _)
    iter_all runs_partition (λ _, 0%nat) 0 None (Some "p") None None None creating_node answer z' Hlives E)
    as (node & client & cm & es & e & e' & sent & text & i & err & H1 & H2 & H3 & H4 & _ & _ & _ & H5 & H6 & H7).
  assert (Hp : GetPartitionId 4096 = 1%Z) by reflexivity. rewrite Hk, Hp in H4, H7.
  exists node, client, cm, es, e, e', i, err, sent. rewrite E. rewrite Hk in H6.
  exact (conj H1 (conj H2 (conj H3 (conj H4 (conj H5 (conj (eq_sym H6) H7)))))).
Defined.

(** *** A decision with a truth value

    A text for the variables of the example, one for no variables, and the
    truth values. *)
Definition yes_to_json (v : vars) : result string :=
  match v !! "yes" with Some (VBool true) => Good "{yes:true}" | _ => Good "{}" end.
Definition yes_from_json (text : string) : result vars :=
  if (text =? "{yes:true}") then Good table_vars
  else if (text =? "{}") then Good ∅ else Bad (err! "cannot unmarshal into a map").
Definition truth_to_json (v : value) : result string :=
  match v with VBool true => Good "true" | _ => Good "null" end.
Definition truth_from_json (text : string) : result value :=
  Good (if (text =? "true") then VBool true else VNil).

Definition decision_world : World InMemory :=
  (DeployDmnResourceDefinition chain_doc.(drd_Definitions) "" [] 77 deployed_world).2.
Definition deciding_node : ZenNode (E := Z * World InMemory) :=
  {| zn_store := replica_2; zn_client := no_clients_yet;
     zn_servers := {[1%Z := {[1%Z := (1%Z, decision_world)]}]} |}.
Definition decision_answer := rest_EvaluateDecision yes_to_json yes_from_json truth_to_json truth_from_json
  example_iter iter_all (λ _, false) (λ _, 0%nat) "latest" "e" None None (Some table_vars) deciding_node.

Lemma decision_returns : ∃ result z',
  node_EvaluateDecision yes_to_json yes_from_json truth_to_json example_iter iter_all (λ _, false) (λ _, 0%nat)
    "latest" "e" "" table_vars deciding_node = (Ret result, z') ∧
  result.(pdr_DecisionOutput) = "true" ∧ result.(pdr_EvaluatedDecisions) ≠ [].
Proof.
  set (m := node_EvaluateDecision _ _ _ _ _ _ _ _ _ _ _ _).
  assert (E : (match m.1 with Ret r => Some (r.(pdr_DecisionOutput), length r.(pdr_EvaluatedDecisions)) | _ => None end)
              = Some ("true", 1%nat)) by (vm_compute; reflexivity).
  destruct m as [o z']. cbn in E. destruct o as [r|?|?| |]; try done. injection E as E1 E2.
  exists r, z'. split_and!; [done|done|]. by intros E3; rewrite E3 in E2.
Qed.

Lemma evaluated_decisions_share_their_output_witness : decision_answer.1 = Ret (RestStatus 500).
Proof.
  destruct decision_returns as (result & z' & E & Hout & Hne).
  pose proof (evaluated_decisions_share_their_output yes_from_json truth_from_json yes_to_json truth_to_json
    example_iter iter_all (λ _, false) (λ _, 0%nat) "latest" "e" None None (Some table_vars) deciding_node
    result z' eq_refl E) as (_ & _ & H500).
  apply H500; [exact Hne|]. rewrite Hout. reflexivity.
Defined.
End concrete.
