(* ===== verification/RunnerPool.v ===== *)
(** The pool of script runners (pkg/script/pool.go): goroutines take a runner,
    use it and give it back, and a cleanup that runs every ten minutes removes
    the ones that are not used.  Goroutines interleave between their accesses to
    the channel and the mutex; who receives from the channel first is open.

    A critical section that does not wait is one step, taken while the mutex is
    free; the cleanup waits for a runner with the mutex held, so that the mutex
    is a part of the state. *)
From S2P Require Import Prelude ZenErr Monad.
From stdpp Require Import list relations.

(** ** The pool *)

(** The channel with its capacity; a runner is a number, in the order they were
    made. *)
Record RunnerPool := {
  rp_pool : list nat;
  rp_activeRunnersCount : Z;
  rp_made : nat;
  rp_cleanup_has_mutex : bool;
  rp_maxVmPoolSize : Z;
  rp_minVmPoolSize : Z
}.

Definition set_runners (pool : list nat) (count : Z) (made : nat) (p : RunnerPool) : RunnerPool :=
  {| rp_pool := pool; rp_activeRunnersCount := count; rp_made := made;
     rp_cleanup_has_mutex := p.(rp_cleanup_has_mutex); rp_maxVmPoolSize := p.(rp_maxVmPoolSize);
     rp_minVmPoolSize := p.(rp_minVmPoolSize) |}.

Definition set_mutex (held : bool) (p : RunnerPool) : RunnerPool :=
  {| rp_pool := p.(rp_pool); rp_activeRunnersCount := p.(rp_activeRunnersCount); rp_made := p.(rp_made);
     rp_cleanup_has_mutex := held; rp_maxVmPoolSize := p.(rp_maxVmPoolSize);
     rp_minVmPoolSize := p.(rp_minVmPoolSize) |}.

Definition pool_len (p : RunnerPool) : Z := Z.of_nat (length p.(rp_pool)).

(** A send or a receive that can go on at once. *)
Definition send (r : nat) (p : RunnerPool) : option RunnerPool :=
  if bool_decide (pool_len p < p.(rp_maxVmPoolSize))%Z
  then Some (set_runners (p.(rp_pool) ++ [r]) p.(rp_activeRunnersCount) p.(rp_made) p) else None.

Definition receive (p : RunnerPool) : option (nat * RunnerPool) :=
  match p.(rp_pool) with
  | [] => None
  | r :: rest => Some (r, set_runners rest p.(rp_activeRunnersCount) p.(rp_made) p)
  end.

(** runnerFactory.NewRunner. *)
Definition make_runner (p : RunnerPool) : nat * RunnerPool :=
  (p.(rp_made), set_runners p.(rp_pool) (p.(rp_activeRunnersCount) + 1) (S p.(rp_made)) p).

(** One of the first runners. *)
Definition start_runner (p : RunnerPool) : option RunnerPool := let '(r, p') := make_runner p in send r p'.

Fixpoint start_runners (n : nat) (p : RunnerPool) : option RunnerPool :=
  match n with
  | O => Some p
  | S n' => p' ← start_runner p; start_runners n' p'
  end.

(** [None] is a panic: the sizes are wrong.  (A send that would wait does not
    occur: there are at most as many as the channel holds.) *)
Definition NewRunnerPool (maxVmPoolSize minVmPoolSize : Z) : option RunnerPool :=
  if bool_decide (maxVmPoolSize < minVmPoolSize)%Z then None
  else if bool_decide (maxVmPoolSize < 0)%Z then None
  else start_runners (Z.to_nat minVmPoolSize)
    {| rp_pool := []; rp_activeRunnersCount := 0; rp_made := 0; rp_cleanup_has_mutex := false;
       rp_maxVmPoolSize := maxVmPoolSize; rp_minVmPoolSize := minVmPoolSize |}.

(** ** Goroutines *)

(** Where a goroutine is: outside; in GetRunnerFromPool before the select, in
    its default branch before the mutex, and before the second receive; with a
    runner; in the default branch of ReturnRunnerToPool. *)
Inductive user_pc := Outside | Selecting | Counting | Waiting | Using (runner : nat) | Discarding (runner : nat).

(** One step of a goroutine. *)
Definition enter (u : user_pc) (p : RunnerPool) : option (user_pc * RunnerPool) :=
  match u with Outside => Some (Selecting, p) | _ => None end.

Definition GetRunner_select (u : user_pc) (p : RunnerPool) : option (user_pc * RunnerPool) :=
  match u with
  | Selecting => Some (match receive p with Some (r, p') => (Using r, p') | None => (Counting, p) end)
  | _ => None
  end.

Definition GetRunner_count (u : user_pc) (p : RunnerPool) : option (user_pc * RunnerPool) :=
  match u with
  | Counting =>
      if p.(rp_cleanup_has_mutex) then None
      else if bool_decide (p.(rp_activeRunnersCount) < p.(rp_maxVmPoolSize))%Z
           then let '(r, p') := make_runner p in Some (Using r, p')
           else Some (Waiting, p)
  | _ => None
  end.

Definition GetRunner_wait (u : user_pc) (p : RunnerPool) : option (user_pc * RunnerPool) :=
  match u with
  | Waiting => match receive p with Some (r, p') => Some (Using r, p') | None => None end
  | _ => None
  end.

Definition ReturnRunner_select (u : user_pc) (p : RunnerPool) : option (user_pc * RunnerPool) :=
  match u with
  | Using r => Some (match send r p with Some p' => (Outside, p') | None => (Discarding r, p) end)
  | _ => None
  end.

Definition ReturnRunner_discard (u : user_pc) (p : RunnerPool) : option (user_pc * RunnerPool) :=
  match u with
  | Discarding _ =>
      if p.(rp_cleanup_has_mutex) then None
      else Some (Outside, set_runners p.(rp_pool) (p.(rp_activeRunnersCount) - 1) p.(rp_made) p)
  | _ => None
  end.

(** The steps of a goroutine that has entered. *)
Definition user_step (u : user_pc) (p : RunnerPool) : option (user_pc * RunnerPool) :=
  match u with
  | Outside => None
  | Selecting => GetRunner_select u p
  | Counting => GetRunner_count u p
  | Waiting => GetRunner_wait u p
  | Using _ => ReturnRunner_select u p
  | Discarding _ => ReturnRunner_discard u p
  end.

(** The cleanup: before the tick, at the condition of its loop, before the
    mutex, and at the receive with the mutex held. *)
Inductive cleanup_pc := Ticking | Checking | Locking | Receiving.

Definition cleanup_step (c : cleanup_pc) (p : RunnerPool) : option (cleanup_pc * RunnerPool) :=
  match c with
  | Ticking => Some (if bool_decide (p.(rp_minVmPoolSize) < pool_len p)%Z then Checking else Ticking, p)
  | Checking => Some (if bool_decide (p.(rp_minVmPoolSize) < pool_len p)%Z then Locking else Ticking, p)
  | Locking => if p.(rp_cleanup_has_mutex) then None else Some (Receiving, set_mutex true p)
  | Receiving =>
      match receive p with
      | Some (_, p') => Some (Checking, set_mutex false
          (set_runners p'.(rp_pool) (p'.(rp_activeRunnersCount) - 1) p'.(rp_made) p'))
      | None => None
      end
  end.

Record Runners := { rs_pool : RunnerPool; rs_users : list user_pc; rs_cleanup : cleanup_pc }.

Inductive runners_event := Enters (g : nat) | Runs (g : nat) | CleansUp.

Inductive runners_step : runners_event → Runners → Runners → Prop :=
| step_enters g p us c u u' p' :
    us !! g = Some u → enter u p = Some (u', p') →
    runners_step (Enters g) {| rs_pool := p; rs_users := us; rs_cleanup := c |}
      {| rs_pool := p'; rs_users := <[g := u']> us; rs_cleanup := c |}
| step_runs g p us c u u' p' :
    us !! g = Some u → user_step u p = Some (u', p') →
    runners_step (Runs g) {| rs_pool := p; rs_users := us; rs_cleanup := c |}
      {| rs_pool := p'; rs_users := <[g := u']> us; rs_cleanup := c |}
| step_cleanup p us c c' p' :
    cleanup_step c p = Some (c', p') →
    runners_step CleansUp {| rs_pool := p; rs_users := us; rs_cleanup := c |}
      {| rs_pool := p'; rs_users := us; rs_cleanup := c' |}.

Definition runs_by (allowed : runners_event → Prop) (s s' : Runners) : Prop :=
  ∃ e, allowed e ∧ runners_step e s s'.

Definition runners_start (users : nat) (p : RunnerPool) : Runners :=
  {| rs_pool := p; rs_users := replicate users Outside; rs_cleanup := Ticking |}.

Definition runners_reachable (maxSize minSize : Z) (users : nat) (s : Runners) : Prop :=
  ∃ p, NewRunnerPool maxSize minSize = Some p ∧ rtc (runs_by (λ _, True)) (runners_start users p) s.

(** ** Who has which runner *)

Definition holds (u : user_pc) : list nat := match u with Using r | Discarding r => [r] | _ => [] end.
Definition held (us : list user_pc) : list nat := us ≫= holds.
#[local] Arguments held : simpl never.
Definition runners (s : Runners) : list nat := s.(rs_pool).(rp_pool) ++ held s.(rs_users).

Lemma held_insert us g u :
  us !! g = Some u → ∃ rest, held us ≡ₚ holds u ++ rest ∧ ∀ u', held (<[g := u']> us) ≡ₚ holds u' ++ rest.
Proof.
  intros Hg. exists (held (take g us) ++ held (drop (S g) us)).
  assert (Hlt : g < length us) by (apply lookup_lt_is_Some; eauto).
  assert (Hs : ∀ x, held (take g us ++ x :: drop (S g) us) ≡ₚ
    holds x ++ held (take g us) ++ held (drop (S g) us)).
  { intros x. unfold held. rewrite bind_app. cbn. by rewrite Permutation_app_swap_app. }
  split.
  - rewrite <- (take_drop_middle us g u Hg) at 1. apply Hs.
  - intros u'. rewrite insert_take_drop by done. apply Hs.
Qed.

(** What a step does to the runners. *)
Lemma send_Some r p p' :
  send r p = Some p' → (pool_len p < p.(rp_maxVmPoolSize))%Z ∧
  p' = set_runners (p.(rp_pool) ++ [r]) p.(rp_activeRunnersCount) p.(rp_made) p.
Proof. unfold send. case_bool_decide; [|done]. by intros [= <-]. Qed.

Lemma receive_Some r p p' :
  receive p = Some (r, p') → ∃ rest, p.(rp_pool) = r :: rest ∧
    p' = set_runners rest p.(rp_activeRunnersCount) p.(rp_made) p.
Proof. unfold receive. destruct (rp_pool p) as [|r' rest]; [done|]. intros [= <- <-]. by exists rest. Qed.

(** ** The invariant *)

Record pool_inv (maxSize : Z) (s : Runners) : Prop := {
  pi_max : s.(rs_pool).(rp_maxVmPoolSize) = maxSize;
  pi_NoDup : NoDup (runners s);
  pi_made : Forall (λ r, r < s.(rs_pool).(rp_made)) (runners s);
  pi_count : s.(rs_pool).(rp_activeRunnersCount) = Z.of_nat (length (runners s));
  pi_bound : (s.(rs_pool).(rp_activeRunnersCount) ≤ maxSize)%Z;
  pi_mutex : s.(rs_pool).(rp_cleanup_has_mutex) = true ↔ s.(rs_cleanup) = Receiving;
  pi_kept : ∀ (g : nat) r, s.(rs_users) !! g ≠ Some (Discarding r)
}.

(** The same runners. *)
Lemma pool_inv_same maxSize s s' :
  runners s' ≡ₚ runners s → s'.(rs_pool).(rp_maxVmPoolSize) = s.(rs_pool).(rp_maxVmPoolSize) →
  s'.(rs_pool).(rp_made) = s.(rs_pool).(rp_made) →
  s'.(rs_pool).(rp_activeRunnersCount) = s.(rs_pool).(rp_activeRunnersCount) →
  (s'.(rs_pool).(rp_cleanup_has_mutex) = true ↔ s'.(rs_cleanup) = Receiving) →
  (∀ (g : nat) r, s'.(rs_users) !! g ≠ Some (Discarding r)) → pool_inv maxSize s → pool_inv maxSize s'.
Proof.
  intros Hp Hm Hn Hc Hmu Hd [?????? ?]. split; rewrite ?Hp, ?Hm, ?Hn, ?Hc; done.
Qed.

Lemma insert_kept (us : list user_pc) (g : nat) u' :
  (∀ (h : nat) r, us !! h ≠ Some (Discarding r)) → (∀ r, u' ≠ Discarding r) →
  ∀ (h : nat) r, <[g := u']> us !! h ≠ Some (Discarding r).
Proof.
  intros Hk Hu h r E. apply list_lookup_insert_Some in E as [(_ & E & _)|(_ & E)]; [by apply (Hu r)|by apply (Hk h r)].
Qed.

Lemma take_inv maxSize p us c g u r p' :
  us !! g = Some u → holds u = [] → receive p = Some (r, p') →
  pool_inv maxSize {| rs_pool := p; rs_users := us; rs_cleanup := c |} →
  pool_inv maxSize {| rs_pool := p'; rs_users := <[g := Using r]> us; rs_cleanup := c |}.
Proof.
  intros Hg Hu (rest & Er & ->)%receive_Some Hi.
  refine (pool_inv_same _ _ _ _ _ _ _ _ _ Hi); try done; try apply Hi.
  - unfold runners. cbn. destruct (held_insert _ _ _ Hg) as (others & -> & ->). rewrite Hu, Er. cbn.
    by rewrite Permutation_middle.
  - cbn. apply insert_kept; [apply Hi|done].
Qed.

Lemma change_inv maxSize p us c g u u' :
  us !! g = Some u → holds u = [] → holds u' = [] →
  pool_inv maxSize {| rs_pool := p; rs_users := us; rs_cleanup := c |} →
  pool_inv maxSize {| rs_pool := p; rs_users := <[g := u']> us; rs_cleanup := c |}.
Proof.
  intros Hg Hu Hu' Hi. refine (pool_inv_same _ _ _ _ _ _ _ _ _ Hi); try done; try apply Hi.
  - unfold runners. cbn. destruct (held_insert _ _ _ Hg) as (others & -> & ->). by rewrite Hu, Hu'.
  - cbn. apply insert_kept; [apply Hi|]. intros r ->. done.
Qed.

Lemma enter_inv maxSize p us c g u u' p' :
  us !! g = Some u → enter u p = Some (u', p') → pool_inv maxSize {| rs_pool := p; rs_users := us; rs_cleanup := c |} →
  pool_inv maxSize {| rs_pool := p'; rs_users := <[g := u']> us; rs_cleanup := c |}.
Proof. intros Hg E Hi. destruct u; inversion E; subst. by eapply change_inv. Qed.

Lemma make_inv maxSize p us c g :
  us !! g = Some Counting → (p.(rp_activeRunnersCount) < p.(rp_maxVmPoolSize))%Z →
  pool_inv maxSize {| rs_pool := p; rs_users := us; rs_cleanup := c |} →
  pool_inv maxSize {| rs_pool := (make_runner p).2; rs_users := <[g := Using (make_runner p).1]> us; rs_cleanup := c |}.
Proof.
  intros Hg Hlt [Hmax Hnd Hmade Hcount Hbound Hmutex Hkept]. cbn in *.
  assert (Hp : rp_pool p ++ held (<[g := Using (rp_made p)]> us) ≡ₚ rp_made p :: (rp_pool p ++ held us)).
  { destruct (held_insert _ _ _ Hg) as (others & -> & ->). cbn. by rewrite Permutation_middle. }
  unfold runners in *. split; cbn in *.
  - done.
  - unfold runners. cbn. rewrite Hp. apply NoDup_cons. split; [|done]. intros Hin.
    rewrite Forall_forall in Hmade. apply Hmade in Hin. lia.
  - unfold runners. cbn. rewrite Hp. constructor; cbn; [lia|]. eapply Forall_impl; [exact Hmade|]. cbn. intros x Hx. lia.
  - unfold runners. cbn. rewrite Hp, length_cons. lia.
  - lia.
  - done.
  - apply insert_kept; [exact Hkept|done].
Qed.

(** A runner that is used fits into the pool: nothing is discarded. *)
Lemma return_inv maxSize p us c g r :
  us !! g = Some (Using r) → pool_inv maxSize {| rs_pool := p; rs_users := us; rs_cleanup := c |} →
  ∃ p', send r p = Some p' ∧ pool_inv maxSize {| rs_pool := p'; rs_users := <[g := Outside]> us; rs_cleanup := c |}.
Proof.
  intros Hg Hi. destruct (held_insert _ _ _ Hg) as (others & H1 & H2).
  assert (Hlt : (pool_len p < p.(rp_maxVmPoolSize))%Z).
  { destruct Hi as [Hmax _ _ Hcount Hbound _ _]. unfold runners in Hcount. cbn in *.
    rewrite H1, length_app in Hcount. cbn [holds app] in Hcount. rewrite length_cons in Hcount. unfold pool_len. lia. }
  unfold send. rewrite bool_decide_true by done. eexists. split; [done|].
  refine (pool_inv_same _ _ _ _ _ _ _ _ _ Hi); try done; try apply Hi.
  - unfold runners. cbn. rewrite H1, (H2 Outside). cbn. by rewrite <- (assoc_L (++)).
  - cbn. apply insert_kept; [apply Hi|done].
Qed.

Lemma user_inv maxSize p us c g u u' p' :
  us !! g = Some u → user_step u p = Some (u', p') → pool_inv maxSize {| rs_pool := p; rs_users := us; rs_cleanup := c |} →
  pool_inv maxSize {| rs_pool := p'; rs_users := <[g := u']> us; rs_cleanup := c |}.
Proof.
  intros Hg E Hi. destruct u; cbn in E; [done| | | | |].
  - destruct (receive p) as [[r p1]|] eqn:Er; inversion E; subst; [by eapply take_inv|by eapply change_inv].
  - destruct (rp_cleanup_has_mutex p); [done|]. case_bool_decide; inversion E; subst.
    + by apply (make_inv maxSize p us c g).
    + by eapply change_inv.
  - destruct (receive p) as [[r p1]|] eqn:Er; [|done]. inversion E; subst. by eapply take_inv.
  - destruct (return_inv _ _ _ _ _ _ Hg Hi) as (p1 & Es & Hi'). rewrite Es in E. by inversion E; subst.
  - exfalso. by eapply (pi_kept _ _ Hi).
Qed.

Lemma cleanup_inv maxSize p us c c' p' :
  cleanup_step c p = Some (c', p') → pool_inv maxSize {| rs_pool := p; rs_users := us; rs_cleanup := c |} →
  pool_inv maxSize {| rs_pool := p'; rs_users := us; rs_cleanup := c' |}.
Proof.
  intros E Hi. destruct c; cbn in E.
  - injection E as <- <-. refine (pool_inv_same _ _ _ _ _ _ _ _ _ Hi); try done; try apply Hi.
    cbn. rewrite (pi_mutex _ _ Hi). cbn. by case_bool_decide.
  - injection E as <- <-. refine (pool_inv_same _ _ _ _ _ _ _ _ _ Hi); try done; try apply Hi.
    cbn. rewrite (pi_mutex _ _ Hi). cbn. by case_bool_decide.
  - destruct (rp_cleanup_has_mutex p); [done|]. injection E as <- <-.
    refine (pool_inv_same _ _ _ _ _ _ _ _ _ Hi); try done; apply Hi.
  - destruct (receive p) as [[r p1]|] eqn:Er; [|done]. injection E as <- <-.
    apply receive_Some in Er as (rest & Er & ->).
    destruct Hi as [Hmax Hnd Hmade Hcount Hbound Hmutex Hkept]. unfold runners in *. cbn in *. rewrite Er in *.
    cbn [app] in *. rewrite length_cons in Hcount. apply NoDup_cons in Hnd as [_ Hnd]. apply Forall_cons in Hmade as [_ Hmade].
    split; unfold runners; cbn; try done; lia.
Qed.

Lemma runners_step_inv maxSize e s s' : runners_step e s s' → pool_inv maxSize s → pool_inv maxSize s'.
Proof. destruct 1; [by eapply enter_inv|by eapply user_inv|by eapply cleanup_inv]. Qed.

(** *** The start *)

Lemma held_replicate n : held (replicate n Outside) = [].
Proof. induction n as [|n IH]; [done|exact IH]. Qed.

Lemma start_inv maxSize n users p p' :
  pool_inv maxSize (runners_start users p) → (pool_len p + Z.of_nat n ≤ maxSize)%Z → start_runners n p = Some p' →
  pool_inv maxSize (runners_start users p').
Proof.
  revert p. induction n as [|n IH]; intros p Hi Hn; cbn [start_runners]; [by intros [= <-]|].
  intros (p1 & (Hlt & ->)%send_Some & E)%bind_Some. eapply IH; [|  |exact E].
  - destruct Hi as [Hmax Hnd Hmade Hcount Hbound Hmutex Hkept]. unfold runners, runners_start in *. cbn in *.
    rewrite held_replicate, app_nil_r in *.
    assert (Hnew : (rp_pool p ++ [rp_made p]) ≡ₚ rp_made p :: rp_pool p) by (by rewrite Permutation_app_comm).
    split; unfold runners; cbn; rewrite ?held_replicate, ?app_nil_r, ?Hnew; try done.
    + apply NoDup_cons. split; [|done]. intros Hin. rewrite Forall_forall in Hmade. apply Hmade in Hin. lia.
    + constructor; cbn; [lia|]. eapply Forall_impl; [exact Hmade|]. cbn. intros x Hx. lia.
    + rewrite length_cons. lia.
    + unfold pool_len in *. lia.
  - unfold pool_len in *. cbn [rp_pool set_runners make_runner snd]. rewrite length_app, length_cons. cbn [length]. lia.
Qed.

Lemma new_pool_inv maxSize minSize users p :
  NewRunnerPool maxSize minSize = Some p → pool_inv maxSize (runners_start users p).
Proof.
  unfold NewRunnerPool. do 2 (case_bool_decide; [done|]). intros E. eapply start_inv; [| |exact E].
  - split; unfold runners; cbn; rewrite ?held_replicate; try done; try lia; [constructor|].
    intros g r Hg. apply lookup_replicate in Hg as [? _]. done.
  - unfold pool_len. cbn. lia.
Qed.

Lemma runs_inv allowed maxSize s s' : rtc (runs_by allowed) s s' → pool_inv maxSize s → pool_inv maxSize s'.
Proof. induction 1 as [|x y z (e & _ & Hs) _ IH]; [done|]. intros Hi. apply IH. by eapply runners_step_inv. Qed.

(** C39: the runners of a pool: whatever the interleaving of goroutines and
    cleanup, there are never more runners than the maximum, the counter is their
    number, no two goroutines use the same runner, a runner that is used is not
    in the pool, and no runner is discarded because the pool is full when it is
    given back. *)
Theorem runners_are_bounded_and_exclusive maxSize minSize users s :
  runners_reachable maxSize minSize users s →
  s.(rs_pool).(rp_activeRunnersCount) = Z.of_nat (length (runners s)) ∧
  (s.(rs_pool).(rp_activeRunnersCount) ≤ maxSize)%Z ∧
  (∀ g h r, s.(rs_users) !! g = Some (Using r) → s.(rs_users) !! h = Some (Using r) → g = h) ∧
  (∀ g r, s.(rs_users) !! g = Some (Using r) → r ∉ s.(rs_pool).(rp_pool)) ∧
  ∀ g r, s.(rs_users) !! g ≠ Some (Discarding r).
Proof.
  intros (p & Hp & Hr). apply (new_pool_inv _ _ users) in Hp as Hi. apply (runs_inv _ _ _ _ Hr) in Hi.
  destruct Hi as [_ Hnd _ Hcount Hbound _ Hkept]. unfold runners in Hnd. apply NoDup_app in Hnd as (_ & Hdis & Hnd).
  split_and!; [done|done| | |done].
  - intros g h r Hg Hh. destruct (decide (g = h)) as [|Hne]; [done|]. exfalso.
    destruct (held_insert _ _ _ Hg) as (rest & H1 & H2).
    assert (Hin : r ∈ rest).
    { assert (Hin : r ∈ held (<[g := Outside]> (rs_users s))).
      { apply list_elem_of_bind. exists (Using r). split; [cbn; set_solver|].
        apply list_elem_of_lookup. exists h. by rewrite list_lookup_insert_ne. }
      rewrite (H2 Outside) in Hin. done. }
    rewrite H1 in Hnd. cbn in Hnd. apply NoDup_cons in Hnd as [Hnin _]. done.
  - intros g r Hg Hin. apply (Hdis r Hin). apply list_elem_of_bind. exists (Using r).
    split; [cbn; set_solver|]. by apply list_elem_of_lookup_2 in Hg.
Qed.

(** ** Waiting for a runner *)

Definition waiters_see_full (s : Runners) : Prop :=
  ∀ g, s.(rs_users) !! g = Some Waiting → s.(rs_pool).(rp_activeRunnersCount) = s.(rs_pool).(rp_maxVmPoolSize).

Lemma waits_insert (us : list user_pc) (g h : nat) u' :
  u' ≠ Waiting → <[g := u']> us !! h = Some Waiting → us !! h = Some Waiting.
Proof. intros Hu E. apply list_lookup_insert_Some in E as [(_ & E & _)|(_ & E)]; [by subst|done]. Qed.

(** Without the cleanup the number of runners never goes down. *)
Lemma waiters_step maxSize e s s' :
  e ≠ CleansUp → runners_step e s s' → pool_inv maxSize s → waiters_see_full s → waiters_see_full s'.
Proof.
  intros He Hs Hi Hw. destruct Hs as [g p us c u u' p' Hg E|g p us c u u' p' Hg E|]; [| |done];
    unfold waiters_see_full in *; cbn in *.
  - destruct u; inversion E; subst. intros h Hh%waits_insert; [|done]. by apply (Hw h).
  - destruct u; cbn in E; [done| | | | |].
    + destruct (receive p) as [[r p1]|] eqn:Er; inversion E; subst.
      * apply receive_Some in Er as (rest & _ & ->). intros h Hh%waits_insert; [|done]. by apply (Hw h).
      * intros h Hh%waits_insert; [|done]. by apply (Hw h).
    + destruct (rp_cleanup_has_mutex p); [done|]. case_bool_decide as Hlt; inversion E; subst.
      * intros h Hh%waits_insert; [|done]. apply (Hw h) in Hh. lia.
      * intros h _. pose proof (pi_bound _ _ Hi). pose proof (pi_max _ _ Hi). cbn in *. lia.
    + destruct (receive p) as [[r p1]|] eqn:Er; inversion E; subst. apply receive_Some in Er as (rest & _ & ->).
      intros h Hh%waits_insert; [|done]. by apply (Hw h).
    + destruct (return_inv _ _ _ _ _ _ Hg Hi) as (p1 & Es & _). rewrite Es in E. inversion E; subst.
      apply send_Some in Es as [_ ->]. intros h Hh%waits_insert; [|done]. by apply (Hw h).
    + exfalso. by eapply (pi_kept _ _ Hi).
Qed.

Lemma waiters_runs maxSize s s' :
  rtc (runs_by (λ e, e ≠ CleansUp)) s s' → pool_inv maxSize s → waiters_see_full s → waiters_see_full s'.
Proof.
  induction 1 as [|x y z (e & He & Hs) _ IH]; [done|]. intros Hi Hw.
  apply IH; [by eapply runners_step_inv|by eapply waiters_step].
Qed.

Lemma used_or_pooled s :
  runners s ≠ [] → (∀ g r, s.(rs_users) !! g ≠ Some (Discarding r)) →
  s.(rs_pool).(rp_pool) ≠ [] ∨ ∃ h r, s.(rs_users) !! h = Some (Using r).
Proof.
  unfold runners. intros Hne Hd. destruct (rp_pool _) as [|r rest]; [right|by left].
  destruct (held (rs_users s)) as [|r l] eqn:El; [done|].
  assert (Hin : r ∈ held (rs_users s)) by (rewrite El; set_solver).
  apply list_elem_of_bind in Hin as (u & Hu & Hin). apply list_elem_of_lookup in Hin as [h Hh].
  destruct u as [| | | |r'|r']; cbn in Hu; try (by apply elem_of_nil in Hu); [by exists h, r'|].
  by apply Hd in Hh.
Qed.

(** *** Running events *)

Definition do_event (e : runners_event) (s : Runners) : option Runners :=
  match e with
  | Enters g =>
      u ← s.(rs_users) !! g; '(u', p') ← enter u s.(rs_pool);
      Some {| rs_pool := p'; rs_users := <[g := u']> s.(rs_users); rs_cleanup := s.(rs_cleanup) |}
  | Runs g =>
      u ← s.(rs_users) !! g; '(u', p') ← user_step u s.(rs_pool);
      Some {| rs_pool := p'; rs_users := <[g := u']> s.(rs_users); rs_cleanup := s.(rs_cleanup) |}
  | CleansUp =>
      '(c', p') ← cleanup_step s.(rs_cleanup) s.(rs_pool);
      Some {| rs_pool := p'; rs_users := s.(rs_users); rs_cleanup := c' |}
  end.

Lemma do_event_step e s s' : do_event e s = Some s' → runners_step e s s'.
Proof.
  destruct s as [p us c], e as [g|g|]; cbn.
  - intros (u & Hu & ([u' p'] & E & [= <-])%bind_Some)%bind_Some. by eapply step_enters.
  - intros (u & Hu & ([u' p'] & E & [= <-])%bind_Some)%bind_Some. by eapply step_runs.
  - intros ([c' p'] & E & [= <-])%bind_Some. by eapply step_cleanup.
Qed.

Fixpoint do_events (es : list runners_event) (s : Runners) : option Runners :=
  match es with
  | [] => Some s
  | e :: es' => s' ← do_event e s; do_events es' s'
  end.

Lemma do_events_reach es s s' : do_events es s = Some s' → rtc (runs_by (λ _, True)) s s'.
Proof.
  revert s. induction es as [|e es IH]; intros s; cbn; [by intros [= <-]|].
  intros (s1 & E1 & E2)%bind_Some. eapply rtc_l; [|by apply IH]. exists e. split; [done|by apply do_event_step].
Qed.

(** The only runner is taken between the check of the cleanup and its receive;
    the other goroutine counts before the cleanup has the mutex. *)
Definition starving_events : list runners_event :=
  [Enters 0; Runs 0; Runs 0; Runs 0; CleansUp; CleansUp; Enters 0; Runs 0;
   Enters 1; Runs 1; Runs 1; CleansUp; Runs 0; CleansUp].

Definition starved (c : cleanup_pc) : Runners :=
  {| rs_pool := {| rp_pool := []; rp_activeRunnersCount := 0; rp_made := 1; rp_cleanup_has_mutex := false;
                   rp_maxVmPoolSize := 1; rp_minVmPoolSize := 0 |};
     rs_users := [Outside; Waiting]; rs_cleanup := c |}.

Lemma starved_stays s s' :
  rtc (runs_by (λ e, ∀ g, e ≠ Enters g)) s s' → (∃ c, (c = Checking ∨ c = Ticking) ∧ s = starved c) →
  ∃ c, (c = Checking ∨ c = Ticking) ∧ s' = starved c.
Proof.
  induction 1 as [|x y z (e & He & Hs) _ IH]; [done|]. intros (c & Hc & ->). apply IH.
  inversion Hs as [g p us c0 u u' p' Hg E|g p us c0 u u' p' Hg E|p us c0 c' p' E]; subst.
  - by destruct (He g).
  - destruct g as [|[|g]]; cbn in Hg; [| |done]; by injection Hg as <-.
  - destruct Hc as [->| ->]; injection E as <- <-; exists Ticking; (split; [by right|done]).
Qed.

(** Waiting for a runner: as long as the cleanup does not run, a goroutine
    that waits for a runner finds one in the pool or another goroutine uses one
    that it will give back; but the cleanup can take the runner a waiting
    goroutine counted on: a state is reachable in which a goroutine waits, no
    runner exists and none is used, although one could be made, and in which it
    goes on waiting as long as no other goroutine asks for a runner. *)
Theorem cleanup_starves_a_waiter :
  (∀ maxSize minSize users p s g, (1 ≤ maxSize)%Z → NewRunnerPool maxSize minSize = Some p →
     rtc (runs_by (λ e, e ≠ CleansUp)) (runners_start users p) s → s.(rs_users) !! g = Some Waiting →
     s.(rs_pool).(rp_pool) ≠ [] ∨ ∃ h r, s.(rs_users) !! h = Some (Using r)) ∧
  ∃ s, runners_reachable 1 0 2 s ∧ runners s = [] ∧
    (s.(rs_pool).(rp_activeRunnersCount) < s.(rs_pool).(rp_maxVmPoolSize))%Z ∧
    ∀ s', rtc (runs_by (λ e, ∀ g, e ≠ Enters g)) s s' → s'.(rs_users) !! 1 = Some Waiting.
Proof.
  split.
  - intros maxSize minSize users p s g Hmax Hp Hr Hg. apply (new_pool_inv _ _ users) in Hp as Hi.
    apply (runs_inv _ _ _ _ Hr) in Hi as Hi'. apply (waiters_runs _ _ _ Hr Hi) in Hg.
    + apply used_or_pooled; [|apply Hi']. intros E. pose proof (pi_count _ _ Hi') as Hc.
      pose proof (pi_max _ _ Hi') as Hm. rewrite E in Hc. cbn in Hc. lia.
    + intros h Hh. apply lookup_replicate in Hh as [? _]. done.
  - exists (starved Checking). split_and!; [|reflexivity|done|].
    + eexists. split; [reflexivity|]. apply (do_events_reach starving_events). reflexivity.
    + intros s' Hr. apply starved_stays in Hr as (c & _ & ->); [done|]. exists Checking. by split; [left|].
Qed.

(** ** A concrete pool *)

Definition pool_in_use : Runners :=
  default (starved Ticking) (do_events (take 8 starving_events)
    (runners_start 2 (default (starved Ticking).(rs_pool) (NewRunnerPool 1 0)))).

Lemma runners_are_bounded_and_exclusive_witness :
  pool_in_use.(rs_users) !! 0 = Some (Using 0) ∧
  pool_in_use.(rs_pool).(rp_activeRunnersCount) = Z.of_nat (length (runners pool_in_use)) ∧
  0 ∉ pool_in_use.(rs_pool).(rp_pool).
Proof.
  pose proof (runners_are_bounded_and_exclusive 1 0 2 pool_in_use) as Hb.
  destruct Hb as (Hc & _ & _ & Hin & _).
  - eexists. split; [reflexivity|]. apply (do_events_reach (take 8 starving_events)). reflexivity.
  - split; [reflexivity|]. split; [exact Hc|]. by apply (Hin 0).
Defined.
