(* ===== verification/Migrations.v ===== *)
(** The migrations of a partition's database: where the files are
    (internal/sql/migrations.go) and which of them are run, in which order, and
    what is left when one fails (internal/cluster/partition/migrations.go).

    The embedded files, the operating system, and the answers of the database
    are parameters. *)
From S2P Require Import Prelude ZenErr Monad World Pages.
From Stdlib Require Import Ascii.
From stdpp Require Import sorting.

#[local] Open Scope string_scope.
#[local] Open Scope list_scope.

(** ** Strings and paths *)

Definition has_suffix (suffix s : string) : bool :=
  (String.length suffix <=? String.length s)%nat &&
  (String.substring (String.length s - String.length suffix) (String.length suffix) s =? suffix).

(** strings.Replace with one replacement. *)
Fixpoint replace_first (old new s : string) : string :=
  if String.prefix old s
  then new +:+ String.substring (String.length old) (String.length s - String.length old) s
  else match s with EmptyString => EmptyString | String c s' => String c (replace_first old new s') end.

Definition IsAbs (path : string) : bool := String.prefix "/" path.

(** filepath.Clean: the elements that are left, in reverse. *)
Definition clean_step (rooted : bool) (out : list string) (element : string) : list string :=
  if (element =? "") || (element =? ".") then out
  else if element =? ".." then
    match out with
    | last :: out' => if last =? ".." then element :: out else out'
    | [] => if rooted then [] else [element]
    end
  else element :: out.

Definition clean_elements (path : string) : list string :=
  rev (foldl (clean_step (IsAbs path)) [] (Split "/"%char path)).

Definition path_of (rooted : bool) (elements : list string) : string :=
  if rooted then "/" +:+ String.concat "/" elements
  else match elements with [] => "." | _ => String.concat "/" elements end.

Definition Clean (path : string) : string := path_of (IsAbs path) (clean_elements path).

(** filepath.Join of two elements that are not empty. *)
Definition path_Join (a b : string) : string := Clean (a +:+ "/" +:+ b).

(** filepath.Rel of absolute paths, by their elements. *)
Fixpoint rel_elements (base target : list string) : list string :=
  match base, target with
  | b :: base', t :: target' => if b =? t then rel_elements base' target' else ((λ _, "..") <$> base) ++ target
  | _, _ => ((λ _, "..") <$> base) ++ target
  end.
Definition Rel (base target : string) : string := path_of false (rel_elements (clean_elements base) (clean_elements target)).

(** ** The files (internal/sql/migrations.go) *)

Definition DefaultMigrationsDir : string := "internal/sql/migrations".
Definition embeddedMigrationsDir : string := "migrations".
Definition migrationsInitFilename : string := "0000_init.up.sql".

Record DirEntry := { de_Name : string; de_IsDir : bool }.
Record MigrationData := { Filename : string; MigrationSQL : string }.

(** The embedded files and the operating system; [fs_Caller] is the absolute path of the
    source, [fs_HasGoMod] tells whether a directory holds a go.mod. *)
Record Files := {
  embedded_ReadDir : string → result (list DirEntry);
  embedded_ReadFile : string → result string;
  os_ReadDir : string → result (list DirEntry);
  os_ReadFile : string → result string;
  is_NotExist : error → bool;
  fs_Caller : option string;
  fs_HasGoMod : string → bool
}.

Section files.
Context (fs : Files).

Definition shouldUseEmbeddedMigrations (migrationDir : string) : bool :=
  if migrationDir =? "" then false else Clean migrationDir =? Clean DefaultMigrationsDir.

(** The directories from the file of the source upwards, as reversed elements. *)
Fixpoint project_root_from (reversed : list string) : result string :=
  let dir := path_of true (rev reversed) in
  if fs.(fs_HasGoMod) dir then Good dir
  else match reversed with
       | [] => Bad (err! "go.mod not found")
       | _ :: parent => project_root_from parent
       end.

Definition findProjectRoot : result string :=
  match fs.(fs_Caller) with
  | None => Bad (err! "failed to get caller file")
  | Some file => project_root_from (tail (rev (clean_elements file)))
  end.

Definition filesystemMigrationDir (migrationDir : string) : result string :=
  if migrationDir =? "" then Good ""
  else
    let normalizedDir := Clean migrationDir in
    if IsAbs normalizedDir then Good normalizedDir
    else match findProjectRoot with
         | Bad e => Bad (errw! "failed to find project root: %w" [e])
         | Good projectRoot =>
             let resolvedDir := path_Join projectRoot normalizedDir in
             let relToRoot := Rel projectRoot resolvedDir in
             if (relToRoot =? "..") || String.prefix "../" relToRoot
             then Bad (err! "migration directory %s escapes project root %s")
             else Good resolvedDir
         end.

(** A directory that does not exist has no entries. *)
Definition readMigrationDir (migrationDir : string) : result (list DirEntry) :=
  if shouldUseEmbeddedMigrations migrationDir then
    match fs.(embedded_ReadDir) embeddedMigrationsDir with
    | Good entries => Good entries
    | Bad e => Bad (errw! "failed to read embedded migration directory %s: %w" [e])
    end
  else
    match filesystemMigrationDir migrationDir with
    | Bad e => Bad e
    | Good filesystemDir =>
        if filesystemDir =? "" then Good []
        else match fs.(os_ReadDir) filesystemDir with
             | Good entries => Good entries
             | Bad e => if fs.(is_NotExist) e then Good []
                        else Bad (errw! "failed to read filesystem migration directory %s: %w" [e])
             end
    end.

(** A file that does not exist is empty. *)
Definition readMigrationFile (migrationDir filename : string) : result string :=
  if shouldUseEmbeddedMigrations migrationDir then
    match fs.(embedded_ReadFile) (path_Join embeddedMigrationsDir filename) with
    | Good content => Good content
    | Bad e => if fs.(is_NotExist) e then Good ""
               else Bad (errw! "failed to read embedded migration file %s: %w" [e])
    end
  else
    match filesystemMigrationDir migrationDir with
    | Bad e => Bad e
    | Good filesystemDir =>
        if filesystemDir =? "" then Good ""
        else match fs.(os_ReadFile) (path_Join filesystemDir filename) with
             | Good content => Good content
             | Bad e => if fs.(is_NotExist) e then Good ""
                        else Bad (errw! "failed to read filesystem migration file %s: %w" [e])
             end
    end.

Definition is_up (f : DirEntry) : bool := negb f.(de_IsDir) && has_suffix ".up.sql" f.(de_Name).

Definition GetUpMigrations (migrationDir : string) : result (list MigrationData) :=
  match readMigrationDir migrationDir with
  | Bad e => Bad (errw! "failed to read migration directory: %w" [e])
  | Good entries =>
      result_map (λ f,
        match readMigrationFile migrationDir f.(de_Name) with
        | Bad e => Bad (errw! "failed to read %s: %w" [e])
        | Good content => Good {| Filename := f.(de_Name); MigrationSQL := content |}
        end) (filter (λ f, is_up f = true) entries)
  end.

(** The pointer that is returned is never nil: a missing file is an empty
    rollback. *)
Definition GetRollbackMigration (migrationDir migrationFilename : string) : result (option MigrationData) :=
  let rollbackFilename := replace_first ".up.sql" ".down.sql" migrationFilename in
  match readMigrationFile migrationDir rollbackFilename with
  | Bad e => Bad (errw! "failed to read rollback file %s: %w" [e])
  | Good content => Good (Some {| Filename := rollbackFilename; MigrationSQL := content |})
  end.

Definition GetMigrationInitSql (migrationDir : string) : result (option string) :=
  match readMigrationFile migrationDir migrationsInitFilename with
  | Bad e => Bad (errw! "failed to read migration init file %s: %w" [e])
  | Good content => Good (Some content)
  end.
End files.

(** ** Running them (internal/cluster/partition/migrations.go) *)

(** What the database answers to a statement (an error, or per statement a
    result with the text of an error, or nil) and to the two queries of the
    table of migrations. *)
Class MigrationStore (X : Type) := {
  mig_Execute : string → ST X (list (option string));
  mig_Applied : ST X (list string);
  mig_Save : string → Z → ST X unit
}.

Definition filename_le (a b : MigrationData) : Prop := (a.(Filename) <=? b.(Filename)) = true.
#[export] Instance filename_le_total : Total filename_le.
Proof. intros a b. apply String.leb_total. Qed.
#[export] Instance filename_le_trans : Transitive filename_le.
Proof. intros a b c. unfold filename_le. apply string_leb_trans. Qed.
#[export] Instance filename_le_dec : RelDecision filename_le.
Proof. intros a b. unfold filename_le. apply _. Defined.

Definition filterPendingMigrations (fileMigrations : list MigrationData) (appliedMigrations : list string)
    : list MigrationData :=
  merge_sort filename_le (filter (λ m, m.(Filename) ∉ appliedMigrations) fileMigrations).

Section run.
Context {X : Type} `{MigrationStore X} (fs : Files) (migrationDir : string) (now : Z).

(** Only the first result is looked at. *)
Definition executeSQLStatement (statementSQL : string) : ST X unit :=
  results ← mig_Execute statementSQL;
  match results with
  | [] | None :: _ => mret tt
  | Some executeErr :: _ => if executeErr =? "" then mret tt else throw (Errorf executeErr [])
  end.

Definition ensureMigrationTable : ST X unit :=
  init ← of_result (GetMigrationInitSql fs migrationDir);
  match init with
  | None => throw (err! "failed to create migration table, failed to read migration init file")
  | Some createTableSQL =>
      wrap (λ e, errw! "failed to create migration table: %w" [e]) (executeSQLStatement createTableSQL)
  end.

Definition loadPendingMigrations : ST X (list MigrationData) :=
  fileMigrations ← wrap_result (λ e, errw! "failed to read migrations: %w" [e]) (GetUpMigrations fs migrationDir);
  appliedMigrations ← wrap (λ e, errw! "failed to read applied migrations: %w" [e]) mig_Applied;
  mret (filterPendingMigrations fileMigrations appliedMigrations).

Definition executeUpMigration (migration : MigrationData) : ST X unit :=
  wrap (λ e, errw! "failed to execute migration %s: %w" [e]) (executeSQLStatement migration.(MigrationSQL)).

Definition executeRollbackMigration (migration : MigrationData) : ST X unit :=
  rollbackMigration ← wrap_result (λ e, errw! "failed to read rollback migration: %w" [e])
    (GetRollbackMigration fs migrationDir migration.(Filename));
  match rollbackMigration with
  | None => mret tt
  | Some rollback =>
      wrap (λ e, errw! "failed to execute rollback migration %s: %w" [e])
        (executeSQLStatement rollback.(MigrationSQL))
  end.

(** An error of the rollback hides the one of the migration. *)
Definition executeSingleMigration (migration : MigrationData) : ST X unit :=
  r ← attempt (executeUpMigration migration);
  match r with
  | Bad migrationErr => executeRollbackMigration migration ;; throw migrationErr
  | Good _ =>
      wrap (λ e, errw! "failed to save migration info: %w" [e]) (mig_Save migration.(Filename) now)
  end.

Definition RunMigrations : ST X unit :=
  ensureMigrationTable ;;
  pendingMigrations ← loadPendingMigrations;
  for_each pendingMigrations executeSingleMigration.
End run.

(** ** What a run leaves *)

(** A statement that counts as successful. *)
Definition succeeded (o : outcome (list (option string))) : bool :=
  match o with
  | Ret (Some executeErr :: _) => executeErr =? ""
  | Ret _ => true
  | _ => false
  end.

(** A database: [applied] are the names in the table of migrations, [executed]
    the scripts that were run with success.  A script does not write the table;
    a request that fails leaves it alone. *)
Class MigrationLaws (X : Type) `{MigrationStore X} (applied executed : X → list string) := {
  law_execute s x o x' : mig_Execute s x = (o, x') → returns o →
    applied x' = applied x ∧ executed x' = executed x ++ (if succeeded o then [s] else []);
  law_get x o x' : mig_Applied x = (o, x') → returns o → x' = x ∧ ∀ l, o = Ret l → l = applied x;
  law_save n t x o x' : mig_Save n t x = (o, x') → returns o →
    executed x' = executed x ∧ applied x' = applied x ++ (match o with Ret _ => [n] | _ => [] end)
}.

Section laws.
Context {X : Type} `{MigrationStore X} (applied executed : X → list string) `{!MigrationLaws X applied executed}.
Context (fs : Files) (migrationDir : string).
Abbreviation single := (executeSingleMigration fs migrationDir).

Lemma execute_runs s x o x' :
  executeSQLStatement s x = (o, x') → returns o →
  applied x' = applied x ∧ executed x' = executed x ++ (match o with Ret _ => [s] | _ => [] end).
Proof.
  unfold executeSQLStatement, mbind, ST_bind. destruct (mig_Execute s x) as [o1 x1] eqn:E.
  pose proof (law_execute s x o1 x1 E) as Hl. destruct o1 as [[|[t|] l]|e|?| |]; cbn in *.
  - intros [= <- <-] _. by apply Hl.
  - destruct (t =? "") eqn:Et; intros [= <- <-] _; by apply Hl.
  - intros [= <- <-] _. by apply Hl.
  - intros [= <- <-] _. by apply Hl.
  - by intros [= <- <-].
  - by intros [= <- <-].
  - by intros [= <- <-].
Qed.

Lemma wrap_execute f s x o x' :
  wrap f (executeSQLStatement s) x = (o, x') → returns o →
  applied x' = applied x ∧ executed x' = executed x ++ (match o with Ret _ => [s] | _ => [] end).
Proof.
  unfold wrap, mbind, ST_bind, attempt. destruct (executeSQLStatement s x) as [o1 x1] eqn:E.
  pose proof (execute_runs s x o1 x1 E) as Hl. destruct o1 as [[]|e|?| |]; cbn; intros [= <- <-] Hr; try done; by apply Hl.
Qed.

Lemma single_Ret now m x u x' :
  single now m x = (Ret u, x') → applied x' = applied x ++ [m.(Filename)] ∧ executed x' = executed x ++ [m.(MigrationSQL)].
Proof.
  intros (r & x1 & E1 & E)%bind_Ret. destruct r as [[]|e]; [|by apply bind_Ret in E as (?&?&_&E)].
  apply attempt_Ret_Good, wrap_execute in E1 as [Ha1 Hx1]; [|done].
  unfold wrap in E. apply bind_Ret in E as (r & x2 & E2 & E). destruct r as [[]|]; [|done]. injection E as _ <-.
  apply attempt_Ret_Good, law_save in E2 as [Hx2 Ha2]; [|done]. rewrite Ha2, Hx2, Ha1, Hx1. done.
Qed.

(** A migration that fails is not entered into the table; its script was run
    only when the entry itself failed. *)
Lemma single_Err now m x e x' :
  single now m x = (Err e, x') → applied x' = applied x ∧
  (executed x' = executed x ∨ executed x' = executed x ++ [m.(MigrationSQL)] ∨
   ∃ rollback, GetRollbackMigration fs migrationDir m.(Filename) = Good (Some rollback) ∧
     executed x' = executed x ++ [rollback.(MigrationSQL)]).
Proof.
  unfold executeSingleMigration, mbind, ST_bind, attempt. destruct (executeUpMigration m x) as [o1 x1] eqn:E1.
  pose proof (wrap_execute _ _ _ _ _ E1) as Hl. destruct o1 as [[]|e1|?| |]; try done.
  - destruct (Hl I) as [Ha1 Hx1]. unfold wrap, mbind, ST_bind, attempt.
    destruct (mig_Save (Filename m) now x1) as [o2 x2] eqn:E2. pose proof (law_save _ _ _ _ _ E2) as Hs.
    destruct o2 as [[]|e2|?| |]; cbn; try done. intros [= <- <-]. destruct (Hs I) as [Hx2 Ha2].
    split; [by rewrite Ha2, app_nil_r|]. right; left. by rewrite Hx2, Hx1.
  - destruct (Hl I) as [Ha1 Hx1]. unfold executeRollbackMigration, mbind, ST_bind.
    rewrite app_nil_r in Hx1. destruct (GetRollbackMigration _ _ _) as [[rollback|]|e2] eqn:Er; cbn.
    + destruct (wrap _ _ x1) as [o2 x2] eqn:E2. pose proof (wrap_execute _ _ _ _ _ E2) as Hr.
      destruct o2 as [[]|e2|?| |]; cbn; try done; intros [= <- <-]; destruct (Hr I) as [Ha2 Hx2];
        (split; [by rewrite Ha2, Ha1|]).
      * right; right. exists rollback. split; [done|]. by rewrite Hx2, Hx1.
      * left. by rewrite Hx2, Hx1, app_nil_r.
    + intros [= <- <-]. split; [done|by left].
    + intros [= <- <-]. split; [done|by left].
Qed.

Lemma loop_Ret now l x u x' :
  for_each l (single now) x = (Ret u, x') →
  applied x' = applied x ++ (Filename <$> l) ∧ executed x' = executed x ++ (MigrationSQL <$> l).
Proof.
  revert x. induction l as [|m l IH]; intros x; cbn [for_each].
  - intros [= _ <-]. by rewrite !app_nil_r.
  - intros ([] & x1 & [Ha1 Hx1]%single_Ret & [Ha2 Hx2]%IH)%bind_Ret.
    rewrite Ha2, Hx2, Ha1, Hx1, <- !(assoc_L (++)). done.
Qed.

Lemma loop_Err now l x e x' :
  for_each l (single now) x = (Err e, x') →
  ∃ finished m rest x1, l = finished ++ m :: rest ∧ for_each finished (single now) x = (Ret tt, x1) ∧ single now m x1 = (Err e, x').
Proof.
  revert x. induction l as [|m l IH]; intros x; cbn [for_each]; [done|].
  unfold mbind, ST_bind at 1. destruct (single now m x) as [o x1] eqn:E. destruct o as [[]|e1|?| |]; try done.
  - intros (finished & m' & rest & x2 & -> & E2 & E3)%IH. exists (m :: finished), m', rest, x2.
    split; [done|]. split; [|done]. cbn [for_each]. by erewrite (bind_step (single now m)).
  - intros [= <- <-]. by exists [], m, l, x.
Qed.

(** *** The pending migrations *)

Lemma pending_sorted files names : StronglySorted filename_le (filterPendingMigrations files names).
Proof. apply StronglySorted_merge_sort; apply _. Qed.

Lemma pending_Permutation files names :
  filterPendingMigrations files names ≡ₚ filter (λ m, m.(Filename) ∉ names) files.
Proof. apply merge_sort_Permutation. Qed.

#[local] Instance string_leb_antisym : AntiSymm (=) (λ a b : string, (a <=? b) = true).
Proof. intros a b. apply String.leb_antisym. Qed.

Lemma names_sorted (l : list MigrationData) :
  StronglySorted filename_le l → StronglySorted (λ a b : string, (a <=? b) = true) (Filename <$> l).
Proof.
  induction 1 as [|m l Hl IH Hm]; cbn; constructor; [done|]. rewrite Forall_fmap. exact Hm.
Qed.

(** After the first ones of the pending migrations the others are pending. *)
Lemma pending_rest files names finished rest :
  NoDup (Filename <$> files) → filterPendingMigrations files names = finished ++ rest →
  Filename <$> filterPendingMigrations files (names ++ (Filename <$> finished)) = Filename <$> rest.
Proof.
  intros Hnd Hp. pose proof (pending_sorted files names) as Hs. rewrite Hp in Hs.
  pose proof (pending_Permutation files names) as Hperm. rewrite Hp in Hperm.
  assert (Hnd' : NoDup (Filename <$> (finished ++ rest))).
  { rewrite Hperm. eapply sublist_NoDup; [exact Hnd|]. apply fmap_sublist, sublist_filter. }
  apply (StronglySorted_unique (λ a b : string, (a <=? b) = true)).
  - apply names_sorted, pending_sorted.
  - apply names_sorted. by apply StronglySorted_app_1_r in Hs.
  - rewrite pending_Permutation.
    assert (Hf : filter (λ m, m.(Filename) ∉ names ++ (Filename <$> finished)) files ≡ₚ
                 filter (λ m, m.(Filename) ∉ Filename <$> finished) (filter (λ m, m.(Filename) ∉ names) files)).
    { rewrite list_filter_filter. apply reflexive_eq, list_filter_iff. intros m. rewrite elem_of_app. tauto. }
    rewrite Hf, <- Hperm, filter_app.
    rewrite fmap_app in Hnd'. apply NoDup_app in Hnd' as (_ & Hdis & _).
    rewrite filter_none, filter_all; [done| |]; intros m Hm.
    + intros Hin. apply (Hdis m.(Filename)); [done|]. by apply list_elem_of_fmap_2.
    + intros Hin. apply Hin. by apply list_elem_of_fmap_2.
Qed.

(** *** Runs *)

Lemma ensure_runs x o x' :
  ensureMigrationTable fs migrationDir x = (o, x') → returns o →
  applied x' = applied x ∧
  match o with
  | Ret _ => ∃ init, GetMigrationInitSql fs migrationDir = Good (Some init) ∧ executed x' = executed x ++ [init]
  | _ => executed x' = executed x
  end.
Proof.
  unfold ensureMigrationTable, mbind, ST_bind. destruct (GetMigrationInitSql fs migrationDir) as [[init|]|e] eqn:Ei; cbn.
  - intros E Hr. apply wrap_execute in E as [Ha Hx]; [|done]. split; [done|].
    destruct o; try done; [by exists init|by rewrite Hx, app_nil_r].
  - by intros [= <- <-] _.
  - by intros [= <- <-] _.
Qed.

Lemma load_runs x o x' :
  loadPendingMigrations fs migrationDir x = (o, x') → returns o →
  x' = x ∧ ∀ l, o = Ret l → ∃ files, GetUpMigrations fs migrationDir = Good files ∧
    l = filterPendingMigrations files (applied x).
Proof.
  unfold loadPendingMigrations, mbind, ST_bind. destruct (GetUpMigrations fs migrationDir) as [files|e]; cbn.
  - unfold wrap, mbind, ST_bind, attempt. destruct (mig_Applied x) as [o1 x1] eqn:E.
    pose proof (law_get _ _ _ E) as Hg. destruct o1 as [names|e|?| |]; cbn; intros [= <- <-] Hr; try done.
    + destruct (Hg I) as [-> Hn]. split; [done|]. intros l [= <-]. exists files. by rewrite (Hn names eq_refl).
    + by destruct (Hg I) as [-> _].
  - by intros [= <- <-] _.
Qed.

(** C15: the migrations of a partition: a run that succeeds has run the script
    that makes the table of migrations and then the script of every migration
    that was not in the table, each of them once and in the order of the file
    names, and has entered exactly these; running again runs no script but the
    first one. *)
Theorem migrations_run_once_in_order now x x' :
  RunMigrations fs migrationDir now x = (Ret tt, x') →
  ∃ init files pending, GetMigrationInitSql fs migrationDir = Good (Some init) ∧
    GetUpMigrations fs migrationDir = Good files ∧
    pending ≡ₚ filter (λ m, m.(Filename) ∉ applied x) files ∧ StronglySorted filename_le pending ∧
    executed x' = executed x ++ init :: (MigrationSQL <$> pending) ∧
    applied x' = applied x ++ (Filename <$> pending) ∧
    ∀ later x'', RunMigrations fs migrationDir later x' = (Ret tt, x'') →
      executed x'' = executed x' ++ [init] ∧ applied x'' = applied x'.
Proof.
  assert (Hrun : ∀ now y y', RunMigrations fs migrationDir now y = (Ret tt, y') →
    ∃ init files, GetMigrationInitSql fs migrationDir = Good (Some init) ∧ GetUpMigrations fs migrationDir = Good files ∧
      executed y' = executed y ++ init :: (MigrationSQL <$> filterPendingMigrations files (applied y)) ∧
      applied y' = applied y ++ (Filename <$> filterPendingMigrations files (applied y))).
  { intros t y y' ([] & y1 & E1 & (l & y2 & E2 & E3)%bind_Ret)%bind_Ret.
    apply ensure_runs in E1 as (Ha & init & Hi & Hx); [|done].
    apply load_runs in E2 as [-> Hl]; [|done]. destruct (Hl l eq_refl) as (files & Hf & ->).
    apply (loop_Ret t) in E3 as [Ha3 Hx3]. exists init, files. split_and!; [done|done| |].
    - by rewrite Hx3, Hx, <- (assoc_L (++)), Ha.
    - by rewrite Ha3, Ha. }
  intros (init & files & Hi & Hf & Hx & Ha)%Hrun. exists init, files, (filterPendingMigrations files (applied x)).
  split_and!; [done|done|apply pending_Permutation|apply pending_sorted|done|done|].
  intros later x'' (init' & files' & Hi' & Hf' & Hx' & Ha')%Hrun.
  rewrite Hi in Hi'. rewrite Hf in Hf'. injection Hi' as <-. injection Hf' as <-.
  assert (Hnil : filterPendingMigrations files (applied x') = []).
  { apply Permutation_nil_r. rewrite pending_Permutation. apply reflexive_eq, filter_none. intros m Hm Hn. apply Hn.
    rewrite Ha, elem_of_app, pending_Permutation.
    destruct (decide (m.(Filename) ∈ applied x)); [by left|right].
    apply list_elem_of_fmap_2, list_elem_of_filter. done. }
  rewrite Hnil in Hx', Ha'. split; [exact Hx'|by rewrite Ha', app_nil_r].
Qed.

(** A migration that fails: when a run returns an error, the migrations
    before the one that failed are entered and those from it on are not, so the
    next run starts with it; when it was the entry that failed, the script was
    run and the next run runs it again. *)
Theorem failed_migration_is_first_of_next_run now x e x' :
  RunMigrations fs migrationDir now x = (Err e, x') →
  applied x' = applied x ∨
  ∃ init files finished m rest, GetUpMigrations fs migrationDir = Good files ∧
    filterPendingMigrations files (applied x) = finished ++ m :: rest ∧
    applied x' = applied x ++ (Filename <$> finished) ∧
    (NoDup (Filename <$> files) →
     Filename <$> filterPendingMigrations files (applied x') = m.(Filename) :: (Filename <$> rest)) ∧
    (executed x' = executed x ++ init :: (MigrationSQL <$> finished) ∨
     executed x' = executed x ++ init :: (MigrationSQL <$> finished ++ [m]) ∨
     ∃ rollback, GetRollbackMigration fs migrationDir m.(Filename) = Good (Some rollback) ∧
       executed x' = executed x ++ init :: (MigrationSQL <$> finished ++ [rollback])).
Proof.
  unfold RunMigrations, mbind, ST_bind at 1. destruct (ensureMigrationTable _ _ x) as [o1 x1] eqn:E1.
  pose proof (ensure_runs _ _ _ E1) as He. destruct o1 as [[]|e1|?| |]; try done.
  - destruct (He I) as (Ha1 & init & _ & Hx1). unfold ST_bind.
    destruct (loadPendingMigrations _ _ x1) as [o2 x2] eqn:E2. pose proof (load_runs _ _ _ E2) as Hl.
    destruct o2 as [l|e2|?| |]; try done.
    + destruct (Hl I) as [-> Hl2]. destruct (Hl2 l eq_refl) as (files & Hf & ->).
      intros (finished & m & rest & x3 & Hp & [Ha3 Hx3]%loop_Ret & [Ha4 Hx4]%single_Err)%loop_Err. right.
      rewrite Ha1 in Hp. exists init, files, finished, m, rest.
      assert (Ha : applied x' = applied x ++ (Filename <$> finished)) by (by rewrite Ha4, Ha3, Ha1).
      split_and!; [done|done|done| |].
      * intros Hnd. rewrite Ha. by rewrite (pending_rest files (applied x) finished (m :: rest)).
      * setoid_rewrite fmap_app. cbn [fmap list_fmap].
        destruct Hx4 as [Hx4|[Hx4|(rollback & Hr & Hx4)]]; rewrite Hx3, Hx1, <- !(assoc_L (++)) in Hx4;
          [by left|right; by left|right; right; by exists rollback].
    + destruct (Hl I) as [-> _]. intros [= _ <-]. by left.
  - destruct (He I) as (Ha1 & _). intros [= _ <-]. by left.
Qed.
End laws.

(** ** A concrete database *)

(** The scripts that were run and the names in the table; the script [fails]
    fails. *)
Record ExampleDB := { ex_executed : list string; ex_applied : list string }.

#[local] Instance ExampleDB_store : MigrationStore ExampleDB := {|
  mig_Execute s db :=
    if s =? "fails" then (Ret [Some "syntax error"], db)
    else (Ret [Some ""], {| ex_executed := db.(ex_executed) ++ [s]; ex_applied := db.(ex_applied) |});
  mig_Applied db := (Ret db.(ex_applied), db);
  mig_Save n _ db := (Ret tt, {| ex_executed := db.(ex_executed); ex_applied := db.(ex_applied) ++ [n] |}) |}.

#[local] Instance ExampleDB_laws : MigrationLaws ExampleDB ex_applied ex_executed.
Proof.
  split.
  - intros s db o db'. cbn. destruct (s =? "fails"); intros [= <- <-] _; cbn; by rewrite ?app_nil_r.
  - intros db o db' [= <- <-] _. split; [done|]. by intros l [= <-].
  - intros n t db o db' [= <- <-] _. done.
Qed.

(** The embedded files; the second migration fails. *)
Definition example_files (second : string) : Files := {|
  embedded_ReadDir _ := Good [ {| de_Name := "0002_b.up.sql"; de_IsDir := false |};
    {| de_Name := "0002_b.down.sql"; de_IsDir := false |}; {| de_Name := "0000_init.up.sql"; de_IsDir := false |} ];
  embedded_ReadFile path :=
    if path =? "migrations/0000_init.up.sql" then Good "create"
    else if path =? "migrations/0002_b.up.sql" then Good second
    else if path =? "migrations/0002_b.down.sql" then Good "undo" else Bad ErrNotFound;
  os_ReadDir _ := Bad ErrNotFound; os_ReadFile _ := Bad ErrNotFound; is_NotExist := is_ErrNotFound;
  fs_Caller := None; fs_HasGoMod _ := false |}.

Definition new_db : ExampleDB := {| ex_executed := []; ex_applied := [] |}.
Definition migrated (second : string) : outcome unit * ExampleDB :=
  RunMigrations (example_files second) "./internal/sql/migrations/" 0 new_db.

Lemma migrations_run_once_in_order_witness :
  (migrated "alter").1 = Ret tt ∧
  ∃ pending, pending ≡ₚ filter (λ m, m.(Filename) ∉ @nil string)
      [ {| Filename := "0002_b.up.sql"; MigrationSQL := "alter" |};
        {| Filename := "0000_init.up.sql"; MigrationSQL := "create" |} ] ∧
    (migrated "alter").2.(ex_executed) = "create" :: (MigrationSQL <$> pending) ∧
    (migrated "alter").2.(ex_applied) = Filename <$> pending.
Proof.
  split; [vm_compute; reflexivity|].
  destruct (migrations_run_once_in_order ex_applied ex_executed (example_files "alter") "./internal/sql/migrations/" 0
    new_db (migrated "alter").2) as (init & files & pending & Hi & Hf & Hp & _ & Hx & Ha & _);
    [vm_compute; reflexivity|].
  vm_compute in Hi, Hf. injection Hi as <-. injection Hf as <-. exists pending. split_and!; [exact Hp|exact Hx|exact Ha].
Defined.

Lemma failed_migration_is_first_of_next_run_witness :
  (migrated "fails").2.(ex_executed) = ["create"; "create"; "undo"] ∧
  (migrated "fails").2.(ex_applied) = ["0000_init.up.sql"] ∧
  ∃ finished : list MigrationData, ["0000_init.up.sql"] = Filename <$> finished.
Proof.
  split; [vm_compute; reflexivity|]. split; [vm_compute; reflexivity|].
  assert (Ha : (migrated "fails").2.(ex_applied) = ["0000_init.up.sql"]) by (vm_compute; reflexivity).
  destruct (failed_migration_is_first_of_next_run ex_applied ex_executed (example_files "fails")
    "./internal/sql/migrations/" 0 new_db
    (errw! "failed to execute migration %s: %w" [err! "syntax error"]) (migrated "fails").2)
    as [H|(init & files & finished & m & rest & _ & _ & H & _)]; [vm_compute; reflexivity| |].
  - rewrite Ha in H. done.
  - exists finished. rewrite <- Ha. exact H.
Defined.
