(* ===== verification/Bootstrap.v ===== *)
(** Forming a cluster: a new node joins an existing cluster through one of the
    addresses it was given, or tells all of them that it exists, until some node
    knows the expected number of nodes and forms the cluster
    (internal/cluster/join.go and bootstrap.go, with the handlers Join and Notify
    of internal/cluster/server/server.go and the requests of the raft store).

    The clock and the end of the context are events and oracles; a node that
    cannot be reached has no store. *)
From S2P Require Import Prelude ZenErr Monad ClusterState Fsm ClusterStore JobClient.

#[local] Open Scope string_scope.
#[local] Open Scope list_scope.

Definition ErrNodeIDRequired : error := err! "node required".
Definition ErrJoinFailed : error := err! "failed to join cluster".
Definition ErrJoinCanceled : error := err! "join operation canceled".
Definition ErrBootCanceled : error := err! "boot operation canceled".
Definition ErrBootTimeout : error := err! "boot timeout".

Inductive BootStatus := BootUnknown | BootJoin | BootDone | BootTimeout | BootCanceled.

(** The state of the node that starts, as far as booting sees it: its client
    manager, the stores of the nodes it can reach (by client), how often the
    context was asked, and how often a node was asked to let it join. *)
Record BootWorld := {
  bw_client : ClientManager;
  bw_stores : gmap Z Store;
  bw_asked : nat;
  bw_joins : nat
}.

Section boot.
Context `{Dial} (resolvableAddress : string → option error).
Context (iter : ∀ (A : Type), gmap string A → list (string * A)).
Context (Marshal : Command → option error).
(** Whether the context is done at the n-th look. *)
Context (cancelled : nat → bool).

(** ** The cluster server *)

Definition server_Notify (id address : string) : ST Store unit :=
  wrap (λ e, errw! "failed to notify store: %w" [e]) (Notify resolvableAddress iter id address).

Definition server_Join (id address : string) (voter : bool) : ST Store unit :=
  wrap (λ e, errw! "failed to notify store: %w" [e]) (Join Marshal resolvableAddress id address voter).

Definition call_store (client : Z) (m : ST Store unit) : ST BootWorld unit := λ w,
  match w.(bw_stores) !! client with
  | None => (Err (err! "rpc error"), w)
  | Some s =>
      let '(o, s') := m s in
      (o, {| bw_client := w.(bw_client); bw_stores := <[client := s']> w.(bw_stores);
             bw_asked := w.(bw_asked); bw_joins := w.(bw_joins) |})
  end.

Definition boot_client (targetAddr : string) : ST BootWorld Z :=
  zoom bw_client (λ c w, {| bw_client := c; bw_stores := w.(bw_stores); bw_asked := w.(bw_asked);
                            bw_joins := w.(bw_joins) |}) (For targetAddr).

(** ** Joining *)

Definition ctx_done : ST BootWorld bool := λ w,
  (Ret (cancelled w.(bw_asked)),
   {| bw_client := w.(bw_client); bw_stores := w.(bw_stores); bw_asked := S w.(bw_asked); bw_joins := w.(bw_joins) |}).

Definition count_join : ST BootWorld unit := modify (λ w,
  {| bw_client := w.(bw_client); bw_stores := w.(bw_stores); bw_asked := w.(bw_asked); bw_joins := S w.(bw_joins) |}).

Definition join (targetAddr id addr : string) (voter : bool) : ST BootWorld string :=
  count_join ;;
  client ← wrap (λ e, errw! "failed to create client for %s: %w" [e]) (boot_client targetAddr);
  wrap (λ e, errw! "failed to call Join on %s: %w" [e]) (call_store client (server_Join id addr voter)) ;;
  mret targetAddr.

(** One attempt: [None] when no address let the node join. *)
Fixpoint join_targets (targetAddrs : list string) (id addr : string) (voter : bool) : ST BootWorld (option string) :=
  match targetAddrs with
  | [] => mret None
  | ta :: targetAddrs' =>
      stop ← ctx_done;
      if (stop : bool) then throw ErrJoinCanceled
      else
        r ← attempt (join ta id addr voter);
        match r with
        | Good joinee => mret (Some joinee)
        | Bad _ => join_targets targetAddrs' id addr voter
        end
  end.

(** Between two attempts the goroutine sleeps or the context ends. *)
Fixpoint join_attempts (attempts : nat) (targetAddrs : list string) (id addr : string) (voter : bool)
    : ST BootWorld string :=
  match attempts with
  | O => throw ErrJoinFailed
  | S attempts' =>
      r ← join_targets targetAddrs id addr voter;
      match r, attempts' with
      | Some joinee, _ => mret joinee
      | None, O => throw ErrJoinFailed
      | None, _ =>
          stop ← ctx_done;
          if (stop : bool) then throw ErrJoinCanceled else join_attempts attempts' targetAddrs id addr voter
      end
  end.

Definition Joiner_Do (numAttempts : Z) (targetAddrs : list string) (id addr : string) (voter : bool)
    : ST BootWorld string :=
  if (id =? "")%string then throw ErrNodeIDRequired
  else join_attempts (Z.to_nat numAttempts) targetAddrs id addr voter.

(** ** Booting *)

Definition numJoinAttempts : Z := 1.

(** The loop stops at the first address that cannot be notified. *)
Definition notify (targets : list string) (id raftAddr : string) : ST BootWorld unit :=
  for_each targets (λ t,
    client ← wrap (λ e, errw! "failed to create client for %s: %s" []) (boot_client t);
    wrap (λ e, errw! "failed to notify node at %s: %s" []) (call_store client (server_Notify id raftAddr))).

(** What the loop of Boot waits for, with what the rest of the cluster did in
    the meantime. *)
Inductive BootEvent := CtxDone | TimeoutFires | TickFires.

(** One turn of the loop; [None] is the next one.  [done] is the function given
    to Boot, [Lookup] the address provider. *)
Definition boot_turn (done : BootWorld → bool) (Lookup : result (list string)) (id raftAddr : string)
    (voter : bool) (e : BootEvent) : ST BootWorld (option (BootStatus * option error)) :=
  match e with
  | CtxDone =>
      finished ← gets done;
      mret (Some (if (finished : bool) then (BootDone, None) else (BootCanceled, Some ErrBootCanceled)))
  | TimeoutFires => mret (Some (BootTimeout, Some ErrBootTimeout))
  | TickFires =>
      finished ← gets done;
      if (finished : bool) then mret (Some (BootDone, None))
      else
        let targets := match Lookup with Good targets => targets | Bad _ => [] end in
        match targets with
        | [] => mret None
        | _ =>
            r ← attempt (Joiner_Do numJoinAttempts targets id raftAddr voter);
            match r with
            | Good _ => mret (Some (BootJoin, None))
            | Bad _ =>
                if (voter : bool) then _ ← attempt (notify targets id raftAddr); mret None
                else mret None
            end
        end
  end.

(** The events in the order they come; [NoFuel] when the loop still waits. *)
Fixpoint Boot (done : BootWorld → bool) (Lookup : result (list string)) (id raftAddr : string) (voter : bool)
    (events : list ((BootWorld → BootWorld) * BootEvent)) : ST BootWorld (BootStatus * option error) :=
  match events with
  | [] => nofuel
  | (others, e) :: events' =>
      modify others ;;
      r ← boot_turn done Lookup id raftAddr voter e;
      match r with
      | Some answer => mret answer
      | None => Boot done Lookup id raftAddr voter events'
      end
  end.

(** ** What StartZenNode does (internal/cluster/node.go) *)

(** A node with a configuration starts as it is. *)
Definition enter_cluster (nodes : list Node) (JoinAddresses : list string) (BootstrapExpect JoinAttempts : Z)
    (done : BootWorld → bool) (id addr : string) (NonVoter : bool)
    (events : list ((BootWorld → BootWorld) * BootEvent)) : ST BootWorld unit :=
  match nodes, JoinAddresses with
  | _ :: _, _ | [], [] => mret tt
  | [], _ =>
      if (BootstrapExpect =? 0)%Z then
        wrap (λ e, errw! "failed to join cluster: %s" [])
          (Joiner_Do JoinAttempts JoinAddresses id addr (negb NonVoter)) ;;
        mret tt
      else if (0 <? BootstrapExpect)%Z then
        r ← Boot done (Good JoinAddresses) id addr (negb NonVoter) events;
        match snd r with
        | Some e => throw (err! "failed to bootstrap cluster: %s")
        | None => mret tt
        end
      else mret tt
  end.

(** ** Every call ends *)

Definition total {S A} (m : ST S A) : Prop := ∀ s, returns (m s).1.

Lemma total_bind {S A B} (m : ST S A) (f : A → ST S B) : total m → (∀ a, total (f a)) → total (m ≫= f).
Proof.
  intros Hm Hf s. specialize (Hm s). unfold mbind, ST_bind. destruct (m s) as [[a|e|?| |] s1]; try done. apply Hf.
Qed.
Lemma total_attempt {S A} (m : ST S A) : total m → total (attempt m).
Proof. intros Hm s. specialize (Hm s). unfold attempt. by destruct (m s) as [[]]. Qed.
Lemma total_of_result {S A} (r : result A) : total (S := S) (of_result r).
Proof. by destruct r. Qed.
Lemma total_wrap {S A} f (m : ST S A) : total m → total (wrap f m).
Proof. intros Hm. apply total_bind; [by apply total_attempt|]. by intros []. Qed.
Lemma total_for_each {S A} (l : list A) (f : A → ST S unit) : (∀ x, total (f x)) → total (for_each l f).
Proof. intros Hf. induction l as [|x l IH]; [done|]. by apply total_bind. Qed.

Create HintDb total.
#[local] Hint Resolve total_bind total_attempt total_of_result total_wrap total_for_each : total.
Ltac total :=
  repeat match goal with
  | |- total (_ ≫= _) => apply total_bind; [|intros ?]
  | |- total (attempt _) => apply total_attempt
  | |- total (wrap _ _) => apply total_wrap
  | |- total (of_result _) => apply total_of_result
  | |- total (for_each _ _) => apply total_for_each; intros ?
  | |- total (match ?x with _ => _ end) => destruct x
  | |- total _ => first [assumption|intros ?; exact I]
  end.

Lemma total_join_loop id addr servers : total (join_loop Marshal id addr servers).
Proof.
  induction servers as [|srv servers IH]; cbn [join_loop]; [by intros s|].
  destruct (_ || _)%bool; [|done]. destruct (_ && _)%bool; [by intros s|]. apply total_bind; [|done].
  unfold remove, shutdownNode, WriteNodeChange, write_command. total.
Qed.

Lemma total_server_Join id addr voter : total (server_Join id addr voter).
Proof. unfold server_Join, Join. total. apply total_join_loop. Qed.

Lemma total_server_Notify id addr : total (server_Notify id addr).
Proof. unfold server_Notify, Notify. total. Qed.

Lemma total_call_store client m : total m → total (call_store client m).
Proof. intros Hm w. unfold call_store. destruct (_ !! client) as [s|]; [|done]. specialize (Hm s). by destruct (m s). Qed.

Lemma total_boot_client a : total (boot_client a).
Proof.
  intros w. unfold boot_client, zoom. assert (Ht : total (For a)) by (unfold For, newClient, wrap_result; total).
  specialize (Ht w.(bw_client)). by destruct (For a _).
Qed.

Lemma total_join a id addr voter : total (join a id addr voter).
Proof. unfold join. total; [apply total_boot_client|apply total_call_store, total_server_Join]. Qed.

Lemma total_join_targets l id addr voter : total (join_targets l id addr voter).
Proof.
  induction l as [|ta l IH]; cbn [join_targets]; total. apply total_join.
Qed.

Lemma total_Joiner_Do n l id addr voter : total (Joiner_Do n l id addr voter).
Proof.
  unfold Joiner_Do. destruct (_ =? _)%string; [by intros w|]. induction (Z.to_nat n) as [|k IH]; cbn [join_attempts]; [by intros w|].
  apply total_bind; [apply total_join_targets|]. intros [a|]; [by intros w|]. destruct k as [|k]; [by intros w|]. total.
Qed.

(** ** Joining *)

Lemma boot_client_keeps a w o w' :
  boot_client a w = (o, w') → w'.(bw_joins) = w.(bw_joins) ∧ w'.(bw_stores) = w.(bw_stores).
Proof. unfold boot_client, zoom. destruct (For a _) as [o1 c]. by intros [= <- <-]. Qed.

Lemma call_store_joins client m w o w' : call_store client m w = (o, w') → w'.(bw_joins) = w.(bw_joins).
Proof.
  unfold call_store. destruct (_ !! client) as [s|]; [|by intros [= <- <-]].
  destruct (m s) as [o1 s1]. by intros [= <- <-].
Qed.

Lemma wrap_state {S A} f (m : ST S A) s o s' : wrap f m s = (o, s') → ∃ o1, m s = (o1, s').
Proof.
  unfold wrap, mbind, ST_bind, attempt. destruct (m s) as [[] s1]; cbn; intros [= <- <-]; by eexists.
Qed.

Lemma join_counts a id addr voter w o w' : join a id addr voter w = (o, w') → w'.(bw_joins) = S w.(bw_joins).
Proof.
  intros E. unfold join in E. erewrite (bind_step count_join) in E by reflexivity.
  set (w1 := {| bw_client := _; bw_joins := _ |}) in E. change (S (bw_joins w)) with (bw_joins w1). clearbody w1.
  unfold mbind, ST_bind in E. destruct (wrap _ (boot_client a) w1) as [o2 w2] eqn:E2.
  apply wrap_state in E2 as [o2' [H2 _]%boot_client_keeps].
  destruct o2 as [client|e|?| |]; try by (injection E as <- <-).
  destruct (wrap _ (call_store _ _) w2) as [o3 w3] eqn:E3. apply wrap_state in E3 as [o3' H3%call_store_joins].
  destruct o3 as [[]|e|?| |]; injection E as <- <-; congruence.
Qed.

Lemma ctx_done_run w : ctx_done w = (Ret (cancelled w.(bw_asked)),
  {| bw_client := w.(bw_client); bw_stores := w.(bw_stores); bw_asked := S w.(bw_asked); bw_joins := w.(bw_joins) |}).
Proof. reflexivity. Qed.

(** What an attempt, or a whole join, may answer. *)
Definition joined (targets : list string) (id addr : string) (voter : bool) (a : string) (w' : BootWorld) : Prop :=
  a ∈ targets ∧ ∃ w1, join a id addr voter w1 = (Ret a, w').

Lemma join_returns_target a id addr voter w x w' : join a id addr voter w = (Ret x, w') → x = a.
Proof. intros (?&?&_&(?&?&_&(?&?&_&[= <- _])%bind_Ret)%bind_Ret)%bind_Ret. done. Qed.

Lemma join_targets_spec l id addr voter w o w' :
  join_targets l id addr voter w = (o, w') →
  match o with
  | Ret (Some a) => joined l id addr voter a w'
  | Ret None => w'.(bw_joins) = w.(bw_joins) + length l
  | Err e => e = ErrJoinCanceled ∧ ∃ n, cancelled n = true
  | _ => False
  end.
Proof.
  revert w. induction l as [|ta l IH]; intros w; cbn [join_targets].
  - intros [= <- <-]. cbn. lia.
  - erewrite (bind_step ctx_done) by apply ctx_done_run. destruct (cancelled (bw_asked w)) eqn:Ec.
    { intros [= <- <-]. split; [done|]. by eexists. }
    set (w1 := {| bw_client := _ |}). change (bw_joins w) with (bw_joins w1). clearbody w1.
    unfold mbind, ST_bind, attempt. pose proof (total_join ta id addr voter w1) as Ht.
    destruct (join ta id addr voter w1) as [o2 w2] eqn:E2. pose proof (join_counts _ _ _ _ _ _ _ E2) as Hj.
    destruct o2 as [a|e|?| |]; try done.
    + intros [= <- <-]. pose proof (join_returns_target _ _ _ _ _ _ _ E2) as ->.
      split; [by left|]. by exists w1.
    + intros E. apply IH in E. destruct o as [[a|]|e'|?| |]; try done.
      * destruct E as [Hin Hw]. split; [by right|done].
      * cbn [length]. lia.
Qed.

Lemma join_attempts_spec n l id addr voter w o w' :
  join_attempts n l id addr voter w = (o, w') →
  match o with
  | Ret a => joined l id addr voter a w'
  | Err e => e = ErrJoinCanceled ∧ (∃ k, cancelled k = true) ∨
             e = ErrJoinFailed ∧ w'.(bw_joins) = w.(bw_joins) + n * length l
  | _ => False
  end.
Proof.
  revert w. induction n as [|n IH]; intros w; cbn [join_attempts].
  - intros [= <- <-]. right. split; [done|lia].
  - unfold mbind, ST_bind at 1. destruct (join_targets l id addr voter w) as [o1 w1] eqn:E1.
    apply join_targets_spec in E1. destruct o1 as [[a|]|e|?| |]; try done.
    + by intros [= <- <-].
    + destruct n as [|n].
      { intros [= <- <-]. right. split; [done|lia]. }
      unfold ST_bind. rewrite ctx_done_run. destruct (cancelled (bw_asked w1)) eqn:Ec.
      { intros [= <- <-]. left. split; [done|by eexists]. }
      intros E. apply IH in E. destruct o as [a|e|?| |]; try done.
      destruct E as [E|[-> E]]; [by left|right]. split; [done|]. cbn in E |- *. lia.
    + intros [= <- <-]. by left.
Qed.

Lemma joiner_spec numAttempts targets id addr voter w :
  match Joiner_Do numAttempts targets id addr voter w with
  | (Ret a, w') => joined targets id addr voter a w'
  | (Err e, w') =>
      id = "" ∧ e = ErrNodeIDRequired ∧ w' = w ∨
      e = ErrJoinCanceled ∧ (∃ k, cancelled k = true) ∨
      e = ErrJoinFailed ∧ w'.(bw_joins) = w.(bw_joins) + Z.to_nat numAttempts * length targets
  | _ => False
  end.
Proof.
  unfold Joiner_Do. destruct (String.eqb_spec id "") as [->|Hne]; [by left|].
  destruct (join_attempts _ _ _ _ _ w) as [o w'] eqn:E. apply join_attempts_spec in E.
  destruct o; try done. by right.
Qed.

(** The store of a leader that let a node join: it was a member, or the library
    accepted the request to add it. *)
Definition let_join (id addr : string) (voter : bool) (s s' : Store) : Prop :=
  s.(s_open) = true ∧ s.(s_raft).(rf_is_leader) = true ∧
  ∃ servers, s.(s_raft).(rf_GetConfiguration) = Good servers ∧
    ((∃ srv, srv ∈ servers ∧ srv.(srv_ID) = id ∧ srv.(srv_Address) = addr) ∨
     ∃ before, s'.(s_raft).(rf_requests) = before ++ [add_server voter id addr] ∧
       s'.(s_raft).(rf_request) (add_server voter id addr) = None).

Lemma join_loop_member id addr servers s s' :
  join_loop Marshal id addr servers s = (Ret true, s') →
  ∃ srv, srv ∈ servers ∧ srv.(srv_ID) = id ∧ srv.(srv_Address) = addr.
Proof.
  revert s. induction servers as [|srv servers IH]; intros s; cbn [join_loop]; [done|].
  destruct (_ || _)%bool; [destruct (_ && _)%bool eqn:E|].
  - intros _. propify. exists srv. split; [by left|done].
  - intros ([] & s1 & _ & (srv' & ? & ?)%IH)%bind_Ret. exists srv'. split; [by right|done].
  - intros (srv' & ? & ?)%IH. exists srv'. split; [by right|done].
Qed.

Lemma server_Join_Ret id addr voter s s' : server_Join id addr voter s = (Ret tt, s') → let_join id addr voter s s'.
Proof.
  intros E%wrap_Ret. unfold Join in E. erewrite (bind_step get) in E by reflexivity.
  destruct (s_open s) eqn:Eo; [|done]. destruct (rf_is_leader (s_raft s)) eqn:El; [|done]. cbn [negb] in E.
  destruct (resolvableAddress addr); [done|].
  apply bind_Ret in E as (servers & s1 & E1 & E). destruct (rf_GetConfiguration _) as [l|] eqn:Ec; [|done].
  injection E1 as <- <-. split; [done|]. split; [done|]. exists l. split; [done|].
  apply bind_Ret in E as (member & s2 & E2 & E). destruct member; [left; by eapply join_loop_member|].
  right. erewrite (bind_step (raft_request _)) in E by reflexivity.
  destruct (rf_request (s_raft s2) (add_server voter id addr)) as [e|] eqn:Er;
    [by destruct (is_error _ _)|].
  cbn in E. injection E as <-. by exists (rf_requests (s_raft s2)).
Qed.

Lemma join_Ret a id addr voter w x w' :
  join a id addr voter w = (Ret x, w') →
  ∃ client s s', w.(bw_stores) !! client = Some s ∧ w'.(bw_stores) = <[client := s']> w.(bw_stores) ∧
    w'.(bw_client).(cm_activeClients) !! a = Some client ∧ let_join id addr voter s s'.
Proof.
  intros E. unfold join in E. erewrite (bind_step count_join) in E by reflexivity.
  set (w1 := {| bw_client := _; bw_joins := _ |}) in E.
  change (bw_stores w) with (bw_stores w1). clearbody w1.
  apply bind_Ret in E as (client & w2 & E2%wrap_Ret & E). apply bind_Ret in E as ([] & w3 & E3%wrap_Ret & [= _ <-]).
  pose proof (boot_client_keeps _ _ _ _ E2) as [_ Hst].
  unfold boot_client, zoom in E2. destruct (For a _) as [o c] eqn:Ef. injection E2 as -> <-. cbn in Hst.
  assert (Hc : c.(cm_activeClients) !! a = Some client).
  { unfold For in Ef. erewrite (bind_step get) in Ef by reflexivity.
    destruct (cm_activeClients (bw_client w1) !! a) as [cl|] eqn:Ea; [by injection Ef as <- <-|].
    unfold newClient in Ef. apply bind_Ret in Ef as (g & c1 & Eg & Ef). destruct (rpc_NewClient a); [|done].
    injection Eg as <- <-. injection Ef as <- <-. apply lookup_insert_eq. }
  unfold call_store in E3. cbn in E3. destruct (bw_stores w1 !! client) as [s|] eqn:Es; [|done].
  destruct (server_Join id addr voter s) as [o s'] eqn:Ej. injection E3 as -> <-.
  exists client, s, s'. split_and!; [done|done|done|by apply server_Join_Ret].
Qed.

(** Joining a cluster: an attempt to join always ends, and its result is
    either an address of the list, whose node is a leader that just added the
    new node or had it as a member; or the error that the context ended, which
    it did; or the error that joining failed, after every address was asked in
    every attempt; or the error that the node has no id. *)
Theorem joiner_asks_every_address numAttempts targets id addr voter w :
  match Joiner_Do numAttempts targets id addr voter w with
  | (Ret a, w') => a ∈ targets ∧
      ∃ w1 client s s', w1.(bw_stores) !! client = Some s ∧ w'.(bw_stores) = <[client := s']> w1.(bw_stores) ∧
        w'.(bw_client).(cm_activeClients) !! a = Some client ∧ let_join id addr voter s s'
  | (Err e, w') =>
      id = "" ∧ e = ErrNodeIDRequired ∧ w' = w ∨
      e = ErrJoinCanceled ∧ (∃ k, cancelled k = true) ∨
      e = ErrJoinFailed ∧ w'.(bw_joins) = w.(bw_joins) + Z.to_nat numAttempts * length targets
  | _ => False
  end.
Proof.
  pose proof (joiner_spec numAttempts targets id addr voter w) as Hj.
  destruct (Joiner_Do _ _ _ _ _ w) as [[a|e|?| |] w']; try done.
  destruct Hj as [Hin (w1 & E)]. split; [done|]. exists w1. by eapply join_Ret.
Qed.

(** ** Booting *)

Definition ends_boot (e : BootEvent) : bool := match e with TickFires => false | _ => true end.

Lemma boot_turn_spec done Lookup id raftAddr voter e w o w' :
  boot_turn done Lookup id raftAddr voter e w = (o, w') →
  match o with
  | Ret (Some (status, err)) =>
      match status with
      | BootJoin => err = None ∧ ∃ targets a, Lookup = Good targets ∧ joined targets id raftAddr voter a w'
      | BootDone => err = None ∧ done w = true
      | BootCanceled => err = Some ErrBootCanceled ∧ e = CtxDone ∧ done w = false
      | BootTimeout => err = Some ErrBootTimeout ∧ e = TimeoutFires
      | BootUnknown => False
      end
  | Ret None => ends_boot e = false
  | _ => False
  end.
Proof.
  destruct e; cbn [boot_turn].
  - intros E. unfold mbind, ST_bind, gets in E. destruct (done w) eqn:Ed; injection E as <- <-; by split_and!.
  - by intros [= <- <-].
  - intros E. unfold mbind, ST_bind at 1, gets in E. destruct (done w) eqn:Ed; [by injection E as <- <-|].
    destruct Lookup as [[|t targets]|e]; [by injection E as <- <-| |by injection E as <- <-].
    unfold mbind, ST_bind at 1, attempt in E.
    pose proof (joiner_spec numJoinAttempts (t :: targets) id raftAddr voter w) as Hj.
    destruct (Joiner_Do _ _ _ _ _ w) as [o1 w1]. destruct o1 as [a|e|?| |]; try done.
    + injection E as <- <-. split; [done|]. by exists (t :: targets), a.
    + destruct voter; [|by injection E as <- <-]. unfold ST_bind in E.
      assert (Hn : total (notify (t :: targets) id raftAddr)).
      { unfold notify. total; [apply total_boot_client|apply total_call_store, total_server_Notify]. }
      specialize (Hn w1). destruct (notify _ _ _ w1) as [[]]; by inversion E.
Qed.

(** C38: booting ends: as soon as the context ends or the timeout fires, at the
    latest, Boot returns; it returns nil exactly with the status that the node
    joined, when a node of the addresses let it join, or that booting is done,
    when the function it was given said so; a timeout and a cancellation are
    the only errors. *)
Theorem boot_ends done Lookup id raftAddr voter events w :
  (∃ e, e ∈ events ∧ ends_boot e.2 = true) →
  ∃ status err w', Boot done Lookup id raftAddr voter events w = (Ret (status, err), w') ∧
    match status with
    | BootJoin => err = None ∧ ∃ targets a, Lookup = Good targets ∧ joined targets id raftAddr voter a w'
    | BootDone => err = None ∧ ∃ w0, done w0 = true
    | BootCanceled => err = Some ErrBootCanceled ∧ CtxDone ∈ events.*2
    | BootTimeout => err = Some ErrBootTimeout ∧ TimeoutFires ∈ events.*2
    | BootUnknown => False
    end.
Proof.
  revert w. induction events as [|[others e] events IH]; intros w (x & Hin & Hx); [by apply elem_of_nil in Hin|].
  cbn [Boot]. erewrite (bind_step (modify others)) by reflexivity. unfold mbind, ST_bind.
  destruct (boot_turn done Lookup id raftAddr voter e (others w)) as [o w1] eqn:E. apply boot_turn_spec in E.
  destruct o as [[[status err]|]|?|?| |]; try done.
  - exists status, err, w1. split; [done|]. destruct status; try done.
    + destruct E as [-> Hd]. split; [done|]. by exists (others w).
    + destruct E as [-> ->]. split; [done|]. by left.
    + destruct E as (-> & -> & _). split; [done|]. by left.
  - apply elem_of_cons in Hin as [->|Hin]; [cbn in Hx; by rewrite E in Hx|].
    destruct (IH w1) as (status & err & w' & Er & Hs); [by exists x|]. exists status, err, w'. split; [exact Er|].
    destruct status; try done; destruct Hs as [? ?]; (split; [done|by right]).
Qed.

(** ** Forming the cluster *)

Definition notify_all (notices : list (string * string)) : ST Store unit :=
  for_each notices (λ n, server_Notify n.1 n.2).

(** The notices of nodes that were not [seen] before, each node once. *)
Fixpoint new_notices (seen : list string) (notices : list (string * string)) : list (string * string) :=
  match notices with
  | [] => []
  | n :: notices' =>
      if decide (n.1 ∈ seen) then new_notices seen notices' else n :: new_notices (n.1 :: seen) notices'
  end.

Definition notice_server (n : string * string) : Server :=
  {| srv_Suffrage := Voter; srv_ID := n.1; srv_Address := n.2 |}.

(** A store that waits for nodes. *)
Definition awaits_nodes (s : Store) : Prop :=
  s.(s_open) = true ∧ (0 < s.(s_bootstrapExpect))%Z ∧ s.(s_bootstrapped) = false ∧ HasLeader s = false.

Lemma wrap_Ret_step {S A} f (m : ST S A) s a s' : m s = (Ret a, s') → wrap f m s = (Ret a, s').
Proof. apply wrap_run. Qed.

Lemma notify_bootstrapped n s :
  s.(s_open) = true → s.(s_bootstrapped) = true → server_Notify n.1 n.2 s = (Ret tt, s).
Proof.
  intros Ho Hb. apply wrap_run. unfold Notify. erewrite (bind_step get) by reflexivity. rewrite Ho, Hb. cbn [negb].
  by rewrite orb_true_r.
Qed.

Lemma notify_seen n s :
  awaits_nodes s → is_Some (s.(s_notifyingNodes) !! n.1) → server_Notify n.1 n.2 s = (Ret tt, s).
Proof.
  intros (Ho & He & Hb & Hl) Hs. apply wrap_run. unfold Notify. erewrite (bind_step get) by reflexivity.
  rewrite Ho, Hb, Hl. cbn [negb]. destruct (s_bootstrapExpect s =? 0)%Z eqn:E; [propify; lia|]. cbn.
  by rewrite bool_decide_true.
Qed.

Definition with_notice (n : string * string) (s : Store) : Store :=
  set_s_notify s.(s_bootstrapped) (<[n.1 := notice_server n]> s.(s_notifyingNodes)) s.

Lemma notify_new n s :
  awaits_nodes s → s.(s_notifyingNodes) !! n.1 = None → resolvableAddress n.2 = None →
  let nodes := <[n.1 := notice_server n]> s.(s_notifyingNodes) in
  ∃ s', server_Notify n.1 n.2 s = (Ret tt, s') ∧
    if (Z.of_nat (size nodes) <? s.(s_bootstrapExpect))%Z then s' = with_notice n s
    else s'.(s_open) = true ∧ s'.(s_bootstrapped) = true ∧
      s'.(s_raft).(rf_requests) = s.(s_raft).(rf_requests) ++ [BootstrapCluster (iter Server nodes).*2].
Proof.
  intros (Ho & He & Hb & Hl) Hn Hr nodes.
  assert (E : Notify resolvableAddress iter n.1 n.2 s =
    if (Z.of_nat (size nodes) <? s.(s_bootstrapExpect))%Z then (Ret tt, with_notice n s)
    else (_ ← raft_request (BootstrapCluster (iter Server nodes).*2); modify (set_s_notify true nodes)) (with_notice n s)).
  { unfold Notify. erewrite (bind_step get) by reflexivity. rewrite Ho, Hb, Hl. cbn [negb].
    destruct (s_bootstrapExpect s =? 0)%Z eqn:E; [propify; lia|]. cbn [orb].
    rewrite bool_decide_false by (rewrite Hn; by intros [? ?]). rewrite Hr.
    erewrite (bind_step (modify _)) by reflexivity. unfold with_notice. rewrite Hb. fold (notice_server n). fold nodes.
    by destruct (_ <? _)%Z. }
  destruct (_ <? _)%Z.
  - exists (with_notice n s). split; [by apply wrap_run|done].
  - eexists. split; [apply wrap_run; rewrite E; reflexivity|]. cbn. done.
Qed.

Lemma notify_all_bootstrapped notices s :
  s.(s_open) = true → s.(s_bootstrapped) = true → notify_all notices s = (Ret tt, s).
Proof.
  intros Ho Hb. induction notices as [|n notices IH]; [done|]. unfold notify_all. cbn [for_each].
  erewrite (bind_step (server_Notify _ _)) by (by apply notify_bootstrapped). exact IH.
Qed.

Context (iter_perm : ∀ A (m : gmap string A), iter A m ≡ₚ map_to_list m).

Lemma notify_all_from notices s :
  awaits_nodes s → (Z.of_nat (size s.(s_notifyingNodes)) < s.(s_bootstrapExpect))%Z →
  Forall (λ n, resolvableAddress n.2 = None) notices → ∀ seen, (∀ id, id ∈ seen ↔ is_Some (s.(s_notifyingNodes) !! id)) →
  ∃ s', notify_all notices s = (Ret tt, s') ∧
    let new := new_notices seen notices in
    let missing := Z.to_nat s.(s_bootstrapExpect) - size s.(s_notifyingNodes) in
    if decide (missing ≤ length new)%nat
    then ∃ servers, servers ≡ₚ (map_to_list s.(s_notifyingNodes)).*2 ++ (notice_server <$> take missing new) ∧
      s'.(s_raft).(rf_requests) = s.(s_raft).(rf_requests) ++ [BootstrapCluster servers]
    else s'.(s_raft).(rf_requests) = s.(s_raft).(rf_requests).
Proof.
  revert s. induction notices as [|n notices IH]; intros s Ha Hlt Hr seen Hseen.
  - exists s. split; [done|]. cbn. rewrite decide_False by lia. done.
  - apply Forall_cons in Hr as [Hn Hr]. unfold notify_all. cbn [for_each new_notices].
    destruct (decide (n.1 ∈ seen)) as [Hin|Hnin].
    { erewrite (bind_step (server_Notify _ _)) by (apply notify_seen; [done|by apply Hseen]).
      by apply IH. }
    assert (Hnone : s.(s_notifyingNodes) !! n.1 = None).
    { destruct (_ !! n.1) eqn:E; [|done]. exfalso. apply Hnin, Hseen. rewrite E. by eexists. }
    destruct (notify_new n s Ha Hnone Hn) as (s1 & E1 & H1).
    erewrite (bind_step (server_Notify _ _)) by exact E1. rewrite map_size_insert_None in H1 by done.
    destruct (_ <? _)%Z eqn:Es; propify.
    + subst s1. destruct (IH (with_notice n s)) with (seen := n.1 :: seen) as (s' & E' & H').
      * destruct Ha as (? & ? & ? & Hl). by split_and!.
      * cbn. rewrite map_size_insert_None by done. lia.
      * done.
      * intros id. cbn. rewrite elem_of_cons, lookup_insert_is_Some', Hseen.
        split; (intros [?|?]; [by left|by right]).
      * exists s'. split; [exact E'|]. cbn in H' |- *. rewrite map_size_insert_None in H' by done.
        remember (Z.to_nat (s_bootstrapExpect s) - size (s_notifyingNodes s)) as missing eqn:Em.
        replace (Z.to_nat (s_bootstrapExpect s) - S (size (s_notifyingNodes s))) with (missing - 1) in H' by lia.
        assert (Hm : missing = S (missing - 1)) by lia.
        destruct (decide (missing - 1 ≤ _)%nat) as [Hle|Hgt].
        -- rewrite decide_True by lia. destruct H' as (servers & Hp & Hx). exists servers. split; [|exact Hx].
           rewrite Hp, map_to_list_insert by done. rewrite Hm at 2. cbn. by rewrite Permutation_middle.
        -- rewrite decide_False by lia. exact H'.
    + destruct H1 as (Ho & Hb & Hx). exists s1. split; [by apply notify_all_bootstrapped|]. cbn.
      assert (Hm : Z.to_nat (s_bootstrapExpect s) - size (s_notifyingNodes s) = 1) by lia. rewrite Hm.
      rewrite decide_True by lia. eexists. split; [|exact Hx].
      rewrite iter_perm, map_to_list_insert by done. cbn. by rewrite Permutation_app_comm.
Qed.

(** C9: forming a cluster: a store that expects k nodes and is told of nodes,
    in any order and any number of times, asks the library to bootstrap exactly
    once: when it is told of the k-th different node, with the first k nodes as
    voters; before and after that, and with fewer than k different nodes, it
    asks for nothing. *)
Theorem cluster_is_formed_once notices s :
  awaits_nodes s → s.(s_notifyingNodes) = ∅ → Forall (λ n, resolvableAddress n.2 = None) notices →
  ∃ s', notify_all notices s = (Ret tt, s') ∧
    let new := new_notices [] notices in
    let expected := Z.to_nat s.(s_bootstrapExpect) in
    if decide (expected ≤ length new)%nat
    then ∃ servers, servers ≡ₚ notice_server <$> take expected new ∧
      s'.(s_raft).(rf_requests) = s.(s_raft).(rf_requests) ++ [BootstrapCluster servers]
    else s'.(s_raft).(rf_requests) = s.(s_raft).(rf_requests).
Proof.
  intros Ha Hempty Hr. destruct (notify_all_from notices s Ha) with (seen := @nil string) as (s' & E & H').
  - rewrite Hempty, map_size_empty. destruct Ha as (_ & ? & _). lia.
  - done.
  - intros id. rewrite Hempty, lookup_empty. split; [by intros ?%elem_of_nil|by intros [? ?]].
  - exists s'. split; [exact E|]. cbn in H' |- *. rewrite Hempty, map_size_empty, Nat.sub_0_r in H'.
    by rewrite map_to_list_empty in H'.
Qed.
End boot.

(** ** A concrete cluster *)

Section concrete.
#[local] Instance dial_to_one : Dial := {| rpc_NewClient _ := Good 1%Z |}.
Definition resolves (addr : string) : option error := None.
Definition marshals (c : Command) : option error := None.
Definition never (n : nat) : bool := false.
Definition by_id (A : Type) (m : gmap string A) : list (string * A) := map_to_list m.

(** Node [a] is open, has no leader yet and expects two nodes. *)
Definition lonely_raft : Raft :=
  {| rf_is_leader := false; rf_Leader := ""; rf_LeaderWithID := ("", ""); rf_GetConfiguration := Good [];
     rf_Apply := λ _, {| fut_Error := None; fut_Response := None |}; rf_request := λ _, None;
     rf_CommitIndex := 0; rf_LocalAddr := "10.0.0.1:8090"; rf_log := []; rf_requests := [] |}.
Definition awaiting_store : Store :=
  {| s_cfg := {| ReapTimeout := 0; ReapReadOnlyTimeout := 0; NodeHearbeatShutdownTimeout := 2 |};
     s_open := true; s_bootstrapExpect := 2; s_bootstrapped := false; s_notifyingNodes := ∅; s_raftID := "a";
     s_state := New_state; s_observer := true; s_notifications := 0; s_appliedTarget := 0; s_raft := lonely_raft |}.

Definition three_nodes : list (string * string) := [("a", "10.0.0.1:8090"); ("a", "10.0.0.1:8090"); ("b", "10.0.0.2:8090");
  ("c", "10.0.0.3:8090")].

Lemma cluster_is_formed_once_witness : ∃ s' servers, notify_all resolves by_id three_nodes awaiting_store = (Ret tt, s') ∧
  servers ≡ₚ [notice_server ("a", "10.0.0.1:8090"); notice_server ("b", "10.0.0.2:8090")] ∧
  s'.(s_raft).(rf_requests) = [BootstrapCluster servers].
Proof.
  destruct (cluster_is_formed_once resolves by_id (λ A m, reflexivity _) three_nodes awaiting_store) as (s' & E & H').
  - by split_and!.
  - reflexivity.
  - by repeat constructor.
  - exists s'. destruct H' as (servers & Hp & Hx). exists servers. split; [exact E|]. split; [exact Hp|exact Hx].
Defined.

(** The new node [b] ticks twice and then gives up. *)
Definition starting_node : BootWorld :=
  {| bw_client := {| cm_activeClients := ∅ |}; bw_stores := {[1%Z := awaiting_store]}; bw_asked := 0; bw_joins := 0 |}.
Definition boot_events : list ((BootWorld → BootWorld) * BootEvent) :=
  [(id, TickFires); (id, TickFires); (id, TimeoutFires)].

Lemma boot_ends_witness : ∃ status err w',
  Boot resolves by_id marshals never (λ _, false) (Good ["10.0.0.1:8090"]) "b" "10.0.0.2:8090" true boot_events starting_node =
    (Ret (status, err), w') ∧ status = BootTimeout ∧ err = Some ErrBootTimeout ∧ w'.(bw_joins) = 2%nat.
Proof.
  destruct (boot_ends resolves by_id marshals never (λ _, false) (Good ["10.0.0.1:8090"]) "b" "10.0.0.2:8090" true
    boot_events starting_node) as (status & err & w' & E & _).
  - exists (id, TimeoutFires). split; [|reflexivity]. unfold boot_events. set_solver.
  - exists status, err, w'. split; [exact E|].
    assert (Er : ∃ w1, Boot resolves by_id marshals never (λ _, false) (Good ["10.0.0.1:8090"]) "b" "10.0.0.2:8090" true
      boot_events starting_node = (Ret (BootTimeout, Some ErrBootTimeout), w1) ∧ w1.(bw_joins) = 2%nat)
      by (eexists; split; vm_compute; reflexivity).
    destruct Er as (w1 & Er & Hw). rewrite Er in E. injection E as <- <- <-. by split_and!.
Defined.
End concrete.
