(* ===== verification/Driver.v ===== *)
(** Values on their way to and from the database: how the arguments of a query
    become parameters of a statement (DB.generateStatement in
    internal/cluster/partition/partition_persistence.go) and how the values of
    a row are scanned into variables (internal/sql/driver.go).

    [ParseFloat] and [FormatFloat] are those of strconv; numbers are converted
    with the rounding of IEEE 754. *)
From Stdlib Require Import Ascii SpecFloat.
From stdpp Require Import pretty.
From S2P Require Import Prelude Monad Ttl.

#[local] Open Scope string_scope.
#[local] Open Scope list_scope.

(** A value of the protocol; a parameter without a value is NULL. *)
Inductive ParameterValue :=
| Parameter_I (i : Z)
| Parameter_D (d : spec_float)
| Parameter_B (b : bool)
| Parameter_Y (y : list Z)
| Parameter_S (s : string).

Abbreviation Param := (option ParameterValue).

(** An argument of a query, by its type. *)
Inductive Argument :=
| ArgNil
| ArgString (s : string)
| ArgInt64 (i : Z)
| ArgInt32 (i : Z)
| ArgInt (i : Z)
| ArgInts (l : list Z)
| ArgFloat64 (d : spec_float)
| ArgBool (b : bool)
| ArgBytes (y : list Z)
| ArgNullInt64 (o : option Z)
| ArgNullString (o : option string)
| ArgOther (type : string).

(** One round of the loop: the parameters it appends.  An argument of another
    type is a panic in development and in tests, and nothing otherwise. *)
Definition parameter_of (profile_checks : bool) (par : Argument) : option (list Param) :=
  match par with
  | ArgNil => Some [None]
  | ArgString s => Some [Some (Parameter_S s)]
  | ArgInt64 i | ArgInt32 i | ArgInt i => Some [Some (Parameter_I i)]
  | ArgInts l => Some [Some (Parameter_S (String.concat "," (pretty <$> l)))]
  | ArgFloat64 d => Some [Some (Parameter_D d)]
  | ArgBool b => Some [Some (Parameter_B b)]
  | ArgBytes y => Some [Some (Parameter_Y y)]
  | ArgNullInt64 o => Some [Parameter_I <$> o]
  | ArgNullString o => Some [Parameter_S <$> o]
  | ArgOther _ => if profile_checks then None else Some []
  end.

(** [None] is the panic. *)
Fixpoint generateStatement (profile_checks : bool) (parameters : list Argument) : option (list Param) :=
  match parameters with
  | [] => Some []
  | par :: parameters' =>
      ps ← parameter_of profile_checks par;
      rest ← generateStatement profile_checks parameters';
      Some (ps ++ rest)
  end.

(** ** Conversions of the standard library *)

(** int64(x), truncated; outside of the range the result is the one of amd64. *)
Definition int64_of (x : spec_float) : Z :=
  match x with
  | S754_finite sign m e =>
      let n := if (0 <=? e)%Z then (Z.pos m * 2 ^ e)%Z else (Z.pos m / 2 ^ (- e))%Z in
      let z := if (sign : bool) then (- n)%Z else n in
      if ((- 2 ^ 63 <=? z)%Z && (z <? 2 ^ 63)%Z)%bool then z else (- 2 ^ 63)%Z
  | S754_zero _ => 0%Z
  | _ => (- 2 ^ 63)%Z
  end.

(** The digits of a number in base 10; [None] when there is another character. *)
Fixpoint decimal (x : Z) (s : string) : option Z :=
  match s with
  | EmptyString => Some x
  | String c s' => if is_digit c then decimal (x * 10 + (code c - 48))%Z s' else None
  end.

(** strconv.ParseInt in base 10; strconv.Atoi with 64 bits. *)
Definition ParseInt (bits : Z) (s : string) : result Z :=
  let '(negative, digits) :=
    match s with
    | String "-"%char s' => (true, s')
    | String "+"%char s' => (false, s')
    | _ => (false, s)
    end in
  match digits, decimal 0 digits with
  | EmptyString, _ | _, None => Bad (err! "strconv.ParseInt: invalid syntax")
  | _, Some n =>
      let z := if (negative : bool) then (- n)%Z else n in
      if ((- 2 ^ (bits - 1) <=? z)%Z && (z <? 2 ^ (bits - 1))%Z)%bool then Good z
      else Bad (err! "strconv.ParseInt: value out of range")
  end.
Definition Atoi : string → result Z := ParseInt 64.

Definition ParseBool (s : string) : result bool :=
  if existsb (String.eqb s) ["1"; "t"; "T"; "TRUE"; "true"; "True"] then Good true
  else if existsb (String.eqb s) ["0"; "f"; "F"; "FALSE"; "false"; "False"] then Good false
  else Bad (err! "strconv.ParseBool: invalid syntax").

(** ** Scanning *)

(** A variable to scan into, by its type, with its value. *)
Inductive Dest :=
| DestTime (t : Z)
| DestInt (i : Z)
| DestInt32 (i : Z)
| DestInt64 (i : Z)
| DestFloat64 (d : spec_float)
| DestString (s : string)
| DestBool (b : bool)
| DestBytes (y : list Z)
| DestNullString (o : option string)
| DestNullInt64 (o : option Z)
| DestOther (type : string).

Definition bytes_of (s : string) : list Z := code <$> String.list_ascii_of_string s.

Section scan.
Context (ParseFloat : string → result spec_float) (FormatFloat : spec_float → string).

(** The argument of toTime is always a parameter, of none of its cases. *)
Definition toTime (src : Param) : result Z := Bad (err! "invalid time type:%T val:%v").

(** The integers are parsed and then converted. *)
Definition scan_int (bits : Z) (wrap : Z → Z) (src : Param) (old : Z) : result Z :=
  match src with
  | Some (Parameter_I i) => Good (wrap i)
  | Some (Parameter_D d) => Good (wrap (int64_of d))
  | Some (Parameter_S s) => ParseInt bits s
  | None => Good old
  | Some _ => Bad (err! "invalid int col:%d type:%T val:%v")
  end.

Definition scan_float (src : Param) (old : spec_float) : result spec_float :=
  match src with
  | Some (Parameter_D d) => Good d
  | Some (Parameter_I i) => Good (float64 i)
  | Some (Parameter_S s) => ParseFloat s
  | None => Good old
  | Some _ => Bad (err! "invalid float64 col:%d type:%T val:%v")
  end.

Definition scan_string (src : Param) (old : string) : result string :=
  match src with
  | Some (Parameter_S s) => Good s
  | None => Good old
  | Some _ => Bad (err! "invalid string col:%d type:%T val:%v")
  end.

Definition scan_bool (src : Param) (old : bool) : result bool :=
  match src with
  | Some (Parameter_I i) => ParseBool (pretty i)
  | Some (Parameter_D d) => ParseBool (FormatFloat d)
  | Some (Parameter_S s) => ParseBool s
  | None => Good old
  | Some _ => Bad (err! "invalid bool col:%d type:%T val:%v")
  end.

Definition scan_bytes (src : Param) (old : list Z) : result (list Z) :=
  match src with
  | Some (Parameter_Y y) => Good y
  | Some (Parameter_S s) => Good (bytes_of s)
  | None => Good old
  | Some _ => Bad (err! "invalid []byte col:%d type:%T val:%v")
  end.

(** NULL is a value only for these two. *)
Definition scan_NullString (src : Param) : result (option string) :=
  match src with
  | Some (Parameter_S s) => Good (Some s)
  | None => Good None
  | Some _ => Bad (err! "invalid string col:%d type:%T val:%v")
  end.

Definition scan_NullInt64 (src : Param) : result (option Z) :=
  match src with
  | Some (Parameter_D d) => Good (Some (int64_of d))
  | Some (Parameter_I i) => Good (Some i)
  | Some (Parameter_S s) => Some <$> Atoi s
  | None => Good None
  | Some _ => Bad (err! "invalid int64 col:%d type:%T val:%v")
  end.

Definition scan_dest (src : Param) (d : Dest) : result Dest :=
  match d with
  | DestTime t => match toTime src with
                  | Good t => Good (DestTime t)
                  | Bad e => Bad (err! "%v: bad time col:(%d/%s) val:%v")
                  end
  | DestInt i => DestInt <$> scan_int 64 id src i
  | DestInt32 i => DestInt32 <$> scan_int 32 wrap32 src i
  | DestInt64 i => DestInt64 <$> scan_int 64 id src i
  | DestFloat64 x => DestFloat64 <$> scan_float src x
  | DestString s => DestString <$> scan_string src s
  | DestBool b => DestBool <$> scan_bool src b
  | DestBytes y => DestBytes <$> scan_bytes src y
  | DestNullString _ => DestNullString <$> scan_NullString src
  | DestNullInt64 _ => DestNullInt64 <$> scan_NullInt64 src
  | DestOther _ => Bad (err! "unknown destination type (%T) to scan into in variable #%d")
  end.

(** The variables are written one after the other: those before an error keep
    their new values. *)
Fixpoint scan_from (n : nat) (values : list Param) (count : nat) : ST (list Dest) unit :=
  match count with
  | O => mret tt
  | S count' =>
      dest ← get;
      match dest !! n, values !! n with
      | Some d, Some src =>
          d' ← of_result (scan_dest src d);
          modify (λ dest, <[n := d']> dest) ;;
          scan_from (S n) values count'
      | _, _ => panic "index out of range"
      end
  end.

Definition Scan (columns : list string) (values : list Param) : ST (list Dest) unit :=
  dest ← get;
  if bool_decide (length dest = length columns) then scan_from 0 values (length dest)
  else throw (err! "expected %d columns but got %d vars").

(** ** Rows *)

Record Rows := { rw_columns : list string; rw_values : list (list Param); rw_rowNumber : Z }.

Definition ConstructRows (columns : list string) (values : list (list Param)) : Rows :=
  {| rw_columns := columns; rw_values := values; rw_rowNumber := -1 |}.

Definition Rows_Next : ST Rows bool := λ qr,
  if (Z.of_nat (length qr.(rw_values)) - 1 <=? qr.(rw_rowNumber))%Z then (Ret false, qr)
  else (Ret true, {| rw_columns := qr.(rw_columns); rw_values := qr.(rw_values);
                     rw_rowNumber := qr.(rw_rowNumber) + 1 |}).

Definition Rows_Scan (qr : Rows) : ST (list Dest) unit :=
  if (qr.(rw_rowNumber) =? -1)%Z then throw (err! "you need to Next() before you Scan(), sorry, it's complicated")
  else if (Z.of_nat (length qr.(rw_values)) <=? qr.(rw_rowNumber))%Z then throw (err! "no more rows")
  else match qr.(rw_values) !! Z.to_nat qr.(rw_rowNumber) with
       | Some values => Scan qr.(rw_columns) values
       | None => panic "index out of range"
       end.

(** [for rows.Next() { rows.Scan(...) }], with fresh variables in each round. *)
Fixpoint scan_rows (fuel : nat) (fresh : list Dest) (qr : Rows) : outcome (list (list Dest)) :=
  match fuel with
  | O => NoFuel
  | S fuel' =>
      match Rows_Next qr with
      | (Ret true, qr') =>
          match Rows_Scan qr' fresh with
          | (Ret _, dest) =>
              match scan_rows fuel' fresh qr' with
              | Ret rest => Ret (dest :: rest)
              | o => o
              end
          | (Err e, _) => Err e
          | (Panic m, _) => Panic m
          | (Block, _) => Block
          | (NoFuel, _) => NoFuel
          end
      | _ => Ret []
      end
  end.
End scan.

(** ** Round trip *)

(** What the database returns for a parameter it stored in a column of its own
    type.  SQLite has no truth values, it stores the numbers 0 and 1; it stores
    NULL for a real number that is none, and zero for the negative zero. *)
Definition stored_value (v : ParameterValue) : Param :=
  match v with
  | Parameter_B b => Some (Parameter_I (if b then 1 else 0))
  | Parameter_D S754_nan => None
  | Parameter_D (S754_zero _) => Some (Parameter_D (S754_zero false))
  | _ => Some v
  end.
Definition stored (p : Param) : Param := p ≫= stored_value.
Definition stored_row (ps : list Param) : list Param := stored <$> ps.

(** An argument, a variable of the same type, and the variable that holds the
    argument; there is none for NaN, and the negative zero is held as zero. *)
Inductive holds_argument : Argument → Dest → Dest → Prop :=
| holds_string s old : holds_argument (ArgString s) (DestString old) (DestString s)
| holds_int64 i old : holds_argument (ArgInt64 i) (DestInt64 old) (DestInt64 i)
| holds_int32 i old : (- 2 ^ 31 ≤ i < 2 ^ 31)%Z → holds_argument (ArgInt32 i) (DestInt32 old) (DestInt32 i)
| holds_int i old : holds_argument (ArgInt i) (DestInt old) (DestInt i)
| holds_float d old : d ≠ S754_nan → (∀ sign, d ≠ S754_zero sign) →
    holds_argument (ArgFloat64 d) (DestFloat64 old) (DestFloat64 d)
| holds_zero sign old : holds_argument (ArgFloat64 (S754_zero sign)) (DestFloat64 old) (DestFloat64 (S754_zero false))
| holds_bool b old : holds_argument (ArgBool b) (DestBool old) (DestBool b)
| holds_bytes y old : holds_argument (ArgBytes y) (DestBytes old) (DestBytes y)
| holds_NullInt64 o old : holds_argument (ArgNullInt64 o) (DestNullInt64 old) (DestNullInt64 o)
| holds_NullString o old : holds_argument (ArgNullString o) (DestNullString old) (DestNullString o).

Section roundtrip.
Context (ParseFloat : string → result spec_float) (FormatFloat : spec_float → string).

Lemma holds_scan checks a d d' :
  holds_argument a d d' → ∃ p, parameter_of checks a = Some [p] ∧
    scan_dest ParseFloat FormatFloat (stored p) d = Good d'.
Proof.
  destruct 1 as [| |i old Hi| |d old Hn Hz| |b old| |o old|o old]; try (eexists; split; [reflexivity|]; reflexivity).
  - eexists. split; [reflexivity|]. cbn. do 2 f_equal. unfold wrap32. rewrite Z.mod_small; lia.
  - eexists. split; [reflexivity|]. destruct d as [sign|sign| |sign m e]; [by destruct (Hz sign)|done|done|done].
  - eexists. split; [reflexivity|]. by destruct b.
  - eexists. split; [reflexivity|]. by destruct o.
  - eexists. split; [reflexivity|]. by destruct o.
Qed.

Lemma holds_row checks args ds ds' :
  Forall3 holds_argument args ds ds' → ∃ ps, generateStatement checks args = Some ps ∧
    Forall3 (λ p d d', scan_dest ParseFloat FormatFloat (stored p) d = Good d') ps ds ds'.
Proof.
  induction 1 as [|a d d' args ds ds' (p & Ep & Es)%(holds_scan checks) _ (ps & E & Hps)]; [by exists []; split; [|constructor]|].
  exists (p :: ps). cbn. rewrite Ep. cbn. rewrite E. cbn. split; [done|by constructor].
Qed.

Lemma scan_from_done finished values ps ds ds' :
  Forall3 (λ p d d', scan_dest ParseFloat FormatFloat p d = Good d') ps ds ds' →
  length values = length finished →
  scan_from ParseFloat FormatFloat (length finished) (values ++ ps) (length ds) (finished ++ ds) = (Ret tt, finished ++ ds').
Proof.
  intros H. revert finished values. induction H as [|p d d' ps ds ds' Hd _ IH]; intros finished values Hl; [done|].
  cbn [length scan_from]. erewrite (bind_step get) by reflexivity.
  rewrite !list_lookup_middle by done. rewrite Hd. cbn [of_result].
  erewrite (bind_step (mret d')) by reflexivity. erewrite (bind_step (modify _)) by reflexivity.
  rewrite insert_app_r_alt, Nat.sub_diag by lia. cbn [list_insert].
  specialize (IH (finished ++ [d']) (values ++ [p])). rewrite !length_app, Hl, <- !(assoc_L (++)) in IH.
  cbn [app length] in IH. rewrite Nat.add_1_r in IH. by apply IH.
Qed.

Lemma Scan_row columns ps ds ds' :
  Forall3 (λ p d d', scan_dest ParseFloat FormatFloat p d = Good d') ps ds ds' → length columns = length ds →
  Scan ParseFloat FormatFloat columns ps ds = (Ret tt, ds').
Proof.
  intros H Hl. unfold Scan. erewrite (bind_step get) by reflexivity. rewrite bool_decide_true by done.
  by apply (scan_from_done [] []).
Qed.

(** *** Rows *)

Lemma scan_rows_from columns fresh before rows dests fuel :
  Forall2 (λ values dest, Scan ParseFloat FormatFloat columns values fresh = (Ret tt, dest)) rows dests →
  (length rows < fuel)%nat →
  scan_rows ParseFloat FormatFloat fuel fresh
    {| rw_columns := columns; rw_values := before ++ rows; rw_rowNumber := Z.of_nat (length before) - 1 |} = Ret dests.
Proof.
  intros H. revert before fuel. induction H as [|values dest rows dests Hv _ IH]; intros before fuel Hf.
  - destruct fuel as [|fuel]; [lia|]. cbn [scan_rows]. unfold Rows_Next. cbn [rw_values rw_rowNumber].
    rewrite app_nil_r. by destruct (_ <=? _)%Z eqn:E; [|propify; lia].
  - destruct fuel as [|fuel]; [cbn in Hf; lia|]. cbn [scan_rows]. unfold Rows_Next. cbn [rw_values rw_rowNumber rw_columns].
    destruct (_ <=? _)%Z eqn:E; [rewrite length_app in E; cbn [length] in E; propify; lia|].
    unfold Rows_Scan. cbn [rw_values rw_rowNumber rw_columns].
    destruct (_ =? -1)%Z eqn:E1; [propify; lia|].
    destruct (Z.of_nat (length (before ++ _)) <=? _)%Z eqn:E2; [rewrite length_app in E2; cbn [length] in E2; propify; lia|].
    rewrite list_lookup_middle by lia. rewrite Hv.
    specialize (IH (before ++ [values]) fuel). rewrite length_app, <- (assoc_L (++)) in IH. cbn [length app] in IH.
    replace (Z.of_nat (length before) - 1 + 1)%Z with (Z.of_nat (length before + 1) - 1)%Z by lia.
    rewrite IH; [done|]. cbn in Hf. lia.
Qed.

(** C32: reading back: when every row of a table was written with arguments of
    the types of the columns (32-bit numbers in their range, real numbers other
    than NaN), the loop over the rows of a query reads for each row, in their order, variables that hold the
    arguments the row was written with, NULL for a missing optional value
    included; of a real zero the sign is lost. *)
Theorem stored_rows_are_read_back checks columns fresh rows dests :
  length columns = length fresh → Forall2 (λ args dest, Forall3 holds_argument args fresh dest) rows dests →
  ∃ statements, Forall2 (λ args ps, generateStatement checks args = Some ps) rows statements ∧
    scan_rows ParseFloat FormatFloat (S (length rows)) fresh
      (ConstructRows columns (stored_row <$> statements)) = Ret dests.
Proof.
  intros Hl Hr. assert (Hs : ∃ statements, Forall2 (λ args ps, generateStatement checks args = Some ps) rows statements ∧
    Forall2 (λ values dest, Scan ParseFloat FormatFloat columns values fresh = (Ret tt, dest))
      (stored_row <$> statements) dests).
  { induction Hr as [|args dest rows dests Ha _ (statements & H1 & H2)]; [by exists []|].
    apply (holds_row checks) in Ha as (ps & E & Hps). exists (ps :: statements). split; [by constructor|].
    constructor; [|done]. apply Scan_row; [|done]. clear -Hps. unfold stored_row. induction Hps; by constructor. }
  destruct Hs as (statements & H1 & H2). exists statements. split; [done|].
  assert (Hlt : (length (stored_row <$> statements) < S (length rows))%nat)
    by (rewrite length_fmap, (Forall2_length _ _ _ H1); lia).
  exact (scan_rows_from columns fresh [] _ _ _ H2 Hlt).
Qed.

(** What is not read back: a variable of another type than the optional ones
    keeps its value for NULL, which NaN is stored as; a time is never read, and an argument of an
    unknown type shifts the parameters after it. *)
Lemma null_keeps_the_value i : scan_dest ParseFloat FormatFloat None (DestInt64 i) = Good (DestInt64 i).
Proof. reflexivity. Qed.
Lemma nan_keeps_the_value d :
  scan_dest ParseFloat FormatFloat (stored (Some (Parameter_D S754_nan))) (DestFloat64 d) = Good (DestFloat64 d).
Proof. reflexivity. Qed.
Lemma time_is_never_read p t : is_Good (scan_dest ParseFloat FormatFloat p (DestTime t)) = false.
Proof. reflexivity. Qed.
Lemma unknown_argument_is_dropped type args :
  generateStatement false (ArgOther type :: args) = generateStatement false args.
Proof. cbn. by destruct (generateStatement false args). Qed.
End roundtrip.

Lemma stored_rows_are_read_back_witness : ∃ statements,
  scan_rows (λ _, Bad ErrNotFound) (λ _, "") 3 [DestInt64 0; DestNullString None; DestBool false]
    (ConstructRows ["key"; "assignee"; "done"] (stored_row <$> statements)) =
  Ret [[DestInt64 7; DestNullString (Some "a"); DestBool true]; [DestInt64 (-8); DestNullString None; DestBool false]].
Proof.
  destruct (stored_rows_are_read_back (λ _, Bad ErrNotFound) (λ _, "") true ["key"; "assignee"; "done"]
    [DestInt64 0; DestNullString None; DestBool false]
    [[ArgInt64 7; ArgNullString (Some "a"); ArgBool true]; [ArgInt64 (-8); ArgNullString None; ArgBool false]]
    [[DestInt64 7; DestNullString (Some "a"); DestBool true]; [DestInt64 (-8); DestNullString None; DestBool false]])
    as (statements & _ & E).
  - reflexivity.
  - repeat constructor.
  - exists statements. exact E.
Defined.
