(* ===== verification/RqLite.v ===== *)
(** The configuration of the rqlite stores of the partitions, its validation
    and its defaults (internal/config/rqlite.go, internal/cluster/partition/
    config.go), the header bytes that keep the connections of the partitions
    apart with the listeners and dialers that use them
    (internal/cluster/network), and the configuration of a node
    (internal/config/config.go).

    The record has the fields the code itself reads; those that are only handed
    to the rqlite library are left out.  The file system, filepath.Abs and
    net.ParseIP are parameters. *)
From S2P Require Import Prelude Monad ClusterState Driver.
From Stdlib Require Import Ascii.

#[local] Open Scope string_scope.
#[local] Open Scope list_scope.

(** ** The configuration *)

Record RqLite := {
  rq_DataPath : string;
  rq_AuthFile : string;
  rq_AutoBackupFile : string;
  rq_AutoRestoreFile : string;
  rq_HTTPx509CACert : string;
  rq_HTTPx509Cert : string;
  rq_HTTPx509Key : string;
  rq_NodeX509CACert : string;
  rq_NodeX509Cert : string;
  rq_NodeX509Key : string;
  rq_NodeID : string;
  rq_RaftAddr : string;
  rq_RaftAdv : string;
  rq_JoinAddrs : string;
  rq_JoinAttempts : Z;
  rq_BootstrapExpect : Z;
  rq_RaftNonVoter : bool;
  rq_RaftClusterRemoveOnShutdown : bool;
  rq_RaftStepdownOnShutdown : bool;
  rq_RaftHeartbeatShutdownTimeout : Z;
  rq_RaftReapNodeTimeout : Z;
  rq_RaftReapReadOnlyNodeTimeout : Z
}.

(** The three fields the code writes. *)
Definition set_identity (dataPath raftAdv nodeID : string) (c : RqLite) : RqLite :=
  {| rq_DataPath := dataPath; rq_AuthFile := c.(rq_AuthFile); rq_AutoBackupFile := c.(rq_AutoBackupFile);
     rq_AutoRestoreFile := c.(rq_AutoRestoreFile); rq_HTTPx509CACert := c.(rq_HTTPx509CACert);
     rq_HTTPx509Cert := c.(rq_HTTPx509Cert); rq_HTTPx509Key := c.(rq_HTTPx509Key);
     rq_NodeX509CACert := c.(rq_NodeX509CACert); rq_NodeX509Cert := c.(rq_NodeX509Cert);
     rq_NodeX509Key := c.(rq_NodeX509Key); rq_NodeID := nodeID; rq_RaftAddr := c.(rq_RaftAddr);
     rq_RaftAdv := raftAdv; rq_JoinAddrs := c.(rq_JoinAddrs); rq_JoinAttempts := c.(rq_JoinAttempts);
     rq_BootstrapExpect := c.(rq_BootstrapExpect); rq_RaftNonVoter := c.(rq_RaftNonVoter);
     rq_RaftClusterRemoveOnShutdown := c.(rq_RaftClusterRemoveOnShutdown);
     rq_RaftStepdownOnShutdown := c.(rq_RaftStepdownOnShutdown);
     rq_RaftHeartbeatShutdownTimeout := c.(rq_RaftHeartbeatShutdownTimeout);
     rq_RaftReapNodeTimeout := c.(rq_RaftReapNodeTimeout);
     rq_RaftReapReadOnlyNodeTimeout := c.(rq_RaftReapReadOnlyNodeTimeout) |}.

(** partition.GetRqLiteDefaultConfig. *)
Definition GetRqLiteDefaultConfig (nodeId raftAddr dataPath : string) (joinAddresses : list string) : RqLite :=
  {| rq_DataPath := dataPath; rq_AuthFile := ""; rq_AutoBackupFile := ""; rq_AutoRestoreFile := "";
     rq_HTTPx509CACert := ""; rq_HTTPx509Cert := ""; rq_HTTPx509Key := ""; rq_NodeX509CACert := "";
     rq_NodeX509Cert := ""; rq_NodeX509Key := ""; rq_NodeID := nodeId; rq_RaftAddr := raftAddr;
     rq_RaftAdv := raftAddr; rq_JoinAddrs := String.concat "," joinAddresses; rq_JoinAttempts := 5;
     rq_BootstrapExpect := 1; rq_RaftNonVoter := false; rq_RaftClusterRemoveOnShutdown := true;
     rq_RaftStepdownOnShutdown := true; rq_RaftHeartbeatShutdownTimeout := 0;
     rq_RaftReapNodeTimeout := 0; rq_RaftReapReadOnlyNodeTimeout := 0 |}.

(** [None] is nil. *)
Definition JoinAddresses (c : RqLite) : option (list string) :=
  if c.(rq_JoinAddrs) =? "" then None else Some (Split ","%char c.(rq_JoinAddrs)).

(** ** net.SplitHostPort *)

Definition has_char (c : ascii) (s : string) : bool :=
  match Split c s with [_] => false | _ => true end.

(** What is before and after the first occurrence of a character. *)
Fixpoint cut (c : ascii) (s : string) : option (string * string) :=
  match s with
  | EmptyString => None
  | String d s' =>
      if Ascii.eqb d c then Some ("", s')
      else match cut c s' with Some (a, b) => Some (String d a, b) | None => None end
  end.

(** A host in brackets ends before the last colon; one without has no colon. *)
Definition SplitHostPort (hostport : string) : result (string * string) :=
  if negb (has_char ":"%char hostport) then Bad (err! "missing port in address")
  else match hostport with
  | String "["%char rest =>
      match cut "]"%char rest with
      | None => Bad (err! "missing ']' in address")
      | Some (host, after) =>
          match after with
          | String ":"%char port =>
              if has_char ":"%char port then Bad (err! "too many colons in address")
              else if has_char "["%char host || has_char "["%char port then Bad (err! "unexpected '[' in address")
              else if has_char "]"%char port then Bad (err! "unexpected ']' in address")
              else Good (host, port)
          | _ => Bad (err! "missing port in address")
          end
      end
  | _ =>
      match Split ":"%char hostport with
      | [host; port] =>
          if has_char "["%char hostport then Bad (err! "unexpected '[' in address")
          else if has_char "]"%char hostport then Bad (err! "unexpected ']' in address")
          else Good (host, port)
      | _ => Bad (err! "too many colons in address")
      end
  end.

(** ** Validation *)

Definition bothUnsetSet (a b : string) : bool :=
  ((a =? "") && (b =? "")) || (negb (a =? "") && negb (b =? "")).

Section validation.
Context (Abs : string → result string) (does_not_exist : string → bool) (is_unspecified_ip : string → bool).

(** The fields with the tag filepath, in their order. *)
Definition file_paths (c : RqLite) : list string :=
  [c.(rq_AutoBackupFile); c.(rq_AutoRestoreFile); c.(rq_HTTPx509CACert); c.(rq_HTTPx509Cert);
   c.(rq_HTTPx509Key); c.(rq_NodeX509CACert); c.(rq_NodeX509Cert); c.(rq_NodeX509Key)].

Definition CheckFilePaths (c : RqLite) : ST RqLite unit :=
  for_each (file_paths c) (λ filePath,
    if filePath =? "" then mret tt
    else if does_not_exist filePath then throw (err! "%s does not exist") else mret tt).

Definition check_addresses (c : RqLite) : result unit :=
  match SplitHostPort c.(rq_RaftAddr) with
  | Bad _ => Bad (err! "raft bind address not valid")
  | Good (_, rp) =>
      if negb (is_Good (Atoi rp)) then Bad (err! "raft bind port not valid")
      else match SplitHostPort c.(rq_RaftAdv) with
           | Bad _ => Bad (err! "raft advertised address not valid")
           | Good (radv, rp) =>
               if is_unspecified_ip radv then Bad (err! "advertised Raft address is not routable (%s), specify it via cluster.raft.addr or cluster.raft.adv")
               else if negb (is_Good (Atoi rp)) then Bad (err! "raft advertised port is not valid")
               else Good tt
           end
  end.

Definition check_join_address (c : RqLite) (addr : string) : ST RqLite unit :=
  match SplitHostPort addr with
  | Bad _ => throw (err! "%s is an invalid join address")
  | Good _ =>
      if (c.(rq_BootstrapExpect) =? 0)%Z then
        if (addr =? c.(rq_RaftAdv)) || (addr =? c.(rq_RaftAddr))
        then throw (err! "node cannot join with itself unless bootstrapping")
        else if negb (c.(rq_AutoRestoreFile) =? "")
        then throw (err! "auto-restoring cannot be used when joining a cluster")
        else mret tt
      else mret tt
  end.

Definition set_DataPath (p : string) (c : RqLite) : RqLite := set_identity p c.(rq_RaftAdv) c.(rq_NodeID) c.
(** The policies for the advertised address and the id. *)
Definition with_policies (c : RqLite) : RqLite :=
  let adv := if c.(rq_RaftAdv) =? "" then c.(rq_RaftAddr) else c.(rq_RaftAdv) in
  set_identity c.(rq_DataPath) adv (if c.(rq_NodeID) =? "" then adv else c.(rq_NodeID)) c.

Definition Validate : ST RqLite unit :=
  c ← get;
  dataPath ← wrap_result (λ e, errw! "failed to determine absolute data path: %s" []) (Abs c.(rq_DataPath));
  modify (set_DataPath dataPath) ;;
  c ← get;
  CheckFilePaths c ;;
  (if bothUnsetSet c.(rq_HTTPx509Cert) c.(rq_HTTPx509Key) then mret tt
   else throw (err! "either both HTTPx509Cert and HTTPx509Key must be set, or neither")) ;;
  (if bothUnsetSet c.(rq_NodeX509Cert) c.(rq_NodeX509Key) then mret tt
   else throw (err! "either both HTTPx509Cert and HTTPx509Key must be set, or neither")) ;;
  modify with_policies ;;
  c ← get;
  of_result (check_addresses c) ;;
  (if (0 <? c.(rq_BootstrapExpect))%Z && c.(rq_RaftNonVoter)
   then throw (err! "bootstrapping only applicable to voting nodes") else mret tt) ;;
  match JoinAddresses c with
  | None => mret tt
  | Some addrs => for_each addrs (check_join_address c)
  end.
End validation.

(** ** The header bytes of the connections *)

Definition reservedBytes : Z := 10.
Definition muxHeaderZenBpmRaft : Z := 1.
Definition muxHeaderZenBpmCluster : Z := 2.

(** [None] is a panic; the arithmetic is that of uint32. *)
Definition GetPartitionRaftHeaderByte (partition : Z) : option Z :=
  if (122 <? partition)%Z then None
  else Some (wrapu32 (wrapu32 (reservedBytes + wrapu32 (partition * 2)) - 1) mod 2 ^ 8)%Z.

Definition GetPartitionClusterHeaderByte (partition : Z) : option Z :=
  if (122 <? partition)%Z then None
  else Some (wrapu32 (reservedBytes + wrapu32 (partition * 2)) mod 2 ^ 8)%Z.

(** ** What validation means *)

(** A loop of checks that leave the state alone. *)
Definition is_check {S} (m : ST S unit) : Prop := ∀ s o s', m s = (o, s') → s' = s ∧ (o = Ret tt ∨ ∃ e, o = Err e).

Lemma for_each_check {S A} (l : list A) (f : A → ST S unit) s s' :
  (∀ x, is_check (f x)) → for_each l f s = (Ret tt, s') ↔ s' = s ∧ Forall (λ x, f x s = (Ret tt, s)) l.
Proof.
  intros Hf. revert s. induction l as [|x l IH]; intros s; cbn.
  { split; [intros [= <-]; done|by intros [-> _]]. }
  unfold mbind, ST_bind. destruct (f x s) as [o s1] eqn:E. destruct (Hf _ _ _ _ E) as [-> [->|[e ->]]].
  - rewrite IH, Forall_cons. clear IH. intuition congruence.
  - split; [done|]. intros [_ [Hx _]%Forall_cons]. congruence.
Qed.

Lemma is_check_ret {S} : is_check (mret tt : ST S unit).
Proof. intros s o s' [= <- <-]. eauto. Qed.
Lemma is_check_throw {S} e : is_check (throw e : ST S unit).
Proof. intros s o s' [= <- <-]. eauto. Qed.
Ltac solve_check := repeat (first [apply is_check_ret | apply is_check_throw | case_goal]).

Lemma guard_spec {S} (b : bool) e (s s' : S) : (if b then mret tt else throw e : ST S unit) s = (Ret tt, s') ↔ s' = s ∧ b = true.
Proof. destruct b; cbn; split; [by intros [= <-]|by intros [-> _]|done|by intros [_ ?]]. Qed.

Lemma guard_not_spec {S} (b : bool) e (s s' : S) :
  (if b then throw e else mret tt : ST S unit) s = (Ret tt, s') ↔ s' = s ∧ b = false.
Proof. destruct b; cbn; split; [done|by intros [_ ?]|by intros [= <-]|by intros [-> _]]. Qed.

Lemma result_spec {S} (r : result unit) (s s' : S) : of_result r s = (Ret tt, s') ↔ s' = s ∧ r = Good tt.
Proof. destruct r as [[]|e]; cbn; split; [by intros [= <-]|by intros [-> _]|done|by intros [_ ?]]. Qed.

Lemma check_bind {S B} (P : Prop) (m : ST S unit) (k : ST S B) s b s' :
  (∀ s', m s = (Ret tt, s') ↔ s' = s ∧ P) → (m ;; k) s = (Ret b, s') ↔ P ∧ k s = (Ret b, s').
Proof.
  intros Hm. split.
  - intros ([] & s1 & [-> HP]%Hm & H)%bind_Ret. done.
  - intros [HP H]. by rewrite (bind_step _ _ _ tt s) by by apply Hm.
Qed.

Section validated.
Context (Abs : string → result string) (does_not_exist : string → bool) (is_unspecified_ip : string → bool).
(** Abs returns a clean absolute path, and such a path as it is. *)
Context (Abs_again : ∀ p q, Abs p = Good q → Abs q = Good q).
Abbreviation validate := (Validate Abs does_not_exist is_unspecified_ip).

Definition file_exists (p : string) : Prop := p ≠ "" → does_not_exist p = false.
Definition join_address_ok (c : RqLite) (addr : string) : Prop :=
  is_Good (SplitHostPort addr) = true ∧
  (c.(rq_BootstrapExpect) = 0%Z → addr ≠ c.(rq_RaftAdv) ∧ addr ≠ c.(rq_RaftAddr) ∧ c.(rq_AutoRestoreFile) = "").

(** What a configuration that passed has. *)
Record valid (c : RqLite) : Prop := {
  v_files : Forall file_exists (file_paths c);
  v_http : bothUnsetSet c.(rq_HTTPx509Cert) c.(rq_HTTPx509Key) = true;
  v_node : bothUnsetSet c.(rq_NodeX509Cert) c.(rq_NodeX509Key) = true;
  v_addresses : check_addresses is_unspecified_ip c = Good tt;
  v_voter : ((0 <? c.(rq_BootstrapExpect))%Z && c.(rq_RaftNonVoter))%bool = false;
  v_joins : ∀ addrs, JoinAddresses c = Some addrs → Forall (join_address_ok c) addrs
}.

Lemma check_join_address_spec c addr s : check_join_address c addr s = (Ret tt, s) ↔ join_address_ok c addr.
Proof.
  unfold check_join_address, join_address_ok. destruct (SplitHostPort addr) as [?|e]; cbn; [|split; [done|by intros [? _]]].
  destruct (Z.eqb_spec c.(rq_BootstrapExpect) 0) as [E|E].
  2:{ split; [by intros _; split; [|intros ?]|by intros _]. }
  destruct (String.eqb_spec addr c.(rq_RaftAdv)); [split; [done|intros [_ H]; by destruct (H E) as (? & ? & ?)]|].
  destruct (String.eqb_spec addr c.(rq_RaftAddr)); [split; [done|intros [_ H]; by destruct (H E) as (? & ? & ?)]|].
  destruct (String.eqb_spec c.(rq_AutoRestoreFile) ""); cbn; split; try done.
  intros [_ H]. by destruct (H E) as (? & ? & ?).
Qed.

Lemma CheckFilePaths_spec c s s' :
  CheckFilePaths does_not_exist c s = (Ret tt, s') ↔ s' = s ∧ Forall file_exists (file_paths c).
Proof.
  unfold CheckFilePaths. rewrite for_each_check; [|intros x; solve_check].
  f_equiv. apply Forall_iff. intros p. unfold file_exists. destruct (String.eqb_spec p ""); [by split|].
  destruct (does_not_exist p); split; try done. intros H. by specialize (H n).
Qed.

Lemma JoinAddresses_spec c s s' :
  (match JoinAddresses c with
   | None => mret tt
   | Some addrs => for_each addrs (check_join_address c)
   end : ST RqLite unit) s = (Ret tt, s') ↔
  s' = s ∧ ∀ addrs, JoinAddresses c = Some addrs → Forall (join_address_ok c) addrs.
Proof.
  destruct (JoinAddresses c) as [addrs|]; [|cbn; split; [intros [= <-]; done|by intros [-> _]]].
  rewrite for_each_check; [|intros x; unfold check_join_address; solve_check].
  assert (HF : Forall (λ a, check_join_address c a s = (Ret tt, s)) addrs ↔ Forall (join_address_ok c) addrs)
    by (apply Forall_iff; intros a; apply check_join_address_spec).
  rewrite HF. f_equiv. split; [by intros H ? [= <-]|]. intros H. by apply H.
Qed.

Definition validated (p : string) (c : RqLite) : RqLite := with_policies (set_DataPath p c).

(** Validate succeeds exactly on a configuration that is valid with the
    absolute path and the policies, and leaves that one. *)
Lemma Validate_spec c c' :
  validate c = (Ret tt, c') ↔ ∃ p, Abs c.(rq_DataPath) = Good p ∧ c' = validated p c ∧ valid c'.
Proof.
  unfold Validate. rewrite (bind_step get _ c c c eq_refl).
  destruct (Abs c.(rq_DataPath)) as [p|e]; [|split; [done|by intros (p & ? & _)]].
  set (c1 := set_DataPath p c). set (c2 := with_policies c1).
  trans (Forall file_exists (file_paths c1) ∧ bothUnsetSet c1.(rq_HTTPx509Cert) c1.(rq_HTTPx509Key) = true ∧
    bothUnsetSet c1.(rq_NodeX509Cert) c1.(rq_NodeX509Key) = true ∧ check_addresses is_unspecified_ip c2 = Good tt ∧
    ((0 <? c2.(rq_BootstrapExpect))%Z && c2.(rq_RaftNonVoter))%bool = false ∧ c' = c2 ∧
    ∀ addrs, JoinAddresses c2 = Some addrs → Forall (join_address_ok c2) addrs).
  - change (ST_bind _ _ ?k (wrap_result _ (Good p)) c) with (k p c).
    etransitivity; [refine (check_bind (Forall file_exists (file_paths c1)) (CheckFilePaths does_not_exist c1) _ c1 tt c' _);
      intros s; apply CheckFilePaths_spec|apply and_iff_compat_l].
    etransitivity; [eapply (check_bind _ _ _ c1); intros s; apply guard_spec|apply and_iff_compat_l].
    etransitivity; [eapply (check_bind _ _ _ c1); intros s; apply guard_spec|apply and_iff_compat_l].
    etransitivity; [eapply (check_bind (check_addresses is_unspecified_ip c2 = Good tt) _ _ c2); intros s|apply and_iff_compat_l].
    { apply result_spec. }
    etransitivity; [eapply (check_bind (((0 <? c2.(rq_BootstrapExpect))%Z && c2.(rq_RaftNonVoter))%bool = false) _ _ c2); intros s|apply and_iff_compat_l].
    { apply guard_not_spec. }
    apply JoinAddresses_spec.
  - split; [intros (? & ? & ? & ? & ? & -> & ?); exists p; by repeat split|].
    intros (? & [= <-] & -> & [? ? ? ? ? ?]). done.
Qed.

Lemma valid_identity c : valid c → c.(rq_RaftAdv) ≠ "".
Proof.
  intros [_ _ _ H _ _] E. unfold check_addresses in H. rewrite E in H.
  destruct (SplitHostPort (rq_RaftAddr c)) as [[??]|]; [|done]. by destruct (is_Good (Atoi _)).
Qed.

(** The join addresses of the default configuration are the given ones. *)
Lemma default_joins nodeId raftAddr dataPath joinAddresses :
  Forall (λ a, lacks "," a ∧ is_Good (SplitHostPort a) = true) joinAddresses →
  JoinAddresses (GetRqLiteDefaultConfig nodeId raftAddr dataPath joinAddresses) =
  match joinAddresses with [] => None | _ => Some joinAddresses end.
Proof.
  intros Hj. destruct joinAddresses as [|a l]; [done|]. unfold JoinAddresses. cbn -[String.concat Split].
  assert (Hne : String.concat "," (a :: l) ≠ "").
  { apply Forall_cons in Hj as [[_ Hg] _]. destruct l; cbn; destruct a; try done. }
  rewrite (proj2 (String.eqb_neq _ _) Hne). f_equal. apply Split_concat; [done|].
  eapply Forall_impl; [exact Hj|]. by intros x [? _].
Qed.

(** The default configuration of a node with a proper address is accepted. *)
Lemma default_config_valid nodeId raftAddr dataPath joinAddresses p host port :
  Abs dataPath = Good p → nodeId ≠ "" → SplitHostPort raftAddr = Good (host, port) → is_Good (Atoi port) = true →
  is_unspecified_ip host = false → Forall (λ a, lacks "," a ∧ is_Good (SplitHostPort a) = true) joinAddresses →
  let c := GetRqLiteDefaultConfig nodeId raftAddr dataPath joinAddresses in
  validate c = (Ret tt, set_DataPath p c).
Proof.
  intros Hp Hid Hs Ha Hu Hj c.
  assert (Hr : raftAddr ≠ "") by (intros ->; done).
  pose proof (default_joins nodeId raftAddr dataPath joinAddresses Hj) as HJ.
  assert (HV : validated p c = set_DataPath p c).
  { unfold validated, with_policies. cbn. rewrite (proj2 (String.eqb_neq _ _) Hr). cbn.
    by rewrite (proj2 (String.eqb_neq _ _) Hid). }
  apply Validate_spec. exists p. split; [done|]. split; [done|]. split; cbn.
  - unfold file_paths. cbn [set_DataPath set_identity GetRqLiteDefaultConfig rq_AutoBackupFile rq_AutoRestoreFile rq_HTTPx509CACert
      rq_HTTPx509Cert rq_HTTPx509Key rq_NodeX509CACert rq_NodeX509Cert rq_NodeX509Key c].
    apply Forall_forall. intros x Hx [].
    repeat (apply elem_of_cons in Hx as [->|Hx]; [done|]). by apply not_elem_of_nil in Hx.
  - done.
  - done.
  - unfold check_addresses. cbn. by rewrite Hs, Ha, Hu.
  - done.
  - change (JoinAddresses (set_DataPath p c)) with (JoinAddresses c). unfold c. rewrite HJ. intros addrs E.
    assert (addrs = joinAddresses) as -> by (destruct joinAddresses; congruence).
    eapply Forall_impl; [exact Hj|]. cbn. intros a [_ ?]. split; [done|]. cbn. lia.
Qed.

(** A configuration that Validate accepts is accepted again without a
    change, has a routable advertised address with a numeric port and an id, and
    join addresses that are addresses, none of them its own unless it
    bootstraps. *)
Theorem validated_configuration c c' :
  validate c = (Ret tt, c') →
  validate c' = (Ret tt, c') ∧ c'.(rq_NodeID) ≠ "" ∧
  (∃ host port, SplitHostPort c'.(rq_RaftAdv) = Good (host, port) ∧ is_Good (Atoi port) = true ∧
     is_unspecified_ip host = false) ∧
  (∀ addrs, JoinAddresses c' = Some addrs → Forall (λ a, is_Good (SplitHostPort a) = true ∧
     (c'.(rq_BootstrapExpect) = 0%Z → a ≠ c'.(rq_RaftAdv))) addrs).
Proof.
  intros (p & Hp & -> & Hv)%Validate_spec. pose proof (valid_identity _ Hv) as Hadv. cbn in Hadv.
  assert (Hid : rq_NodeID (validated p c) ≠ "").
  { cbn. destruct (String.eqb_spec (rq_NodeID c) ""); done. }
  split_and!.
  - apply Validate_spec. exists p. split; [by apply (Abs_again _ _ Hp)|]. split; [|done].
    unfold validated, with_policies in *. cbn in *.
    rewrite (proj2 (String.eqb_neq _ _) Hadv), (proj2 (String.eqb_neq _ _) Hid). done.
  - done.
  - pose proof (v_addresses _ Hv) as H. unfold check_addresses in H. 
    destruct (SplitHostPort (rq_RaftAddr _)) as [[h0 p0]|]; [|done]. destruct (is_Good (Atoi p0)); [|done].
    destruct (SplitHostPort (rq_RaftAdv _)) as [[host port]|]; [|done]. exists host, port.
    cbn in H. destruct (is_unspecified_ip host); [done|]. by destruct (is_Good (Atoi port)).
  - intros addrs Ha. eapply Forall_impl; [by apply (v_joins _ Hv)|]. cbn. intros a [? H]. split; [done|]. intros E. by apply H.
Qed.
End validated.

(** ** The header bytes *)

(** The header bytes of the partitions 1 to 122, for raft and for the
    cluster, are all different, are bytes above the reserved ones, and so never
    those of the node itself; there are none above 122. *)
Theorem partition_headers_are_distinct p q :
  (1 ≤ p)%Z → (1 ≤ q)%Z →
  (∀ b, GetPartitionRaftHeaderByte p = Some b → (reservedBytes < b < 255)%Z ∧
     GetPartitionClusterHeaderByte q ≠ Some b ∧ (GetPartitionRaftHeaderByte q = Some b → p = q)) ∧
  (∀ b, GetPartitionClusterHeaderByte p = Some b → (reservedBytes < b < 255)%Z ∧
     (GetPartitionClusterHeaderByte q = Some b → p = q)) ∧
  (is_Some (GetPartitionRaftHeaderByte p) ↔ (p ≤ 122)%Z) ∧ (is_Some (GetPartitionClusterHeaderByte p) ↔ (p ≤ 122)%Z).
Proof.
  assert (Hr : ∀ x, (1 ≤ x)%Z → GetPartitionRaftHeaderByte x = if (122 <? x)%Z then None else Some (9 + x * 2)%Z).
  { intros x Hx. unfold GetPartitionRaftHeaderByte, reservedBytes. case_goal; [done|]. propify. unfold wrapu32.
    rewrite (Z.mod_small (x * 2)), (Z.mod_small (10 + x * 2)), !(Z.mod_small (10 + x * 2 - 1)) by lia. f_equal. lia. }
  assert (Hc : ∀ x, (1 ≤ x)%Z → GetPartitionClusterHeaderByte x = if (122 <? x)%Z then None else Some (10 + x * 2)%Z).
  { intros x Hx. unfold GetPartitionClusterHeaderByte, reservedBytes. case_goal; [done|]. propify. unfold wrapu32.
    by rewrite (Z.mod_small (x * 2)), !(Z.mod_small (10 + x * 2)) by lia. }
  intros Hp Hq. rewrite !Hr, !Hc by done. unfold reservedBytes.
  destruct (Z.ltb_spec 122 p), (Z.ltb_spec 122 q); split_and!;
    try (intros b [= <-]; split_and!; try done; try lia; intros [=]; lia);
    try (split; [by intros [? ?]|lia]); try (split; [lia|by eauto]).
  all: intros b [=].
Qed.

Lemma partition_headers_are_distinct_witness :
  (1 ≤ 122)%Z ∧ GetPartitionRaftHeaderByte 122 = Some 253%Z ∧ GetPartitionClusterHeaderByte 122 = Some 254%Z ∧
  (is_Some (GetPartitionRaftHeaderByte 122) ↔ (122 ≤ 122)%Z).
Proof.
  split; [lia|]. split; [by vm_compute|]. split; [by vm_compute|].
  apply (partition_headers_are_distinct 122 1); lia.
Defined.

(** ** A configuration *)

(** Paths are below /data. *)
Definition example_Abs (p : string) : result string :=
  Good (if String.prefix "/" p then p else "/data/" +:+ p).
Definition example_config : RqLite :=
  set_identity "zen" "" "" (GetRqLiteDefaultConfig "" "10.0.0.1:8090" "zen" ["10.0.0.1:8090"; "[fe80::2]:8090"]).

Lemma validated_configuration_witness : ∃ c,
  Validate example_Abs (λ _, false) (String.eqb "0.0.0.0") example_config = (Ret tt, c) ∧
  Validate example_Abs (λ _, false) (String.eqb "0.0.0.0") c = (Ret tt, c) ∧
  rq_DataPath c = "/data/zen" ∧ rq_NodeID c = "10.0.0.1:8090" ∧
  JoinAddresses c = Some ["10.0.0.1:8090"; "[fe80::2]:8090"].
Proof.
  assert (HA : ∀ p q, example_Abs p = Good q → example_Abs q = Good q).
  { intros p q. unfold example_Abs. destruct (String.prefix "/" p) eqn:E; intros [= <-]; [by rewrite E|done]. }
  assert (HV : Validate example_Abs (λ _, false) (String.eqb "0.0.0.0") example_config =
    (Ret tt, validated "/data/zen" example_config)) by by vm_compute.
  exists (validated "/data/zen" example_config). split; [exact HV|].
  split; [apply (validated_configuration example_Abs (λ _, false) (String.eqb "0.0.0.0") HA _ _ HV)|].
  by vm_compute.
Defined.

(** ** Listeners and dialers (network.go, mux.go)

    The multiplexer and the dialers are those of rqlite's tcp package: a
    listener and a dialer have a header byte, a dialer may have a TLS
    configuration. *)
Section network.
Context {M L D C : Type} (mux_Listen : Z → ST M L) (tcp_NewDialer : Z → option C → D)
  (CreateClientConfig : string → string → string → string → bool → result C).

Definition NewZenBpmRaftListener : ST M L := mux_Listen muxHeaderZenBpmRaft.
Definition NewZenBpmClusterListener : ST M L := mux_Listen muxHeaderZenBpmCluster.
Definition NewZenBpmRaftDialer : D := tcp_NewDialer muxHeaderZenBpmRaft None.
(** The Dialer of the package, as the bytes it writes first. *)
Definition NewZenBpmClusterDialer : Z := muxHeaderZenBpmCluster.

Definition header_byte {S} (b : option Z) : ST S Z :=
  match b with Some b => mret b | None => panic "maximum number of partition is 122" end.

Definition NewRqLiteRaftListener (partition : Z) : ST M L :=
  b ← header_byte (GetPartitionRaftHeaderByte partition); mux_Listen b.
Definition NewRqLiteClusterListener (partition : Z) : ST M L :=
  b ← header_byte (GetPartitionClusterHeaderByte partition); mux_Listen b.

Definition dialer_config (what : error) (cert key caCert serverName : string) (Insecure : bool) : result (option C) :=
  if negb (cert =? "")%string || negb (key =? "")%string
  then match CreateClientConfig cert key caCert serverName Insecure with
       | Good c => Good (Some c)
       | Bad _ => Bad what
       end
  else Good None.

Definition NewRqLiteRaftDialer (partition : Z) (cert key caCert serverName : string) (Insecure : bool) : ST M D :=
  c ← of_result (dialer_config (err! "failed to create TLS config for Raft dialer: %s") cert key caCert serverName Insecure);
  b ← header_byte (GetPartitionRaftHeaderByte partition);
  mret (tcp_NewDialer b c).
Definition NewRqLiteClusterDialer (partition : Z) (cert key caCert serverName : string) (Insecure : bool) : ST M D :=
  c ← of_result (dialer_config (err! "failed to create TLS config for Cluster dialer: %s") cert key caCert serverName Insecure);
  b ← header_byte (GetPartitionClusterHeaderByte partition);
  mret (tcp_NewDialer b c).

(** A dialer of a partition has the byte of its listener of the same kind. *)
Lemma dialers_reach_their_listener p cert key ca name insecure m d m' :
  (NewRqLiteRaftDialer p cert key ca name insecure m = (Ret d, m') →
   ∃ b c, d = tcp_NewDialer b c ∧ NewRqLiteRaftListener p m' = mux_Listen b m') ∧
  (NewRqLiteClusterDialer p cert key ca name insecure m = (Ret d, m') →
   ∃ b c, d = tcp_NewDialer b c ∧ NewRqLiteClusterListener p m' = mux_Listen b m').
Proof.
  unfold NewRqLiteRaftDialer, NewRqLiteRaftListener, NewRqLiteClusterDialer, NewRqLiteClusterListener.
  split; intros (c & m1 & _ & E)%bind_Ret; apply bind_Ret in E as (b & m2 & Eb & E);
    destruct (_ p) as [b'|]; try done; unfold header_byte, mret, ST_ret in *; simplify_eq; eauto.
Qed.
End network.

(** NewNodeMux: [listen] is the answer of net.Listen, [mux] that of tcp.NewMux. *)
Definition startNodeMux {X} (mux : result X) : result X :=
  match mux with Good m => Good m | Bad _ => Bad (err! "failed to create node-to-node mux: %s") end.
Definition NewNodeMux {X Ln} (listen : result Ln) (mux : Ln → result X) : result (X * Ln) :=
  match listen with
  | Bad _ => Bad (err! "failed to listen on %s: %s")
  | Good muxLn =>
      match startNodeMux (mux muxLn) with
      | Good m => Good (m, muxLn)
      | Bad _ => Bad (err! "failed to start node mux: %s")
      end
  end.

(** ** The configuration of a node (internal/config/config.go) *)

(** The fields of Cluster and ClusterRaft that are validated. *)
Record NodeConfig := {
  nc_NodeId : string; nc_Addr : string; nc_Adv : string; nc_Dir : string; nc_NonVoter : bool;
  nc_JoinAddresses : list string; nc_BootstrapExpect : Z
}.
Definition nc_identity (nodeId adv dir : string) (c : NodeConfig) : NodeConfig :=
  {| nc_NodeId := nodeId; nc_Addr := c.(nc_Addr); nc_Adv := adv; nc_Dir := dir;
     nc_NonVoter := c.(nc_NonVoter); nc_JoinAddresses := c.(nc_JoinAddresses);
     nc_BootstrapExpect := c.(nc_BootstrapExpect) |}.

Section config.
Context (Abs : string → result string) (is_unspecified_ip : string → bool)
  (AnyServingHTTP : list string → option string).

(** The id is completed before the advertised address is. *)
Definition nc_id_and_dir (c : NodeConfig) : NodeConfig :=
  let id := if (c.(nc_NodeId) =? "")%string then c.(nc_Adv) else c.(nc_NodeId) in
  nc_identity id c.(nc_Adv) (if (c.(nc_Dir) =? "")%string then id else c.(nc_Dir)) c.
Definition nc_set_dir (dir : string) (c : NodeConfig) : NodeConfig :=
  nc_identity c.(nc_NodeId) c.(nc_Adv) dir c.
Definition nc_advertise (c : NodeConfig) : NodeConfig :=
  nc_identity c.(nc_NodeId) (if (c.(nc_Adv) =? "")%string then c.(nc_Addr) else c.(nc_Adv)) c.(nc_Dir) c.

Definition nc_addresses (c : NodeConfig) : result unit :=
  match SplitHostPort c.(nc_Addr) with
  | Bad _ => Bad (err! "raft bind address not valid")
  | Good (_, rp) =>
      if negb (is_Good (Atoi rp)) then Bad (err! "raft bind port not valid")
      else match SplitHostPort c.(nc_Adv) with
           | Bad _ => Bad (err! "raft advertised address not valid")
           | Good (radv, rp) =>
               if is_unspecified_ip radv then Bad (err! "advertised Raft address is not routable (%s), specify it via cluster.raft.addr or cluster.raft.adv")
               else if negb (is_Good (Atoi rp)) then Bad (err! "raft advertised port is not valid")
               else Good tt
           end
  end.

Definition nc_join_address (c : NodeConfig) (addr : string) : ST NodeConfig unit :=
  match SplitHostPort addr with
  | Bad _ => throw (err! "%s is an invalid join address")
  | Good _ =>
      if (c.(nc_BootstrapExpect) =? 0)%Z && ((addr =? c.(nc_Adv))%string || (addr =? c.(nc_Addr))%string)
      then throw (err! "node cannot join with itself unless bootstrapping")
      else mret tt
  end.

Definition CheckJoinAddrs (joinAddrs : list string) : result unit :=
  match joinAddrs with
  | [] => Good tt
  | _ => match AnyServingHTTP joinAddrs with
         | Some _ => Bad (err! "join address %s appears to be serving HTTP when it should be Raft")
         | None => Good tt
         end
  end.

(** ClusterRaft has no field with the tag filepath: CheckFilePaths checks
    nothing. *)
Definition Config_validate : ST NodeConfig unit :=
  modify nc_id_and_dir ;;
  c ← get;
  dataPath ← wrap_result (λ _, err! "failed to determine absolute data path: %s") (Abs c.(nc_Dir));
  modify (nc_set_dir dataPath) ;;
  modify nc_advertise ;;
  c ← get;
  of_result (nc_addresses c) ;;
  (if (0 <? c.(nc_BootstrapExpect))%Z && c.(nc_NonVoter)
   then throw (err! "bootstrapping only applicable to voting nodes") else mret tt) ;;
  for_each c.(nc_JoinAddresses) (nc_join_address c) ;;
  wrap_result (λ e, errw! "invalid join addresses: %w" [e]) (CheckJoinAddrs c.(nc_JoinAddresses)).

(** InitConfig: the values of CONFIG_FILE, of os.Getwd, os.Stat and the readers
    of the cleanenv package are arguments; every error is a panic. *)
Definition InitConfig (confFile : string) (wd : result string) (exists_file : string → bool)
    (ReadEnv : result NodeConfig) (ReadConfig : string → result NodeConfig) : ST unit NodeConfig :=
  fileName ← (if (confFile =? "")%string
              then match wd with Good wd => mret (wd ++ "/conf.yaml")%string | Bad _ => panic "Getwd" end
              else mret confFile);
  match (if exists_file fileName then ReadConfig fileName else ReadEnv) with
  | Bad _ => panic "reading the configuration"
  | Good c =>
      match Config_validate c with
      | (Ret _, c) => mret c
      | _ => panic "validating configuration"
      end
  end.

(** What a configuration that passed has. *)
Record valid_node_config (c : NodeConfig) : Prop := {
  vn_addresses : nc_addresses c = Good tt;
  vn_voter : ((0 <? c.(nc_BootstrapExpect))%Z && c.(nc_NonVoter))%bool = false;
  vn_joins : Forall (λ a, is_Good (SplitHostPort a) = true ∧
    (c.(nc_BootstrapExpect) = 0%Z → a ≠ c.(nc_Adv) ∧ a ≠ c.(nc_Addr))) c.(nc_JoinAddresses);
  vn_http : c.(nc_JoinAddresses) ≠ [] → AnyServingHTTP c.(nc_JoinAddresses) = None
}.

Lemma nc_join_address_spec c a s :
  nc_join_address c a s = (Ret tt, s) ↔
  is_Good (SplitHostPort a) = true ∧ (c.(nc_BootstrapExpect) = 0%Z → a ≠ c.(nc_Adv) ∧ a ≠ c.(nc_Addr)).
Proof.
  unfold nc_join_address. destruct (SplitHostPort a) as [?|?]; cbn; [|split; [done|by intros [??]]].
  destruct (Z.eqb_spec c.(nc_BootstrapExpect) 0), (String.eqb_spec a c.(nc_Adv)),
    (String.eqb_spec a c.(nc_Addr)); cbn; unfold throw, mret, ST_ret; naive_solver.
Qed.

(** Validation succeeds exactly when the completed configuration is valid, and
    leaves that one. *)
Lemma Config_validate_spec c c' :
  Config_validate c = (Ret tt, c') ↔
  ∃ p, Abs (nc_id_and_dir c).(nc_Dir) = Good p ∧
    c' = nc_advertise (nc_set_dir p (nc_id_and_dir c)) ∧ valid_node_config c'.
Proof.
  unfold Config_validate. rewrite (bind_step (modify _) _ c tt (nc_id_and_dir c) eq_refl).
  rewrite (bind_step get _ _ _ _ eq_refl).
  destruct (Abs _) as [p|e]; [|split; [done|by intros (p & ? & _)]].
  set (c2 := nc_advertise (nc_set_dir p (nc_id_and_dir c))).
  trans (nc_addresses c2 = Good tt ∧ ((0 <? c2.(nc_BootstrapExpect))%Z && c2.(nc_NonVoter))%bool = false ∧
    Forall (λ a, nc_join_address c2 a c2 = (Ret tt, c2)) c2.(nc_JoinAddresses) ∧
    c' = c2 ∧ CheckJoinAddrs c2.(nc_JoinAddresses) = Good tt).
  - change (wrap_result _ (Good p)) with (mret p : ST NodeConfig string).
    rewrite (bind_step (mret p) _ (nc_id_and_dir c) p _ eq_refl),
      (bind_step (modify (nc_set_dir p)) _ (nc_id_and_dir c) tt _ eq_refl),
      (bind_step (modify nc_advertise) _ _ tt c2 eq_refl), (bind_step get _ c2 c2 c2 eq_refl).
    etransitivity; [eapply (check_bind _ _ _ c2); intros s; apply result_spec|apply and_iff_compat_l].
    etransitivity; [eapply (check_bind _ _ _ c2); intros s; apply guard_not_spec|apply and_iff_compat_l].
    etransitivity; [eapply (check_bind (Forall (λ a, nc_join_address c2 a c2 = (Ret tt, c2)) c2.(nc_JoinAddresses)) _ _ c2)|apply and_iff_compat_l].
    { intros s. rewrite for_each_check; [|intros x; unfold nc_join_address; solve_check].
      apply and_iff_compat_l, Forall_iff. intros a. unfold nc_join_address. repeat case_match; unfold throw, mret, ST_ret; naive_solver. }
    destruct (CheckJoinAddrs _) as [[]|]; cbn; unfold mret, ST_ret, throw; naive_solver.
  - rewrite (Forall_iff _ _ _ (λ a, nc_join_address_spec c2 a c2)). unfold CheckJoinAddrs. split.
    + intros (? & ? & ? & -> & Hh). exists p. split_and!; [done..|]. split; [done..|].
      intros Hne. destruct (nc_JoinAddresses c2); [done|]. by destruct (AnyServingHTTP _).
    + intros (? & [= <-] & -> & [? ? ? Hh]). split_and!; try done.
      fold c2 in Hh. destruct (nc_JoinAddresses c2); [done|]. by rewrite Hh.
Qed.
End config.

(** A node without an id and without an advertised address is valid with the
    address it listens at, and keeps the empty id; validating once more gives
    it an id. *)
Definition bare_config : NodeConfig :=
  {| nc_NodeId := ""; nc_Addr := "10.0.0.1:8090"; nc_Adv := ""; nc_Dir := "data"; nc_NonVoter := false;
     nc_JoinAddresses := []; nc_BootstrapExpect := 1 |}.
Example bare_config_keeps_empty_id :
  let validate := Config_validate (λ p, Good p) (λ _, false) (λ _, None) in
  validate bare_config = (Ret tt, nc_identity "" "10.0.0.1:8090" "data" bare_config) ∧
  validate (validate bare_config).2 = (Ret tt, nc_identity "10.0.0.1:8090" "10.0.0.1:8090" "data" bare_config).
Proof. split; vm_compute; reflexivity. Qed.
