(* ===== verification/PartitionNode.v ===== *)
(** The node of a partition (internal/cluster/partition/partition.go): starting
    and stopping the rqlite store it wraps, the cluster it forms or joins, and
    the observer of the raft library with the callbacks of the controller
    (internal/cluster/controller/controller.go).

    What rqlite answers is the record [RqEnv]; the requests made of it are kept in
    their order.  The configuration is one object: the controller hands the same
    pointer to every partition node it starts, and writes the id and the path of
    the next one into it. *)
From Stdlib Require Import Ascii.
From stdpp Require Import pretty.
From S2P Require Import Prelude Monad ClusterState Fsm ClusterStore Controller Migrations RqLite.

#[local] Open Scope string_scope.
#[local] Open Scope list_scope.

(** ** The requests made of rqlite *)

Inductive RqCall :=
| CreateClientConfig
| NewStore (ID Dir : string)
| NewDB
| DownloadFile (file : string)
| SetRestorePath
| CredentialsFromFile (file : string)
| OpenService
| SetLocal (adv : string)
| OpenStore
| RegisterObserver
| BootstrapStore (srv : Server)
| JoinerDo (attempts : Z) (addrs : list string) (id adv : string) (voter : bool)
| BootstrapperBoot (addrs : list string) (id adv : string) (voter : bool)
| ReadBackupConfig (file : string)
| UnmarshalBackup
| NewS3Client
| StartUploader
| EngineStop
| FeelStop
| JsStop
| CloseService
| RemoverDo (id : string)
| StoreStepdown
| CloseStore.

(** The answers, by partition. *)
Record RqEnv := {
  rqe_answer : Z → RqCall → option error;
  rqe_HasData : string → result bool;
  rqe_errOK : string → bool;
  rqe_Nodes : Z → result (list Node);
  rqe_AnyServingHTTP : list string → bool
}.

(** The configuration all partition nodes of the process point to. *)
Record PartitionProcess := {
  pp_config : RqLite;
  pp_calls : list (Z * RqCall)
}.

Definition set_pp_config (c : RqLite) (w : PartitionProcess) : PartitionProcess :=
  {| pp_config := c; pp_calls := w.(pp_calls) |}.

(** What the controller does before it starts a partition node. *)
Definition partition_node_id (storeID : string) (partition : Z) : string :=
  "zen-" +:+ storeID +:+ "-partition-" +:+ pretty partition.
Definition partition_dir (raftDir : string) (partition : Z) : string :=
  path_Join raftDir ("partition-" +:+ pretty partition).
Definition prepare_config (storeID raftDir : string) (partition : Z) : ST PartitionProcess unit :=
  modify (λ w, let c := w.(pp_config) in
    set_pp_config (set_identity (partition_dir raftDir partition) c.(rq_RaftAdv)
      (partition_node_id storeID partition) c) w).

(** Controller.Start: the configuration that is used. *)
Definition controller_config (Abs : string → result string) (does_not_exist is_unspecified_ip : string → bool)
    (given : option RqLite) (storeID storeAddr : string) (joinAddresses : list string) : result RqLite :=
  let c := match given with
           | Some c => c
           | None => GetRqLiteDefaultConfig storeID storeAddr storeID joinAddresses
           end in
  match Validate Abs does_not_exist is_unspecified_ip c with
  | (Ret _, c') => Good c'
  | (Err e, _) => Bad (errw! "failed to start controller, rqLite config validation failed: %w" [e])
  | _ => Bad (err! "panic")
  end.

Section node.
Context (env : RqEnv) (partition : Z).
Abbreviation PM := (ST PartitionProcess).

Definition note (q : RqCall) : PM unit :=
  modify (λ w, {| pp_config := w.(pp_config); pp_calls := w.(pp_calls) ++ [(partition, q)] |}).

Definition rq_call (q : RqCall) : PM unit :=
  note q ;;
  match env.(rqe_answer) partition q with Some e => throw e | None => mret tt end.

Definition config : PM RqLite := gets pp_config.

(** ** Starting *)

Definition no_panic (b : option Z) : PM unit :=
  match b with Some _ => mret tt | None => panic "maximum number of partition is 122" end.

(** NewRqLiteRaftDialer and NewRqLiteClusterDialer. *)
Definition dialer (kind : string) (header : option Z) : PM unit :=
  c ← config;
  (if negb (c.(rq_NodeX509Cert) =? "") || negb (c.(rq_NodeX509Key) =? "")
   then wrap (λ e, Errorf ("failed to create TLS config for " +:+ kind +:+ " dialer: %s") []) (rq_call CreateClientConfig)
   else mret tt) ;;
  no_panic header.

Definition createStore : PM unit := c ← config; note (NewStore c.(rq_NodeID) c.(rq_DataPath)).

Definition auto_restore : PM unit :=
  c ← config;
  if c.(rq_AutoRestoreFile) =? "" then mret tt
  else
    hd ← wrap_result (λ e, errw! "failed to check for existing data: %w" [e]) (env.(rqe_HasData) c.(rq_DataPath));
    if (hd : bool) then mret tt
    else
      r ← attempt (rq_call (DownloadFile c.(rq_AutoRestoreFile)));
      match r with
      | Bad e => if env.(rqe_errOK) c.(rq_AutoRestoreFile) then mret tt
                 else throw (err! "failed to download auto-restore file: %s")
      | Good _ => wrap (λ e, errw! "failed to preload auto-restore data: %w" [e]) (rq_call SetRestorePath)
      end.

Definition createCredentialStore : PM unit :=
  c ← config; if c.(rq_AuthFile) =? "" then mret tt else rq_call (CredentialsFromFile c.(rq_AuthFile)).

Definition createClusterClient : PM unit :=
  wrap (λ e, errw! "failed to create RqLite cluster dialer: %s" []) (dialer "Cluster" (GetPartitionClusterHeaderByte partition)) ;;
  c ← config;
  wrap (λ e, errw! "failed to set cluster client local parameters: %s" []) (rq_call (SetLocal c.(rq_RaftAdv))).

Definition networkCheckJoinAddrs (joins : option (list string)) : PM unit :=
  match joins with
  | Some (a :: l) => if env.(rqe_AnyServingHTTP) (a :: l)
                     then throw (err! "join address %s appears to be serving HTTP when it should be Raft")
                     else mret tt
  | _ => mret tt
  end.

(** The id is the one the store was made with. *)
Definition createPartitionCluster (id : string) (hasPeers : bool) : PM unit :=
  c ← config;
  let joins := JoinAddresses c in
  networkCheckJoinAddrs joins ;;
  match joins with
  | None =>
      if hasPeers then mret tt
      else if c.(rq_RaftNonVoter)
      then throw (err! "cannot create a new non-voting node without joining it to an existing cluster")
      else wrap (λ e, errw! "failed to bootstrap single new node: %s" [])
             (rq_call (BootstrapStore {| srv_Suffrage := Voter; srv_ID := id; srv_Address := c.(rq_RaftAdv) |}))
  | Some addrs =>
      let voter := negb c.(rq_RaftNonVoter) in
      if (c.(rq_BootstrapExpect) =? 0)%Z then
        wrap (λ e, errw! "failed to join cluster: %s" [])
          (rq_call (JoinerDo c.(rq_JoinAttempts) addrs id c.(rq_RaftAdv) voter))
      else if (0 <? c.(rq_BootstrapExpect))%Z
      then rq_call (BootstrapperBoot addrs id c.(rq_RaftAdv) voter)
      else mret tt
  end.

Definition startAutoBackups : PM unit :=
  c ← config;
  if c.(rq_AutoBackupFile) =? "" then mret tt
  else
    wrap (λ e, errw! "failed to read auto-backup file: %s" []) (rq_call (ReadBackupConfig c.(rq_AutoBackupFile))) ;;
    wrap (λ e, errw! "failed to parse auto-backup file: %s" []) (rq_call UnmarshalBackup) ;;
    wrap (λ e, errw! "failed to create aws S3 client: %s" []) (rq_call NewS3Client) ;;
    note StartUploader.

Definition StartZenPartitionNode : PM ZenPartitionNode :=
  no_panic (GetPartitionRaftHeaderByte partition) ;;
  wrap (λ e, errw! "failed to create RqLite Raft dialer: %w" [e]) (dialer "Raft" (GetPartitionRaftHeaderByte partition)) ;;
  createStore ;;
  c ← config;
  let storeID := c.(rq_NodeID) in
  wrap (λ e, errw! "failed to create rqLiteDB for partition %d: %w" [e]) (rq_call NewDB) ;;
  auto_restore ;;
  wrap (λ e, errw! "failed to get credential store: %w" [e]) createCredentialStore ;;
  no_panic (GetPartitionClusterHeaderByte partition) ;;
  wrap (λ e, errw! "failed to create cluster service: %w" [e]) (rq_call OpenService) ;;
  wrap (λ e, errw! "failed to create cluster client: %w" [e]) createClusterClient ;;
  wrap (λ e, errw! "failed to open store: %w" [e]) (rq_call OpenStore) ;;
  note RegisterObserver ;;
  nodes ← wrap_result (λ e, errw! "failed to get nodes %w" [e]) (env.(rqe_Nodes) partition);
  wrap (λ e, errw! "clustering failure: %w" [e])
    (createPartitionCluster storeID (0 <? Z.of_nat (length nodes))%Z) ;;
  wrap (λ e, errw! "failed to start auto-ackups: %w" [e]) startAutoBackups ;;
  mret {| zpn_PartitionId := partition; zpn_FeelRuntime := false; zpn_JsRuntime := false; zpn_Engine := false |}.

(** ** Stopping *)

Definition note_if (b : bool) (q : RqCall) : PM unit := if b then note q else mret tt.

(** The store is not closed when the removal fails. *)
Definition Stop_node (zpn : ZenPartitionNode) : PM unit :=
  note_if zpn.(zpn_Engine) EngineStop ;;
  note_if zpn.(zpn_FeelRuntime) FeelStop ;;
  note_if zpn.(zpn_JsRuntime) JsStop ;;
  note CloseService ;;
  c ← config;
  (if c.(rq_RaftClusterRemoveOnShutdown)
   then wrap (λ e, errw! "failed to remove this node from cluster before shutdown: %w" [e])
          (rq_call (RemoverDo c.(rq_NodeID)))
   else mret tt) ;;
  note_if c.(rq_RaftStepdownOnShutdown) StoreStepdown ;;
  note CloseStore.
End node.

(** ** The observer *)

Definition observerChanLen : nat := 100.

(** [None] is an observation of another kind. *)
Definition partition_observer_filter (o : option Observation) : bool :=
  match o with
  | Some (LeaderObservation _) | Some (FailedHeartbeatObservation _ _)
  | Some (ResumedHeartbeatObservation _) | Some (PeerObservation _ _) => true
  | None => false
  end.

(** A callback that is nil is [None]. *)
Record PartitionChangesCallbacks (X : Type) := {
  pcb_AddNewNode : option (Server → ST X unit);
  pcb_ShutdownNode : option (string → ST X unit);
  pcb_LeaderChange : option (string → ST X unit);
  pcb_RemoveNode : option (string → ST X unit);
  pcb_ResumeNode : option (string → ST X unit)
}.
Arguments pcb_AddNewNode {X}. Arguments pcb_ShutdownNode {X}. Arguments pcb_LeaderChange {X}.
Arguments pcb_RemoveNode {X}. Arguments pcb_ResumeNode {X}.

Section observer.
Context {X : Type} (callbacks : PartitionChangesCallbacks X).
(** The configuration of the partition and its thresholds. *)
Context (Nodes : result (list Node)) (cfg : RqLite).

(** Errors are only logged. *)
Definition call_back {A} (f : option (A → ST X unit)) (a : A) : ST X unit :=
  match f with None => mret tt | Some f => _ ← attempt (f a); mret tt end.

Definition partition_heartbeat_failed (id : string) (dur : Z) : ST X unit :=
  let servers := match Nodes with Good nodes => nodes | Bad _ => [] end in
  let '(isReadOnly, found) := IsReadOnly servers id in
  if negb found then mret tt
  else
    (if (0 <? cfg.(rq_RaftHeartbeatShutdownTimeout))%Z && (cfg.(rq_RaftHeartbeatShutdownTimeout) <? dur)%Z
     then call_back callbacks.(pcb_ShutdownNode) id else mret tt) ;;
    (if (isReadOnly && (0 <? cfg.(rq_RaftReapReadOnlyNodeTimeout))%Z && (cfg.(rq_RaftReapReadOnlyNodeTimeout) <? dur)%Z)
        || (negb isReadOnly && (0 <? cfg.(rq_RaftReapNodeTimeout))%Z && (cfg.(rq_RaftReapNodeTimeout) <? dur)%Z)
     then call_back callbacks.(pcb_RemoveNode) id else mret tt).

(** The cases of an observation that is received. *)
Definition observe_case (o : Observation) : ST X unit :=
  match o with
  | ResumedHeartbeatObservation id => call_back callbacks.(pcb_ResumeNode) id
  | FailedHeartbeatObservation id dur => partition_heartbeat_failed id dur
  | LeaderObservation id => call_back callbacks.(pcb_LeaderChange) id
  | PeerObservation true peer => call_back callbacks.(pcb_ShutdownNode) peer.(srv_ID)
  | PeerObservation false peer => call_back callbacks.(pcb_AddNewNode) peer
  end.
End observer.

(** The callbacks of the controller. *)
Definition partitionAddNewNode {X} (partitionId : Z) (s : Server) : ST X unit := panic "unimplemented".
Definition partitionShutdownNode {X} (partitionId : Z) (s : string) : ST X unit := panic "unimplemented".
Definition partitionLeaderChange {X} (partitionId : Z) (s : string) : ST X unit := panic "unimplemented".
Definition partitionRemoveNode {X} (partitionId : Z) (id : string) : ST X unit := panic "unimplemented".
Definition partitionResumeNode {X} (partitionId : Z) (id : string) : ST X unit := panic "unimplemented".

Definition controller_callbacks {X} (partitionId : Z) : PartitionChangesCallbacks X :=
  {| pcb_AddNewNode := Some (partitionAddNewNode partitionId);
     pcb_ShutdownNode := Some (partitionShutdownNode partitionId);
     pcb_LeaderChange := Some (partitionLeaderChange partitionId);
     pcb_RemoveNode := Some (partitionRemoveNode partitionId);
     pcb_ResumeNode := Some (partitionResumeNode partitionId) |}.

(** The channel made for the observer, and the one the field observerChan of
    the node denotes: nil, or that channel. *)
Inductive ChanRef := NilChan | MadeChan.
Record Observer := { ob_chan : list Observation; ob_field : ChanRef; ob_closed : bool; ob_done : bool }.

(** StartZenPartitionNode makes the channel for a variable of its own; the field
    keeps its zero value. *)
Definition start_observer : Observer := {| ob_chan := []; ob_field := NilChan; ob_closed := false; ob_done := false |}.

Definition set_ob_chan (l : list Observation) (ob : Observer) : Observer :=
  {| ob_chan := l; ob_field := ob.(ob_field); ob_closed := ob.(ob_closed); ob_done := ob.(ob_done) |}.

(** A receive from a nil channel is never ready. *)
Definition receive_field (ob : Observer) : option (Observation * Observer) :=
  match ob.(ob_field), ob.(ob_chan) with
  | MadeChan, o :: rest => Some (o, set_ob_chan rest ob)
  | _, _ => None
  end.

(** The registration of an observer with the raft library, given the capacity
    of the channel, whether it blocks, and the filter: the new content of the
    channel, [None] when the library waits. *)
Class RaftObservers := {
  ro_observe : nat → bool → (option Observation → bool) → option Observation → list Observation →
    option (list Observation)
}.
Class RaftObserversLaws `{RaftObservers} : Prop := {
  ro_filtered (cap : nat) blocking f o (q : list Observation) : f o = false → ro_observe cap blocking f o q = Some q;
  ro_delivered (cap : nat) blocking f o (q : list Observation) : f (Some o) = true → (length q < cap)%nat →
    ro_observe cap blocking f (Some o) q = Some (q ++ [o]);
  ro_waits (cap : nat) f o (q : list Observation) : f (Some o) = true → (cap ≤ length q)%nat → ro_observe cap true f (Some o) q = None
}.

Inductive ObserverEvent := Observed (o : option Observation) | Ticks | Receives | EndsLoop.

Section observe.
Context `{RaftObservers} {X : Type} (callbacks : PartitionChangesCallbacks X) (Nodes : result (list Node)) (cfg : RqLite).

Definition raft_observes (o : option Observation) (ob : Observer) : option Observer :=
  q ← ro_observe observerChanLen true partition_observer_filter o ob.(ob_chan);
  Some (set_ob_chan q ob).

(** A step of the raft library or of the goroutine of observe; a tick only
    records metrics.  Nothing closes the channel observerClose. *)
Inductive observer_step : ObserverEvent → Observer * X → Observer * X → Prop :=
| os_observed o ob ob' x : raft_observes o ob = Some ob' → observer_step (Observed o) (ob, x) (ob', x)
| os_tick ob x : ob.(ob_done) = false → observer_step Ticks (ob, x) (ob, x)
| os_receive o ob ob' x x' : ob.(ob_done) = false → receive_field ob = Some (o, ob') →
    observe_case callbacks Nodes cfg o x = (Ret tt, x') → observer_step Receives (ob, x) (ob', x')
| os_end ob x : ob.(ob_closed) = true → ob.(ob_done) = false → observer_step EndsLoop (ob, x)
    ({| ob_chan := ob.(ob_chan); ob_field := ob.(ob_field); ob_closed := true; ob_done := true |}, x).

Inductive observer_run : list ObserverEvent → Observer * X → Observer * X → Prop :=
| run_nil s : observer_run [] s s
| run_snoc tr e s s1 s2 : observer_run tr s s1 → observer_step e s1 s2 → observer_run (tr ++ [e]) s s2.
End observe.

(** ** The observer hears nothing *)

Section deaf.
Context `{RaftObserversLaws} {X : Type} (callbacks : PartitionChangesCallbacks X) (Nodes : result (list Node)) (cfg : RqLite).

(** How many observations of a trace the filter accepts. *)
Definition accepts (e : ObserverEvent) : bool :=
  match e with Observed o => partition_observer_filter o | _ => false end.
Definition filter_accepted (tr : list ObserverEvent) : nat := length (filter (λ e, accepts e = true) tr).

Lemma accepted_snoc tr e : filter_accepted (tr ++ [e]) = (filter_accepted tr + if accepts e then 1 else 0)%nat.
Proof.
  unfold filter_accepted. rewrite filter_app, length_app, filter_cons. by destruct (accepts e).
Qed.

Lemma raft_observes_accepted o ob ob' :
  partition_observer_filter o = true → raft_observes o ob = Some ob' →
  (length ob.(ob_chan) < observerChanLen)%nat ∧ length ob'.(ob_chan) = S (length ob.(ob_chan)) ∧
  ob' = set_ob_chan ob'.(ob_chan) ob.
Proof.
  intros Hf E. destruct o as [o|]; [|done]. unfold raft_observes in E.
  destruct (decide (observerChanLen ≤ length ob.(ob_chan))%nat) as [Hle|Hlt].
  - by rewrite (ro_waits _ _ _ _ Hf Hle) in E.
  - rewrite (ro_delivered _ _ _ _ _ Hf) in E by lia. cbn in E. injection E as <-. cbn.
    rewrite length_app. cbn. split_and!; [lia|lia|done].
Qed.

Lemma observer_run_spec tr x ob' x' :
  observer_run callbacks Nodes cfg tr (start_observer, x) (ob', x') →
  x' = x ∧ length ob'.(ob_chan) = filter_accepted tr ∧ (filter_accepted tr ≤ observerChanLen)%nat ∧
  ob'.(ob_field) = NilChan ∧ ob'.(ob_closed) = false ∧ ob'.(ob_done) = false.
Proof.
  remember (start_observer, x) as s eqn:Es. remember (ob', x') as s' eqn:Es'. intros Hr. revert x ob' x' Es Es'.
  induction Hr as [s|tr e s s1 s2 Hr IH Hs]; intros x ob' x' -> E.
  { injection E as <- <-. split_and!; try done. unfold filter_accepted. cbn. lia. }
  destruct s1 as [ob1 x1]. destruct (IH x ob1 x1 eq_refl eq_refl) as (-> & Hl & Hb & Hf & Hc & Hd).
  rewrite accepted_snoc. inversion Hs; subst; simplify_eq; cbn [accepts].
  - destruct (partition_observer_filter o) eqn:Ef.
    + destruct (raft_observes_accepted o ob1 ob' Ef ltac:(done)) as (? & Hl' & Heq). rewrite Hl', Hl.
      assert (ob_field ob' = ob_field ob1 ∧ ob_closed ob' = ob_closed ob1 ∧ ob_done ob' = ob_done ob1) as (-> & -> & ->)
        by (rewrite Heq; done).
      split_and!; try done; lia.
    + assert (ob' = ob1) as ->.
      { match goal with E : raft_observes _ _ = _ |- _ => unfold raft_observes in E;
          rewrite (ro_filtered _ _ _ _ _ Ef) in E; cbn in E; injection E as <- end. by destruct ob1. }
      split_and!; try done; lia.
  - split_and!; try done; lia.
  - unfold receive_field in *. by rewrite Hf in *.
  - congruence.
Qed.

(** C12: However the raft library and the goroutine of a partition node
    interleave, no callback is ever run: the goroutine reads from a channel that
    is nil.  The channel the library writes to fills up, and at the hundred and
    first observation the library waits for ever; the goroutine never ends. *)
Theorem partition_observer_is_deaf tr x ob' x' :
  observer_run callbacks Nodes cfg tr (start_observer, x) (ob', x') →
  x' = x ∧ (Receives ∉ tr) ∧ ob'.(ob_done) = false ∧ (filter_accepted tr ≤ observerChanLen)%nat ∧
  (filter_accepted tr = observerChanLen → ∀ o s, partition_observer_filter o = true →
     ¬ observer_step callbacks Nodes cfg (Observed o) (ob', x') s).
Proof.
  intros Hr. destruct (observer_run_spec _ _ _ _ Hr) as (-> & Hl & Hb & Hf & Hc & Hd). split_and!; try done.
  - remember (start_observer, x) as s eqn:Es. remember (ob', x) as s' eqn:Es'. clear Hl Hb Hf Hc Hd.
    revert x ob' Es Es'. induction Hr as [s|tr e s s1 s2 Hr IH Hs]; intros x ob' -> E; [apply not_elem_of_nil|].
    destruct s1 as [ob1 x1]. destruct (observer_run_spec _ _ _ _ Hr) as (-> & _ & _ & Hf & _ & _).
    rewrite elem_of_app, list_elem_of_singleton. intros [Hin|<-]; [by apply (IH x ob1)|].
    inversion Hs; subst. unfold receive_field in *. by rewrite Hf in *.
  - intros Ha o s Ho Hs. inversion Hs; subst.
    match goal with E : raft_observes _ _ = _ |- _ => apply (raft_observes_accepted _ _ _ Ho) in E as (? & _) end. lia.
Qed.

(** What would follow if the channel were the one of the field: every
    observation with a callback ends the process. *)
Lemma delivered_observation_panics partitionId o (x : X) :
  match o with FailedHeartbeatObservation _ _ => False | _ => True end →
  (observe_case (controller_callbacks partitionId) Nodes cfg o x).1 = Panic "unimplemented".
Proof. by destruct o as [| | |[]]. Qed.
End deaf.

(** ** One configuration for all partition nodes *)

(** A program that leaves the configuration and asks for no removal. *)
Definition keeps (w w' : PartitionProcess) : Prop :=
  pp_config w' = pp_config w ∧ pp_calls w ⊆ pp_calls w' ∧
  ∀ k id, (k, RemoverDo id) ∈ pp_calls w' → (k, RemoverDo id) ∈ pp_calls w.
#[local] Instance keeps_PreOrder : PreOrder keeps.
Proof. split; [done|]. intros a b c (H1 & H2 & H3) (H4 & H5 & H6). split; [congruence|]. split; [set_solver|eauto]. Qed.

Section start.
Context (env : RqEnv) (p : Z).

Lemma keeps_note q : (∀ id, q ≠ RemoverDo id) → pres keeps (note p q).
Proof.
  intros Hq. apply pres_modify. intros w. split; [done|]. cbn. split; [set_solver|]. intros k id.
  rewrite elem_of_app, list_elem_of_singleton. intros [?|[= -> E]]; [done|]. by destruct (Hq id).
Qed.
Lemma keeps_call q : (∀ id, q ≠ RemoverDo id) → pres keeps (rq_call env p q).
Proof.
  intros Hq. apply pres_bind; [apply _|by apply keeps_note|]. intros _.
  destruct (rqe_answer env p q); [apply pres_throw|apply pres_ret]; apply _.
Qed.
Lemma keeps_config : pres keeps config.
Proof. apply pres_gets, _. Qed.

Ltac keeps :=
  repeat first [apply keeps_config | apply keeps_note; done | apply keeps_call; done
    | closed_step | progress unfold StartZenPartitionNode, no_panic, dialer, createStore, auto_restore,
        createCredentialStore, createClusterClient, createPartitionCluster, networkCheckJoinAddrs, startAutoBackups ].

Lemma pres_run {A} (m : ST PartitionProcess A) w a w' : pres keeps m → m w = (Ret a, w') → keeps w w'.
Proof. intros Hm E. by apply (pres_returns _ _ _ _ _ Hm E). Qed.

(** A partition node that starts has made its store with the id and the path of
    the configuration at that time. *)
Lemma Start_keeps w zpn w' :
  StartZenPartitionNode env p w = (Ret zpn, w') →
  keeps w w' ∧ (p, NewStore w.(pp_config).(rq_NodeID) w.(pp_config).(rq_DataPath)) ∈ w'.(pp_calls).
Proof.
  intros E. split; [eapply pres_run in E; [exact E|keeps]|].
  unfold StartZenPartitionNode in E.
  apply bind_Ret in E as (u1 & w1 & E1 & E). eapply pres_run in E1 as (C1 & _); [|keeps].
  apply bind_Ret in E as (u2 & w2 & E2 & E). eapply pres_run in E2 as (C2 & _); [|keeps].
  apply bind_Ret in E as (u3 & w3 & E3 & E). injection E3 as _ <-.
  eapply pres_run in E as (_ & Hs & _); [|keeps]. apply Hs. cbn.
  rewrite C2, C1. set_solver.
Qed.

Lemma prepare_run storeID raftDir w :
  prepare_config storeID raftDir p w = (Ret tt, set_pp_config (set_identity (partition_dir raftDir p)
    w.(pp_config).(rq_RaftAdv) (partition_node_id storeID p) w.(pp_config)) w).
Proof. done. Qed.

(** Stop asks to remove the id the configuration has when it is called. *)
Lemma Stop_removes zpn w o w' :
  w.(pp_config).(rq_RaftClusterRemoveOnShutdown) = true → Stop_node env p zpn w = (o, w') →
  (p, RemoverDo w.(pp_config).(rq_NodeID)) ∈ w'.(pp_calls) ∧ w.(pp_calls) ⊆ w'.(pp_calls) ∧
  ∀ id, (p, RemoverDo id) ∈ w'.(pp_calls) → (p, RemoverDo id) ∈ w.(pp_calls) ∨ id = w.(pp_config).(rq_NodeID).
Proof.
  intros Hr E. unfold Stop_node, note_if, note, rq_call, config, mbind, ST_bind, modify, gets, wrap, attempt in E.
  cbn in E. destruct (zpn_Engine zpn), (zpn_FeelRuntime zpn), (zpn_JsRuntime zpn); cbn in E; rewrite Hr in E; cbn in E;
    destruct (rqe_answer env p _); cbn in E; try destruct (rq_RaftStepdownOnShutdown _); cbn in E; injection E as _ <-; cbn.
  all: set_solver.
Qed.
End start.

Lemma partition_node_id_inj storeID p q : partition_node_id storeID p = partition_node_id storeID q → p = q.
Proof.
  unfold partition_node_id. intros H.
  do 3 (apply (inj (String.append _)) in H). by apply (inj pretty) in H.
Qed.

(** C11: A node that started partition p and then partition q, and stops p, asks
    the cluster of p to remove the id of q: the id its own store was made with
    is never removed. *)
Theorem stopped_partition_removes_other_id env storeID raftDir p q np nq np' w w1 w2 o w3 :
  p ≠ q → w.(pp_config).(rq_RaftClusterRemoveOnShutdown) = true → w.(pp_calls) = [] →
  (prepare_config storeID raftDir p ;; StartZenPartitionNode env p) w = (Ret np, w1) →
  (prepare_config storeID raftDir q ;; StartZenPartitionNode env q) w1 = (Ret nq, w2) →
  Stop_node env p np' w2 = (o, w3) →
  (p, NewStore (partition_node_id storeID p) (partition_dir raftDir p)) ∈ w3.(pp_calls) ∧
  (p, RemoverDo (partition_node_id storeID q)) ∈ w3.(pp_calls) ∧
  (p, RemoverDo (partition_node_id storeID p)) ∉ w3.(pp_calls).
Proof.
  intros Hpq Hr Hw E1 E2 E3.
  rewrite (bind_step _ _ _ _ _ (prepare_run p storeID raftDir w)) in E1.
  rewrite (bind_step _ _ _ _ _ (prepare_run q storeID raftDir w1)) in E2.
  apply Start_keeps in E1 as [(C1 & S1 & R1) Hs]. apply Start_keeps in E2 as [(C2 & S2 & R2) _].
  assert (HC : pp_config w2 = set_identity (partition_dir raftDir q) (rq_RaftAdv (pp_config w1)) (partition_node_id storeID q) (pp_config w1)) by done.
  apply Stop_removes in E3 as (Hq & S3 & R3); [|rewrite HC; cbn; by rewrite C1]. rewrite HC in Hq, R3. cbn in Hq, R3, Hs, S2, R2.
  split_and!; [by apply S3, S2|done|].
  intros [Hin|E]%R3.
  - apply R2, R1 in Hin. cbn in Hin. rewrite Hw in Hin. by apply not_elem_of_nil in Hin.
  - apply Hpq. by apply (partition_node_id_inj storeID).
Qed.

(** ** The cluster of a partition in the default configuration *)

Definition is_membership (q : RqCall) : bool :=
  match q with BootstrapStore _ | JoinerDo _ _ _ _ _ | BootstrapperBoot _ _ _ _ => true | _ => false end.
Definition membership_calls (w : PartitionProcess) : list (Z * RqCall) :=
  filter (λ k, is_membership k.2 = true) w.(pp_calls).

(** Runs the next requests, which rqlite answers without an error. *)
Ltac start_run Hans := repeat (rewrite Hans; cbn -[JoinAddresses partition_node_id partition_dir]).

(** In the default configuration of a node whose address is proper, a
    partition node starts when rqlite answers without errors; a store without
    peers forms a cluster of its own exactly when no join addresses were given,
    and with join addresses it takes part in forming a cluster through them, as
    a voter with the id of the partition. *)
Theorem default_partition_cluster env Abs does_not_exist is_unspecified_ip storeID raftAddr raftDir joins cfg p nodes :
  controller_config Abs does_not_exist is_unspecified_ip None storeID raftAddr joins = Good cfg →
  Forall (λ a, lacks ","%char a ∧ is_Good (SplitHostPort a) = true) joins → (0 ≤ p ≤ 122)%Z →
  (∀ q, rqe_answer env p q = None) → rqe_Nodes env p = Good nodes → rqe_AnyServingHTTP env joins = false →
  ∃ zpn w, (prepare_config storeID raftDir p ;; StartZenPartitionNode env p) {| pp_config := cfg; pp_calls := [] |} = (Ret zpn, w) ∧
    zpn.(zpn_PartitionId) = p ∧
    membership_calls w =
    match joins, nodes with
    | [], [] => [(p, BootstrapStore {| srv_Suffrage := Voter; srv_ID := partition_node_id storeID p; srv_Address := raftAddr |})]
    | [], _ => []
    | _, _ => [(p, BootstrapperBoot joins (partition_node_id storeID p) raftAddr true)]
    end.
Proof.
  unfold controller_config. intros Hc Hj Hp Hans Hnodes Hhttp.
  destruct (Validate _ _ _ _) as [[[]|e|?| |] c'] eqn:EV; try done. injection Hc as <-.
  apply Validate_spec in EV as (path & _ & -> & Hv). pose proof (valid_identity _ _ _ Hv) as Hadv.
  pose proof (default_joins storeID raftAddr storeID joins Hj) as HJ.
  set (d := GetRqLiteDefaultConfig storeID raftAddr storeID joins) in *.
  assert (Ha : raftAddr ≠ "") by (intros ->; by apply Hadv).
  assert (Hadv' : rq_RaftAdv (validated path d) = raftAddr).
  { cbn. by rewrite (proj2 (String.eqb_neq _ _) Ha). }
  rewrite (bind_step _ _ _ _ _ (prepare_run p storeID raftDir _)). cbn [pp_config].
  set (c := set_identity _ _ _ _).
  assert (HJc : JoinAddresses c = match joins with [] => None | _ => Some joins end) by exact HJ.
  assert (Hb : ∃ b b', GetPartitionRaftHeaderByte p = Some b ∧ GetPartitionClusterHeaderByte p = Some b').
  { unfold GetPartitionRaftHeaderByte, GetPartitionClusterHeaderByte. destruct (Z.ltb_spec 122 p); [lia|eauto]. }
  destruct Hb as (b & b' & Hb & Hb').
  assert (Hc : c = set_identity (partition_dir raftDir p) raftAddr (partition_node_id storeID p) d).
  { unfold c. rewrite Hadv'. done. }
  rewrite Hc in HJc. rewrite Hc. clear c Hc Hv Hadv Hadv' HJ.
  unfold StartZenPartitionNode, createStore, auto_restore, createCredentialStore, createClusterClient,
    createPartitionCluster, networkCheckJoinAddrs, startAutoBackups, dialer, no_panic. rewrite Hb, Hb'.
  unfold wrap, attempt, wrap_result, rq_call, note, config, mbind, ST_bind, modify, gets, set_pp_config.
  cbn -[JoinAddresses partition_node_id partition_dir]. start_run Hans. rewrite Hnodes.
  cbn -[JoinAddresses partition_node_id partition_dir]. rewrite HJc. clear HJc.
  destruct joins as [|a joins]; [|rewrite Hhttp]; destruct nodes as [|n nodes];
    cbn -[JoinAddresses partition_node_id partition_dir]; start_run Hans; eexists _, _; done.
Qed.

(** ** A node with two partitions *)

Section concrete.
Definition quiet_rqlite : RqEnv :=
  {| rqe_answer _ _ := None; rqe_HasData _ := Good false; rqe_errOK _ := false; rqe_Nodes _ := Good [];
     rqe_AnyServingHTTP _ := false |}.
Definition lone_config : RqLite := set_DataPath "/data/n1" (GetRqLiteDefaultConfig "n1" "10.0.0.1:8090" "n1" []).
Definition lone_process : PartitionProcess := {| pp_config := lone_config; pp_calls := [] |}.
Definition one_started : PartitionProcess :=
  snd ((prepare_config "n1" "/raft" 1 ;; StartZenPartitionNode quiet_rqlite 1) lone_process).
Definition two_started : PartitionProcess :=
  snd ((prepare_config "n1" "/raft" 2 ;; StartZenPartitionNode quiet_rqlite 2) one_started).
Definition fresh_node (p : Z) : ZenPartitionNode :=
  {| zpn_PartitionId := p; zpn_FeelRuntime := false; zpn_JsRuntime := false; zpn_Engine := false |}.

Lemma stopped_partition_removes_other_id_witness : ∃ w,
  Stop_node quiet_rqlite 1 (fresh_node 1) two_started = (Ret tt, w) ∧
  (1%Z, NewStore "zen-n1-partition-1" "/raft/partition-1") ∈ pp_calls w ∧
  (1%Z, RemoverDo "zen-n1-partition-2") ∈ pp_calls w ∧
  (1%Z, RemoverDo "zen-n1-partition-1") ∉ pp_calls w.
Proof.
  assert (E1 : (prepare_config "n1" "/raft" 1 ;; StartZenPartitionNode quiet_rqlite 1) lone_process =
    (Ret (fresh_node 1), one_started)) by by vm_compute.
  assert (E2 : (prepare_config "n1" "/raft" 2 ;; StartZenPartitionNode quiet_rqlite 2) one_started =
    (Ret (fresh_node 2), two_started)) by by vm_compute.
  destruct (Stop_node quiet_rqlite 1 (fresh_node 1) two_started) as [o w] eqn:E3.
  assert (o = Ret tt) as -> by (vm_compute in E3; congruence).
  exists w. split; [done|].
  exact (stopped_partition_removes_other_id quiet_rqlite "n1" "/raft" 1 2 (fresh_node 1) (fresh_node 2) (fresh_node 1)
    lone_process one_started two_started (Ret tt) w ltac:(done) eq_refl eq_refl E1 E2 E3).
Defined.

Lemma default_partition_cluster_witness : ∃ w,
  (prepare_config "n1" "/raft" 1 ;; StartZenPartitionNode quiet_rqlite 1) lone_process = (Ret (fresh_node 1), w) ∧
  membership_calls w = [(1%Z, BootstrapStore {| srv_Suffrage := Voter; srv_ID := "zen-n1-partition-1";
                                              srv_Address := "10.0.0.1:8090" |})].
Proof.
  destruct (default_partition_cluster quiet_rqlite example_Abs (λ _, false) (String.eqb "0.0.0.0") "n1" "10.0.0.1:8090"
    "/raft" [] lone_config 1 [] ltac:(by vm_compute) (Forall_nil_2 _) ltac:(lia) ltac:(done) eq_refl eq_refl)
    as (zpn & w & E & _ & Hm).
  exists w. split; [|exact Hm]. unfold lone_process.
  assert (zpn = fresh_node 1) as <- by (vm_compute in E; injection E as <- _; reflexivity). exact E.
Defined.

(** The registration of the raft library, as it is documented. *)
#[local] Instance documented_observers : RaftObservers := {|
  ro_observe cap blocking f o q :=
    if f o then
      match o with
      | Some x => if bool_decide (length q < cap)%nat then Some (q ++ [x]) else if (blocking : bool) then None else Some q
      | None => Some q
      end
    else Some q |}.
#[local] Instance documented_observers_laws : RaftObserversLaws.
Proof.
  split; cbn.
  - intros cap blocking f o q Hf. by rewrite Hf.
  - intros cap blocking f o q Hf Hl. by rewrite Hf, bool_decide_true.
  - intros cap f o q Hf Hl. rewrite Hf, bool_decide_false by lia. done.
Qed.

Definition full_observer (n : nat) (o : Observation) : Observer :=
  {| ob_chan := replicate n o; ob_field := NilChan; ob_closed := false; ob_done := false |}.

Definition new_leader : Observation := LeaderObservation "zen-n1-partition-1".

Lemma observers_fill {X} (cb : PartitionChangesCallbacks X) ns cfg o (x : X) n :
  (n ≤ observerChanLen)%nat → partition_observer_filter (Some o) = true →
  observer_run cb ns cfg (replicate n (Observed (Some o))) (start_observer, x) (full_observer n o, x).
Proof.
  intros Hn Hf. induction n as [|n IH]; [constructor|]. rewrite replicate_S_end.
  eapply run_snoc; [apply IH; lia|]. apply os_observed. unfold raft_observes. cbn [ob_chan full_observer].
  rewrite (ro_delivered _ _ _ _ _ Hf) by (rewrite length_replicate; lia). cbn.
  by rewrite <- replicate_S_end.
Qed.

Lemma partition_observer_is_deaf_witness :
  observer_run (controller_callbacks 1) (Good []) lone_config (replicate 100 (Observed (Some new_leader)))
    (start_observer, tt) (full_observer 100 new_leader, tt) ∧
  ∀ s, ¬ observer_step (controller_callbacks 1) (Good []) lone_config (Observed (Some new_leader))
    (full_observer 100 new_leader, tt) s.
Proof.
  pose proof (observers_fill (controller_callbacks 1) (Good []) lone_config new_leader tt 100
    ltac:(unfold observerChanLen; lia) eq_refl) as Hr.
  split; [exact Hr|]. intros s.
  destruct (partition_observer_is_deaf _ _ _ _ _ _ _ Hr) as (_ & _ & _ & _ & Hfull).
  apply Hfull; [by vm_compute|done].
Defined.
End concrete.
