(* ===== verification/References.v ===== *)
(** The references of a decoded process (helper.go of pkg/bpmn/model/bpmn20):
    the check for unsupported elements, the registration of the elements under
    their ids and the resolution of the fields that name other elements.  The
    code walks the structures by reflection; here a structure is the tree of
    its fields, as reflection shows it. *)
From S2P Require Import Prelude Monad.

#[local] Open Scope string_scope.
#[local] Open Scope list_scope.

(** ** Unsupported elements *)

Record TUnknownElement := {
  ue_Local : string; ue_Id : string; ue_Incoming : list string; ue_Outgoing : list string
}.

(** Of a TFlowElementsContainer only what collectUnknownElements reads. *)
Inductive TFlowElementsContainer :=
| Container (UnknownElements : list TUnknownElement) (SubProcess : list TFlowElementsContainer).

Definition is_flow_node (e : TUnknownElement) : bool :=
  (0 <? length e.(ue_Incoming))%nat || (0 <? length e.(ue_Outgoing))%nat.

Definition add_unknown (byType : gmap string (list string)) (e : TUnknownElement) : gmap string (list string) :=
  if is_flow_node e
  then <[e.(ue_Local) := default [] (byType !! e.(ue_Local)) ++ [e.(ue_Id)]]> byType
  else byType.

Fixpoint collectUnknownElements (container : TFlowElementsContainer)
    (byType : gmap string (list string)) : gmap string (list string) :=
  match container with
  | Container unknown subs =>
      fold_left (λ m s, collectUnknownElements s m) subs (fold_left add_unknown unknown byType)
  end.

(** ** Structures *)

(** The two interfaces references have. *)
Inductive Interface := IFlowNode | ISequenceFlow.
#[export] Instance Interface_eq_dec : EqDecision Interface.
Proof. solve_decision. Defined.

(** A field with an idField tag: a list or one interface, with the ids its
    structure has for it.  The tags of the repository name fields of these
    types, so the errors about other types are not reached. *)
Inductive RefField :=
| RefSlice (t : Interface) (ids : list string)
| RefInterface (t : Interface) (id : string).

Inductive GoField (A : Type) :=
| FTagged (r : RefField)
| FSlice (elems : list A)
| FStruct (a : A)
| FOther.
Arguments FTagged {A}. Arguments FSlice {A}. Arguments FStruct {A}. Arguments FOther {A}.

(** A structure: its GetId when it is a BaseElement, the interfaces its pointer
    implements, and its fields. *)
Inductive GoStruct :=
| Struct (id : option string) (implements : list Interface) (fields : list (GoField GoStruct)).

Definition struct_id (e : GoStruct) : option string := let '(Struct id _ _) := e in id.
Definition implements (e : GoStruct) : list Interface := let '(Struct _ l _) := e in l.

Abbreviation Refs := (gmap string GoStruct).

(** An id that is already registered keeps its element. *)
Definition register (e : GoStruct) (refs : Refs) : Refs :=
  match struct_id e with
  | Some id => match refs !! id with Some _ => refs | None => <[id := e]> refs end
  | None => refs
  end.

Fixpoint collectBaseElements (element : GoStruct) (st : Refs * list RefField) : Refs * list RefField :=
  match element with
  | Struct _ _ fields =>
      fold_left (λ st f,
        match f with
        | FTagged r => (st.1, st.2 ++ [r])
        | FSlice elems => fold_left (λ st e, collectBaseElements e st) elems st
        | FStruct e => collectBaseElements e st
        | FOther => st
        end) fields (register element st.1, st.2)
  end.

(** ** Resolution *)

(** The value of a field: the elements it points to. *)
Abbreviation FieldValue := (list GoStruct).

Definition singleIDprocessor (refs : Refs) (id : string)
    (setter : GoStruct → ST FieldValue unit) : ST FieldValue unit :=
  if (id =? "")%string then mret tt
  else match refs !! id with
       | None => throw (err! "no registered BaseElement with ID [%s]")
       | Some value => setter value
       end.

(** The message of the error for a list asks the list for its Elem, which
    only interfaces and pointers have. *)
Definition append_value (t : Interface) (value : GoStruct) : ST FieldValue unit :=
  if decide (t ∈ implements value) then modify (λ l, l ++ [value])
  else panic "reflect: call of reflect.Value.Elem on slice Value".
Definition set_value (t : Interface) (value : GoStruct) : ST FieldValue unit :=
  if decide (t ∈ implements value) then modify (λ _, [value])
  else throw (err! "resolved reference with ID [%s] is not assignable to %s").

Definition resolve_one (refs : Refs) (t : Interface) (joinErr : option error) (id : string)
    : ST FieldValue (option error) :=
  r ← attempt (singleIDprocessor refs id (append_value t));
  mret (match r with
        | Good _ => joinErr
        | Bad e => join_opt joinErr (errw! "error processing %s[%d] type %s: %w" [e])
        end).

Definition makeResolvable (refs : Refs) (r : RefField) : ST FieldValue unit :=
  match r with
  | RefSlice t ids =>
      joinErr ← for_fold ids None (resolve_one refs t);
      match joinErr with Some e => throw e | None => mret tt end
  | RefInterface t id => singleIDprocessor refs id (set_value t)
  end.

(** The fields are nil before they are resolved; the state holds those the
    loop has come to. *)
Definition on_field (m : ST FieldValue unit) : ST (list FieldValue) unit :=
  λ fields, let '(o, v) := m [] in (o, fields ++ [v]).

Definition ResolveReferences (process : TFlowElementsContainer) (definitions : GoStruct)
    : ST (list FieldValue) unit :=
  if decide (collectUnknownElements process ∅ = ∅) then
    let '(baseElementMap, resolvables) := collectBaseElements definitions (∅, []) in
    for_each resolvables (λ r,
      wrap (λ e, errw! "failed to resolve references: %w" [e])
        (on_field (makeResolvable baseElementMap r)))
  else throw (err! "unsupported element type '%s' (ids: %v): use supported elements only").

(** [decoded] is the answer of the decoder for the fields of TDefinitions. *)
Definition UnmarshalXML (decoded : result (TFlowElementsContainer * GoStruct))
    : ST (list FieldValue) unit :=
  '(process, definitions) ← wrap_result (λ e, errw! "failed to unmarshal TDefinitions: %w" [e]) decoded;
  wrap (λ e, errw! "failed to resolve references: %w" [e]) (ResolveReferences process definitions).

(** ** The structures of the model *)

Definition TBaseElement_struct (id : string) : GoStruct := Struct (Some id) [] [FOther; FSlice []].
Definition TFlowElement_struct (id : string) : GoStruct :=
  Struct (Some id) [] [FStruct (TBaseElement_struct id); FOther].
Definition TFlowNode_struct (id : string) (incoming outgoing : list string) : GoStruct :=
  Struct (Some id) [IFlowNode]
    [FStruct (TFlowElement_struct id); FOther; FOther;
     FTagged (RefSlice ISequenceFlow incoming); FTagged (RefSlice ISequenceFlow outgoing)].
Definition TSequenceFlow_struct (id source target : string) : GoStruct :=
  Struct (Some id) [ISequenceFlow]
    [FStruct (TFlowElement_struct id); FOther; FOther; FStruct (Struct None [] [FOther]);
     FTagged (RefInterface IFlowNode source); FTagged (RefInterface IFlowNode target)].

(** An event, a gateway or an activity embeds a flow node, as deep as its type
    says, and has the id and the interfaces of the flow node. *)
Fixpoint embedding (depth : nat) (e : GoStruct) : GoStruct :=
  match depth with
  | O => e
  | Datatypes.S n => let e := embedding n e in Struct (struct_id e) (implements e) [FStruct e; FOther]
  end.
Definition default_flow_gateway (id : string) (incoming outgoing : list string) (flow : string) : GoStruct :=
  Struct (Some id) [IFlowNode]
    [FStruct (embedding 1 (TFlowNode_struct id incoming outgoing));
     FStruct (Struct None [] [FOther; FTagged (RefInterface ISequenceFlow flow)])].

Definition TProcess_struct (id : string) (elements : list (list GoStruct)) : GoStruct :=
  Struct (Some id) []
    [FStruct (Struct (Some id) [] [FStruct (TBaseElement_struct id); FOther]);
     FStruct (Struct None [] (FSlice <$> elements)); FOther].
(** The id of a sub process is that of its TProcess; the one of its TActivity is
    left empty by the decoder. *)
Definition TSubProcess_struct (id : string) (incoming outgoing : list string)
    (elements : list (list GoStruct)) : GoStruct :=
  Struct (Some id) [IFlowNode]
    [FStruct (embedding 1 (TFlowNode_struct "" incoming outgoing)); FStruct (TProcess_struct id elements)].
Definition TDefinitions_struct (id : string) (process : GoStruct) : GoStruct :=
  Struct (Some id) []
    [FStruct (TBaseElement_struct id); FStruct (Struct None [] [FStruct process; FSlice []]); FOther].

(** ** What is collected

    A reference definition: the registered structures and the tagged fields in
    the order of the walk. *)
Definition own_base (e : GoStruct) : list (string * GoStruct) :=
  match struct_id e with Some id => [(id, e)] | None => [] end.

Section walk.
Context {B : Type} (own : GoStruct → list B) (of_tag : RefField → list B).
Fixpoint walk (e : GoStruct) : list B :=
  match e with
  | Struct _ _ fields =>
      own e ++ flat_map (λ f,
        match f with
        | FTagged r => of_tag r
        | FSlice elems => flat_map walk elems
        | FStruct e => walk e
        | FOther => []
        end) fields
  end.
End walk.

Definition bases : GoStruct → list (string * GoStruct) := walk own_base (λ _, []).
Definition tagged : GoStruct → list RefField := walk (λ _, []) (λ r, [r]).

(** The element of an id is the first one that has it. *)
Fixpoint first_base (id : string) (l : list (string * GoStruct)) : option GoStruct :=
  match l with
  | [] => None
  | (id', e) :: l => if (id' =? id)%string then Some e else first_base id l
  end.
Definition element (definitions : GoStruct) (id : string) : option GoStruct :=
  first_base id (bases definitions).

(** Induction on structures, with the hypothesis for the structures in fields. *)
Section ind.
Context (P : GoStruct → Prop).
Definition field_holds (f : GoField GoStruct) : Prop :=
  match f with FSlice elems => Forall P elems | FStruct e => P e | _ => True end.
Context (step : ∀ id l fields, Forall field_holds fields → P (Struct id l fields)).
Fixpoint GoStruct_nested_ind (e : GoStruct) : P e :=
  match e with
  | Struct id l fields =>
      step id l fields ((fix all (fs : list (GoField GoStruct)) : Forall field_holds fs :=
        match fs with
        | [] => Forall_nil_2 _
        | f :: fs => Forall_cons_2 _ f fs
            match f return field_holds f with
            | FTagged _ | FOther => I
            | FStruct e => GoStruct_nested_ind e
            | FSlice elems =>
                (fix each (es : list GoStruct) : Forall P es :=
                   match es with
                   | [] => Forall_nil_2 _
                   | e :: es => Forall_cons_2 _ e es (GoStruct_nested_ind e) (each es)
                   end) elems
            end (all fs)
        end) fields)
  end.
End ind.

Definition register_all (l : list (string * GoStruct)) (refs : Refs) : Refs :=
  fold_left (λ m p, register p.2 m) l refs.

Lemma register_all_app l l' refs : register_all (l ++ l') refs = register_all l' (register_all l refs).
Proof. apply fold_left_app. Qed.

Definition collects (e : GoStruct) : Prop := ∀ refs rs,
  collectBaseElements e (refs, rs) = (register_all (bases e) refs, rs ++ tagged e).

Lemma collects_all es refs rs : Forall collects es →
  fold_left (λ st e, collectBaseElements e st) es (refs, rs) =
  (register_all (flat_map bases es) refs, rs ++ flat_map tagged es).
Proof.
  intros H. revert refs rs. induction H as [|e es He _ IH]; intros refs rs; simpl.
  - by rewrite app_nil_r.
  - by rewrite He, IH, register_all_app, (assoc_L (++)).
Qed.

Lemma collect_spec e : collects e.
Proof.
  induction e as [id l fields IH] using GoStruct_nested_ind. intros refs rs.
  unfold bases, tagged. cbn [collectBaseElements walk fst snd]. rewrite register_all_app. simpl app.
  replace (register_all (own_base (Struct id l fields)) refs) with (register (Struct id l fields) refs)
    by (unfold own_base, register_all, register; by destruct id).
  generalize (register (Struct id l fields) refs). clear refs. intros refs. revert refs rs.
  induction IH as [|f fs Hf _ IHf]; intros refs rs; simpl.
  - by rewrite app_nil_r.
  - rewrite register_all_app, (assoc_L (++)). destruct f as [r|es|a|]; simpl in *.
    + apply IHf.
    + rewrite collects_all by done. apply IHf.
    + rewrite Hf. apply IHf.
    + rewrite app_nil_r. apply IHf.
Qed.

Lemma bases_own e : Forall (λ p, struct_id p.2 = Some p.1) (bases e).
Proof.
  induction e as [id l fields IH] using GoStruct_nested_ind. unfold bases. cbn [walk].
  apply Forall_app_2; [destruct id; repeat constructor|].
  induction IH as [|f fs Hf _ IHf]; simpl; [constructor|]. apply Forall_app_2; [|done].
  destruct f as [r|es|a|]; simpl in *; [constructor| |done|constructor].
  induction Hf; simpl; [constructor|]. by apply Forall_app_2.
Qed.

Lemma register_all_lookup l refs id : Forall (λ p, struct_id p.2 = Some p.1) l →
  register_all l refs !! id = match refs !! id with Some e => Some e | None => first_base id l end.
Proof.
  intros H. revert refs. induction H as [|[id' e] l He _ IH]; intros refs; simpl in *.
  - by destruct (refs !! id).
  - rewrite IH. unfold register. rewrite He. destruct (String.eqb_spec id' id) as [->|Hne].
    + destruct (refs !! id) as [e0|] eqn:Ee; [by rewrite Ee|by rewrite lookup_insert_eq].
    + destruct (refs !! id') eqn:Ee; [done|by rewrite lookup_insert_ne].
Qed.

Lemma registered definitions id :
  (collectBaseElements definitions (∅, [])).1 !! id = element definitions id.
Proof.
  rewrite collect_spec. simpl. rewrite register_all_lookup by apply bases_own. by rewrite lookup_empty.
Qed.

(** ** Unsupported elements *)

Fixpoint unknown_elements (c : TFlowElementsContainer) : list TUnknownElement :=
  match c with Container unknown subs => unknown ++ flat_map unknown_elements subs end.

Definition all_ignored (l : list TUnknownElement) : Prop := Forall (λ e, is_flow_node e = false) l.

Section container_ind.
Context (P : TFlowElementsContainer → Prop)
  (step : ∀ unknown subs, Forall P subs → P (Container unknown subs)).
Fixpoint Container_nested_ind (c : TFlowElementsContainer) : P c :=
  match c with
  | Container unknown subs =>
      step unknown subs ((fix each (l : list TFlowElementsContainer) : Forall P l :=
        match l with
        | [] => Forall_nil_2 _
        | c :: l => Forall_cons_2 _ c l (Container_nested_ind c) (each l)
        end) subs)
  end.
End container_ind.

Lemma add_unknown_empty l m :
  fold_left add_unknown l m = ∅ ↔ m = ∅ ∧ all_ignored l.
Proof.
  unfold all_ignored. revert m. induction l as [|e l IH]; intros m; simpl; [rewrite Forall_nil; tauto|].
  rewrite IH, Forall_cons. unfold add_unknown. destruct (is_flow_node e); [|naive_solver].
  split; [|by intros (_ & ? & _)]. intros [H _]. by apply insert_non_empty in H.
Qed.

Lemma unknown_empty c m :
  collectUnknownElements c m = ∅ ↔ m = ∅ ∧ all_ignored (unknown_elements c).
Proof.
  revert m. induction c as [unknown subs IH] using Container_nested_ind. intros m. cbn [collectUnknownElements unknown_elements].
  unfold all_ignored. rewrite Forall_app.
  change (Forall (λ e, is_flow_node e = false) unknown) with (all_ignored unknown).
  enough (H : ∀ m, fold_left (λ m s, collectUnknownElements s m) subs m = ∅ ↔
    m = ∅ ∧ all_ignored (flat_map unknown_elements subs)).
  { rewrite H, add_unknown_empty. tauto. }
  clear m. induction IH as [|s l Hs _ IHl]; intros m; simpl; unfold all_ignored in *.
  - rewrite Forall_nil; tauto.
  - rewrite IHl, Hs, Forall_app. tauto.
Qed.

(** ** What a resolved field holds *)

Section resolution.
Context (refs : Refs) (elem : string → option GoStruct) (Helem : ∀ id, refs !! id = elem id).

(** The element an id of a list or an interface is resolved to. *)
Definition names (t : Interface) (id : string) (e : GoStruct) : Prop :=
  elem id = Some e ∧ t ∈ implements e.

Definition nonempty (ids : list string) : list string := filter (λ id, id ≠ "") ids.

Definition field_resolved (r : RefField) (v : FieldValue) : Prop :=
  match r with
  | RefSlice t ids => Forall2 (names t) (nonempty ids) v
  | RefInterface t id => Forall2 (names t) (nonempty [id]) v
  end.

Lemma resolve_one_Ret t j id v j' v' :
  resolve_one refs t j id v = (Ret j', v') →
  (id = "" ∧ j' = j ∧ v' = v) ∨
  (id ≠ "" ∧ ∃ e, names t id e ∧ j' = j ∧ v' = v ++ [e]) ∨
  (id ≠ "" ∧ elem id = None ∧ is_Some j' ∧ v' = v).
Proof.
  unfold resolve_one, attempt, singleIDprocessor, append_value, names, mbind, ST_bind, mret, ST_ret,
    modify, throw, panic. rewrite Helem.
  destruct (String.eqb_spec id "") as [->|Hid]; [intros; simplify_eq; auto|].
  destruct (elem id) as [e|]; [destruct (decide _)|]; intros; simplify_eq; [by right; left; eauto 6|].
  right. right. split_and!; [done..| |done]. unfold join_opt. destruct j; eauto.
Qed.

Lemma resolve_list t ids j v v' :
  for_fold ids j (resolve_one refs t) v = (Ret None, v') ↔
  j = None ∧ ∃ l, v' = v ++ l ∧ Forall2 (names t) (nonempty ids) l.
Proof.
  revert j v. induction ids as [|id ids IH]; intros j v; cbn [for_fold].
  - unfold mret, ST_ret, nonempty. rewrite filter_nil. split.
    + intros; simplify_eq. split; [done|]. exists []. by rewrite app_nil_r.
    + intros (-> & l & -> & ->%Forall2_nil_inv_l). by rewrite app_nil_r.
  - unfold nonempty. rewrite filter_cons. fold (nonempty ids). split.
    + intros E. unfold mbind, ST_bind in E.
      destruct (resolve_one refs t j id v) as [[j1| | | |] v1] eqn:E1; try done.
      apply IH in E as (-> & l & -> & Hl).
      apply resolve_one_Ret in E1 as [(-> & <- & ->)|[(Hid & e & He & <- & ->)|(_ & _ & [? ?] & _)]]; [| |done].
      * split; [done|]. exists l. by rewrite decide_False by tauto.
      * split; [done|]. exists (e :: l). rewrite decide_True by done. rewrite <-(assoc_L (++)). split; [done|]. by constructor.
    + intros (-> & l & -> & Hl). unfold mbind, ST_bind.
      assert (Ho : ∀ e, names t id e → id ≠ "" → resolve_one refs t None id v = (Ret None, v ++ [e])).
      { intros e [He Ht] Hid. unfold resolve_one, attempt, singleIDprocessor, append_value. rewrite Helem.
        destruct (String.eqb_spec id ""); [done|]. rewrite He, decide_True by done. done. }
      destruct (decide (id ≠ "")) as [Hid|Hid].
      * inversion Hl as [|? e ? l' He Hl']; subst. rewrite (Ho e) by done. rewrite IH. split; [done|].
        exists l'. by rewrite <-(assoc_L (++)).
      * destruct (decide (id = "")) as [->|]; [|tauto]. unfold resolve_one, attempt, singleIDprocessor. simpl.
        unfold mbind, ST_bind, mret, ST_ret. rewrite IH. eauto.
Qed.

Lemma makeResolvable_spec r v :
  makeResolvable refs r [] = (Ret tt, v) ↔ field_resolved r v.
Proof.
  destruct r as [t ids|t id]; unfold makeResolvable, field_resolved.
  - unfold mbind, ST_bind. destruct (for_fold ids None (resolve_one refs t) []) as [o v1] eqn:E. split.
    + intros E'. destruct o as [[e|]| | | |]; try done. unfold mret, ST_ret in E'. simplify_eq.
      apply resolve_list in E as (_ & l & -> & Hl). done.
    + intros Hl. assert (E' : for_fold ids None (resolve_one refs t) [] = (Ret None, v)).
      { apply resolve_list. split; [done|]. by exists v. }
      rewrite E in E'. by simplify_eq.
  - unfold singleIDprocessor, set_value, nonempty. rewrite Helem, filter_cons, filter_nil.
    destruct (String.eqb_spec id "") as [->|Hid].
    + rewrite decide_False by tauto. unfold mret, ST_ret. split; [intros; by simplify_eq|].
      by intros ->%Forall2_nil_inv_l.
    + rewrite decide_True by done. unfold names. destruct (elem id) as [e|] eqn:Ee.
      * destruct (decide _); unfold modify, throw; split.
        -- intros; simplify_eq. repeat constructor; done.
        -- inversion 1 as [|? e' ? l [He _] Hl]; subst. inversion Hl; subst. by simplify_eq.
        -- done.
        -- inversion 1 as [|? e' ? l [He ?] Hl]; by simplify_eq.
      * split; [done|]. inversion 1 as [|? ? ? ? [? _]]; simplify_eq.
Qed.
End resolution.

Lemma resolve_list_panics refs elem t ids1 id ids2 j v e :
  (∀ id, refs !! id = elem id) → Forall (λ x, elem x = None ∨ ∃ e, names elem t x e) (nonempty ids1) →
  id ≠ "" → elem id = Some e → t ∉ implements e →
  ∃ m v', for_fold (ids1 ++ id :: ids2) j (resolve_one refs t) v = (Panic m, v').
Proof.
  intros Helem H Hid He Ht. revert j v. induction ids1 as [|x ids1 IH]; intros j v; cbn [for_fold app].
  - unfold mbind, ST_bind, resolve_one, attempt, singleIDprocessor, append_value.
    destruct (String.eqb_spec id ""); [done|]. rewrite Helem, He, decide_False by done. unfold mbind, ST_bind. by do 2 eexists.
  - unfold nonempty in H. rewrite filter_cons in H. unfold mbind, ST_bind.
    assert (Hx : ∃ j' v', resolve_one refs t j x v = (Ret j', v')).
    { unfold resolve_one, attempt, singleIDprocessor, append_value. rewrite Helem. unfold mbind, ST_bind.
      destruct (String.eqb_spec x ""); [by do 2 eexists|]. rewrite decide_True in H by done.
      apply Forall_cons in H as [[->|(e' & -> & ?)] _]; [by do 2 eexists|]. rewrite decide_True by done. by do 2 eexists. }
    destruct Hx as (j' & v' & ->). apply IH. destruct (decide (x ≠ "")); [by apply Forall_cons in H as [_ ?]|done].
Qed.

Section references.
Context (process : TFlowElementsContainer) (definitions : GoStruct).

Lemma fields_in_turn l fields vs :
  for_each l (λ r, wrap (λ e, errw! "failed to resolve references: %w" [e])
      (on_field (makeResolvable (collectBaseElements definitions (∅, [])).1 r))) fields = (Ret tt, vs) ↔
  ∃ vs', vs = fields ++ vs' ∧ Forall2 (field_resolved (element definitions)) l vs'.
Proof.
  revert fields. induction l as [|r l IH]; intros fields; cbn [for_each].
  - unfold mret, ST_ret. split.
    + intros; simplify_eq. exists []. by rewrite app_nil_r.
    + intros (vs' & -> & ->%Forall2_nil_inv_l). by rewrite app_nil_r.
  - unfold mbind, ST_bind at 1. unfold wrap, attempt, on_field. unfold mbind, ST_bind at 1.
    destruct (makeResolvable _ r []) as [o v] eqn:E.
    assert (Hs : ∀ v', makeResolvable (collectBaseElements definitions (∅, [])).1 r [] = (Ret tt, v') ↔
      field_resolved (element definitions) r v') by (intros; apply makeResolvable_spec, registered).
    rewrite E in Hs. split.
    + intros E'. destruct o as [[]|e|m| |]; try done. unfold wrap_result, mret, ST_ret in E'.
      apply IH in E' as (vs' & -> & Hvs). exists (v :: vs'). rewrite <-(assoc_L (++)). split; [done|].
      constructor; [by apply Hs|done].
    + intros (vs' & -> & H). inversion H as [|? v' ? l' Hv Hvs]; subst. apply Hs in Hv. simplify_eq.
      unfold wrap_result, mret, ST_ret. rewrite IH. exists l'. by rewrite <-(assoc_L (++)).
Qed.

(** The references of a process are resolved exactly when it has no unsupported
    flow node and every id that is not empty is that of an element of the type
    of the reference; every field then holds the first elements that have its
    ids, in order. *)
Theorem references_are_resolved fields :
  ResolveReferences process definitions [] = (Ret tt, fields) ↔
  all_ignored (unknown_elements process) ∧
  Forall2 (field_resolved (element definitions)) (tagged definitions) fields.
Proof.
  unfold ResolveReferences. destruct (decide _) as [Hu|Hu]; rewrite unknown_empty in Hu.
  - pose proof (collect_spec definitions ∅ []) as Hc.
    destruct (collectBaseElements definitions (∅, [])) as [refs rs] eqn:E. simplify_eq/=.
    pose proof (fields_in_turn (tagged definitions) [] fields) as Hf. rewrite E in Hf. simpl in Hf. rewrite Hf.
    split; [intros (? & -> & ?); tauto|intros [_ ?]; eauto].
  - split; [done|]. intros [? _]. tauto.
Qed.

(** A list that names an element of another type (an incoming association that
    is the id of a flow node) makes the loader panic. *)
Lemma mistyped_list_panics rs1 vs t ids1 id ids2 rs2 e :
  all_ignored (unknown_elements process) →
  tagged definitions = rs1 ++ RefSlice t (ids1 ++ id :: ids2) :: rs2 →
  Forall2 (field_resolved (element definitions)) rs1 vs →
  Forall (λ x, element definitions x = None ∨ ∃ e, names (element definitions) t x e) (nonempty ids1) →
  id ≠ "" → element definitions id = Some e → t ∉ implements e →
  ∃ m fields, ResolveReferences process definitions [] = (Panic m, fields).
Proof.
  intros Hu Ht Hvs Hids Hid He Hm. unfold ResolveReferences. rewrite decide_True by (apply unknown_empty; by split).
  destruct (collectBaseElements definitions (∅, [])) as [refs rs] eqn:E.
  assert (Hr : ∀ id, refs !! id = element definitions id).
  { intros i. rewrite <-registered, E. done. }
  rewrite collect_spec in E. simplify_eq/=. rewrite Ht. clear Ht. generalize (@nil FieldValue).
  induction Hvs as [|r v rs1 vs Hv _ IH]; intros fields; cbn [for_each app];
    unfold mbind, ST_bind at 1; unfold wrap, attempt, on_field; unfold mbind, ST_bind at 1.
  - destruct (resolve_list_panics _ _ t ids1 id ids2 None [] e Hr Hids Hid He Hm) as (m & v' & Ep).
    unfold makeResolvable. unfold mbind, ST_bind. rewrite Ep. by do 2 eexists.
  - apply (makeResolvable_spec _ _ Hr) in Hv as ->. unfold wrap_result, mret, ST_ret. apply IH.
Qed.
End references.

(** A start event and an end event; the second process names the end event as
    what comes into it. *)
Definition two_events (incoming : string) : GoStruct :=
  TDefinitions_struct "d" (TProcess_struct "p"
    [[embedding 2 (TFlowNode_struct "s" [] ["f"])]; [embedding 2 (TFlowNode_struct "e" [incoming] [])];
     [TSequenceFlow_struct "f" "s" "e"]]).

Example two_events_resolve :
  (ResolveReferences (Container [] []) (two_events "f") []).1 = Ret tt ∧
  element (two_events "f") "e" = Some (embedding 2 (TFlowNode_struct "e" ["f"] [])).
Proof. split; vm_compute; reflexivity. Qed.

Example node_as_incoming_panics :
  (ResolveReferences (Container [] []) (two_events "e") []).1
  = Panic "reflect: call of reflect.Value.Elem on slice Value".
Proof. vm_compute. reflexivity. Qed.

(** A gateway with a default flow into a sub process: the flow finds the sub
    process, not the activity inside it, whose id is empty. *)
Definition nested_process : GoStruct :=
  TDefinitions_struct "d" (TProcess_struct "p"
    [[embedding 2 (TFlowNode_struct "s" [] ["f1"])];
     [TSequenceFlow_struct "f1" "s" "g"; TSequenceFlow_struct "f2" "g" "sub"];
     [default_flow_gateway "g" ["f1"] ["f2"] "f2"];
     [TSubProcess_struct "sub" ["f2"] [] [[embedding 2 (TFlowNode_struct "inner" [] [])]]]]).

Example nested_process_resolves :
  (ResolveReferences (Container [] [Container [] []]) nested_process []).1 = Ret tt ∧
  names (element nested_process) IFlowNode "sub"
    (TSubProcess_struct "sub" ["f2"] [] [[embedding 2 (TFlowNode_struct "inner" [] [])]]) ∧
  is_Some (element nested_process "inner").
Proof. unfold names. split_and!; [vm_compute; reflexivity..| |vm_compute; eauto]. simpl. set_solver. Qed.
