(* ===== verification/Handover.v ===== *)
(** No running token is lost.  A token is stored as running only when some
    goroutine runs it: it is in the queue of the run that saved it, or among
    the tokens of an instance that the flush of the same batch starts.  So when
    a run returned without an error, every token still stored as running
    belongs to a goroutine the run started, or was not the run's to process. *)
From S2P Require Import Prelude Monad Model Runtime DmnModel Storage InMemory Locks TimerManager World.
From S2P Require Import Conditions Dmn Instances Tasks Events Gateways SubProcess Engine Api Frames.
From S2P Require Import System LockDiscipline Runs CancelProps Example.

(** ** Where a token goes

    Every handler that is given a token, and returns, returns the token under
    its own key, moved or in another state, together with the tokens it forked.
    The engine saves what a handler returns, so no processed token keeps the row
    it had. *)

(** *** What a program returns, whatever the states *)

Definition yields {S A} (P : A → Prop) (m : ST S A) : Prop := ∀ s a s', m s = (Ret a, s') → P a.

Section yields.
Context {S : Type}.

Lemma yields_ret {A} (P : A → Prop) (a : A) : P a → yields (S:=S) P (mret a).
Proof. intros Ha s b s' E. unfold mret, ST_ret in E. by simplify_eq. Qed.
Lemma yields_throw {A} (P : A → Prop) e : yields (S:=S) P (throw e).
Proof. by intros s a s'. Qed.
Lemma yields_panic {A} (P : A → Prop) e : yields (S:=S) P (panic e).
Proof. by intros s a s'. Qed.
Lemma yields_bind_post {A B} (Q : A → Prop) P (m : ST S A) (f : A → ST S B) :
  yields Q m → (∀ a, Q a → yields P (f a)) → yields P (m ≫= f).
Proof. intros Hm Hf s b s' (a & s1 & Ea & Eb)%bind_Ret. eapply Hf; [by eapply Hm|done]. Qed.
Lemma yields_bind {A B} P (m : ST S A) (f : A → ST S B) :
  (∀ a, yields P (f a)) → yields P (m ≫= f).
Proof. intros Hf s b s' (a & s1 & _ & Eb)%bind_Ret. by eapply Hf. Qed.
Lemma yields_wrap {A} P w (m : ST S A) : yields P m → yields P (wrap w m).
Proof. intros Hm s a s' E%wrap_Ret. by eapply Hm. Qed.
Lemma yields_for_fold {A B} (P : B → Prop) (l : list A) b f :
  P b → (∀ b a, P b → yields P (f b a)) → yields (S:=S) P (for_fold l b f).
Proof.
  revert b. induction l as [|x l IH]; intros b Hb Hf; simpl; [by apply yields_ret|].
  eapply yields_bind_post; [by apply Hf|]. intros b' Hb'. by apply IH.
Qed.
End yields.

Create HintDb yields discriminated.

Ltac yield_step :=
  cbv zeta;
  lazymatch goal with
  | |- yields _ (mret _) => apply yields_ret
  | |- yields _ (throw _) => apply yields_throw
  | |- yields _ (panic _) => apply yields_panic
  | |- yields _ (wrap _ _) => apply yields_wrap
  | |- yields _ (_ ≫= _) => apply yields_bind; intros ?
  | |- yields _ (match ?x with _ => _ end) => destruct x
  end.
Ltac yields := repeat (first [solve [eauto 3 with yields] | yield_step]).

(** ** The token comes back *)

Definition returns_token (t : ExecutionToken) (l : list ExecutionToken) : Prop :=
  t.(tok_Key) ∈ tok_Key <$> l.

Lemma returns_head t t' l : t'.(tok_Key) = t.(tok_Key) → returns_token t (t' :: l).
Proof. intros E. unfold returns_token. rewrite fmap_cons, E. left. Qed.
Lemma returns_app_l t l1 l2 : returns_token t l1 → returns_token t (l1 ++ l2).
Proof. unfold returns_token. rewrite fmap_app. intros H. apply elem_of_app. by left. Qed.
Lemma returns_app_r t l1 l2 : returns_token t l2 → returns_token t (l1 ++ l2).
Proof. unfold returns_token. rewrite fmap_app. intros H. apply elem_of_app. by right. Qed.

#[export] Hint Extern 1 (returns_token _ (_ :: _)) => by apply returns_head : yields.

Section moves.
Context {S : Type} `{Storage S} `{DecisionStorage S} `{Env}.
Abbreviation keeps t m := (yields (S:=EngineBatch S * World S) (returns_token t) m).

Lemma keeps_handleDefaultElementTransition p n t : keeps t (handleDefaultElementTransition p n t).
Proof. unfold handleDefaultElementTransition. yields; eauto with yields. Qed.
Lemma keeps_handleMultiInstanceElementTransition p n t :
  keeps t (handleMultiInstanceElementTransition p n t).
Proof. unfold handleMultiInstanceElementTransition. yields; eauto with yields. Qed.
#[local] Hint Resolve keeps_handleDefaultElementTransition
  keeps_handleMultiInstanceElementTransition : yields.
Lemma keeps_handleElementTransition p n t : keeps t (handleElementTransition p n t).
Proof. unfold handleElementTransition. yields. Qed.
#[local] Hint Resolve keeps_handleElementTransition : yields.

(** *** Events *)

Lemma yields_createMessageCatchEvent p d n t :
  yields (S:=EngineBatch S * World S) (λ t', t'.(tok_Key) = t.(tok_Key)) (createMessageCatchEvent p d n t).
Proof. unfold createMessageCatchEvent. by yields. Qed.
Lemma yields_createTimerCatchEvent p d n t :
  yields (S:=EngineBatch S * World S) (λ t', t'.(tok_Key) = t.(tok_Key)) (createTimerCatchEvent p d n t).
Proof. unfold createTimerCatchEvent. by yields. Qed.
Lemma yields_handleIntermediateThrowLinkEvent p e d t :
  yields (S:=EngineBatch S * World S) (λ t', t'.(tok_Key) = t.(tok_Key))
    (handleIntermediateThrowLinkEvent p e d t).
Proof. unfold handleIntermediateThrowLinkEvent. by yields. Qed.

(** A list of one token that has the key. *)
Lemma keeps_single t (m : BM S ExecutionToken) :
  yields (λ t', t'.(tok_Key) = t.(tok_Key)) m → keeps t (t' ← m; mret [t']).
Proof.
  intros Hm. eapply yields_bind_post; [exact Hm|]. intros t' Ht. by apply yields_ret, returns_head.
Qed.

Lemma keeps_createIntermediateCatchEvent p e t : keeps t (createIntermediateCatchEvent p e t).
Proof.
  unfold createIntermediateCatchEvent. destruct (ice_EventDefinition e) as [[]|];
    try (apply keeps_single; first [apply yields_createTimerCatchEvent
                                   |apply yields_createMessageCatchEvent]); yields.
Qed.
Lemma keeps_handleIntermediateThrowEvent p e t : keeps t (handleIntermediateThrowEvent p e t).
Proof.
  unfold handleIntermediateThrowEvent. destruct (ite_EventDefinition e) as [[]|];
    try (apply keeps_single, yields_wrap, yields_handleIntermediateThrowLinkEvent);
    yields; eauto with yields.
Qed.

(** *** Gateways and end events *)

Lemma keeps_handleParallelGateway p g t : keeps t (handleParallelGateway p g t).
Proof. unfold handleParallelGateway. yields; eauto with yields. Qed.
Lemma keeps_handleExclusiveGateway p g t : keeps t (handleExclusiveGateway p g t).
Proof. unfold handleExclusiveGateway. yields; eauto with yields. Qed.
Lemma keeps_handleInclusiveGateway p g t : keeps t (handleInclusiveGateway p g t).
Proof. unfold handleInclusiveGateway. yields; eauto with yields. Qed.
Lemma keeps_handleEventBasedGateway p g t : keeps t (handleEventBasedGateway p g t).
Proof.
  unfold handleEventBasedGateway. do 2 yield_step. apply yields_for_fold; [by apply returns_head|].
  intros l f Hl. yields. by apply returns_app_l.
Qed.

Lemma keeps_handleTerminateEndEvent n p t : keeps t (handleTerminateEndEvent n p t).
Proof.
  unfold handleTerminateEndEvent. do 2 yield_step. yields. apply returns_app_r. by apply returns_head.
Qed.
Lemma keeps_handleMessageEndEvent p e t : keeps t (handleMessageEndEvent p e t).
Proof. unfold handleMessageEndEvent. yields; eauto with yields. Qed.

(** The loop over the event definitions: the current token keeps its key, and
    is among the tokens after the first definition. *)
Lemma yields_end_event_step n p e t acc d :
  acc.1.(tok_Key) = t.(tok_Key) →
  yields (S:=EngineBatch S * World S)
    (λ acc', acc'.1.(tok_Key) = t.(tok_Key) ∧ returns_token t acc'.2) (end_event_step n p e acc d).
Proof.
  intros Ha. destruct acc as [c l]. simpl in Ha. unfold end_event_step.
  assert (Hk : ∀ c', c'.(tok_Key) = c.(tok_Key) → ∀ l', returns_token c' l' →
    (c'.(tok_Key) = t.(tok_Key) ∧ returns_token t (l ++ l')%list)).
  { intros c' Hc l' Hl. split; [congruence|]. apply returns_app_r. unfold returns_token in *. congruence. }
  destruct d; try apply yields_throw; cbv zeta.
  - eapply yields_bind_post; [apply yields_wrap, keeps_handleMessageEndEvent|].
    intros l' Hl. by apply yields_ret, Hk.
  - eapply yields_bind_post; [apply yields_wrap, keeps_handleTerminateEndEvent|].
    intros l' Hl. by apply yields_ret, Hk.
Qed.

Lemma keeps_handleEndEvent n p e t : keeps t (handleEndEvent n p e t).
Proof.
  unfold handleEndEvent. destruct (EvenDefinitions e) as [|d l]; [yields; eauto with yields|].
  eapply yields_bind_post with
    (Q := λ acc, acc.1.(tok_Key) = t.(tok_Key) ∧ returns_token t acc.2).
  - cbn [for_fold]. eapply yields_bind_post; [by apply yields_end_event_step|].
    intros acc Hacc. apply yields_for_fold; [done|].
    intros acc' d' [Hk _]. by apply yields_end_event_step.
  - intros acc [_ Hacc]. by apply yields_ret.
Qed.

(** *** Activities *)

Lemma keeps_start_multi p a mi t : keeps t (start_multi p a mi t).
Proof. unfold start_multi. yields; eauto with yields. Qed.
Lemma keeps_run_multi f p k a mi t : keeps t (run_multi f p k a mi t).
Proof. unfold run_multi. yields; eauto with yields. Qed.
#[local] Hint Resolve keeps_start_multi keeps_run_multi : yields.
Lemma keeps_handleMultiInstanceActivity f p a mi t : keeps t (handleMultiInstanceActivity f p a mi t).
Proof. unfold handleMultiInstanceActivity. yields. Qed.
Lemma keeps_handleActivity n p a t : keeps t (handleActivity n p a t).
Proof. unfold handleActivity. yields; eauto with yields. Qed.
#[local] Hint Resolve keeps_handleMultiInstanceActivity keeps_handleActivity : yields.
Lemma keeps_handle_activity_or_multi n p a t : keeps t (handle_activity_or_multi n p a t).
Proof. unfold handle_activity_or_multi. yields. Qed.
#[local] Hint Resolve keeps_createIntermediateCatchEvent keeps_handleIntermediateThrowEvent
  keeps_handleParallelGateway keeps_handleExclusiveGateway keeps_handleInclusiveGateway
  keeps_handleEventBasedGateway keeps_handleEndEvent keeps_handle_activity_or_multi : yields.

Lemma keeps_processFlowNode n p a t : keeps t (processFlowNode n p a t).
Proof. unfold processFlowNode. yields. Qed.
End moves.

(** ** A run hands over its tokens *)

Definition running (t : ExecutionToken) : Prop := t.(tok_State) = TokenStateRunning.

(** What a run relies on: a token can always be encoded, and neither saving an
    instance nor saving an evaluated decision writes a token. *)
Class RunLaws (S : Type) `{Storage S} `{DecisionStorage S} (view : S → Tables) : Prop := {
  run_prepare_token t : prepare (StSaveToken t) = Good tt;
  run_exec_instance p i : pres (λ s s', (view s').(t_Tokens) = (view s).(t_Tokens))
    (exec (StSaveProcessInstance p i));
  run_SaveDecisionInstance d : pres (λ s s', (view s').(t_Tokens) = (view s).(t_Tokens))
    (SaveDecisionInstance d) }.

(** ** Running tokens of a batch and the goroutines its flush starts *)

Definition started_by {S} (b : EngineBatch S) (t : ExecutionToken) : Prop :=
  ∃ a, a ∈ b.(postFlushActions) ∧ t ∈ a.(ra_tokens).

(** Every running token the batch saves is among [l] or started by it. *)
Definition covered_but {S} (l : list ExecutionToken) (b : EngineBatch S) : Prop :=
  ∀ t, StSaveToken t ∈ b.(b_stmts) → running t → t ∈ l ∨ started_by b t.

Section handover.
Context {S : Type} `{Storage S} `{DecisionStorage S} `{Env} (view : S → Tables).
Implicit Types (x y : EngineBatch S * World S) (w : World S) (b : EngineBatch S).

Definition tokens_of w : gmap Z ExecutionToken := (view w.(w_store)).(t_Tokens).

(** The stored tokens and the goroutines are the same. *)
Definition still w w' : Prop := tokens_of w' = tokens_of w ∧ w'.(w_spawned) = w.(w_spawned).

#[export] Instance still_preorder : PreOrder still.
Proof. unfold still. split; [by intros w|]. intros w1 w2 w3 [??] [??]. split; congruence. Qed.

(** No running token is saved that is not started, but those of [l]. *)
Definition hands_but (l : list ExecutionToken) x y : Prop :=
  still x.2 y.2 ∧ (x.1.(preFlushActions) = [] → y.1.(preFlushActions) = []) ∧
  (∀ l0, covered_but l0 x.1 → covered_but (l0 ++ l) y.1).

Definition hands_over x y : Prop :=
  still x.2 y.2 ∧ (x.1.(preFlushActions) = [] → y.1.(preFlushActions) = []) ∧
  (∀ l0, covered_but l0 x.1 → covered_but l0 y.1).

Lemma hands_but_nil x y : hands_but [] x y ↔ hands_over x y.
Proof.
  unfold hands_but, hands_over. by setoid_rewrite app_nil_r.
Qed.

#[export] Instance hands_over_preorder : PreOrder hands_over.
Proof.
  split; [intros x; split; [reflexivity|done]|].
  intros x y z (Hxy & Hp & Hc) (Hyz & Hp' & Hc'). split; [by etrans|]. auto.
Qed.

Lemma hands_but_trans l x y z : hands_but l x y → hands_over y z → hands_but l x z.
Proof. intros (? & Hp & Hc) (? & Hp' & Hc'). split; [by etrans|]. auto. Qed.

Lemma hands_but_world l x b w w' : hands_but l x (b, w) → still w w' → hands_but l x (b, w').
Proof. intros (Hs & Hp & Hc) Hw. split; [by etrans|done]. Qed.

Lemma still_hands {A} (m : EM S A) : pres still m → pres (on_world hands_over) m.
Proof.
  intros Hm w. specialize (Hm w).
  by destruct (m w) as [[] w']; try done; intros b; split_and!.
Qed.

Lemma hands_modify f :
  (∀ x, (f x).2 = x.2 ∧ (x.1.(preFlushActions) = [] → (f x).1.(preFlushActions) = []) ∧
    (∀ l, covered_but l x.1 → covered_but l (f x).1)) → pres hands_over (modify f).
Proof.
  intros Hf x. destruct (Hf x) as (Hw & Hp & Hc). simpl. split; [by rewrite Hw|done].
Qed.

Lemma covered_fewer b b' l :
  (∀ s, s ∈ b'.(b_stmts) → s ∈ b.(b_stmts)) →
  (∀ a, a ∈ b.(postFlushActions) → a ∈ b'.(postFlushActions)) →
  covered_but l b → covered_but l b'.
Proof.
  intros Hs Ha Hc t Ht Hr. destruct (Hc t (Hs _ Ht) Hr) as [?|(a & ? & ?)]; [by left|].
  right. exists a. auto.
Qed.

Lemma covered_no_stmts b l : b.(b_stmts) = [] → covered_but l b.
Proof. intros E t Ht. rewrite E in Ht. by apply not_elem_of_nil in Ht. Qed.

(** *** The primitives *)

Lemma still_update p f : pres still (update_instance p f).
Proof.
  intros w. unfold update_instance, load_instance, mbind, ST_bind.
  by destruct (_ !! p) as [i|].
Qed.
Lemma still_on_heap {A} (m : S → ST Heap A) : pres still (on_heap m).
Proof. intros w. unfold on_heap. by destruct (m _ _) as [[] h]. Qed.
Lemma still_on_locks {A} (m : ST RunningInstancesCache A) : pres still (on_locks m).
Proof. intros w. unfold on_locks, zoom. by destruct (m _) as [[] h]. Qed.
Lemma still_load p : pres still (load_instance p).
Proof. intros w. unfold load_instance. by destruct (_ !! p). Qed.
#[local] Hint Resolve still_update still_on_heap still_on_locks still_load still_hands : frames.

Lemma hands_touch k : pres hands_over (touch k).
Proof. by apply hands_modify. Qed.
Lemma hands_set_batch l : pres hands_over (set_batch (empty_batch l)).
Proof. apply hands_modify. intros x. split_and!; [done..|]. intros l0 _. by apply covered_no_stmts. Qed.
Lemma hands_lift {A} (m : EM S A) : pres still m → pres hands_over (lift m).
Proof. intros Hm. by apply pres_lift, still_hands. Qed.

Ltac hands :=
  repeat (first
    [ solve [eauto 3 with frames]
    | apply hands_touch
    | apply hands_set_batch
    | apply hands_lift; first [apply still_on_heap|apply still_on_locks|apply still_load]
    | frame_step ]).

#[export] Instance hands_prims : PrimFrame hands_over.
Proof.
  split; intros; try apply _; try apply still_hands;
    try apply still_update; try apply still_on_heap; try (by intros w).
  - intros w. unfold on_timerManager. by destruct (w_timerManager w).
  - apply hands_modify. intros x. split_and!; [done..|]. intros l0.
    apply covered_fewer; [done|]. intros a' Ha. apply elem_of_app. by left.
  - apply hands_modify. intros x. split_and!; [done..|]. intros l0 _. by apply covered_no_stmts.
  - unfold AddLockedInstance, lock, unlock, refresh. hands.
  - unfold AddParentLockedInstance, tryLock, unlock, refresh. hands.
  - unfold Clear, get_batch, unlock. hands.
Qed.

(** *** Starting an instance *)

Lemma covered_push l b s :
  (∀ t, s = StSaveToken t → running t → t ∈ l) → covered_but l b → covered_but l (pushes [s] b).
Proof.
  intros Hs Hc t [Ht|Ht%list_elem_of_singleton]%elem_of_app Hr; [by apply Hc|]. left. by apply Hs.
Qed.

Lemma hands_push l l' x b w s :
  (∀ t, t ∈ l → t ∈ l') → (∀ t, s = StSaveToken t → running t → t ∈ l') →
  hands_but l x (b, w) → hands_but l' x (pushes [s] b, w).
Proof.
  intros Hl Hs (? & ? & Hc). split_and!; [done..|]. intros l0 Hx. apply covered_push.
  { intros t Ht Hr. apply elem_of_app. right. by apply Hs. }
  intros t Ht Hr. destruct (Hc l0 Hx t Ht Hr) as [?%elem_of_app|?]; [|by right].
  left. apply elem_of_app. naive_solver.
Qed.

Lemma hands_add_stmt s : saves_running s = false → pres hands_over (add_stmt s).
Proof.
  intros Hs. unfold add_stmt. destruct (prepare s); [|frame_step].
  apply hands_modify. intros [b w]. split_and!; [done..|]. intros l0 Hc.
  apply covered_push; [|done]. intros t -> Hr. unfold saves_running in Hs.
  by apply bool_decide_eq_false in Hs.
Qed.

Lemma hands_weaken l l' x y : (∀ t, t ∈ l → t ∈ l') → hands_but l x y → hands_but l' x y.
Proof.
  intros Hl (? & ? & Hc). split_and!; [done..|]. intros l0 Hx t Ht Hr.
  destruct (Hc l0 Hx t Ht Hr) as [?%elem_of_app|?]; [|by right].
  left. apply elem_of_app. naive_solver.
Qed.

Lemma triple_ignore_SaveToken l x t :
  triple (hands_but l x) (ignore_error (SaveToken t)) (λ _, hands_but (l ++ [t]) x) (λ _ _, False).
Proof.
  intros [b w] Hb. assert (Hl : ∀ t', t' ∈ l → t' ∈ l ++ [t]) by (intros ??; apply elem_of_app; by left).
  unfold SaveToken. destruct (ignore_error _ _) as [o y] eqn:E. destruct o; try done.
  - destruct y as [b' w']. apply ignore_add_stmt_Ret in E as [Hw [Hy|[Hy _]]]; simpl in *; subst.
    + apply (hands_push l); [done| |done]. intros t' [= <-] _. apply elem_of_app. right. left.
    + by eapply hands_weaken.
  - pose proof (no_err_ignore (SaveToken t) (b, w)) as Hn. unfold SaveToken in Hn.
    by rewrite E in Hn.
Qed.

Lemma triple_starting_tokens k ids l x :
  triple (hands_but l x) (starting_tokens k ids) (λ l', hands_but (l ++ l') x) (λ _ _, False).
Proof.
  unfold starting_tokens. revert l. induction ids as [|id ids IH]; intros l; cbn [for_map].
  { apply triple_ret. intros y. by rewrite app_nil_r. }
  eapply triple_bind with (Q := λ t, hands_but (l ++ [t]) x).
  - eapply triple_bind with (Q := λ _, hands_but l x).
    { intros [b w] Hb. unfold lift, zoom, new_token, generateKey. simpl.
      by eapply hands_but_world. }
    intros t. eapply triple_bind; [apply triple_ignore_SaveToken|]. intros []. by apply triple_ret.
  - intros t. eapply triple_bind; [apply IH|]. intros l'. apply triple_ret. intros y Hy.
    by rewrite <-(assoc_L (++)) in Hy.
Qed.

(** Creating an instance: [hands_over] up to the tokens it starts. *)
Definition starts_instance (m : BM S (loc * list ExecutionToken)) : Prop :=
  ∀ x, triple (hands_over x) m (λ r, hands_but (snd r) x) (λ _, hands_over x).

Lemma hands_triple {A} x (m : BM S A) :
  pres hands_over m → triple (hands_over x) m (λ _, hands_over x) (λ _, hands_over x).
Proof. intros Hm. apply (triple_pres hands_over); [done|]. intros y z ??. by etrans. Qed.

Lemma starts_instance_with kind d v ids :
  starts_instance (
    instance ← lift (fresh_instance kind d v);
    i ← lift (load_instance instance);
    wrap (λ e, errw! "failed to save changes to process instance %d: %w" [e])
      (SaveProcessInstance instance) ;;
    executionTokens ← starting_tokens i.(pi_Key) ids;
    mret (instance, executionTokens)).
Proof.
  intros x. eapply triple_bind; [apply hands_triple, pres_lift, pres_fresh_instance, _|].
  intros p. eapply triple_bind; [apply hands_triple, hands_lift, still_load|]. intros i.
  eapply triple_bind.
  { apply triple_wrap, hands_triple. unfold SaveProcessInstance.
    frame_step; [apply hands_lift, still_load|by apply hands_add_stmt]. }
  intros []. eapply triple_bind.
  { eapply triple_conseq; [apply (triple_starting_tokens _ _ [])|by intros ? ?%hands_but_nil
                          |intros ?? Hq; exact Hq|done]. }
  intros l. by apply triple_ret.
Qed.

Lemma covered_start l l0 b p :
  covered_but (l0 ++ l) b →
  covered_but l0 {| b_stmts := b.(b_stmts); touchedInstances := b.(touchedInstances);
    preFlushActions := b.(preFlushActions);
    postFlushActions := b.(postFlushActions) ++ [{| ra_instance := p; ra_tokens := l |}] |}.
Proof.
  intros Hc t Ht Hr. destruct (Hc t Ht Hr) as [[Hl|Hl]%elem_of_app|(a & Ha & Hl)]; [by left|right..].
  - exists {| ra_instance := p; ra_tokens := l |}. split; [|done]. apply elem_of_app. right. left.
  - exists a. split; [|done]. apply elem_of_app. by left.
Qed.

Lemma hands_start {A} m (a : A) :
  starts_instance m →
  pres hands_over (
    r ← m; AddPostFlushAction {| ra_instance := fst r; ra_tokens := snd r |} ;; mret a).
Proof.
  intros Hm x. assert (Hx : hands_over x x) by reflexivity.
  assert (Ht : triple (hands_over x)
    (r ← m; AddPostFlushAction {| ra_instance := fst r; ra_tokens := snd r |} ;; mret a)
    (λ _, hands_over x) (λ _, hands_over x)).
  { eapply triple_bind; [apply Hm|]. intros [p l]. intros [b w] (Hw & Hp & Hc). simpl.
    split_and!; [done..|]. intros l0 Hb. by apply (covered_start l), Hc. }
  exact (Ht x Hx).
Qed.

#[export] Instance hands_core : CoreFrame hands_over.
Proof.
  split; intros; [apply _|by apply hands_add_stmt|..]; apply hands_start, starts_instance_with.
Qed.

#[export] Instance hands_decision `{!RunLaws S view} : DecisionFrame hands_over.
Proof.
  split. intros d. apply still_hands. intros w. pose proof (run_SaveDecisionInstance d w.(w_store)) as Hd.
  unfold on_store, zoom. by destruct (SaveDecisionInstance d _) as [[] s'].
Qed.

(** *** Continuing the parent

    Only what a success leaves counts: after an error the batch is reset. *)

Definition hands_ok {A} x (m : BM S A) : Prop :=
  triple (hands_over x) m (λ _, hands_over x) (λ _ _, True).

Lemma hands_ok_pres {A} x (m : BM S A) : pres hands_over m → hands_ok x m.
Proof. intros Hm. by eapply triple_conseq; [apply hands_triple|..]. Qed.
Lemma hands_ok_bind {A B} x (m : BM S A) (f : A → BM S B) :
  pres hands_over m → (∀ a, hands_ok x (f a)) → hands_ok x (m ≫= f).
Proof. intros Hm Hf. eapply triple_bind; [by apply hands_ok_pres|done]. Qed.

Lemma triple_save_tokens l l0 x :
  triple (hands_but l0 x) (for_each l (λ tok, ignore_error (SaveToken tok)))
    (λ _, hands_but (l0 ++ l) x) (λ _ _, False).
Proof.
  revert l0. induction l as [|t l IH]; intros l0; cbn [for_each].
  { apply triple_ret. intros y. by rewrite app_nil_r. }
  eapply triple_bind; [apply triple_ignore_SaveToken|]. intros [].
  rewrite (cons_middle t l0 l), (assoc_L (++)). apply IH.
Qed.

Lemma hands_parent_continue x sv p n t v :
  (∀ m, pres hands_over m → pres hands_over (sv m)) → hands_ok x (parent_continue sv p n t v).
Proof.
  intros Hsv. unfold parent_continue.
  apply hands_ok_bind; [apply pres_attempt, pres_cancelBoundarySubscriptions, _|].
  intros r. apply hands_ok_bind; [destruct r; repeat frame_step; apply frame_Clear|].
  intros _u. apply hands_ok_bind; [frame_step; apply pres_handleElementTransition, _|].
  intros l. eapply triple_bind with (Q := λ _, hands_but l x).
  { eapply triple_conseq; [apply (triple_save_tokens l [])|by intros ? ?%hands_but_nil|done|done]. }
  intros _v. assert (Hkeep : ∀ B (m : BM S B), pres hands_over m →
    triple (hands_but l x) m (λ _, hands_but l x) (λ _ _, True)).
  { intros B m Hm. eapply triple_conseq; [apply (triple_pres hands_over _ m Hm)|done|done|done].
    intros y z. apply hands_but_trans. }
  eapply triple_bind.
  { apply Hkeep, Hsv. unfold SaveProcessInstance.
    frame_step; [apply hands_lift, still_load|by apply hands_add_stmt]. }
  intros _w. eapply triple_bind.
  { apply Hkeep, pres_ignore_error; [apply _|]. by apply hands_add_stmt. }
  intros _x [b w] (Hw & Hp & Hc). simpl. split_and!; [done..|]. intros l0 Hb.
  by apply (covered_start l), Hc.
Qed.

Lemma hands_handleParentProcessContinuation x p : hands_ok x (handleParentProcessContinuation p).
Proof.
  assert (Hsetup : ∀ t k, pres hands_over (parent_setup t k)) by (intros; apply pres_parent_setup, _).
  assert (Hout : ∀ q ms, pres hands_over (parent_outputs p q ms))
    by (intros; apply pres_parent_outputs, _).
  assert (Hload : ∀ q, pres hands_over (lift (load_instance q)))
    by (intros; apply hands_lift, still_load).
  assert (Hwrap : ∀ wr (m : BM S unit), pres hands_over m → pres hands_over (wrap wr m))
    by (intros; by frame_step).
  assert (Hign : ∀ m : BM S unit, pres hands_over m → pres hands_over (ignore_error m))
    by (intros; by apply pres_ignore_error; [apply _|]).
  unfold handleParentProcessContinuation, handleParentProcessContinuationForSubProcess,
    handleParentProcessContinuationForCallActivity,
    handleParentProcessContinuationForMultiInstance.
  repeat (cbv zeta; first
    [ solve [apply hands_parent_continue; auto]
    | apply hands_ok_bind; [solve [auto | frame_step | apply pres_lift, pres_query, _
        | apply pres_lift, frame_set_Variables]|intros ?]
    | solve [apply hands_ok_pres; repeat frame_step]
    | match goal with |- hands_ok _ (match ?y with _ => _ end) => destruct y end ]).
Qed.

(** *** The flush *)

Lemma for_each_spawn_Ret l (x : EngineBatch S * World S) u y :
  for_each l (λ a, lift (spawn a)) x = (Ret u, y) →
  y.2.(w_spawned) = (x.2.(w_spawned) ++ l)%list ∧ y.2.(w_store) = x.2.(w_store).
Proof.
  revert x. induction l as [|a l IH]; intros x E; cbn [for_each] in E.
  - apply mret_Ret in E as [_ <-]. by rewrite app_nil_r.
  - apply bind_Ret in E as (v & z & [Ez _]%lift_Ret & E). apply modify_Ret in Ez.
    apply IH in E as [-> ->]. rewrite Ez. simpl. by rewrite <-(assoc_L (++)).
Qed.

Definition same_run (x y : EngineBatch S * World S) : Prop :=
  y.2.(w_store) = x.2.(w_store) ∧ y.2.(w_spawned) = x.2.(w_spawned).
#[local] Instance same_run_preorder : PreOrder same_run.
Proof. split; [by intros x|]. intros x y z [??] [??]. split; congruence. Qed.

Lemma Flush_deferred_Ret b w u b' w' :
  Flush_deferred (Good tt) (b, w) = (Ret u, (b', w')) →
  w'.(w_store) = w.(w_store) ∧ w'.(w_spawned) = (w.(w_spawned) ++ b.(postFlushActions))%list.
Proof.
  intros E. unfold Flush_deferred, get_batch in E.
  apply bind_Ret in E as (x & y & [-> ->]%gets_Ret & E). cbn [fst] in E.
  apply bind_Ret in E as (v & y & Eu & E). apply bind_Ret in E as (v' & z & Es & E).
  assert (Hk : pres same_run (for_each b.(touchedInstances) (λ k, lift (unlock k)))).
  { frame_step. intros [b0 w0]. unfold lift, zoom, unlock, on_locks, zoom. simpl.
    by destruct (unlockInstance _ _) as [[] c]. }
  specialize (Hk (b, w)). rewrite Eu in Hk. destruct Hk as [Hs Hl]. simpl in Hs, Hl.
  apply for_each_spawn_Ret in Es as [Hz1 Hz2]. unfold set_batch in E. apply modify_Ret in E.
  simplify_eq/=. rewrite Hz1, Hz2, Hs, Hl. done.
Qed.

Lemma Flush_spawns b w u b' w' :
  Flush (b, w) = (Ret u, (b', w')) → b.(preFlushActions) = [] →
  w'.(w_spawned) = (w.(w_spawned) ++ b.(postFlushActions))%list.
Proof.
  intros E Hp. unfold Flush, get_batch in E.
  apply bind_Ret in E as (x & y & [-> ->]%gets_Ret & E). cbn [fst] in E. rewrite Hp in E.
  apply bind_Ret in E as (r & [b1 w1] & E1 & E). apply bind_Ret in E as (v & [b2 w2] & E2 & E).
  apply of_result_Ret in E as [-> Ey]. simplify_eq. apply attempt_Ret_Good in E1. simpl in E1.
  apply bind_Ret in E1 as ([] & y & [_ <-]%mret_Ret & [E1 Eb]%lift_Ret). simpl in *.
  unfold on_store, zoom in E1. destruct (flush (b_stmts b) (w_store w)) as [o s'].
  simplify_eq/=. destruct u. by apply Flush_deferred_Ret in E2 as [_ ->].
Qed.

(** ** An error stays the error of the run *)

Definition run_error (it : iteration) : option error :=
  match it with Next r _ | Break r => r end.

Lemma yields_token_incident r e t p :
  yields (S:=EngineBatch S * World S) is_Some (token_incident r e t p).
Proof.
  unfold token_incident. yield_step. yield_step. yields. destruct a0, r; by eexists.
Qed.
Lemma yields_flush_or_incident e t p :
  yields (S:=EngineBatch S * World S) is_Some (flush_or_incident (Some e) t p).
Proof.
  unfold flush_or_incident. yield_step. destruct a; [by apply yields_ret; eexists|].
  apply yields_token_incident.
Qed.

Lemma yields_then {A B} (Q : A → Prop) (P : B → Prop) (m : BM S A) (f : A → B) :
  yields Q m → (∀ a, Q a → P (f a)) → yields P (a ← m; mret (f a)).
Proof. intros Hm Hf. eapply yields_bind_post; [exact Hm|]. intros a Ha. by apply yields_ret, Hf. Qed.

Lemma yields_finish_error e t p :
  yields (S:=EngineBatch S * World S) (λ it, is_Some (run_error it)) (finish_instance (Some e) t p).
Proof.
  unfold finish_instance. do 2 (yield_step). destruct a0;
    (eapply yields_then; [first [apply yields_flush_or_incident|apply yields_token_incident]|done]).
Qed.

Lemma yields_run_token_error n p e t :
  yields (S:=EngineBatch S * World S) (λ it, is_Some (run_error it)) (run_token n p (Some e) t).
Proof.
  unfold run_token. yield_step. destruct a as [l|e']; [|by eapply yields_then; [apply yields_token_incident|]].
  do 3 yield_step. destruct a1; [|yields]. yield_step. case_match; [apply yields_finish_error|].
  by eapply yields_then; [apply yields_flush_or_incident|].
Qed.

Lemma yields_with_batch {A} (P : A → Prop) b (m : BM S A) : yields P m → yields P (with_batch b m).
Proof. intros Hm w a w' [b' E]%with_batch_Ret. by eapply Hm. Qed.

Lemma yields_main_loop_error n p e l : yields (S:=World S) is_Some (main_loop n p (Some e) l).
Proof.
  revert e l. induction n as [|n IH]; intros e [|t l]; cbn [main_loop];
    try (apply yields_ret; by eexists); [by intros w a w'|].
  case_match; [|apply IH].
  eapply yields_bind_post; [apply yields_with_batch, yields_run_token_error|].
  intros [r new|r] [e' He]; simpl in He; subst; [apply IH|apply yields_ret; by eexists].
Qed.

(** ** One iteration *)

Context `{!RunLaws S view} {row : S → Heap → Z → option ProcessInstance}
  `{!StorageLaws S view row}.

Lemma save_tokens_Ret l b w u y :
  for_each l (λ tok, ignore_error (SaveToken tok)) (b, w) = (Ret u, y) →
  y = (pushes (StSaveToken <$> l) b, w).
Proof.
  revert b. induction l as [|t l IH]; intros b E; cbn [for_each] in E.
  - apply mret_Ret in E as [_ <-]. by rewrite pushes_nil.
  - apply bind_Ret in E as (v & [b1 w1] & Et & E). unfold SaveToken in Et.
    apply ignore_add_stmt_Ret in Et as [Hw [Hb|[_ Hb]]]; simpl in *; subst;
      [|by rewrite run_prepare_token in Hb].
    apply IH in E as ->. by rewrite pushes_app.
Qed.

(** The batch of an iteration, flushed: a token stored as running was started,
    or is one of [l], or its row was there before and no statement wrote it. *)
Lemma flushed_tokens l w0 b w u b' w' :
  hands_but l (NewEngineBatchClean, w0) (b, w) → Flush (b, w) = (Ret u, (b', w')) →
  (∃ sp, w'.(w_spawned) = (w0.(w_spawned) ++ sp)%list) ∧
  ∀ k t, tokens_of w' !! k = Some t → running t →
    (∃ a, a ∈ w'.(w_spawned) ∧ t ∈ a.(ra_tokens)) ∨ (t ∈ l ∧ t.(tok_Key) = k) ∨
    (tokens_of w0 !! k = Some t ∧
     ∀ tok, StSaveToken tok ∈ b.(b_stmts) → tok.(tok_Key) ≠ k).
Proof.
  intros ([Ht Hsp] & Hp & Hc) E. simpl in *.
  assert (Hpre : b.(preFlushActions) = []) by by apply Hp.
  assert (Hcov : covered_but l b) by by apply (Hc []), covered_no_stmts.
  apply Flush_Ret in E as Hf; [|done]. destruct Hf as [Hf _].
  apply Flush_spawns in E as Hs; [|done]. rewrite Hsp in Hs. split; [by eexists|].
  intros k t Hk Hr. unfold tokens_of in Hk. rewrite (law_flush _ _ _ Hf) in Hk.
  apply token_after in Hk as [(s & Hin & Hrow)|[Hold Hno]].
  - destruct s; simpl in Hrow; try done. simplify_eq.
    destruct (Hcov _ Hin Hr) as [Hl|(a & Ha & Hta)]; [by right; left|].
    left. exists a. rewrite Hs. split; [|done]. apply elem_of_app. by right.
  - right. right. split; [by rewrite <-Ht|]. intros tok Hin <-. by eapply (Hno _ tok).
Qed.

Lemma flush_or_incident_None r t p (x y : EngineBatch S * World S) :
  flush_or_incident r t p x = (Ret None, y) → r = None ∧ Flush x = (Ret tt, y).
Proof.
  intros (v & z & Ev & E)%bind_Ret. destruct v as [[]|e].
  - apply mret_Ret in E as [-> ->]. by apply attempt_Ret_Good in Ev.
  - by apply yields_token_incident in E as [? ?].
Qed.

(** The program of an iteration up to the tokens it returns. *)
Definition run_processing n p t : BM S (list ExecutionToken) :=
  activity ← lift (getExecutionTokenActivity p t); processFlowNode n p activity t.

Lemma pres_run_processing n p t : pres hands_over (run_processing n p t).
Proof.
  unfold run_processing. frame_step; [|apply pres_processFlowNode; apply _].
  apply pres_lift, pres_getExecutionTokenActivity, _.
Qed.

(** The batch once the returned tokens and the instance are saved. *)
Definition saved (p : loc) (i : ProcessInstance) (l : list ExecutionToken) b : EngineBatch S :=
  pushes [StSaveProcessInstance p i] (pushes (StSaveToken <$> l) b).

Lemma saved_hands p i l b w0 w :
  hands_over (NewEngineBatchClean, w0) (b, w) →
  hands_but l (NewEngineBatchClean, w0) (saved p i l b, w).
Proof.
  intros (? & ? & Hc). split_and!; [done..|]. intros l0 Hl.
  apply covered_push; [done|]. intros t [Ht|Ht]%elem_of_app Hr.
  - destruct (Hc l0 Hl t Ht Hr) as [?|?]; [left; apply elem_of_app; by left|by right].
  - apply list_elem_of_fmap in Ht as (t' & [= ->] & Ht). left. apply elem_of_app. by right.
Qed.

(** An iteration without an error: the token was processed, what the handler
    returned and the instance were saved, and the batch was flushed, after the
    parent of a completed instance continued. *)
Lemma run_token_saved n p cur w it y :
  run_token n p None cur (NewEngineBatchClean, w) = (Ret it, y) → run_error it = None →
  ∃ l b1 w1 i, run_processing n p cur (NewEngineBatchClean, w) = (Ret l, (b1, w1)) ∧
    hands_over (NewEngineBatchClean, w) (b1, w1) ∧ returns_token cur l ∧
    (if bool_decide (i.(pi_State) = ActivityStateCompleted)
     then finish_instance None cur p (saved p i l b1, w1) = (Ret it, y)
     else it = Next None (List.filter is_running l) ∧ Flush (saved p i l b1, w1) = (Ret tt, y)).
Proof.
  intros E He. unfold run_token in E. apply bind_Ret in E as (r & [b1 w1] & Er & E).
  destruct r as [l|e].
  2:{ apply bind_Ret in E as (r & z & Et & E). apply mret_Ret in E as [<- _].
      simpl in He. subst. by apply yields_token_incident in Et as [? ?]. }
  apply attempt_Ret_Good in Er. fold (run_processing n p cur) in Er.
  pose proof (pres_run_processing n p cur (NewEngineBatchClean, w)) as Hh. rewrite Er in Hh.
  assert (Hl : returns_token cur l).
  { apply bind_Ret in Er as (a & z & _ & Er). by eapply keeps_processFlowNode. }
  apply bind_Ret in E as (u & z & Es & E). apply save_tokens_Ret in Es as ->.
  apply bind_Ret in E as (u1 & z & [_ <-]%mret_Ret & E).
  apply bind_Ret in E as (r & z & Ei & E). destruct r as [[]|e].
  2:{ by apply bind_Ret in E as (? & ? & _ & E). }
  apply attempt_Ret_Good, SaveProcessInstance_Ret in Ei as (i & Hi & ->). simpl in E.
  apply bind_Ret in E as (i' & z & [[Hi' Hw]%load_instance_Ret Hb]%lift_Ret & E).
  destruct z as [b2 w2]. simpl in *. simplify_eq. exists l, b1, w1, i. split_and!; [done..|].
  case_match; [done|]. apply bind_Ret in E as (r & z & Ef & E). apply mret_Ret in E as [<- ->].
  simpl in He. subst. by apply flush_or_incident_None in Ef as [_ Ef].
Qed.

(** A completed instance ends the loop; its parent continues in the batch. *)
Lemma finish_instance_flushes cur p x it y :
  finish_instance None cur p x = (Ret it, y) → run_error it = None →
  it = Break None ∧ ∃ z, hands_over x z ∧ Flush z = (Ret tt, y).
Proof.
  intros E He. unfold finish_instance in E.
  apply bind_Ret in E as (i & z & [[_ Hw]%load_instance_Ret Hb]%lift_Ret & E).
  assert (z = x) as -> by (destruct x, z; simpl in *; congruence).
  apply bind_Ret in E as (r & z & Er & E). destruct r as [[]|e];
    apply bind_Ret in E as (r & z' & Ef & E); apply mret_Ret in E as [<- ->]; simpl in He; subst;
    [|by apply yields_token_incident in Ef as [? ?]].
  split; [done|]. exists z. apply flush_or_incident_None in Ef as [_ Ef]. split; [|done].
  apply attempt_Ret_Good in Er. case_match; [apply mret_Ret in Er as [_ <-]; reflexivity|].
  pose proof (hands_handleParentProcessContinuation x p x) as Hh. rewrite Er in Hh.
  by apply Hh.
Qed.

(** Where a token that is stored as running after an iteration comes from;
    [old] holds of the keys that may still have their row. *)
Definition placed (old : Z → Prop) (w w' : World S) (new : list ExecutionToken) (k : Z)
    (t : ExecutionToken) : Prop :=
  (∃ a, a ∈ w'.(w_spawned) ∧ t ∈ a.(ra_tokens)) ∨ (t ∈ new ∧ t.(tok_Key) = k) ∨
  (tokens_of w !! k = Some t ∧ old k).

Definition all_placed (old : Z → Prop) (w w' : World S) (new : list ExecutionToken) : Prop :=
  (∃ sp, w'.(w_spawned) = (w.(w_spawned) ++ sp)%list) ∧
  ∀ k t, tokens_of w' !! k = Some t → running t → placed old w w' new k t.

Lemma running_filter l t : t ∈ l → running t → t ∈ List.filter is_running l.
Proof.
  intros Hl Hr. apply list_elem_of_In, List.filter_In. split; [by apply list_elem_of_In|].
  by apply bool_decide_eq_true.
Qed.

Lemma flushed_placed (old : Z → Prop) l w b w1 u b' w' :
  hands_but l (NewEngineBatchClean, w) (b, w1) → Flush (b, w1) = (Ret u, (b', w')) →
  (∀ k, (∀ tok, StSaveToken tok ∈ b.(b_stmts) → tok.(tok_Key) ≠ k) → old k) →
  all_placed old w w' (List.filter is_running l).
Proof.
  intros Hh Ef Hold. eapply flushed_tokens in Ef as [Hsp Hpl]; [|done]. split; [done|].
  intros k t Hk Hr. destruct (Hpl k t Hk Hr) as [Hs|[[Hl Hkey]|[Ho Hno]]].
  - by left.
  - right. left. split; [by apply running_filter|done].
  - right. right. auto.
Qed.

(** An iteration that goes on: the token processed has a new row. *)
Lemma run_token_next n p cur w new b' w' :
  run_token n p None cur (NewEngineBatchClean, w) = (Ret (Next None new), (b', w')) →
  all_placed (λ k, k ≠ cur.(tok_Key)) w w' new.
Proof.
  intros E. apply run_token_saved in E as (l & b1 & w1 & i & _ & Hh & Hl & Hi); [|done].
  case_match; [by apply finish_instance_flushes in Hi as [? _]|]. destruct Hi as [[= ->] Ef].
  eapply flushed_placed; [by apply saved_hands|done|]. intros k Hno ->.
  unfold returns_token in Hl. apply list_elem_of_fmap in Hl as (tok & Hk & Hin).
  apply (Hno tok); [|done]. simpl. apply elem_of_app. left. apply elem_of_app. right.
  by apply list_elem_of_fmap_2.
Qed.

(** An iteration that completes the instance. *)
Lemma run_token_break n p cur w b' w' :
  run_token n p None cur (NewEngineBatchClean, w) = (Ret (Break None), (b', w')) →
  ∃ l y, run_processing n p cur (NewEngineBatchClean, w) = (Ret l, y) ∧
    all_placed (λ _, True) w w' (List.filter is_running l).
Proof.
  intros E. apply run_token_saved in E as (l & b1 & w1 & i & El & Hh & Hl & Hi); [|done].
  exists l, (b1, w1). split; [done|]. case_match; [|by destruct Hi].
  apply finish_instance_flushes in Hi as (_ & [b2 w2] & Hf & Ef); [|done].
  eapply flushed_placed; [|done|done]. eapply hands_but_trans; [by apply saved_hands|done].
Qed.

(** ** The main loop *)

(** One turn of the loop that goes on, on the queue and the world. *)
Inductive loop_step (p : loc) :
    list ExecutionToken * World S → list ExecutionToken * World S → Prop :=
| loop_skip t rest w : is_running t = false → loop_step p (t :: rest, w) (rest, w)
| loop_next n t rest w new b w' :
    is_running t = true →
    run_token n p None t (NewEngineBatchClean, w) = (Ret (Next None new), (b, w')) →
    loop_step p (t :: rest, w) ((rest ++ new)%list, w').

(** How the loop ends without an error: the queue is empty, or the instance is
    completed; [left] is then the rest of the queue and what its last turn
    returned. *)
Inductive loop_end (p : loc) :
    list ExecutionToken * World S → list ExecutionToken → World S → Prop :=
| end_empty w : loop_end p ([], w) [] w
| end_completed n t rest w l y b w' :
    run_processing n p t (NewEngineBatchClean, w) = (Ret l, y) →
    run_token n p None t (NewEngineBatchClean, w) = (Ret (Break None), (b, w')) →
    loop_end p (t :: rest, w) ((t :: rest) ++ List.filter is_running l)%list w'.

Lemma main_loop_steps n p l w w' :
  main_loop n p None l w = (Ret None, w') →
  ∃ q left, rtc (loop_step p) (l, w) q ∧ loop_end p q left w'.
Proof.
  revert l w. induction n as [|n IH]; intros [|t l] w E; cbn [main_loop] in E;
    try (apply mret_Ret in E as [_ <-]; eexists _, _; split; [reflexivity|constructor]); [done|].
  destruct (is_running t) eqn:Et.
  - apply bind_Ret in E as (it & w1 & E1 & E). apply with_batch_Ret in E1 as [b E1].
    destruct it as [[e|] new|r].
    + by apply yields_main_loop_error in E as [? ?].
    + apply IH in E as (q & left & Hq & Hend). exists q, left. split; [|done].
      eapply rtc_l; [by eapply loop_next|done].
    + apply mret_Ret in E as [-> <-]. destruct (run_token_break _ _ _ _ _ _ E1) as (l' & y & El & _).
      eexists _, _. split; [reflexivity|by eapply end_completed].
  - apply IH in E as (q & left & Hq & Hend). exists q, left. split; [|done].
    eapply rtc_l; [by eapply loop_skip|done].
Qed.

(** The invariant of the loop started with [l0] in [w0]: a stored running token
    belongs to a goroutine that was started, or to the queue, or has been there
    since before and is not one of the tokens processed. *)
Definition accounted (w0 : World S) (l0 : list ExecutionToken)
    (x : list ExecutionToken * World S) : Prop :=
  ∀ k t, tokens_of x.2 !! k = Some t → running t →
    (∃ a, a ∈ x.2.(w_spawned) ∧ t ∈ a.(ra_tokens)) ∨ (t ∈ x.1 ∧ t.(tok_Key) = k) ∨
    (tokens_of w0 !! k = Some t ∧ ∀ t0, t0 ∈ l0 → running t0 → t0.(tok_Key) = k → t0 ∈ x.1).

Lemma accounted_start w0 l0 : accounted w0 l0 (l0, w0).
Proof. intros k t Ht _. right. right. by split. Qed.

Lemma accounted_skip w0 l0 t l w :
  is_running t = false → accounted w0 l0 (t :: l, w) → accounted w0 l0 (l, w).
Proof.
  intros Ht%bool_decide_eq_false Ha k t' Hk Hr.
  destruct (Ha k t' Hk Hr) as [Hs|[[Hq Hkey]|[Ho Hold]]]; simpl in *.
  - by left.
  - right. left. split; [|done]. by apply elem_of_cons in Hq as [->|Hq].
  - right. right. split; [done|]. intros t0 Hin Hr0 Hk0.
    specialize (Hold t0 Hin Hr0 Hk0). by apply elem_of_cons in Hold as [->|Hq].
Qed.

Lemma accounted_next w0 l0 n p cur l w new b w' :
  run_token n p None cur (NewEngineBatchClean, w) = (Ret (Next None new), (b, w')) →
  accounted w0 l0 (cur :: l, w) → accounted w0 l0 ((l ++ new)%list, w').
Proof.
  intros E Ha k t Hk Hr. apply run_token_next in E as [[sp Hsp] Hpl]. simpl in *.
  assert (Happ : ∀ tok, tok ∈ l → tok ∈ (l ++ new)%list) by (intros ??; apply elem_of_app; by left).
  destruct (Hpl k t Hk Hr) as [Hs|[[Hn Hkey]|[Ho Hne]]].
  - by left.
  - right. left. split; [|done]. apply elem_of_app. by right.
  - destruct (Ha k t Ho Hr) as [(a & Has & Hta)|[[Hq Hkey]|[Ho0 Hold]]]; simpl in *.
    + left. exists a. split; [|done]. rewrite Hsp. apply elem_of_app. by left.
    + right. left. apply elem_of_cons in Hq as [->|Hq]; [done|]. auto.
    + right. right. split; [done|]. intros t0 Hin Hr0 Hk0.
      specialize (Hold t0 Hin Hr0 Hk0). apply elem_of_cons in Hold as [->|Hq]; [done|auto].
Qed.

Lemma accounted_steps w0 l0 p (x y : list ExecutionToken * World S) :
  rtc (loop_step p) x y → accounted w0 l0 x → accounted w0 l0 y.
Proof.
  induction 1 as [|x y z Hs _ IH]; [done|]. intros Hx. apply IH.
  destruct Hs; [by eapply accounted_skip|by eapply accounted_next].
Qed.

(** ** The run *)

Lemma still_exec_instance p i w u w' :
  on_store (exec (StSaveProcessInstance p i)) w = (Ret u, w') → still w w'.
Proof.
  intros E. unfold on_store, zoom in E. pose proof (run_exec_instance p i w.(w_store)) as Hx.
  destruct (exec _ _) as [o s']. by simplify_eq/=.
Qed.

Lemma still_lock {A} (m : ST RunningInstancesCache A) w a w' :
  on_locks m w = (Ret a, w') → still w w'.
Proof. intros E. pose proof (still_on_locks m w) as Hm. by rewrite E in Hm. Qed.

Lemma run_locked_loop n p l w w' :
  run_locked n p l w = (Ret tt, w') →
  ∃ w1, still w w1 ∧ main_loop n p None l w1 = (Ret None, w').
Proof.
  intros E. unfold run_locked in E.
  apply bind_Ret in E as (u & w1 & E1%wrap_Ret & E).
  pose proof (still_on_heap (λ s, RefreshProcessInstance s p) w) as Hs1.
  unfold refresh in E1. rewrite E1 in Hs1.
  apply bind_Ret in E as (i & w2 & [Hi ->]%load_instance_Ret & E).
  destruct (pi_State i); try done;
    (apply bind_Ret in E as (u1 & w3 & E3 & E); apply set_State_Ret in E3 as (i1 & _ & ->);
     apply bind_Ret in E as (i2 & w4 & [_ ->]%load_instance_Ret & E);
     apply bind_Ret in E as (u2 & w5 & E5%wrap_Ret & E);
     apply bind_Ret in E as ([e|] & w6 & E6 & E); [done|]; apply mret_Ret in E as [_ <-];
     exists w5; split; [|done]; apply still_exec_instance in E5; etrans; [exact Hs1|exact E5]).
Qed.

(** [left] are the tokens a run has left behind: none, unless it ended
    because the instance was completed. *)
Definition left_behind (p : loc) (l : list ExecutionToken) (w : World S)
    (left : list ExecutionToken) (w' : World S) : Prop :=
  ∃ w0 q w1, still w w0 ∧ rtc (loop_step p) (l, w0) q ∧ loop_end p q left w1 ∧ still w1 w'.

Lemma accounted_end w0 l0 p q left w' :
  loop_end p q left w' → accounted w0 l0 q → accounted w0 l0 (left, w').
Proof.
  intros Hend Ha. destruct Hend as [|n t rest w l y b w' El E]; [done|].
  apply run_token_break in E as (l' & y' & El' & [sp Hsp] & Hpl). rewrite El in El'. simplify_eq.
  assert (Happ : ∀ tok, tok ∈ t :: rest → tok ∈ ((t :: rest) ++ List.filter is_running l')%list)
    by (intros ??; apply elem_of_app; by left).
  intros k tok Hk Hr. simpl in Hk.
  destruct (Hpl k tok Hk Hr) as [Hs|[[Hn Hkey]|[Ho _]]].
  - by left.
  - right. left. split; [|done]. apply elem_of_app. by right.
  - destruct (Ha k tok Ho Hr) as [(a & Has & Hta)|[[Hq Hkey]|[Ho0 Hold]]]; simpl in *.
    + left. exists a. split; [|done]. rewrite Hsp. apply elem_of_app. by left.
    + right. left. split; [|done]. by apply Happ.
    + right. right. split; [done|]. intros t0 Hin Hr0 Hk0. by apply Happ, Hold.
Qed.

(** C2: a run that returns without an error loses no running token: a token stored
    as running is run by a goroutine the run started, or it was stored before
    and is not one the run was given, or the run left it behind when the
    instance was completed. *)
Theorem running_tokens_handed_over n p l w w' :
  RunProcessInstance n p l w = (Ret tt, w') →
  ∃ left, left_behind p l w left w' ∧
    ∀ k t, tokens_of w' !! k = Some t → running t →
      (∃ a, a ∈ w'.(w_spawned) ∧ t ∈ a.(ra_tokens)) ∨
      t ∈ left ∨
      (tokens_of w !! k = Some t ∧
       ∀ t0, t0 ∈ l → running t0 → t0.(tok_Key) = k → t0 ∈ left).
Proof.
  intros E. unfold RunProcessInstance in E.
  apply bind_Ret in E as (i & w1 & [_ ->]%load_instance_Ret & E).
  apply bind_Ret in E as (u & w2 & E2 & E).
  apply still_lock in E2. apply bind_Ret in E as (r & w3 & Er & E).
  apply bind_Ret in E as (v & w4 & E4%still_lock & E). apply of_result_Ret in E as [-> ->].
  apply attempt_Ret_Good, run_locked_loop in Er as (w0 & Hs0 & El).
  apply main_loop_steps in El as (q & left & Hq & Hend). exists left. split.
  { exists w0, q, w3. split_and!; [by etrans|done..]. }
  assert (Ha : accounted w0 l (left, w3))
    by (eapply accounted_end, accounted_steps, accounted_start; done).
  intros k t Hk Hr. destruct E4 as [Ht4 Hs4]. rewrite Ht4 in Hk. rewrite Hs4.
  assert (Ht0 : tokens_of w0 = tokens_of w) by (destruct E2, Hs0; congruence).
  destruct (Ha k t Hk Hr) as [Hs|[[Hl _]|Ho]]; [by left|by right; left|].
  rewrite Ht0 in Ho. by right; right.
Qed.
End handover.

(** ** Witness: a run that calls another process *)

#[export] Instance example_run_laws : RunLaws InMemory mem_tables.
Proof. split; [by intros|by intros p i m|by intros d m]. Qed.

(** Start event, call activity of the process [p], end event. *)
Definition c1 := mk_flow "c1" "cs" "call" "".
Definition c2 := mk_flow "c2" "call" "ce" "".
Definition call_p : TCallActivity :=
  {| ca_activity := {| act_node := mk_node "call" [c1] [c2]; act_MultiInstance := None;
                       act_Input := []; act_Output := [] |}; CalledProcessId := "p" |}.
Definition calling_process : TProcess :=
  {| p_Id := "q"; StartEvents := [{| se_node := mk_node "cs" [] [c1] |}];
     EndEvents := [end_event "ce" c2]; ServiceTasks := [];
     UserTasks := []; BusinessRuleTasks := []; SendTasks := []; ParallelGateways := [];
     ExclusiveGateways := []; EventBasedGateways := []; InclusiveGateways := [];
     IntermediateCatchEvents := []; IntermediateThrowEvents := []; CallActivities := [call_p];
     BoundaryEvents := []; SubProcesses := [] |}.
Definition calling_definition : ProcessDefinition :=
  {| pd_BpmnProcessId := "q"; pd_Version := 1; pd_Key := 2;
     pd_Definitions := {| Process := calling_process; Messages := [] |};
     pd_BpmnData := ""; pd_BpmnProcessName := ""; pd_BpmnChecksum := [] |}.

(** The called process is deployed, an instance of the calling one created. *)
Definition before_call : outcome (loc * list ExecutionToken) * World InMemory :=
  with_batch NewEngineBatchClean (
    r ← create_default calling_definition ∅; StorageBatch_Flush ;; mret r)
    (after (StSaveProcessDefinition example_definition) empty_world).
Definition call_instance : loc := (value_of (1%positive, []) before_call).1.
Definition call_tokens : list ExecutionToken := (value_of (1%positive, []) before_call).2.
Definition called_world : World InMemory :=
  (RunProcessInstance 20 call_instance call_tokens before_call.2).2.

(** The token of the called instance, at its start event, and the goroutine
    that runs it. *)
Definition called_token : option ExecutionToken :=
  match called_world.(w_spawned) with [{| ra_tokens := [t] |}] => Some t | _ => None end.

Lemma running_tokens_handed_over_witness :
  (∃ t, called_token = Some t ∧ t.(tok_ElementId) = "s" ∧ running t ∧
     tokens_of mem_tables called_world !! t.(tok_Key) = Some t) ∧
  ∃ left, left_behind mem_tables call_instance call_tokens before_call.2 left called_world ∧
    ∀ k t, tokens_of mem_tables called_world !! k = Some t → running t →
      (∃ a, a ∈ called_world.(w_spawned) ∧ t ∈ a.(ra_tokens)) ∨
      t ∈ left ∨
      (tokens_of mem_tables before_call.2 !! k = Some t ∧
       ∀ t0, t0 ∈ call_tokens → running t0 → t0.(tok_Key) = k → t0 ∈ left).
Proof.
  split.
  - eexists. split; [vm_compute; reflexivity|]. by vm_compute.
  - apply (running_tokens_handed_over mem_tables 20). vm_compute. reflexivity.
Defined.
