(* ===== verification/Exporter.v ===== *)
(** What the engine tells its exporters (pkg/bpmn/exporter.go and the package
    pkg/bpmn/exporter): the events, the functions that send them, and a run of
    an instance and the loading of a process with the events they send.  An exporter is outside the
    repository: it is a number, and what it is told is an entry of a list. *)
From S2P Require Import Prelude Monad Model Runtime DmnModel Storage Locks TimerManager World.
From S2P Require Import Conditions Dmn Instances Tasks Events Gateways SubProcess Engine Api Runs.

#[local] Open Scope string_scope.
#[local] Open Scope list_scope.

(** ** The events (event_exporter.go) *)

Record ProcessEvent := {
  pev_ProcessId : string; pev_ProcessKey : Z; pev_Version : Z; pev_XmlData : string;
  pev_ResourceName : string; pev_Checksum : string
}.
Record ProcessInstanceEvent := {
  iev_ProcessId : string; iev_ProcessKey : Z; iev_Version : Z; iev_ProcessInstanceKey : Z;
  iev_ActivityKey : Z
}.
Record ElementInfo := {
  ei_BpmnElementType : string; ei_ElementId : string; ei_ElementKey : Z; ei_Intent : string
}.

Inductive Intent :=
| ElementActivating | ElementActivated | ElementCompleting | ElementCompleted
| SequenceFlowTaken | Created.

Definition Intent_string (i : Intent) : string :=
  match i with
  | ElementActivating => "ELEMENT_ACTIVATING"
  | ElementActivated => "ELEMENT_ACTIVATED"
  | ElementCompleting => "ELEMENT_COMPLETING"
  | ElementCompleted => "ELEMENT_COMPLETED"
  | SequenceFlowTaken => "SEQUENCE_FLOW_TAKEN"
  | Created => "CREATED"
  end.

(** The text of a type; send tasks, call activities and sub processes have
    the types GetType gives them. *)
Definition ElementType_string (t : ElementType) : string :=
  match t with
  | ElementTypeStartEvent => "START_EVENT"
  | ElementTypeEndEvent => "END_EVENT"
  | ElementTypeServiceTask => "SERVICE_TASK"
  | ElementTypeUserTask => "USER_TASK"
  | ElementBusinessRuleTask => "BUSINESS_RULE_TASK"
  | ElementTypeParallelGateway => "PARALLEL_GATEWAY"
  | ElementTypeExclusiveGateway => "EXCLUSIVE_GATEWAY"
  | ElementTypeEventBasedGateway => "EVENT_BASED_GATEWAY"
  | ElementTypeInclusiveGateway => "INCLUSIVE_GATEWAY"
  | ElementTypeIntermediateCatchEvent => "INTERMEDIATE_CATCH_EVENT"
  | ElementTypeIntermediateThrowEvent => "INTERMEDIATE_THROW_EVENT"
  | ElementTypeBoundaryEvent => "BOUNDARY_EVENT"
  | ElementTypeSequenceFlow => "SEQUENCE_FLOW"
  end.

(** The four methods of an exporter. *)
Inductive ExporterCall :=
| NewProcessEvent (event : ProcessEvent)
| EndProcessEvent (event : ProcessInstanceEvent)
| NewProcessInstanceEvent (event : ProcessInstanceEvent)
| NewElementEvent (event : ProcessInstanceEvent) (elementInfo : ElementInfo).

(** What was told to which exporter, in order. *)
Definition Exported : Type := list (nat * ExporterCall).

(** ** The functions of the engine (exporter.go) *)

Definition AddEventExporter (exporters : list nat) (exporter : nat) : list nat :=
  exporters ++ [exporter].

(** Every function builds its event and tells it to every exporter. *)
Definition tell (exporters : list nat) (call : ExporterCall) : Exported :=
  (λ exp, (exp, call)) <$> exporters.

Definition instance_event (process : ProcessDefinition) (processInstance : ProcessInstance)
    : ProcessInstanceEvent :=
  {| iev_ProcessId := process.(pd_BpmnProcessId); iev_ProcessKey := process.(pd_Key);
     iev_Version := process.(pd_Version); iev_ProcessInstanceKey := processInstance.(pi_Key);
     iev_ActivityKey := 0 |}.

Definition exportNewProcessEvent (exporters : list nat) (processInfo : ProcessDefinition)
    (xmlData checksum : string) : Exported :=
  tell exporters (NewProcessEvent
    {| pev_ProcessId := processInfo.(pd_BpmnProcessId); pev_ProcessKey := processInfo.(pd_Key);
       pev_Version := processInfo.(pd_Version); pev_XmlData := xmlData; pev_ResourceName := "";
       pev_Checksum := checksum |}).
Definition exportEndProcessEvent (exporters : list nat) (process : ProcessDefinition)
    (processInstance : ProcessInstance) : Exported :=
  tell exporters (EndProcessEvent (instance_event process processInstance)).
Definition exportProcessInstanceEvent (exporters : list nat) (process : ProcessDefinition)
    (processInstance : ProcessInstance) : Exported :=
  tell exporters (NewProcessInstanceEvent (instance_event process processInstance)).
Definition exportElementEvent (exporters : list nat) (process : ProcessDefinition)
    (processInstance : ProcessInstance) (element : FlowNode) (intent : Intent) : Exported :=
  tell exporters (NewElementEvent (instance_event process processInstance)
    {| ei_BpmnElementType := ElementType_string (GetType element); ei_ElementId := GetId element;
       ei_ElementKey := 0; ei_Intent := Intent_string intent |}).
Definition exportSequenceFlowEvent (exporters : list nat) (process : ProcessDefinition)
    (processInstance : ProcessInstance) (flow : TSequenceFlow) : Exported :=
  tell exporters (NewElementEvent (instance_event process processInstance)
    {| ei_BpmnElementType := ElementType_string ElementTypeSequenceFlow;
       ei_ElementId := flow.(sf_Id); ei_ElementKey := 0;
       ei_Intent := Intent_string SequenceFlowTaken |}).

(** ** A run with its events

    RunProcessInstance of engine_api.go with the list of what was exported;
    the definition is the one the instance had after the refresh. *)

Section run.
Context {S : Type} `{Storage S} `{DecisionStorage S} `{Env} (exporters : list nat).

Abbreviation XM := (ST (Exported * World S)).
Definition run_in_world {A} (m : EM S A) : XM A := zoom snd (λ w x, (x.1, w)) m.

Definition ended (s : ActivityState) : bool :=
  match s with ActivityStateCompleted | ActivityStateFailed => true | _ => false end.

Definition export_end (process : ProcessDefinition) (instance : loc) : XM unit :=
  i ← run_in_world (load_instance instance);
  if ended i.(pi_State)
  then modify (λ x, (x.1 ++ exportEndProcessEvent exporters process i, x.2))
  else mret tt.

Definition run_locked_exported (fuel : nat) (instance : loc)
    (executionTokens : list ExecutionToken) : XM unit :=
  run_in_world (wrap (λ e, errw! "failed to refresh process instance %d: %w" [e])
    (refresh instance)) ;;
  i ← run_in_world (load_instance instance);
  match i.(pi_State) with
  | ActivityStateTerminated => throw (err! "process instance %d is terminated")
  | ActivityStateCompleted => throw (err! "process instance %d is completed")
  | _ =>
      let process := i.(pi_Definition) in
      run_in_world (set_State instance ActivityStateActive) ;;
      i ← run_in_world (load_instance instance);
      run_in_world (wrap (λ e, errors_Join (err! "failed to save process instance %d status update") e)
        (on_store (exec (StSaveProcessInstance instance i)))) ;;
      runErr ← run_in_world (main_loop fuel instance None executionTokens);
      export_end process instance ;;
      match runErr with
      | Some e => throw (errors_Join (err! "failed to run process instance %d") e)
      | None => mret tt
      end
  end.

Definition RunProcessInstance_exported (fuel : nat) (instance : loc)
    (executionTokens : list ExecutionToken) : XM unit :=
  i ← run_in_world (load_instance instance);
  run_in_world (lock i.(pi_Key)) ;;
  deferred (run_locked_exported fuel instance executionTokens)
    (run_in_world (unlock i.(pi_Key))).

(** *** Exporting does not change the run *)

Lemma run_in_world_bind {A B} (m : EM S A) (f : A → XM B) tr w :
  (run_in_world m ≫= f) (tr, w) =
  match m w with
  | (Ret a, w1) => f a (tr, w1)
  | (Err e, w1) => (Err e, (tr, w1))
  | (Panic s, w1) => (Panic s, (tr, w1))
  | (Block, w1) => (Block, (tr, w1))
  | (NoFuel, w1) => (NoFuel, (tr, w1))
  end.
Proof. unfold mbind, ST_bind, run_in_world, zoom. simpl. by destruct (m w) as [[] w1]. Qed.

Lemma ST_bind_unfold {X A B} (m : ST X A) (f : A → ST X B) x :
  (m ≫= f) x =
  match m x with
  | (Ret a, y) => f a y
  | (Err e, y) => (Err e, y)
  | (Panic s, y) => (Panic s, y)
  | (Block, y) => (Block, y)
  | (NoFuel, y) => (NoFuel, y)
  end.
Proof. reflexivity. Qed.

(** What a run has told: nothing, or the end of the instance. *)
Definition told_end (p : loc) (w : World S) (tr tr' : Exported) : Prop :=
  ∃ i process, w.(w_heap).(h_objects) !! p = Some i ∧
    tr' = tr ++ (if ended i.(pi_State) then exportEndProcessEvent exporters process i else []).

Lemma export_end_run process p tr w o tr' w' :
  export_end process p (tr, w) = (o, (tr', w')) → returns o →
  o = Ret tt ∧ w' = w ∧ told_end p w tr tr'.
Proof.
  unfold export_end. rewrite run_in_world_bind. unfold load_instance.
  destruct (h_objects (w_heap w) !! p) as [i|] eqn:Ei; simpl; intros E Ho;
    [|by simplify_eq]. destruct (ended (pi_State i)) eqn:Ee;
    unfold modify, mret, ST_ret in E; simplify_eq/=; split_and!; try done;
    exists i, process; rewrite Ee, ?app_nil_r; done.
Qed.

Lemma export_end_then process p (r : option error) tr w o tr' w' :
  (export_end process p ;;
   match r with
   | Some e => throw (errors_Join (err! "failed to run process instance %d") e)
   | None => mret tt
   end) (tr, w) = (o, (tr', w')) → returns o →
  (match r with
   | Some e => throw (errors_Join (err! "failed to run process instance %d") e)
   | None => mret tt
   end : EM S unit) w = (o, w') ∧ (tr' = tr ∧ o ≠ Ret tt ∨ told_end p w' tr tr').
Proof.
  rewrite ST_bind_unfold. destruct (export_end process p (tr, w)) as [o1 [tr1 w1]] eqn:E1.
  intros E Ho. assert (Ho1 : returns o1) by by destruct o1; simplify_eq.
  destruct (export_end_run _ _ _ _ _ _ _ E1 Ho1) as (-> & -> & Ht).
  destruct r; unfold throw, mret, ST_ret in *; simplify_eq; by split; [|right].
Qed.

Lemma run_locked_exported_run n p l tr w o tr' w' :
  run_locked_exported n p l (tr, w) = (o, (tr', w')) → returns o →
  run_locked n p l w = (o, w') ∧ (tr' = tr ∧ o ≠ Ret tt ∨ told_end p w' tr tr').
Proof.
  unfold run_locked_exported, run_locked. intros E Ho.
  rewrite run_in_world_bind in E. rewrite ST_bind_unfold.
  destruct (wrap _ (refresh p) w) as [[] w1]; simplify_eq; try done; [|by split; [|left]].
  rewrite run_in_world_bind in E. rewrite ST_bind_unfold.
  destruct (load_instance p w1) as [[i| | | |] w2]; simplify_eq; try done; [|by split; [|left]].
  destruct (pi_State i); try (unfold throw in *; simplify_eq; by split; [|left]); cbv zeta in E;
    rewrite run_in_world_bind in E; rewrite ST_bind_unfold;
    (destruct (set_State p ActivityStateActive w2) as [[] w3]; simplify_eq; try done;
      [|by split; [|left]]);
    rewrite run_in_world_bind in E; rewrite ST_bind_unfold;
    (destruct (load_instance p w3) as [[i'| | | |] w4]; simplify_eq; try done; [|by split; [|left]]);
    rewrite run_in_world_bind in E; rewrite ST_bind_unfold;
    (destruct (wrap _ (on_store _) w4) as [[] w5]; simplify_eq; try done; [|by split; [|left]]);
    rewrite run_in_world_bind in E; rewrite ST_bind_unfold;
    (destruct (main_loop n p None l w5) as [[r| | | |] w6]; simplify_eq; try done;
      [|by split; [|left]]);
    by apply export_end_then in E.
Qed.

Lemma unlock_run k w :
  ∃ o w', unlock (S:=S) k w = (o, w') ∧ w'.(w_heap) = w.(w_heap).
Proof.
  unfold unlock, on_locks, zoom. destruct (unlockInstance k (w_locks w)) as [o c]. by eexists _, _.
Qed.

(** A run with its events is the run; its exporters are told of the end of the
    instance, each once and in the order of their registration, exactly when
    the main loop was left with the instance completed or failed, and of nothing
    else. *)
Lemma exported_run n p l tr w o tr' w' :
  RunProcessInstance_exported n p l (tr, w) = (o, (tr', w')) → returns o →
  RunProcessInstance n p l w = (o, w') ∧ (tr' = tr ∧ o ≠ Ret tt ∨ told_end p w' tr tr').
Proof.
  unfold RunProcessInstance_exported, RunProcessInstance. intros E Ho.
  rewrite run_in_world_bind in E. rewrite ST_bind_unfold.
  destruct (load_instance p w) as [[i| | | |] w1]; simplify_eq; try done; [|by split; [|left]].
  rewrite run_in_world_bind in E. rewrite ST_bind_unfold.
  destruct (lock (pi_Key i) w1) as [[] w2]; simplify_eq; try done; [|by split; [|left]].
  cbv beta in E. unfold deferred in *. rewrite (ST_bind_unfold (attempt _)) in E. rewrite (ST_bind_unfold (attempt _)). unfold attempt in *.
  destruct (run_locked_exported n p l (tr, w2)) as [o1 [tr1 w3]] eqn:E1.
  destruct (unlock_run (pi_Key i) w3) as (ou & w4 & Eu & Hh).
  assert (Ho1 : returns o1) by by destruct o1; simplify_eq.
  destruct (run_locked_exported_run _ _ _ _ _ _ _ _ E1 Ho1) as [-> Htold].
  destruct o1; simpl in Ho1; try done; cbv beta iota in E |- *;
    rewrite run_in_world_bind, Eu in E; rewrite ST_bind_unfold, Eu;
    destruct ou; unfold of_result, mret, ST_ret, throw in *; simplify_eq; try done;
    (split; [done|]); unfold told_end in *; rewrite Hh; naive_solver.
Qed.

(** ** Loading a process with its event (load of xml_loader.go) *)

Definition hex_digit (n : Z) : string := String.substring (Z.to_nat n) 1 "0123456789abcdef".
Definition EncodeToString (bytes : list Z) : string :=
  foldr (λ b s, (hex_digit (b / 16) ++ hex_digit (b mod 16) ++ s)%string) "" bytes.

Definition load_exported (xmlData : string) (md5sum : list Z) (processName : string)
    (definitions : TDefinitions) (key : Z) : XM ProcessDefinition :=
  let processInfo version :=
    {| pd_BpmnProcessId := definitions.(Process).(p_Id); pd_Version := version; pd_Key := key;
       pd_Definitions := definitions; pd_BpmnData := xmlData; pd_BpmnProcessName := processName;
       pd_BpmnChecksum := md5sum |} in
  let save (d : ProcessDefinition) : XM ProcessDefinition :=
    run_in_world (wrap (λ e, errw! "failed to save process definition: %w" [e])
      (on_store (exec (StSaveProcessDefinition d)))) ;;
    modify (λ x, (x.1 ++ exportNewProcessEvent exporters d xmlData (EncodeToString md5sum), x.2)) ;;
    mret d in
  processes ← run_in_world (wrap (λ e, errw! "failed to load processes by id %s: %w" [e])
    (query (λ s, FindProcessDefinitionsById s definitions.(Process).(p_Id))));
  match processes with
  | [] => save (processInfo 1%Z)
  | d :: l =>
      let latest := latest_by pd_Version d (d :: l) in
      if bool_decide (latest.(pd_BpmnChecksum) = md5sum) then mret latest
      else save (processInfo (wrap32 (latest.(pd_Version) + 1)))
  end.

(** Loading is as without exporters; they are told of the definition that was
    saved, and of nothing when it was there already or on an error. *)
Lemma exported_load xmlData md5sum processName definitions key tr w o tr' w' :
  load_exported xmlData md5sum processName definitions key (tr, w) = (o, (tr', w')) → returns o →
  load xmlData md5sum processName definitions key w = (o, w') ∧
  (tr' = tr ∧ w'.(w_store) = w.(w_store) ∨ tr' = tr ∧ (∃ e, o = Err e) ∨
   ∃ d, o = Ret d ∧ d.(pd_Key) = key ∧ d.(pd_BpmnData) = xmlData ∧
     tr' = tr ++ exportNewProcessEvent exporters d xmlData (EncodeToString md5sum)).
Proof.
  unfold load_exported, load. intros E Ho.
  rewrite run_in_world_bind in E. rewrite ST_bind_unfold.
  destruct (wrap _ (query _) w) as [r w1] eqn:Eq.
  assert (Hw : w1.(w_store) = w.(w_store)).
  { revert Eq. unfold wrap, attempt, query. rewrite ST_bind_unfold.
    destruct (FindProcessDefinitionsById _ _); intros Eq; by injection Eq as <- <-. }
  destruct r as [ps| | | |]; simplify_eq; try done; [|by split; [|left]].
  destruct ps as [|d ps]; [|case_bool_decide; [unfold mret, ST_ret in E; simplify_eq; by split; [|left]|]];
    rewrite run_in_world_bind in E; rewrite ST_bind_unfold;
    destruct (wrap _ (on_store _) w1) as [r2 w2]; destruct r2; try (simplify_eq; done);
    unfold modify, mbind, ST_bind, mret, ST_ret in E; simplify_eq/=; (split; [done|]);
    first [by right; left; eauto | right; right; eexists; split_and!; done].
Qed.
End run.
