(* ===== verification/Lifecycle.v ===== *)
(** Starting and stopping: the raft store with its files and its observer
    (internal/cluster/store: Open, Close and the waiting calls of
    store_helper.go), a node (StartZenNode and Stop of internal/cluster/node.go),
    the parts an engine is made of (NewEngine and its options, pkg/bpmn/engine.go
    and pkg/dmn/dmn_engine.go), the schedule of the cleanup of a partition
    (partition_persistence.go), the profiling server
    (internal/cluster/server/server.go), the connections of a node
    (internal/cluster/client), and the handlers of the servers that belong to
    no other component.

    What the files, the network and the raft library answer are arguments; the
    waiting helpers of rqlite's rsync package are behind the class [Rsync]. *)
From S2P Require Import Prelude ZenErr Monad Model Runtime DmnModel Storage Locks TimerManager World.
From S2P Require Import Api ClusterState Json Zenflake ClusterStore Sql PartitionDB PartitionWrite Messages Commands.
From S2P Require Import JobClient.

From Stdlib Require Import Ascii.
#[local] Open Scope string_scope.
#[local] Open Scope list_scope.

Definition ErrAlreadyOpen : error := err! "store already open".
Definition ErrWaitForLeaderTimeout : error := err! "timeout waiting for leader".

(** ** The store *)

(** The channel that stops the goroutine of observe: the one New makes, which
    no goroutine reads, or the one of a running observer, or a closed one. *)
Inductive ObserverClose := ChanMade | ChanObserving | ChanClosed.

(** [sp_bolts] counts the open handles of raft.db. *)
Record StoreProcess := {
  sp_open : bool;
  sp_observerClose : ObserverClose;
  sp_bolts : nat
}.

Definition New_process : StoreProcess :=
  {| sp_open := false; sp_observerClose := ChanMade; sp_bolts := 0 |}.

Definition set_open (b : bool) (s : StoreProcess) : StoreProcess :=
  {| sp_open := b; sp_observerClose := s.(sp_observerClose); sp_bolts := s.(sp_bolts) |}.
Definition set_observerClose (c : ObserverClose) (s : StoreProcess) : StoreProcess :=
  {| sp_open := s.(sp_open); sp_observerClose := c; sp_bolts := s.(sp_bolts) |}.
Definition set_bolts (n : nat) (s : StoreProcess) : StoreProcess :=
  {| sp_open := s.(sp_open); sp_observerClose := s.(sp_observerClose); sp_bolts := n |}.

(** What the library answers to Open: the snapshot store, raft.db and the
    raft instance. *)
Record OpenAnswers := {
  oa_snapshots : option error; oa_bolt : option error; oa_raft : option error
}.
Definition opens : OpenAnswers := {| oa_snapshots := None; oa_bolt := None; oa_raft := None |}.

Definition no_failure (w : error → error) (e : option error) : ST StoreProcess unit :=
  match e with Some e => throw (w e) | None => mret tt end.

(** The deferred function sets open when no error is returned. *)
Definition Open (a : OpenAnswers) : ST StoreProcess unit :=
  s ← get;
  if s.(sp_open) then throw ErrAlreadyOpen
  else
    no_failure (λ _, err! "file snapshot store: %s") a.(oa_snapshots) ;;
    no_failure (λ _, err! "new bbolt store: %s") a.(oa_bolt) ;;
    modify (λ s, set_bolts (S s.(sp_bolts)) s) ;;
    no_failure (λ _, err! "new raft: %s") a.(oa_raft) ;;
    modify (set_observerClose ChanObserving) ;;
    modify (set_open true).

(** What the library answers to Close: the future of Shutdown and raft.db. *)
Record CloseAnswers := { ca_shutdown : option error; ca_bolt_close : option error }.
Definition closes : CloseAnswers := {| ca_shutdown := None; ca_bolt_close := None |}.

(** close(s.observerClose), then waiting for the goroutine to end. *)
Definition stop_observer : ST StoreProcess unit :=
  s ← get;
  match s.(sp_observerClose) with
  | ChanClosed => panic "close of closed channel"
  | ChanMade => block
  | ChanObserving => modify (set_observerClose ChanClosed)
  end.

Definition Close (wait : bool) (a : CloseAnswers) : ST StoreProcess unit :=
  s ← get;
  if negb s.(sp_open) then modify (set_open false)
  else
    stop_observer ;;
    (if wait then no_failure (λ e, e) a.(ca_shutdown) else mret tt) ;;
    no_failure (λ e, e) a.(ca_bolt_close) ;;
    modify (λ s, set_bolts (pred s.(sp_bolts)) s) ;;
    modify (set_open false).

(** A store that was opened and closed is as a new one, but for its channel,
    and can be opened again. *)
Lemma open_close_open wait s :
  s.(sp_open) = false →
  ∃ s1 s2 s3, Open opens s = (Ret tt, s1) ∧ Close wait closes s1 = (Ret tt, s2) ∧
    s2.(sp_open) = false ∧ s2.(sp_bolts) = s.(sp_bolts) ∧ Open opens s2 = (Ret tt, s3).
Proof.
  intros Hs. destruct s as [o c n]. simpl in Hs. subst.
  eexists _, _, _. split; [reflexivity|]. split; [by destruct wait|]. split; [done|].
  split; [done|]. reflexivity.
Qed.

(** A Close that fails has closed the channel and leaves the store open: the
    next Close panics. *)
Lemma close_after_failed_close wait a s e s' :
  Close wait a s = (Err e, s') →
  ∀ wait' a', Close wait' a' s' = (Panic "close of closed channel", s').
Proof.
  destruct s as [[] c n]; [|done]. destruct c; try done. intros E wait' a'.
  destruct wait; destruct a as [[e1|] [e2|]]; simpl in E;
    unfold Close, stop_observer, mbind, ST_bind, mret, ST_ret, throw in E; simpl in E; simplify_eq;
    reflexivity.
Qed.

(** An Open that fails in the raft library has opened raft.db; the store is
    not open, so no Close releases the file. *)
Lemma failed_open_keeps_file s e :
  s.(sp_open) = false →
  ∃ s', Open {| oa_snapshots := None; oa_bolt := None; oa_raft := Some e |} s
          = (Err (err! "new raft: %s"), s') ∧
    s'.(sp_bolts) = S s.(sp_bolts) ∧
    ∀ wait a, ∃ s2, Close wait a s' = (Ret tt, s2) ∧ s2.(sp_bolts) = S s.(sp_bolts).
Proof.
  intros Hs. destruct s as [o c n]. simpl in Hs. subst.
  eexists. split; [reflexivity|]. split; [done|]. intros wait a. by eexists.
Qed.

(** *** Waiting *)

(** rsync: PollTrue calls a check periodically until it is true or the timeout
    is over, and ReadyTarget closes a subscribed channel once a value not below
    the target was signalled.  [PollTrue_Run check polls] is the poll whose check
    was true, of the moments at which it is called before the timeout;
    [ReadyTarget_ready signals target] says whether the channel is closed after
    the signals. *)
Class Rsync := {
  PollTrue_Run : ∀ {A}, (A → bool) → list A → option A;
  ReadyTarget_ready : list Z → Z → bool
}.
Class RsyncLaws `{Rsync} : Prop := {
  PollTrue_found {A} (check : A → bool) polls x :
    PollTrue_Run check polls = Some x →
    ∃ l1 l2, polls = l1 ++ x :: l2 ∧ check x = true ∧ Forall (λ y, check y = false) l1;
  PollTrue_timeout {A} (check : A → bool) polls :
    PollTrue_Run check polls = None → Forall (λ y, check y = false) polls;
  ReadyTarget_signalled signals target :
    ReadyTarget_ready signals target = true ↔ ∃ i, i ∈ signals ∧ (target ≤ i)%Z
}.

Section waiting.
Context `{Rsync}.

(** The store at the moments of the polls. *)
Definition has_leader_addr (s : Store) : bool :=
  let '(leaderAddr, chkErr) := LeaderAddr s in
  match chkErr with None => negb (leaderAddr =? "")%string | Some _ => false end.

Definition WaitForLeader (polls : list Store) : result string :=
  match PollTrue_Run has_leader_addr polls with
  | None => Bad ErrWaitForLeaderTimeout
  | Some s => Good (fst (LeaderAddr s))
  end.

(** What the raft library does to the FSM until the timeout. *)
Inductive FsmCall :=
| FsmApply (l : LogEntry)
| FsmRestore (rc : result json).

(** Apply signals the index of its entry at its end (fsm.go), Restore signals
    nothing. *)
Definition signalled (c : FsmCall) : list Z :=
  match c with
  | FsmApply {| l_Data := Some _; l_Index := i |} => [i]
  | FsmApply _ | FsmRestore _ => []
  end.

Definition WaitForAppliedIndex (calls : list FsmCall) (idx : Z) : result unit :=
  if ReadyTarget_ready (calls ≫= signalled) idx then Good tt
  else Bad (err! "timeout waiting for index %d to be applied").

Definition WaitForAllApplied (lastIndex : Z) (calls : list FsmCall) (timeout : Z) : result unit :=
  if (timeout =? 0)%Z then Good tt else WaitForAppliedIndex calls lastIndex.

Context `{!RsyncLaws}.

(** The address is the one of the first poll that saw a leader. *)
Lemma WaitForLeader_first polls addr :
  WaitForLeader polls = Good addr →
  ∃ l1 s l2, polls = l1 ++ s :: l2 ∧ s.(s_open) = true ∧ addr = fst (LeaderAddr s) ∧ addr ≠ "" ∧
    Forall (λ s, has_leader_addr s = false) l1.
Proof.
  unfold WaitForLeader. destruct (PollTrue_Run _ _) as [s|] eqn:E; [|done]. intros [= <-].
  apply PollTrue_found in E as (l1 & l2 & -> & Hs & Hl). exists l1, s, l2.
  unfold has_leader_addr, LeaderAddr in *. destruct (s_open s); [|done].
  split_and!; [done..| |done]. simpl in *. intros Hn. by rewrite Hn in Hs.
Qed.

(** Waiting for an entry of the log succeeds exactly when an entry with its
    index or a later one is handed to Apply before the timeout. *)
Lemma WaitForAppliedIndex_spec calls idx :
  WaitForAppliedIndex calls idx = Good tt ↔
  ∃ i c, FsmApply {| l_Index := i; l_Data := Some c |} ∈ calls ∧ (idx ≤ i)%Z.
Proof.
  unfold WaitForAppliedIndex. destruct (ReadyTarget_ready _ _) eqn:E.
  - split; [intros _|done]. apply ReadyTarget_signalled in E as (i & Hi & Hle).
    apply list_elem_of_bind in Hi as ([[j [c|]]|] & Hi & Hin); simpl in Hi;
      try (by apply not_elem_of_nil in Hi).
    apply list_elem_of_singleton in Hi as ->. eauto.
  - split; [done|]. intros (i & c & Hin & Hle). exfalso.
    assert (Ht : ReadyTarget_ready (calls ≫= signalled) idx = true); [|congruence].
    apply ReadyTarget_signalled. exists i. split; [|done]. apply list_elem_of_bind.
    eexists. split; [|done]. simpl. left.
Qed.

(** Entries that reach the state in a snapshot are not waited for: a store that
    restored one and is given no further entry waits until the timeout. *)
Lemma restored_state_is_not_applied calls lastIndex timeout :
  timeout ≠ 0%Z → Forall (λ c, ∃ rc, c = FsmRestore rc) calls →
  WaitForAllApplied lastIndex calls timeout
    = Bad (err! "timeout waiting for index %d to be applied").
Proof.
  intros Ht Hr. unfold WaitForAllApplied. apply Z.eqb_neq in Ht as ->.
  destruct (WaitForAppliedIndex calls lastIndex) as [[]|e] eqn:E.
  - apply WaitForAppliedIndex_spec in E as (i & c & Hin & _).
    rewrite Forall_forall in Hr. by destruct (Hr _ Hin).
  - unfold WaitForAppliedIndex in E. by destruct (ReadyTarget_ready _ _); simplify_eq.
Qed.
End waiting.

(** ** A node *)

(** The parts of a node, in the order StartZenNode makes them. *)
Inductive NodePart :=
| PartMux | PartController | PartStore | PartControllerStarted | PartServer | PartJobManager.

(** What the parts answer; [sa_enter] is the outcome of joining or
    bootstrapping (component "Joining and bootstrapping"). *)
Record StartAnswers := {
  sa_idGen : option error;
  sa_part : NodePart → option error;
  sa_nodes : result (list Node);
  sa_enter : option error;
  sa_leader : result string;
  sa_applied : result unit
}.

Definition make_part (a : StartAnswers) (p : NodePart) (w : error → error) : ST (list NodePart) unit :=
  match a.(sa_part) p with
  | Some e => throw (w e)
  | None => modify (λ parts, parts ++ [p])
  end.

(** Starting the job manager returns no error; the error of waiting for the
    log is only logged. *)
Definition start_job_manager (a : StartAnswers) : ST (list NodePart) unit :=
  match a.(sa_applied) with Good _ | Bad _ => mret tt end ;;
  modify (λ parts, parts ++ [PartJobManager]).

Definition StartZenNode (a : StartAnswers) : ST (list NodePart) unit :=
  match a.(sa_idGen) with
  | Some e => throw (errw! "failed to create snowflake id generator: %w" [e])
  | None => mret tt
  end ;;
  make_part a PartMux (λ e, errw! "failed to create ZenNode mux on %s: %w" [e]) ;;
  make_part a PartController (λ e, errw! "failed to create node controller: %w" [e]) ;;
  make_part a PartStore (λ e, errw! "failed to open store: %w" [e]) ;;
  make_part a PartControllerStarted (λ e, errw! "failed to start node controller: %w" [e]) ;;
  make_part a PartServer (λ e, errw! "failed to open cluster GRPC server: %w" [e]) ;;
  match a.(sa_nodes) with
  | Bad _ => throw (err! "failed to get nodes %s")
  | Good (_ :: _) => start_job_manager a
  | Good [] =>
      match a.(sa_enter) with Some e => throw e | None => mret tt end ;;
      match a.(sa_leader) with
      | Bad _ => throw (err! "timeout expired before leader information was received")
      | Good _ => start_job_manager a
      end
  end.

Definition all_parts : list NodePart :=
  [PartMux; PartController; PartStore; PartControllerStarted; PartServer; PartJobManager].

(** A node that starts has all parts, in order, and either had a configuration
    or knows a leader; whether the log was applied does not matter. *)
Lemma started_node_has_all_parts a parts :
  StartZenNode a [] = (Ret tt, parts) ↔
  a.(sa_idGen) = None ∧ (∀ p, p ≠ PartJobManager → a.(sa_part) p = None) ∧ parts = all_parts ∧
  match a.(sa_nodes) with
  | Bad _ => False
  | Good (_ :: _) => True
  | Good [] => a.(sa_enter) = None ∧ is_Good a.(sa_leader) = true
  end.
Proof.
  unfold StartZenNode, make_part, start_job_manager. destruct a as [g f n e l ap]. simpl. split.
  - intros E. destruct g; [done|]. split; [done|].
    destruct (f PartMux) eqn:E1; [done|]. destruct (f PartController) eqn:E2; [done|].
    destruct (f PartStore) eqn:E3; [done|]. destruct (f PartControllerStarted) eqn:E4; [done|].
    destruct (f PartServer) eqn:E5; [done|].
    split; [by intros []|]. unfold mbind, ST_bind, modify, mret, ST_ret, throw in E. simpl in E.
    destruct n as [[|]|]; [|by destruct ap; simplify_eq/=|done].
    destruct e; [done|]. destruct l; [|done]. by destruct ap; simplify_eq/=.
  - intros (-> & Hf & -> & Hn). rewrite !Hf by done.
    destruct n as [[|]|]; [|by destruct ap|done]. destruct Hn as [-> Hl].
    destruct l; [by destruct ap|done].
Qed.

(** The steps of Stop, each with the text of its error. *)
Inductive StopStep := NotifyShutdownStep | ServerClose | ClientClose | ControllerStop | StoreClose | MuxClose.

Definition stop_error (p : StopStep) (e : error) : error :=
  match p with
  | NotifyShutdownStep => errw! "failed to notify cluster about node shutdown: %w" [e]
  | ServerClose => errw! "failed to stop grpc server: %w" [e]
  | ClientClose => errw! "failed to close client manager: %w" [e]
  | ControllerStop => errw! "failed to stop node controller: %w" [e]
  | StoreClose => errw! "failed to close zen node store: %w" [e]
  | MuxClose => errw! "failed to close mux listner: %w" [e]
  end.

Definition stop_steps : list StopStep :=
  [NotifyShutdownStep; ServerClose; ClientClose; ControllerStop; StoreClose; MuxClose].

(** Every step runs, whatever the others answer; the errors are joined. *)
Definition Stop (answers : StopStep → option error) : ST (list StopStep) (option error) :=
  for_fold stop_steps None (λ joinErr p,
    modify (λ done, done ++ [p]) ;;
    mret (match answers p with
          | Some e => join_opt joinErr (stop_error p e)
          | None => joinErr
          end)).

(** The controller has nothing to tell, and closing the server drops the error
    of its listener. *)
Definition NotifyShutdown : option error := None.
Definition Server_Close (listener : option error) : option error :=
  match listener with Some _ | None => None end.

Lemma stop_runs_every_step answers steps :
  ∃ r, Stop answers steps = (Ret r, steps ++ stop_steps) ∧
    (r = None ↔ ∀ p, answers p = None).
Proof.
  unfold Stop, stop_steps. cbn [for_fold]. unfold modify, mbind, ST_bind, mret, ST_ret. cbn.
  eexists. split; [by rewrite <-!(assoc_L (++))|]. split.
  - intros Hn p. destruct (answers NotifyShutdownStep) eqn:E1, (answers ServerClose) eqn:E2,
      (answers ClientClose) eqn:E3, (answers ControllerStop) eqn:E4, (answers StoreClose) eqn:E5,
      (answers MuxClose) eqn:E6; try done; by destruct p.
  - intros Hp. by rewrite !Hp.
Qed.

(** ** The parts of an engine

    Storages and script runtimes are objects with an identity; a runtime runs
    (it has a goroutine and its runners) from its creation until Stop. *)
Record Objects := { ob_next : nat; ob_runtimes : list nat }.

Definition new_storage : ST Objects nat := λ o,
  (Ret o.(ob_next), {| ob_next := S o.(ob_next); ob_runtimes := o.(ob_runtimes) |}).
Definition new_runtime : ST Objects nat := λ o,
  (Ret o.(ob_next),
   {| ob_next := S o.(ob_next); ob_runtimes := o.(ob_runtimes) ++ [o.(ob_next)] |}).
Definition stop_runtime (r : nat) : ST Objects unit :=
  modify (λ o, {| ob_next := o.(ob_next); ob_runtimes := filter (λ x, x ≠ r) o.(ob_runtimes) |}).

(** ZenDmnEngine and its options. *)
Record ZenDmnEngine := { de_persistence : nat; de_feelRuntime : nat }.
Inductive DmnEngineOption := Dmn_EngineWithStorage (persistence : nat) | Dmn_EngineWithFeel (feel : nat).

Definition apply_dmn_option (engine : ZenDmnEngine) (o : DmnEngineOption) : ZenDmnEngine :=
  match o with
  | Dmn_EngineWithStorage p => {| de_persistence := p; de_feelRuntime := engine.(de_feelRuntime) |}
  | Dmn_EngineWithFeel f => {| de_persistence := engine.(de_persistence); de_feelRuntime := f |}
  end.

(** The defaults are made before the options replace them. *)
Definition Dmn_NewEngine (options : list DmnEngineOption) : ST Objects ZenDmnEngine :=
  persistence ← new_storage;
  feelRuntime ← new_runtime;
  mret (foldl apply_dmn_option {| de_persistence := persistence; de_feelRuntime := feelRuntime |}
          options).

Record EngineParts := {
  ep_persistence : nat; ep_feelRuntime : nat; ep_jsRuntime : nat; ep_dmnEngine : ZenDmnEngine;
  ep_exporters : list nat; ep_logger : nat
}.

Inductive EngineOption :=
| EngineWithExporter (exporter : nat)
| EngineWithStorage (persistence : nat)
| EngineWithStorageAndFeel (persistence feelRuntime : nat)
| EngineWithJs (jsRuntime : nat)
| EngineWithLogger (logger : nat).

Definition apply_option (e : EngineParts) (o : EngineOption) : ST Objects EngineParts :=
  match o with
  | EngineWithExporter x =>
      mret {| ep_persistence := e.(ep_persistence); ep_feelRuntime := e.(ep_feelRuntime);
              ep_jsRuntime := e.(ep_jsRuntime); ep_dmnEngine := e.(ep_dmnEngine);
              ep_exporters := e.(ep_exporters) ++ [x]; ep_logger := e.(ep_logger) |}
  | EngineWithStorage p =>
      dmn ← Dmn_NewEngine [Dmn_EngineWithStorage p];
      mret {| ep_persistence := p; ep_feelRuntime := e.(ep_feelRuntime);
              ep_jsRuntime := e.(ep_jsRuntime); ep_dmnEngine := dmn;
              ep_exporters := e.(ep_exporters); ep_logger := e.(ep_logger) |}
  | EngineWithStorageAndFeel p f =>
      stop_runtime e.(ep_feelRuntime) ;;
      dmn ← Dmn_NewEngine [Dmn_EngineWithStorage p; Dmn_EngineWithFeel f];
      mret {| ep_persistence := p; ep_feelRuntime := f;
              ep_jsRuntime := e.(ep_jsRuntime); ep_dmnEngine := dmn;
              ep_exporters := e.(ep_exporters); ep_logger := e.(ep_logger) |}
  | EngineWithJs j =>
      stop_runtime e.(ep_jsRuntime) ;;
      mret {| ep_persistence := e.(ep_persistence); ep_feelRuntime := e.(ep_feelRuntime);
              ep_jsRuntime := j; ep_dmnEngine := e.(ep_dmnEngine);
              ep_exporters := e.(ep_exporters); ep_logger := e.(ep_logger) |}
  | EngineWithLogger l =>
      mret {| ep_persistence := e.(ep_persistence); ep_feelRuntime := e.(ep_feelRuntime);
              ep_jsRuntime := e.(ep_jsRuntime); ep_dmnEngine := e.(ep_dmnEngine);
              ep_exporters := e.(ep_exporters); ep_logger := l |}
  end.

Definition NewEngine (options : list EngineOption) : ST Objects EngineParts :=
  persistence ← new_storage;
  feelRuntime ← new_runtime;
  jsRuntime ← new_runtime;
  dmn ← Dmn_NewEngine [Dmn_EngineWithStorage persistence; Dmn_EngineWithFeel feelRuntime];
  for_fold options
    {| ep_persistence := persistence; ep_feelRuntime := feelRuntime; ep_jsRuntime := jsRuntime;
       ep_dmnEngine := dmn; ep_exporters := []; ep_logger := 0 |} apply_option.

(** createEngine of the controller, given the answer of the migrations. *)
Definition createEngine (migrations : option error) (db feelRuntime jsRuntime : nat)
    : ST Objects EngineParts :=
  match migrations with
  | Some e => throw e
  | None => NewEngine [EngineWithStorageAndFeel db feelRuntime; EngineWithJs jsRuntime]
  end.

Definition runtimes_known (o : Objects) : Prop := Forall (λ r, (r < o.(ob_next))%nat) o.(ob_runtimes).

Lemma filter_known n l (x : nat) : Forall (λ r, (r < n)%nat) l → (n ≤ x)%nat → filter (λ y, y ≠ x) l = l.
Proof.
  intros Hl Hx. induction Hl as [|r l Hr _ IH]; [done|].
  rewrite filter_cons_True; [by rewrite IH|lia].
Qed.

(** The engine of a partition and its DMN engine work on the storage of the
    partition with the runtimes they were given; of the four runtimes made on
    the way the two FEEL runtimes of the DMN engines stay running, and no part of
    the engine refers to them. *)
Lemma createEngine_parts db feel js o :
  runtimes_known o → (feel < o.(ob_next))%nat → (js < o.(ob_next))%nat →
  ∃ e o' leaked1 leaked2, createEngine None db feel js o = (Ret e, o') ∧
    e.(ep_persistence) = db ∧ e.(ep_feelRuntime) = feel ∧ e.(ep_jsRuntime) = js ∧
    e.(ep_dmnEngine) = {| de_persistence := db; de_feelRuntime := feel |} ∧
    o'.(ob_runtimes) = o.(ob_runtimes) ++ [leaked1; leaked2] ∧
    leaked1 ≠ leaked2 ∧ leaked1 ∉ [feel; js] ∧ leaked2 ∉ [feel; js].
Proof.
  intros Hk Hf Hj. destruct o as [n l]. unfold runtimes_known in *. simpl in *.
  eexists _, _, (4 + n)%nat, (6 + n)%nat. split; [reflexivity|]. simpl.
  split_and!; try done; try (rewrite !not_elem_of_cons; repeat split; [lia..|apply not_elem_of_nil]).
  - assert (Hs : ∀ x, (n ≤ x)%nat → filter (λ y, y ≠ x) l = l) by (intros; by apply (filter_known n)).
    rewrite !filter_app, !Hs by lia. rewrite !filter_cons, !filter_nil.
    repeat (case_decide; try lia). simpl. rewrite ?filter_app, ?Hs, ?filter_cons, ?filter_nil by lia.
    repeat (case_decide; try lia). simpl.
    by rewrite <-!(assoc_L (++)).
  - lia.
Qed.

(** With the storage alone, decisions run on another FEEL runtime than the
    engine. *)
Lemma storage_option_separates_feel p o :
  ∃ e o', NewEngine [EngineWithStorage p] o = (Ret e, o') ∧
    e.(ep_dmnEngine).(de_persistence) = p ∧
    e.(ep_dmnEngine).(de_feelRuntime) ≠ e.(ep_feelRuntime).
Proof. destruct o as [n l]. eexists _, _. split; [reflexivity|]. simpl. split; [done|lia]. Qed.

(** ** The schedule of the cleanup *)

(** scheduleDataCleanup: the delay, in seconds, before the next cleanup. *)
Definition next_cleanup (r : result bool) : Z :=
  match r with Bad _ => 30 | Good true => 5 | Good false => 30 end.

(** The loop has no end: [answers] are those of the cleanups that were run, and
    the result the times at which they were. *)
Fixpoint scheduleDataCleanup (now : Z) (answers : list (result bool)) : list Z :=
  match answers with
  | [] => []
  | r :: answers => now :: scheduleDataCleanup (now + next_cleanup r)%Z answers
  end.

Lemma cleanups_are_run now answers :
  length (scheduleDataCleanup now answers) = length answers ∧
  ∀ i t t', scheduleDataCleanup now answers !! i = Some t →
    scheduleDataCleanup now answers !! S i = Some t' → (5 ≤ t' - t ≤ 30)%Z.
Proof.
  revert now. induction answers as [|r l IH]; intros now; simpl; [done|].
  destruct (IH (now + next_cleanup r)%Z) as [IH1 IH2]. split; [by rewrite IH1|].
  intros [|i] t t' Ht Ht'; simpl in Ht, Ht'; [|by eapply IH2].
  destruct l; simpl in Ht'; simplify_eq. destruct r as [[]|]; simpl; lia.
Qed.

(** ** The profiling server *)

(** strings.Cut at a colon: what stands before the first one. *)
Fixpoint before_colon (s : string) : string :=
  match s with
  | EmptyString => EmptyString
  | String c s' => if Ascii.eqb c ":" then EmptyString else String c (before_colon s')
  end.

(** CpuProfile: [cp_served] are the addresses given to ListenAndServe, whose
    error is only logged. *)
Record CpuProfile := { cp_Running : bool; cp_served : list string }.

Definition StartPprofServer (addr : string) : ST CpuProfile unit :=
  p ← get;
  if p.(cp_Running) then throw (err! "pprof server already running")
  else modify (λ p, {| cp_Running := true;
                       cp_served := p.(cp_served) ++ [(before_colon addr ++ ":6060")%string] |}).

Definition StopPprofServer : ST CpuProfile unit :=
  p ← get;
  if negb p.(cp_Running) then throw (err! "pprof server not started")
  else modify (λ p, {| cp_Running := false; cp_served := p.(cp_served) |}).

(** StartPprofServer and StopPprofServer of a node: [node_addr] is the answer
    of GetNode, [dial] of the client, [call] of the call and the error field of
    its response. *)
Definition node_pprof (failed : string) (node_addr : result string) (dial : string → result unit)
    (call : option error * option error) : result unit :=
  addr ← node_addr;
  _ ← dial addr;
  match call with
  | (Some e, _) => Bad (Errorf "%w: %w" [err! failed; e])
  | (None, Some e) => Bad (Errorf "%w: %w" [err! failed; e])
  | (None, None) => Good tt
  end.

(** Starting and stopping alternate. *)
Lemma pprof_alternates addr p :
  (∃ p', StartPprofServer addr p = (Ret tt, p') ∧ p'.(cp_Running) = true ∧
     ∃ e, StartPprofServer addr p' = (Err e, p')) ∨
  (p.(cp_Running) = true ∧ ∃ p', StopPprofServer p = (Ret tt, p') ∧ p'.(cp_Running) = false ∧
     ∃ e, StopPprofServer p' = (Err e, p')).
Proof. destruct p as [[] l]; [right|left]; repeat eexists. Qed.

Example pprof_beside_the_node :
  (StartPprofServer "localhost:8090" {| cp_Running := false; cp_served := [] |}).2
  = {| cp_Running := true; cp_served := ["localhost:6060"] |}.
Proof. reflexivity. Qed.

(** ** The jobs of a node

    The job manager of a node completes, fails and assigns a job on the engine
    its node runs for the partition of the key (JobCompleteByKey, JobFailByKey
    and JobAssignByKey of node.go). *)
Class JobEngine (E : Type) := {
  je_JobCompleteByKey : Z → vars → ST E unit;
  je_JobFailByKey : Z → string → option string → vars → ST E unit;
  je_JobAssignByKey : Z → option string → ST E unit
}.

#[export] Instance World_JobEngine {S} `{Storage S} `{DecisionStorage S} `{Env} (fuel : nat) :
    JobEngine (World S) := {|
  je_JobCompleteByKey := JobCompleteByKey fuel;
  je_JobFailByKey := JobFailByKey;
  je_JobAssignByKey := JobAssignByKey |}.

Section jobs.
Context {E : Type} `{JobEngine E}.

Definition on_partition_engine (missing : error) (key : Z) (m : ST E unit) : ST (gmap Z E) unit := λ es,
  match es !! GetPartitionId key with
  | None => (Err missing, es)
  | Some e => let '(o, e') := m e in (o, <[GetPartitionId key := e']> es)
  end.

Definition node_JobCompleteByKey (jobKey : Z) (variables : vars) : ST (gmap Z E) unit :=
  on_partition_engine (err! "Engine to complete job was not found on the node") jobKey
    (je_JobCompleteByKey jobKey variables).
Definition node_JobFailByKey (jobKey : Z) (message : string) (errorCode : option string)
    (variables : vars) : ST (gmap Z E) unit :=
  on_partition_engine (err! "Engine to fail job was not found on the node") jobKey
    (je_JobFailByKey jobKey message errorCode variables).
Definition node_JobAssignByKey (jobKey : Z) (assignee : option string) : ST (gmap Z E) unit :=
  on_partition_engine (err! "engine to assign job was not found on the node") jobKey
    (je_JobAssignByKey jobKey assignee).

(** The engines of the other partitions are left alone, and without the engine
    nothing happens. *)
Lemma on_partition_engine_local missing key m es o es' p :
  on_partition_engine missing key m es = (o, es') →
  (p ≠ GetPartitionId key → es' !! p = es !! p) ∧
  (es !! GetPartitionId key = None → o = Err missing ∧ es' = es).
Proof.
  unfold on_partition_engine. destruct (es !! GetPartitionId key) as [e|] eqn:Ee;
    [destruct (m e) as [o1 e']|]; intros Er; simplify_eq; split; try done.
  intros Hp. by rewrite lookup_insert_ne.
Qed.
End jobs.

(** ** The handlers of the servers that belong to no other component *)

(** The handlers of the cluster server that panic. *)
Inductive UnimplementedCall :=
| ClusterBackup | ClusterRestore | ConfigurationUpdate | AssignPartition | UnassignPartition
| PartitionBackup | PartitionRestore | PartitionNodeLeaderChange | AddPartitionNode
| RemovePartitionNode | ResumePartitionNode | ShutdownPartitionNode.

Definition server_unimplemented {S A} (c : UnimplementedCall) : ST S A :=
  match c with
  | ClusterBackup | ClusterRestore | ConfigurationUpdate | AssignPartition | UnassignPartition
  | PartitionBackup | PartitionRestore | PartitionNodeLeaderChange | AddPartitionNode
  | RemovePartitionNode | ResumePartitionNode | ShutdownPartitionNode => panic "unimplemented"
  end.

(** TestStartPprofServer and TestStopPprofServer of the REST server. *)
Definition rest_pprof (node : result unit) : Z := match node with Good _ => 200%Z | Bad _ => 500%Z end.

Section rest.
Context `{TableScan} (json_Unmarshal : string → result vars) (json_Marshal : vars → result string)
  (engine_PublishMessage : Z → Z → vars → option error).

(** PublishMessage of the REST server: variables that are missing are empty. *)
Definition rest_PublishMessage (nodes : gmap Z DB) (w : Partitions) (name correlationKey : string)
    (variables : option vars) : Z :=
  match node_PublishMessage json_Unmarshal json_Marshal engine_PublishMessage nodes w name correlationKey
          (default ∅ variables) with
  | None => 201%Z
  | Some (ZenError code _) => status_of [(NotFoundCode, 404); (ClusterErrorCode, 502)]%Z code
  | Some _ => 500%Z
  end.

(** A message without an active subscription on the partition of its
    correlation key is answered 404, one whose subscription lives in a partition
    without a leader 502; both before an engine is asked. *)
Lemma rest_PublishMessage_answers nodes w name ck variables db :
  nodes !! GetPartitionIdFromString w.(pt_zenState) ck = Some db →
  match (db_FindActiveMessageSubscriptionPointer name ck db).1 with
  | Err e => rest_PublishMessage nodes w name ck variables = if errors_Is is_ErrNotFound e then 404%Z else 500%Z
  | Ret p => w.(pt_leaders) !! GetPartitionId p.(por_MessageSubscriptionKey) = None →
      rest_PublishMessage nodes w name ck variables = 502%Z
  | _ => rest_PublishMessage nodes w name ck variables = 500%Z
  end.
Proof.
  intros Hdb. unfold rest_PublishMessage, node_PublishMessage. rewrite Hdb.
  destruct (db_FindActiveMessageSubscriptionPointer name ck db).1 as [p|e| | |]; try done.
  - by intros ->.
  - by destruct (errors_Is is_ErrNotFound e).
Qed.
End rest.

(** ** The connections of a node to others (client_manager.go) *)

Definition NewClientManager : ClientManager := {| cm_activeClients := ∅ |}.

(** Close ranges over the map in the order of [iter]; the connections stay in
    it. *)
Definition ClientManager_Close (iter : gmap string Z → list (string * Z)) (conn_Close : Z → option error)
    : ST ClientManager (option error) :=
  m ← get;
  mret (fold_left (λ joinErr cd,
    match conn_Close cd.2 with
    | Some e => join_opt joinErr (errw! "failed to close client %s: %w" [e])
    | None => joinErr
    end) (iter m.(cm_activeClients)) None).

(** A manager that was closed still hands out the connections it closed. *)
Lemma closed_clients_are_handed_out `{Rpc} iter conn_Close m o m' addr c :
  ClientManager_Close iter conn_Close m = (o, m') → m.(cm_activeClients) !! addr = Some c →
  For addr m' = (Ret c, m').
Proof.
  unfold ClientManager_Close. intros E Hc. unfold get, mbind, ST_bind, mret, ST_ret in E. simplify_eq.
  unfold For, get, mbind, ST_bind. by rewrite Hc.
Qed.
